(* ===== verification/_CoqProject ===== *)
-Q . S2P
Prelude.v
CMem.v
CString.v
CStringMem.v
CStringStr.v
CStringSearch.v
CStringThms.v
Ctype.v
NumConv.v
NumConvThms.v
Printf.v
PrintfThms.v
Calendar.v
CalendarThms.v
Strftime.v
StrftimeThms.v
Tar.v
World.v
Libdx.v
LibdxThms.v
Process.v
ProcessThms.v
Keyboard.v
KeyboardThms.v
Console.v
ConsoleThms.v
Vga.v
VgaThms.v
Loader.v
LoaderThms.v
LoaderBoot.v
Streams.v
StreamsThms.v
Scanf.v
ScanfThms.v
KBase.v
KBitmap.v
KBitmapThms.v
KFrames.v
KRegionThms.v
KFramesThms.v
KHeap.v
KHeapThms.v
KContainers.v
KContainersThms.v
KThreads.v
KThreadInv.v
KThreadRuns.v
KThreadOps.v
KThreadSched.v
KThreadSys.v
KThreadLife.v
KThreadThms.v
KPorts.v
KPaging.v
KPagingThms.v
KSpace.v
KSharing.v
KSpaceInv.v
KSpaceRuns.v
KSpaceOps.v
KSpaceMsg.v
KSpaceSteps.v
KSpaceThms.v
KDevices.v
KDevicesThms.v
KHal.v
KHalThms.v
