(* ===== verification/Prelude.v ===== *)
(** * A verification development for the dx operating system

    dx is a small message-passing operating system for the i586: a kernel in
    C++ ([src/src/kernel]) and a user land in C ([src/src/lib],
    [src/src/user]). User programs interact with the kernel through system
    calls only, and with each other and with the drivers through messages; the
    keyboard, console and display drivers and the file server are user
    programs. Two parts of the system are modelled.

    The user land: the string, character, number, formatting, scanning, calendar
    and stream routines of libc, the archive reader libtar, the system-call library
    libdx with the ELF loader that creates processes, the start-up code of a
    process, the loader with its RAM disk file system, and the three drivers,
    from the interrupt handler that reads a scan code to the line that appears
    on the screen.

    The kernel: bit operations and bitmaps, the buddy allocator of page frames,
    the heap, the containers, threads with their mailboxes, blocking messages,
    the lottery scheduler and the deletion of threads, the page tables, the
    address spaces with shared and copied pages, the payloads of large
    messages, the interrupt controller, the device proxy and the dispatch of
    interrupts and system calls.

    ** Files of the user land

    - [Prelude]: machine integers, automation, generic lemmas.
    - [CMem]: the C machine. A routine has type [C A]: it reads and writes one
      flat byte memory and returns or traps (unmapped access, index outside a
      table, failed [assert]). [cstr], [bytes_at] and [mapped] are the
      assertions on memory; words are little endian.
    - [CString] models [memcpy.c], [memmove.c], [memset.c], [memchr.c],
      [memcmp.c], [strlen.c], [strcpy.c], [strncpy.c], [strcat.c], [strncat.c],
      [strcmp.c], [strcoll.c], [strchr.c], [strrchr.c], [strrev.c], [strspn.c]
      and [strstr.c] of [src/src/lib/libc]. [CStringMem], [CStringStr] and
      [CStringSearch] hold the lemmas on each group, [CStringThms] the theorems:
      [memmove] for every overlap, [memset] against a byte-wise fill, [strstr]
      (a Horspool search) against the first occurrence, [strspn] and [strcspn]
      against the longest prefix, [strcmp] against the lexicographic order.
    - [Ctype] models [ctype.c]: the 128-entry table and its functions; the
      theorems compare them with the classes of the standard and state where
      they deviate.
    - [NumConv] and [NumConvThms]: [strtoul.c], [strtol.c], [atoi.c],
      [uitoa.c], [itoa.c], [rand.c]; round trips between printing and reading,
      for every value and base.
    - [Printf] and [PrintfThms]: [vsnprintf.c], [snprintf.c], [sprintf.c],
      [ecvt.c]. A format is described by its items; the main theorem says that
      the text of the items is parsed and printed as the items denote.
    - [Calendar] and [CalendarThms]: [mktime.c]. The reference is the day number
      of a date; [localtime_r] keeps it and [mktime] inverts [localtime_r], on
      all days but the first of the year after a leap year, where [localtime_r]
      fails an assertion.
    - [Strftime] and [StrftimeThms]: [strftime.c], on top of [snprintf]; the text
      of every conversion that the code prints right ([conforms]), cut to the
      buffer, and nothing written outside it.
    - [Tar]: [src/src/lib/libtar/libtar.c]; reading back a packed archive.
    - [World]: the environment of a user program. A program of type [D A] runs
      on its memory and a trace of requests (system calls, port accesses, heap
      requests); the answers are a parameter [World], a function of the trace.
    - [Libdx] and [LibdxThms]: [src/src/lib/libdx] but [create_process.c].
      Messages, threads, address spaces, devices; the loop of an
      interrupt-handler thread, whose device-specific part is reached through
      the interface [QuietHandler]; the registration handshake; the realignment
      of a payload.
    - [Process] and [ProcessThms]: [create_process.c] and [elf.h] of libdx,
      [src/src/lib/user_start/setup_main.c], and [exit.c], [_Exit.c] and
      [sbrk.c] of libc. For an environment that serves requests ([Services]) an
      executable is installed by exactly the planned requests; the arguments
      packed by the creator are the ones [main] finds; refused images and
      arguments have no effect; the heap hands out disjoint blocks.
    - [Keyboard] and [KeyboardThms]: [src/src/user/keyboard]. The abstract
      keyboard keeps its modifiers as booleans and maps scan codes to outputs;
      the driver refines it. The interrupt handler is an instance of
      [QuietHandler].
    - [Console] and [ConsoleThms]: [src/src/user/console]. The abstract console
      is a queue of keystrokes and at most one waiting reader; the driver
      refines it, for a kernel that leaves the driver's context alone
      ([StableContext]).
    - [Vga] and [VgaThms]: [src/src/user/vga]. The abstract terminal is the
      sequence of all lines written; the frame buffer shows the last 25 of them,
      for a kernel that maps the frame buffer and then leaves it alone
      ([DisplayKernel]).
    - [Loader], [LoaderThms] and [LoaderBoot]: [src/src/user/loader]. The
      abstract file system is a read-only directory with open files; the server
      refines it. At boot the archive is unpacked and the daemons are chosen.
    - [Streams] and [StreamsThms]: [fopen.c], [fclose.c], [read.c], [write.c],
      [fgetc.c], [fgets.c], [ungetc.c], [fread.c], [fputc.c], [fputs.c],
      [fwrite.c], [printf.c] and the rest of the stream routines. A stream
      reads what the file server answers, in order; [printf] sends the rendering
      of its format to the console.
    - [Scanf] and [ScanfThms]: [vcscanf.c], [sscanf.c], [fscanf.c]. The sources
      of characters are a type class with its law ([ScanSource]); with both
      instances the scanner does what the pure [dx_scan] says, which is what the
      C standard says ([scan]) where [conforming] holds, and numbers that were
      printed are read back.

    ** Files of the kernel

    - [KBase]: the error monad of the kernel, [inc/bits.hpp].
    - [KBitmap] and [KBitmapThms]: [inc/bitmap.hpp]. The abstract class is a type
      class with its laws; the word and the two-level bitmap implement it.
    - [KFrames], [KRegionThms] and [KFramesThms]: [page_frame_region.cpp] and
      [page_frame_manager.cpp]. The state is abstracted to the set of frames in
      use; single frames are handed out all or none, and freed.
    - [KHeap] and [KHeapThms]: [memory_pool.cpp], [kernel_heap.cpp], [new.cpp],
      [delete.cpp]. The live blocks are disjoint and aligned.
    - [KContainers] and [KContainersThms]: the arrays, lists, queues, hash tables
      and the message pool against lists, sets and finite maps.
    - [KThreads]: [thread.cpp], [io_manager.cpp], [message.cpp],
      [thread_manager.cpp], [cleanup_thread.cpp]. [KThreadInv] is the invariant
      (exact references, chains of blocked threads that end, a pool that agrees
      with the mailboxes); [KThreadRuns], [KThreadOps], [KThreadSched],
      [KThreadSys] and [KThreadLife] show that the operations return and keep
      it; [KThreadThms] has the machine and the theorems on its reachable
      states. The machine has the system calls of the I/O and thread managers,
      the yield and clock interrupts, the rest of a blocking send, the cleanup
      thread, and the registration and removal of interrupt handlers, not the
      messages that the device proxy sends on an interrupt. Its theorems assume
      that no allocation of the kernel fails ([ample_memory]): a mailbox drops a
      message for which it cannot allocate a node.
    - [KPorts]: [hal/io_port_map.cpp].
    - [KPaging] and [KPagingThms]: [page_table_entry.hpp], [page_table.hpp],
      [page_directory.cpp]; operations on entries as changes of the translation.
    - [KSpace]: [address_space.cpp], [shared_frame.cpp],
      [address_space_manager.cpp], [memory_manager.cpp], the payload functions
      of [large_message.cpp] and [syscall_delete_message]. [KSharing] is the
      abstract ownership of frames (private pages, shared pages, exact counts);
      [KSpaceInv] ties it to the state, [KSpaceRuns], [KSpaceOps] and [KSpaceMsg]
      run the operations, [KSpaceSteps] is the machine of the calls that keep
      the invariant (without the destruction of an address space, which frees
      shared frames, and without mappings of device memory), and [KSpaceThms]
      has the theorems on its states: pages that can be written are private,
      payloads are snapshots, counts are exact, copies on write copy, and where
      an expansion stops the kernel.
    - [KDevices] and [KDevicesThms]: [i8259pic.cpp], [interrupt.hpp],
      [device_proxy.cpp], [monitor.cpp]. The device proxy acts on the models of
      threads and of address spaces and on the interrupt controller; the lines
      of registered handlers are open, and device memory is never kernel memory.
    - [KHal] and [KHalThms]: the dispatcher and the handler table of
      [x86_hal.cpp], [interrupt.cpp], the gates of [idt.asm], and the interrupt
      handlers of the I/O and thread managers; which gates stop the kernel, and
      how malformed system calls are refused.

    ** Conventions

    Integers are [Z] in canonical form with the wrap-around of the C type
    written out ([u8], [u32], [s8], [s32]); [char] is signed, as on the build
    target. The assertions of the debug build are active. Reference counts are
    not wrapped.

    Loops that only move over mapped bytes get the number of mapped bytes plus
    one as fuel ([mem_fuel]); [uitoa] gets 32 (a 32-bit value has at most 32
    digits), the year loop of [localtime_r] one round per 365 days, the loop
    over program headers 65536 rounds (the count has 16 bits), the argument
    loops 8, the loop that clears the screen one round per line and one more;
    the theorems show that the fuel is enough. The polling loops of the keyboard
    take a number of polls, and the theorems assume a controller that answers
    within it ([responsive]). The endless message loops are observed for any
    number of iterations. The retry loop of [read] takes a [patience], and the
    theorems assume a file server that answers. The loop of the scanner has
    a fuel argument; the length of the format and of the input together is
    enough.

    In the kernel, the loops over the bits of a word and over child bitmaps get
    32 rounds, those over the orders of a region 7, over its free blocks 16,
    over the regions 1024, the probing of a hash table one round per node, a
    chain of blocked threads one per thread, the port map 2048, a page table
    1024, a directory 1025 (it wraps around once), the pages of an address space
    one per page of the user range, and the search for a free id one per entry
    of the table. The circle of destructors in [KThreads] gets two rounds more
    than there are threads. [operator new] can fail where the code checks it,
    unless the file says that it is taken to succeed (nodes of hash tables,
    arrays of lists).

    ** What is not modelled

    The vendored allocator [malloc.c] and the Lua binding, and the gdtoa library
    outside the repository: the heap and [dtoa] are parameters. In libc also
    [strtod] (an argument of the scanner), [time], [clock], [difftime], the
    table of error texts, the stubs and the unit tests. Of the kernel, the
    assembly code but the list of gates, the boot code, the rest of the
    hardware layer (privilege switches, stacks, the TLB), the timer, serial and
    display drivers, the panic screen and the tests: they are hardware accesses;
    locks, since each method runs as one step. The blocking send from within the
    device proxy, during which other threads run, is an argument there; the
    threads themselves have it step by step in [KThreads]. Floating-point
    conversions are modelled with the double as an abstract type, and only the
    integer and text conversions have theorems. *)

From stdpp Require Export base option list numbers gmap.
From Stdlib Require Export ZArith Lia.
#[global] Open Scope Z_scope.

(** ** Machine integers

    The sources are compiled for the i586 ([src/src/Makefile.src.in]): [int],
    [long], [size_t] and pointers have 32 bits, [char] has 8 bits and is
    signed (the default of the compiler on this target). An unsigned value is
    kept as its canonical representative, wrap-around is written out. *)

Definition u8 (x : Z) : Z := x mod 256.
Definition u16 (x : Z) : Z := x mod 65536.
Definition u32 (x : Z) : Z := x mod 4294967296.
Definition u64 (x : Z) : Z := x mod 18446744073709551616.

(** Conversion to a signed 8- or 32-bit type: two's complement. *)
Definition s8 (x : Z) : Z := (x + 128) mod 256 - 128.
Definition s32 (x : Z) : Z := (x + 2147483648) mod 4294967296 - 2147483648.

Definition is_u8 (x : Z) : Prop := 0 <= x < 256.
Definition is_u32 (x : Z) : Prop := 0 <= x < 4294967296.

#[export] Instance is_u8_dec x : Decision (is_u8 x).
Proof. unfold is_u8. apply _. Defined.

#[export] Instance is_u32_dec x : Decision (is_u32 x).
Proof. unfold is_u32. apply _. Defined.

(** ** Automation *)

(** [zlia] is [lia] with quotients and remainders turned into equations. *)
Ltac zlia := Z.to_euclidean_division_equations; lia.

(** Turns the boolean comparisons of the code into propositions. *)
Ltac zbool :=
  repeat match goal with
  | H : (_ && _)%bool = true |- _ => apply andb_true_iff in H as [? ?]
  | H : (_ || _)%bool = false |- _ => apply orb_false_iff in H as [? ?]
  | H : (_ <? _) = true |- _ => apply Z.ltb_lt in H
  | H : (_ <? _) = false |- _ => apply Z.ltb_ge in H
  | H : (_ <=? _) = true |- _ => apply Z.leb_le in H
  | H : (_ <=? _) = false |- _ => apply Z.leb_gt in H
  | H : (_ =? _) = true |- _ => apply Z.eqb_eq in H
  | H : (_ =? _) = false |- _ => apply Z.eqb_neq in H
  | H : negb _ = true |- _ => apply negb_true_iff in H
  | H : negb _ = false |- _ => apply negb_false_iff in H
  end.

(** Decides the comparison that guards the goal's [if], by [lia]. *)
Ltac zif :=
  repeat match goal with
  | |- context [if ?a <? ?b then _ else _] =>
      first [ rewrite (proj2 (Z.ltb_lt a b)) by lia
            | rewrite (proj2 (Z.ltb_ge a b)) by lia ]
  | |- context [if ?a <=? ?b then _ else _] =>
      first [ rewrite (proj2 (Z.leb_le a b)) by lia
            | rewrite (proj2 (Z.leb_gt a b)) by lia ]
  | |- context [if ?a =? ?b then _ else _] =>
      first [ rewrite (proj2 (Z.eqb_eq a b)) by lia
            | rewrite (proj2 (Z.eqb_neq a b)) by lia ]
  end.

(** Splits on a comparison of the goal. *)
Ltac zcase :=
  match goal with
  | |- context [?a <? ?b] => destruct (Z.ltb_spec a b)
  | |- context [?a <=? ?b] => destruct (Z.leb_spec a b)
  | |- context [?a =? ?b] => destruct (Z.eqb_spec a b)
  end.

Create HintDb word discriminated.
Create Rewrite HintDb word.

Lemma u8_range x : 0 <= u8 x < 256.
Proof. unfold u8; zlia. Qed.

Lemma u32_range x : 0 <= u32 x < 4294967296.
Proof. unfold u32; zlia. Qed.

Lemma u8_small x : 0 <= x < 256 -> u8 x = x.
Proof. intros; unfold u8; apply Z.mod_small; lia. Qed.

Lemma u32_small x : 0 <= x < 4294967296 -> u32 x = x.
Proof. intros; unfold u32; apply Z.mod_small; lia. Qed.

Lemma u16_small x : 0 <= x < 65536 -> u16 x = x.
Proof. intros; unfold u16; apply Z.mod_small; lia. Qed.

Lemma s8_small x : -128 <= x < 128 -> s8 x = x.
Proof. intros; unfold s8; rewrite Z.mod_small; lia. Qed.

Lemma s8_byte_high x : 128 <= x < 256 -> s8 x = x - 256.
Proof. intros; unfold s8; zlia. Qed.

Lemma s32_small x : -2147483648 <= x < 2147483648 -> s32 x = x.
Proof. intros; unfold s32; rewrite Z.mod_small; lia. Qed.

Lemma u8_u8 x : u8 (u8 x) = u8 x.
Proof. apply u8_small, u8_range. Qed.

Lemma u8_s8 x : u8 (s8 x) = u8 x.
Proof. unfold u8, s8; zlia. Qed.

#[export] Hint Resolve u8_range u32_range : word.
#[export] Hint Rewrite u8_u8 u8_s8 : word.

(** ** Checking a property of every byte by computation *)

Lemma byte_forall (P : Z -> bool) :
  forallb P (seqZ 0 256) = true -> forall b, 0 <= b < 256 -> P b = true.
Proof.
  intros H b Hb. rewrite forallb_forall in H. apply H.
  apply list_elem_of_In, elem_of_seqZ. lia.
Qed.

(** The same for the 7-bit characters. *)
Lemma ascii_forall (P : Z -> bool) :
  forallb P (seqZ 0 128) = true -> forall b, 0 <= b < 128 -> P b = true.
Proof.
  intros H b Hb. rewrite forallb_forall in H. apply H.
  apply list_elem_of_In, elem_of_seqZ. lia.
Qed.
