(* ===== verification/CMem.v ===== *)
(** * The C machine: byte memory, traps and the state monad of the C sources

    A C routine of the sources is a function of type [C A]: it reads and
    writes one flat byte memory and either returns or traps. Addresses are
    the 32-bit addresses of the process, [NULL] is [0]; an access to an address
    that is not mapped traps, as does a failed [assert] (the debug build). *)

From S2P Require Import Prelude.

(** Memory: the mapped addresses and the byte each holds. *)
Abbreviation mem := (gmap Z Z).

(** Why a routine stops without returning. [OutOfFuel] is the bound of the
    executable model, never a behaviour of the code: the theorems show that
    it does not occur. *)
Inductive trap :=
  | BadLoad (a : Z)
  | BadStore (a : Z)
  | BadIndex (i : Z)
  | AssertFailed
  | BadArgument
  | KernelPanic
  | OutOfFuel.

Inductive res (A : Type) :=
  | Ret (a : A)
  | Trap (t : trap).
Arguments Ret {_} _.
Arguments Trap {_} _.

Definition C (A : Type) : Type := mem -> res (A * mem).

#[export] Instance C_ret : MRet C := fun A a m => Ret (a, m).
#[export] Instance C_bind : MBind C := fun A B k c m =>
  match c m with
  | Ret (a, m') => k a m'
  | Trap t => Trap t
  end.

Definition fail {A} (t : trap) : C A := fun _ => Trap t.

Definition NULL : Z := 0.

(** [*p] for an [unsigned char *p]. *)
Definition load (a : Z) : C Z := fun m =>
  match m !! a with
  | Some v => Ret (v, m)
  | None => Trap (BadLoad a)
  end.

(** [*p] for a [char *p]: sign extended. *)
Definition loadc (a : Z) : C Z := v ← load a; mret (s8 v).

(** [*p = v] for a character pointer: the value is converted to 8 bits. *)
Definition store (a v : Z) : C unit := fun m =>
  match m !! a with
  | Some _ => Ret (tt, <[a:=u8 v]> m)
  | None => Trap (BadStore a)
  end.

(** [*p = w] for a pointer to a 32-bit word, little endian. *)
Definition store32 (a w : Z) : C unit :=
  store a w;; store (a + 1) (Z.shiftr w 8);;
  store (a + 2) (Z.shiftr w 16);; store (a + 3) (Z.shiftr w 24).

Definition load32 (a : Z) : C Z :=
  b0 ← load a; b1 ← load (a + 1); b2 ← load (a + 2); b3 ← load (a + 3);
  mret (b0 + 256 * b1 + 65536 * b2 + 16777216 * b3).

(** [*p] and [*p = w] for a pointer to a 16-bit word. *)
Definition load16 (a : Z) : C Z :=
  b0 ← load a; b1 ← load (a + 1); mret (b0 + 256 * b1).

Definition store16 (a w : Z) : C unit := store a w;; store (a + 1) (Z.shiftr w 8).

Definition cassert (b : bool) : C unit := if b then mret tt else fail AssertFailed.

(** An element of a local or static array; an index past its end is out of
    bounds. *)
Definition table_get (t : list Z) (i : Z) : C Z :=
  if 0 <=? i then
    match t !! Z.to_nat i with Some w => mret w | None => fail (BadIndex i) end
  else fail (BadIndex i).

Definition table_set (t : list Z) (i w : Z) : C (list Z) :=
  if (0 <=? i) && (i <? Z.of_nat (length t))
  then mret (<[Z.to_nat i := w]> t) else fail (BadIndex i).

(** Number of mapped bytes plus one: more than any scan that only moves
    forward over mapped bytes can need. *)
Definition mem_fuel (m : mem) : nat := S (size m).

Definition with_fuel {A} (c : nat -> C A) : C A := fun m => c (mem_fuel m) m.

(** ** Assertions on memory *)

(** The bytes [l] are stored from address [a] on. *)
Definition bytes_at (m : mem) (a : Z) (l : list Z) : Prop :=
  forall i b, l !! i = Some b -> m !! (a + Z.of_nat i) = Some b.

(** [n] bytes from [a] on are mapped. *)
Definition mapped (m : mem) (a n : Z) : Prop :=
  forall x, a <= x < a + n -> is_Some (m !! x).

(** A NUL-terminated string with the characters [cs], none of them NUL, at
    addresses of the 32-bit address space (never [NULL]). *)
Definition cstr (m : mem) (a : Z) (cs : list Z) : Prop :=
  (0 < a /\ a + Z.of_nat (length cs) < 4294967296) /\
  bytes_at m a (cs ++ [0]) /\ Forall (fun b => 0 < b < 256) cs.

(** Every byte of memory is a byte. *)
Definition mem_wf (m : mem) : Prop := forall a v, m !! a = Some v -> 0 <= v < 256.

Fixpoint write_bytes (m : mem) (a : Z) (l : list Z) : mem :=
  match l with
  | [] => m
  | b :: l' => write_bytes (<[a:=b]> m) (a + 1) l'
  end.

(** The [n] bytes of [m] from [a] on (unmapped bytes are skipped). *)
Fixpoint read_bytes (m : mem) (a : Z) (n : nat) : list Z :=
  match n with
  | O => []
  | S n' => default 0 (m !! a) :: read_bytes m (a + 1) n'
  end.

(** ** Running the monad *)

Lemma run_bind {A B} (c : C A) (k : A -> C B) m x m' :
  c m = Ret (x, m') -> (c ≫= k) m = k x m'.
Proof. intros H. unfold mbind, C_bind. by rewrite H. Qed.

Lemma run_bind_trap {A B} (c : C A) (k : A -> C B) m t :
  c m = Trap t -> (c ≫= k) m = Trap t.
Proof. intros H. unfold mbind, C_bind. by rewrite H. Qed.

Lemma run_assoc {A B E} (c : C A) (k : A -> C B) (k' : B -> C E) m :
  ((c ≫= k) ≫= k') m = (c ≫= (fun x => k x ≫= k')) m.
Proof. unfold mbind, C_bind. by destruct (c m) as [[x m']|t]. Qed.

Lemma run_ret {A} (a : A) m : (mret a : C A) m = Ret (a, m).
Proof. done. Qed.

Lemma run_bind_ret {A B} (a : A) (k : A -> C B) m : ((mret a : C A) ≫= k) m = k a m.
Proof. done. Qed.

Lemma run_load m a v : m !! a = Some v -> load a m = Ret (v, m).
Proof. intros H. unfold load. by rewrite H. Qed.

Lemma run_loadc m a v : m !! a = Some v -> loadc a m = Ret (s8 v, m).
Proof. intros H. unfold loadc. erewrite run_bind; [|by apply run_load]. done. Qed.

Lemma run_store m a v : is_Some (m !! a) -> store a v m = Ret (tt, <[a:=u8 v]> m).
Proof. intros [w H]. unfold store. by rewrite H. Qed.

Lemma run_assert b m : b = true -> cassert b m = Ret (tt, m).
Proof. by intros ->. Qed.

Lemma table_get_run t i w m :
  0 <= i -> t !! Z.to_nat i = Some w -> table_get t i m = Ret (w, m).
Proof. intros Hi Hw. unfold table_get. zif. by rewrite Hw. Qed.

Lemma table_set_run t i w m :
  0 <= i < Z.of_nat (length t) -> table_set t i w m = Ret (<[Z.to_nat i := w]> t, m).
Proof. intros Hi. unfold table_set. by rewrite (proj2 (Z.leb_le _ _)), (proj2 (Z.ltb_lt _ _)) by lia. Qed.

(** Runs the first command of a bind with the given equation. *)
Tactic Notation "crun" uconstr(H) := erewrite run_bind; [|by eapply H]; cbn beta iota.

(** ** Memory lemmas *)

Lemma lookup_write_bytes m a l x :
  write_bytes m a l !! x =
  if decide (a <= x < a + Z.of_nat (length l)) then l !! Z.to_nat (x - a) else m !! x.
Proof.
  revert m a; induction l as [|b l IH]; intros m a; cbn [write_bytes].
  - case_decide; [cbn in *; lia|done].
  - rewrite IH. cbn [length]. rewrite Nat2Z.inj_succ.
    destruct (decide (x = a)) as [->|Hne].
    + rewrite decide_False by lia. rewrite decide_True by lia.
      rewrite lookup_insert_eq, Z.sub_diag. done.
    + rewrite lookup_insert_ne by congruence.
      repeat case_decide; try lia; [|done].
      replace (Z.to_nat (x - a)) with (S (Z.to_nat (x - (a + 1)))) by lia. done.
Qed.

Lemma write_bytes_app m a l k :
  write_bytes m a (l ++ k) = write_bytes (write_bytes m a l) (a + Z.of_nat (length l)) k.
Proof.
  revert m a; induction l as [|b l IH]; intros m a; cbn.
  - by rewrite Z.add_0_r.
  - rewrite IH. f_equal. lia.
Qed.

Lemma bytes_at_cons m a b l :
  bytes_at m a (b :: l) <-> m !! a = Some b /\ bytes_at m (a + 1) l.
Proof.
  unfold bytes_at; split.
  - intros H; split.
    + specialize (H 0%nat b eq_refl). by rewrite Z.add_0_r in H.
    + intros i c Hi. specialize (H (S i) c Hi). by replace (a + 1 + Z.of_nat i) with (a + Z.of_nat (S i)) by lia.
  - intros [H0 H] [|i] c Hi; cbn in Hi.
    + simplify_eq. by rewrite Z.add_0_r.
    + apply H in Hi. by replace (a + Z.of_nat (S i)) with (a + 1 + Z.of_nat i) by lia.
Qed.

Lemma bytes_at_app m a l k :
  bytes_at m a (l ++ k) <-> bytes_at m a l /\ bytes_at m (a + Z.of_nat (length l)) k.
Proof.
  revert a; induction l as [|b l IH]; intros a; cbn [app length].
  - rewrite Z.add_0_r. split; [intros H; split; [by intros [|] ? ?|done]|by intros [_ H]].
  - rewrite !bytes_at_cons, IH, Nat2Z.inj_succ.
    replace (a + Z.succ (Z.of_nat (length l))) with (a + 1 + Z.of_nat (length l)) by lia.
    tauto.
Qed.

Lemma bytes_at_nil m a : bytes_at m a [].
Proof. by intros [|] ? ?. Qed.

Lemma bytes_at_mapped m a l : bytes_at m a l -> mapped m a (Z.of_nat (length l)).
Proof.
  intros H x Hx. destruct (lookup_lt_is_Some_2 l (Z.to_nat (x - a))) as [b Hb]; [lia|].
  apply H in Hb. replace (a + Z.of_nat (Z.to_nat (x - a))) with x in Hb by lia. by eexists.
Qed.

Lemma bytes_at_frame m m' a l :
  (forall x, a <= x < a + Z.of_nat (length l) -> m' !! x = m !! x) ->
  bytes_at m a l -> bytes_at m' a l.
Proof.
  intros Hf H i b Hi. rewrite Hf; [by apply H|]. apply lookup_lt_Some in Hi. lia.
Qed.

Lemma bytes_at_write m a l : bytes_at (write_bytes m a l) a l.
Proof.
  intros i b Hi. pose proof (lookup_lt_Some _ _ _ Hi). rewrite lookup_write_bytes, decide_True by lia.
  by replace (Z.to_nat (a + Z.of_nat i - a)) with i by lia.
Qed.

Lemma bytes_at_write_disjoint m a l b k :
  b + Z.of_nat (length k) <= a \/ a + Z.of_nat (length l) <= b ->
  bytes_at m a l -> bytes_at (write_bytes m b k) a l.
Proof.
  intros Hd. apply bytes_at_frame. intros x Hx.
  rewrite lookup_write_bytes, decide_False by lia. done.
Qed.

Lemma mapped_write m a n b l : mapped m a n -> mapped (write_bytes m b l) a n.
Proof.
  intros H x Hx. rewrite lookup_write_bytes. case_decide; [|by apply H].
  apply lookup_lt_is_Some. lia.
Qed.

Lemma mapped_insert m a n b v : mapped m a n -> mapped (<[b:=v]> m) a n.
Proof. intros H x Hx. rewrite lookup_insert. case_decide; [done|by apply H]. Qed.

Lemma mapped_lookup m a n x : mapped m a n -> a <= x < a + n -> is_Some (m !! x).
Proof. intros H. apply H. Qed.

Lemma mapped_sub m a n b k : mapped m a n -> a <= b -> b + k <= a + n -> mapped m b k.
Proof. intros H ? ? x Hx. apply H. lia. Qed.

Lemma cstr_range m a cs : cstr m a cs -> 0 < a /\ a + Z.of_nat (length cs) < 4294967296.
Proof. by intros [? _]. Qed.

Lemma cstr_chars m a cs : cstr m a cs -> Forall (fun b => 0 < b < 256) cs.
Proof. by intros (_ & _ & ?). Qed.

Lemma cstr_nil m a : cstr m a [] <-> 0 < a < 4294967296 /\ m !! a = Some 0.
Proof.
  unfold cstr. cbn. rewrite Z.add_0_r, bytes_at_cons.
  split; [intros; destruct_and!; auto|]. intros [? ?]. repeat split; auto using bytes_at_nil, Forall_nil_2; lia.
Qed.

Lemma cstr_cons m a c cs :
  cstr m a (c :: cs) <-> 0 < a /\ m !! a = Some c /\ 0 < c < 256 /\ cstr m (a + 1) cs.
Proof.
  unfold cstr. cbn [app length]. rewrite bytes_at_cons, Forall_cons, Nat2Z.inj_succ.
  split; intros; destruct_and!; repeat split; auto; lia.
Qed.

Lemma cstr_bytes m a cs : cstr m a cs -> bytes_at m a cs.
Proof. intros (_ & H & _). by apply bytes_at_app in H as [? _]. Qed.

Lemma cstr_end m a cs : cstr m a cs -> m !! (a + Z.of_nat (length cs)) = Some 0.
Proof.
  intros (_ & H & _). apply bytes_at_app in H as [_ H]. by apply bytes_at_cons in H as [? _].
Qed.

Lemma cstr_mapped m a cs : cstr m a cs -> mapped m a (Z.of_nat (length cs) + 1).
Proof.
  intros (_ & H & _). apply bytes_at_mapped in H. rewrite length_app in H. cbn in H.
  by rewrite Nat2Z.inj_add in H.
Qed.

Lemma cstr_frame m m' a cs :
  (forall x, a <= x <= a + Z.of_nat (length cs) -> m' !! x = m !! x) ->
  cstr m a cs -> cstr m' a cs.
Proof.
  intros Hf (? & H & ?). split; [done|]. split; [|done]. revert H. apply bytes_at_frame.
  intros x. rewrite length_app; cbn. intros; apply Hf. lia.
Qed.

(** ** Words *)

(** The bytes of a 32-bit word, little endian. *)
Definition word_bytes (w : Z) : list Z :=
  [u8 w; u8 (Z.shiftr w 8); u8 (Z.shiftr w 16); u8 (Z.shiftr w 24)].

Definition words_bytes (ws : list Z) : list Z := concat (word_bytes <$> ws).

Lemma store32_bytes m a w : mapped m a 4 -> store32 a w m = Ret (tt, write_bytes m a (word_bytes w)).
Proof.
  intros Hm. unfold store32.
  erewrite run_bind; [|apply run_store; eapply mapped_lookup; [exact Hm|lia]].
  erewrite run_bind; [|apply run_store; eapply mapped_lookup; [apply mapped_insert, Hm|lia]].
  erewrite run_bind; [|apply run_store; eapply mapped_lookup; [do 2 apply mapped_insert; exact Hm|lia]].
  rewrite run_store by (eapply mapped_lookup; [do 3 apply mapped_insert; exact Hm|lia]).
  do 2 f_equal. cbn [write_bytes word_bytes]. by rewrite <- !Z.add_assoc.
Qed.

Lemma load32_bytes m a w : is_u32 w -> bytes_at m a (word_bytes w) -> load32 a m = Ret (w, m).
Proof.
  unfold is_u32. intros Hw Hb. unfold word_bytes in Hb.
  rewrite !bytes_at_cons, <- !Z.add_assoc in Hb. destruct Hb as (H0 & H1 & H2 & H3 & _).
  unfold load32. do 4 crun run_load. unfold mret, C_ret. do 2 f_equal.
  rewrite !Z.shiftr_div_pow2 by lia. unfold u8. change (2 ^ 8) with 256.
  change (2 ^ 16) with 65536. change (2 ^ 24) with 16777216. zlia.
Qed.

(** The bytes of a 16-bit word. *)
Definition half_bytes (w : Z) : list Z := [u8 w; u8 (Z.shiftr w 8)].

Lemma load16_bytes m a w : 0 <= w < 65536 -> bytes_at m a (half_bytes w) -> load16 a m = Ret (w, m).
Proof.
  intros Hw Hb. unfold half_bytes in Hb. rewrite !bytes_at_cons in Hb. destruct Hb as (H0 & H1 & _).
  unfold load16. do 2 crun run_load. unfold mret, C_ret. do 2 f_equal.
  rewrite !Z.shiftr_div_pow2 by lia. unfold u8. change (2 ^ 8) with 256. zlia.
Qed.

Lemma store16_bytes m a w : mapped m a 2 -> store16 a w m = Ret (tt, write_bytes m a (half_bytes w)).
Proof.
  intros Hm. unfold store16.
  erewrite run_bind; [|apply run_store; eapply mapped_lookup; [exact Hm|lia]].
  by rewrite run_store by (eapply mapped_lookup; [apply mapped_insert, Hm|lia]).
Qed.

Lemma length_words_bytes ws : length (words_bytes ws) = (4 * length ws)%nat.
Proof.
  unfold words_bytes. induction ws as [|w ws IH]; [done|]. cbn [fmap list_fmap concat].
  rewrite length_app. cbn. lia.
Qed.

Lemma words_bytes_app ws vs : words_bytes (ws ++ vs) = words_bytes ws ++ words_bytes vs.
Proof. unfold words_bytes. by rewrite fmap_app, concat_app. Qed.

Lemma words_bytes_cons w ws : words_bytes (w :: ws) = word_bytes w ++ words_bytes ws.
Proof. done. Qed.

(** Overwriting the middle of a stored list. *)
Lemma bytes_at_splice m a l1 l2 l3 k : length k = length l2 ->
  bytes_at m a (l1 ++ l2 ++ l3) -> bytes_at (write_bytes m (a + Z.of_nat (length l1)) k) a (l1 ++ k ++ l3).
Proof.
  intros Hk Hb. rewrite !bytes_at_app in *. destruct Hb as (B1 & B2 & B3).
  split; [|split].
  - apply bytes_at_write_disjoint; [lia|done].
  - apply bytes_at_write.
  - apply bytes_at_write_disjoint; [lia|]. by rewrite Hk.
Qed.

(** A structure of three words. *)
Lemma run_three_words {A} m a x y z (k : C A) : mapped m a 12 ->
  (store32 a x;; store32 (a + 4) y;; store32 (a + 8) z;; k) m
    = k (write_bytes m a (words_bytes [x; y; z])).
Proof.
  intros Hm.
  erewrite run_bind; [|apply store32_bytes; eapply mapped_sub; [exact Hm|lia|lia]].
  erewrite run_bind; [|apply store32_bytes, mapped_write; eapply mapped_sub; [exact Hm|lia|lia]].
  erewrite run_bind; [|apply store32_bytes, mapped_write, mapped_write; eapply mapped_sub; [exact Hm|lia|lia]].
  f_equal. unfold words_bytes. cbn [fmap list_fmap concat]. rewrite app_nil_r, !write_bytes_app.
  cbn [word_bytes length Z.of_nat]. by rewrite <- Z.add_assoc.
Qed.

Lemma load_three_words m a x y z : bytes_at m a (words_bytes [x; y; z]) ->
  is_u32 x -> is_u32 y -> is_u32 z ->
  load32 a m = Ret (x, m) /\ load32 (a + 4) m = Ret (y, m) /\ load32 (a + 8) m = Ret (z, m).
Proof.
  intros Hb H1 H2 H3. unfold words_bytes in Hb. cbn [fmap list_fmap concat] in Hb.
  rewrite app_nil_r, !bytes_at_app in Hb. destruct Hb as (B1 & B2 & B3). cbn [length word_bytes] in B2, B3.
  rewrite <- Z.add_assoc in B3. repeat split; by apply load32_bytes.
Qed.

(** The characters of a string are distinct mapped addresses, so [mem_fuel]
    is enough fuel to walk over it. *)
Lemma bytes_at_size m a l : bytes_at m a l -> (length l <= size m)%nat.
Proof.
  intros H.
  set (s := list_to_set ((fun i => a + Z.of_nat i) <$> seq 0 (length l)) : gset Z).
  assert (Hs : size s = length l).
  { unfold s. rewrite size_list_to_set.
    - by rewrite length_fmap, length_seq.
    - apply NoDup_fmap; [intros ? ?; lia|apply NoDup_seq]. }
  rewrite <- Hs, <- (size_dom (D:=gset Z) m). apply subseteq_size.
  intros x Hx. unfold s in Hx.
  apply elem_of_list_to_set, list_elem_of_fmap in Hx as (i & -> & Hi).
  apply elem_of_seq in Hi. apply elem_of_dom.
  destruct (lookup_lt_is_Some_2 l i) as [b Hb]; [lia|]. exists b. by apply H.
Qed.

Lemma cstr_fuel m a cs : cstr m a cs -> (length cs < mem_fuel m)%nat.
Proof.
  intros (_ & H & _). apply bytes_at_size in H. rewrite length_app in H. unfold mem_fuel. cbn in *. lia.
Qed.

(** ** Deciding the assertions on a concrete memory *)

Lemma mapped_seqZ m a n : mapped m a n <-> Forall (fun x => is_Some (m !! x)) (seqZ a n).
Proof. unfold mapped. rewrite Forall_forall. by setoid_rewrite elem_of_seqZ. Qed.

#[export] Instance bytes_at_dec m : forall l a, Decision (bytes_at m a l).
Proof.
  refine (fix go l := match l with
    | [] => fun a => left _
    | b :: l' => fun a =>
        match decide (m !! a = Some b), go l' (a + 1) with
        | left _, left _ => left _
        | _, _ => right _
        end
    end).
  - apply bytes_at_nil.
  - by apply bytes_at_cons.
  - by intros [? ?]%bytes_at_cons.
  - by intros [? ?]%bytes_at_cons.
Defined.

#[export] Instance mapped_dec m a n : Decision (mapped m a n).
Proof. refine (cast_if (decide (Forall (fun x => is_Some (m !! x)) (seqZ a n)))); by rewrite mapped_seqZ. Defined.

#[export] Instance cstr_dec m a cs : Decision (cstr m a cs).
Proof. unfold cstr. apply _. Defined.

(** Proves a decidable statement about closed terms by evaluating it. *)
Ltac by_eval := refine (bool_decide_unpack _ _); vm_compute; exact I.
