(* ===== verification/CString.v ===== *)
(** * The memory and string routines of libc

    [src/src/lib/libc/mem*.c] and [str*.c]: each routine is a definition in the
    monad [C], loop for loop. A loop that counts down is a recursion on its
    count; a loop that scans memory takes fuel from [mem_fuel], which the
    theorems show to be enough. *)

From S2P Require Import Prelude CMem.

(** ** memcpy.c, memmove.c *)

(** [while (count) { *d = *s; d++; s++; count--; }] *)
Fixpoint copy_up (count : nat) (d s : Z) : C unit :=
  match count with
  | O => mret tt
  | S n => v ← loadc s; store d v;; copy_up n (d + 1) (s + 1)
  end.

(** [while (count) { *d = *s; d--; s--; count--; }] *)
Fixpoint copy_down (count : nat) (d s : Z) : C unit :=
  match count with
  | O => mret tt
  | S n => v ← loadc s; store d v;; copy_down n (d - 1) (s - 1)
  end.

Definition memcpy (destination source count : Z) : C Z :=
  (if negb (destination =? NULL) && negb (source =? NULL)
   then copy_up (Z.to_nat count) destination source
   else mret tt);;
  mret destination.

Definition memmove (destination source count : Z) : C Z :=
  (if negb (destination =? NULL) && negb (source =? NULL) then
     if destination <? source then
       copy_up (Z.to_nat count) destination source
     else if source <? destination then
       copy_down (Z.to_nat count) (destination + count - 1) (source + count - 1)
     else mret tt
   else mret tt);;
  mret destination.

(** ** memset.c *)

(** [for (i = 0, word = 0; i < sizeof(word); i++) { word <<= 8; word |= c; }] *)
Fixpoint memset_word (n : nat) (word character : Z) : Z :=
  match n with
  | O => word
  | S n' => memset_word n' (Z.lor (u32 (Z.shiftl word 8)) (u8 character)) character
  end.

(** (a) the partial word at the head: returns the new [c] and [count]. *)
Fixpoint memset_head (fuel : nat) (c count character : Z) : C (Z * Z) :=
  match fuel with
  | O => fail OutOfFuel
  | S f =>
      if (0 <? count) && negb (c mod 4 =? 0)
      then store c (u8 character);; memset_head f (c + 1) (count - 1) character
      else mret (c, count)
  end.

(** (b) the words in the middle. *)
Fixpoint memset_words (fuel : nat) (c count word : Z) : C (Z * Z) :=
  match fuel with
  | O => fail OutOfFuel
  | S f =>
      if 4 <=? count
      then store32 c word;; memset_words f (c + 4) (count - 4) word
      else mret (c, count)
  end.

(** (c) the partial word at the tail. *)
Fixpoint memset_tail (count : nat) (c character : Z) : C unit :=
  match count with
  | O => mret tt
  | S n => store c (u8 character);; memset_tail n (c + 1) character
  end.

Definition memset (buffer character count : Z) : C Z :=
  let word := memset_word 4 0 character in
  '(c, count) ← memset_head (S (Z.to_nat count)) buffer count character;
  '(c, count) ← memset_words (S (Z.to_nat count)) c count word;
  memset_tail (Z.to_nat count) c character;;
  mret buffer.

(** ** memchr.c, memcmp.c *)

Fixpoint memchr_loop (n : nat) (character c : Z) : C Z :=
  match n with
  | O => mret NULL
  | S n' =>
      v ← load character;
      if v =? u8 c then mret character else memchr_loop n' (character + 1) c
  end.

Definition memchr (s c n : Z) : C Z := memchr_loop (Z.to_nat n) s c.

Fixpoint memcmp_loop (count : nat) (byte0 byte1 result : Z) : C Z :=
  match count with
  | O => mret result
  | S n =>
      if result =? 0 then
        v1 ← loadc byte1; v0 ← loadc byte0;
        memcmp_loop n (byte0 + 1) (byte1 + 1) (v1 - v0)
      else mret result
  end.

Definition memcmp (buffer0 buffer1 count : Z) : C Z :=
  memcmp_loop (Z.to_nat count) buffer0 buffer1 0.

(** ** strlen.c, strcpy.c, strncpy.c, strcat.c, strncat.c *)

Fixpoint strlen_loop (fuel : nat) (string length : Z) : C Z :=
  match fuel with
  | O => fail OutOfFuel
  | S f =>
      c ← loadc string;
      if c =? 0 then mret length else strlen_loop f (string + 1) (u32 (length + 1))
  end.

Definition strlen (string : Z) : C Z :=
  if string =? NULL then mret 0
  else with_fuel (fun fuel => strlen_loop fuel string 0).

Definition strcpy (s1 s2 : Z) : C Z :=
  s2_length ← strlen s2;
  memcpy s1 s2 s2_length;;
  mret s1.

Definition strncpy (s1 s2 n : Z) : C Z :=
  s2_length ← strlen s2;
  let copy_length := Z.min n (u32 (s2_length + 1)) in
  memcpy s1 s2 copy_length;;
  let remainder_length := u32 (n - copy_length) in
  (if 0 <? remainder_length
   then memset (s1 + copy_length) 0 remainder_length
   else mret 0);;
  mret s1.

Definition strcat (s1 s2 : Z) : C Z :=
  s1_length ← strlen s1;
  s2_length ← strlen s2;
  let s1_end := s1 + s1_length in
  c ← loadc s1_end; cassert (c =? 0);;
  memcpy s1_end s2 (u32 (s2_length + 1));;
  mret s1.

(** [while (n && *s2) ...]: returns the final [s1_end]. *)
Fixpoint strncat_loop (n : nat) (s1_end s2 : Z) : C Z :=
  match n with
  | O => mret s1_end
  | S n' =>
      c ← loadc s2;
      if c =? 0 then mret s1_end
      else store s1_end c;; strncat_loop n' (s1_end + 1) (s2 + 1)
  end.

Definition strncat (s1 s2 n : Z) : C Z :=
  s1_length ← strlen s1;
  let s1_end := s1 + s1_length in
  c ← loadc s1_end; cassert (c =? 0);;
  s1_end ← strncat_loop (Z.to_nat n) s1_end s2;
  store s1_end 0;;
  mret s1.

(** ** strcmp.c, strcoll.c, strchr.c, strrchr.c *)

Fixpoint strcmp_loop (fuel : nat) (s1 s2 result : Z) : C Z :=
  match fuel with
  | O => fail OutOfFuel
  | S f =>
      c ← loadc s1;
      if negb (c =? 0) && (result =? 0) then
        c1 ← loadc (s1 + 1); c2 ← loadc (s2 + 1);
        strcmp_loop f (s1 + 1) (s2 + 1) (c1 - c2)
      else mret result
  end.

Definition strcmp (s1 s2 : Z) : C Z :=
  c1 ← loadc s1; c2 ← loadc s2;
  with_fuel (fun fuel => strcmp_loop fuel s1 s2 (c1 - c2)).

Definition strcoll (s1 s2 : Z) : C Z := strcmp s1 s2.

Definition strchr (s c : Z) : C Z :=
  length ← strlen s;
  memchr s c length.

(** [while (character >= s) ...] *)
Fixpoint strrchr_loop (fuel : nat) (s character c : Z) : C Z :=
  match fuel with
  | O => fail OutOfFuel
  | S f =>
      if s <=? character then
        v ← loadc character;
        if v =? s8 c then mret character else strrchr_loop f s (character - 1) c
      else mret NULL
  end.

Definition strrchr (s c : Z) : C Z :=
  length ← strlen s;
  strrchr_loop (S (S (Z.to_nat length))) s (s + length) c.

(** ** strrev.c *)

Fixpoint strrev_loop (fuel : nat) (left right : Z) : C unit :=
  match fuel with
  | O => fail OutOfFuel
  | S f =>
      if left <? right then
        swap ← loadc left;
        v ← loadc right; store left v;;
        store right swap;;
        strrev_loop f (left + 1) (right - 1)
      else mret tt
  end.

Definition strrev (string : Z) : C Z :=
  (if negb (string =? NULL) then
     n ← strlen string;
     strrev_loop (S (Z.to_nat n)) string (string + n - 1)
   else mret tt);;
  mret string.

(** ** strspn.c *)

Definition WORD_SIZE : Z := 32.
Definition WORD_COUNT : nat := 8.

(** A character is converted to the unsigned type of [WORD_SIZE]. *)
Definition BIT_INDEX (c : Z) : Z := u32 c mod WORD_SIZE.
Definition WORD_INDEX (c : Z) : Z := u32 c / WORD_SIZE.

Definition CLEAR_BIT (bitmap : list Z) (c : Z) : C (list Z) :=
  w ← table_get bitmap (WORD_INDEX c);
  table_set bitmap (WORD_INDEX c) (Z.land w (u32 (Z.lnot (Z.shiftl 1 (BIT_INDEX c))))).

Definition SET_BIT (bitmap : list Z) (c : Z) : C (list Z) :=
  w ← table_get bitmap (WORD_INDEX c);
  table_set bitmap (WORD_INDEX c) (Z.lor w (u32 (Z.shiftl 1 (BIT_INDEX c)))).

Definition IS_SET (bitmap : list Z) (c : Z) : C bool :=
  w ← table_get bitmap (WORD_INDEX c);
  mret (negb (Z.land w (u32 (Z.shiftl 1 (BIT_INDEX c))) =? 0)).

Fixpoint find_prefix_loop (fuel : nat) (s1 : Z) (bitmap : list Z) : C Z :=
  match fuel with
  | O => fail OutOfFuel
  | S f =>
      c ← loadc s1;
      b ← IS_SET bitmap c;
      if negb b then mret s1 else find_prefix_loop f (s1 + 1) bitmap
  end.

Definition find_prefix (s1 : Z) (bitmap : list Z) : C Z :=
  with_fuel (fun fuel => find_prefix_loop fuel s1 bitmap).

(** [while ( *s2 ) { OP(bitmap, *s2); s2++; }] *)
Fixpoint load_bitmap (fuel : nat) (op : list Z -> Z -> C (list Z)) (bitmap : list Z)
    (s2 : Z) : C (list Z) :=
  match fuel with
  | O => fail OutOfFuel
  | S f =>
      c ← loadc s2;
      if c =? 0 then mret bitmap
      else bitmap ← op bitmap c; load_bitmap f op bitmap (s2 + 1)
  end.

Definition strspn (s1 s2 : Z) : C Z :=
  bitmap ← with_fuel (fun fuel => load_bitmap fuel SET_BIT (replicate WORD_COUNT 0) s2);
  c ← find_prefix s1 bitmap;
  cassert (s1 <=? c);;
  mret (c - s1).

Definition strcspn (s1 s2 : Z) : C Z :=
  bitmap ← with_fuel (fun fuel =>
    load_bitmap fuel CLEAR_BIT (replicate WORD_COUNT 4294967295) s2);
  bitmap ← CLEAR_BIT bitmap 0;
  c ← find_prefix s1 bitmap;
  cassert (s1 <=? c);;
  mret (c - s1).

Fixpoint strpbrk_loop (fuel : nat) (s1 : Z) (bitmap : list Z) : C Z :=
  match fuel with
  | O => fail OutOfFuel
  | S f =>
      c ← loadc s1;
      if c =? 0 then mret NULL
      else
        b ← IS_SET bitmap c;
        if (b : bool) then mret s1 else strpbrk_loop f (s1 + 1) bitmap
  end.

Definition strpbrk (s1 s2 : Z) : C Z :=
  bitmap ← with_fuel (fun fuel => load_bitmap fuel SET_BIT (replicate WORD_COUNT 0) s2);
  with_fuel (fun fuel => strpbrk_loop fuel s1 bitmap).

(** ** strstr.c *)

Definition UCHAR_MAX : Z := 255.

(** [for (i = 0; i < (int)(pattern_length - 1); i++) bad_character_skip[...] = ...] *)
Fixpoint fill_skip (n : nat) (pattern pattern_length i : Z) (skip : list Z) : C (list Z) :=
  match n with
  | O => mret skip
  | S n' =>
      c ← loadc (pattern + i);
      skip ← table_set skip c (u32 (pattern_length - i - 1));
      fill_skip n' pattern pattern_length (i + 1) skip
  end.

(** The scan from the end of the pattern: [n] is [offset + 1], the result is
    the final [offset]. *)
Fixpoint match_back (n : nat) (pattern text : Z) : C Z :=
  match n with
  | O => mret (-1)
  | S n' =>
      p ← loadc (pattern + Z.of_nat n'); t ← loadc (text + Z.of_nat n');
      if p =? t then match_back n' pattern text else mret (Z.of_nat n')
  end.

(** The search loop: returns the final [text]. *)
Fixpoint strstr_loop (fuel : nat) (text pattern pattern_length search_end : Z)
    (skip : list Z) : C Z :=
  match fuel with
  | O => fail OutOfFuel
  | S f =>
      if text <? search_end then
        offset ← match_back (Z.to_nat (s32 (u32 (pattern_length - 1)) + 1)) pattern text;
        if offset <? 0 then mret text
        else
          c ← loadc (text + pattern_length - 1);
          shift ← table_get skip c;
          cassert (0 <? shift);;
          strstr_loop f (text + shift) pattern pattern_length search_end skip
      else mret text
  end.

Definition strstr (text pattern : Z) : C Z :=
  pattern_length ← strlen pattern;
  text_length ← strlen text;
  skip ← fill_skip (Z.to_nat (s32 (u32 (pattern_length - 1)))) pattern pattern_length 0
           (replicate (Z.to_nat UCHAR_MAX) pattern_length);
  let search_end := text + text_length - pattern_length + 1 in
  text ← strstr_loop (S (S (Z.to_nat text_length))) text pattern pattern_length search_end skip;
  mret (if text <? search_end then text else NULL).
