(* ===== verification/CStringMem.v ===== *)
(** * Correctness of the memory routines of libc

    [memcpy], [memmove], [memset], [memchr] and [memcmp] against the contents
    of memory: what each leaves in memory and returns, for every length and
    every overlap of the regions. *)

From S2P Require Import Prelude CMem CString.

(** Equality of two memories, address by address. *)
Ltac mem_eq :=
  apply map_eq; intros ?x;
  rewrite ?lookup_write_bytes, ?lookup_insert, ?lookup_write_bytes, ?length_app, ?length_replicate;
  cbn [length];
  repeat case_decide; try lia; try done.

Lemma write_bytes_nil m a : write_bytes m a [] = m.
Proof. done. Qed.

Lemma write_bytes_id m a l : bytes_at m a l -> write_bytes m a l = m.
Proof.
  intros H. apply map_eq. intros x. rewrite lookup_write_bytes. case_decide as Hx; [|done].
  destruct (lookup_lt_is_Some_2 l (Z.to_nat (x - a))) as [b Hb]; [lia|].
  rewrite Hb. apply H in Hb. by replace (a + Z.of_nat (Z.to_nat (x - a))) with x in Hb by lia.
Qed.

Lemma store_byte m a b : 0 <= b < 256 -> is_Some (m !! a) ->
  store a (s8 b) m = Ret (tt, <[a:=b]> m).
Proof. intros Hb Ha. rewrite run_store by done. by rewrite u8_s8, u8_small. Qed.

(** Copying upwards is right when the destination does not lie strictly
    inside the source. *)
Lemma copy_up_run bs : forall m d s,
  bytes_at m s bs -> Forall is_u8 bs -> mapped m d (Z.of_nat (length bs)) ->
  d <= s \/ s + Z.of_nat (length bs) <= d ->
  copy_up (length bs) d s m = Ret (tt, write_bytes m d bs).
Proof.
  induction bs as [|b bs IH]; intros m d s Hs Hb Hd Hov; [done|].
  cbn [length copy_up write_bytes] in *. rewrite Nat2Z.inj_succ in *.
  apply bytes_at_cons in Hs as [Hs0 Hs]. apply Forall_cons in Hb as [Hb0 Hb].
  crun run_loadc. erewrite run_bind; [|apply store_byte; [done|apply Hd; lia]]. cbn beta.
  apply IH; [|done| |lia].
  - revert Hs. apply bytes_at_frame. intros x Hx. rewrite lookup_insert_ne; [done|lia].
  - apply mapped_insert. eapply mapped_sub; [done|lia|lia].
Qed.

(** Copying downwards is right when the destination is not below the source. *)
Lemma copy_down_run bs : forall m d s,
  bytes_at m s bs -> Forall is_u8 bs -> mapped m d (Z.of_nat (length bs)) -> s <= d ->
  copy_down (length bs) (d + Z.of_nat (length bs) - 1) (s + Z.of_nat (length bs) - 1) m
    = Ret (tt, write_bytes m d bs).
Proof.
  induction bs as [|b bs IH] using rev_ind; intros m d s Hs Hb Hd Hov; [done|].
  rewrite length_app, Nat.add_comm in *. cbn [length Nat.add copy_down] in *.
  rewrite Nat2Z.inj_succ in *.
  apply bytes_at_app in Hs as [Hs Hsb]. apply bytes_at_cons in Hsb as [Hsb _].
  apply Forall_app in Hb as [Hb Hb0]. apply Forall_cons in Hb0 as [Hb0 _].
  replace (d + Z.succ (Z.of_nat (length bs)) - 1) with (d + Z.of_nat (length bs)) by lia.
  replace (s + Z.succ (Z.of_nat (length bs)) - 1) with (s + Z.of_nat (length bs)) by lia.
  crun run_loadc. erewrite run_bind; [|apply store_byte; [done|apply Hd; lia]]. cbn beta.
  rewrite IH; [|eapply bytes_at_frame; [|exact Hs]; intros; apply lookup_insert_ne; lia|done
               |apply mapped_insert; eapply mapped_sub; [done|lia|lia]|done].
  do 2 f_equal. rewrite write_bytes_app. mem_eq; subst.
  by replace (Z.to_nat (d + Z.of_nat (length bs) - (d + Z.of_nat (length bs)))) with 0%nat by lia.
Qed.

Lemma memcpy_run m d s n bs :
  0 < d -> 0 < s -> n = Z.of_nat (length bs) ->
  bytes_at m s bs -> Forall is_u8 bs -> mapped m d n -> d <= s \/ s + n <= d ->
  memcpy d s n m = Ret (d, write_bytes m d bs).
Proof.
  intros ? ? -> Hs Hb Hd Hov. unfold memcpy, NULL.
  rewrite !(proj2 (Z.eqb_neq _ _)) by lia. cbn [negb andb]. rewrite Nat2Z.id.
  crun copy_up_run. done.
Qed.

Lemma memmove_run m d s n bs :
  0 < d -> 0 < s -> n = Z.of_nat (length bs) ->
  bytes_at m s bs -> Forall is_u8 bs -> mapped m d n ->
  memmove d s n m = Ret (d, write_bytes m d bs).
Proof.
  intros ? ? -> Hs Hb Hd. unfold memmove, NULL.
  rewrite !(proj2 (Z.eqb_neq _ _)) by lia. cbn [negb andb]. rewrite Nat2Z.id.
  destruct (Z.ltb_spec d s); [|destruct (Z.ltb_spec s d)].
  - erewrite run_bind; [|apply copy_up_run; [done|done|done|lia]]. done.
  - erewrite run_bind; [|apply copy_down_run; [done|done|done|lia]]. done.
  - replace s with d in * by lia. rewrite run_bind_ret, write_bytes_id by done. done.
Qed.

(** ** memset *)

Lemma memset_word_u8 n w c : memset_word n w c = memset_word n w (u8 c).
Proof. revert w; induction n as [|n IH]; intros w; cbn; [done|]. by rewrite IH, u8_u8. Qed.

Definition word_bytes_ok (w c : Z) : bool :=
  (u8 w =? c) && (u8 (Z.shiftr w 8) =? c) &&
  (u8 (Z.shiftr w 16) =? c) && (u8 (Z.shiftr w 24) =? c).

(** Each of the four bytes of the word is the character. *)
Lemma memset_word_bytes c : word_bytes_ok (memset_word 4 0 c) (u8 c) = true.
Proof.
  rewrite memset_word_u8.
  apply (byte_forall (fun b => word_bytes_ok (memset_word 4 0 b) b)); [by vm_compute|].
  apply u8_range.
Qed.

Lemma store32_run m a w c :
  word_bytes_ok w c = true -> mapped m a 4 ->
  store32 a w m = Ret (tt, write_bytes m a (replicate 4 c)).
Proof.
  unfold word_bytes_ok. rewrite !andb_true_iff, !Z.eqb_eq. intros [[[H0 H1] H2] H3] Hm.
  unfold store32.
  erewrite run_bind; [|apply run_store; eapply mapped_lookup; [exact Hm|lia]]. rewrite H0.
  apply (mapped_insert _ _ _ a c) in Hm.
  erewrite run_bind; [|apply run_store; eapply mapped_lookup; [exact Hm|lia]]. rewrite H1.
  apply (mapped_insert _ _ _ (a + 1) c) in Hm.
  erewrite run_bind; [|apply run_store; eapply mapped_lookup; [exact Hm|lia]]. rewrite H2.
  apply (mapped_insert _ _ _ (a + 2) c) in Hm.
  rewrite run_store by (eapply mapped_lookup; [exact Hm|lia]). rewrite H3.
  do 2 f_equal. cbn [replicate write_bytes]. by rewrite <- !Z.add_assoc.
Qed.

Lemma write_replicate_app m a (i j : Z) c :
  0 <= i -> 0 <= j ->
  write_bytes (write_bytes m a (replicate (Z.to_nat i) c)) (a + i) (replicate (Z.to_nat j) c)
  = write_bytes m a (replicate (Z.to_nat (i + j)) c).
Proof.
  intros. rewrite Z2Nat.inj_add, replicate_add, write_bytes_app, length_replicate by lia.
  by rewrite Z2Nat.id by lia.
Qed.

Lemma memset_head_run c ch fuel : forall m a count,
  c = u8 ch -> 0 <= count -> (Z.to_nat count < fuel)%nat -> mapped m a count ->
  exists k, 0 <= k <= count /\
    memset_head fuel a count ch m
      = Ret ((a + k, count - k), write_bytes m a (replicate (Z.to_nat k) c)).
Proof.
  induction fuel as [|fuel IH]; intros m a count Hc Hn Hf Hm; [lia|]. cbn [memset_head].
  destruct ((0 <? count) && negb (a mod 4 =? 0)) eqn:Hg.
  - zbool. erewrite run_bind; [|apply run_store, Hm; lia]. rewrite u8_u8, <- Hc.
    destruct (IH (<[a:=c]> m) (a + 1) (count - 1)) as (k & Hk & ->); [done|lia|lia| |].
    { apply mapped_insert. eapply mapped_sub; [exact Hm|lia|lia]. }
    exists (k + 1). split; [lia|]. do 2 f_equal; [f_equal; lia|].
    rewrite Z2Nat.inj_add, Nat.add_comm by lia. done.
  - exists 0. split; [lia|]. cbn. by rewrite Z.add_0_r, Z.sub_0_r.
Qed.

Lemma memset_words_run c w fuel : forall m a count,
  word_bytes_ok w c = true -> 0 <= count -> (Z.to_nat count < fuel)%nat -> mapped m a count ->
  exists k, 0 <= k <= count /\ count - k < 4 /\
    memset_words fuel a count w m
      = Ret ((a + k, count - k), write_bytes m a (replicate (Z.to_nat k) c)).
Proof.
  induction fuel as [|fuel IH]; intros m a count Hw Hn Hf Hm; [lia|]. cbn [memset_words].
  destruct (Z.leb_spec 4 count) as [Hg|Hg].
  - erewrite run_bind; [|apply store32_run; [exact Hw|eapply mapped_sub; [exact Hm|lia|lia]]].
    destruct (IH (write_bytes m a (replicate 4 c)) (a + 4) (count - 4)) as (k & Hk & ? & ->);
      [done|lia|lia| |].
    { apply mapped_write. eapply mapped_sub; [exact Hm|lia|lia]. }
    exists (4 + k). split; [lia|]. split; [lia|]. do 2 f_equal; [f_equal; lia|].
    apply (write_replicate_app m a 4 k); lia.
  - exists 0. split; [lia|]. split; [lia|]. cbn. by rewrite Z.add_0_r, Z.sub_0_r.
Qed.

Lemma memset_tail_run ch n : forall m a,
  mapped m a (Z.of_nat n) ->
  memset_tail n a ch m = Ret (tt, write_bytes m a (replicate n (u8 ch))).
Proof.
  induction n as [|n IH]; intros m a Hm; [done|]. cbn [memset_tail replicate write_bytes].
  erewrite run_bind; [|apply run_store, Hm; lia]. rewrite u8_u8.
  apply IH, mapped_insert. eapply mapped_sub; [exact Hm|lia|lia].
Qed.

Lemma memset_run m buffer ch count :
  0 <= count -> mapped m buffer count ->
  memset buffer ch count m
    = Ret (buffer, write_bytes m buffer (replicate (Z.to_nat count) (u8 ch))).
Proof.
  intros Hn Hm. unfold memset.
  destruct (memset_head_run (u8 ch) ch (S (Z.to_nat count)) m buffer count)
    as (i & Hi & E1); [done|lia|lia|done|].
  erewrite run_bind; [|exact E1]. cbn beta iota.
  set (m1 := write_bytes m buffer _) in *.
  destruct (memset_words_run (u8 ch) (memset_word 4 0 ch) (S (Z.to_nat (count - i))) m1
              (buffer + i) (count - i)) as (j & Hj & ? & E2);
    [apply memset_word_bytes|lia|lia| |].
  { apply mapped_write. eapply mapped_sub; [exact Hm|lia|lia]. }
  erewrite run_bind; [|exact E2]. cbn beta iota.
  erewrite run_bind; [|apply memset_tail_run; do 2 apply mapped_write;
                       eapply mapped_sub; [exact Hm|lia|lia]].
  unfold m1. rewrite write_replicate_app by lia.
  rewrite write_replicate_app by lia.
  by replace (i + (j + (count - i - j))) with count by lia.
Qed.

(** ** memchr and memcmp *)

(** The first index at which [p] holds. *)
Fixpoint find_index (p : Z -> bool) (l : list Z) : option nat :=
  match l with
  | [] => None
  | b :: l' => if p b then Some 0%nat else S <$> find_index p l'
  end.

Lemma find_index_Some p l i :
  find_index p l = Some i <->
  (exists b, l !! i = Some b /\ p b = true) /\
  (forall j b, (j < i)%nat -> l !! j = Some b -> p b = false).
Proof.
  revert i; induction l as [|b l IH]; intros i; cbn [find_index].
  - split; [done|]. intros [(b & Hb & _) _]. by rewrite lookup_nil in Hb.
  - destruct (p b) eqn:Hp.
    + split.
      * intros [= <-]. split; [by exists b|lia].
      * intros [_ H]. destruct i as [|i]; [done|]. specialize (H 0%nat b ltac:(lia) eq_refl). congruence.
    + destruct i as [|i].
      { split; [by destruct (find_index p l)|]. intros [(c & Hc & ?) _]. cbn in Hc. congruence. }
      rewrite fmap_Some. setoid_rewrite (inj_iff S). split.
      * intros (j & Hj & ->). apply IH in Hj as [Hex Hall]. split; [done|].
        intros [|k] c Hk Hl; cbn in Hl; [congruence|]. eapply Hall; [|exact Hl]. lia.
      * intros [Hex Hall]. exists i. split; [|done]. apply IH. split; [done|].
        intros j c Hj. apply (Hall (S j)). lia.
Qed.

Lemma find_index_None p l : find_index p l = None <-> Forall (fun b => p b = false) l.
Proof.
  induction l as [|b l IH]; cbn [find_index]; [by split|].
  rewrite Forall_cons, <- IH. destruct (p b) eqn:?; [split; [done|by intros [? _]]|].
  rewrite fmap_None. tauto.
Qed.

Lemma memchr_run m s c bs :
  bytes_at m s bs ->
  memchr s c (Z.of_nat (length bs)) m
    = Ret (match find_index (fun b => b =? u8 c) bs with
           | Some i => s + Z.of_nat i
           | None => NULL
           end, m).
Proof.
  unfold memchr. rewrite Nat2Z.id. revert s.
  induction bs as [|b bs IH]; intros s Hs; [done|]. cbn [length memchr_loop find_index].
  apply bytes_at_cons in Hs as [Hs0 Hs]. crun run_load.
  destruct (b =? u8 c); cbn [fmap option_fmap option_map].
  - by rewrite Z.add_0_r.
  - rewrite IH by done. destruct (find_index _ bs); cbn; [|done]. do 2 f_equal. lia.
Qed.

(** The reference for [memcmp] as coded: the difference of the first pair of
    bytes that differ, the second buffer's byte minus the first's. *)
Fixpoint first_diff (l k : list Z) : Z :=
  match l, k with
  | a :: l', b :: k' => if s8 a =? s8 b then first_diff l' k' else s8 a - s8 b
  | _, _ => 0
  end.

Lemma memcmp_loop_done n a b r m : r <> 0 -> memcmp_loop n a b r m = Ret (r, m).
Proof. intros H. destruct n; [done|]. cbn. by rewrite (proj2 (Z.eqb_neq _ _)). Qed.

Lemma memcmp_run m a b l k :
  length l = length k -> bytes_at m a l -> bytes_at m b k ->
  memcmp a b (Z.of_nat (length l)) m = Ret (first_diff k l, m).
Proof.
  unfold memcmp. rewrite Nat2Z.id. revert a b k.
  induction l as [|x l IH]; intros a b [|y k] Hlen Ha Hb; try done; cbn in Hlen.
  apply bytes_at_cons in Ha as [Ha0 Ha]. apply bytes_at_cons in Hb as [Hb0 Hb].
  cbn [length memcmp_loop first_diff Z.eqb]. crun run_loadc. crun run_loadc.
  destruct (Z.eqb_spec (s8 y) (s8 x)) as [->|Hne].
  - rewrite Z.sub_diag. apply IH; [lia|done|done].
  - by rewrite memcmp_loop_done by lia.
Qed.
