(* ===== verification/CStringStr.v ===== *)
(** * Correctness of the string routines of libc

    Every routine of [str*.c] on NUL-terminated strings in memory: the value
    it returns, the memory it leaves, and that its scan loops end. *)

From S2P Require Import Prelude CMem CString CStringMem.

Lemma s8_nonzero b : 0 < b < 256 -> (s8 b =? 0) = false.
Proof. intros. apply Z.eqb_neq. unfold s8. zlia. Qed.

Lemma chars_u8 (cs : list Z) : Forall (fun b => 0 < b < 256) cs -> Forall is_u8 cs.
Proof. intros H. eapply Forall_impl; [exact H|]. unfold is_u8. cbn. lia. Qed.

Lemma cstr_u8 m a cs : cstr m a cs -> Forall is_u8 (cs ++ [0]).
Proof.
  intros H%cstr_chars. apply Forall_app. split; [by apply chars_u8|].
  repeat constructor; unfold is_u8; lia.
Qed.

(** ** strlen *)

Lemma strlen_loop_run m cs fuel : forall s len,
  cstr m s cs -> (length cs < fuel)%nat -> 0 <= len ->
  len + Z.of_nat (length cs) < 4294967296 ->
  strlen_loop fuel s len m = Ret (len + Z.of_nat (length cs), m).
Proof.
  revert fuel; induction cs as [|c cs IH]; intros [|fuel] s len Hs Hf Hl Hb; cbn in Hf; try lia;
    cbn [strlen_loop].
  - apply cstr_nil in Hs as [_ Hs]. crun run_loadc. cbn. by rewrite Z.add_0_r.
  - apply cstr_cons in Hs as (? & Hs0 & Hc & Hs). crun run_loadc.
    rewrite s8_nonzero by done. cbn [length] in *. rewrite Nat2Z.inj_succ in *.
    rewrite u32_small by lia. rewrite IH by (auto; lia). do 2 f_equal. lia.
Qed.

Lemma strlen_run m s cs : cstr m s cs -> strlen s m = Ret (Z.of_nat (length cs), m).
Proof.
  intros Hs. pose proof (cstr_range _ _ _ Hs). unfold strlen, with_fuel, NULL.
  rewrite (proj2 (Z.eqb_neq _ _)) by lia.
  rewrite (strlen_loop_run m cs) by (eauto using cstr_fuel; lia). done.
Qed.

(** ** strcpy, strncpy, strcat, strncat *)

Lemma strcpy_run m s1 s2 cs :
  0 < s1 -> cstr m s2 cs -> mapped m s1 (Z.of_nat (length cs)) ->
  s1 <= s2 \/ s2 + Z.of_nat (length cs) <= s1 ->
  strcpy s1 s2 m = Ret (s1, write_bytes m s1 cs).
Proof.
  intros ? Hs Hd Hov. unfold strcpy. crun strlen_run.
  erewrite run_bind; [|apply memcpy_run; eauto using cstr_bytes, chars_u8, cstr_chars].
  - done.
  - by apply cstr_range in Hs as [? _].
Qed.

Lemma memcpy_cstr m s1 s2 cs n :
  0 < s1 -> cstr m s2 cs -> 0 <= n <= Z.of_nat (length cs) + 1 -> mapped m s1 n ->
  s1 <= s2 \/ s2 + n <= s1 ->
  memcpy s1 s2 n m = Ret (s1, write_bytes m s1 (take (Z.to_nat n) (cs ++ [0]))).
Proof.
  intros ? Hs Hn Hd Hov. apply memcpy_run.
  - done.
  - by apply cstr_range in Hs as [? _].
  - rewrite length_take, length_app. cbn. lia.
  - destruct Hs as (_ & Hs & _).
    rewrite <- (take_drop (Z.to_nat n) (cs ++ [0])) in Hs. by apply bytes_at_app in Hs as [? _].
  - by eapply Forall_take, cstr_u8.
  - done.
  - done.
Qed.

(** [strncpy] writes exactly [n] bytes: the string, cut to [n], padded with NUL. *)
Lemma strncpy_run m s1 s2 n cs :
  0 < s1 -> 0 <= n < 4294967296 -> cstr m s2 cs -> mapped m s1 n ->
  s1 + n <= s2 \/ s2 + Z.of_nat (length cs) + 1 <= s1 ->
  strncpy s1 s2 n m
    = Ret (s1, write_bytes m s1 (take (Z.to_nat n) (cs ++ replicate (Z.to_nat n) 0))).
Proof.
  intros Hs1 Hn Hs Hd Hov. pose proof (cstr_range _ _ _ Hs).
  unfold strncpy. crun strlen_run.
  rewrite (u32_small (_ + 1)) by lia. remember (Z.min n (Z.of_nat (length cs) + 1)) as k eqn:Hk.
  erewrite run_bind; [|apply memcpy_cstr; [done|exact Hs|lia|eapply mapped_sub; [done|lia|lia]|lia]].
  rewrite u32_small by lia.
  assert (E : take (Z.to_nat n) (cs ++ replicate (Z.to_nat n) 0)
              = take (Z.to_nat k) (cs ++ [0]) ++ replicate (Z.to_nat (n - k)) 0).
  { destruct (decide (n <= Z.of_nat (length cs))).
    - replace k with n by lia. rewrite Z.sub_diag, !take_app_le by lia. cbn. by rewrite app_nil_r.
    - replace k with (Z.of_nat (length cs) + 1) by lia.
      rewrite (take_ge (cs ++ [0])) by (rewrite length_app; cbn; lia).
      rewrite take_app_ge, take_replicate, <- app_assoc by lia. f_equal.
      change [0] with (replicate 1 0). rewrite <- replicate_add. f_equal. lia. }
  rewrite E, write_bytes_app.
  rewrite length_take, length_app. cbn [length].
  replace (Z.of_nat (Z.to_nat k `min` (length cs + 1))) with k by lia.
  destruct (Z.ltb_spec 0 (n - k)).
  - erewrite run_bind; [|apply memset_run; [lia|apply mapped_write; eapply mapped_sub; [done|lia|lia]]].
    done.
  - rewrite run_bind_ret. replace (n - k) with 0 by lia. done.
Qed.

Lemma strcat_run m s1 s2 cs1 cs2 :
  cstr m s1 cs1 -> cstr m s2 cs2 ->
  mapped m (s1 + Z.of_nat (length cs1)) (Z.of_nat (length cs2) + 1) ->
  s1 + Z.of_nat (length cs1) + Z.of_nat (length cs2) + 1 <= s2 \/
  s2 + Z.of_nat (length cs2) + 1 <= s1 ->
  strcat s1 s2 m = Ret (s1, write_bytes m (s1 + Z.of_nat (length cs1)) (cs2 ++ [0])).
Proof.
  intros H1 H2 Hd Hov. pose proof (cstr_range _ _ _ H1). pose proof (cstr_range _ _ _ H2).
  unfold strcat. crun strlen_run. crun strlen_run.
  erewrite run_bind; [|apply run_loadc; by eapply cstr_end].
  crun run_assert. rewrite u32_small by lia.
  erewrite run_bind; [|apply memcpy_cstr; [lia|exact H2|lia|done|lia]].
  rewrite take_ge by (rewrite length_app; cbn; lia). done.
Qed.

(** The string that results from appending: the first string, extended. *)
Lemma cstr_extend m s cs ds :
  cstr m s cs -> Forall (fun b => 0 < b < 256) ds ->
  s + Z.of_nat (length cs + length ds) < 4294967296 ->
  cstr (write_bytes m (s + Z.of_nat (length cs)) (ds ++ [0])) s (cs ++ ds).
Proof.
  intros Hs Hd Hr. split.
  { rewrite length_app. apply cstr_range in Hs. lia. }
  split; [|apply Forall_app; eauto using cstr_chars].
  rewrite <- app_assoc. apply bytes_at_app. split.
  - apply bytes_at_write_disjoint; [lia|by apply cstr_bytes].
  - apply bytes_at_write.
Qed.

Lemma strncat_loop_run m0 n : forall m d s cs,
  cstr m s cs -> mapped m d (Z.min (Z.of_nat n) (Z.of_nat (length cs))) ->
  d + Z.min (Z.of_nat n) (Z.of_nat (length cs)) <= s \/ s + Z.of_nat (length cs) < d ->
  m = m0 ->
  strncat_loop n d s m
    = Ret (d + Z.min (Z.of_nat n) (Z.of_nat (length cs)), write_bytes m0 d (take n cs)).
Proof.
  revert m0; induction n as [|n IH]; intros m0 m d s cs Hs Hd Hov <-.
  { cbn. rewrite Z.min_l, Z.add_0_r by lia. done. }
  cbn [strncat_loop]. destruct cs as [|c cs].
  - apply cstr_nil in Hs as [_ Hs]. crun run_loadc. cbn. by rewrite Z.add_0_r.
  - pose proof Hs as (? & Hs0 & Hc & Hs')%cstr_cons. crun run_loadc.
    rewrite s8_nonzero by done. cbn [length] in *. rewrite !Nat2Z.inj_succ, <- Z.succ_min_distr in *.
    erewrite run_bind; [|apply store_byte; [lia|apply Hd; lia]]. cbn beta iota.
    rewrite (IH (<[d:=c]> m) (<[d:=c]> m) _ _ cs); [| | |lia|done].
    + cbn. do 2 f_equal. lia.
    + eapply cstr_frame; [|exact Hs']. intros x Hx. apply lookup_insert_ne. lia.
    + apply mapped_insert. eapply mapped_sub; [exact Hd|lia|lia].
Qed.

(** [strncat] appends at most [n] characters and always terminates. *)
Lemma strncat_run m s1 s2 n cs1 cs2 k :
  k = Z.min n (Z.of_nat (length cs2)) ->
  cstr m s1 cs1 -> cstr m s2 cs2 -> 0 <= n ->
  mapped m (s1 + Z.of_nat (length cs1)) (k + 1) ->
  s1 + Z.of_nat (length cs1) + k + 1 <= s2 \/ s2 + Z.of_nat (length cs2) < s1 ->
  strncat s1 s2 n m
    = Ret (s1, write_bytes m (s1 + Z.of_nat (length cs1)) (take (Z.to_nat n) cs2 ++ [0])).
Proof.
  intros Hk H1 H2 Hn Hd Hov. unfold strncat. crun strlen_run.
  erewrite run_bind; [|apply run_loadc; by eapply cstr_end]. crun run_assert.
  erewrite run_bind; [|eapply (strncat_loop_run m); [exact H2| | |done];
                       rewrite Z2Nat.id by done; [eapply mapped_sub; [exact Hd|lia|lia]|lia]].
  rewrite Z2Nat.id, <- Hk by done.
  erewrite run_bind; [|apply run_store; eapply mapped_lookup; [apply mapped_write, Hd|lia]].
  rewrite write_bytes_app, length_take.
  replace (Z.of_nat (Z.to_nat n `min` length cs2)) with k by lia. done.
Qed.

(** ** strcmp *)

Lemma cstr_hd m s cs : cstr m s cs -> m !! s = Some (hd 0 (cs ++ [0])).
Proof.
  destruct cs; intros H; [by apply cstr_nil in H as [_ ?]|by apply cstr_cons in H as (_ & ? & _)].
Qed.

Lemma strcmp_loop_run m fuel : forall cs1 cs2 s1 s2,
  cstr m s1 cs1 -> cstr m s2 cs2 -> (length cs1 < fuel)%nat ->
  strcmp_loop fuel s1 s2 (s8 (hd 0 (cs1 ++ [0])) - s8 (hd 0 (cs2 ++ [0]))) m
    = Ret (first_diff (cs1 ++ [0]) (cs2 ++ [0]), m).
Proof.
  induction fuel as [|fuel IH]; intros [|c1 cs1] cs2 s1 s2 H1 H2 Hf; cbn in Hf; try lia;
    cbn [strcmp_loop app hd first_diff].
  - apply cstr_nil in H1 as [_ H1]. crun run_loadc.
    destruct cs2 as [|c2 cs2]; cbn [app hd]; [done|].
    apply cstr_chars, Forall_cons in H2 as [H2 _]. change (s8 0) with 0.
    rewrite (Z.eqb_sym 0 (s8 c2)), s8_nonzero by done. done.
  - apply cstr_cons in H1 as (? & H10 & Hc1 & H1). crun run_loadc. rewrite s8_nonzero by done.
    cbn [negb andb].
    assert (Hd : exists c2 r2, cs2 ++ [0] = c2 :: r2) by (destruct cs2; cbn; eauto).
    destruct Hd as (d2 & r2 & E2). rewrite E2. cbn [hd].
    destruct (Z.eqb_spec (s8 c1 - s8 d2) 0) as [Heq|Hne].
    + destruct cs2 as [|c2 cs2]; [cbn in E2; simplify_eq|].
      { pose proof (s8_nonzero c1 Hc1) as Hnz%Z.eqb_neq. change (s8 0) with 0 in Heq. lia. }
      cbn in E2. simplify_eq. apply cstr_cons in H2 as (? & _ & _ & H2).
      erewrite run_bind; [|by apply run_loadc, cstr_hd]. erewrite run_bind; [|by apply run_loadc, cstr_hd].
      cbn beta. rewrite IH by (done || lia). zif. done.
    + zif. done.
Qed.

Lemma strcmp_run m s1 s2 cs1 cs2 :
  cstr m s1 cs1 -> cstr m s2 cs2 ->
  strcmp s1 s2 m = Ret (first_diff (cs1 ++ [0]) (cs2 ++ [0]), m).
Proof.
  intros H1 H2. unfold strcmp.
  erewrite run_bind; [|by apply run_loadc, cstr_hd]. erewrite run_bind; [|by apply run_loadc, cstr_hd].
  apply strcmp_loop_run; eauto using cstr_fuel.
Qed.

(** Lexicographic order on character codes. *)
Fixpoint lex_lt (l k : list Z) : bool :=
  match l, k with
  | [], _ :: _ => true
  | a :: l', b :: k' => (a <? b) || ((a =? b) && lex_lt l' k')
  | _, _ => false
  end.

Definition ascii (cs : list Z) : Prop := Forall (fun b => 0 < b < 128) cs.

#[export] Instance ascii_dec cs : Decision (ascii cs).
Proof. unfold ascii. apply _. Defined.

Lemma first_diff_lex l : forall k, ascii l -> ascii k ->
  let r := first_diff (l ++ [0]) (k ++ [0]) in
  (r < 0 <-> lex_lt l k = true) /\ (r = 0 <-> l = k) /\ (0 < r <-> lex_lt k l = true).
Proof.
  unfold ascii.
  induction l as [|a l IH]; intros [|b k] Hl Hk; cbn [app first_diff lex_lt]; rewrite ?Forall_cons in *.
  - cbn. repeat split; try done; lia.
  - destruct Hk as [Hb _]. rewrite (s8_small b) by lia. change (s8 0) with 0. zif.
    repeat split; try done; lia.
  - destruct Hl as [Ha _]. rewrite (s8_small a) by lia. change (s8 0) with 0. zif.
    repeat split; try done; lia.
  - destruct Hl as [Ha Hl], Hk as [Hb Hk]. rewrite (s8_small a), (s8_small b) by lia.
    specialize (IH k Hl Hk). cbn zeta in *.
    destruct (Z.eqb_spec a b) as [->|Hne].
    + rewrite Z.ltb_irrefl, Z.eqb_refl. cbn. destruct IH as (H1 & H2 & H3).
      split; [done|]. split; [rewrite H2; split; congruence|done].
    + rewrite (proj2 (Z.eqb_neq b a)) by congruence. cbn [andb]. rewrite !orb_false_r, !Z.ltb_lt.
      repeat split; try lia; intros; simplify_eq; lia.
Qed.

(** ** strchr and strrchr *)

Lemma strchr_run m s c cs :
  cstr m s cs ->
  strchr s c m = Ret (match find_index (fun b => b =? u8 c) cs with
                      | Some i => s + Z.of_nat i
                      | None => NULL
                      end, m).
Proof. intros Hs. unfold strchr. crun strlen_run. by apply memchr_run, cstr_bytes. Qed.

(** The last index at which [p] holds. *)
Fixpoint last_index (p : Z -> bool) (l : list Z) : option nat :=
  match l with
  | [] => None
  | b :: l' =>
      match last_index p l' with
      | Some i => Some (S i)
      | None => if p b then Some 0%nat else None
      end
  end.

Lemma last_index_snoc p l b :
  last_index p (l ++ [b]) = if p b then Some (length l) else last_index p l.
Proof.
  induction l as [|a l IH]; cbn; [done|]. rewrite IH. by destruct (p b).
Qed.

Lemma s8_eqb b c : 0 <= b < 256 -> (s8 b =? s8 c) = (b =? u8 c).
Proof.
  intros. destruct (Z.eqb_spec b (u8 c)) as [->|Hne].
  - apply Z.eqb_eq. unfold s8, u8. zlia.
  - apply Z.eqb_neq. contradict Hne. apply (f_equal u8) in Hne.
    rewrite !u8_s8 in Hne. by rewrite u8_small in Hne.
Qed.

Lemma strrchr_loop_run m s c bs : forall fuel,
  bytes_at m s bs -> Forall is_u8 bs -> (length bs < fuel)%nat ->
  strrchr_loop fuel s (s + Z.of_nat (length bs) - 1) c m
    = Ret (match last_index (fun b => b =? u8 c) bs with
           | Some i => s + Z.of_nat i
           | None => NULL
           end, m).
Proof.
  induction bs as [|b bs IH] using rev_ind; intros [|fuel] Hs Hb Hf; try lia; cbn [strrchr_loop].
  - cbn [length]. zif. done.
  - rewrite length_app in *. cbn [length] in *.
    apply bytes_at_app in Hs as [Hs Hsb]. apply bytes_at_cons in Hsb as [Hsb _].
    apply Forall_app in Hb as [Hb Hb0]. apply Forall_cons in Hb0 as [Hb0 _].
    replace (s + Z.of_nat (length bs + 1) - 1) with (s + Z.of_nat (length bs)) by lia. zif.
    crun run_loadc. rewrite s8_eqb, last_index_snoc by done.
    destruct (b =? u8 c); [done|]. apply IH; [done|done|lia].
Qed.

(** [strrchr]: the last occurrence, the terminator included. *)
Lemma strrchr_run m s c cs :
  cstr m s cs ->
  strrchr s c m = Ret (match last_index (fun b => b =? u8 c) (cs ++ [0]) with
                       | Some i => s + Z.of_nat i
                       | None => NULL
                       end, m).
Proof.
  intros Hs. unfold strrchr. crun strlen_run. rewrite Nat2Z.id.
  rewrite <- (strrchr_loop_run m s c (cs ++ [0]) (S (S (length cs)))).
  - f_equal. rewrite length_app. cbn. lia.
  - by destruct Hs as (_ & ? & _).
  - by eapply cstr_u8.
  - rewrite length_app. cbn. lia.
Qed.

(** ** strrev *)

Lemma write_bytes_insert m a l x v :
  x < a \/ a + Z.of_nat (length l) <= x ->
  write_bytes (<[x:=v]> m) a l = <[x:=v]> (write_bytes m a l).
Proof.
  intros Hx. apply map_eq. intros y. rewrite lookup_write_bytes, !lookup_insert, lookup_write_bytes.
  repeat case_decide; try done; lia.
Qed.

Lemma strrev_loop_run fuel : forall bs m l,
  bytes_at m l bs -> Forall is_u8 bs -> (length bs < fuel)%nat ->
  strrev_loop fuel l (l + Z.of_nat (length bs) - 1) m = Ret (tt, write_bytes m l (rev bs)).
Proof.
  induction fuel as [|fuel IH]; intros bs m l Hm Hb Hf; [lia|]. cbn [strrev_loop].
  destruct bs as [|a bs]; [cbn [length]; zif; done|].
  destruct bs as [|z bs _] using rev_ind.
  { cbn [length]. zif. rewrite write_bytes_id; done. }
  cbn [length] in *. rewrite length_app in *. cbn [length] in *. zif.
  apply bytes_at_cons in Hm as [Ha Hm]. apply bytes_at_app in Hm as [Hm Hz].
  apply bytes_at_cons in Hz as [Hz _].
  rewrite Forall_cons, Forall_app, Forall_cons in Hb. destruct Hb as (Hab & Hb & Hzb & _).
  replace (l + Z.of_nat (S (length bs + 1)) - 1) with (l + 1 + Z.of_nat (length bs)) by lia.
  crun run_loadc. crun run_loadc.
  erewrite run_bind; [|apply store_byte; [done|by eexists]].
  erewrite run_bind; [|apply store_byte; [done|rewrite lookup_insert_ne by lia; by eexists]].
  cbn beta. rewrite IH.
  - do 2 f_equal. cbn [rev]. rewrite rev_app_distr. cbn [rev app write_bytes].
    rewrite write_bytes_app, write_bytes_insert by (rewrite length_rev; lia).
    rewrite length_rev. done.
  - eapply bytes_at_frame; [|exact Hm]. intros x Hx. rewrite !lookup_insert_ne by lia. done.
  - done.
  - lia.
Qed.

Lemma strrev_run m s cs : cstr m s cs -> strrev s m = Ret (s, write_bytes m s (rev cs)).
Proof.
  intros Hs. pose proof (cstr_range _ _ _ Hs). unfold strrev, NULL.
  rewrite (proj2 (Z.eqb_neq _ _)) by lia. cbn [negb].
  erewrite run_bind; [done|]. crun strlen_run. rewrite Nat2Z.id.
  apply strrev_loop_run; eauto using cstr_bytes, chars_u8, cstr_chars.
Qed.
