(* ===== verification/CStringSearch.v ===== *)
(** * Correctness of the searching routines of libc

    The character sets of [strspn.c] (a 256-bit table) against sets of
    characters, and the Horspool search of [strstr.c] against the naive
    definition of the first occurrence. *)

From S2P Require Import Prelude CMem CString CStringMem CStringStr.

(** ** Reference definitions *)

(** Length of the longest prefix whose elements satisfy [p]. *)
Fixpoint prefix_len (p : Z -> bool) (l : list Z) : nat :=
  match l with
  | [] => 0
  | b :: l' => if p b then S (prefix_len p l') else 0
  end.

Definition mem_char (cs : list Z) (c : Z) : bool := bool_decide (c ∈ cs).

(** The bit of the table that stands for character [c]. *)
Definition table_bit (bitmap : list Z) (c : Z) : bool :=
  Z.testbit (bitmap !!! Z.to_nat (c / 32)) (c mod 32).

(** A table of eight 32-bit words. *)
Definition table_ok (bitmap : list Z) : Prop :=
  length bitmap = 8%nat /\ Forall is_u32 bitmap.

(** [pattern] occurs in [text] at index [i]. *)
Definition occurs (pattern text : list Z) (i : nat) : Prop :=
  take (length pattern) (drop i text) = pattern.

#[export] Instance occurs_dec pattern text i : Decision (occurs pattern text i).
Proof. unfold occurs. apply _. Defined.

(** ** The character table *)

Lemma index_small c : 0 <= c < 256 ->
  WORD_INDEX c = c / 32 /\ BIT_INDEX c = c mod 32 /\ 0 <= c / 32 < 8 /\ 0 <= c mod 32 < 32.
Proof. intros. unfold WORD_INDEX, BIT_INDEX, WORD_SIZE. rewrite u32_small by lia. zlia. Qed.

Lemma table_word t c : table_ok t -> 0 <= c < 256 ->
  exists w, t !! Z.to_nat (c / 32) = Some w /\ is_u32 w /\ t !!! Z.to_nat (c / 32) = w.
Proof.
  intros [Hl Hw] Hc. destruct (lookup_lt_is_Some_2 t (Z.to_nat (c / 32))) as [w E]; [rewrite Hl; zlia|].
  exists w. split; [done|]. split; [by eapply Forall_lookup_1|]. by apply list_lookup_total_correct.
Qed.

Lemma bit_word k : 0 <= k < 32 -> u32 (Z.shiftl 1 k) = 2 ^ k.
Proof.
  intros. rewrite Z.shiftl_1_l. apply u32_small. split; [apply Z.pow_nonneg; lia|].
  change 4294967296 with (2 ^ 32). apply Z.pow_lt_mono_r; lia.
Qed.

Lemma u32_bits w k : is_u32 w -> 32 <= k -> Z.testbit w k = false.
Proof.
  intros [? ?] ?. destruct (decide (w = 0)) as [->|]; [apply Z.bits_0|].
  apply Z.bits_above_log2; [lia|]. apply Z.log2_lt_pow2; [lia|].
  apply Z.lt_le_trans with (2 ^ 32); [lia|]. apply Z.pow_le_mono_r; lia.
Qed.

Lemma is_u32_bits w : 0 <= w -> (forall k, 32 <= k -> Z.testbit w k = false) -> is_u32 w.
Proof.
  intros H0 H. split; [done|]. change 4294967296 with (2 ^ 32).
  destruct (decide (w = 0)) as [->|]; [by vm_compute|].
  apply Z.log2_lt_pow2; [lia|]. destruct (Z.lt_ge_cases (Z.log2 w) 32); [done|].
  specialize (H (Z.log2 w) ltac:(lia)). rewrite Z.bit_log2 in H by lia. done.
Qed.

Lemma u32_testbit x k : 0 <= k -> Z.testbit (u32 x) k = (k <? 32) && Z.testbit x k.
Proof.
  intros. unfold u32. change 4294967296 with (2 ^ 32).
  destruct (Z.ltb_spec k 32); [by rewrite Z.mod_pow2_bits_low|by rewrite Z.mod_pow2_bits_high by lia].
Qed.

(** The bits of the table after one word of it changed. *)
Lemma table_update t c w' f :
  table_ok t -> 0 <= c < 256 -> is_u32 w' ->
  (forall k, 0 <= k < 32 ->
     Z.testbit w' k = f (k =? c mod 32) (Z.testbit (t !!! Z.to_nat (c / 32)) k)) ->
  (forall b, f false b = b) ->
  table_ok (<[Z.to_nat (c / 32) := w']> t) /\
  (forall d, 0 <= d < 256 ->
     table_bit (<[Z.to_nat (c / 32) := w']> t) d = f (d =? c) (table_bit t d)).
Proof.
  intros [Hl Hw] Hc Hw' Hk Hf. split.
  { split; [by rewrite length_insert|]. by apply Forall_insert. }
  intros d Hd. unfold table_bit. destruct (decide (d / 32 = c / 32)) as [E|E].
  - rewrite E, list_lookup_total_insert_eq by (rewrite Hl; zlia). rewrite Hk by zlia.
    f_equal. destruct (Z.eqb_spec d c), (Z.eqb_spec (d mod 32) (c mod 32)); try done; zlia.
  - rewrite list_lookup_total_insert_ne by zlia.
    rewrite (proj2 (Z.eqb_neq d c)) by congruence. by rewrite Hf.
Qed.

Lemma SET_BIT_run t c m :
  table_ok t -> 0 <= c < 256 ->
  exists t', SET_BIT t c m = Ret (t', m) /\ table_ok t' /\
    forall d, 0 <= d < 256 -> table_bit t' d = (d =? c) || table_bit t d.
Proof.
  intros Ht Hc. pose proof (index_small c Hc) as (Ei & Eb & Hi & Hbi).
  destruct (table_word t c Ht Hc) as (w & Hw & Hr & Et).
  unfold SET_BIT. rewrite Ei, Eb, bit_word by lia. erewrite run_bind; [|apply table_get_run; [lia|exact Hw]].
  rewrite table_set_run by (destruct Ht as [-> _]; lia). eexists. split; [done|].
  apply table_update; [done|done| | |done].
  - apply is_u32_bits; [apply Z.lor_nonneg; split; [apply Hr|apply Z.pow_nonneg; lia]|].
    intros k Hk. rewrite Z.lor_spec, u32_bits, Z.pow2_bits_false by (done || lia). done.
  - intros k Hk. rewrite Et, Z.lor_spec, orb_comm, Z.pow2_bits_eqb by lia. by rewrite Z.eqb_sym.
Qed.

Lemma CLEAR_BIT_run t c m :
  table_ok t -> 0 <= c < 256 ->
  exists t', CLEAR_BIT t c m = Ret (t', m) /\ table_ok t' /\
    forall d, 0 <= d < 256 -> table_bit t' d = negb (d =? c) && table_bit t d.
Proof.
  intros Ht Hc. pose proof (index_small c Hc) as (Ei & Eb & Hi & Hbi).
  destruct (table_word t c Ht Hc) as (w & Hw & Hr & Et).
  unfold CLEAR_BIT. rewrite Ei, Eb. erewrite run_bind; [|apply table_get_run; [lia|exact Hw]].
  rewrite table_set_run by (destruct Ht as [-> _]; lia). eexists. split; [done|].
  apply table_update with (f := fun e b => negb e && b); [done|done| | |done].
  - apply is_u32_bits; [apply Z.land_nonneg; left; apply Hr|].
    intros k Hk. rewrite Z.land_spec, u32_bits by done. done.
  - intros k Hk. rewrite Et, Z.land_spec, u32_testbit, Z.lnot_spec, Z.shiftl_1_l by lia.
    rewrite Z.pow2_bits_eqb, (Z.eqb_sym (c mod 32)) by lia.
    rewrite (proj2 (Z.ltb_lt k 32)) by lia. cbn. apply andb_comm.
Qed.

Lemma IS_SET_run t c m :
  table_ok t -> 0 <= c < 256 -> IS_SET t c m = Ret (table_bit t c, m).
Proof.
  intros Ht Hc. pose proof (index_small c Hc) as (Ei & Eb & Hi & Hbi).
  destruct (table_word t c Ht Hc) as (w & Hw & Hr & Et).
  unfold IS_SET. rewrite Ei, Eb, bit_word by lia. erewrite run_bind; [|apply table_get_run; [lia|exact Hw]].
  unfold mret, C_ret. do 2 f_equal. unfold table_bit. rewrite Et.
  destruct (Z.testbit w (c mod 32)) eqn:E.
  - apply negb_true_iff, Z.eqb_neq. intros H. apply (f_equal (fun z => Z.testbit z (c mod 32))) in H.
    rewrite Z.land_spec, E, Z.pow2_bits_true, Z.bits_0 in H by lia. done.
  - apply negb_false_iff, Z.eqb_eq. apply Z.bits_inj'. intros k Hk.
    rewrite Z.land_spec, Z.bits_0, Z.pow2_bits_eqb by lia.
    destruct (Z.eqb_spec (c mod 32) k) as [<-|]; [by rewrite E|apply andb_false_r].
Qed.

(** ** Loading the table and scanning with it *)

Lemma ascii_s8 c : 0 <= c < 128 -> s8 c = c.
Proof. intros. apply s8_small. lia. Qed.

(** What a table operation does to the bits: [f] of "is this the character"
    and the bit before. *)
Definition table_op (op : list Z -> Z -> C (list Z)) (f : bool -> bool -> bool) : Prop :=
  forall t c m, table_ok t -> 0 <= c < 256 ->
  exists t', op t c m = Ret (t', m) /\ table_ok t' /\
    forall d, 0 <= d < 256 -> table_bit t' d = f (d =? c) (table_bit t d).

Lemma SET_BIT_op : table_op SET_BIT orb.
Proof. intros t c m. apply SET_BIT_run. Qed.

Lemma CLEAR_BIT_op : table_op CLEAR_BIT (fun e b => negb e && b).
Proof. intros t c m. apply CLEAR_BIT_run. Qed.

Lemma load_bitmap_run op f m : table_op op f ->
  (forall b, f false b = b) -> (forall b, f true (f true b) = f true b) ->
  forall cs fuel s t,
  cstr m s cs -> ascii cs -> (length cs < fuel)%nat -> table_ok t ->
  exists t', load_bitmap fuel op t s m = Ret (t', m) /\ table_ok t' /\
    forall d, 0 <= d < 256 -> table_bit t' d = f (mem_char cs d) (table_bit t d).
Proof.
  intros Hop Hf Hff. unfold ascii.
  induction cs as [|c cs IH]; intros [|fuel] s t Hs Ha Hl Ht; cbn in Hl; try lia; cbn [load_bitmap].
  - apply cstr_nil in Hs as [_ Hs]. crun run_loadc. exists t. split; [done|]. split; [done|].
    intros d _. cbn. by rewrite Hf.
  - apply cstr_cons in Hs as (? & Hs0 & Hc & Hs). apply Forall_cons in Ha as [Hc' Ha].
    crun run_loadc. rewrite s8_nonzero, ascii_s8 by lia.
    destruct (Hop t c m Ht ltac:(lia)) as (t1 & E1 & Ht1 & H1). erewrite run_bind by exact E1.
    destruct (IH fuel (s + 1) t1 Hs Ha ltac:(lia) Ht1) as (t2 & E2 & Ht2 & H2).
    exists t2. split; [done|]. split; [done|]. intros d Hd. rewrite H2, H1 by done.
    unfold mem_char. destruct (Z.eqb_spec d c) as [->|Hne].
    + rewrite (bool_decide_true (c ∈ c :: cs)) by (rewrite elem_of_cons; by left).
      case_bool_decide; rewrite ?Hf, ?Hff; done.
    + rewrite Hf. f_equal. apply bool_decide_ext. rewrite elem_of_cons. tauto.
Qed.

Lemma find_prefix_run m t cs : forall s,
  cstr m s cs -> ascii cs -> table_ok t -> table_bit t 0 = false ->
  find_prefix s t m = Ret (s + Z.of_nat (prefix_len (table_bit t) cs), m).
Proof.
  unfold find_prefix, with_fuel, ascii. intros s Hs. pose proof (cstr_fuel _ _ _ Hs) as Hf.
  revert s Hs Hf. generalize (mem_fuel m). induction cs as [|c cs IH]; intros [|fuel] s Hs Hf Ha Ht H0;
    cbn in Hf; try lia; cbn [find_prefix_loop prefix_len].
  - apply cstr_nil in Hs as [_ Hs]. crun run_loadc. change (s8 0) with 0.
    erewrite run_bind; [|apply IS_SET_run; [done|lia]]. rewrite H0. cbn. by rewrite Z.add_0_r.
  - apply cstr_cons in Hs as (? & Hs0 & Hc & Hs). apply Forall_cons in Ha as [Hc' Ha].
    crun run_loadc. rewrite ascii_s8 by lia. erewrite run_bind; [|apply IS_SET_run; [done|lia]].
    destruct (table_bit t c); cbn [negb].
    + rewrite IH by (done || lia). do 2 f_equal. lia.
    + by rewrite Z.add_0_r.
Qed.

Lemma prefix_len_ext p q l : Forall (fun c => p c = q c) l -> prefix_len p l = prefix_len q l.
Proof. induction 1 as [|c l E _ IH]; cbn; [done|]. by rewrite E, IH. Qed.

Lemma empty_table : table_ok (replicate WORD_COUNT 0) /\
  forall d, 0 <= d < 256 -> table_bit (replicate WORD_COUNT 0) d = false.
Proof.
  split; [split; [done|apply Forall_replicate; unfold is_u32; lia]|]. intros d Hd. apply negb_true_iff.
  by apply (byte_forall (fun d => negb (table_bit (replicate WORD_COUNT 0) d))).
Qed.

Lemma full_table : table_ok (replicate WORD_COUNT 4294967295) /\
  forall d, 0 <= d < 256 -> table_bit (replicate WORD_COUNT 4294967295) d = true.
Proof.
  split; [split; [done|apply Forall_replicate; unfold is_u32; lia]|].
  by apply (byte_forall (fun d => table_bit (replicate WORD_COUNT 4294967295) d)).
Qed.

Lemma ascii_range cs c : ascii cs -> c ∈ cs -> 0 < c < 128.
Proof. unfold ascii. rewrite Forall_forall. auto. Qed.

Lemma strspn_run m s1 s2 cs1 cs2 :
  cstr m s1 cs1 -> cstr m s2 cs2 -> ascii cs1 -> ascii cs2 ->
  strspn s1 s2 m = Ret (Z.of_nat (prefix_len (mem_char cs2) cs1), m).
Proof.
  intros H1 H2 A1 A2. unfold strspn. destruct empty_table as [He Hb].
  destruct (load_bitmap_run SET_BIT orb m SET_BIT_op ltac:(done) ltac:(done)
              cs2 (mem_fuel m) s2 _ H2 A2 (cstr_fuel _ _ _ H2) He) as (t & E & Ht & Hd).
  unfold with_fuel at 1. erewrite run_bind by exact E.
  assert (Hbit : forall d, 0 <= d < 256 -> table_bit t d = mem_char cs2 d).
  { intros d Hdr. by rewrite Hd, Hb, orb_false_r. }
  erewrite run_bind; [|apply (find_prefix_run m t cs1); [done|done|done|]].
  - rewrite (prefix_len_ext _ (mem_char cs2)).
    + erewrite run_bind; [|apply run_assert; apply Z.leb_le; lia]. unfold mret, C_ret. do 2 f_equal. lia.
    + eapply Forall_impl; [exact A1|]. cbn. intros c Hc. apply Hbit. lia.
  - rewrite Hbit by lia. apply bool_decide_false. intros Hin. apply (ascii_range _ _ A2) in Hin. lia.
Qed.

Lemma strcspn_run m s1 s2 cs1 cs2 :
  cstr m s1 cs1 -> cstr m s2 cs2 -> ascii cs1 -> ascii cs2 ->
  strcspn s1 s2 m = Ret (Z.of_nat (prefix_len (fun c => negb (mem_char cs2 c)) cs1), m).
Proof.
  intros H1 H2 A1 A2. unfold strcspn. destruct full_table as [He Hb].
  destruct (load_bitmap_run CLEAR_BIT (fun e b => negb e && b) m CLEAR_BIT_op ltac:(done) ltac:(done)
              cs2 (mem_fuel m) s2 _ H2 A2 (cstr_fuel _ _ _ H2) He) as (t & E & Ht & Hd).
  unfold with_fuel at 1. erewrite run_bind by exact E.
  destruct (CLEAR_BIT_run t 0 m Ht ltac:(lia)) as (t' & E' & Ht' & Hd'). erewrite run_bind by exact E'.
  erewrite run_bind; [|apply (find_prefix_run m t' cs1); [done|done|done|]].
  - rewrite (prefix_len_ext _ (fun c => negb (mem_char cs2 c))).
    + erewrite run_bind; [|apply run_assert; apply Z.leb_le; lia]. unfold mret, C_ret. do 2 f_equal. lia.
    + eapply Forall_impl; [exact A1|]. cbn. intros c Hc.
      rewrite Hd', Hd, Hb, andb_true_r by lia. rewrite (proj2 (Z.eqb_neq c 0)) by lia. done.
  - rewrite Hd' by lia. done.
Qed.

Lemma strpbrk_run m s1 s2 cs1 cs2 :
  cstr m s1 cs1 -> cstr m s2 cs2 -> ascii cs1 -> ascii cs2 ->
  strpbrk s1 s2 m = Ret (match find_index (mem_char cs2) cs1 with
                         | Some i => s1 + Z.of_nat i
                         | None => NULL
                         end, m).
Proof.
  intros H1 H2 A1 A2. unfold strpbrk. destruct empty_table as [He Hb].
  destruct (load_bitmap_run SET_BIT orb m SET_BIT_op ltac:(done) ltac:(done)
              cs2 (mem_fuel m) s2 _ H2 A2 (cstr_fuel _ _ _ H2) He) as (t & E & Ht & Hd).
  unfold with_fuel at 1. erewrite run_bind by exact E. unfold with_fuel.
  pose proof (cstr_fuel _ _ _ H1) as Hf. revert s1 H1 A1 Hf. unfold ascii. generalize (mem_fuel m).
  clear E. induction cs1 as [|c cs1 IH]; intros [|fuel] s1 H1 A1 Hf; cbn in Hf; try lia;
    cbn [strpbrk_loop find_index].
  - apply cstr_nil in H1 as [_ H1]. crun run_loadc. done.
  - apply cstr_cons in H1 as (? & Hs0 & Hc & H1). apply Forall_cons in A1 as [Hc' A1].
    crun run_loadc. rewrite s8_nonzero, ascii_s8 by lia.
    erewrite run_bind; [|apply IS_SET_run; [done|lia]]. rewrite Hd, Hb, orb_false_r by lia.
    destruct (mem_char cs2 c).
    + by rewrite Z.add_0_r.
    + rewrite IH by (done || lia). destruct (find_index _ cs1); cbn; [|done]. do 2 f_equal. lia.
Qed.

(** ** strstr: the Horspool search *)

Section Strstr.
Context (m : mem) (text pattern : Z) (ts ps : list Z).
Context (Htext : cstr m text ts) (Hpat : cstr m pattern ps) (At : ascii ts) (Ap : ascii ps).
(** The lengths are held in an [int]. *)
Context (Hint : Z.of_nat (length ps) <= 2147483648).

Lemma last_index_int :
  (0 < length ps)%nat -> s32 (u32 (Z.of_nat (length ps) - 1)) = Z.of_nat (length ps) - 1.
Proof. intros. rewrite u32_small, s32_small by lia. done. Qed.

(** The skip table after the first [n] characters of the pattern: the shift
    for [c] is positive, and shifting by less cannot align a [c] of the
    pattern with the end of the window. *)
Definition skip_ok (n : nat) (skip : list Z) : Prop :=
  length skip = 255%nat /\
  forall c, 0 <= c < 255 -> exists k, skip !! Z.to_nat c = Some k /\
    0 < k <= Z.of_nat (length ps) /\
    forall j : nat, (j < n)%nat -> Z.of_nat (length ps) - 1 - k < Z.of_nat j -> ps !! j <> Some c.

Lemma pattern_char (j : nat) c : ps !! j = Some c -> 0 < c < 128 /\ loadc (pattern + Z.of_nat j) m = Ret (c, m).
Proof.
  intros Hj. pose proof (Forall_lookup_1 _ _ _ _ Ap Hj) as Hr. cbn in Hr. split; [done|].
  rewrite <- (ascii_s8 c) by lia. apply run_loadc. by apply cstr_bytes in Hpat; apply Hpat in Hj.
Qed.

Lemma text_char (j : nat) c : ts !! j = Some c -> 0 < c < 128 /\ loadc (text + Z.of_nat j) m = Ret (c, m).
Proof.
  intros Hj. pose proof (Forall_lookup_1 _ _ _ _ At Hj) as Hr. cbn in Hr. split; [done|].
  rewrite <- (ascii_s8 c) by lia. apply run_loadc. by apply cstr_bytes in Htext; apply Htext in Hj.
Qed.

Lemma fill_skip_run n : forall i skip,
  (i + n < length ps)%nat -> skip_ok i skip ->
  exists skip', fill_skip n pattern (Z.of_nat (length ps)) (Z.of_nat i) skip m = Ret (skip', m) /\
    skip_ok (i + n) skip'.
Proof.
  induction n as [|n IH]; intros i skip Hn [Hl Hs]; cbn [fill_skip].
  - exists skip. rewrite Nat.add_0_r. done.
  - destruct (lookup_lt_is_Some_2 ps i) as [p Hp]; [lia|].
    destruct (pattern_char i p Hp) as [Hr E]. erewrite run_bind by exact E.
    pose proof (cstr_range _ _ _ Hpat).
    erewrite run_bind; [|apply table_set_run; rewrite Hl; lia]. rewrite u32_small by lia.
    destruct (IH (S i) (<[Z.to_nat p := Z.of_nat (length ps) - Z.of_nat i - 1]> skip))
      as (skip' & E' & Hs'); [lia| |].
    2:{ exists skip'. rewrite Nat2Z.inj_succ in E'. split; [exact E'|]. by rewrite Nat.add_succ_r. }
    split; [by rewrite length_insert|]. intros c Hc.
    destruct (decide (c = p)) as [->|Hne].
    + eexists. rewrite list_lookup_insert_eq by lia. split; [done|]. split; [lia|].
      intros j Hj Hgt. lia.
    + rewrite list_lookup_insert_ne by lia. destruct (Hs c Hc) as (k & Hk & Hkr & Hkj).
      exists k. split; [done|]. split; [done|]. intros j Hj Hgt Hpj.
      destruct (decide (j = i)) as [->|]; [congruence|]. apply (Hkj j); [lia|done|done].
Qed.

(** The backwards scan: [-1] exactly when the first [n] characters match. *)
Lemma match_back_run (t n : nat) :
  (n <= length ps)%nat -> (t + length ps <= length ts)%nat ->
  exists r, match_back n pattern (text + Z.of_nat t) m = Ret (r, m) /\
    (r < 0 <-> take n (drop t ts) = take n ps).
Proof.
  intros Hn Ht. induction n as [|n IH]; cbn [match_back].
  - exists (-1). split; [done|]. split; [done|lia].
  - destruct (lookup_lt_is_Some_2 ps n) as [p Hp]; [lia|].
    destruct (lookup_lt_is_Some_2 ts (t + n)) as [c Hc]; [lia|].
    destruct (pattern_char n p Hp) as [_ E1]. destruct (text_char (t + n) c Hc) as [_ E2].
    erewrite run_bind by exact E1. rewrite Nat2Z.inj_add, Z.add_assoc in E2. erewrite run_bind by exact E2.
    assert (Hd : drop t ts !! n = Some c) by by rewrite lookup_drop.
    rewrite (take_S_r _ _ _ Hp), (take_S_r _ _ _ Hd).
    destruct (Z.eqb_spec p c) as [->|Hne].
    + destruct IH as (r & E & Hr); [lia|]. exists r. split; [done|]. rewrite Hr.
      split; [congruence|]. intros H%app_inj_tail. naive_solver.
    + eexists. split; [done|]. split; [lia|]. intros H%app_inj_tail. naive_solver.
Qed.

(** A shift by less than the table's entry cannot produce a match. *)
Lemma skip_sound (t : nat) c skip k d :
  skip_ok (length ps - 1) skip -> (t + length ps <= length ts)%nat ->
  ts !! (t + (length ps - 1))%nat = Some c -> (0 < length ps)%nat ->
  skip !! Z.to_nat c = Some k -> 0 < c < 128 ->
  0 < d < k -> ~ occurs ps ts (t + Z.to_nat d).
Proof.
  intros [_ Hs] Ht Hc Hp Hk Hcr Hd Ho.
  destruct (Hs c ltac:(lia)) as (k' & Hk' & Hkr & Hkj). simplify_eq.
  apply (Hkj (length ps - 1 - Z.to_nat d)%nat); [lia|lia|].
  pose proof (f_equal (fun l => l !! (length ps - 1 - Z.to_nat d)%nat) Ho) as E. cbn beta in E.
  rewrite <- E, lookup_take_lt, lookup_drop by lia.
  rewrite <- Hc. f_equal. lia.
Qed.

Lemma occurs_bound i : occurs ps ts i -> (0 < length ps)%nat -> (i + length ps <= length ts)%nat.
Proof.
  intros H Hp. apply (f_equal length) in H. rewrite length_take, length_drop in H. lia.
Qed.

Lemma strstr_loop_run skip fuel : forall t : nat,
  (0 < length ps)%nat -> skip_ok (length ps - 1) skip ->
  (t <= length ts + length ps)%nat -> (length ts + 1 < fuel + t)%nat -> (0 < fuel)%nat ->
  (forall i, (i < t)%nat -> ~ occurs ps ts i) ->
  exists t' : nat,
    strstr_loop fuel (text + Z.of_nat t) pattern (Z.of_nat (length ps))
      (text + Z.of_nat (length ts) - Z.of_nat (length ps) + 1) skip m = Ret (text + Z.of_nat t', m) /\
    (forall i, (i < t')%nat -> ~ occurs ps ts i) /\
    ((t' + length ps <= length ts)%nat -> occurs ps ts t').
Proof.
  induction fuel as [|fuel IH]; intros t Hp Hs Htb Hf Hf0 Hno; [lia|]. cbn [strstr_loop].
  destruct (Z.ltb_spec (text + Z.of_nat t)
              (text + Z.of_nat (length ts) - Z.of_nat (length ps) + 1)) as [Hlt|Hge].
  2:{ exists t. split; [done|]. split; [done|]. lia. }
  rewrite last_index_int, Z.sub_add, Nat2Z.id by done.
  destruct (match_back_run t (length ps)) as (r & E & Hr); [lia|lia|].
  erewrite run_bind by exact E. rewrite (take_ge ps) in Hr by lia.
  destruct (Z.ltb_spec r 0) as [Hr0|Hr0].
  { exists t. split; [done|]. split; [done|]. intros _. apply Hr in Hr0.
    exact Hr0. }
  destruct (lookup_lt_is_Some_2 ts (t + (length ps - 1))%nat) as [c Hc]; [lia|].
  destruct (text_char _ c Hc) as [Hcr Ec].
  replace (text + Z.of_nat (t + (length ps - 1))%nat) with (text + Z.of_nat t + Z.of_nat (length ps) - 1)
    in Ec by lia. erewrite run_bind by exact Ec.
  destruct (proj2 Hs c ltac:(lia)) as (k & Hk & Hkr & _).
  erewrite run_bind; [|apply table_get_run; [lia|exact Hk]].
  erewrite run_bind; [|apply run_assert; apply Z.ltb_lt; lia].
  replace (text + Z.of_nat t + k) with (text + Z.of_nat (t + Z.to_nat k)%nat) by lia.
  apply IH; [done|done|lia|lia|lia|].
  intros i Hi. destruct (decide (i < t)%nat); [by apply Hno|].
  destruct (decide (i = t)) as [->|].
  - intros Ho. apply Hr in Ho. lia.
  - replace i with (t + Z.to_nat (Z.of_nat (i - t)))%nat by lia.
    eapply skip_sound; [exact Hs|lia|exact Hc|done|exact Hk|lia|lia].
Qed.

Lemma initial_skip : (0 < length ps)%nat ->
  skip_ok 0 (replicate (Z.to_nat UCHAR_MAX) (Z.of_nat (length ps))).
Proof.
  intros Hp. split; [by rewrite length_replicate|]. intros c Hc.
  exists (Z.of_nat (length ps)). split; [apply lookup_replicate_2; unfold UCHAR_MAX; lia|].
  split; [lia|]. lia.
Qed.

Lemma strstr_empty : ps = [] -> strstr text pattern m = Ret (text, m).
Proof.
  intros E. unfold strstr. erewrite run_bind; [|eapply strlen_run, Hpat].
  erewrite run_bind; [|eapply strlen_run, Htext]. rewrite E. cbn [length Z.of_nat].
  change (Z.to_nat (s32 (u32 (0 - 1)))) with 0%nat. erewrite run_bind by done.
  erewrite (run_bind _ _ m text m).
  - cbn beta. zif. done.
  - cbn [strstr_loop]. zif. done.
Qed.

Lemma strstr_run :
  exists r, strstr text pattern m = Ret (r, m) /\
    ((exists i : nat, r = text + Z.of_nat i /\ occurs ps ts i /\
        forall j, (j < i)%nat -> ~ occurs ps ts j) \/
     (r = NULL /\ forall j, (j <= length ts)%nat -> ~ occurs ps ts j)).
Proof.
  destruct (decide (ps = [])) as [E|E].
  { exists text. split; [by apply strstr_empty|]. left. exists 0%nat.
    split; [lia|]. split; [by rewrite E|lia]. }
  assert (Hp : (0 < length ps)%nat) by (destruct ps; [done|cbn; lia]).
  unfold strstr. erewrite run_bind; [|eapply strlen_run, Hpat].
  erewrite run_bind; [|eapply strlen_run, Htext]. rewrite last_index_int by done.
  destruct (fill_skip_run (Z.to_nat (Z.of_nat (length ps) - 1)) 0
              (replicate (Z.to_nat UCHAR_MAX) (Z.of_nat (length ps)))) as (skip & Es & Hs);
    [lia|by apply initial_skip|].
  erewrite run_bind by exact Es.
  destruct (strstr_loop_run skip (S (S (length ts))) 0) as (t & El & Hno & Hocc);
    [done| |lia|lia|lia|lia|].
  { by replace (0 + Z.to_nat (Z.of_nat (length ps) - 1))%nat with (length ps - 1)%nat in Hs by lia. }
  rewrite Z.add_0_r in El. rewrite Nat2Z.id. erewrite run_bind by exact El.
  eexists. split; [done|].
  destruct (Z.ltb_spec (text + Z.of_nat t)
              (text + Z.of_nat (length ts) - Z.of_nat (length ps) + 1)) as [Hlt|Hge].
  - left. exists t. split; [done|]. split; [apply Hocc; lia|done].
  - right. split; [done|]. intros j _ Ho. apply occurs_bound in Ho as Hb; [|done].
    apply (Hno j); [lia|done].
Qed.

End Strstr.
