(* ===== verification/CStringThms.v ===== *)
(** * What libc's memory and string routines guarantee

    The headline theorems of the component, each with a concrete instance. *)

From S2P Require Import Prelude CMem CString CStringMem CStringStr CStringSearch.

(** "hello world" at 100, "llo" at 200, 16 more bytes at 300. *)
Definition demo : mem :=
  write_bytes (write_bytes (write_bytes ∅ 100
    [104; 101; 108; 108; 111; 32; 119; 111; 114; 108; 100; 0]) 200 [108; 108; 111; 0])
    300 (replicate 16 7).

Definition hello : list Z := [104; 101; 108; 108; 111; 32; 119; 111; 114; 108; 100].
Definition llo : list Z := [108; 108; 111].

(** [memmove] copies the bytes the source held before the call, whatever
    the overlap of the two regions, and changes nothing else. *)
Theorem memmove_any_overlap m d s n bs :
  0 < d -> 0 < s -> n = Z.of_nat (length bs) ->
  bytes_at m s bs -> Forall is_u8 bs -> mapped m d n ->
  exists m', memmove d s n m = Ret (d, m') /\ bytes_at m' d bs /\
    forall x, ~ (d <= x < d + n) -> m' !! x = m !! x.
Proof.
  intros Hd Hs -> Hb Hu Hm. exists (write_bytes m d bs).
  split; [by apply memmove_run|]. split; [apply bytes_at_write|].
  intros x Hx. rewrite lookup_write_bytes. by rewrite decide_False.
Qed.

Lemma memmove_any_overlap_witness :
  exists m', memmove 102 100 6 demo = Ret (102, m') /\
    bytes_at m' 102 [104; 101; 108; 108; 111; 32] /\
    forall x, ~ (102 <= x < 102 + 6) -> m' !! x = demo !! x.
Proof.
  apply (memmove_any_overlap demo 102 100 6 [104; 101; 108; 108; 111; 32]);
    [lia|lia|reflexivity|by_eval|by_eval|by_eval].
Defined.

(** [memset], which fills the unaligned head, then whole words, then the
    tail, leaves exactly [count] copies of the character's low byte in the
    buffer and returns it, for every alignment and count. *)
Theorem memset_fills m buffer ch count :
  0 <= count -> mapped m buffer count ->
  exists m', memset buffer ch count m = Ret (buffer, m') /\
    (forall x, buffer <= x < buffer + count -> m' !! x = Some (u8 ch)) /\
    (forall x, ~ (buffer <= x < buffer + count) -> m' !! x = m !! x).
Proof.
  intros Hn Hm. eexists. split; [by apply memset_run|].
  split; intros x Hx; rewrite lookup_write_bytes, length_replicate, Z2Nat.id by done.
  - rewrite decide_True by done. apply lookup_replicate_2. lia.
  - by rewrite decide_False.
Qed.

Lemma memset_fills_witness :
  exists m', memset 301 321 13 demo = Ret (301, m') /\
    (forall x, 301 <= x < 301 + 13 -> m' !! x = Some (u8 321)) /\
    (forall x, ~ (301 <= x < 301 + 13) -> m' !! x = demo !! x).
Proof. apply (memset_fills demo 301 321 13); [lia|by_eval]. Defined.

(** C11. For a text and a pattern of characters 1 to 127, the pattern no longer than
    2^31, [strstr], a Horspool search with a skip table, returns the first
    occurrence of the pattern, and [NULL] exactly when there is none; the
    search ends and its assertion [shift > 0] holds. Characters above 127 are
    excluded: the code indexes its skip table with a signed char, out of
    bounds for them. *)
Theorem strstr_first_occurrence m text pattern ts ps :
  cstr m text ts -> cstr m pattern ps -> ascii ts -> ascii ps ->
  Z.of_nat (length ps) <= 2147483648 ->
  exists r, strstr text pattern m = Ret (r, m) /\
    ((exists i : nat, r = text + Z.of_nat i /\ occurs ps ts i /\
        forall j, (j < i)%nat -> ~ occurs ps ts j) \/
     (r = NULL /\ forall j, (j <= length ts)%nat -> ~ occurs ps ts j)).
Proof. intros. by apply strstr_run. Qed.

Lemma strstr_first_occurrence_witness :
  exists r, strstr 100 200 demo = Ret (r, demo) /\
    ((exists i : nat, r = 100 + Z.of_nat i /\ occurs llo hello i /\
        forall j, (j < i)%nat -> ~ occurs llo hello j) \/
     (r = NULL /\ forall j, (j <= length hello)%nat -> ~ occurs llo hello j)).
Proof.
  apply (strstr_first_occurrence demo 100 200 hello llo);
    [by_eval|by_eval|by_eval|by_eval|cbn; lia].
Defined.

(** [strspn] and [strcspn] return the length of the longest prefix made of
    characters of the set, respectively of characters outside it: the
    bit table agrees with the set for every 7-bit character. *)
Theorem strspn_strcspn_prefix m s1 s2 cs1 cs2 :
  cstr m s1 cs1 -> cstr m s2 cs2 -> ascii cs1 -> ascii cs2 ->
  strspn s1 s2 m = Ret (Z.of_nat (prefix_len (mem_char cs2) cs1), m) /\
  strcspn s1 s2 m = Ret (Z.of_nat (prefix_len (fun c => negb (mem_char cs2 c)) cs1), m).
Proof. intros. split; [by apply strspn_run|by apply strcspn_run]. Qed.

Lemma strspn_strcspn_prefix_witness :
  strspn 100 200 demo = Ret (Z.of_nat (prefix_len (mem_char llo) hello), demo) /\
  strcspn 100 200 demo
    = Ret (Z.of_nat (prefix_len (fun c => negb (mem_char llo c)) hello), demo).
Proof. apply (strspn_strcspn_prefix demo 100 200); by_eval. Defined.

(** [strcmp] on 7-bit strings: negative, zero or positive as the first
    string is lexicographically smaller than, equal to or greater than the
    second. *)
Theorem strcmp_lexicographic m s1 s2 cs1 cs2 :
  cstr m s1 cs1 -> cstr m s2 cs2 -> ascii cs1 -> ascii cs2 ->
  exists r, strcmp s1 s2 m = Ret (r, m) /\
    (r < 0 <-> lex_lt cs1 cs2 = true) /\ (r = 0 <-> cs1 = cs2) /\
    (0 < r <-> lex_lt cs2 cs1 = true).
Proof.
  intros H1 H2 A1 A2. eexists. split; [by eapply strcmp_run|]. by apply first_diff_lex.
Qed.

Lemma strcmp_lexicographic_witness :
  exists r, strcmp 100 200 demo = Ret (r, demo) /\
    (r < 0 <-> lex_lt hello llo = true) /\ (r = 0 <-> hello = llo) /\
    (0 < r <-> lex_lt llo hello = true).
Proof. apply (strcmp_lexicographic demo 100 200); by_eval. Defined.

(** [strncat] appends at most [n] characters of the second string to the
    first and terminates the result; the second string is not changed. *)
Theorem strncat_appends m s1 s2 n cs1 cs2 k :
  k = Z.min n (Z.of_nat (length cs2)) ->
  cstr m s1 cs1 -> cstr m s2 cs2 -> 0 <= n ->
  mapped m (s1 + Z.of_nat (length cs1)) (k + 1) ->
  s1 + Z.of_nat (length cs1) + k < 4294967296 ->
  s1 + Z.of_nat (length cs1) + k + 1 <= s2 \/ s2 + Z.of_nat (length cs2) < s1 ->
  exists m', strncat s1 s2 n m = Ret (s1, m') /\
    cstr m' s1 (cs1 ++ take (Z.to_nat n) cs2) /\ cstr m' s2 cs2.
Proof.
  intros Hk H1 H2 Hn Hm Hr Hov. eexists. split; [by eapply strncat_run|]. split.
  - apply cstr_extend; [done|by eapply Forall_take, cstr_chars|]. rewrite length_take. lia.
  - eapply cstr_frame; [|exact H2]. intros x Hx.
    rewrite lookup_write_bytes, decide_False; [done|]. rewrite length_app, length_take. cbn. lia.
Qed.

Lemma strncat_appends_witness :
  exists m', strncat 200 100 2 (write_bytes demo 203 (replicate 3 0)) = Ret (200, m') /\
    cstr m' 200 (llo ++ take (Z.to_nat 2) hello) /\ cstr m' 100 hello.
Proof.
  apply (strncat_appends _ 200 100 2 llo hello 2);
    [reflexivity|by_eval|by_eval|lia|by_eval|cbn; lia|cbn; lia].
Defined.

(** [strcpy] copies the characters but not the terminator, although its
    comment says that the result is always terminated: the byte after the
    copied characters keeps its old value. *)
Theorem strcpy_leaves_terminator m s1 s2 cs :
  0 < s1 -> cstr m s2 cs -> mapped m s1 (Z.of_nat (length cs)) ->
  s1 + Z.of_nat (length cs) <= s2 \/ s2 + Z.of_nat (length cs) < s1 ->
  exists m', strcpy s1 s2 m = Ret (s1, m') /\ bytes_at m' s1 cs /\
    m' !! (s1 + Z.of_nat (length cs)) = m !! (s1 + Z.of_nat (length cs)).
Proof.
  intros H0 Hs Hm Hov. eexists. split; [apply strcpy_run; [done|done|done|lia]|].
  split; [apply bytes_at_write|]. rewrite lookup_write_bytes, decide_False; [done|lia].
Qed.

(** In particular the result need not be a string: 7 is left after "llo". *)
Lemma strcpy_leaves_terminator_witness :
  exists m', strcpy 300 200 demo = Ret (300, m') /\ bytes_at m' 300 llo /\
    m' !! (300 + Z.of_nat (length llo)) = demo !! (300 + Z.of_nat (length llo)).
Proof.
  apply (strcpy_leaves_terminator demo 300 200 llo); [lia|by_eval|by_eval|cbn; lia].
Defined.
