(* ===== verification/Ctype.v ===== *)
(** * Character classification: [src/src/lib/libc/ctype.c]

    The 128-entry table of class bits and the routines that index it with
    [(unsigned char)(c)]. *)

From S2P Require Import Prelude CMem.

Definition CONTROL : Z := 0x01.
Definition DIGIT : Z := 0x02.
Definition HEX_DIGIT : Z := 0x04.
Definition GRAPHIC : Z := 0x08.
Definition LOWER : Z := 0x10.
Definition PUNCTUATION : Z := 0x20.
Definition UPPER : Z := 0x40.
Definition WHITESPACE : Z := 0x80.

Definition graphic_punctuation : Z := Z.lor GRAPHIC PUNCTUATION.

(** The rows of [ctype_table], runs of equal entries as [replicate]. *)
Definition ctype_table : list Z :=
  replicate 9 CONTROL ++                                        (* 0x00 - 0x08 *)
  replicate 5 (Z.lor CONTROL WHITESPACE) ++                     (* 0x09 - 0x0d *)
  replicate 18 CONTROL ++                                       (* 0x0e - 0x1f *)
  [WHITESPACE] ++                                               (* 0x20, space *)
  replicate 15 graphic_punctuation ++                           (* 0x21 - 0x2f *)
  replicate 10 (Z.lor (Z.lor GRAPHIC DIGIT) HEX_DIGIT) ++       (* 0x30 - 0x39, 0-9 *)
  replicate 7 graphic_punctuation ++                            (* 0x3a - 0x40 *)
  replicate 6 (Z.lor (Z.lor GRAPHIC UPPER) HEX_DIGIT) ++        (* 0x41 - 0x46, A-F *)
  replicate 20 (Z.lor GRAPHIC UPPER) ++                         (* 0x47 - 0x5a, G-Z *)
  replicate 6 graphic_punctuation ++                            (* 0x5b - 0x60 *)
  replicate 26 (Z.lor GRAPHIC LOWER) ++                         (* 0x61 - 0x7a, a-z *)
  replicate 4 graphic_punctuation ++                            (* 0x7b - 0x7e *)
  [CONTROL].                                                    (* 0x7f *)

Definition CTYPE_TABLE (c : Z) : C Z := table_get ctype_table (u8 c).

(** The routines that test class bits return the masked table entry. *)
Definition ctype_test (mask c : Z) : C Z := t ← CTYPE_TABLE c; mret (Z.land t mask).

Definition isalnum : Z -> C Z := ctype_test (Z.lor (Z.lor LOWER UPPER) DIGIT).
Definition isalpha : Z -> C Z := ctype_test (Z.lor LOWER UPPER).
Definition isblank (c : Z) : C Z := mret (if (c =? 32) || (c =? 9) then 1 else 0).
Definition iscntrl : Z -> C Z := ctype_test CONTROL.
Definition isdigit : Z -> C Z := ctype_test DIGIT.
Definition isgraph : Z -> C Z := ctype_test GRAPHIC.
Definition islower : Z -> C Z := ctype_test LOWER.
Definition isprint (c : Z) : C Z :=
  t ← CTYPE_TABLE c;
  mret (if negb (Z.land t GRAPHIC =? 0) || (c =? 32) then 1 else 0).
Definition ispunct : Z -> C Z := ctype_test PUNCTUATION.
Definition isspace : Z -> C Z := ctype_test WHITESPACE.
Definition isupper : Z -> C Z := ctype_test UPPER.
Definition isxdigit : Z -> C Z := ctype_test HEX_DIGIT.

Definition tolower (c : Z) : C Z :=
  u ← isupper c;
  mret (if negb (u =? 0) then c - 65 + 97 else c).

Definition toupper (c : Z) : C Z :=
  l ← islower c;
  mret (if negb (l =? 0) then c + 65 - 97 else c).

(** ** Reference classification of the 7-bit characters *)

Definition between (lo hi c : Z) : bool := (lo <=? c) && (c <=? hi).
Definition ref_upper : Z -> bool := between 65 90.
Definition ref_lower : Z -> bool := between 97 122.
Definition ref_digit : Z -> bool := between 48 57.
Definition ref_space (c : Z) : bool := (c =? 32) || between 9 13 c.

(** The entry of the table for a 7-bit character. *)
Definition class_of (c : Z) : Z := ctype_table !!! Z.to_nat c.

Lemma CTYPE_TABLE_run m c : 0 <= c < 128 -> CTYPE_TABLE c m = Ret (class_of c, m).
Proof.
  intros Hc. unfold CTYPE_TABLE. rewrite u8_small by lia. apply table_get_run; [lia|].
  apply list_lookup_lookup_total_lt. vm_compute length. lia.
Qed.

Lemma ctype_test_run m mask c :
  0 <= c < 128 -> ctype_test mask c m = Ret (Z.land (class_of c) mask, m).
Proof. intros Hc. unfold ctype_test. crun CTYPE_TABLE_run. done. Qed.

(** A class bit is set exactly for the characters of the reference class. *)
Lemma class_bits (mask : Z) (p : Z -> bool) :
  forallb (fun c => Bool.eqb (negb (Z.land (class_of c) mask =? 0)) (p c)) (seqZ 0 128) = true ->
  forall c, 0 <= c < 128 -> negb (Z.land (class_of c) mask =? 0) = p c.
Proof.
  intros H c Hc. apply Bool.eqb_prop.
  by apply (ascii_forall (fun c => Bool.eqb (negb (Z.land (class_of c) mask =? 0)) (p c))).
Qed.

(** Running a test of a class on a 7-bit character. *)
Lemma class_test_run m mask p c :
  forallb (fun c => Bool.eqb (negb (Z.land (class_of c) mask =? 0)) (p c)) (seqZ 0 128) = true ->
  0 <= c < 128 -> exists v, ctype_test mask c m = Ret (v, m) /\ negb (v =? 0) = p c.
Proof. intros H Hc. eexists. split; [by apply ctype_test_run|]. by apply class_bits. Qed.

Lemma isdigit_run m c : 0 <= c < 128 ->
  exists v, isdigit c m = Ret (v, m) /\ negb (v =? 0) = ref_digit c.
Proof. by apply class_test_run. Qed.

Lemma isupper_run m c : 0 <= c < 128 ->
  exists v, isupper c m = Ret (v, m) /\ negb (v =? 0) = ref_upper c.
Proof. by apply class_test_run. Qed.

Lemma islower_run m c : 0 <= c < 128 ->
  exists v, islower c m = Ret (v, m) /\ negb (v =? 0) = ref_lower c.
Proof. by apply class_test_run. Qed.

Lemma isspace_run m c : 0 <= c < 128 ->
  exists v, isspace c m = Ret (v, m) /\ negb (v =? 0) = ref_space c.
Proof. by apply class_test_run. Qed.

Lemma isalpha_run m c : 0 <= c < 128 ->
  exists v, isalpha c m = Ret (v, m) /\ negb (v =? 0) = ref_upper c || ref_lower c.
Proof. by apply (class_test_run m _ (fun c => ref_upper c || ref_lower c)). Qed.

Lemma isalnum_run m c : 0 <= c < 128 ->
  exists v, isalnum c m = Ret (v, m) /\ negb (v =? 0) = ref_upper c || ref_lower c || ref_digit c.
Proof. by apply (class_test_run m _ (fun c => ref_upper c || ref_lower c || ref_digit c)). Qed.

Lemma isxdigit_run m c : 0 <= c < 128 ->
  exists v, isxdigit c m = Ret (v, m) /\ negb (v =? 0) = ref_digit c || between 65 70 c.
Proof. by apply (class_test_run m _ (fun c => ref_digit c || between 65 70 c)). Qed.

(** ** Theorems *)

(** On the 7-bit characters the letter, digit and whitespace tests agree
    with the ASCII ranges, and [tolower] and [toupper] are inverse to each
    other on letters. *)
Theorem ctype_ascii_classes m c :
  0 <= c < 128 ->
  (exists v, isalnum c m = Ret (v, m) /\ negb (v =? 0) = ref_upper c || ref_lower c || ref_digit c) /\
  (exists v, isspace c m = Ret (v, m) /\ negb (v =? 0) = ref_space c) /\
  (ref_upper c = true -> (tolower c ≫= toupper) m = Ret (c, m)) /\
  (ref_lower c = true -> (toupper c ≫= tolower) m = Ret (c, m)).
Proof.
  intros Hc. split; [by apply isalnum_run|]. split; [by apply isspace_run|].
  unfold tolower, toupper. split; intros Hr; pose proof Hr as Hr'; unfold ref_upper, ref_lower, between in Hr'; zbool.
  - destruct (isupper_run m c Hc) as (v & E & Hv). erewrite run_bind; [|erewrite run_bind by exact E; done].
    rewrite Hv, Hr. destruct (islower_run m (c - 65 + 97)) as (w & Ew & Hw); [lia|].
    erewrite run_bind by exact Ew. rewrite Hw. unfold ref_lower, between.
    rewrite !(proj2 (Z.leb_le _ _)) by lia. unfold mret, C_ret. cbn. do 2 f_equal. lia.
  - destruct (islower_run m c Hc) as (v & E & Hv). erewrite run_bind; [|erewrite run_bind by exact E; done].
    rewrite Hv, Hr. destruct (isupper_run m (c + 65 - 97)) as (w & Ew & Hw); [lia|].
    erewrite run_bind by exact Ew. rewrite Hw. unfold ref_upper, between.
    rewrite !(proj2 (Z.leb_le _ _)) by lia. unfold mret, C_ret. cbn. do 2 f_equal. lia.
Qed.

Lemma ctype_ascii_classes_witness :
  (exists v, isalnum 81 ∅ = Ret (v, ∅) /\ negb (v =? 0) = ref_upper 81 || ref_lower 81 || ref_digit 81) /\
  (exists v, isspace 81 ∅ = Ret (v, ∅) /\ negb (v =? 0) = ref_space 81) /\
  (ref_upper 81 = true -> (tolower 81 ≫= toupper) ∅ = Ret (81, ∅)) /\
  (ref_lower 81 = true -> (toupper 81 ≫= tolower) ∅ = Ret (81, ∅)).
Proof. apply (ctype_ascii_classes ∅ 81). lia. Defined.

(** The table ends at 0x7f: the test of any character code whose low byte
    is above it, [EOF] included, reads outside the table. *)
Theorem ctype_table_overrun m mask c :
  128 <= u8 c -> ctype_test mask c m = Trap (BadIndex (u8 c)).
Proof.
  intros Hc. unfold ctype_test. apply run_bind_trap. unfold CTYPE_TABLE, table_get.
  pose proof (u8_range c). zif. rewrite lookup_ge_None_2; [done|]. vm_compute length. lia.
Qed.

Lemma ctype_table_overrun_witness : isspace (-1) ∅ = Trap (BadIndex (u8 (-1))).
Proof. apply (ctype_table_overrun ∅ WHITESPACE (-1)). vm_compute; discriminate. Defined.

(** [isxdigit] accepts the decimal digits and the upper-case letters A to
    F only: the lower-case hexadecimal digits are rejected. *)
Theorem isxdigit_lowercase_rejected m c :
  97 <= c <= 102 -> isxdigit c m = Ret (0, m).
Proof.
  intros Hc. unfold isxdigit. rewrite ctype_test_run by lia. do 2 f_equal.
  assert (E : forallb (fun c => negb (between 97 102 c) || (Z.land (class_of c) HEX_DIGIT =? 0)) (seqZ 0 128) = true)
    by by vm_compute.
  pose proof (ascii_forall _ E c ltac:(lia)) as Hx. cbn beta in Hx. unfold between in Hx.
  rewrite !(proj2 (Z.leb_le _ _)) in Hx by lia. by apply Z.eqb_eq in Hx.
Qed.

Lemma isxdigit_lowercase_rejected_witness : isxdigit 97 ∅ = Ret (0, ∅).
Proof. apply (isxdigit_lowercase_rejected ∅ 97). lia. Defined.
