(* ===== verification/NumConv.v ===== *)
(** * Number conversion and random numbers

    [strtoul.c], [strtol.c], [atoi.c], [uitoa.c], [itoa.c] and [rand.c] of
    [src/src/lib/libc]. *)

From S2P Require Import Prelude CMem CString CStringMem CStringStr Ctype.

(** ** strtoul.c, strtol.c, atoi.c *)

(** [while (isspace( *nptr )) nptr++;] *)
Fixpoint skip_space (fuel : nat) (nptr : Z) : C Z :=
  match fuel with
  | O => fail OutOfFuel
  | S f =>
      c ← loadc nptr; sp ← isspace c;
      if negb (sp =? 0) then skip_space f (nptr + 1) else mret nptr
  end.

(** The value of a digit character, [None] for any other character. *)
Definition digit_value (c : Z) : C (option Z) :=
  d ← isdigit c;
  if negb (d =? 0) then mret (Some (s8 (c - 48)))
  else
    u ← isupper c;
    if negb (u =? 0) then mret (Some (s8 (c - 65 + 10)))
    else
      l ← islower c;
      if negb (l =? 0) then mret (Some (s8 (c - 97 + 10)))
      else mret None.

(** The digit loop: returns the value and the final [nptr]. *)
Fixpoint strtoul_digits (fuel : nat) (nptr base value : Z) : C (Z * Z) :=
  match fuel with
  | O => fail OutOfFuel
  | S f =>
      c ← loadc nptr;
      d ← digit_value c;
      match (d : option Z) with
      | None => mret (value, nptr)
      | Some v =>
          if v <? base
          then strtoul_digits f (nptr + 1) base (u32 (u32 (value * base) + v))
          else mret (value, nptr)
      end
  end.

(** The prefix: returns the base to use and the new [nptr]. *)
Definition strtoul_prefix (nptr base : Z) : C (Z * Z) :=
  let infer_base := base =? 0 in
  if infer_base || (base =? 16) then
    c ← loadc nptr;
    if c =? 48 then
      let nptr := nptr + 1 in
      c ← loadc nptr;
      if (c =? 120) || (c =? 88) then mret (16, nptr + 1)
      else if infer_base then mret (8, nptr)
      else mret (base, nptr)
    else if infer_base then mret (10, nptr)
    else mret (base, nptr)
  else mret (base, nptr).

(** The conversion without the final store: the value and the end of the
    number. *)
Definition strtoul_scan (nptr base : Z) : C (Z * Z) :=
  cassert ((base =? 0) || (2 <=? base));;
  cassert (base <? 36);;
  nptr ← with_fuel (fun fuel => skip_space fuel nptr);
  '(base, nptr) ← strtoul_prefix nptr base;
  with_fuel (fun fuel => strtoul_digits fuel nptr base 0).

Definition strtoul (nptr endptr base : Z) : C Z :=
  '(value, nptr) ← strtoul_scan nptr base;
  (if negb (endptr =? NULL) then store32 endptr nptr else mret tt);;
  mret value.

Definition strtol (nptr endptr base : Z) : C Z :=
  nptr ← with_fuel (fun fuel => skip_space fuel nptr);
  c ← loadc nptr;
  let '(negative, nptr) :=
    if c =? 43 then (false, nptr + 1)
    else if c =? 45 then (true, nptr + 1)
    else (false, nptr) in
  value ← strtoul nptr endptr base;
  let value := s32 value in
  mret (if (negative : bool) then s32 (- value) else value).

Definition atoi (c : Z) : C Z := strtol c NULL 0.

(** ** uitoa.c, itoa.c *)

Definition digit_char (remainder : Z) : Z :=
  if remainder <? 10 then 48 + remainder else 97 + (remainder - 10).

(** The [do ... while (value > 0)] loop: returns the final [s]. *)
Fixpoint uitoa_digits (fuel : nat) (value s radix : Z) : C Z :=
  match fuel with
  | O => fail OutOfFuel
  | S f =>
      store s (digit_char (value mod radix));;
      let value := value / radix in
      if 0 <? value then uitoa_digits f value (s + 1) radix else mret (s + 1)
  end.

(** A 32-bit value has at most 32 digits. *)
Definition uitoa (value string radix : Z) : C Z :=
  (if negb (string =? NULL) then
     (if radix =? 0 then fail BadArgument else mret tt);;
     s ← uitoa_digits 32 value string radix;
     store s 0;;
     strrev string;;
     mret tt
   else mret tt);;
  mret string.

(** [abs(value)] on an [int]. *)
Definition int_abs (value : Z) : Z := if value <? 0 then s32 (- value) else value.

Definition itoa (value string radix : Z) : C Z :=
  (if negb (string =? NULL) then
     s ← (if (value <? 0) && (radix =? 10)
          then store string 45;; mret (string + 1)
          else mret string);
     uitoa (u32 (int_abs value)) s radix;;
     mret tt
   else mret tt);;
  mret string.

(** ** rand.c *)

Definition PRNG_G : Z := 16807.
Definition PRNG_M : Z := 2147483647.

(** The state is [random_seed]; the result is the new seed. *)
Definition rand (random_seed : Z) : Z := u32 (u64 (PRNG_G * random_seed) mod PRNG_M).

Definition srand (seed : Z) : Z :=
  let seed := if seed =? 0 then u32 (seed + 1) else seed in
  seed mod PRNG_M.

(** ** Reference: positional notation *)

(** The digits of [v] in base [r], least significant first; at least one. *)
Fixpoint digits (fuel : nat) (r v : Z) : list Z :=
  match fuel with
  | O => []
  | S f => v mod r :: if 0 <? v / r then digits f r (v / r) else []
  end.

(** The characters of [v] in base [r], most significant first. *)
Definition numeral (r v : Z) : list Z := rev (digit_char <$> digits 32 r v).

(** The number that digits, most significant first, stand for. *)
Definition horner (r : Z) (ds : list Z) (acc : Z) : Z := fold_left (fun a d => a * r + d) ds acc.

Lemma digits_range fuel : forall r v, 2 <= r -> 0 <= v ->
  Forall (fun d => 0 <= d < r) (digits fuel r v).
Proof.
  induction fuel as [|f IH]; intros r v Hr Hv; cbn; [constructor|].
  constructor; [apply Z.mod_pos_bound; lia|].
  case_match; [|constructor]. apply IH; [done|]. apply Z.div_pos; lia.
Qed.

Lemma digits_length fuel : forall r v, (length (digits fuel r v) <= fuel)%nat.
Proof.
  induction fuel as [|f IH]; intros r v; cbn; [lia|]. case_match; cbn; [|lia].
  specialize (IH r (v / r)). lia.
Qed.

(** [k] digits are enough for a value below [r ^ k]. *)
Lemma digits_length_pow fuel : forall r v (k : nat), 2 <= r -> (0 < k)%nat ->
  0 <= v < r ^ Z.of_nat k -> (length (digits fuel r v) <= k)%nat.
Proof.
  induction fuel as [|f IH]; intros r v k Hr Hk Hv; cbn; [lia|].
  destruct (Z.ltb_spec 0 (v / r)) as [Hq|Hq]; cbn; [|lia].
  destruct k as [|[|k]]; [lia| |].
  - change (r ^ Z.of_nat 1) with (r ^ 1) in Hv. rewrite Z.pow_1_r in Hv. rewrite Z.div_small in Hq; lia.
  - apply le_n_S, IH; [done|lia|]. split; [lia|].
    rewrite Nat2Z.inj_succ, Z.pow_succ_r in Hv by lia. apply Z.div_lt_upper_bound; lia.
Qed.

Lemma horner_snoc r ds d acc : horner r (ds ++ [d]) acc = horner r ds acc * r + d.
Proof. unfold horner. by rewrite fold_left_app. Qed.

Lemma horner_digits fuel : forall r v, 2 <= r -> 0 <= v < r ^ Z.of_nat fuel -> (0 < fuel)%nat ->
  horner r (rev (digits fuel r v)) 0 = v.
Proof.
  induction fuel as [|f IH]; intros r v Hr Hv Hf; [lia|]. cbn [digits rev]. rewrite horner_snoc.
  pose proof (Z.div_mod v r ltac:(lia)). pose proof (Z.mod_pos_bound v r ltac:(lia)).
  destruct (Z.ltb_spec 0 (v / r)) as [Hq|Hq].
  - assert (Hlt : v / r < r ^ Z.of_nat f).
    { rewrite Nat2Z.inj_succ, Z.pow_succ_r in Hv by lia. apply Z.div_lt_upper_bound; lia. }
    rewrite IH; [lia|done|lia|]. destruct f; [cbn in Hlt; lia|lia].
  - cbn. assert (0 <= v / r) by (apply Z.div_pos; lia). nia.
Qed.

(** ** Lemmas on the conversions *)

Lemma digit_char_range d : 0 <= d < 36 -> 48 <= digit_char d < 128.
Proof. intros. unfold digit_char. case_match; zbool; lia. Qed.

(** The value of a 7-bit character as a digit. *)
Definition ref_digit_value (c : Z) : option Z :=
  if ref_digit c then Some (c - 48)
  else if ref_upper c then Some (c - 65 + 10)
  else if ref_lower c then Some (c - 97 + 10)
  else None.

Lemma digit_value_run m c : 0 <= c < 128 -> digit_value c m = Ret (ref_digit_value c, m).
Proof.
  intros Hc. unfold digit_value, ref_digit_value.
  destruct (isdigit_run m c Hc) as (v & E & Hv). erewrite run_bind by exact E. rewrite Hv.
  destruct (ref_digit c); [by rewrite s8_small by lia|].
  destruct (isupper_run m c Hc) as (v' & E' & Hv'). erewrite run_bind by exact E'. rewrite Hv'.
  destruct (ref_upper c); [by rewrite s8_small by lia|].
  destruct (islower_run m c Hc) as (v'' & E'' & Hv''). erewrite run_bind by exact E''. rewrite Hv''.
  destruct (ref_lower c); [by rewrite s8_small by lia|done].
Qed.

Lemma ref_digit_value_char d : 0 <= d < 36 -> ref_digit_value (digit_char d) = Some d.
Proof.
  intros Hd. unfold digit_char. destruct (Z.ltb_spec d 10).
  - unfold ref_digit_value, ref_digit, between.
    rewrite !(proj2 (Z.leb_le _ _)) by lia. cbn. f_equal. lia.
  - unfold ref_digit_value, ref_digit, ref_upper, ref_lower, between.
    rewrite (proj2 (Z.leb_le 48 _)), (proj2 (Z.leb_gt _ 57)) by lia.
    rewrite (proj2 (Z.leb_le 65 _)), (proj2 (Z.leb_gt _ 90)) by lia.
    rewrite !(proj2 (Z.leb_le _ _)) by lia. cbn. f_equal. lia.
Qed.

Lemma u32_step a base d : u32 (u32 (u32 a * base) + d) = u32 (a * base + d).
Proof. unfold u32. by rewrite Zplus_mod_idemp_l, <- Zplus_mod_idemp_l, Zmult_mod_idemp_l, Zplus_mod_idemp_l. Qed.

(** The digit loop consumes exactly the digits and computes their value
    modulo the word size. *)
Lemma strtoul_digits_run m base : forall ds fuel s acc c,
  Forall (fun d => 0 <= d < base) ds -> 2 <= base <= 36 ->
  bytes_at m s ((digit_char <$> ds) ++ [c]) -> 0 <= c < 128 ->
  (forall v, ref_digit_value c = Some v -> base <= v) -> (length ds < fuel)%nat ->
  strtoul_digits fuel s base (u32 acc) m
    = Ret ((u32 (horner base ds acc), s + Z.of_nat (length ds)), m).
Proof.
  induction ds as [|d ds IH]; intros [|fuel] s acc c Hd Hb Hs Hc Hend Hf; cbn in Hf; try lia;
    cbn [strtoul_digits fmap list_fmap app length] in *; apply bytes_at_cons in Hs as [Hs0 Hs].
  - crun run_loadc. rewrite s8_small by lia. erewrite run_bind by by apply digit_value_run.
    rewrite Z.add_0_r. destruct (ref_digit_value c) as [v|] eqn:E; [|done].
    rewrite (proj2 (Z.ltb_ge _ _)); [done|]. by apply Hend.
  - apply Forall_cons in Hd as [Hd0 Hd]. pose proof (digit_char_range d ltac:(lia)).
    crun run_loadc. rewrite s8_small by lia. erewrite run_bind by (apply digit_value_run; lia).
    rewrite ref_digit_value_char by lia. zif. rewrite u32_step.
    rewrite (IH fuel (s + 1) (acc * base + d) c) by (done || lia). cbn. do 2 f_equal. f_equal. lia.
Qed.

Lemma skip_space_run m : forall ws fuel s c,
  bytes_at m s (ws ++ [c]) -> Forall (fun w => 0 <= w < 128 /\ ref_space w = true) ws ->
  0 <= c < 128 -> ref_space c = false -> (length ws < fuel)%nat ->
  skip_space fuel s m = Ret (s + Z.of_nat (length ws), m).
Proof.
  induction ws as [|w ws IH]; intros [|fuel] s c Hs Hw Hc Hnc Hf; cbn in Hf; try lia;
    cbn [skip_space app length] in *; apply bytes_at_cons in Hs as [Hs0 Hs].
  - crun run_loadc. rewrite s8_small by lia. destruct (isspace_run m c Hc) as (v & E & Hv).
    erewrite run_bind by exact E. rewrite Hv, Hnc. by rewrite Z.add_0_r.
  - apply Forall_cons in Hw as [[Hwr Hws] Hw]. crun run_loadc. rewrite s8_small by lia.
    destruct (isspace_run m w Hwr) as (v & E & Hv). erewrite run_bind by exact E. rewrite Hv, Hws.
    rewrite (IH fuel (s + 1) c) by (done || lia). do 2 f_equal. lia.
Qed.

(** Overwriting a prefix by as many bytes. *)
Lemma write_bytes_over m a l l' k :
  length l = length l' -> write_bytes (write_bytes m a (l ++ k)) a l' = write_bytes m a (l' ++ k).
Proof.
  intros Hl. apply map_eq. intros x. rewrite !lookup_write_bytes, !length_app, Hl.
  repeat case_decide; try lia; try done.
  - by rewrite lookup_app_l by lia.
  - by rewrite !lookup_app_r, Hl by lia.
Qed.

Lemma uitoa_digits_run r fuel : forall v m s,
  2 <= r <= 36 -> 0 <= v < r ^ Z.of_nat fuel -> (0 < fuel)%nat ->
  mapped m s (Z.of_nat (length (digits fuel r v))) ->
  uitoa_digits fuel v s r m
    = Ret (s + Z.of_nat (length (digits fuel r v)),
           write_bytes m s (digit_char <$> digits fuel r v)).
Proof.
  induction fuel as [|f IH]; intros v m s Hr Hv Hf Hm; [lia|]. cbn [uitoa_digits digits] in *.
  pose proof (Z.mod_pos_bound v r ltac:(lia)).
  pose proof (digit_char_range (v mod r) ltac:(lia)).
  cbn [length] in *. rewrite Nat2Z.inj_succ in *.
  erewrite run_bind; [|apply run_store, Hm; lia]. rewrite u8_small by lia.
  destruct (Z.ltb_spec 0 (v / r)) as [Hq|Hq].
  - assert (Hlt : v / r < r ^ Z.of_nat f).
    { rewrite Z.pow_succ_r in Hv by lia. apply Z.div_lt_upper_bound; lia. }
    rewrite IH; [|done|lia|destruct f; [cbn in Hlt; lia|lia]|].
    + cbn. do 2 f_equal. lia.
    + apply mapped_insert. eapply mapped_sub; [exact Hm|lia|lia].
  - done.
Qed.

Lemma u32_pow r v : 2 <= r -> 0 <= v < 4294967296 -> 0 <= v < r ^ Z.of_nat 32.
Proof.
  intros. split; [lia|]. apply Z.lt_le_trans with (2 ^ 32); [lia|]. by apply Z.pow_le_mono_l.
Qed.

Lemma numeral_chars r v : 2 <= r <= 36 -> 0 <= v ->
  Forall (fun b => 0 < b < 256) (digit_char <$> digits 32 r v).
Proof.
  intros. apply Forall_fmap. eapply Forall_impl; [apply (digits_range 32 r v); lia|].
  cbn. intros d Hd. pose proof (digit_char_range d ltac:(lia)). lia.
Qed.

(** [uitoa] leaves the numeral of the value, terminated, in the buffer. *)
Lemma uitoa_run m s v r :
  2 <= r <= 36 -> 0 <= v < 4294967296 -> 0 < s ->
  s + Z.of_nat (length (numeral r v)) < 4294967296 ->
  mapped m s (Z.of_nat (length (numeral r v)) + 1) ->
  uitoa v s r m = Ret (s, write_bytes m s (numeral r v ++ [0])).
Proof.
  intros Hr Hv Hs Hend Hm. unfold uitoa, NULL.
  rewrite (proj2 (Z.eqb_neq s 0)), (proj2 (Z.eqb_neq r 0)) by lia. cbn [negb].
  unfold numeral in *. rewrite length_rev, length_fmap in *.
  set (cs := digit_char <$> digits 32 r v) in *.
  assert (Hl : length cs = length (digits 32 r v)) by apply length_fmap.
  erewrite run_bind; [done|]. rewrite run_bind_ret.
  erewrite run_bind; [|apply uitoa_digits_run; [lia|by apply u32_pow; lia|lia|]].
  2:{ eapply mapped_sub; [exact Hm|lia|lia]. }
  erewrite run_bind; [|apply run_store; eapply mapped_lookup; [apply mapped_write; exact Hm|lia]].
  fold cs. change (<[s + Z.of_nat (length (digits 32 r v)) := u8 0]> (write_bytes m s cs))
    with (write_bytes (write_bytes m s cs) (s + Z.of_nat (length (digits 32 r v))) [0]).
  rewrite <- Hl, <- write_bytes_app.
  erewrite run_bind; [|apply (strrev_run _ s cs)].
  - rewrite write_bytes_over by (by rewrite length_rev). done.
  - split; [lia|]. split; [apply bytes_at_write|]. unfold cs. apply numeral_chars; lia.
Qed.

(** ** Reading a numeral back *)

Definition digit_chars (ds : list Z) : list Z := digit_char <$> ds.

Lemma numeral_digits r v : numeral r v = digit_chars (rev (digits 32 r v)).
Proof. unfold numeral, digit_chars. symmetry. apply map_rev. Qed.

Lemma digit_char_not_space d : 0 <= d < 36 -> ref_space (digit_char d) = false.
Proof.
  intros Hd. pose proof (digit_char_range d Hd). unfold ref_space, between.
  rewrite (proj2 (Z.eqb_neq _ 32)), (proj2 (Z.leb_gt _ 13)) by lia. by rewrite andb_false_r.
Qed.

Lemma bytes_at_fuel m s l : bytes_at m s l -> (length l < mem_fuel m)%nat.
Proof. intros H%bytes_at_size. unfold mem_fuel. lia. Qed.

Section ReadBack.
Context (m : mem) (s : Z) (ds : list Z) (base : Z).
Context (Hs : bytes_at m s (digit_chars ds ++ [0])).
Context (Hd : Forall (fun d => 0 <= d < base) ds) (Hne : ds <> []).

(** The digits from an offset on, read with base [base]. *)
Lemma read_digits : 2 <= base <= 36 ->
  strtoul_digits (mem_fuel m) s base 0 m
    = Ret ((u32 (horner base ds 0), s + Z.of_nat (length ds)), m).
Proof.
  intros Hb. change 0 with (u32 0) at 1. apply strtoul_digits_run with (c := 0); [done|done|done|lia|done|].
  apply bytes_at_fuel in Hs. rewrite length_app in Hs. unfold digit_chars in Hs.
  rewrite length_fmap in Hs. lia.
Qed.

Lemma no_space : base <= 36 -> skip_space (mem_fuel m) s m = Ret (s, m).
Proof.
  intros Hb. destruct ds as [|d ds']; [done|]. apply Forall_cons in Hd as [Hd0 _].
  rewrite (skip_space_run m [] _ s (digit_char d)).
  - cbn. by rewrite Z.add_0_r.
  - cbn in Hs. apply bytes_at_cons in Hs as [? _]. apply bytes_at_cons. split; [done|apply bytes_at_nil].
  - constructor.
  - pose proof (digit_char_range d). lia.
  - apply digit_char_not_space. lia.
  - unfold mem_fuel. cbn. lia.
Qed.

End ReadBack.

(** The prefix logic for an explicit base: base 16 skips a leading zero (no
    digit of base 16 is an [x]), the other bases do nothing. *)
Lemma prefix_digits m s base d ds :
  bytes_at m s (digit_chars (d :: ds) ++ [0]) -> 2 <= base < 36 ->
  Forall (fun d => 0 <= d < base) (d :: ds) ->
  strtoul_prefix s base m = Ret ((base, s), m) \/
  (d = 0 /\ strtoul_prefix s base m = Ret ((base, s + 1), m)).
Proof.
  intros Hs Hb [Hd Hds]%Forall_cons. unfold strtoul_prefix.
  rewrite (proj2 (Z.eqb_neq base 0)) by lia. cbn [orb].
  destruct (Z.eqb_spec base 16) as [->|]; [|by left].
  cbn in Hs. apply bytes_at_cons in Hs as [Hs0 Hs]. pose proof (digit_char_range d ltac:(lia)).
  crun run_loadc. rewrite s8_small by lia.
  destruct (Z.eqb_spec (digit_char d) 48) as [E|E]; [|by left]. right.
  assert (d = 0) as ->.
  { unfold digit_char in E. destruct (Z.ltb_spec d 10); lia. }
  split; [done|].
  assert (Hc : exists c, m !! (s + 1) = Some c /\ 0 <= c < 128 /\ c <> 120 /\ c <> 88).
  { destruct ds as [|d' ds]; cbn in Hs; apply bytes_at_cons in Hs as [Hc _].
    - exists 0. split; [done|lia].
    - apply Forall_cons in Hds as [Hd' _]. exists (digit_char d'). split; [done|].
      unfold digit_char. destruct (Z.ltb_spec d' 10); lia. }
  destruct Hc as (c & Hc & ? & ? & ?). crun run_loadc. rewrite s8_small by lia.
  rewrite !(proj2 (Z.eqb_neq c _)) by lia. done.
Qed.

Lemma scan_digits m s base ds :
  bytes_at m s (digit_chars ds ++ [0]) -> Forall (fun d => 0 <= d < base) ds -> ds <> [] ->
  2 <= base < 36 ->
  strtoul_scan s base m = Ret ((u32 (horner base ds 0), s + Z.of_nat (length ds)), m).
Proof.
  intros Hs Hd Hne Hb. unfold strtoul_scan, with_fuel.
  erewrite run_bind; [|apply run_assert; rewrite (proj2 (Z.leb_le 2 base)) by lia; apply orb_true_r].
  erewrite run_bind; [|apply run_assert; apply Z.ltb_lt; lia].
  erewrite run_bind; [|apply (no_space m s ds base); [done|done|done|lia]].
  destruct ds as [|d ds]; [done|].
  destruct (prefix_digits m s base d ds Hs Hb Hd) as [E|[-> E]]; erewrite run_bind by exact E.
  - apply read_digits; [done|done|lia].
  - apply Forall_cons in Hd as [_ Hd]. cbn in Hs. apply bytes_at_cons in Hs as [_ Hs].
    rewrite (read_digits m (s + 1) ds base) by (done || lia). cbn [length]. do 2 f_equal. f_equal. lia.
Qed.

Lemma digits_nonempty r v : digits 32 r v <> [].
Proof. done. Qed.

Lemma rev_digits_ok r v : 2 <= r -> 0 <= v ->
  Forall (fun d => 0 <= d < r) (rev (digits 32 r v)) /\ rev (digits 32 r v) <> [].
Proof.
  intros. split; [by apply Forall_rev, digits_range|]. cbn [digits rev]. by destruct (rev _).
Qed.

(** ** rand *)

(** The generator maps a non-zero residue to a non-zero residue. *)
Lemma rand_range seed : 0 < seed < PRNG_M -> 0 < rand seed < PRNG_M.
Proof.
  intros Hs. unfold rand, u64, PRNG_G, PRNG_M in *.
  rewrite (Z.mod_small (_ * seed)) by lia.
  pose proof (Z.mod_pos_bound (16807 * seed) 2147483647 ltac:(lia)) as Hm.
  rewrite u32_small by lia. split; [|lia].
  destruct (Z.eq_dec (16807 * seed mod 2147483647) 0) as [E|]; [|lia]. exfalso.
  apply Z.mod_divide in E; [|lia]. apply Z.gauss in E; [|by vm_compute].
  apply Z.divide_pos_le in E; lia.
Qed.
