(* ===== verification/NumConvThms.v ===== *)
(** * What the number conversions guarantee

    Round trips between the printing and the reading routines for every value
    and base, the exact size of the printed text, and the range of the random
    number generator. *)

From S2P Require Import Prelude CMem CString CStringMem CStringStr Ctype NumConv.

Lemma numeral_length_10 v : 0 <= v < 4294967296 -> (1 <= length (numeral 10 v) <= 10)%nat.
Proof.
  intros Hv. unfold numeral. rewrite length_rev, length_fmap. split.
  - cbn [digits length]. lia.
  - apply digits_length_pow; [lia|lia|]. change (10 ^ Z.of_nat 10) with 10000000000. lia.
Qed.

Lemma numeral_length r v : (length (numeral r v) <= 32)%nat.
Proof. unfold numeral. rewrite length_rev, length_fmap. apply digits_length. Qed.

(** The leading digit of a positive number is not zero. *)
Lemma digits_lead fuel : forall r v, 2 <= r -> 0 < v < r ^ Z.of_nat fuel ->
  exists d ds, rev (digits fuel r v) = d :: ds /\ d <> 0.
Proof.
  induction fuel as [|f IH]; intros r v Hr Hv; [cbn in Hv; lia|]. cbn [digits rev].
  pose proof (Z.div_mod v r ltac:(lia)).
  destruct (Z.ltb_spec 0 (v / r)) as [Hq|Hq].
  - destruct (IH r (v / r) Hr) as (d & ds & -> & Hd).
    { split; [done|]. rewrite Nat2Z.inj_succ, Z.pow_succ_r in Hv by lia. apply Z.div_lt_upper_bound; lia. }
    exists d, (ds ++ [v mod r]). done.
  - exists (v mod r), []. split; [done|].
    assert (v / r = 0) by (pose proof (Z.div_pos v r ltac:(lia) ltac:(lia)); lia). nia.
Qed.

(** Base inference on a decimal numeral: a numeral that does not start with
    zero is read in base 10; "0" is read as an octal zero. *)
Lemma prefix_infer m s v :
  bytes_at m s (numeral 10 v ++ [0]) -> 0 <= v < 4294967296 ->
  strtoul_prefix s 0 m = Ret ((10, s), m) \/
  (v = 0 /\ strtoul_prefix s 0 m = Ret ((8, s + 1), m)).
Proof.
  intros Hs Hv. unfold strtoul_prefix. cbn [Z.eqb orb].
  destruct (Z.eq_dec v 0) as [->|Hnz].
  - right. split; [done|]. change (numeral 10 0) with [48] in Hs. cbn [app] in Hs.
    apply bytes_at_cons in Hs as [Hs0 Hs]. apply bytes_at_cons in Hs as [Hs1 _].
    crun run_loadc. change (s8 48 =? 48) with true. cbn iota. crun run_loadc. done.
  - left. destruct (digits_lead 32 10 v) as (d & ds & E & Hd); [lia|pose proof (u32_pow 10 v); lia|].
    pose proof (digits_range 32 10 v ltac:(lia) ltac:(lia)) as Hr%Forall_rev.
    rewrite numeral_digits, E in Hs. rewrite E in Hr. apply Forall_cons in Hr as [Hr _].
    cbn in Hs. apply bytes_at_cons in Hs as [Hs0 _].
    pose proof (digit_char_range d ltac:(lia)). crun run_loadc. rewrite s8_small by lia.
    assert (digit_char d <> 48) by (unfold digit_char; destruct (Z.ltb_spec d 10); lia).
    zif. done.
Qed.

Lemma scan_infer m s v :
  bytes_at m s (numeral 10 v ++ [0]) -> 0 <= v < 4294967296 ->
  exists e, strtoul_scan s 0 m = Ret ((v, e), m).
Proof.
  intros Hs Hv. unfold strtoul_scan, with_fuel. do 2 crun run_assert.
  pose proof (rev_digits_ok 10 v ltac:(lia) ltac:(lia)) as [Hd Hne].
  pose proof Hs as Hs'. rewrite numeral_digits in Hs'.
  erewrite run_bind; [|apply (no_space m s (rev (digits 32 10 v)) 10); [exact Hs'|done|done|lia]].
  destruct (prefix_infer m s v Hs Hv) as [E|[-> E]]; erewrite run_bind by exact E; cbn beta iota.
  - rewrite (read_digits m s _ 10 Hs' Hd) by lia.
    rewrite horner_digits by (pose proof (u32_pow 10 v); lia). rewrite u32_small by lia. by eexists.
  - change (digit_chars (rev (digits 32 10 0))) with [48] in Hs'. cbn [app] in Hs'. apply bytes_at_cons in Hs' as [_ Hs'].
    rewrite (read_digits m (s + 1) [] 8) by (done || lia || constructor). by eexists.
Qed.

(** The text [itoa] writes in base 10. *)
Definition decimal (v : Z) : list Z := if v <? 0 then 45 :: numeral 10 (- v) else numeral 10 v.

Lemma int_abs_u32 v : -2147483648 <= v < 2147483648 -> u32 (int_abs v) = Z.abs v.
Proof.
  intros Hv. unfold int_abs. destruct (Z.ltb_spec v 0); [|rewrite u32_small; lia].
  unfold u32, s32. zlia.
Qed.

Lemma itoa_run m s v :
  -2147483648 <= v < 2147483648 -> 0 < s -> s + 12 <= 4294967296 -> mapped m s 12 ->
  itoa v s 10 m = Ret (s, write_bytes m s (decimal v ++ [0])).
Proof.
  intros Hv Hs Hend Hm. unfold itoa, NULL, decimal. rewrite (proj2 (Z.eqb_neq s 0)) by lia.
  cbn [negb Z.eqb Pos.eqb]. rewrite andb_true_r, int_abs_u32 by done.
  pose proof (numeral_length_10 (Z.abs v) ltac:(lia)) as Hlen.
  destruct (Z.ltb_spec v 0) as [Hneg|Hpos].
  - rewrite Z.abs_neq in * by lia.
    erewrite run_bind; [done|]. erewrite run_bind.
    2:{ erewrite run_bind; [done|]. apply run_store. eapply mapped_lookup; [exact Hm|lia]. }
    erewrite run_bind; [|apply uitoa_run; [lia|lia|lia|lia|]]; [done|].
    apply mapped_insert. eapply mapped_sub; [exact Hm|lia|lia].
  - rewrite Z.abs_eq in * by lia. erewrite run_bind; [done|]. rewrite run_bind_ret.
    erewrite run_bind; [|apply uitoa_run; [lia|lia|lia|lia|]]; [done|].
    eapply mapped_sub; [exact Hm|lia|lia].
Qed.

Lemma decimal_length v : -2147483648 <= v < 2147483648 -> (length (decimal v) <= 11)%nat.
Proof.
  intros Hv. unfold decimal. destruct (Z.ltb_spec v 0); cbn [length].
  - pose proof (numeral_length_10 (- v) ltac:(lia)). lia.
  - pose proof (numeral_length_10 v ltac:(lia)). lia.
Qed.

Lemma skip_none m s c : m !! s = Some c -> 0 <= c < 128 -> ref_space c = false ->
  skip_space (mem_fuel m) s m = Ret (s, m).
Proof.
  intros Hs Hc Hn. rewrite (skip_space_run m [] _ s c); [cbn; by rewrite Z.add_0_r| | |done|done|].
  - apply bytes_at_cons. split; [done|apply bytes_at_nil].
  - constructor.
  - unfold mem_fuel. cbn. lia.
Qed.

Lemma atoi_run m s v :
  -2147483648 <= v < 2147483648 -> bytes_at m s (decimal v ++ [0]) -> atoi s m = Ret (v, m).
Proof.
  intros Hv Hs. unfold atoi, strtol, strtoul, with_fuel, decimal in *. cbn [negb Z.eqb NULL].
  destruct (Z.ltb_spec v 0) as [Hneg|Hpos].
  - cbn [app] in Hs. apply bytes_at_cons in Hs as [Hs0 Hs].
    erewrite run_bind; [|by apply (skip_none m s 45)]. crun run_loadc.
    change (s8 45) with 45. cbn [Z.eqb Pos.eqb].
    destruct (scan_infer m (s + 1) (- v) Hs ltac:(lia)) as (e & E).
    erewrite run_bind; [|erewrite run_bind by exact E; done].
    unfold mret, C_ret. do 2 f_equal. unfold s32. zlia.
  - pose proof (rev_digits_ok 10 v ltac:(lia) ltac:(lia)) as [Hd Hne].
    destruct (scan_infer m s v Hs ltac:(lia)) as (e & E).
    rewrite numeral_digits in Hs.
    erewrite run_bind; [|apply (no_space m s (rev (digits 32 10 v)) 10); [exact Hs|done|done|lia]].
    destruct (rev (digits 32 10 v)) as [|d ds] eqn:Er; [done|]. apply Forall_cons in Hd as [Hd _].
    cbn in Hs. apply bytes_at_cons in Hs as [Hs0 _]. pose proof (digit_char_range d ltac:(lia)).
    crun run_loadc. rewrite s8_small by lia.
    rewrite (proj2 (Z.eqb_neq _ 43)), (proj2 (Z.eqb_neq _ 45)) by lia.
    erewrite run_bind; [|erewrite run_bind by exact E; done].
    unfold mret, C_ret. cbn beta iota. do 2 f_equal. unfold s32. zlia.
Qed.

(** ** Theorems *)

(** Reading back what [uitoa] prints gives the value, in every base both
    routines accept (2 to 35); the text needs at most 33 bytes and nothing
    else is written. *)
Theorem strtoul_uitoa m s v r :
  2 <= r < 36 -> 0 <= v < 4294967296 -> 0 < s -> s + 33 <= 4294967296 -> mapped m s 33 ->
  exists m', uitoa v s r m = Ret (s, m') /\ strtoul s NULL r m' = Ret (v, m') /\
    forall x, ~ (s <= x < s + 33) -> m' !! x = m !! x.
Proof.
  intros Hr Hv Hs Hend Hm. pose proof (numeral_length r v) as Hlen. eexists.
  split; [apply uitoa_run; [lia|lia|lia|lia|eapply mapped_sub; [exact Hm|lia|lia]]|].
  pose proof (rev_digits_ok r v ltac:(lia) ltac:(lia)) as [Hd Hne]. split.
  - unfold strtoul. erewrite run_bind; [|apply (scan_digits _ s r (rev (digits 32 r v)));
      [rewrite <- numeral_digits; apply bytes_at_write|done|done|lia]].
    rewrite horner_digits by (pose proof (u32_pow r v); lia). rewrite u32_small by lia. done.
  - intros x Hx. rewrite lookup_write_bytes, decide_False; [done|].
    rewrite length_app. cbn [length]. lia.
Qed.

Lemma strtoul_uitoa_witness :
  let m := write_bytes ∅ 64 (replicate 33 7) in
  exists m', uitoa 48879 64 16 m = Ret (64, m') /\ strtoul 64 NULL 16 m' = Ret (48879, m') /\
    forall x, ~ (64 <= x < 64 + 33) -> m' !! x = m !! x.
Proof. apply strtoul_uitoa; [lia|lia|lia|lia|by_eval]. Defined.

(** [itoa] in base 10 prints every [int], [INT_MIN] included, into a buffer
    of 12 bytes ([CHARACTER_COUNT_MAX_32BIT_BASE10]) without touching any
    other byte, and [atoi] reads the same value back. *)
Theorem atoi_itoa m s v :
  -2147483648 <= v < 2147483648 -> 0 < s -> s + 12 <= 4294967296 -> mapped m s 12 ->
  exists m', itoa v s 10 m = Ret (s, m') /\ atoi s m' = Ret (v, m') /\
    forall x, ~ (s <= x < s + 12) -> m' !! x = m !! x.
Proof.
  intros Hv Hs Hend Hm. eexists. split; [by apply itoa_run|]. split.
  - apply atoi_run; [done|apply bytes_at_write].
  - intros x Hx. pose proof (decimal_length v Hv). rewrite lookup_write_bytes, decide_False; [done|].
    rewrite length_app. cbn [length]. lia.
Qed.

Lemma atoi_itoa_witness :
  let m := write_bytes ∅ 64 (replicate 12 7) in
  exists m', itoa (-2147483648) 64 10 m = Ret (64, m') /\ atoi 64 m' = Ret (-2147483648, m') /\
    forall x, ~ (64 <= x < 64 + 12) -> m' !! x = m !! x.
Proof. apply atoi_itoa; [lia|lia|lia|by_eval]. Defined.

(** [rand] keeps the seed between 1 and [PRNG_M - 1] once it is there, but
    [srand] does not put it there for every argument: seeding with [PRNG_M]
    stores 0, and from then on [rand] returns 0 for ever. *)
Theorem rand_seed_range :
  (forall seed, 0 < seed < PRNG_M -> 0 < rand seed < PRNG_M) /\
  (forall seed, 0 <= seed < 4294967296 -> seed <> PRNG_M -> seed <> 2 * PRNG_M -> 0 < srand seed < PRNG_M) /\
  (forall n, Nat.iter n rand (srand PRNG_M) = 0).
Proof.
  split; [apply rand_range|]. split.
  - intros seed Hs H1 H2. unfold srand, PRNG_M in *. destruct (Z.eqb_spec seed 0) as [->|]; [by vm_compute|].
    zlia.
  - induction n as [|n IH]; [done|]. cbn [Nat.iter]. unfold Nat.iter in *. cbn. by rewrite IH.
Qed.
