(* ===== verification/Printf.v ===== *)
(** * Formatted output: [src/src/lib/libc/vsnprintf.c]

    The parser of conversion specifications, the [print_*] routines and the
    main loop, on the same byte memory as the string routines: the output
    buffer, the format, the string arguments and the string literals of the
    file are regions of one memory. [dtoa] comes from the gdtoa library, which
    is not part of the sources: it is a parameter. *)

From S2P Require Import Prelude CMem CString Ctype NumConv.

Definition FLAG_ALTERNATE_OUTPUT : Z := 0x00000001.
Definition FLAG_PAD : Z := 0x00000002.
Definition FLAG_EXPLICIT_SIGN : Z := 0x00000004.
Definition FLAG_ALIGN_SIGN : Z := 0x00000008.
Definition FLAG_SCIENTIFIC : Z := 0x00000010.
Definition FLAG_BEST_FORMAT : Z := 0x00000020.

Definition TYPE_UNSIGNED : Z := 0x00000010.
Definition TYPE_INT : Z := 0x00010000.
Definition TYPE_FLOAT : Z := 0x00020000.
Definition TYPE_CHAR : Z := 0x00040000.
Definition TYPE_STRING : Z := 0x00080000.
Definition TYPE_PERCENT : Z := 0x00100000.
Definition TYPE_UNSIGNED_INT : Z := Z.lor TYPE_UNSIGNED TYPE_INT.

Definition NO_PRECISION : Z := -1.

(** [struct format_style]; [pad] and [prefix] are pointers. *)
Record format_style := mkStyle {
  base : Z; flags : Z; pad : Z; precision : Z; prefix : Z; type : Z; width : Z }.

Definition set_flag (st : format_style) (f : Z) : format_style :=
  mkStyle (base st) (Z.lor (flags st) f) (pad st) (precision st) (prefix st) (type st) (width st).
Definition set_pad (st : format_style) (p : Z) : format_style :=
  mkStyle (base st) (flags st) p (precision st) (prefix st) (type st) (width st).
Definition set_precision (st : format_style) (p : Z) : format_style :=
  mkStyle (base st) (flags st) (pad st) p (prefix st) (type st) (width st).
Definition set_prefix (st : format_style) (p : Z) : format_style :=
  mkStyle (base st) (flags st) (pad st) (precision st) p (type st) (width st).
Definition add_type (st : format_style) (t : Z) : format_style :=
  mkStyle (base st) (flags st) (pad st) (precision st) (prefix st) (Z.lor (type st) t) (width st).
Definition set_base (st : format_style) (b : Z) : format_style :=
  mkStyle b (flags st) (pad st) (precision st) (prefix st) (type st) (width st).
Definition set_width (st : format_style) (w : Z) : format_style :=
  mkStyle (base st) (flags st) (pad st) (precision st) (prefix st) (type st) w.

Definition has_flag (st : format_style) (f : Z) : bool := negb (Z.land (flags st) f =? 0).

(** Addresses of the string literals and of the locals whose address is taken. *)
Record layout := mkLayout {
  FRACTIONAL_PREFIX : Z; HEX_PREFIX : Z; NO_PREFIX : Z; OCTAL_PREFIX : Z;
  BLANK_PAD : Z; ZERO_PAD : Z; NULL_TEXT : Z; POINT_TEXT : Z;
  local_character : Z;  (* [character] of print_character_argument, [first] of print_float_argument *)
  local_text : Z        (* [text] of print_integer_argument, 12 bytes *)
}.

Definition blank_pad_text : list Z := replicate 51 32.
Definition zero_pad_text : list Z := replicate 51 48.

Section Printf.
Context (L : layout).
Context {double : Type} (to_float : double -> double).
(** [dtoa(number, mode, ndigits, decpt, sign, NULL)]: the digit string, the
    position of the decimal point and the sign. *)
Context (dtoa : double -> Z -> Z -> C (Z * Z * Z)).

(** [ecvt.c] *)
Definition ecvt (number : double) (ndigits : Z) : C (Z * Z * Z) := dtoa number 2 ndigits.
Definition fcvt (number : double) (ndigits : Z) : C (Z * Z * Z) := dtoa number 3 ndigits.

(** A variadic argument. *)
Inductive va : Type :=
  | VInt (v : Z)
  | VPtr (p : Z)
  | VDouble (d : double).

Definition default_style : format_style :=
  mkStyle 0 0 (BLANK_PAD L) NO_PRECISION (NO_PREFIX L) 0 0.

(** The flag loop: returns the style and the new [format]. *)
Fixpoint parse_flags (fuel : nat) (format : Z) (st : format_style) : C (format_style * Z) :=
  match fuel with
  | O => fail OutOfFuel
  | S f =>
      c ← loadc format;
      if c =? 35 then parse_flags f (format + 1) (set_flag st FLAG_ALTERNATE_OUTPUT)
      else if c =? 48 then
        parse_flags f (format + 1) (set_pad (set_flag st FLAG_PAD) (ZERO_PAD L))
      else if c =? 43 then parse_flags f (format + 1) (set_flag st FLAG_EXPLICIT_SIGN)
      else if c =? 32 then parse_flags f (format + 1) (set_flag st FLAG_ALIGN_SIGN)
      else mret (st, format)
  end.

Definition parse_width (format : Z) (st : format_style) : C (format_style * Z) :=
  '(w, end_) ← strtoul_scan format 10;
  mret (if 0 <? w then (set_width st w, end_) else (st, format)).

Definition parse_precision (format : Z) (st : format_style) : C (format_style * Z) :=
  c ← loadc format;
  if c =? 46 then
    '(p, end_) ← strtoul_scan (format + 1) 10;
    mret (if 0 <? p then (set_precision st (s32 p), end_) else (st, format + 1))
  else mret (st, format).

(** The [switch] on the conversion code. *)
Definition parse_code (c : Z) (st : format_style) : format_style :=
  if c =? 99 (* c *) then add_type st TYPE_CHAR
  else if c =? 117 (* u *) then set_base (add_type (add_type st TYPE_UNSIGNED) TYPE_INT) 10
  else if (c =? 100) || (c =? 105) (* d, i *) then set_base (add_type st TYPE_INT) 10
  else if c =? 111 (* o *) then
    set_prefix (set_base (add_type st TYPE_UNSIGNED_INT) 8) (OCTAL_PREFIX L)
  else if c =? 112 (* p *) then
    add_type (set_prefix (set_base (set_flag st FLAG_ALTERNATE_OUTPUT) 16) (HEX_PREFIX L))
      TYPE_UNSIGNED_INT
  else if c =? 120 (* x *) then
    add_type (set_prefix (set_base st 16) (HEX_PREFIX L)) TYPE_UNSIGNED_INT
  else if c =? 101 (* e *) then add_type (set_flag st FLAG_SCIENTIFIC) TYPE_FLOAT
  else if c =? 102 (* f *) then add_type st TYPE_FLOAT
  else if c =? 103 (* g *) then add_type (set_flag st FLAG_BEST_FORMAT) TYPE_FLOAT
  else if c =? 115 (* s *) then add_type st TYPE_STRING
  else if c =? 37 (* % *) then add_type st TYPE_PERCENT
  else st.

Definition parse_format_style (format : Z) : C (format_style * Z) :=
  '(st, format) ← with_fuel (fun fuel => parse_flags fuel format default_style);
  '(st, format) ← parse_width format st;
  '(st, format) ← parse_precision format st;
  c ← loadc format;
  mret (parse_code c st, format + 1).

Definition print_text (buffer buffer_length text text_length : Z) : C Z :=
  let length := Z.min buffer_length text_length in
  memcpy buffer text length;;
  mret length.

Definition print_pad (buffer buffer_length : Z) (st : format_style)
    (prefix_length text_length : Z) : C Z :=
  if u32 (prefix_length + text_length) <? width st then
    let pad_length := u32 (width st - prefix_length - text_length) in
    print_text buffer buffer_length (pad st) pad_length
  else mret 0.

Definition print_character_argument (buffer buffer_length character : Z)
    (st : format_style) : C Z :=
  store (local_character L) character;;
  length ← print_pad buffer buffer_length st 0 1;
  let buffer := buffer + length in
  let buffer_length := u32 (buffer_length - length) in
  n ← print_text buffer buffer_length (local_character L) 1;
  mret (u32 (length + n)).

Definition print_integer_argument (buffer buffer_length argument : Z)
    (st : format_style) : C Z :=
  '(length, prefix_length) ←
    (if has_flag st FLAG_ALTERNATE_OUTPUT then
       prefix_length ← strlen (prefix st);
       length ← print_text buffer buffer_length (prefix st) prefix_length;
       mret (length, prefix_length)
     else mret (0, 0));
  let buffer := buffer + length in
  let buffer_length := u32 (buffer_length - length) in
  (if negb (Z.land (type st) TYPE_UNSIGNED =? 0)
   then uitoa (u32 argument) (local_text L) (base st)
   else itoa (s32 argument) (local_text L) (base st));;
  text_length ← strlen (local_text L);
  pad_length ← print_pad buffer buffer_length st prefix_length text_length;
  let length := u32 (length + pad_length) in
  let buffer := buffer + pad_length in
  let buffer_length := u32 (buffer_length - pad_length) in
  n ← print_text buffer buffer_length (local_text L) text_length;
  mret (u32 (length + n)).

Definition print_string_argument (buffer buffer_length string : Z)
    (st : format_style) : C Z :=
  let string := if string =? NULL then NULL_TEXT L else string in
  string_length ← strlen string;
  length ← print_pad buffer buffer_length st 0 string_length;
  let buffer := buffer + length in
  let buffer_length := u32 (buffer_length - length) in
  n ← print_text buffer buffer_length string string_length;
  mret (u32 (length + n)).

(** The output cursor of [print_float_argument]: [buffer], [buffer_length]. *)
Definition emit (cur : Z * Z) (text text_length : Z) : C (Z * Z) :=
  length ← print_text cur.1 cur.2 text text_length;
  mret (cur.1 + length, u32 (cur.2 - length)).

Definition print_float_argument (buffer buffer_length : Z) (argument : double)
    (st : format_style) : C Z :=
  let buffer_start := buffer in
  let prec := if precision st =? NO_PRECISION then 6 else precision st in
  '(digits, decimal_point, negative) ←
    (if has_flag st FLAG_BEST_FORMAT then fcvt argument prec
     else if has_flag st FLAG_SCIENTIFIC then ecvt argument prec
     else fcvt argument prec);
  n ← strlen digits;
  let digits_length := s32 n in
  let first :=
    if negb (negative =? 0) then 45
    else if has_flag st FLAG_EXPLICIT_SIGN then 43
    else if has_flag st FLAG_ALIGN_SIGN then 32
    else 0 in
  '(cur, prefix_length) ←
    (if negb (first =? 0) then
       store (local_character L) first;;
       cur ← emit (buffer, buffer_length) (local_character L) 1;
       mret (cur, 1)
     else mret ((buffer, buffer_length), 0));
  let '(need_decimal_point, trailing_zero_length) :=
    if digits_length <=? decimal_point
    then (false, decimal_point - digits_length) else (true, 0) in
  '(cur, prefix_length, st, need_decimal_point) ←
    (if decimal_point <? 0 then
       k ← strlen (FRACTIONAL_PREFIX L);
       let prefix_length := u32 (prefix_length + k) in
       cur ← emit cur (FRACTIONAL_PREFIX L) prefix_length;
       let st := set_pad (set_flag st FLAG_PAD) (ZERO_PAD L) in
       let st := set_width st
         (Z.max (width st) (u32 (digits_length + (- decimal_point) + prefix_length))) in
       mret (cur, prefix_length, st, false)
     else mret (cur, prefix_length, st, need_decimal_point));
  pad_length ← print_pad cur.1 cur.2 st prefix_length
    (u32 (digits_length + (if (need_decimal_point : bool) then 1 else 0) + trailing_zero_length));
  let cur := (cur.1 + pad_length, u32 (cur.2 - pad_length)) in
  cur ←
    (if (need_decimal_point : bool) then
       cur ← emit cur digits (u32 decimal_point);
       cur ← emit cur (POINT_TEXT L) 1;
       let characters_left := u32 (digits_length - decimal_point) in
       emit cur (digits + decimal_point) characters_left
     else
       cur ← emit cur digits (u32 digits_length);
       emit cur (ZERO_PAD L) (u32 trailing_zero_length));
  mret (cur.1 - buffer_start).

(** One conversion: the number of characters printed and the arguments left. *)
Definition print_argument (buffer buffer_length : Z) (st : format_style) (args : list va)
    : C (Z * list va) :=
  if type st =? TYPE_CHAR then
    match args with
    | VInt c :: args => n ← print_character_argument buffer buffer_length (s8 c) st; mret (n, args)
    | _ => fail BadArgument
    end
  else if (type st =? TYPE_INT) || (type st =? TYPE_UNSIGNED_INT) then
    match args with
    | VInt d :: args => n ← print_integer_argument buffer buffer_length (u32 d) st; mret (n, args)
    | _ => fail BadArgument
    end
  else if type st =? TYPE_FLOAT then
    match args with
    | VDouble d :: args =>
        n ← print_float_argument buffer buffer_length (to_float d) st; mret (n, args)
    | _ => fail BadArgument
    end
  else if type st =? TYPE_PERCENT then
    n ← print_character_argument buffer buffer_length 37 st; mret (n, args)
  else if type st =? TYPE_STRING then
    match args with
    | VPtr s :: args => n ← print_string_argument buffer buffer_length s st; mret (n, args)
    | _ => fail BadArgument
    end
  else n ← print_character_argument buffer buffer_length 63 st; mret (n, args).

(** The main loop: returns the final [buffer] and [length]. *)
Fixpoint vsnprintf_loop (fuel : nat) (buffer buffer_length format length : Z)
    (args : list va) : C (Z * Z) :=
  match fuel with
  | O => fail OutOfFuel
  | S f =>
      c ← loadc format;
      if negb (c =? 0) && (length <? buffer_length) then
        if negb (c =? 37) then
          store buffer c;;
          vsnprintf_loop f (buffer + 1) buffer_length (format + 1) (u32 (length + 1)) args
        else
          '(st, format) ← parse_format_style (format + 1);
          '(output_length, args) ← print_argument buffer buffer_length st args;
          vsnprintf_loop f (buffer + output_length) buffer_length format
            (u32 (length + output_length)) args
      else mret (buffer, length)
  end.

Definition vsnprintf (buffer buffer_length format : Z) (args : list va) : C Z :=
  let buffer_length := u32 (buffer_length - 1) in
  '(buffer, length) ←
    with_fuel (fun fuel => vsnprintf_loop fuel buffer buffer_length format 0 args);
  store buffer 0;;
  mret (s32 length).

(** [snprintf.c], [sprintf.c] *)
Definition snprintf (buffer buffer_length format : Z) (args : list va) : C Z :=
  vsnprintf buffer buffer_length format args.

Definition sprintf (buffer format : Z) (args : list va) : C Z :=
  vsnprintf buffer (u32 (-1)) format args.

End Printf.
Arguments va : clear implicits.
Arguments VInt {_} _.
Arguments VPtr {_} _.
Arguments VDouble {_} _.
