(* ===== verification/PrintfThms.v ===== *)
(** * What formatted output guarantees

    A format is described by the items it is made of; [vsnprintf] on the text
    of the items prints the concatenation of what each item denotes. *)

From S2P Require Import Prelude CMem CString CStringMem CStringStr Ctype NumConv NumConvThms Printf.

(** ** Formats *)

(** A conversion with its argument. *)
Inductive conversion :=
  | CChar (c : Z)
  | CPercent
  | CDec (v : Z)
  | CUns (v : Z)
  | COct (v : Z)
  | CHex (v : Z)
  | CPtr (v : Z)
  | CStr (p : Z) (cs : list Z).

(** A literal character, or a conversion with the flags [#], [0] and blank and a
    minimum width (0: none). The blank flag has no effect on these conversions. *)
Inductive item :=
  | Lit (c : Z)
  | Conv (alt zero sp : bool) (w : Z) (k : conversion).

Definition code_of (k : conversion) : Z :=
  match k with
  | CChar _ => 99 | CPercent => 37 | CDec _ => 100 | CUns _ => 117
  | COct _ => 111 | CHex _ => 120 | CPtr _ => 112 | CStr _ _ => 115
  end.

(** The text of an item in the format string. *)
Definition format_of (i : item) : list Z :=
  match i with
  | Lit c => [c]
  | Conv alt zero sp w k =>
      [37] ++ (if alt then [35] else []) ++ (if zero then [48] else []) ++
      (if sp then [32] else []) ++ (if 0 <? w then numeral 10 w else []) ++ [code_of k]
  end.

Definition text_of (k : conversion) : list Z :=
  match k with
  | CChar c => [u8 c]
  | CPercent => [37]
  | CDec v => decimal v
  | CUns v => numeral 10 v
  | COct v => numeral 8 v
  | CHex v | CPtr v => numeral 16 v
  | CStr _ cs => cs
  end.

Definition prefix_of (alt : bool) (k : conversion) : list Z :=
  match k with
  | COct _ => if alt then [48] else []
  | CHex _ => if alt then [48; 120] else []
  | CPtr _ => [48; 120]
  | _ => []
  end.

(** The prefix, then the padding, then the text. *)
Definition output_of (i : item) : list Z :=
  match i with
  | Lit c => [c]
  | Conv alt zero sp w k =>
      prefix_of alt k ++
      replicate (Z.to_nat w - length (prefix_of alt k) - length (text_of k)) (if zero then 48 else 32) ++
      text_of k
  end.

Definition args_of {double} (i : item) : list (va double) :=
  match i with
  | Lit _ => []
  | Conv _ _ _ _ k =>
      match k with
      | CPercent => []
      | CStr p _ => [VPtr p]
      | CChar v | CDec v | CUns v | COct v | CHex v | CPtr v => [VInt v]
      end
  end.

Definition conversion_ok (k : conversion) : Prop :=
  match k with
  | CDec v => -2147483648 <= v < 2147483648
  | CUns v | COct v | CHex v | CPtr v => 0 <= v < 4294967296
  | CStr _ cs => Forall (fun b => 0 < b < 256) cs
  | _ => True
  end.

(** A literal is neither NUL nor [%]; a width is at most 51, the length of the
    padding strings. *)
Definition item_ok (i : item) : Prop :=
  match i with
  | Lit c => 0 < c < 256 /\ c <> 37
  | Conv _ _ _ w k => 0 <= w <= 51 /\ conversion_ok k
  end.

(** ** Parsing *)

Section Parse.
Context (L : layout).

Definition style0 (alt zero sp : bool) (w : Z) : format_style :=
  let st := default_style L in
  let st := if alt then set_flag st FLAG_ALTERNATE_OUTPUT else st in
  let st := if zero then set_pad (set_flag st FLAG_PAD) (ZERO_PAD L) else st in
  let st := if sp then set_flag st FLAG_ALIGN_SIGN else st in
  if 0 <? w then set_width st w else st.

(** The first character after the flags is none of them. *)
Definition no_flag (c : Z) : Prop := c <> 35 /\ c <> 48 /\ c <> 43 /\ c <> 32.

Lemma code_of_range k : 0 < code_of k < 128 /\ no_flag (code_of k) /\ code_of k <> 46 /\
  ref_space (code_of k) = false /\ (forall v, ref_digit_value (code_of k) = Some v -> 10 <= v).
Proof.
  unfold no_flag. destruct k; (split; [cbn; lia|]); (split; [cbn; lia|]); (split; [cbn; lia|]);
    (split; [reflexivity|]); intros u Hu; vm_compute in Hu; simplify_eq; lia.
Qed.

Lemma parse_flags_stop m fuel f c st : m !! f = Some c -> 0 < c < 128 -> no_flag c ->
  parse_flags L (S fuel) f st m = Ret ((st, f), m).
Proof.
  intros Hf Hc (H1 & H2 & H3 & H4). cbn [parse_flags]. crun run_loadc. rewrite s8_small by lia.
  by rewrite !(proj2 (Z.eqb_neq _ _)) by done.
Qed.

Lemma parse_flags_alt m n f st : m !! f = Some 35 ->
  parse_flags L (S n) f st m = parse_flags L n (f + 1) (set_flag st FLAG_ALTERNATE_OUTPUT) m.
Proof. intros Hf. cbn [parse_flags]. by crun run_loadc. Qed.

Lemma parse_flags_zero m n f st : m !! f = Some 48 ->
  parse_flags L (S n) f st m = parse_flags L n (f + 1) (set_pad (set_flag st FLAG_PAD) (ZERO_PAD L)) m.
Proof. intros Hf. cbn [parse_flags]. by crun run_loadc. Qed.

Lemma parse_flags_blank m n f st : m !! f = Some 32 ->
  parse_flags L (S n) f st m = parse_flags L n (f + 1) (set_flag st FLAG_ALIGN_SIGN) m.
Proof. intros Hf. cbn [parse_flags]. by crun run_loadc. Qed.

Lemma parse_flags_run m f alt zero sp c rest fuel : Z.b2z alt + Z.b2z zero + Z.b2z sp < Z.of_nat fuel ->
  bytes_at m f ((if alt : bool then [35] else []) ++ (if zero : bool then [48] else []) ++
    (if sp : bool then [32] else []) ++ c :: rest) ->
  0 < c < 128 -> no_flag c ->
  parse_flags L fuel f (default_style L) m
    = Ret ((style0 alt zero sp 0, f + Z.b2z alt + Z.b2z zero + Z.b2z sp), m).
Proof.
  intros Hf Hb Hc Hn. destruct alt, zero, sp; cbn [Z.b2z] in Hf; destruct fuel as [|[|[|[|fuel]]]]; try lia; cbn [app] in Hb; repeat (apply bytes_at_cons in Hb as [? Hb]);
    cbn [Z.b2z]; rewrite ?Z.add_0_r;
    rewrite ?parse_flags_alt by done; rewrite ?parse_flags_zero by done; rewrite ?parse_flags_blank by done;
    by erewrite parse_flags_stop by eauto.
Qed.

(** [strtoul] on digits that end at a character that is not a digit. *)
Lemma scan_number m s ds c : bytes_at m s (digit_chars ds ++ [c]) ->
  Forall (fun d => 0 <= d < 10) ds -> 0 < c < 128 -> ref_space c = false ->
  (forall v, ref_digit_value c = Some v -> 10 <= v) ->
  strtoul_scan s 10 m = Ret ((u32 (horner 10 ds 0), s + Z.of_nat (length ds)), m).
Proof.
  intros Hb Hd Hc Hsp Hnd. unfold strtoul_scan, with_fuel. do 2 crun run_assert.
  erewrite run_bind; last first.
  { destruct ds as [|d ds]; cbn in Hb; apply bytes_at_cons in Hb as [H0 _].
    - eapply skip_none; [exact H0|lia|done].
    - apply Forall_cons in Hd as [Hd _]. pose proof (digit_char_range d ltac:(lia)).
      eapply skip_none; [exact H0|lia|apply digit_char_not_space; lia]. }
  unfold strtoul_prefix. cbn [Z.eqb Pos.eqb orb]. rewrite run_bind_ret. change 0 with (u32 0) at 1.
  apply strtoul_digits_run with (c := c); [done|lia|done|lia|done|].
  apply bytes_at_fuel in Hb. rewrite length_app in Hb. unfold digit_chars in Hb.
  rewrite length_fmap in Hb. lia.
Qed.

Lemma parse_width_run m f st w c rest : 0 <= w <= 51 -> width st = 0 ->
  bytes_at m f ((if 0 <? w then numeral 10 w else []) ++ c :: rest) ->
  0 < c < 128 -> ref_space c = false -> (forall v, ref_digit_value c = Some v -> 10 <= v) ->
  parse_width f st m = Ret ((if 0 <? w then set_width st w else st,
    f + Z.of_nat (length (if 0 <? w then numeral 10 w else []))), m).
Proof.
  intros Hw Hst Hb Hc Hsp Hnd. unfold parse_width.
  replace (c :: rest) with ([c] ++ rest) in Hb by done. rewrite app_assoc in Hb.
  apply bytes_at_app in Hb as [Hb _].
  destruct (Z.ltb_spec 0 w) as [Hpos|Hz].
  - rewrite numeral_digits in Hb. pose proof (rev_digits_ok 10 w ltac:(lia) ltac:(lia)) as [Hd _].
    erewrite run_bind by (by apply (scan_number m f (rev (digits 32 10 w)) c)).
    rewrite horner_digits by (pose proof (u32_pow 10 w); lia). rewrite u32_small by lia. zif.
    unfold mret, C_ret. do 3 f_equal. rewrite numeral_digits. unfold digit_chars. by rewrite length_fmap.
  - erewrite run_bind by (apply (scan_number m f [] c); done). cbn. by rewrite Z.add_0_r.
Qed.

Lemma style0_width alt zero sp w :
  (if 0 <? w then set_width (style0 alt zero sp 0) w else style0 alt zero sp 0) = style0 alt zero sp w.
Proof. done. Qed.

(** The first character of a width is a digit from 1 to 9. *)
Lemma width_head w c rest : 0 <= w <= 51 -> no_flag c -> 0 < c < 128 ->
  exists c' rest', (if 0 <? w then numeral 10 w else []) ++ c :: rest = c' :: rest' /\
    no_flag c' /\ 0 < c' < 128.
Proof.
  intros Hw Hc Hr. destruct (Z.ltb_spec 0 w); [|by exists c, rest].
  destruct (digits_lead 32 10 w) as (d & ds & E & Hd); [lia|pose proof (u32_pow 10 w); lia|].
  pose proof (digits_range 32 10 w ltac:(lia) ltac:(lia)) as Hds%Forall_rev. rewrite E in Hds.
  apply Forall_cons in Hds as [Hd0 _]. rewrite numeral_digits, E.
  eexists (digit_char d), _. split; [reflexivity|]. unfold no_flag, digit_char. zif. lia.
Qed.

(** Parsing the text of a conversion after the percent sign. *)
Lemma parse_format_run m f alt zero sp w k rest : 0 <= w <= 51 ->
  bytes_at m (f - 1) (format_of (Conv alt zero sp w k) ++ rest) ->
  parse_format_style L f m
    = Ret ((parse_code L (code_of k) (style0 alt zero sp w),
            f - 1 + Z.of_nat (length (format_of (Conv alt zero sp w k)))), m).
Proof.
  intros Hw Hb. unfold parse_format_style, with_fuel.
  destruct (code_of_range k) as (Hc & Hnf & Hdot & Hsp & Hnd).
  cbn [format_of] in *. rewrite <- !app_assoc in Hb. cbn [app] in Hb.
  set (wd := if 0 <? w then numeral 10 w else []) in *.
  assert (Hfuel : Z.b2z alt + Z.b2z zero + Z.b2z sp < Z.of_nat (mem_fuel m)).
  { apply bytes_at_fuel in Hb. cbn [length] in Hb. rewrite !length_app in Hb. destruct alt, zero, sp; cbn [length Z.b2z] in *; lia. }
  apply bytes_at_cons in Hb as [H37 Hb]. replace (f - 1 + 1) with f in Hb by lia.
  destruct (width_head w (code_of k) rest Hw Hnf Hc) as (c' & rest' & E & Hn' & Hc').
  fold wd in E. rewrite E in Hb.
  erewrite run_bind by (eapply parse_flags_run; [exact Hfuel|exact Hb|done|done]).
  rewrite <- E in Hb. do 3 apply bytes_at_app in Hb as [_ Hb].
  replace (f + Z.of_nat (length (if alt then [35] else [])) + Z.of_nat (length (if zero then [48] else [])) +
      Z.of_nat (length (if sp then [32] else [])))
    with (f + Z.b2z alt + Z.b2z zero + Z.b2z sp) in Hb by (by destruct alt, zero, sp).
  unfold wd in Hb.
  erewrite run_bind by (eapply parse_width_run; [done|by destruct alt, zero, sp|exact Hb|done|done|done]).
  fold wd in Hb |- *. rewrite style0_width. apply bytes_at_app in Hb as [_ Hb].
  apply bytes_at_cons in Hb as [Hcode _]. unfold parse_precision.
  erewrite run_bind; last first.
  { crun run_loadc. rewrite s8_small by lia. rewrite (proj2 (Z.eqb_neq _ 46)) by done. reflexivity. }
  cbn beta iota. crun run_loadc. rewrite s8_small by lia. unfold mret, C_ret. do 3 f_equal.
  rewrite !length_app. cbn [length]. destruct alt, zero, sp; cbn [Z.b2z length]; lia.
Qed.

End Parse.

(** ** Printing *)

Section Print.
Context (L : layout) (b N : Z).

(** The locals are outside the output buffer [b, b + N). *)
Record frame_ok : Prop := {
  fr_buffer : 0 < b /\ b + N <= 4294967296;
  fr_char : 0 < local_character L < 4294967296;
  fr_text : 0 < local_text L /\ local_text L + 12 <= 4294967296;
  fr_char_buffer : ~ (b <= local_character L < b + N);
  fr_char_text : ~ (local_text L <= local_character L < local_text L + 12);
  fr_text_buffer : local_text L + 12 <= b \/ b + N <= local_text L }.
Context (HF : frame_ok).

Definition private (x : Z) : Prop :=
  x = local_character L \/ local_text L <= x < local_text L + 12.

(** The locals and the buffer are mapped. *)
Definition ready (m : mem) : Prop :=
  mapped m b N /\ is_Some (m !! local_character L) /\ mapped m (local_text L) 12.

(** [out] was printed at [p]; nothing else changed, except in [Q]. *)
Record printed_but (Q : Z -> Prop) (m : mem) (p : Z) (out : list Z) (m' : mem) : Prop := {
  pr_bytes : bytes_at m' p out;
  pr_frame : forall x, ~ (p <= x < p + Z.of_nat (length out)) -> ~ Q x -> m' !! x = m !! x;
  pr_map : forall x, is_Some (m !! x) -> is_Some (m' !! x) }.

Abbreviation printed := (printed_but private).
Abbreviation just_printed := (printed_but (fun _ => False)).

(** Constant data: outside the buffer and the locals. *)
Record constant (m : mem) (a : Z) (l : list Z) : Prop := {
  co_range : 0 < a /\ a + Z.of_nat (length l) <= 4294967296;
  co_bytes : bytes_at m a l;
  co_out : forall x, a <= x < a + Z.of_nat (length l) -> ~ (b <= x < b + N) /\ ~ private x }.

Definition inside (p : Z) (out : list Z) : Prop := b <= p /\ p + Z.of_nat (length out) <= b + N.

Lemma private_outside x : private x -> ~ (b <= x < b + N).
Proof. destruct HF. intros [->|?]; lia. Qed.

Lemma just_printed_printed m p out m' : just_printed m p out m' -> printed m p out m'.
Proof. intros [? Hf ?]. split; [done| |done]. intros x Hx _. apply Hf; auto. Qed.

Lemma printed_constant m p out m' a l :
  inside p out -> printed m p out m' -> constant m a l -> constant m' a l.
Proof.
  intros [? ?] [_ Hf _] [Hr Hb Ho]. split; [done| |done]. eapply bytes_at_frame; [|exact Hb].
  intros x Hx. destruct (Ho x Hx). apply Hf; [lia|done].
Qed.

Lemma printed_ready m p out m' : printed m p out m' -> ready m -> ready m'.
Proof. intros [_ _ Hm] (H1 & H2 & H3). repeat split; [|by apply Hm|]; intros x Hx; apply Hm; auto. Qed.

Lemma printed_refl Q m p : printed_but Q m p [] m.
Proof. split; [apply bytes_at_nil|done|done]. Qed.

Lemma printed_app m p o1 o2 m1 m2 :
  inside p (o1 ++ o2) -> printed m p o1 m1 -> printed m1 (p + Z.of_nat (length o1)) o2 m2 ->
  printed m p (o1 ++ o2) m2.
Proof.
  intros [Hi1 Hi2] [B1 F1 M1] [B2 F2 M2]. rewrite length_app in Hi2. split.
  - apply bytes_at_app. split; [|done]. eapply bytes_at_frame; [|exact B1].
    intros x Hx. apply F2; [lia|]. intros Hp%private_outside. lia.
  - intros x Hx Hp. rewrite length_app in Hx. rewrite F2, F1 by (done || lia). done.
  - auto.
Qed.

(** Scratch work in the locals prints nothing. *)
Lemma printed_private m p q l :
  (forall x, q <= x < q + Z.of_nat (length l) -> private x) -> printed m p [] (write_bytes m q l).
Proof.
  intros Hq. split; [apply bytes_at_nil| |].
  - intros x _ Hx. rewrite lookup_write_bytes, decide_False; [done|]. intros ?. by apply Hx, Hq.
  - intros x Hx. rewrite lookup_write_bytes. case_decide; [|done]. apply lookup_lt_is_Some. lia.
Qed.

Lemma print_text_run m p bl src l n :
  ready m -> inside p l -> n = Z.of_nat (length l) -> n <= bl -> 0 < src -> Forall is_u8 l ->
  bytes_at m src l -> (forall x, src <= x < src + n -> ~ (b <= x < b + N)) ->
  print_text p bl src n m = Ret (n, write_bytes m p l) /\ just_printed m p l (write_bytes m p l).
Proof.
  intros (Hm & _ & _) [Hi1 Hi2] -> Hn Hs Hu Hb Hd. destruct HF. split.
  - unfold print_text. rewrite Z.min_r by lia.
    erewrite run_bind; [done|]. apply memcpy_run; try done; [lia|eapply mapped_sub; [exact Hm|lia|lia]|].
    destruct (decide (src + Z.of_nat (length l) <= p)); [by right|].
    destruct (decide (p <= src)); [by left|]. exfalso. apply (Hd p); lia.
  - split; [apply bytes_at_write| |].
    + intros x Hx _. by rewrite lookup_write_bytes, decide_False by done.
    + intros x Hx. rewrite lookup_write_bytes. case_decide; [|done]. apply lookup_lt_is_Some. lia.
Qed.

(** Text from constant data. *)
Lemma print_constant_run m p bl src l k n :
  ready m -> inside p l -> constant m src (l ++ k) -> n = Z.of_nat (length l) -> n <= bl ->
  Forall is_u8 l -> exists m', print_text p bl src n m = Ret (n, m') /\ just_printed m p l m'.
Proof.
  intros Hr Hi [Hra Hb Ho] Hn Hbl Hu. rewrite length_app in *. apply bytes_at_app in Hb as [Hb _].
  eexists. eapply print_text_run; try done; [lia|]. intros x Hx. apply (Ho x). lia.
Qed.

(** The padding: blanks or zeros. *)
Definition pad_ok (m : mem) (st : format_style) (c : Z) : Prop :=
  constant m (pad st) (replicate 51 c ++ [0]) /\ is_u8 c /\ 0 <= width st <= 51.

Lemma pad_ok_printed m p out m' st c : inside p out -> printed m p out m' -> pad_ok m st c -> pad_ok m' st c.
Proof. intros Hi Hp [Hc H]. split; [by eapply printed_constant|done]. Qed.

Lemma print_pad_run m p bl st c np nt :
  let out := replicate (Z.to_nat (width st) - np - nt) c in
  ready m -> pad_ok m st c -> inside p out -> Z.of_nat (length out) <= bl ->
  Z.of_nat np + Z.of_nat nt < 4294967296 ->
  exists m', print_pad p bl st (Z.of_nat np) (Z.of_nat nt) m = Ret (Z.of_nat (length out), m') /\
    just_printed m p out m'.
Proof.
  intros out Hr (Hc & Hu & Hw) Hi Hbl Hsm. unfold print_pad. rewrite u32_small by lia.
  unfold out in *. rewrite length_replicate in *.
  destruct (Z.ltb_spec (Z.of_nat np + Z.of_nat nt) (width st)) as [Hlt|Hge].
  - rewrite u32_small by lia.
    replace (width st - Z.of_nat np - Z.of_nat nt) with (Z.of_nat (Z.to_nat (width st) - np - nt)) by lia.
    apply print_constant_run with (k := replicate (51 - (Z.to_nat (width st) - np - nt)) c ++ [0]); try done.
    + rewrite app_assoc, <- replicate_add. by replace (_ + _)%nat with 51%nat by lia.
    + rewrite length_replicate. lia.
    + by apply Forall_replicate.
  - exists m. replace (Z.to_nat (width st) - np - nt)%nat with 0%nat by lia. split; [done|apply printed_refl].
Qed.

(** Padding, then text from a place that printing leaves alone. *)
Lemma pad_text_run m p bl st c np src text :
  let out := replicate (Z.to_nat (width st) - np - length text) c ++ text in
  ready m -> pad_ok m st c -> inside p out -> Z.of_nat (length out) <= bl -> bl < 4294967296 ->
  Z.of_nat np + Z.of_nat (length text) < 4294967296 ->
  bytes_at m src text -> Forall is_u8 text -> 0 < src ->
  (forall x, src <= x < src + Z.of_nat (length text) -> ~ (b <= x < b + N)) ->
  exists m1 m2 k,
    print_pad p bl st (Z.of_nat np) (Z.of_nat (length text)) m = Ret (k, m1) /\
    print_text (p + k) (u32 (bl - k)) src (Z.of_nat (length text)) m1
      = Ret (Z.of_nat (length text), m2) /\
    k + Z.of_nat (length text) = Z.of_nat (length out) /\ 0 <= k /\ just_printed m p out m2.
Proof.
  intros out Hr Hp Hi Hbl Hblu Hsm Hb Hu Hs Hd. unfold out in *.
  set (pd := replicate _ c) in *. destruct Hi as [Hi1 Hi2]. rewrite length_app in Hi2, Hbl.
  destruct (print_pad_run m p bl st c np (length text) Hr Hp) as (m1 & E1 & P1);
    [fold pd; split; lia|fold pd; lia|done|]. fold pd in E1, P1.
  assert (Hr1 : ready m1) by (eapply printed_ready; [apply just_printed_printed, P1|done]).
  assert (Hb1 : bytes_at m1 src text).
  { eapply bytes_at_frame; [|exact Hb]. intros x Hx. apply (pr_frame _ _ _ _ _ P1); [|auto].
    specialize (Hd x Hx). lia. }
  destruct (print_text_run m1 (p + Z.of_nat (length pd)) (u32 (bl - Z.of_nat (length pd))) src text
    (Z.of_nat (length text))) as (E2 & P2); try done; [split; lia|rewrite u32_small by lia; lia|].
  eexists m1, _, (Z.of_nat (length pd)). do 2 (split; [done|]). rewrite length_app. split; [lia|]. split; [lia|].
  split.
  - apply bytes_at_app. split; [|apply P2]. eapply bytes_at_frame; [|apply P1].
    intros x Hx. apply (pr_frame _ _ _ _ _ P2); [lia|auto].
  - intros x Hx _. rewrite length_app in Hx.
    rewrite (pr_frame _ _ _ _ _ P2), (pr_frame _ _ _ _ _ P1) by (auto || lia). done.
  - intros x Hx. apply (pr_map _ _ _ _ _ P2), (pr_map _ _ _ _ _ P1), Hx.
Qed.

Lemma print_character_run m p bl st c pc :
  let out := replicate (Z.to_nat (width st) - 1) pc ++ [u8 c] in
  ready m -> pad_ok m st pc -> inside p out -> Z.of_nat (length out) <= bl -> bl < 4294967296 ->
  exists m', print_character_argument L p bl c st m = Ret (Z.of_nat (length out), m') /\ printed m p out m'.
Proof.
  intros out Hr Hp Hi Hbl Hblu. pose proof Hr as (_ & Hlc & _). unfold print_character_argument.
  crun run_store. change (<[local_character L := u8 c]> m) with (write_bytes m (local_character L) [u8 c]).
  set (m0 := write_bytes m (local_character L) [u8 c]).
  assert (P0 : printed m p [] m0).
  { apply printed_private. cbn. intros x Hx. left. lia. }
  destruct (pad_text_run m0 p bl st pc 0 (local_character L) [u8 c]) as (m1 & m2 & k & E1 & E2 & Hk & Hk0 & P).
  1: by eapply printed_ready.
  1: { eapply pad_ok_printed; [|exact P0|done]. destruct Hi. split; cbn; lia. }
  1: by rewrite Nat.sub_0_r.
  1: by rewrite Nat.sub_0_r.
  1,2: cbn; lia.
  1: apply bytes_at_write.
  1: { repeat constructor; unfold u8; zlia. }
  1: destruct HF; lia.
  1: { cbn. intros x Hx. replace x with (local_character L) by lia. by destruct HF. }
  rewrite Nat.sub_0_r in *. fold out in Hk, P. cbn [length Z.of_nat] in *.
  erewrite run_bind by exact E1. erewrite run_bind by exact E2. exists m2. split.
  - unfold mret, C_ret, out in *. rewrite u32_small, Hk by lia. done.
  - change out with ([] ++ out). eapply printed_app; [done|exact P0|].
    cbn. rewrite Z.add_0_r. by apply just_printed_printed.
Qed.

Lemma print_string_run m p bl st s cs pc :
  let out := replicate (Z.to_nat (width st) - length cs) pc ++ cs in
  ready m -> pad_ok m st pc -> inside p out -> Z.of_nat (length out) <= bl -> bl < 4294967296 ->
  Forall (fun b => 0 < b < 256) cs ->
  constant m (if s =? NULL then NULL_TEXT L else s) (cs ++ [0]) ->
  exists m', print_string_argument L p bl s st m = Ret (Z.of_nat (length out), m') /\ printed m p out m'.
Proof.
  intros out Hr Hp Hi Hbl Hblu Hcs [Hcr Hcb Hco]. unfold print_string_argument. cbv zeta.
  set (s' := if s =? NULL then NULL_TEXT L else s) in *. rewrite length_app in Hcr, Hco. cbn in Hcr, Hco.
  erewrite run_bind by (apply (strlen_run m s' cs); split; [lia|done]).
  destruct (pad_text_run m p bl st pc 0 s' cs) as (m1 & m2 & k & E1 & E2 & Hk & Hk0 & P); try done.
  1,2: by rewrite Nat.sub_0_r.
  1: cbn; lia.
  1: by apply bytes_at_app in Hcb as [? _].
  1: by apply chars_u8.
  1: lia.
  1: { intros x Hx. apply (Hco x). lia. }
  rewrite Nat.sub_0_r in *. fold out in Hk, P. change (Z.of_nat 0) with 0 in E1.
  erewrite run_bind by exact E1. erewrite run_bind by exact E2. exists m2. split.
  - unfold mret, C_ret, out in *. rewrite u32_small, Hk by lia. done.
  - by apply just_printed_printed.
Qed.

(** The text of an integer, as it is converted into the local buffer. *)
Definition integer_text (st : format_style) (v : Z) : list Z :=
  if negb (Z.land (type st) TYPE_UNSIGNED =? 0) then numeral (base st) (u32 v) else decimal (s32 v).

Lemma numeral_length_8 r v : 8 <= r -> 0 <= v < 4294967296 -> (length (numeral r v) <= 11)%nat.
Proof.
  intros Hr Hv. unfold numeral. rewrite length_rev, length_fmap. apply digits_length_pow; [lia|lia|].
  split; [lia|]. apply Z.lt_le_trans with (8 ^ 11); [lia|]. apply Z.pow_le_mono_l. lia.
Qed.

Lemma decimal_chars v : -2147483648 <= v < 2147483648 -> Forall (fun b => 0 < b < 256) (decimal v).
Proof.
  intros Hv. unfold decimal. destruct (Z.ltb_spec v 0); [constructor; [lia|]|];
    apply Forall_rev, numeral_chars; lia.
Qed.

Lemma u32_is_u32 v : 0 <= u32 v < 4294967296.
Proof. unfold u32. zlia. Qed.

Lemma s32_range v : -2147483648 <= s32 v < 2147483648.
Proof. unfold s32. zlia. Qed.

(** The conversion never overflows its twelve bytes. *)
Lemma convert_run m st v : ready m ->
  (base st = 10 \/ (8 <= base st <= 36 /\ Z.land (type st) TYPE_UNSIGNED <> 0)) ->
  let text := integer_text st v in
  (if negb (Z.land (type st) TYPE_UNSIGNED =? 0)
   then uitoa (u32 v) (local_text L) (base st) else itoa (s32 v) (local_text L) (base st)) m
    = Ret (local_text L, write_bytes m (local_text L) (text ++ [0])) /\
  (length text <= 11)%nat /\ Forall (fun b => 0 < b < 256) text.
Proof.
  intros (_ & _ & Hm) Hb text. unfold text, integer_text. destruct HF.
  pose proof (u32_is_u32 v). pose proof (s32_range v).
  destruct (Z.eqb_spec (Z.land (type st) TYPE_UNSIGNED) 0) as [Hz|Hnz]; cbn [negb].
  - destruct Hb as [->|[_ ?]]; [|done]. split; [apply itoa_run; done || lia|].
    split; [by apply decimal_length|by apply decimal_chars].
  - pose proof (numeral_length_8 (base st) (u32 v) ltac:(lia) ltac:(lia)).
    split; [apply uitoa_run; try lia; eapply mapped_sub; [exact Hm|lia|lia]|].
    split; [done|]. apply Forall_rev, numeral_chars; lia.
Qed.

Definition alternate_prefix (st : format_style) (pre : list Z) : list Z :=
  if has_flag st FLAG_ALTERNATE_OUTPUT then pre else [].

Lemma print_prefix_run m p bl st pre :
  ready m -> constant m (prefix st) (pre ++ [0]) -> Forall (fun b => 0 < b < 256) pre ->
  inside p (alternate_prefix st pre) -> Z.of_nat (length (alternate_prefix st pre)) <= bl ->
  exists m', (if has_flag st FLAG_ALTERNATE_OUTPUT then
       prefix_length ← strlen (prefix st);
       length ← print_text p bl (prefix st) prefix_length;
       mret (length, prefix_length)
     else mret (0, 0)) m
    = Ret ((Z.of_nat (length (alternate_prefix st pre)), Z.of_nat (length (alternate_prefix st pre))), m') /\
    just_printed m p (alternate_prefix st pre) m'.
Proof.
  unfold alternate_prefix. intros Hr Hc Hp Hi Hbl.
  destruct (has_flag st FLAG_ALTERNATE_OUTPUT); [|exists m; split; [done|apply printed_refl]].
  destruct (print_constant_run m p bl (prefix st) pre [0] (Z.of_nat (length pre))) as (m' & E & P);
    [done..|by apply chars_u8|].
  exists m'. split; [|done]. destruct Hc as [Hra Hcb _]. rewrite length_app in Hra. cbn in Hra.
  erewrite run_bind by (apply (strlen_run m (prefix st) pre); split; [lia|done]).
  by erewrite run_bind by exact E.
Qed.

Lemma print_integer_run m p bl st v pre pc :
  let text := integer_text st v in
  let ap := alternate_prefix st pre in
  let out := ap ++ replicate (Z.to_nat (width st) - length ap - length text) pc ++ text in
  ready m -> pad_ok m st pc -> constant m (prefix st) (pre ++ [0]) ->
  Forall (fun b => 0 < b < 256) pre -> (length pre <= 2)%nat ->
  (base st = 10 \/ (8 <= base st <= 36 /\ Z.land (type st) TYPE_UNSIGNED <> 0)) ->
  inside p out -> Z.of_nat (length out) <= bl -> bl < 4294967296 ->
  exists m', print_integer_argument L p bl v st m = Ret (Z.of_nat (length out), m') /\ printed m p out m'.
Proof.
  intros text ap out Hr Hp Hc Hpre Hpl Hbase Hi Hbl Hblu.
  assert (Hap : (length ap <= 2)%nat) by (unfold ap, alternate_prefix; destruct has_flag; cbn; lia).
  set (pt := replicate _ pc ++ text) in out. pose proof Hi as [Hi1 Hi2].
  unfold out in Hi2, Hbl. rewrite length_app in Hi2, Hbl.
  unfold print_integer_argument.
  destruct (print_prefix_run m p bl st pre Hr Hc Hpre) as (m1 & E1 & P1); fold ap; [split; lia|lia|].
  fold ap in E1, P1. erewrite run_bind by exact E1. cbv zeta beta iota.
  apply just_printed_printed in P1. pose proof (printed_ready _ _ _ _ P1 Hr) as Hr1.
  destruct (convert_run m1 st v Hr1 Hbase) as (E2 & Htl & Htc). fold text in E2, Htl, Htc.
  erewrite run_bind by exact E2. set (m2 := write_bytes m1 (local_text L) (text ++ [0])) in *.
  assert (P2 : printed m1 (p + Z.of_nat (length ap)) [] m2).
  { apply printed_private. rewrite length_app. cbn. intros x Hx. right. lia. }
  assert (Hb2 : bytes_at m2 (local_text L) (text ++ [0])) by apply bytes_at_write.
  erewrite run_bind by (apply (strlen_run m2 (local_text L) text); split;
    [destruct HF; lia|done]).
  destruct (pad_text_run m2 (p + Z.of_nat (length ap)) (u32 (bl - Z.of_nat (length ap))) st pc
    (length ap) (local_text L) text) as (m3 & m4 & k & E3 & E4 & Hk & Hk0 & P4); fold pt.
  1: by eapply printed_ready.
  1: { eapply pad_ok_printed; [|exact P2|eapply pad_ok_printed; [|exact P1|done]]; split; cbn; lia. }
  1: split; lia.
  1,2: rewrite u32_small by lia; lia.
  1: lia.
  1: by apply bytes_at_app in Hb2 as [? _].
  1: by apply chars_u8.
  1: destruct HF; lia.
  1: destruct HF; lia.
  fold pt in Hk, P4. erewrite run_bind by exact E3. erewrite run_bind by exact E4.
  exists m4. split.
  - unfold mret, C_ret, out. rewrite length_app, Nat2Z.inj_add, <- Hk.
    rewrite (u32_small (_ + k)), u32_small by lia. do 2 f_equal. lia.
  - eapply printed_app; [done|exact P1|]. change pt with ([] ++ pt).
    eapply printed_app; [split; cbn; lia|exact P2|].
    cbn. rewrite Z.add_0_r. by apply just_printed_printed.
Qed.

(** ** Conversions *)

(** The string literals of the file are in memory. *)
Record literals (m : mem) : Prop := {
  li_blank : constant m (BLANK_PAD L) (blank_pad_text ++ [0]);
  li_zero : constant m (ZERO_PAD L) (zero_pad_text ++ [0]);
  li_hex : constant m (HEX_PREFIX L) ([48; 120] ++ [0]);
  li_octal : constant m (OCTAL_PREFIX L) ([48] ++ [0]);
  li_none : constant m (NO_PREFIX L) ([] ++ [0]) }.

(** The string argument of an item is in memory ([NULL] prints the literal). *)
Definition string_ok (m : mem) (i : item) : Prop :=
  match i with
  | Conv _ _ _ _ (CStr s cs) => constant m (if s =? NULL then NULL_TEXT L else s) (cs ++ [0])
  | _ => True
  end.

Lemma printed_literals m p out m' : inside p out -> printed m p out m' -> literals m -> literals m'.
Proof. intros Hi Hp [? ? ? ? ?]. split; by eapply printed_constant. Qed.

Lemma printed_string m p out m' i : inside p out -> printed m p out m' -> string_ok m i -> string_ok m' i.
Proof. intros Hi Hp. destruct i as [|? ? ? ? []]; try done. by apply printed_constant with (1 := Hi). Qed.

Definition type_of (k : conversion) : Z :=
  match k with
  | CChar _ => TYPE_CHAR
  | CPercent => TYPE_PERCENT
  | CDec _ => TYPE_INT
  | CStr _ _ => TYPE_STRING
  | _ => TYPE_UNSIGNED_INT
  end.

Definition base_of (k : conversion) : Z :=
  match k with
  | CDec _ | CUns _ => 10
  | COct _ => 8
  | CHex _ | CPtr _ => 16
  | _ => 0
  end.

Definition full_prefix (k : conversion) : Z * list Z :=
  match k with
  | COct _ => (OCTAL_PREFIX L, [48])
  | CHex _ | CPtr _ => (HEX_PREFIX L, [48; 120])
  | _ => (NO_PREFIX L, [])
  end.

Lemma style_facts alt zero sp w k : 0 <= w ->
  let st := parse_code L (code_of k) (style0 L alt zero sp w) in
  type st = type_of k /\ base st = base_of k /\ width st = w /\
  pad st = (if zero then ZERO_PAD L else BLANK_PAD L) /\ prefix st = fst (full_prefix k) /\
  alternate_prefix st (snd (full_prefix k)) = prefix_of alt k.
Proof.
  intros Hw. unfold style0. destruct (Z.ltb_spec 0 w); [|replace w with 0 by lia];
    destruct alt, zero, sp, k; repeat split; reflexivity.
Qed.

Lemma full_prefix_constant m k : literals m ->
  constant m (fst (full_prefix k)) (snd (full_prefix k) ++ [0]) /\
  Forall (fun b => 0 < b < 256) (snd (full_prefix k)) /\ (length (snd (full_prefix k)) <= 2)%nat.
Proof.
  intros [? ? ? ? ?]. destruct k; (split; [done|]); cbn; (split; [repeat constructor; lia|lia]).
Qed.

Lemma integer_text_of st k v : conversion_ok k -> type st = type_of k -> base st = base_of k ->
  (k = CDec v \/ k = CUns v \/ k = COct v \/ k = CHex v \/ k = CPtr v) ->
  integer_text st (u32 v) = text_of k.
Proof.
  intros Hk Ht Hb Hv. unfold integer_text. rewrite Ht, Hb.
  destruct Hv as [->|[->|[->|[->| ->]]]]; cbn in Hk |- *;
    try (by rewrite !u32_small by (unfold u32; zlia)).
  f_equal. unfold s32, u32. zlia.
Qed.

Context {double : Type} (to_float : double -> double) (dtoa : double -> Z -> Z -> C (Z * Z * Z)).

Lemma print_argument_run m p bl alt zero sp w k rest :
  let i := Conv alt zero sp w k in
  ready m -> literals m -> string_ok m i -> item_ok i ->
  inside p (output_of i) -> Z.of_nat (length (output_of i)) <= bl -> bl < 4294967296 ->
  exists m', print_argument L to_float dtoa p bl (parse_code L (code_of k) (style0 L alt zero sp w))
      (args_of i ++ rest) m = Ret ((Z.of_nat (length (output_of i)), rest), m') /\
    printed m p (output_of i) m'.
Proof.
  intros i Hr Hl Hs [Hw Hk] Hi Hbl Hblu.
  destruct (style_facts alt zero sp w k) as (Ht & Hba & Hwd & Hpad & Hpre & Hap); [lia|].
  set (st := parse_code L (code_of k) (style0 L alt zero sp w)) in *.
  set (pc := if zero then 48 else 32) in *.
  assert (Hp : pad_ok m st pc).
  { split; [|unfold pc, is_u8; destruct zero; lia]. rewrite Hpad. destruct Hl. by destruct zero. }
  destruct (full_prefix_constant m k Hl) as (Hc & Hpr & Hpl). rewrite <- Hpre in Hc.
  assert (Hint : forall v, type st = TYPE_INT \/ type st = TYPE_UNSIGNED_INT ->
    (k = CDec v \/ k = CUns v \/ k = COct v \/ k = CHex v \/ k = CPtr v) ->
    exists m', print_integer_argument L p bl (u32 v) st m = Ret (Z.of_nat (length (output_of i)), m') /\
      printed m p (output_of i) m').
  { intros v Hty Hv. pose proof (integer_text_of st k v Hk Ht Hba Hv) as Htx.
    pose proof (print_integer_run m p bl st (u32 v) (snd (full_prefix k)) pc) as Hrun.
    cbv zeta in Hrun. rewrite Htx, Hap, Hwd in Hrun. apply Hrun; try done.
    rewrite Ht, Hba. destruct Hv as [->|[->|[->|[->| ->]]]]; cbn; (by left) || (right; done). }
  assert (Hout : output_of i = prefix_of alt k ++
    replicate (match length (prefix_of alt k) with O => Z.to_nat w | n => Z.to_nat w - n end -
      length (text_of k)) pc ++ text_of k).
  { unfold i, output_of. fold pc. destruct (prefix_of alt k); cbn [length]; by rewrite ?Nat.sub_0_r. }
  clearbody st. unfold print_argument. rewrite Ht. change TYPE_UNSIGNED_INT with 65552.
  destruct k as [c| |v|v|v|v|v|s cs]; cbn -[Z.of_nat print_integer_argument output_of] in *.
  1: pose proof (print_character_run m p bl st (s8 c) pc) as Hrun.
  2: pose proof (print_character_run m p bl st 37 pc) as Hrun.
  8: pose proof (print_string_run m p bl st s cs pc) as Hrun.
  1,2,8: cbv zeta in Hrun; rewrite ?Hwd, ?u8_s8 in Hrun; rewrite Hout in *;
    destruct Hrun as (m' & E & P); try done; exists m'; split; [by erewrite run_bind by exact E|done].
  all: try change TYPE_UNSIGNED_INT with 65552; cbn -[Z.of_nat print_integer_argument output_of];
       destruct (Hint v) as (m' & E & P); [rewrite Ht; auto|auto 10|];
       exists m'; split; [by erewrite run_bind by exact E|done].
Qed.

(** ** The main loop *)

Definition format_text (its : list item) : list Z := concat (format_of <$> its).
Definition rendering (its : list item) : list Z := concat (output_of <$> its).
Definition arguments (its : list item) : list (va double) := concat (args_of <$> its).

Lemma constant_tail m a l k : constant m a (l ++ k) -> constant m (a + Z.of_nat (length l)) k.
Proof.
  intros [Hr Hb Ho]. rewrite length_app in *. apply bytes_at_app in Hb as [_ Hb].
  split; [lia|done|]. intros x Hx. apply Ho. lia.
Qed.

Lemma print_literal_run m p c : ready m -> inside p [c] -> 0 < c < 256 ->
  store p (s8 c) m = Ret (tt, write_bytes m p [c]) /\ printed m p [c] (write_bytes m p [c]).
Proof.
  intros (Hm & _ & _) [Hi1 Hi2] Hc. cbn in Hi2. split.
  - rewrite run_store by (eapply mapped_lookup; [exact Hm|lia]). rewrite u8_s8, u8_small by lia. done.
  - apply just_printed_printed. split; [apply bytes_at_write| |].
    + intros x Hx _. by rewrite lookup_write_bytes, decide_False by done.
    + intros x Hx. rewrite lookup_write_bytes. case_decide; [|done]. apply lookup_lt_is_Some. lia.
Qed.

(** One item: the loop moves over it and has printed it. *)
Lemma loop_item_run m fuel p bl f len it rest more :
  ready m -> literals m -> string_ok m it -> item_ok it ->
  constant m f (format_of it ++ rest) -> inside p (output_of it) ->
  0 <= len < bl -> bl < 4294967296 -> Z.of_nat (length (output_of it)) <= bl ->
  len + Z.of_nat (length (output_of it)) < 4294967296 ->
  exists m', vsnprintf_loop L to_float dtoa (S fuel) p bl f len (args_of it ++ more) m
      = vsnprintf_loop L to_float dtoa fuel (p + Z.of_nat (length (output_of it))) bl
          (f + Z.of_nat (length (format_of it))) (len + Z.of_nat (length (output_of it))) more m' /\
    printed m p (output_of it) m'.
Proof.
  intros Hr Hl Hs Hok Hc Hi Hlen Hblu Hfit Htot. pose proof (co_bytes _ _ _ Hc) as Hb.
  cbn [vsnprintf_loop]. destruct it as [c|alt zero sp w k].
  - destruct Hok as [Hc0 Hc37]. cbn in Hb. apply bytes_at_cons in Hb as [Hb _].
    destruct (print_literal_run m p c Hr Hi Hc0) as [E P]. eexists. split; [|exact P].
    crun run_loadc. rewrite (proj2 (Z.ltb_lt len bl)) by lia.
    assert (s8 c <> 0 /\ s8 c <> 37) as [H0 H37] by (unfold s8; zlia).
    rewrite (proj2 (Z.eqb_neq _ 0) H0), (proj2 (Z.eqb_neq _ 37) H37). cbn [negb andb].
    erewrite run_bind by exact E. cbn [output_of format_of args_of length app Z.of_nat Pos.of_succ_nat].
    by rewrite u32_small by (cbn in Htot; lia).
  - pose proof Hok as [Hw _].
    destruct (print_argument_run m p bl alt zero sp w k more) as (m' & E & P); try done.
    exists m'. split; [|exact P]. pose proof Hb as H37. apply bytes_at_cons in H37 as [H37 _].
    crun run_loadc. rewrite (proj2 (Z.ltb_lt len bl)) by lia. change (s8 37) with 37. cbn [negb andb Z.eqb Pos.eqb].
    erewrite run_bind by (eapply (parse_format_run L m (f + 1)); [done|];
      replace (f + 1 - 1) with f by lia; exact Hb).
    cbv beta iota. erewrite run_bind by exact E. cbv beta iota.
    rewrite u32_small by lia. do 2 f_equal. lia.
Qed.

Lemma vsnprintf_loop_run its : forall m fuel p bl f len,
  ready m -> literals m -> Forall (string_ok m) its -> Forall item_ok its ->
  constant m f (format_text its ++ [0]) -> inside p (rendering its) ->
  0 <= len -> bl < 4294967296 -> len + Z.of_nat (length (rendering its)) <= bl ->
  (length its < fuel)%nat ->
  exists m', vsnprintf_loop L to_float dtoa fuel p bl f len (arguments its) m
      = Ret ((p + Z.of_nat (length (rendering its)), len + Z.of_nat (length (rendering its))), m') /\
    printed m p (rendering its) m'.
Proof.
  induction its as [|it its IH]; intros m fuel p bl f len Hr Hl Hs Hok Hc Hi Hlen Hblu Hfit Hfuel;
    destruct fuel as [|fuel]; [lia| |lia|].
  - exists m. split; [|apply printed_refl]. cbn [vsnprintf_loop].
    pose proof (co_bytes _ _ _ Hc) as [Hb _]%bytes_at_cons. crun run_loadc. cbn. by rewrite !Z.add_0_r.
  - apply Forall_cons in Hs as [Hs0 Hs], Hok as [Hok0 Hok].
    unfold format_text, rendering, arguments in *. cbn [fmap list_fmap concat] in *.
    destruct (decide (len < bl)) as [Hlt|Hge].
    + rewrite <- app_assoc in Hc. destruct Hi as [Hi1 Hi2]. rewrite length_app in Hi2, Hfit.
      destruct (loop_item_run m fuel p bl f len it (concat (format_of <$> its) ++ [0])
        (concat (args_of <$> its))) as (m1 & E & P); try done; [split; lia|lia|lia|].
      assert (Hi0 : inside p (output_of it)) by (split; lia).
      destruct (IH m1 fuel (p + Z.of_nat (length (output_of it))) bl
        (f + Z.of_nat (length (format_of it))) (len + Z.of_nat (length (output_of it))))
        as (m2 & E2 & P2); try done; try lia.
      * by eapply printed_ready.
      * by eapply printed_literals.
      * eapply Forall_impl; [exact Hs|]. intros j. by apply printed_string with (1 := Hi0).
      * apply constant_tail. by eapply printed_constant.
      * split; lia.
      * cbn in Hfuel. lia.
      * exists m2. rewrite E, E2, length_app. split; [do 3 f_equal; lia|].
        eapply printed_app; [split; rewrite ?length_app; lia|done|done].
    + assert (Hz : output_of it ++ concat (output_of <$> its) = []) by (apply nil_length_inv; lia).
      rewrite Hz in *. exists m. split; [|apply printed_refl]. cbn [length Z.of_nat]. rewrite !Z.add_0_r.
      assert (exists c, m !! f = Some c) as [c Hf].
      { rewrite <- app_assoc in Hc. pose proof (co_bytes _ _ _ Hc) as Hb.
        destruct it; apply bytes_at_cons in Hb as [Hb _]; eauto. }
      cbn [vsnprintf_loop]. crun run_loadc. rewrite (proj2 (Z.ltb_ge len bl)) by lia.
      by rewrite andb_false_r.
Qed.

Lemma format_text_length its : (length its <= length (format_text its))%nat.
Proof.
  unfold format_text. induction its as [|it its IH]; cbn [fmap list_fmap concat length]; [lia|].
  rewrite length_app. destruct it; cbn [format_of app length]; lia.
Qed.

(** The terminator. *)
Lemma finish_run m p out m1 : ready m -> printed m p out m1 ->
  b <= p -> p + Z.of_nat (length out) < b + N ->
  let m' := <[p + Z.of_nat (length out) := 0]> m1 in
  store (p + Z.of_nat (length out)) 0 m1 = Ret (tt, m') /\ bytes_at m' p (out ++ [0]) /\
  (forall x, ~ (p <= x <= p + Z.of_nat (length out)) -> ~ private x -> m' !! x = m !! x) /\
  forall x, is_Some (m !! x) -> is_Some (m' !! x).
Proof.
  intros Hr P Hp Hend m'. destruct (printed_ready _ _ _ _ P Hr) as (Hm & _ & _). split; [|split; [|split]].
  - rewrite run_store by (eapply mapped_lookup; [exact Hm|lia]). done.
  - change m' with (write_bytes m1 (p + Z.of_nat (length out)) [0]). apply bytes_at_app.
    split; [|apply bytes_at_write]. apply bytes_at_write_disjoint; [lia|apply P].
  - intros x Hx Hq. unfold m'. rewrite lookup_insert_ne by lia. apply (pr_frame _ _ _ _ _ P); [lia|done].
  - intros x Hx. unfold m'. destruct (decide (p + Z.of_nat (length out) = x)) as [->|];
      [rewrite lookup_insert_eq; eauto|rewrite lookup_insert_ne by done]. by apply (pr_map _ _ _ _ _ P).
Qed.

Lemma vsnprintf_run its m f :
  0 < N <= 2147483648 -> ready m -> literals m -> Forall (string_ok m) its -> Forall item_ok its ->
  constant m f (format_text its ++ [0]) -> Z.of_nat (length (rendering its)) < N ->
  exists m', vsnprintf L to_float dtoa b N f (arguments its) m
      = Ret (Z.of_nat (length (rendering its)), m') /\
    bytes_at m' b (rendering its ++ [0]) /\
    (forall x, ~ (b <= x <= b + Z.of_nat (length (rendering its))) -> ~ private x -> m' !! x = m !! x) /\
    forall x, is_Some (m !! x) -> is_Some (m' !! x).
Proof.
  intros HN Hr Hl Hs Hok Hc Hfit. unfold vsnprintf, with_fuel. rewrite u32_small by lia.
  destruct (vsnprintf_loop_run its m (mem_fuel m) b (N - 1) f 0) as (m1 & E & P); try done; try lia.
  - split; lia.
  - pose proof (format_text_length its). pose proof (co_bytes _ _ _ Hc) as Hb%bytes_at_fuel.
    rewrite length_app in Hb. lia.
  - destruct (finish_run m b (rendering its) m1) as (Est & Hb & Hf); [done|done|lia|lia|].
    eexists. erewrite run_bind by exact E. cbv beta iota. erewrite run_bind by exact Est.
    split; [|by split]. unfold mret, C_ret. do 2 f_equal. unfold s32. zlia.
Qed.


(** The buffer length is not a bound on what is written: of two conversions
    whose texts each fit the buffer, the second is printed in full even when
    both together exceed it. The call then stores past the end of the buffer
    and returns a length beyond the buffer length. *)
Theorem vsnprintf_overruns_buffer i1 i2 m f n :
  1 < n -> n <= N -> N <= 2147483648 -> ready m -> literals m ->
  Forall (string_ok m) [i1; i2] -> Forall item_ok [i1; i2] ->
  constant m f (format_text [i1; i2] ++ [0]) ->
  Z.of_nat (length (output_of i1)) < n - 1 -> Z.of_nat (length (output_of i2)) <= n - 1 ->
  n <= Z.of_nat (length (rendering [i1; i2])) < N ->
  exists m', vsnprintf L to_float dtoa b n f (arguments [i1; i2]) m
      = Ret (Z.of_nat (length (rendering [i1; i2])), m') /\
    bytes_at m' b (rendering [i1; i2] ++ [0]).
Proof.
  intros Hn HnN HN Hr Hl [Hs1 [Hs2 _]%Forall_cons]%Forall_cons [Hk1 [Hk2 _]%Forall_cons]%Forall_cons
    Hc H1 H2 Htot. unfold vsnprintf, with_fuel. rewrite u32_small by lia.
  unfold format_text, rendering, arguments in *. cbn [fmap list_fmap concat] in *.
  rewrite !app_nil_r in *. rewrite length_app in Htot. rewrite <- app_assoc in Hc.
  pose proof (bytes_at_fuel _ _ _ (co_bytes _ _ _ Hc)) as Hfuel.
  assert (Hlen : forall i, (1 <= length (format_of i))%nat) by (intros []; cbn; lia).
  pose proof (Hlen i1). pose proof (Hlen i2). rewrite !length_app in Hfuel. cbn [length] in Hfuel.
  destruct (mem_fuel m) as [|[|[|fuel]]] eqn:Ef; try lia.
  destruct (loop_item_run m (S (S fuel)) b (n - 1) f 0 i1 (format_of i2 ++ [0]) (args_of i2))
    as (m1 & E1 & P1); try done; try lia; [split; lia|].
  assert (Hi1 : inside b (output_of i1)) by (split; lia).
  assert (Hc1 : constant m1 (f + Z.of_nat (length (format_of i1))) (format_of i2 ++ [0])).
  { apply constant_tail. by eapply printed_constant. }
  destruct (loop_item_run m1 (S fuel) (b + Z.of_nat (length (output_of i1))) (n - 1)
    (f + Z.of_nat (length (format_of i1))) (0 + Z.of_nat (length (output_of i1))) i2 [0] [])
    as (m2 & E2 & P2); try done; try lia;
    [by eapply printed_ready|by eapply printed_literals|by eapply printed_string|split; lia|].
  assert (P : printed m b (output_of i1 ++ output_of i2) m2).
  { eapply printed_app; [split; rewrite ?length_app; lia|done|done]. }
  destruct (finish_run m b (output_of i1 ++ output_of i2) m2) as (Est & Hb & _);
    [done|done|lia|rewrite length_app; lia|].
  eexists. split; [|exact Hb]. rewrite app_nil_r in E2. erewrite run_bind; last first.
  { cbv beta. rewrite Ef, E1, E2. cbn [vsnprintf_loop].
    assert (Hi2 : inside (b + Z.of_nat (length (output_of i1))) (output_of i2)) by (split; lia).
    pose proof (printed_constant _ _ _ _ _ _ Hi2 P2 Hc1) as Hc2%constant_tail.
    pose proof (co_bytes _ _ _ Hc2) as [Hz _]%bytes_at_cons. crun run_loadc. reflexivity. }
  rewrite length_app, Nat2Z.inj_add, Z.add_assoc in Est. cbv beta iota. erewrite run_bind by exact Est.
  unfold mret, C_ret. do 2 f_equal; [unfold s32; rewrite length_app; zlia|].
  by rewrite length_app, Nat2Z.inj_add, Z.add_assoc.
Qed.

End Print.

(** ** Witnesses *)

Definition example_layout : layout := mkLayout 100 110 120 130 200 300 400 420 500 510.

(** The literals, the locals, a buffer of 40 bytes at 1000 and the given format
    at 600 and string at 700. *)
Definition example_memory (format string : list Z) : mem :=
  write_bytes (write_bytes (write_bytes (write_bytes (write_bytes (write_bytes (write_bytes
    (write_bytes (write_bytes (write_bytes ∅ 110 [48; 120; 0]) 120 [0]) 130 [48; 0])
    200 (blank_pad_text ++ [0])) 300 (zero_pad_text ++ [0])) 500 [0]) 510 (replicate 12 0))
    600 (format ++ [0])) 700 (string ++ [0])) 1000 (replicate 40 0).

Lemma example_frame : frame_ok example_layout 1000 40.
Proof. split; cbn; lia. Qed.

Lemma constant_check m a l : 0 < a -> a + Z.of_nat (length l) <= 500 \/ (600 <= a /\ a + Z.of_nat (length l) <= 1000) ->
  bytes_at m a l -> constant example_layout 1000 40 m a l.
Proof. intros ? ? ?. split; [lia|done|]. unfold private. cbn. lia. Qed.

(** [printf("n=%#06x %s", 255, "ok")]. *)
Definition example_items : list item :=
  [Lit 110; Lit 61; Conv true true false 6 (CHex 255); Lit 32; Conv false false false 0 (CStr 700 [111; 107])].


(** [snprintf(buffer, 10, "%s%s", s, s)] with a string of eight characters. *)
Lemma vsnprintf_overruns_buffer_witness :
  let s := replicate 8 97 in
  let i := Conv false false false 0 (CStr 700 s) in
  exists m', vsnprintf example_layout (fun d : unit => d) (fun _ _ _ => fail BadArgument) 1000 10 600
      [VPtr 700; VPtr 700] (example_memory (format_text [i; i]) s) = Ret (16, m') /\
    bytes_at m' 1000 (replicate 16 97 ++ [0]).
Proof.
  apply (vsnprintf_overruns_buffer example_layout 1000 40 example_frame (fun d : unit => d)
    (fun _ _ _ => fail BadArgument) (Conv false false false 0 (CStr 700 (replicate 8 97)))
    (Conv false false false 0 (CStr 700 (replicate 8 97))));
    [lia|lia|lia| | | | | |by_eval|by_eval|by_eval].
  - split; [by_eval|split; by_eval].
  - split; (apply constant_check; [cbn; lia|by_eval|by_eval]).
  - repeat apply Forall_cons_2; try done; (apply constant_check; [cbn; lia|by_eval|by_eval]).
  - repeat constructor; cbn; try lia; repeat constructor; lia.
  - apply constant_check; [cbn; lia|by_eval|by_eval].
Defined.
