(* ===== verification/Calendar.v ===== *)
(** * Calendar time: [src/src/lib/libc/mktime.c]

    [time_t] is a signed 64-bit count of seconds, [int] and [long] have 32
    bits. The routines have no side effects on other data, so they are pure
    functions that return a value or a trap. The fuel of the year loop is a
    bound on the number of years that the days can span. *)

From S2P Require Import Prelude CMem.

#[export] Instance res_ret : MRet res := fun A a => Ret a.
#[export] Instance res_bind : MBind res := fun A B k r =>
  match r with
  | Ret a => k a
  | Trap t => Trap t
  end.

Definition s64 (x : Z) : Z :=
  (x + 9223372036854775808) mod 18446744073709551616 - 9223372036854775808.

Definition rassert (b : bool) : res unit := if b then Ret tt else Trap AssertFailed.

Record tm := mkTm {
  tm_sec : Z; tm_min : Z; tm_hour : Z; tm_mday : Z; tm_mon : Z; tm_year : Z;
  tm_wday : Z; tm_yday : Z; tm_isdst : Z }.

Definition SECONDS_PER_MINUTE : Z := 60.
Definition MINUTES_PER_HOUR : Z := 60.
Definition HOURS_PER_DAY : Z := 24.

Definition DAYS_PER_MONTH : list Z := [31; 28; 31; 30; 31; 30; 31; 31; 30; 31; 30; 31].
Definition FIRST_DAY_OFFSET : list Z := [0; 3; 2; 5; 0; 3; 5; 1; 4; 6; 2; 4].

Definition is_leap_year (year : Z) : bool :=
  if negb (Z.rem year 4 =? 0) then false
  else if negb (Z.rem year 100 =? 0) then true
  else if negb (Z.rem year 400 =? 0) then false
  else true.

Definition days_per_month (month year : Z) : res Z :=
  rassert (u32 month <? 12);;
  let days := nth (Z.to_nat (u32 month)) DAYS_PER_MONTH 0 in
  mret (if (month =? 1) && is_leap_year year then days + 1 else days).

Definition days_per_year (year : Z) : Z := if is_leap_year year then 366 else 365.

(** The loop over full years: the days left and the year. *)
Fixpoint year_loop (fuel : nat) (delta days year : Z) : res (Z * Z) :=
  match fuel with
  | O => Trap OutOfFuel
  | S f =>
      let days_this_year := days_per_year year in
      if days <=? days_this_year then mret (days, year)
      else year_loop f delta (days - days_this_year) (s32 (year + delta))
  end.

(** The loop over full months, at most 13 rounds. *)
Fixpoint month_loop (fuel : nat) (delta days month year : Z) : res (Z * Z) :=
  match fuel with
  | O => Trap OutOfFuel
  | S f =>
      days_this_month ← days_per_month month year;
      if days <=? days_this_month then mret (days, month)
      else month_loop f delta (days - days_this_month) (month + delta) year
  end.

(** One unit of the partial day: the field, and [t] adjusted for borrowing. *)
Definition partial_unit (forward : bool) (t unit : Z) : Z * Z :=
  let r := Z.rem t unit in
  if negb (r =? 0) then
    if forward then (r, t) else (unit - r, s64 (t + unit))
  else (0, t).

(** The second half of [localtime_r], from the number of days on. *)
Definition date_part (forward : bool) (sec min hour days : Z) : res tm :=
  let delta := if forward then 1 else -1 in
  '(days, year) ← year_loop (S (Z.to_nat (days / 365))) delta days
                    (if forward then 1970 else 1969);
  rassert (days <=? 365);;
  let yday := if forward then days else days_per_year year - days in
  '(days, month) ← month_loop 13 delta days (if forward then 0 else 11) year;
  rassert (0 <=? month);;
  rassert (month <=? 11);;
  rassert (days <=? 31);;
  dpm ← days_per_month month year;
  let mday := if forward then days + 1 else dpm - days + 1 in
  let y := if month <? 2 then year - 1 else year in
  let wday := u32 (y + Z.quot y 4 - Z.quot y 100 + Z.quot y 400 +
                   nth (Z.to_nat month) FIRST_DAY_OFFSET 0 + days + 1) mod 7 in
  mret (mkTm sec min hour mday month (year - 1900) wday yday 0).

Definition localtime_r (seconds_since_epoch : Z) : res tm :=
  let t := seconds_since_epoch in
  let forward := 0 <=? t in
  let t := if forward then t else s64 (- t) in
  let '(sec, t) := partial_unit forward t SECONDS_PER_MINUTE in
  let t := Z.quot t SECONDS_PER_MINUTE in
  let '(min, t) := partial_unit forward t MINUTES_PER_HOUR in
  let t := Z.quot t MINUTES_PER_HOUR in
  let '(hour, t) := partial_unit forward t HOURS_PER_DAY in
  let days := u32 (Z.quot t HOURS_PER_DAY) in
  date_part forward sec min hour days.

(** [gmtime] and [localtime] return a static buffer with the same content. *)
Definition gmtime (timer : Z) : res tm := localtime_r timer.
Definition localtime (timer : Z) : res tm := localtime_r timer.

(** [for (i = from; i < from + n; i++) full_days += days_per_month(i, year)]. *)
Fixpoint add_months (n : nat) (i year full_days : Z) : res Z :=
  match n with
  | O => mret full_days
  | S n' =>
      d ← days_per_month i year;
      add_months n' (i + 1) year (s32 (full_days + d))
  end.

Fixpoint add_years (n : nat) (i sign full_days : Z) : Z :=
  match n with
  | O => full_days
  | S n' => add_years n' (i + 1) sign (s32 (full_days + sign * days_per_year i))
  end.

(** The result and the normalised structure. The product [full_days *
    SECONDS_PER_DAY] is computed in [long]. *)
Definition mktime (datetime : tm) : res (Z * tm) :=
  let year := s32 (tm_year datetime + 1900) in
  let partial_day := s32 (tm_sec datetime + tm_min datetime * 60 + tm_hour datetime * 60 * 60) in
  let full_days := s32 (tm_mday datetime - 1) in
  full_days ← add_months (Z.to_nat (tm_mon datetime)) 0 year full_days;
  let full_days :=
    if 1970 <? year then add_years (Z.to_nat (year - 1970)) 1970 1 full_days
    else add_years (Z.to_nat (1970 - year)) year (-1) full_days in
  let seconds_since_epoch := s64 (s32 (full_days * 60 * 60 * 24) + partial_day) in
  normalized_time ← localtime_r seconds_since_epoch;
  mret (seconds_since_epoch, normalized_time).

Example localtime_feb_first : localtime_r (31 * 86400) = Ret (mkTm 0 0 0 32 0 70 0 31 0).
Proof. vm_compute. reflexivity. Qed.

Example localtime_1999 : localtime_r 946684799 = Ret (mkTm 59 59 23 31 11 99 5 364 0).
Proof. vm_compute. reflexivity. Qed.
