(* ===== verification/CalendarThms.v ===== *)
(** * What the calendar routines guarantee *)

From S2P Require Import Prelude CMem Calendar.

(** ** Reference calendar *)

(** Days in the [n] years from [y] in steps of [delta]. *)
Fixpoint span (n : nat) (delta y : Z) : Z :=
  match n with
  | O => 0
  | S n' => days_per_year y + span n' delta (y + delta)
  end.

(** Days from January 1st, 1970 to January 1st of year [y]. *)
Definition year_days (y : Z) : Z :=
  if 1970 <=? y then span (Z.to_nat (y - 1970)) 1 1970 else - span (Z.to_nat (1970 - y)) (-1) 1969.

(** Days of month [m] of year [y], and days before it in the year. *)
Definition month_length (y m : Z) : Z :=
  nth (Z.to_nat m) DAYS_PER_MONTH 0 + (if (m =? 1) && is_leap_year y then 1 else 0).

Fixpoint month_days_nat (y : Z) (n : nat) : Z :=
  match n with
  | O => 0
  | S n' => month_days_nat y n' + month_length y (Z.of_nat n')
  end.
Definition month_days (y m : Z) : Z := month_days_nat y (Z.to_nat m).

(** The day number of a date. *)
Definition day_number (y m d : Z) : Z := year_days y + month_days y m + (d - 1).

(** ** Years *)

Lemma days_per_year_range y : 365 <= days_per_year y <= 366.
Proof. unfold days_per_year. case_match; lia. Qed.

Lemma span_snoc n delta y : span (S n) delta y = span n delta y + days_per_year (y + Z.of_nat n * delta).
Proof.
  revert y; induction n as [|n IH]; intros y.
  - cbn [span]. replace (y + Z.of_nat 0 * delta) with y by lia. lia.
  - change (span (S (S n)) delta y) with (days_per_year y + span (S n) delta (y + delta)).
    rewrite IH. cbn [span]. replace (y + delta + Z.of_nat n * delta) with (y + Z.of_nat (S n) * delta) by lia. lia.
Qed.

Lemma span_lower n delta y : 365 * Z.of_nat n <= span n delta y.
Proof.
  revert y; induction n as [|n IH]; intros y; [cbn; lia|]. cbn [span].
  pose proof (days_per_year_range y). specialize (IH (y + delta)). lia.
Qed.

(** The year loop returns the last year that the days reach. *)
Lemma year_loop_run delta : (delta = 1 \/ delta = -1) -> forall fuel days year,
  0 <= days -> days / 365 < Z.of_nat fuel -> -2147483648 <= year - Z.of_nat fuel ->
  year + Z.of_nat fuel < 2147483648 ->
  exists k days', year_loop fuel delta days year = Ret (days', year + Z.of_nat k * delta) /\
    days = span k delta year + days' /\ 0 <= days' <= days_per_year (year + Z.of_nat k * delta) /\
    (k = 0%nat \/ 0 < days') /\ (k < fuel)%nat.
Proof.
  intros Hd. induction fuel as [|f IH]; intros days year Hdays Hf Hlo Hhi; [zlia|].
  cbn [year_loop]. pose proof (days_per_year_range year).
  destruct (Z.leb_spec days (days_per_year year)) as [Hle|Hgt].
  - exists 0%nat, days. cbn [span]. replace (year + Z.of_nat 0 * delta) with year by lia. repeat split; lia || auto.
  - rewrite s32_small by lia.
    destruct (IH (days - days_per_year year) (year + delta)) as (k & d' & E & Hs & Hr & Hk & Hkf); try lia.
    { zlia. }
    exists (S k), d'. cbn [span]. rewrite E.
    replace (year + Z.of_nat (S k) * delta) with (year + delta + Z.of_nat k * delta) by lia.
    repeat split; try lia. right. destruct Hk as [->|?]; [cbn in Hs; lia|done].
Qed.

(** ** Months *)

Lemma days_per_month_run m y : 0 <= m < 12 -> days_per_month m y = Ret (month_length y m).
Proof.
  intros Hm. unfold days_per_month, month_length, rassert. rewrite u32_small by lia.
  rewrite (proj2 (Z.ltb_lt m 12)) by lia. unfold mbind, res_bind, mret, res_ret.
  destruct ((m =? 1) && is_leap_year y); f_equal; lia.
Qed.

(** A year whose leap status is [b]. *)
Definition sample (b : bool) : Z := if b then 1972 else 1970.

Lemma month_length_sample y m : month_length y m = month_length (sample (is_leap_year y)) m.
Proof. unfold month_length. by destruct (is_leap_year y). Qed.

Lemma month_days_sample y m : month_days y m = month_days (sample (is_leap_year y)) m.
Proof.
  unfold month_days. induction (Z.to_nat m) as [|n IH]; [done|]. cbn [month_days_nat].
  by rewrite IH, month_length_sample.
Qed.

Lemma month_loop_sample fuel delta : forall days m y,
  month_loop fuel delta days m y = month_loop fuel delta days m (sample (is_leap_year y)).
Proof.
  induction fuel as [|f IH]; intros days m y; [done|]. cbn [month_loop].
  assert (E : days_per_month m y = days_per_month m (sample (is_leap_year y))).
  { unfold days_per_month. by destruct (is_leap_year y). }
  rewrite E. destruct (days_per_month m (sample (is_leap_year y))) as [d|t]; [|done].
  unfold mbind, res_bind. by rewrite IH.
Qed.

(** What the month loop returns, checked for every day of both kinds of year. *)
Definition month_forward_ok (b : bool) (days : Z) : bool :=
  match month_loop 13 1 days 0 (sample b) with
  | Ret (d, m) =>
      (0 <=? m) && (m <=? 11) && (month_days (sample b) m + d =? days) && (0 <=? d)
      && (d <=? month_length (sample b) m) && ((m =? 0) || (0 <? d)) && (d <=? 31)
  | Trap _ => false
  end.

Definition month_backward_ok (b : bool) (days : Z) : bool :=
  match month_loop 13 (-1) days 11 (sample b) with
  | Ret (d, m) =>
      (0 <=? m) && (m <=? 11)
      && (month_days (sample b) m + (month_length (sample b) m - d) =? days_per_year (sample b) - days)
      && (1 <=? d) && (d <=? month_length (sample b) m) && (d <=? 31)
  | Trap _ => false
  end.

Lemma month_loops_ok :
  forallb (fun d => month_forward_ok true d && month_forward_ok false d) (seqZ 0 366) = true /\
  forallb (fun d => month_backward_ok true d && month_backward_ok false d) (seqZ 1 365) = true.
Proof. split; vm_compute; reflexivity. Qed.

Lemma month_forward days y : 0 <= days <= 365 -> exists d m,
  month_loop 13 1 days 0 y = Ret (d, m) /\ 0 <= m <= 11 /\ days = month_days y m + d /\
  0 <= d <= month_length y m /\ (m = 0 \/ 0 < d) /\ d <= 31.
Proof.
  intros Hd. destruct month_loops_ok as [Hall _]. rewrite forallb_forall in Hall.
  specialize (Hall days). rewrite <- list_elem_of_In, elem_of_seqZ in Hall. specialize (Hall ltac:(lia)).
  assert (Hb : month_forward_ok (is_leap_year y) days = true)
    by (apply andb_true_iff in Hall as [? ?]; by destruct (is_leap_year y)).
  unfold month_forward_ok in Hb. rewrite month_loop_sample.
  destruct (month_loop 13 1 days 0 _) as [[d m]|]; [|done]. exists d, m.
  rewrite (month_days_sample y), (month_length_sample y). rewrite !andb_true_iff, orb_true_iff in Hb.
  rewrite !Z.leb_le, !Z.ltb_lt, !Z.eqb_eq in Hb. split; [done|]. lia.
Qed.

Lemma month_backward days y : 1 <= days <= 365 -> exists d m,
  month_loop 13 (-1) days 11 y = Ret (d, m) /\ 0 <= m <= 11 /\
  month_days y m + (month_length y m - d) = days_per_year y - days /\
  1 <= d <= month_length y m /\ d <= 31.
Proof.
  intros Hd. destruct month_loops_ok as [_ Hall]. rewrite forallb_forall in Hall.
  specialize (Hall days). rewrite <- list_elem_of_In, elem_of_seqZ in Hall. specialize (Hall ltac:(lia)).
  assert (Hb : month_backward_ok (is_leap_year y) days = true)
    by (apply andb_true_iff in Hall as [? ?]; by destruct (is_leap_year y)).
  unfold month_backward_ok in Hb. rewrite month_loop_sample.
  destruct (month_loop 13 (-1) days 11 _) as [[d m]|]; [|done]. exists d, m.
  assert (Hy : days_per_year y = days_per_year (sample (is_leap_year y)))
    by (unfold days_per_year; by destruct (is_leap_year y)).
  rewrite (month_days_sample y), (month_length_sample y), Hy. rewrite !andb_true_iff in Hb.
  rewrite !Z.leb_le, !Z.eqb_eq in Hb. split; [done|]. lia.
Qed.

(** ** Days of the week *)

(** The number of leap years up to year [n]. *)
Definition leaps (n : Z) : Z := n / 4 - n / 100 + n / 400.

Lemma leap_mod y : 0 <= y -> is_leap_year y =
  (y mod 4 =? 0) && (negb (y mod 100 =? 0) || (y mod 400 =? 0)).
Proof.
  intros Hy. unfold is_leap_year. rewrite !Z.rem_mod_nonneg by lia.
  destruct (y mod 4 =? 0), (y mod 100 =? 0), (y mod 400 =? 0); done.
Qed.

Lemma div_step y n : 0 < n -> 1 <= y -> y / n = (y - 1) / n + (if y mod n =? 0 then 1 else 0).
Proof.
  intros Hn Hy. pose proof (Z.div_mod y n ltac:(lia)). pose proof (Z.mod_pos_bound y n ltac:(lia)).
  destruct (Z.eqb_spec (y mod n) 0) as [E|E].
  - assert ((y - 1) / n = y / n - 1); [|lia]. symmetry. apply Z.div_unique with (r := n - 1); lia.
  - rewrite Z.add_0_r. apply Z.div_unique with (r := y mod n - 1); lia.
Qed.

Lemma leaps_step y : 1 <= y -> leaps y = leaps (y - 1) + Z.b2z (is_leap_year y).
Proof.
  intros Hy. unfold leaps. rewrite leap_mod by lia.
  rewrite (div_step y 4), (div_step y 100), (div_step y 400) by lia.
  assert (H1 : y mod 400 = 0 -> y mod 100 = 0) by zlia.
  assert (H2 : y mod 100 = 0 -> y mod 4 = 0) by zlia.
  destruct (Z.eqb_spec (y mod 4) 0), (Z.eqb_spec (y mod 100) 0), (Z.eqb_spec (y mod 400) 0);
    cbn; try lia; tauto.
Qed.

Lemma span_leaps k : span k 1 1970 = 365 * Z.of_nat k + leaps (1969 + Z.of_nat k) - 477.
Proof.
  induction k as [|k IH]; [reflexivity|]. rewrite span_snoc, IH.
  rewrite (leaps_step (1969 + Z.of_nat (S k))) by lia.
  replace (1969 + Z.of_nat (S k) - 1) with (1969 + Z.of_nat k) by lia.
  replace (1969 + Z.of_nat (S k)) with (1970 + Z.of_nat k * 1) by lia.
  unfold days_per_year. destruct (is_leap_year (1970 + Z.of_nat k * 1)); cbn [Z.b2z]; lia.
Qed.

(** January 1st, 1970 was a Thursday; Sakamoto's formula counts from there. *)
Lemma sakamoto k m d : Z.of_nat k < 12000000 -> 0 <= m <= 11 -> 0 <= d <= 31 ->
  let year := 1970 + Z.of_nat k in
  let y := if m <? 2 then year - 1 else year in
  u32 (y + Z.quot y 4 - Z.quot y 100 + Z.quot y 400 + nth (Z.to_nat m) FIRST_DAY_OFFSET 0 + d + 1) mod 7
  = (span k 1 1970 + month_days year m + d + 4) mod 7.
Proof.
  intros Hk Hm Hd year y.
  assert (Hcase : m = 0 \/ m = 1 \/ m = 2 \/ m = 3 \/ m = 4 \/ m = 5 \/ m = 6 \/ m = 7 \/ m = 8 \/
    m = 9 \/ m = 10 \/ m = 11) by lia.
  assert (Hy : 1969 <= y) by (unfold y, year; destruct (m <? 2); lia).
  rewrite !Z.quot_div_nonneg by lia.
  assert (Hl : y + y / 4 - y / 100 + y / 400 = y + leaps y) by (unfold leaps; lia). rewrite Hl.
  assert (Hoff : 0 <= nth (Z.to_nat m) FIRST_DAY_OFFSET 0 <= 6).
  { clear - Hcase. repeat destruct Hcase as [->|Hcase]; try subst m; vm_compute; split; congruence. }
  assert (Hleaps : 0 <= leaps y <= y) by (unfold leaps; zlia).
  rewrite u32_small by (unfold y, year in *; destruct (m <? 2); lia).
  rewrite span_leaps. pose proof (leaps_step year ltac:(unfold year; lia)) as Hstep.
  replace (1969 + Z.of_nat k) with (year - 1) by (unfold year; lia).
  rewrite month_days_sample. unfold y. clear Hl Hleaps Hoff Hy y.
  destruct (is_leap_year year);
    repeat destruct Hcase as [->|Hcase]; try subst m;
    repeat match goal with
      | |- context [month_days ?a ?b] => let v := eval vm_compute in (month_days a b) in
          change (month_days a b) with v
      | |- context [nth ?a ?b 0] => let v := eval vm_compute in (nth a b 0) in change (nth a b 0) with v
      end; cbn [Z.ltb Z.compare Pos.compare Pos.compare_cont];
    cbn [Z.b2z] in Hstep; unfold year in *; zlia.
Qed.

(** ** The partial day *)

Lemma partial_unit_run (forward : bool) x t u f t' : (u = 60 \/ u = 24) ->
  t = (if forward then x else - x) -> 0 <= t < 4611686018427387904 ->
  partial_unit forward t u = (f, t') ->
  f = x mod u /\ Z.quot t' u = (if forward then x / u else - (x / u)) /\
  0 <= Z.quot t' u < 4611686018427387904.
Proof.
  intros Hu Ht Hr. unfold partial_unit. rewrite Z.rem_mod_nonneg by lia.
  assert (Hs : s64 (t + u) = t + u) by (unfold s64; zlia).
  destruct (Z.eqb_spec (t mod u) 0) as [E|E]; cbn [negb]; [|rewrite Hs; destruct forward];
    intros [= <- <-]; rewrite Z.quot_div_nonneg by lia; try destruct forward; subst t;
    destruct Hu as [->| ->]; zlia.
Qed.

(** The fields that do not depend on the calendar. *)
Definition clock_fields (t : Z) (r : tm) : Prop :=
  tm_sec r = t mod 60 /\ tm_min r = t / 60 mod 60 /\ tm_hour r = t / 3600 mod 24 /\ tm_isdst r = 0.

Lemma localtime_split t : Z.abs t < 4294967296 * 86400 ->
  localtime_r t = date_part (0 <=? t) (t mod 60) (t / 60 mod 60) (t / 3600 mod 24)
    (u32 (if 0 <=? t then t / 86400 else - (t / 86400))).
Proof.
  intros Ht. unfold localtime_r, SECONDS_PER_MINUTE, MINUTES_PER_HOUR, HOURS_PER_DAY.
  set (fw := 0 <=? t). set (t0 := if fw then t else s64 (- t)).
  assert (H0 : t0 = (if fw then t else - t) /\ 0 <= t0 < 4611686018427387904).
  { unfold t0, fw. destruct (Z.leb_spec 0 t); [lia|]. unfold s64. zlia. }
  destruct H0 as [H0 Hr0].
  destruct (partial_unit fw t0 60) as [sec t1] eqn:E1.
  apply (partial_unit_run fw t) in E1 as (-> & Q1 & R1); [|by left|done|done].
  destruct (partial_unit fw (Z.quot t1 60) 60) as [min t2] eqn:E2.
  apply (partial_unit_run fw (t / 60)) in E2 as (-> & Q2 & R2); [|by left|exact Q1|done].
  destruct (partial_unit fw (Z.quot t2 60) 24) as [hour t3] eqn:E3.
  apply (partial_unit_run fw (t / 60 / 60)) in E3 as (-> & Q3 & R3); [|by right|exact Q2|done].
  rewrite Q3. rewrite !Z.div_div by lia. reflexivity.
Qed.

(** ** The date *)

Lemma year_days_forward k : year_days (1970 + Z.of_nat k) = span k 1 1970.
Proof. unfold year_days. zif. f_equal. lia. Qed.

Lemma year_days_backward k : year_days (1969 - Z.of_nat k) = - (span k (-1) 1969 + days_per_year (1969 - Z.of_nat k)).
Proof.
  unfold year_days. zif. replace (Z.to_nat (1970 - (1969 - Z.of_nat k))) with (S k) by lia.
  rewrite span_snoc. by replace (1969 + Z.of_nat k * -1) with (1969 - Z.of_nat k) by lia.
Qed.

Lemma date_forward sec min hour days : 0 <= days < 4294967296 ->
  (date_part true sec min hour days = Trap AssertFailed /\
     exists y, 1970 <= y /\ is_leap_year y = true /\ days = year_days (y + 1)) \/
  (exists y mon mday, 0 <= 365 * (y - 1970) <= days /\ 0 <= mon <= 11 /\
     1 <= mday <= month_length y mon + 1 /\ (1 < mday \/ days = 0) /\
     day_number y mon mday = days /\
     date_part true sec min hour days
       = Ret (mkTm sec min hour mday mon (y - 1900) ((days + 4) mod 7) (days - year_days y) 0)).
Proof.
  intros Hd. unfold date_part.
  assert (Hq : 0 <= days / 365 < 11767035) by zlia.
  destruct (year_loop_run 1 (or_introl eq_refl) (S (Z.to_nat (days / 365))) days 1970)
    as (k & d1 & E1 & Hs & Hr & Hk & Hkf); try lia.
  rewrite E1. rewrite !Z.mul_1_r in *. set (y := 1970 + Z.of_nat k) in *. cbn -[year_loop month_loop nth days_per_month].
  pose proof (year_days_forward k) as Hyd. fold y in Hyd.
  destruct (Z.leb_spec d1 365) as [Hle|Hgt].
  - right. destruct (month_forward d1 y ltac:(lia)) as (d & m & E2 & Hm & Hdm & Hd2 & Hpos & Hd31).
    pose proof (span_lower k 1 1970).
    exists y, m, (d + 1). split; [unfold y; lia|]. split; [done|]. split; [lia|].
    split.
    { destruct Hpos as [->|?]; [|lia]. destruct (decide (d = 0)); [right|left; lia].
      change (month_days y 0) with 0 in Hdm. destruct Hk as [->|?]; [cbn in Hs; lia|lia]. }
    split; [unfold day_number; lia|].
    rewrite E2. cbn [rassert mbind res_bind]. rewrite !(proj2 (Z.leb_le _ _)) by lia.
    cbn [rassert mbind res_bind]. rewrite days_per_month_run by lia. cbn [mbind res_bind mret res_ret].
    pose proof (sakamoto k m d ltac:(lia) Hm ltac:(lia)) as Hw. cbv zeta in Hw. fold y in Hw.
    rewrite Hw. do 2 f_equal; [f_equal; lia|lia].
  - left. split; [done|]. exists y. split; [unfold y; lia|].
    unfold days_per_year in Hr. destruct (is_leap_year y) eqn:El; [|lia]. split; [done|].
    replace (y + 1) with (1970 + Z.of_nat (S k)) by (unfold y; lia). rewrite year_days_forward, span_snoc.
    rewrite Z.mul_1_r. fold y. unfold days_per_year. rewrite El. lia.
Qed.

Lemma date_backward sec min hour days : 1 <= days < 4294967296 ->
  (date_part false sec min hour days = Trap AssertFailed /\
     exists y, y <= 1969 /\ is_leap_year y = true /\ - days = year_days y) \/
  (exists y mon mday wday, 0 <= 365 * (1969 - y) <= days /\ 0 <= mon <= 11 /\
     1 <= mday <= month_length y mon /\ day_number y mon mday = - days /\
     date_part false sec min hour days
       = Ret (mkTm sec min hour mday mon (y - 1900) wday (- days - year_days y) 0)).
Proof.
  intros Hd. unfold date_part.
  assert (Hq : 0 <= days / 365 < 11767035) by zlia.
  destruct (year_loop_run (-1) (or_intror eq_refl) (S (Z.to_nat (days / 365))) days 1969)
    as (k & d1 & E1 & Hs & Hr & Hk & Hkf); try lia.
  rewrite E1. replace (1969 + Z.of_nat k * -1) with (1969 - Z.of_nat k) in * by lia.
  pose proof (year_days_backward k) as Hyd. set (y := 1969 - Z.of_nat k) in *.
  assert (Hd1 : 1 <= d1) by (destruct Hk as [->|?]; [cbn in Hs; lia|lia]).
  cbn -[year_loop month_loop nth days_per_month].
  destruct (Z.leb_spec d1 365) as [Hle|Hgt].
  - right. destruct (month_backward d1 y ltac:(lia)) as (d & m & E2 & Hm & Hdm & Hd2 & Hd31).
    pose proof (span_lower k (-1) 1969).
    eexists y, m, (month_length y m - d + 1), _. split; [unfold y; lia|].
    split; [done|]. split; [lia|]. split; [unfold day_number; lia|].
    rewrite E2. cbn [rassert mbind res_bind]. rewrite !(proj2 (Z.leb_le _ _)) by lia.
    cbn [rassert mbind res_bind]. rewrite days_per_month_run by lia. cbn [mbind res_bind mret res_ret].
    do 2 f_equal. lia.
  - left. split; [done|]. exists y. split; [unfold y; lia|].
    unfold days_per_year in Hr, Hyd. destruct (is_leap_year y) eqn:El; [|lia]. split; [done|]. lia.
Qed.

(** ** mktime *)

Lemma month_length_range y m : 0 <= m < 12 -> 28 <= month_length y m <= 31.
Proof.
  intros Hm. assert (Hall : forallb (fun m => (28 <=? month_length 1970 m) && (month_length 1970 m <=? 31)
    && (28 <=? month_length 1972 m) && (month_length 1972 m <=? 31)) (seqZ 0 12) = true) by reflexivity.
  rewrite forallb_forall in Hall. specialize (Hall m). rewrite <- list_elem_of_In, elem_of_seqZ in Hall.
  specialize (Hall ltac:(lia)). rewrite !andb_true_iff, !Z.leb_le in Hall.
  rewrite month_length_sample. destruct (is_leap_year y); cbn [sample]; lia.
Qed.

Lemma month_days_succ y i : 0 <= i -> month_days y (i + 1) = month_days y i + month_length y i.
Proof.
  intros Hi. unfold month_days. replace (Z.to_nat (i + 1)) with (S (Z.to_nat i)) by lia.
  cbn [month_days_nat]. by rewrite Z2Nat.id by lia.
Qed.

Lemma month_days_range y m : 0 <= m < 12 -> 0 <= month_days y m <= 366.
Proof.
  intros Hm. assert (Hall : forallb (fun m => (0 <=? month_days 1970 m) && (month_days 1970 m <=? 366)
    && (0 <=? month_days 1972 m) && (month_days 1972 m <=? 366)) (seqZ 0 12) = true) by reflexivity.
  rewrite forallb_forall in Hall. specialize (Hall m). rewrite <- list_elem_of_In, elem_of_seqZ in Hall.
  specialize (Hall ltac:(lia)). rewrite !andb_true_iff, !Z.leb_le in Hall.
  rewrite month_days_sample. destruct (is_leap_year y); cbn [sample]; lia.
Qed.

Lemma s64_small z : -9223372036854775808 <= z < 9223372036854775808 -> s64 z = z.
Proof. unfold s64. zlia. Qed.

Lemma add_months_run y : forall n i full, 0 <= i -> i + Z.of_nat n <= 12 ->
  Z.abs full + 31 * Z.of_nat n <= 1000000 ->
  add_months n i y full = Ret (full + (month_days y (i + Z.of_nat n) - month_days y i)).
Proof.
  induction n as [|n IH]; intros i full Hi Hn Hf; cbn [add_months].
  - unfold mret, res_ret. f_equal. rewrite Z.add_0_r. lia.
  - rewrite days_per_month_run by lia. cbn [mbind res_bind].
    pose proof (month_length_range y i ltac:(lia)). rewrite s32_small by lia.
    rewrite IH by lia. f_equal. rewrite month_days_succ by lia.
    replace (i + 1 + Z.of_nat n) with (i + Z.of_nat (S n)) by lia. lia.
Qed.

Lemma add_years_run sign : (sign = 1 \/ sign = -1) -> forall n i full,
  Z.abs full + 366 * Z.of_nat n <= 1000000 ->
  add_years n i sign full = full + sign * span n 1 i.
Proof.
  intros Hs. induction n as [|n IH]; intros i full Hf; cbn [add_years span]; [lia|].
  pose proof (days_per_year_range i). rewrite s32_small by lia. rewrite IH by lia. lia.
Qed.

(** Counting the years up or down. *)
Lemma span_reverse n y : span n 1 y = span n (-1) (y + Z.of_nat n - 1).
Proof.
  revert y; induction n as [|n IH]; intros y; [done|]. rewrite span_snoc. cbn [span].
  rewrite IH. rewrite Z.mul_1_r. replace (y + Z.of_nat (S n) - 1) with (y + Z.of_nat n) by lia.
  replace (y + Z.of_nat n + -1) with (y + Z.of_nat n - 1) by lia. lia.
Qed.

Lemma mktime_run y mon mday sec min hour wday yday dst :
  1800 <= y <= 2200 -> 0 <= mon <= 11 -> 1 <= mday <= 32 ->
  0 <= sec < 60 -> 0 <= min < 60 -> 0 <= hour < 24 ->
  -24855 <= day_number y mon mday <= 24855 ->
  mktime (mkTm sec min hour mday mon (y - 1900) wday yday dst)
    = (let t := day_number y mon mday * 86400 + hour * 3600 + min * 60 + sec in
       r ← localtime_r t; mret (t, r)).
Proof.
  intros Hy Hmon Hmday Hsec Hmin Hhour Hday. unfold mktime.
  cbn [tm_sec tm_min tm_hour tm_mday tm_mon tm_year].
  replace (s32 (y - 1900 + 1900)) with y by (unfold s32; zlia).
  rewrite (s32_small (sec + min * 60 + hour * 60 * 60)) by lia. rewrite (s32_small (mday - 1)) by lia.
  rewrite add_months_run by lia. cbn [mbind res_bind]. change (month_days y 0) with 0.
  rewrite Z.add_0_l, Z2Nat.id by lia. unfold day_number, year_days in *.
  pose proof (month_days_range y mon ltac:(lia)) as Hmd.
  match goal with |- context [if 1970 <? y then ?a else ?b] =>
    assert (Hfull : (if 1970 <? y then a else b)
      = (if 1970 <=? y then span (Z.to_nat (y - 1970)) 1 1970 else - span (Z.to_nat (1970 - y)) (-1) 1969)
        + month_days y mon + (mday - 1)) end.
  { destruct (Z.ltb_spec 1970 y).
    - rewrite add_years_run by lia. zif. lia.
    - rewrite add_years_run by lia. rewrite span_reverse.
      replace (y + Z.of_nat (Z.to_nat (1970 - y)) - 1) with 1969 by lia.
      destruct (Z.leb_spec 1970 y); [|lia].
      replace (Z.to_nat (1970 - y)) with 0%nat by lia. replace (Z.to_nat (y - 1970)) with 0%nat by lia.
      cbn [span]. lia. }
  rewrite Hfull. rewrite (s32_small (_ * 60 * 60 * 24)) by lia.
  set (d := (if 1970 <=? y then _ else _) + month_days y mon + (mday - 1)) in *.
  rewrite s64_small by lia.
  by replace (d * 60 * 60 * 24 + (sec + min * 60 + hour * 60 * 60))
    with (d * 86400 + hour * 3600 + min * 60 + sec) by lia.
Qed.

(** ** Theorems *)

(** For every time from the epoch on, [localtime_r] returns a broken-down
    time that denotes the same instant: the right second, minute and hour, a
    month and day whose day number is the day of [t], the right day of the week
    and day of the year; or it stops on its assertion, and this only on the day
    after the end of a leap year. *)
Theorem localtime_fields t : 0 <= t < 4294967296 * 86400 ->
  (localtime_r t = Trap AssertFailed /\
     exists y, 1970 <= y /\ is_leap_year y = true /\ t / 86400 = year_days (y + 1)) \/
  (exists r, localtime_r t = Ret r /\ clock_fields t r /\
     0 <= tm_mon r <= 11 /\ 1 <= tm_mday r <= month_length (tm_year r + 1900) (tm_mon r) + 1 /\
     day_number (tm_year r + 1900) (tm_mon r) (tm_mday r) = t / 86400 /\
     tm_wday r = (t / 86400 + 4) mod 7 /\ tm_yday r = t / 86400 - year_days (tm_year r + 1900)).
Proof.
  intros Ht. rewrite localtime_split by lia. rewrite (proj2 (Z.leb_le 0 t)) by lia.
  rewrite u32_small by zlia.
  destruct (date_forward (t mod 60) (t / 60 mod 60) (t / 3600 mod 24) (t / 86400))
    as [[E He]|(y & mon & mday & Hy & Hmon & Hmday & _ & Hday & E)]; [zlia|by left|right].
  eexists. split; [exact E|]. cbn. replace (y - 1900 + 1900) with y by lia.
  repeat split; done || lia.
Qed.

Lemma localtime_fields_witness :
  (localtime_r 951827696 = Trap AssertFailed /\
     exists y, 1970 <= y /\ is_leap_year y = true /\ 951827696 / 86400 = year_days (y + 1)) \/
  (exists r, localtime_r 951827696 = Ret r /\ clock_fields 951827696 r /\
     0 <= tm_mon r <= 11 /\ 1 <= tm_mday r <= month_length (tm_year r + 1900) (tm_mon r) + 1 /\
     day_number (tm_year r + 1900) (tm_mon r) (tm_mday r) = 951827696 / 86400 /\
     tm_wday r = (951827696 / 86400 + 4) mod 7 /\
     tm_yday r = 951827696 / 86400 - year_days (tm_year r + 1900)).
Proof. apply (localtime_fields 951827696). lia. Defined.

(** C24. [mktime] is the inverse of [localtime_r], in both directions from the
    epoch, over the whole range in which its day count times the seconds of a
    day fits a [long]: either [localtime_r] returns, and [mktime] gives back the
    seconds and normalises the structure to itself; or [localtime_r] fails its
    assertion, on January 1st after a leap year, or before 1970 on January 1st
    of a leap year, and on no other day. The structure in between denotes the
    day, but against the ranges of [time.h] the first of a month after 1970
    appears in it as the day after the last of the month before (29 to 32). *)
Theorem mktime_localtime t : -24855 * 86400 <= t < 24856 * 86400 ->
  (exists r, localtime_r t = Ret r /\ day_number (tm_year r + 1900) (tm_mon r) (tm_mday r) = t / 86400 /\ mktime r = Ret (t, r)) \/
  (localtime_r t = Trap AssertFailed /\
   exists y, is_leap_year y = true /\ (if 0 <=? t then t / 86400 = year_days (y + 1) else t / 86400 = year_days y)).
Proof.
  intros Ht. pose proof (localtime_split t ltac:(lia)) as E.
  assert (Hc : 0 <= t mod 60 < 60 /\ 0 <= t / 60 mod 60 < 60 /\ 0 <= t / 3600 mod 24 < 24 /\
    t / 86400 * 86400 + t / 3600 mod 24 * 3600 + t / 60 mod 60 * 60 + t mod 60 = t).
  { assert (t / 60 = 60 * (t / 3600) + t / 60 mod 60) by zlia.
    assert (t / 3600 = 24 * (t / 86400) + t / 3600 mod 24) by zlia. zlia. }
  destruct Hc as (H1 & H2 & H3 & H4). destruct (Z.leb_spec 0 t) as [Hp|Hn]; rewrite u32_small in E by zlia; rewrite E.
  - destruct (date_forward (t mod 60) (t / 60 mod 60) (t / 3600 mod 24) (t / 86400))
      as [[E2 (y & _ & Hl & Hy)]|(y & mon & mday & Hy & Hmon & Hmday & _ & Hday & E2)]; [zlia|right; split; [done|by exists y]|left].
    rewrite E2 in *. eexists. split; [reflexivity|]. cbn [tm_year tm_mon tm_mday]. replace (y - 1900 + 1900) with y by lia. split; [done|].
    pose proof (month_length_range y mon ltac:(lia)). rewrite mktime_run by (done || zlia). cbv zeta. rewrite Hday, H4, E. done.
  - destruct (date_backward (t mod 60) (t / 60 mod 60) (t / 3600 mod 24) (- (t / 86400)))
      as [[E2 (y & _ & Hl & Hy)]|(y & mon & mday & wd & Hy & Hmon & Hmday & Hday & E2)]; [zlia|right; split; [done|exists y; split; [done|lia]]|left].
    rewrite E2 in *. eexists. split; [reflexivity|]. cbn [tm_year tm_mon tm_mday]. replace (y - 1900 + 1900) with y by lia. rewrite Z.opp_involutive in Hday. split; [done|].
    pose proof (month_length_range y mon ltac:(lia)). rewrite mktime_run by (done || zlia). cbv zeta. rewrite Hday, H4, E, Z.opp_involutive. done.
Qed.

Lemma mktime_localtime_witness : exists r, localtime_r 951827696 = Ret r /\ mktime r = Ret (951827696, r).
Proof.
  destruct (mktime_localtime 951827696) as [(r & E & _ & E')|[E _]]; [lia|exists r; split; [exact E|exact E']|vm_compute in E; discriminate E].
Defined.

(** No day but January 1st, 1970 is ever reported as the first of a month:
    the loops stop one day late, so the first of a month appears as the day
    after the last of the month before. *)
Theorem localtime_never_first t r : 86400 <= t < 4294967296 * 86400 ->
  localtime_r t = Ret r -> tm_mday r <> 1.
Proof.
  intros Ht E. rewrite localtime_split in E by lia. rewrite (proj2 (Z.leb_le 0 t)) in E by lia.
  rewrite u32_small in E by zlia.
  destruct (date_forward (t mod 60) (t / 60 mod 60) (t / 3600 mod 24) (t / 86400))
    as [[E2 _]|(y & mon & mday & Hy & Hmon & Hmday & Hone & Hday & E2)]; [zlia|congruence|].
  rewrite E2 in E. injection E as <-. cbn. destruct Hone; [lia|zlia].
Qed.

Lemma localtime_never_first_witness : tm_mday (mkTm 0 0 0 32 0 70 0 31 0) <> 1.
Proof. apply (localtime_never_first (31 * 86400)); [lia|vm_compute; reflexivity]. Defined.

(** The last day that belongs to [k] full years and a leap year. *)
Lemma year_loop_leap_end k fuel :
  let y := 1970 + Z.of_nat k in
  is_leap_year y = true -> span (S k) 1 1970 / 365 < Z.of_nat fuel -> Z.of_nat fuel < 2000000000 ->
  year_loop fuel 1 (span (S k) 1 1970) 1970 = Ret (366, y).
Proof.
  intros y Hl Hf Hf2. pose proof (span_lower (S k) 1 1970).
  destruct (year_loop_run 1 (or_introl eq_refl) fuel (span (S k) 1 1970) 1970)
    as (j & d & E & Hs & Hr & Hj & _); try lia.
  assert (Hstep : forall i n, span (i + n) 1 1970 = span i 1 1970 + span n 1 (1970 + Z.of_nat i)).
  { intros i n. generalize 1970. induction i as [|i IH]; intros z; cbn [Nat.add span].
    - by rewrite Z.add_0_r.
    - rewrite IH. replace (z + 1 + Z.of_nat i) with (z + Z.of_nat (S i)) by lia. lia. }
  assert (j = k) as ->.
  { rewrite Z.mul_1_r in Hr. pose proof (span_snoc j 1 1970) as Hsj. rewrite Z.mul_1_r in Hsj.
    destruct (lt_eq_lt_dec j k) as [[Hlt| ->]|Hgt]; [|done|].
    - pose proof (Hstep (S j) (S k - S j)%nat) as Hm. replace (S j + (S k - S j))%nat with (S k) in Hm by lia.
      pose proof (span_lower (S k - S j) 1 (1970 + Z.of_nat (S j))). lia.
    - pose proof (Hstep (S k) (j - S k)%nat) as Hm. replace (S k + (j - S k))%nat with j in Hm by lia.
      pose proof (span_lower (j - S k) 1 (1970 + Z.of_nat (S k))). destruct Hj; lia. }
  rewrite E, Z.mul_1_r. fold y. rewrite span_snoc, Z.mul_1_r in Hs. fold y in Hs.
  unfold days_per_year in Hs. rewrite Hl in Hs. do 2 f_equal. lia.
Qed.

(** On the day after the end of a leap year (January 1st of 1973, 1977,
    ..., 2025, ...) [localtime_r] stops on its assertion [days <= 365],
    whatever the time of the day. *)
Theorem localtime_leap_year_end_traps y s :
  1970 <= y -> is_leap_year y = true -> year_days (y + 1) < 4294967296 -> 0 <= s < 86400 ->
  localtime_r (year_days (y + 1) * 86400 + s) = Trap AssertFailed.
Proof.
  intros Hy Hl Hlt Hs. set (k := Z.to_nat (y - 1970)).
  assert (Hyd : year_days (y + 1) = span (S k) 1 1970).
  { rewrite <- year_days_forward. f_equal. unfold k. lia. }
  pose proof (span_lower (S k) 1 1970) as Hlow. rewrite Hyd in *.
  rewrite localtime_split by lia. rewrite (proj2 (Z.leb_le 0 _)) by lia.
  replace ((span (S k) 1 1970 * 86400 + s) / 86400) with (span (S k) 1 1970) by zlia.
  rewrite u32_small by lia. unfold date_part.
  rewrite (year_loop_leap_end k); [done| |zlia|zlia].
  replace (1970 + Z.of_nat k) with y by (unfold k; lia). done.
Qed.

Lemma localtime_leap_year_end_traps_witness :
  localtime_r (year_days 2025 * 86400 + 43200) = Trap AssertFailed.
Proof. apply (localtime_leap_year_end_traps 2024); [lia|reflexivity|vm_compute; reflexivity|lia]. Defined.

(** The product of days and seconds wraps: January 20th, 2038. *)
Example mktime_wraps_2038 : exists r, mktime (mkTm 0 0 0 20 0 138 0 0 0) = Ret (-2147408896, r).
Proof. eexists. vm_compute. reflexivity. Qed.
