(* ===== verification/Strftime.v ===== *)
(** * Formatted dates: [src/src/lib/libc/strftime.c]

    The routine runs on the byte memory of the string routines and prints each
    field with the [snprintf] of Printf.v into its local [text_buffer]. The
    compiler places the string literals of the file: [literal] gives the
    address of each. *)

From stdpp Require Import strings.
From S2P Require Import Prelude CMem CString NumConv Calendar Printf.

(** The bytes of a string literal. *)
Definition text (s : string) : list Z := (fun a => Z.of_nat (Ascii.nat_of_ascii a)) <$> String.list_ascii_of_string s.

Definition SHORT_WEEKDAY : list string := ["Sun"; "Mon"; "Tue"; "Wed"; "The"; "Fri"; "Sat"].
Definition FULL_WEEKDAY : list string :=
  ["Sunday"; "Monday"; "Tuesday"; "Wednesday"; "Thursday"; "Friday"; "Saturday"].
Definition SHORT_MONTH : list string :=
  ["Jan"; "Feb"; "Mar"; "Apr"; "May"; "Jun"; "Jul"; "Aug"; "Sep"; "Oct"; "Nov"; "Dec"].
Definition FULL_MONTH : list string :=
  ["January"; "February"; "March"; "April"; "May"; "June"; "July"; "August"; "September"; "October";
   "November"; "December"].

(** [struct format_style] of this file. *)
Record time_style := mkTimeStyle { alternate_output : bool; character_count : Z; format_code : Z }.

Definition parse_time_style (format_string : Z) : C time_style :=
  c ← loadc format_string;
  if (c =? 69) || (c =? 79) (* E, O *) then
    code ← loadc (format_string + 1);
    mret (mkTimeStyle true 2 code)
  else mret (mkTimeStyle false 1 c).

Section Strftime.
Context (L : layout) {double : Type} (to_float : double -> double) (dtoa : double -> Z -> Z -> C (Z * Z * Z)).
Context (literal : list Z -> Z) (text_buffer : Z).

(** The pointer [names\[i\]]. *)
Definition name_at (names : list string) (i : Z) : C Z :=
  match (if i <? 0 then None else names !! Z.to_nat i) with
  | Some s => mret (literal (text s))
  | None => fail (BadIndex i)
  end.

(** [snprintf(text_buffer, sizeof(text_buffer), format, ...)]: [text] and [text_length]. *)
Definition print_fields (format : string) (args : list (va double)) : C (Z * Z) :=
  n ← snprintf L to_float dtoa text_buffer 32 (literal (text format)) args;
  mret (text_buffer, u32 n).

Definition full_year (dt : tm) : Z := s32 (tm_year dt + 1900).

Definition hour_of_twelve (dt : tm) : Z :=
  let hour := u32 (Z.rem (tm_hour dt) 12) in
  if hour =? 0 then 12 else hour.

Definition am_pm (dt : tm) : list Z := if tm_hour dt <? 11 then text "AM" else text "PM".

(** The [switch] on the format code: [text] and [text_length]. *)
Definition field_text (dt : tm) (code : Z) : C (Z * Z) :=
  let name names i := p ← name_at names i; mret (p, 0) in
  if code =? 97 (* a *) then name SHORT_WEEKDAY (tm_wday dt)
  else if code =? 65 (* A *) then name FULL_WEEKDAY (tm_wday dt)
  else if (code =? 98) || (code =? 104) (* b, h *) then name SHORT_MONTH (tm_mon dt)
  else if code =? 66 (* B *) then name FULL_MONTH (tm_mon dt)
  else if code =? 99 (* c *) then
    weekday ← name_at SHORT_WEEKDAY (tm_wday dt);
    month ← name_at SHORT_MONTH (tm_mon dt);
    print_fields "%s %s % 2d %02d:%02d:%02d %d"
      [VPtr weekday; VPtr month; VInt (tm_mday dt); VInt (tm_hour dt); VInt (tm_min dt); VInt (tm_sec dt); VInt (full_year dt)]
  else if code =? 67 (* C *) then print_fields "%02d" [VInt (Z.rem (full_year dt) 100)]
  else if code =? 100 (* d *) then print_fields "%02d" [VInt (tm_mday dt)]
  else if (code =? 68) || (code =? 120) (* D, x *) then
    print_fields "%02d/%02d/%02d" [VInt (s32 (tm_mon dt + 1)); VInt (tm_mday dt); VInt (Z.rem (full_year dt) 100)]
  else if code =? 101 (* e *) then print_fields "% 2d" [VInt (tm_mday dt)]
  else if code =? 70 (* F *) then
    print_fields "%04d-%02d-%02d" [VInt (full_year dt); VInt (s32 (tm_mon dt + 1)); VInt (tm_mday dt)]
  else if code =? 72 (* H *) then print_fields "%02d" [VInt (tm_hour dt)]
  else if code =? 73 (* I *) then print_fields "%02d" [VInt (hour_of_twelve dt)]
  else if code =? 106 (* j *) then print_fields "%03d" [VInt (s32 (tm_yday dt + 1))]
  else if code =? 109 (* m *) then print_fields "%02d" [VInt (s32 (tm_mon dt + 1))]
  else if code =? 77 (* M *) then print_fields "%02d" [VInt (tm_min dt)]
  else if code =? 110 (* n *) then mret (literal [10], 1)
  else if code =? 112 (* p *) then mret (literal (am_pm dt), 2)
  else if code =? 114 (* r *) then
    print_fields "%02d:%02d:%02d %s"
      [VInt (hour_of_twelve dt); VInt (tm_min dt); VInt (tm_sec dt); VPtr (literal (am_pm dt))]
  else if code =? 82 (* R *) then print_fields "%02d:%02d" [VInt (tm_hour dt); VInt (tm_min dt)]
  else if code =? 83 (* S *) then print_fields "%02d" [VInt (tm_sec dt)]
  else if code =? 116 (* t *) then mret (literal [9], 1)
  else if (code =? 84) || (code =? 88) (* T, X *) then
    print_fields "%02d:%02d:%02d" [VInt (tm_hour dt); VInt (tm_min dt); VInt (tm_sec dt)]
  else if code =? 117 (* u *) then print_fields "%d" [VInt (s32 (tm_wday dt + 1))]
  else if code =? 119 (* w *) then print_fields "%d" [VInt (tm_wday dt)]
  else if code =? 121 (* y *) then print_fields "%02d" [VInt (Z.rem (full_year dt) 100)]
  else if code =? 89 (* Y *) then print_fields "%04d" [VInt (full_year dt)]
  else if code =? 37 (* % *) then mret (literal [37], 1)
  else
    store text_buffer code;;
    store (text_buffer + 1) 0;;
    mret (text_buffer, 1).

Definition print_datetime_field (buffer buffer_length : Z) (dt : tm) (style : time_style) : C Z :=
  '(text, text_length) ← field_text dt (format_code style);
  if text =? NULL then mret 0
  else
    text_length ← (if text_length =? 0 then strlen text else mret text_length);
    let length := Z.min buffer_length text_length in
    memcpy buffer text length;;
    mret length.

(** The loop over the format: the final [output_character] and [length]. *)
Fixpoint strftime_loop (fuel : nat) (output_character buffer_length format_character length : Z) (dt : tm) : C (Z * Z) :=
  match fuel with
  | O => fail OutOfFuel
  | S f =>
      c ← loadc format_character;
      if negb (c =? 0) && (length <? buffer_length) then
        if negb (c =? 37) then
          store output_character c;;
          strftime_loop f (output_character + 1) buffer_length (format_character + 1) (u32 (length + 1)) dt
        else
          style ← parse_time_style (format_character + 1);
          output_length ← print_datetime_field output_character (u32 (buffer_length - length)) dt style;
          strftime_loop f (output_character + output_length) buffer_length (format_character + 1 + character_count style)
            (u32 (length + output_length)) dt
      else mret (output_character, length)
  end.

Definition strftime (buffer buffer_length format : Z) (datetime : tm) : C Z :=
  let buffer_length := if 0 <? buffer_length then u32 (buffer_length - 1) else buffer_length in
  '(output_character, length) ←
    with_fuel (fun fuel => strftime_loop fuel buffer buffer_length format 0 datetime);
  store output_character 0;;
  mret (if length <? buffer_length then length else 0).

End Strftime.
