(* ===== verification/StrftimeThms.v ===== *)
(** * What formatted dates guarantee

    The text of each conversion is given without reference to [snprintf] and
    memory; [strftime] prints the concatenation for the format, cut to the
    room of the buffer. *)

From stdpp Require Import strings.
From S2P Require Import Prelude CMem CString CStringMem CStringStr NumConv NumConvThms Calendar Printf PrintfThms Strftime.

(** ** The texts *)

(** A decimal number, filled up to [w] characters with [c]. *)
Definition padded (w : nat) (c v : Z) : list Z := replicate (w - length (decimal v)) c ++ decimal v.
Abbreviation two := (padded 2 48).

Definition name_text (names : list string) (i : Z) : list Z := text (default EmptyString (names !! Z.to_nat i)).

Definition hour12 (h : Z) : Z := if h mod 12 =? 0 then 12 else h mod 12.

(** The parts of [hh:mm:ss]. *)
Definition clock_parts (h mi s : Z) : list (list Z) := [two h; [58]; two mi; [58]; two s].

(** The text that the code prints for the conversion [%code]. *)
Definition printed_field (dt : tm) (code : Z) : list Z :=
  let year := tm_year dt + 1900 in
  let month := tm_mon dt + 1 in
  match code with
  | 97 (* a *) => name_text SHORT_WEEKDAY (tm_wday dt)
  | 65 (* A *) => name_text FULL_WEEKDAY (tm_wday dt)
  | 98 | 104 (* b, h *) => name_text SHORT_MONTH (tm_mon dt)
  | 66 (* B *) => name_text FULL_MONTH (tm_mon dt)
  | 99 (* c *) => concat ([name_text SHORT_WEEKDAY (tm_wday dt); [32]; name_text SHORT_MONTH (tm_mon dt); [32];
      padded 2 32 (tm_mday dt); [32]] ++ clock_parts (tm_hour dt) (tm_min dt) (tm_sec dt) ++ [[32]; decimal year])
  | 67 | 121 (* C, y *) => two (year mod 100)
  | 100 (* d *) => two (tm_mday dt)
  | 68 | 120 (* D, x *) => concat [two month; [47]; two (tm_mday dt); [47]; two (year mod 100)]
  | 101 (* e *) => padded 2 32 (tm_mday dt)
  | 70 (* F *) => concat [padded 4 48 year; [45]; two month; [45]; two (tm_mday dt)]
  | 72 (* H *) => two (tm_hour dt)
  | 73 (* I *) => two (hour12 (tm_hour dt))
  | 106 (* j *) => padded 3 48 (tm_yday dt + 1)
  | 109 (* m *) => two month
  | 77 (* M *) => two (tm_min dt)
  | 110 (* n *) => [10]
  | 112 (* p *) => am_pm dt
  | 114 (* r *) => concat (clock_parts (hour12 (tm_hour dt)) (tm_min dt) (tm_sec dt) ++ [[32]; am_pm dt])
  | 82 (* R *) => concat [two (tm_hour dt); [58]; two (tm_min dt)]
  | 83 (* S *) => two (tm_sec dt)
  | 116 (* t *) => [9]
  | 84 | 88 (* T, X *) => concat (clock_parts (tm_hour dt) (tm_min dt) (tm_sec dt))
  | 117 (* u *) => decimal (tm_wday dt + 1)
  | 119 (* w *) => decimal (tm_wday dt)
  | 89 (* Y *) => padded 4 48 year
  | _ => [code]
  end.

(** The text that the comments of the file and the names of the days promise:
    Thursday is [Thu], the hours before noon are [AM], and [%u] counts the days
    from Monday, 1, to Sunday, 7. *)
Definition WEEKDAYS : list string := ["Sun"; "Mon"; "Tue"; "Wed"; "Thu"; "Fri"; "Sat"].
Definition half_day (h : Z) : list Z := if h <? 12 then text "AM" else text "PM".

Definition field_of (dt : tm) (code : Z) : list Z :=
  match code with
  | 97 (* a *) => name_text WEEKDAYS (tm_wday dt)
  | 99 (* c *) => concat ([name_text WEEKDAYS (tm_wday dt); [32]; name_text SHORT_MONTH (tm_mon dt); [32];
      padded 2 32 (tm_mday dt); [32]] ++ clock_parts (tm_hour dt) (tm_min dt) (tm_sec dt) ++ [[32]; decimal (tm_year dt + 1900)])
  | 112 (* p *) => half_day (tm_hour dt)
  | 114 (* r *) => concat (clock_parts (hour12 (tm_hour dt)) (tm_min dt) (tm_sec dt) ++ [[32]; half_day (tm_hour dt)])
  | 117 (* u *) => decimal (if tm_wday dt =? 0 then 7 else tm_wday dt)
  | _ => printed_field dt code
  end.

(** The conversions that print it: not [%u], not [%a] and [%c] on a Thursday,
    and not [%p] and [%r] between eleven and noon. *)
Definition conforms (dt : tm) (code : Z) : Prop :=
  code <> 117 /\ ((code = 97 \/ code = 99) -> tm_wday dt <> 4) /\ ((code = 112 \/ code = 114) -> tm_hour dt <> 11).

(** A literal character or a conversion, with the modifier [E], [O] or none. *)
Inductive time_item :=
  | TLit (c : Z)
  | TField (modifier : option bool) (code : Z).

Definition time_format_of (i : time_item) : list Z :=
  match i with
  | TLit c => [c]
  | TField None code => [37; code]
  | TField (Some e) code => [37; if e then 69 else 79; code]
  end.

Definition time_output_of (field : tm -> Z -> list Z) (dt : tm) (i : time_item) : list Z :=
  match i with TLit c => [c] | TField _ code => field dt code end.

Definition time_format (its : list time_item) : list Z := concat (time_format_of <$> its).
Definition time_rendering (field : tm -> Z -> list Z) (dt : tm) (its : list time_item) : list Z := concat (time_output_of field dt <$> its).

(** A literal is not a percent sign, and a code without modifier is none. *)
Definition time_item_ok (i : time_item) : Prop :=
  match i with
  | TLit c => 0 < c < 256 /\ c <> 37
  | TField None code => 0 < code < 128 /\ code <> 69 /\ code <> 79
  | TField (Some _) code => 0 < code < 128
  end.

(** The fields are in range, the year has at most four digits. *)
Record tm_ok (dt : tm) : Prop := {
  ok_sec : 0 <= tm_sec dt <= 60; ok_min : 0 <= tm_min dt < 60; ok_hour : 0 <= tm_hour dt < 24;
  ok_mday : 1 <= tm_mday dt <= 31; ok_mon : 0 <= tm_mon dt < 12; ok_year : 0 <= tm_year dt + 1900 <= 9999;
  ok_wday : 0 <= tm_wday dt < 7; ok_yday : 0 <= tm_yday dt < 366 }.

Definition item_conforms (dt : tm) (i : time_item) : Prop := match i with TLit _ => True | TField _ code => conforms dt code end.

Lemma weekdays_agree i : 0 <= i < 7 -> i <> 4 -> name_text WEEKDAYS i = name_text SHORT_WEEKDAY i.
Proof. intros Hi Hne. assert (i = 0 \/ i = 1 \/ i = 2 \/ i = 3 \/ i = 5 \/ i = 6) as Hc by lia. by repeat (destruct Hc as [->|Hc]; [done|]); subst. Qed.

Lemma half_day_agrees dt : tm_hour dt <> 11 -> half_day (tm_hour dt) = am_pm dt.
Proof. intros Hne. unfold half_day, am_pm. destruct (Z.ltb_spec (tm_hour dt) 12), (Z.ltb_spec (tm_hour dt) 11); done || lia. Qed.

Lemma conforming_field dt code : tm_ok dt -> conforms dt code -> field_of dt code = printed_field dt code.
Proof.
  intros Hdt (H1 & H2 & H3). pose proof (ok_wday _ Hdt) as Hw.
  destruct (decide (code = 97)) as [->|]; [cbn; apply weekdays_agree; auto|]. destruct (decide (code = 99)) as [->|]; [cbn [field_of printed_field]; by rewrite weekdays_agree by auto|].
  destruct (decide (code = 112)) as [->|]; [cbn; apply half_day_agrees; auto|]. destruct (decide (code = 114)) as [->|]; [cbn [field_of printed_field]; by rewrite half_day_agrees by auto|].
  unfold field_of. repeat case_match; done.
Qed.

Lemma conforming_rendering dt its : tm_ok dt -> Forall (item_conforms dt) its -> time_rendering field_of dt its = time_rendering printed_field dt its.
Proof.
  intros Hdt Hc. unfold time_rendering. f_equal. apply list_fmap_ext. intros k it Hit. rewrite Forall_lookup in Hc. specialize (Hc _ _ Hit).
  destruct it; [done|]. by apply conforming_field.
Qed.

Lemma decimal_width v (k : nat) : (0 < k)%nat -> 0 <= v < 10 ^ Z.of_nat k -> (1 <= length (decimal v) <= k)%nat.
Proof.
  intros Hk Hv. unfold decimal. rewrite (proj2 (Z.ltb_ge v 0)) by lia. unfold numeral. rewrite length_rev, length_fmap.
  split; [cbn; lia|]. by apply digits_length_pow; [lia|..].
Qed.

Lemma padded_length w c v (k : nat) : (0 < k <= w)%nat -> 0 <= v < 10 ^ Z.of_nat k -> length (padded w c v) = w.
Proof.
  intros Hk Hv. pose proof (decimal_width v k ltac:(lia) Hv). unfold padded. rewrite length_app, length_replicate. lia.
Qed.

Lemma two_length c v : 0 <= v < 100 -> length (padded 2 c v) = 2%nat.
Proof. intros Hv. apply padded_length with (k := 2%nat); [lia|done]. Qed.

(** ** The strings of the file *)

Definition time_literals : list (list Z) :=
  (text <$> (SHORT_WEEKDAY ++ FULL_WEEKDAY ++ SHORT_MONTH ++ FULL_MONTH ++
    ["AM"; "PM"; "%s %s % 2d %02d:%02d:%02d %d"; "%02d"; "%02d/%02d/%02d"; "% 2d"; "%04d-%02d-%02d"; "%03d";
     "%02d:%02d:%02d %s"; "%02d:%02d"; "%02d:%02d:%02d"; "%d"; "%04d"])) ++ [[10]; [9]; [37]].

Definition literal_ok (t : list Z) : bool := forallb (fun c => (0 <? c) && (c <? 256)) t && negb (length t =? 0)%nat.

Lemma time_literals_ok t : t ∈ time_literals -> Forall (fun c => 0 < c < 256) t /\ (0 < length t)%nat.
Proof.
  assert (H : forallb literal_ok time_literals = true) by reflexivity. rewrite forallb_forall in H.
  intros Ht%list_elem_of_In%H. unfold literal_ok in Ht. apply andb_true_iff in Ht as [Hc Hl]. split.
  - apply Forall_forall. intros c Hin%list_elem_of_In. rewrite forallb_forall in Hc. apply Hc in Hin. lia.
  - destruct t; [done|]. cbn. lia.
Qed.

(** ** Printing into the memory *)

Section Memory.
Context (L : layout) {double : Type} (to_float : double -> double) (dtoa : double -> Z -> Z -> C (Z * Z * Z)).
Context (literal : list Z -> Z) (tb : Z).
(** The output buffer. *)
Context (b n : Z).

(** What the routine may change besides the output: its locals and those of [snprintf]. *)
Definition scratch (x : Z) : Prop := private L x \/ tb <= x < tb + 32.

Record time_frame_ok : Prop := {
  tf_frame : frame_ok L tb 32;
  tf_buffer : 0 < b /\ b + n <= 4294967296;
  tf_apart : forall x, b <= x < b + n -> ~ scratch x }.
Context (HF : time_frame_ok).

(** Constant data: outside the locals and the output. *)
Definition fixed (m : mem) (a : Z) (l : list Z) : Prop :=
  constant L tb 32 m a l /\ forall x, a <= x < a + Z.of_nat (length l) -> ~ (b <= x < b + n).

Record time_ready (m : mem) : Prop := {
  tr_locals : ready L tb 32 m;
  tr_output : mapped m b n;
  tr_blank : fixed m (BLANK_PAD L) (blank_pad_text ++ [0]);
  tr_zero : fixed m (ZERO_PAD L) (zero_pad_text ++ [0]);
  tr_hex : fixed m (HEX_PREFIX L) ([48; 120] ++ [0]);
  tr_octal : fixed m (OCTAL_PREFIX L) ([48] ++ [0]);
  tr_none : fixed m (NO_PREFIX L) ([] ++ [0]);
  tr_text t : t ∈ time_literals -> fixed m (literal t) (t ++ [0]) }.

(** Only the locals changed, and the part of the output from [p] on. *)
Record kept (p : Z) (m m' : mem) : Prop := {
  kp_frame x : ~ scratch x -> ~ (p <= x < b + n) -> m' !! x = m !! x;
  kp_map x : is_Some (m !! x) -> is_Some (m' !! x) }.

Lemma kept_refl p m : kept p m m.
Proof. done. Qed.

Lemma time_kept_trans p q m1 m2 m3 : p <= q -> kept p m1 m2 -> kept q m2 m3 -> kept p m1 m3.
Proof.
  intros Hpq [F1 M1] [F2 M2]. split; [|by eauto]. intros x Hs Hx. rewrite F2, F1; [done..|]. intros ?. apply Hx. lia.
Qed.

Lemma kept_weaken p q m m' : q <= p -> kept p m m' -> kept q m m'.
Proof. intros Hq [F M]. split; [|done]. intros x Hs Hx. apply F; [done|lia]. Qed.

Lemma kept_mapped p m m' a k : kept p m m' -> mapped m a k -> mapped m' a k.
Proof. intros K Hm x Hx. by apply (kp_map _ _ _ K), Hm. Qed.

Lemma fixed_kept p m m' a l : b <= p -> kept p m m' -> fixed m a l -> fixed m' a l.
Proof.
  intros Hp K [[Hr Hb Ho] Hd]. split; [|done]. split; [done| |done]. eapply bytes_at_frame; [|exact Hb].
  intros x Hx. apply (kp_frame _ _ _ K); [|specialize (Hd x Hx); lia].
  destruct (Ho x Hx). unfold scratch. tauto.
Qed.

Lemma ready_kept p m m' : b <= p -> kept p m m' -> time_ready m -> time_ready m'.
Proof.
  intros Hp K [(H1 & H2 & H3) ? ? ? ? ? ? Ht].
  split; try (by eapply fixed_kept); [|by eapply kept_mapped|intros t Hin; by eapply fixed_kept, Ht].
  split; [by eapply kept_mapped|]. split; [by apply (kp_map _ _ _ K)|by eapply kept_mapped].
Qed.

Lemma literals_of m : time_ready m -> literals L tb 32 m.
Proof. intros H. split; apply H. Qed.

Lemma fixed_cstr m t : time_ready m -> t ∈ time_literals -> cstr m (literal t) t.
Proof.
  intros Hm Ht. destruct (tr_text m Hm t Ht) as [[Hr Hb _] _]. rewrite length_app in Hr. cbn in Hr.
  pose proof (time_literals_ok t Ht) as [Hc _]. split; [lia|done].
Qed.

(** [text] and [text_length] stand for [txt]: the length is given, or found by [strlen]. *)
Record source (m : mem) (p tl : Z) (txt : list Z) : Prop := {
  so_cstr : cstr m p txt;
  so_apart : forall x, p <= x < p + Z.of_nat (length txt) -> ~ (b <= x < b + n);
  so_length : tl = Z.of_nat (length txt) \/ tl = 0 }.

Lemma literal_source m t tl : time_ready m -> t ∈ time_literals -> tl = Z.of_nat (length t) \/ tl = 0 ->
  source m (literal t) tl t.
Proof.
  intros Hm Ht Hl. split; [by apply fixed_cstr| |done].
  destruct (tr_text m Hm t Ht) as [_ Hd]. intros x Hx. apply Hd. rewrite length_app. lia.
Qed.

Lemma local_source m txt tl : bytes_at m tb (txt ++ [0]) -> Forall (fun c => 0 < c < 256) txt ->
  Z.of_nat (length txt) < 32 -> tl = Z.of_nat (length txt) \/ tl = 0 -> source m tb tl txt.
Proof.
  intros Hb Hc Hl Htl. destruct HF as [[? _ _ _ _ _] _ Ha]. split; [|intros x Hx Hx'|done].
  - split; [lia|done].
  - apply (Ha x Hx'). right. lia.
Qed.

(** A field printed by [snprintf]. *)
Lemma print_fields_run m f its : time_ready m -> format_text its = text f -> text f ∈ time_literals ->
  Forall (string_ok L tb 32 m) its -> Forall item_ok its -> (length (rendering its) < 32)%nat ->
  Forall (fun c => 0 < c < 256) (rendering its) ->
  exists tl m1, print_fields L to_float dtoa literal tb f (arguments its) m = Ret ((tb, tl), m1) /\
    source m1 tb tl (rendering its) /\ kept (b + n) m m1.
Proof.
  intros Hm Hf Hin Hs Hi Hl Hc. destruct (tr_text m Hm _ Hin) as [Hft _]. rewrite <- Hf in Hft.
  destruct (vsnprintf_run L tb 32 (tf_frame HF) to_float dtoa its m (literal (text f))) as (m1 & E & Hb & Hfr & Hmap);
    [lia|apply Hm|by apply literals_of|done|done|by rewrite <- Hf|lia|].
  exists (Z.of_nat (length (rendering its))), m1. split; [|split].
  - unfold print_fields, snprintf. erewrite run_bind by exact E. by rewrite u32_small by lia.
  - apply local_source; [done|done|lia|by left].
  - split; [|done]. intros x Hx _. unfold scratch in Hx. apply Hfr; [|tauto]. intros ?. apply Hx. right. lia.
Qed.

(** The names. *)
Lemma name_at_run names m i : 0 <= i < Z.of_nat (length names) ->
  name_at literal names i m = Ret (literal (name_text names i), m) /\ name_text names i ∈ text <$> names.
Proof.
  intros Hi. unfold name_at, name_text. rewrite (proj2 (Z.ltb_ge i 0)) by lia.
  destruct (lookup_lt_is_Some_2 names (Z.to_nat i)) as [s Hs]; [lia|]. rewrite Hs. split; [done|].
  apply list_elem_of_fmap. exists s. split; [done|]. by eapply list_elem_of_lookup_2.
Qed.

(** Items that print decimal numbers, strings and literal characters. *)
Definition plain (i : item) : bool :=
  match i with
  | Lit _ | Conv false _ _ _ (CDec _) | Conv false _ _ _ (CStr _ _) => true
  | _ => false
  end.

Lemma plain_chars its : forallb plain its = true -> Forall item_ok its -> Forall (fun c => 0 < c < 256) (rendering its).
Proof.
  intros Hp Hok. unfold rendering. apply Forall_concat, Forall_fmap, Forall_forall. intros i Hin.
  rewrite forallb_forall in Hp. pose proof (Hp i (proj1 (list_elem_of_In _ _) Hin)) as Hi.
  rewrite Forall_forall in Hok. specialize (Hok i Hin).
  destruct i as [c|[] zero sp w k]; [repeat constructor; apply Hok|done|]. destruct Hok as [Hw Hk].
  assert (Hpre : prefix_of false k = []) by by destruct k. cbn [compose output_of]. rewrite Hpre. cbn [app].
  apply Forall_app_2; [apply Forall_replicate; destruct zero; lia|].
  destruct k as [| |v| | | | |s cs]; try done. by apply decimal_chars.
Qed.

Lemma name_length names (k : nat) i : forallb (fun s => (length (text s) =? k)%nat) names = true ->
  0 <= i < Z.of_nat (length names) -> length (name_text names i) = k.
Proof.
  intros H Hi. destruct (name_at_run names ∅ i Hi) as [_ (s & -> & Hs%list_elem_of_In)%list_elem_of_fmap].
  rewrite forallb_forall in H. apply Nat.eqb_eq, H, Hs.
Qed.

Lemma am_pm_literal dt : am_pm dt ∈ time_literals /\ length (am_pm dt) = 2%nat.
Proof. unfold am_pm. destruct (_ <? _); (split; [by_eval|done]). Qed.

(** A name of a weekday or of a month, as an item. *)
Definition name_item (t : list Z) : item := Conv false false false 0 (CStr (literal t) t).
Abbreviation Dec w v := (Conv false true false w (CDec v)).

Lemma name_item_ok m t : time_ready m -> t ∈ time_literals -> string_ok L tb 32 m (name_item t) /\ item_ok (name_item t).
Proof.
  intros Hm Ht. destruct (time_literals_ok t Ht) as [Hc Hl]. destruct (tr_text m Hm t Ht) as [H _].
  split; [|split; [lia|exact Hc]]. cbn. unfold NULL. pose proof (co_range _ _ _ _ _ _ H). by rewrite (proj2 (Z.eqb_neq _ 0)) by lia.
Qed.

Lemma names_literal names t : t ∈ text <$> names -> Forall (fun s => text s ∈ time_literals) names -> t ∈ time_literals.
Proof. intros (s & -> & Hs)%list_elem_of_fmap H. rewrite Forall_forall in H. by apply H. Qed.

Definition codes : list Z :=
  [97; 65; 98; 104; 66; 99; 67; 121; 100; 68; 120; 101; 70; 72; 73; 106; 109; 77; 110; 112; 114; 82; 83; 116; 84; 88;
   117; 119; 89; 37].

Lemma printed_field_other dt code : 0 < code < 128 -> code ∉ codes -> printed_field dt code = [code].
Proof.
  intros Hc Hn. assert (H : existsb (Z.eqb code) codes = false).
  { apply not_true_iff_false. intros (c & Hin & ->%Z.eqb_eq)%existsb_exists. by apply Hn, list_elem_of_In. }
  clear Hn. destruct code as [|p|]; try lia. do 7 (destruct p as [p|p|]; try lia; try reflexivity; try discriminate H).
Qed.

(** What a routine that computes a field leaves behind. *)
Definition gives (m : mem) (c : C (Z * Z)) (txt : list Z) : Prop :=
  exists p tl m1, c m = Ret ((p, tl), m1) /\ source m1 p tl txt /\ kept (b + n) m m1.

Lemma gives_literal m t tl : time_ready m -> t ∈ time_literals -> tl = Z.of_nat (length t) \/ tl = 0 ->
  gives m (mret (literal t, tl)) t.
Proof. intros Hm Ht Hl. exists (literal t), tl, m. split; [done|]. split; [by apply literal_source|apply kept_refl]. Qed.

Lemma gives_bind {A} m (c : C A) (k : A -> C (Z * Z)) x txt : c m = Ret (x, m) -> gives m (k x) txt -> gives m (c ≫= k) txt.
Proof. intros E. unfold gives. by erewrite run_bind by exact E. Qed.

Lemma gives_name m names i : time_ready m -> 0 <= i < Z.of_nat (length names) ->
  Forall (fun s => text s ∈ time_literals) names ->
  gives m (p ← name_at literal names i; mret (p, 0)) (name_text names i).
Proof.
  intros Hm Hi Hn. destruct (name_at_run names m i Hi) as [E Hin]. apply gives_bind with (1 := E).
  apply gives_literal; [done| |by right]. by eapply names_literal.
Qed.

Lemma gives_fields m f its txt : time_ready m -> format_text its = text f -> text f ∈ time_literals ->
  Forall (fun i => string_ok L tb 32 m i /\ item_ok i) its -> forallb plain its = true ->
  rendering its = txt -> (length txt < 32)%nat ->
  gives m (print_fields L to_float dtoa literal tb f (arguments its)) txt.
Proof.
  intros Hm Hf Hin [Hs Hi]%Forall_and Hp <- Hl.
  destruct (print_fields_run m f its) as (tl & m1 & H); try done; [by apply plain_chars|]. by exists tb, tl, m1.
Qed.

Lemma gives_other m c : time_ready m -> 0 < c < 128 ->
  gives m (store tb c;; store (tb + 1) 0;; mret (tb, 1)) [c].
Proof.
  intros Hm Hc. destruct (tr_locals m Hm) as [Ht _].
  assert (E : (store tb c;; store (tb + 1) 0;; mret (tb, 1)) m = Ret ((tb, 1), write_bytes m tb [c; 0])).
  { erewrite run_bind by (apply run_store; eapply mapped_lookup; [exact Ht|lia]).
    erewrite run_bind by (apply run_store; eapply mapped_lookup; [by apply mapped_insert, Ht|lia]).
    rewrite !u8_small by lia. unfold mret, C_ret. reflexivity. }
  exists tb, 1, (write_bytes m tb [c; 0]). split; [exact E|]. split.
  - apply local_source; [apply bytes_at_write|repeat constructor; lia|cbn; lia|by left].
  - split.
    + intros x Hx _. rewrite lookup_write_bytes, decide_False; [done|]. intros Hx'. cbn in Hx'. apply Hx. right. lia.
    + intros x Hx. rewrite lookup_write_bytes. case_decide; [|done]. apply lookup_lt_is_Some. lia.
Qed.

Lemma hour_of_twelve_eq dt : 0 <= tm_hour dt < 24 -> hour_of_twelve dt = hour12 (tm_hour dt).
Proof.
  intros H. unfold hour_of_twelve, hour12. rewrite Z.rem_mod_nonneg by lia. rewrite u32_small by zlia. done.
Qed.

Lemma hour12_range h : 0 <= hour12 h < 100.
Proof. unfold hour12. destruct (_ =? _); zlia. Qed.

(** The items of the conversions that use [snprintf]. *)
Definition clock_items (h mi s : Z) : list item := [Dec 2 h; Lit 58; Dec 2 mi; Lit 58; Dec 2 s].

Definition field_items (dt : tm) (code : Z) : list item :=
  let year := tm_year dt + 1900 in
  let month := tm_mon dt + 1 in
  match code with
  | 99 => [name_item (name_text SHORT_WEEKDAY (tm_wday dt)); Lit 32; name_item (name_text SHORT_MONTH (tm_mon dt)); Lit 32;
      Conv false false true 2 (CDec (tm_mday dt)); Lit 32] ++ clock_items (tm_hour dt) (tm_min dt) (tm_sec dt) ++
      [Lit 32; Conv false false false 0 (CDec year)]
  | 67 | 121 => [Dec 2 (year mod 100)]
  | 100 => [Dec 2 (tm_mday dt)]
  | 68 | 120 => [Dec 2 month; Lit 47; Dec 2 (tm_mday dt); Lit 47; Dec 2 (year mod 100)]
  | 101 => [Conv false false true 2 (CDec (tm_mday dt))]
  | 70 => [Dec 4 year; Lit 45; Dec 2 month; Lit 45; Dec 2 (tm_mday dt)]
  | 72 => [Dec 2 (tm_hour dt)]
  | 73 => [Dec 2 (hour12 (tm_hour dt))]
  | 106 => [Dec 3 (tm_yday dt + 1)]
  | 109 => [Dec 2 month]
  | 77 => [Dec 2 (tm_min dt)]
  | 114 => clock_items (hour12 (tm_hour dt)) (tm_min dt) (tm_sec dt) ++ [Lit 32; name_item (am_pm dt)]
  | 82 => [Dec 2 (tm_hour dt); Lit 58; Dec 2 (tm_min dt)]
  | 83 => [Dec 2 (tm_sec dt)]
  | 84 | 88 => clock_items (tm_hour dt) (tm_min dt) (tm_sec dt)
  | 117 => [Conv false false false 0 (CDec (tm_wday dt + 1))]
  | 119 => [Conv false false false 0 (CDec (tm_wday dt))]
  | 89 => [Dec 4 year]
  | _ => []
  end.

(** The length of a field: the sum over its parts. *)
Ltac field_length :=
  cbn [printed_field clock_parts concat app]; repeat first [rewrite length_app | progress (cbn [length])];
  repeat first [rewrite two_length by (first [lia|zlia])
    | rewrite (padded_length 4 48 _ 4) by lia | rewrite (padded_length 3 48 _ 3) by lia];
  lia.

Ltac items_ok := cbn [field_items clock_items app]; repeat first [apply Forall_nil_2 | apply Forall_cons_2; [by apply name_item_ok|]
  | apply Forall_cons_2; [split; [exact I|cbn; first [lia|zlia]]|]].

Lemma field_text_run m dt code : time_ready m -> tm_ok dt -> 0 < code < 128 ->
  gives m (field_text L to_float dtoa literal tb dt code) (printed_field dt code).
Proof.
  intros Hm [Hsec Hmin Hhour Hmday Hmon Hyear Hwday Hyday] Hc. unfold field_text.
  assert (full_year dt = tm_year dt + 1900) as -> by (apply s32_small; lia).
  rewrite !Z.rem_mod_nonneg, !s32_small by lia. rewrite hour_of_twelve_eq by done.
  pose proof (hour12_range (tm_hour dt)) as H12. destruct (am_pm_literal dt) as [Hap Hapl].
  destruct (name_at_run SHORT_WEEKDAY m (tm_wday dt)) as [Ew Hw]; [cbn; lia|].
  destruct (name_at_run SHORT_MONTH m (tm_mon dt)) as [Em Hmo]; [cbn; lia|].
  apply names_literal in Hw, Hmo; [|by_eval..].
  pose proof (name_length SHORT_WEEKDAY 3 (tm_wday dt) eq_refl ltac:(cbn; lia)) as Lw.
  pose proof (name_length SHORT_MONTH 3 (tm_mon dt) eq_refl ltac:(cbn; lia)) as Lm.
  pose proof (decimal_width (tm_year dt + 1900) 4 ltac:(lia) ltac:(cbn; lia)) as Ly.
  pose proof (decimal_width (tm_wday dt) 1 ltac:(lia) ltac:(cbn; lia)) as L1.
  pose proof (decimal_width (tm_wday dt + 1) 1 ltac:(lia) ltac:(cbn; lia)) as L2.
  destruct (decide (code ∈ codes)) as [Hin|Hout].
  - unfold codes in Hin. repeat (apply elem_of_cons in Hin as [->|Hin]); [..|by apply elem_of_nil in Hin];
      cbn [Z.eqb Pos.eqb orb];
      try (apply gives_name; [done|cbn; lia|by_eval]);
      try (apply gives_literal; [done|first [exact Hap|by_eval]|left; first [done|exact (f_equal Z.of_nat (eq_sym Hapl))]]);
      try (apply gives_bind with (1 := Ew), gives_bind with (1 := Em));
      match goal with |- gives _ (print_fields _ _ _ _ _ ?f _) (printed_field _ ?c) =>
        apply (gives_fields m f (field_items dt c)); [done|reflexivity|by_eval|items_ok|reflexivity|first [reflexivity|apply app_nil_r]|field_length]
      end.
  - rewrite printed_field_other by done. unfold codes in Hout. repeat (apply not_elem_of_cons in Hout as [? Hout]).
    rewrite !(proj2 (Z.eqb_neq _ _)) by done. cbn [orb]. by apply gives_other.
Qed.

(** Text written at [q], which the steps after it keep. *)
Definition wrote (m : mem) (q : Z) (out : list Z) (m' : mem) : Prop := bytes_at m' q out /\ kept q m m'.

Lemma wrote_app m q o1 m1 o2 m2 : b <= q -> q + Z.of_nat (length o1) <= b + n ->
  wrote m q o1 m1 -> wrote m1 (q + Z.of_nat (length o1)) o2 m2 -> wrote m q (o1 ++ o2) m2.
Proof.
  intros Hq Hl [B1 K1] [B2 K2]. split; [|eapply time_kept_trans; [|exact K1|exact K2]; lia].
  apply bytes_at_app. split; [|done]. eapply bytes_at_frame; [|exact B1]. intros x Hx.
  apply (kp_frame _ _ _ K2); [|lia]. apply (tf_apart HF). lia.
Qed.

Lemma wrote_bytes m q l : b <= q -> q + Z.of_nat (length l) <= b + n -> wrote m q l (write_bytes m q l).
Proof.
  intros Hq Hl. split; [apply bytes_at_write|]. split.
  - intros x _ Hx. rewrite lookup_write_bytes, decide_False; [done|lia].
  - intros x Hx. rewrite lookup_write_bytes. case_decide; [|done]. apply lookup_lt_is_Some. lia.
Qed.

Lemma print_datetime_field_run m q k dt st : time_ready m -> tm_ok dt -> 0 < format_code st < 128 ->
  b <= q -> 0 <= k -> q + k <= b + n ->
  let out := take (Z.to_nat k) (printed_field dt (format_code st)) in
  exists m', print_datetime_field L to_float dtoa literal tb q k dt st m = Ret (Z.of_nat (length out), m') /\ wrote m q out m'.
Proof.
  intros Hm Hdt Hc Hq Hk Hqk out. destruct (field_text_run m dt _ Hm Hdt Hc) as (p & tl & m1 & E & [Hs Ha Htl] & K).
  set (txt := printed_field dt (format_code st)) in *. pose proof (cstr_range _ _ _ Hs) as Hp. destruct HF as [_ Hb _].
  assert (Hlen : Z.of_nat (length out) = Z.min k (Z.of_nat (length txt))) by (unfold out; rewrite length_take; lia).
  exists (write_bytes m1 q out). split.
  - unfold print_datetime_field. erewrite run_bind by exact E. cbv beta iota. unfold NULL.
    rewrite (proj2 (Z.eqb_neq p 0)) by lia. erewrite run_bind; last first.
    { instantiate (1 := m1). instantiate (1 := Z.of_nat (length txt)). destruct Htl as [->| ->].
      - destruct (Z.eqb_spec (Z.of_nat (length txt)) 0) as [Hz|]; [|done]. rewrite Hz. cbn [Z.eqb]. rewrite <- Hz. by apply strlen_run.
      - by apply strlen_run. }
    cbv zeta. rewrite <- Hlen. erewrite run_bind; [done|]. apply memcpy_run; [lia|lia|done| | | |].
    + pose proof (cstr_bytes _ _ _ Hs) as Hbt. unfold out. rewrite <- (take_drop (Z.to_nat k) txt) in Hbt.
      by apply bytes_at_app in Hbt as [? _].
    + unfold out. apply Forall_take, chars_u8. by eapply cstr_chars.
    + eapply mapped_sub; [eapply kept_mapped; [exact K|apply (tr_output m Hm)]|lia|lia].
    + destruct (decide (p + Z.of_nat (length out) <= q)); [by right|]. destruct (decide (q <= p)); [by left|].
      exfalso. apply (Ha q); lia.
  - destruct (wrote_bytes m1 q out) as [B K2]; [done|lia|]. split; [done|]. eapply time_kept_trans; [reflexivity| |exact K2].
    eapply kept_weaken; [|exact K]. lia.
Qed.

(** The modifier and the code of a conversion at [f], after the percent sign. *)
Lemma parse_time_style_run m f md code rest : time_item_ok (TField md code) ->
  bytes_at m f (tail (time_format_of (TField md code)) ++ rest) ->
  exists st, parse_time_style f m = Ret (st, m) /\ format_code st = code /\
    1 + character_count st = Z.of_nat (length (time_format_of (TField md code))) /\ 0 < code < 128.
Proof.
  intros Hok Hb. unfold parse_time_style. destruct md as [e|]; cbn [tail app time_format_of] in Hb.
  - apply bytes_at_cons in Hb as [H1 Hb]. apply bytes_at_cons in Hb as [H2 _]. cbn in Hok. crun run_loadc.
    replace (_ || _) with true by (by destruct e). crun run_loadc. rewrite s8_small by lia. eexists. by split.
  - apply bytes_at_cons in Hb as [H1 _]. destruct Hok as (Hc & H69 & H79). crun run_loadc. rewrite s8_small by lia.
    rewrite !(proj2 (Z.eqb_neq _ _)) by done. eexists. by split.
Qed.

Abbreviation strftime_loop_ := (strftime_loop L to_float dtoa literal tb).

(** One item. *)
Lemma time_item_run m fuel f len dt it rest : time_ready m -> tm_ok dt -> time_item_ok it ->
  bytes_at m f (time_format_of it ++ rest) -> 0 <= len < n - 1 ->
  let out := take (Z.to_nat (n - 1 - len)) (time_output_of printed_field dt it) in
  let o := Z.of_nat (length out) in
  exists m1, strftime_loop_ (S fuel) (b + len) (n - 1) f len dt m
      = strftime_loop_ fuel (b + len + o) (n - 1) (f + Z.of_nat (length (time_format_of it))) (len + o) dt m1 /\
    wrote m (b + len) out m1.
Proof.
  intros Hm Hdt Hok Hb Hlen out o. pose proof (tf_buffer HF) as Hbuf.
  assert (Ho : o <= n - 1 - len) by (unfold o, out; rewrite length_take; lia).
  cbn [strftime_loop]. destruct it as [c|md code].
  - destruct Hok as [Hc H37]. cbn in Hb. apply bytes_at_cons in Hb as [Hb _].
    assert (out = [c]) as Hout by (unfold out; cbn; destruct (Z.to_nat _) as [|[]] eqn:E; [lia|done..]).
    exists (write_bytes m (b + len) [c]). rewrite Hout in *. split; [|apply wrote_bytes; cbn; lia].
    crun run_loadc. assert (s8 c <> 0 /\ s8 c <> 37) as [H0 H1] by (unfold s8; zlia).
    rewrite (proj2 (Z.ltb_lt len (n - 1))), (proj2 (Z.eqb_neq _ 0) H0), (proj2 (Z.eqb_neq _ 37) H1) by lia. cbn [negb andb].
    erewrite run_bind by (apply run_store; eapply mapped_lookup; [apply (tr_output m Hm)|lia]).
    rewrite u32_small by lia. unfold o. rewrite Hout. rewrite u8_s8, u8_small by lia. done.
  - pose proof Hb as H37. assert (m !! f = Some 37) as Hf by (destruct md; by apply bytes_at_cons in H37 as [? _]).
    assert (Ht : bytes_at m (f + 1) (tail (time_format_of (TField md code)) ++ rest)).
    { destruct md; by apply bytes_at_cons in Hb as [_ Hb]. }
    destruct (parse_time_style_run m (f + 1) md code rest Hok Ht) as (st & Es & Hcode & Hcount & Hrange). subst code.
    destruct (print_datetime_field_run m (b + len) (n - 1 - len) dt st) as (m1 & Ep & W); [done|done|done|lia|lia|lia|].
    exists m1. split; [|exact W]. crun run_loadc. change (s8 37) with 37.
    rewrite (proj2 (Z.ltb_lt len (n - 1))) by lia. cbn [negb andb Z.eqb Pos.eqb].
    erewrite run_bind by exact Es. rewrite u32_small by lia. rewrite (run_bind _ _ _ o m1) by exact Ep.
    rewrite u32_small by lia. f_equal; lia.
Qed.

Lemma strftime_loop_run dt its : tm_ok dt -> Forall time_item_ok its -> forall m fuel f len, time_ready m ->
  fixed m f (time_format its ++ [0]) -> 0 <= len <= n - 1 -> (length its < fuel)%nat ->
  let out := take (Z.to_nat (n - 1 - len)) (time_rendering printed_field dt its) in
  let o := Z.of_nat (length out) in
  exists m', strftime_loop_ fuel (b + len) (n - 1) f len dt m = Ret ((b + len + o, len + o), m') /\ wrote m (b + len) out m'.
Proof.
  intros Hdt. induction 1 as [|it its Hok Hits IH]; intros m [|fuel] f len Hm Hf Hlen Hfuel out o; try (cbn in Hfuel; lia).
  - exists m. unfold o, out, time_rendering. cbn [fmap list_fmap concat]. rewrite take_nil. cbn [length Z.of_nat]. rewrite !Z.add_0_r.
    split; [|split; [apply bytes_at_nil|apply kept_refl]]. destruct Hf as [[_ Hb _] _].
    apply bytes_at_cons in Hb as [Hb _]. cbn [strftime_loop]. crun run_loadc. done.
  - unfold time_format in Hf. cbn [fmap list_fmap concat] in Hf.
    rewrite <- app_assoc in Hf. fold (time_format its) in Hf.
    destruct (decide (len = n - 1)) as [->|Hne].
    + exists m. unfold o, out. rewrite Z.sub_diag. cbn [Z.to_nat take length Z.of_nat]. rewrite !Z.add_0_r.
      split; [|split; [apply bytes_at_nil|apply kept_refl]]. destruct Hf as [[_ Hb _] _].
      assert (exists c, m !! f = Some c) as [c Hc] by (destruct it as [|[]]; apply bytes_at_cons in Hb as [? _]; eauto).
      cbn [strftime_loop]. crun run_loadc. by rewrite Z.ltb_irrefl, andb_false_r.
    + destruct (time_item_run m fuel f len dt it (time_format its ++ [0])) as (m1 & E1 & W1);
        [done|done|done|apply (co_bytes _ _ _ _ _ _ (proj1 Hf))|lia|].
      set (o1 := take _ (time_output_of printed_field dt it)) in *.
      assert (Ho1 : length o1 = Nat.min (Z.to_nat (n - 1 - len)) (length (time_output_of printed_field dt it))) by apply length_take.
      assert (Hm1 : time_ready m1) by (eapply ready_kept; [|exact (proj2 W1)|done]; lia).
      destruct (IH m1 fuel (f + Z.of_nat (length (time_format_of it))) (len + Z.of_nat (length o1)))
        as (m2 & E2 & W2); [done| |lia|cbn in Hfuel; lia|].
      { eapply fixed_kept; [|exact (proj2 W1)|]; [lia|]. destruct Hf as [Hc Hd].
        split; [by apply constant_tail|]. intros x Hx. apply Hd. rewrite length_app. lia. }
      set (o2 := take _ (time_rendering printed_field dt its)) in *.
      assert (Hout : out = o1 ++ o2).
      { unfold out, time_rendering. cbn [fmap list_fmap concat]. rewrite take_app. unfold o1 at 1, o2, time_rendering.
        do 2 f_equal. lia. }
      exists m2. unfold o. rewrite Hout, length_app, E1. split.
      * rewrite Z.add_assoc in E2. rewrite E2. do 3 f_equal; lia.
      * rewrite Z.add_assoc in W2. eapply wrote_app; [lia|lia|done|done].
Qed.

Lemma time_format_length its : (length its <= length (time_format its))%nat.
Proof.
  unfold time_format. induction its as [|it its IH]; cbn [fmap list_fmap concat length]; [lia|].
  rewrite length_app. destruct it as [|[]]; cbn [time_format_of length]; lia.
Qed.

(** Every conversion, as the code prints it. *)
Lemma strftime_run m dt its f : 0 < n -> time_ready m -> tm_ok dt -> Forall time_item_ok its ->
  fixed m f (time_format its ++ [0]) ->
  let txt := time_rendering printed_field dt its in
  let len := Z.of_nat (length txt) in
  exists m', strftime L to_float dtoa literal tb b n f dt m = Ret (if len <? n - 1 then len else 0, m') /\
    bytes_at m' b (take (Z.to_nat (n - 1)) txt ++ [0]) /\
    forall x, ~ scratch x -> ~ (b <= x < b + n) -> m' !! x = m !! x.
Proof.
  intros Hn Hm Hdt Hits Hf txt len. pose proof (tf_buffer HF) as Hb.
  destruct (strftime_loop_run dt its Hdt Hits m (mem_fuel m) f 0) as (m1 & E & W); [done|done|lia| |].
  { pose proof (time_format_length its). pose proof (bytes_at_fuel _ _ _ (co_bytes _ _ _ _ _ _ (proj1 Hf))) as Hfu.
    rewrite length_app in Hfu. lia. }
  rewrite Z.sub_0_r, Z.add_0_r in *. fold txt in E, W. set (out := take (Z.to_nat (n - 1)) txt) in *.
  assert (Hlen : Z.of_nat (length out) = Z.min (n - 1) len) by (unfold out, len; rewrite length_take; lia).
  assert (W2 : wrote m b (out ++ [0]) (write_bytes m1 (b + Z.of_nat (length out)) [0])).
  { eapply wrote_app; [lia|lia|exact W|apply wrote_bytes; cbn; lia]. }
  eexists. split; [|split; [apply W2|apply (kp_frame _ _ _ (proj2 W2))]].
  unfold strftime, with_fuel. rewrite (proj2 (Z.ltb_lt 0 n)), u32_small by lia. erewrite run_bind by exact E.
  cbv beta iota. erewrite run_bind by (apply run_store; eapply mapped_lookup;
    [eapply kept_mapped; [exact (proj2 W)|apply (tr_output m Hm)]|lia]).
  rewrite Z.add_0_l, Hlen. unfold mret, C_ret. do 2 f_equal. destruct (Z.ltb_spec len (n - 1)); zif; lia.
Qed.

(** C26. For every date whose fields are in range and every format without a
    conversion that prints a wrong text ([conforms]: [%u] counts from Sunday,
    the Thursday of [%a] and [%c] is [The], and [%p] and [%r] take eleven in the
    morning for PM), [strftime] leaves in a buffer of [n] bytes the first
    [n - 1] characters of the text that the format denotes, terminated, and
    writes nowhere else but to its own locals (the 32 bytes of [text_buffer] are
    enough for every field). It returns the length of the text when text and
    terminator fit, and 0 when they do not; a text of exactly [n - 1] characters
    is excluded: it fits, and the code returns 0 against its comment. *)
Theorem strftime_renders m dt its f : 0 < n -> time_ready m -> tm_ok dt -> Forall time_item_ok its -> Forall (item_conforms dt) its ->
  fixed m f (time_format its ++ [0]) ->
  let txt := time_rendering field_of dt its in
  let len := Z.of_nat (length txt) in
  len <> n - 1 ->
  exists m', strftime L to_float dtoa literal tb b n f dt m = Ret (if len + 1 <=? n then len else 0, m') /\
    bytes_at m' b (take (Z.to_nat (n - 1)) txt ++ [0]) /\
    forall x, ~ scratch x -> ~ (b <= x < b + n) -> m' !! x = m !! x.
Proof.
  intros Hn Hm Hdt Hits Hconf Hf txt len Hlen. unfold len, txt in *. clear len txt. rewrite conforming_rendering in * by done.
  destruct (strftime_run m dt its f Hn Hm Hdt Hits Hf) as (m' & E & Hrest). exists m'. split; [|exact Hrest]. rewrite E. f_equal. f_equal.
  destruct (Z.ltb_spec (Z.of_nat (length (time_rendering printed_field dt its))) (n - 1)), (Z.leb_spec (Z.of_nat (length (time_rendering printed_field dt its)) + 1) n); done || lia.
Qed.

End Memory.

(** ** A run

    [strftime(buffer, 8, "%a %H", ...)] on a Friday at nine. The literals of
    this file start at 2000, 40 bytes each. *)

Fixpoint place (a : Z) (ts : list (list Z)) (t : list Z) : Z :=
  match ts with
  | [] => a
  | t' :: ts => if decide (t = t') then a else place (a + 40) ts t
  end.

Definition example_literal : list Z -> Z := place 2000 time_literals.

Definition example_format : list time_item := [TField None 97; TLit 32; TField None 72].

Definition example_time_memory : mem :=
  foldr (fun t m => write_bytes m (example_literal t) (t ++ [0]))
    (write_bytes (example_memory (time_format example_format) []) 900 (replicate 32 0)) time_literals.

Definition example_date : tm := mkTm 5 30 9 2 0 126 5 1 0.

Lemma example_time_frame : time_frame_ok example_layout 900 1000 8.
Proof. split; [split; cbn; lia|cbn; lia|]. unfold scratch, private. cbn. lia. Qed.

(** Where the constants may be: below the locals, at the format or among the literals. *)
Definition example_region (a len : Z) : Prop :=
  0 < a /\ (a + len <= 500 \/ (600 <= a /\ a + len <= 700) \/ (2000 <= a /\ a + len <= 100000)).

#[local] Instance example_region_dec a len : Decision (example_region a len).
Proof. unfold example_region. apply _. Defined.

Lemma fixed_check m a l : example_region a (Z.of_nat (length l)) -> bytes_at m a l ->
  fixed example_layout 900 1000 8 m a l.
Proof. intros Hr Hb. unfold example_region in Hr. split; [split; [lia|done|]|]; intros x Hx; unfold private; cbn; lia. Qed.

Lemma example_time_ready : time_ready example_layout example_literal 900 1000 8 example_time_memory.
Proof.
  assert (H : Forall (fun t => example_region (example_literal t) (Z.of_nat (length (t ++ [0]))) /\
    bytes_at example_time_memory (example_literal t) (t ++ [0])) time_literals) by by_eval.
  split; try (apply fixed_check; by_eval); [split; [by_eval|split; by_eval]|by_eval|].
  intros t Ht. rewrite Forall_forall in H. apply H in Ht as [??]. by apply fixed_check.
Qed.

Lemma strftime_renders_witness :
  exists m', strftime example_layout (fun d : unit => d) (fun _ _ _ => fail BadArgument) example_literal 900 1000 8 600
      example_date example_time_memory = Ret (6, m') /\
    bytes_at m' 1000 (text "Fri 09" ++ [0]) /\
    forall x, ~ scratch example_layout 900 x -> ~ (1000 <= x < 1008) -> m' !! x = example_time_memory !! x.
Proof.
  apply (strftime_renders example_layout (fun d : unit => d) (fun _ _ _ => fail BadArgument) example_literal 900 1000 8
    example_time_frame example_time_memory example_date example_format 600); [lia|exact example_time_ready| | | | |].
  - split; cbn; lia.
  - repeat constructor; cbn; lia.
  - repeat constructor; cbn; lia.
  - apply fixed_check; by_eval.
  - vm_compute. discriminate.
Defined.
