(* ===== verification/Tar.v ===== *)
(** * The tar reader: [src/src/lib/libtar/libtar.c]

    The boot image of dx is a tar file in memory. The reader walks it entry by
    entry; the theorems relate the walk to the archive that was packed. *)

From S2P Require Import Prelude CMem CString CStringMem CStringStr.

Definition TAR_BLOCK_SIZE : Z := 512.

(** Offsets of the fields of [struct tar_header] that the reader uses. *)
Definition tar_name (header : Z) : Z := header.
Definition tar_size (header : Z) : Z := header + 124.

Definition calculate_block_count (size : Z) : Z :=
  u32 (size / TAR_BLOCK_SIZE + (if negb (size mod TAR_BLOCK_SIZE =? 0) then 1 else 0)).

Fixpoint read_file_size_loop (fuel : nat) (raw_size size : Z) : C Z :=
  match fuel with
  | O => fail OutOfFuel
  | S f =>
      c ← loadc raw_size;
      if c =? 0 then mret size
      else read_file_size_loop f (raw_size + 1) (u32 (u32 (size * 8) + (c - 48)))
  end.

Definition read_file_size (header : Z) : C Z :=
  with_fuel (fun fuel => read_file_size_loop fuel (tar_size header) 0).

Definition tar_is_exhausted (image : Z) : C bool :=
  if image =? NULL then mret true
  else n ← strlen (tar_name image); mret (n =? 0).

(** [struct tar_entry] is three words: header, file, file_size. *)
Definition tar_read (image entry : Z) : C Z :=
  if image =? NULL then mret NULL
  else if entry =? NULL then mret NULL
  else
    let header := image in
    let file := header + TAR_BLOCK_SIZE in
    n ← strlen (tar_name header);
    if n =? 0 then mret NULL
    else
      file_size ← read_file_size header;
      let block_count := calculate_block_count file_size in
      let next := file + u32 (block_count * TAR_BLOCK_SIZE) in
      store32 entry header;;
      store32 (entry + 4) file;;
      store32 (entry + 8) file_size;;
      mret next.

(** The walk of a client: read entries until the image is exhausted. *)
Fixpoint tar_walk (fuel : nat) (image entry : Z) : C (list (Z * Z * Z)) :=
  match fuel with
  | O => fail OutOfFuel
  | S f =>
      done ← tar_is_exhausted image;
      if (done : bool) then mret []
      else
        next ← tar_read image entry;
        header ← load32 entry; file ← load32 (entry + 4); size ← load32 (entry + 8);
        rest ← tar_walk f next entry;
        mret ((header, file, size) :: rest)
  end.

(** ** The archive format *)

Record member := mkMember { m_name : list Z; m_data : list Z }.

(** [n] octal digits of [v], most significant first. *)
Fixpoint octal (n : nat) (v : Z) : list Z :=
  match n with
  | O => []
  | S n' => octal n' (v / 8) ++ [48 + v mod 8]
  end.

Definition tar_header (e : member) : list Z :=
  m_name e ++ replicate (100 - length (m_name e)) 0 ++   (* name *)
  replicate 24 48 ++                                     (* mode, owner, group *)
  octal 11 (Z.of_nat (length (m_data e))) ++ [0] ++      (* size *)
  replicate 376 0.

Definition tar_padding (n : nat) : nat := Z.to_nat (- Z.of_nat n mod 512).

Definition tar_member (e : member) : list Z :=
  tar_header e ++ m_data e ++ replicate (tar_padding (length (m_data e))) 0.

(** The members, then the end mark (two blocks of zero bytes). *)
Definition tar_image (es : list member) : list Z :=
  concat (tar_member <$> es) ++ replicate 1024 0.

Definition member_ok (e : member) : Prop :=
  (0 < length (m_name e) < 100)%nat /\ Forall (fun b => 0 < b < 256) (m_name e) /\
  Z.of_nat (length (m_data e)) < 4294966784.

(** ** Lemmas *)

Lemma octal_length n v : length (octal n v) = n.
Proof. revert v; induction n as [|n IH]; intros v; cbn; [done|]. rewrite length_app, IH. cbn. lia. Qed.

Lemma octal_chars n v : 0 <= v -> Forall (fun b => 48 <= b < 56) (octal n v).
Proof.
  revert v; induction n as [|n IH]; intros v Hv; cbn; [constructor|].
  apply Forall_app. split; [apply IH; apply Z.div_pos; lia|].
  repeat constructor; zlia.
Qed.

Lemma read_octal m n : forall fuel v s acc cs,
  cstr m s (octal n v ++ cs) -> 0 <= v < 8 ^ Z.of_nat n -> (length (octal n v ++ cs) < fuel)%nat ->
  exists fuel', (length cs < fuel')%nat /\
    read_file_size_loop fuel s (u32 acc) m
      = read_file_size_loop fuel' (s + Z.of_nat n) (u32 (acc * 8 ^ Z.of_nat n + v)) m.
Proof.
  induction n as [|n IH]; intros fuel v s acc cs Hs Hv Hf; cbn [octal app] in *.
  - exists fuel. split; [done|]. cbn in Hv. cbn [Z.of_nat]. rewrite Z.add_0_r.
    do 2 f_equal. change (8 ^ 0) with 1. lia.
  - rewrite <- app_assoc in *. rewrite Nat2Z.inj_succ, Z.pow_succ_r in * by lia.
    destruct (IH fuel (v / 8) s acc ([48 + v mod 8] ++ cs)) as (fuel' & Hf' & ->); [done| |done|].
    { split; [apply Z.div_pos; lia|]. apply Z.div_lt_upper_bound; lia. }
    destruct fuel' as [|fuel']; [cbn in Hf'; lia|]. exists fuel'. split; [cbn in Hf'; lia|].
    cbn [read_file_size_loop].
    assert (Hc : m !! (s + Z.of_nat n) = Some (48 + v mod 8)).
    { apply cstr_bytes in Hs. apply bytes_at_app in Hs as [_ Hs]. rewrite octal_length in Hs.
      by apply bytes_at_cons in Hs as [? _]. }
    pose proof (Z.mod_pos_bound v 8 ltac:(lia)).
    crun run_loadc. rewrite s8_nonzero, s8_small by lia.
    replace (s + Z.succ (Z.of_nat n)) with (s + Z.of_nat n + 1) by lia. f_equal.
    replace (48 + v mod 8 - 48) with (v mod 8) by lia.
    pose proof (Z.div_mod v 8 ltac:(lia)).
    unfold u32. rewrite Zplus_mod_idemp_l, <- (Zplus_mod_idemp_l (_ * 8)), Zmult_mod_idemp_l, Zplus_mod_idemp_l.
    f_equal. lia.
Qed.

Lemma read_file_size_run m header v :
  cstr m (tar_size header) (octal 11 v) -> 0 <= v < 4294967296 ->
  read_file_size header m = Ret (v, m).
Proof.
  intros Hs Hv. unfold read_file_size, with_fuel. pose proof (cstr_fuel _ _ _ Hs) as Hf.
  destruct (read_octal m 11 (mem_fuel m) v (tar_size header) 0 []) as (f & Hf' & E).
  - by rewrite app_nil_r.
  - change (8 ^ Z.of_nat 11) with 8589934592. lia.
  - by rewrite app_nil_r.
  - change (u32 0) with 0 in E. rewrite E. destruct f as [|f]; [cbn in Hf'; lia|].
    cbn [read_file_size_loop]. apply cstr_end in Hs. rewrite octal_length in Hs.
    crun run_loadc. rewrite Z.mul_0_l, Z.add_0_l, u32_small by lia. done.
Qed.

Lemma block_count_run n : 0 <= n < 4294966784 ->
  u32 (calculate_block_count n * TAR_BLOCK_SIZE) = n + (- n) mod 512.
Proof.
  intros Hn. unfold calculate_block_count, TAR_BLOCK_SIZE.
  destruct (Z.eqb_spec (n mod 512) 0); cbn [negb];
    rewrite (u32_small (n / 512 + _)) by zlia; rewrite u32_small by zlia; zlia.
Qed.

Lemma tar_header_length e : (length (m_name e) < 100)%nat -> length (tar_header e) = 512%nat.
Proof.
  intros. unfold tar_header. rewrite !length_app, octal_length, !length_replicate. cbn. lia.
Qed.

Lemma tar_member_length e : (length (m_name e) < 100)%nat ->
  Z.of_nat (length (tar_member e))
    = 512 + (Z.of_nat (length (m_data e)) + (- Z.of_nat (length (m_data e))) mod 512).
Proof.
  intros. unfold tar_member, tar_padding. rewrite !length_app, tar_header_length, length_replicate by done.
  zlia.
Qed.

(** A string of the header: its characters, then a NUL within the region. *)
Lemma cstr_region m a cs rest :
  bytes_at m a (cs ++ [0] ++ rest) -> Forall (fun b => 0 < b < 256) cs ->
  0 < a -> a + Z.of_nat (length cs) < 4294967296 -> cstr m a cs.
Proof.
  intros H Hc Ha Hr. split; [done|]. split; [|done].
  rewrite app_assoc in H. by apply bytes_at_app in H as [? _].
Qed.

Section Member.
Context (m : mem) (a : Z) (e : member) (tail : list Z).
Context (Hm : bytes_at m a (tar_member e ++ tail)) (He : member_ok e).
Context (Ha : 0 < a) (Hr : a + 512 < 4294967296).

Lemma member_name : cstr m a (m_name e).
Proof.
  destruct He as (Hl & Hc & _). unfold tar_member, tar_header in Hm. rewrite <- !app_assoc in Hm.
  destruct (100 - length (m_name e))%nat as [|k] eqn:E; [lia|]. cbn [replicate] in Hm.
  eapply (cstr_region m a (m_name e)); [exact Hm|done|done|lia].
Qed.

Lemma member_size : cstr m (tar_size a) (octal 11 (Z.of_nat (length (m_data e)))).
Proof.
  destruct He as (Hl & _). unfold tar_member, tar_header in Hm. rewrite <- !app_assoc in Hm.
  do 3 apply bytes_at_app in Hm as [_ Hm]. rewrite !length_replicate in Hm.
  replace (a + Z.of_nat (length (m_name e)) + Z.of_nat (100 - length (m_name e)) + Z.of_nat 24)
    with (tar_size a) in Hm by (unfold tar_size; lia).
  eapply cstr_region; [exact Hm| |unfold tar_size; lia|rewrite octal_length; unfold tar_size; lia].
  eapply Forall_impl; [apply octal_chars; lia|]. cbn. lia.
Qed.

Lemma member_data : bytes_at m (a + 512) (m_data e).
Proof.
  destruct He as (Hl & _). unfold tar_member in Hm. rewrite <- !app_assoc in Hm.
  apply bytes_at_app in Hm as [_ Hm]. rewrite tar_header_length in Hm by lia.
  by apply bytes_at_app in Hm as [? _].
Qed.

End Member.

(** What the walk should report: header address, data address and size of
    each member of an archive at [a]. *)
Fixpoint tar_entries (a : Z) (es : list member) : list (Z * Z * Z) :=
  match es with
  | [] => []
  | e :: es' =>
      (a, a + 512, Z.of_nat (length (m_data e)))
        :: tar_entries (a + Z.of_nat (length (tar_member e))) es'
  end.

(** The twelve bytes of [struct tar_entry] at [entry]. *)
Definition entry_bytes (header file size : Z) : list Z := words_bytes [header; file; size].

Lemma tar_read_run m a e tail entry :
  bytes_at m a (tar_member e ++ tail) -> member_ok e -> 0 < a ->
  a + Z.of_nat (length (tar_member e)) < 4294967296 -> 0 < entry -> mapped m entry 12 ->
  tar_read a entry m
    = Ret (a + Z.of_nat (length (tar_member e)),
           write_bytes m entry (entry_bytes a (a + 512) (Z.of_nat (length (m_data e))))).
Proof.
  intros Hm He Ha Hr Hent Hmap. pose proof He as (Hl & _ & Hd).
  pose proof (tar_member_length e ltac:(lia)) as Hlen.
  pose proof (Z.mod_pos_bound (- Z.of_nat (length (m_data e))) 512 ltac:(lia)).
  unfold tar_read, NULL. zif.
  erewrite run_bind; [|apply (strlen_run _ (tar_name a) (m_name e)); apply (member_name _ a e _ Hm); [done|done|lia]]. zif.
  erewrite run_bind; [|apply read_file_size_run; [eapply member_size; [exact Hm|done|done|lia]|lia]].
  rewrite block_count_run by lia.
  unfold TAR_BLOCK_SIZE. rewrite run_three_words by (done || lia). unfold mret, C_ret.
  do 2 f_equal. rewrite Hlen. lia.
Qed.

(** The walk of a packed archive: it ends, and reports every member in order. *)
Lemma tar_walk_run es : forall m a entry,
  bytes_at m a (tar_image es) -> Forall member_ok es -> 0 < a ->
  a + Z.of_nat (length (tar_image es)) <= 4294967296 -> 0 < entry -> mapped m entry 12 ->
  entry + 12 <= a \/ a + Z.of_nat (length (tar_image es)) <= entry ->
  exists m', tar_walk (S (length es)) a entry m = Ret (tar_entries a es, m') /\
    forall x, ~ (entry <= x < entry + 12) -> m' !! x = m !! x.
Proof.
  induction es as [|e es IH]; intros m a entry Hm He Ha Hr Hent Hmap Hdis;
    unfold tar_image in *; cbn [fmap list_fmap concat app length tar_walk tar_entries] in *.
  - exists m. split; [|done]. unfold tar_is_exhausted, NULL. zif.
    erewrite run_bind; [|erewrite run_bind; [done|]; apply (strlen_run m (tar_name a) []), cstr_nil].
    { done. }
    rewrite length_replicate in Hr. unfold tar_name. change (Z.of_nat 1024) with 1024 in Hr. split; [lia|]. cbn in Hm. by apply bytes_at_cons in Hm as [? _].
  - rewrite <- app_assoc in *. set (tail := concat (tar_member <$> es) ++ replicate 1024 0) in *.
    rewrite length_app, Nat2Z.inj_add in *. apply Forall_cons in He as [He Hes].
    pose proof He as (Hl & _ & _). pose proof (tar_member_length e ltac:(lia)) as Hlen.
    pose proof (Z.mod_pos_bound (- Z.of_nat (length (m_data e))) 512 ltac:(lia)).
    assert (0 < Z.of_nat (length tail)) by (unfold tail; rewrite length_app, length_replicate; lia).
    unfold tar_is_exhausted, NULL. zif.
    erewrite run_bind; [|erewrite run_bind; [done|]; apply (strlen_run _ (tar_name a) (m_name e)); apply (member_name _ a e _ Hm); [done|done|lia]].
    rewrite (proj2 (Z.eqb_neq _ 0)) by lia. cbn iota.
    erewrite run_bind; [|eapply tar_read_run; [exact Hm|done|done|lia|done|done]].
    set (m1 := write_bytes m entry _).
    destruct (load_three_words m1 entry a (a + 512) (Z.of_nat (length (m_data e)))) as (L1 & L2 & L3);
      [apply bytes_at_write|unfold is_u32; lia..|].
    erewrite run_bind by exact L1. erewrite run_bind by exact L2. erewrite run_bind by exact L3.
    assert (Hf : forall x, ~ (entry <= x < entry + 12) -> m1 !! x = m !! x).
    { intros x Hx. unfold m1. rewrite lookup_write_bytes, decide_False; [done|]. exact Hx. }
    destruct (IH m1 (a + Z.of_nat (length (tar_member e))) entry) as (m' & E & Hfr); [|done|lia| |done| | |].
    + apply bytes_at_app in Hm as [_ Hm]. eapply bytes_at_frame; [|exact Hm].
      intros x Hx. apply Hf. fold tail in Hx. lia.
    + fold tail. lia.
    + by apply mapped_write.
    + fold tail. lia.
    + exists m'. split; [erewrite run_bind by exact E; done|].
      intros x Hx. rewrite Hfr by done. by apply Hf.
Qed.

(** ** Theorems *)

(** The data of the reported members is in memory. *)
Lemma tar_entries_data m a es tail :
  bytes_at m a (concat (tar_member <$> es) ++ tail) -> Forall member_ok es ->
  Forall2 (fun '(h, f, n) e => n = Z.of_nat (length (m_data e)) /\ bytes_at m h (m_name e) /\
             bytes_at m f (m_data e)) (tar_entries a es) es.
Proof.
  revert a; induction es as [|e es IH]; intros a Hm He; cbn in *; [constructor|].
  apply Forall_cons in He as [He Hes]. rewrite <- app_assoc in Hm. constructor.
  - split; [done|]. split; [|by eapply member_data].
    unfold tar_member, tar_header in Hm. rewrite <- !app_assoc in Hm. by apply bytes_at_app in Hm as [? _].
  - apply IH; [|done]. by apply bytes_at_app in Hm as [_ ?].
Qed.

(** C23. Packing and reading back: on the image of an archive the walk with
    [tar_read] ends at the end mark and reports, in order, the address of each
    header, the address of its data and its size, and those addresses hold the
    names and contents that were packed. Only the entry structure is written. *)
Theorem tar_roundtrip es m a entry :
  bytes_at m a (tar_image es) -> Forall member_ok es -> 0 < a ->
  a + Z.of_nat (length (tar_image es)) <= 4294967296 -> 0 < entry -> mapped m entry 12 ->
  entry + 12 <= a \/ a + Z.of_nat (length (tar_image es)) <= entry ->
  exists m' found, tar_walk (S (length es)) a entry m = Ret (found, m') /\
    Forall2 (fun '(h, f, n) e => n = Z.of_nat (length (m_data e)) /\ bytes_at m' h (m_name e) /\
               bytes_at m' f (m_data e)) found es /\
    forall x, ~ (entry <= x < entry + 12) -> m' !! x = m !! x.
Proof.
  intros Hm He Ha Hr Hent Hmap Hdis.
  destruct (tar_walk_run es m a entry) as (m' & E & Hf); try done.
  exists m', (tar_entries a es). split; [done|]. split; [|done].
  apply tar_entries_data with (tail := replicate 1024 0); [|done].
  eapply bytes_at_frame; [|exact Hm]. intros x Hx. apply Hf.
  unfold tar_image in *. lia.
Qed.

Lemma tar_roundtrip_witness :
  let es := [mkMember [97; 46; 99] [1; 2; 3]; mkMember [98] []] in
  let m := write_bytes (write_bytes ∅ 8192 (tar_image es)) 64 (replicate 12 0) in
  exists m' found, tar_walk 3 8192 64 m = Ret (found, m') /\
    Forall2 (fun '(h, f, n) e => n = Z.of_nat (length (m_data e)) /\ bytes_at m' h (m_name e) /\
               bytes_at m' f (m_data e)) found es /\
    forall x, ~ (64 <= x < 64 + 12) -> m' !! x = m !! x.
Proof.
  apply (tar_roundtrip [mkMember [97; 46; 99] [1; 2; 3]; mkMember [98] []]);
    [by_eval| |lia|by_eval|lia|by_eval|by_eval].
  repeat constructor; cbn; try lia; repeat constructor; lia.
Defined.
