(* ===== verification/World.v ===== *)
(** * The environment of a user-mode program: kernel, ports and heap

    A program of type [D A] runs on a [machine]: the memory of its address
    space and the trace of what it asked of its environment. The environment
    (the kernel behind [int n], the device ports, the allocator) is not user
    code: it is the parameter [World], whose answers may depend on everything
    that was requested before, and which may change the memory (the kernel
    maps the payload of a received message, the allocator maps its blocks). *)

From S2P Require Import Prelude CMem.

(** The [syscall_data] structure that a user thread shares with the kernel. *)
Record syscall_data := mkSyscall {
  size : Z; data0 : Z; data1 : Z; data2 : Z; data3 : Z; data4 : Z; data5 : Z; status : Z }.

(** A request, with the memory of the program at the time of the request. *)
Inductive event :=
  | Syscall (vector : Z) (args : syscall_data) (m : mem)
  | PortRead (port : Z)
  | PortWrite (port value : Z)
  | Malloc (n : Z) (m : mem)
  | Free (p : Z) (m : mem).

(** A history, latest event first. *)
Abbreviation history := (list event).

(** The answers, from the history that ends with the request. [uninitialized]
    is the value of a local object that the code has not assigned. *)
Class World := {
  kernel_reply : history -> syscall_data * mem;
  port_value : history -> Z;
  heap_block : history -> Z * mem;
  heap_free : history -> mem;
  uninitialized : history -> Z
}.

Record machine := Machine { memory : mem; trace : history }.

(** A program returns or traps; [OutOfFuel] stands for waiting longer than the
    given patience. *)
Definition D (A : Type) : Type := machine -> res (A * machine).

#[export] Instance D_ret : MRet D := fun A a w => Ret (a, w).
#[export] Instance D_bind : MBind D := fun A B k c w =>
  match c w with
  | Ret (a, w') => k a w'
  | Trap t => Trap t
  end.

(** A routine of the C machine, run on the memory of the program. *)
Definition lift {A} (c : C A) : D A := fun w =>
  match c (memory w) with
  | Ret (a, m) => Ret (a, Machine m (trace w))
  | Trap t => Trap t
  end.

Section Calls.
Context `{World}.

(** [CALL_KERNEL]. *)
Definition call_kernel (vector : Z) (args : syscall_data) : D syscall_data := fun w =>
  let h := Syscall vector args (memory w) :: trace w in
  let '(r, m) := kernel_reply h in Ret (r, Machine m h).

Definition io_port_read8 (port : Z) : D Z := fun w =>
  let h := PortRead port :: trace w in Ret (u8 (port_value h), Machine (memory w) h).

Definition io_port_write8 (port value : Z) : D unit := fun w =>
  Ret (tt, Machine (memory w) (PortWrite port (u8 value) :: trace w)).

Definition malloc (n : Z) : D Z := fun w =>
  let h := Malloc n (memory w) :: trace w in
  let '(p, m) := heap_block h in Ret (p, Machine m h).

Definition free (p : Z) : D unit := fun w =>
  let h := Free p (memory w) :: trace w in Ret (tt, Machine (heap_free h) h).

Definition indeterminate : D Z := fun w => Ret (uninitialized (trace w), w).

End Calls.

(** ** Running programs *)

Lemma drun_bind {A B} (c : D A) (k : A -> D B) w x w' :
  c w = Ret (x, w') -> (c ≫= k) w = k x w'.
Proof. intros E. unfold mbind, D_bind. by rewrite E. Qed.

Lemma drun_assoc {A B E} (c : D A) (k : A -> D B) (k' : B -> D E) w :
  ((c ≫= k) ≫= k') w = (c ≫= (fun x => k x ≫= k')) w.
Proof. unfold mbind, D_bind. by destruct (c w) as [[x w']|t]. Qed.

Lemma drun_lift {A} (c : C A) m h x m' :
  c m = Ret (x, m') -> lift c (Machine m h) = Ret (x, Machine m' h).
Proof. intros E. unfold lift. cbn. by rewrite E. Qed.

(** Runs the first command of a bind with the given equation. *)
Tactic Notation "drun" uconstr(E) := erewrite drun_bind; [|by eapply E]; cbn beta iota.

Lemma drun_inv {A B} (c : D A) (k : A -> D B) w y w2 :
  (c ≫= k) w = Ret (y, w2) -> exists x w1, c w = Ret (x, w1) /\ k x w1 = Ret (y, w2).
Proof.
  unfold mbind, D_bind. destruct (c w) as [[x w1]|t] eqn:E; [|done]. eauto.
Qed.

(** The events a program appends to the trace, latest first. *)
Definition appended (w w' : machine) (es : history) : Prop := trace w' = es ++ trace w.

(** The bytes a send request refers to. *)
Definition payload (e : event) : list Z :=
  match e with
  | Syscall _ args m => read_bytes m (data3 args) (Z.to_nat (data4 args))
  | _ => []
  end.
