(* ===== verification/Libdx.v ===== *)
(** * libdx: system calls and messages of user-mode programs

    [src/src/lib/libdx]: how a user thread builds messages, marshals them into
    a [syscall_data] and traps to the kernel, and the loop of an
    interrupt-handler thread. A pointer that the code tests against [NULL] is
    an option. *)

From S2P Require Import Prelude CMem CString NumConv World.

(** ** Data *)

(** A descriptor with the given fields [data0], [data1], ... filled in; the
    others are uninitialised: [u]. *)
Definition syscall_args (u : Z) (ds : list Z) : syscall_data :=
  let field i := default u (ds !! i) in
  mkSyscall 32 (field 0%nat) (field 1%nat) (field 2%nat) (field 3%nat) (field 4%nat)
    (field 5%nat) u.

Record message := mkMessage {
  u_id : Z;                (* [u.destination] when sending, [u.source] when received *)
  msg_type : Z; msg_id : Z; msg_data : Z; msg_data_size : Z; destination_address : Z }.

Definition SYSTEM_MESSAGE (v : Z) : Z := Z.lor 2147483648 v.
Definition MESSAGE_TYPE_NULL : Z := SYSTEM_MESSAGE 0.
Definition MESSAGE_TYPE_ABORT : Z := SYSTEM_MESSAGE 1.
Definition MESSAGE_TYPE_START_USER_THREAD : Z := SYSTEM_MESSAGE 5.
Definition MESSAGE_TYPE_HANDLE_INTERRUPT : Z := SYSTEM_MESSAGE 6.
Definition MESSAGE_TYPE_ACKNOWLEDGE_INTERRUPT : Z := SYSTEM_MESSAGE 7.
Definition MESSAGE_TYPE_DEFER_INTERRUPT : Z := SYSTEM_MESSAGE 8.
Definition MESSAGE_TYPE_DISABLE_INTERRUPT_HANDLER : Z := SYSTEM_MESSAGE 9.
Definition MESSAGE_TYPE_ENABLE_INTERRUPT_HANDLER : Z := SYSTEM_MESSAGE 10.
Definition MESSAGE_TYPE_READ : Z := SYSTEM_MESSAGE 36.
Definition MESSAGE_TYPE_READ_COMPLETE : Z := SYSTEM_MESSAGE 37.
Definition MESSAGE_TYPE_WRITE : Z := SYSTEM_MESSAGE 38.
Definition MESSAGE_TYPE_FLUSH : Z := SYSTEM_MESSAGE 40.
Definition MESSAGE_TYPE_FLUSH_COMPLETE : Z := SYSTEM_MESSAGE 41.
Definition MESSAGE_TYPE_KEYBOARD_INPUT : Z := SYSTEM_MESSAGE 44.

Definition MESSAGE_ID_ATOMIC : Z := 4294967295.
Definition THREAD_ID_NULL : Z := u32 (-256).
Definition THREAD_ID_INVALID : Z := u32 (-1).
Definition ADDRESS_SPACE_ID_INVALID : Z := u32 (-1).

Definition STATUS_SUCCESS : Z := 0.
Definition STATUS_INVALID_DATA : Z := -28.
Definition STATUS_INSUFFICIENT_MEMORY : Z := -49.
Definition STATUS_RESOURCE_CONFLICT : Z := -10.

Definition SYSTEM_CALL_VECTOR_RECEIVE_MESSAGE : Z := 80.
Definition SYSTEM_CALL_VECTOR_SEND_AND_RECEIVE_MESSAGE : Z := 81.
Definition SYSTEM_CALL_VECTOR_SEND_MESSAGE : Z := 82.
Definition SYSTEM_CALL_VECTOR_DELETE_MESSAGE : Z := 83.
Definition SYSTEM_CALL_VECTOR_CREATE_ADDRESS_SPACE : Z := 91.
Definition SYSTEM_CALL_VECTOR_EXPAND_ADDRESS_SPACE : Z := 93.
Definition SYSTEM_CALL_VECTOR_CREATE_THREAD : Z := 100.
Definition SYSTEM_CALL_VECTOR_DELETE_THREAD : Z := 101.
Definition SYSTEM_CALL_VECTOR_MAP_DEVICE : Z := 110.
Definition SYSTEM_CALL_VECTOR_UNMAP_DEVICE : Z := 111.
Definition SYSTEM_CALL_VECTOR_READ_KERNEL_STATS : Z := 120.

Definition DEVICE_TYPE_INTERRUPT : Z := 0.
Definition DEVICE_TYPE_MEMORY : Z := 1.
Definition DEVICE_TYPE_IO_PORT : Z := 2.

Definition PAGE_SIZE : Z := 4096.
Definition PAGE_ALIGN (p : Z) : Z := Z.land (u32 (p + PAGE_SIZE - 1)) (u32 (Z.lnot (PAGE_SIZE - 1))).
Definition PAGE_BASE (v : Z) : Z := Z.land v (u32 (Z.lnot (PAGE_SIZE - 1))).
Definition PAGE_OFFSET (v : Z) : Z := Z.land v (PAGE_SIZE - 1).

Section Calls.
Context `{World}.

(** The common shape of a system call: fill in the descriptor, trap. *)
Definition system_call (vector : Z) (ds : list Z) : D syscall_data :=
  u ← indeterminate; call_kernel vector (syscall_args u ds).

(** ** message.c *)

Definition initialize_message : message :=
  mkMessage THREAD_ID_NULL MESSAGE_TYPE_NULL MESSAGE_ID_ATOMIC 0 0 0.

Definition initialize_reply (m : message) : message :=
  mkMessage (u_id m) MESSAGE_TYPE_NULL (msg_id m) 0 0 0.

(** ** Messages: send_message.c, receive_message.c, delete_message.c *)

Definition message_fields (m : message) : list Z :=
  [u_id m; msg_type m; msg_id m; msg_data m; msg_data_size m; destination_address m].

Definition send_message (m : option message) : D Z :=
  match m with
  | Some m =>
      r ← system_call SYSTEM_CALL_VECTOR_SEND_MESSAGE (message_fields m);
      mret (status r)
  | None => mret STATUS_INVALID_DATA
  end.

(** The message a reply of the kernel describes. *)
Definition received (r : syscall_data) : message :=
  mkMessage (data0 r) (data1 r) (data2 r) (data3 r) (data4 r) 0.

(** [reply] is the previous content of the reply descriptor ([None]: no
    descriptor); the result is the status and its new content. *)
Definition send_and_receive_message (request reply : option message) : D (Z * option message) :=
  match request, reply with
  | Some m, Some _ =>
      r ← system_call SYSTEM_CALL_VECTOR_SEND_AND_RECEIVE_MESSAGE (message_fields m);
      mret (status r, Some (received r))
  | _, _ => mret (STATUS_INVALID_DATA, reply)
  end.

Definition WAIT_FOR_MESSAGE : Z := 1.
Definition POLL_FOR_MESSAGE : Z := 0.

Definition receive_message (m : option message) (wait_for_message : Z)
    : D (Z * option message) :=
  match m with
  | Some _ =>
      r ← system_call SYSTEM_CALL_VECTOR_RECEIVE_MESSAGE [wait_for_message];
      mret (status r, Some (received r))
  | None => mret (STATUS_INVALID_DATA, None)
  end.

Definition delete_message (m : option message) : D Z :=
  match m with
  | None => mret STATUS_INVALID_DATA
  | Some m =>
      if msg_data_size m =? 0 then mret STATUS_SUCCESS
      else
        r ← system_call SYSTEM_CALL_VECTOR_DELETE_MESSAGE [msg_data m; msg_data_size m];
        mret (status r)
  end.

Definition defer_interrupt (thread interrupt_data : Z) : D Z :=
  send_message (Some (mkMessage thread MESSAGE_TYPE_DEFER_INTERRUPT MESSAGE_ID_ATOMIC
    interrupt_data 0 0)).

(** The place inside the new buffer that has the page offset of the
    destination. *)
Definition aligned_data (buffer destination : Z) : Z :=
  let buffer_offset := PAGE_OFFSET buffer in
  let destination_offset := PAGE_OFFSET destination in
  if buffer_offset <? destination_offset then u32 (buffer + (destination_offset - buffer_offset))
  else if destination_offset <? buffer_offset then u32 (PAGE_ALIGN buffer + destination_offset)
  else buffer.

(** The value of an assertion that a program checks. *)
Definition dassert (b : bool) : D unit := lift (cassert b).

Definition send_misaligned_message (misaligned_message : option message) : D Z :=
  match misaligned_message with
  | None => mret STATUS_INVALID_DATA
  | Some m =>
      if (destination_address m =? 0) ||
         (PAGE_OFFSET (msg_data m) =? PAGE_OFFSET (destination_address m))
      then send_message (Some m)
      else
        buffer ← malloc (u32 (msg_data_size m + PAGE_SIZE - 1));
        if buffer =? 0 then mret STATUS_INSUFFICIENT_MEMORY
        else
          let data := aligned_data buffer (destination_address m) in
          dassert (data - buffer <? PAGE_SIZE);;
          dassert (PAGE_OFFSET data =? PAGE_OFFSET (destination_address m));;
          lift (memcpy data (msg_data m) (msg_data_size m));;
          st ← send_message (Some (mkMessage (u_id m) (msg_type m) (msg_id m) data
                 (msg_data_size m) (destination_address m)));
          free buffer;;
          mret st
  end.

(** ** Threads, address spaces and devices *)

Definition create_thread (address_space entry_point stack_base capability_mask : Z) : D Z :=
  r ← system_call SYSTEM_CALL_VECTOR_CREATE_THREAD [address_space; entry_point; stack_base; capability_mask];
  mret (if status r =? STATUS_SUCCESS then data0 r else THREAD_ID_INVALID).

(** [data] of the start message is left uninitialised. *)
Definition start_thread (thread : Z) : D Z :=
  u ← indeterminate;
  send_message (Some (mkMessage thread MESSAGE_TYPE_START_USER_THREAD MESSAGE_ID_ATOMIC u 0 0)).

Definition delete_thread (victim_id : Z) : D Z :=
  r ← system_call SYSTEM_CALL_VECTOR_DELETE_THREAD [victim_id];
  mret (status r).

Definition create_address_space : D Z :=
  r ← system_call SYSTEM_CALL_VECTOR_CREATE_ADDRESS_SPACE [];
  mret (if status r =? STATUS_SUCCESS then data0 r else ADDRESS_SPACE_ID_INVALID).

Definition expand_address_space (address_space address sz flags : Z) : D Z :=
  r ← system_call SYSTEM_CALL_VECTOR_EXPAND_ADDRESS_SPACE [address_space; address; sz; flags];
  mret (status r).

(** [mapped_address] is a pointer, possibly [NULL]. *)
Definition map_device (address device_type device_size flags mapped_address : Z) : D Z :=
  r ← system_call SYSTEM_CALL_VECTOR_MAP_DEVICE [address; device_type; device_size; flags];
  (if (status r =? STATUS_SUCCESS) && negb (mapped_address =? 0)
   then lift (store32 mapped_address (data0 r)) else mret tt);;
  mret (status r).

Definition unmap_device (mapped_address device_type device_size : Z) : D Z :=
  r ← system_call SYSTEM_CALL_VECTOR_UNMAP_DEVICE [mapped_address; device_type; device_size];
  mret (status r).

Definition read_kernel_stats (kernel_stats : Z) : D Z :=
  if kernel_stats =? 0 then mret STATUS_INVALID_DATA
  else
    r ← system_call SYSTEM_CALL_VECTOR_READ_KERNEL_STATS [kernel_stats];
    mret (status r).

(** ** Interrupt handler threads *)

(** The locals of [interrupt_handler_loop]. *)
Record handler_state := mkHandlerState {
  handler : Z; handler_context : Z; irq : Z; parent_thread : Z }.

Definition handler_start : handler_state := mkHandlerState 0 0 (u32 (-1)) THREAD_ID_INVALID.

(** The routine behind a handler address, applied to its two arguments. *)
Context (invoke : Z -> Z -> Z -> D unit).

(** Case [MESSAGE_TYPE_HANDLE_INTERRUPT]. [ack.data] is never assigned. *)
Definition on_handle_interrupt (st : handler_state) (m : message) : D handler_state :=
  dassert (negb (handler st =? 0));;
  dassert (negb (parent_thread st =? THREAD_ID_INVALID));;
  invoke (handler st) (parent_thread st) (handler_context st);;
  u ← indeterminate;
  send_message (Some (mkMessage (u_id m) MESSAGE_TYPE_ACKNOWLEDGE_INTERRUPT (msg_id m) u 0 0));;
  mret st.

(** Case [MESSAGE_TYPE_ENABLE_INTERRUPT_HANDLER]: the payload is an
    [interrupt_handler_context_s], three words. *)
Definition on_enable_handler (st : handler_state) (m : message) : D handler_state :=
  if parent_thread st =? THREAD_ID_INVALID then
    dassert (12 <=? msg_data_size m);;
    h ← lift (load32 (msg_data m));
    c ← lift (load32 (msg_data m + 4));
    i ← lift (load32 (msg_data m + 8));
    let st := mkHandlerState h c i (u_id m) in
    dassert (negb (handler st =? 0));;
    if handler st =? 0 then mret st
    else
      map_device (irq st) DEVICE_TYPE_INTERRUPT 0 0 NULL;;
      send_message (Some (initialize_reply m));;
      mret st
  else mret st.

(** Case [MESSAGE_TYPE_DISABLE_INTERRUPT_HANDLER]. *)
Definition on_disable_handler (st : handler_state) (m : message) : D handler_state :=
  (if u_id m =? parent_thread st
   then unmap_device (irq st) DEVICE_TYPE_INTERRUPT 0;; mret tt
   else mret tt);;
  mret st.

Definition interrupt_dispatch (st : handler_state) (m : message) : D handler_state :=
  if msg_type m =? MESSAGE_TYPE_HANDLE_INTERRUPT then on_handle_interrupt st m
  else if msg_type m =? MESSAGE_TYPE_ENABLE_INTERRUPT_HANDLER then on_enable_handler st m
  else if msg_type m =? MESSAGE_TYPE_DISABLE_INTERRUPT_HANDLER then on_disable_handler st m
  else mret st.

(** One iteration of the message loop, [buffer] the message descriptor. *)
Definition interrupt_handler_step (buffer : message) (st : handler_state)
    : D handler_state :=
  '(s, om) ← receive_message (Some buffer) WAIT_FOR_MESSAGE;
  match om with
  | Some m =>
      if negb (s =? STATUS_SUCCESS) then mret st
      else
        st ← interrupt_dispatch st m;
        delete_message (Some m);;
        mret st
  | None => mret st
  end.

(** The endless loop, observed for [n] iterations. *)
Fixpoint interrupt_handler_loop (n : nat) (st : handler_state) : D handler_state :=
  match n with
  | O => mret st
  | S n' =>
      st ← interrupt_handler_step initialize_message st;
      interrupt_handler_loop n' st
  end.

Definition CAPABILITY_ALL : Z := u32 (-1).
Definition CAPABILITY_INHERIT_PARENT : Z := CAPABILITY_ALL.

(** The enable handshake with the new thread; [context] is the address of the
    local context structure. *)
Definition enable_handler (context irq handler handler_context thread_id : Z) : D Z :=
  st ← start_thread thread_id;
  if negb (st =? STATUS_SUCCESS) then mret THREAD_ID_INVALID
  else
    lift (store32 context handler;; store32 (context + 4) handler_context;;
          store32 (context + 8) irq;; mret tt);;
    '(st, reply) ← send_and_receive_message
      (Some (mkMessage thread_id MESSAGE_TYPE_ENABLE_INTERRUPT_HANDLER MESSAGE_ID_ATOMIC
         context 12 0)) (Some initialize_message);
    if st =? STATUS_SUCCESS then delete_message reply;; mret thread_id
    else mret THREAD_ID_INVALID.

(** [loop_entry] is the address of [interrupt_handler_loop], [address_space_id]
    the field of the environment block that [find_environment_block] returns. *)
Definition register_interrupt_handler (loop_entry address_space_id context : Z)
    (irq handler handler_context : Z) : D Z :=
  stack ← malloc 4096;
  if stack =? 0 then mret THREAD_ID_INVALID
  else
    let stack_base := Z.land (u32 (stack + 4096)) (u32 (Z.lnot 3)) in
    thread_id ← create_thread address_space_id loop_entry stack_base CAPABILITY_INHERIT_PARENT;
    thread_id ←
      (if thread_id =? THREAD_ID_INVALID then mret thread_id
       else enable_handler context irq handler handler_context thread_id);
    (if thread_id =? THREAD_ID_INVALID then free stack else mret tt);;
    mret thread_id.

(** The message id comes from [rand]: the seed is threaded. *)
Definition unregister_interrupt_handler (random_seed interrupt_vector handler_thread : Z)
    : D (Z * Z) :=
  let seed := rand random_seed in
  '(st, response) ← send_and_receive_message
    (Some (mkMessage handler_thread MESSAGE_TYPE_DISABLE_INTERRUPT_HANDLER seed
       interrupt_vector 0 0)) (Some initialize_message);
  (if st =? STATUS_SUCCESS then delete_message response else mret 0);;
  mret (st, seed).

End Calls.
