(* ===== verification/LibdxThms.v ===== *)
(** * libdx: theorems on messages and interrupt-handler threads *)

From S2P Require Import Prelude CMem CString CStringMem Tar World Libdx.

(** ** Page arithmetic *)

Lemma page_offset_mod v : PAGE_OFFSET v = v mod 4096.
Proof. unfold PAGE_OFFSET, PAGE_SIZE. change (4096 - 1) with (Z.ones 12). by rewrite Z.land_ones. Qed.

Lemma page_mask v : is_u32 v -> Z.land v (u32 (Z.lnot (PAGE_SIZE - 1))) = v - v mod 4096.
Proof.
  intros Hv. unfold PAGE_SIZE, u32. change (4096 - 1) with (Z.ones 12).
  change 4294967296 with (2 ^ 32). rewrite <- Z.land_ones by lia.
  rewrite (Z.land_comm (Z.lnot _)), Z.land_assoc, Z.land_ones by lia.
  rewrite Z.mod_small by (unfold is_u32 in Hv; lia).
  rewrite <- Z.ldiff_land, Z.ldiff_ones_r, Z.shiftr_div_pow2, Z.shiftl_mul_pow2 by lia.
  change (2 ^ 12) with 4096. zlia.
Qed.

Lemma page_align_up p : 0 <= p -> p + 4096 <= 4294967296 -> p mod 4096 <> 0 ->
  PAGE_ALIGN p = p + 4096 - p mod 4096.
Proof.
  intros ? ? ?. unfold PAGE_ALIGN. rewrite page_mask by (unfold is_u32, u32; zlia).
  unfold PAGE_SIZE, u32. zlia.
Qed.

(** The place chosen in a block that has [PAGE_SIZE - 1] spare bytes. *)
Lemma aligned_data_spec p dest n :
  0 < p -> 0 < n -> p + (n + 4095) <= 4294967296 -> is_u32 dest ->
  p <= aligned_data p dest < p + 4096 /\ aligned_data p dest mod 4096 = dest mod 4096.
Proof.
  intros Hp Hn Hend Hd. unfold aligned_data. rewrite !page_offset_mod.
  destruct (Z.ltb_spec (p mod 4096) (dest mod 4096)); [unfold u32; zlia|].
  destruct (Z.ltb_spec (dest mod 4096) (p mod 4096)); [|lia].
  rewrite page_align_up by zlia. unfold u32. zlia.
Qed.

Lemma read_bytes_at m a l : bytes_at m a l -> read_bytes m a (length l) = l.
Proof.
  revert a; induction l as [|b l IH]; intros a Hb; [done|].
  apply bytes_at_cons in Hb as [H0 Hb]. cbn. by rewrite H0, IH.
Qed.

(** What a program exchanges: messages with their payloads. *)
Inductive transfer :=
  | Received (m : message) (p : list Z)
  | Sent (m : message) (p : list Z).

Lemma length_read_bytes m n : forall a, length (read_bytes m a n) = n.
Proof. induction n as [|n IH]; intros a; [done|]. cbn. by rewrite IH. Qed.

Lemma read_bytes_take m a l n : bytes_at m a l -> (n <= length l)%nat -> read_bytes m a n = take n l.
Proof.
  revert a l; induction n as [|n IH]; intros a [|b l] Hb Hn; cbn in *; try lia; [done..|].
  apply bytes_at_cons in Hb as [Hb0 Hb]. rewrite Hb0. cbn. f_equal. apply IH; [done|lia].
Qed.

Section Theorems.
Context `{World}.

(** A successful [malloc] on machine [w]: the block [p, p + n) is new, mapped
    and inside the address space; what was mapped before is unchanged. *)
Definition fresh_block (w : machine) (n p : Z) (m1 : mem) : Prop :=
  heap_block (Malloc n (memory w) :: trace w) = (p, m1) /\
  0 < p /\ p + n <= 4294967296 /\ mapped m1 p n /\
  (forall a, is_Some (memory w !! a) -> ~ (p <= a < p + n)) /\
  (forall a, is_Some (memory w !! a) -> m1 !! a = memory w !! a).

(** The messages a trace exchanged, latest first. *)
Fixpoint transfers (h : history) : list transfer :=
  match h with
  | [] => []
  | e :: h' =>
      match e with
      | Syscall v a _ =>
          let '(r, m') := kernel_reply h in
          if v =? SYSTEM_CALL_VECTOR_SEND_MESSAGE
          then Sent (mkMessage (data0 a) (data1 a) (data2 a) (data3 a) (data4 a) (data5 a)) (payload e)
                 :: transfers h'
          else if (v =? SYSTEM_CALL_VECTOR_RECEIVE_MESSAGE) && (status r =? STATUS_SUCCESS)
          then Received (received r) (read_bytes m' (data3 r) (Z.to_nat (data4 r))) :: transfers h'
          else transfers h'
      | _ => transfers h'
      end
  end.

Lemma dassert_run b w : b = true -> dassert b w = Ret (tt, w).
Proof. intros ->. by destruct w. Qed.

Lemma system_call_run v ds w : exists u r w',
  system_call v ds w = Ret (r, w') /\
  trace w' = Syscall v (syscall_args u ds) (memory w) :: trace w /\
  kernel_reply (trace w') = (r, memory w').
Proof.
  set (u := uninitialized (trace w)).
  destruct (kernel_reply (Syscall v (syscall_args u ds) (memory w) :: trace w)) as [r m'] eqn:E.
  exists u, r, (Machine m' (Syscall v (syscall_args u ds) (memory w) :: trace w)).
  split; [|done]. unfold system_call, mbind, D_bind, indeterminate, call_kernel. fold u. by rewrite E.
Qed.

Lemma send_message_run m w : exists u r w',
  send_message (Some m) w = Ret (status r, w') /\
  trace w' = Syscall SYSTEM_CALL_VECTOR_SEND_MESSAGE (syscall_args u (message_fields m))
    (memory w) :: trace w /\
  kernel_reply (trace w') = (r, memory w').
Proof.
  destruct (system_call_run SYSTEM_CALL_VECTOR_SEND_MESSAGE (message_fields m) w)
    as (u & r & w' & E & Ht & Hr).
  exists u, r, w'. split; [|done]. unfold send_message. by erewrite drun_bind by exact E.
Qed.

(** When the payload of a message and its destination address have
    different page offsets, [send_misaligned_message] copies the payload into
    the block it allocates and sends that: the copy lies inside the block, has
    the page offset of the destination and the bytes of the original, every
    other field is the caller's, neither assertion fails, and the block is
    freed after the send. *)
Theorem send_misaligned_realigns w m l p m1 :
  is_u32 (destination_address m) -> destination_address m <> 0 ->
  PAGE_OFFSET (msg_data m) <> PAGE_OFFSET (destination_address m) ->
  0 < msg_data m -> 0 < msg_data_size m -> msg_data_size m + 4095 < 4294967296 ->
  msg_data_size m = Z.of_nat (length l) -> Forall is_u8 l -> bytes_at (memory w) (msg_data m) l ->
  fresh_block w (msg_data_size m + 4095) p m1 ->
  exists u data m2 m3 r w',
    let sent := Syscall SYSTEM_CALL_VECTOR_SEND_MESSAGE
      (syscall_args u [u_id m; msg_type m; msg_id m; data; msg_data_size m;
        destination_address m]) m2 in
    send_misaligned_message (Some m) w = Ret (status r, w') /\
    trace w' = [Free p m3; sent; Malloc (msg_data_size m + 4095) (memory w)] ++ trace w /\
    payload sent = l /\ p <= data /\ data + msg_data_size m <= p + (msg_data_size m + 4095) /\
    PAGE_OFFSET data = PAGE_OFFSET (destination_address m).
Proof.
  intros Hdst Hd0 Hoff Hs Hn Hnb Hlen Hu8 Hb (Hheap & Hp & Hend & Hmap & Hnew & Hold).
  destruct (aligned_data_spec p (destination_address m) (msg_data_size m)) as [Hin Hmod];
    [done..|].
  set (data := aligned_data p (destination_address m)) in *.
  set (m2 := write_bytes m1 data l).
  set (w2 := Machine m2 (Malloc (msg_data_size m + 4095) (memory w) :: trace w)).
  destruct (send_message_run (mkMessage (u_id m) (msg_type m) (msg_id m) data (msg_data_size m)
    (destination_address m)) w2) as (u & r & w3 & Esend & Htr & Hrep).
  assert (Hsrc : bytes_at m1 (msg_data m) l).
  { intros i b Hi. rewrite Hold; [by apply Hb|]. by rewrite (Hb _ _ Hi). }
  assert (Hdis : data + msg_data_size m <= msg_data m \/ msg_data m + msg_data_size m <= data).
  { destruct (decide (data + msg_data_size m <= msg_data m)); [by left|].
    destruct (decide (msg_data m + msg_data_size m <= data)); [by right|].
    exfalso. apply (Hnew (Z.max data (msg_data m))); [|lia].
    apply (bytes_at_mapped _ _ _ Hb). lia. }
  exists u, data, m2, (memory w3), r, (Machine (heap_free (Free p (memory w3) :: trace w3))
    (Free p (memory w3) :: trace w3)).
  split.
  - unfold send_misaligned_message. rewrite (proj2 (Z.eqb_neq _ _) Hd0), (proj2 (Z.eqb_neq _ _) Hoff).
    cbn [orb]. replace (u32 (msg_data_size m + PAGE_SIZE - 1)) with (msg_data_size m + 4095)
      by (unfold u32, PAGE_SIZE; zlia).
    erewrite drun_bind by (unfold malloc; rewrite Hheap; reflexivity).
    rewrite (proj2 (Z.eqb_neq p 0)) by lia. fold data. cbv zeta. rewrite !page_offset_mod.
    erewrite drun_bind by (apply drun_lift, run_assert, Z.ltb_lt; unfold PAGE_SIZE; lia).
    erewrite drun_bind by (apply drun_lift, run_assert, Z.eqb_eq; done).
    erewrite drun_bind by (apply drun_lift, memcpy_run with (bs := l); try done; [lia| |lia];
      eapply mapped_sub; [exact Hmap|lia|lia]).
    fold m2 w2. by erewrite drun_bind by exact Esend.
  - rewrite !page_offset_mod. cbn [trace app]. rewrite Htr. repeat split; [|lia|lia|done].
    cbn. rewrite Hlen, Nat2Z.id. apply read_bytes_at. unfold m2. apply bytes_at_write.
Qed.

(** ** What a trace says about interrupts *)

(** The interrupts received: source and id of each [HANDLE_INTERRUPT] message
    that a receive delivered, latest first. *)
Fixpoint handled (h : history) : list (Z * Z) :=
  match h with
  | [] => []
  | e :: h' =>
      match e with
      | Syscall v _ _ =>
          let r := fst (kernel_reply h) in
          if (v =? SYSTEM_CALL_VECTOR_RECEIVE_MESSAGE) && (status r =? STATUS_SUCCESS)
             && (data1 r =? MESSAGE_TYPE_HANDLE_INTERRUPT)
          then (data0 r, data2 r) :: handled h' else handled h'
      | _ => handled h'
      end
  end.

(** The interrupts acknowledged: destination and id of each message of type
    [ACKNOWLEDGE_INTERRUPT] sent, latest first. *)
Fixpoint acked (h : history) : list (Z * Z) :=
  match h with
  | [] => []
  | e :: h' =>
      match e with
      | Syscall v a _ =>
          if (v =? SYSTEM_CALL_VECTOR_SEND_MESSAGE)
             && (data1 a =? MESSAGE_TYPE_ACKNOWLEDGE_INTERRUPT)
          then (data0 a, data2 a) :: acked h' else acked h'
      | _ => acked h'
      end
  end.

(** Neither receives nor acknowledges an interrupt. *)
Definition quiet (w w' : machine) : Prop :=
  handled (trace w') = handled (trace w) /\ acked (trace w') = acked (trace w).

#[global] Instance quiet_preorder : PreOrder quiet.
Proof. split; [by split|]. intros x y z [? ?] [? ?]. split; congruence. Qed.

(** What the loop asks of a device-specific handler: it returns, and it leaves
    receiving and acknowledging to the loop. *)
Class QuietHandler (invoke : Z -> Z -> Z -> D unit) : Prop :=
  invoke_quiet : forall h p c w, exists w', invoke h p c w = Ret (tt, w') /\ quiet w w'.

Lemma quiet_syscall v ds w u m' :
  v <> SYSTEM_CALL_VECTOR_RECEIVE_MESSAGE ->
  (v = SYSTEM_CALL_VECTOR_SEND_MESSAGE -> default u (ds !! 1%nat) <> MESSAGE_TYPE_ACKNOWLEDGE_INTERRUPT) ->
  quiet w (Machine m' (Syscall v (syscall_args u ds) (memory w) :: trace w)).
Proof.
  intros Hv Hs. split; cbn -[kernel_reply].
  - by rewrite (proj2 (Z.eqb_neq _ _) Hv).
  - destruct (Z.eqb_spec v SYSTEM_CALL_VECTOR_SEND_MESSAGE) as [->|]; [|done].
    by rewrite (proj2 (Z.eqb_neq _ _) (Hs eq_refl)).
Qed.

Lemma system_call_quiet v ds w :
  v <> SYSTEM_CALL_VECTOR_RECEIVE_MESSAGE -> v <> SYSTEM_CALL_VECTOR_SEND_MESSAGE ->
  exists r w', system_call v ds w = Ret (r, w') /\ quiet w w'.
Proof.
  intros Hv Hs. destruct (system_call_run v ds w) as (u & r & [m' h'] & E & Ht & _).
  exists r, (Machine m' h'). split; [done|]. cbn in Ht. subst h'. by apply quiet_syscall.
Qed.

Lemma send_message_quiet m w : msg_type m <> MESSAGE_TYPE_ACKNOWLEDGE_INTERRUPT ->
  exists s w', send_message (Some m) w = Ret (s, w') /\ quiet w w'.
Proof.
  intros Hm. destruct (send_message_run m w) as (u & r & [m' h'] & E & Ht & _).
  exists (status r), (Machine m' h'). split; [done|]. cbn in Ht. subst h'. by apply quiet_syscall.
Qed.

Lemma delete_message_quiet m w :
  exists s w', delete_message (Some m) w = Ret (s, w') /\ quiet w w'.
Proof.
  unfold delete_message. destruct (msg_data_size m =? 0); [by exists STATUS_SUCCESS, w|].
  destruct (system_call_quiet SYSTEM_CALL_VECTOR_DELETE_MESSAGE [msg_data m; msg_data_size m] w)
    as (r & w' & E & Hq); [done..|].
  exists (status r), w'. split; [|done]. by erewrite drun_bind by exact E.
Qed.

Lemma delete_message_trace m w :
  exists s w' es, delete_message (Some m) w = Ret (s, w') /\ trace w' = es ++ trace w.
Proof.
  unfold delete_message. destruct (msg_data_size m =? 0); [by exists STATUS_SUCCESS, w, []|].
  destruct (system_call_run SYSTEM_CALL_VECTOR_DELETE_MESSAGE [msg_data m; msg_data_size m] w)
    as (u & r & w' & E & Ht & _).
  eexists _, w', [_]. split; [by erewrite drun_bind by exact E|exact Ht].
Qed.

Lemma unmap_device_quiet a t n w :
  exists s w', unmap_device a t n w = Ret (s, w') /\ quiet w w'.
Proof.
  destruct (system_call_quiet SYSTEM_CALL_VECTOR_UNMAP_DEVICE [a; t; n] w)
    as (r & w' & E & Hq); [done..|].
  exists (status r), w'. split; [|done]. unfold unmap_device. by erewrite drun_bind by exact E.
Qed.

Lemma receive_message_run b f w : exists u r w',
  receive_message (Some b) f w = Ret ((status r, Some (received r)), w') /\
  trace w' = Syscall SYSTEM_CALL_VECTOR_RECEIVE_MESSAGE (syscall_args u [f]) (memory w) :: trace w /\
  kernel_reply (trace w') = (r, memory w').
Proof.
  destruct (system_call_run SYSTEM_CALL_VECTOR_RECEIVE_MESSAGE [f] w) as (u & r & w' & E & Ht & Hr).
  exists u, r, w'. split; [|done]. unfold receive_message. by erewrite drun_bind by exact E.
Qed.

Section Loop.
Context (invoke : Z -> Z -> Z -> D unit) `{!QuietHandler invoke}.

(** The handler thread has accepted its parent. *)
Definition registered (st : handler_state) : Prop :=
  handler st <> 0 /\ parent_thread st <> THREAD_ID_INVALID.

Lemma on_handle_run st m w : registered st -> exists w',
  on_handle_interrupt invoke st m w = Ret (st, w') /\
  handled (trace w') = handled (trace w) /\
  acked (trace w') = (u_id m, msg_id m) :: acked (trace w).
Proof.
  intros [Hh Hp]. unfold on_handle_interrupt, dassert. destruct w as [m0 h0].
  do 2 erewrite drun_bind by (apply drun_lift, run_assert, negb_true_iff, Z.eqb_neq; done).
  destruct (invoke_quiet (handler st) (parent_thread st) (handler_context st) (Machine m0 h0))
    as (w1 & E1 & Hq1 & Hq2).
  erewrite drun_bind by exact E1. erewrite drun_bind by reflexivity.
  edestruct send_message_run as (u & r & [m2 h2] & E2 & Ht & _).
  erewrite drun_bind by exact E2. cbn in Ht. subst h2.
  eexists. split; [reflexivity|]. cbn in *. by rewrite <- Hq1, <- Hq2.
Qed.

Lemma interrupt_dispatch_run st m w : registered st -> exists w',
  interrupt_dispatch invoke st m w = Ret (st, w') /\
  handled (trace w') = handled (trace w) /\
  acked (trace w') = (if msg_type m =? MESSAGE_TYPE_HANDLE_INTERRUPT
                      then [(u_id m, msg_id m)] else []) ++ acked (trace w).
Proof.
  intros Hreg. unfold interrupt_dispatch.
  destruct (msg_type m =? MESSAGE_TYPE_HANDLE_INTERRUPT); [by apply on_handle_run|].
  destruct (msg_type m =? MESSAGE_TYPE_ENABLE_INTERRUPT_HANDLER).
  { unfold on_enable_handler. rewrite (proj2 (Z.eqb_neq _ _) (proj2 Hreg)). by exists w. }
  destruct (msg_type m =? MESSAGE_TYPE_DISABLE_INTERRUPT_HANDLER); [|by exists w].
  unfold on_disable_handler. destruct (u_id m =? parent_thread st); [|by exists w].
  destruct (unmap_device_quiet (irq st) DEVICE_TYPE_INTERRUPT 0 w) as (s & w' & E & Hq).
  exists w'. split; [|exact Hq]. erewrite drun_bind; [reflexivity|]. by erewrite drun_bind by exact E.
Qed.

Lemma interrupt_step_run b st w : registered st -> acked (trace w) = handled (trace w) ->
  exists w', interrupt_handler_step invoke b st w = Ret (st, w') /\
    acked (trace w') = handled (trace w').
Proof.
  intros Hreg Hinv. unfold interrupt_handler_step.
  destruct (receive_message_run b WAIT_FOR_MESSAGE w) as (u & r & w1 & E & Ht & Hr).
  erewrite drun_bind by exact E. cbn [received].
  destruct w1 as [m1 h1]. cbn in Ht, Hr. subst h1.
  destruct (Z.eqb_spec (status r) STATUS_SUCCESS) as [Hs|Hs].
  - destruct (interrupt_dispatch_run st (received r)
      (Machine m1 (Syscall SYSTEM_CALL_VECTOR_RECEIVE_MESSAGE
         (syscall_args u [WAIT_FOR_MESSAGE]) (memory w) :: trace w)) Hreg) as (w2 & E2 & Hh & Ha).
    cbn [negb]. erewrite drun_bind by exact E2.
    destruct (delete_message_quiet (received r) w2) as (s & w3 & E3 & Hq1 & Hq2).
    erewrite drun_bind by exact E3. exists w3. split; [done|].
    rewrite Hq1, Hq2, Hh, Ha. cbn -[kernel_reply STATUS_SUCCESS MESSAGE_TYPE_HANDLE_INTERRUPT].
    rewrite Hr, Hinv. cbn [fst]. rewrite Hs. cbn -[MESSAGE_TYPE_HANDLE_INTERRUPT].
    by destruct (data1 r =? MESSAGE_TYPE_HANDLE_INTERRUPT).
  - eexists. split; [reflexivity|]. cbn -[kernel_reply STATUS_SUCCESS].
    rewrite Hr, Hinv. cbn [fst]. by rewrite (proj2 (Z.eqb_neq _ _) Hs).
Qed.

(** C21. A handler thread that has accepted its parent never traps and never
    changes handler, IRQ or parent, whatever messages arrive (a second enable
    request included), and after any number of iterations the interrupts it
    has acknowledged are exactly the interrupts it has received, each once, in
    order, to the thread that took it. This holds across a
    DISABLE_INTERRUPT_HANDLER message too: it gives the line back, but, against
    the comments of the file, the thread does not exit or leave the loop. *)
Theorem interrupt_loop_acknowledges n st w :
  registered st -> acked (trace w) = handled (trace w) ->
  exists w', interrupt_handler_loop invoke n st w = Ret (st, w') /\
    acked (trace w') = handled (trace w').
Proof.
  intros Hreg. revert w. induction n as [|n IH]; intros w Hinv; [by exists w|].
  destruct (interrupt_step_run initialize_message st w Hreg Hinv) as (w1 & E & Hinv1).
  destruct (IH w1 Hinv1) as (w2 & E2 & Hinv2). exists w2. split; [|done].
  cbn [interrupt_handler_loop]. by erewrite drun_bind by exact E.
Qed.

End Loop.

(** ** The enable handshake *)

Lemma words_payload u v ds m a ws :
  data3 (syscall_args u ds) = a -> data4 (syscall_args u ds) = Z.of_nat (length (words_bytes ws)) ->
  bytes_at m a (words_bytes ws) -> payload (Syscall v (syscall_args u ds) m) = words_bytes ws.
Proof.
  intros Ha Hn Hb. unfold payload. rewrite Ha, Hn, Nat2Z.id. by apply read_bytes_at.
Qed.

(** The handler thread, on the first enable message. *)
Lemma on_enable_run hw src id a x y z :
  bytes_at (memory hw) a (words_bytes [x; y; z]) -> is_u32 x -> is_u32 y -> is_u32 z -> x <> 0 ->
  exists u1 u2 m1 m2 hw',
    on_enable_handler handler_start (mkMessage src MESSAGE_TYPE_ENABLE_INTERRUPT_HANDLER id a 12 0) hw
      = Ret (mkHandlerState x y z src, hw') /\
    trace hw' =
      [Syscall SYSTEM_CALL_VECTOR_SEND_MESSAGE
         (syscall_args u2 [src; MESSAGE_TYPE_NULL; id; 0; 0; 0]) m2;
       Syscall SYSTEM_CALL_VECTOR_MAP_DEVICE
         (syscall_args u1 [z; DEVICE_TYPE_INTERRUPT; 0; 0]) m1] ++ trace hw.
Proof.
  intros Hb Hx Hy Hz Hx0. destruct hw as [m h].
  destruct (load_three_words m a x y z Hb Hx Hy Hz) as (L1 & L2 & L3).
  unfold on_enable_handler, handler_start, dassert. cbn [parent_thread msg_data msg_data_size u_id].
  rewrite Z.eqb_refl.
  do 4 (erewrite drun_bind by (apply drun_lift; first [exact L1 | exact L2 | exact L3 | by apply run_assert])).
  cbv zeta. cbn [handler irq].
  erewrite drun_bind by (apply drun_lift, run_assert, negb_true_iff, Z.eqb_neq; done).
  rewrite (proj2 (Z.eqb_neq _ _) Hx0).
  destruct (system_call_run SYSTEM_CALL_VECTOR_MAP_DEVICE [z; DEVICE_TYPE_INTERRUPT; 0; 0]
    (Machine m h)) as (u1 & r1 & w1 & E1 & Ht1 & _).
  erewrite drun_bind; last first.
  { unfold map_device. erewrite drun_bind by exact E1. rewrite andb_comm. reflexivity. }
  destruct (send_message_run (initialize_reply (mkMessage src MESSAGE_TYPE_ENABLE_INTERRUPT_HANDLER
    id a 12 0)) w1) as (u2 & r2 & w2 & E2 & Ht2 & _).
  erewrite drun_bind by exact E2. exists u1, u2, m, (memory w1), w2. split; [done|].
  rewrite Ht2, Ht1. done.
Qed.

(** The parent: start the thread, send it the context. *)
Lemma enable_request w context irq handler handler_context thread_id :
  (forall a m h, kernel_reply (Syscall SYSTEM_CALL_VECTOR_SEND_MESSAGE a m :: h)
                 = (mkSyscall 32 0 0 0 0 0 0 STATUS_SUCCESS, m)) ->
  mapped (memory w) context 12 ->
  exists u m st w', let e := Syscall SYSTEM_CALL_VECTOR_SEND_AND_RECEIVE_MESSAGE (syscall_args u
      [thread_id; MESSAGE_TYPE_ENABLE_INTERRUPT_HANDLER; MESSAGE_ID_ATOMIC; context; 12; 0]) m in
    enable_handler context irq handler handler_context thread_id w = Ret (st, w') /\
    In e (trace w') /\ payload e = words_bytes [handler; handler_context; irq].
Proof.
  intros Hk Hm. unfold enable_handler, start_thread.
  destruct (send_message_run (mkMessage thread_id MESSAGE_TYPE_START_USER_THREAD MESSAGE_ID_ATOMIC
    (uninitialized (trace w)) 0 0) w) as (u0 & r0 & [m0 h0] & E0 & Ht0 & Hr0).
  cbn in Ht0, Hr0. rewrite Ht0, Hk in Hr0. simplify_eq.
  erewrite drun_bind; last first.
  { erewrite drun_bind by reflexivity. exact E0. }
  cbn [status negb Z.eqb STATUS_SUCCESS].
  erewrite drun_bind by (apply drun_lift; rewrite run_three_words by done; reflexivity).
  set (m1 := write_bytes (memory w) context _). set (h1 := _ :: trace w).
  destruct (system_call_run SYSTEM_CALL_VECTOR_SEND_AND_RECEIVE_MESSAGE
    [thread_id; MESSAGE_TYPE_ENABLE_INTERRUPT_HANDLER; MESSAGE_ID_ATOMIC; context; 12; 0]
    (Machine m1 h1)) as (u & r & w2 & E2 & Ht2 & _).
  erewrite drun_bind; last first.
  { unfold send_and_receive_message, message_fields. erewrite drun_bind by exact E2. reflexivity. }
  cbv beta iota.
  assert (Hpay : bytes_at m1 context (words_bytes [handler; handler_context; irq]))
    by apply bytes_at_write.
  destruct (status r =? STATUS_SUCCESS).
  - destruct (delete_message_trace (received r) w2) as (s & w3 & es & E3 & Ht3).
    exists u, m1, thread_id, w3. erewrite drun_bind by exact E3. split; [done|].
    split; [|by eapply words_payload]. rewrite Ht3, Ht2. apply in_or_app. right. by left.
  - exists u, m1, THREAD_ID_INVALID, w2. split; [done|].
    split; [rewrite Ht2; by left|by eapply words_payload].
Qed.

(** The registration handshake: the enable request that
    [register_interrupt_handler] sends carries the handler, its context and the
    IRQ as its twelve-byte payload, and a handler thread that receives these
    bytes, at whatever address, becomes registered with exactly that handler,
    context and IRQ and with the sender as parent; it claims that IRQ line and
    answers the sender with the id of the request. *)
Theorem enable_handshake w context irq handler handler_context thread_id :
  (forall a m h, kernel_reply (Syscall SYSTEM_CALL_VECTOR_SEND_MESSAGE a m :: h)
                 = (mkSyscall 32 0 0 0 0 0 0 STATUS_SUCCESS, m)) ->
  mapped (memory w) context 12 -> is_u32 handler -> is_u32 handler_context -> is_u32 irq ->
  handler <> 0 ->
  exists u m e st w', e = Syscall SYSTEM_CALL_VECTOR_SEND_AND_RECEIVE_MESSAGE (syscall_args u
      [thread_id; MESSAGE_TYPE_ENABLE_INTERRUPT_HANDLER; MESSAGE_ID_ATOMIC; context; 12; 0]) m /\
    enable_handler context irq handler handler_context thread_id w = Ret (st, w') /\
    In e (trace w') /\
    forall hw src id a, bytes_at (memory hw) a (payload e) ->
    exists u1 u2 m1 m2 hw',
      on_enable_handler handler_start
        (mkMessage src MESSAGE_TYPE_ENABLE_INTERRUPT_HANDLER id a 12 0) hw
        = Ret (mkHandlerState handler handler_context irq src, hw') /\
      trace hw' =
        [Syscall SYSTEM_CALL_VECTOR_SEND_MESSAGE
           (syscall_args u2 [src; MESSAGE_TYPE_NULL; id; 0; 0; 0]) m2;
         Syscall SYSTEM_CALL_VECTOR_MAP_DEVICE
           (syscall_args u1 [irq; DEVICE_TYPE_INTERRUPT; 0; 0]) m1] ++ trace hw.
Proof.
  intros Hk Hm Hh Hc Hi Hh0.
  destruct (enable_request w context irq handler handler_context thread_id Hk Hm)
    as (u & m & st & w' & E & Hin & Hpay).
  exists u, m. eexists. exists st, w'. do 3 (split; [done|]).
  intros hw src id a Hb. rewrite Hpay in Hb. by apply on_enable_run.
Qed.

End Theorems.

(** ** Witnesses *)

(** A world for closed examples: the kernel answers every receive with an
    interrupt message from thread 7 and accepts everything else, the allocator
    returns the block at [p]. *)
Definition example_world (p : Z) : World := {|
  kernel_reply := fun h =>
    match h with
    | Syscall v a m :: _ =>
        (if v =? SYSTEM_CALL_VECTOR_RECEIVE_MESSAGE
         then mkSyscall 32 7 MESSAGE_TYPE_HANDLE_INTERRUPT (Z.of_nat (length h)) 0 0 0 STATUS_SUCCESS
         else mkSyscall 32 0 0 0 0 0 0 STATUS_SUCCESS, m)
    | _ => (mkSyscall 32 0 0 0 0 0 0 STATUS_SUCCESS, ∅)
    end;
  port_value := fun _ => 0;
  heap_block := fun h =>
    match h with
    | Malloc n m :: _ => (p, write_bytes m p (replicate (Z.to_nat n) 0))
    | _ => (0, ∅)
    end;
  heap_free := fun h => match h with Free _ m :: _ => m | _ => ∅ end;
  uninitialized := fun _ => 0 |}.

Lemma example_fresh p n w : 0 < p -> 0 <= n -> p + n <= 4294967296 ->
  (forall a, is_Some (memory w !! a) -> ~ (p <= a < p + n)) ->
  @fresh_block (example_world p) w n p (write_bytes (memory w) p (replicate (Z.to_nat n) 0)).
Proof.
  intros Hp Hn Hend Hfree. unfold fresh_block. cbn. do 3 (split; [done|]). split; [|split; [done|]].
  - intros a Ha. rewrite lookup_write_bytes, decide_True by (rewrite length_replicate; lia).
    apply lookup_lt_is_Some. rewrite length_replicate. lia.
  - intros a Ha. rewrite lookup_write_bytes, decide_False; [done|].
    rewrite length_replicate, Z2Nat.id by lia. by apply Hfree.
Qed.

Lemma send_misaligned_realigns_witness :
  let w := Machine (write_bytes ∅ 100 [1; 2; 3]) [] in
  let m := mkMessage 5 MESSAGE_TYPE_WRITE 9 100 3 8200 in
  exists u data m2 m3 r w',
    let sent := Syscall SYSTEM_CALL_VECTOR_SEND_MESSAGE
      (syscall_args u [5; MESSAGE_TYPE_WRITE; 9; data; 3; 8200]) m2 in
    @send_misaligned_message (example_world 20000) (Some m) w = Ret (status r, w') /\
    trace w' = [Free 20000 m3; sent; Malloc 4098 (memory w)] ++ trace w /\
    payload sent = [1; 2; 3] /\ 20000 <= data /\ data + 3 <= 20000 + 4098 /\
    PAGE_OFFSET data = PAGE_OFFSET 8200.
Proof.
  apply (@send_misaligned_realigns (example_world 20000)
    (Machine (write_bytes ∅ 100 [1; 2; 3]) []) (mkMessage 5 MESSAGE_TYPE_WRITE 9 100 3 8200)
    [1; 2; 3] 20000 (write_bytes (write_bytes ∅ 100 [1; 2; 3]) 20000 (replicate (Z.to_nat 4098) 0)));
    try by_eval.
  apply (example_fresh 20000 4098); [lia..|].
  cbn [memory]. intros a. rewrite lookup_write_bytes. cbn [length].
  case_decide; [lia|]. rewrite lookup_empty. by intros [? ?].
Defined.

#[local] Instance example_quiet : @QuietHandler (example_world 0) (fun _ _ _ => mret tt).
Proof. intros h p c w. exists w. by split. Qed.

Lemma interrupt_loop_acknowledges_witness :
  exists w', @interrupt_handler_loop (example_world 0) (fun _ _ _ => mret tt) 2
      (mkHandlerState 16 0 1 4) (Machine ∅ []) = Ret (mkHandlerState 16 0 1 4, w') /\
    acked (trace w') = @handled (example_world 0) (trace w').
Proof.
  apply (@interrupt_loop_acknowledges (example_world 0) (fun _ _ _ => mret tt) example_quiet 2
    (mkHandlerState 16 0 1 4) (Machine ∅ [])); [by split|reflexivity].
Defined.

Lemma enable_handshake_witness :
  let w := Machine (write_bytes ∅ 64 (replicate 12 0)) [] in
  exists u m e st w', e = Syscall SYSTEM_CALL_VECTOR_SEND_AND_RECEIVE_MESSAGE (syscall_args u
      [9; MESSAGE_TYPE_ENABLE_INTERRUPT_HANDLER; MESSAGE_ID_ATOMIC; 64; 12; 0]) m /\
    @enable_handler (example_world 0) 64 1 4096 8192 9 w = Ret (st, w') /\
    In e (trace w') /\
    forall hw src id a, bytes_at (memory hw) a (payload e) ->
    exists u1 u2 m1 m2 hw',
      @on_enable_handler (example_world 0) handler_start
        (mkMessage src MESSAGE_TYPE_ENABLE_INTERRUPT_HANDLER id a 12 0) hw
        = Ret (mkHandlerState 4096 8192 1 src, hw') /\
      trace hw' =
        [Syscall SYSTEM_CALL_VECTOR_SEND_MESSAGE
           (syscall_args u2 [src; MESSAGE_TYPE_NULL; id; 0; 0; 0]) m2;
         Syscall SYSTEM_CALL_VECTOR_MAP_DEVICE
           (syscall_args u1 [1; DEVICE_TYPE_INTERRUPT; 0; 0]) m1] ++ trace hw.
Proof. apply (@enable_handshake (example_world 0)); [done|by_eval..]. Defined.
