(* ===== verification/Process.v ===== *)
(** * Creating a process and starting it

    [src/src/lib/libdx/create_process.c] installs an ELF executable in a new
    address space: one message per loadable segment, pages for .bss, stack and
    heap, and the environment block that carries the arguments. In the new
    process, [src/src/lib/user_start/setup_main.c] clears .bss and rebuilds
    [argv] from that block before it calls [main], and
    [src/src/lib/libc/sbrk.c] hands out the heap the block describes. *)

From S2P Require Import Prelude CMem CString World Libdx.

(** ** Data *)

Definition STATUS_INVALID_IMAGE : Z := -46.
Definition MESSAGE_TYPE_LOAD_ADDRESS_SPACE : Z := SYSTEM_MESSAGE 4.
Definition THREAD_ID_LOOPBACK : Z := u32 (-2).
Definition USER_ENVIRONMENT_BLOCK : Z := 4290772992.

(** The fields of [elf_header_s] that the code reads, by their offsets. *)
Definition header_type (header : Z) : C Z := load16 (header + 16).
Definition header_machine (header : Z) : C Z := load16 (header + 18).
Definition header_entry (header : Z) : C Z := load32 (header + 24).
Definition program_header_offset (header : Z) : C Z := load32 (header + 28).
Definition program_header_entry_size (header : Z) : C Z := load16 (header + 42).
Definition program_header_entry_count (header : Z) : C Z := load16 (header + 44).

(** The fields of [elf_program_header_s]. *)
Definition segment_type (program_header : Z) : C Z := load32 program_header.
Definition segment_offset (program_header : Z) : C Z := load32 (program_header + 4).
Definition virtual_address (program_header : Z) : C Z := load32 (program_header + 8).
Definition file_size (program_header : Z) : C Z := load32 (program_header + 16).
Definition memory_size (program_header : Z) : C Z := load32 (program_header + 20).

Definition ELF_TYPE_EXECUTABLE : Z := 2.
Definition ELF_MACHINE_386 : Z := 3.
Definition ELF_PROGRAM_TYPE_LOAD : Z := 1.

(** [address_space_environment_s]: five words, [argv], [argv_buffer], [env]. *)
Definition ARGV_COUNT_MAX : Z := 8.
Definition ARGV_BUFFER_SIZE : Z := 1024.
Definition environment_size : Z := 1080.
Definition env_address_space_id (environment : Z) : Z := environment.
Definition env_heap_base (environment : Z) : Z := environment + 4.
Definition env_heap_current (environment : Z) : Z := environment + 8.
Definition env_heap_limit (environment : Z) : Z := environment + 12.
Definition env_argc (environment : Z) : Z := environment + 16.
Definition env_argv (environment : Z) : Z := environment + 20.
Definition env_argv_buffer (environment : Z) : Z := environment + 52.

(** ** create_process.c *)

Section Create.
Context `{World}.

(** The address of the literal [ELF_IDENT_MAGIC]. *)
Context (ELF_IDENT_MAGIC : Z).

Definition read_elf_header (image : Z) : C Z :=
  magic_size ← strlen ELF_IDENT_MAGIC;
  r ← memcmp image ELF_IDENT_MAGIC magic_size;
  mret (if r =? 0 then image else NULL).

Definition send_bss (address_space program_header : Z) : D Z :=
  va ← lift (virtual_address program_header);
  fs ← lift (file_size program_header);
  ms ← lift (memory_size program_header);
  let bss_start_address := u32 (va + fs) in
  let bss_end_address := u32 (va + ms) in
  if negb (bss_start_address =? bss_end_address) then
    let bss_first_page := PAGE_BASE bss_start_address in
    let bss_last_page := PAGE_ALIGN bss_end_address in
    let bss_first_page :=
      if negb (fs mod PAGE_SIZE =? 0) then u32 (bss_first_page + PAGE_SIZE) else bss_first_page in
    dassert (bss_first_page <=? bss_last_page);;
    let bss_size := bss_last_page - bss_first_page in
    if negb (bss_size =? 0) then expand_address_space address_space bss_first_page bss_size 0
    else
      dassert (u32 (ms - fs) <? PAGE_SIZE);;
      mret STATUS_SUCCESS
  else mret STATUS_SUCCESS.

Definition send_heap (address_space heap heap_size : Z) : D Z :=
  if 0 <? heap_size then expand_address_space address_space heap heap_size 0
  else mret STATUS_SUCCESS.

Definition send_stack (address_space stack stack_size : Z) : D Z :=
  dassert (0 <? stack_size);;
  let stack_top := u32 (PAGE_ALIGN stack - stack_size) in
  expand_address_space address_space stack_top stack_size 0.

Definition send_segment (thread elf_header program_header : Z) : D Z :=
  fs ← lift (file_size program_header);
  ms ← lift (memory_size program_header);
  dassert (fs <=? ms);;
  if fs =? 0 then mret STATUS_SUCCESS
  else
    destination ← lift (virtual_address program_header);
    offset ← lift (segment_offset program_header);
    let segment := u32 (elf_header + offset) in
    send_misaligned_message (Some (mkMessage thread MESSAGE_TYPE_LOAD_ADDRESS_SPACE
      MESSAGE_ID_ATOMIC segment fs destination)).

(** The loop over the program headers, from index [i] on. The count is read
    again before each round; it has 16 bits. *)
Fixpoint segments_loop (fuel : nat) (thread address_space elf_header i program_header heap : Z)
    : D Z :=
  match fuel with
  | O => lift (fail OutOfFuel)
  | S f =>
      count ← lift (program_header_entry_count elf_header);
      if i <? count then
        ty ← lift (segment_type program_header);
        load ← (if ty =? ELF_PROGRAM_TYPE_LOAD
                then ms ← lift (memory_size program_header); mret (0 <? ms)
                else mret false);
        let next heap :=
          entry_size ← lift (program_header_entry_size elf_header);
          segments_loop f thread address_space elf_header (i + 1)
            (u32 (program_header + entry_size)) heap in
        if (load : bool) then
          st ← send_segment thread elf_header program_header;
          if negb (st =? STATUS_SUCCESS) then mret NULL
          else
            st ← send_bss address_space program_header;
            if negb (st =? STATUS_SUCCESS) then mret NULL
            else
              va ← lift (virtual_address program_header);
              dassert (heap <=? va);;
              ms ← lift (memory_size program_header);
              next (PAGE_ALIGN (u32 (va + ms)))
        else next heap
      else mret heap
  end.

Definition send_segments (thread address_space elf_header : Z) : D Z :=
  offset ← lift (program_header_offset elf_header);
  segments_loop (Z.to_nat 65536) thread address_space elf_header 0 (u32 (elf_header + offset)) NULL.

(** The loop that packs the arguments; it stops at the [ARGV_COUNT_MAX]-th. *)
Fixpoint pack_arguments (fuel : nat) (environment argv offset : Z) : C Z :=
  match fuel with
  | O => fail OutOfFuel
  | S f =>
      arg ← (if argv =? NULL then mret NULL else load32 argv);
      if arg =? NULL then mret STATUS_SUCCESS
      else
        n ← strlen arg;
        let length := u32 (n + 1) in
        let end_ := u32 (env_argv_buffer environment + ARGV_BUFFER_SIZE - 1) in
        if end_ <? u32 (offset + length) then mret STATUS_INSUFFICIENT_MEMORY
        else
          memcpy offset arg length;;
          argc ← load32 (env_argc environment);
          store32 (env_argc environment) (argc + 1);;
          argc ← load32 (env_argc environment);
          if ARGV_COUNT_MAX <=? s32 argc then mret STATUS_INSUFFICIENT_MEMORY
          else pack_arguments f environment (u32 (argv + 4)) (u32 (offset + length))
  end.

(** Fills in the block at [environment]. *)
Definition fill_environment (environment address_space heap heap_size argv : Z) : C Z :=
  memset environment 0 environment_size;;
  store32 (env_address_space_id environment) address_space;;
  store32 (env_heap_base environment) heap;;
  store32 (env_heap_current environment) heap;;
  store32 (env_heap_limit environment) (u32 (heap + heap_size));;
  pack_arguments (Z.to_nat ARGV_COUNT_MAX) environment argv (env_argv_buffer environment).

Definition send_environment_block (thread address_space heap heap_size argv : Z) : D Z :=
  buffer ← malloc (u32 (environment_size + PAGE_SIZE - 1));
  if buffer =? NULL then mret STATUS_INSUFFICIENT_MEMORY
  else
    let environment := PAGE_ALIGN buffer in
    st ← lift (fill_environment environment address_space heap heap_size argv);
    st ← (if negb (st =? STATUS_SUCCESS) then mret st
          else send_message (Some (mkMessage thread MESSAGE_TYPE_LOAD_ADDRESS_SPACE
                 MESSAGE_ID_ATOMIC environment environment_size USER_ENVIRONMENT_BLOCK)));
    free buffer;;
    mret st.

(** Runs [k] when the status is a success, else returns the status. *)
Definition if_success (c : D Z) (k : D Z) : D Z :=
  st ← c; if negb (st =? STATUS_SUCCESS) then mret st else k.

Definition create_process_from_image (image image_size default_capability_mask argv : Z) : D Z :=
  if (image =? NULL) || (image_size =? 0) then mret STATUS_INVALID_DATA
  else
    header ← lift (read_elf_header image);
    if header =? NULL then mret STATUS_INVALID_IMAGE
    else
      ty ← lift (header_type header);
      bad ← (if negb (ty =? ELF_TYPE_EXECUTABLE) then mret true
             else machine ← lift (header_machine header); mret (negb (machine =? ELF_MACHINE_386)));
      if (bad : bool) then mret STATUS_INVALID_IMAGE
      else
        address_space ← create_address_space;
        if address_space =? ADDRESS_SPACE_ID_INVALID then mret STATUS_INSUFFICIENT_MEMORY
        else
          entry_point ← lift (header_entry header);
          let stack := USER_ENVIRONMENT_BLOCK - 4 in
          thread ← create_thread address_space entry_point stack default_capability_mask;
          if thread =? THREAD_ID_INVALID then mret STATUS_INSUFFICIENT_MEMORY
          else
            heap ← send_segments thread address_space header;
            if heap =? NULL then mret STATUS_INVALID_IMAGE
            else
              let heap_size := 24 * PAGE_SIZE in
              if_success (send_stack address_space stack (4 * PAGE_SIZE))
              (if_success (send_heap address_space heap heap_size)
              (if_success (send_environment_block thread address_space heap heap_size argv)
              (start_thread thread))).

End Create.

(** ** setup_main.c *)

Definition find_environment_block : Z := USER_ENVIRONMENT_BLOCK.

(** Points the entries of [argv] from index [i] on into the buffer. *)
Fixpoint unpack_arguments (fuel : nat) (environment i argv offset : Z) : C unit :=
  match fuel with
  | O => fail OutOfFuel
  | S f =>
      argc ← load32 (env_argc environment);
      if i <? s32 argc then
        store32 argv offset;;
        arg ← load32 argv;
        n ← strlen arg;
        unpack_arguments f environment (i + 1) (argv + 4) (u32 (offset + u32 (n + 1)))
      else mret tt
  end.

Definition initialize_argv : C unit :=
  let environment := find_environment_block in
  argc ← load32 (env_argc environment);
  cassert (s32 argc <? ARGV_COUNT_MAX);;
  unpack_arguments (Z.to_nat ARGV_COUNT_MAX) environment 0 (env_argv environment)
    (env_argv_buffer environment).

(** [edata] and [end_] are the linker's symbols. *)
Definition initialize_bss (edata end_ : Z) : C unit :=
  memset edata 0 (u32 (end_ - edata));; mret tt.

Section Start.
Context `{World}.

(** [exit] and [_Exit]: the endless loop after the request is the end. *)
Definition _Exit (status : Z) : D unit := delete_thread THREAD_ID_LOOPBACK;; mret tt.
Definition exit (status : Z) : D unit := _Exit status.

Definition setup_main (edata end_ : Z) (main : Z -> Z -> D Z) : D unit :=
  let environment := find_environment_block in
  lift (initialize_bss edata end_);;
  lift initialize_argv;;
  argc ← lift (load32 (env_argc environment));
  status ← main (s32 argc) (env_argv environment);
  exit status.

End Start.

(** ** sbrk.c *)

Definition ENOMEM : Z := 49.

(** [errno] is the address of the variable. *)
Definition sbrk (errno delta : Z) : C Z :=
  let environment := find_environment_block in
  let new_block := u32 (-1) in
  current ← load32 (env_heap_current environment);
  let new_heap := u32 (current + delta) in
  base ← load32 (env_heap_base environment);
  cassert (base <=? new_heap);;
  if new_heap <? base then store32 errno (- ENOMEM);; mret new_block
  else
    limit ← load32 (env_heap_limit environment);
    if limit <? new_heap then store32 errno (- ENOMEM);; mret new_block
    else
      cassert (new_heap <=? limit);;
      cassert (base <=? new_heap);;
      store32 (env_heap_current environment) new_heap;;
      mret current.
