(* ===== verification/ProcessThms.v ===== *)
(** * What process creation and start-up guarantee *)

From S2P Require Import Prelude CMem CString CStringMem CStringStr Tar World Libdx LibdxThms Process.

(** ** Pages *)

(** The end of the last page that [0, x) touches. *)
Definition page_up (x : Z) : Z := (x + 4095) / 4096 * 4096.

Lemma page_align_page_up p : 0 <= p -> p + 4095 < 4294967296 -> PAGE_ALIGN p = page_up p.
Proof.
  intros ? ?. unfold PAGE_ALIGN, PAGE_SIZE. rewrite u32_small by lia.
  rewrite page_mask by (unfold is_u32; lia). unfold page_up. zlia.
Qed.

Lemma page_base_mod v : is_u32 v -> PAGE_BASE v = v - v mod 4096.
Proof. apply page_mask. Qed.

Section Theorems.
Context `{World}.

(** ** What a trace asks for in the new address space *)

Inductive request :=
  | CreateSpace
  | CreateThread (space entry stack mask : Z)
  | Load (thread address : Z) (bytes : list Z)
  | Expand (space address n : Z)
  | Start (thread : Z).

(** Latest first; heap requests do not show. *)
Definition request_of (e : event) : list request :=
  match e with
  | Syscall v a _ =>
      if v =? SYSTEM_CALL_VECTOR_CREATE_ADDRESS_SPACE then [CreateSpace]
      else if v =? SYSTEM_CALL_VECTOR_CREATE_THREAD
      then [CreateThread (data0 a) (data1 a) (data2 a) (data3 a)]
      else if v =? SYSTEM_CALL_VECTOR_EXPAND_ADDRESS_SPACE
      then [Expand (data0 a) (data1 a) (data2 a)]
      else if (v =? SYSTEM_CALL_VECTOR_SEND_MESSAGE) && (data1 a =? MESSAGE_TYPE_LOAD_ADDRESS_SPACE)
      then [Load (data0 a) (data5 a) (payload e)]
      else if (v =? SYSTEM_CALL_VECTOR_SEND_MESSAGE) && (data1 a =? MESSAGE_TYPE_START_USER_THREAD)
      then [Start (data0 a)] else []
  | _ => []
  end.

Definition requests (h : history) : list request := concat (request_of <$> h).

(** ** .bss *)

(** The fields of a program header. *)
Record segment := mkSegment { s_type : Z; s_offset : Z; s_va : Z; s_fs : Z; s_ms : Z }.

(** The program header at [p] describes [s]. *)
Definition segment_at (m : mem) (p : Z) (s : segment) : Prop :=
  bytes_at m p (word_bytes (s_type s)) /\ bytes_at m (p + 4) (word_bytes (s_offset s)) /\
  bytes_at m (p + 8) (word_bytes (s_va s)) /\ bytes_at m (p + 16) (word_bytes (s_fs s)) /\
  bytes_at m (p + 20) (word_bytes (s_ms s)) /\
  is_u32 (s_type s) /\ is_u32 (s_offset s) /\ is_u32 (s_va s) /\ is_u32 (s_fs s) /\ is_u32 (s_ms s).

Lemma segment_fields m p s : segment_at m p s ->
  segment_type p m = Ret (s_type s, m) /\ segment_offset p m = Ret (s_offset s, m) /\
  virtual_address p m = Ret (s_va s, m) /\ file_size p m = Ret (s_fs s, m) /\
  memory_size p m = Ret (s_ms s, m).
Proof.
  intros (B1 & B2 & B3 & B4 & B5 & W1 & W2 & W3 & W4 & W5).
  repeat split; by apply load32_bytes.
Qed.

(** The pages that the file part of a segment does not reach. *)
Definition bss_request (space : Z) (s : segment) : list request :=
  let first := page_up (s_va s + s_fs s) in
  let last := page_up (s_va s + s_ms s) in
  if first <? last then [Expand space first (last - first)] else [].

Lemma expand_run space a n f w : exists u r w',
  expand_address_space space a n f w = Ret (status r, w') /\
  trace w' = Syscall SYSTEM_CALL_VECTOR_EXPAND_ADDRESS_SPACE
    (syscall_args u [space; a; n; f]) (memory w) :: trace w /\
  kernel_reply (trace w') = (r, memory w').
Proof.
  destruct (system_call_run SYSTEM_CALL_VECTOR_EXPAND_ADDRESS_SPACE [space; a; n; f] w)
    as (u & r & w' & E & Ht & Hr).
  exists u, r, w'. split; [|done]. unfold expand_address_space. by erewrite drun_bind by exact E.
Qed.

(** With page-aligned segments, [send_bss] asks for exactly the pages between
    the end of the file part and the end of the segment. *)
Lemma send_bss_run space p s w :
  segment_at (memory w) p s -> s_va s mod 4096 = 0 -> s_fs s <= s_ms s ->
  s_va s + s_ms s + 4095 < 4294967296 ->
  exists st w', send_bss space p w = Ret (st, w') /\
    ((bss_request space s = [] /\ st = STATUS_SUCCESS /\ w' = w) \/
     (exists u r, bss_request space s <> [] /\ st = status r /\
        trace w' = Syscall SYSTEM_CALL_VECTOR_EXPAND_ADDRESS_SPACE
          (syscall_args u [space; page_up (s_va s + s_fs s);
             page_up (s_va s + s_ms s) - page_up (s_va s + s_fs s); 0]) (memory w) :: trace w /\
        kernel_reply (trace w') = (r, memory w'))).
Proof.
  intros Hs Ha Hle Hend. destruct w as [m h].
  destruct (segment_fields _ _ _ Hs) as (_ & _ & L1 & L2 & L3).
  destruct Hs as (_ & _ & _ & _ & _ & _ & _ & Hva & Hfs & Hms). unfold is_u32 in *.
  unfold send_bss, bss_request.
  erewrite drun_bind by (apply drun_lift; exact L1). erewrite drun_bind by (apply drun_lift; exact L2).
  erewrite drun_bind by (apply drun_lift; exact L3). cbv zeta.
  rewrite (u32_small (s_va s + s_fs s)), (u32_small (s_va s + s_ms s)) by lia.
  destruct (Z.eqb_spec (s_va s + s_fs s) (s_va s + s_ms s)) as [E|E]; cbn [negb].
  { do 2 eexists. split; [reflexivity|]. left. rewrite E, Z.ltb_irrefl. done. }
  rewrite page_base_mod by (unfold is_u32; lia). rewrite page_align_page_up by lia.
  assert (Hfirst : (if negb (s_fs s mod PAGE_SIZE =? 0)
      then u32 (s_va s + s_fs s - (s_va s + s_fs s) mod 4096 + PAGE_SIZE)
      else s_va s + s_fs s - (s_va s + s_fs s) mod 4096) = page_up (s_va s + s_fs s)).
  { unfold page_up, PAGE_SIZE, u32. destruct (Z.eqb_spec (s_fs s mod 4096) 0); cbn [negb]; zlia. }
  rewrite Hfirst.
  assert (Hmono : page_up (s_va s + s_fs s) <= page_up (s_va s + s_ms s)) by (unfold page_up; zlia).
  unfold dassert at 1. erewrite drun_bind by (apply drun_lift, run_assert, Z.leb_le, Hmono).
  destruct (Z.eqb_spec (page_up (s_va s + s_ms s) - page_up (s_va s + s_fs s)) 0) as [E0|E0]; cbn [negb].
  - unfold dassert. erewrite drun_bind; last first.
    { apply drun_lift, run_assert, Z.ltb_lt. unfold PAGE_SIZE, u32, page_up in *. zlia. }
    do 2 eexists. split; [reflexivity|]. left. rewrite (proj2 (Z.ltb_ge _ _)) by lia. done.
  - edestruct expand_run as (u & r & w' & Er & Ht & Hr). rewrite Er.
    do 2 eexists. split; [reflexivity|]. right. exists u, r.
    rewrite (proj2 (Z.ltb_lt _ _)) by lia. done.
Qed.

(** ** The environment block *)

(** The arguments, each with its terminator, one after the other. *)
Definition packed (args : list (list Z)) : list Z := concat ((fun a => a ++ [0]) <$> args).

(** The block: identification, heap and [argc], an empty [argv], the packed
    arguments and zeros. *)
Definition environment_bytes (space base current limit : Z) (args : list (list Z)) : list Z :=
  words_bytes [space; base; current; limit; Z.of_nat (length args)] ++ replicate 32 0 ++
  packed args ++ replicate (1028 - length (packed args)) 0.

(** The arguments a block can carry. *)
Definition fits (args : list (list Z)) : bool :=
  (Z.of_nat (length args) <? 8) && (Z.of_nat (length (packed args)) <=? 1023).

Lemma subseteq_bytes_at (m0 m : mem) a l : m0 ⊆ m -> bytes_at m0 a l -> bytes_at m a l.
Proof. intros Hs Hb i b Hi. eapply lookup_weaken; [by apply Hb|done]. Qed.

Lemma subseteq_cstr (m0 m : mem) a l : m0 ⊆ m -> cstr m0 a l -> cstr m a l.
Proof. intros Hs (Hr & Hb & Hc). split; [done|]. split; [by eapply subseteq_bytes_at|done]. Qed.

Lemma subseteq_write (m0 m : mem) a l :
  (forall x, a <= x < a + Z.of_nat (length l) -> m0 !! x = None) -> m0 ⊆ m -> m0 ⊆ write_bytes m a l.
Proof.
  intros Hn Hs. apply map_subseteq_spec. intros x v Hx. rewrite lookup_write_bytes. case_decide as Hd.
  - by rewrite (Hn x Hd) in Hx.
  - by eapply lookup_weaken.
Qed.

Lemma segment_at_subseteq (m0 m : mem) p s : m0 ⊆ m -> segment_at m0 p s -> segment_at m p s.
Proof.
  intros Hs (B1 & B2 & B3 & B4 & B5 & Hw).
  do 5 (split; [eapply subseteq_bytes_at; [exact Hs|eassumption]|]). exact Hw.
Qed.

Lemma packed_app l k : packed (l ++ k) = packed l ++ packed k.
Proof. unfold packed. by rewrite fmap_app, concat_app. Qed.

Lemma packed_one a : packed [a] = a ++ [0].
Proof. unfold packed. cbn. by rewrite app_nil_r. Qed.

Lemma packed_length_app l k : length (packed (l ++ k)) = (length (packed l) + length (packed k))%nat.
Proof. by rewrite packed_app, length_app. Qed.

Lemma packed_length_cons a l : length (packed (a :: l)) = S (length a + length (packed l)).
Proof. change (packed (a :: l)) with ((a ++ [0]) ++ packed l). rewrite !length_app. cbn. lia. Qed.

Lemma environment_bytes_eq space base current limit args : environment_bytes space base current limit args =
  words_bytes [space; base; current; limit] ++ word_bytes (Z.of_nat (length args)) ++ replicate 32 0 ++
  packed args ++ replicate (1028 - length (packed args)) 0.
Proof.
  unfold environment_bytes.
  change [space; base; current; limit; Z.of_nat (length args)]
    with ([space; base; current; limit] ++ [Z.of_nat (length args)]).
  rewrite words_bytes_app, <- app_assoc. by rewrite (words_bytes_cons _ []), app_nil_r.
Qed.

Section Pack.
Context (space base current limit environment : Z) (m0 : mem).
Context (Henv : 0 < environment /\ environment + 1080 <= 4294967296).
Context (Hnew : forall x, environment <= x < environment + 1080 -> m0 !! x = None).

Definition block_at (m : mem) (args : list (list Z)) : Prop :=
  m0 ⊆ m /\ bytes_at m environment (environment_bytes space base current limit args).

(** The block before, between and after the two writes of one round. *)
Lemma pack_bytes m done_ arg :
  Z.of_nat (length (packed (done_ ++ [arg]))) <= 1023 ->
  bytes_at m environment (environment_bytes space base current limit done_) ->
  let m1 := write_bytes m (environment + 52 + Z.of_nat (length (packed done_))) (arg ++ [0]) in
  let m2 := write_bytes m1 (environment + 16) (word_bytes (Z.of_nat (length done_) + 1)) in
  bytes_at m1 (environment + 16) (word_bytes (Z.of_nat (length done_))) /\
  bytes_at m2 environment (environment_bytes space base current limit (done_ ++ [arg])).
Proof.
  intros Hlen Hb m1 m2. rewrite packed_length_app, packed_one, length_app in Hlen. cbn in Hlen.
  set (n := length (packed done_)) in *. set (c := Z.of_nat (length done_)) in *.
  set (front := words_bytes [space; base; current; limit]).
  assert (Hfl : length front = 16%nat) by reflexivity.
  set (zeros := replicate (1028 - (n + S (length arg))) 0).
  assert (Hb1 : bytes_at m1 environment (front ++ word_bytes c ++ replicate 32 0 ++ packed done_ ++
    (arg ++ [0]) ++ zeros)).
  { rewrite environment_bytes_eq in Hb. fold n c front in Hb.
    replace (1028 - n)%nat with (S (length arg) + (1028 - (n + S (length arg))))%nat in Hb by lia.
    rewrite replicate_add in Hb. fold zeros in Hb.
    assert (Hpre : environment + 52 + Z.of_nat n
      = environment + Z.of_nat (length (front ++ word_bytes c ++ replicate 32 0 ++ packed done_))).
    { rewrite !length_app, length_replicate, Hfl. fold n. cbn [length word_bytes]. lia. }
    unfold m1. rewrite Hpre. rewrite !(app_assoc _ _ (_ ++ zeros)) in *. eapply bytes_at_splice; [|exact Hb].
    rewrite length_replicate, length_app. cbn. lia. }
  split.
  - apply bytes_at_app in Hb1 as [_ Hb1]. rewrite Hfl in Hb1. by apply bytes_at_app in Hb1 as [? _].
  - rewrite environment_bytes_eq, packed_app, packed_one, !length_app. fold front.
    replace (Z.of_nat (length done_ + length [arg])) with (c + 1) by (cbn; lia). cbn [length].
    apply (bytes_at_splice _ _ front _ _ (word_bytes (c + 1))) in Hb1; [|done]. rewrite Hfl in Hb1.
    rewrite Nat.add_1_r, <- app_assoc. exact Hb1.
Qed.

(** One argument more: the copy and the increment of [argc]. *)
Lemma pack_one m done_ p arg : block_at m done_ -> cstr m0 p arg ->
  Z.of_nat (length (packed (done_ ++ [arg]))) <= 1023 -> Z.of_nat (length done_) < 8 ->
  exists m1 m2,
    memcpy (environment + 52 + Z.of_nat (length (packed done_))) p (Z.of_nat (length arg) + 1) m
      = Ret (environment + 52 + Z.of_nat (length (packed done_)), m1) /\
    load32 (env_argc environment) m1 = Ret (Z.of_nat (length done_), m1) /\
    store32 (env_argc environment) (Z.of_nat (length done_) + 1) m1 = Ret (tt, m2) /\
    load32 (env_argc environment) m2 = Ret (Z.of_nat (length done_) + 1, m2) /\
    block_at m2 (done_ ++ [arg]).
Proof.
  intros [Hsub Hb] Hp Hlen Hcnt. destruct (pack_bytes m done_ arg Hlen Hb) as [Hc1 Hb2].
  rewrite packed_length_app, packed_one, length_app in Hlen. cbn in Hlen.
  set (m1 := write_bytes m _ (arg ++ [0])) in *. set (m2 := write_bytes m1 _ _) in *. exists m1, m2. split.
  { apply memcpy_run with (bs := arg ++ [0]); [lia|apply (cstr_range _ _ _ Hp)|rewrite length_app; cbn; lia| | | |].
    - eapply subseteq_bytes_at; [exact Hsub|]. by destruct Hp as (_ & ? & _).
    - by eapply cstr_u8.
    - apply bytes_at_mapped in Hb. eapply mapped_sub; [exact Hb|lia|]. unfold environment_bytes.
      rewrite !length_app, !length_replicate, length_words_bytes. cbn [length]. lia.
    - pose proof (cstr_mapped _ _ _ Hp) as Hm. set (d := environment + 52 + _) in *.
      destruct (decide (d <= p)); [by left|right].
      destruct (decide (p + (Z.of_nat (length arg) + 1) <= d)); [done|exfalso].
      destruct (Hm d ltac:(lia)) as [v Hv]. by rewrite Hnew in Hv by (unfold d; lia). }
  split; [apply load32_bytes; [unfold is_u32; lia|exact Hc1]|].
  split; [by apply store32_bytes, (bytes_at_mapped _ _ _ Hc1)|].
  split; [apply load32_bytes; [unfold is_u32; lia|apply bytes_at_write]|].
  split; [|exact Hb2]. unfold m2, m1. repeat apply subseteq_write; try done; intros x Hx; apply Hnew;
    rewrite ?length_app in Hx; cbn [length word_bytes] in Hx; lia.
Qed.

(** The whole loop, on the arguments that follow [done_]. *)
Lemma pack_arguments_run fuel : forall args ptrs m done_ argv,
  (8 - length done_ <= fuel)%nat -> Z.of_nat (length done_) < 8 -> fits done_ = true ->
  block_at m done_ -> 0 < argv ->
  argv + 4 * (Z.of_nat (length ptrs) + 1) < 4294967296 ->
  environment + 1080 + Z.of_nat (length (packed (done_ ++ args))) <= 4294967296 ->
  bytes_at m0 argv (words_bytes (ptrs ++ [0])) -> Forall2 (cstr m0) ptrs args ->
  exists st m', pack_arguments fuel environment argv
      (environment + 52 + Z.of_nat (length (packed done_))) m = Ret (st, m') /\ m0 ⊆ m' /\
    (if fits (done_ ++ args) then st = STATUS_SUCCESS /\ block_at m' (done_ ++ args)
     else st = STATUS_INSUFFICIENT_MEMORY).
Proof.
  induction fuel as [|fuel IH]; intros args ptrs m done_ argv Hfuel Hcnt Hfit Hblk Hav Hend Hwrap Hargv Hargs; [lia|].
  cbn [pack_arguments]. rewrite (proj2 (Z.eqb_neq argv NULL)) by (unfold NULL; lia).
  pose proof Hblk as [Hsub _].
  destruct Hargs as [|p arg ptrs args Hp Hargs].
  - erewrite run_bind by (apply (load32_bytes _ _ 0); [done|by eapply subseteq_bytes_at]).
    cbn [Z.eqb NULL]. exists STATUS_SUCCESS, m. rewrite app_nil_r, Hfit. done.
  - cbn [app] in Hargv. rewrite words_bytes_cons, bytes_at_app in Hargv. destruct Hargv as [Hw Hargv].
    pose proof (cstr_range _ _ _ Hp) as Hpr.
    erewrite run_bind; last first.
    { apply load32_bytes; [|eapply subseteq_bytes_at; [exact Hsub|exact Hw]]. unfold is_u32. lia. }
    cbn beta. rewrite (proj2 (Z.eqb_neq p NULL)) by (unfold NULL; lia).
    erewrite run_bind by (eapply strlen_run, subseteq_cstr; [exact Hsub|exact Hp]). cbv zeta.
    rewrite (u32_small (Z.of_nat (length arg) + 1)) by lia.
    unfold env_argv_buffer, ARGV_BUFFER_SIZE. rewrite (u32_small (environment + 52 + 1024 - 1)) by lia.
    pose proof (packed_length_app done_ [arg]) as Hpl. rewrite packed_one, length_app in Hpl. cbn [length] in Hpl.
    pose proof (packed_length_app done_ (arg :: args)) as Hpt.
    pose proof (packed_length_app [arg] args) as Hpc. cbn [app] in Hpc. rewrite packed_one, length_app in Hpc.
    cbn [length] in Hpc.
    assert (Hd : Z.of_nat (length (packed done_)) <= 1023) by (unfold fits in Hfit; zbool; lia).
    assert (Hbig : Z.of_nat (length (packed done_)) + (Z.of_nat (length arg) + 1) > 1023 ->
      fits (done_ ++ arg :: args) = false).
    { intros Hb. unfold fits. rewrite (proj2 (Z.leb_gt _ 1023)) by lia. by rewrite andb_false_r. }
    rewrite (u32_small (environment + 52 + _ + _)) by lia.
    destruct (Z.ltb_spec (environment + 52 + 1024 - 1)
      (environment + 52 + Z.of_nat (length (packed done_)) + (Z.of_nat (length arg) + 1))) as [Hover|Hok].
    + exists STATUS_INSUFFICIENT_MEMORY, m. rewrite Hbig by lia. done.
    + destruct (pack_one m done_ p arg Hblk Hp ltac:(lia) Hcnt) as (m1 & m2 & E1 & E2 & E3 & E4 & Hblk2).
      do 2 (erewrite run_bind by first [exact E1 | exact E2]). erewrite run_bind by exact E3.
      erewrite run_bind by exact E4. rewrite s32_small by lia. unfold ARGV_COUNT_MAX.
      change (arg :: args) with ([arg] ++ args) in *. rewrite app_assoc in *.
      destruct (Z.leb_spec 8 (Z.of_nat (length done_) + 1)) as [Hmax|Hmore].
      * exists STATUS_INSUFFICIENT_MEMORY, m2. destruct Hblk2 as [? _]. split; [done|]. split; [done|].
        unfold fits. rewrite (proj2 (Z.ltb_ge _ 8)); [done|]. rewrite !length_app. cbn [length]. lia.
      * rewrite (u32_small (argv + 4)) by (cbn [length] in Hend; lia).
        replace (environment + 52 + Z.of_nat (length (packed done_)) + (Z.of_nat (length arg) + 1))
          with (environment + 52 + Z.of_nat (length (packed (done_ ++ [arg])))) by lia.
        apply (IH args ptrs m2 (done_ ++ [arg]) (argv + 4)); cbn [length] in *;
          rewrite ?length_app in *; cbn [length] in *; try lia; try done.
        unfold fits. rewrite length_app. cbn [length].
        by rewrite (proj2 (Z.ltb_lt _ _)), (proj2 (Z.leb_le _ _)) by lia.
Qed.

End Pack.

(** The argument vector at [argv] holds the strings [args]. *)
Definition argument_vector (m : mem) (argv : Z) (args : list (list Z)) : Prop :=
  (argv = NULL /\ args = []) \/
  exists ptrs, 0 < argv /\ argv + 4 * (Z.of_nat (length ptrs) + 1) < 4294967296 /\
    bytes_at m argv (words_bytes (ptrs ++ [0])) /\ Forall2 (cstr m) ptrs args.

Lemma fill_environment_run space heap heap_size environment m0 m argv args :
  0 < environment -> environment + 1080 + Z.of_nat (length (packed args)) <= 4294967296 ->
  (forall x, environment <= x < environment + 1080 -> m0 !! x = None) ->
  m0 ⊆ m -> mapped m environment 1080 -> argument_vector m0 argv args ->
  exists st m', fill_environment environment space heap heap_size argv m = Ret (st, m') /\ m0 ⊆ m' /\
    (if fits args then st = STATUS_SUCCESS /\
       bytes_at m' environment (environment_bytes space heap heap (u32 (heap + heap_size)) args)
     else st = STATUS_INSUFFICIENT_MEMORY).
Proof.
  intros He Hw Hnew Hsub Hm Hargs. unfold fill_environment.
  erewrite run_bind by (by apply memset_run).
  unfold env_address_space_id, env_heap_base, env_heap_current, env_heap_limit, env_argv_buffer.
  do 4 (erewrite run_bind; [|apply store32_bytes; repeat apply mapped_write;
    (eapply mapped_sub; [exact Hm|lia|lia])]).
  set (m1 := write_bytes m environment _). set (m4 := write_bytes _ (environment + 12) _).
  assert (Hm4 : m4 = write_bytes m1 environment (words_bytes [space; heap; heap; u32 (heap + heap_size)])).
  { unfold m4. rewrite !words_bytes_cons, app_nil_r, !write_bytes_app. cbn [length word_bytes Z.of_nat].
    by rewrite <- !Z.add_assoc. }
  assert (Hblk : block_at space heap heap (u32 (heap + heap_size)) environment m0 m4 []).
  { rewrite Hm4. split.
    - apply subseteq_write; [|unfold m1; apply subseteq_write; [|exact Hsub]]; intros x Hx; apply Hnew.
      + rewrite length_words_bytes in Hx. cbn [length] in Hx. lia.
      + rewrite length_replicate in Hx. unfold environment_size in Hx. lia.
    - pose proof (bytes_at_write m environment (replicate (Z.to_nat environment_size) (u8 0))) as Hz.
      fold m1 in Hz.
      apply (bytes_at_splice _ _ [] (words_bytes [0; 0; 0; 0])
        (words_bytes [0] ++ replicate 32 0 ++ packed [] ++ replicate 1028 0)
        (words_bytes [space; heap; heap; u32 (heap + heap_size)])) in Hz; [|done].
      cbn [app length Z.of_nat] in Hz. rewrite Z.add_0_r, app_assoc, <- words_bytes_app in Hz. exact Hz. }
  destruct Hargs as [[-> ->]|(ptrs & Hav & Hae & Hab & Hps)].
  - exists STATUS_SUCCESS, m4. destruct Hblk as [Hs4 Hb4]. split; [reflexivity|]. split; [exact Hs4|].
    split; [reflexivity|exact Hb4].
  - replace (environment + 52) with (environment + 52 + Z.of_nat (length (packed []))) by (cbn; lia).
    destruct (pack_arguments_run space heap heap (u32 (heap + heap_size)) environment m0
      ltac:(lia) Hnew (Z.to_nat ARGV_COUNT_MAX) args ptrs m4 [] argv)
      as (st & m' & E & Hs & Hf); [unfold ARGV_COUNT_MAX; cbn [length]; lia|done|reflexivity|exact Hblk|lia|lia|exact Hw|exact Hab|exact Hps|].
    exists st, m'. split; [exact E|]. split; [exact Hs|]. cbn [app] in Hf. destruct (fits args); [|exact Hf].
    destruct Hf as [-> [_ Hb]]. split; [reflexivity|exact Hb].
Qed.


(** Where the arguments start when they are packed from [o] on. *)
Fixpoint starts (o : Z) (args : list (list Z)) : list Z :=
  match args with
  | [] => []
  | a :: l => o :: starts (o + Z.of_nat (length a) + 1) l
  end.

Lemma length_starts o args : length (starts o args) = length args.
Proof. revert o; induction args as [|a l IH]; intros o; [done|]. cbn. by rewrite IH. Qed.

Lemma starts_snoc o l a : starts o (l ++ [a]) = starts o l ++ [o + Z.of_nat (length (packed l))].
Proof.
  revert o; induction l as [|b l IH]; intros o; [cbn; by rewrite Z.add_0_r|].
  cbn [app starts]. rewrite IH, packed_length_cons. do 3 f_equal. lia.
Qed.

Lemma starts_lookup o args : forall i q, starts o args !! i = Some q ->
  q = o + Z.of_nat (length (packed (take i args))).
Proof.
  revert o; induction args as [|a l IH]; intros o [|i] q Hq; cbn in Hq; simplify_eq.
  - cbn. lia.
  - apply IH in Hq. rewrite Hq. cbn [take]. rewrite packed_length_cons. lia.
Qed.

Lemma packed_split done_ a rest : packed (done_ ++ a :: rest) = packed done_ ++ (a ++ [0]) ++ packed rest.
Proof. change (a :: rest) with ([a] ++ rest). by rewrite !packed_app, packed_one. Qed.

(** A packed argument is a string in memory. *)
Lemma packed_cstr m o done_ a rest : bytes_at m o (packed (done_ ++ a :: rest)) ->
  Forall (fun b => 0 < b < 256) a -> 0 < o -> o + Z.of_nat (length (packed (done_ ++ a :: rest))) <= 4294967296 ->
  cstr m (o + Z.of_nat (length (packed done_))) a.
Proof.
  rewrite packed_split, !bytes_at_app, !length_app. cbn [length]. intros (_ & [B1 B2] & _) Ha Ho Hend.
  split; [lia|]. split; [|done]. by apply bytes_at_app.
Qed.

(** Unpacking: the block while the entries of [argv] are filled in. *)
Definition unpacked (five : list Z) (environment : Z) (args done_ : list (list Z)) : list Z :=
  words_bytes five ++ words_bytes (starts (environment + 52) done_) ++
  replicate (32 - 4 * length done_) 0 ++ packed args.

Lemma words_bytes_lookup m ws : forall a i w, bytes_at m a (words_bytes ws) -> ws !! i = Some w ->
  bytes_at m (a + 4 * Z.of_nat i) (word_bytes w).
Proof.
  induction ws as [|v ws IH]; intros a i w Hb Hi; [done|].
  rewrite words_bytes_cons, bytes_at_app in Hb. destruct Hb as [B0 Hb]. destruct i as [|i]; cbn in Hi.
  - simplify_eq. by rewrite Z.add_0_r.
  - eapply IH in Hb; [|exact Hi]. cbn [length word_bytes] in Hb.
    by replace (a + 4 * Z.of_nat (S i)) with (a + Z.of_nat 4 + 4 * Z.of_nat i) by lia.
Qed.


(** [argc] is the fifth word. *)
Lemma unpacked_argc m environment five args done_ n : bytes_at m environment (unpacked five environment args done_) ->
  five !! 4%nat = Some n -> is_u32 n -> load32 (env_argc environment) m = Ret (n, m).
Proof.
  intros [Hw _]%bytes_at_app Hn Hu. apply load32_bytes; [done|]. by apply (words_bytes_lookup _ five environment 4 n).
Qed.

(** One entry more. *)
Lemma unpacked_step m environment five args done_ a : (length done_ < 8)%nat -> length five = 5%nat ->
  bytes_at m environment (unpacked five environment args done_) ->
  let slot := env_argv environment + 4 * Z.of_nat (length done_) in
  let q := environment + 52 + Z.of_nat (length (packed done_)) in
  mapped m slot 4 /\
  bytes_at (write_bytes m slot (word_bytes q)) environment (unpacked five environment args (done_ ++ [a])).
Proof.
  intros Hd H5 Hb slot q. unfold unpacked in *.
  assert (Hslot : slot = environment + Z.of_nat (length (words_bytes five ++ words_bytes (starts (environment + 52) done_)))).
  { rewrite length_app, !length_words_bytes, length_starts, H5. unfold slot, env_argv. lia. }
  replace (32 - 4 * length done_)%nat with (4 + (32 - 4 * (length done_ + 1)))%nat in Hb by lia.
  rewrite replicate_add, <- !app_assoc, app_assoc in Hb. split.
  - apply bytes_at_mapped in Hb. eapply mapped_sub; [exact Hb|lia|].
    rewrite Hslot, !length_app, !length_replicate. lia.
  - rewrite starts_snoc, words_bytes_app, length_app. cbn [length].
    eapply (bytes_at_splice _ _ _ (replicate 4 0) _ (word_bytes q)) in Hb; [|done].
    rewrite <- Hslot, <- !app_assoc in Hb. rewrite <- !app_assoc. exact Hb.
Qed.

Lemma unpacked_buffer m environment five args done_ : (length done_ <= 8)%nat -> length five = 5%nat ->
  bytes_at m environment (unpacked five environment args done_) -> bytes_at m (environment + 52) (packed args).
Proof.
  intros Hd H5 Hb. unfold unpacked in Hb. rewrite !bytes_at_app in Hb. destruct Hb as (_ & _ & _ & Hb).
  rewrite length_replicate, !length_words_bytes, length_starts, H5 in Hb.
  by match type of Hb with bytes_at _ ?o _ => replace (environment + 52) with o by lia end.
Qed.

Lemma unpack_arguments_run space base current limit environment fuel : forall rest done_ m,
  let args := done_ ++ rest in
  let five := [space; base; current; limit; Z.of_nat (length args)] in
  0 < environment -> environment + 52 + Z.of_nat (length (packed args)) < 4294967296 ->
  (length args < 8)%nat -> (length rest < fuel)%nat ->
  Forall (Forall (fun b => 0 < b < 256)) args -> bytes_at m environment (unpacked five environment args done_) ->
  exists m', unpack_arguments fuel environment (Z.of_nat (length done_))
      (env_argv environment + 4 * Z.of_nat (length done_))
      (environment + 52 + Z.of_nat (length (packed done_))) m = Ret (tt, m') /\
    bytes_at m' environment (unpacked five environment args args).
Proof.
  induction fuel as [|fuel IH]; intros rest done_ m args five He Hend Hcnt Hfuel Hchars Hb; [lia|].
  cbn [unpack_arguments].
  erewrite run_bind by (eapply unpacked_argc; [exact Hb|reflexivity|unfold is_u32; lia]).
  rewrite s32_small by lia. destruct rest as [|a rest].
  { unfold args in *. rewrite app_nil_r in *. rewrite Z.ltb_irrefl. by exists m. }
  assert (Hlen : length args = (length done_ + S (length rest))%nat) by (unfold args; by rewrite length_app).
  rewrite (proj2 (Z.ltb_lt _ _)) by lia.
  destruct (unpacked_step m environment five args done_ a ltac:(lia) eq_refl Hb) as [Hslot Hb1].
  set (q := environment + 52 + Z.of_nat (length (packed done_))) in *. set (m1 := write_bytes _ _ _) in *.
  assert (Hq : 0 < q /\ q + Z.of_nat (length a) + 1 < 4294967296).
  { unfold q. unfold args in Hend. rewrite packed_split, !length_app in Hend. cbn [length] in Hend. lia. }
  erewrite run_bind by (by apply store32_bytes). fold m1.
  erewrite run_bind by (apply load32_bytes; [|apply bytes_at_write]; unfold is_u32; lia).
  erewrite run_bind; last first.
  { apply strlen_run. unfold q. eapply packed_cstr with (rest := rest);
      [|by apply Forall_app in Hchars as [_ [? _]%Forall_cons]|lia|fold args; lia].
    apply (unpacked_buffer _ _ five _ (done_ ++ [a])); [rewrite length_app; cbn; lia|reflexivity|exact Hb1]. }
  rewrite (u32_small (_ + 1)), (u32_small (q + _)) by lia.
  assert (Hla : length (done_ ++ [a]) = (length done_ + 1)%nat) by (by rewrite length_app).
  replace (q + (Z.of_nat (length a) + 1)) with (environment + 52 + Z.of_nat (length (packed (done_ ++ [a]))))
    by (unfold q; rewrite packed_length_app, packed_one, length_app; cbn [length]; lia).
  replace (Z.of_nat (length done_) + 1) with (Z.of_nat (length (done_ ++ [a]))) by lia.
  replace (env_argv environment + 4 * Z.of_nat (length done_) + 4)
    with (env_argv environment + 4 * Z.of_nat (length (done_ ++ [a]))) by lia.
  pose proof (IH rest (done_ ++ [a]) m1) as IH'. cbv zeta in IH'. rewrite <- !app_assoc in IH'. cbn [app] in IH'.
  apply IH'; try done. cbn [length] in Hfuel. lia.
Qed.

(** What [main] finds in the new process. *)
Definition main_arguments (m : mem) (args : list (list Z)) : Prop :=
  load32 (env_argc find_environment_block) m = Ret (Z.of_nat (length args), m) /\
  forall i a, args !! i = Some a -> exists q,
    load32 (env_argv find_environment_block + 4 * Z.of_nat i) m = Ret (q, m) /\ cstr m q a.

Lemma initialize_argv_run space base current limit args m :
  bytes_at m find_environment_block (environment_bytes space base current limit args) ->
  fits args = true -> Forall (Forall (fun b => 0 < b < 256)) args ->
  exists m', initialize_argv m = Ret (tt, m') /\ main_arguments m' args.
Proof.
  set (env := find_environment_block). intros Hb Hfit Hchars.
  assert (Henv : env = 4290772992) by reflexivity. unfold fits in Hfit. zbool.
  set (five := [space; base; current; limit; Z.of_nat (length args)]).
  assert (Hb0 : bytes_at m env (unpacked five env args [])).
  { unfold environment_bytes in Hb. rewrite !app_assoc in Hb. apply bytes_at_app in Hb as [Hb _].
    rewrite <- !app_assoc in Hb. exact Hb. }
  assert (Hfive : forall m d, bytes_at m env (unpacked five env args d) ->
    load32 (env_argc env) m = Ret (Z.of_nat (length args), m)).
  { intros m' d Hu. eapply unpacked_argc; [exact Hu|reflexivity|unfold is_u32; lia]. }
  destruct (unpack_arguments_run space base current limit env (Z.to_nat ARGV_COUNT_MAX) args [] m)
    as (m' & E & Hb'); cbn [app] in *; [lia|lia|lia|unfold ARGV_COUNT_MAX; lia|done|exact Hb0|].
  exists m'. split.
  - unfold initialize_argv. fold env. erewrite run_bind by (eapply Hfive; exact Hb0).
    erewrite run_bind by (apply run_assert; unfold ARGV_COUNT_MAX; rewrite s32_small by lia; apply Z.ltb_lt; lia).
    unfold env_argv_buffer. cbn [length packed fmap list_fmap concat Z.of_nat] in E. rewrite Z.mul_0_r, !Z.add_0_r in E.
    exact E.
  - split; [by eapply Hfive|]. intros i a Hi.
    destruct (lookup_lt_is_Some_2 (starts (env + 52) args) i) as [q Hq].
    { rewrite length_starts. by eapply lookup_lt_Some. }
    exists q. pose proof Hq as ->%starts_lookup.
    pose proof (take_drop_middle _ _ _ Hi) as Hsplit.
    assert (Hbuf : bytes_at m' (env + 52) (packed args)) by (apply (unpacked_buffer _ _ five _ args); [lia|reflexivity|exact Hb']).
    pose proof (f_equal (fun l => length (packed l)) Hsplit) as Hl. cbn beta in Hl.
    rewrite packed_split, !length_app in Hl. cbn [length] in Hl.
    split.
    + apply load32_bytes; [unfold is_u32; lia|]. unfold unpacked in Hb'. apply bytes_at_app in Hb' as [_ [Hw _]%bytes_at_app].
      by eapply (words_bytes_lookup _ _ _ i) in Hw.
    + rewrite <- Hsplit in Hbuf. eapply packed_cstr; [exact Hbuf| |lia|rewrite Hsplit; lia].
      rewrite Forall_forall in Hchars. apply Hchars. by eapply list_elem_of_lookup_2.
Qed.

Lemma length_environment_bytes space base current limit args : fits args = true ->
  length (environment_bytes space base current limit args) = 1080%nat.
Proof.
  intros Hf. unfold fits in Hf. zbool. unfold environment_bytes.
  rewrite !length_app, !length_replicate, length_words_bytes. cbn [length]. lia.
Qed.

(** The block is allocated with room for the alignment. *)
Lemma send_environment_run w thread space heap heap_size argv args p m0 m1 :
  heap_block (Malloc 5175 (memory w) :: trace w) = (p, m1) -> 0 < p -> mapped m1 p 5175 ->
  (forall x, p <= x < p + 5175 -> m0 !! x = None) -> m0 ⊆ m1 ->
  p + 5175 + Z.of_nat (length (packed args)) <= 4294967296 -> argument_vector m0 argv args ->
  exists st w' m2,
    send_environment_block thread space heap heap_size argv w = Ret (st, w') /\ m0 ⊆ m2 /\
    if fits args then
      exists u r m3, let e := Syscall SYSTEM_CALL_VECTOR_SEND_MESSAGE
          (syscall_args u [thread; MESSAGE_TYPE_LOAD_ADDRESS_SPACE; MESSAGE_ID_ATOMIC; page_up p; 1080;
             USER_ENVIRONMENT_BLOCK]) m2 in
        st = status r /\ kernel_reply (e :: Malloc 5175 (memory w) :: trace w) = (r, m3) /\
        trace w' = Free p m3 :: e :: Malloc 5175 (memory w) :: trace w /\ memory w' = heap_free (trace w') /\
        payload e = environment_bytes space heap heap (u32 (heap + heap_size)) args
    else st = STATUS_INSUFFICIENT_MEMORY /\
      trace w' = Free p m2 :: Malloc 5175 (memory w) :: trace w.
Proof.
  intros Hheap Hp Hmap Hnew Hsub Hwrap Hargs.
  assert (Hup : p <= page_up p <= p + 4095) by (unfold page_up; zlia).
  destruct (fill_environment_run space heap heap_size (page_up p) m0 m1 argv args)
    as (st & m2 & E & Hs2 & Hf); [lia|lia|intros x Hx; apply Hnew; lia|exact Hsub|eapply mapped_sub; [exact Hmap|lia|lia]|exact Hargs|].
  unfold send_environment_block. change (u32 (environment_size + PAGE_SIZE - 1)) with 5175.
  erewrite drun_bind by (unfold malloc; rewrite Hheap; reflexivity).
  rewrite (proj2 (Z.eqb_neq p NULL)) by (unfold NULL; lia). cbv zeta.
  rewrite page_align_page_up by lia. erewrite drun_bind by (apply drun_lift; exact E).
  destruct (fits args) eqn:Hfit.
  - destruct Hf as [-> Hb]. cbn [negb Z.eqb STATUS_SUCCESS].
    set (w2 := Machine m2 (Malloc 5175 (memory w) :: trace w)).
    destruct (send_message_run (mkMessage thread MESSAGE_TYPE_LOAD_ADDRESS_SPACE MESSAGE_ID_ATOMIC
      (page_up p) environment_size USER_ENVIRONMENT_BLOCK) w2) as (u & r & w3 & E3 & Ht & Hr).
    erewrite drun_bind by exact E3. do 2 eexists. exists m2. split; [reflexivity|]. split; [exact Hs2|].
    exists u, r, (memory w3). cbn [trace]. rewrite Ht in Hr |- *. repeat split; try done.
    unfold payload. replace (Z.to_nat _) with (length (environment_bytes space heap heap (u32 (heap + heap_size)) args)).
    + by apply read_bytes_at.
    + by rewrite length_environment_bytes.
  - subst st. cbn [negb Z.eqb STATUS_SUCCESS STATUS_INSUFFICIENT_MEMORY]. do 2 eexists. exists m2. done.
Qed.

Lemma fresh_block_new w n p m1 : fresh_block w n p m1 ->
  heap_block (Malloc n (memory w) :: trace w) = (p, m1) /\ 0 < p /\ mapped m1 p n /\
  (forall x, p <= x < p + n -> memory w !! x = None) /\ memory w ⊆ m1.
Proof.
  intros (Hheap & Hp & Hend & Hmap & Hnew & Hold). split_and!; try done.
  - intros x Hx. destruct (memory w !! x) eqn:E; [|done]. exfalso. by apply (Hnew x); [eexists|].
  - apply map_subseteq_spec. intros x v Hx. rewrite Hold; [done|by eexists].
Qed.

Lemma argument_vector_chars m argv args : argument_vector m argv args ->
  Forall (Forall (fun b => 0 < b < 256)) args.
Proof.
  intros [[_ ->]|(ptrs & _ & _ & _ & Hps)]; [done|].
  induction Hps as [|p a ptrs args Hp _ IH]; [done|]. constructor; [by eapply cstr_chars|done].
Qed.

(** C22. The arguments of a new process arrive: when they fit (at most seven,
    1023 bytes with their terminators), [send_environment_block] sends a block
    such that [initialize_argv], run in any memory into which the kernel has
    mapped that payload at the address of the environment block, returns and
    leaves [argc] and [argv] describing exactly the strings of the creator. *)
Theorem argv_roundtrip w thread space heap heap_size argv args p m1 :
  fresh_block w 5175 p m1 -> p + 5175 + Z.of_nat (length (packed args)) <= 4294967296 ->
  argument_vector (memory w) argv args -> fits args = true ->
  exists st w' u m2, let e := Syscall SYSTEM_CALL_VECTOR_SEND_MESSAGE
      (syscall_args u [thread; MESSAGE_TYPE_LOAD_ADDRESS_SPACE; MESSAGE_ID_ATOMIC; page_up p; 1080;
         USER_ENVIRONMENT_BLOCK]) m2 in
    send_environment_block thread space heap heap_size argv w = Ret (st, w') /\ In e (trace w') /\
    forall m, bytes_at m USER_ENVIRONMENT_BLOCK (payload e) ->
      exists m', initialize_argv m = Ret (tt, m') /\ main_arguments m' args.
Proof.
  intros (Hh & Hp0 & Hm & Hn & Hsub)%fresh_block_new Hwrap Hargs Hfit.
  destruct (send_environment_run w thread space heap heap_size argv args p _ m1 Hh Hp0 Hm Hn Hsub Hwrap Hargs)
    as (st & w' & m2 & E & _ & Hout). rewrite Hfit in Hout.
  destruct Hout as (u & r & m3 & _ & _ & Ht & _ & Hp). exists st, w', u, m2. cbv zeta. split; [exact E|].
  split; [rewrite Ht; by right; left|]. rewrite Hp. intros m Hb.
  eapply initialize_argv_run; [exact Hb|exact Hfit|by eapply argument_vector_chars].
Qed.

(** Arguments that do not fit are refused: [send_environment_block] returns
    [STATUS_INSUFFICIENT_MEMORY], sends nothing, frees its block, and no byte
    of the creator's memory has changed when it does. *)
Theorem argv_overflow_rejected w thread space heap heap_size argv args p m1 :
  fresh_block w 5175 p m1 -> p + 5175 + Z.of_nat (length (packed args)) <= 4294967296 ->
  argument_vector (memory w) argv args -> fits args = false ->
  exists w' m2, send_environment_block thread space heap heap_size argv w
      = Ret (STATUS_INSUFFICIENT_MEMORY, w') /\
    trace w' = Free p m2 :: Malloc 5175 (memory w) :: trace w /\ memory w ⊆ m2.
Proof.
  intros (Hh & Hp0 & Hm & Hn & Hsub)%fresh_block_new Hwrap Hargs Hfit.
  destruct (send_environment_run w thread space heap heap_size argv args p _ m1 Hh Hp0 Hm Hn Hsub Hwrap Hargs)
    as (st & w' & m2 & E & Hs & Hout). rewrite Hfit in Hout. destruct Hout as [-> Ht]. eauto.
Qed.

(** ** The ELF header *)

(** The characters of [ELF_IDENT_MAGIC]. *)
Definition elf_magic : list Z := [127; 69; 76; 70].

Record elf := mkElf { e_magic : list Z; e_type : Z; e_machine : Z; e_entry : Z; e_phoff : Z; e_entsize : Z; e_count : Z }.

(** The header at [image] describes [e]. *)
Definition elf_at (m : mem) (image : Z) (e : elf) : Prop :=
  bytes_at m image (e_magic e) /\ bytes_at m (image + 16) (half_bytes (e_type e)) /\
  bytes_at m (image + 18) (half_bytes (e_machine e)) /\ bytes_at m (image + 24) (word_bytes (e_entry e)) /\
  bytes_at m (image + 28) (word_bytes (e_phoff e)) /\ bytes_at m (image + 42) (half_bytes (e_entsize e)) /\
  bytes_at m (image + 44) (half_bytes (e_count e)) /\
  (length (e_magic e) = 4%nat /\ 0 <= e_type e < 65536 /\ 0 <= e_machine e < 65536 /\ is_u32 (e_entry e) /\ is_u32 (e_phoff e) /\
   0 <= e_entsize e < 65536 /\ 0 <= e_count e < 65536).

Lemma elf_at_subseteq (m0 m : mem) p e : m0 ⊆ m -> elf_at m0 p e -> elf_at m p e.
Proof.
  intros Hs (B1 & B2 & B3 & B4 & B5 & B6 & B7 & Hw).
  do 7 (split; [eapply subseteq_bytes_at; [exact Hs|eassumption]|]). exact Hw.
Qed.

Lemma elf_fields m image e : elf_at m image e ->
  header_type image m = Ret (e_type e, m) /\ header_machine image m = Ret (e_machine e, m) /\
  header_entry image m = Ret (e_entry e, m) /\ program_header_offset image m = Ret (e_phoff e, m) /\
  program_header_entry_size image m = Ret (e_entsize e, m) /\
  program_header_entry_count image m = Ret (e_count e, m).
Proof.
  intros (_ & B2 & B3 & B4 & B5 & B6 & B7 & _ & W1 & W2 & W3 & W4 & W5 & W6).
  repeat split; by (apply load16_bytes || apply load32_bytes).
Qed.

(** ** An environment that serves requests

    The kernel accepts every request and answers creations with [space] and
    [thread]; the allocator serves blocks of up to [most] bytes; neither of them
    touches the part [k] of the program's memory (the image, the arguments). *)
Class Services (k : mem) (space thread most : Z) : Prop := {
  services_accept v a m h : status (fst (kernel_reply (Syscall v a m :: h))) = STATUS_SUCCESS;
  services_space a m h : data0 (fst (kernel_reply
    (Syscall SYSTEM_CALL_VECTOR_CREATE_ADDRESS_SPACE a m :: h))) = space;
  services_thread a m h : data0 (fst (kernel_reply
    (Syscall SYSTEM_CALL_VECTOR_CREATE_THREAD a m :: h))) = thread;
  services_keep v a m h : k ⊆ m -> k ⊆ snd (kernel_reply (Syscall v a m :: h));
  services_malloc n m h : 0 <= n <= most -> k ⊆ m -> exists p m1,
    heap_block (Malloc n m :: h) = (p, m1) /\ 0 < p /\ p + n + most <= 4294967296 /\
    mapped m1 p n /\ (forall x, p <= x < p + n -> k !! x = None) /\ k ⊆ m1;
  services_free p m h : k ⊆ m -> k ⊆ heap_free (Free p m :: h)
}.

Section Served.
Context {k : mem} {space thread most : Z} {Hserve : Services k space thread most}.

Lemma requests_cons e h : requests (e :: h) = request_of e ++ requests h.
Proof. done. Qed.

(** A successful step: [k] is kept and the requests [rs] are made (latest
    first). *)
Definition served (w : machine) (rs : list request) (w' : machine) : Prop :=
  k ⊆ memory w' /\ requests (trace w') = rs ++ requests (trace w).

Lemma system_call_served v ds w : k ⊆ memory w -> exists u r w',
  system_call v ds w = Ret (r, w') /\ status r = STATUS_SUCCESS /\
  r = fst (kernel_reply (Syscall v (syscall_args u ds) (memory w) :: trace w)) /\
  served w (request_of (Syscall v (syscall_args u ds) (memory w))) w'.
Proof.
  intros Hk. destruct (system_call_run v ds w) as (u & r & w' & E & Ht & Hr). rewrite Ht in Hr.
  pose proof (services_accept v (syscall_args u ds) (memory w) (trace w)) as Hacc.
  pose proof (services_keep v (syscall_args u ds) (memory w) (trace w) Hk) as Hkeep.
  rewrite Hr in Hacc, Hkeep. exists u, r, w'. rewrite Hr. split; [done|]. split; [done|]. split; [done|].
  split; [done|]. rewrite Ht. apply requests_cons.
Qed.

Lemma expand_served a n w : k ⊆ memory w -> exists w',
  expand_address_space space a n 0 w = Ret (STATUS_SUCCESS, w') /\ served w [Expand space a n] w'.
Proof.
  intros Hk. destruct (system_call_served SYSTEM_CALL_VECTOR_EXPAND_ADDRESS_SPACE [space; a; n; 0] w Hk)
    as (u & r & w' & E & Hs & _ & Hsv).
  exists w'. split; [|exact Hsv]. unfold expand_address_space. erewrite drun_bind by exact E. by rewrite <- Hs.
Qed.

Lemma send_message_served m w : k ⊆ memory w -> exists u w',
  send_message (Some m) w = Ret (STATUS_SUCCESS, w') /\
  served w (request_of (Syscall SYSTEM_CALL_VECTOR_SEND_MESSAGE (syscall_args u (message_fields m)) (memory w))) w'.
Proof.
  intros Hk. destruct (system_call_served SYSTEM_CALL_VECTOR_SEND_MESSAGE (message_fields m) w Hk)
    as (u & r & w' & E & Hs & _ & Hsv).
  exists u, w'. split; [|exact Hsv]. unfold send_message. erewrite drun_bind by exact E. by rewrite <- Hs.
Qed.

(** A load message carries the bytes at its data address. *)
Lemma load_request u t data n dest m l : n = Z.of_nat (length l) -> bytes_at m data l ->
  request_of (Syscall SYSTEM_CALL_VECTOR_SEND_MESSAGE (syscall_args u
    [t; MESSAGE_TYPE_LOAD_ADDRESS_SPACE; MESSAGE_ID_ATOMIC; data; n; dest]) m) = [Load t dest l].
Proof.
  intros -> Hb. unfold request_of, payload. cbn -[read_bytes Z.to_nat]. by rewrite Nat2Z.id, read_bytes_at.
Qed.

(** Wherever the segment lies in the image, its bytes arrive. *)
Lemma send_misaligned_load w t data dest l :
  k ⊆ memory w -> bytes_at k data l -> Forall is_u8 l -> 0 < data -> (0 < length l)%nat ->
  Z.of_nat (length l) + 4095 <= most -> is_u32 dest ->
  exists w', send_misaligned_message (Some (mkMessage t MESSAGE_TYPE_LOAD_ADDRESS_SPACE MESSAGE_ID_ATOMIC
      data (Z.of_nat (length l)) dest)) w = Ret (STATUS_SUCCESS, w') /\ served w [Load t dest l] w'.
Proof.
  intros Hk Hb Hu8 Hdata Hl Hmost Hdest. unfold send_misaligned_message. cbn [destination_address msg_data msg_data_size].
  destruct ((dest =? 0) || _) eqn:Hal.
  { edestruct send_message_served as (u & w' & E & Hs); [exact Hk|]. rewrite E. exists w'. split; [done|].
    unfold message_fields in Hs.
    cbn [u_id msg_type msg_id msg_data msg_data_size destination_address] in Hs. rewrite (load_request _ _ _ _ _ _ l) in Hs; [done|done|].
    by eapply subseteq_bytes_at. }
  destruct (services_malloc (Z.of_nat (length l) + 4095) (memory w) (trace w)) as (p & m1 & Hh & Hp & Hend & Hmap & Hnew & Hk1);
    [lia|done|].
  replace (u32 (Z.of_nat (length l) + PAGE_SIZE - 1)) with (Z.of_nat (length l) + 4095)
    by (unfold u32, PAGE_SIZE; zlia).
  erewrite drun_bind by (unfold malloc; rewrite Hh; reflexivity).
  rewrite (proj2 (Z.eqb_neq p 0)) by lia. cbv zeta.
  destruct (aligned_data_spec p dest (Z.of_nat (length l))) as [Hin Hmod]; [lia|lia|lia|done|].
  set (d := aligned_data p dest) in *. rewrite !page_offset_mod.
  erewrite drun_bind by (apply drun_lift, run_assert, Z.ltb_lt; unfold PAGE_SIZE; lia).
  erewrite drun_bind by (apply drun_lift, run_assert, Z.eqb_eq; done).
  erewrite drun_bind; last first.
  { apply drun_lift, memcpy_run with (bs := l); [lia|done|done|by eapply subseteq_bytes_at|done| |].
    - eapply mapped_sub; [exact Hmap|lia|lia].
    - destruct (decide (d <= data)); [by left|right].
      destruct (decide (data + Z.of_nat (length l) <= d)); [done|exfalso].
      destruct (bytes_at_mapped _ _ _ Hb d ltac:(lia)) as [v Hv]. rewrite Hnew in Hv by lia. done. }
  edestruct send_message_served as (u & w' & E & Hk2 & Hs2);
    [|erewrite drun_bind by exact E]; cbn [memory].
  { apply subseteq_write; [|exact Hk1]. intros x Hx. apply Hnew. lia. }
  exists (Machine (heap_free (Free p (memory w') :: trace w')) (Free p (memory w') :: trace w')).
  split; [reflexivity|]. unfold served. cbn [memory trace] in *. split; [by apply services_free|].
  rewrite requests_cons. cbn [request_of app]. rewrite Hs2. unfold message_fields. cbn [u_id msg_type msg_id msg_data msg_data_size destination_address].
  rewrite (load_request _ _ _ _ _ _ l); [done|done|apply bytes_at_write].
Qed.

(** ** The segments *)

Section Image.
Context (image : Z) (img : list Z).
Context (Himg : bytes_at k image img) (Himg8 : Forall is_u8 img).
Context (Hrange : 0 < image /\ image + Z.of_nat (length img) <= 4294967295).

Definition loadable (s : segment) : bool := (s_type s =? ELF_PROGRAM_TYPE_LOAD) && (0 <? s_ms s).

(** The bytes of the file that belong to a segment. *)
Definition file_bytes (s : segment) : list Z :=
  take (Z.to_nat (s_fs s)) (drop (Z.to_nat (s_offset s)) img).

(** The requests for one segment, in the order they are made. *)
Definition segment_plan (s : segment) : list request :=
  (if s_fs s =? 0 then [] else [Load thread (s_va s) (file_bytes s)]) ++ bss_request space s.

Definition plan (segs : list segment) : list request :=
  concat (segment_plan <$> filter (fun s => loadable s = true) segs).

(** A page-aligned segment that lies in the file and in the address space. *)
Definition well_placed (s : segment) : Prop :=
  s_va s mod 4096 = 0 /\ s_fs s <= s_ms s /\ s_va s + s_ms s + 4095 < 4294967296 /\
  s_offset s + s_fs s <= Z.of_nat (length img) /\ s_fs s + 4095 <= most.

(** Loadable segments in ascending order, and where the last one ends. *)
Fixpoint ascending (heap : Z) (segs : list segment) : Prop :=
  match segs with
  | [] => True
  | s :: l =>
      if loadable s then heap <= s_va s /\ well_placed s /\ ascending (page_up (s_va s + s_ms s)) l
      else ascending heap l
  end.

Fixpoint heap_base_after (heap : Z) (segs : list segment) : Z :=
  match segs with
  | [] => heap
  | s :: l => heap_base_after (if loadable s then page_up (s_va s + s_ms s) else heap) l
  end.

Lemma file_bytes_at s : s_offset s + s_fs s <= Z.of_nat (length img) -> is_u32 (s_offset s) -> is_u32 (s_fs s) ->
  bytes_at k (image + s_offset s) (file_bytes s) /\ Z.of_nat (length (file_bytes s)) = s_fs s /\
  Forall is_u8 (file_bytes s).
Proof.
  unfold is_u32. intros He Ho Hf. unfold file_bytes.
  split; [|split; [rewrite length_take, length_drop; lia|by apply Forall_take, Forall_drop]].
  rewrite <- (take_drop (Z.to_nat (s_offset s)) img), bytes_at_app in Himg. destruct Himg as [_ Hd].
  rewrite length_take in Hd. replace (Z.of_nat _) with (s_offset s) in Hd by lia.
  rewrite <- (take_drop (Z.to_nat (s_fs s)) (drop _ _)), bytes_at_app in Hd. apply Hd.
Qed.

Lemma served_trans w rs w1 rs' w2 : served w rs w1 -> served w1 rs' w2 -> served w (rs' ++ rs) w2.
Proof. intros [_ H1] [? H2]. split; [done|]. by rewrite H2, H1, app_assoc. Qed.

Lemma send_segment_served w p s : k ⊆ memory w -> segment_at k p s -> well_placed s ->
  exists w', send_segment thread image p w = Ret (STATUS_SUCCESS, w') /\
    served w (if s_fs s =? 0 then [] else [Load thread (s_va s) (file_bytes s)]) w'.
Proof.
  intros Hk Hs (_ & Hle & Hva & Hoff & Hmost). destruct w as [m h]. cbn [memory] in Hk.
  assert (Hsm : segment_at m p s) by (by eapply segment_at_subseteq).
  destruct (segment_fields _ _ _ Hsm) as (_ & L1 & L2 & L3 & L4).
  destruct Hs as (_ & _ & _ & _ & _ & _ & Ho & Hv & Hf & Hm).
  unfold send_segment, dassert. do 2 (erewrite drun_bind by (apply drun_lift; first [exact L3 | exact L4])).
  erewrite drun_bind by (apply drun_lift, run_assert, Z.leb_le; done).
  destruct (Z.eqb_spec (s_fs s) 0) as [E|E]; [by eexists|].
  do 2 (erewrite drun_bind by (apply drun_lift; first [exact L2 | exact L1])).
  destruct (file_bytes_at s Hoff Ho Hf) as (Hb & Hl & Hu). unfold is_u32 in *.
  rewrite u32_small by lia. rewrite <- Hl. apply send_misaligned_load; try done; lia.
Qed.

Lemma send_bss_served w p s : k ⊆ memory w -> segment_at k p s -> well_placed s ->
  exists w', send_bss space p w = Ret (STATUS_SUCCESS, w') /\ served w (bss_request space s) w'.
Proof.
  intros Hk Hs (Ha & Hle & Hva & _ & _).
  assert (Hsm : segment_at (memory w) p s) by (by eapply segment_at_subseteq).
  destruct (send_bss_run space p s w Hsm Ha Hle Hva) as (st & w' & E & [(Hn & -> & ->)|(u & r & Hn & -> & Ht & Hr)]).
  - exists w. rewrite Hn. done.
  - rewrite Ht in Hr. set (a := syscall_args u _) in *.
    pose proof (services_accept SYSTEM_CALL_VECTOR_EXPAND_ADDRESS_SPACE a (memory w) (trace w)) as Hacc.
    pose proof (services_keep SYSTEM_CALL_VECTOR_EXPAND_ADDRESS_SPACE a (memory w) (trace w) Hk) as Hkeep.
    rewrite Hr in Hacc, Hkeep. exists w'. split; [by rewrite E, <- Hacc|]. split; [done|].
    rewrite Ht, requests_cons. f_equal. unfold bss_request in *. cbn [request_of]. by destruct (_ <? _).
Qed.

(** The program headers of the image. *)
Context (e : elf) (segs : list segment).
Context (Helf : elf_at k image e) (Hcount : e_count e = Z.of_nat (length segs)).
Context (Htable : image + e_phoff e + e_entsize e * e_count e < 4294967296).
Context (Hsegs : forall i s, segs !! i = Some s ->
  segment_at k (image + e_phoff e + e_entsize e * Z.of_nat i) s).

(** The round of a loadable segment, up to the next header. *)
Lemma load_round_served w p s heap (next : Z -> D Z) : k ⊆ memory w -> segment_at k p s -> well_placed s ->
  heap <= s_va s ->
  exists w', (st ← send_segment thread image p;
    if negb (st =? STATUS_SUCCESS) then mret NULL
    else
      st ← send_bss space p;
      if negb (st =? STATUS_SUCCESS) then mret NULL
      else
        va ← lift (virtual_address p);
        dassert (heap <=? va);;
        ms ← lift (memory_size p);
        next (PAGE_ALIGN (u32 (va + ms)))) w = next (page_up (s_va s + s_ms s)) w' /\
    served w (rev (segment_plan s)) w'.
Proof.
  intros Hk Hs Hwp Hheap.
  destruct (send_segment_served w p s Hk Hs Hwp) as (w1 & E1 & Hs1).
  destruct (send_bss_served w1 p s (proj1 Hs1) Hs Hwp) as (w2 & E2 & Hs2). exists w2. split.
  - erewrite drun_bind by exact E1. cbn [negb Z.eqb STATUS_SUCCESS].
    erewrite drun_bind by exact E2. cbn [negb Z.eqb STATUS_SUCCESS]. destruct w2 as [m2 h2].
    destruct (segment_fields _ _ _ (segment_at_subseteq _ _ _ _ (proj1 Hs2) Hs)) as (_ & _ & L3 & _ & L5).
    erewrite drun_bind by (apply drun_lift; exact L3).
    erewrite drun_bind by (apply drun_lift, run_assert, Z.leb_le, Hheap).
    erewrite drun_bind by (apply drun_lift; exact L5).
    destruct Hwp as (_ & _ & Hend & _ & _). destruct Hs as (_ & _ & _ & _ & _ & _ & _ & Hva & _ & Hms).
    unfold is_u32 in *. by rewrite u32_small, page_align_page_up by lia.
  - unfold segment_plan. rewrite rev_app_distr.
    replace (rev (bss_request space s) ++ _) with (bss_request space s ++ (if s_fs s =? 0 then [] else
      [Load thread (s_va s) (file_bytes s)])); [by eapply served_trans|].
    unfold bss_request. cbv zeta. destruct (page_up _ <? page_up _), (s_fs s =? 0); reflexivity.
Qed.

Lemma segments_loop_served fuel : forall rest done_ heap w, segs = done_ ++ rest -> (length rest < fuel)%nat ->
  k ⊆ memory w -> ascending heap rest ->
  exists w', segments_loop fuel thread space image (Z.of_nat (length done_))
      (image + e_phoff e + e_entsize e * Z.of_nat (length done_)) heap w
      = Ret (heap_base_after heap rest, w') /\ served w (rev (plan rest)) w'.
Proof.
  induction fuel as [|fuel IH]; intros rest done_ heap w Hsplit Hfuel Hk Hasc; [lia|].
  cbn [segments_loop]. destruct w as [m h]. cbn [memory] in Hk.
  destruct (elf_fields _ _ _ (elf_at_subseteq _ _ _ _ Hk Helf)) as (_ & _ & _ & _ & _ & Lc).
  erewrite drun_bind by (apply drun_lift; exact Lc). rewrite Hcount, Hsplit, length_app.
  destruct rest as [|s rest].
  { rewrite (proj2 (Z.ltb_ge _ _)) by (cbn [length]; lia). by eexists. }
  cbn [length] in *. rewrite (proj2 (Z.ltb_lt _ _)) by lia.
  set (p := image + e_phoff e + e_entsize e * Z.of_nat (length done_)) in *.
  assert (Hs : segment_at k p s) by (apply Hsegs; rewrite Hsplit; by apply list_lookup_middle).
  destruct (segment_fields _ _ _ (segment_at_subseteq _ _ _ _ Hk Hs)) as (L1 & _ & _ & _ & L5).
  erewrite drun_bind by (apply drun_lift; exact L1).
  set (next := fun heap : Z => entry_size ← lift (program_header_entry_size image);
    segments_loop fuel thread space image (Z.of_nat (length done_) + 1) (u32 (p + entry_size)) heap).
  (* the tail of a round *)
  assert (Hnext : forall heap w, k ⊆ memory w -> ascending heap rest -> exists w',
    next heap w = Ret (heap_base_after heap rest, w') /\ served w (rev (plan rest)) w').
  { clear - IH Hfuel Helf Hrange Hsplit Htable Hcount. intros heap [m h] Hk Hasc. unfold next. cbn [memory] in Hk.
    destruct (elf_fields _ _ _ (elf_at_subseteq _ _ _ _ Hk Helf)) as (_ & _ & _ & _ & Le & _).
    erewrite drun_bind by (apply drun_lift; exact Le).
    destruct Helf as (_ & _ & _ & _ & _ & _ & _ & _ & _ & _ & _ & Hp & He & _). unfold is_u32 in Hp.
    replace (u32 (p + e_entsize e)) with (image + e_phoff e + e_entsize e * Z.of_nat (length (done_ ++ [s]))).
    - replace (Z.of_nat (length done_) + 1) with (Z.of_nat (length (done_ ++ [s]))) by (rewrite length_app; cbn; lia).
      apply IH; [by rewrite <- app_assoc|lia|done|done].
    - rewrite Hcount, Hsplit, length_app in Htable. cbn [length] in Htable. rewrite length_app. cbn [length].
      unfold p. rewrite u32_small by nia. lia. }
  assert (Hplan : plan (s :: rest) = (if loadable s then segment_plan s else []) ++ plan rest).
  { unfold plan. rewrite filter_cons. destruct (loadable s); [by rewrite decide_True|by rewrite decide_False]. }
  rewrite Hplan, rev_app_distr. cbn [ascending heap_base_after] in *. unfold loadable in Hasc |- *.
  destruct (s_type s =? ELF_PROGRAM_TYPE_LOAD) eqn:Hty; cbn [andb] in *; last first.
  { erewrite drun_bind by reflexivity. rewrite app_nil_r. by apply Hnext. }
  erewrite drun_bind; last first.
  { erewrite drun_bind by (apply drun_lift; exact L5). reflexivity. }
  cbv beta. destruct (0 <? s_ms s); last first.
  { rewrite app_nil_r. by apply Hnext. }
  destruct Hasc as (Hheap & Hwp & Hasc).
  destruct (load_round_served (Machine m h) p s heap next Hk Hs Hwp Hheap) as (w2 & E2 & Hs2).
  destruct (Hnext (page_up (s_va s + s_ms s)) w2 (proj1 Hs2) Hasc) as (w3 & E3 & Hs3).
  exists w3. split; [rewrite <- E3; exact E2|]. by eapply served_trans.
Qed.

Lemma send_segments_served w : k ⊆ memory w -> ascending 0 segs -> exists w',
  send_segments thread space image w = Ret (heap_base_after 0 segs, w') /\ served w (rev (plan segs)) w'.
Proof.
  intros Hk Hasc. unfold send_segments. destruct w as [m h]. cbn [memory] in Hk.
  destruct (elf_fields _ _ _ (elf_at_subseteq _ _ _ _ Hk Helf)) as (_ & _ & _ & L & _).
  erewrite drun_bind by (apply drun_lift; exact L).
  pose proof Helf as (_ & _ & _ & _ & _ & _ & _ & _ & _ & _ & _ & Hp & He & Hc). unfold is_u32 in Hp.
  rewrite u32_small by nia.
  replace (image + e_phoff e) with (image + e_phoff e + e_entsize e * Z.of_nat (length (@nil segment))) by (cbn; lia).
  apply (segments_loop_served (Z.to_nat 65536) segs [] 0 (Machine m h)); [done|lia|done|done].
Qed.

End Image.

(** ** The whole of [create_process_from_image] *)

(** An executable for this machine in the memory [k], with the literal
    [ELF_IDENT_MAGIC] at [magic]. *)
Record executable (magic image : Z) (img : list Z) (e : elf) (segs : list segment) : Prop := {
  exe_bytes : bytes_at k image img;
  exe_u8 : Forall is_u8 img;
  exe_range : 0 < image /\ image + Z.of_nat (length img) <= 4294967295;
  exe_literal : cstr k magic elf_magic;
  exe_header : elf_at k image e;
  exe_magic : e_magic e = elf_magic;
  exe_type : e_type e = ELF_TYPE_EXECUTABLE;
  exe_machine : e_machine e = ELF_MACHINE_386;
  exe_count : e_count e = Z.of_nat (length segs);
  exe_table : image + e_phoff e + e_entsize e * e_count e < 4294967296;
  exe_segments i s : segs !! i = Some s -> segment_at k (image + e_phoff e + e_entsize e * Z.of_nat i) s;
  exe_ascending : ascending img 0 segs;
  exe_loads : heap_base_after 0 segs <> 0
}.

(** The requests that install and start the process, in order. *)
Definition installation (img : list Z) (e : elf) (segs : list segment) (mask : Z) (args : list (list Z)) : list request :=
  let heap := heap_base_after 0 segs in
  [CreateSpace; CreateThread space (e_entry e) (USER_ENVIRONMENT_BLOCK - 4) mask] ++ plan img segs ++
  [Expand space (USER_ENVIRONMENT_BLOCK - 16384) 16384; Expand space heap 98304;
   Load thread USER_ENVIRONMENT_BLOCK (environment_bytes space heap heap (u32 (heap + 98304)) args);
   Start thread].

Lemma read_elf_header_run (m : mem) magic image e : cstr m magic elf_magic -> elf_at m image e ->
  read_elf_header magic image m
    = Ret (if first_diff elf_magic (e_magic e) =? 0 then image else NULL, m).
Proof.
  intros Hl (Hm & _ & _ & _ & _ & _ & _ & H4 & _). unfold read_elf_header.
  erewrite run_bind by (by apply strlen_run). change (Z.of_nat (length elf_magic)) with 4. cbn [length elf_magic].
  erewrite run_bind; last first.
  { change 4 with (Z.of_nat 4). rewrite <- H4. apply (memcmp_run _ _ _ _ elf_magic); [by rewrite H4|exact Hm|by apply cstr_bytes]. }
  done.
Qed.

Lemma create_address_space_served w : k ⊆ memory w -> exists w',
  create_address_space w = Ret (space, w') /\ served w [CreateSpace] w'.
Proof.
  intros Hk. destruct (system_call_served SYSTEM_CALL_VECTOR_CREATE_ADDRESS_SPACE [] w Hk)
    as (u & r & w' & E & Hs & Hr & Hsv).
  exists w'. split; [|exact Hsv]. unfold create_address_space. erewrite drun_bind by exact E.
  rewrite Hs, Hr, services_space. done.
Qed.

Lemma create_thread_served entry stack mask w : k ⊆ memory w -> exists w',
  create_thread space entry stack mask w = Ret (thread, w') /\
  served w [CreateThread space entry stack mask] w'.
Proof.
  intros Hk. destruct (system_call_served SYSTEM_CALL_VECTOR_CREATE_THREAD [space; entry; stack; mask] w Hk)
    as (u & r & w' & E & Hs & Hr & Hsv).
  exists w'. split; [|exact Hsv]. unfold create_thread. erewrite drun_bind by exact E.
  rewrite Hs, Hr, services_thread. done.
Qed.

Lemma start_thread_served w : k ⊆ memory w -> exists w',
  start_thread thread w = Ret (STATUS_SUCCESS, w') /\ served w [Start thread] w'.
Proof.
  intros Hk. unfold start_thread. erewrite drun_bind by reflexivity.
  edestruct send_message_served as (u & w' & E & Hs); [exact Hk|]. rewrite E. by exists w'.
Qed.

Lemma send_environment_served w heap heap_size argv args : k ⊆ memory w -> argument_vector k argv args ->
  fits args = true -> 5175 <= most -> exists w',
  send_environment_block thread space heap heap_size argv w = Ret (STATUS_SUCCESS, w') /\
  served w [Load thread USER_ENVIRONMENT_BLOCK
    (environment_bytes space heap heap (u32 (heap + heap_size)) args)] w'.
Proof.
  intros Hk Hargs Hfit Hmost.
  destruct (services_malloc 5175 (memory w) (trace w)) as (p & m1 & Hh & Hp & Hend & Hmap & Hnew & Hk1); [lia|done|].
  destruct (send_environment_run w thread space heap heap_size argv args p k m1) as (st & w' & m2 & E & Hk2 & Hout); try done.
  { unfold fits in Hfit. zbool. lia. }
  rewrite Hfit in Hout. destruct Hout as (u & r & m3 & -> & Hr & Ht & Hfree & Hp2).
  set (a := syscall_args u _) in *. set (h := Malloc 5175 _ :: trace w) in *.
  pose proof (services_accept SYSTEM_CALL_VECTOR_SEND_MESSAGE a m2 h) as Hacc.
  pose proof (services_keep SYSTEM_CALL_VECTOR_SEND_MESSAGE a m2 h Hk2) as Hkeep.
  rewrite Hr in Hacc, Hkeep. exists w'. split; [rewrite E; cbn in Hacc; by rewrite Hacc|].
  split; [rewrite Hfree, Ht; by apply services_free|]. rewrite Ht. unfold h. rewrite !requests_cons.
  rewrite <- Hp2. reflexivity.
Qed.

(** The last four requests. *)
Lemma install_rest_served w heap argv args : k ⊆ memory w -> argument_vector k argv args ->
  fits args = true -> 5175 <= most -> exists w',
  if_success (send_stack space (USER_ENVIRONMENT_BLOCK - 4) (4 * PAGE_SIZE))
    (if_success (send_heap space heap (24 * PAGE_SIZE))
    (if_success (send_environment_block thread space heap (24 * PAGE_SIZE) argv) (start_thread thread))) w
    = Ret (STATUS_SUCCESS, w') /\
  served w [Start thread; Load thread USER_ENVIRONMENT_BLOCK
      (environment_bytes space heap heap (u32 (heap + 98304)) args);
    Expand space heap 98304; Expand space (USER_ENVIRONMENT_BLOCK - 16384) 16384] w'.
Proof.
  intros Hk Hargs Hfit Hmost. unfold if_success, send_stack, send_heap, dassert.
  change (24 * PAGE_SIZE) with 98304. change (4 * PAGE_SIZE) with 16384.
  change (u32 (PAGE_ALIGN (USER_ENVIRONMENT_BLOCK - 4) - 16384)) with (USER_ENVIRONMENT_BLOCK - 16384).
  change (0 <? 98304) with true. cbv iota. destruct w as [m h].
  edestruct expand_served as (w1 & E1 & S1); [exact Hk|].
  erewrite drun_bind; last first.
  { erewrite drun_bind by (apply drun_lift, run_assert; done). exact E1. }
  change (negb (STATUS_SUCCESS =? STATUS_SUCCESS)) with false. cbv beta iota.
  edestruct expand_served as (w2 & E2 & S2); [exact (proj1 S1)|]. erewrite drun_bind by exact E2.
  change (negb (STATUS_SUCCESS =? STATUS_SUCCESS)) with false. cbv beta iota.
  destruct (send_environment_served w2 heap 98304 argv args (proj1 S2) Hargs Hfit Hmost) as (w3 & E3 & S3).
  erewrite drun_bind by exact E3.
  change (negb (STATUS_SUCCESS =? STATUS_SUCCESS)) with false. cbv beta iota.
  destruct (start_thread_served w3 (proj1 S3)) as (w4 & E4 & S4). exists w4. split; [exact E4|].
  split; [exact (proj1 S4)|]. by rewrite (proj2 S4), (proj2 S3), (proj2 S2), (proj2 S1).
Qed.

(** C12. Creating a process from a well-formed executable works: with a kernel
    that accepts the requests and an allocator that serves the buffers, the
    routine returns success after exactly these requests, in this order: the
    address space, its thread at the entry point, for every loadable segment its
    bytes of the file (wherever the image lies in memory) and the pages that the
    file does not fill, the stack, the heap behind the last segment, the
    environment block with the arguments, and only then the start. *)
Theorem create_process_installs magic image img e segs image_size mask argv args w :
  executable magic image img e segs -> argument_vector k argv args -> fits args = true ->
  5175 <= most -> space <> ADDRESS_SPACE_ID_INVALID -> thread <> THREAD_ID_INVALID -> image_size <> 0 ->
  k ⊆ memory w ->
  exists w', create_process_from_image magic image image_size mask argv w = Ret (STATUS_SUCCESS, w') /\
    requests (trace w') = rev (installation img e segs mask args) ++ requests (trace w).
Proof.
  intros [Himg Hu8 Hrange Hlit Helf Hmagic Hty Hmach Hcount Htable Hsegs Hasc Hheap] Hargs Hfit Hmost Hsp Hth Hsz Hk.
  unfold create_process_from_image. destruct w as [m h]. cbn [memory] in Hk.
  rewrite (proj2 (Z.eqb_neq image NULL)) by (unfold NULL; lia). rewrite (proj2 (Z.eqb_neq _ _) Hsz). cbn [orb].
  destruct (elf_fields _ _ _ (elf_at_subseteq _ _ _ _ Hk Helf)) as (L1 & L2 & _).
  erewrite drun_bind by (apply drun_lift, read_elf_header_run; [by eapply subseteq_cstr|by eapply elf_at_subseteq]).
  rewrite Hmagic. cbv beta. change (first_diff elf_magic elf_magic =? 0) with true. cbv iota.
  rewrite (proj2 (Z.eqb_neq image NULL)) by (unfold NULL; lia).
  erewrite drun_bind by (apply drun_lift; exact L1). rewrite Hty. cbn [negb Z.eqb ELF_TYPE_EXECUTABLE Pos.eqb].
  erewrite drun_bind; last first.
  { erewrite drun_bind by (apply drun_lift; exact L2). rewrite Hmach. reflexivity. }
  change (negb (ELF_MACHINE_386 =? ELF_MACHINE_386)) with false. cbv beta iota.
  destruct (create_address_space_served (Machine m h) Hk) as ([m1 h1] & E1 & S1). erewrite drun_bind by exact E1.
  rewrite (proj2 (Z.eqb_neq _ _) Hsp).
  destruct (elf_fields _ _ _ (elf_at_subseteq _ _ _ _ (proj1 S1) Helf)) as (_ & _ & L3 & _).
  erewrite drun_bind by (apply drun_lift; exact L3).
  cbv zeta. edestruct create_thread_served as ([m2 h2] & E2 & S2); [exact (proj1 S1)|]. erewrite drun_bind by exact E2.
  rewrite (proj2 (Z.eqb_neq _ _) Hth).
  destruct (send_segments_served image img Himg Hu8 Hrange e segs Helf Hcount Htable Hsegs (Machine m2 h2)
    (proj1 S2) Hasc) as (w3 & E3 & S3).
  erewrite drun_bind by exact E3. rewrite (proj2 (Z.eqb_neq _ NULL) Hheap).
  destruct (install_rest_served w3 (heap_base_after 0 segs) argv args (proj1 S3) Hargs Hfit Hmost) as (w4 & E4 & S4).
  exists w4. split; [exact E4|].
  rewrite (proj2 S4), (proj2 S3), (proj2 S2), (proj2 S1). unfold installation. rewrite !rev_app_distr.
  cbn [rev app]. by rewrite <- !app_assoc.
Qed.

End Served.

(** ** Images that are refused *)

Lemma first_diff_eq l : forall k, length l = length k -> Forall is_u8 l -> Forall is_u8 k ->
  first_diff l k = 0 -> l = k.
Proof.
  induction l as [|a l IH]; intros [|b k] Hlen Hl Hk E; try done. apply Forall_cons in Hl as [Ha Hl].
  apply Forall_cons in Hk as [Hb Hk]. cbn [first_diff] in E. unfold is_u8 in Ha, Hb.
  destruct (Z.eqb_spec (s8 a) (s8 b)) as [Es|Es]; [|lia]. f_equal; [unfold s8 in Es; zlia|].
  apply IH; [by injection Hlen|done..].
Qed.

(** An image that does not carry the ELF signature, or is not an executable
    for the 386, is refused with [STATUS_INVALID_IMAGE] before anything is
    created: memory and trace are as before. *)
Theorem create_process_rejects magic image e image_size mask argv w :
  cstr (memory w) magic elf_magic -> elf_at (memory w) image e -> Forall is_u8 (e_magic e) ->
  0 < image -> image_size <> 0 ->
  e_magic e <> elf_magic \/ e_type e <> ELF_TYPE_EXECUTABLE \/ e_machine e <> ELF_MACHINE_386 ->
  create_process_from_image magic image image_size mask argv w = Ret (STATUS_INVALID_IMAGE, w).
Proof.
  intros Hlit Helf Hu8 Hi Hsz Hbad. unfold create_process_from_image. destruct w as [m h]. cbn [memory] in *.
  rewrite (proj2 (Z.eqb_neq image NULL)) by (unfold NULL; lia). rewrite (proj2 (Z.eqb_neq _ _) Hsz). cbn [orb].
  destruct (elf_fields _ _ _ Helf) as (L1 & L2 & _).
  erewrite drun_bind by (by apply drun_lift, read_elf_header_run). cbv beta.
  destruct (Z.eqb_spec (first_diff elf_magic (e_magic e)) 0) as [Eq|Eq]; [|done].
  assert (Hmagic : e_magic e = elf_magic).
  { symmetry. apply first_diff_eq; [|by_eval|done|done]. destruct Helf as (_ & _ & _ & _ & _ & _ & _ & -> & _). done. }
  rewrite (proj2 (Z.eqb_neq image NULL)) by (unfold NULL; lia).
  erewrite drun_bind by (apply drun_lift; exact L1).
  destruct (Z.eqb_spec (e_type e) ELF_TYPE_EXECUTABLE) as [Et|Et]; cbn [negb]; [|done].
  erewrite drun_bind; last first.
  { erewrite drun_bind by (apply drun_lift; exact L2). reflexivity. }
  destruct (Z.eqb_spec (e_machine e) ELF_MACHINE_386) as [Em|Em]; cbn [negb]; [|done]. tauto.
Qed.

(** When a segment starts inside a page and its file part ends at a page
    boundary, [send_bss] tests the size of the file part instead of its end and
    skips a page too many: it reports success without a request, although the
    .bss bytes lie on a page of their own that nothing else maps. *)
Theorem send_bss_skips_page space p s w :
  segment_at (memory w) p s -> s_va s mod 4096 <> 0 -> (s_va s + s_fs s) mod 4096 = 0 ->
  s_fs s < s_ms s < s_fs s + 4096 -> s_va s + s_ms s + 4095 < 4294967296 ->
  send_bss space p w = Ret (STATUS_SUCCESS, w) /\ bss_request space s = [Expand space (s_va s + s_fs s) 4096].
Proof.
  intros Hs Hva Hend Hms Hmax. destruct w as [m h]. cbn [memory] in *.
  destruct (segment_fields _ _ _ Hs) as (_ & _ & L1 & L2 & L3).
  destruct Hs as (_ & _ & _ & _ & _ & _ & _ & Wva & Wfs & Wms). unfold is_u32 in *. split.
  - unfold send_bss. do 3 (erewrite drun_bind by (apply drun_lift; first [exact L1|exact L2|exact L3])). cbv zeta.
    rewrite (u32_small (s_va s + s_fs s)), (u32_small (s_va s + s_ms s)) by lia.
    rewrite (proj2 (Z.eqb_neq (s_va s + s_fs s) _)) by lia. cbn [negb].
    rewrite page_base_mod by (unfold is_u32; lia). rewrite page_align_page_up by lia. rewrite Hend.
    rewrite (proj2 (Z.eqb_neq (s_fs s mod PAGE_SIZE) 0)) by (unfold PAGE_SIZE; zlia). cbn [negb].
    replace (u32 (s_va s + s_fs s - 0 + PAGE_SIZE)) with (page_up (s_va s + s_ms s))
      by (unfold page_up, PAGE_SIZE, u32; zlia).
    unfold dassert. erewrite drun_bind by (apply drun_lift, run_assert, Z.leb_le; lia).
    rewrite Z.sub_diag. cbn [negb Z.eqb].
    erewrite drun_bind by (apply drun_lift, run_assert, Z.ltb_lt; unfold PAGE_SIZE, u32; zlia). done.
  - unfold bss_request. replace (page_up (s_va s + s_fs s)) with (s_va s + s_fs s) by (unfold page_up; zlia).
    replace (page_up (s_va s + s_ms s)) with (s_va s + s_fs s + 4096) by (unfold page_up; zlia).
    cbv zeta. rewrite (proj2 (Z.ltb_lt _ _)) by lia. do 2 f_equal. lia.
Qed.

End Theorems.

(** ** The heap of a process *)

(** The heap words of the environment block. *)
Definition heap_at (m : mem) (base current limit : Z) : Prop :=
  bytes_at m (env_heap_base find_environment_block) (words_bytes [base; current; limit]).

(** A sequence of requests to [sbrk]. *)
Fixpoint sbrk_all (errno : Z) (deltas : list Z) : C (list Z) :=
  match deltas with
  | [] => mret []
  | d :: l => r ← sbrk errno d; rs ← sbrk_all errno l; mret (r :: rs)
  end.

(** What a heap that ends at [limit] answers: a request that fits gets the
    block at the current end, the others get -1. *)
Fixpoint heap_answers (current limit : Z) (deltas : list Z) : list Z :=
  match deltas with
  | [] => []
  | d :: l =>
      if current + d <=? limit then current :: heap_answers (current + d) limit l
      else 4294967295 :: heap_answers current limit l
  end.

Lemma sbrk_run m errno base current limit d :
  heap_at m base current limit -> 0 <= base <= current -> current <= limit <= 2147483648 ->
  0 <= d < 2147483648 -> mapped m errno 4 ->
  errno + 4 <= env_heap_base find_environment_block \/ env_heap_limit find_environment_block + 4 <= errno ->
  exists m', sbrk errno d m = Ret (if current + d <=? limit then current else 4294967295, m') /\
    heap_at m' base (if current + d <=? limit then current + d else current) limit /\ mapped m' errno 4.
Proof.
  intros Hh Hb Hl Hd He Hdis. unfold heap_at in Hh.
  destruct (load_three_words _ _ _ _ _ Hh) as (L1 & L2 & L3); try (unfold is_u32; lia).
  unfold sbrk. change (env_heap_base find_environment_block + 4) with (env_heap_current find_environment_block) in L2.
  change (env_heap_base find_environment_block + 8) with (env_heap_limit find_environment_block) in L3.
  erewrite run_bind by exact L2. cbv zeta. rewrite u32_small by lia. erewrite run_bind by exact L1.
  erewrite run_bind by (apply run_assert, Z.leb_le; lia). rewrite (proj2 (Z.ltb_ge _ base)) by lia.
  erewrite run_bind by exact L3. destruct (Z.leb_spec (current + d) limit) as [Hfit|Hno].
  - rewrite (proj2 (Z.ltb_ge limit _)) by lia.
    erewrite run_bind by (by apply run_assert). erewrite run_bind by (apply run_assert, Z.leb_le; lia).
    erewrite run_bind by (apply store32_bytes; apply bytes_at_mapped in Hh; eapply mapped_sub; [exact Hh|unfold env_heap_base, env_heap_current; lia|rewrite length_words_bytes; unfold env_heap_base, env_heap_current; cbn [length]; lia]).
    eexists. split; [reflexivity|]. split; [|by apply mapped_write].
    unfold heap_at. apply (bytes_at_splice _ _ (word_bytes base) (word_bytes current) (word_bytes limit ++ [])
      (word_bytes (current + d))) in Hh; [|done]. exact Hh.
  - rewrite (proj2 (Z.ltb_lt limit _)) by lia. erewrite run_bind by (by apply store32_bytes).
    eexists. split; [reflexivity|]. split; [|by apply mapped_write]. apply bytes_at_write_disjoint; [|done].
    unfold env_heap_limit, env_heap_base in *. cbn [length word_bytes words_bytes fmap list_fmap concat app]. lia.
Qed.

Lemma length_heap_answers limit deltas : forall current, length (heap_answers current limit deltas) = length deltas.
Proof. induction deltas as [|d l IH]; intros c; cbn; [done|]. destruct (_ <=? _); cbn; by rewrite IH. Qed.

Lemma heap_answers_lookup limit deltas : forall current i r d,
  Forall (fun d => 0 <= d) deltas -> heap_answers current limit deltas !! i = Some r -> deltas !! i = Some d ->
  r = 4294967295 \/ (current <= r /\ r + d <= limit /\
    forall j r', (i < j)%nat -> heap_answers current limit deltas !! j = Some r' -> r' = 4294967295 \/ r + d <= r').
Proof.
  induction deltas as [|d0 l IH]; intros current i r d Hpos Hr Hd; [done|].
  apply Forall_cons in Hpos as [Hd0 Hpos]. cbn [heap_answers] in *.
  destruct (Z.leb_spec (current + d0) limit) as [Hf|Hn]; destruct i as [|i]; cbn in Hr, Hd; simplify_eq.
  - right. split; [lia|]. split; [lia|]. intros [|j] r' Hj Hr'; [lia|]. cbn in Hr'.
    destruct (lookup_lt_is_Some_2 l j) as [dj Hdj].
    { apply lookup_lt_Some in Hr'. by rewrite length_heap_answers in Hr'. }
    destruct (IH _ _ _ _ Hpos Hr' Hdj) as [?|(? & _)]; [by left|right; lia].
  - destruct (IH _ _ _ _ Hpos Hr Hd) as [?|(H1 & H2 & H3)]; [by left|right].
    split; [lia|]. split; [done|]. intros [|j] r' Hj Hr'; [lia|]. eapply (H3 j); [lia|exact Hr'].
  - by left.
  - destruct (IH _ _ _ _ Hpos Hr Hd) as [?|(H1 & H2 & H3)]; [by left|right].
    split; [lia|]. split; [done|]. intros [|j] r' Hj Hr'; [lia|]. eapply (H3 j); [lia|exact Hr'].
Qed.

(** Any sequence of growing requests to [sbrk] returns; a request gets the
    old end of the heap when it fits below the limit and -1 otherwise, so the
    blocks handed out lie between the first end and the limit and each begins
    at or after the end of the ones before. *)
Theorem sbrk_blocks_disjoint m errno base current limit deltas :
  heap_at m base current limit -> 0 <= base <= current -> current <= limit <= 2147483648 ->
  Forall (fun d => 0 <= d < 2147483648) deltas -> mapped m errno 4 ->
  errno + 4 <= env_heap_base find_environment_block \/ env_heap_limit find_environment_block + 4 <= errno ->
  exists rs m', sbrk_all errno deltas m = Ret (rs, m') /\ rs = heap_answers current limit deltas /\
    forall i r d, rs !! i = Some r -> deltas !! i = Some d ->
      r = 4294967295 \/ (current <= r /\ r + d <= limit /\
        forall j r', (i < j)%nat -> rs !! j = Some r' -> r' = 4294967295 \/ r + d <= r').
Proof.
  intros Hh Hb Hl Hd He Hdis.
  assert (Hrun : exists m', sbrk_all errno deltas m = Ret (heap_answers current limit deltas, m')).
  { revert m current Hh Hb Hl He. induction Hd as [|d l Hd0 _ IH]; intros m current Hh Hb Hl He; [by eexists|].
    cbn [sbrk_all heap_answers].
    destruct (sbrk_run m errno base current limit d Hh Hb Hl Hd0 He Hdis) as (m1 & E1 & Hh1 & He1).
    erewrite run_bind by exact E1. destruct (Z.leb_spec (current + d) limit).
    - destruct (IH m1 (current + d) Hh1 ltac:(lia) ltac:(lia) He1) as (m2 & E2).
      erewrite run_bind by exact E2. by eexists.
    - destruct (IH m1 current Hh1 Hb Hl He1) as (m2 & E2). erewrite run_bind by exact E2. by eexists. }
  destruct Hrun as (m' & E). exists (heap_answers current limit deltas), m'. split; [exact E|]. split; [done|].
  intros i r d. apply heap_answers_lookup. eapply Forall_impl; [exact Hd|]. cbn. lia.
Qed.

(** ** Witnesses *)

Lemma example_services (k : mem) p most : 0 < p -> 0 <= most -> p + 2 * most <= 4294967296 ->
  (forall x, p <= x < p + most -> k !! x = None) -> @Services (example_world p) k 0 0 most.
Proof.
  intros Hp Hm Hend Hk. split; try done.
  - intros v a m h. cbn -[SYSTEM_CALL_VECTOR_RECEIVE_MESSAGE]. by destruct (v =? SYSTEM_CALL_VECTOR_RECEIVE_MESSAGE).
  - intros n m h Hn Hs. eexists _, _. split; [reflexivity|].
    assert (Hl : Z.of_nat (length (replicate (Z.to_nat n) 0)) = n) by (rewrite length_replicate; lia).
    split; [done|]. split; [lia|]. split.
    { intros x Hx. apply (bytes_at_mapped _ _ _ (bytes_at_write m p (replicate (Z.to_nat n) 0))). lia. }
    split; [intros x Hx; apply Hk; lia|]. apply subseteq_write; [|done]. intros x Hx. apply Hk. lia.
Qed.

(** An image of one loadable segment (four bytes of file, 5000 of memory) and
    a note. *)
Definition example_elf : elf := mkElf elf_magic 2 3 1073741824 52 32 2.
Definition example_segments : list segment :=
  [mkSegment 4 0 0 0 0; mkSegment 1 116 1073741824 4 5000].
Definition example_image : list Z :=
  elf_magic ++ replicate 12 0 ++ half_bytes 2 ++ half_bytes 3 ++ words_bytes [1; 1073741824; 52; 0; 0] ++
  half_bytes 52 ++ half_bytes 32 ++ half_bytes 2 ++ replicate 6 0 ++
  words_bytes [4; 0; 0; 0; 0; 0; 0; 4] ++ words_bytes [1; 116; 1073741824; 0; 4; 5000; 5; 4096] ++ [1; 2; 3; 4].

(** The image at 8300, the literal at 4096, the vector at 4112 with its two
    strings behind it. *)
Definition example_args : list (list Z) := [[108; 117; 97]; [45; 105]].
Definition example_kept : mem :=
  write_bytes (write_bytes (write_bytes ∅ 8300 example_image) 4096 (elf_magic ++ [0]))
    4112 (words_bytes [4128; 4132; 0] ++ replicate 4 0 ++ [108; 117; 97; 0; 45; 105; 0]).

#[local] Instance segment_at_dec m p s : Decision (segment_at m p s).
Proof. unfold segment_at. apply _. Defined.

#[local] Instance elf_at_dec m p e : Decision (elf_at m p e).
Proof. unfold elf_at. apply _. Defined.

Lemma example_executable : executable (k := example_kept) (most := 9000) 4096 8300 example_image example_elf example_segments.
Proof.
  split; try by_eval; try done.
  - intros [|[|i]] s Hs; cbn in Hs; simplify_eq; by_eval.
Qed.

Lemma example_arguments : argument_vector example_kept 4112 example_args.
Proof.
  right. exists [4128; 4132]. split; [lia|]. split; [cbn; lia|]. split; [by_eval|].
  repeat constructor; by_eval.
Qed.

Lemma example_kept_new x : 65536 <= x -> example_kept !! x = None.
Proof.
  intros Hx. unfold example_kept. rewrite !lookup_write_bytes.
  repeat rewrite decide_False by (vm_compute length; lia). done.
Qed.

Lemma create_process_installs_witness : exists w',
  @create_process_from_image (example_world 65536) 4096 8300 300 7 4112 (Machine example_kept [])
    = Ret (STATUS_SUCCESS, w') /\
  requests (trace w') = rev (installation (space := 0) (thread := 0) example_image example_elf example_segments 7 example_args) ++ [].
Proof.
  assert (Hs : @Services (example_world 65536) example_kept 0 0 9000).
  { apply example_services; [lia..|]. intros x Hx. apply example_kept_new. lia. }
  apply (@create_process_installs (example_world 65536) example_kept 0 0 9000 Hs 4096 8300 example_image example_elf
    example_segments 300 7 4112 example_args (Machine example_kept []));
    [exact example_executable|exact example_arguments|reflexivity|lia|done|done|lia|reflexivity].
Defined.

Lemma create_process_rejects_witness :
  @create_process_from_image (example_world 65536) 4096 8300 300 7 4112
    (Machine (<[8303:=71]> example_kept) []) = Ret (STATUS_INVALID_IMAGE, Machine (<[8303:=71]> example_kept) []).
Proof.
  apply (@create_process_rejects (example_world 65536) 4096 8300 (mkElf [127; 69; 76; 71] 2 3 1073741824 52 32 2));
    [by_eval|by_eval|by_eval|lia|lia|by left].
Defined.

Lemma send_bss_skips_page_witness :
  @send_bss (example_world 65536) 3 100
    (Machine (write_bytes ∅ 100 (words_bytes [1; 256; 1073742080; 0; 3840; 4000; 0; 0])) [])
    = Ret (STATUS_SUCCESS, Machine (write_bytes ∅ 100 (words_bytes [1; 256; 1073742080; 0; 3840; 4000; 0; 0])) []) /\
  bss_request 3 (mkSegment 1 256 1073742080 3840 4000) = [Expand 3 (1073742080 + 3840) 4096].
Proof.
  apply (@send_bss_skips_page (example_world 65536) 3 100 (mkSegment 1 256 1073742080 3840 4000));
    [by_eval|done|done|cbn; lia|cbn; lia].
Defined.

Lemma sbrk_blocks_disjoint_witness : exists rs m',
  sbrk_all 64 [4096; 1000000; 100]
    (write_bytes (write_bytes ∅ (env_heap_base find_environment_block) (words_bytes [1073750016; 1073750016; 1073848320]))
       64 [0; 0; 0; 0]) = Ret (rs, m') /\
  rs = heap_answers 1073750016 1073848320 [4096; 1000000; 100] /\
  forall i r d, rs !! i = Some r -> [4096; 1000000; 100] !! i = Some d ->
    r = 4294967295 \/ (1073750016 <= r /\ r + d <= 1073848320 /\
      forall j r', (i < j)%nat -> rs !! j = Some r' -> r' = 4294967295 \/ r + d <= r').
Proof.
  apply (sbrk_blocks_disjoint _ 64 1073750016 1073750016 1073848320);
    [unfold heap_at; by_eval|lia|lia|by_eval|by_eval|left; vm_compute; congruence].
Defined.

Lemma example_fresh_block m h p n : 0 < p -> 0 <= n -> p + n <= 4294967296 ->
  (forall x, p <= x < p + n -> m !! x = None) ->
  @fresh_block (example_world p) (Machine m h) n p (write_bytes m p (replicate (Z.to_nat n) 0)).
Proof.
  intros Hp Hn Hend Hnew. apply (example_fresh p n (Machine m h)); [done..|].
  intros a [v Hv] Ha. cbn in Hv. by rewrite Hnew in Hv.
Qed.

Lemma argv_roundtrip_witness : exists st w' u m2, let e := Syscall SYSTEM_CALL_VECTOR_SEND_MESSAGE
    (syscall_args u [9; MESSAGE_TYPE_LOAD_ADDRESS_SPACE; MESSAGE_ID_ATOMIC; page_up 65536; 1080;
       USER_ENVIRONMENT_BLOCK]) m2 in
  @send_environment_block (example_world 65536) 9 3 1073750016 98304 4112 (Machine example_kept []) = Ret (st, w') /\
  In e (trace w') /\ forall m, bytes_at m USER_ENVIRONMENT_BLOCK (payload e) ->
    exists m', initialize_argv m = Ret (tt, m') /\ main_arguments m' example_args.
Proof.
  eapply argv_roundtrip; [apply example_fresh_block| |exact example_arguments|reflexivity];
    try lia; try (intros x Hx; apply example_kept_new; lia). vm_compute. congruence.
Defined.

(** Eight arguments are one too many. *)
Definition example_many : mem :=
  write_bytes ∅ 4096 (words_bytes (replicate 8 4140 ++ [0]) ++ replicate 8 0 ++ [120; 0]).

Lemma argv_overflow_rejected_witness : exists w' m2,
  @send_environment_block (example_world 65536) 9 3 1073750016 98304 4096 (Machine example_many [])
    = Ret (STATUS_INSUFFICIENT_MEMORY, w') /\
  trace w' = Free 65536 m2 :: Malloc 5175 example_many :: [] /\ example_many ⊆ m2.
Proof.
  apply (@argv_overflow_rejected (example_world 65536) (Machine example_many []) 9 3 1073750016 98304 4096
    (replicate 8 [120]) 65536 (write_bytes example_many 65536 (replicate (Z.to_nat 5175) 0)));
    [apply example_fresh_block| | |reflexivity]; try lia.
  - intros x Hx. unfold example_many. rewrite lookup_write_bytes.
    rewrite decide_False by (vm_compute length; lia). done.
  - vm_compute. congruence.
  - right. exists (replicate 8 4140). split; [lia|]. split; [cbn; lia|]. split; [by_eval|].
    repeat constructor; by_eval.
Defined.
