(* ===== verification/Keyboard.v ===== *)
(** * The keyboard driver

    [src/src/user/keyboard]: the interrupt handler that forwards scan codes,
    the main thread that tracks the modifier keys and translates scan codes,
    and the set-up and tear-down of the driver. The context structure is
    private to the main thread (the interrupt handler receives its address but
    does not use it), so it is a record that is passed along; [keyboard] is its
    address on the heap. *)

From Stdlib Require Import String Ascii.
From S2P Require Import Prelude CMem NumConv World Libdx.

(** ** keyboard_context.h, hal/keyboard_input.h *)

Record keyboard_context := mkKeyboard { modifier_mask : Z; interrupt_handler_thread : Z }.

Definition set_mask (k : keyboard_context) (mask : Z) : keyboard_context :=
  mkKeyboard mask (interrupt_handler_thread k).

Definition KEYBOARD_OUTPUT_BUFFER : Z := 96.
Definition KEYBOARD_INPUT_BUFFER : Z := 96.
Definition KEYBOARD_STATUS_REGISTER : Z := 100.
Definition KEYBOARD_INTERRUPT_VECTOR : Z := 1.
Definition KEYBOARD_STATUS_INPUT_BUFFER_BUSY : Z := 2.
Definition KEYBOARD_STATUS_OUTPUT_BUFFER_READY : Z := 1.
Definition KEYBOARD_COMMAND_TOGGLE_LED : Z := 237.
Definition KEYBOARD_COMMAND_SET_SCAN_CODE : Z := 240.
Definition KEYBOARD_COMMAND_LED_SCROLL_LOCK : Z := 1.
Definition KEYBOARD_COMMAND_LED_NUM_LOCK : Z := 2.
Definition KEYBOARD_COMMAND_LED_CAPS_LOCK : Z := 4.
Definition KEYBOARD_SCAN_CODE_SET_2 : Z := 2.

Definition KEYBOARD_MODIFIER_SHIFT : Z := 1.
Definition KEYBOARD_MODIFIER_NUM_LOCK : Z := 2.
Definition KEYBOARD_MODIFIER_CAPS_LOCK : Z := 4.
Definition KEYBOARD_MODIFIER_EXTENSION : Z := 8.
Definition KEYBOARD_MODIFIER_ALT : Z := 16.
Definition KEYBOARD_MODIFIER_CONTROL : Z := 32.
Definition KEYBOARD_MODIFIER_SCROLL_LOCK : Z := 64.

Definition READ_KEYBOARD_MODIFIERS (word : Z) : Z := Z.shiftr (Z.land word 16711680) 16.
Definition READ_KEYBOARD_CHARACTER (word : Z) : Z := s8 (Z.land word 255).
Definition MAKE_KEYBOARD_DATA (modifiers character : Z) : Z :=
  Z.lor (u32 (Z.shiftl modifiers 16)) (Z.land character 255).

(** ** keyboard_scan_code.h *)

Definition KEYBOARD_CODE_BREAK : Z := 128.
Definition KEYBOARD_CODE_MAKE_MAX : Z := 88.
Definition KEYBOARD_CODE_OVERFLOW : Z := 0.

Definition IS_SIMPLE_MAKE_CODE (scan_code : Z) : bool :=
  (scan_code <? KEYBOARD_CODE_MAKE_MAX) && negb (scan_code =? KEYBOARD_CODE_OVERFLOW).
Definition IS_SIMPLE_BREAK_CODE (scan_code : Z) : bool :=
  IS_SIMPLE_MAKE_CODE (Z.land scan_code (Z.lnot KEYBOARD_CODE_BREAK)).
Definition IS_EXTENSION_PREFIX (scan_code : Z) : bool := (scan_code =? 224) || (scan_code =? 225).

Definition SCAN_CODE_ALT : Z := 56.
Definition SCAN_CODE_CAPS_LOCK : Z := 58.
Definition SCAN_CODE_CONTROL : Z := 29.
Definition SCAN_CODE_LEFT_SHIFT : Z := 42.
Definition SCAN_CODE_RIGHT_SHIFT : Z := 54.
Definition SCAN_CODE_NUM_LOCK : Z := 69.
Definition SCAN_CODE_SCROLL_LOCK : Z := 70.

(** The characters of a literal, without its terminator. *)
Fixpoint chars (s : string) : list Z :=
  match s with
  | EmptyString => []
  | String c s' => Z.of_N (N_of_ascii c) :: chars s'
  end.

Definition MAKE_SCAN_CODE_STRING (row0 row1 row2 row3 numeric_keypad : list Z) : list Z :=
  [0] ++ [0] ++ row0 ++ [0] ++ [9] ++ row1 ++ [10] ++ [0] ++ row2 ++ [0] ++ row3 ++ [0] ++
  [42] ++ [0] ++ [32] ++ [0] ++ replicate 10 0 ++ [0; 0] ++ numeric_keypad ++
  [0] ++ [0] ++ [0] ++ [0; 0].

Definition ROW0_DIGITS : list Z := chars "1234567890-=".
Definition ROW0_SYMBOLS : list Z := chars "!@#$%^&*()_+".
Definition ROW1_LOWERCASE : list Z := chars "qwertyuiop".
Definition ROW1_UPPERCASE : list Z := chars "QWERTYUIOP".
Definition ROW2_LOWERCASE : list Z := chars "asdfghjkl".
Definition ROW2_UPPERCASE : list Z := chars "ASDFGHJKL".
Definition ROW3_LOWERCASE : list Z := chars "zxcvbnm".
Definition ROW3_UPPERCASE : list Z := chars "ZXCVBNM".
Definition KEYPAD_DIGITS : list Z := chars "789-456+1230.".
Definition KEYPAD_NAVIGATION : list Z := [0; 0; 0; 45; 0; 0; 0; 43; 0; 0; 0; 0; 0].

Definition SCAN_CODE_STRING_DEFAULT : list Z :=
  MAKE_SCAN_CODE_STRING ROW0_DIGITS (ROW1_LOWERCASE ++ chars "[]") (ROW2_LOWERCASE ++ chars ";'`")
    (chars "\" ++ ROW3_LOWERCASE ++ chars ",./") KEYPAD_NAVIGATION.
Definition SCAN_CODE_STRING_WITH_CAPS_LOCK : list Z :=
  MAKE_SCAN_CODE_STRING ROW0_DIGITS (ROW1_UPPERCASE ++ chars "[]") (ROW2_UPPERCASE ++ chars ";'`")
    (chars "\" ++ ROW3_UPPERCASE ++ chars ",./") KEYPAD_NAVIGATION.
Definition SCAN_CODE_STRING_WITH_CAPS_LOCK_NUM_LOCK : list Z :=
  MAKE_SCAN_CODE_STRING ROW0_DIGITS (ROW1_UPPERCASE ++ chars "[]") (ROW2_UPPERCASE ++ chars ";'`")
    (chars "\" ++ ROW3_UPPERCASE ++ chars ",./") KEYPAD_DIGITS.
Definition SCAN_CODE_STRING_WITH_CAPS_LOCK_SHIFT : list Z :=
  MAKE_SCAN_CODE_STRING ROW0_SYMBOLS (ROW1_LOWERCASE ++ chars "{}") (ROW2_LOWERCASE ++ [58; 34; 126])
    (chars "|" ++ ROW3_LOWERCASE ++ chars "<>?") KEYPAD_NAVIGATION.
Definition SCAN_CODE_STRING_WITH_CAPS_LOCK_NUM_LOCK_SHIFT : list Z :=
  MAKE_SCAN_CODE_STRING ROW0_SYMBOLS (ROW1_LOWERCASE ++ chars "{}") (ROW2_LOWERCASE ++ [58; 34; 126])
    (chars "|" ++ ROW3_LOWERCASE ++ chars "<>?") KEYPAD_DIGITS.
Definition SCAN_CODE_STRING_WITH_NUM_LOCK : list Z :=
  MAKE_SCAN_CODE_STRING ROW0_DIGITS (ROW1_LOWERCASE ++ chars "[]") (ROW2_LOWERCASE ++ chars ";'`")
    (chars "\" ++ ROW3_LOWERCASE ++ chars ",./") KEYPAD_DIGITS.
Definition SCAN_CODE_STRING_WITH_NUM_LOCK_SHIFT : list Z :=
  MAKE_SCAN_CODE_STRING ROW0_SYMBOLS (ROW1_UPPERCASE ++ chars "{}") (ROW2_UPPERCASE ++ [58; 34; 126])
    (chars "|" ++ ROW3_UPPERCASE ++ chars "<>?") KEYPAD_DIGITS.
Definition SCAN_CODE_STRING_WITH_SHIFT : list Z :=
  MAKE_SCAN_CODE_STRING ROW0_SYMBOLS (ROW1_UPPERCASE ++ chars "{}") (ROW2_UPPERCASE ++ [58; 34; 126])
    (chars "|" ++ ROW3_UPPERCASE ++ chars "<>?") KEYPAD_NAVIGATION.

(** Each string with its terminator. *)
Definition scan_code_table : list (list Z) :=
  (fun s => s ++ [0]) <$>
  [ SCAN_CODE_STRING_DEFAULT; SCAN_CODE_STRING_WITH_SHIFT;
    SCAN_CODE_STRING_WITH_NUM_LOCK; SCAN_CODE_STRING_WITH_NUM_LOCK_SHIFT;
    SCAN_CODE_STRING_WITH_CAPS_LOCK; SCAN_CODE_STRING_WITH_CAPS_LOCK_SHIFT;
    SCAN_CODE_STRING_WITH_CAPS_LOCK_NUM_LOCK; SCAN_CODE_STRING_WITH_CAPS_LOCK_NUM_LOCK_SHIFT ].

Definition MAKE_SCAN_CODE_INDEX (modifier : Z) : Z :=
  Z.land modifier (Z.lor (Z.lor KEYBOARD_MODIFIER_CAPS_LOCK KEYBOARD_MODIFIER_NUM_LOCK)
                         KEYBOARD_MODIFIER_SHIFT).

(** ** keyboard.c *)

Section Driver.
Context `{World}.

(** How many polls of a busy controller are followed. *)
Context (patience : nat).

Definition has (mask bit : Z) : bool := negb (Z.land mask bit =? 0).

Definition KEYBOARD_PORT : list Z := [KEYBOARD_OUTPUT_BUFFER; KEYBOARD_STATUS_REGISTER].

(** The spin loop, with fuel. *)
Fixpoint wait_idle (fuel : nat) : D unit :=
  match fuel with
  | O => fun _ => Trap OutOfFuel
  | S f =>
      st ← io_port_read8 KEYBOARD_STATUS_REGISTER;
      if has st KEYBOARD_STATUS_INPUT_BUFFER_BUSY then wait_idle f else mret tt
  end.

Definition wait_for_keyboard_idle : D unit := wait_idle patience.

Definition led_mask (k : keyboard_context) : Z :=
  let led := 0 in
  let led := if has (modifier_mask k) KEYBOARD_MODIFIER_CAPS_LOCK
             then Z.lor led KEYBOARD_COMMAND_LED_CAPS_LOCK else led in
  let led := if has (modifier_mask k) KEYBOARD_MODIFIER_NUM_LOCK
             then Z.lor led KEYBOARD_COMMAND_LED_NUM_LOCK else led in
  if has (modifier_mask k) KEYBOARD_MODIFIER_SCROLL_LOCK
  then Z.lor led KEYBOARD_COMMAND_LED_SCROLL_LOCK else led.

Definition toggle_leds (k : keyboard_context) : D unit :=
  let led := led_mask k in
  wait_for_keyboard_idle;;
  io_port_write8 KEYBOARD_INPUT_BUFFER KEYBOARD_COMMAND_TOGGLE_LED;;
  wait_for_keyboard_idle;;
  io_port_write8 KEYBOARD_INPUT_BUFFER led.

(** The table holds pointers to string literals, none of them [NULL]; reading
    past the end of a literal is out of bounds. *)
Definition translate_scan_code (k : keyboard_context) (scan_code : Z) : D Z :=
  let index := MAKE_SCAN_CODE_INDEX (modifier_mask k) in
  dassert (index <? Z.of_nat (length scan_code_table));;
  match scan_code_table !! Z.to_nat index with
  | Some scan_code_string => lift (table_get scan_code_string scan_code)
  | None => fun _ => Trap (BadIndex index)
  end.

Definition lnot32 (x : Z) : Z := u32 (Z.lnot x).

Definition discard_extension (k : keyboard_context) : keyboard_context :=
  set_mask k (Z.land (modifier_mask k) (lnot32 KEYBOARD_MODIFIER_EXTENSION)).

(** The three lock keys of [handle_make_code]. *)
Definition toggle_lock (k : keyboard_context) (bit : Z) : D keyboard_context :=
  let k := set_mask k (Z.lxor (modifier_mask k) bit) in
  toggle_leds k;; mret k.

Definition console_thread : Z := 2.

(** The default case of [handle_make_code]. *)
Definition report_key (k : keyboard_context) (scan_code : Z) : D unit :=
  character ← translate_scan_code k scan_code;
  if character =? 0 then mret tt
  else
    send_message (Some (mkMessage console_thread MESSAGE_TYPE_KEYBOARD_INPUT MESSAGE_ID_ATOMIC
      (MAKE_KEYBOARD_DATA (modifier_mask k) character) 0 0));;
    mret tt.

Definition handle_make_code (k : keyboard_context) (scan_code : Z) : D keyboard_context :=
  k ←
    (if scan_code =? SCAN_CODE_CAPS_LOCK then toggle_lock k KEYBOARD_MODIFIER_CAPS_LOCK
     else if scan_code =? SCAN_CODE_NUM_LOCK then toggle_lock k KEYBOARD_MODIFIER_NUM_LOCK
     else if scan_code =? SCAN_CODE_SCROLL_LOCK then toggle_lock k KEYBOARD_MODIFIER_SCROLL_LOCK
     else if (scan_code =? SCAN_CODE_LEFT_SHIFT) || (scan_code =? SCAN_CODE_RIGHT_SHIFT)
     then mret (set_mask k (Z.lor (modifier_mask k) KEYBOARD_MODIFIER_SHIFT))
     else if scan_code =? SCAN_CODE_CONTROL
     then mret (set_mask k (Z.lor (modifier_mask k) KEYBOARD_MODIFIER_CONTROL))
     else if scan_code =? SCAN_CODE_ALT
     then mret (set_mask k (Z.lor (modifier_mask k) KEYBOARD_MODIFIER_ALT))
     else report_key k scan_code;; mret k);
  mret (discard_extension k).

Definition handle_break_code (k : keyboard_context) (scan_code : Z) : keyboard_context :=
  let scan_code := u8 (Z.land scan_code (Z.lnot KEYBOARD_CODE_BREAK)) in
  let clear bit := set_mask k (Z.land (modifier_mask k) (lnot32 bit)) in
  discard_extension
    (if (scan_code =? SCAN_CODE_LEFT_SHIFT) || (scan_code =? SCAN_CODE_RIGHT_SHIFT)
     then clear KEYBOARD_MODIFIER_SHIFT
     else if scan_code =? SCAN_CODE_CONTROL then clear KEYBOARD_MODIFIER_CONTROL
     else if scan_code =? SCAN_CODE_ALT then clear KEYBOARD_MODIFIER_ALT
     else k).

Definition handle_deferred_interrupt (k : keyboard_context) (m : message) : D keyboard_context :=
  let scan_code := u8 (msg_data m) in
  if IS_SIMPLE_MAKE_CODE scan_code then handle_make_code k scan_code
  else if IS_SIMPLE_BREAK_CODE scan_code then mret (handle_break_code k scan_code)
  else if IS_EXTENSION_PREFIX scan_code
  then mret (set_mask k (Z.lor (modifier_mask k) KEYBOARD_MODIFIER_EXTENSION))
  else mret k.

(** The loop of [handle_interrupt], [n] rounds left. *)
Fixpoint drain_scan_codes (n : nat) (parent_thread : Z) : D unit :=
  match n with
  | O => mret tt
  | S n' =>
      st ← io_port_read8 KEYBOARD_STATUS_REGISTER;
      if has st KEYBOARD_STATUS_OUTPUT_BUFFER_READY then
        scan_code ← io_port_read8 KEYBOARD_OUTPUT_BUFFER;
        defer_interrupt parent_thread scan_code;;
        drain_scan_codes n' parent_thread
      else mret tt
  end.

Definition handle_interrupt (parent_thread context : Z) : D unit :=
  drain_scan_codes 8 parent_thread.

(** One iteration of the message loop. *)
Definition keyboard_step (buffer : message) (k : keyboard_context) : D keyboard_context :=
  '(s, om) ← receive_message (Some buffer) WAIT_FOR_MESSAGE;
  match om with
  | Some m =>
      if negb (s =? STATUS_SUCCESS) then mret k
      else
        k ← (if msg_type m =? MESSAGE_TYPE_DEFER_INTERRUPT
             then handle_deferred_interrupt k m else mret k);
        delete_message (Some m);;
        mret k
  | None => mret k
  end.

(** The endless loop, observed for [n] iterations. *)
Fixpoint wait_for_messages (n : nat) (k : keyboard_context) : D keyboard_context :=
  match n with
  | O => mret k
  | S n' => k ← keyboard_step initialize_message k; wait_for_messages n' k
  end.

(** ** Set-up and tear-down *)

(** The first loop of [initialize]: [break] leaves this loop only. *)
Fixpoint map_ports (ports : list Z) (st : Z) : D Z :=
  match ports with
  | [] => mret st
  | p :: ports' =>
      st ← map_device p DEVICE_TYPE_IO_PORT 1 0 NULL;
      if negb (st =? STATUS_SUCCESS) then mret st else map_ports ports' st
  end.

(** Discards what the controller holds at start-up. *)
Fixpoint drain_output (fuel : nat) : D unit :=
  match fuel with
  | O => fun _ => Trap OutOfFuel
  | S f =>
      st ← io_port_read8 KEYBOARD_STATUS_REGISTER;
      if has st KEYBOARD_STATUS_OUTPUT_BUFFER_READY
      then io_port_read8 KEYBOARD_OUTPUT_BUFFER;; drain_output f
      else mret tt
  end.

Fixpoint unmap_ports (ports : list Z) : D unit :=
  match ports with
  | [] => mret tt
  | p :: ports' => unmap_device p DEVICE_TYPE_IO_PORT 1;; unmap_ports ports'
  end.

Definition cleanup (random_seed : Z) (keyboard : Z) (k : keyboard_context) : D unit :=
  if keyboard =? 0 then mret tt
  else
    (if negb (interrupt_handler_thread k =? THREAD_ID_INVALID)
     then unregister_interrupt_handler random_seed KEYBOARD_INTERRUPT_VECTOR
            (interrupt_handler_thread k);; mret tt
     else mret tt);;
    unmap_ports KEYBOARD_PORT;;
    free keyboard.

(** The addresses [register_interrupt_handler] is called with. *)
Context (loop_entry address_space_id local_context handle_interrupt_entry : Z).

(** From the registration of the handler to the end of the [do]. *)
Definition configure (keyboard : Z) (st : Z) : D (keyboard_context * Z) :=
  thread ← register_interrupt_handler loop_entry address_space_id local_context
             KEYBOARD_INTERRUPT_VECTOR handle_interrupt_entry keyboard;
  let k := mkKeyboard 0 thread in
  if thread =? THREAD_ID_INVALID then mret (k, STATUS_RESOURCE_CONFLICT)
  else
    wait_for_keyboard_idle;;
    io_port_write8 KEYBOARD_INPUT_BUFFER KEYBOARD_COMMAND_SET_SCAN_CODE;;
    wait_for_keyboard_idle;;
    io_port_write8 KEYBOARD_INPUT_BUFFER KEYBOARD_SCAN_CODE_SET_2;;
    let k := set_mask k 0 in
    toggle_leds k;;
    mret (k, st).

(** The context, or [None] for [NULL]; 8 is [sizeof( *keyboard )]. *)
Definition initialize (random_seed : Z) : D (option (Z * keyboard_context)) :=
  keyboard ← malloc 8;
  if keyboard =? 0 then mret None
  else
    u ← indeterminate;
    st ← map_ports KEYBOARD_PORT u;
    drain_output patience;;
    '(k, st) ← configure keyboard st;
    if negb (st =? STATUS_SUCCESS) then cleanup random_seed keyboard k;; mret None
    else mret (Some (keyboard, k)).

(** [main], with the endless message loop observed for [n] iterations; the
    [printf] of the failure is a parameter. *)
Definition keyboard_main (n : nat) (random_seed : Z) (print_failure : D unit)
    : D (Z + keyboard_context) :=
  o ← initialize random_seed;
  match o with
  | Some (_, k) => k ← wait_for_messages n k; mret (inr k)
  | None => print_failure;; mret (inl STATUS_RESOURCE_CONFLICT)
  end.

End Driver.
