(* ===== verification/KeyboardThms.v ===== *)
(** * The keyboard driver: an abstract keyboard and the refinement

    The abstract keyboard keeps the modifiers as booleans and describes the
    effect of one scan code; the driver, with its mask, its table of strings
    and its port commands, implements it. *)

From S2P Require Import Prelude CMem World Libdx LibdxThms Keyboard.

(** ** Abstract keyboard *)

Record mods := mkMods {
  shift : bool; num : bool; caps : bool; ext : bool; alt : bool; ctrl : bool; scroll : bool }.

(** The mask that represents the modifiers. *)
Definition encode (m : mods) : Z :=
  Z.b2z (shift m) + 2 * Z.b2z (num m) + 4 * Z.b2z (caps m) + 8 * Z.b2z (ext m) +
  16 * Z.b2z (alt m) + 32 * Z.b2z (ctrl m) + 64 * Z.b2z (scroll m).

(** What the main thread exchanges with the outside: a scan code received, a
    key event sent to the console, a command byte written to the controller. *)
Inductive io :=
  | Scan (code : Z)
  | Key (word : Z)
  | Command (byte : Z).

(** The character of a key: letters follow Shift and Caps Lock, the keypad
    follows Num Lock, the other keys follow Shift. *)
Definition layout (m : mods) (c : Z) : Z :=
  let on s := default 0 (s !! Z.to_nat c) in
  let plain := on SCAN_CODE_STRING_DEFAULT in
  let shifted := on SCAN_CODE_STRING_WITH_SHIFT in
  if (71 <=? c) && (c <=? 83) then
    if num m then on SCAN_CODE_STRING_WITH_NUM_LOCK else plain
  else if (97 <=? plain) && (plain <=? 122) then
    if xorb (shift m) (caps m) then plain - 32 else plain
  else if shift m then shifted else plain.

Definition leds (m : mods) : list io :=
  [Command 237; Command (Z.b2z (scroll m) + 2 * Z.b2z (num m) + 4 * Z.b2z (caps m))].

(** A key goes down. *)
Definition press (m : mods) (c : Z) : mods * list io :=
  let '(mkMods s n cl e a ct sc) := m in
  if c =? 58 then let m := mkMods s n (negb cl) e a ct sc in (m, leds m)
  else if c =? 69 then let m := mkMods s (negb n) cl e a ct sc in (m, leds m)
  else if c =? 70 then let m := mkMods s n cl e a ct (negb sc) in (m, leds m)
  else if (c =? 42) || (c =? 54) then (mkMods true n cl e a ct sc, [])
  else if c =? 29 then (mkMods s n cl e a true sc, [])
  else if c =? 56 then (mkMods s n cl e true ct sc, [])
  else (m, if layout m c =? 0 then [] else [Key (65536 * encode m + layout m c)]).

(** A key comes up. *)
Definition release (m : mods) (c : Z) : mods :=
  let '(mkMods s n cl e a ct sc) := m in
  if (c =? 42) || (c =? 54) then mkMods false n cl e a ct sc
  else if c =? 29 then mkMods s n cl e a false sc
  else if c =? 56 then mkMods s n cl e false ct sc
  else m.

Definition no_ext (m : mods) : mods :=
  mkMods (shift m) (num m) (caps m) false (alt m) (ctrl m) (scroll m).

(** One byte from the controller. *)
Definition key_event (m : mods) (c : Z) : mods * list io :=
  if (1 <=? c) && (c <? 88) then let '(m', out) := press m c in (no_ext m', out)
  else if (129 <=? c) && (c <? 216) then (no_ext (release m (c - 128)), [])
  else if (c =? 224) || (c =? 225)
  then (mkMods (shift m) (num m) (caps m) true (alt m) (ctrl m) (scroll m), [])
  else (m, []).

(** A sequence of bytes: each is followed by its effects. *)
Fixpoint key_events (m : mods) (cs : list Z) : mods * list io :=
  match cs with
  | [] => (m, [])
  | c :: cs' =>
      let '(m', out) := key_event m c in
      let '(m'', out') := key_events m' cs' in (m'', Scan c :: out ++ out')
  end.

(** ** The mask operations *)

Ltac all_mods :=
  intros m; destruct m as [[] [] [] [] [] [] []]; reflexivity.

Lemma encode_index m : MAKE_SCAN_CODE_INDEX (encode m)
  = Z.b2z (shift m) + 2 * Z.b2z (num m) + 4 * Z.b2z (caps m).
Proof. revert m. all_mods. Qed.

Lemma encode_no_ext m : Z.land (encode m) (lnot32 KEYBOARD_MODIFIER_EXTENSION) = encode (no_ext m).
Proof. revert m. all_mods. Qed.

Lemma encode_range m : 0 <= encode m < 128.
Proof. destruct m as [[] [] [] [] [] [] []]; cbv; split; congruence. Qed.

Lemma encode_leds m t : [Command 237; Command (u8 (led_mask (mkKeyboard (encode m) t)))] = leds m.
Proof. destruct m as [[] [] [] [] [] [] []]; reflexivity. Qed.

(** All tables agree with the layout. *)
Lemma table_layout_all :
  forallb (fun i => forallb (fun c =>
    match scan_code_table !! i with
    | Some s => bool_decide (s !! c =
        Some (layout (mkMods (Nat.odd i) (Nat.odd (i / 2)) (Nat.odd (i / 4)) false false false false)
                     (Z.of_nat c)))
    | None => false
    end) (seq 0 88)) (seq 0 8) = true.
Proof. vm_compute. reflexivity. Qed.

Lemma table_layout m c : 0 <= c < 88 -> exists s,
  scan_code_table !! Z.to_nat (MAKE_SCAN_CODE_INDEX (encode m)) = Some s /\
  s !! Z.to_nat c = Some (layout m c).
Proof.
  intros Hc. pose proof table_layout_all as Hall. rewrite forallb_forall in Hall.
  rewrite encode_index. set (i := Z.to_nat _).
  specialize (Hall i). rewrite forallb_forall in Hall.
  specialize (Hall ltac:(apply in_seq; subst i; destruct (shift m), (num m), (caps m); cbn; lia)
    (Z.to_nat c) ltac:(apply in_seq; lia)).
  destruct (scan_code_table !! i) as [s|]; [|done]. exists s. split; [done|].
  apply bool_decide_eq_true in Hall. rewrite Hall, Z2Nat.id by lia. f_equal.
  unfold layout. subst i. by destruct (shift m), (num m), (caps m).
Qed.

Lemma translate_run m t c w : 0 <= c < 88 ->
  translate_scan_code (mkKeyboard (encode m) t) c w = Ret (layout m c, w).
Proof.
  intros Hc. destruct (table_layout m c Hc) as (s & Hs & Hl). unfold translate_scan_code. cbn [modifier_mask].
  destruct w as [m0 h0]. unfold dassert.
  erewrite drun_bind; last first.
  { apply drun_lift, run_assert. rewrite encode_index. by destruct (shift m), (num m), (caps m). }
  rewrite Hs. erewrite drun_lift; [reflexivity|]. apply table_get_run; [lia|done].
Qed.

Lemma layout_range m c : 0 <= c < 88 -> 0 <= layout m c < 128.
Proof.
  intros Hc.
  assert (H : forallb (fun c => forallb (fun m => (0 <=? layout m c) && (layout m c <? 128))
     [mkMods false false false false false false false; mkMods false false true false false false false;
      mkMods false true false false false false false; mkMods false true true false false false false;
      mkMods true false false false false false false; mkMods true false true false false false false;
      mkMods true true false false false false false; mkMods true true true false false false false])
     (seqZ 0 88) = true) by (vm_compute; reflexivity).
  rewrite forallb_forall in H. specialize (H c). rewrite <- list_elem_of_In, elem_of_seqZ in H.
  specialize (H ltac:(lia)). rewrite forallb_forall in H.
  specialize (H (mkMods (shift m) (num m) (caps m) false false false false)).
  change (layout (mkMods (shift m) (num m) (caps m) false false false false) c) with (layout m c) in H.
  rewrite andb_true_iff, Z.leb_le, Z.ltb_lt in H. apply H.
  destruct (shift m), (num m), (caps m); cbn; tauto.
Qed.

(** The key event word carries modifiers and character. *)
Lemma keyboard_data m c : 0 <= c < 128 ->
  MAKE_KEYBOARD_DATA (encode m) c = 65536 * encode m + c.
Proof.
  intros Hc. pose proof (encode_range m). unfold MAKE_KEYBOARD_DATA.
  change 255 with (Z.ones 8). rewrite Z.land_ones by lia. rewrite (Z.mod_small c) by (change (2^8) with 256; lia).
  rewrite Z.shiftl_mul_pow2 by lia. change (2 ^ 16) with 65536. unfold u32. rewrite Z.mod_small by lia.
  rewrite <- Z.add_nocarry_lor; [lia|].
  apply Z.bits_inj'. intros n Hn. rewrite Z.land_spec, Z.bits_0.
  destruct (Z.ltb_spec n 16).
  - change 65536 with (2 ^ 16). by rewrite Z.mul_pow2_bits_low by lia.
  - rewrite <- (Z.mod_small c (2 ^ 16)) by (change (2 ^ 16) with 65536; lia).
    by rewrite (Z.mod_pow2_bits_high c), andb_false_r by lia.
Qed.

Lemma keyboard_word m c : 0 <= c < 128 ->
  READ_KEYBOARD_MODIFIERS (65536 * encode m + c) = encode m /\
  READ_KEYBOARD_CHARACTER (65536 * encode m + c) = c.
Proof.
  intros Hc. pose proof (encode_range m). unfold READ_KEYBOARD_MODIFIERS, READ_KEYBOARD_CHARACTER. split.
  - rewrite Z.shiftr_land. change (Z.shiftr 16711680 16) with (Z.ones 8).
    rewrite Z.land_ones, Z.shiftr_div_pow2 by lia. change (2 ^ 16) with 65536. change (2 ^ 8) with 256. zlia.
  - change 255 with (Z.ones 8). rewrite Z.land_ones by lia. change (2 ^ 8) with 256. unfold s8. zlia.
Qed.

(** ** The driver *)

Section Driver.
Context `{World} (patience : nat).

(** What a trace exchanged, latest first. *)
Fixpoint outputs (h : history) : list io :=
  match h with
  | [] => []
  | e :: h' =>
      match e with
      | Syscall v a _ =>
          let r := fst (kernel_reply h) in
          if (v =? SYSTEM_CALL_VECTOR_SEND_MESSAGE) && (data0 a =? console_thread)
             && (data1 a =? MESSAGE_TYPE_KEYBOARD_INPUT)
          then Key (data3 a) :: outputs h'
          else if (v =? SYSTEM_CALL_VECTOR_RECEIVE_MESSAGE) && (status r =? STATUS_SUCCESS)
             && (data1 r =? MESSAGE_TYPE_DEFER_INTERRUPT)
          then Scan (u8 (data3 r)) :: outputs h'
          else outputs h'
      | PortWrite p v => if p =? KEYBOARD_INPUT_BUFFER then Command v :: outputs h' else outputs h'
      | _ => outputs h'
      end
  end.

(** The controller empties its input buffer within [patience] polls. *)
Definition responsive : Prop := forall h, exists j, (j < patience)%nat /\
  has (u8 (port_value (replicate (S j) (PortRead KEYBOARD_STATUS_REGISTER) ++ h)))
    KEYBOARD_STATUS_INPUT_BUFFER_BUSY = false.

Lemma wait_idle_run j : forall n w, (j < n)%nat ->
  has (u8 (port_value (replicate (S j) (PortRead KEYBOARD_STATUS_REGISTER) ++ trace w)))
    KEYBOARD_STATUS_INPUT_BUFFER_BUSY = false ->
  exists w', wait_idle n w = Ret (tt, w') /\ outputs (trace w') = outputs (trace w).
Proof.
  induction j as [|j IH]; intros [|n] w Hn Hidle; try lia; cbn [wait_idle];
    (erewrite drun_bind by reflexivity); destruct w as [m h]; cbn [memory trace] in *.
  - cbn [replicate app] in Hidle. rewrite Hidle. by eexists.
  - case_match; [|by eexists].
    destruct (IH n (Machine m (PortRead KEYBOARD_STATUS_REGISTER :: h))) as (w' & E & Ho); [lia| |].
    + cbn [trace]. rewrite replicate_S_end in Hidle. by rewrite <- app_assoc in Hidle.
    + eauto.
Qed.

Lemma wait_for_idle_run w : responsive -> exists w',
  wait_for_keyboard_idle patience w = Ret (tt, w') /\ outputs (trace w') = outputs (trace w).
Proof. intros Hr. destruct (Hr (trace w)) as (j & Hj & Hidle). by eapply wait_idle_run. Qed.

Lemma toggle_leds_run m t w : responsive -> exists w',
  toggle_leds patience (mkKeyboard (encode m) t) w = Ret (tt, w') /\
  outputs (trace w') = rev (leds m) ++ outputs (trace w).
Proof.
  intros Hr. unfold toggle_leds.
  destruct (wait_for_idle_run w Hr) as (w1 & E1 & O1). erewrite drun_bind by exact E1.
  erewrite drun_bind by reflexivity. set (w2 := Machine _ _).
  destruct (wait_for_idle_run w2 Hr) as (w3 & E3 & O3). erewrite drun_bind by exact E3.
  eexists. split; [reflexivity|]. rewrite <- (encode_leds m t). cbn. by rewrite O3, <- O1.
Qed.

Lemma report_key_run m t c w : 0 <= c < 88 -> exists w',
  report_key (mkKeyboard (encode m) t) c w = Ret (tt, w') /\
  outputs (trace w') = (if layout m c =? 0 then [] else [Key (65536 * encode m + layout m c)])
    ++ outputs (trace w).
Proof.
  intros Hc. unfold report_key. erewrite drun_bind by (by apply translate_run).
  destruct (layout m c =? 0); [by exists w|]. cbn [modifier_mask]. rewrite keyboard_data by (by apply layout_range).
  edestruct send_message_run as (u & r & w' & E & Ht & _). erewrite drun_bind by exact E.
  exists w'. split; [done|]. rewrite Ht. reflexivity.
Qed.

Lemma toggle_lock_run m m' t bit w : responsive -> Z.lxor (encode m) bit = encode m' -> exists w',
  toggle_lock patience (mkKeyboard (encode m) t) bit w = Ret (mkKeyboard (encode m') t, w') /\
  outputs (trace w') = rev (leds m') ++ outputs (trace w).
Proof.
  intros Hr Hm. unfold toggle_lock, set_mask. cbn [modifier_mask interrupt_handler_thread]. rewrite Hm.
  destruct (toggle_leds_run m' t w Hr) as (w' & E & O). exists w'. by erewrite drun_bind by exact E.
Qed.

(** Key down. *)
Lemma handle_make_run m t c w : responsive -> 0 <= c < 88 -> exists w',
  handle_make_code patience (mkKeyboard (encode m) t) c w
    = Ret (mkKeyboard (encode (no_ext (fst (press m c)))) t, w') /\
  outputs (trace w') = rev (snd (press m c)) ++ outputs (trace w).
Proof.
  intros Hr Hc. unfold handle_make_code.
  match goal with |- exists w', mbind _ ?c0 w = _ /\ _ =>
    cut (exists w', c0 w = Ret (mkKeyboard (encode (fst (press m c))) t, w') /\
           outputs (trace w') = rev (snd (press m c)) ++ outputs (trace w)) end.
  { intros (w' & E & O). exists w'. split; [|exact O]. erewrite drun_bind by exact E.
    unfold discard_extension, set_mask. cbn [modifier_mask interrupt_handler_thread].
    by rewrite encode_no_ext. }
  unfold press, SCAN_CODE_CAPS_LOCK, SCAN_CODE_NUM_LOCK, SCAN_CODE_SCROLL_LOCK, SCAN_CODE_LEFT_SHIFT,
    SCAN_CODE_RIGHT_SHIFT, SCAN_CODE_CONTROL, SCAN_CODE_ALT.
  destruct m as [s n cl e a ct sc] eqn:Em. rewrite <- Em.
  destruct (c =? 58); [apply toggle_lock_run; [done|]; subst m; by destruct s, n, cl, e, a, ct, sc|].
  destruct (c =? 69); [apply toggle_lock_run; [done|]; subst m; by destruct s, n, cl, e, a, ct, sc|].
  destruct (c =? 70); [apply toggle_lock_run; [done|]; subst m; by destruct s, n, cl, e, a, ct, sc|].
  destruct ((c =? 42) || (c =? 54)); [exists w; subst m; by destruct s, n, cl, e, a, ct, sc|].
  destruct (c =? 29); [exists w; subst m; by destruct s, n, cl, e, a, ct, sc|].
  destruct (c =? 56); [exists w; subst m; by destruct s, n, cl, e, a, ct, sc|].
  destruct (report_key_run m t c w Hc) as (w' & E & O). exists w'.
  split; [by erewrite drun_bind by exact E|]. cbn [snd]. rewrite O. by destruct (layout m c =? 0).
Qed.

(** Key up. *)
Lemma handle_break_run m t c : 129 <= c < 216 ->
  handle_break_code (mkKeyboard (encode m) t) c = mkKeyboard (encode (no_ext (release m (c - 128)))) t.
Proof.
  intros Hc. unfold handle_break_code, KEYBOARD_CODE_BREAK.
  replace (u8 (Z.land c (Z.lnot 128))) with (c - 128).
  - unfold discard_extension, set_mask. cbn [interrupt_handler_thread modifier_mask].
    unfold release, SCAN_CODE_LEFT_SHIFT, SCAN_CODE_RIGHT_SHIFT, SCAN_CODE_CONTROL, SCAN_CODE_ALT.
    destruct m as [[] [] [] [] [] [] []], ((c - 128 =? 42) || (c - 128 =? 54)), (c - 128 =? 29),
      (c - 128 =? 56); reflexivity.
  - assert (Hall : Forall (fun c => c - 128 = u8 (Z.land c (Z.lnot 128))) (seqZ 129 87)) by by_eval.
    rewrite Forall_forall in Hall. apply Hall, elem_of_seqZ. lia.
Qed.

Lemma break_code_range c : 0 <= c < 256 ->
  IS_SIMPLE_MAKE_CODE c = (1 <=? c) && (c <? 88) /\
  (IS_SIMPLE_MAKE_CODE c = false -> IS_SIMPLE_BREAK_CODE c = (129 <=? c) && (c <? 216)).
Proof.
  intros Hc.
  assert (Hall : Forall (fun c => IS_SIMPLE_MAKE_CODE c = (1 <=? c) && (c <? 88) /\
    (IS_SIMPLE_MAKE_CODE c = true \/ IS_SIMPLE_BREAK_CODE c = (129 <=? c) && (c <? 216)))
    (seqZ 0 256)) by by_eval.
  rewrite Forall_forall in Hall. destruct (Hall c) as [H1 H2]; [apply elem_of_seqZ; lia|].
  split; [done|]. intros Hf. rewrite Hf in H2. by destruct H2.
Qed.

(** One deferred interrupt. *)
Lemma handle_deferred_run m t msg w : responsive -> exists w',
  handle_deferred_interrupt patience (mkKeyboard (encode m) t) msg w
    = Ret (mkKeyboard (encode (fst (key_event m (u8 (msg_data msg))))) t, w') /\
  outputs (trace w') = rev (snd (key_event m (u8 (msg_data msg)))) ++ outputs (trace w).
Proof.
  intros Hr. unfold handle_deferred_interrupt, key_event, IS_EXTENSION_PREFIX. cbv zeta.
  set (c := u8 (msg_data msg)). assert (Hc : 0 <= c < 256) by (unfold c, u8; zlia).
  destruct (break_code_range c Hc) as [-> Hbrk].
  destruct ((1 <=? c) && (c <? 88)) eqn:E1.
  { zbool. destruct (handle_make_run m t c w Hr) as (w' & E & O); [lia|].
    exists w'. destruct (press m c). by split. }
  rewrite Hbrk by done. destruct ((129 <=? c) && (c <? 216)) eqn:E2.
  { zbool. exists w. rewrite handle_break_run by lia. by split. }
  exists w. destruct ((c =? 224) || (c =? 225)); [|by split].
  split; [|done]. by destruct m as [[] [] [] [] [] [] []].
Qed.

Lemma delete_message_outputs m w : exists s w',
  delete_message (Some m) w = Ret (s, w') /\ outputs (trace w') = outputs (trace w).
Proof.
  unfold delete_message. destruct (msg_data_size m =? 0); [by exists STATUS_SUCCESS, w|].
  destruct (system_call_run SYSTEM_CALL_VECTOR_DELETE_MESSAGE [msg_data m; msg_data_size m] w)
    as (u & r & w' & E & Ht & _).
  exists (status r), w'. split; [by erewrite drun_bind by exact E|]. by rewrite Ht.
Qed.

(** One iteration of the message loop: no scan code or one. *)
Lemma keyboard_step_run b m t w : responsive -> exists cs w',
  keyboard_step patience b (mkKeyboard (encode m) t) w
    = Ret (mkKeyboard (encode (fst (key_events m cs))) t, w') /\
  outputs (trace w') = rev (snd (key_events m cs)) ++ outputs (trace w).
Proof.
  intros Hr. unfold keyboard_step.
  destruct (receive_message_run b WAIT_FOR_MESSAGE w) as (u & r & w1 & E & Ht & Hk).
  erewrite drun_bind by exact E. cbn [received msg_type].
  assert (O1 : outputs (trace w1) = (if (status r =? STATUS_SUCCESS) &&
            (data1 r =? MESSAGE_TYPE_DEFER_INTERRUPT) then [Scan (u8 (data3 r))] else [])
            ++ outputs (trace w)).
  { rewrite Ht in Hk |- *. cbn -[kernel_reply STATUS_SUCCESS MESSAGE_TYPE_DEFER_INTERRUPT].
    rewrite Hk. cbn [fst]. by destruct (_ && _). }
  destruct (status r =? STATUS_SUCCESS); cbn [negb andb] in *; [|by exists [], w1].
  destruct (data1 r =? MESSAGE_TYPE_DEFER_INTERRUPT).
  - destruct (handle_deferred_run m t (received r) w1 Hr) as (w2 & E2 & O2).
    destruct (delete_message_outputs (received r) w2) as (s & w3 & E3 & O3).
    erewrite drun_bind by exact E2. erewrite drun_bind by exact E3.
    exists [u8 (data3 r)], w3. cbn [key_events]. cbn [received msg_data] in *.
    destruct (key_event m (u8 (data3 r))) as [m' out]. split; [done|].
    rewrite O3, O2, O1. cbn. by rewrite app_nil_r, <- app_assoc.
  - destruct (delete_message_outputs (received r) w1) as (s & w3 & E3 & O3).
    erewrite drun_bind by reflexivity. erewrite drun_bind by exact E3.
    exists [], w3. split; [done|]. by rewrite O3, O1.
Qed.

Lemma key_events_app m cs ds :
  key_events m (cs ++ ds) =
    (fst (key_events (fst (key_events m cs)) ds),
     snd (key_events m cs) ++ snd (key_events (fst (key_events m cs)) ds)).
Proof.
  revert m; induction cs as [|c cs IH]; intros m; cbn [app key_events].
  - cbn [fst snd app]. by destruct (key_events m ds).
  - destruct (key_event m c) as [m' out]. rewrite IH.
    destruct (key_events m' cs) as [m'' out']. cbn [fst snd]. by rewrite app_comm_cons, app_assoc.
Qed.

(** C20. The main thread of the driver implements the abstract keyboard: from
    any modifier state, for any number of iterations and any messages, it does
    not trap, its mask always encodes the abstract modifiers, and what it
    exchanged with the outside is exactly what the abstract keyboard
    prescribes for the scan codes it received: key events to the console with
    the modifiers and the character of the layout, and LED commands on the
    lock keys, in this order. *)
Theorem keyboard_refines n m t w : responsive -> exists cs w',
  wait_for_messages patience n (mkKeyboard (encode m) t) w
    = Ret (mkKeyboard (encode (fst (key_events m cs))) t, w') /\
  outputs (trace w') = rev (snd (key_events m cs)) ++ outputs (trace w).
Proof.
  intros Hr. revert m w. induction n as [|n IH]; intros m w; [by exists [], w|].
  destruct (keyboard_step_run initialize_message m t w Hr) as (cs & w1 & E1 & O1).
  destruct (IH (fst (key_events m cs)) w1) as (ds & w2 & E2 & O2).
  exists (cs ++ ds), w2. cbn [wait_for_messages]. rewrite key_events_app. cbn [fst snd]. split.
  - by erewrite drun_bind by exact E1.
  - by rewrite O2, O1, rev_app_distr, app_assoc.
Qed.

End Driver.

(** ** The interrupt handler *)

Section Interrupt.
Context `{World}.

(** The scan codes a trace read from the controller, latest first. *)
Fixpoint codes_read (h : history) : list Z :=
  match h with
  | [] => []
  | e :: h' =>
      match e with
      | PortRead p => if p =? KEYBOARD_OUTPUT_BUFFER then u8 (port_value h) :: codes_read h'
                      else codes_read h'
      | _ => codes_read h'
      end
  end.

(** The deferred-interrupt messages a trace sent to [parent], latest first. *)
Fixpoint deferred (parent : Z) (h : history) : list Z :=
  match h with
  | [] => []
  | e :: h' =>
      match e with
      | Syscall v a _ =>
          if (v =? SYSTEM_CALL_VECTOR_SEND_MESSAGE) && (data0 a =? parent)
             && (data1 a =? MESSAGE_TYPE_DEFER_INTERRUPT)
          then data3 a :: deferred parent h' else deferred parent h'
      | _ => deferred parent h'
      end
  end.

(** The controller has no more data: the answer to the latest status poll. *)
Definition buffer_empty (h : history) : Prop :=
  exists h', h = PortRead KEYBOARD_STATUS_REGISTER :: h' /\
    has (u8 (port_value h)) KEYBOARD_STATUS_OUTPUT_BUFFER_READY = false.

Lemma drain_run parent n : forall w, exists codes w',
  drain_scan_codes n parent w = Ret (tt, w') /\ quiet w w' /\ (length codes <= n)%nat /\
  codes_read (trace w') = rev codes ++ codes_read (trace w) /\
  deferred parent (trace w') = rev codes ++ deferred parent (trace w) /\
  (length codes = n \/ buffer_empty (trace w')).
Proof.
  induction n as [|n IH]; intros [m h].
  { exists [], (Machine m h). repeat split; auto. }
  cbn [drain_scan_codes]. erewrite drun_bind by reflexivity. cbn [memory trace].
  destruct (has _ KEYBOARD_STATUS_OUTPUT_BUFFER_READY) eqn:Erdy.
  - erewrite drun_bind by reflexivity. cbn [memory trace]. set (h2 := _ :: _). set (c := u8 _).
    unfold defer_interrupt. edestruct send_message_run as (u & r & w3 & E3 & T3 & _).
    destruct (IH w3) as (cs & w4 & E4 & [Q1 Q2] & Hl & R4 & D4 & Hend).
    erewrite drun_bind by exact E3. exists (c :: cs), w4.
    split; [done|]. split; [split; [rewrite Q1, T3|rewrite Q2, T3]; reflexivity|].
    split; [cbn; lia|]. cbn [rev length]. rewrite R4, D4, T3, <- !app_assoc.
    split; [reflexivity|]. split; [|destruct Hend; [left; lia|by right]].
    cbn -[MESSAGE_TYPE_DEFER_INTERRUPT]. rewrite !Z.eqb_refl. reflexivity.
  - exists [], (Machine m (PortRead KEYBOARD_STATUS_REGISTER :: h)).
    split; [done|]. split; [done|]. split; [cbn; lia|]. split; [done|]. split; [done|].
    right. by exists h.
Qed.

(** The interrupt handler of the keyboard forwards every scan code that it
    takes from the controller to the main thread, exactly once and in order; it
    stops after eight codes or when the controller reports an empty buffer, so
    it always returns, and below eight codes none is left behind. *)
Theorem handle_interrupt_forwards parent context w : exists codes w',
  handle_interrupt parent context w = Ret (tt, w') /\ (length codes <= 8)%nat /\
  codes_read (trace w') = rev codes ++ codes_read (trace w) /\
  deferred parent (trace w') = rev codes ++ deferred parent (trace w) /\
  (length codes = 8%nat \/ buffer_empty (trace w')).
Proof.
  destruct (drain_run parent 8 w) as (codes & w' & E & _ & Hrest). exists codes, w'. by split.
Qed.

(** The handler keeps the promise that the interrupt loop relies on. *)
#[global] Instance handle_interrupt_quiet :
  QuietHandler (fun _ parent context => handle_interrupt parent context).
Proof.
  intros h p c w. destruct (drain_run p 8 w) as (codes & w' & E & Hq & _). eauto.
Qed.

End Interrupt.

(** ** Witnesses *)

(** Port 0x64 answers 0: the controller is idle and has no data. *)
Lemma example_responsive : @responsive (example_world 0) 1.
Proof. intros h. exists 0%nat. split; [lia|reflexivity]. Qed.

Lemma keyboard_refines_witness :
  let m := mkMods true false false false false false false in
  exists cs w',
    @wait_for_messages (example_world 0) 1 3 (mkKeyboard (encode m) 9) (Machine ∅ [])
      = Ret (mkKeyboard (encode (fst (key_events m cs))) 9, w') /\
    @outputs (example_world 0) (trace w') = rev (snd (key_events m cs)) ++ [].
Proof. apply (@keyboard_refines (example_world 0) 1 3), example_responsive. Defined.
