(* ===== verification/Console.v ===== *)
(** * The console driver

    [src/src/user/console]: it buffers keystrokes, hands them to readers,
    echoes them and forwards output to the display driver. The keyboard
    buffer is the first member of the context, at address [console] of the
    driver's memory, because the reply to a reader points into it; the other
    members are a record. *)

From S2P Require Import Prelude CMem CString World Libdx Keyboard.

Definition VGA_DRIVER : Z := 1.
Definition KEYBOARD_DRIVER : Z := 4.
Definition KEYBOARD_BUFFER_SIZE : Z := 32.

Record console_context := mkConsole {
  keyboard_buffer_size : Z; keyboard_buffer_overflow : Z;
  read_pending : bool; read_reply : message }.

(** The context after [memset]. *)
Definition console_zero : console_context := mkConsole 0 0 false (mkMessage 0 0 0 0 0 0).

Section Console.
Context `{World} (console : Z).

Definition echo (character : Z) : D unit :=
  let m := initialize_message in
  send_message (Some (mkMessage VGA_DRIVER MESSAGE_TYPE_WRITE (msg_id m) (u32 character) 0
    (destination_address m)));;
  mret tt.

Definition finish_read (c : console_context) : D console_context :=
  dassert (0 <? keyboard_buffer_size c);;
  let reply := mkMessage (u_id (read_reply c)) MESSAGE_TYPE_READ_COMPLETE (msg_id (read_reply c))
    console (keyboard_buffer_size c) (destination_address (read_reply c)) in
  send_message (Some reply);;
  mret (mkConsole 0 (keyboard_buffer_overflow c) false reply).

Definition forward_message (m : message) (thread_id : Z) : D Z :=
  dassert (negb (u_id m =? thread_id));;
  send_message (Some (mkMessage thread_id (msg_type m) (msg_id m) (msg_data m) (msg_data_size m)
    (destination_address m))).

Definition read_input (c : console_context) (m : message) : D console_context :=
  dassert (negb (read_pending c));;
  let c := mkConsole (keyboard_buffer_size c) (keyboard_buffer_overflow c) (read_pending c)
             (initialize_reply m) in
  if 0 <? keyboard_buffer_size c then finish_read c
  else mret (mkConsole (keyboard_buffer_size c) (keyboard_buffer_overflow c) true (read_reply c)).

(** The buffer has elements of 32 bits. *)
Definition save_input (c : console_context) (m : message) : D console_context :=
  dassert (msg_data_size m =? 0);;
  let character := READ_KEYBOARD_CHARACTER (msg_data m) in
  echo character;;
  c ← (if keyboard_buffer_size c <? KEYBOARD_BUFFER_SIZE then
         lift (store32 (console + 4 * keyboard_buffer_size c) (u32 character));;
         mret (mkConsole (keyboard_buffer_size c + 1) (keyboard_buffer_overflow c)
                 (read_pending c) (read_reply c))
       else
         mret (mkConsole (keyboard_buffer_size c) (u32 (keyboard_buffer_overflow c + 1))
                 (read_pending c) (read_reply c)));
  if read_pending c then finish_read c else mret c.

(** The [switch] of the message loop. *)
Definition console_dispatch (c : console_context) (m : message) : D console_context :=
  if msg_type m =? MESSAGE_TYPE_WRITE then forward_message m VGA_DRIVER;; mret c
  else if msg_type m =? MESSAGE_TYPE_FLUSH then
    let reply := initialize_reply m in
    send_message (Some (mkMessage (u_id reply) MESSAGE_TYPE_FLUSH_COMPLETE (msg_id reply)
      (msg_data reply) (msg_data_size reply) (destination_address reply)));;
    mret c
  else if msg_type m =? MESSAGE_TYPE_READ then read_input c m
  else if msg_type m =? MESSAGE_TYPE_KEYBOARD_INPUT then save_input c m
  else mret c.

Definition console_step (buffer : message) (c : console_context) : D console_context :=
  '(s, om) ← receive_message (Some buffer) WAIT_FOR_MESSAGE;
  match om with
  | Some m =>
      if negb (s =? STATUS_SUCCESS) then mret c
      else
        c ← console_dispatch c m;
        delete_message (Some m);;
        mret c
  | None => mret c
  end.

(** The endless loop, observed for [n] iterations. *)
Fixpoint console_wait_for_messages (n : nat) (c : console_context) : D console_context :=
  match n with
  | O => mret c
  | S n' => c ← console_step initialize_message c; console_wait_for_messages n' c
  end.

End Console.

(** [main], with the message loop observed for [n] iterations: the status it
    returns when it cannot allocate the context, or the state of the loop.
    164 is the size of the context. *)
Definition console_main `{World} (n : nat) : D (Z + console_context) :=
  console ← malloc 164;
  if console =? 0 then mret (inl STATUS_INSUFFICIENT_MEMORY)
  else
    lift (memset console 0 164);;
    c ← console_wait_for_messages console n console_zero;
    mret (inr c).
