(* ===== verification/ConsoleThms.v ===== *)
(** * The console driver: an abstract console and the refinement *)

From S2P Require Import Prelude CMem CString CStringMem World Libdx LibdxThms Keyboard KeyboardThms Console.

(** ** Abstract console *)

(** Buffered keystrokes, number of lost ones, and the thread and message id of
    a reader that waits. *)
Record aconsole := mkA { buffered : list Z; lost : Z; waiting : option (Z * Z) }.

Section Abstract.
Context (console : Z).

(** The completion of a read: the message gives the number of keystrokes as
    its size in bytes, and points to a buffer of 32-bit words, so that it
    carries a quarter of the buffer, against the comment of [finish_read]. *)
Definition delivery (cs : list Z) (reader : Z * Z) : transfer :=
  let n := length cs in
  Sent (mkMessage (fst reader) MESSAGE_TYPE_READ_COMPLETE (snd reader) console (Z.of_nat n) 0)
    (take n (words_bytes (u32 <$> cs))).

Definition echoed (c : Z) : transfer :=
  Sent (mkMessage VGA_DRIVER MESSAGE_TYPE_WRITE MESSAGE_ID_ATOMIC (u32 c) 0 0) [].

Definition type_key (a : aconsole) (c : Z) : aconsole :=
  if Z.of_nat (length (buffered a)) <? KEYBOARD_BUFFER_SIZE
  then mkA (buffered a ++ [c]) (lost a) (waiting a)
  else mkA (buffered a) (u32 (lost a + 1)) (waiting a).

(** Hands the buffer to a waiting reader. *)
Definition wake (a : aconsole) : aconsole * list transfer :=
  match waiting a with
  | Some reader => (mkA [] (lost a) None, [delivery (buffered a) reader])
  | None => (a, [])
  end.

(** One message with its payload; [None]: the driver stops on an assertion. *)
Definition console_event (a : aconsole) (m : message) (p : list Z)
    : option (aconsole * list transfer) :=
  if msg_type m =? MESSAGE_TYPE_WRITE then
    if u_id m =? VGA_DRIVER then None
    else Some (a, [Sent (mkMessage VGA_DRIVER (msg_type m) (msg_id m) (msg_data m)
                     (msg_data_size m) (destination_address m)) p])
  else if msg_type m =? MESSAGE_TYPE_FLUSH then
    Some (a, [Sent (mkMessage (u_id m) MESSAGE_TYPE_FLUSH_COMPLETE (msg_id m) 0 0 0) []])
  else if msg_type m =? MESSAGE_TYPE_READ then
    match waiting a with
    | Some _ => None
    | None =>
        let a := mkA (buffered a) (lost a) (Some (u_id m, msg_id m)) in
        Some (match buffered a with [] => (a, []) | _ => wake a end)
    end
  else if msg_type m =? MESSAGE_TYPE_KEYBOARD_INPUT then
    if negb (msg_data_size m =? 0) then None
    else
      let c := READ_KEYBOARD_CHARACTER (msg_data m) in
      let '(a', out) := wake (type_key a c) in Some (a', echoed c :: out)
  else Some (a, []).

(** The messages on which it stops: a write from the display driver, a second
    reader, a keystroke with a payload. *)
Definition refused (a : aconsole) (m : message) : Prop :=
  (msg_type m = MESSAGE_TYPE_WRITE /\ u_id m = VGA_DRIVER) \/
  (msg_type m = MESSAGE_TYPE_READ /\ waiting a <> None) \/
  (msg_type m = MESSAGE_TYPE_KEYBOARD_INPUT /\ msg_data_size m <> 0).

Lemma console_event_refused a m p : console_event a m p = None -> refused a m.
Proof.
  unfold console_event, refused. destruct (Z.eqb_spec (msg_type m) MESSAGE_TYPE_WRITE); [destruct (Z.eqb_spec (u_id m) VGA_DRIVER); [by left|done]|].
  destruct (Z.eqb_spec (msg_type m) MESSAGE_TYPE_FLUSH); [done|]. destruct (Z.eqb_spec (msg_type m) MESSAGE_TYPE_READ); [right; left; by destruct (waiting a)|].
  destruct (Z.eqb_spec (msg_type m) MESSAGE_TYPE_KEYBOARD_INPUT); [|done]. destruct (Z.eqb_spec (msg_data_size m) 0); cbn [negb]; [|right; by right].
  by destruct (wake _).
Qed.

Fixpoint console_events (a : aconsole) (ms : list (message * list Z))
    : option (aconsole * list transfer) :=
  match ms with
  | [] => Some (a, [])
  | (m, p) :: ms' =>
      match console_event a m p with
      | None => None
      | Some (a', out) =>
          match console_events a' ms' with
          | None => None
          | Some (a'', out') => Some (a'', Received m p :: out ++ out')
          end
      end
  end.

End Abstract.

(** ** The driver *)

Section Driver.
Context `{World} (console : Z).

(** The kernel changes no byte of the context when it serves a request (it
    maps the payloads of messages elsewhere). *)
Class StableContext : Prop := stable_context :
  forall v a m h x, console <= x < console + 128 ->
    snd (kernel_reply (Syscall v a m :: h)) !! x = m !! x.
Context `{!StableContext}.

(** The concrete context and memory represent the abstract console. *)
Record represents (a : aconsole) (c : console_context) (w : machine) : Prop := {
  rep_size : keyboard_buffer_size c = Z.of_nat (length (buffered a));
  rep_room : Z.of_nat (length (buffered a)) <= KEYBOARD_BUFFER_SIZE;
  rep_bytes : bytes_at (memory w) console (words_bytes (u32 <$> buffered a));
  rep_map : mapped (memory w) console 128;
  rep_lost : keyboard_buffer_overflow c = lost a;
  rep_pending : match waiting a with
    | Some (t, i) => read_pending c = true /\ buffered a = [] /\ u_id (read_reply c) = t /\
                     msg_id (read_reply c) = i /\ destination_address (read_reply c) = 0
    | None => read_pending c = false
    end }.

(** What a program may do around the representation: append exchanges and
    leave the buffer alone. *)
Definition steps (w w' : machine) (out : list transfer) : Prop :=
  transfers (trace w') = rev out ++ transfers (trace w) /\
  forall x, console <= x < console + 128 -> memory w' !! x = memory w !! x.

Lemma send_steps m w : exists s w', send_message (Some m) w = Ret (s, w') /\
  steps w w' [Sent m (read_bytes (memory w) (msg_data m) (Z.to_nat (msg_data_size m)))].
Proof.
  destruct (send_message_run m w) as (u & r & w' & E & Ht & Hr). exists (status r), w'.
  split; [done|]. split.
  - rewrite Ht. cbn -[kernel_reply]. rewrite <- Ht, Hr. by destruct m.
  - intros x Hx. replace (memory w') with (snd (kernel_reply (trace w'))) by (by rewrite Hr).
    rewrite Ht. by apply stable_context.
Qed.

Lemma delete_steps m w : exists s w', delete_message (Some m) w = Ret (s, w') /\ steps w w' [].
Proof.
  unfold delete_message. destruct (msg_data_size m =? 0); [by exists STATUS_SUCCESS, w|].
  destruct (system_call_run SYSTEM_CALL_VECTOR_DELETE_MESSAGE [msg_data m; msg_data_size m] w)
    as (u & r & w' & E & Ht & Hr).
  exists (status r), w'. split; [by erewrite drun_bind by exact E|]. split.
  - rewrite Ht. cbn -[kernel_reply]. by rewrite <- Ht, Hr.
  - intros x Hx. replace (memory w') with (snd (kernel_reply (trace w'))) by (by rewrite Hr).
    rewrite Ht. by apply stable_context.
Qed.

Lemma receive_steps b w : exists r w',
  receive_message (Some b) WAIT_FOR_MESSAGE w = Ret ((status r, Some (received r)), w') /\
  steps w w' (if status r =? STATUS_SUCCESS then [Received (received r)
    (read_bytes (memory w') (data3 r) (Z.to_nat (data4 r)))] else []).
Proof.
  destruct (receive_message_run b WAIT_FOR_MESSAGE w) as (u & r & w' & E & Ht & Hr).
  exists r, w'. split; [done|]. split.
  - rewrite Ht. cbn -[kernel_reply STATUS_SUCCESS]. rewrite <- Ht, Hr.
    by destruct (status r =? STATUS_SUCCESS).
  - intros x Hx. replace (memory w') with (snd (kernel_reply (trace w'))) by (by rewrite Hr).
    rewrite Ht. by apply stable_context.
Qed.

Lemma steps_trans w1 w2 w3 o1 o2 : steps w1 w2 o1 -> steps w2 w3 o2 -> steps w1 w3 (o1 ++ o2).
Proof.
  intros [T1 M1] [T2 M2]. split.
  - by rewrite T2, T1, rev_app_distr, app_assoc.
  - intros x Hx. by rewrite M2, M1.
Qed.

(** The representation survives whatever leaves the buffer alone. *)
Lemma represents_steps a c w w' out : steps w w' out -> represents a c w -> represents a c w'.
Proof.
  intros [_ Hm] [R1 R2 R3 R4 R5 R6]. unfold KEYBOARD_BUFFER_SIZE in *. split; try done.
  - eapply bytes_at_frame; [|exact R3]. intros x. rewrite length_words_bytes, length_fmap.
    intros Hx. apply Hm. lia.
  - intros x Hx. rewrite Hm by done. by apply R4.
Qed.

(** The machine after a dispatch: what it exchanged, and the representation. *)
Definition reaches (w : machine) (r : res (console_context * machine))
    (next : option (aconsole * list transfer)) : Prop :=
  match next with
  | Some (a', out) => exists c' w', r = Ret (c', w') /\ represents a' c' w' /\
                        transfers (trace w') = rev out ++ transfers (trace w)
  | None => r = Trap AssertFailed
  end.

Lemma finish_read_run a c w reader :
  represents (mkA (buffered a) (lost a) None) (mkConsole (keyboard_buffer_size c)
    (keyboard_buffer_overflow c) false (read_reply c)) w ->
  buffered a <> [] -> u_id (read_reply c) = fst reader -> msg_id (read_reply c) = snd reader ->
  destination_address (read_reply c) = 0 ->
  reaches w (finish_read console c w)
    (Some (mkA [] (lost a) None, [delivery console (buffered a) reader])).
Proof.
  intros [R1 R2 R3 R4 R5 _] Hne Ht Hi Hd. cbn -[words_bytes] in R1, R2, R3, R5.
  assert (0 < Z.of_nat (length (buffered a))) by (destruct (buffered a); [done|cbn; lia]).
  unfold finish_read. erewrite drun_bind by (apply dassert_run, Z.ltb_lt; lia).
  cbv zeta. edestruct send_steps as (s & w' & E & Hs). erewrite drun_bind by exact E.
  cbn. eexists _, w'. split; [done|]. pose proof Hs as [Htr _]. split.
  - apply (represents_steps _ _ _ _ _ Hs). split; cbn; try done.
  - rewrite Htr. unfold delivery. cbn -[words_bytes]. rewrite Ht, Hi, Hd, R1, Nat2Z.id.
    rewrite (read_bytes_take _ _ _ _ R3); [done|]. rewrite length_words_bytes, length_fmap. lia.
Qed.

Lemma read_input_run a c w m : represents a c w ->
  reaches w (read_input console c m w)
    (match waiting a with
     | Some _ => None
     | None => let a := mkA (buffered a) (lost a) (Some (u_id m, msg_id m)) in
               Some (match buffered a with [] => (a, []) | _ => wake console a end)
     end).
Proof.
  intros R. pose proof R as [R1 R2 R3 R4 R5 R6]. unfold read_input.
  destruct (waiting a) as [[t i]|]; cbn [reaches].
  { destruct R6 as (-> & _). by destruct w. }
  erewrite drun_bind by (apply dassert_run; by rewrite R6). cbv zeta. cbn [keyboard_buffer_size buffered].
  destruct (buffered a) as [|c0 cs] eqn:Eb.
  - rewrite R1. cbn. eexists _, w. split; [done|]. split; [|done].
    split; cbn; rewrite ?R6; try done; apply bytes_at_nil.
  - rewrite (proj2 (Z.ltb_lt _ _)) by (rewrite R1; cbn; lia).
    rewrite <- Eb in *. unfold wake. cbn [waiting buffered lost].
    apply (finish_read_run a (mkConsole (keyboard_buffer_size c) (keyboard_buffer_overflow c)
      (read_pending c) (initialize_reply m)) w (u_id m, msg_id m)); [|by rewrite Eb|done..].
    by split.
Qed.

(** Storing one more keystroke. *)
Lemma type_key_run a c w ch : represents a c w -> is_u32 (u32 ch) -> exists c' w',
  (if keyboard_buffer_size c <? KEYBOARD_BUFFER_SIZE then
     lift (store32 (console + 4 * keyboard_buffer_size c) (u32 ch));;
     mret (mkConsole (keyboard_buffer_size c + 1) (keyboard_buffer_overflow c)
             (read_pending c) (read_reply c))
   else mret (mkConsole (keyboard_buffer_size c) (u32 (keyboard_buffer_overflow c + 1))
                (read_pending c) (read_reply c))) w = Ret (c', w') /\
  trace w' = trace w /\ read_pending c' = read_pending c /\ read_reply c' = read_reply c /\
  represents (mkA (buffered (type_key a ch)) (lost (type_key a ch)) None)
    (mkConsole (keyboard_buffer_size c') (keyboard_buffer_overflow c') false (read_reply c')) w'.
Proof.
  intros [R1 R2 R3 R4 R5 _] Hu. unfold type_key. rewrite R1. unfold KEYBOARD_BUFFER_SIZE in *.
  destruct (Z.ltb_spec (Z.of_nat (length (buffered a))) 32) as [Hlt|Hge].
  - destruct w as [m h]. cbn [memory] in *.
    erewrite drun_bind by (apply drun_lift, store32_bytes; eapply mapped_sub; [exact R4|lia|lia]).
    eexists _, _. split; [reflexivity|]. cbn -[words_bytes write_bytes word_bytes]. do 3 (split; [done|]).
    split; cbn -[words_bytes write_bytes word_bytes]; unfold KEYBOARD_BUFFER_SIZE; try done.
    + rewrite length_app. cbn. lia.
    + rewrite length_app. cbn. lia.
    + rewrite fmap_app, words_bytes_app. cbn [fmap list_fmap]. apply bytes_at_app. split.
      * apply bytes_at_write_disjoint; [|done]. right. rewrite length_words_bytes, length_fmap. lia.
      * rewrite length_words_bytes, length_fmap. unfold words_bytes. cbn [fmap list_fmap concat].
        rewrite app_nil_r, Nat2Z.inj_mul. apply bytes_at_write.
    + by apply mapped_write.
  - eexists _, w. split; [reflexivity|]. cbn. do 3 (split; [done|]).
    split; cbn -[words_bytes]; try done. by rewrite R5.
Qed.

Lemma type_key_waiting a ch : waiting (type_key a ch) = waiting a.
Proof. unfold type_key. by destruct (_ <? _). Qed.

Lemma save_input_run a c w m : represents a c w ->
  reaches w (save_input console c m w)
    (if negb (msg_data_size m =? 0) then None
     else let ch := READ_KEYBOARD_CHARACTER (msg_data m) in
          let '(a', out) := wake console (type_key a ch) in Some (a', echoed ch :: out)).
Proof.
  intros R. unfold save_input. destruct (msg_data_size m =? 0); cbn [negb]; [|by destruct w].
  erewrite drun_bind by (by apply dassert_run). cbv zeta. set (ch := READ_KEYBOARD_CHARACTER _).
  unfold echo. edestruct send_steps as (s & w1 & E1 & S1).
  erewrite drun_bind; last first.
  { erewrite drun_bind by exact E1. reflexivity. }
  pose proof (represents_steps _ _ _ _ _ S1 R) as Rw1. destruct S1 as [T1 _]. cbn in T1.
  destruct (type_key_run a c w1 ch Rw1) as (c2 & w2 & E2 & T2 & P2 & Rr & R2);
    [unfold is_u32, u32; zlia|].
  erewrite drun_bind by exact E2. rewrite P2. pose proof (rep_pending _ _ _ R) as Hp.
  pose proof (type_key_waiting a ch) as Hw.
  unfold wake. rewrite Hw. destruct (waiting a) as [[t i]|].
  - destruct Hp as (-> & Hb & Hu & Hi & Hd).
    edestruct (finish_read_run (type_key a ch) c2 w2 (t, i)) as (c3 & w3 & E3 & R3 & T3);
      [exact R2| |by rewrite Rr..|].
    { unfold type_key. rewrite Hb. done. }
    exists c3, w3. split; [done|]. split; [done|].
    rewrite T3, T2, T1. cbn. done.
  - rewrite Hp. exists c2, w2. split; [done|]. split; [|by rewrite T2, T1].
    destruct R2 as [Q1 Q2 Q3 Q4 Q5 Q6]. split; try done. rewrite Hw. congruence.
Qed.

(** The whole dispatch. *)
Lemma console_dispatch_run a c w m : represents a c w ->
  reaches w (console_dispatch console c m w)
    (console_event console a m (read_bytes (memory w) (msg_data m) (Z.to_nat (msg_data_size m)))).
Proof.
  intros R. unfold console_dispatch, console_event.
  destruct (msg_type m =? MESSAGE_TYPE_WRITE).
  { unfold forward_message. destruct (u_id m =? VGA_DRIVER); [by destruct w|].
    match goal with |- context [send_message (Some ?msg)] =>
      destruct (send_steps msg w) as (s & w' & E & S) end.
    exists c, w'. split; [|split; [by eapply represents_steps|by destruct S]].
    erewrite drun_bind; [reflexivity|]. by erewrite drun_bind by (by apply dassert_run). }
  destruct (msg_type m =? MESSAGE_TYPE_FLUSH).
  { cbv zeta. match goal with |- context [send_message (Some ?msg)] =>
      destruct (send_steps msg w) as (s & w' & E & S) end. exists c, w'.
    split; [by erewrite drun_bind by exact E|]. split; [by eapply represents_steps|by destruct S]. }
  destruct (msg_type m =? MESSAGE_TYPE_READ); [by apply read_input_run|].
  destruct (msg_type m =? MESSAGE_TYPE_KEYBOARD_INPUT); [by apply save_input_run|].
  by exists c, w.
Qed.

(** The driver and the abstract console after the messages [ms]. *)
Definition follows (a : aconsole) (w : machine) (ms : list (message * list Z)) (a' : aconsole) (c' : console_context) (w' : machine) : Prop :=
  represents a' c' w' /\ exists out, console_events console a ms = Some (a', out) /\ transfers (trace w') = rev out ++ transfers (trace w).

(** The driver stops on a message that it has just received. *)
Definition stops_on (b : message) (a : aconsole) (w : machine) : Prop :=
  exists m w', receive_message (Some b) WAIT_FOR_MESSAGE w = Ret ((STATUS_SUCCESS, Some m), w') /\ refused a m.

(** One iteration of the message loop: no message or one. *)
Lemma console_step_run b a c w : represents a c w ->
  (exists ms a' c' w', console_step console b c w = Ret (c', w') /\ follows a w ms a' c' w') \/
  (console_step console b c w = Trap AssertFailed /\ stops_on b a w).
Proof.
  intros R. unfold console_step. destruct (receive_steps b w) as (r & w1 & E & S1).
  erewrite drun_bind by exact E. cbn beta iota.
  pose proof (represents_steps _ _ _ _ _ S1 R) as R1.
  destruct (Z.eqb_spec (status r) STATUS_SUCCESS) as [Hok|Hok]; cbn [negb].
  2: { left. exists [], a, c, w1. split; [done|]. split; [done|]. exists []. by destruct S1. }
  set (p := read_bytes _ _ _) in S1.
  pose proof (console_dispatch_run a c w1 (received r) R1) as Hd.
  change (read_bytes (memory w1) (msg_data (received r)) (Z.to_nat (msg_data_size (received r))))
    with p in Hd.
  destruct (console_event console a (received r) p) as [[a' out]|] eqn:Ev; cbn [reaches] in *.
  - left. destruct Hd as (c2 & w2 & E2 & R2 & T2). erewrite drun_bind by exact E2.
    destruct (delete_steps (received r) w2) as (s & w3 & E3 & S3). erewrite drun_bind by exact E3.
    exists [(received r, p)], a', c2, w3. split; [done|]. split; [by eapply represents_steps|].
    exists (Received (received r) p :: out). cbn [console_events]. rewrite Ev, app_nil_r. split; [done|].
    destruct S1 as [T1 _], S3 as [T3 _]. rewrite T3, T2, T1. cbn. by rewrite <- app_assoc.
  - right. split; [unfold mbind, D_bind; by rewrite Hd|]. exists (received r), w1. rewrite Hok in E. split; [done|]. by eapply console_event_refused.
Qed.

Lemma console_events_app a ms ns :
  console_events console a (ms ++ ns) =
    match console_events console a ms with
    | None => None
    | Some (a', out) =>
        match console_events console a' ns with
        | None => None
        | Some (a'', out') => Some (a'', out ++ out')
        end
    end.
Proof.
  revert a; induction ms as [|[m p] ms IH]; intros a; cbn [app console_events].
  - by destruct (console_events console a ns) as [[? ?]|].
  - destruct (console_event console a m p) as [[a' out]|]; [|done]. rewrite IH.
    destruct (console_events console a' ms) as [[a2 out2]|]; [|done].
    destruct (console_events console a2 ns) as [[a3 out3]|]; [|done].
    by rewrite app_comm_cons, app_assoc.
Qed.

Lemma follows_trans a0 w0 ms1 a1 c1 w1 ms2 a2 c2 w2 : follows a0 w0 ms1 a1 c1 w1 -> follows a1 w1 ms2 a2 c2 w2 -> follows a0 w0 (ms1 ++ ms2) a2 c2 w2.
Proof.
  intros [_ (o1 & E1 & T1)] [R2 (o2 & E2 & T2)]. split; [done|]. exists (o1 ++ o2). rewrite console_events_app, E1, E2. split; [done|]. by rewrite T2, T1, rev_app_distr, app_assoc.
Qed.

(** C18. The console driver implements the abstract console, for any number of
    iterations and any messages: the buffer never exceeds its 32 entries, a
    waiting reader and a non-empty buffer never coexist, every message is
    forwarded, answered, echoed, buffered or counted as lost as the abstract
    console prescribes, in order. Either all iterations return, or after some
    of them the driver receives a message that fails one of three assertions (a
    second reader, a write from the display driver, a keystroke message with a
    payload). The abstract delivery of a read is what the code sends, against
    its comment that all buffered input is returned: as many bytes of the
    buffer of 32-bit words as there are keystrokes, so that one keystroke
    arrives and of two to four all but the first are lost. *)
Theorem console_refines n a c w : represents a c w ->
  (exists ms a' c' w', console_wait_for_messages console n c w = Ret (c', w') /\ follows a w ms a' c' w') \/
  (console_wait_for_messages console n c w = Trap AssertFailed /\
   exists k ms a' c' w', (k < n)%nat /\ console_wait_for_messages console k c w = Ret (c', w') /\ follows a w ms a' c' w' /\
     stops_on initialize_message a' w').
Proof.
  revert a c w. induction n as [|n IH]; intros a c w R; [left; exists [], a, c, w; split; [done|]; split; [done|]; by exists []|].
  cbn [console_wait_for_messages]. destruct (console_step_run initialize_message a c w R) as [(ms & a1 & c1 & w1 & Es & F1)|[Es Hstop]].
  - erewrite drun_bind by exact Es. destruct (IH a1 c1 w1 (proj1 F1)) as [(ns & a2 & c2 & w2 & E2 & F2)|[Et (k & ns & a2 & c2 & w2 & Hk & E2 & F2 & Hstop)]].
    + left. exists (ms ++ ns), a2, c2, w2. split; [done|]. by eapply follows_trans.
    + right. split; [done|]. exists (S k), (ms ++ ns), a2, c2, w2. split; [lia|]. cbn [console_wait_for_messages]. erewrite drun_bind by exact Es.
      split; [done|]. split; [by eapply follows_trans|done].
  - right. split; [unfold mbind, D_bind; by rewrite Es|]. exists 0%nat, [], a, c, w. split; [lia|]. split; [done|]. split; [|done]. split; [done|]. by exists [].
Qed.

(** A read request that finds [n] keystrokes, up to four, is answered with
    [n] bytes of the buffer of 32-bit words: the first keystroke followed by
    [n - 1] zero bytes. One keystroke arrives intact; of two or more, all but
    the first are lost. *)
Theorem console_read_delivers_first a c w m c0 cs :
  represents a c w -> msg_type m = MESSAGE_TYPE_READ -> waiting a = None ->
  buffered a = c0 :: cs -> (length cs <= 3)%nat -> 0 <= c0 < 128 ->
  exists c' w', console_dispatch console c m w = Ret (c', w') /\
    represents (mkA [] (lost a) None) c' w' /\
    transfers (trace w') =
      Sent (mkMessage (u_id m) MESSAGE_TYPE_READ_COMPLETE (msg_id m) console
              (Z.of_nat (length (buffered a))) 0)
        (c0 :: replicate (length cs) 0) :: transfers (trace w).
Proof.
  intros R Hm Hw Hb Hl Hc. pose proof (console_dispatch_run a c w m R) as Hd.
  unfold console_event in Hd. rewrite Hm, Hw in Hd. cbn -[delivery words_bytes] in Hd.
  rewrite Hb in Hd. destruct Hd as (c' & w' & E & R' & T). exists c', w'. split; [done|]. split; [done|].
  cbn -[delivery words_bytes] in T. rewrite Hb, T. unfold delivery. do 2 f_equal.
  cbn. assert (H1 : u8 (u32 c0) = c0) by (unfold u8, u32; zlia). rewrite H1. f_equal.
  assert (H0' : u8 (u32 c0 ≫ 8) = 0 /\ u8 (u32 c0 ≫ 16) = 0 /\ u8 (u32 c0 ≫ 24) = 0).
  { rewrite !Z.shiftr_div_pow2 by lia. unfold u8, u32. change (2 ^ 8) with 256.
    change (2 ^ 16) with 65536. change (2 ^ 24) with 16777216. zlia. }
  destruct H0' as (-> & -> & ->).
  destruct cs as [|? [|? [|? [|? ?]]]]; cbn in *; [done..|lia].
Qed.

(** From key to console: when the keyboard driver reports a key press, the
    console buffers and echoes exactly the character the keyboard layout gives
    for that key under the current modifiers. *)
Theorem keystroke_reaches_console mods code m' word a c w src id :
  0 <= code < 88 -> press mods code = (m', [Key word]) -> represents a c w ->
  waiting a = None -> Z.of_nat (length (buffered a)) < KEYBOARD_BUFFER_SIZE ->
  exists c' w',
    console_dispatch console c (mkMessage src MESSAGE_TYPE_KEYBOARD_INPUT id word 0 0) w = Ret (c', w') /\
    represents (mkA (buffered a ++ [layout mods code]) (lost a) None) c' w' /\
    transfers (trace w') = echoed (layout mods code) :: transfers (trace w).
Proof.
  intros Hc Hp R Hw Hroom. pose proof (layout_range mods code Hc).
  assert (word = 65536 * encode mods + layout mods code) as ->.
  { revert Hp. unfold press, leds. destruct mods. repeat case_match; intros; by simplify_eq. }
  pose proof (console_dispatch_run a c w (mkMessage src MESSAGE_TYPE_KEYBOARD_INPUT id
    (65536 * encode mods + layout mods code) 0 0) R) as Hd.
  unfold console_event in Hd. cbn -[READ_KEYBOARD_CHARACTER wake] in Hd.
  destruct (keyboard_word mods (layout mods code)) as [_ Hch]; [lia|].
  rewrite Hch in Hd. unfold wake in Hd. rewrite type_key_waiting, Hw in Hd.
  destruct Hd as (c' & w' & E & R' & T). exists c', w'. split; [done|]. split; [|done].
  revert R'. unfold type_key. rewrite (proj2 (Z.ltb_lt _ _) Hroom). by rewrite Hw.
Qed.

End Driver.

(** ** Witnesses *)

#[local] Instance example_stable console : @StableContext (example_world 0) console.
Proof. intros v a m h x _. done. Qed.

(** Three keystrokes in the buffer at address 4096. *)
Definition example_memory : mem :=
  write_bytes ∅ 4096 (words_bytes [97; 98; 99] ++ replicate 116 0).

Lemma example_represents : represents 4096 (mkA [97; 98; 99] 0 None)
  (mkConsole 3 0 false initialize_message) (Machine example_memory []).
Proof. split; [done|by_eval|by_eval|by_eval|done|done]. Qed.

Lemma console_refines_witness : exists ms a' c' w',
  @console_wait_for_messages (example_world 0) 4096 2 (mkConsole 3 0 false initialize_message) (Machine example_memory []) = Ret (c', w') /\
  @follows (example_world 0) 4096 (mkA [97; 98; 99] 0 None) (Machine example_memory []) ms a' c' w'.
Proof.
  destruct (@console_refines (example_world 0) 4096 _ 2 (mkA [97; 98; 99] 0 None) (mkConsole 3 0 false initialize_message) (Machine example_memory []) example_represents)
    as [Hret|[E _]]; [exact Hret|vm_compute in E; discriminate E].
Defined.

Lemma console_read_delivers_first_witness :
  let m := mkMessage 7 MESSAGE_TYPE_READ 5 0 0 0 in
  exists c' w',
    @console_dispatch (example_world 0) 4096 (mkConsole 3 0 false initialize_message) m
      (Machine example_memory []) = Ret (c', w') /\
    represents 4096 (mkA [] 0 None) c' w' /\
    @transfers (example_world 0) (trace w') =
      [Sent (mkMessage 7 MESSAGE_TYPE_READ_COMPLETE 5 4096 3 0) [97; 0; 0]].
Proof.
  apply (@console_read_delivers_first (example_world 0) 4096 _ (mkA [97; 98; 99] 0 None)
    (mkConsole 3 0 false initialize_message) (Machine example_memory [])
    (mkMessage 7 MESSAGE_TYPE_READ 5 0 0 0) 97 [98; 99]);
    [apply example_represents|done|done|done|cbn; lia|lia].
Defined.

Lemma keystroke_reaches_console_witness :
  let m := mkMods true false false false false false false in
  exists c' w',
    @console_dispatch (example_world 0) 4096 (mkConsole 3 0 false initialize_message)
      (mkMessage 4 MESSAGE_TYPE_KEYBOARD_INPUT MESSAGE_ID_ATOMIC 65601 0 0)
      (Machine example_memory []) = Ret (c', w') /\
    represents 4096 (mkA ([97; 98; 99] ++ [layout m 30]) 0 None) c' w' /\
    @transfers (example_world 0) (trace w') = [echoed (layout m 30)].
Proof.
  apply (@keystroke_reaches_console (example_world 0) 4096 _
    (mkMods true false false false false false false) 30
    (mkMods true false false false false false false) 65601 (mkA [97; 98; 99] 0 None));
    [lia|reflexivity|apply example_represents|done|by_eval].
Defined.
