(* ===== verification/Vga.v ===== *)
(** * The display driver

    [src/src/user/vga]: a text screen of 25 lines of 80 characters in the frame
    buffer that the kernel maps for the driver. The scalar members of the
    context are a record; the blank line is in memory, at offset 9 of the
    context, because it is copied from there. The context has 188 bytes; its
    member [memory] is at offset 0, where [map_device] stores the address. *)

From S2P Require Import Prelude CMem CString World Libdx.

Definition VGA_TEXT_ATTRIBUTE_WHITE_ON_BLACK : Z := 7.
Definition VGA_TEXT_BYTES_PER_CHARACTER : Z := 2.
Definition VGA_TEXT_BASE_ADDRESS : Z := 753664.
Definition VGA_TEXT_COLUMN_COUNT : Z := 80.
Definition VGA_TEXT_ROW_COUNT : Z := 25.
Definition VGA_TEXT_LINE_SIZE : Z := VGA_TEXT_COLUMN_COUNT * VGA_TEXT_BYTES_PER_CHARACTER.
Definition VGA_TEXT_MEMORY_SIZE : Z := VGA_TEXT_LINE_SIZE * VGA_TEXT_ROW_COUNT.
Definition VGA_TEXT_FIRST_LINE_OFFSET : Z := 0.
Definition VGA_TEXT_SECOND_LINE_OFFSET : Z := VGA_TEXT_LINE_SIZE.
Definition VGA_TEXT_LAST_LINE_OFFSET : Z := (VGA_TEXT_ROW_COUNT - 1) * VGA_TEXT_LINE_SIZE.
Definition VGA_TEXT_OVERFLOW_LINE_OFFSET : Z := VGA_TEXT_LAST_LINE_OFFSET + VGA_TEXT_LINE_SIZE.

Definition VGA_CRTC_ADDRESS_PORT_ADDRESS : Z := 980.
Definition VGA_CRTC_DATA_PORT_ADDRESS : Z := 981.
Definition VGA_CRTC_CURSOR_START_REGISTER : Z := 10.
Definition VGA_CRTC_START_ADDRESS_HIGH_REGISTER : Z := 12.
Definition VGA_CRTC_START_ADDRESS_LOW_REGISTER : Z := 13.
Definition VGA_CRTC_CURSOR_LOCATION_HIGH_REGISTER : Z := 14.
Definition VGA_CRTC_CURSOR_LOCATION_LOW_REGISTER : Z := 15.
Definition VGA_CRTC_CURSOR_START_DISABLE_CURSOR : Z := 32.

Definition VGA_TEXT_KERNEL_SIZE : Z := PAGE_SIZE.
Definition VGA_TEXT_USER_PAGE : Z := VGA_TEXT_BASE_ADDRESS + VGA_TEXT_KERNEL_SIZE.
Definition VGA_TEXT_USER_PAGE_OFFSET : Z :=
  (VGA_TEXT_USER_PAGE - VGA_TEXT_BASE_ADDRESS) / VGA_TEXT_BYTES_PER_CHARACTER.
Definition VGA_PORT : list Z := [VGA_CRTC_ADDRESS_PORT_ADDRESS; VGA_CRTC_DATA_PORT_ADDRESS].

Definition MESSAGE_TYPE_RESET : Z := SYSTEM_MESSAGE 42.

Record vga_context := mkVga {
  vga : Z;                 (* the address of the context itself *)
  vga_memory : Z; current_offset : Z; cursor_enabled : bool;
  first_line : Z; second_line : Z; last_line : Z; overflow_line : Z }.

Definition blank_line (v : vga_context) : Z := vga v + 9.

Definition set_offset (v : vga_context) (o : Z) : vga_context :=
  mkVga (vga v) (vga_memory v) o (cursor_enabled v) (first_line v) (second_line v)
    (last_line v) (overflow_line v).
Definition set_cursor (v : vga_context) (b : bool) : vga_context :=
  mkVga (vga v) (vga_memory v) (current_offset v) b (first_line v) (second_line v)
    (last_line v) (overflow_line v).

(** ** The screen *)

(** The loop of [vga_clear], from [line] on. *)
Fixpoint clear_lines (fuel : nat) (v : vga_context) (line : Z) : C unit :=
  match fuel with
  | O => fail OutOfFuel
  | S f =>
      if line <=? last_line v then
        memcpy line (blank_line v) VGA_TEXT_LINE_SIZE;;
        clear_lines f v (u32 (line + VGA_TEXT_LINE_SIZE))
      else mret tt
  end.

Definition vga_clear (v : vga_context) : C vga_context :=
  clear_lines (S (Z.to_nat VGA_TEXT_ROW_COUNT)) v (first_line v);;
  mret (set_offset v (last_line v)).

Definition vga_scroll_up (v : vga_context) : C unit :=
  memmove (first_line v) (second_line v) (VGA_TEXT_MEMORY_SIZE - VGA_TEXT_LINE_SIZE);;
  memcpy (last_line v) (blank_line v) VGA_TEXT_LINE_SIZE;;
  mret tt.

(** One round of the loop of [vga_write]; the character is a signed [char]. *)
Definition vga_put (v : vga_context) (character : Z) : C vga_context :=
  if negb (character =? 10) then
    let word := u16 (Z.lor (Z.shiftl VGA_TEXT_ATTRIBUTE_WHITE_ON_BLACK 8) character) in
    store16 (current_offset v) word;;
    let v := set_offset v (u32 (current_offset v + 2)) in
    if overflow_line v <=? current_offset v then
      vga_scroll_up v;; mret (set_offset v (last_line v))
    else mret v
  else
    vga_scroll_up v;; mret (set_offset v (last_line v)).

Fixpoint write_text (length : nat) (v : vga_context) (text : Z) : C vga_context :=
  match length with
  | O => mret v
  | S n =>
      character ← loadc text;
      v ← vga_put v character;
      write_text n v (u32 (text + 1))
  end.

Section Driver.
Context `{World}.

(** ** The cursor *)

Definition vga_move_cursor (v : vga_context) : D unit :=
  if cursor_enabled v then
    let offset := u32 (s32 (current_offset v - vga_memory v) / 2 +
                       VGA_TEXT_KERNEL_SIZE / VGA_TEXT_BYTES_PER_CHARACTER) in
    io_port_write8 VGA_CRTC_ADDRESS_PORT_ADDRESS VGA_CRTC_CURSOR_LOCATION_HIGH_REGISTER;;
    io_port_write8 VGA_CRTC_DATA_PORT_ADDRESS (u8 (Z.shiftr offset 8));;
    io_port_write8 VGA_CRTC_ADDRESS_PORT_ADDRESS VGA_CRTC_CURSOR_LOCATION_LOW_REGISTER;;
    io_port_write8 VGA_CRTC_DATA_PORT_ADDRESS (u8 offset)
  else mret tt.

Definition vga_disable_cursor (v : vga_context) : D vga_context :=
  if cursor_enabled v then
    io_port_write8 VGA_CRTC_ADDRESS_PORT_ADDRESS VGA_CRTC_CURSOR_START_REGISTER;;
    bits ← io_port_read8 VGA_CRTC_DATA_PORT_ADDRESS;
    let bits := Z.lor bits VGA_CRTC_CURSOR_START_DISABLE_CURSOR in
    io_port_write8 VGA_CRTC_DATA_PORT_ADDRESS bits;;
    mret (set_cursor v false)
  else mret v.

Definition vga_enable_cursor (v : vga_context) : D vga_context :=
  if negb (cursor_enabled v) then
    let v := set_cursor v true in
    vga_move_cursor v;;
    io_port_write8 VGA_CRTC_ADDRESS_PORT_ADDRESS VGA_CRTC_CURSOR_START_REGISTER;;
    bits ← io_port_read8 VGA_CRTC_DATA_PORT_ADDRESS;
    let bits := Z.land bits (Z.lnot VGA_CRTC_CURSOR_START_DISABLE_CURSOR) in
    io_port_write8 VGA_CRTC_DATA_PORT_ADDRESS bits;;
    mret v
  else mret v.

(** ** Output *)

Definition vga_write (v : vga_context) (text length : Z) : D vga_context :=
  v ← lift (write_text (Z.to_nat length) v text);
  vga_move_cursor v;;
  mret v.

(** [vga_write(vga, &message.data, 1)]: the low byte of the word. *)
Definition vga_write_immediate (v : vga_context) (data : Z) : D vga_context :=
  v ← lift (vga_put v (s8 data));
  vga_move_cursor v;;
  mret v.

(** ** The message loop *)

Definition vga_dispatch (v : vga_context) (m : message) : D vga_context :=
  if msg_type m =? MESSAGE_TYPE_WRITE then
    if 0 <? msg_data_size m then vga_write v (msg_data m) (msg_data_size m)
    else vga_write_immediate v (msg_data m)
  else if msg_type m =? MESSAGE_TYPE_RESET then lift (vga_clear v)
  else if msg_type m =? MESSAGE_TYPE_FLUSH then
    let reply := initialize_reply m in
    send_message (Some (mkMessage (u_id reply) MESSAGE_TYPE_FLUSH_COMPLETE (msg_id reply)
      (msg_data reply) (msg_data_size reply) (destination_address reply)));;
    mret v
  else mret v.

Definition vga_step (buffer : message) (v : vga_context) : D vga_context :=
  '(s, om) ← receive_message (Some buffer) WAIT_FOR_MESSAGE;
  match om with
  | Some m =>
      if negb (s =? STATUS_SUCCESS) then mret v
      else
        v ← vga_dispatch v m;
        delete_message (Some m);;
        mret v
  | None => mret v
  end.

(** The endless loop, observed for [n] iterations. *)
Fixpoint vga_wait_for_messages (n : nat) (v : vga_context) : D vga_context :=
  match n with
  | O => mret v
  | S n' => v ← vga_step initialize_message v; vga_wait_for_messages n' v
  end.

(** ** Start and end *)

Fixpoint map_vga_ports (ports : list Z) : D unit :=
  match ports with
  | [] => mret tt
  | p :: ports' =>
      st ← map_device p DEVICE_TYPE_IO_PORT 1 0 NULL;
      if negb (st =? STATUS_SUCCESS) then mret tt else map_vga_ports ports'
  end.

Fixpoint unmap_vga_ports (ports : list Z) : D unit :=
  match ports with
  | [] => mret tt
  | p :: ports' => unmap_device p DEVICE_TYPE_IO_PORT 1;; unmap_vga_ports ports'
  end.

Definition vga_cleanup (context : option vga_context) : D unit :=
  match context with
  | None => mret tt
  | Some v =>
      unmap_vga_ports VGA_PORT;;
      (if negb (vga_memory v =? 0)
       then unmap_device (vga_memory v) DEVICE_TYPE_MEMORY VGA_TEXT_MEMORY_SIZE;; mret tt
       else mret tt);;
      free (vga v)
  end.

Definition configure_hardware (v : vga_context) : D vga_context :=
  io_port_write8 VGA_CRTC_ADDRESS_PORT_ADDRESS VGA_CRTC_START_ADDRESS_HIGH_REGISTER;;
  io_port_write8 VGA_CRTC_DATA_PORT_ADDRESS (u8 (Z.shiftr VGA_TEXT_USER_PAGE_OFFSET 8));;
  io_port_write8 VGA_CRTC_ADDRESS_PORT_ADDRESS VGA_CRTC_START_ADDRESS_LOW_REGISTER;;
  io_port_write8 VGA_CRTC_DATA_PORT_ADDRESS (u8 VGA_TEXT_USER_PAGE_OFFSET);;
  vga_enable_cursor (set_cursor v false).

(** [while] of the preassembled line: [n] words from [current_word] on. *)
Fixpoint fill_blank (n : nat) (current_word : Z) : C unit :=
  match n with
  | O => mret tt
  | S n' =>
      store16 current_word (Z.lor (Z.shiftl VGA_TEXT_ATTRIBUTE_WHITE_ON_BLACK 8) 32);;
      fill_blank n' (current_word + 2)
  end.

(** A failure to map the frame buffer leaves the zeroed context. *)
Definition vga_initialize : D (option vga_context) :=
  p ← malloc 188;
  if p =? 0 then mret None
  else
    lift (memset p 0 188);;
    map_vga_ports VGA_PORT;;
    st ← map_device VGA_TEXT_USER_PAGE DEVICE_TYPE_MEMORY VGA_TEXT_MEMORY_SIZE 0 p;
    if negb (st =? STATUS_SUCCESS) then mret (Some (mkVga p 0 0 false 0 0 0 0))
    else
      memory ← lift (load32 p);
      let line o := u32 (memory + o) in
      lift (fill_blank (Z.to_nat VGA_TEXT_COLUMN_COUNT) (p + 9));;
      mret (Some (mkVga p memory 0 false (line VGA_TEXT_FIRST_LINE_OFFSET)
        (line VGA_TEXT_SECOND_LINE_OFFSET) (line VGA_TEXT_LAST_LINE_OFFSET)
        (line VGA_TEXT_OVERFLOW_LINE_OFFSET))).

(** [main], with the message loop observed for [n] iterations. *)
Definition vga_main (n : nat) : D (Z + vga_context) :=
  o ← vga_initialize;
  match o with
  | Some v =>
      v ← configure_hardware v;
      v ← lift (vga_clear v);
      v ← vga_wait_for_messages n v;
      mret (inr v)
  | None => vga_cleanup None;; mret (inl STATUS_RESOURCE_CONFLICT)
  end.

End Driver.
