(* ===== verification/VgaThms.v ===== *)
(** * The display driver: an abstract terminal and the refinement *)

From S2P Require Import Prelude CMem CString CStringMem World Libdx LibdxThms Vga.

(** ** Abstract terminal *)

(** A cell is a character with its attribute; all rows have 80 cells. *)
Definition blank : Z := 1824.
Definition blank_row : list Z := replicate 80 blank.

(** The word for a [char]: white on black for the 7-bit characters. *)
Definition cell (c : Z) : Z := u16 (Z.lor 1792 (s8 c)).

(** All lines ever completed, and the line being written. *)
Record terminal := mkTerminal { completed : list (list Z); line : list Z }.

Definition pad (l : list Z) : list Z := l ++ replicate (80 - length l) blank.

Definition new_line (t : terminal) : terminal := mkTerminal (completed t ++ [pad (line t)]) [].

(** One character: a line ends at a newline or when it is full. *)
Definition term_put (t : terminal) (c : Z) : terminal :=
  if s8 c =? 10 then new_line t
  else
    let t' := mkTerminal (completed t) (line t ++ [cell c]) in
    if (length (line t') =? 80)%nat then new_line t' else t'.

(** The lines that exist, above them blank ones, and the 25 last of them. *)
Definition rows (t : terminal) : list (list Z) := replicate 24 blank_row ++ completed t ++ [pad (line t)].
Definition screen (t : terminal) : list Z := concat (drop (length (rows t) - 25) (rows t)).

Definition terminal_wf (t : terminal) : Prop :=
  Forall (fun r => length r = 80%nat) (completed t) /\ (length (line t) < 80)%nat.

Lemma length_pad l : (length l <= 80)%nat -> length (pad l) = 80%nat.
Proof. intros Hl. unfold pad. rewrite length_app, length_replicate. lia. Qed.

Lemma new_line_wf t : Forall (fun r => length r = 80%nat) (completed t) -> (length (line t) <= 80)%nat ->
  terminal_wf (new_line t).
Proof.
  intros Hc Hl. split; cbn; [|lia]. apply Forall_app. split; [done|]. repeat constructor. by apply length_pad.
Qed.

Lemma term_put_wf t c : terminal_wf t -> terminal_wf (term_put t c).
Proof.
  intros [Hc Hl]. unfold term_put. destruct (s8 c =? 10); [apply new_line_wf; [done|lia]|].
  cbn zeta. cbn [line]. rewrite length_app. cbn [length].
  destruct (Nat.eqb_spec (length (line t) + 1) 80).
  - apply new_line_wf; [done|cbn]. rewrite length_app. cbn. lia.
  - split; [done|]. cbn. rewrite length_app. cbn. lia.
Qed.

Lemma rows_length t : Forall (fun r => length r = 80%nat) (completed t) -> (length (line t) <= 80)%nat ->
  Forall (fun r => length r = 80%nat) (rows t).
Proof.
  intros Hc Hl. unfold rows. rewrite !Forall_app. repeat split; [|done|].
  - apply Forall_replicate. unfold blank_row. apply length_replicate.
  - repeat constructor. by apply length_pad.
Qed.

Lemma concat_rows_length (rs : list (list Z)) :
  Forall (fun r => length r = 80%nat) rs -> length (concat rs) = (80 * length rs)%nat.
Proof. induction 1 as [|r rs Hr _ IH]; [done|]. cbn. rewrite length_app, IH, Hr. lia. Qed.

Lemma concat_rows_drop (rs : list (list Z)) n :
  Forall (fun r => length r = 80%nat) rs -> concat (drop n rs) = drop (80 * n) (concat rs).
Proof.
  intros Hrs. revert n. induction Hrs as [|r rs Hr _ IH]; intros [|n].
  - done.
  - by rewrite !drop_nil.
  - by rewrite Nat.mul_0_r.
  - cbn [drop concat]. rewrite IH, drop_app_ge by lia. f_equal. lia.
Qed.

(** The part of the screen above the current line. *)
Definition upper (cs : list (list Z)) : list Z :=
  concat (drop (length (replicate 24 blank_row ++ cs) - 24) (replicate 24 blank_row ++ cs)).

Lemma screen_upper t : screen t = upper (completed t) ++ pad (line t).
Proof.
  unfold screen, rows, upper. rewrite app_assoc. set (above := replicate 24 blank_row ++ completed t).
  assert (Hab : (24 <= length above)%nat) by (unfold above; rewrite length_app, length_replicate; lia).
  rewrite length_app. cbn [length]. rewrite drop_app_le by lia. rewrite concat_app. cbn [concat].
  rewrite app_nil_r. by replace (length above + 1 - 25)%nat with (length above - 24)%nat by lia.
Qed.

Lemma length_upper cs : Forall (fun r => length r = 80%nat) cs -> length (upper cs) = 1920%nat.
Proof.
  intros Hc. unfold upper. rewrite concat_rows_length.
  - rewrite length_drop, length_app, length_replicate. lia.
  - apply Forall_drop, Forall_app. split; [|done]. apply Forall_replicate, length_replicate.
Qed.

(** Completing the line scrolls. *)
Lemma screen_new_line t : Forall (fun r => length r = 80%nat) (completed t) -> (length (line t) <= 80)%nat ->
  screen (new_line t) = drop 80 (screen t) ++ blank_row.
Proof.
  intros Hc Hl. pose proof (rows_length t Hc Hl) as Hr.
  assert (Hrows : rows (new_line t) = rows t ++ [blank_row]).
  { unfold rows, new_line. cbn [completed line]. by rewrite <- !app_assoc. }
  unfold screen. rewrite Hrows, length_app. cbn [length].
  assert (Hlen : (25 <= length (rows t))%nat) by (unfold rows; rewrite !length_app, length_replicate; cbn; lia).
  rewrite drop_app_le by lia. rewrite concat_app. cbn [concat]. rewrite app_nil_r. f_equal.
  rewrite !concat_rows_drop by done. rewrite drop_drop. f_equal. lia.
Qed.

Lemma screen_length t : Forall (fun r => length r = 80%nat) (completed t) -> (length (line t) <= 80)%nat ->
  length (screen t) = 2000%nat.
Proof. intros Hc Hl. by rewrite screen_upper, length_app, length_upper, length_pad. Qed.

(** ** The frame buffer *)

Definition cells_bytes (ws : list Z) : list Z := concat (half_bytes <$> ws).

Lemma cells_bytes_app ws vs : cells_bytes (ws ++ vs) = cells_bytes ws ++ cells_bytes vs.
Proof. unfold cells_bytes. by rewrite fmap_app, concat_app. Qed.

Lemma length_cells_bytes ws : length (cells_bytes ws) = (2 * length ws)%nat.
Proof.
  unfold cells_bytes. induction ws as [|w ws IH]; [done|]. cbn [fmap list_fmap concat].
  rewrite length_app. cbn. lia.
Qed.

Lemma cells_bytes_drop n : forall ws, cells_bytes (drop n ws) = drop (2 * n) (cells_bytes ws).
Proof.
  induction n as [|n IH]; intros [|w ws]; [done|done|by rewrite !drop_nil|].
  cbn [drop]. rewrite IH. replace (2 * S n)%nat with (S (S (2 * n))) by lia. done.
Qed.

Lemma cells_bytes_u8 ws : Forall is_u8 (cells_bytes ws).
Proof.
  unfold cells_bytes. induction ws as [|w ws IH]; [done|]. cbn [fmap list_fmap concat].
  apply Forall_app. split; [|done]. repeat constructor; unfold is_u8, u8; zlia.
Qed.

(** Where things are. *)
Record layout_ok (v : vga_context) : Prop := {
  lay_memory : 0 < vga_memory v /\ vga_memory v + 4000 < 4294967296;
  lay_first : first_line v = vga_memory v;
  lay_second : second_line v = vga_memory v + 160;
  lay_last : last_line v = vga_memory v + 3840;
  lay_overflow : overflow_line v = vga_memory v + 4000;
  lay_context : 0 < vga v;
  lay_apart : vga v + 188 <= vga_memory v \/ vga_memory v + 4000 <= vga v
}.

(** The bytes outside the frame buffer are as before. *)
Definition same_outside (v : vga_context) (m m' : mem) : Prop :=
  forall x, ~ (vga_memory v <= x < vga_memory v + 4000) -> m' !! x = m !! x.

(** Memory holds the cells [ws] on the screen and the blank line. *)
Definition holds (v : vga_context) (ws : list Z) (m : mem) : Prop :=
  bytes_at m (vga_memory v) (cells_bytes ws) /\ bytes_at m (blank_line v) (cells_bytes blank_row).

Lemma same_outside_write v m a l : vga_memory v <= a -> a + Z.of_nat (length l) <= vga_memory v + 4000 ->
  same_outside v m (write_bytes m a l).
Proof. intros H1 H2 x Hx. rewrite lookup_write_bytes, decide_False by lia. done. Qed.

Lemma same_outside_trans v m1 m2 m3 : same_outside v m1 m2 -> same_outside v m2 m3 -> same_outside v m1 m3.
Proof. intros H1 H2 x Hx. by rewrite H2, H1. Qed.

Lemma same_outside_blank v m m' : layout_ok v -> same_outside v m m' ->
  bytes_at m (blank_line v) (cells_bytes blank_row) -> bytes_at m' (blank_line v) (cells_bytes blank_row).
Proof.
  intros L Hs. apply bytes_at_frame. intros x Hx. apply Hs. unfold blank_line in Hx.
  rewrite length_cells_bytes in Hx. unfold blank_row in Hx. rewrite length_replicate in Hx.
  pose proof (lay_apart v L). lia.
Qed.

(** Scrolling on cells. *)
Lemma vga_scroll_up_run v ws m : layout_ok v -> length ws = 2000%nat -> holds v ws m ->
  exists m', vga_scroll_up v m = Ret (tt, m') /\ holds v (drop 80 ws ++ blank_row) m' /\ same_outside v m m'.
Proof.
  intros L Hws [Hb Hl]. pose proof (lay_memory v L). unfold vga_scroll_up.
  rewrite (lay_first v L), (lay_second v L), (lay_last v L).
  change (VGA_TEXT_MEMORY_SIZE - VGA_TEXT_LINE_SIZE) with 3840. change VGA_TEXT_LINE_SIZE with 160.
  set (rest := cells_bytes (drop 80 ws)). set (row := cells_bytes blank_row) in *.
  assert (Hrest : length rest = 3840%nat) by (unfold rest; rewrite length_cells_bytes, length_drop; lia).
  assert (Hrow : length row = 160%nat) by done.
  pose proof (bytes_at_mapped _ _ _ Hb) as Hm. rewrite length_cells_bytes, Hws in Hm.
  assert (Hsrc : bytes_at m (vga_memory v + 160) rest).
  { unfold rest. rewrite cells_bytes_drop. rewrite <- (take_drop 160 (cells_bytes ws)) in Hb.
    apply bytes_at_app in Hb as [_ Hb]. rewrite length_take, length_cells_bytes, Hws in Hb. exact Hb. }
  set (m1 := write_bytes m (vga_memory v) rest).
  erewrite run_bind; last first.
  { apply memmove_run with (bs := rest); [lia|lia|lia|done|apply cells_bytes_u8|].
    eapply mapped_sub; [exact Hm|lia|lia]. }
  assert (S1 : same_outside v m m1) by (apply same_outside_write; lia).
  assert (Hl1 : bytes_at m1 (blank_line v) row) by (by eapply same_outside_blank).
  set (m2 := write_bytes m1 (vga_memory v + 3840) row).
  assert (S2 : same_outside v m1 m2) by (apply same_outside_write; lia).
  fold m1. erewrite run_bind; last first.
  { apply memcpy_run with (bs := row); [lia|unfold blank_line; pose proof (lay_context v L); lia|lia|done|apply cells_bytes_u8| |].
    - apply mapped_write. eapply mapped_sub; [exact Hm|lia|lia].
    - unfold blank_line. pose proof (lay_apart v L). lia. }
  fold m2. exists m2. split; [done|]. split; [|by eapply same_outside_trans]. split.
  - rewrite cells_bytes_app, bytes_at_app. fold rest row. rewrite Hrest. split; [|apply bytes_at_write].
    apply bytes_at_write_disjoint; [lia|apply bytes_at_write].
  - by eapply same_outside_blank.
Qed.

(** The driver shows the terminal. *)
Record displays (t : terminal) (v : vga_context) (m : mem) : Prop := {
  dis_wf : terminal_wf t;
  dis_layout : layout_ok v;
  dis_offset : current_offset v = vga_memory v + 3840 + 2 * Z.of_nat (length (line t));
  dis_holds : holds v (screen t) m
}.

Lemma layout_set_offset v o : layout_ok v -> layout_ok (set_offset v o).
Proof. intros []. by split. Qed.

(** Ending the line, whatever the offset. *)
Lemma scroll_displays t v m : layout_ok v -> Forall (fun r => length r = 80%nat) (completed t) ->
  (length (line t) <= 80)%nat -> holds v (screen t) m ->
  exists m', vga_scroll_up v m = Ret (tt, m') /\
    displays (new_line t) (set_offset v (last_line v)) m' /\ same_outside v m m'.
Proof.
  intros L Hc Hl Hh. destruct (vga_scroll_up_run v _ m L (screen_length t Hc Hl) Hh) as (m' & E & Hh' & So).
  exists m'. split; [done|]. split; [|done]. split.
  - by apply new_line_wf.
  - by apply layout_set_offset.
  - cbn. rewrite (lay_last v L). lia.
  - by rewrite screen_new_line.
Qed.

(** A character at the current offset extends the line. *)
Lemma store_cell_run t v m w : displays t v m ->
  let t1 := mkTerminal (completed t) (line t ++ [w]) in
  exists m1, store16 (current_offset v) w m = Ret (tt, m1) /\ holds v (screen t1) m1 /\ same_outside v m m1.
Proof.
  intros [[Hc Hl] L Ho [Hb Hbl]] t1. pose proof (lay_memory v L).
  rewrite screen_upper in Hb. unfold pad in Hb. set (k := length (line t)) in *.
  replace (80 - k)%nat with (1 + (79 - k))%nat in Hb by lia. rewrite replicate_add in Hb.
  set (m1 := write_bytes m (current_offset v) (half_bytes w)).
  assert (Hpre : Z.of_nat (length (cells_bytes (upper (completed t) ++ line t))) = 3840 + 2 * Z.of_nat k)
    by (rewrite length_cells_bytes, length_app, length_upper by done; fold k; lia).
  rewrite app_assoc, (cells_bytes_app (upper _ ++ _)), (cells_bytes_app (replicate 1 blank)) in Hb.
  assert (S1 : same_outside v m m1) by (apply same_outside_write; rewrite Ho; cbn; lia).
  exists m1. split; [|split; [|done]].
  - apply store16_bytes. apply bytes_at_mapped in Hb. eapply mapped_sub; [exact Hb|lia|].
    rewrite length_app, Nat2Z.inj_add, Hpre, Ho, length_app. cbn [length replicate cells_bytes fmap list_fmap concat app half_bytes]. lia.
  - split; [|by eapply same_outside_blank]. rewrite screen_upper. unfold pad. cbn [completed line t1].
    rewrite length_app. cbn [length]. fold k. replace (80 - (k + 1))%nat with (79 - k)%nat by lia.
    apply (bytes_at_splice _ _ _ _ _ (half_bytes w)) in Hb; [|done].
    rewrite Hpre, Z.add_assoc, <- Ho in Hb. fold m1 in Hb.
    rewrite <- app_assoc, app_assoc, (cells_bytes_app (upper _ ++ _)), (cells_bytes_app [w]). exact Hb.
Qed.

Lemma vga_put_run t v m c : displays t v m ->
  exists o m', vga_put v (s8 c) m = Ret (set_offset v o, m') /\
    displays (term_put t c) (set_offset v o) m' /\ same_outside v m m'.
Proof.
  intros Hd. pose proof Hd as [[Hc Hl] L Ho Hh]. pose proof (lay_memory v L).
  unfold vga_put, term_put. destruct (Z.eqb_spec (s8 c) 10) as [E|E]; cbn [negb].
  { destruct (scroll_displays t v m L Hc ltac:(lia) Hh) as (m' & Es & Hd' & So).
    exists (last_line v), m'. by erewrite run_bind by exact Es. }
  change (u16 (Z.lor (Z.shiftl VGA_TEXT_ATTRIBUTE_WHITE_ON_BLACK 8) (s8 c))) with (cell c).
  destruct (store_cell_run t v m (cell c) Hd) as (m1 & E1 & Hh1 & S1). cbv zeta in Hh1.
  erewrite run_bind by exact E1. cbv zeta. cbn [overflow_line current_offset set_offset].
  set (t1 := mkTerminal (completed t) (line t ++ [cell c])) in *.
  assert (Hl1 : length (line t1) = (length (line t) + 1)%nat) by (cbn [t1 line]; by rewrite length_app).
  rewrite (lay_overflow v L), u32_small, Hl1 by lia.
  destruct (Z.leb_spec (vga_memory v + 4000) (current_offset v + 2)) as [Hov|Hin].
  - rewrite (proj2 (Nat.eqb_eq _ _)) by lia.
    destruct (scroll_displays t1 (set_offset v (current_offset v + 2)) m1) as (m' & Es & Hd' & So);
      [by apply layout_set_offset|done|lia|done|].
    exists (last_line v), m'. split; [by erewrite run_bind by exact Es|]. split; [exact Hd'|].
    eapply same_outside_trans; [exact S1|exact So].
  - rewrite (proj2 (Nat.eqb_neq _ _)) by lia. exists (current_offset v + 2), m1. split; [done|]. split; [|done].
    split; [split; [done|lia]|by apply layout_set_offset|cbn [current_offset set_offset vga_memory]; lia|done].
Qed.

Lemma write_text_run cs : forall t v m text, displays t v m ->
  bytes_at m text cs -> text + Z.of_nat (length cs) < 4294967296 -> 0 <= text ->
  (text + Z.of_nat (length cs) <= vga_memory v \/ vga_memory v + 4000 <= text) ->
  exists o m', write_text (length cs) v text m = Ret (set_offset v o, m') /\
    displays (fold_left term_put cs t) (set_offset v o) m' /\ same_outside v m m'.
Proof.
  induction cs as [|c cs IH]; intros t v m text Hd Hb Hend Ht Hdis; cbn [length write_text fold_left].
  - exists (current_offset v), m. destruct v. done.
  - apply bytes_at_cons in Hb as [Hc Hb]. cbn [length] in *. crun run_loadc.
    destruct (vga_put_run t v m c Hd) as (o & m1 & E1 & Hd1 & S1). erewrite run_bind by exact E1.
    rewrite u32_small by lia.
    destruct (IH (term_put t c) (set_offset v o) m1 (text + 1)) as (o2 & m2 & E2 & Hd2 & S2);
      [done| |lia|lia|cbn; lia|].
    { eapply bytes_at_frame; [|exact Hb]. intros x Hx. apply S1. lia. }
    exists o2, m2. split; [exact E2|]. split; [exact Hd2|]. by eapply same_outside_trans.
Qed.

(** Clearing: [i] rows are blank already. *)
Lemma clear_lines_run v : layout_ok v -> forall n i m, (i + n = 25)%nat ->
  mapped m (vga_memory v) 4000 -> holds v (replicate (80 * i) blank) m ->
  exists m', clear_lines (S n) v (vga_memory v + 160 * Z.of_nat i) m = Ret (tt, m') /\
    holds v (replicate 2000 blank) m' /\ same_outside v m m'.
Proof.
  intros L. pose proof (lay_memory v L). induction n as [|n IH]; intros i m Hi Hm [Hb Hl].
  - cbn [clear_lines]. rewrite (lay_last v L), (proj2 (Z.leb_gt _ _)) by lia. exists m.
    replace (80 * i)%nat with 2000%nat in Hb by lia. done.
  - remember (S n) as n1 eqn:En. cbn [clear_lines]. rewrite (lay_last v L), (proj2 (Z.leb_le _ _)) by lia.
    change VGA_TEXT_LINE_SIZE with 160. set (row := cells_bytes blank_row) in *.
    assert (Hrow : length row = 160%nat) by done.
    erewrite run_bind; last first.
    { apply memcpy_run with (bs := row); [lia|unfold blank_line; pose proof (lay_context v L); lia|lia|done|apply cells_bytes_u8| |].
      - eapply mapped_sub; [exact Hm|lia|lia].
      - unfold blank_line. pose proof (lay_apart v L). lia. }
    set (m1 := write_bytes m _ row). rewrite u32_small by lia. subst n1.
    assert (S1 : same_outside v m m1) by (apply same_outside_write; lia).
    destruct (IH (S i) m1) as (m2 & E2 & Hh2 & S2); [lia|by apply mapped_write| |].
    { split; [|by eapply same_outside_blank]. replace (80 * S i)%nat with (80 * i + 80)%nat by lia.
      rewrite replicate_add, cells_bytes_app, bytes_at_app. fold blank_row row.
      assert (Hlen : Z.of_nat (length (cells_bytes (replicate (80 * i) blank))) = 160 * Z.of_nat i)
        by (rewrite length_cells_bytes, length_replicate; lia).
      rewrite Hlen. split; [|apply bytes_at_write]. apply bytes_at_write_disjoint; [lia|done]. }
    exists m2. replace (vga_memory v + 160 * Z.of_nat i + 160) with (vga_memory v + 160 * Z.of_nat (S i)) by lia.
    split; [exact E2|]. split; [done|]. by eapply same_outside_trans.
Qed.

Lemma vga_clear_run v m : layout_ok v -> mapped m (vga_memory v) 4000 ->
  bytes_at m (blank_line v) (cells_bytes blank_row) ->
  exists m', vga_clear v m = Ret (set_offset v (last_line v), m') /\
    displays (mkTerminal [] []) (set_offset v (last_line v)) m' /\ same_outside v m m'.
Proof.
  intros L Hm Hl. unfold vga_clear. rewrite (lay_first v L).
  destruct (clear_lines_run v L 25 0 m) as (m' & E & Hh & So); [done|done|split; [apply bytes_at_nil|done]|].
  rewrite Z.add_0_r in E. change (S (Z.to_nat VGA_TEXT_ROW_COUNT)) with 26%nat.
  erewrite run_bind by exact E. exists m'. split; [done|]. split; [|done].
  split; [split; [done|cbn; lia]|by apply layout_set_offset|cbn; rewrite (lay_last v L); lia|].
  replace (screen (mkTerminal [] [])) with (replicate 2000 blank) by (by vm_compute). done.
Qed.

(** ** The message loop *)

Inductive input :=
  | Text (cs : list Z)
  | Clear
  | Other.

Definition term_input (t : terminal) (i : input) : terminal :=
  match i with
  | Text cs => fold_left term_put cs t
  | Clear => mkTerminal [] []
  | Other => t
  end.

(** What a received message asks of the display; [m] is the memory into which
    the kernel has mapped its payload. *)
Definition input_of (r : syscall_data) (m : mem) : input :=
  if data1 r =? MESSAGE_TYPE_WRITE then
    Text (if 0 <? data4 r then read_bytes m (data3 r) (Z.to_nat (data4 r)) else [data3 r])
  else if data1 r =? MESSAGE_TYPE_RESET then Clear
  else Other.

Section Driver.
Context `{World}.

(** The messages a trace has received, latest first. *)
Fixpoint inputs (h : history) : list input :=
  match h with
  | [] => []
  | e :: h' =>
      match e with
      | Syscall v _ _ =>
          let '(r, m) := kernel_reply h in
          if (v =? SYSTEM_CALL_VECTOR_RECEIVE_MESSAGE) && (status r =? STATUS_SUCCESS)
          then input_of r m :: inputs h' else inputs h'
      | _ => inputs h'
      end
  end.

(** What the driver relies on, with its frame buffer at [frame] and its context
    at [context]: the kernel maps the frame buffer there, leaves it and the
    context alone afterwards, and maps the text of a write request elsewhere. *)
Class DisplayKernel (frame context : Z) : Prop := {
  kernel_leaves_context n a m h x : context <= x < context + 188 ->
    snd (kernel_reply (Syscall n a m :: h)) !! x = m !! x;
  kernel_leaves_frame n a m h x : n <> SYSTEM_CALL_VECTOR_MAP_DEVICE -> frame <= x < frame + 4000 ->
    snd (kernel_reply (Syscall n a m :: h)) !! x = m !! x;
  kernel_maps_frame a m h r m' :
    kernel_reply (Syscall SYSTEM_CALL_VECTOR_MAP_DEVICE a m :: h) = (r, m') ->
    status r = STATUS_SUCCESS /\
    (data0 a = VGA_TEXT_USER_PAGE -> data0 r = frame /\ mapped m' frame 4000);
  kernel_maps_text a m h r m' :
    kernel_reply (Syscall SYSTEM_CALL_VECTOR_RECEIVE_MESSAGE a m :: h) = (r, m') ->
    status r = STATUS_SUCCESS -> data1 r = MESSAGE_TYPE_WRITE -> 0 < data4 r ->
    0 <= data3 r /\ data3 r + data4 r < 4294967296 /\ mapped m' (data3 r) (data4 r) /\
    (data3 r + data4 r <= frame \/ frame + 4000 <= data3 r)
}.

Lemma kernel_leaves {frame context} `{!DisplayKernel frame context} n a m h x :
  n <> SYSTEM_CALL_VECTOR_MAP_DEVICE ->
  frame <= x < frame + 4000 \/ context <= x < context + 188 ->
  snd (kernel_reply (Syscall n a m :: h)) !! x = m !! x.
Proof. intros Hn [Hx|Hx]; [by apply kernel_leaves_frame|by apply kernel_leaves_context]. Qed.

Definition quiet_display (w w' : machine) : Prop := inputs (trace w') = inputs (trace w).

Lemma vga_move_cursor_run v w : exists w', vga_move_cursor v w = Ret (tt, w') /\
  memory w' = memory w /\ quiet_display w w'.
Proof.
  unfold vga_move_cursor. destruct (cursor_enabled v); [|by exists w].
  eexists. split; [reflexivity|]. by split.
Qed.

Lemma displays_frame t v m m' : (forall x, (vga_memory v <= x < vga_memory v + 4000 \/ vga v <= x < vga v + 188) ->
  m' !! x = m !! x) -> displays t v m -> displays t v m'.
Proof.
  intros Hf [Hwf L Ho [Hb Hl]]. split; [done|done|done|]. split.
  - eapply bytes_at_frame; [|exact Hb]. intros x Hx. apply Hf. left.
    rewrite length_cells_bytes, screen_length in Hx; destruct Hwf; [lia|done|lia].
  - eapply bytes_at_frame; [|exact Hl]. intros x Hx. apply Hf. right. unfold blank_line in Hx.
    rewrite length_cells_bytes in Hx. unfold blank_row in Hx. rewrite length_replicate in Hx. lia.
Qed.

Lemma read_bytes_mapped m n : forall a, mapped m a (Z.of_nat n) -> bytes_at m a (read_bytes m a n).
Proof.
  induction n as [|n IH]; intros a Hm; [apply bytes_at_nil|]. cbn [read_bytes]. apply bytes_at_cons.
  destruct (Hm a ltac:(lia)) as [b Hb]. rewrite Hb. split; [done|]. apply IH. eapply mapped_sub; [exact Hm|lia|lia].
Qed.

Lemma system_call_display v n ds w : DisplayKernel (vga_memory v) (vga v) -> n <> SYSTEM_CALL_VECTOR_RECEIVE_MESSAGE ->
  n <> SYSTEM_CALL_VECTOR_MAP_DEVICE ->
  exists r w', system_call n ds w = Ret (r, w') /\ quiet_display w w' /\
    forall t, displays t v (memory w) -> displays t v (memory w').
Proof.
  intros K Hn Hn2. destruct (system_call_run n ds w) as (u & r & w' & E & Ht & Hr). exists r, w'. split; [done|].
  rewrite Ht in Hr. split.
  - unfold quiet_display. rewrite Ht. cbn -[kernel_reply SYSTEM_CALL_VECTOR_RECEIVE_MESSAGE].
    by rewrite Hr, (proj2 (Z.eqb_neq _ _) Hn).
  - intros t. apply displays_frame. intros x Hx.
    rewrite <- (kernel_leaves n (syscall_args u ds) (memory w) (trace w) x Hn2 Hx), Hr. done.
Qed.

Lemma delete_message_display v m w : DisplayKernel (vga_memory v) (vga v) -> exists s w',
  delete_message (Some m) w = Ret (s, w') /\ quiet_display w w' /\
  forall t, displays t v (memory w) -> displays t v (memory w').
Proof.
  intros K. unfold delete_message. destruct (msg_data_size m =? 0); [by exists STATUS_SUCCESS, w|].
  destruct (system_call_display v SYSTEM_CALL_VECTOR_DELETE_MESSAGE [msg_data m; msg_data_size m] w K)
    as (r & w' & E & Hq & Hd); [done|done|].
  exists (status r), w'. split; [|done]. by erewrite drun_bind by exact E.
Qed.

Lemma send_message_display v m w : DisplayKernel (vga_memory v) (vga v) -> exists s w',
  send_message (Some m) w = Ret (s, w') /\ quiet_display w w' /\
  forall t, displays t v (memory w) -> displays t v (memory w').
Proof.
  intros K. destruct (system_call_display v SYSTEM_CALL_VECTOR_SEND_MESSAGE (message_fields m) w K)
    as (r & w' & E & Hq & Hd); [done|done|].
  exists (status r), w'. split; [|done]. unfold send_message. by erewrite drun_bind by exact E.
Qed.

(** A write request, with or without a payload. *)
Lemma vga_write_run t v w cs text : displays t v (memory w) -> bytes_at (memory w) text cs ->
  text + Z.of_nat (length cs) < 4294967296 -> 0 <= text ->
  (text + Z.of_nat (length cs) <= vga_memory v \/ vga_memory v + 4000 <= text) ->
  exists o w', vga_write v text (Z.of_nat (length cs)) w = Ret (set_offset v o, w') /\
    displays (fold_left term_put cs t) (set_offset v o) (memory w') /\ quiet_display w w'.
Proof.
  intros Hd Hb Hend Ht Hdis. destruct w as [m h]. cbn [memory] in *.
  destruct (write_text_run cs t v m text Hd Hb Hend Ht Hdis) as (o & m1 & E & Hd1 & _).
  unfold vga_write. rewrite Nat2Z.id. erewrite drun_bind by (apply drun_lift; exact E).
  destruct (vga_move_cursor_run (set_offset v o) (Machine m1 h)) as (w' & E2 & Hm & Hq).
  exists o, w'. erewrite drun_bind by exact E2. split; [done|]. split; [by rewrite Hm|exact Hq].
Qed.

Lemma vga_write_immediate_run t v w c : displays t v (memory w) ->
  exists o w', vga_write_immediate v c w = Ret (set_offset v o, w') /\
    displays (term_put t c) (set_offset v o) (memory w') /\ quiet_display w w'.
Proof.
  intros Hd. destruct w as [m h]. cbn [memory] in *.
  destruct (vga_put_run t v m c Hd) as (o & m1 & E & Hd1 & _).
  unfold vga_write_immediate. erewrite drun_bind by (apply drun_lift; exact E).
  destruct (vga_move_cursor_run (set_offset v o) (Machine m1 h)) as (w' & E2 & Hm & Hq).
  exists o, w'. erewrite drun_bind by exact E2. split; [done|]. split; [by rewrite Hm|exact Hq].
Qed.

(** The dispatch of a message that the kernel has just delivered. *)
Lemma vga_dispatch_run t v w r : DisplayKernel (vga_memory v) (vga v) -> displays t v (memory w) ->
  (data1 r = MESSAGE_TYPE_WRITE -> 0 < data4 r ->
     0 <= data3 r /\ data3 r + data4 r < 4294967296 /\ mapped (memory w) (data3 r) (data4 r) /\
     (data3 r + data4 r <= vga_memory v \/ vga_memory v + 4000 <= data3 r)) ->
  exists o w', vga_dispatch v (received r) w = Ret (set_offset v o, w') /\
    displays (term_input t (input_of r (memory w))) (set_offset v o) (memory w') /\ quiet_display w w'.
Proof.
  intros K Hd Htext. unfold vga_dispatch, input_of. cbn [msg_type msg_data msg_data_size received].
  assert (Hsame : v = set_offset v (current_offset v)) by (by destruct v).
  destruct (Z.eqb_spec (data1 r) MESSAGE_TYPE_WRITE) as [Hty|_].
  - destruct (Z.ltb_spec 0 (data4 r)) as [Hn|Hn].
    + destruct (Htext Hty Hn) as (H1 & H2 & H3 & H4). cbn [term_input].
      pose proof (read_bytes_mapped (memory w) (Z.to_nat (data4 r)) (data3 r)) as Hb.
      rewrite Z2Nat.id in Hb by lia. specialize (Hb H3).
      set (cs := read_bytes (memory w) (data3 r) (Z.to_nat (data4 r))) in *.
      assert (Hlen : Z.of_nat (length cs) = data4 r) by (unfold cs; rewrite length_read_bytes; lia).
      rewrite <- Hlen in H2, H4. destruct (vga_write_run t v w cs (data3 r) Hd Hb H2 H1 H4) as (o & w' & E & Hw).
      rewrite Hlen in E. by exists o, w'.
    + apply vga_write_immediate_run. done.
  - destruct (data1 r =? MESSAGE_TYPE_RESET).
    + destruct w as [m h]. destruct Hd as [Hwf L Ho [Hb Hl]]. cbn [memory] in *.
      destruct (vga_clear_run v m L) as (m' & E & Hd' & _); [|done|].
      { apply bytes_at_mapped in Hb. rewrite length_cells_bytes, screen_length in Hb; destruct Hwf; [done|done|lia]. }
      exists (last_line v). eexists. split; [by apply drun_lift|]. done.
    + destruct (data1 r =? MESSAGE_TYPE_FLUSH).
      * edestruct (send_message_display v) as (s & w' & E & Hq & Hd'); [exact K|].
        exists (current_offset v), w'. erewrite drun_bind by exact E. rewrite <- Hsame. split; [done|].
        split; [by apply Hd'|exact Hq].
      * exists (current_offset v), w. rewrite <- Hsame. done.
Qed.

Lemma vga_step_run t v w b : DisplayKernel (vga_memory v) (vga v) -> displays t v (memory w) ->
  exists o w' is_, vga_step b v w = Ret (set_offset v o, w') /\ inputs (trace w') = rev is_ ++ inputs (trace w) /\
    displays (fold_left term_input is_ t) (set_offset v o) (memory w').
Proof.
  intros K Hd. unfold vga_step.
  destruct (receive_message_run b WAIT_FOR_MESSAGE w) as (u & r & [m1 h1] & E & Ht & Hr).
  erewrite drun_bind by exact E. cbn [trace memory] in Ht, Hr. rewrite Ht in Hr.
  assert (Hd1 : displays t v m1).
  { eapply displays_frame; [|exact Hd]. intros x Hx.
    rewrite <- (kernel_leaves SYSTEM_CALL_VECTOR_RECEIVE_MESSAGE (syscall_args u [WAIT_FOR_MESSAGE]) (memory w) (trace w) x ltac:(done) Hx), Hr. done. }
  assert (Hin : inputs h1 = (if status r =? STATUS_SUCCESS then [input_of r m1] else []) ++ inputs (trace w)).
  { rewrite Ht. cbn -[kernel_reply STATUS_SUCCESS]. rewrite Hr. by destruct (status r =? STATUS_SUCCESS). }
  cbv beta iota. destruct (Z.eqb_spec (status r) STATUS_SUCCESS) as [Hs|Hs]; cbn [negb].
  - destruct (vga_dispatch_run t v (Machine m1 h1) r K Hd1) as (o & w2 & E2 & Hd2 & Hq2).
    { intros Hty Hn. by eapply kernel_maps_text. }
    erewrite drun_bind by exact E2.
    destruct (delete_message_display (set_offset v o) (received r) w2) as (s & w3 & E3 & Hq3 & Hd3); [exact K|].
    erewrite drun_bind by exact E3. exists o, w3, [input_of r m1]. split; [done|].
    split; [by rewrite Hq3, Hq2|]. apply Hd3. exact Hd2.
  - exists (current_offset v), (Machine m1 h1), []. split; [by destruct v|]. split; [done|]. by destruct v.
Qed.

(** Any number of rounds. *)
Lemma vga_loop_run n t v w : DisplayKernel (vga_memory v) (vga v) -> displays t v (memory w) ->
  exists v' w' is_, vga_wait_for_messages n v w = Ret (v', w') /\
    inputs (trace w') = rev is_ ++ inputs (trace w) /\
    displays (fold_left term_input is_ t) v' (memory w') /\ vga_memory v' = vga_memory v.
Proof.
  intros K Hd. revert t v w K Hd. induction n as [|n IH]; intros t v w K Hd; [by exists v, w, []|].
  cbn [vga_wait_for_messages].
  destruct (vga_step_run t v w initialize_message K Hd) as (o & w1 & is1 & E1 & Hi1 & Hd1).
  erewrite drun_bind by exact E1.
  destruct (IH _ (set_offset v o) w1 K Hd1) as (v2 & w2 & is2 & E2 & Hi2 & Hd2 & Hg2).
  exists v2, w2, (is1 ++ is2). split; [exact E2|].
  split; [by rewrite Hi2, Hi1, rev_app_distr, app_assoc|]. by rewrite fold_left_app.
Qed.

(** ** From the start *)

Lemma fill_blank_run n : forall m a, mapped m a (2 * Z.of_nat n) ->
  fill_blank n a m = Ret (tt, write_bytes m a (cells_bytes (replicate n blank))).
Proof.
  induction n as [|n IH]; intros m a Hm; [done|]. cbn [fill_blank].
  erewrite run_bind by (apply store16_bytes; eapply mapped_sub; [exact Hm|lia|lia]).
  rewrite IH by (apply mapped_write; eapply mapped_sub; [exact Hm|lia|lia]).
  change (cells_bytes (replicate (S n) blank)) with (half_bytes blank ++ cells_bytes (replicate n blank)).
  rewrite write_bytes_app. done.
Qed.

(** A device is mapped; the context stays as it is. *)
Lemma map_device_display frame context a t n w : DisplayKernel frame context ->
  exists w', (forall p, p = NULL -> map_device a t n 0 p w = Ret (STATUS_SUCCESS, w')) /\
    (forall x, context <= x < context + 188 -> memory w' !! x = memory w !! x) /\ quiet_display w w' /\
    (a = VGA_TEXT_USER_PAGE -> mapped (memory w') frame 4000 /\
       forall p, p <> NULL -> mapped (memory w') p 4 ->
         map_device a t n 0 p w = Ret (STATUS_SUCCESS, Machine (write_bytes (memory w') p (word_bytes frame)) (trace w'))).
Proof.
  intros K. destruct (system_call_run SYSTEM_CALL_VECTOR_MAP_DEVICE [a; t; n; 0] w) as (u & r & w' & E & Ht & Hr).
  rewrite Ht in Hr. destruct (kernel_maps_frame _ _ _ _ _ Hr) as [Hs Hf]. exists w'. split.
  { intros p ->. unfold map_device. erewrite drun_bind by exact E. rewrite Hs, andb_comm. cbn [andb negb Z.eqb NULL].
    erewrite drun_bind by reflexivity. done. }
  split; [intros x Hx; by rewrite <- (kernel_leaves_context SYSTEM_CALL_VECTOR_MAP_DEVICE
    (syscall_args u [a; t; n; 0]) (memory w) (trace w) x Hx), Hr|].
  split; [unfold quiet_display; rewrite Ht; cbn -[kernel_reply]; by rewrite Hr|].
  intros Ha. destruct (Hf Ha) as [H0 Hm]. split; [done|]. intros p Hp Hmp.
  unfold map_device. erewrite drun_bind by exact E. rewrite Hs, (proj2 (Z.eqb_neq p 0) Hp). cbn [andb negb Z.eqb STATUS_SUCCESS].
  destruct w' as [m' h']. rewrite H0. erewrite drun_bind by (apply drun_lift, store32_bytes; exact Hmp). done.
Qed.

Lemma map_vga_ports_run frame context w : DisplayKernel frame context -> exists w',
  map_vga_ports VGA_PORT w = Ret (tt, w') /\
  (forall x, context <= x < context + 188 -> memory w' !! x = memory w !! x) /\ quiet_display w w'.
Proof.
  intros K. unfold VGA_PORT. cbn [map_vga_ports].
  edestruct (map_device_display frame context) as (w1 & E1 & F1 & Q1 & _); [exact K|].
  erewrite drun_bind by (apply E1; reflexivity). cbn [negb Z.eqb STATUS_SUCCESS].
  edestruct (map_device_display frame context) as (w2 & E2 & F2 & Q2 & _); [exact K|].
  erewrite drun_bind by (apply E2; reflexivity). exists w2. split; [done|].
  split; [intros x Hx; by rewrite F2, F1|]. unfold quiet_display in *. congruence.
Qed.

Lemma vga_initialize_run frame w p m1 : DisplayKernel frame p -> fresh_block w 188 p m1 ->
  0 < frame -> frame + 4000 < 4294967296 -> p + 188 <= frame \/ frame + 4000 <= p ->
  exists v w', vga_initialize w = Ret (Some v, w') /\ layout_ok v /\ vga v = p /\ vga_memory v = frame /\
    mapped (memory w') frame 4000 /\ bytes_at (memory w') (blank_line v) (cells_bytes blank_row) /\
    quiet_display w w'.
Proof.
  intros K (Hheap & Hp & Hend & Hmap & _ & _) Hf Hfe Hap. unfold vga_initialize.
  erewrite drun_bind by (unfold malloc; rewrite Hheap; reflexivity).
  rewrite (proj2 (Z.eqb_neq p 0)) by lia.
  erewrite drun_bind by (apply drun_lift, memset_run; [lia|exact Hmap]).
  set (w1 := Machine (write_bytes m1 p _) _).
  destruct (map_vga_ports_run frame p w1 K) as (w2 & E2 & F2 & Q2). erewrite drun_bind by exact E2.
  destruct (map_device_display frame p VGA_TEXT_USER_PAGE DEVICE_TYPE_MEMORY VGA_TEXT_MEMORY_SIZE w2 K)
    as (w3 & _ & F3 & Q3 & H3). destruct (H3 eq_refl) as [Hfm E3].
  assert (Hctx : mapped (memory w3) p 188).
  { intros x Hx. rewrite F3, F2 by lia. unfold w1. cbn [memory]. apply (mapped_write _ _ _ _ _ Hmap). lia. }
  erewrite drun_bind; last first.
  { apply E3; [unfold NULL; lia|]. eapply mapped_sub; [exact Hctx|lia|lia]. }
  cbn [negb Z.eqb STATUS_SUCCESS].
  erewrite drun_bind by (apply drun_lift, load32_bytes; [|apply bytes_at_write]; unfold is_u32; lia).
  cbv zeta. set (m4 := write_bytes (memory w3) p (word_bytes frame)).
  erewrite drun_bind by (apply drun_lift, fill_blank_run, mapped_write; eapply mapped_sub;
    [exact Hctx|lia|unfold VGA_TEXT_COLUMN_COUNT; lia]).
  do 2 eexists. split; [reflexivity|].
  change VGA_TEXT_FIRST_LINE_OFFSET with 0. change VGA_TEXT_SECOND_LINE_OFFSET with 160.
  change VGA_TEXT_LAST_LINE_OFFSET with 3840. change VGA_TEXT_OVERFLOW_LINE_OFFSET with 4000.
  rewrite !u32_small by lia. split; [split; cbn; lia|].
  split; [done|]. split; [done|]. cbn [memory]. split; [by do 2 apply mapped_write|]. split; [apply bytes_at_write|].
  unfold quiet_display in *. cbn [trace]. by rewrite Q3, Q2.
Qed.

Lemma configure_hardware_run v w : exists w', configure_hardware v w = Ret (set_cursor v true, w') /\
  memory w' = memory w /\ quiet_display w w'.
Proof.
  unfold configure_hardware, vga_enable_cursor, vga_move_cursor. cbn [cursor_enabled set_cursor negb].
  eexists. split; [reflexivity|]. by split.
Qed.

(** C17. The display driver implements the terminal, from [main] on: for any
    number of rounds of its message loop it returns, and the frame buffer then
    shows the last 25 lines of an initially empty terminal that took the same
    messages: text wrapped at 80 columns and broken at newlines, the oldest
    lines scrolled out, everything cleared by a reset. *)
Theorem vga_refines n frame p m1 w : DisplayKernel frame p -> fresh_block w 188 p m1 ->
  0 < frame -> frame + 4000 < 4294967296 -> p + 188 <= frame \/ frame + 4000 <= p ->
  exists v w' is_, vga_main n w = Ret (inr v, w') /\ vga_memory v = frame /\
    inputs (trace w') = rev is_ ++ inputs (trace w) /\
    displays (fold_left term_input is_ (mkTerminal [] [])) v (memory w').
Proof.
  intros K Hb Hf Hfe Hap. unfold vga_main.
  destruct (vga_initialize_run frame w p m1 K Hb Hf Hfe Hap) as (v0 & w1 & E1 & L & Hv & Hm & Hmap & Hbl & Q1).
  erewrite drun_bind by exact E1. cbv beta iota.
  destruct (configure_hardware_run v0 w1) as ([m2 h2] & E2 & M2 & Q2). erewrite drun_bind by exact E2.
  cbn [memory] in M2. subst m2. set (v := set_cursor v0 true).
  assert (Lv : layout_ok v) by (destruct L; by split).
  destruct (vga_clear_run v (memory w1) Lv) as (m3 & E3 & Hd & _); [by rewrite <- Hm in Hmap|exact Hbl|].
  erewrite drun_bind by (apply drun_lift; exact E3).
  destruct (vga_loop_run n (mkTerminal [] []) (set_offset v (last_line v)) (Machine m3 h2)) as (v4 & w4 & is_ & E4 & I4 & D4 & Hg);
    [by rewrite <- Hv, <- Hm in K|exact Hd|].
  erewrite drun_bind by exact E4. exists v4, w4, is_. split; [done|]. split; [by rewrite Hg|].
  split; [|done]. rewrite I4. cbn [trace]. unfold quiet_display in *. cbn [trace] in Q2. by rewrite Q2, Q1.
Qed.

(** After a write the cursor stands behind the text: the last thing
    [vga_write] does is to program the cursor location with the cell of the
    frame buffer (counted from the start of the display memory, which begins
    with the kernel's page) where the next character will appear. *)
Theorem vga_cursor_follows t v w cs text : displays t v (memory w) -> cursor_enabled v = true ->
  bytes_at (memory w) text cs -> text + Z.of_nat (length cs) < 4294967296 -> 0 <= text ->
  (text + Z.of_nat (length cs) <= vga_memory v \/ vga_memory v + 4000 <= text) ->
  exists v' w', let position := 2048 + 1920 + Z.of_nat (length (line (fold_left term_put cs t))) in
    vga_write v text (Z.of_nat (length cs)) w = Ret (v', w') /\ position < 4096 /\
    trace w' = [PortWrite VGA_CRTC_DATA_PORT_ADDRESS (position mod 256);
                PortWrite VGA_CRTC_ADDRESS_PORT_ADDRESS VGA_CRTC_CURSOR_LOCATION_LOW_REGISTER;
                PortWrite VGA_CRTC_DATA_PORT_ADDRESS (position / 256);
                PortWrite VGA_CRTC_ADDRESS_PORT_ADDRESS VGA_CRTC_CURSOR_LOCATION_HIGH_REGISTER] ++ trace w.
Proof.
  intros Hd Hc Hb Hend Ht Hdis. destruct w as [m h]. cbn [memory trace] in *.
  destruct (write_text_run cs t v m text Hd Hb Hend Ht Hdis) as (o & m1 & E & [[_ Hl] L Ho _] & _).
  set (k := Z.of_nat (length (line (fold_left term_put cs t)))) in *.
  assert (Hk : 0 <= k < 80) by (unfold k; lia).
  unfold vga_write. rewrite Nat2Z.id. exists (set_offset v o). eexists. cbv zeta. split; [|split; [lia|]].
  - erewrite drun_bind by (apply drun_lift; exact E). unfold vga_move_cursor. cbn [cursor_enabled set_offset].
    rewrite Hc. reflexivity.
  - cbn [trace app]. cbn [current_offset set_offset vga_memory] in Ho |- *. rewrite Ho.
    replace (s32 (vga_memory v + 3840 + 2 * k - vga_memory v) / 2) with (1920 + k)
      by (rewrite s32_small by lia; zlia).
    change (VGA_TEXT_KERNEL_SIZE / VGA_TEXT_BYTES_PER_CHARACTER) with 2048.
    rewrite (u32_small (1920 + k + 2048)) by lia. rewrite !u8_u8, Z.shiftr_div_pow2 by lia. change (2 ^ 8) with 256.
    replace (u8 ((1920 + k + 2048) / 256)) with ((2048 + 1920 + k) / 256) by (unfold u8; zlia).
    replace (u8 (1920 + k + 2048)) with ((2048 + 1920 + k) mod 256) by (unfold u8; zlia). done.
Qed.

End Driver.

(** ** Witnesses *)

Definition map_frame (m : mem) : mem := write_bytes m 65536 (replicate (Z.to_nat 4000) 0).

Lemma map_frame_mapped m : mapped (map_frame m) 65536 4000.
Proof.
  intros x Hx. apply (bytes_at_mapped _ _ _ (bytes_at_write m 65536 (replicate (Z.to_nat 4000) 0))).
  rewrite length_replicate. lia.
Qed.

Lemma map_frame_outside m x : ~ (65536 <= x < 69536) -> map_frame m !! x = m !! x.
Proof. intros Hx. unfold map_frame. rewrite lookup_write_bytes, decide_False; [done|]. rewrite length_replicate. lia. Qed.

(** A kernel that maps the frame buffer at 65536 and delivers one text over and
    over; the allocator returns 8192. *)
Definition display_world : World := {|
  kernel_reply := fun h =>
    match h with
    | Syscall n a m :: _ =>
        if n =? SYSTEM_CALL_VECTOR_MAP_DEVICE
        then (mkSyscall 32 65536 0 0 0 0 0 STATUS_SUCCESS, map_frame m)
        else if n =? SYSTEM_CALL_VECTOR_RECEIVE_MESSAGE
        then (mkSyscall 32 7 MESSAGE_TYPE_WRITE 1 4096 3 0 STATUS_SUCCESS, write_bytes m 4096 [104; 105; 10])
        else (mkSyscall 32 0 0 0 0 0 0 STATUS_SUCCESS, m)
    | _ => (mkSyscall 32 0 0 0 0 0 0 STATUS_SUCCESS, ∅)
    end;
  port_value := fun _ => 0;
  heap_block := fun h =>
    match h with
    | Malloc n m :: _ => (8192, write_bytes m 8192 (replicate (Z.to_nat n) 0))
    | _ => (0, ∅)
    end;
  heap_free := fun h => match h with Free _ m :: _ => m | _ => ∅ end;
  uninitialized := fun _ => 0 |}.

(** The reply, as one equation. *)
Lemma display_reply n a m h : @kernel_reply display_world (Syscall n a m :: h) =
  if n =? SYSTEM_CALL_VECTOR_MAP_DEVICE then (mkSyscall 32 65536 0 0 0 0 0 STATUS_SUCCESS, map_frame m)
  else if n =? SYSTEM_CALL_VECTOR_RECEIVE_MESSAGE
  then (mkSyscall 32 7 MESSAGE_TYPE_WRITE 1 4096 3 0 STATUS_SUCCESS, write_bytes m 4096 [104; 105; 10])
  else (mkSyscall 32 0 0 0 0 0 0 STATUS_SUCCESS, m).
Proof. reflexivity. Qed.

#[local] Opaque map_frame.

#[local] Instance display_kernel : @DisplayKernel display_world 65536 8192.
Proof.
  split.
  - intros n a m h x Hx. rewrite display_reply. repeat case_match; cbn [snd].
    + apply map_frame_outside. lia.
    + rewrite lookup_write_bytes, decide_False; [done|]. cbn [length]. lia.
    + done.
  - intros n a m h x Hn Hx. rewrite display_reply, (proj2 (Z.eqb_neq _ _) Hn).
    case_match; cbn [snd]; [|done]. rewrite lookup_write_bytes, decide_False; [done|]. cbn [length]. lia.
  - intros a m h r m' E. rewrite display_reply, Z.eqb_refl in E.
    apply pair_equal_spec in E as [<- <-]. split; [done|].
    intros _. split; [done|apply map_frame_mapped].
  - intros a m h r m' E _ _ _. rewrite display_reply in E.
    change (SYSTEM_CALL_VECTOR_RECEIVE_MESSAGE =? SYSTEM_CALL_VECTOR_MAP_DEVICE) with false in E.
    rewrite Z.eqb_refl in E. apply pair_equal_spec in E as [<- <-]. cbn [data3 data4]. split; [lia|]. split; [lia|]. split; [|lia].
    apply (bytes_at_mapped _ _ _ (bytes_at_write m 4096 [104; 105; 10])).
Qed.

Lemma vga_refines_witness : exists v w' is_,
  @vga_main display_world 3 (Machine ∅ []) = Ret (inr v, w') /\ vga_memory v = 65536 /\
  @inputs display_world (trace w') = rev is_ ++ [] /\
  displays (fold_left term_input is_ (mkTerminal [] [])) v (memory w').
Proof.
  apply (@vga_refines display_world 3 65536 8192 (write_bytes ∅ 8192 (replicate (Z.to_nat 188) 0)) (Machine ∅ [])
    display_kernel); [|lia|lia|lia].
  split; [reflexivity|]. split; [lia|]. split; [lia|]. split; [by_eval|]. split; intros a [x Hx]; cbn in Hx; by rewrite lookup_empty in Hx.
Defined.

Definition shown_context : vga_context := mkVga 8192 65536 (65536 + 3840) true 65536 65696 69376 69536.
Definition shown_memory : mem :=
  write_bytes (write_bytes (write_bytes ∅ 65536 (cells_bytes (screen (mkTerminal [] [])))) 8201 (cells_bytes blank_row))
    4096 [104; 105].

Lemma shown_displays : displays (mkTerminal [] []) shown_context shown_memory.
Proof.
  split; [split; [done|cbn; lia]|split; cbn; lia|reflexivity|]. split.
  - unfold shown_memory. apply bytes_at_write_disjoint; [cbn [length vga_memory shown_context]; lia|].
    apply bytes_at_write_disjoint; [|apply bytes_at_write]. left.
    rewrite length_cells_bytes. cbn [vga_memory shown_context]. unfold blank_row. rewrite length_replicate. lia.
  - unfold shown_memory. apply bytes_at_write_disjoint; [cbn [length]; unfold blank_line; cbn; lia|apply bytes_at_write].
Qed.

Lemma vga_cursor_follows_witness : exists v' w',
  let position := 2048 + 1920 + Z.of_nat (length (line (fold_left term_put [104; 105] (mkTerminal [] [])))) in
  vga_write shown_context 4096 2 (Machine shown_memory []) = Ret (v', w') /\ position < 4096 /\
  trace w' = [PortWrite VGA_CRTC_DATA_PORT_ADDRESS (position mod 256);
              PortWrite VGA_CRTC_ADDRESS_PORT_ADDRESS VGA_CRTC_CURSOR_LOCATION_LOW_REGISTER;
              PortWrite VGA_CRTC_DATA_PORT_ADDRESS (position / 256);
              PortWrite VGA_CRTC_ADDRESS_PORT_ADDRESS VGA_CRTC_CURSOR_LOCATION_HIGH_REGISTER] ++ [].
Proof.
  apply (vga_cursor_follows (mkTerminal [] []) shown_context (Machine shown_memory []) [104; 105] 4096);
    [exact shown_displays|done|apply bytes_at_write|cbn; lia|lia|cbn; lia].
Defined.

(** Codes above 127 are sign extended into the attribute byte. *)
Example cell_high_character : cell 233 = 65513.
Proof. reflexivity. Qed.
