(* ===== verification/Loader.v ===== *)
(** * The loader and its RAM disk file system

    [src/src/user/loader]: the first user program. It unpacks the boot archive
    into a directory, starts the daemons it finds there, and then answers file
    requests from the directory until the file system is unmounted.

    The archive, the payload of a request and the structures that are sent as
    payloads are bytes of the program's memory. The directory nodes and the
    open-file descriptors are private to the loader (no pointer to them leaves
    it): the linked list is a list of records, a descriptor is a record that
    keeps the address of its block. *)

From S2P Require Import Prelude CMem CString NumConv Tar World Libdx Process.

(** ** Data *)

Definition MESSAGE_TYPE_OPEN : Z := SYSTEM_MESSAGE 32.
Definition MESSAGE_TYPE_OPEN_COMPLETE : Z := SYSTEM_MESSAGE 33.
Definition MESSAGE_TYPE_CLOSE : Z := SYSTEM_MESSAGE 34.
Definition MESSAGE_TYPE_CLOSE_COMPLETE : Z := SYSTEM_MESSAGE 35.
Definition MESSAGE_TYPE_UNMOUNT_FILESYSTEM : Z := SYSTEM_MESSAGE 51.

Definition STATUS_ACCESS_DENIED : Z := -2.
Definition STATUS_INVALID_STREAM : Z := -8.
Definition STATUS_IO_ERROR : Z := -29.
Definition STATUS_END_OF_FILE : Z := -43.
Definition STATUS_FILE_DOES_NOT_EXIST : Z := -45.

Definition STREAM_READ : Z := 1.
Definition STREAM_WRITE : Z := 2.
Definition STREAM_APPEND : Z := 4.

(** [open_stream_request_s]: [file\[FILENAME_MAX + 1\]], padding, [flags];
    [open_stream_reply_s]: [cookie], [status]; [read_stream_request_s]:
    [cookie], [size_hint]. *)
Definition FILENAME_MAX : Z := 256.
Definition open_request_size : Z := 264.
Definition open_request_flags (request_data : Z) : Z := request_data + 260.
Definition open_reply_size : Z := 8.
Definition read_request_size : Z := 8.
Definition read_request_cookie (payload : Z) : Z := payload.
Definition read_request_size_hint (payload : Z) : Z := payload + 4.

(** A node of the directory: the [tar_entry_s] it holds. *)
Record directory_entry := mkEntry { de_header : Z; de_file : Z; de_file_size : Z }.

(** A descriptor, with the address of its heap block. *)
Record open_file_s := mkOpenFile {
  of_block : Z; of_entry : directory_entry; of_offset : Z; of_flags : Z; of_thread : Z }.

Definition OPEN_FILE_COUNT_MAX : Z := 32.

Record loader_context := mkLoader {
  open_files : list (option open_file_s);
  open_file_count : Z;
  open_file_index : Z;
  ramdisk_entries : list directory_entry }.

(** The context after [memset], with the directory filled in. *)
Definition loader_zero (entries : list directory_entry) : loader_context :=
  mkLoader (replicate 32 None) 0 0 entries.

(** [context->open_file\[slot\]] and its assignment: an index outside the table
    is out of bounds. *)
Definition get_slot (context : loader_context) (slot : Z) : C (option open_file_s) :=
  match open_files context !! Z.to_nat slot with
  | Some f => mret f
  | None => fail (BadIndex slot)
  end.

Definition set_slot (context : loader_context) (slot : Z) (f : option open_file_s) : loader_context :=
  mkLoader (<[Z.to_nat slot := f]> (open_files context)) (open_file_count context)
    (open_file_index context) (ramdisk_entries context).

Section Loader.
Context `{World}.

(** ** Requests of the file system *)

Definition close_file (context : loader_context) (request : message) : D loader_context :=
  '(context, st) ←
    (let slot := msg_data request in
     if OPEN_FILE_COUNT_MAX <=? slot then mret (context, STATUS_INVALID_STREAM)
     else
       file ← lift (get_slot context slot);
       match file with
       | None => mret (context, STATUS_INVALID_STREAM)
       | Some file =>
           if negb (of_thread file =? u_id request) then mret (context, STATUS_INVALID_STREAM)
           else
             dassert (0 <? open_file_count context);;
             let context := set_slot (mkLoader (open_files context) (u32 (open_file_count context - 1))
               (open_file_index context) (ramdisk_entries context)) slot None in
             free (of_block file);;
             mret (context, STATUS_SUCCESS)
       end);
  let reply := initialize_reply request in
  send_message (Some (mkMessage (u_id reply) MESSAGE_TYPE_CLOSE_COMPLETE (msg_id reply) (u32 st)
    (msg_data_size reply) (destination_address reply)));;
  mret context.

(** The scan of the directory from [entries] on. *)
Fixpoint find_file_from (entries : list directory_entry) (filename : Z) : C (option directory_entry) :=
  match entries with
  | [] => mret None
  | entry :: next =>
      r ← strcmp (tar_name (de_header entry)) filename;
      if r =? 0 then mret (Some entry) else find_file_from next filename
  end.

Definition find_file (context : loader_context) (filename : Z) : C (option directory_entry) :=
  find_file_from (ramdisk_entries context) filename.

(** The endless [for] loop over the table, from [slot] on. *)
Fixpoint find_slot (fuel : nat) (context : loader_context) (slot : Z) : C Z :=
  match fuel with
  | O => fail OutOfFuel
  | S f =>
      file ← get_slot context slot;
      match file with
      | None => mret slot
      | Some _ =>
          let slot := u32 (slot + 1) in
          find_slot f context (if OPEN_FILE_COUNT_MAX <=? slot then 0 else slot)
      end
  end.

(** The part of [open_file] after the file was found: a slot and a descriptor
    for it. The result is the context, the cookie and the status. *)
Definition allocate_stream (context : loader_context) (request : message) (entry : directory_entry)
    : D (loader_context * Z * Z) :=
  if OPEN_FILE_COUNT_MAX <=? open_file_count context
  then mret (context, 0, STATUS_INSUFFICIENT_MEMORY)
  else
    slot ← lift (find_slot 32 context (open_file_index context));
    dassert (slot <? OPEN_FILE_COUNT_MAX);;
    let context := mkLoader (open_files context) (u32 (open_file_count context + 1)) slot
      (ramdisk_entries context) in
    file ← malloc 16;
    if file =? NULL then mret (context, 0, STATUS_INSUFFICIENT_MEMORY)
    else
      flags ← lift (load32 (open_request_flags (msg_data request)));
      mret (set_slot context slot (Some (mkOpenFile file entry 0 flags (u_id request))), slot,
            STATUS_SUCCESS).

(** [reply_data] is the address of the local structure; its initial values are
    overwritten on every path. *)
Definition open_file (reply_data : Z) (context : loader_context) (request : message)
    : D loader_context :=
  '(context, cookie, st) ←
    (dassert (negb (msg_id request =? MESSAGE_ID_ATOMIC));;
     if msg_data_size request <? open_request_size then mret (context, 0, STATUS_INVALID_DATA)
     else
       let request_data := msg_data request in
       lift (store (request_data + FILENAME_MAX) 0);;
       flags ← lift (load32 (open_request_flags request_data));
       if negb (Z.land flags (Z.lor STREAM_WRITE STREAM_APPEND) =? 0)
       then mret (context, 0, STATUS_ACCESS_DENIED)
       else
         entry ← lift (find_file context request_data);
         match entry with
         | None => mret (context, 0, STATUS_FILE_DOES_NOT_EXIST)
         | Some entry => allocate_stream context request entry
         end);
  lift (store32 reply_data cookie;; store32 (reply_data + 4) (u32 st));;
  let reply := initialize_reply request in
  send_message (Some (mkMessage (u_id reply) MESSAGE_TYPE_OPEN_COMPLETE (msg_id reply) reply_data
    open_reply_size (destination_address reply)));;
  mret context.

(** The stream, the size hint and the checks of a read request: the status of
    a refusal, or the slot, its descriptor and the bytes that remain. *)
Definition check_read (context : loader_context) (request : message)
    : D (Z + Z * open_file_s * Z) :=
  dassert (negb (msg_id request =? MESSAGE_ID_ATOMIC));;
  let payload := msg_data request in
  if msg_data_size request <? read_request_size then mret (inl STATUS_INVALID_DATA)
  else
    slot ← lift (load32 (read_request_cookie payload));
    if OPEN_FILE_COUNT_MAX <=? slot then mret (inl STATUS_INVALID_DATA)
    else
      file ← lift (get_slot context slot);
      match file with
      | None => mret (inl STATUS_INVALID_DATA)
      | Some file =>
          if negb (of_thread file =? u_id request) then mret (inl STATUS_ACCESS_DENIED)
          else if Z.land (of_flags file) STREAM_READ =? 0 then mret (inl STATUS_ACCESS_DENIED)
          else
            dassert (of_offset file <=? de_file_size (of_entry file));;
            let bytes_remaining := u32 (de_file_size (of_entry file) - of_offset file) in
            if bytes_remaining =? 0 then mret (inl STATUS_END_OF_FILE)
            else mret (inr (slot, file, bytes_remaining))
      end.

Definition read_file (context : loader_context) (request : message) : D loader_context :=
  r ← check_read context request;
  '(context, st, data, data_size) ←
    (match r with
     | inl st => mret (context, st, NULL, 0)
     | inr (slot, file, bytes_remaining) =>
         size ← lift (load32 (read_request_size_hint (msg_data request)));
         let data := u32 (de_file (of_entry file) + of_offset file) in
         let data_size := Z.min bytes_remaining
           (u32 (size + PAGE_SIZE - PAGE_OFFSET (u32 (data + size)))) in
         dassert (0 <? data_size);;
         dassert (size <=? data_size);;
         let file := mkOpenFile (of_block file) (of_entry file) (u32 (of_offset file + data_size))
           (of_flags file) (of_thread file) in
         mret (set_slot context slot (Some file), STATUS_INVALID_DATA, data, data_size)
     end);
  let reply := initialize_reply request in
  send_message (Some (mkMessage (u_id reply) MESSAGE_TYPE_READ_COMPLETE (msg_id reply)
    (if 0 <? data_size then data else u32 st) data_size (destination_address reply)));;
  mret context.

(** ** The message loop *)

(** The [switch]; the boolean is [mounted]. *)
Definition loader_dispatch (reply_data : Z) (context : loader_context) (m : message)
    : D (bool * loader_context) :=
  if msg_type m =? MESSAGE_TYPE_CLOSE then
    context ← close_file context m; mret (true, context)
  else if msg_type m =? MESSAGE_TYPE_FLUSH then
    let reply := initialize_reply m in
    send_message (Some (mkMessage (u_id reply) MESSAGE_TYPE_FLUSH_COMPLETE (msg_id reply)
      (msg_data reply) (msg_data_size reply) (destination_address reply)));;
    mret (true, context)
  else if msg_type m =? MESSAGE_TYPE_OPEN then
    context ← open_file reply_data context m; mret (true, context)
  else if msg_type m =? MESSAGE_TYPE_READ then
    context ← read_file context m; mret (true, context)
  else if msg_type m =? MESSAGE_TYPE_UNMOUNT_FILESYSTEM then mret (false, context)
  else mret (true, context).

Definition loader_step (reply_data : Z) (buffer : message) (context : loader_context)
    : D (bool * loader_context) :=
  '(s, om) ← receive_message (Some buffer) WAIT_FOR_MESSAGE;
  match om with
  | Some m =>
      if negb (s =? STATUS_SUCCESS) then mret (true, context)
      else
        r ← loader_dispatch reply_data context m;
        delete_message (Some m);;
        mret r
  | None => mret (true, context)
  end.

(** The loop, observed for at most [n] iterations; the boolean tells whether
    the file system is still mounted. *)
Fixpoint loader_wait_for_messages (n : nat) (reply_data : Z) (buffer : message) (context : loader_context)
    : D (bool * loader_context) :=
  match n with
  | O => mret (true, context)
  | S n' =>
      '(mounted, context) ← loader_step reply_data buffer context;
      if (mounted : bool) then loader_wait_for_messages n' reply_data buffer context
      else mret (false, context)
  end.

(** ** The directory *)

Fixpoint unpack_loop (fuel : nat) (ramdisk : Z) : D (list directory_entry) :=
  match fuel with
  | O => lift (fail OutOfFuel)
  | S f =>
      exhausted ← lift (tar_is_exhausted ramdisk);
      if (exhausted : bool) then mret []
      else
        entry ← malloc 16;
        if entry =? NULL then mret []
        else
          ramdisk ← lift (tar_read ramdisk entry);
          header ← lift (load32 entry);
          file ← lift (load32 (entry + 4));
          file_size ← lift (load32 (entry + 8));
          rest ← unpack_loop f ramdisk;
          mret (mkEntry header file file_size :: rest)
  end.

Definition unpack_ramdisk (ramdisk : Z) : D (list directory_entry) := fun w =>
  unpack_loop (mem_fuel (memory w)) ramdisk w.

(** ** Starting the daemons *)

Definition DAEMON_COUNT : Z := 16.
Definition TAR_TYPE_REGULAR_FILE0 : Z := 0.
Definition TAR_TYPE_REGULAR_FILE1 : Z := 48.
Definition tar_type (header : Z) : Z := header + 156.

(** The addresses of the string literals, of the local array [argv] and of
    [ELF_IDENT_MAGIC]; [printf] of a format with one number goes to the console
    stream. *)
Record literals := mkLiterals {
  lit_prefix : Z; lit_lua_bin : Z; lit_shell : Z; lit_argv : Z; lit_magic : Z;
  lit_warning : Z; lit_no_shell : Z; lit_no_lua : Z }.
Context (lits : literals) (printf : Z -> list Z -> D unit).

(** The table [daemon\[\]] after the walk over [entries]. *)
Fixpoint find_daemons (entries : list directory_entry) (prefix_length : Z)
    (daemon : list (option directory_entry)) : C (list (option directory_entry)) :=
  match entries with
  | [] => mret daemon
  | entry :: next =>
      if de_file_size entry =? 0 then find_daemons next prefix_length daemon
      else
        ty ← loadc (tar_type (de_header entry));
        if negb (ty =? TAR_TYPE_REGULAR_FILE0) && negb (ty =? TAR_TYPE_REGULAR_FILE1)
        then find_daemons next prefix_length daemon
        else
          r ← memcmp (tar_name (de_header entry)) (lit_prefix lits) prefix_length;
          if negb (r =? 0) then find_daemons next prefix_length daemon
          else
            n ← atoi (tar_name (de_header entry) + prefix_length);
            let index := u32 n in
            find_daemons next prefix_length
              (if index <? DAEMON_COUNT then <[Z.to_nat index := Some entry]> daemon else daemon)
  end.

(** The launch loop over the rest of the table. *)
Fixpoint launch_daemons (daemon : list (option directory_entry)) : D unit :=
  match daemon with
  | [] => mret tt
  | None :: rest => launch_daemons rest
  | Some d :: rest =>
      st ← create_process_from_image (lit_magic lits) (de_file d) (de_file_size d) CAPABILITY_ALL NULL;
      (if negb (st =? STATUS_SUCCESS) then printf (lit_warning lits) [st] else mret tt);;
      launch_daemons rest
  end.

Definition launch_shell (context : loader_context) : D unit :=
  lua ← lift (find_file context (lit_lua_bin lits));
  match lua with
  | Some lua =>
      let argv := lit_argv lits in
      lift (store32 argv (lit_lua_bin lits);; store32 (argv + 4) (lit_shell lits);;
            store32 (argv + 8) NULL);;
      st ← create_process_from_image (lit_magic lits) (de_file lua) (de_file_size lua)
             CAPABILITY_ALL argv;
      if negb (st =? STATUS_SUCCESS) then printf (lit_no_shell lits) [st] else mret tt
  | None => printf (lit_no_lua lits) []
  end.

(** The first entry is the loader itself; index 0 is skipped for the same
    reason. *)
Definition start_daemons (context : loader_context) : D unit :=
  prefix_length ← lift (strlen (lit_prefix lits));
  match ramdisk_entries context with
  | [] => lift (fail (BadLoad NULL))
  | _ :: entries =>
      daemon ← lift (find_daemons entries prefix_length (replicate 16 None));
      launch_daemons (drop 1 daemon);;
      launch_shell context
  end.

(** ** main and the environment of the loader *)

Definition USER_KERNEL_BOUNDARY : Z := 1073741824.

(** The context has 140 bytes. [main] with its message loop observed for [n]
    iterations: the status it returns, or [None] while the loop still runs.
    After an unmount the status is the uninitialised local. *)
Definition loader_main (n : nat) (reply_data : Z) (buffer : message) : D (option Z) :=
  block ← malloc 140;
  if block =? NULL then mret (Some STATUS_INSUFFICIENT_MEMORY)
  else
    lift (memset block 0 140);;
    entries ← unpack_ramdisk USER_KERNEL_BOUNDARY;
    match entries with
    | [] => free block;; mret (Some STATUS_INVALID_IMAGE)
    | _ :: _ =>
        start_daemons (loader_zero entries);;
        '(mounted, _) ← loader_wait_for_messages n reply_data buffer (loader_zero entries);
        if (mounted : bool) then mret None
        else status ← indeterminate; free block;; mret (Some status)
    end.

End Loader.

Definition ADDRESS_SPACE_ID_USER_LOADER : Z := 0.

(** [end_] is the linker's symbol. [memset] gets the size of the pointer. *)
Definition initialize_environment `{World} (end_ : Z) : D unit :=
  st ← expand_address_space ADDRESS_SPACE_ID_USER_LOADER USER_ENVIRONMENT_BLOCK environment_size 0;
  if negb (st =? STATUS_SUCCESS) then mret tt
  else
    let environment := find_environment_block in
    lift (memset environment 0 4);;
    let heap := PAGE_BASE (u32 (end_ + 268435456)) in
    let heap_size := 96 * PAGE_SIZE in
    st ← expand_address_space ADDRESS_SPACE_ID_USER_LOADER heap heap_size 0;
    if negb (st =? STATUS_SUCCESS) then mret tt
    else
      lift (store32 (env_heap_base environment) heap;;
            store32 (env_heap_current environment) heap;;
            store32 (env_heap_limit environment) (u32 (heap + heap_size - 1))).
