(* ===== verification/LoaderThms.v ===== *)
(** * The loader: an abstract read-only file system and the refinement *)

From S2P Require Import Prelude CMem CString CStringMem CStringStr NumConv Tar World Libdx LibdxThms Process ProcessThms Loader.

(** ** The abstract file system *)

(** A file with its name, the address of its contents and the contents. *)
Record afile := mkFile { f_name : list Z; f_address : Z; f_data : list Z }.

(** An open stream: the file, how much of it was read, the access flags and
    the thread that owns it. *)
Record stream := mkStream { s_file : afile; s_offset' : nat; s_flags : Z; s_thread : Z }.

(** The open streams by cookie, and the number of slots that are lost for good
    because the allocator failed while they were reserved. *)
Record afs := mkFs { streams : gmap Z stream; lost_slots : nat }.

Definition used_slots (st : afs) : nat := (base.size (streams st) + lost_slots st)%nat.

(** *** Requests *)

(** The word at offset [i] of a payload. *)
Definition payload_word (p : list Z) (i : nat) : Z :=
  match drop i p with
  | b0 :: b1 :: b2 :: b3 :: _ => b0 + 256 * b1 + 65536 * b2 + 16777216 * b3
  | _ => 0
  end.

Fixpoint until_nul (l : list Z) : list Z :=
  match l with
  | [] => []
  | b :: l' => if b =? 0 then [] else b :: until_nul l'
  end.

(** The file name of an open request: at most 256 characters. *)
Definition requested_name (p : list Z) : list Z := until_nul (take 256 p).
Definition requested_flags (p : list Z) : Z := payload_word p 260.

(** A reply with the given payload. *)
Definition answer (m : message) (ty data : Z) (p : list Z) : transfer :=
  Sent (mkMessage (u_id m) ty (msg_id m) data (Z.of_nat (length p)) 0) p.

Section Abstract.
Context (files : list afile) (frame : Z).

Definition lookup_file (name : list Z) : option afile :=
  find (fun f => bool_decide (f_name f = name)) files.

(** Why an open request is refused before a slot is reserved. *)
Definition open_error (st : afs) (p : list Z) : option Z :=
  if Z.of_nat (length p) <? open_request_size then Some STATUS_INVALID_DATA
  else if negb (Z.land (requested_flags p) 6 =? 0) then Some STATUS_ACCESS_DENIED
  else
    match lookup_file (requested_name p) with
    | None => Some STATUS_FILE_DOES_NOT_EXIST
    | Some _ => if (32 <=? used_slots st)%nat then Some STATUS_INSUFFICIENT_MEMORY else None
    end.

(** A read request: the stream it may read, or why it is refused. *)
Definition read_target (st : afs) (m : message) (p : list Z) : Z + stream :=
  if Z.of_nat (length p) <? read_request_size then inl STATUS_INVALID_DATA
  else
    match streams st !! payload_word p 0 with
    | None => inl STATUS_INVALID_DATA
    | Some s =>
        if negb (s_thread s =? u_id m) then inl STATUS_ACCESS_DENIED
        else if Z.land (s_flags s) STREAM_READ =? 0 then inl STATUS_ACCESS_DENIED
        else if (s_offset' s =? length (f_data (s_file s)))%nat then inl STATUS_END_OF_FILE
        else inr s
    end.

(** How many bytes the loader sends: up to the end of the page that holds the
    last byte asked for, and not past the end of the file. *)
Definition chunk (s : stream) (size_hint : Z) : Z :=
  Z.min (Z.of_nat (length (f_data (s_file s))) - Z.of_nat (s_offset' s))
    (u32 (size_hint + 4096 - u32 (f_address (s_file s) + Z.of_nat (s_offset' s) + size_hint) mod 4096)).

Definition chunk_ok (s : stream) (size_hint : Z) : Prop :=
  0 < chunk s size_hint /\ size_hint <= chunk s size_hint.

Definition advance (s : stream) (n : nat) : stream :=
  mkStream (s_file s) (s_offset' s + n) (s_flags s) (s_thread s).

(** One message with its payload: the next state and the replies. The cookie
    of a new stream and the outcome of the allocation are left open. *)
Inductive fs_step (st : afs) (m : message) (p : list Z) : afs -> list transfer -> Prop :=
  | step_close s :
      msg_type m = MESSAGE_TYPE_CLOSE -> streams st !! msg_data m = Some s -> s_thread s = u_id m ->
      fs_step st m p (mkFs (delete (msg_data m) (streams st)) (lost_slots st))
        [answer m MESSAGE_TYPE_CLOSE_COMPLETE (u32 STATUS_SUCCESS) []]
  | step_close_refused :
      msg_type m = MESSAGE_TYPE_CLOSE ->
      (forall s, streams st !! msg_data m = Some s -> s_thread s <> u_id m) ->
      fs_step st m p st [answer m MESSAGE_TYPE_CLOSE_COMPLETE (u32 STATUS_INVALID_STREAM) []]
  | step_flush :
      msg_type m = MESSAGE_TYPE_FLUSH ->
      fs_step st m p st [answer m MESSAGE_TYPE_FLUSH_COMPLETE 0 []]
  | step_open_refused e :
      msg_type m = MESSAGE_TYPE_OPEN -> msg_id m <> MESSAGE_ID_ATOMIC -> open_error st p = Some e ->
      fs_step st m p st [answer m MESSAGE_TYPE_OPEN_COMPLETE frame (words_bytes [0; u32 e])]
  | step_open_no_memory :
      msg_type m = MESSAGE_TYPE_OPEN -> msg_id m <> MESSAGE_ID_ATOMIC -> open_error st p = None ->
      fs_step st m p (mkFs (streams st) (S (lost_slots st)))
        [answer m MESSAGE_TYPE_OPEN_COMPLETE frame (words_bytes [0; u32 STATUS_INSUFFICIENT_MEMORY])]
  | step_open f slot :
      msg_type m = MESSAGE_TYPE_OPEN -> msg_id m <> MESSAGE_ID_ATOMIC -> open_error st p = None ->
      lookup_file (requested_name p) = Some f -> 0 <= slot < 32 -> streams st !! slot = None ->
      fs_step st m p
        (mkFs (<[slot := mkStream f 0 (requested_flags p) (u_id m)]> (streams st)) (lost_slots st))
        [answer m MESSAGE_TYPE_OPEN_COMPLETE frame (words_bytes [slot; u32 STATUS_SUCCESS])]
  | step_read_refused e :
      msg_type m = MESSAGE_TYPE_READ -> msg_id m <> MESSAGE_ID_ATOMIC -> read_target st m p = inl e ->
      fs_step st m p st [answer m MESSAGE_TYPE_READ_COMPLETE (u32 e) []]
  | step_read s n :
      msg_type m = MESSAGE_TYPE_READ -> msg_id m <> MESSAGE_ID_ATOMIC -> read_target st m p = inr s ->
      chunk_ok s (payload_word p 4) -> n = Z.to_nat (chunk s (payload_word p 4)) ->
      fs_step st m p (mkFs (<[payload_word p 0 := advance s n]> (streams st)) (lost_slots st))
        [answer m MESSAGE_TYPE_READ_COMPLETE (f_address (s_file s) + Z.of_nat (s_offset' s))
           (take n (drop (s_offset' s) (f_data (s_file s))))]
  | step_other :
      msg_type m ∉ [MESSAGE_TYPE_CLOSE; MESSAGE_TYPE_FLUSH; MESSAGE_TYPE_OPEN; MESSAGE_TYPE_READ] ->
      fs_step st m p st [].

(** The requests that stop the loader on an assertion: an open or read without
    a reply address, and a read of more than the file still holds. *)
Definition fs_stuck (st : afs) (m : message) (p : list Z) : Prop :=
  (msg_type m = MESSAGE_TYPE_OPEN \/ msg_type m = MESSAGE_TYPE_READ) /\ msg_id m = MESSAGE_ID_ATOMIC \/
  msg_type m = MESSAGE_TYPE_READ /\
  exists s, read_target st m p = inr s /\ ~ chunk_ok s (payload_word p 4).

Inductive fs_run : afs -> list (message * list Z) -> afs -> list transfer -> Prop :=
  | fs_run_nil st : fs_run st [] st []
  | fs_run_cons st m p st1 out ms st2 outs :
      fs_step st m p st1 out -> fs_run st1 ms st2 outs ->
      fs_run st ((m, p) :: ms) st2 (Received m p :: out ++ outs).

(** The state of the file system makes sense. *)
Record fs_wf (st : afs) : Prop := {
  wf_slots : forall i s, streams st !! i = Some s -> 0 <= i < 32;
  wf_used : (used_slots st <= 32)%nat;
  wf_offset : forall i s, streams st !! i = Some s -> (s_offset' s <= length (f_data (s_file s)))%nat;
  wf_file : forall i s, streams st !! i = Some s -> s_file s ∈ files }.

Lemma fs_run_app st ms st1 out ns st2 outs :
  fs_run st ms st1 out -> fs_run st1 ns st2 outs -> fs_run st (ms ++ ns) st2 (out ++ outs).
Proof.
  induction 1 as [|st m p st' out' ms st1 outs' Hs _ IH]; [done|]. intros Hr.
  cbn [app]. rewrite <- app_assoc. econstructor; eauto.
Qed.

Lemma read_target_inr st m p s : read_target st m p = inr s ->
  streams st !! payload_word p 0 = Some s /\ s_thread s = u_id m /\ Z.land (s_flags s) STREAM_READ <> 0 /\
  s_offset' s <> length (f_data (s_file s)) /\ read_request_size <= Z.of_nat (length p).
Proof.
  unfold read_target. destruct (Z.ltb_spec (Z.of_nat (length p)) read_request_size) as [|Hl]; [done|].
  destruct (streams st !! payload_word p 0) as [s'|]; [|done].
  destruct (Z.eqb_spec (s_thread s') (u_id m)) as [Ht|]; [|done]. cbn [negb].
  destruct (Z.eqb_spec (Z.land (s_flags s') STREAM_READ) 0) as [|Hf]; [done|].
  destruct (Nat.eqb_spec (s_offset' s') (length (f_data (s_file s')))) as [|Ho]; [done|].
  intros [= <-]. auto.
Qed.

Lemma fs_step_wf st m p st' out : fs_step st m p st' out -> fs_wf st -> fs_wf st'.
Proof.
  intros Hs [W1 W2 W3 W4].
  assert (Hopen : open_error st p = None -> (used_slots st < 32)%nat).
  { unfold open_error. repeat case_match; try done. intros _. by apply Nat.leb_gt. }
  destruct Hs as [s _ Hs _| | | |_ _ Ho|f slot _ _ Ho Hf Hslot Hnew| |s n _ _ Hr [Hc _] ->|]; try by split.
  - split; cbn.
    + intros i s'. rewrite lookup_delete_Some. intros [_ ?]. by eapply W1.
    + unfold used_slots in *. cbn. rewrite map_size_delete, Hs. cbn. lia.
    + intros i s'. rewrite lookup_delete_Some. intros [_ ?]. by eapply W3.
    + intros i s'. rewrite lookup_delete_Some. intros [_ ?]. by eapply W4.
  - apply Hopen in Ho. split; cbn; try done. unfold used_slots in *. cbn. lia.
  - apply Hopen in Ho. split; cbn.
    + intros i s'. rewrite lookup_insert_Some. intros [[<- _]|[_ ?]]; [done|by eapply W1].
    + unfold used_slots in *. cbn. rewrite map_size_insert_None by done. lia.
    + intros i s'. rewrite lookup_insert_Some. intros [[_ <-]|[_ ?]]; [cbn; lia|by eapply W3].
    + intros i s'. rewrite lookup_insert_Some. intros [[_ <-]|[_ ?]]; [|by eapply W4].
      cbn. apply find_some in Hf as [Hf _]. by apply list_elem_of_In.
  - apply read_target_inr in Hr as (Hl & _ & _ & Ho & _). pose proof (W3 _ _ Hl).
    split; cbn.
    + intros i s'. rewrite lookup_insert_Some. intros [[<- _]|[_ ?]]; by eapply W1.
    + unfold used_slots in *. cbn. rewrite map_size_insert, Hl. done.
    + intros i s'. rewrite lookup_insert_Some. intros [[_ <-]|[_ ?]]; [|by eapply W3].
      cbn. unfold chunk in *. lia.
    + intros i s'. rewrite lookup_insert_Some. intros [[_ <-]|[_ ?]]; [cbn|]; by eapply W4.
Qed.

End Abstract.

(** ** Payloads and names in memory *)

Lemma bytes_at_read m a n : mapped m a (Z.of_nat n) -> bytes_at m a (read_bytes m a n).
Proof.
  revert a; induction n as [|n IH]; intros a Hm; cbn [read_bytes]; [apply bytes_at_nil|].
  apply bytes_at_cons. split.
  - destruct (Hm a) as [b ->]; [lia|done].
  - apply IH. eapply mapped_sub; [exact Hm|lia|lia].
Qed.

Lemma load32_payload m a p i : bytes_at m a p -> (i + 4 <= length p)%nat ->
  load32 (a + Z.of_nat i) m = Ret (payload_word p i, m).
Proof.
  intros Hb Hl. rewrite <- (take_drop i p) in Hb. apply bytes_at_app in Hb as [_ Hb].
  rewrite length_take_le in Hb by lia. unfold payload_word. set (b := a + Z.of_nat i) in *.
  assert (Hd : length (drop i p) = (length p - i)%nat) by apply length_drop.
  destruct (drop i p) as [|b0 [|b1 [|b2 [|b3 r]]]]; cbn in Hd; try lia.
  rewrite !bytes_at_cons, <- !Z.add_assoc in Hb. destruct Hb as (H0 & H1 & H2 & H3 & _).
  unfold load32. by do 4 crun run_load.
Qed.

Lemma cstr_until_nul m a l : bytes_at m a (l ++ [0]) -> Forall is_u8 l ->
  0 < a -> a + Z.of_nat (length l) < 4294967296 -> cstr m a (until_nul l).
Proof.
  revert a; induction l as [|b l IH]; intros a Hb Hl Ha Hr; cbn [app until_nul length] in *.
  - apply cstr_nil. apply bytes_at_cons in Hb as [? _]. split; [lia|done].
  - apply bytes_at_cons in Hb as [Hb0 Hb]. apply Forall_cons in Hl as [Hb8 Hl].
    destruct (Z.eqb_spec b 0) as [->|Hne].
    + apply cstr_nil. split; [lia|done].
    + apply cstr_cons. unfold is_u8 in Hb8. split; [lia|]. split; [done|]. split; [lia|]. apply IH; [done|done|lia|lia].
Qed.

(** [strcmp] tells whether two names are equal. *)
Lemma first_diff_names l : forall k, Forall (fun b => 0 < b < 256) l -> Forall (fun b => 0 < b < 256) k ->
  first_diff (l ++ [0]) (k ++ [0]) = 0 <-> l = k.
Proof.
  induction l as [|a l IH]; intros [|b k] Hl Hk; cbn [app first_diff].
  - done.
  - apply Forall_cons in Hk as [Hb _]. change (s8 0) with 0.
    pose proof (s8_nonzero b Hb) as Hz%Z.eqb_neq. destruct (Z.eqb_spec 0 (s8 b)); [lia|].
    split; [lia|done].
  - apply Forall_cons in Hl as [Ha _]. change (s8 0) with 0.
    pose proof (s8_nonzero a Ha) as Hz%Z.eqb_neq. destruct (Z.eqb_spec (s8 a) 0); [lia|].
    split; [lia|done].
  - apply Forall_cons in Hl as [Ha Hl], Hk as [Hb Hk].
    destruct (Z.eqb_spec (s8 a) (s8 b)) as [E|E].
    + assert (a = b) as -> by (unfold s8 in E; zlia). rewrite IH by done. split; [by intros ->|by intros [= ->]].
    + split; [lia|]. intros [= -> ->]. lia.
Qed.

(** ** The environment of the loader

    [k] is the part of the memory that holds the archive, [frame] the address
    of the local structure that carries the answer to an open request. The
    kernel and the allocator leave both alone; a received payload is mapped at
    fresh addresses. *)
Section Refinement.
Context `{World} (k : mem) (frame : Z).

Definition safe (w : machine) : Prop := k ⊆ memory w /\ mapped (memory w) frame 8.

Class LoaderEnv : Prop := {
  env_frame x : frame <= x < frame + 8 -> k !! x = None;
  env_kernel v a m h : k ⊆ m -> mapped m frame 8 ->
    let m' := snd (kernel_reply (Syscall v a m :: h)) in k ⊆ m' /\ mapped m' frame 8;
  env_deliver a m h r m' :
    kernel_reply (Syscall SYSTEM_CALL_VECTOR_RECEIVE_MESSAGE a m :: h) = (r, m') -> status r = STATUS_SUCCESS ->
    is_u32 (data3 r) /\ is_u32 (data4 r) /\
    (0 < data4 r -> 0 < data3 r /\ data3 r + data4 r <= 4294967296) /\
    forall x, data3 r <= x < data3 r + data4 r ->
      (exists b, m' !! x = Some b /\ is_u8 b) /\ k !! x = None /\ ~ (frame <= x < frame + 8);
  env_malloc n m h : m ⊆ snd (heap_block (Malloc n m :: h));
  env_free p m h : k ⊆ m -> mapped m frame 8 ->
    k ⊆ heap_free (Free p m :: h) /\ mapped (heap_free (Free p m :: h)) frame 8
}.
Context `{!LoaderEnv}.

(** A step of the program: it exchanges [out] and keeps what must be kept. *)
Definition lsteps (w w' : machine) (out : list transfer) : Prop :=
  transfers (trace w') = rev out ++ transfers (trace w) /\ safe w'.

Lemma lsteps_trans w1 w2 w3 o1 o2 : lsteps w1 w2 o1 -> lsteps w2 w3 o2 -> lsteps w1 w3 (o1 ++ o2).
Proof. intros [T1 _] [T2 S2]. split; [|done]. by rewrite T2, T1, rev_app_distr, app_assoc. Qed.

Lemma kernel_safe v a w r m' : safe w -> kernel_reply (Syscall v a (memory w) :: trace w) = (r, m') ->
  safe (Machine m' (Syscall v a (memory w) :: trace w)).
Proof.
  intros [Hk Hf] E. pose proof (env_kernel v a (memory w) (trace w) Hk Hf) as Hs.
  by rewrite E in Hs.
Qed.

Lemma send_lsteps m w : safe w -> exists s w', send_message (Some m) w = Ret (s, w') /\
  lsteps w w' [Sent m (read_bytes (memory w) (msg_data m) (Z.to_nat (msg_data_size m)))].
Proof.
  intros Hs. destruct (send_message_run m w) as (u & r & [m' t'] & E & Ht & Hr). cbn in Ht, Hr. subst t'.
  exists (status r), (Machine m' (Syscall SYSTEM_CALL_VECTOR_SEND_MESSAGE
    (syscall_args u (message_fields m)) (memory w) :: trace w)). split; [done|].
  split; [|by eapply kernel_safe].
  cbn -[kernel_reply] in *. rewrite Hr. by destruct m.
Qed.

Lemma delete_lsteps m w : safe w -> exists s w', delete_message (Some m) w = Ret (s, w') /\ lsteps w w' [].
Proof.
  intros Hs. unfold delete_message. destruct (msg_data_size m =? 0); [by exists STATUS_SUCCESS, w|].
  destruct (system_call_run SYSTEM_CALL_VECTOR_DELETE_MESSAGE [msg_data m; msg_data_size m] w)
    as (u & r & [m' t'] & E & Ht & Hr). cbn in Ht, Hr. subst t'.
  exists (status r), (Machine m' (Syscall SYSTEM_CALL_VECTOR_DELETE_MESSAGE
    (syscall_args u [msg_data m; msg_data_size m]) (memory w) :: trace w)).
  split; [by erewrite drun_bind by exact E|]. split; [|by eapply kernel_safe].
  cbn -[kernel_reply] in *. by rewrite Hr.
Qed.

(** A received message, with its payload in memory. *)
Definition delivered (w : machine) (m : message) : Prop :=
  is_u32 (msg_data m) /\ is_u32 (msg_data_size m) /\
  (0 < msg_data_size m -> 0 < msg_data m /\ msg_data m + msg_data_size m <= 4294967296) /\
  forall x, msg_data m <= x < msg_data m + msg_data_size m ->
    (exists b, memory w !! x = Some b /\ is_u8 b) /\ k !! x = None /\ ~ (frame <= x < frame + 8).

Lemma receive_lsteps b w : safe w -> exists r w',
  receive_message (Some b) WAIT_FOR_MESSAGE w = Ret ((status r, Some (received r)), w') /\
  lsteps w w' (if status r =? STATUS_SUCCESS then [Received (received r)
    (read_bytes (memory w') (data3 r) (Z.to_nat (data4 r)))] else []) /\
  (status r = STATUS_SUCCESS -> delivered w' (received r)).
Proof.
  intros Hs. destruct (receive_message_run b WAIT_FOR_MESSAGE w) as (u & r & [m' t'] & E & Ht & Hr).
  cbn in Ht, Hr. subst t'.
  exists r, (Machine m' (Syscall SYSTEM_CALL_VECTOR_RECEIVE_MESSAGE
    (syscall_args u [WAIT_FOR_MESSAGE]) (memory w) :: trace w)). split; [done|]. split.
  - split; [|by eapply kernel_safe]. cbn -[kernel_reply STATUS_SUCCESS] in *. rewrite Hr.
    by destruct (status r =? STATUS_SUCCESS).
  - intros Hok. exact (env_deliver _ _ _ _ _ Hr Hok).
Qed.

(** ** The directory and the table of open files *)

Definition entry_rel (e : directory_entry) (f : afile) : Prop :=
  cstr k (de_header e) (f_name f) /\ de_file e = f_address f /\
  de_file_size e = Z.of_nat (length (f_data f)) /\ bytes_at k (f_address f) (f_data f) /\
  0 <= f_address f /\ f_address f + Z.of_nat (length (f_data f)) < 4294967296.

Definition stream_rel (o : open_file_s) (s : stream) : Prop :=
  entry_rel (of_entry o) (s_file s) /\ of_offset o = Z.of_nat (s_offset' s) /\
  of_flags o = s_flags s /\ of_thread o = s_thread s.

Definition slot_rel (o : option open_file_s) (s : option stream) : Prop :=
  match o, s with
  | Some o, Some s => stream_rel o s
  | None, None => True
  | _, _ => False
  end.

Record represents (files : list afile) (st : afs) (c : loader_context) : Prop := {
  rep_wf : fs_wf files st;
  rep_length : length (open_files c) = 32%nat;
  rep_table : forall i, 0 <= i < 32 -> exists o,
    open_files c !! Z.to_nat i = Some o /\ slot_rel o (streams st !! i);
  rep_count : open_file_count c = Z.of_nat (used_slots st);
  rep_index : 0 <= open_file_index c < 32;
  rep_directory : Forall2 entry_rel (ramdisk_entries c) files }.

Lemma find_file_run files entries name : forall m a, k ⊆ m -> Forall2 entry_rel entries files ->
  cstr m a name -> exists e, find_file_from entries a m = Ret (e, m) /\
    match e, lookup_file files name with
    | Some e, Some f => entry_rel e f
    | None, None => True
    | _, _ => False
    end.
Proof.
  intros m a Hk He Ha. induction He as [|e f es fs Hef _ IH]; [by exists None|].
  cbn [find_file_from]. unfold lookup_file. cbn [find]. pose proof Hef as (Hn & _).
  pose proof (subseteq_cstr _ _ _ _ Hk Hn) as Hn'.
  erewrite run_bind by (apply strcmp_run; [exact Hn'|exact Ha]).
  pose proof (first_diff_names (f_name f) name (cstr_chars _ _ _ Hn) (cstr_chars _ _ _ Ha)) as Hd.
  case_bool_decide as Hname.
  - rewrite (proj2 Hd Hname). by exists (Some e).
  - rewrite (proj2 (Z.eqb_neq _ _)) by tauto. exact IH.
Qed.

(** ** The search for a free slot ends *)

Lemma get_slot_run c i o m : 0 <= i -> open_files c !! Z.to_nat i = Some o -> get_slot c i m = Ret (o, m).
Proof. intros Hi E. unfold get_slot. by rewrite E. Qed.

(** [d] steps away from a free slot, [d + 1] rounds are enough. *)
Lemma find_slot_distance c m free_slot : length (open_files c) = 32%nat ->
  0 <= free_slot < 32 -> open_files c !! Z.to_nat free_slot = Some None ->
  forall d fuel slot, 0 <= slot < 32 -> (free_slot - slot) mod 32 = Z.of_nat d -> (d < fuel)%nat ->
  exists s, find_slot fuel c slot m = Ret (s, m) /\ 0 <= s < 32 /\ open_files c !! Z.to_nat s = Some None.
Proof.
  intros Hlen Hfree Hnone. induction d as [|d IH]; intros [|fuel] slot Hslot Hd Hf; try lia; cbn [find_slot];
    destruct (lookup_lt_is_Some_2 (open_files c) (Z.to_nat slot)) as [o Ho]; try lia;
    erewrite run_bind by (apply get_slot_run; [lia|exact Ho]).
  - assert (slot = free_slot) as -> by zlia. exists free_slot. rewrite Hnone in Ho. by simplify_eq.
  - destruct o as [o|]; [|by exists slot]. cbv zeta. unfold OPEN_FILE_COUNT_MAX.
    rewrite u32_small by lia. destruct (Z.leb_spec 32 (slot + 1)); (apply IH; [lia|zlia|lia]).
Qed.

Lemma free_slot_exists st : (used_slots st < 32)%nat ->
  exists i, 0 <= i < 32 /\ streams st !! i = None.
Proof.
  intros Hu.
  destruct (decide (Exists (fun i => streams st !! i = None) (seqZ 0 32))) as [He|He].
  - apply Exists_exists in He as (i & Hi & Hn). apply elem_of_seqZ in Hi. by exists i.
  - apply not_Exists_Forall in He; [|intros x; apply _]. rewrite Forall_forall in He.
    set (s := list_to_set (seqZ 0 32) : gset Z).
    assert (Hs : s ⊆ dom (streams st)).
    { intros i Hi. apply elem_of_list_to_set in Hi. apply elem_of_dom, not_eq_None_Some. by apply He. }
    apply subseteq_size in Hs. rewrite size_dom in Hs. unfold s in Hs.
    rewrite size_list_to_set in Hs by apply NoDup_seqZ. rewrite length_seqZ in Hs.
    unfold used_slots in Hu. lia.
Qed.

Lemma find_slot_run files st c m : represents files st c -> (used_slots st < 32)%nat ->
  exists s, find_slot 32 c (open_file_index c) m = Ret (s, m) /\ 0 <= s < 32 /\
    open_files c !! Z.to_nat s = Some None /\ streams st !! s = None.
Proof.
  intros [Hwf Hlen Ht _ Hi _] Hu. destruct (free_slot_exists _ Hu) as (f & Hf & Hn).
  destruct (Ht f Hf) as (o & Ho & Hr). rewrite Hn in Hr. destruct o as [|]; [done|].
  destruct (find_slot_distance c m f Hlen Hf Ho (Z.to_nat ((f - open_file_index c) mod 32)) 32
    (open_file_index c) Hi) as (s & E & Hs & Hfree); [zlia|zlia|].
  exists s. do 3 (split; [done|]). destruct (Ht s Hs) as (o' & Ho' & Hr').
  rewrite Hfree in Ho'. simplify_eq. by destruct (streams st !! s).
Qed.

(** ** One request *)

(** The representation after a change of one slot. *)
Lemma represents_slot files st st' c slot o count index :
  represents files st c -> 0 <= slot < 32 -> fs_wf files st' ->
  slot_rel o (streams st' !! slot) -> (forall i, i <> slot -> streams st' !! i = streams st !! i) ->
  count = Z.of_nat (used_slots st') -> 0 <= index < 32 ->
  represents files st' (set_slot (mkLoader (open_files c) count index (ramdisk_entries c)) slot o).
Proof.
  intros [_ Hlen Ht _ _ Hd] Hslot Hwf' Ho Hother Hc Hi. split; cbn; try done.
  - by rewrite length_insert.
  - intros i Hi'. destruct (decide (i = slot)) as [->|Hne].
    + exists o. split; [|done]. apply list_lookup_insert_eq. lia.
    + destruct (Ht i Hi') as (o' & E & Hr). exists o'. rewrite list_lookup_insert_ne by lia.
      split; [done|]. by rewrite Hother.
Qed.

Lemma answer_lsteps m ty data p w : safe w -> bytes_at (memory w) data p ->
  exists s w', send_message (Some (mkMessage (u_id m) ty (msg_id m) data (Z.of_nat (length p)) 0)) w
      = Ret (s, w') /\ lsteps w w' [answer m ty data p].
Proof.
  intros Hs Hb. edestruct send_lsteps as (s & w' & E & Hl); [exact Hs|]. exists s, w'.
  split; [exact E|]. cbn in Hl. rewrite Nat2Z.id, read_bytes_at in Hl by done. exact Hl.
Qed.

(** What a request with payload [p] leads to. *)
Definition handled_as (files : list afile) (st : afs) (m : message) (p : list Z) (w : machine)
    (r : res (loader_context * machine)) : Prop :=
  (exists st' out c' w', r = Ret (c', w') /\ fs_step files frame st m p st' out /\
     represents files st' c' /\ lsteps w w' out) \/
  (r = Trap AssertFailed /\ fs_stuck st m p).

(** A reply without payload ends a handler. *)
Lemma reply_handled files st st' c m p ty data w :
  safe w -> represents files st' c -> fs_step files frame st m p st' [answer m ty data []] ->
  handled_as files st m p w
    ((send_message (Some (mkMessage (u_id m) ty (msg_id m) data 0 0));; mret c) w).
Proof.
  intros Hs R Hstep. destruct (answer_lsteps m ty data [] w Hs (bytes_at_nil _ _)) as (s & w' & E & Hl).
  left. exists st', [answer m ty data []], c, w'. split; [|done]. by erewrite drun_bind by exact E.
Qed.

(** Passing through a silent step of the machine. *)
Lemma handled_silent files st m p w w1 r :
  transfers (trace w1) = transfers (trace w) ->
  handled_as files st m p w1 r -> handled_as files st m p w r.
Proof.
  intros Ht [(st' & out & c' & w' & E & Hst & R & [Htr Hs])|[E Hst]]; [left|by right].
  exists st', out, c', w'. do 3 (split; [done|]). split; [|done]. by rewrite Htr, Ht.
Qed.

Lemma close_file_run files st c m p w :
  msg_type m = MESSAGE_TYPE_CLOSE -> represents files st c -> safe w -> is_u32 (msg_data m) ->
  handled_as files st m p w (close_file c m w).
Proof.
  intros Hty R Hs Hu. pose proof R as [Hwf Hlen Ht Hc Hi Hd]. unfold close_file, OPEN_FILE_COUNT_MAX.
  assert (Hrefused : (forall s, streams st !! msg_data m = Some s -> s_thread s <> u_id m) ->
    handled_as files st m p w ((send_message (Some (mkMessage (u_id m) MESSAGE_TYPE_CLOSE_COMPLETE (msg_id m)
      (u32 STATUS_INVALID_STREAM) 0 0));; mret c) w)).
  { intros Hn. apply (reply_handled files st st); [done..|]. by apply step_close_refused. }
  unfold is_u32 in Hu. destruct (Z.leb_spec 32 (msg_data m)) as [Hbig|Hsmall].
  { apply Hrefused. intros s E. apply (wf_slots _ _ Hwf) in E. lia. }
  destruct (Ht (msg_data m) ltac:(lia)) as (o & Ho & Hr).
  destruct w as [mm h]. unfold mbind at 1, D_bind at 1.
  erewrite drun_bind by (apply drun_lift, get_slot_run; [lia|exact Ho]).
  destruct o as [o|]; cbn [slot_rel] in Hr; destruct (streams st !! msg_data m) as [s|] eqn:Es; try done;
    [|by apply Hrefused].
  destruct Hr as (_ & _ & _ & Hth). rewrite Hth.
  destruct (Z.eqb_spec (s_thread s) (u_id m)) as [Hown|Hown]; cbn [negb];
    [|by apply Hrefused; intros ? [= <-]].
  assert (Hpos : (0 < base.size (streams st))%nat).
  { assert (base.size (streams st) <> 0%nat); [|lia]. intros Hz%map_size_empty_inv. by rewrite Hz in Es. }
  erewrite drun_bind by (apply dassert_run, Z.ltb_lt; rewrite Hc; unfold used_slots; lia).
  cbv zeta. unfold free. unfold mbind at 1, D_bind at 1. cbn -[used_slots set_slot handled_as].
  pose proof (env_free (of_block o) mm h (proj1 Hs) (proj2 Hs)) as Hfree.
  set (w1 := Machine (heap_free (Free (of_block o) mm :: h)) (Free (of_block o) mm :: h)).
  apply (handled_silent _ _ _ _ _ w1); [done|].
  pose proof (step_close files frame st m p s Hty Es Hown) as Hstep.
  refine (reply_handled files st _ _ m p _ _ w1 Hfree _ Hstep).
  pose proof (wf_used _ _ Hwf). unfold used_slots in *.
  eapply represents_slot; [exact R|lia|by eapply fs_step_wf| |..]; cbn.
  - by rewrite lookup_delete_eq.
  - intros i Hne. by rewrite lookup_delete_ne.
  - unfold used_slots. cbn. rewrite map_size_delete, Es, Hc, u32_small by lia. cbn. lia.
  - done.
Qed.

(** The payload of a delivered message. *)
Definition payload_of (w : machine) (m : message) : list Z :=
  read_bytes (memory w) (msg_data m) (Z.to_nat (msg_data_size m)).

Lemma payload_bytes w m : delivered w m -> bytes_at (memory w) (msg_data m) (payload_of w m) /\
  Forall is_u8 (payload_of w m) /\ Z.of_nat (length (payload_of w m)) = msg_data_size m.
Proof.
  intros (Ha & Hn & _ & Hx). unfold is_u32 in *.
  assert (Hb : bytes_at (memory w) (msg_data m) (payload_of w m)).
  { apply bytes_at_read. intros x Hr. destruct (Hx x) as ((b & E & _) & _); [lia|]. by rewrite E. }
  assert (Hl : Z.of_nat (length (payload_of w m)) = msg_data_size m).
  { unfold payload_of. rewrite length_read_bytes. lia. }
  split; [done|]. split; [|done]. apply Forall_lookup. intros i b Hi.
  pose proof (lookup_lt_Some _ _ _ Hi). apply Hb in Hi.
  destruct (Hx (msg_data m + Z.of_nat i)) as ((b' & E & H8) & _); [lia|]. rewrite E in Hi. by simplify_eq.
Qed.

(** The answer to an open request goes through the local structure. *)
Lemma open_reply_handled files st st' c m p cookie e w :
  safe w -> represents files st' c ->
  fs_step files frame st m p st' [answer m MESSAGE_TYPE_OPEN_COMPLETE frame (words_bytes [cookie; u32 e])] ->
  handled_as files st m p w
    ((lift (store32 frame cookie;; store32 (frame + 4) (u32 e));;
      send_message (Some (mkMessage (u_id m) MESSAGE_TYPE_OPEN_COMPLETE (msg_id m) frame 8 0));;
      mret c) w).
Proof.
  intros [Hk Hf] R Hstep. destruct w as [mm h]. cbn [memory] in Hk, Hf.
  set (m1 := write_bytes mm frame (words_bytes [cookie; u32 e])).
  assert (E1 : (store32 frame cookie;; store32 (frame + 4) (u32 e)) mm = Ret (tt, m1)).
  { erewrite run_bind by (apply store32_bytes; eapply mapped_sub; [exact Hf|lia|lia]).
    rewrite store32_bytes by (apply mapped_write; eapply mapped_sub; [exact Hf|lia|lia]).
    unfold m1. by rewrite words_bytes_cons, write_bytes_app. }
  erewrite drun_bind by (apply drun_lift; exact E1).
  apply (handled_silent _ _ _ _ _ (Machine m1 h)); [done|].
  assert (S1 : safe (Machine m1 h)).
  { split; cbn [memory]; [|by apply mapped_write]. apply subseteq_write; [|done].
    intros x Hx. apply env_frame. exact Hx. }
  destruct (answer_lsteps m MESSAGE_TYPE_OPEN_COMPLETE frame (words_bytes [cookie; u32 e]) _ S1)
    as (s & w' & E & Hl); [apply bytes_at_write|].
  left. exists st', [answer m MESSAGE_TYPE_OPEN_COMPLETE frame (words_bytes [cookie; u32 e])], c, w'.
  split; [|done]. by erewrite drun_bind by exact E.
Qed.

(** The terminator that the loader writes into the request: the file name and
    the flags are where the loader looks for them. *)
Lemma request_in_memory w m : delivered w m -> safe w -> open_request_size <= msg_data_size m ->
  exists m1, store (msg_data m + FILENAME_MAX) 0 (memory w) = Ret (tt, m1) /\
    safe (Machine m1 (trace w)) /\ cstr m1 (msg_data m) (requested_name (payload_of w m)) /\
    forall m2, m1 ⊆ m2 ->
      load32 (open_request_flags (msg_data m)) m2 = Ret (requested_flags (payload_of w m), m2).
Proof.
  unfold open_request_size, FILENAME_MAX. intros Hdel Hs Hsz. pose proof Hdel as (Ha & Hn & Hin & Hx).
  destruct (payload_bytes w m Hdel) as (Hb & H8 & Hl). set (p := payload_of w m) in *.
  destruct (Hin ltac:(lia)) as [Hpos Hend]. exists (<[msg_data m + 256 := u8 0]> (memory w)).
  assert (Hpl : (264 <= length p)%nat) by lia.
  split; [apply run_store; destruct (Hx (msg_data m + 256)) as ((b & -> & _) & _); [lia|done]|].
  change (<[msg_data m + 256 := u8 0]> (memory w)) with (write_bytes (memory w) (msg_data m + 256) [0]).
  set (m1 := write_bytes (memory w) (msg_data m + 256) [0]). split; [|split].
  - destruct Hs as [Hk Hf]. split; cbn [memory]; [|by apply mapped_write]. apply subseteq_write; [|done].
    cbn. intros x ?. by apply Hx; lia.
  - apply cstr_until_nul; [|by apply Forall_take|lia|rewrite length_take_le; lia].
    rewrite <- (take_drop 256 p), bytes_at_app in Hb. destruct Hb as [Hb _]. apply bytes_at_app.
    rewrite length_take_le in * by lia. split; [|apply bytes_at_write].
    apply bytes_at_write_disjoint; [|done]. rewrite length_take_le by lia. lia.
  - intros m2 Hm2. unfold open_request_flags, requested_flags.
    rewrite <- (take_drop 257 p) in Hb. apply bytes_at_app in Hb as [_ Hb]. rewrite length_take_le in Hb by lia.
    replace (msg_data m + 260) with (msg_data m + 257 + Z.of_nat 3) by lia.
    replace (payload_word p 260) with (payload_word (drop 257 p) 3) by (unfold payload_word; by rewrite drop_drop).
    apply load32_payload; [|rewrite length_drop; lia]. eapply subseteq_bytes_at; [exact Hm2|].
    apply bytes_at_write_disjoint; [cbn; lia|done].
Qed.

(** Reserving a slot and a descriptor for a file that was found. *)
Lemma allocate_stream_run files st c m p f e w :
  msg_type m = MESSAGE_TYPE_OPEN -> msg_id m <> MESSAGE_ID_ATOMIC -> represents files st c -> safe w ->
  lookup_file files (requested_name p) = Some f -> entry_rel e f ->
  open_request_size <= Z.of_nat (length p) -> Z.land (requested_flags p) 6 = 0 ->
  (forall m2, memory w ⊆ m2 ->
     load32 (open_request_flags (msg_data m)) m2 = Ret (requested_flags p, m2)) ->
  exists st' c' cookie code w', allocate_stream c m e w = Ret ((c', cookie, code), w') /\
    represents files st' c' /\ safe w' /\ transfers (trace w') = transfers (trace w) /\
    fs_step files frame st m p st'
      [answer m MESSAGE_TYPE_OPEN_COMPLETE frame (words_bytes [cookie; u32 code])].
Proof.
  intros Hty Hid R Hs Hf He Hlen Hfl Hflags. pose proof R as [Hwf _ _ Hc _ _].
  assert (Hopen : open_error files st p = if (32 <=? used_slots st)%nat then Some STATUS_INSUFFICIENT_MEMORY else None).
  { unfold open_error. rewrite (proj2 (Z.ltb_ge _ _)), Hfl, Hf by lia. done. }
  unfold allocate_stream, OPEN_FILE_COUNT_MAX. rewrite Hc.
  destruct (Nat.leb_spec 32 (used_slots st)) as [Hfull|Hroom].
  { rewrite (proj2 (Z.leb_le _ _)) by lia. eexists st, c, 0, _, w. split; [done|]. do 3 (split; [done|]).
    by apply step_open_refused. }
  rewrite (proj2 (Z.leb_gt _ _)) by lia.
  destruct (find_slot_run files st c (memory w) R Hroom) as (slot & E1 & Hslot & Hfree & Hnone).
  destruct w as [mm h]. cbn [memory] in *.
  erewrite drun_bind by (apply drun_lift; exact E1).
  erewrite drun_bind by (apply dassert_run, Z.ltb_lt; lia). cbv zeta. rewrite u32_small by lia.
  unfold malloc at 1. unfold mbind at 1, D_bind at 1. cbn [memory trace].
  pose proof (env_malloc 16 mm h) as Hm. destruct (heap_block (Malloc 16 mm :: h)) as [b m1]. cbn [snd] in Hm.
  set (w1 := Machine m1 (Malloc 16 mm :: h)).
  assert (S1 : safe w1).
  { destruct Hs as [Hk Hmap]. split; cbn [memory] in *; [exact (transitivity Hk Hm)|]. intros x Hx. destruct (Hmap x Hx) as [v Hv].
    exists v. by eapply lookup_weaken. }
  destruct (b =? NULL).
  - eexists (mkFs (streams st) (S (lost_slots st))), _, 0, _, w1. split; [done|].
    pose proof (step_open_no_memory files frame st m p Hty Hid Hopen) as Hstep.
    split; [|split; [done|]; split; [done|exact Hstep]].
    destruct R as [_ R2 R3 _ R5 R6]. split; cbn; try done; [by eapply fs_step_wf|].
    unfold used_slots in *. cbn. lia.
  - erewrite drun_bind by (apply drun_lift; by apply Hflags).
    pose proof (step_open files frame st m p f slot Hty Hid Hopen Hf Hslot Hnone) as Hstep.
    eexists _, _, slot, _, w1. split; [done|]. split; [|split; [done|]; split; [done|exact Hstep]].
    eapply represents_slot; [exact R|done|by eapply fs_step_wf| | | |lia]; cbn.
    + by rewrite lookup_insert_eq.
    + intros i Hne. by rewrite lookup_insert_ne.
    + unfold used_slots in *. cbn. rewrite map_size_insert_None by done. lia.
Qed.

Lemma open_file_run files st c m w :
  msg_type m = MESSAGE_TYPE_OPEN -> represents files st c -> safe w -> delivered w m ->
  handled_as files st m (payload_of w m) w (open_file frame c m w).
Proof.
  intros Hty R Hs Hdel. unfold open_file. set (p := payload_of w m).
  destruct (payload_bytes w m Hdel) as (_ & _ & Hl). fold p in Hl.
  destruct (Z.eqb_spec (msg_id m) MESSAGE_ID_ATOMIC) as [Hid|Hid]; cbn [negb].
  { right. split; [by destruct w|]. left. auto. }
  rewrite drun_assoc. erewrite drun_bind by (by apply dassert_run).
  assert (Hrefuse : forall w1 e, transfers (trace w1) = transfers (trace w) -> safe w1 -> open_error files st p = Some e ->
    handled_as files st m p w
      ((lift (store32 frame 0;; store32 (frame + 4) (u32 e));;
        send_message (Some (mkMessage (u_id m) MESSAGE_TYPE_OPEN_COMPLETE (msg_id m) frame 8 0));; mret c) w1)).
  { intros w1 e Ht1 Hs1 He. apply (handled_silent _ _ _ _ _ w1); [done|].
    apply (open_reply_handled files st st); [done..|]. by apply step_open_refused. }
  unfold open_error in Hrefuse. rewrite Hl in Hrefuse.
  destruct (Z.ltb_spec (msg_data_size m) open_request_size) as [Hsz|Hsz]; [by apply Hrefuse|].
  destruct (request_in_memory w m Hdel Hs Hsz) as (m1 & E1 & S1 & Hname & Hflags). fold p in Hname, Hflags.
  destruct w as [mm h]. cbn [memory trace] in *. cbv zeta.
  rewrite drun_assoc. erewrite drun_bind by (apply drun_lift; exact E1).
  rewrite drun_assoc. erewrite drun_bind by (apply drun_lift; by apply Hflags).
  change (Z.lor STREAM_WRITE STREAM_APPEND) with 6.
  destruct (Z.eqb_spec (Z.land (requested_flags p) 6) 0) as [Hf|Hf]; cbn [negb] in *; [|by apply Hrefuse].
  destruct (find_file_run files (ramdisk_entries c) (requested_name p) m1 (msg_data m)) as (e & E2 & He);
    [by apply S1|by eapply rep_directory|done|].
  rewrite drun_assoc. erewrite drun_bind by (apply drun_lift; exact E2).
  destruct (lookup_file files (requested_name p)) as [f|] eqn:Ef; destruct e as [e|]; try done;
    [|by apply Hrefuse].
  destruct (allocate_stream_run files st c m p f e (Machine m1 h)) as
    (st' & c' & cookie & code & w' & E & R' & S' & T' & Hstep); try done; [lia|].
  erewrite drun_bind by exact E. apply (handled_silent _ _ _ _ _ w'); [by rewrite T'|].
  exact (open_reply_handled files st st' c' m p cookie code w' S' R' Hstep).
Qed.

(** The checks of a read request. *)
Lemma check_read_run files st c m w :
  represents files st c -> delivered w m -> msg_id m <> MESSAGE_ID_ATOMIC ->
  exists r, check_read c m w = Ret (r, w) /\
    match r, read_target st m (payload_of w m) with
    | inl e, inl e' => e = e'
    | inr (slot, o, n), inr s => slot = payload_word (payload_of w m) 0 /\ 0 <= slot < 32 /\
        open_files c !! Z.to_nat slot = Some (Some o) /\ stream_rel o s /\
        n = Z.of_nat (length (f_data (s_file s))) - Z.of_nat (s_offset' s)
    | _, _ => False
    end.
Proof.
  intros R Hdel Hid. pose proof R as [Hwf _ Ht _ _ _].
  destruct (payload_bytes w m Hdel) as (Hb & H8 & Hl). unfold check_read, read_target.
  set (p := payload_of w m) in *. unfold read_request_size in *.
  erewrite drun_bind by (apply dassert_run; by rewrite (proj2 (Z.eqb_neq _ _))). cbv zeta. rewrite Hl.
  destruct (Z.ltb_spec (msg_data_size m) 8) as [Hsz|Hsz]; [by exists (inl STATUS_INVALID_DATA)|].
  destruct w as [mm h]. cbn [memory] in *.
  assert (E0 : load32 (read_request_cookie (msg_data m)) mm = Ret (payload_word p 0, mm)).
  { unfold read_request_cookie. rewrite <- (Z.add_0_r (msg_data m)).
    apply (load32_payload mm (msg_data m) p 0); [done|lia]. }
  erewrite drun_bind by (apply drun_lift; exact E0). set (slot := payload_word p 0).
  assert (Hslot0 : 0 <= slot).
  { unfold slot, payload_word. rewrite drop_0. destruct p as [|b0 [|b1 [|b2 [|b3 ?]]]]; try lia.
    rewrite !Forall_cons in H8. unfold is_u8 in H8. lia. }
  unfold OPEN_FILE_COUNT_MAX. destruct (Z.leb_spec 32 slot) as [Hbig|Hsmall].
  { exists (inl STATUS_INVALID_DATA). split; [done|]. destruct (streams st !! slot) eqn:E; [|done].
    apply (wf_slots _ _ Hwf) in E. lia. }
  destruct (Ht slot ltac:(lia)) as (o & Ho & Hr).
  erewrite drun_bind by (apply drun_lift, get_slot_run; [done|exact Ho]).
  destruct o as [o|]; cbn [slot_rel] in Hr; destruct (streams st !! slot) as [s|] eqn:Es; try done;
    [|by exists (inl STATUS_INVALID_DATA)].
  pose proof (wf_offset _ _ Hwf _ _ Es) as Hoff.
  pose proof Hr as ((_ & _ & Hsize & _ & H0a & Hend) & Hpos & Hfl & Hth). rewrite Hth, Hfl.
  destruct (s_thread s =? u_id m); cbn [negb]; [|by exists (inl STATUS_ACCESS_DENIED)].
  destruct (Z.land (s_flags s) STREAM_READ =? 0); [by exists (inl STATUS_ACCESS_DENIED)|].
  rewrite Hpos, Hsize. erewrite drun_bind by (apply dassert_run, Z.leb_le; lia). rewrite u32_small by lia.
  destruct (Nat.eqb_spec (s_offset' s) (length (f_data (s_file s)))) as [Heq|Hne].
  - rewrite (proj2 (Z.eqb_eq _ _)) by lia. by exists (inl STATUS_END_OF_FILE).
  - rewrite (proj2 (Z.eqb_neq _ _)) by lia. eexists (inr (_, _, _)). split; [done|].
    split; [done|]. split; [lia|]. split; [exact Ho|]. by split.
Qed.

(** The chunk that is sent lies in the file. *)
Lemma chunk_bytes f off n w : safe w -> bytes_at k (f_address f) (f_data f) ->
  (off + n <= length (f_data f))%nat ->
  bytes_at (memory w) (f_address f + Z.of_nat off) (take n (drop off (f_data f))).
Proof.
  intros [Hk _] Hb Hle. eapply subseteq_bytes_at; [exact Hk|].
  rewrite <- (take_drop off (f_data f)), bytes_at_app in Hb. destruct Hb as [_ Hb].
  rewrite length_take_le in Hb by lia.
  rewrite <- (take_drop n (drop off (f_data f))), bytes_at_app in Hb. by destruct Hb.
Qed.

Lemma read_file_run files st c m w :
  msg_type m = MESSAGE_TYPE_READ -> represents files st c -> safe w -> delivered w m ->
  handled_as files st m (payload_of w m) w (read_file c m w).
Proof.
  intros Hty R Hs Hdel. unfold read_file. set (p := payload_of w m).
  destruct (Z.eqb_spec (msg_id m) MESSAGE_ID_ATOMIC) as [Hid|Hid].
  { right. split; [|left; by auto]. unfold check_read. rewrite Hid. by destruct w. }
  destruct (check_read_run files st c m w R Hdel Hid) as (r & E & Hr). fold p in Hr.
  erewrite drun_bind by exact E.
  destruct r as [e|[[slot o] n]]; destruct (read_target st m p) as [e'|s] eqn:Et; try done.
  { subst e'. pose proof (step_read_refused files frame st m p e Hty Hid Et) as Hstep.
    exact (reply_handled files st st c m p _ _ w Hs R Hstep). }
  destruct Hr as (Eslot & Hslot & Ho & Hrel & Hn). destruct (payload_bytes w m Hdel) as (Hb & _ & Hl). fold p in Hb, Hl.
  pose proof (read_target_inr st m p s Et) as (Hst & _ & _ & _ & Hlen). unfold read_request_size in Hlen.
  pose proof (wf_offset _ _ (rep_wf _ _ _ R) _ _ Hst) as Hoff.
  pose proof Hrel as ((Hc1 & Hfile & Hc3 & Hdata & H0a & Hend) & Hpos & Hfl & Hth).
  rewrite drun_assoc. destruct w as [mm h]. cbn [memory] in Hb.
  erewrite drun_bind by (apply drun_lift, (load32_payload mm (msg_data m) p 4); [done|lia]).
  set (hint := payload_word p 4). cbv zeta. rewrite Hfile, Hpos.
  rewrite (u32_small (f_address (s_file s) + _)) by lia. rewrite page_offset_mod. unfold PAGE_SIZE.
  rewrite Hn. fold (chunk s hint).
  destruct (decide (chunk_ok s hint)) as [[Hck1 Hck2]|Hck]; last first.
  { right. split; [|right; eauto]. unfold chunk_ok in Hck.
    destruct (Z.ltb_spec 0 (chunk s hint)); [|done]. cbn [dassert]. rewrite drun_assoc.
    erewrite drun_bind by (by apply dassert_run). by rewrite (proj2 (Z.leb_gt _ _)) by lia. }
  pose proof (step_read files frame st m p s _ Hty Hid Et (conj Hck1 Hck2) eq_refl) as Hstep.
  fold hint in Hstep. set (nn := Z.to_nat (chunk s hint)) in *.
  assert (Hfit : (s_offset' s + nn <= length (f_data (s_file s)))%nat) by (unfold nn, chunk in *; lia).
  rewrite drun_assoc. erewrite drun_bind by (apply dassert_run, Z.ltb_lt; lia).
  rewrite drun_assoc. erewrite drun_bind by (apply dassert_run, Z.leb_le; lia).
  erewrite drun_bind by reflexivity. cbn beta iota. rewrite (proj2 (Z.ltb_lt _ _)) by lia.
  pose proof (chunk_bytes (s_file s) _ nn _ Hs Hdata Hfit) as Hcb.
  destruct (answer_lsteps m MESSAGE_TYPE_READ_COMPLETE _ _ _ Hs Hcb) as (sx & w' & E' & Hls).
  assert (Hlt : Z.of_nat (length (take nn (drop (s_offset' s) (f_data (s_file s))))) = chunk s hint).
  { rewrite length_take_le by (rewrite length_drop; lia). unfold nn. lia. }
  rewrite Hlt in E'. left. eexists _, _, _, w'. split; [by erewrite drun_bind by exact E'|].
  split; [exact Hstep|]. split; [|exact Hls].
  rewrite u32_small by lia. destruct c as [table count index entries].
  eapply (represents_slot files st _ (mkLoader table count index entries)); [exact R|done
    |exact (fs_step_wf _ _ _ _ _ _ _ Hstep (rep_wf _ _ _ R))| |..|by apply R];
    cbn; rewrite <- Eslot in *.
  - rewrite lookup_insert_eq. split; [done|]. split; [|done]. cbn. unfold nn. lia.
  - intros i Hne. by rewrite lookup_insert_ne.
  - pose proof (rep_count _ _ _ R) as Hcount. cbn in Hcount. rewrite Hcount. unfold used_slots. cbn.
    by rewrite map_size_insert, Hst.
Qed.

(** ** The message loop *)

Lemma loader_dispatch_run files st c m w :
  represents files st c -> safe w -> delivered w m ->
  (exists st' out c' w', loader_dispatch frame c m w
       = Ret ((negb (msg_type m =? MESSAGE_TYPE_UNMOUNT_FILESYSTEM), c'), w') /\
     fs_step files frame st m (payload_of w m) st' out /\ represents files st' c' /\ lsteps w w' out) \/
  (loader_dispatch frame c m w = Trap AssertFailed /\ fs_stuck st m (payload_of w m)).
Proof.
  intros R Hs Hdel. unfold loader_dispatch.
  assert (Hwrap : forall r : D loader_context, msg_type m <> MESSAGE_TYPE_UNMOUNT_FILESYSTEM ->
    handled_as files st m (payload_of w m) w (r w) ->
    (exists st' out c' w', (c ← r; mret (true, c)) w
         = Ret ((negb (msg_type m =? MESSAGE_TYPE_UNMOUNT_FILESYSTEM), c'), w') /\
       fs_step files frame st m (payload_of w m) st' out /\ represents files st' c' /\ lsteps w w' out) \/
    ((c ← r; mret (true, c)) w = Trap AssertFailed /\ fs_stuck st m (payload_of w m))).
  { intros r Hne [(st' & out & c' & w' & E & Hr)|[E Hr]].
    - left. exists st', out, c', w'. split; [|done]. erewrite drun_bind by exact E.
      by rewrite (proj2 (Z.eqb_neq _ _)).
    - right. split; [|done]. unfold mbind, D_bind. by rewrite E. }
  destruct (Z.eqb_spec (msg_type m) MESSAGE_TYPE_CLOSE) as [Hty|N1].
  { apply Hwrap; [by rewrite Hty|]. apply close_file_run; try done. apply Hdel. }
  destruct (Z.eqb_spec (msg_type m) MESSAGE_TYPE_FLUSH) as [Hty|N2].
  { left. destruct (answer_lsteps m MESSAGE_TYPE_FLUSH_COMPLETE 0 [] w Hs (bytes_at_nil _ _)) as (s & w' & E & Hl).
    exists st, [answer m MESSAGE_TYPE_FLUSH_COMPLETE 0 []], c, w'.
    split; [by erewrite drun_bind by exact E; rewrite Hty|]. split; [by apply step_flush|done]. }
  destruct (Z.eqb_spec (msg_type m) MESSAGE_TYPE_OPEN) as [Hty|N3].
  { apply Hwrap; [by rewrite Hty|]. by apply open_file_run. }
  destruct (Z.eqb_spec (msg_type m) MESSAGE_TYPE_READ) as [Hty|N4].
  { apply Hwrap; [by rewrite Hty|]. by apply read_file_run. }
  left. exists st, [], c, w. split; [by destruct (msg_type m =? _)|]. split; [|done].
  apply step_other. rewrite !not_elem_of_cons. repeat split; try done. apply not_elem_of_nil.
Qed.

(** The messages of a run are the received ones. *)
Definition unmounts (m : message) : Prop := msg_type m = MESSAGE_TYPE_UNMOUNT_FILESYSTEM.

(** One iteration, by what it receives. *)
Lemma loader_step_run files st c w buffer : represents files st c -> safe w ->
  exists r w1, receive_message (Some buffer) WAIT_FOR_MESSAGE w = Ret ((status r, Some (received r)), w1) /\
  let m := received r in let p := payload_of w1 m in
  if decide (status r = STATUS_SUCCESS) then
    delivered w1 m /\
    ((exists st' out c' w', loader_step frame buffer c w = Ret ((negb (msg_type m =? MESSAGE_TYPE_UNMOUNT_FILESYSTEM), c'), w') /\
        fs_step files frame st m p st' out /\ represents files st' c' /\ lsteps w w' (Received m p :: out)) \/
     (loader_step frame buffer c w = Trap AssertFailed /\ fs_stuck st m p))
  else loader_step frame buffer c w = Ret ((true, c), w1) /\ lsteps w w1 [].
Proof.
  intros R Hs. unfold loader_step. destruct (receive_lsteps buffer w Hs) as (r & w1 & E1 & S1 & Hdel).
  exists r, w1. split; [exact E1|]. cbv zeta. erewrite drun_bind by exact E1. cbn beta iota.
  destruct (Z.eqb_spec (status r) STATUS_SUCCESS) as [Hok|Hfail]; cbn [negb]; last by rewrite decide_False.
  rewrite decide_True by done. specialize (Hdel Hok). split; [done|].
  destruct (loader_dispatch_run files st c (received r) w1 R (proj2 S1) Hdel) as
    [(st' & out & c' & w2 & E2 & Hst & R2 & S2)|[E2 Hst]]; last first.
  { right. split; [unfold mbind, D_bind; by rewrite E2|done]. }
  left. erewrite drun_bind by exact E2. destruct (delete_lsteps (received r) w2 (proj2 S2)) as (s & w3 & E3 & S3).
  erewrite drun_bind by exact E3. exists st', out, c', w3. split; [done|]. split; [done|]. split; [done|].
  pose proof (lsteps_trans _ _ _ _ _ S1 (lsteps_trans _ _ _ _ _ S2 S3)) as S13. by rewrite app_nil_r in S13.
Qed.

(** The loop has handled the messages [ms] and sent and received [out]. *)
Definition serves files st w ms st' out c' w' : Prop :=
  fs_run files frame st ms st' out /\ represents files st' c' /\ lsteps w w' out.

(** The loader stops on a request that it has just received. *)
Definition stuck_on (buffer : message) st w : Prop :=
  exists m w', receive_message (Some buffer) WAIT_FOR_MESSAGE w = Ret ((STATUS_SUCCESS, Some m), w') /\ fs_stuck st m (payload_of w' m).

Lemma serves_trans files st w ms1 st1 out1 c1 w1 ms2 st2 out2 c2 w2 :
  serves files st w ms1 st1 out1 c1 w1 -> serves files st1 w1 ms2 st2 out2 c2 w2 -> serves files st w (ms1 ++ ms2) st2 (out1 ++ out2) c2 w2.
Proof. intros (H1 & _ & S1) (H2 & R2 & S2). split; [by eapply fs_run_app|]. split; [done|]. by eapply lsteps_trans. Qed.

Lemma serves_refl files st w c : represents files st c -> safe w -> serves files st w [] st [] c w.
Proof. intros R Hs. split; [constructor|]. split; [done|]. by split. Qed.

Lemma serves_one files st w m p st' out c' w' : fs_step files frame st m p st' out -> represents files st' c' ->
  lsteps w w' (Received m p :: out) -> serves files st w [(m, p)] st' (Received m p :: out) c' w'.
Proof. intros Hst R Hl. split; [|done]. rewrite <- (app_nil_r out). eapply fs_run_cons; [exact Hst|constructor]. Qed.

(** C19. The loader implements the abstract read-only file system, for any
    number of iterations and any messages from any senders: every request is
    answered as the abstract file system prescribes (streams belong to the
    thread that opened them, at most 32 slots are in use, a read delivers the
    next bytes of the file), the open-file table and its counters stay
    consistent and the archive is never modified. Either all iterations return,
    the last one before the end only at an unmount request; or after some of
    them the loader receives a request that fails one of its assertions: an
    open or read request without a reply address, or a read that asks for more
    than the file still holds. *)
Theorem loader_refines n files st c w buffer : represents files st c -> safe w ->
  (exists mounted ms st' out c' w', loader_wait_for_messages n frame buffer c w = Ret ((mounted, c'), w') /\ serves files st w ms st' out c' w' /\
     (if mounted : bool then Forall (fun mp => ~ unmounts (fst mp)) ms
      else exists ms0 m p, ms = ms0 ++ [(m, p)] /\ unmounts m)) \/
  (loader_wait_for_messages n frame buffer c w = Trap AssertFailed /\
   exists j ms st' out c' w', (j < n)%nat /\ loader_wait_for_messages j frame buffer c w = Ret ((true, c'), w') /\ serves files st w ms st' out c' w' /\
     stuck_on buffer st' w').
Proof.
  revert st c w. induction n as [|n IH]; intros st c w R Hs.
  { left. exists true, [], st, [], c, w. split; [done|]. split; [by apply serves_refl|constructor]. }
  destruct (loader_step_run files st c w buffer R Hs) as (r & w1 & E1 & Hstep). cbv zeta in Hstep. cbn [loader_wait_for_messages].
  assert (forall ms1 st1 out1 c1 w', loader_step frame buffer c w = Ret ((true, c1), w') -> serves files st w ms1 st1 out1 c1 w' ->
    Forall (fun mp => ~ unmounts (fst mp)) ms1 ->
    (exists mounted ms st' out c' w'', (loader_wait_for_messages n frame buffer c1) w' = Ret ((mounted, c'), w'') /\ serves files st w ms st' out c' w'' /\
       (if mounted : bool then Forall (fun mp => ~ unmounts (fst mp)) ms else exists ms0 m p, ms = ms0 ++ [(m, p)] /\ unmounts m)) \/
    (loader_wait_for_messages n frame buffer c1 w' = Trap AssertFailed /\
     exists j ms st' out c' w'', (j < S n)%nat /\ loader_wait_for_messages j frame buffer c w = Ret ((true, c'), w'') /\ serves files st w ms st' out c' w'' /\
       stuck_on buffer st' w'')) as Hgo.
  { intros ms1 st1 out1 c1 w' Es Hs1 Hu1. pose proof Hs1 as (_ & R1 & [_ Hsafe1]).
    destruct (IH st1 c1 w' R1 Hsafe1) as [(mo & ms & st2 & out & c2 & w2 & E2 & Hs2 & Hm)|[E2 (j & ms & st2 & out & c2 & w2 & Hk & Ek & Hs2 & Hst)]]; [left|right].
    - exists mo, (ms1 ++ ms), st2, (out1 ++ out), c2, w2. split; [done|]. split; [by eapply serves_trans|]. destruct mo; [by apply Forall_app|].
      destruct Hm as (ms0 & m & p & -> & Hu). exists (ms1 ++ ms0), m, p. by rewrite app_assoc.
    - split; [done|]. exists (S j), (ms1 ++ ms), st2, (out1 ++ out), c2, w2. split; [lia|]. cbn [loader_wait_for_messages].
      erewrite drun_bind by exact Es. cbn beta iota. split; [done|]. split; [by eapply serves_trans|done]. }
  case_decide as Hok.
  - destruct Hstep as [_ [(st1 & out & c1 & w2 & Es & Hst & R1 & S1)|[Es Hst]]].
    + pose proof (serves_one _ _ _ _ _ _ _ _ _ Hst R1 S1) as Hone. erewrite drun_bind by exact Es. cbn beta iota.
      destruct (Z.eqb_spec (msg_type (received r)) MESSAGE_TYPE_UNMOUNT_FILESYSTEM) as [Hu|Hu]; cbn [negb] in *; [|eapply Hgo; [done|done|by repeat constructor]].
      left. exists false. do 5 eexists. split; [done|]. split; [exact Hone|]. by exists [], (received r), (payload_of w1 (received r)).
    + right. split; [unfold mbind, D_bind; by rewrite Es|]. exists 0%nat, [], st, [], c, w. split; [lia|]. split; [done|]. split; [by apply serves_refl|].
      exists (received r), w1. rewrite Hok in E1. done.
  - destruct Hstep as [Es S1]. erewrite drun_bind by exact Es. cbn beta iota. eapply (Hgo [] st [] c w1); [done| |constructor]. split; [constructor|done].
Qed.

(** ** Reading a file to its end *)

Definition sent_bytes (t : transfer) : list Z := match t with Sent _ p => p | Received _ _ => [] end.

(** A read request for the stream [slot] by the thread [t]. *)
Definition reads_stream (slot t : Z) (mp : message * list Z) : Prop :=
  msg_type (fst mp) = MESSAGE_TYPE_READ /\ u_id (fst mp) = t /\
  payload_word (snd mp) 0 = slot /\ read_request_size <= Z.of_nat (length (snd mp)).

Lemma advance_0 s : advance s 0 = s.
Proof. destruct s. unfold advance. cbn. by rewrite Nat.add_0_r. Qed.

(** One read request of the owner. *)
Lemma fs_step_read files st m p st' out slot s :
  fs_step files frame st m p st' out -> fs_wf files st -> reads_stream slot (s_thread s) (m, p) ->
  streams st !! slot = Some s -> Z.land (s_flags s) STREAM_READ <> 0 ->
  exists n, streams st' !! slot = Some (advance s n) /\
    concat (sent_bytes <$> out) = take n (drop (s_offset' s) (f_data (s_file s))) /\
    (s_offset' s + n <= length (f_data (s_file s)))%nat /\
    (n = 0%nat -> s_offset' s = length (f_data (s_file s))).
Proof.
  intros Hst Hwf (Hty & Hth & Hslot & Hlen) Hs Hfl. cbn [fst snd] in *.
  pose proof (wf_offset _ _ Hwf _ _ Hs) as Hoff.
  assert (Ht : read_target st m p = if (s_offset' s =? length (f_data (s_file s)))%nat
                                    then inl STATUS_END_OF_FILE else inr s).
  { unfold read_target. rewrite (proj2 (Z.ltb_ge _ _)), Hslot, Hs, <- Hth, Z.eqb_refl by done.
    by rewrite (proj2 (Z.eqb_neq _ _)). }
  destruct (Nat.eqb_spec (s_offset' s) (length (f_data (s_file s)))) as [He|He];
    inversion Hst as [? Hc|Hc|Hc|? Hc|Hc|? ? Hc|? _ _ Hr|s' n _ _ Hr [Hck _] Hn|Hc]; subst; try congruence;
    try (rewrite Hty in Hc; by vm_compute in Hc);
    try (exfalso; apply Hc; rewrite Hty; do 3 right; left).
  - exists 0%nat. rewrite advance_0, Nat.add_0_r. split; [done|]. split; [done|lia].
  - rewrite Ht in Hr. simplify_eq. eexists. split; [cbn; by rewrite lookup_insert_eq|].
    cbn. rewrite app_nil_r. split; [done|]. unfold chunk in *. lia.
Qed.

(** ** What a read may ask for *)

Lemma payload_word_u32 p i : Forall is_u8 p -> is_u32 (payload_word p i).
Proof.
  intros Hp. unfold payload_word. apply (Forall_drop _ i) in Hp.
  destruct (drop i p) as [|b0 [|b1 [|b2 [|b3 r]]]]; try (unfold is_u32; lia).
  rewrite !Forall_cons in Hp. unfold is_u8, is_u32 in *. lia.
Qed.

Lemma chunk_ok_remaining s hint :
  (s_offset' s < length (f_data (s_file s)))%nat -> 0 <= hint < 4294963200 ->
  chunk_ok s hint <-> hint <= Z.of_nat (length (f_data (s_file s))) - Z.of_nat (s_offset' s).
Proof.
  intros Hoff Hh. unfold chunk_ok, chunk.
  pose proof (Z.mod_pos_bound (u32 (f_address (s_file s) + Z.of_nat (s_offset' s) + hint)) 4096 ltac:(lia)).
  rewrite (u32_small (hint + 4096 - _)) by lia. lia.
Qed.

(** ** Reading a file to its end: the client *)

(** A request for the rest of the stream [s] after [got] bytes: it does not ask
    for more than is left, or there is nothing left. *)
Definition asks_for_rest (slot : Z) (s : stream) (got : nat) (m : message) (p : list Z) : Prop :=
  reads_stream slot (s_thread s) (m, p) /\ msg_id m <> MESSAGE_ID_ATOMIC /\
  ((s_offset' s + got)%nat = length (f_data (s_file s)) \/
   payload_word p 4 < 4294963200 /\ payload_word p 4 <= Z.of_nat (length (f_data (s_file s))) - Z.of_nat (s_offset' s + got)).

(** The next [n] messages are such requests, whenever the loop gets there. *)
Definition client_reads slot s n buffer c w : Prop :=
  forall j c1 w1 out, (j < n)%nat -> loader_wait_for_messages j frame buffer c w = Ret ((true, c1), w1) ->
    transfers (trace w1) = rev out ++ transfers (trace w) ->
    exists m w2, receive_message (Some buffer) WAIT_FOR_MESSAGE w1 = Ret ((STATUS_SUCCESS, Some m), w2) /\
      asks_for_rest slot s (length (concat (sent_bytes <$> out))) m (payload_of w2 m).

(** Such a request is served. *)
Lemma asks_not_stuck files st m p slot s : fs_wf files st -> Forall is_u8 p -> streams st !! slot = Some s -> Z.land (s_flags s) STREAM_READ <> 0 ->
  asks_for_rest slot s 0 m p -> ~ fs_stuck st m p.
Proof.
  intros Hwf H8 Hs Hfl ((Hty & Hth & Hslot & Hlen) & Hid & Hask) [[_ ?]|(_ & s' & Hr & Hck)]; [done|]. cbn [fst snd] in *. pose proof (payload_word_u32 _ 4 H8) as Hu.
  pose proof (wf_offset _ _ Hwf _ _ Hs) as Hoff. revert Hr. unfold read_target.
  rewrite (proj2 (Z.ltb_ge _ _)), Hslot, Hs, <- Hth, Z.eqb_refl, (proj2 (Z.eqb_neq _ _) Hfl) by done. cbn [negb].
  destruct (Nat.eqb_spec (s_offset' s) (length (f_data (s_file s)))) as [|Hne]; [done|]. intros [= <-]. apply Hck.
  rewrite Nat.add_0_r in Hask. destruct Hask as [|[H1 H2]]; [done|]. unfold is_u32 in Hu. apply chunk_ok_remaining; lia.
Qed.

(** C25. A client that owns a stream and reads it gets the file: when the
    messages that the loader receives are reads of that stream by its owner,
    none of which asks for more than is left (a larger request fails an
    assertion), the loop returns, the payloads of the replies, concatenated,
    are the bytes of the file from the old position on, without gap or overlap,
    and after as many requests as bytes were left the whole rest has been
    delivered. *)
Theorem reads_deliver_file n files st c w buffer slot s :
  represents files st c -> safe w -> streams st !! slot = Some s -> Z.land (s_flags s) STREAM_READ <> 0 ->
  client_reads slot s n buffer c w ->
  exists c' w' out got, loader_wait_for_messages n frame buffer c w = Ret ((true, c'), w') /\ transfers (trace w') = rev out ++ transfers (trace w) /\
    concat (sent_bytes <$> out) = take got (drop (s_offset' s) (f_data (s_file s))) /\
    (s_offset' s + got <= length (f_data (s_file s)))%nat /\
    (length (f_data (s_file s)) - s_offset' s <= n -> s_offset' s + got = length (f_data (s_file s)))%nat.
Proof.
  revert st c w s. induction n as [|n IH]; intros st c w s R Hs Hslot Hfl Hcl.
  { exists c, w, [], 0%nat. pose proof (wf_offset _ _ (rep_wf _ _ _ R) _ _ Hslot). split; [done|]. split; [done|]. split; [done|lia]. }
  destruct (loader_step_run files st c w buffer R Hs) as (r & w1 & E1 & Hstep). cbv zeta in Hstep.
  destruct (Hcl 0%nat c w [] ltac:(lia) eq_refl eq_refl) as (m & w1' & E1' & Hask). rewrite E1 in E1'. injection E1' as Hok <- <-.
  rewrite decide_True in Hstep by done. destruct Hstep as [Hdel Hstep]. destruct (payload_bytes _ _ Hdel) as (_ & H8 & _).
  destruct Hstep as [(st1 & out1 & c1 & w2 & Es & Hst & R1 & S1)|[_ Hst]]; [|by destruct (asks_not_stuck _ _ _ _ _ _ (rep_wf _ _ _ R) H8 Hslot Hfl Hask)].
  destruct Hask as (Hread & _). destruct (fs_step_read _ _ _ _ _ _ _ _ Hst (rep_wf _ _ _ R) Hread Hslot Hfl) as (n1 & Hs1 & Hb1 & Hl1 & Hz1).
  assert (msg_type (received r) = MESSAGE_TYPE_READ) as Hty by exact (proj1 Hread). rewrite Hty in Es. change (MESSAGE_TYPE_READ =? MESSAGE_TYPE_UNMOUNT_FILESYSTEM) with false in Es. cbn [negb] in Es. destruct S1 as [T1 Hsafe1].
  destruct (IH st1 c1 w2 (advance s n1) R1 Hsafe1 Hs1 Hfl) as (c' & w' & out & got & E2 & T2 & Hb2 & Hl2 & Hz2).
  { intros j c2 w3 out Hk Ek Tk. destruct (Hcl (S j) c2 w3 (Received (received r) (payload_of w1 (received r)) :: out1 ++ out)) as (m & w4 & E4 & Hr4 & Hid4 & Hn4); [lia| | |].
    - cbn [loader_wait_for_messages]. erewrite drun_bind by exact Es. done.
    - rewrite Tk, T1. cbn [rev]. by rewrite rev_app_distr, <- !app_assoc.
    - exists m, w4. split; [done|]. split; [done|]. split; [done|]. revert Hn4. cbn [fmap list_fmap sent_bytes concat app]. rewrite fmap_app, concat_app, length_app, Hb1.
      rewrite length_take, length_drop, Nat.min_l by lia. cbn [s_offset' s_file advance]. by rewrite !Nat.add_assoc. }
  exists c', w', (Received (received r) (payload_of w1 (received r)) :: out1 ++ out), (n1 + got)%nat. cbn [loader_wait_for_messages]. erewrite drun_bind by exact Es. cbn beta iota.
  split; [done|]. split; [rewrite T2, T1; cbn [rev]; by rewrite rev_app_distr, <- !app_assoc|]. cbn [s_offset' s_file advance] in *. split; [|split; [lia|lia]].
  cbn [fmap list_fmap sent_bytes concat app]. rewrite fmap_app, concat_app, Hb1, Hb2. by rewrite <- drop_drop, take_take_drop.
Qed.

(** A read of a stream by its owner is served when the size it asks for does
    not exceed the bytes left in the file, and otherwise stops the loader on its
    assertion: the loader sends no reply, and every later client waits for
    ever. *)
Theorem read_beyond_end_traps files st c m w s :
  msg_type m = MESSAGE_TYPE_READ -> msg_id m <> MESSAGE_ID_ATOMIC -> represents files st c -> safe w ->
  delivered w m -> read_target st m (payload_of w m) = inr s ->
  let hint := payload_word (payload_of w m) 4 in
  let left_ := Z.of_nat (length (f_data (s_file s))) - Z.of_nat (s_offset' s) in
  hint < 4294963200 ->
  if hint <=? left_ then exists c' w', read_file c m w = Ret (c', w')
  else read_file c m w = Trap AssertFailed.
Proof.
  intros Hty Hid R Hs Hdel Ht hint left_ Hh.
  destruct (payload_bytes w m Hdel) as (_ & H8 & _). pose proof (payload_word_u32 _ 4 H8) as Hu.
  pose proof (read_target_inr _ _ _ _ Ht) as (Hst & _ & _ & Hne & _).
  pose proof (wf_offset _ _ (rep_wf _ _ _ R) _ _ Hst) as Hoff. fold hint in Hu. unfold is_u32 in Hu.
  pose proof (chunk_ok_remaining s hint ltac:(lia) ltac:(lia)) as Hok. fold left_ in Hok.
  destruct (read_file_run files st c m w Hty R Hs Hdel) as [(st' & out & c' & w' & E & Hstep & _)|[E Hstuck]].
  - destruct (Z.leb_spec hint left_); [by eauto|]. exfalso.
    enough (Hck0 : chunk_ok s hint) by (apply Hok in Hck0; lia).
    inversion Hstep as [? Hc|Hc|Hc|? Hc|Hc|? ? Hc|? _ _ Hr|s' n _ _ Hr Hck Hn|Hc]; subst; try congruence;
      try (rewrite Hty in Hc; by vm_compute in Hc);
      try (exfalso; apply Hc; rewrite Hty; do 3 right; left).
    rewrite Ht in Hr. by simplify_eq.
  - destruct (Z.leb_spec hint left_); [|done]. exfalso.
    destruct Hstuck as [[_ ?]|(_ & s' & Hr & Hck)]; [done|]. rewrite Ht in Hr. simplify_eq. apply Hck, Hok. lia.
Qed.

(** The endless loop of [open_file] that looks for a free slot ends within
    32 rounds and returns a free slot, wherever it starts, when the table has
    one; on a full table it never ends, which is what the guard on
    [open_file_count] prevents. *)
Theorem find_slot_terminates c m index : length (open_files c) = 32%nat -> 0 <= index < 32 ->
  ((exists i, open_files c !! i = Some None) -> forall fuel, (32 <= fuel)%nat ->
     exists s, find_slot fuel c index m = Ret (s, m) /\ 0 <= s < 32 /\ open_files c !! Z.to_nat s = Some None) /\
  ((forall i, open_files c !! i <> Some None) -> forall fuel, find_slot fuel c index m = Trap OutOfFuel).
Proof.
  intros Hlen Hi. split.
  - intros (i & Hf) fuel Hfuel. pose proof (lookup_lt_Some _ _ _ Hf) as Hlt.
    apply (find_slot_distance c m (Z.of_nat i)) with (d := Z.to_nat ((Z.of_nat i - index) mod 32));
      [done|lia|by rewrite Nat2Z.id|lia|zlia|zlia].
  - intros Hfull fuel. revert index Hi. induction fuel as [|fuel IH]; intros index Hi; [done|].
    cbn [find_slot]. destruct (lookup_lt_is_Some_2 (open_files c) (Z.to_nat index)) as [o Ho]; [lia|].
    erewrite run_bind by (apply get_slot_run; [lia|exact Ho]).
    destruct o as [o|]; [|by destruct (Hfull _ Ho)]. cbv zeta. unfold OPEN_FILE_COUNT_MAX.
    rewrite u32_small by lia. destruct (Z.leb_spec 32 (index + 1)); apply IH; lia.
Qed.

End Refinement.

(** ** Witnesses *)

(** A file of three bytes, and a kernel whose clients read the stream 0 byte by
    byte. *)
Definition example_archive : mem := write_bytes (write_bytes ∅ 8192 [97; 46; 99; 0]) 8704 [1; 2; 3].
Definition example_file : afile := mkFile [97; 46; 99] 8704 [1; 2; 3].

Definition reader_world : World := {|
  kernel_reply := fun h =>
    match h with
    | Syscall v a m :: _ =>
        if v =? SYSTEM_CALL_VECTOR_RECEIVE_MESSAGE
        then (mkSyscall 32 7 MESSAGE_TYPE_READ 5 60000 8 0 STATUS_SUCCESS,
              write_bytes m 60000 (words_bytes [0; 1]))
        else (mkSyscall 32 0 0 0 0 0 0 STATUS_SUCCESS, m)
    | _ => (mkSyscall 32 0 0 0 0 0 0 STATUS_SUCCESS, ∅)
    end;
  port_value := fun _ => 0;
  heap_block := fun h => match h with Malloc _ m :: _ => (0, m) | _ => (0, ∅) end;
  heap_free := fun h => match h with Free _ m :: _ => m | _ => ∅ end;
  uninitialized := fun _ => 0 |}.

Lemma example_archive_range x : ~ (8192 <= x < 10240) -> example_archive !! x = None.
Proof.
  intros Hx. unfold example_archive. rewrite !lookup_write_bytes, !decide_False by (cbn; lia).
  apply lookup_empty.
Qed.

#[local] Instance reader_env : @LoaderEnv reader_world example_archive 100.
Proof.
  split.
  - intros x Hx. apply example_archive_range. lia.
  - intros v a m h Hk Hf. cbn -[write_bytes words_bytes]. destruct (_ =? _); cbn [snd]; [|exact (conj Hk Hf)]. split.
    + apply subseteq_write; [|exact Hk]. rewrite length_words_bytes. cbn. intros x Hx. apply example_archive_range. lia.
    + apply mapped_write, Hf.
  - intros a m h r m' E _. cbn -[write_bytes words_bytes] in E.
    apply pair_equal_spec in E as [<- <-]. cbn [data3 data4]. split; [by_eval|]. split; [by_eval|]. split; [lia|].
    intros x Hx. split; [|split; [apply example_archive_range; lia|lia]].
    rewrite lookup_write_bytes, length_words_bytes. cbn [length Nat.mul]. rewrite decide_True by (cbn; lia).
    assert (E : exists i, x = 60000 + Z.of_nat i /\ (i < 8)%nat) by (exists (Z.to_nat (x - 60000)); lia).
    destruct E as (i & -> & Hi). replace (60000 + Z.of_nat i - 60000) with (Z.of_nat i) by lia. rewrite Nat2Z.id.
    do 8 (destruct i as [|i]; [eexists; split; [reflexivity|by_eval]|]). lia.
  - intros n m h. cbn [snd heap_block reader_world]. reflexivity.
  - intros p m h Hk Hf. exact (conj Hk Hf).
Qed.

Definition example_entry : directory_entry := mkEntry 8192 8704 3.
Definition example_streams : afs := mkFs {[0 := mkStream example_file 0 1 7]} 0.
Definition example_loader : loader_context :=
  mkLoader (Some (mkOpenFile 64 example_entry 0 1 7) :: replicate 31 None) 1 0 [example_entry].
Definition example_loader_memory : mem := write_bytes example_archive 100 (replicate 8 0).

Lemma example_entry_rel : entry_rel example_archive example_entry example_file.
Proof. unfold entry_rel. split; [|split; [done|]; split; [done|]; split; [by_eval|cbn; lia]]. split; [cbn; lia|]. split; [by_eval|by_eval]. Qed.

Lemma example_loader_represents : represents example_archive [example_file] example_streams example_loader.
Proof.
  split.
  - split; cbn.
    + intros i s [<- _]%lookup_singleton_Some. lia.
    + unfold used_slots. cbn. rewrite map_size_singleton. lia.
    + intros i s [_ <-]%lookup_singleton_Some. cbn. lia.
    + intros i s [_ <-]%lookup_singleton_Some. cbn. left.
  - done.
  - intros i Hi. cbn -[replicate]. destruct (decide (i = 0)) as [->|Hne].
    + eexists. split; [done|]. rewrite lookup_singleton_eq. split; [apply example_entry_rel|done].
    + exists None. rewrite lookup_singleton_ne by done. split; [|done].
      destruct (Z.to_nat i) as [|j] eqn:E; [lia|]. cbn -[replicate]. apply lookup_replicate. split; [done|lia].
  - cbn. unfold used_slots. cbn. by rewrite map_size_singleton.
  - cbn. lia.
  - apply Forall2_cons. split; [apply example_entry_rel|constructor].
Qed.

Lemma example_loader_safe : safe example_archive 100 (Machine example_loader_memory []).
Proof.
  split; cbn [memory].
  - apply subseteq_write; [|reflexivity]. cbn [length replicate]. intros x Hx. apply example_archive_range. lia.
  - intros x Hx. unfold example_loader_memory. rewrite lookup_write_bytes, decide_True by (cbn; lia).
    apply lookup_lt_is_Some. cbn. lia.
Qed.

Lemma loader_refines_witness : exists mounted ms st' out c' w',
  @loader_wait_for_messages reader_world 2 100 initialize_message example_loader (Machine example_loader_memory []) = Ret ((mounted, c'), w') /\
  @serves reader_world example_archive 100 [example_file] example_streams (Machine example_loader_memory []) ms st' out c' w'.
Proof.
  destruct (@loader_refines reader_world example_archive 100 reader_env 2 [example_file] example_streams example_loader (Machine example_loader_memory []) initialize_message
    example_loader_represents example_loader_safe) as [(mo & ms & st' & out & c' & w' & E & Hs & _)|[E _]]; [|vm_compute in E; discriminate E].
  exists mo, ms, st', out, c', w'. split; [exact E|exact Hs].
Defined.

Lemma find_slot_terminates_witness : exists s,
  find_slot 32 example_loader 0 ∅ = Ret (s, ∅) /\ 0 <= s < 32 /\
  open_files example_loader !! Z.to_nat s = Some None.
Proof.
  apply (find_slot_terminates example_loader ∅ 0); [done|lia|by exists 1%nat|lia].
Defined.

(** Three reads of one byte each: a page holds the file, so that the first
    delivers it and the others find its end. *)
Definition example_stream : stream := mkStream example_file 0 1 7.

Definition example_asks (j : nat) : bool :=
  match @loader_wait_for_messages reader_world j 100 initialize_message example_loader (Machine example_loader_memory []) with
  | Ret (_, w1) =>
      match @receive_message reader_world (Some initialize_message) WAIT_FOR_MESSAGE w1 with
      | Ret ((st, Some m), w2) =>
          let p := payload_of w2 m in
          let got := length (concat (sent_bytes <$> rev (@transfers reader_world (trace w1)))) in
          (st =? STATUS_SUCCESS) && (msg_type m =? MESSAGE_TYPE_READ) && (u_id m =? 7) && (payload_word p 0 =? 0) && (read_request_size <=? Z.of_nat (length p)) &&
          negb (msg_id m =? MESSAGE_ID_ATOMIC) && ((got =? 3)%nat || ((payload_word p 4 <? 4294963200) && (payload_word p 4 <=? 3 - Z.of_nat got)))
      | _ => false
      end
  | _ => false
  end.

Lemma example_client_reads : @client_reads reader_world 100 0 example_stream 3 initialize_message example_loader (Machine example_loader_memory []).
Proof.
  intros j c1 w1 out Hj E T.
  assert (out = rev (@transfers reader_world (trace w1))) as -> by (rewrite T, rev_app_distr, rev_involutive; reflexivity). clear T.
  assert (example_asks j = true) as H by (destruct j as [|[|[|j]]]; [vm_compute; reflexivity..|lia]). unfold example_asks in H. rewrite E in H.
  destruct (receive_message _ _ w1) as [[[st [m|]] w2]|]; [|done..]. cbv zeta in H. rewrite !andb_true_iff, orb_true_iff, andb_true_iff, !Z.eqb_eq, !Z.leb_le, Z.ltb_lt, Nat.eqb_eq, negb_true_iff, Z.eqb_neq in H.
  destruct H as ((((((-> & H1) & H2) & H3) & H4) & H5) & H6). exists m, w2. split; [done|]. split; [by repeat split|]. split; [done|]. exact H6.
Qed.

Lemma reads_deliver_file_witness : exists c' w' out got,
  @loader_wait_for_messages reader_world 3 100 initialize_message example_loader (Machine example_loader_memory []) = Ret ((true, c'), w') /\
  @transfers reader_world (trace w') = rev out ++ [] /\ concat (sent_bytes <$> out) = take got [1; 2; 3] /\ got = 3%nat.
Proof.
  destruct (@reads_deliver_file reader_world example_archive 100 reader_env 3 [example_file] example_streams
    example_loader (Machine example_loader_memory []) initialize_message 0 example_stream example_loader_represents example_loader_safe
    ltac:(vm_compute; reflexivity) ltac:(vm_compute; discriminate) example_client_reads) as (c' & w' & out & got & E & T & Hb & _ & Hall).
  exists c', w', out, got. split; [exact E|]. split; [exact T|]. split; [exact Hb|]. apply Hall. cbn. lia.
Defined.

Lemma read_beyond_end_traps_witness :
  let m := mkMessage 7 MESSAGE_TYPE_READ 5 60000 8 0 in
  let w := Machine (write_bytes example_loader_memory 60000 (words_bytes [0; 4])) [] in
  @read_file reader_world example_loader m w = Trap AssertFailed.
Proof.
  apply (@read_beyond_end_traps reader_world example_archive 100 reader_env [example_file] example_streams
    example_loader (mkMessage 7 MESSAGE_TYPE_READ 5 60000 8 0)
    (Machine (write_bytes example_loader_memory 60000 (words_bytes [0; 4])) [])
    (mkStream example_file 0 1 7)); try done; try apply example_loader_represents.
  - destruct example_loader_safe as [Hk Hf]. split; cbn [memory]; [|by apply mapped_write].
    apply subseteq_write; [|exact Hk]. rewrite length_words_bytes. cbn. intros x Hx. apply example_archive_range. lia.
  - split; [by_eval|]. split; [by_eval|]. split; [cbn; lia|]. cbn [msg_data msg_data_size]. intros x Hx.
    split; [|split; [apply example_archive_range; lia|lia]]. cbn [memory].
    rewrite lookup_write_bytes, length_words_bytes. cbn [length Nat.mul]. rewrite decide_True by (cbn; lia).
    assert (E : exists i, x = 60000 + Z.of_nat i /\ (i < 8)%nat) by (exists (Z.to_nat (x - 60000)); lia).
    destruct E as (i & -> & Hi). replace (60000 + Z.of_nat i - 60000) with (Z.of_nat i) by lia. rewrite Nat2Z.id.
    do 8 (destruct i as [|i]; [eexists; split; [reflexivity|by_eval]|]). lia.
Defined.
