(* ===== verification/LoaderBoot.v ===== *)
(** * The loader at boot: unpacking the archive, choosing the daemons *)

From S2P Require Import Prelude CMem CString CStringMem CStringStr Ctype NumConv Tar World Libdx LibdxThms Process ProcessThms Loader LoaderThms.

(** ** The directory *)

(** The files of an archive at address [a]. *)
Fixpoint archive_files (a : Z) (es : list member) : list afile :=
  match es with
  | [] => []
  | e :: es' => mkFile (m_name e) (a + 512) (m_data e)
                  :: archive_files (a + Z.of_nat (length (tar_member e))) es'
  end.

(** No stream is open. *)
Definition fs_empty : afs := mkFs ∅ 0.

Lemma fs_empty_represents k files entries :
  Forall2 (entry_rel k) entries files -> represents k files fs_empty (loader_zero entries).
Proof.
  intros He. split; cbn -[replicate]; try done.
  - split; try done. unfold used_slots. cbn. rewrite map_size_empty. lia.
  - intros i Hi. exists None. rewrite lookup_empty. split; [|done].
    apply lookup_replicate. split; [done|lia].
Qed.

Lemma exhausted_end m a : m !! a = Some 0 -> 0 < a < 4294967296 -> tar_is_exhausted a m = Ret (true, m).
Proof.
  intros Hm Ha. unfold tar_is_exhausted, NULL. rewrite (proj2 (Z.eqb_neq _ _)) by lia.
  by erewrite run_bind by (apply (strlen_run m (tar_name a) []), cstr_nil; by split).
Qed.

Lemma exhausted_member m a name : cstr m a name -> name <> [] -> tar_is_exhausted a m = Ret (false, m).
Proof.
  intros Hc Hn. pose proof (cstr_range _ _ _ Hc). unfold tar_is_exhausted, NULL.
  rewrite (proj2 (Z.eqb_neq _ _)) by lia. erewrite run_bind by (apply strlen_run; exact Hc).
  by destruct name.
Qed.

Section Unpack.
Context `{World} {k : mem} {space thread most : Z} {Hserve : Services k space thread most}.
Context (Hmost : 16 <= most).

Lemma member_entry_rel a e tail : bytes_at k a (tar_member e ++ tail) -> member_ok e -> 0 < a ->
  a + Z.of_nat (length (tar_member e)) < 4294967296 ->
  entry_rel k (mkEntry a (a + 512) (Z.of_nat (length (m_data e)))) (mkFile (m_name e) (a + 512) (m_data e)).
Proof.
  intros Hb He Ha Hend. pose proof He as (Hl & _). pose proof (tar_member_length e ltac:(lia)) as Hlen.
  pose proof (Z.mod_pos_bound (- Z.of_nat (length (m_data e))) 512 ltac:(lia)).
  unfold entry_rel. cbn [de_header de_file de_file_size f_name f_address f_data].
  split; [eapply member_name; [exact Hb|done|done|lia]|]. split; [done|]. split; [done|].
  split; [eapply member_data; [exact Hb|done]|]. lia.
Qed.

Lemma unpack_loop_run es : forall fuel a w, (length es < fuel)%nat -> k ⊆ memory w ->
  bytes_at k a (tar_image es) -> Forall member_ok es -> 0 < a ->
  a + Z.of_nat (length (tar_image es)) <= 4294967296 ->
  exists entries w', unpack_loop fuel a w = Ret (entries, w') /\ k ⊆ memory w' /\
    Forall2 (entry_rel k) entries (archive_files a es).
Proof.
  induction es as [|e es IH]; intros [|fuel] a w Hf Hk Hb He Ha Hend; cbn [length] in Hf; try lia;
    destruct w as [mm h]; cbn [memory unpack_loop archive_files] in *; unfold tar_image in *;
    cbn [fmap list_fmap concat app] in *.
  - exists [], (Machine mm h). split; [|by repeat constructor].
    rewrite length_replicate in Hend. cbn [replicate] in Hb. apply bytes_at_cons in Hb as [Hb _].
    erewrite drun_bind by (apply drun_lift, exhausted_end; [by eapply lookup_weaken|lia]). done.
  - rewrite <- app_assoc in *. set (tail := concat (tar_member <$> es) ++ replicate 1024 0) in *.
    rewrite length_app, Nat2Z.inj_add in Hend. apply Forall_cons in He as [He Hes].
    assert (0 < Z.of_nat (length tail)) by (unfold tail; rewrite length_app, length_replicate; lia).
    pose proof He as (Hl & _ & _). pose proof (tar_member_length e ltac:(lia)) as Hlen.
    pose proof (Z.mod_pos_bound (- Z.of_nat (length (m_data e))) 512 ltac:(lia)).
    pose proof (member_entry_rel a e tail Hb He Ha ltac:(lia)) as Hrel.
    erewrite drun_bind by (apply drun_lift; eapply exhausted_member;
      [eapply subseteq_cstr; [exact Hk|apply Hrel]|cbn; intros E; rewrite E in Hl; cbn in Hl; lia]).
    destruct (services_malloc 16 mm h) as (p & m1 & E1 & Hp & Hpe & Hmap & Hnew & Hk1); [lia|done|].
    unfold malloc. unfold mbind at 1, D_bind at 1. cbn [memory trace]. rewrite E1.
    unfold NULL. rewrite (proj2 (Z.eqb_neq p 0)) by lia.
    erewrite drun_bind by (apply drun_lift; eapply tar_read_run;
      [eapply subseteq_bytes_at; [exact Hk1|exact Hb]|done|done|lia|done|eapply mapped_sub; [exact Hmap|lia|lia]]).
    set (m2 := write_bytes m1 p _).
    destruct (load_three_words m2 p a (a + 512) (Z.of_nat (length (m_data e)))) as (L1 & L2 & L3);
      [apply bytes_at_write|unfold is_u32; lia..|].
    erewrite drun_bind by (apply drun_lift; exact L1). erewrite drun_bind by (apply drun_lift; exact L2).
    erewrite drun_bind by (apply drun_lift; exact L3).
    apply bytes_at_app in Hb as [_ Hb].
    destruct (IH fuel (a + Z.of_nat (length (tar_member e))) (Machine m2 (Malloc 16 mm :: h)))
      as (entries & w' & E & Hk' & Hrels); [lia| |exact Hb|done|lia|fold tail; lia|].
    { cbn [memory]. apply subseteq_write; [|done]. intros x Hx. apply Hnew.
      change (Z.of_nat (length (entry_bytes a (a + 512) (Z.of_nat (length (m_data e)))))) with 12 in Hx. lia. }
    eexists (_ :: entries), w'. split; [by erewrite drun_bind by exact E|]. split; [done|]. by constructor.
Qed.

Lemma tar_image_length es : (length es <= length (tar_image es))%nat.
Proof.
  unfold tar_image. rewrite length_app. induction es as [|e es IH]; [cbn; lia|].
  cbn [fmap list_fmap concat length]. rewrite length_app.
  assert (1 <= length (tar_member e))%nat; [|lia].
  unfold tar_member, tar_header. rewrite !length_app. cbn [length]. lia.
Qed.

(** On the boot archive, [unpack_ramdisk] ends and builds a directory with
    one entry per member, in order, whose name, contents and size are the
    packed ones; a file system served from this directory starts without open
    streams and with exactly the files of the archive. *)
Theorem unpack_ramdisk_directory es a w :
  k ⊆ memory w -> bytes_at k a (tar_image es) -> Forall member_ok es -> 0 < a ->
  a + Z.of_nat (length (tar_image es)) <= 4294967296 ->
  exists entries w', unpack_ramdisk a w = Ret (entries, w') /\ k ⊆ memory w' /\
    length entries = length es /\
    represents k (archive_files a es) fs_empty (loader_zero entries) /\
    map f_name (archive_files a es) = map m_name es /\ map f_data (archive_files a es) = map m_data es.
Proof.
  intros Hk Hb He Ha Hend.
  destruct (unpack_loop_run es (mem_fuel (memory w)) a w) as (entries & w' & E & Hk' & Hrel); try done.
  { pose proof (bytes_at_size _ _ _ (subseteq_bytes_at _ _ _ _ Hk Hb)). pose proof (tar_image_length es).
    unfold mem_fuel. lia. }
  assert (Hn : forall b, map f_name (archive_files b es) = map m_name es /\
    map f_data (archive_files b es) = map m_data es /\ length (archive_files b es) = length es).
  { clear. induction es as [|e es IH]; intros b; [done|]. cbn.
    destruct (IH (b + Z.of_nat (length (tar_member e)))) as (-> & -> & ->). done. }
  destruct (Hn a) as (N1 & N2 & N3). exists entries, w'. split; [done|]. split; [done|].
  split; [by rewrite <- N3; eapply Forall2_length|]. split; [by apply fs_empty_represents|done].
Qed.
End Unpack.

(** ** The daemons *)

(** "/boot/S" *)
Definition boot_prefix : list Z := [47; 98; 111; 111; 116; 47; 83].

(** The priority that [atoi] reads from two digits: a leading zero makes the
    number octal, so that 08 and 09 are read as 0. *)
Definition priority (d1 d2 : Z) : Z :=
  if d1 =? 0 then (if d2 <? 8 then d2 else 0) else 10 * d1 + d2.

(** What the loader makes of a file: nothing, or a daemon with a priority. *)
Inductive boot_file (f : afile) : option Z -> Prop :=
  | boot_empty : f_data f = [] -> boot_file f None
  | boot_other : (7 <= length (f_name f))%nat -> take 7 (f_name f) <> boot_prefix -> boot_file f None
  | boot_daemon d1 d2 c rest :
      f_name f = boot_prefix ++ [48 + d1; 48 + d2; c] ++ rest -> f_data f <> [] ->
      0 <= d1 <= 9 -> 0 <= d2 <= 9 -> 0 <= c < 128 -> ref_digit c = false ->
      boot_file f (Some (priority d1 d2)).

(** The table of daemons: the last file with a priority gets its slot. *)
Definition place (table : list (option directory_entry)) (eo : directory_entry * option Z)
    : list (option directory_entry) :=
  match snd eo with
  | Some i => if i <? DAEMON_COUNT then <[Z.to_nat i := Some (fst eo)]> table else table
  | None => table
  end.

Definition regular (m : mem) (e : directory_entry) : Prop :=
  m !! tar_type (de_header e) = Some 0 \/ m !! tar_type (de_header e) = Some 48.

Lemma no_digit_value c v : 0 <= c < 128 -> ref_digit c = false -> ref_digit_value c = Some v -> 10 <= v.
Proof.
  intros Hc Hd. unfold ref_digit_value. rewrite Hd. unfold ref_upper, ref_lower, between.
  repeat case_match; intros; simplify_eq; zbool; lia.
Qed.

Lemma digit_char_small d : 0 <= d <= 9 -> 48 + d = digit_char d.
Proof. intros Hd. unfold digit_char. by rewrite (proj2 (Z.ltb_lt _ _)) by lia. Qed.

(** Digits up to a character that is no digit of the base. *)
Lemma scan_small_digits m s base ds c : bytes_at m s (((fun d => 48 + d) <$> ds) ++ [c]) ->
  Forall (fun d => 0 <= d <= 9 /\ d < base) ds -> 2 <= base <= 36 -> 0 <= c < 128 ->
  (forall v, ref_digit_value c = Some v -> base <= v) ->
  strtoul_digits (mem_fuel m) s base 0 m
    = Ret ((u32 (horner base ds 0), s + Z.of_nat (length ds)), m).
Proof.
  intros Hb Hd Hbase Hc Hend. change 0 with (u32 0) at 1. eapply strtoul_digits_run; try done.
  - eapply Forall_impl; [exact Hd|]. cbn. lia.
  - rewrite (Forall_fmap_ext_1 digit_char (fun d => 48 + d)); [done|].
    eapply Forall_impl; [exact Hd|]. cbn. intros d [? _]. by rewrite digit_char_small.
  - apply bytes_at_size in Hb. rewrite length_app, length_fmap in Hb. unfold mem_fuel. cbn in Hb. lia.
Qed.

Section TwoDigits.
Context (m : mem) (s d1 d2 c : Z).
Context (Hb : bytes_at m s [48 + d1; 48 + d2; c]) (H1 : 0 <= d1 <= 9) (H2 : 0 <= d2 <= 9).
Context (Hc : 0 <= c < 128) (Hd : ref_digit c = false).

Lemma two_digits_skip : skip_space (mem_fuel m) s m = Ret (s, m).
Proof.
  pose proof Hb as Hb'. rewrite !bytes_at_cons in Hb'. destruct Hb' as (B0 & _).
  rewrite (skip_space_run m [] (mem_fuel m) s (48 + d1)); cbn [app length].
  - by rewrite Z.add_0_r.
  - apply bytes_at_cons. split; [done|apply bytes_at_nil].
  - constructor.
  - lia.
  - unfold ref_space, between. rewrite (proj2 (Z.eqb_neq _ _)), (proj2 (Z.leb_gt _ 13)) by lia. apply andb_false_r.
  - unfold mem_fuel. lia.
Qed.

Lemma two_digits_scan : exists e, strtoul_scan s 0 m = Ret ((priority d1 d2, e), m).
Proof.
  pose proof Hb as Hb'. rewrite !bytes_at_cons in Hb'. destruct Hb' as (B0 & B1 & B2 & _).
  unfold strtoul_scan, with_fuel. do 2 crun run_assert. erewrite run_bind by exact two_digits_skip.
  unfold strtoul_prefix. cbn [Z.eqb orb]. rewrite run_assoc. crun run_loadc. rewrite s8_small by lia.
  unfold priority. destruct (Z.eqb_spec d1 0) as [E0|Hnz].
  - rewrite (proj2 (Z.eqb_eq (48 + d1) 48)) by lia. rewrite run_assoc. crun run_loadc. rewrite s8_small by lia.
    rewrite (proj2 (Z.eqb_neq _ 120)), (proj2 (Z.eqb_neq _ 88)) by lia. cbn [orb]. rewrite run_bind_ret.
    cbn beta iota. destruct (Z.ltb_spec d2 8).
    + eexists. rewrite (scan_small_digits m (s + 1) 8 [d2] c); [|..|lia|done|].
      * unfold horner. cbn [fold_left length]. rewrite u32_small by lia. by rewrite Z.add_0_l.
      * apply bytes_at_cons in Hb as [_ ?]. done.
      * by repeat constructor; lia.
      * intros v Hv. apply no_digit_value in Hv; [lia|done..].
    + eexists. rewrite (scan_small_digits m (s + 1) 8 [] (48 + d2)); [done|..|lia|lia|].
      * apply bytes_at_cons. split; [done|apply bytes_at_nil].
      * constructor.
      * intros v. rewrite digit_char_small, ref_digit_value_char by lia. intros [= <-]. lia.
  - rewrite (proj2 (Z.eqb_neq _ 48)) by lia. rewrite run_bind_ret. cbn beta iota. eexists.
    rewrite (scan_small_digits m s 10 [d1; d2] c); [|exact Hb|..|lia|done|].
    + unfold horner. cbn [fold_left]. rewrite u32_small by lia. do 3 f_equal. lia.
    + by repeat constructor; lia.
    + intros v Hv. by eapply no_digit_value.
Qed.

Lemma atoi_two_digits : atoi s m = Ret (priority d1 d2, m).
Proof.
  pose proof Hb as Hb'. rewrite !bytes_at_cons in Hb'. destruct Hb' as (B0 & _).
  destruct two_digits_scan as (e & E). unfold atoi, strtol, strtoul, with_fuel.
  erewrite run_bind by exact two_digits_skip.
  crun run_loadc. rewrite s8_small by lia. rewrite (proj2 (Z.eqb_neq _ 43)), (proj2 (Z.eqb_neq _ 45)) by lia.
  erewrite run_bind by (erewrite run_bind by exact E; done). unfold mret, C_ret. do 2 f_equal.
  apply s32_small. unfold priority. repeat case_match; lia.
Qed.
End TwoDigits.

Section Daemons.
Context (k : mem) (lits : literals) (Hprefix : cstr k (lit_prefix lits) boot_prefix).

(** The prefix test on a name. *)
Lemma prefix_test m e f n : k ⊆ m -> entry_rel k e f -> Forall is_u8 (take 7 (f_name f)) ->
  (7 <= length (f_name f))%nat -> n = 7 ->
  exists r, memcmp (tar_name (de_header e)) (lit_prefix lits) n m = Ret (r, m) /\
    (r = 0 <-> take 7 (f_name f) = boot_prefix).
Proof.
  intros Hk (Hn & _) H8 Hlen ->. exists (first_diff boot_prefix (take 7 (f_name f))). split.
  - replace 7 with (Z.of_nat (length (take 7 (f_name f)))) by (rewrite length_take_le by lia; done).
    apply memcmp_run; [by rewrite length_take_le by lia| |].
    + eapply subseteq_bytes_at; [exact Hk|]. apply cstr_bytes in Hn.
      rewrite <- (take_drop 7 (f_name f)), bytes_at_app in Hn. apply Hn.
    + eapply subseteq_bytes_at; [exact Hk|]. by apply cstr_bytes.
  - split.
    + intros E. symmetry. apply first_diff_eq; [by rewrite length_take_le by lia| |done|done].
      by repeat constructor.
    + intros ->. by vm_compute.
Qed.

(** [find_daemons] (the directory walk of [start_daemons]) fills the launch
    table from the file names: a regular, non-empty file "/boot/Snn..." takes
    the slot of the number that [atoi] reads from the two digits, a later file
    with the same number replaces an earlier one, all other files are ignored.
    A number with a leading zero is read in base 8, so that S08 and S09 take
    slot 0, which is never launched. *)
Theorem daemons_by_priority m entries files slots table :
  k ⊆ m -> Forall2 (entry_rel k) entries files -> Forall (regular k) entries ->
  Forall2 boot_file files slots ->
  find_daemons lits entries 7 table m = Ret (fold_left place (combine entries slots) table, m).
Proof.
  intros Hk He Hreg Hs. revert slots table Hs.
  induction He as [|e f entries files Hef _ IH]; intros slots table Hs; inversion Hs as [|? o ? slots' Hf Hs']; subst;
    [done|]. apply Forall_cons in Hreg as [Hr Hreg]. specialize (IH Hreg slots'). cbn [find_daemons combine fold_left].
  pose proof Hef as (Hn & _ & Hsz & _). pose proof (cstr_chars _ _ _ Hn) as Hch. rewrite Hsz.
  assert (H8 : Forall is_u8 (take 7 (f_name f))).
  { apply Forall_take. eapply Forall_impl; [exact Hch|]. unfold is_u8. cbn. lia. }
  assert (Hty : exists ty, loadc (tar_type (de_header e)) m = Ret (ty, m) /\
    negb (ty =? TAR_TYPE_REGULAR_FILE0) && negb (ty =? TAR_TYPE_REGULAR_FILE1) = false).
  { destruct Hr as [Hr|Hr]; eapply lookup_weaken in Hr; try exact Hk;
      (eexists; split; [by apply run_loadc|done]). }
  destruct Hty as (ty & Ety & Htyb).
  destruct Hf as [Hd|Hlen Hne|d1 d2 c rest Hname Hd H1 H2 Hc Hdig]; [by rewrite Hd; apply IH| |];
    (destruct (Z.eqb_spec (Z.of_nat (length (f_data f))) 0) as [Hz|_];
      [destruct (f_data f); [first [done|by apply IH]|done]|]).
  - erewrite run_bind by exact Ety. rewrite Htyb.
    destruct (prefix_test m e f 7 Hk Hef H8 Hlen eq_refl) as (r & E & Hr0). erewrite run_bind by exact E.
    rewrite (proj2 (Z.eqb_neq _ _)) by tauto. by apply IH.
  - erewrite run_bind by exact Ety. rewrite Htyb.
    destruct (prefix_test m e f 7 Hk Hef H8) as (r & E & Hr0); [rewrite Hname; cbn; lia|done|]. erewrite run_bind by exact E.
    rewrite (proj2 (Z.eqb_eq r 0)) by (apply Hr0; by rewrite Hname). cbn [negb].
    pose proof (subseteq_bytes_at _ _ _ _ Hk (cstr_bytes _ _ _ Hn)) as Hb.
    rewrite Hname, !bytes_at_app in Hb. destruct Hb as (_ & Hb & _).
    erewrite run_bind by (eapply atoi_two_digits; [exact Hb|done..]). cbv zeta. unfold place at 2. cbn [fst snd].
    assert (Hp : 0 <= priority d1 d2 < 100) by (unfold priority; repeat case_match; zbool; lia).
    rewrite u32_small by lia. by apply IH.
Qed.
End Daemons.

(** ** Witnesses *)

Definition boot_members : list member := [mkMember [97; 46; 99] [1; 2; 3]; mkMember [98] []].
Definition boot_archive : mem := write_bytes ∅ 8192 (tar_image boot_members).

Lemma boot_archive_range x : 11264 <= x -> boot_archive !! x = None.
Proof.
  intros Hx. unfold boot_archive. rewrite lookup_write_bytes, decide_False; [apply lookup_empty|].
  assert (E : Z.of_nat (length (tar_image boot_members)) = 2560) by (by vm_compute).
  rewrite E. lia.
Qed.

Lemma unpack_ramdisk_directory_witness : exists entries w',
  @unpack_ramdisk (example_world 65536) 8192 (Machine boot_archive []) = Ret (entries, w') /\
  boot_archive ⊆ memory w' /\ length entries = 2%nat /\
  represents boot_archive (archive_files 8192 boot_members) fs_empty (loader_zero entries) /\
  map f_name (archive_files 8192 boot_members) = map m_name boot_members /\
  map f_data (archive_files 8192 boot_members) = map m_data boot_members.
Proof.
  refine (@unpack_ramdisk_directory (example_world 65536) boot_archive 0 0 16 _ _ boot_members 8192
    (Machine boot_archive []) _ _ _ _ _).
  - apply example_services; [lia|lia|lia|]. intros x Hx. apply boot_archive_range. lia.
  - lia.
  - reflexivity.
  - apply bytes_at_write.
  - repeat constructor; cbn; try lia; repeat constructor; lia.
  - lia.
  - by_eval.
Defined.

(** "/boot/S04k" and "/boot/S08m". *)
Definition boot_names : mem :=
  write_bytes (write_bytes (write_bytes (write_bytes (write_bytes ∅
    100 (boot_prefix ++ [0]))
    1000 (boot_prefix ++ [48; 52; 107; 0])) 1156 [48])
    2000 (boot_prefix ++ [48; 56; 109; 0])) 2156 ([0] ++ replicate 100 7).

Definition boot_entries : list directory_entry := [mkEntry 1000 2157 3; mkEntry 2000 2160 5].
Definition boot_files : list afile :=
  [mkFile (boot_prefix ++ [48; 52; 107]) 2157 [7; 7; 7];
   mkFile (boot_prefix ++ [48; 56; 109]) 2160 [7; 7; 7; 7; 7]].

Lemma daemons_by_priority_witness :
  find_daemons (mkLiterals 100 0 0 0 0 0 0 0) boot_entries 7 (replicate 16 None) boot_names
    = Ret (<[0%nat := Some (mkEntry 2000 2160 5)]> (<[4%nat := Some (mkEntry 1000 2157 3)]> (replicate 16 None)),
           boot_names).
Proof.
  refine (daemons_by_priority boot_names (mkLiterals 100 0 0 0 0 0 0 0) _ boot_names boot_entries boot_files
    [Some (priority 0 4); Some (priority 0 8)] (replicate 16 None) _ _ _ _).
  - split; [cbn; lia|]. split; by_eval.
  - reflexivity.
  - apply Forall2_cons. split; [|apply Forall2_cons; split; [|constructor]];
      (split; [split; [cbn; lia|split; by_eval]|split; [done|]; split; [done|]; split; [by_eval|cbn; lia]]).
  - apply Forall_cons. split; [right; by vm_compute|]. apply Forall_cons. split; [left; by vm_compute|constructor].
  - apply Forall2_cons. split; [|apply Forall2_cons; split; [|constructor]].
    + by apply (boot_daemon _ 0 4 107 []).
    + by apply (boot_daemon _ 0 8 109 []).
Defined.
