(* ===== verification/Streams.v ===== *)
(** * The streams of libc: [read.c], [write.c], [stream.c], [fopen.c] and the routines over them

    A program of type [L A] runs on the global state of libc ([errno], the seed
    of [rand], the stream descriptors) and on the machine. A [FILE *] is an
    address; the descriptors, which only these routines look into, are records
    in a map from address to descriptor, and so is the message structure that a
    descriptor points to. What a driver reads or writes (payloads, the buffers
    of the caller, structures that are sent) are bytes of memory.

    Locals whose address is taken are at the addresses of [frame]. *)

From S2P Require Import Prelude CMem CString NumConv World Libdx Printf Loader.

(** ** Constants *)

Definition STREAM_OPEN : Z := 0x01.
Definition STREAM_EOF : Z := 0x02.
Definition STREAM_ERROR : Z := 0x04.
Definition STREAM_PUSHBACK : Z := 0x08.
Definition EOF : Z := -1.
Definition EINVAL : Z := 28.
Definition ENOSYS : Z := 55.

(** ** State *)

(** [input_message]: the address of the structure and its content. *)
Record FILE := mkFILE {
  f_buffer : Z; f_buffer_size : Z; f_cookie : Z; f_flags : Z; f_input_message : option (Z * message);
  f_pushback : Z; f_thread_id : Z }.

Definition with_buffer (f : FILE) (b n : Z) : FILE :=
  mkFILE b n (f_cookie f) (f_flags f) (f_input_message f) (f_pushback f) (f_thread_id f).
Definition with_flags (f : FILE) (v : Z) : FILE :=
  mkFILE (f_buffer f) (f_buffer_size f) (f_cookie f) v (f_input_message f) (f_pushback f) (f_thread_id f).
Definition with_input (f : FILE) (v : option (Z * message)) : FILE :=
  mkFILE (f_buffer f) (f_buffer_size f) (f_cookie f) (f_flags f) v (f_pushback f) (f_thread_id f).
Definition with_pushback (f : FILE) (v : Z) : FILE :=
  mkFILE (f_buffer f) (f_buffer_size f) (f_cookie f) (f_flags f) (f_input_message f) v (f_thread_id f).

(** The static descriptors: the console driver is thread 2. *)
Definition console_file : FILE := mkFILE NULL 0 0 STREAM_OPEN None (u8 EOF) 2.

Record libc := mkLibc { errno : Z; random_seed : Z; files : gmap Z FILE }.

Definition has (flags mask : Z) : bool := negb (Z.land flags mask =? 0).
Definition set_bits (flags mask : Z) : Z := Z.lor flags mask.
Definition clear_bits (flags mask : Z) : Z := Z.land flags (u32 (Z.lnot mask)).

Definition IS_READABLE (f : FILE) : bool :=
  Z.land (f_flags f) (Z.lor STREAM_OPEN (Z.lor STREAM_EOF STREAM_ERROR)) =? STREAM_OPEN.
Definition IS_WRITABLE (f : FILE) : bool := Z.land (f_flags f) (Z.lor STREAM_OPEN STREAM_ERROR) =? STREAM_OPEN.

Definition L (A : Type) : Type := libc * machine -> res (A * (libc * machine)).

#[export] Instance L_ret : MRet L := fun A a s => Ret (a, s).
#[export] Instance L_bind : MBind L := fun A B k c s =>
  match c s with
  | Ret (a, s') => k a s'
  | Trap t => Trap t
  end.

Definition ask {A} (c : D A) : L A := fun s =>
  match c s.2 with Ret (a, w) => Ret (a, (s.1, w)) | Trap t => Trap t end.
Definition mem_do {A} (c : C A) : L A := ask (lift c).
Definition lassert (b : bool) : L unit := mem_do (cassert b).
Definition lfail {A} (t : trap) : L A := fun _ => Trap t.

(** [*stream] and an assignment to it. *)
Definition file_at (p : Z) : L FILE := fun s =>
  match files s.1 !! p with Some f => Ret (f, s) | None => Trap (BadLoad p) end.
Definition set_file (p : Z) (f : FILE) : L unit := fun s =>
  Ret (tt, (mkLibc (errno s.1) (random_seed s.1) (<[p := f]> (files s.1)), s.2)).
Definition set_errno (e : Z) : L unit := fun s => Ret (tt, (mkLibc e (random_seed s.1) (files s.1), s.2)).
Definition next_rand : L Z := fun s =>
  let r := rand (random_seed s.1) in Ret (r, (mkLibc (errno s.1) r (files s.1), s.2)).

(** The addresses of the three static descriptors and of the locals. *)
Record stream_frame := mkFrame {
  stdin : Z; stdout : Z; stderr : Z;
  at_payload : Z; at_character : Z; at_request : Z; at_line : Z; at_text : Z }.

Section Streams.
Context `{World} (fr : stream_frame).

(** ** read.c *)

(** The message structure of the descriptor: the old message is deleted, or a
    structure is allocated. *)
Definition prepare_input (p : Z) : L bool :=
  f ← file_at p;
  match f_input_message f with
  | Some (_, m) => ask (delete_message (Some m));; mret true
  | None =>
      block ← ask (malloc 24);
      if block =? NULL then mret false
      else
        u ← ask indeterminate;
        set_file p (with_input f (Some (block, mkMessage u u u u u u)));;
        mret true
  end.

(** The endless loop of [read]; it goes on as long as the request fails. *)
Fixpoint read_loop (fuel : nat) (p : Z) : L (option message) :=
  match fuel with
  | O => lfail OutOfFuel
  | S fuel' =>
      ready ← prepare_input p;
      if negb ready then mret None
      else
        f ← file_at p;
        match f_input_message f with
        | None => lfail AssertFailed
        | Some (block, m) =>
            id ← next_rand;
            '(st, reply) ← ask (send_and_receive_message
              (Some (mkMessage (f_thread_id f) MESSAGE_TYPE_READ id (at_payload fr) read_request_size NULL)) (Some m));
            let reply := default m reply in
            set_file p (with_input f (Some (block, reply)));;
            if st =? STATUS_SUCCESS then
              lassert ((msg_type reply =? MESSAGE_TYPE_READ_COMPLETE) || (msg_type reply =? MESSAGE_TYPE_ABORT));;
              mret (Some reply)
            else read_loop fuel' p
        end
  end.

Context (patience : nat).

Definition read (p size_hint : Z) : L (option message) :=
  lassert (negb (p =? NULL));;
  f ← file_at p;
  mem_do (store32 (at_payload fr) (f_cookie f);; store32 (at_payload fr + 4) size_hint);;
  read_loop patience p.

(** The buffered data is exhausted: another block. [false] when there is none. *)
Definition refill (p buffer_size : Z) : L bool :=
  f ← file_at p;
  set_file p (with_buffer f NULL (f_buffer_size f));;
  message ← read p buffer_size;
  f ← file_at p;
  match message with
  | None => set_file p (with_flags f (set_bits (f_flags f) STREAM_ERROR));; mret false
  | Some m =>
      let f := with_buffer f (msg_data m) (msg_data_size m) in
      set_file p f;;
      if msg_data_size m =? 0 then
        set_file p (with_flags f (set_bits (f_flags f)
          (if s32 (msg_data m) =? STATUS_END_OF_FILE then STREAM_EOF else STREAM_ERROR)));;
        mret false
      else mret true
  end.

Definition maybe_read (p buffer buffer_size : Z) : L Z :=
  if p =? NULL then mret 0
  else if (buffer =? NULL) || (buffer_size =? 0) then mret 0
  else
    f ← file_at p;
    if negb (IS_READABLE f) then mret 0
    else if has (f_flags f) STREAM_PUSHBACK then
      mem_do (store buffer (f_pushback f));;
      set_file p (with_flags f (clear_bits (f_flags f) STREAM_PUSHBACK));;
      mret 1
    else
      more ← (if f_buffer_size f =? 0 then refill p buffer_size else mret true);
      if negb more then mret 0
      else
        f ← file_at p;
        lassert (negb (f_buffer f =? NULL));;
        lassert (0 <? f_buffer_size f);;
        let bytes_read := Z.min buffer_size (f_buffer_size f) in
        mem_do (memcpy buffer (f_buffer f) bytes_read);;
        set_file p (with_buffer f (u32 (f_buffer f + bytes_read)) (f_buffer_size f - bytes_read));;
        mret bytes_read.

(** ** write.c *)

Definition write (p data data_size : Z) : L Z :=
  if p =? NULL then mret 0
  else
    f ← file_at p;
    st ← ask (send_message (Some (mkMessage (f_thread_id f) MESSAGE_TYPE_WRITE MESSAGE_ID_ATOMIC data data_size NULL)));
    mret (if st =? STATUS_SUCCESS then data_size else 0).

Definition maybe_write (p data data_size : Z) : L Z :=
  if p =? NULL then mret 0
  else
    f ← file_at p;
    if negb (IS_WRITABLE f) then mret 0
    else if data_size =? 0 then mret 0
    else write p data data_size.

(** ** stream.c *)

Definition allocate_FILE : L Z :=
  p ← ask (malloc 28);
  if p =? NULL then mret NULL
  else set_file p (mkFILE NULL 0 0 0 None 0 0);; mret p.

Fixpoint stream_mode_loop (fuel : nat) (mode mode_bits : Z) : C Z :=
  match fuel with
  | O => fail OutOfFuel
  | S f =>
      c ← loadc mode;
      if c =? 0 then mret mode_bits
      else if c =? 114 then stream_mode_loop f (mode + 1) (Z.lor mode_bits STREAM_READ)
      else if c =? 119 then stream_mode_loop f (mode + 1) (Z.lor mode_bits STREAM_WRITE)
      else if c =? 97 then stream_mode_loop f (mode + 1) (Z.lor mode_bits (Z.lor STREAM_WRITE STREAM_APPEND))
      else if c =? 98 then stream_mode_loop f (mode + 1) mode_bits
      else mret 0
  end.

Definition parse_stream_mode (mode : Z) : C Z :=
  if mode =? NULL then mret 0 else with_fuel (fun fuel => stream_mode_loop fuel mode 0).

(** ** fopen.c, fclose.c, fflush.c *)

(** The part after the descriptor was allocated; the descriptor is not freed
    when the request fails. *)
Definition open_stream (p filename flags : Z) : L Z :=
  let target_thread := 0 in
  mem_do (strncpy (at_request fr) filename (FILENAME_MAX + 1));;
  mem_do (store32 (open_request_flags (at_request fr)) flags);;
  id ← next_rand;
  '(st, reply) ← ask (send_and_receive_message
    (Some (mkMessage target_thread MESSAGE_TYPE_OPEN id (at_request fr) open_request_size NULL)) (Some initialize_message));
  if negb (st =? STATUS_SUCCESS) then set_errno st;; mret NULL
  else
    let reply := default initialize_message reply in
    lassert (msg_type reply =? MESSAGE_TYPE_OPEN_COMPLETE);;
    if msg_data_size reply <? open_reply_size then set_errno STATUS_IO_ERROR;; mret NULL
    else
      cookie ← mem_do (load32 (msg_data reply));
      st ← mem_do (load32 (msg_data reply + 4));
      if negb (s32 st =? STATUS_SUCCESS) then set_errno (s32 st);; mret NULL
      else
        f ← file_at p;
        set_file p (mkFILE (f_buffer f) (f_buffer_size f) cookie (Z.lor flags STREAM_OPEN) (f_input_message f) (f_pushback f) target_thread);;
        mret p.

Definition fopen (filename mode : Z) : L Z :=
  empty ← (if filename =? NULL then mret true else n ← mem_do (strlen filename); mret (n =? 0));
  if empty : bool then set_errno STATUS_INVALID_DATA;; mret NULL
  else
    flags ← mem_do (parse_stream_mode mode);
    if flags =? 0 then set_errno STATUS_INVALID_DATA;; mret NULL
    else
      p ← allocate_FILE;
      if p =? NULL then set_errno STATUS_INSUFFICIENT_MEMORY;; mret NULL
      else open_stream p filename flags.

Definition fflush (p : Z) : L Z :=
  if p =? NULL then mret 0
  else
    f ← file_at p;
    (match f_input_message f with
     | Some (block, m) =>
         ask (delete_message (Some m));;
         ask (free block);;
         set_file p (with_input (with_buffer f NULL 0) None)
     | None => mret tt
     end);;
    '(st, reply) ← ask (send_and_receive_message
      (Some (mkMessage (f_thread_id f) MESSAGE_TYPE_FLUSH 0 0 0 NULL)) (Some initialize_message));
    (if st =? STATUS_SUCCESS then ask (delete_message reply) else mret 0);;
    mret 0.

Definition fclose (p : Z) : L Z :=
  if p =? NULL then set_errno (- EINVAL);; mret EOF
  else
    f ← file_at p;
    if negb (has (f_flags f) STREAM_OPEN) then set_errno (- EINVAL);; mret EOF
    else
      fflush p;;
      f ← file_at p;
      set_file p (with_flags f (clear_bits (f_flags f) STREAM_OPEN));;
      id ← next_rand;
      '(st, reply) ← ask (send_and_receive_message
        (Some (mkMessage (f_thread_id f) MESSAGE_TYPE_CLOSE id (f_cookie f) 0 NULL)) (Some initialize_message));
      if st =? STATUS_SUCCESS then
        let reply := default initialize_message reply in
        lassert (msg_type reply =? MESSAGE_TYPE_CLOSE_COMPLETE);;
        set_errno (s32 (msg_data reply));;
        mret (if msg_data reply =? NULL then 0 else EOF)
      else set_errno st;; mret EOF.

(** ** Input: fgetc.c, fgets.c, fread.c, ungetc.c, getchar.c, gets.c *)

Definition fgetc (p : Z) : L Z :=
  bytes_read ← maybe_read p (at_character fr) 1;
  if bytes_read <? 1 then mret EOF else mem_do (load (at_character fr)).

Definition ungetc (c p : Z) : L Z :=
  if p =? NULL then mret EOF
  else if c =? EOF then mret c
  else
    f ← file_at p;
    if has (f_flags f) STREAM_PUSHBACK then mret EOF
    else
      set_file p (with_flags (with_pushback f (u8 c))
        (clear_bits (set_bits (f_flags f) STREAM_PUSHBACK) STREAM_EOF));;
      mret c.

Definition fread (buffer element_size element_count p : Z) : L Z :=
  if (buffer =? NULL) || (element_size <? 1) || (element_count <? 1) then mret 0
  else
    bytes_read ← maybe_read p buffer (u32 (element_count * element_size));
    mret (bytes_read / element_size).

(** The loop of [fgets]: the number of rounds is what is left of the buffer. *)
Fixpoint fgets_loop (n : nat) (b p : Z) : L Z :=
  match n with
  | O => mret b
  | S n' =>
      c ← fgetc p;
      if c =? EOF then mret b
      else
        mem_do (store b c);;
        if c =? 10 then mret (b + 1) else fgets_loop n' (b + 1) p
  end.

Definition fgets (buffer buffer_size p : Z) : L Z :=
  if (buffer =? NULL) || (buffer_size <? 1) then mret buffer
  else
    b ← fgets_loop (Z.to_nat (buffer_size - 1)) buffer p;
    mem_do (store b 0);;
    mret buffer.

Definition getchar : L Z := fgetc (stdin fr).

Fixpoint gets_loop (fuel : nat) (b : Z) : L Z :=
  match fuel with
  | O => lfail OutOfFuel
  | S f =>
      c ← getchar;
      if (c =? 10) || (c =? EOF) then mret b
      else mem_do (store b c);; gets_loop f (b + 1)
  end.

Definition gets (buffer : Z) : L Z :=
  if buffer =? NULL then mret buffer
  else b ← gets_loop patience buffer; mem_do (store b 0);; mret buffer.

(** ** Output: fputc.c, fputs.c, fwrite.c, putchar.c, puts.c, printf.c, fprintf.c *)

Definition fputc (c p : Z) : L Z :=
  mem_do (store (at_character fr) c);;
  written ← maybe_write p (at_character fr) 1;
  if negb (written =? 1) then
    f ← file_at p;
    set_file p (with_flags f (set_bits (f_flags f) STREAM_ERROR));;
    mret EOF
  else mret c.

Definition fputs (s p : Z) : L Z :=
  length ← mem_do (strlen s);
  written ← maybe_write p s length;
  mret (if written =? length then s32 written else EOF).

Definition fwrite (data element_size element_count p : Z) : L Z :=
  bytes_written ← maybe_write p data (u32 (element_size * element_count));
  if element_size =? 0 then lfail BadArgument else mret (bytes_written / element_size).

Definition putchar (c : Z) : L Z := fputc c (stdout fr).

Definition puts (string : Z) : L Z :=
  length ← mem_do (strlen string);
  mem_do (memcpy (at_line fr) string length);;
  mem_do (store (at_line fr + length) 10);;
  mem_do (store (at_line fr + length + 1) 0);;
  fputs (at_line fr) (stdout fr).

Section Formatted.
Context (lay : layout) {double : Type} (to_float : double -> double) (dtoa : double -> Z -> Z -> C (Z * Z * Z)).

Definition fprintf (p format : Z) (arguments : list (va double)) : L Z :=
  length ← mem_do (vsnprintf lay to_float dtoa (at_text fr) 256 format arguments);
  written ← maybe_write p (at_text fr) (u32 length);
  mret (if s32 written =? length then s32 written else EOF).

Definition printf (format : Z) (arguments : list (va double)) : L Z :=
  length ← mem_do (vsnprintf lay to_float dtoa (at_text fr) 256 format arguments);
  written ← maybe_write (stdout fr) (at_text fr) (u32 length);
  mret (if s32 written =? length then s32 written else EOF).

(** [trying] is the address of the format. *)
Definition freopen (trying path mode p : Z) : L Z := printf trying [VPtr path];; fclose p;; mret NULL.
End Formatted.

(** ** feof.c, ferror.c, clearerr.c, fseek.c, ftell.c, freopen.c, setvbuf.c *)

Definition feof (p : Z) : L Z := f ← file_at p; mret (Z.land (f_flags f) STREAM_EOF).
Definition ferror (p : Z) : L Z := f ← file_at p; mret (Z.land (f_flags f) STREAM_ERROR).
Definition clearerr (p : Z) : L unit :=
  f ← file_at p; set_file p (with_flags f (clear_bits (f_flags f) (Z.lor STREAM_ERROR STREAM_EOF))).

Definition fseek (p offset whence : Z) : L Z :=
  if p =? NULL then mret (-1)
  else
    f ← file_at p;
    (if has (f_flags f) STREAM_OPEN then set_file p (with_flags f (set_bits (f_flags f) STREAM_ERROR)) else mret tt);;
    mret (-1).

Definition ftell (p : Z) : L Z :=
  (if p =? NULL then mret tt else file_at p;; mret tt);;
  set_errno (- ENOSYS);;
  mret (-1).

Definition setvbuf (p buf mode size : Z) : L Z := mret (- ENOSYS).

End Streams.
