(* ===== verification/StreamsThms.v ===== *)
(** * What the streams of libc deliver

    A stream over a driver that serves a file ([FileDriver]) is a list of bytes
    still to be read: [holds s p rest]. The input routines take bytes from its
    head, [ungetc] puts one back; requests to the driver are made when the
    buffered block is used up, and neither lose nor repeat a byte. The output
    routines send one message with exactly the bytes of the caller. *)

From S2P Require Import Prelude CMem CString CStringMem CStringStr NumConv World Libdx LibdxThms Printf PrintfThms Loader Streams.

Lemma lrun_bind {A B} (c : L A) (k : A -> L B) s x s' : c s = Ret (x, s') -> (c ≫= k) s = k x s'.
Proof. intros E. unfold mbind, L_bind. by rewrite E. Qed.

Tactic Notation "lrun" uconstr(E) := erewrite lrun_bind; [|by eapply E]; cbn beta iota.

Lemma lrun_mem {A} (c : C A) l m h x m' : c m = Ret (x, m') -> mem_do c (l, Machine m h) = Ret (x, (l, Machine m' h)).
Proof. intros E. unfold mem_do, ask. cbn. by erewrite drun_lift by exact E. Qed.

Lemma lrun_file p f s : files s.1 !! p = Some f -> file_at p s = Ret (f, s).
Proof. intros E. unfold file_at. by rewrite E. Qed.

Lemma lassert_run b s : b = true -> lassert b s = Ret (tt, s).
Proof. intros ->. destruct s as [l [m h]]. done. Qed.

Definition with_file (s : libc * machine) (p : Z) (f : FILE) : libc * machine :=
  (mkLibc (errno s.1) (random_seed s.1) (<[p := f]> (files s.1)), s.2).

(** The flags of a stream that is open, with a character pushed back, at the
    end of the file. *)
Inductive mode := Normal | Pushed | AtEnd.
Definition mode_flags (m : mode) : Z :=
  match m with Normal => STREAM_OPEN | Pushed => Z.lor STREAM_OPEN STREAM_PUSHBACK | AtEnd => Z.lor STREAM_OPEN STREAM_EOF end.

(** ** Opening *)

(** The bits of a mode string. *)
Definition mode_char (c : Z) : Z :=
  if c =? 114 then STREAM_READ else if c =? 119 then STREAM_WRITE else if c =? 97 then Z.lor STREAM_WRITE STREAM_APPEND else 0.
Definition mode_bits (cs : list Z) : Z := foldr (fun c b => Z.lor (mode_char c) b) 0 cs.
Definition mode_ok (cs : list Z) : Prop := Forall (fun c => c = 114 \/ c = 119 \/ c = 97 \/ c = 98) cs.

Lemma stream_mode_loop_run m cs : forall fuel mode bits, cstr m mode cs -> mode_ok cs -> (length cs < fuel)%nat ->
  stream_mode_loop fuel mode bits m = Ret (Z.lor bits (mode_bits cs), m).
Proof.
  induction cs as [|c cs IH]; intros [|fuel] mode bits Hs Hok Hf; cbn [length] in Hf; try lia; cbn [stream_mode_loop].
  - apply cstr_nil in Hs as [_ Hs]. crun run_loadc. cbn. by rewrite Z.lor_0_r.
  - apply cstr_cons in Hs as (_ & Hs & _ & Hs'). apply Forall_cons in Hok as [Hc Hok]. crun run_loadc.
    destruct Hc as [->|[->|[->| ->]]]; (etransitivity; [apply IH; [done..|lia]|]); cbn [mode_bits foldr]; fold (mode_bits cs); unfold mode_char; cbn [Z.eqb Pos.eqb]; by rewrite <- ?Z.lor_assoc.
Qed.

Lemma parse_stream_mode_run m mode cs : cstr m mode cs -> mode_ok cs -> parse_stream_mode mode m = Ret (mode_bits cs, m).
Proof.
  intros Hs Hok. pose proof (cstr_range _ _ _ Hs). unfold parse_stream_mode, with_fuel. rewrite (proj2 (Z.eqb_neq mode NULL)) by (unfold NULL; lia).
  rewrite (stream_mode_loop_run m cs) by (done || by apply cstr_fuel in Hs). done.
Qed.

(** A descriptor that was just opened. *)
Definition fresh_file (cookie flags : Z) : FILE := mkFILE NULL 0 cookie (Z.lor flags STREAM_OPEN) None 0 0.

Section Opening.
Context `{World} (fr : stream_frame).

(** What the file system answers: the file is open, under the cookie. *)
Definition accepts_open (cookie : Z) (h : history) : Prop := is_u32 cookie /\ forall a m,
  data1 a = MESSAGE_TYPE_OPEN -> let '(r, m') := kernel_reply (Syscall SYSTEM_CALL_VECTOR_SEND_AND_RECEIVE_MESSAGE a m :: h) in
  status r = STATUS_SUCCESS /\ data1 r = MESSAGE_TYPE_OPEN_COMPLETE /\ open_reply_size <= data4 r /\ bytes_at m' (data3 r) (words_bytes [cookie; STATUS_SUCCESS]).

Lemma fopen_run l m h filename name mode cs p m1 cookie :
  cstr m filename name -> name <> [] -> cstr m mode cs -> mode_ok cs -> mode_bits cs <> 0 ->
  heap_block (Malloc 28 m :: h) = (p, m1) -> p <> NULL -> cstr m1 filename name -> 0 < at_request fr -> mapped m1 (at_request fr) open_request_size ->
  at_request fr + 257 <= filename \/ filename + Z.of_nat (length name) < at_request fr -> accepts_open cookie (Malloc 28 m :: h) ->
  exists e w', let m2 := write_bytes (write_bytes m1 (at_request fr) (take 257 (name ++ replicate 257 0))) (open_request_flags (at_request fr)) (word_bytes (mode_bits cs)) in
  fopen fr filename mode (l, Machine m h) = Ret (p, (mkLibc (errno l) (rand (random_seed l)) (<[p := fresh_file cookie (mode_bits cs)]> (files l)), w')) /\
  trace w' = Syscall SYSTEM_CALL_VECTOR_SEND_AND_RECEIVE_MESSAGE e m2 :: Malloc 28 m :: h /\ data1 e = MESSAGE_TYPE_OPEN /\ data0 e = 0 /\
  (kernel_reply (trace w')).2 = memory w'.
Proof.
  intros Hs Hne Hmo Hok Hbits Hheap Hp Hs1 Hat Hmap Hdis [Hck Hans]. pose proof (cstr_range _ _ _ Hs). set (m2 := write_bytes _ (open_request_flags _) _).
  set (msg := mkMessage 0 MESSAGE_TYPE_OPEN (rand (random_seed l)) (at_request fr) open_request_size NULL).
  destruct (system_call_run SYSTEM_CALL_VECTOR_SEND_AND_RECEIVE_MESSAGE (message_fields msg) (Machine m2 (Malloc 28 m :: h))) as (u & r & w' & E & Ht & Hr). cbn [memory trace] in Ht.
  set (e := syscall_args u (message_fields msg)) in *. exists e, w'. specialize (Hans e m2 eq_refl). rewrite Ht in Hr. rewrite Hr in Hans. destruct Hans as (A1 & A2 & A3 & A4). unfold fopen. rewrite (proj2 (Z.eqb_neq filename NULL)) by (unfold NULL; lia).
  erewrite lrun_bind; cycle 1.
  { erewrite lrun_bind; [|apply lrun_mem, strlen_run, Hs]. unfold mret, L_ret. rewrite (proj2 (Z.eqb_neq (Z.of_nat (length name)) 0)); [reflexivity|]. by destruct name; [|cbn; lia]. }
  cbn beta iota. erewrite lrun_bind; [|apply lrun_mem; by eapply parse_stream_mode_run]. rewrite (proj2 (Z.eqb_neq (mode_bits cs) 0) Hbits).
  erewrite lrun_bind; cycle 1.
  { unfold allocate_FILE. erewrite lrun_bind; [|unfold ask, malloc; cbn [snd memory trace]; rewrite Hheap; reflexivity]. rewrite (proj2 (Z.eqb_neq p NULL) Hp).
    erewrite lrun_bind by (unfold set_file; reflexivity). reflexivity. }
  rewrite (proj2 (Z.eqb_neq p NULL) Hp). unfold open_stream. cbn [fst snd].
  erewrite lrun_bind; [|apply lrun_mem, (strncpy_run _ _ _ _ name); [done|unfold FILENAME_MAX; lia|done|eapply mapped_sub; [exact Hmap|lia|unfold open_request_size, FILENAME_MAX; lia]|unfold FILENAME_MAX; lia]].
  erewrite lrun_bind; [|apply lrun_mem, store32_bytes, mapped_write; eapply mapped_sub; [exact Hmap|unfold open_request_flags; lia|unfold open_request_flags, open_request_size; lia]].
  change (Z.to_nat (FILENAME_MAX + 1)) with 257%nat. fold m2. erewrite lrun_bind by (unfold next_rand; reflexivity). cbn [fst snd random_seed errno files].
  fold msg. set (l1 := mkLibc _ (rand _) _).
  erewrite lrun_bind; [|unfold ask, send_and_receive_message; cbn [snd]; erewrite drun_bind by exact E; reflexivity]. rewrite A1, Z.eqb_refl. cbn [negb default].
  change (id (received r)) with (received r). erewrite lrun_bind; [|apply lassert_run; by apply Z.eqb_eq]. change (msg_data_size (received r)) with (data4 r). change (msg_data (received r)) with (data3 r). rewrite (proj2 (Z.ltb_ge _ _) A3).
  destruct w' as [m' h']. cbn [memory trace] in *. change (words_bytes [cookie; STATUS_SUCCESS]) with (word_bytes cookie ++ word_bytes STATUS_SUCCESS ++ []) in A4. apply bytes_at_app in A4 as [B1 B2]. apply bytes_at_app in B2 as [B2 _].
  erewrite lrun_bind; [|apply lrun_mem, load32_bytes; [exact Hck|exact B1]]. erewrite lrun_bind; [|apply lrun_mem, (load32_bytes _ _ STATUS_SUCCESS); [done|exact B2]].
  change (s32 STATUS_SUCCESS) with STATUS_SUCCESS. rewrite Z.eqb_refl. cbn [negb]. erewrite lrun_bind; [|apply (lrun_file p (mkFILE NULL 0 0 0 None 0 0)), lookup_insert_eq].
  erewrite lrun_bind by (unfold set_file; reflexivity). cbn [fst snd errno random_seed files l1]. rewrite insert_insert_eq. split; [reflexivity|]. split; [done|]. split; [done|]. split; [done|]. by rewrite Ht, Hr.
Qed.
End Opening.

Section Reading.
Context `{World} (fr : stream_frame) (own : Z -> Prop) (content : list Z) (thread cookie : Z).

(** A request of the stream to its driver. *)
Definition reads_from (e : event) : bool :=
  match e with
  | Syscall v a m => (v =? SYSTEM_CALL_VECTOR_SEND_AND_RECEIVE_MESSAGE) && (data1 a =? MESSAGE_TYPE_READ) && (data0 a =? thread) &&
      bool_decide (take 4 (payload e) = word_bytes cookie)
  | _ => false
  end.

(** How many bytes the answers up to now have delivered. *)
Fixpoint position (h : history) : nat :=
  match h with
  | [] => 0
  | e :: h' => position h' + if reads_from e then Z.to_nat (data4 (kernel_reply h).1) else 0
  end.

(** The driver and the kernel: an answer carries a non-empty piece of what is
    left of the file, outside the memory that the program owns, or reports the
    end; and the memory that the program owns is left alone. *)
Class FileDriver : Prop := {
  fd_bytes : Forall is_u8 content;
  fd_reply e h : reads_from e = true -> let '(r, m') := kernel_reply (e :: h) in let rest := drop (position h) content in
    status r = STATUS_SUCCESS /\ data1 r = MESSAGE_TYPE_READ_COMPLETE /\
    (rest = [] -> data4 r = 0 /\ s32 (data3 r) = STATUS_END_OF_FILE) /\
    (rest <> [] -> exists n : nat, (0 < n <= length rest)%nat /\ data4 r = Z.of_nat n /\ 0 < data3 r /\ data3 r + Z.of_nat n < 2 ^ 32 /\
       bytes_at m' (data3 r) (take n rest) /\ forall a, data3 r <= a < data3 r + Z.of_nat n -> ~ own a);
  fd_keeps v a m h : v = SYSTEM_CALL_VECTOR_SEND_AND_RECEIVE_MESSAGE \/ v = SYSTEM_CALL_VECTOR_DELETE_MESSAGE ->
    forall x, own x -> (kernel_reply (Syscall v a m :: h)).2 !! x = m !! x;
  fd_heap n m h : (heap_block (Malloc n m :: h)).1 <> NULL /\ forall x, own x -> (heap_block (Malloc n m :: h)).2 !! x = m !! x }.
Context `{!FileDriver}.

(** Memory of the program: mapped, and its own. *)
Definition room (m : mem) (a n : Z) : Prop := 0 < a /\ a + n < 2 ^ 32 /\ mapped m a n /\ forall x, a <= x < a + n -> own x.

(** The own memory is as before, but for two ranges. *)
Definition kept (m m' : mem) (a n : Z) : Prop := forall x, own x -> ~ (at_payload fr <= x < at_payload fr + 8) -> ~ (a <= x < a + n) -> m' !! x = m !! x.

Definition buffered (m : mem) (f : FILE) (b : list Z) : Prop :=
  f_buffer_size f = Z.of_nat (length b) /\
  (b <> [] -> 0 < f_buffer f /\ f_buffer f + Z.of_nat (length b) < 2 ^ 32 /\ bytes_at m (f_buffer f) b /\
     forall a, f_buffer f <= a < f_buffer f + Z.of_nat (length b) -> ~ own a) /\
  Forall is_u8 b.

(** What is left to be read from the stream [p]. *)
Definition holds (s : libc * machine) (p : Z) (rest : list Z) : Prop := exists f b mo,
  p <> NULL /\ files s.1 !! p = Some f /\ f_thread_id f = thread /\ f_cookie f = cookie /\ f_flags f = mode_flags mo /\ is_u8 (f_pushback f) /\
  buffered (memory s.2) f b /\ (mo = AtEnd -> rest = []) /\
  rest = (if mo is Pushed then [f_pushback f] else []) ++ b ++ drop (position (trace s.2)) content.

Lemma own_mapped m m' a n : (forall x, own x -> m' !! x = m !! x) -> room m a n -> room m' a n.
Proof. intros Hk (H1 & H2 & H3 & H4). split; [done|]. split; [done|]. split; [|done]. intros x Hx. rewrite Hk by auto. by apply H3. Qed.

(** The message structure is there, the old message is gone. *)
Lemma prepare_input_run l w p f : files l !! p = Some f -> exists blk m0 w', let f' := with_input f (Some (blk, m0)) in
  prepare_input p (l, w) = Ret (true, (mkLibc (errno l) (random_seed l) (<[p := f']> (files l)), w')) /\
  (forall x, own x -> memory w' !! x = memory w !! x) /\ position (trace w') = position (trace w).
Proof.
  intros Ef. unfold prepare_input. lrun lrun_file. destruct (f_input_message f) as [[blk m0]|] eqn:Ei.
  - assert (mkLibc (errno l) (random_seed l) (<[p := with_input f (Some (blk, m0))]> (files l)) = l) as Hl.
    { destruct l as [e r fs]. cbn in *. f_equal. rewrite <- Ei. destruct f; cbn. by apply insert_id. }
    unfold delete_message. destruct (msg_data_size m0 =? 0).
    + exists blk, m0, w. rewrite Hl. done.
    + destruct (system_call_run SYSTEM_CALL_VECTOR_DELETE_MESSAGE [msg_data m0; msg_data_size m0] w) as (u & r & w' & E & Ht & Hr).
      exists blk, m0, w'. rewrite Hl. split; [|split].
      * erewrite lrun_bind; [|unfold ask; cbn [snd]; erewrite drun_bind by exact E; reflexivity]. done.
      * rewrite Ht in Hr. intros x Hx. pose proof (fd_keeps SYSTEM_CALL_VECTOR_DELETE_MESSAGE (syscall_args u [msg_data m0; msg_data_size m0]) (memory w) (trace w) (or_intror eq_refl) x Hx) as Hk.
        by rewrite Hr in Hk.
      * rewrite Ht. cbn. lia.
  - destruct (heap_block (Malloc 24 (memory w) :: trace w)) as [blk m1] eqn:Eh. destruct (fd_heap 24 (memory w) (trace w)) as [Hnn Hk]. rewrite Eh in Hnn, Hk. cbn in Hnn, Hk.
    set (u := uninitialized (Malloc 24 (memory w) :: trace w)). exists blk, (mkMessage u u u u u u), (Machine m1 (Malloc 24 (memory w) :: trace w)).
    split; [|split; [done|cbn; lia]]. erewrite lrun_bind; [|unfold ask, malloc; cbn [snd]; rewrite Eh; reflexivity]. cbn beta. by rewrite (proj2 (Z.eqb_neq _ _) Hnn).
Qed.

Definition request_bytes (hint : Z) : list Z := words_bytes [cookie; hint].

(** One request: the answer is the message. *)
Lemma read_loop_run n l w p f hint : files l !! p = Some f -> f_thread_id f = thread -> bytes_at (memory w) (at_payload fr) (request_bytes hint) ->
  (forall x, at_payload fr <= x < at_payload fr + 8 -> own x) ->
  exists f' r l' w', let h := trace w' in
  read_loop fr (S n) p (l, w) = Ret (Some (received r), (l', w')) /\
  files l' = <[p := f']> (files l) /\ f_buffer f' = f_buffer f /\ f_buffer_size f' = f_buffer_size f /\ f_cookie f' = f_cookie f /\ f_flags f' = f_flags f /\
  f_pushback f' = f_pushback f /\ f_thread_id f' = f_thread_id f /\ errno l' = errno l /\
  (forall x, own x -> memory w' !! x = memory w !! x) /\
  (drop (position (trace w)) content = [] -> data4 r = 0 /\ s32 (data3 r) = STATUS_END_OF_FILE /\ position h = position (trace w)) /\
  (drop (position (trace w)) content <> [] -> exists k : nat, (0 < k <= length (drop (position (trace w)) content))%nat /\ data4 r = Z.of_nat k /\ 0 < data3 r /\
     data3 r + Z.of_nat k < 2 ^ 32 /\ bytes_at (memory w') (data3 r) (take k (drop (position (trace w)) content)) /\
     (forall a, data3 r <= a < data3 r + Z.of_nat k -> ~ own a) /\ position h = (position (trace w) + k)%nat).
Proof.
  intros Ef Hth Hreq Hown. destruct (prepare_input_run l w p f Ef) as (blk & m0 & w1 & E1 & Hk1 & Hp1). cbn in E1. set (f1 := with_input f (Some (blk, m0))) in *.
  set (l1 := mkLibc _ _ _) in E1. cbn [read_loop]. erewrite lrun_bind by exact E1. cbn [negb].
  erewrite lrun_bind; [|apply (lrun_file p f1); cbn; apply lookup_insert_eq]. cbn [f1 f_input_message with_input].
  set (id := rand (random_seed l1)). erewrite lrun_bind; [|unfold next_rand; reflexivity]. fold id. cbn [fst snd]. set (l2 := mkLibc (errno l1) id (files l1)).
  set (msg := mkMessage (f_thread_id f1) MESSAGE_TYPE_READ id (at_payload fr) read_request_size NULL).
  destruct (system_call_run SYSTEM_CALL_VECTOR_SEND_AND_RECEIVE_MESSAGE (message_fields msg) w1) as (u & r & w2 & E2 & Ht & Hr).
  erewrite lrun_bind; [|unfold ask, send_and_receive_message; cbn [snd]; erewrite drun_bind by exact E2; reflexivity].
  assert (bytes_at (memory w1) (at_payload fr) (request_bytes hint)) as Hreq1.
  { eapply bytes_at_frame; [|exact Hreq]. intros x Hx. apply Hk1, Hown. exact Hx. }
  set (e := Syscall SYSTEM_CALL_VECTOR_SEND_AND_RECEIVE_MESSAGE (syscall_args u (message_fields msg)) (memory w1)) in *.
  assert (reads_from e = true) as Hrd.
  { unfold reads_from, e. rewrite !andb_true_iff. split; [split; [done|apply Z.eqb_eq; exact Hth]|].
    apply bool_decide_eq_true. rewrite (words_payload u _ (message_fields msg) _ (at_payload fr) [cookie; hint] eq_refl eq_refl Hreq1). done. }
  pose proof (fd_reply e (trace w1) Hrd) as Hfd. rewrite Ht in Hr. rewrite Hr in Hfd. destruct Hfd as (Hst & Hty & Hend & Hmore).
  cbn [default]. set (f2 := with_input f1 (Some (blk, received r))). erewrite lrun_bind by (unfold set_file; reflexivity). cbn [fst snd].
  rewrite Hst, Z.eqb_refl. erewrite lrun_bind; [|apply lassert_run, orb_true_iff; left; apply Z.eqb_eq; exact Hty].
  exists f2, r, (mkLibc (errno l2) (random_seed l2) (<[p := f2]> (files l2))), w2. split; [reflexivity|]. split; [cbn; by rewrite insert_insert_eq|].
  do 7 (split; [done|]). split.
  { intros x Hx. rewrite <- Hk1 by done. pose proof (fd_keeps SYSTEM_CALL_VECTOR_SEND_AND_RECEIVE_MESSAGE (syscall_args u (message_fields msg)) (memory w1) (trace w1) (or_introl eq_refl) x Hx) as Hk.
    fold e in Hk. by rewrite Hr in Hk. }
  rewrite Hp1 in Hend, Hmore. assert (position (trace w2) = (position (trace w) + Z.to_nat (data4 r))%nat) as Hpos.
  { rewrite Ht. cbn [position]. by rewrite Hrd, Hr, Hp1. }
  split.
  - intros Hx. destruct (Hend Hx) as [H1 H2]. rewrite Hpos, H1. split; [done|]. split; [done|lia].
  - intros Hx. destruct (Hmore Hx) as (k & Hk1' & Hk2 & H3 & H4 & H5 & H6). exists k. rewrite Hpos, Hk2, Nat2Z.id. done.
Qed.

Lemma write_own m a l x : ~ (a <= x < a + Z.of_nat (length l)) -> write_bytes m a l !! x = m !! x.
Proof. intros Hx. rewrite lookup_write_bytes. by rewrite decide_False. Qed.

(** Bytes outside the own memory do not see a write to it. *)
Lemma buffered_write m f b a n l : buffered m f b -> room m a n -> Z.of_nat (length l) <= n -> buffered (write_bytes m a l) f b.
Proof.
  intros (H1 & H2 & H3) (_ & _ & _ & Ho) Hl. split; [done|]. split; [|done]. intros Hb. destruct (H2 Hb) as (B1 & B2 & B3 & B4). split; [done|]. split; [done|]. split; [|done].
  eapply bytes_at_frame; [|exact B3]. intros x Hx. apply write_own. intros Hy. apply (B4 x Hx), Ho. lia.
Qed.

Lemma buffered_drop m f b k : buffered m f b -> (k <= length b)%nat ->
  buffered m (with_buffer f (u32 (f_buffer f + Z.of_nat k)) (f_buffer_size f - Z.of_nat k)) (drop k b).
Proof.
  intros (H1 & H2 & H3) Hk. split; [cbn; rewrite H1, length_drop; lia|]. split; [|by apply Forall_drop]. intros Hne.
  assert (k < length b)%nat as Hk' by (destruct (decide (k < length b)%nat); [done|]; destruct Hne; by apply drop_ge; lia).
  destruct H2 as (B1 & B2 & B3 & B4); [by destruct b; [cbn in Hk'; lia|]|]. cbn. rewrite length_drop, u32_small by lia. split; [lia|]. split; [lia|]. split; [|intros a Ha; apply B4; lia].
  rewrite <- (take_drop k b) in B3. apply bytes_at_app in B3 as [_ B3]. by rewrite length_take_le in B3 by lia.
Qed.

(** The last part of [maybe_read]: bytes of the block go to the caller. *)
Lemma consume_run l m h p f b buffer n : files l !! p = Some f -> buffered m f b -> b <> [] -> room m buffer n -> 0 < n ->
  let k := Nat.min (Z.to_nat n) (length b) in
  (f ← file_at p;
   lassert (negb (f_buffer f =? NULL));;
   lassert (0 <? f_buffer_size f);;
   let bytes_read := Z.min n (f_buffer_size f) in
   mem_do (memcpy buffer (f_buffer f) bytes_read);;
   set_file p (with_buffer f (u32 (f_buffer f + bytes_read)) (f_buffer_size f - bytes_read));;
   mret bytes_read) (l, Machine m h)
  = Ret (Z.of_nat k, with_file (l, Machine (write_bytes m buffer (take k b)) h) p (with_buffer f (u32 (f_buffer f + Z.of_nat k)) (f_buffer_size f - Z.of_nat k))) .
Proof.
  intros Ef Hb Hne Hroom Hn k. pose proof Hb as (Hsz & Hbuf & Hu). destruct (Hbuf Hne) as (B1 & B2 & B3 & B4). lrun lrun_file.
  assert (0 < length b)%nat by (destruct b; [done|cbn; lia]).
  erewrite lrun_bind; [|apply lassert_run; apply negb_true_iff, Z.eqb_neq; unfold NULL; lia]. erewrite lrun_bind; [|apply lassert_run; apply Z.ltb_lt; lia].
  assert (Z.min n (f_buffer_size f) = Z.of_nat k) as -> by (unfold k; lia). destruct Hroom as (R1 & R2 & R3 & R4).
  erewrite lrun_bind; [|apply lrun_mem, (memcpy_run m buffer (f_buffer f) (Z.of_nat k) (take k b)); [done|done| | | | |]].
  - reflexivity.
  - rewrite length_take_le; lia.
  - rewrite <- (take_drop k b) in B3. by apply bytes_at_app in B3 as [B3 _].
  - by apply Forall_take.
  - eapply mapped_sub; [exact R3|lia|lia].
  - destruct (Z.le_gt_cases buffer (f_buffer f)); [by left|right]. destruct (Z.le_gt_cases (f_buffer f + Z.of_nat k) buffer) as [|Hov]; [done|exfalso].
    apply (B4 buffer); [lia|]. apply R4. lia.
Qed.

(** What a call leaves: another list of bytes to read, the own memory but for
    the buffer, and the other streams. *)
Record reads_ok (s s' : libc * machine) (p a n : Z) (rest : list Z) : Prop := {
  ro_holds : holds s' p rest;
  ro_kept : kept (memory s.2) (memory s'.2) a n;
  ro_room b k : room (memory s.2) b k -> room (memory s'.2) b k;
  ro_others : exists f, files s'.1 = <[p := f]> (files s.1) /\ has (f_flags f) STREAM_PUSHBACK = false;
  ro_errno : errno s'.1 = errno s.1 }.

Lemma room_write m a l b k : room m b k -> room (write_bytes m a l) b k.
Proof. intros (H1 & H2 & H3 & H4). split; [done|]. split; [done|]. split; [by apply mapped_write|done]. Qed.

Lemma store_request m n : room m (at_payload fr) 8 ->
  (store32 (at_payload fr) cookie;; store32 (at_payload fr + 4) n) m = Ret (tt, write_bytes m (at_payload fr) (request_bytes n)).
Proof.
  intros (_ & _ & Hm & _). erewrite run_bind by (apply store32_bytes; eapply mapped_sub; [exact Hm|lia|lia]).
  rewrite store32_bytes by (apply mapped_write; eapply mapped_sub; [exact Hm|lia|lia]). unfold request_bytes, words_bytes. cbn [fmap list_fmap concat]. by rewrite app_nil_r, write_bytes_app.
Qed.

Context (patience : nat) (Hpat : (0 < patience)%nat).

(** A refill: the next block of the file, or its end. *)
Lemma refill_run l m h p f n : files l !! p = Some f -> p <> NULL -> f_thread_id f = thread -> f_cookie f = cookie -> f_flags f = STREAM_OPEN -> f_buffer_size f = 0 ->
  room m (at_payload fr) 8 -> exists more l' w' f' b, refill fr patience p n (l, Machine m h) = Ret (more, (l', w')) /\
  files l' = <[p := f']> (files l) /\ errno l' = errno l /\ f_thread_id f' = thread /\ f_cookie f' = cookie /\ f_pushback f' = f_pushback f /\
  (forall x, own x -> ~ (at_payload fr <= x < at_payload fr + 8) -> memory w' !! x = m !! x) /\ (forall c k, room m c k -> room (memory w') c k) /\
  buffered (memory w') f' b /\ drop (position h) content = b ++ drop (position (trace w')) content /\
  (if more : bool then b <> [] /\ f_flags f' = STREAM_OPEN else drop (position h) content = [] /\ f_flags f' = mode_flags AtEnd).
Proof.
  intros Ef Hp Hth Hck Hfl Hsz Hpay. destruct patience as [|pat]; [lia|]. unfold refill. lrun lrun_file. set (f0 := with_buffer f NULL (f_buffer_size f)).
  erewrite lrun_bind by (unfold set_file; reflexivity). cbn [fst snd]. set (l0 := mkLibc _ _ _). set (m1 := write_bytes m (at_payload fr) (request_bytes n)).
  assert (files l0 !! p = Some f0) as Ef0 by apply lookup_insert_eq.
  destruct (read_loop_run pat l0 (Machine m1 h) p f0 n Ef0 Hth (bytes_at_write _ _ _) (proj2 (proj2 (proj2 Hpay)))) as
    (f1 & r & l1 & w1 & Er & Hfs & B1 & B2 & B3 & B4 & B5 & B6 & Herr & Hk & Hend & Hmore). cbn [memory trace] in *.
  erewrite lrun_bind; cycle 1.
  { unfold read. erewrite lrun_bind; [|apply lassert_run; by apply negb_true_iff, Z.eqb_neq]. erewrite lrun_bind; [|apply (lrun_file p f0), Ef0]. cbn [f_cookie f0 with_buffer].
    rewrite Hck. erewrite lrun_bind; [|apply lrun_mem, store_request, Hpay]. exact Er. }
  assert (files l1 = <[p := f1]> (files l)) as Hfs1 by (rewrite Hfs; cbn; apply insert_insert_eq).
  erewrite lrun_bind; [|apply (lrun_file p f1); cbn [fst]; rewrite Hfs1; apply lookup_insert_eq]. erewrite lrun_bind by (unfold set_file; reflexivity). cbn [fst snd].
  change (msg_data (received r)) with (data3 r). change (msg_data_size (received r)) with (data4 r).
  assert (forall x, own x -> ~ (at_payload fr <= x < at_payload fr + 8) -> memory w1 !! x = m !! x) as Hkept by (intros x Hx Hn; rewrite Hk by done; by apply write_own).
  assert (forall c k, room m c k -> room (memory w1) c k) as Hroom by (intros c k Hc; eapply own_mapped; [exact Hk|by apply room_write]).
  destruct (decide (drop (position h) content = [])) as [Hnil|Hne].
  - destruct (Hend Hnil) as (D4 & D3 & Hpos). rewrite D4, Z.eqb_refl, D3, Z.eqb_refl. erewrite lrun_bind by (unfold set_file; reflexivity). cbn [fst snd].
    set (f2 := with_flags _ _). exists false, (mkLibc (errno l1) (random_seed l1) (<[p := f2]> (<[p := with_buffer f1 (data3 r) 0]> (files l1)))), w1, f2, [].
    split; [reflexivity|]. split; [cbn; rewrite Hfs1, !insert_insert_eq; done|]. split; [done|]. split; [exact (eq_trans B6 Hth)|]. split; [exact (eq_trans B3 Hck)|]. split; [exact B5|].
    split; [done|]. split; [done|]. split; [by repeat split|]. split; [by rewrite Hpos|]. split; [done|]. cbn. by rewrite B4, (Hfl : f_flags f0 = _).
  - destruct (Hmore Hne) as (k & Hk1 & D4 & D3 & D3' & Hb & Hno & Hpos). rewrite D4, (proj2 (Z.eqb_neq _ _)) by lia.
    assert (length (take k (drop (position h) content)) = k) as Hlk by (apply length_take_le; lia).
    exists true, (mkLibc (errno l1) (random_seed l1) (<[p := with_buffer f1 (data3 r) (Z.of_nat k)]> (files l1))), w1, (with_buffer f1 (data3 r) (Z.of_nat k)), (take k (drop (position h) content)).
    split; [reflexivity|]. split; [cbn; rewrite Hfs1, !insert_insert_eq; done|]. split; [done|]. split; [exact (eq_trans B6 Hth)|]. split; [exact (eq_trans B3 Hck)|]. split; [exact B5|].
    split; [done|]. split; [done|]. split; [|split; [by rewrite Hpos, <- drop_drop, take_drop|split; [|cbn; by rewrite B4]]].
    + split; [cbn; by rewrite Hlk|]. split; [intros _; cbn; rewrite Hlk; done|]. apply Forall_take, Forall_drop, fd_bytes.
    + intros Hx. rewrite Hx in Hlk. cbn in Hlk. lia.
Qed.

Lemma mode_facts f mo : f_flags f = mode_flags mo -> IS_READABLE f = (if mo is AtEnd then false else true) /\ has (f_flags f) STREAM_PUSHBACK = (if mo is Pushed then true else false).
Proof. unfold IS_READABLE. intros ->. by destruct mo. Qed.

(** Bytes of a block that is not used up. *)
Lemma consume_ok l m h p f b buffer n : p <> NULL -> files l !! p = Some f -> f_thread_id f = thread -> f_cookie f = cookie -> f_flags f = STREAM_OPEN -> is_u8 (f_pushback f) ->
  buffered m f b -> b <> [] -> room m buffer n -> 0 < n -> exists (k : nat) s',
  (f ← file_at p;
   lassert (negb (f_buffer f =? NULL));;
   lassert (0 <? f_buffer_size f);;
   let bytes_read := Z.min n (f_buffer_size f) in
   mem_do (memcpy buffer (f_buffer f) bytes_read);;
   set_file p (with_buffer f (u32 (f_buffer f + bytes_read)) (f_buffer_size f - bytes_read));;
   mret bytes_read) (l, Machine m h) = Ret (Z.of_nat k, s') /\
  Z.of_nat k <= n /\ (0 < k <= length b)%nat /\ bytes_at (memory s'.2) buffer (take k b) /\ reads_ok (l, Machine m h) s' p buffer n (drop k b ++ drop (position h) content).
Proof.
  intros Hp Ef Hth Hck Hfl Hpb Hbuf Hne Hroom Hn. erewrite consume_run by done. set (k := Nat.min _ _). set (g := with_buffer f _ _).
  assert (0 < k <= length b)%nat as Hk0 by (unfold k; destruct b; [done|cbn; lia]). eexists k, _. split; [reflexivity|]. cbn [with_file fst snd memory].
  split; [lia|]. split; [done|]. split; [apply bytes_at_write|]. split.
  - exists g, (drop k b), Normal. cbn [fst snd memory trace files]. split; [done|]. split; [apply lookup_insert_eq|]. do 4 (split; [done|]).
    split; [|done]. unfold g. apply buffered_drop; [|lia]. eapply buffered_write; [done|done|rewrite length_take; lia].
  - intros x Hx H1 H2. cbn. apply write_own. rewrite length_take. lia.
  - intros c j Hc. cbn. by apply room_write.
  - exists g. split; [done|]. unfold g. cbn [f_flags with_buffer]. by rewrite Hfl.
  - done.
Qed.

(** Reading takes a prefix of what is left, empty only at the end. *)
Definition took (s s' : libc * machine) (p buffer n : Z) (rest : list Z) (k : nat) : Prop :=
  Z.of_nat k <= n /\ (k <= length rest)%nat /\ (k = 0%nat -> rest = []) /\ bytes_at (memory s'.2) buffer (take k rest) /\ reads_ok s s' p buffer n (drop k rest).

Lemma read_pushed l m h p f b buffer n : p <> NULL -> files l !! p = Some f -> f_thread_id f = thread -> f_cookie f = cookie -> f_flags f = mode_flags Pushed -> is_u8 (f_pushback f) ->
  buffered m f b -> room m buffer n -> 0 < n -> exists s',
  (mem_do (store buffer (f_pushback f));; set_file p (with_flags f (clear_bits (f_flags f) STREAM_PUSHBACK));; mret 1) (l, Machine m h) = Ret (1, s') /\
  took (l, Machine m h) s' p buffer n (f_pushback f :: b ++ drop (position h) content) 1.
Proof.
  intros Hp Ef Hth Hck Hfl Hpb Hbuf Hroom Hn. pose proof Hroom as (_ & _ & R3 & _). erewrite lrun_bind; [|apply lrun_mem, run_store, R3; lia]. set (g := with_flags _ _).
  erewrite lrun_bind by (unfold set_file; reflexivity). cbn [fst snd]. eexists _. split; [reflexivity|]. split; [lia|]. split; [cbn; lia|]. split; [done|].
  cbn [take drop snd memory]. rewrite take_0, drop_0. assert (u8 (f_pushback f) = f_pushback f) as -> by (unfold u8; apply Z.mod_small, Hpb).
  change (<[buffer := f_pushback f]> m) with (write_bytes m buffer [f_pushback f]). split; [apply bytes_at_write|]. split.
  - exists g, b, Normal. cbn [fst snd memory trace files]. split; [done|]. split; [apply lookup_insert_eq|]. do 2 (split; [done|]). split; [cbn; by rewrite Hfl|]. split; [done|].
    split; [|done]. eapply (buffered_write m f b buffer n [f_pushback f]) in Hbuf; [exact Hbuf|done|cbn; lia].
  - intros x Hx Hx1 Hx2. cbn. apply (write_own m buffer [f_pushback f]). cbn. lia.
  - intros c j Hc. cbn. by apply (room_write m buffer [f_pushback f]).
  - exists g. split; [done|]. unfold g. cbn [f_flags with_flags]. by rewrite Hfl.
  - done.
Qed.

Lemma maybe_read_run s p buffer n rest : holds s p rest -> room (memory s.2) (at_payload fr) 8 -> room (memory s.2) buffer n -> 0 < n ->
  exists (k : nat) s', maybe_read fr patience p buffer n s = Ret (Z.of_nat k, s') /\ took s s' p buffer n rest k.
Proof.
  intros (f & b & mo & Hp & Ef & Hth & Hck & Hfl & Hpb & Hbuf & Hend & ->) Hpay Hroom Hn. destruct s as [l [m h]]. cbn [fst snd memory trace] in *. pose proof Hroom as (R1 & R2 & R3 & R4).
  unfold maybe_read. rewrite (proj2 (Z.eqb_neq p NULL) Hp). rewrite (proj2 (Z.eqb_neq buffer NULL)), (proj2 (Z.eqb_neq n 0)) by (unfold NULL; lia). cbn [orb]. lrun lrun_file.
  destruct (mode_facts f mo Hfl) as [-> ->]. destruct mo; cbn [negb app].
  - destruct (decide (b = [])) as [->|Hne].
    + destruct Hbuf as (Hsz & _ & _). cbn in Hsz. rewrite Hsz, Z.eqb_refl.
      destruct (refill_run l m h p f n Ef Hp Hth Hck Hfl Hsz Hpay) as (more & l' & [m' h'] & f' & b & Er & Hfs & Herr & F1 & F2 & F3 & Hk & Hrm & Hb' & Hdrop & Hcase).
      erewrite lrun_bind by exact Er. cbn [memory trace app] in *. destruct more; cbn [negb].
      * destruct Hcase as [Hne Hfl']. rewrite <- F3 in Hpb. assert (files l' !! p = Some f') as Ef' by (rewrite Hfs; apply lookup_insert_eq).
        destruct (consume_ok l' m' h' p f' b buffer n Hp Ef' F1 F2 Hfl' Hpb Hb' Hne (Hrm _ _ Hroom) Hn) as (k & s' & Ec & Hkn & Hk0 & Hbytes & [O1 O2 O3 (g & O4 & O4') O5]).
        exists k, s'. split; [exact Ec|]. unfold took. rewrite Hdrop, take_app_le, drop_app_le, length_app by lia. split; [done|]. split; [lia|]. split; [lia|]. split; [done|]. split; [done| | | |].
        -- intros x Hx Hx1 Hx2. rewrite O2 by done. by apply Hk.
        -- intros c j Hc. by apply O3, Hrm.
        -- exists g. split; [|done]. by rewrite O4, (Hfs : files (l', Machine m' h').1 = _), insert_insert_eq.
        -- by rewrite O5.
      * destruct Hcase as [Hnil Hfl']. exists 0%nat, (l', Machine m' h'). split; [done|]. split; [lia|]. split; [lia|]. split; [done|]. split; [apply bytes_at_nil|]. split.
        -- rewrite Hnil in Hdrop. symmetry in Hdrop. apply app_eq_nil in Hdrop as [-> Hd']. exists f', [], AtEnd. cbn [fst snd memory trace]. rewrite Hnil, Hd', Hfs, lookup_insert_eq, F3. done.
        -- intros x Hx Hx1 Hx2. cbn. by apply Hk.
        -- done.
        -- exists f'. split; [done|]. by rewrite Hfl'.
        -- done.
    + assert (length b <> 0%nat) by (by destruct b). pose proof Hbuf as (Hsz & _). rewrite (proj2 (Z.eqb_neq (f_buffer_size f) 0)) by lia. erewrite lrun_bind by reflexivity. cbn [negb].
      destruct (consume_ok l m h p f b buffer n) as (k & s' & Ec & Hkn & Hk0 & Hbytes & Hro); try done.
      exists k, s'. split; [exact Ec|]. unfold took. rewrite take_app_le, drop_app_le, length_app by lia. split; [done|]. split; [lia|]. split; [lia|]. done.
  - destruct (read_pushed l m h p f b buffer n) as (s' & Es & Ht); try done. exists 1%nat, s'. done.
  - exists 0%nat, (l, Machine m h). split; [done|]. split; [lia|]. split; [lia|]. split; [intros _; by apply Hend|]. split; [apply bytes_at_nil|]. split; [|done|done| |done].
    + exists f, b, AtEnd. rewrite drop_0. done.
    + exists f. cbn. split; [by rewrite insert_id|]. by rewrite Hfl.
Qed.

(** ** Characters and lines *)

Lemma reads_ok_trans s s1 s' p a n r1 rest : reads_ok s s1 p a n r1 -> reads_ok s1 s' p a n rest -> reads_ok s s' p a n rest.
Proof.
  intros [A1 A2 A3 (f & A4 & _) A5] [B1 B2 B3 (g & B4 & Bg) B5]. split; [done| | | |congruence].
  - intros x Hx H1 H2. rewrite B2 by done. by apply A2.
  - intros c k Hc. by apply B3, A3.
  - exists g. split; [|done]. by rewrite B4, A4, insert_insert_eq.
Qed.

Definition locals_ok (m : mem) : Prop := room m (at_payload fr) 8 /\ room m (at_character fr) 1.

Lemma locals_next s s' p a n r : reads_ok s s' p a n r -> locals_ok (memory s.2) -> locals_ok (memory s'.2).
Proof. intros H1 [H2 H3]. split; by apply (ro_room _ _ _ _ _ _ H1). Qed.

Lemma fgetc_run s p rest : holds s p rest -> locals_ok (memory s.2) -> exists s',
  fgetc fr patience p s = Ret (default EOF (head rest), s') /\ reads_ok s s' p (at_character fr) 1 (tail rest).
Proof.
  intros Hh [Hpay Hch]. destruct (maybe_read_run s p (at_character fr) 1 rest Hh Hpay Hch ltac:(lia)) as (k & s' & E & Hk1 & Hk2 & Hk0 & Hb & Hro).
  exists s'. unfold fgetc. erewrite lrun_bind by exact E. destruct k as [|[|k]]; [|destruct rest as [|c rest]; [cbn in Hk2; lia|]|lia].
  - rewrite (Hk0 eq_refl) in *. done.
  - cbn [take] in Hb. rewrite take_0 in Hb. apply bytes_at_cons in Hb as [Hb _]. cbn [drop] in Hro. rewrite drop_0 in Hro. split; [|done].
    destruct s' as [l' [m' h']]. exact (lrun_mem (load (at_character fr)) l' m' h' c m' (run_load m' (at_character fr) c Hb)).
Qed.

(** [n] characters, one after the other. *)
Fixpoint getc_many (n : nat) (p : Z) : L (list Z) :=
  match n with
  | O => mret []
  | S n' => c ← fgetc fr patience p; cs ← getc_many n' p; mret (c :: cs)
  end.

Lemma getc_many_run p n : forall s rest, holds s p rest -> locals_ok (memory s.2) -> exists s',
  getc_many n p s = Ret (take n rest ++ replicate (n - length rest) EOF, s') /\ holds s' p (drop n rest) /\ kept (memory s.2) (memory s'.2) (at_character fr) 1.
Proof.
  induction n as [|n IH]; intros s rest Hh Hf.
  - exists s. by rewrite take_0, drop_0.
  - destruct (fgetc_run s p rest Hh Hf) as (s1 & E1 & R1). destruct (IH s1 (tail rest) (ro_holds _ _ _ _ _ _ R1) (locals_next _ _ _ _ _ _ R1 Hf)) as (s' & E2 & R2 & K2).
    exists s'. cbn [getc_many]. erewrite lrun_bind by exact E1. erewrite lrun_bind by exact E2. split; [|split].
    + destruct rest as [|c rest]; cbn [head tail default take drop length]; [by rewrite take_nil, Nat.sub_0_r|done].
    + destruct rest as [|c rest]; cbn [tail drop] in R2; [by rewrite drop_nil in R2|done].
    + intros x Hx H1 H2. rewrite K2 by done. by apply (ro_kept _ _ _ _ _ _ R1).
Qed.

(** The line at the head of the input: up to a newline, at most [n] bytes. *)
Fixpoint line (n : nat) (rest : list Z) : list Z :=
  match n, rest with
  | S n', c :: rest' => if c =? 10 then [c] else c :: line n' rest'
  | _, _ => []
  end.

Lemma line_length n rest : (length (line n rest) <= n)%nat.
Proof. revert rest. induction n as [|n IH]; intros [|c rest]; cbn; try lia. destruct (c =? 10); cbn; [lia|]. specialize (IH rest). lia. Qed.

Lemma holds_u8 s p rest : holds s p rest -> Forall is_u8 rest.
Proof.
  intros (f & b & mo & _ & _ & _ & _ & _ & Hpb & (_ & _ & Hb) & _ & ->). apply Forall_app. split; [destruct mo; auto|]. apply Forall_app. split; [done|]. apply Forall_drop, fd_bytes.
Qed.

(** A store of the program to its own memory. *)
Lemma holds_store l m h p rest a v n : holds (l, Machine m h) p rest -> room m a n -> 0 < n -> holds (l, Machine (<[a := v]> m) h) p rest.
Proof.
  intros (f & b & mo & H1 & H2 & H3 & H4 & H5 & H6 & Hb & H7 & H8) Hr Hn. exists f, b, mo. do 6 (split; [done|]). split; [|done].
  exact (buffered_write m f b a n [v] Hb Hr ltac:(cbn; lia)).
Qed.

(** The buffer of the caller is apart from the locals. *)
Definition apart (a n : Z) : Prop := forall x, a <= x < a + n -> ~ (at_payload fr <= x < at_payload fr + 8) /\ ~ (at_character fr <= x < at_character fr + 1).

Lemma fgets_loop_run p n : forall s rest b, holds s p rest -> locals_ok (memory s.2) -> room (memory s.2) b (Z.of_nat n + 1) -> apart b (Z.of_nat n + 1) -> exists s',
  let got := line n rest in
  fgets_loop fr patience n b p s = Ret (b + Z.of_nat (length got), s') /\ holds s' p (drop (length got) rest) /\
  bytes_at (memory s'.2) b got /\ room (memory s'.2) b (Z.of_nat n + 1) /\
  (forall x, own x -> x < b -> ~ (at_payload fr <= x < at_payload fr + 8) -> ~ (at_character fr <= x < at_character fr + 1) -> memory s'.2 !! x = memory s.2 !! x).
Proof.
  induction n as [|n IH]; intros s rest b Hh Hf Hr Hap.
  - exists s. cbn. rewrite Z.add_0_r, drop_0. split; [done|]. split; [done|]. split; [apply bytes_at_nil|]. done.
  - destruct (fgetc_run s p rest Hh Hf) as (s1 & E1 & R1). pose proof (holds_u8 _ _ _ Hh) as Hu. pose proof (ro_room _ _ _ _ _ _ R1 _ _ Hr) as Hr1.
    pose proof (ro_holds _ _ _ _ _ _ R1) as Hh1. pose proof (locals_next _ _ _ _ _ _ R1 Hf) as Hf1. pose proof (ro_kept _ _ _ _ _ _ R1) as K1. clear R1.
    cbn [fgets_loop]. erewrite lrun_bind by exact E1. cbn beta. destruct rest as [|c rest]; cbn [tail line] in *.
    { exists s1. cbn. rewrite Z.add_0_r. split; [done|]. split; [done|]. split; [apply bytes_at_nil|]. split; [done|]. intros x Hx _. by apply K1. }
    change (default EOF (head (c :: rest))) with c. apply Forall_cons in Hu as [Hc Hu]. rewrite (proj2 (Z.eqb_neq c EOF)) by (unfold EOF, is_u8 in *; lia). destruct s1 as [l1 [m1 h1]]. cbn [snd memory] in *.
    pose proof Hr1 as (Q1 & Q2 & Q3 & Q4). erewrite lrun_bind; [|apply lrun_mem, run_store, Q3; lia]. assert (u8 c = c) as -> by (unfold u8; by apply Z.mod_small).
    pose proof (holds_store l1 m1 h1 p rest b c _ Hh1 Hr1 ltac:(lia)) as Hh2. assert (forall a k, room m1 a k -> room (<[b := c]> m1) a k) as Hrm by (intros a k; exact (room_write m1 b [c] a k)).
    destruct (Z.eqb_spec c 10) as [->|Hne].
    + exists (l1, Machine (<[b := 10]> m1) h1). cbn [length drop snd memory]. rewrite drop_0. split; [done|]. split; [done|]. split; [exact (bytes_at_write m1 b [10])|]. split; [by apply Hrm|].
      intros x Hx Hlt H1 H2. rewrite lookup_insert_ne by lia. by apply K1.
    + destruct (IH (l1, Machine (<[b := c]> m1) h1) rest (b + 1) Hh2) as (s' & E' & Hh' & Hb' & Hr' & K').
      * destruct Hf1. split; by apply Hrm.
      * destruct (Hrm _ _ Hr1) as (P1 & P2 & P3 & P4). split; [lia|]. split; [lia|]. split; [eapply mapped_sub; [exact P3|lia|lia]|]. intros x Hx. apply P4. lia.
      * intros x Hx. apply Hap. lia.
      * exists s'. cbn [length drop]. rewrite E'. split; [f_equal; f_equal; lia|]. split; [done|]. assert (own b /\ ~ (at_payload fr <= b < at_payload fr + 8) /\ ~ (at_character fr <= b < at_character fr + 1)) as (Ob & Ab1 & Ab2).
        { split; [apply Q4; lia|]. apply Hap. lia. }
        assert (memory s'.2 !! b = Some c) as Hbc by (rewrite K' by (done || lia); apply lookup_insert_eq). split; [by apply bytes_at_cons|]. split.
        -- destruct Hr' as (P1 & P2 & P3 & P4). split; [lia|]. split; [lia|]. split; [|done]. intros x Hx. destruct (decide (x = b)) as [->|]; [by rewrite Hbc|]. apply P3. lia.
        -- intros x Hx Hlt H1 H2. rewrite K' by (done || lia). cbn. rewrite lookup_insert_ne by lia. by apply K1.
Qed.

(** [ungetc] puts the byte in front of what is left. *)
Lemma ungetc_run s p rest f c : holds s p rest -> files s.1 !! p = Some f -> has (f_flags f) STREAM_PUSHBACK = false -> is_u8 c -> exists s',
  ungetc c p s = Ret (c, s') /\ holds s' p (c :: rest) /\ s'.2 = s.2.
Proof.
  intros (f' & b & mo & Hp & Ef & Hth & Hck & Hfl & Hpb & Hbuf & Hend & ->) Ef' Hno Hc. rewrite Ef in Ef'. injection Ef' as <-. unfold ungetc.
  rewrite (proj2 (Z.eqb_neq p NULL) Hp), (proj2 (Z.eqb_neq c EOF)) by (unfold EOF, is_u8 in *; lia). lrun lrun_file. rewrite Hno. set (g := with_flags _ _).
  erewrite lrun_bind by (unfold set_file; reflexivity). eexists. split; [reflexivity|]. split; [|done]. rewrite Hfl in Hno. assert (u8 c = c) as Hu by (unfold u8; by apply Z.mod_small).
  exists g, b, Pushed. cbn [fst snd files]. split; [done|]. split; [apply lookup_insert_eq|]. do 2 (split; [done|]). split; [unfold g; cbn [f_flags with_flags]; rewrite Hfl; by destruct mo|].
  split; [unfold g; cbn; by rewrite Hu|]. split; [done|]. split; [done|]. unfold g. cbn [f_pushback with_flags with_pushback]. rewrite Hu. by destruct mo.
Qed.

Lemma fopen_holds l m h filename name mode : thread = 0 -> cstr m filename name -> name <> [] -> (forall x, filename <= x < filename + Z.of_nat (length name) + 1 -> own x) ->
  cstr m mode [114] -> room m (at_request fr) open_request_size -> at_request fr + 257 <= filename \/ filename + Z.of_nat (length name) < at_request fr ->
  accepts_open cookie (Malloc 28 m :: h) -> exists p s',
  fopen fr filename mode (l, Machine m h) = Ret (p, s') /\ holds s' p (drop (position h) content) /\ (forall a n, room m a n -> room (memory s'.2) a n).
Proof.
  intros Hth Hs Hne Ho Hmo Hr Hdis Hacc. destruct (heap_block (Malloc 28 m :: h)) as [p m1] eqn:Eh. destruct (fd_heap 28 m h) as [Hp Hk1]. rewrite Eh in Hp, Hk1. cbn [fst snd] in *.
  assert (cstr m1 filename name) as Hs1 by (eapply cstr_frame; [|exact Hs]; intros x Hx; apply Hk1, Ho; lia).
  pose proof (own_mapped _ _ _ _ Hk1 Hr) as (R1 & R2 & R3 & R4).
  destruct (fopen_run fr l m h filename name mode [114] p m1 cookie) as (e & w' & E & Ht & He1 & He0 & Hm); try done; [by repeat constructor; left|]. cbn zeta in Ht.
  set (m2 := write_bytes _ (open_request_flags _) _) in *. exists p. eexists. split; [exact E|]. rewrite Ht in Hm. split.
  - exists (fresh_file cookie 1), [], Normal. cbn [fst snd files]. split; [done|]. split; [apply lookup_insert_eq|]. split; [done|]. do 3 (split; [done|]). split; [done|]. split; [done|].
    rewrite Ht. cbn [position app reads_from]. rewrite He1. cbn. by rewrite !Nat.add_0_r.
  - intros a n Ha. eapply (own_mapped m2); [|apply room_write, room_write; by eapply own_mapped]. intros x Hx. cbn [snd]. rewrite <- Hm. apply fd_keeps; [by left|done].
Qed.

(** ** The theorems on input *)

(** Characters arrive in order, none lost and none twice: however the driver
    cuts the file into blocks, [n] calls of [fgetc] return the next [n] bytes of
    what is left, and EOF for each call after the end, and the calls leave the
    rest to be read. They return, and write only to their own locals. *)
Theorem stream_reads_the_file s p rest n : holds s p rest -> locals_ok (memory s.2) -> exists s',
  getc_many n p s = Ret (take n rest ++ replicate (n - length rest) EOF, s') /\ holds s' p (drop n rest) /\
  kept (memory s.2) (memory s'.2) (at_character fr) 1.
Proof. apply getc_many_run. Qed.

(** [fgets] stores the line at the head of the input, with its newline and at
    most [buffer_size - 1] bytes of it, terminates it, and leaves what follows
    the line to be read. *)
Theorem fgets_reads_a_line s p rest buffer size : holds s p rest -> locals_ok (memory s.2) -> 0 < size -> room (memory s.2) buffer size -> apart buffer size ->
  exists s', let got := line (Z.to_nat (size - 1)) rest in
  fgets fr patience buffer size p s = Ret (buffer, s') /\ bytes_at (memory s'.2) buffer (got ++ [0]) /\ holds s' p (drop (length got) rest).
Proof.
  intros Hh Hf Hsize Hr Hap. assert (Z.of_nat (Z.to_nat (size - 1)) + 1 = size) as Hn by lia. pose proof Hr as (R1 & R2 & _).
  destruct (fgets_loop_run p (Z.to_nat (size - 1)) s rest buffer Hh Hf) as (s1 & E & Hh1 & Hb1 & Hr1 & _); [by rewrite Hn|by rewrite Hn|].
  unfold fgets. rewrite (proj2 (Z.eqb_neq buffer NULL)), (proj2 (Z.ltb_ge size 1)) by (unfold NULL; lia). cbn [orb]. erewrite lrun_bind by exact E. set (got := line _ rest) in *.
  assert (length got <= Z.to_nat (size - 1))%nat as Hlen by apply line_length. destruct s1 as [l1 [m1 h1]]. cbn [snd memory] in *. rewrite Hn in Hr1. pose proof Hr1 as (_ & _ & Q3 & Q4).
  erewrite lrun_bind; [|apply lrun_mem, run_store, Q3; lia]. eexists. split; [reflexivity|]. cbn [snd memory]. change (<[?a := u8 0]> m1) with (write_bytes m1 a [0]). split.
  - apply bytes_at_app. split; [apply bytes_at_write_disjoint; [right; lia|done]|apply bytes_at_write].
  - eapply (holds_store l1 m1 h1 p _ _ 0 1 Hh1); [|lia]. split; [lia|]. split; [lia|]. split; [eapply mapped_sub; [exact Q3|lia|lia]|]. intros x Hx. apply Q4. lia.
Qed.

(** [ungetc] undoes [fgetc]: after reading a character and putting it back,
    the stream has the same bytes to deliver as before. *)
Theorem ungetc_undoes_fgetc s p c rest : holds s p (c :: rest) -> locals_ok (memory s.2) -> exists s1 s2,
  fgetc fr patience p s = Ret (c, s1) /\ holds s1 p rest /\ ungetc c p s1 = Ret (c, s2) /\ holds s2 p (c :: rest).
Proof.
  intros Hh Hf. destruct (fgetc_run s p (c :: rest) Hh Hf) as (s1 & E1 & R1). pose proof (holds_u8 _ _ _ Hh) as [Hc _]%Forall_cons. destruct R1 as [Hh1 _ _ (f & Hfs & Hfl) _].
  destruct (ungetc_run s1 p rest f c Hh1) as (s2 & E2 & Hh2 & _); [rewrite Hfs; apply lookup_insert_eq|done|done|]. by exists s1, s2.
Qed.

(** C27. From the name of a file to its bytes: [fopen] for reading, on a file
    system that opens the file under the cookie, sends the open request and
    returns a stream; [n] calls of [fgetc] on it return the first [n] bytes of
    what the driver holds under that cookie, and EOF after its end. *)
Theorem fopen_then_fgetc l m h filename name mode n : thread = 0 -> cstr m filename name -> name <> [] -> (forall x, filename <= x < filename + Z.of_nat (length name) + 1 -> own x) ->
  cstr m mode [114] -> room m (at_request fr) open_request_size -> at_request fr + 257 <= filename \/ filename + Z.of_nat (length name) < at_request fr ->
  locals_ok m -> accepts_open cookie (Malloc 28 m :: h) -> let rest := drop (position h) content in exists s',
  (p ← fopen fr filename mode; getc_many n p) (l, Machine m h) = Ret (take n rest ++ replicate (n - length rest) EOF, s').
Proof.
  intros Hth Hs Hne Ho Hmo Hr Hdis [L1 L2] Hacc rest. destruct (fopen_holds l m h filename name mode) as (p & s1 & E & Hh & Hrm); try done.
  destruct (getc_many_run p n s1 rest Hh) as (s' & E' & _); [split; by apply Hrm|]. exists s'. by erewrite lrun_bind by exact E.
Qed.

End Reading.

(** ** Witnesses *)

Module Demo.
Definition frame : stream_frame := mkFrame 64 128 192 1024 1040 2700 1500 2000.
Definition content : list Z := [104; 53; 10; 51].
Definition own (x : Z) : Prop := 0 < x < 4096.
Definition start : mem := write_bytes (write_bytes (write_bytes ∅ 1000 (replicate 2000 7)) 2600 [102; 0]) 2610 [114; 0].

Definition count (h : history) : nat := length (filter (fun e => reads_from 0 5 e = true) h).
Definition event_mem (e : event) : mem := match e with Syscall _ _ m | Malloc _ m | Free _ m => m | _ => ∅ end.

(** The driver hands out one byte per request, at address 8192, and opens any
    file under cookie 5. *)
Definition reply (h : history) : syscall_data * mem :=
  match h with
  | e :: h' =>
      let more := drop (count h') content in
      if reads_from 0 5 e then
        match more with
        | c :: _ => (mkSyscall 32 0 MESSAGE_TYPE_READ_COMPLETE 0 8192 1 0 STATUS_SUCCESS, <[8192 := c]> (event_mem e))
        | [] => (mkSyscall 32 0 MESSAGE_TYPE_READ_COMPLETE 0 (u32 STATUS_END_OF_FILE) 0 0 STATUS_SUCCESS, event_mem e)
        end
      else
        match e with
        | Syscall _ a m =>
            if data1 a =? MESSAGE_TYPE_OPEN
            then (mkSyscall 32 0 MESSAGE_TYPE_OPEN_COMPLETE 0 8300 8 0 STATUS_SUCCESS, write_bytes m 8300 (words_bytes [5; STATUS_SUCCESS]))
            else (mkSyscall 32 0 0 0 0 0 0 STATUS_SUCCESS, m)
        | _ => (mkSyscall 32 0 0 0 0 0 0 STATUS_SUCCESS, event_mem e)
        end
  | [] => (mkSyscall 32 0 0 0 0 0 0 STATUS_SUCCESS, ∅)
  end.
#[export] Instance world : World := {|
  kernel_reply := reply; port_value _ := 0; heap_block h := (9000, match h with e :: _ => event_mem e | [] => ∅ end);
  heap_free h := match h with e :: _ => event_mem e | [] => ∅ end; uninitialized _ := 0 |}.

Lemma position_count h : drop (position 0 5 h) content = drop (count h) content.
Proof.
  enough (position 0 5 h = Nat.min (count h) 4) as ->.
  { destruct (Nat.min_spec (count h) 4) as [[_ ->]|[Hge ->]]; [done|]. by rewrite !drop_ge. }
  induction h as [|e h IH]; [done|]. cbn [position]. unfold count. rewrite filter_cons. fold (count h). cbn [kernel_reply world reply].
  destruct (decide (reads_from 0 5 e = true)) as [Hr|Hr].
  - rewrite Hr, IH. cbn [length]. fold (count h). destruct (count h) as [|[|[|[|n]]]]; try done. rewrite (drop_ge content) by (cbn; lia). cbn [fst data4]. lia.
  - apply not_true_is_false in Hr. rewrite Hr, IH. fold (count h). lia.
Qed.

#[export] Instance driver : FileDriver own content 0 5.
Proof.
  split.
  - by repeat constructor.
  - intros e h Hr. cbn [kernel_reply world reply]. rewrite Hr, position_count. destruct (drop (count h) content) as [|c more] eqn:E; cbn.
    + split; [done|]. split; [done|]. split; [done|]. intros Hx. by destruct Hx.
    + split; [done|]. split; [done|]. split; [done|]. intros _. exists 1%nat. cbn. split; [lia|]. split; [done|]. split; [lia|]. split; [lia|].
      split; [exact (bytes_at_write (event_mem e) 8192 [c])|]. intros a Ha Ho. unfold own in Ho. lia.
  - intros v a m h _ x Hx. unfold own in Hx. cbn [kernel_reply world reply event_mem]. destruct (reads_from 0 5 _).
    + destruct (drop _ content); cbn [snd]; [done|]. rewrite lookup_insert_ne by lia. done.
    + destruct (data1 a =? MESSAGE_TYPE_OPEN); [|done]. cbn [snd]. apply write_own. change (length _) with 8%nat. lia.
  - intros n m h. done.
Qed.

Definition opened : FILE := mkFILE NULL 0 5 STREAM_OPEN None (u8 EOF) 0.
Definition state : libc * machine := (mkLibc 0 1 {[ 5000 := opened ]}, Machine start []).

Lemma ready : holds own content 0 5 state 5000 content.
Proof. exists opened, [], Normal. do 8 (split; [done|]). done. Qed.

Lemma room_in a n : 1000 <= a -> a + n <= 3000 -> room own start a n.
Proof.
  intros H1 H2. split; [lia|]. split; [lia|]. split; [|intros x Hx; unfold own; lia]. do 2 apply mapped_write. intros x Hx. rewrite lookup_write_bytes, length_replicate, decide_True by lia.
  by rewrite lookup_replicate_2 by lia.
Qed.
Lemma locals : locals_ok frame own start.
Proof. split; apply room_in; cbn; lia. Qed.

End Demo.

Section DemoWitnesses.
Import Demo.

Lemma fopen_then_fgetc_witness : exists s', (p ← fopen frame 2600 2610; getc_many frame 1 6 p) (mkLibc 0 1 ∅, Machine start []) = Ret ([104; 53; 10; 51; EOF; EOF], s').
Proof.
  apply (fopen_then_fgetc frame own content 0 5 1 Nat.lt_0_1 (mkLibc 0 1 ∅) start [] 2600 [102] 2610 6).
  - done.
  - split; [cbn; lia|]. split; [by_eval|]. by repeat constructor.
  - done.
  - intros x Hx. unfold own. cbn in Hx. lia.
  - split; [cbn; lia|]. split; [by_eval|]. by repeat constructor.
  - apply room_in; unfold open_request_size; cbn; lia.
  - right. cbn. lia.
  - exact locals.
  - split; [done|]. intros a m Ha. cbn [kernel_reply world reply]. unfold reads_from. rewrite Ha. cbn. split; [done|]. split; [done|]. split; [done|]. exact (bytes_at_write m 8300 (words_bytes [5; STATUS_SUCCESS])).
Defined.

Lemma stream_reads_the_file_witness : exists s', getc_many frame 1 6 5000 state = Ret ([104; 53; 10; 51; EOF; EOF], s').
Proof.
  destruct (stream_reads_the_file frame own content 0 5 1 Nat.lt_0_1 state 5000 content 6 ready locals) as (s' & E & _). exists s'. exact E.
Defined.

Lemma fgets_reads_a_line_witness : exists s', fgets frame 1 2500 80 5000 state = Ret (2500, s') /\
  bytes_at (memory s'.2) 2500 [104; 53; 10; 0] /\ holds own content 0 5 s' 5000 [51].
Proof.
  apply (fgets_reads_a_line frame own content 0 5 1 Nat.lt_0_1 state 5000 content 2500 80 ready locals); [lia|apply room_in; lia|intros x Hx; cbn; lia].
Defined.

Lemma ungetc_undoes_fgetc_witness : exists s1 s2, fgetc frame 1 5000 state = Ret (104, s1) /\ holds own content 0 5 s1 5000 [53; 10; 51] /\
  ungetc 104 5000 s1 = Ret (104, s2) /\ holds own content 0 5 s2 5000 content.
Proof. exact (ungetc_undoes_fgetc frame own content 0 5 1 Nat.lt_0_1 state 5000 104 [53; 10; 51] ready locals). Defined.
End DemoWitnesses.

(** ** Output *)

Section Writing.
Context `{World} (fr : stream_frame).

(** The request that carries the [n] bytes at [a]. *)
Definition write_request (u thread a n : Z) (m : mem) : event :=
  Syscall SYSTEM_CALL_VECTOR_SEND_MESSAGE (syscall_args u [thread; MESSAGE_TYPE_WRITE; MESSAGE_ID_ATOMIC; a; n; NULL]) m.

Lemma maybe_write_run l m h p f a n : p <> NULL -> files l !! p = Some f -> IS_WRITABLE f = true -> n <> 0 -> exists u r w',
  maybe_write p a n (l, Machine m h) = Ret (if status r =? STATUS_SUCCESS then n else 0, (l, w')) /\
  trace w' = write_request u (f_thread_id f) a n m :: h /\ kernel_reply (trace w') = (r, memory w').
Proof.
  intros Hp Ef Hw Hn. unfold maybe_write, write. rewrite (proj2 (Z.eqb_neq p NULL) Hp). lrun lrun_file. rewrite Hw, (proj2 (Z.eqb_neq n 0) Hn). cbn [negb]. lrun lrun_file.
  edestruct send_message_run as (u & r & w' & E & Ht & Hr). exists u, r, w'. erewrite lrun_bind; [|unfold ask; cbn [snd]; rewrite E; reflexivity]. done.
Qed.

Lemma write_payload u thread a m l l' : bytes_at m a (l ++ l') -> payload (write_request u thread a (Z.of_nat (length l)) m) = l.
Proof. intros [Hb _]%bytes_at_app. unfold payload, write_request. cbn. rewrite Nat2Z.id. by apply read_bytes_at. Qed.

(** The bits of the mode are kept as flags of the stream, where the bit for
    writing means the end of the file and the bit for appending an error. *)
Lemma mode_bits_has cs c k : c ∈ cs -> Z.testbit (mode_char c) k = true -> Z.testbit (mode_bits cs) k = true.
Proof.
  intros Hin Hk. induction cs as [|d cs IH]; [by apply elem_of_nil in Hin|]. cbn [mode_bits foldr]. rewrite Z.lor_spec.
  apply elem_of_cons in Hin as [<-|Hin]; [by rewrite Hk|]. fold (mode_bits cs). by rewrite (IH Hin), orb_true_r.
Qed.

Lemma flag_collision cookie cs mask : Z.testbit (mode_bits cs) 1 = true /\ Z.testbit mask 1 = true \/ Z.testbit (mode_bits cs) 2 = true /\ Z.testbit mask 2 = true ->
  Z.land (f_flags (fresh_file cookie (mode_bits cs))) mask <> STREAM_OPEN.
Proof.
  intros Hb E. destruct Hb as [[H1 H2]|[H1 H2]];
    [apply (f_equal (fun z => Z.testbit z 1)) in E|apply (f_equal (fun z => Z.testbit z 2)) in E]; cbn [f_flags fresh_file] in E; rewrite Z.land_spec, Z.lor_spec, H1, H2 in E; done.
Qed.

(** A stream that [fopen] opened for appending takes no output: [fputs] of a
    non-empty string returns EOF and sends nothing, though the stream has seen
    no error; and a stream opened in any mode that writes delivers no input,
    not even when it was opened to be read too: [fgetc] returns EOF without a
    request. *)
Theorem append_streams_refuse_output l w p cookie cs s text patience :
  p <> NULL -> files l !! p = Some (fresh_file cookie (mode_bits cs)) -> cstr (memory w) s text -> text <> [] ->
  (97 ∈ cs -> fputs s p (l, w) = Ret (EOF, (l, w))) /\
  (97 ∈ cs \/ 119 ∈ cs -> fgetc fr patience p (l, w) = Ret (EOF, (l, w))).
Proof.
  intros Hp Ef Hs Hne. destruct w as [m h]. cbn [memory] in Hs. split.
  - intros Ha. unfold fputs. erewrite lrun_bind; [|apply lrun_mem, strlen_run, Hs]. erewrite lrun_bind; cycle 1.
    { unfold maybe_write. rewrite (proj2 (Z.eqb_neq p NULL) Hp). lrun lrun_file. unfold IS_WRITABLE. rewrite (proj2 (Z.eqb_neq _ _)); [reflexivity|].
      apply flag_collision. right. split; [by eapply mode_bits_has|done]. }
    rewrite (proj2 (Z.eqb_neq 0 _)); [done|]. by destruct text; [|cbn; lia].
  - intros Hw. unfold fgetc. rewrite (lrun_bind _ _ _ 0 (l, Machine m h)); [reflexivity|]. unfold maybe_read. rewrite (proj2 (Z.eqb_neq p NULL) Hp). destruct (_ || _); [done|]. lrun lrun_file.
    unfold IS_READABLE. rewrite (proj2 (Z.eqb_neq _ _)); [reflexivity|]. apply flag_collision. left. split; [|done]. destruct Hw as [Hw|Hw]; by eapply mode_bits_has.
Qed.
End Writing.

Module PrintDemo.
Definition frame : stream_frame := mkFrame 64 128 192 1024 1040 2700 1500 5000.
Definition format : list item := [Lit 110; Lit 61; Conv true true false 6 (CHex 255); Lit 10].
Definition start : mem := write_bytes (example_memory (format_text format) []) 5000 (replicate 256 0).
#[export] Instance world : World := example_world 20000.

Lemma constant_demo a l : 0 < a -> a + Z.of_nat (length l) <= 500 \/ (600 <= a /\ a + Z.of_nat (length l) <= 5000) ->
  bytes_at start a l -> constant example_layout 5000 256 start a l.
Proof. intros ? ? ?. split; [lia|done|]. unfold private. cbn. lia. Qed.

End PrintDemo.

Section PrintWitnesses.
Import PrintDemo.


Lemma append_streams_refuse_output_witness :
  let l := mkLibc 0 1 {[ 64 := fresh_file 5 (mode_bits [97]) ]} in let w := Machine (write_bytes ∅ 100 [104; 105; 0]) [] in
  fputs 100 64 (l, w) = Ret (EOF, (l, w)) /\ fgetc frame 1 64 (l, w) = Ret (EOF, (l, w)).
Proof.
  destruct (append_streams_refuse_output frame (mkLibc 0 1 {[ 64 := fresh_file 5 (mode_bits [97]) ]}) (Machine (write_bytes ∅ 100 [104; 105; 0]) []) 64 5 [97] 100 [104; 105] 1) as [H1 H2].
  - done.
  - done.
  - split; [cbn; lia|]. split; [by_eval|]. by repeat constructor.
  - done.
  - split; [apply H1; constructor|apply H2; left; constructor].
Defined.
End PrintWitnesses.
