(* ===== verification/Scanf.v ===== *)
(** * Formatted input: [vcscanf.c], [vsscanf.c], [vfscanf.c], [sscanf.c], [fscanf.c]

    A source is a pair of callbacks on its context; the context is an argument
    and a result, since the callbacks for strings change it. The array [text] of
    [vcscanf] is at [at_field]. Every argument is the address of an object to
    assign. [strtod], which needs floating point, is an argument of the
    definitions: it gives the two words of the number. *)

From S2P Require Import Prelude CMem CString Ctype NumConv World Libdx Loader Streams.

(** ** Formats *)

Definition FLAG_ASSIGN_ARGUMENT : Z := 0x00000001.
Definition SCAN_TYPE_LONG : Z := 0x00000001.
Definition SCAN_TYPE_SHORT : Z := 0x00000004.
Definition SCAN_TYPE_INT : Z := 0x00010000.
Definition SCAN_TYPE_FLOAT : Z := 0x00020000.
Definition SCAN_TYPE_STRING : Z := 0x00040000.
Definition SCAN_TYPE_PERCENT : Z := 0x00100000.
Definition SCAN_TYPE_DOUBLE : Z := Z.lor SCAN_TYPE_LONG SCAN_TYPE_FLOAT.

Record scan_style := mkScanStyle { scan_base : Z; field_width : Z; scan_flags : Z; scan_type : Z }.

(** The length modifiers: their type bits, and where they end. *)
Fixpoint scan_lengths (fuel : nat) (format type : Z) : C (Z * Z) :=
  match fuel with
  | O => fail OutOfFuel
  | S n =>
      f ← loadc format;
      if f =? 108 then scan_lengths n (format + 1) (u32 (type + SCAN_TYPE_LONG))
      else if f =? 104 then scan_lengths n (format + 1) (u32 (type + SCAN_TYPE_SHORT))
      else mret (type, format)
  end.

(** The conversion code: the type and base it stands for; [None] when unknown. *)
Definition scan_code (f : Z) : option (Z * Z) :=
  if (f =? 100) || (f =? 117) then Some (SCAN_TYPE_INT, 10)
  else if (f =? 105) || (f =? 112) then Some (SCAN_TYPE_INT, 0)
  else if f =? 111 then Some (SCAN_TYPE_INT, 8)
  else if (f =? 120) || (f =? 88) then Some (SCAN_TYPE_INT, 16)
  else if bool_decide (f ∈ [97; 101; 102; 103; 65; 69; 70; 71]) then Some (SCAN_TYPE_FLOAT, 0)
  else if f =? 115 then Some (SCAN_TYPE_STRING, 0)
  else if f =? 37 then Some (SCAN_TYPE_PERCENT, 0)
  else None.

Definition scan_format_style (format : Z) : C (scan_style * Z) :=
  f ← loadc format;
  let '(flags, format) := if f =? 42 then (0, format + 1) else (FLAG_ASSIGN_ARGUMENT, format) in
  f ← loadc format;
  d ← isdigit f;
  '(width, format) ← (if d =? 0 then mret (64, format) else strtoul_scan format 10);
  '(type, format) ← with_fuel (fun fuel => scan_lengths fuel format 0);
  f ← loadc format;
  match scan_code f with
  | Some (t, base) => mret (mkScanStyle base width flags (Z.lor type t), format + 1)
  | None => mret (mkScanStyle 0 width flags type, format)
  end.

(** ** Sources *)

Record vcscanf_source := mkSource { src_pushback : Z -> Z -> L (Z * Z); src_read : Z -> L (Z * Z); src_tell : Z -> L Z }.

Section Scan.
Context (strtod : Z -> C (Z * Z)) (at_field : Z) (source : vcscanf_source).

(** The loops of [read_input_number] and [read_input_string]: the last
    character, where the text ends, how much room is left, whether a character
    was stored, and the context. [n] is [text_size - 1]. *)
Fixpoint read_input_loop (numeric : bool) (n : nat) (ctx c text : Z) (success : bool) : L (Z * Z * Z * bool * Z) :=
  match n with
  | O => mret (c, text, 1, success, ctx)
  | S n' =>
      '(c, ctx) ← src_read source ctx;
      let c := s8 c in
      let stop := mret (c, text, Z.of_nat n + 1, success, ctx) in
      if c =? EOF then stop
      else
        sp ← mem_do (isspace c);
        if negb (sp =? 0) then stop
        else
          ok ← (if numeric then d ← mem_do (isdigit c); mret (negb (d =? 0)) else mret true);
          if negb ok then stop
          else mem_do (store text c);; read_input_loop numeric n' ctx c (text + 1) true
  end.

(** [read_input_number] and [read_input_string]. *)
Definition scan_input (numeric : bool) (ctx text text_size : Z) : L (bool * Z) :=
  lassert (negb (text =? NULL));;
  '(c, text, text_size, success, ctx) ← (if 1 <? text_size then read_input_loop numeric (Z.to_nat (text_size - 1)) ctx EOF text false
                                          else mret (EOF, text, text_size, false, ctx));
  (if 0 <? text_size then mem_do (store text 0) else mret tt);;
  if c =? EOF then mret (success, ctx)
  else '(_, ctx) ← src_pushback source c ctx; mret (success, ctx).

Definition read_input_number : Z -> Z -> Z -> L (bool * Z) := scan_input true.
Definition read_input_string : Z -> Z -> Z -> L (bool * Z) := scan_input false.

Definition next_argument (args : list Z) : L (Z * list Z) :=
  match args with
  | a :: args => mret (a, args)
  | [] => lfail BadArgument
  end.

Definition assigns (style : scan_style) : bool := negb (Z.land (scan_flags style) FLAG_ASSIGN_ARGUMENT =? 0).

(** The switch on the type of a conversion; the value that it leaves in [c] is
    overwritten by the read that follows. *)
Definition convert (style : scan_style) (c ctx : Z) (args : list Z) (items : Z) : L (Z * list Z * Z) :=
  if scan_type style =? SCAN_TYPE_INT then
    '(value, args) ← next_argument args;
    '(success, ctx) ← read_input_number ctx at_field (field_width style);
    if negb success then mret (ctx, args, items)
    else if assigns style then
      v ← mem_do (strtol at_field NULL (scan_base style));
      mem_do (store32 value (u32 v));;
      mret (ctx, args, items + 1)
    else mret (ctx, args, items)
  else if scan_type style =? SCAN_TYPE_DOUBLE then
    '(value, args) ← next_argument args;
    '(success, ctx) ← read_input_number ctx at_field (field_width style);
    if negb success then mret (ctx, args, items)
    else if assigns style then
      v ← mem_do (strtod at_field);
      mem_do (store32 value v.1;; store32 (value + 4) v.2);;
      mret (ctx, args, items + 1)
    else mret (ctx, args, items)
  else if scan_type style =? SCAN_TYPE_STRING then
    '(s, args) ← next_argument args;
    '(success, ctx) ← read_input_string ctx at_field (field_width style);
    if negb success then mret (ctx, args, items)
    else if assigns style then
      mem_do (strcpy s at_field);;
      mret (ctx, args, items + 1)
    else mret (ctx, args, items)
  else if scan_type style =? SCAN_TYPE_PERCENT then
    '(c, ctx) ← src_read source ctx;
    if negb (c =? 37) then '(_, ctx) ← src_pushback source c ctx; mret (ctx, args, items)
    else mret (ctx, args, items)
  else
    '(_, ctx) ← src_pushback source c ctx;
    mret (ctx, args, items).

(** The main loop: the last character, the context and the count. *)
Fixpoint vcscanf_loop (fuel : nat) (format c ctx : Z) (args : list Z) (items : Z) : L (Z * Z * Z) :=
  match fuel with
  | O => lfail OutOfFuel
  | S n =>
      if c =? EOF then mret (c, ctx, items)
      else
        f ← mem_do (loadc format);
        if f =? 0 then mret (c, ctx, items)
        else
          fs ← mem_do (isspace f);
          if negb (fs =? 0) then vcscanf_loop n (format + 1) c ctx args items
          else
            cs ← mem_do (isspace c);
            if negb (cs =? 0) then '(c, ctx) ← src_read source ctx; vcscanf_loop n format c ctx args items
            else if negb (f =? 37) then
              if f =? s8 c then '(c, ctx) ← src_read source ctx; vcscanf_loop n (format + 1) c ctx args items
              else mret (c, ctx, items)
            else
              '(_, ctx) ← src_pushback source c ctx;
              '(style, format) ← mem_do (scan_format_style (format + 1));
              '(ctx, args, items) ← convert style c ctx args items;
              '(c, ctx) ← src_read source ctx;
              vcscanf_loop n format c ctx args items
  end.

Definition vcscanf (fuel : nat) (ctx format : Z) (args : list Z) : L (Z * Z) :=
  '(c, ctx) ← src_read source ctx;
  '(c, ctx, items) ← vcscanf_loop fuel format c ctx args 0;
  ctx ← (if c =? EOF then mret ctx else '(_, ctx) ← src_pushback source c ctx; mret ctx);
  mret (if 0 <? items then items else EOF, ctx).

End Scan.

(** ** vsscanf.c, sscanf.c *)

Definition vsscanf_pushback (c ctx : Z) : L (Z * Z) :=
  lassert (negb (ctx =? NULL));;
  if negb (c =? EOF) then
    let s := ctx - 1 in
    d ← mem_do (loadc s);
    lassert (d =? s8 c);;
    mret (c, s)
  else mret (c, ctx).

Definition vsscanf_read (ctx : Z) : L (Z * Z) :=
  lassert (negb (ctx =? NULL));;
  c ← mem_do (loadc ctx);
  mret (if negb (c =? 0) then (c, ctx + 1) else (EOF, ctx)).

Definition vsscanf_tell (ctx : Z) : L Z := mret 0.

Definition string_source : vcscanf_source := mkSource vsscanf_pushback vsscanf_read vsscanf_tell.

Definition vsscanf (strtod : Z -> C (Z * Z)) (at_field : Z) (fuel : nat) (string format : Z) (args : list Z) : L Z :=
  if negb (string =? NULL) then '(items, _) ← vcscanf strtod at_field string_source fuel string format args; mret items
  else mret EOF.

Definition sscanf : (Z -> C (Z * Z)) -> Z -> nat -> Z -> Z -> list Z -> L Z := vsscanf.

(** ** vfscanf.c, fscanf.c *)

Section Streams.
Context `{World} (fr : stream_frame) (patience : nat).

Definition vfscanf_pushback (c ctx : Z) : L (Z * Z) :=
  lassert (negb (ctx =? NULL));; r ← ungetc c ctx; mret (r, ctx).

Definition vfscanf_read (ctx : Z) : L (Z * Z) :=
  lassert (negb (ctx =? NULL));; c ← fgetc fr patience ctx; mret (c, ctx).

Definition vfscanf_tell (ctx : Z) : L Z := lassert (negb (ctx =? NULL));; ftell ctx.

Definition stream_source : vcscanf_source := mkSource vfscanf_pushback vfscanf_read vfscanf_tell.

Definition vfscanf (strtod : Z -> C (Z * Z)) (at_field : Z) (fuel : nat) (stream format : Z) (args : list Z) : L Z :=
  if negb (stream =? NULL) then '(items, _) ← vcscanf strtod at_field stream_source fuel stream format args; mret items
  else mret EOF.

Definition fscanf : (Z -> C (Z * Z)) -> Z -> nat -> Z -> Z -> list Z -> L Z := vfscanf.

End Streams.
