(* ===== verification/ScanfThms.v ===== *)
(** * What the scanner assigns

    A source is anything that can be read as a list of characters and takes
    back the character that was just read ([ScanSource]); strings and streams
    are. [dx_scan] says on lists what the scanner does with a format and an
    input, and the scanner is proved to do it for every such source. [scan] says
    what the C standard makes of them; the two agree on the inputs that
    [conforming] describes. *)

From S2P Require Import Prelude CMem CString CStringMem CStringStr Ctype NumConv NumConvThms World Libdx LibdxThms Printf PrintfThms Loader Streams StreamsThms Scanf.

(** ** Sources *)

(** [free] is the memory that does not belong to the source. *)
Definition same (free : Z -> Prop) (s s' : libc * machine) : Prop := forall x, free x -> memory s'.2 !! x = memory s.2 !! x.

(** [sees o ctx s rest]: the source will deliver [rest]; [o] is the character
    that can be pushed back. *)
Class ScanSource (src : vcscanf_source) (free : Z -> Prop) := {
  sees : option Z -> Z -> libc * machine -> list Z -> Prop;
  sees_text o ctx s rest : sees o ctx s rest -> Forall (fun c => 0 < c < 128) (option_list o ++ rest);
  src_next o ctx s c rest : sees o ctx s (c :: rest) -> exists ctx' s', src_read src ctx s = Ret ((c, ctx'), s') /\ sees (Some c) ctx' s' rest /\ same free s s';
  src_end o ctx s : sees o ctx s [] -> exists ctx' s', src_read src ctx s = Ret ((EOF, ctx'), s') /\ sees None ctx' s' [] /\ same free s s';
  src_back ctx s c rest : sees (Some c) ctx s rest -> exists ctx' s', src_pushback src c ctx s = Ret ((c, ctx'), s') /\ sees None ctx' s' (c :: rest) /\ same free s s';
  sees_write o ctx l m m' h rest : (forall x, ~ free x -> m' !! x = m !! x) -> (forall x, is_Some (m !! x) -> is_Some (m' !! x)) ->
    sees o ctx (l, Machine m h) rest -> sees o ctx (l, Machine m' h) rest }.

(** ** Formats and their meaning *)

Inductive directive :=
  | Blank (c : Z)
  | Literal (c : Z)
  | Percent
  | Field (suppress : bool) (width : option Z) (code : Z).

Definition directive_text (d : directive) : list Z :=
  match d with
  | Blank c | Literal c => [c]
  | Percent => [37; 37]
  | Field s w k => 37 :: (if s then [42] else []) ++ from_option (numeral 10) [] w ++ [k]
  end.
Definition scan_text (ds : list directive) : list Z := concat (directive_text <$> ds).

(** The codes: strings, and numbers with their base. *)
Definition is_string (k : Z) : bool := k =? 115.
Definition base_of (k : Z) : Z := if k =? 111 then 8 else if (k =? 120) || (k =? 88) then 16 else if (k =? 105) || (k =? 112) then 0 else 10.

Definition directive_ok (W : Z) (d : directive) : Prop :=
  match d with
  | Blank c => 0 < c < 128 /\ ref_space c = true
  | Literal c => 0 < c < 128 /\ ref_space c = false /\ c <> 37
  | Percent => True
  | Field _ w k => 1 <= default 64 w <= W /\ k ∈ [100; 117; 105; 112; 111; 120; 88; 115]
  end.

(** The text of a field of at most [n] characters, and what is left. When the
    room is used up, the last character is delivered again. *)
Fixpoint field (ok : Z -> bool) (n : nat) (last input : list Z) : list Z * list Z :=
  match n, input with
  | O, _ => ([], last ++ input)
  | S n', [] => ([], [])
  | S n', c :: input' =>
      if ok c then let '(t, rest) := field ok n' [c] input' in (c :: t, rest)
      else ([], input)
  end.

Definition field_char (k c : Z) : bool := if is_string k then negb (ref_space c) else ref_digit c.

(** The leading digits of a base. *)
Fixpoint below (b : Z) (ds : list Z) : list Z :=
  match ds with
  | d :: ds' => if d <? b then d :: below b ds' else []
  | [] => []
  end.

(** The number that decimal digits stand for in a base; base 0 reads a leading
    zero as octal. *)
Definition number (base : Z) (t : list Z) : Z :=
  let b := if base =? 0 then (if default 0 (head t) =? 48 then 8 else 10) else base in
  s32 (horner b (below b ((fun c => c - 48) <$> t)) 0).

Definition value_of (k : Z) (t : list Z) : list Z := if is_string k then t else word_bytes (u32 (number (base_of k) t)).

Fixpoint skip (input : list Z) : list Z :=
  match input with
  | c :: input' => if ref_space c then skip input' else input
  | [] => []
  end.

(** What [vcscanf] does: the assignments, as addresses with bytes, and the rest
    of the input. A field without a character is passed over, with its argument,
    and so is the argument of a suppressed field. *)
Fixpoint dx_scan (ds : list directive) (args input : list Z) : list (Z * list Z) * list Z :=
  match ds with
  | [] => ([], input)
  | Blank _ :: ds => dx_scan ds args input
  | Literal f :: ds =>
      match skip input with
      | [] => ([], [])
      | c :: input' => if f =? c then dx_scan ds args input' else ([], c :: input')
      end
  | Percent :: ds =>
      match skip input with
      | [] => ([], [])
      | c :: input' => dx_scan ds args (if c =? 37 then input' else c :: input')
      end
  | Field suppress w k :: ds =>
      match skip input with
      | [] => ([], [])
      | input =>
          let '(t, rest) := field (field_char k) (Z.to_nat (default 64 w - 1)) [] input in
          let '(a, r) := dx_scan ds (tail args) rest in
          ((if negb suppress && bool_decide (t <> []) then [(default 0 (head args), value_of k t)] else []) ++ a, r)
      end
  end.

(** Each field has an argument, the address of an object for its value. *)
Fixpoint targets (writable : Z -> Prop) (ds : list directive) (args : list Z) : Prop :=
  match ds with
  | [] => True
  | Field _ w k :: ds =>
      match args with
      | [] => False
      | p :: args => let n := if is_string k then default 64 w else 4 in
          0 < p /\ (forall x, p <= x < p + n -> writable x) /\ targets writable ds args
      end
  | _ :: ds => targets writable ds args
  end.

Definition assign (m : mem) (a : Z * list Z) : mem := write_bytes m a.1 a.2.

(** ** Numbers *)

Definition decimal_digits (ds : list Z) : Prop := Forall (fun d => 0 <= d < 10) ds.

Lemma below_spec b ds : decimal_digits ds -> exists rest, ds = below b ds ++ rest /\ Forall (fun d => 0 <= d < b) (below b ds) /\ decimal_digits rest /\
  (forall d rest', rest = d :: rest' -> b <= d).
Proof.
  induction ds as [|d ds IH]; intros Hd; cbn [below].
  - exists []. split; [done|]. split; [constructor|]. done.
  - pose proof Hd as [Hd0 Hd']%Forall_cons. destruct (IH Hd') as (rest & E & Hb & Hr & Hend). destruct (Z.ltb_spec d b).
    + exists rest. cbn [app]. rewrite <- E. split; [done|]. split; [constructor; [lia|done]|]. done.
    + exists (d :: ds). split; [done|]. split; [constructor|]. split; [done|]. by intros ? ? [= <- <-].
Qed.

(** The digit loop stops at the first digit that the base does not have. *)
Lemma read_below m s base ds : bytes_at m s (digit_chars ds ++ [0]) -> decimal_digits ds -> 2 <= base <= 36 ->
  exists e, strtoul_digits (mem_fuel m) s base 0 m = Ret ((u32 (horner base (below base ds) 0), e), m).
Proof.
  intros Hb Hd Hbase. destruct (below_spec base ds Hd) as (rest & E & Hlow & Hrest & Hend).
  assert (exists c l, digit_chars rest ++ [0] = c :: l /\ 0 <= c < 128 /\ forall v, ref_digit_value c = Some v -> base <= v) as (c & l & Ec & Hc & Hv).
  { destruct rest as [|d rest]; cbn.
    - exists 0, []. split; [done|]. split; [lia|]. done.
    - apply Forall_cons in Hrest as [Hr _]. exists (digit_char d), (digit_chars rest ++ [0]). split; [done|]. split; [pose proof (digit_char_range d); lia|].
      intros v Hv. rewrite ref_digit_value_char in Hv by lia. injection Hv as <-. by eapply Hend. }
  rewrite E in Hb. unfold digit_chars in Hb. rewrite fmap_app, <- app_assoc in Hb. fold (digit_chars rest) in Hb. rewrite Ec in Hb.
  assert (bytes_at m s ((digit_char <$> below base ds) ++ [c])) as Hb' by (change (c :: l) with ([c] ++ l) in Hb; rewrite app_assoc in Hb; by apply bytes_at_app in Hb as [Hb _]).
  eexists. change 0 with (u32 0) at 1. apply strtoul_digits_run with (c := c); try done. apply bytes_at_fuel in Hb'. rewrite length_app, length_fmap in Hb'. lia.
Qed.

Lemma digit_not_prefix ds : decimal_digits ds -> exists c l, digit_chars ds ++ [0] = c :: l /\ 0 <= c < 128 /\ ref_space c = false /\ c <> 120 /\ c <> 88.
Proof.
  intros Hd. destruct ds as [|d ds]; cbn.
  - exists 0, []. split; [done|]. split; [lia|]. split; [done|lia].
  - apply Forall_cons in Hd as [Hd _]. eexists _, _. split; [done|]. split; [pose proof (digit_char_range d); lia|]. split; [apply digit_char_not_space; lia|]. unfold digit_char. case_match; zbool; lia.
Qed.

Lemma zero_skipped b ds : 0 < b -> horner b (below b (0 :: ds)) 0 = horner b (below b ds) 0.
Proof. intros Hb. cbn [below]. rewrite (proj2 (Z.ltb_lt 0 b) Hb). done. Qed.

(** The value that [strtoul] computes from decimal digits. *)
Lemma scan_text_number m s base ds : bytes_at m s (digit_chars ds ++ [0]) -> decimal_digits ds -> ds <> [] -> base ∈ [0; 8; 10; 16] ->
  exists e, strtoul_scan s base m = Ret ((u32 (horner (if base =? 0 then (if default 0 (head ds) =? 0 then 8 else 10) else base)
    (below (if base =? 0 then (if default 0 (head ds) =? 0 then 8 else 10) else base) ds) 0), e), m).
Proof.
  intros Hb Hd Hne Hin. destruct ds as [|d ds]; [done|]. change (default 0 (head (d :: ds))) with d. pose proof Hd as [Hd0 Hds]%Forall_cons.
  assert (base = 0 \/ base = 8 \/ base = 10 \/ base = 16) as Hbase by (rewrite !elem_of_cons, elem_of_nil in Hin; tauto).
  unfold strtoul_scan, with_fuel. erewrite run_bind; [|apply run_assert; by destruct Hbase as [->|[->|[->| ->]]]]. erewrite run_bind; [|apply run_assert; by destruct Hbase as [->|[->|[->| ->]]]].
  pose proof Hb as Hb0. cbn in Hb0. apply bytes_at_cons in Hb0 as [Hc Hb1]. pose proof (digit_char_range d ltac:(lia)).
  erewrite run_bind; [|eapply skip_none; [exact Hc|lia|apply digit_char_not_space; lia]]. unfold strtoul_prefix.
  destruct (digit_not_prefix ds Hds) as (c2 & l2 & E2 & Hc2 & _ & Hx & HX). unfold digit_chars in E2 at 1. rewrite E2 in Hb1. pose proof Hb1 as Hb2. apply bytes_at_cons in Hb2 as [Hc2m _]. rewrite <- E2 in Hb1.
  assert ((s8 (digit_char d) =? 48) = (d =? 0)) as Hz by (rewrite s8_small by lia; unfold digit_char; destruct (Z.ltb_spec d 10); [|lia]; destruct (Z.eqb_spec d 0), (Z.eqb_spec (48 + d) 48); lia || done).
  destruct ((base =? 0) || (base =? 16)) eqn:Epre.
  - rewrite (run_bind _ _ m (if d =? 0 then (if base =? 0 then 8 else base, s + 1) else (if base =? 0 then 10 else base, s)) m); cycle 1.
    { erewrite run_bind by (apply run_loadc; exact Hc). rewrite Hz.
      destruct (Z.eqb_spec d 0); [|by destruct (base =? 0)]. erewrite run_bind by (apply run_loadc; exact Hc2m). rewrite s8_small, !(proj2 (Z.eqb_neq c2 _)) by lia. by destruct (base =? 0). }
    destruct (Z.eqb_spec d 0) as [->|Hdz]; cbn beta iota.
    + destruct (read_below m (s + 1) (if base =? 0 then 8 else base) ds Hb1 Hds) as (e & E); [destruct Hbase as [->|[->|[->| ->]]]; cbn; lia|].
      exists e. rewrite zero_skipped by (destruct Hbase as [->|[->|[->| ->]]]; cbn; lia). exact E.
    + apply (read_below m s _ (d :: ds) Hb Hd). destruct Hbase as [->|[->|[->| ->]]]; cbn; lia.
  - apply orb_false_iff in Epre as [E0 E16]. rewrite E0. rewrite run_bind_ret. cbn beta iota. apply (read_below m s _ (d :: ds) Hb Hd). destruct Hbase as [->|[->|[->| ->]]]; lia.
Qed.

Lemma digit_chars_back ds : decimal_digits ds -> (fun c => c - 48) <$> digit_chars ds = ds.
Proof.
  induction 1 as [|d ds Hd _ IH]; [done|]. cbn. f_equal; [|exact IH]. unfold digit_char. destruct (Z.ltb_spec d 10); lia.
Qed.

Lemma chars_digits t : Forall (fun c => ref_digit c = true) t -> exists ds, t = digit_chars ds /\ decimal_digits ds.
Proof.
  induction 1 as [|c t Hc _ (ds & -> & Hd)].
  { exists []. split; [done|constructor]. }
  exists (c - 48 :: ds). unfold ref_digit, between in Hc. zbool. split.
  - cbn. f_equal. unfold digit_char. destruct (Z.ltb_spec (c - 48) 10); lia.
  - constructor; [lia|done].
Qed.

Lemma strtol_run m s base t : bytes_at m s (t ++ [0]) -> Forall (fun c => ref_digit c = true) t -> t <> [] -> base ∈ [0; 8; 10; 16] ->
  strtol s NULL base m = Ret (number base t, m).
Proof.
  intros Hb Ht Hne Hin. destruct (chars_digits t Ht) as (ds & -> & Hd). assert (ds <> []) as Hds by (by intros ->).
  destruct (scan_text_number m s base ds Hb Hd Hds Hin) as (e & E). unfold strtol, with_fuel. destruct ds as [|d ds]; [done|]. pose proof Hd as [Hd0 _]%Forall_cons.
  pose proof Hb as Hb0. cbn in Hb0. apply bytes_at_cons in Hb0 as [Hc _]. pose proof (digit_char_range d ltac:(lia)).
  erewrite run_bind; [|eapply skip_none; [exact Hc|lia|apply digit_char_not_space; lia]]. erewrite run_bind by (apply run_loadc; exact Hc). rewrite s8_small, !(proj2 (Z.eqb_neq (digit_char d) _)) by lia.
  erewrite run_bind; cycle 1. { unfold strtoul. erewrite run_bind by exact E. cbn [negb Z.eqb NULL]. reflexivity. }
  unfold mret, C_ret, number. do 2 f_equal. rewrite digit_chars_back by done. change (default 0 (head (digit_chars (d :: ds)))) with (digit_char d).
  change (default 0 (head (d :: ds))) with d. assert ((digit_char d =? 48) = (d =? 0)) as -> by (unfold digit_char; destruct (Z.ltb_spec d 10); [|lia]; destruct (Z.eqb_spec d 0), (Z.eqb_spec (48 + d) 48); lia || done).
  unfold s32, u32. zlia.
Qed.

(** ** Formats *)

Lemma scan_codes k : k ∈ [100; 117; 105; 112; 111; 120; 88; 115] ->
  scan_code k = Some (if is_string k then (SCAN_TYPE_STRING, 0) else (SCAN_TYPE_INT, base_of k)) /\ 0 < k < 128 /\ ref_digit k = false /\ ref_space k = false /\ k <> 42 /\ k <> 108 /\ k <> 104 /\
  (forall v, ref_digit_value k = Some v -> 10 <= v) /\ base_of k ∈ [0; 8; 10; 16].
Proof.
  rewrite !elem_of_cons, elem_of_nil. intros [->|[->|[->|[->|[->|[->|[->|[->|[]]]]]]]]]; (split; [reflexivity|]); (split; [lia|]); (do 2 (split; [reflexivity|])); (do 3 (split; [lia|]));
    (split; [intros v Hv; vm_compute in Hv; injection Hv as <-; lia|]); by_eval.
Qed.

Definition style_of (suppress : bool) (w : option Z) (k : Z) : scan_style :=
  mkScanStyle (if is_string k then 0 else base_of k) (default 64 w) (if suppress then 0 else FLAG_ASSIGN_ARGUMENT) (if is_string k then SCAN_TYPE_STRING else SCAN_TYPE_INT).

(** A width at the head of a format, and the character after it. *)
Definition width_ok (w : option Z) : Prop := forall v, w = Some v -> 0 < v < 2 ^ 31.

Lemma width_first w k rest : width_ok w -> ref_digit k = false -> 0 < k < 128 -> exists c l, from_option (numeral 10) [] w ++ k :: rest = c :: l /\ 0 < c < 128 /\
  ref_digit c = (if w is Some _ then true else false) /\ (c = 42 -> k = 42).
Proof.
  intros Hw Hk Hr. destruct w as [v|]; cbn [from_option]; [|by exists k, rest]. rewrite numeral_digits. specialize (Hw v eq_refl).
  pose proof (rev_digits_ok 10 v ltac:(lia) ltac:(lia)) as [Hd Hne]. destruct (rev (digits 32 10 v)) as [|d ds]; [done|]. apply Forall_cons in Hd as [Hd _].
  exists (digit_char d), (digit_chars ds ++ k :: rest). split; [done|]. unfold digit_char, ref_digit, between. rewrite (proj2 (Z.ltb_lt d 10)) by lia. split; [lia|]. split; [|lia].
  by rewrite !(proj2 (Z.leb_le _ _)) by lia.
Qed.

(** The style, from the text after the star. *)
Lemma scan_width_run m f w k rest : width_ok w -> k ∈ [100; 117; 105; 112; 111; 120; 88; 115] -> bytes_at m f (from_option (numeral 10) [] w ++ k :: rest) ->
  exists c v, m !! f = Some c /\ 0 < c < 128 /\ (c = 42 -> k = 42) /\ isdigit c m = Ret (v, m) /\
  (if v =? 0 then mret (64, f) else strtoul_scan f 10) m = Ret ((default 64 w, f + Z.of_nat (length (from_option (numeral 10) [] w))), m).
Proof.
  intros Hw Hk Hb. destruct (scan_codes k Hk) as (_ & Hr & Hd & Hsp & _ & _ & _ & Hv & _). destruct (width_first w k rest Hw Hd Hr) as (c & l & E & Hc & Hcd & H42).
  pose proof Hb as Hb0. rewrite E in Hb0. apply bytes_at_cons in Hb0 as [Hm _]. destruct (isdigit_run m c ltac:(lia)) as (v & Ev & Hvd). exists c, v. do 4 (split; [done|]).
  rewrite Hcd in Hvd. destruct w as [n|]; cbn [from_option default length] in *.
  - apply negb_true_iff in Hvd. rewrite Hvd. specialize (Hw n eq_refl). pose proof (rev_digits_ok 10 n ltac:(lia) ltac:(lia)) as [Hds _]. rewrite numeral_digits in *.
    change (k :: rest) with ([k] ++ rest) in Hb. rewrite app_assoc in Hb. apply bytes_at_app in Hb as [Hb _].
    rewrite (scan_number m f (rev (digits 32 10 n)) k Hb Hds Hr Hsp Hv). rewrite horner_digits by (pose proof (u32_pow 10 n); lia). rewrite u32_small by lia.
    unfold digit_chars. by rewrite length_fmap.
  - apply negb_false_iff in Hvd. rewrite Hvd. by rewrite Z.add_0_r.
Qed.

Lemma scan_lengths_none m f k type : m !! f = Some k -> 0 < k < 128 -> k <> 108 -> k <> 104 -> scan_lengths (mem_fuel m) f type m = Ret ((type, f), m).
Proof.
  intros Hm Hk H1 H2. unfold mem_fuel. cbn [scan_lengths]. crun run_loadc. rewrite s8_small by lia. by rewrite !(proj2 (Z.eqb_neq k _)) by done.
Qed.

Lemma scan_format_style_run m f suppress w k rest : width_ok w -> k ∈ [100; 117; 105; 112; 111; 120; 88; 115] ->
  bytes_at m f ((if suppress : bool then [42] else []) ++ from_option (numeral 10) [] w ++ k :: rest) ->
  scan_format_style f m = Ret ((style_of suppress w k, f + Z.of_nat (length ((if suppress then [42] else []) ++ from_option (numeral 10) [] w)) + 1), m).
Proof.
  intros Hw Hk Hb. destruct (scan_codes k Hk) as (Hcode & Hr & _ & _ & H42 & H108 & H104 & _ & _). apply bytes_at_app in Hb as [Hs Hb].
  set (f1 := f + Z.of_nat (length (if suppress then [42] else []))) in *. destruct (scan_width_run m f1 w k rest Hw Hk Hb) as (c & v & Hm & Hc & Hc42 & Ed & Ew).
  apply bytes_at_app in Hb as [_ Hb]. apply bytes_at_cons in Hb as [Hkm _]. set (f2 := f1 + _) in *.
  assert (exists c0, m !! f = Some c0 /\ (if s8 c0 =? 42 then (0, f + 1) else (FLAG_ASSIGN_ARGUMENT, f)) = ((if suppress then 0 else FLAG_ASSIGN_ARGUMENT), f1)) as (c0 & Hc0 & Ef).
  { destruct suppress; cbn in f1.
    - apply bytes_at_cons in Hs as [Hs _]. exists 42. split; [done|]. done.
    - unfold f1 in *. rewrite Z.add_0_r in *. exists c. split; [done|]. rewrite s8_small by lia. rewrite (proj2 (Z.eqb_neq c 42)); [done|]. intros ->. by apply H42, Hc42. }
  unfold scan_format_style, with_fuel. erewrite run_bind by (apply run_loadc; exact Hc0). cbv zeta. rewrite Ef. erewrite run_bind by (apply run_loadc; exact Hm). rewrite (s8_small c) by lia.
  erewrite run_bind by exact Ed. erewrite run_bind by exact Ew. cbn beta iota. erewrite run_bind by (by eapply scan_lengths_none). cbn beta iota. erewrite run_bind by (apply run_loadc; exact Hkm).
  rewrite s8_small by lia. rewrite Hcode. unfold f2, f1. rewrite length_app, Nat2Z.inj_add, !Z.add_assoc. unfold style_of. by destruct (is_string k).
Qed.

Lemma scan_percent_run m f : m !! f = Some 37 -> scan_format_style f m = Ret ((mkScanStyle 0 64 FLAG_ASSIGN_ARGUMENT SCAN_TYPE_PERCENT, f + 1), m).
Proof.
  intros Hm. unfold scan_format_style, with_fuel. erewrite run_bind by (apply run_loadc; exact Hm). change (s8 37 =? 42) with false. cbn beta iota. erewrite run_bind by (apply run_loadc; exact Hm). change (s8 37) with 37.
  destruct (isdigit_run m 37 ltac:(lia)) as (v & Ev & Hv). erewrite run_bind by exact Ev. apply negb_false_iff in Hv. rewrite Hv. rewrite run_bind_ret. cbn beta iota.
  erewrite run_bind by (eapply scan_lengths_none; [exact Hm|lia|lia|lia]). cbn beta iota. by erewrite run_bind by (apply run_loadc; exact Hm).
Qed.

(** ** The scanner *)

Section Scanner.
Context {src : vcscanf_source} {free : Z -> Prop} `{!ScanSource src free}.
Context (strtod : Z -> C (Z * Z)) (at_field W : Z) (writable : Z -> Prop).

(** The array for the text of a field; the objects of the caller are elsewhere. *)
Definition in_field (x : Z) : Prop := at_field <= x < at_field + W.
Record scan_frame : Prop := {
  sf_at : 0 < at_field; sf_end : at_field + W < 2 ^ 32;
  sf_field x : in_field x -> free x /\ ~ writable x;
  sf_writable x : writable x -> free x /\ 0 < x < 2 ^ 32 }.
Context (HF : scan_frame).

Definition state_ok (s : libc * machine) : Prop := mapped (memory s.2) at_field W /\ forall x, writable x -> is_Some (memory s.2 !! x).

(** Outside the array, the memory has changed by the assignments, which are to
    objects of the caller. *)
Definition object (a : Z * list Z) : Prop := forall x, a.1 <= x < a.1 + Z.of_nat (length a.2) -> writable x.
Definition effect (s : libc * machine) (asgs : list (Z * list Z)) (s' : libc * machine) : Prop :=
  state_ok s' /\ Forall object asgs /\ forall x, free x -> ~ in_field x -> memory s'.2 !! x = foldl assign (memory s.2) asgs !! x.

Lemma assign_ext asgs : forall m m' x, m !! x = m' !! x -> foldl assign m asgs !! x = foldl assign m' asgs !! x.
Proof. induction asgs as [|a asgs IH]; intros m m' x Hx; cbn; [done|]. apply IH. unfold assign. rewrite !lookup_write_bytes. by case_decide. Qed.

Lemma scan_effect_trans s a s1 b s' : effect s a s1 -> effect s1 b s' -> effect s (a ++ b) s'.
Proof. intros (_ & O1 & H1) (H2 & O2 & H3). split; [done|]. split; [by apply Forall_app|]. intros x Hx Hn. rewrite H3, foldl_app by done. by apply assign_ext, H1. Qed.

Lemma scan_effect_refl s : state_ok s -> effect s [] s.
Proof. by split; [|split]. Qed.

Lemma assign_other x asgs : Forall object asgs -> ~ writable x -> forall m, foldl assign m asgs !! x = m !! x.
Proof. intros Ho Hx. induction Ho as [|a asgs Ha _ IH]; intros m; cbn; [done|]. rewrite IH. apply write_own. intros Hy. by apply Hx, Ha. Qed.

Lemma effect_const s a s' x : effect s a s' -> free x -> ~ in_field x -> ~ writable x -> memory s'.2 !! x = memory s.2 !! x.
Proof. intros (_ & Ho & Hx) H1 H2 H3. rewrite Hx by done. by apply assign_other. Qed.

Lemma same_effect s s' : same free s s' -> state_ok s -> effect s [] s'.
Proof.
  intros Hs [H1 H2]. split; [|split; [done|intros x Hx _; by apply Hs]]. split.
  - intros x Hx. rewrite Hs; [by apply H1|by apply sf_field].
  - intros x Hx. rewrite Hs; [by apply H2|by apply sf_writable].
Qed.

Lemma field_effect l m h a bs : at_field <= a -> a + Z.of_nat (length bs) <= at_field + W -> state_ok (l, Machine m h) -> effect (l, Machine m h) [] (l, Machine (write_bytes m a bs) h).
Proof.
  intros H1 H2 [H3 H4]. split; [split; cbn [snd memory] in *|split; [done|]].
  - by apply mapped_write.
  - intros x Hx. rewrite write_own; [by apply H4|]. intros Hy. apply (sf_field HF x); [unfold in_field; lia|done].
  - intros x _ Hx. cbn. apply write_own. unfold in_field in Hx. lia.
Qed.

Lemma sees_field o ctx l m h rest a bs : at_field <= a -> a + Z.of_nat (length bs) <= at_field + W -> sees o ctx (l, Machine m h) rest -> sees o ctx (l, Machine (write_bytes m a bs) h) rest.
Proof.
  intros H1 H2. apply sees_write.
  - intros x Hx. apply write_own. intros Hy. apply Hx, sf_field; [done|]. unfold in_field. lia.
  - intros x Hx. rewrite lookup_write_bytes. case_decide; [|done]. apply lookup_lt_is_Some. lia.
Qed.

(** The character in hand and what the source has left make the input. *)
Definition at_char (c ctx : Z) (s : libc * machine) (input : list Z) : Prop :=
  c = EOF /\ input = [] /\ sees None ctx s [] \/ exists rest, input = c :: rest /\ sees (Some c) ctx s rest.

Lemma source_read_run o ctx s input : sees o ctx s input -> exists c ctx' s', src_read src ctx s = Ret ((c, ctx'), s') /\ at_char c ctx' s' input /\ same free s s'.
Proof.
  intros Hs. destruct input as [|c rest].
  - destruct (src_end _ _ _ Hs) as (ctx' & s' & E & Hs' & Hk). exists EOF, ctx', s'. split; [done|]. split; [by left|done].
  - destruct (src_next _ _ _ _ _ Hs) as (ctx' & s' & E & Hs' & Hk). exists c, ctx', s'. split; [done|]. split; [right; by exists rest|done].
Qed.

Lemma back_run c ctx s input : c <> EOF -> at_char c ctx s input -> exists ctx' s', src_pushback src c ctx s = Ret ((c, ctx'), s') /\ sees None ctx' s' input /\ same free s s'.
Proof. intros Hc [[? _]|(rest & -> & Hs)]; [done|]. by apply src_back. Qed.

Lemma sees_char c ctx s rest : sees (Some c) ctx s rest -> 0 < c < 128.
Proof. intros H%sees_text. cbn in H. by apply Forall_cons in H as [H _]. Qed.

(** ** Fields *)

Definition accepts (numeric : bool) (c : Z) : bool := if numeric then ref_digit c else negb (ref_space c).

Lemma digit_no_space c : ref_digit c = true -> ref_space c = false.
Proof. unfold ref_digit, ref_space, between. intros H. zbool. rewrite (proj2 (Z.eqb_neq c 32)), (proj2 (Z.leb_gt c 13)) by lia. by rewrite andb_false_r. Qed.

(** How a field ends: with a character to push back, or with none. *)
Definition ended (c ctx : Z) (s : libc * machine) (rest : list Z) : Prop :=
  c = EOF /\ (exists o, sees o ctx s rest) \/ c <> EOF /\ at_char c ctx s rest.

Lemma read_input_loop_run numeric n : forall ctx c text success s input o last,
  sees o ctx s input -> c = EOF /\ last = [] \/ (c <> EOF /\ o = Some c /\ last = [c]) -> state_ok s -> at_field <= text -> text + Z.of_nat n < at_field + W ->
  let '(t, rest) := field (accepts numeric) n last input in exists c' ctx' s',
  read_input_loop src numeric n ctx c text success s
    = Ret ((c', text + Z.of_nat (length t), Z.of_nat n - Z.of_nat (length t) + 1, success || bool_decide (t <> []), ctx'), s') /\
  ended c' ctx' s' rest /\ bytes_at (memory s'.2) text t /\ effect s [] s' /\ (forall x, at_field <= x < text -> memory s'.2 !! x = memory s.2 !! x) /\ (length t <= n)%nat.
Proof.
  induction n as [|n IH]; intros ctx c text success s input o last Hs Hc Hok Ht1 Ht2; cbn [field read_input_loop].
  { exists c, ctx, s. cbn [length]. rewrite bool_decide_eq_false_2 by auto. rewrite orb_false_r, Z.add_0_r. split; [done|]. split.
    - destruct Hc as [[-> ->]|(Hc & -> & ->)]; [left|right]; [by split; [|exists o]|]. split; [done|]. right. by exists input.
    - split; [apply bytes_at_nil|]. split; [by apply scan_effect_refl|done]. }
  destruct (source_read_run _ _ _ _ Hs) as (d & ctx1 & s1 & E1 & Hd & K1). erewrite lrun_bind by exact E1. cbn beta iota. pose proof (same_effect _ _ K1 Hok) as F1.
  assert (forall x, at_field <= x < text -> memory s1.2 !! x = memory s.2 !! x) as Kx by (intros x Hx; apply K1, sf_field; [done|unfold in_field; lia]).
  assert (forall rest, ended d ctx1 s1 rest -> exists c' ctx' s', (mret (d, text, Z.of_nat (S n) + 1, success, ctx1) : L _) s1 =
    Ret ((c', text + Z.of_nat (length (@nil Z)), Z.of_nat (S n) - Z.of_nat (length (@nil Z)) + 1, success || bool_decide (@nil Z <> []), ctx'), s') /\
    ended c' ctx' s' rest /\ bytes_at (memory s'.2) text [] /\ effect s [] s' /\ (forall x, at_field <= x < text -> memory s'.2 !! x = memory s.2 !! x) /\ (length (@nil Z) <= S n)%nat) as Hstop.
  { intros rest He. exists d, ctx1, s1. rewrite bool_decide_eq_false_2 by auto. rewrite orb_false_r. cbn [length]. rewrite Z.add_0_r, Z.sub_0_r. split; [done|]. split; [done|]. split; [apply bytes_at_nil|]. split; [done|]. split; [done|lia]. }
  destruct Hd as [(-> & -> & Hd)|(rest & -> & Hd)].
  { apply Hstop. left. split; [done|]. by exists None. }
  pose proof (sees_char _ _ _ _ Hd) as Hdc. rewrite s8_small by lia. assert (d <> EOF) as Hne by (unfold EOF; lia). rewrite (proj2 (Z.eqb_neq d EOF) Hne). destruct s1 as [l1 [m1 h1]].
  assert (ended d ctx1 (l1, Machine m1 h1) (d :: rest)) as Hend by (right; split; [done|]; right; by exists rest).
  destruct (isspace_run m1 d ltac:(lia)) as (v & Ev & Hv). erewrite lrun_bind by (apply lrun_mem; exact Ev). rewrite Hv.
  destruct (ref_space d) eqn:Esp.
  { assert (accepts numeric d = false) as -> by (unfold accepts; destruct numeric; [|by rewrite Esp]; destruct (ref_digit d) eqn:Ed; [|done]; by rewrite (digit_no_space d Ed) in Esp). by apply Hstop. }
  erewrite lrun_bind; cycle 1.
  { instantiate (1 := (l1, Machine m1 h1)). instantiate (1 := accepts numeric d). unfold accepts. destruct numeric; [|by rewrite Esp].
    destruct (isdigit_run m1 d ltac:(lia)) as (v' & Ev' & Hv'). erewrite lrun_bind by (apply lrun_mem; exact Ev'). by rewrite Hv'. }
  destruct (accepts numeric d); cbn [negb]; [|by apply Hstop].
  destruct F1 as [[F1a F1b] F1c]. erewrite lrun_bind; [|apply lrun_mem, run_store, F1a; lia]. rewrite u8_small by lia. change (<[text := d]> m1) with (write_bytes m1 text [d]).
  assert (effect (l1, Machine m1 h1) [] (l1, Machine (write_bytes m1 text [d]) h1)) as F2 by (apply field_effect; [done|cbn; lia|done]).
  specialize (IH ctx1 d (text + 1) true (l1, Machine (write_bytes m1 text [d]) h1) rest (Some d) [d]).
  destruct (field (accepts numeric) n [d] rest) as [t rest'] eqn:Ef. destruct IH as (c' & ctx' & s' & E & He & Hb & Fe & Hx & Hl).
  - apply sees_field; [done|cbn; lia|done].
  - right. done.
  - apply F2.
  - lia.
  - lia.
  - exists c', ctx', s'. rewrite E. cbn [length]. rewrite (bool_decide_eq_true_2 (d :: t <> [])) by done. rewrite orb_true_r. split; [|split; [done|split; [|split; [|split; [|lia]]]]].
    + do 2 f_equal. f_equal. f_equal. f_equal; [f_equal|]; lia.
    + apply bytes_at_cons. split; [|done]. rewrite Hx by lia. cbn. apply lookup_insert_eq.
    + change (@nil (Z * list Z)) with (@nil (Z * list Z) ++ [] ++ []). eapply scan_effect_trans; [split; [split; [exact F1a|exact F1b]|exact F1c]|]. eapply scan_effect_trans; [exact F2|done].
    + intros x Hx'. rewrite Hx by lia. cbn [snd memory]. rewrite write_own by (cbn; lia). by apply Kx.
Qed.

Lemma same_bytes s s' a bs : same free s s' -> at_field <= a -> a + Z.of_nat (length bs) <= at_field + W -> bytes_at (memory s.2) a bs -> bytes_at (memory s'.2) a bs.
Proof. intros Hs H1 H2. apply bytes_at_frame. intros x Hx. apply Hs, sf_field; [done|]. unfold in_field. lia. Qed.

Lemma scan_input_run numeric ctx w s input o : sees o ctx s input -> state_ok s -> 1 <= w <= W ->
  let '(t, rest) := field (accepts numeric) (Z.to_nat (w - 1)) [] input in exists ctx' s' o',
  scan_input src numeric ctx at_field w s = Ret ((bool_decide (t <> []), ctx'), s') /\ sees o' ctx' s' rest /\
  bytes_at (memory s'.2) at_field (t ++ [0]) /\ effect s [] s' /\ Z.of_nat (length t) < w.
Proof.
  intros Hs Hok Hw. pose proof (read_input_loop_run numeric (Z.to_nat (w - 1)) ctx EOF at_field false s input o [] Hs (or_introl (conj eq_refl eq_refl)) Hok (Z.le_refl _) ltac:(lia)) as Hl.
  destruct (field (accepts numeric) (Z.to_nat (w - 1)) [] input) as [t rest] eqn:Ef. destruct Hl as (c & ctx1 & [l1 [m1 h1]] & E & He & Hb & Fe & _ & Hlen).
  unfold scan_input. destruct s as [l [m h]]. erewrite lrun_bind; [|apply lassert_run; apply negb_true_iff, Z.eqb_neq; pose proof (sf_at HF); unfold NULL; lia].
  erewrite lrun_bind; cycle 1.
  { instantiate (1 := (l1, Machine m1 h1)). instantiate (1 := (c, at_field + Z.of_nat (length t), w - Z.of_nat (length t), bool_decide (t <> []), ctx1)).
    destruct (Z.ltb_spec 1 w).
    - rewrite E. cbn [orb]. do 2 f_equal. f_equal. f_equal. f_equal. lia.
    - assert (w = 1) as -> by lia. cbn in Ef. injection Ef as <- <-. exact E. }
  cbn beta iota. rewrite (proj2 (Z.ltb_lt 0 _)) by lia. cbn [snd memory] in *. erewrite lrun_bind; [|apply lrun_mem, run_store; apply (proj1 (proj1 Fe)); lia]. change (u8 0) with 0.
  change (<[?a := 0]> m1) with (write_bytes m1 a [0]). set (m2 := write_bytes m1 _ [0]). assert (effect (l, Machine m h) [] (l1, Machine m2 h1)) as F2.
  { change (@nil (Z * list Z)) with (@nil (Z * list Z) ++ []). eapply scan_effect_trans; [exact Fe|]. apply field_effect; [lia|cbn; lia|apply Fe]. }
  assert (bytes_at m2 at_field (t ++ [0])) as Hb2 by (apply bytes_at_app; split; [apply bytes_at_write_disjoint; [right; lia|done]|apply bytes_at_write]).
  assert (forall o r, sees o ctx1 (l1, Machine m1 h1) r -> sees o ctx1 (l1, Machine m2 h1) r) as Hsee by (intros o' r; apply sees_field; [lia|cbn; lia]).
  destruct He as [[-> (o' & Ho)]|[Hc Hat]].
  - exists ctx1, (l1, Machine m2 h1), o'. split; [done|]. split; [by apply Hsee|]. split; [done|]. split; [done|lia].
  - rewrite (proj2 (Z.eqb_neq c EOF) Hc). assert (at_char c ctx1 (l1, Machine m2 h1) rest) as Hat2.
    { destruct Hat as [[? _]|(r & -> & Hr)]; [done|]. right. exists r. split; [done|by apply Hsee]. }
    destruct (back_run _ _ _ _ Hc Hat2) as (ctx2 & s2 & E2 & Hs2 & K2). erewrite lrun_bind by exact E2. exists ctx2, s2, None. split; [done|]. split; [done|].
    split; [eapply same_bytes; [exact K2|lia|rewrite length_app; cbn; lia|exact Hb2]|]. split; [|lia].
    change (@nil (Z * list Z)) with (@nil (Z * list Z) ++ []). eapply scan_effect_trans; [exact F2|]. apply same_effect; [done|apply F2].
Qed.

(** ** Conversions *)

Lemma field_chars ok n : forall last input, Forall (fun c => ok c = true) (field ok n last input).1.
Proof.
  induction n as [|n IH]; intros last [|c input]; cbn [field fst]; try constructor. destruct (ok c) eqn:E; [|constructor].
  specialize (IH [c] input). destruct (field ok n [c] input). by constructor.
Qed.

Lemma field_text ok n : forall last input, Forall (fun c => 0 < c < 128) (last ++ input) -> Forall (fun c => 0 < c < 128) ((field ok n last input).1).
Proof.
  induction n as [|n IH]; intros last [|c input] Hl; cbn [field fst]; try constructor. destruct (ok c); [|constructor]. apply Forall_app in Hl as [_ [Hc Hl]%Forall_cons].
  specialize (IH [c] input (Forall_cons_2 _ _ _ Hc Hl)). destruct (field ok n [c] input). by constructor.
Qed.

(** A value goes to the object of the caller. *)
Lemma object_effect l m h p bs : (forall x, p <= x < p + Z.of_nat (length bs) -> writable x) -> state_ok (l, Machine m h) ->
  effect (l, Machine m h) [(p, bs)] (l, Machine (write_bytes m p bs) h).
Proof.
  intros Hw [H1 H2]. split; [|by split; [repeat constructor|]]. split; cbn [snd memory] in *; [by apply mapped_write|]. intros x Hx. rewrite lookup_write_bytes. case_decide; [|by apply H2]. apply lookup_lt_is_Some. lia.
Qed.

Lemma sees_object o ctx l m h rest p bs : (forall x, p <= x < p + Z.of_nat (length bs) -> writable x) -> sees o ctx (l, Machine m h) rest -> sees o ctx (l, Machine (write_bytes m p bs) h) rest.
Proof.
  intros Hw. apply sees_write.
  - intros x Hx. apply write_own. intros Hy. by apply Hx, sf_writable, Hw.
  - intros x Hx. rewrite lookup_write_bytes. case_decide; [|done]. apply lookup_lt_is_Some. lia.
Qed.

Lemma accepts_field k : accepts (negb (is_string k)) = field_char k.
Proof. unfold accepts, field_char. by destruct (is_string k). Qed.

(** What an object gets, when its field has characters. *)
Lemma store_value_run l m h p k w t : k ∈ [100; 117; 105; 112; 111; 120; 88; 115] -> 0 < p -> (forall x, p <= x < p + (if is_string k then w else 4) -> writable x) ->
  state_ok (l, Machine m h) -> bytes_at m at_field (t ++ [0]) -> Z.of_nat (length t) < w <= W -> t <> [] -> Forall (fun c => field_char k c = true) t -> Forall (fun c => 0 < c < 128) t ->
  (if is_string k then exists r, strcpy p at_field m = Ret (r, write_bytes m p (value_of k t))
   else strtol at_field NULL (base_of k) m = Ret (number (base_of k) t, m) /\ store32 p (u32 (number (base_of k) t)) m = Ret (tt, write_bytes m p (value_of k t))) /\
  forall x, p <= x < p + Z.of_nat (length (value_of k t)) -> writable x.
Proof.
  intros Hk Hp Hw [Hf Hm] Hb Hlen Hne Hok Htxt. destruct (scan_codes k Hk) as (_ & _ & _ & _ & _ & _ & _ & _ & Hbase). cbn [snd memory] in *. pose proof (sf_at HF). pose proof (sf_end HF).
  unfold value_of, field_char in *. destruct (is_string k).
  - split; [|intros x Hx; apply Hw; lia]. eexists. apply strcpy_run.
    + done.
    + split; [lia|]. split; [done|]. eapply Forall_impl; [exact Htxt|]. cbn. lia.
    + intros x Hx. apply Hm, Hw. lia.
    + destruct (Z.le_gt_cases p at_field); [by left|right]. destruct (Z.le_gt_cases (at_field + Z.of_nat (length t)) p); [done|exfalso].
      apply (sf_field HF p); [unfold in_field; lia|]. apply Hw. destruct t; [done|cbn in *; lia].
  - split; [|intros x Hx; apply Hw; change (length (word_bytes _)) with 4%nat in Hx; lia]. split; [by apply strtol_run|]. apply store32_bytes. intros x Hx. apply Hm, Hw. lia.
Qed.

(** Decides the tests of the switch on the type. *)
Ltac pick_type :=
  try change (SCAN_TYPE_STRING =? SCAN_TYPE_INT) with false; try change (SCAN_TYPE_STRING =? SCAN_TYPE_DOUBLE) with false;
  try change (SCAN_TYPE_PERCENT =? SCAN_TYPE_INT) with false; try change (SCAN_TYPE_PERCENT =? SCAN_TYPE_DOUBLE) with false; try change (SCAN_TYPE_PERCENT =? SCAN_TYPE_STRING) with false;
  cbn beta iota; rewrite Z.eqb_refl.

Lemma effect_nil_l s s1 s' a : effect s [] s1 -> effect s1 a s' -> effect s a s'.
Proof. intros H1 H2. exact (scan_effect_trans s [] s1 a s' H1 H2). Qed.

Lemma convert_field_run suppress w k p args items c ctx s input o :
  k ∈ [100; 117; 105; 112; 111; 120; 88; 115] -> 1 <= default 64 w <= W -> 0 < p -> (forall x, p <= x < p + (if is_string k then default 64 w else 4) -> writable x) ->
  sees o ctx s input -> state_ok s ->
  let '(t, rest) := field (field_char k) (Z.to_nat (default 64 w - 1)) [] input in
  let asg := if negb suppress && bool_decide (t <> []) then [(p, value_of k t)] else [] in exists ctx' s' o',
  convert strtod at_field src (style_of suppress w k) c ctx (p :: args) items s = Ret ((ctx', args, items + Z.of_nat (length asg)), s') /\ sees o' ctx' s' rest /\ effect s asg s'.
Proof.
  intros Hk Hw Hp Hwr Hs Hok. pose proof (scan_input_run (negb (is_string k)) ctx (default 64 w) s input o Hs Hok Hw) as Hf. rewrite accepts_field in Hf.
  pose proof (field_chars (field_char k) (Z.to_nat (default 64 w - 1)) [] input) as Hch. pose proof (field_text (field_char k) (Z.to_nat (default 64 w - 1)) [] input) as Htx.
  destruct (field (field_char k) _ [] input) as [t rest]. cbn [fst app] in *. destruct Hf as (ctx1 & [l1 [m1 h1]] & o1 & E & Hs1 & Hb & Fe & Hlen).
  specialize (Htx (proj2 (proj1 (Forall_app _ _ _) (sees_text _ _ _ _ Hs)))). unfold convert. cbn [style_of scan_type scan_base field_width].
  destruct (bool_decide (t <> [])) eqn:Et; cycle 1.
  - rewrite andb_false_r. exists ctx1, (l1, Machine m1 h1), o1. cbn [length]. rewrite Z.add_0_r. split; [|done]. unfold read_input_number, read_input_string.
    destruct (is_string k); cbn [negb] in E; pick_type; (erewrite lrun_bind by (unfold next_argument; reflexivity)); cbn beta iota; by erewrite lrun_bind by exact E.
  - apply bool_decide_eq_true in Et. rewrite andb_true_r.
    destruct (store_value_run l1 m1 h1 p k (default 64 w) t) as [Hst Hobj]; try done; [apply Fe|lia|].
    assert (effect s [(p, value_of k t)] (l1, Machine (write_bytes m1 p (value_of k t)) h1)) as Fo by (eapply effect_nil_l; [exact Fe|]; apply object_effect; [done|apply Fe]).
    pose proof (sees_object _ _ _ _ _ _ _ _ Hobj Hs1) as Hs2. unfold read_input_number, read_input_string.
    destruct (is_string k) eqn:Ek; cbn [negb] in E; pick_type; (erewrite lrun_bind by (unfold next_argument; reflexivity)); cbn beta iota; (erewrite lrun_bind by exact E); cbn [negb].
    + destruct suppress; cbn [negb length]; [exists ctx1, (l1, Machine m1 h1), o1; rewrite Z.add_0_r; done|]. destruct Hst as [r Hst]. exists ctx1, (l1, Machine (write_bytes m1 p (value_of k t)) h1), o1. split; [|done].
      change (assigns (style_of false w k)) with true. cbn beta iota. by erewrite lrun_bind by (apply lrun_mem; exact Hst).
    + destruct suppress; cbn [negb length]; [exists ctx1, (l1, Machine m1 h1), o1; rewrite Z.add_0_r; done|]. destruct Hst as [Hst1 Hst2]. exists ctx1, (l1, Machine (write_bytes m1 p (value_of k t)) h1), o1. split; [|done].
      change (assigns (style_of false w k)) with true. cbn beta iota. erewrite lrun_bind by (apply lrun_mem; exact Hst1). by erewrite lrun_bind by (apply lrun_mem; exact Hst2).
Qed.

Lemma convert_percent_run c args items ctx s rest : c <> EOF -> sees None ctx s (c :: rest) -> state_ok s -> exists ctx' s' o',
  convert strtod at_field src (mkScanStyle 0 64 FLAG_ASSIGN_ARGUMENT SCAN_TYPE_PERCENT) c ctx args items s = Ret ((ctx', args, items), s') /\
  sees o' ctx' s' (if c =? 37 then rest else c :: rest) /\ effect s [] s'.
Proof.
  intros Hc Hs Hok. unfold convert. cbn [scan_type]. destruct (src_next _ _ _ _ _ Hs) as (ctx1 & s1 & E1 & Hs1 & K1). pose proof (same_effect _ _ K1 Hok) as F1.
  pick_type. erewrite lrun_bind by exact E1. cbn beta iota.
  destruct (c =? 37); cbn [negb]; [by exists ctx1, s1, (Some c)|]. destruct (src_back _ _ _ _ Hs1) as (ctx2 & s2 & E2 & Hs2 & K2). exists ctx2, s2, None. erewrite lrun_bind by exact E2. split; [done|]. split; [done|].
  eapply effect_nil_l; [exact F1|]. apply same_effect; [done|apply F1].
Qed.

(** ** The loop *)

(** A text that the scanner does not change. *)
Definition format_at (m : mem) (a : Z) (t : list Z) : Prop :=
  bytes_at m a t /\ forall x, a <= x < a + Z.of_nat (length t) -> free x /\ ~ in_field x /\ ~ writable x.

Lemma format_effect s a s' f t : effect s a s' -> format_at (memory s.2) f t -> format_at (memory s'.2) f t.
Proof. intros He [Hb Hx]. split; [|done]. eapply bytes_at_frame; [|exact Hb]. intros x (H1 & H2 & H3)%Hx. by eapply effect_const. Qed.

Lemma format_app m f t t' : format_at m f (t ++ t') -> format_at m f t /\ format_at m (f + Z.of_nat (length t)) t'.
Proof. intros [[Hb1 Hb2]%bytes_at_app Hx]. rewrite length_app in Hx. split; (split; [done|]); intros x Hy; apply Hx; lia. Qed.

Lemma format_head m f c t : format_at m f (c :: t) -> m !! f = Some c /\ format_at m (f + 1) t.
Proof. intros [[[Hb _]%bytes_at_cons _] H]%(format_app m f [c] t). done. Qed.

Lemma conversion_run n format format' style c ctx args args' items asg s rest input' :
  c <> EOF -> ref_space c = false -> sees (Some c) ctx s rest -> state_ok s -> memory s.2 !! format = Some 37 ->
  (forall s1, effect s [] s1 -> scan_format_style (format + 1) (memory s1.2) = Ret ((style, format'), memory s1.2)) ->
  (forall ctx1 s1, sees None ctx1 s1 (c :: rest) -> state_ok s1 -> exists ctx' s' o',
     convert strtod at_field src style c ctx1 args items s1 = Ret ((ctx', args', items + Z.of_nat (length asg)), s') /\ sees o' ctx' s' input' /\ effect s1 asg s') ->
  exists c' ctx' s', vcscanf_loop strtod at_field src (S n) format c ctx args items s = vcscanf_loop strtod at_field src n format' c' ctx' args' (items + Z.of_nat (length asg)) s' /\
    at_char c' ctx' s' input' /\ effect s asg s'.
Proof.
  intros Hc Hsp Hs Hok Hf Hst Hcv. pose proof (sees_char _ _ _ _ Hs). destruct (src_back _ _ _ _ Hs) as (ctx1 & s1 & E1 & Hs1 & K1). pose proof (same_effect _ _ K1 Hok) as F1. specialize (Hst s1 F1).
  destruct (Hcv ctx1 s1 Hs1 (proj1 F1)) as (ctx2 & s2 & o2 & E2 & Hs2 & F2). destruct (source_read_run _ _ _ _ Hs2) as (c' & ctx' & s' & E3 & Hat & K3). exists c', ctx', s'.
  split; [|split; [done|]]; cycle 1.
  { eapply effect_nil_l; [exact F1|]. rewrite <- (app_nil_r asg). eapply scan_effect_trans; [exact F2|]. apply same_effect; [done|apply F2]. }
  destruct s as [l [m h]]. cbn [snd memory] in Hf. cbn [vcscanf_loop]. rewrite (proj2 (Z.eqb_neq c EOF) Hc). erewrite lrun_bind by (apply lrun_mem, run_loadc; exact Hf). change (s8 37) with 37. cbn [Z.eqb Pos.eqb].
  destruct (isspace_run m 37 ltac:(lia)) as (v & Ev & Hv). erewrite lrun_bind by (apply lrun_mem; exact Ev). rewrite Hv. change (ref_space 37) with false. cbn beta iota.
  destruct (isspace_run m c ltac:(lia)) as (v' & Ev' & Hv'). erewrite lrun_bind by (apply lrun_mem; exact Ev'). rewrite Hv', Hsp. cbn [negb].
  erewrite lrun_bind by exact E1. cbn beta iota. destruct s1 as [l1 [m1 h1]]. erewrite lrun_bind by (apply lrun_mem; exact Hst). cbn beta iota. erewrite lrun_bind by exact E2. cbn beta iota.
  by erewrite lrun_bind by exact E3.
Qed.

Lemma scan_nil ds : forall args, dx_scan ds args [] = ([], []).
Proof. induction ds as [|[| | |] ds IH]; intros args; cbn; auto. Qed.

Lemma field_length ok n : forall last input, (length (field ok n last input).2 <= length last + length input)%nat.
Proof.
  induction n as [|n IH]; intros last [|c input]; cbn [field snd]; rewrite ?length_app; cbn [length]; try lia. destruct (ok c); [|cbn; lia].
  specialize (IH [c] input). destruct (field ok n [c] input). cbn in *. lia.
Qed.

Definition first_char (d : directive) : Z := match d with Blank c | Literal c => c | _ => 37 end.

Lemma directive_first d : exists t, directive_text d = first_char d :: t.
Proof. destruct d; cbn; eauto. Qed.

Lemma first_char_ok d : directive_ok W d -> 0 < first_char d < 128 /\ ref_space (first_char d) = (if d is Blank _ then true else false) /\ (first_char d = 37 <-> if d is Blank _ then False else if d is Literal _ then False else True).
Proof.
  destruct d; cbn; intros Hd; (split; [lia|]); (split; [tauto|]); [|tauto|tauto|tauto]. split; [|tauto]. intros ->. by destruct Hd as [_ Hd].
Qed.

(** The step on the first character, before a conversion. *)
Lemma loop_blank n format f c ctx args items s : c <> EOF -> memory s.2 !! format = Some f -> 0 < f < 128 -> ref_space f = true ->
  vcscanf_loop strtod at_field src (S n) format c ctx args items s = vcscanf_loop strtod at_field src n (format + 1) c ctx args items s.
Proof.
  intros Hc Hf Hr Hsp. destruct s as [l [m h]]. cbn [snd memory] in Hf. cbn [vcscanf_loop]. rewrite (proj2 (Z.eqb_neq c EOF) Hc). erewrite lrun_bind by (apply lrun_mem, run_loadc; exact Hf).
  rewrite s8_small, (proj2 (Z.eqb_neq f 0)) by lia. destruct (isspace_run m f ltac:(lia)) as (v & Ev & Hv). erewrite lrun_bind by (apply lrun_mem; exact Ev). by rewrite Hv, Hsp.
Qed.

Lemma loop_space n format f c ctx args items s : 0 < c < 128 -> ref_space c = true -> memory s.2 !! format = Some f -> 0 < f < 128 -> ref_space f = false ->
  vcscanf_loop strtod at_field src (S n) format c ctx args items s = ('(c, ctx) ← src_read src ctx; vcscanf_loop strtod at_field src n format c ctx args items) s.
Proof.
  intros Hc Hcs Hf Hr Hsp. destruct s as [l [m h]]. cbn [snd memory] in Hf. cbn [vcscanf_loop]. rewrite (proj2 (Z.eqb_neq c EOF)) by (unfold EOF; lia). erewrite lrun_bind by (apply lrun_mem, run_loadc; exact Hf).
  rewrite s8_small, (proj2 (Z.eqb_neq f 0)) by lia. destruct (isspace_run m f ltac:(lia)) as (v & Ev & Hv). erewrite lrun_bind by (apply lrun_mem; exact Ev). rewrite Hv, Hsp.
  destruct (isspace_run m c ltac:(lia)) as (v' & Ev' & Hv'). erewrite lrun_bind by (apply lrun_mem; exact Ev'). by rewrite Hv', Hcs.
Qed.

Lemma loop_literal n format f c ctx args items s : 0 < c < 128 -> ref_space c = false -> memory s.2 !! format = Some f -> 0 < f < 128 -> ref_space f = false -> f <> 37 ->
  vcscanf_loop strtod at_field src (S n) format c ctx args items s =
  (if f =? c then '(c, ctx) ← src_read src ctx; vcscanf_loop strtod at_field src n (format + 1) c ctx args items else mret (c, ctx, items)) s.
Proof.
  intros Hc Hcs Hf Hr Hsp Hne. destruct s as [l [m h]]. cbn [snd memory] in Hf. cbn [vcscanf_loop]. rewrite (proj2 (Z.eqb_neq c EOF)) by (unfold EOF; lia). erewrite lrun_bind by (apply lrun_mem, run_loadc; exact Hf).
  rewrite s8_small, (proj2 (Z.eqb_neq f 0)) by lia. destruct (isspace_run m f ltac:(lia)) as (v & Ev & Hv). erewrite lrun_bind by (apply lrun_mem; exact Ev). rewrite Hv, Hsp.
  destruct (isspace_run m c ltac:(lia)) as (v' & Ev' & Hv'). erewrite lrun_bind by (apply lrun_mem; exact Ev'). rewrite Hv', Hcs. rewrite (proj2 (Z.eqb_neq f 37) Hne). by rewrite s8_small by lia.
Qed.

Lemma scan_space d ds args c rest : ref_space c = true -> (if d is Blank _ then False else True) -> dx_scan (d :: ds) args (c :: rest) = dx_scan (d :: ds) args rest.
Proof. intros Hc Hd. destruct d; [done|..]; cbn [dx_scan skip]; by rewrite Hc. Qed.

Lemma width_of W' w k s : W' < 2 ^ 31 -> directive_ok W' (Field s w k) -> width_ok w.
Proof. intros HW [Hw _] v ->. cbn in Hw. lia. Qed.

Lemma loop_run fuel : W < 2 ^ 31 -> forall ds format c ctx args items s input,
  at_char c ctx s input -> state_ok s -> Forall (directive_ok W) ds -> format_at (memory s.2) format (scan_text ds ++ [0]) -> targets writable ds args ->
  (length (scan_text ds) + length input < fuel)%nat ->
  let '(asgs, rest) := dx_scan ds args input in exists c' ctx' s',
  vcscanf_loop strtod at_field src fuel format c ctx args items s = Ret ((c', ctx', items + Z.of_nat (length asgs)), s') /\ at_char c' ctx' s' rest /\ effect s asgs s'.
Proof.
  intros HW. induction fuel as [|n IH]; intros ds format c ctx args items s input Hat Hok Hds Hfmt Htg Hfuel; [lia|].
  destruct Hat as [(-> & -> & Hs)|(rest & -> & Hs)].
  { rewrite scan_nil. exists EOF, ctx, s. cbn. rewrite Z.add_0_r. split; [done|]. split; [by left|by apply scan_effect_refl]. }
  pose proof (sees_char _ _ _ _ Hs) as Hc. assert (c <> EOF) as Hne by (unfold EOF; lia). destruct ds as [|d ds].
  { cbn [dx_scan]. exists c, ctx, s. cbn [length]. rewrite Z.add_0_r. split; [|split; [right; by exists rest|by apply scan_effect_refl]]. apply format_head in Hfmt as [Hf _]. destruct s as [l [m h]].
    cbn [vcscanf_loop]. rewrite (proj2 (Z.eqb_neq c EOF) Hne). by erewrite lrun_bind by (apply lrun_mem, run_loadc; exact Hf). }
  apply Forall_cons in Hds as [Hd Hds]. destruct (directive_first d) as [t Et]. destruct (first_char_ok d Hd) as (Hf1 & Hf2 & Hf3).
  unfold scan_text in Hfmt, Hfuel. cbn [fmap list_fmap concat] in Hfmt, Hfuel. fold (scan_text ds) in Hfmt, Hfuel. rewrite length_app in Hfuel. cbn [length] in Hfuel.
  pose proof Hfmt as Hfmt0. rewrite Et in Hfmt0, Hfuel. cbn [app length] in Hfmt0, Hfuel. apply format_head in Hfmt0 as [Hf0 Hfmt0].
  assert (memory s.2 !! format = Some (first_char d)) as Hf by exact Hf0. rewrite <- app_assoc in Hfmt. pose proof (proj2 (format_app _ _ _ _ Hfmt)) as Hnext.
  assert (forall ds' format' c' ctx' args' asg s' input', at_char c' ctx' s' input' -> effect s asg s' -> Forall (directive_ok W) ds' -> format_at (memory s.2) format' (scan_text ds' ++ [0]) ->
    targets writable ds' args' -> (length (scan_text ds') + length input' < n)%nat -> let '(a, r) := dx_scan ds' args' input' in exists c'' ctx'' s'',
    vcscanf_loop strtod at_field src n format' c' ctx' args' (items + Z.of_nat (length asg)) s' = Ret ((c'', ctx'', items + Z.of_nat (length (asg ++ a))), s'') /\ at_char c'' ctx'' s'' r /\ effect s (asg ++ a) s'') as Hgo.
  { intros ds' format' c' ctx' args' asg s' input' Hat' He Hds' Hf' Ht' Hn'. specialize (IH ds' format' c' ctx' args' (items + Z.of_nat (length asg)) s' input' Hat' (proj1 He) Hds' (format_effect _ _ _ _ _ He Hf') Ht' Hn').
    destruct (dx_scan ds' args' input') as [a r]. destruct IH as (c'' & ctx'' & s'' & E & Hat'' & He''). exists c'', ctx'', s''. rewrite E, length_app, Nat2Z.inj_add, Z.add_assoc. split; [done|]. split; [done|by eapply scan_effect_trans]. }
  clear IH. assert (forall ds' format' c' ctx' args' s' input', at_char c' ctx' s' input' -> effect s [] s' -> Forall (directive_ok W) ds' -> format_at (memory s.2) format' (scan_text ds' ++ [0]) ->
    targets writable ds' args' -> (length (scan_text ds') + length input' < n)%nat -> let '(a, r) := dx_scan ds' args' input' in exists c'' ctx'' s'',
    vcscanf_loop strtod at_field src n format' c' ctx' args' items s' = Ret ((c'', ctx'', items + Z.of_nat (length a)), s'') /\ at_char c'' ctx'' s'' r /\ effect s a s'') as Hgo0.
  { intros ds' format' c' ctx' args' s' input' H1 H2 H3 H4 H5 H6. specialize (Hgo ds' format' c' ctx' args' [] s' input' H1 H2 H3 H4 H5 H6). cbn [length app] in Hgo. by rewrite Z.add_0_r in Hgo. }
  destruct (ref_space (first_char d)) eqn:Ebl.
  { destruct d; try done. rewrite (loop_blank n format (first_char (Blank c0))) by done. cbn [dx_scan]. cbn [directive_text] in Hnext. apply (Hgo0 ds (format + 1) c ctx args s (c :: rest)).
    - right. exists rest. split; [reflexivity|exact Hs].
    - by apply scan_effect_refl.
    - exact Hds.
    - exact Hnext.
    - exact Htg.
    - cbn [length]. lia. }
  destruct (ref_space c) eqn:Ec.
  { assert (if d is Blank _ then False else True) as Hnb by (by destruct d). rewrite scan_space by done. rewrite (loop_space n format (first_char d)) by done.
    destruct (source_read_run _ _ _ _ Hs) as (c' & ctx' & s' & E & Hat & K). erewrite lrun_bind by exact E. cbn beta iota.
    apply (Hgo0 (d :: ds) format c' ctx' args s' rest); try done.
    - by apply same_effect.
    - by constructor.
    - unfold scan_text. cbn [fmap list_fmap concat]. fold (scan_text ds). by rewrite <- app_assoc.
    - unfold scan_text. cbn [fmap list_fmap concat]. fold (scan_text ds). rewrite length_app, Et. cbn [length]. lia. }
  destruct d as [b|b| |sup w k]; [done|..]; cbn [dx_scan skip]; rewrite Ec.
  - rewrite (loop_literal n format b) by (done || apply Hd). destruct (b =? c); cycle 1.
    { exists c, ctx, s. cbn [length]. rewrite Z.add_0_r. split; [done|]. split; [right; by exists rest|by apply scan_effect_refl]. }
    destruct (source_read_run _ _ _ _ Hs) as (c' & ctx' & s' & E & Hat & K). erewrite lrun_bind by exact E. cbn beta iota.
    apply (Hgo0 ds (format + 1) c' ctx' args s' rest); try done; [by apply same_effect|lia].
  - destruct (conversion_run n format (format + 2) (mkScanStyle 0 64 FLAG_ASSIGN_ARGUMENT SCAN_TYPE_PERCENT) c ctx args args items [] s rest (if c =? 37 then rest else c :: rest)) as (c' & ctx' & s' & E & Hat & He); try done.
    + intros s1 He. replace (format + 2) with (format + 1 + 1) by lia. apply scan_percent_run. apply (format_effect _ _ _ _ _ He) in Hfmt. cbn [directive_text app] in Hfmt. apply format_head in Hfmt as [_ Hfmt]. by apply format_head in Hfmt as [Hx _].
    + intros ctx1 s1 Hs1 Hok1. cbn [length]. rewrite Z.add_0_r. by apply convert_percent_run.
    + rewrite E. cbn [length]. rewrite Z.add_0_r. apply (Hgo0 ds (format + 2) c' ctx' args s' _ Hat He); try done. destruct (c =? 37); cbn [length]; lia.
  - cbn [targets] in Htg. destruct args as [|p args]; [done|]. destruct Htg as (Hp & Hwr & Htg). cbn [tail head default].
    pose proof (field_length (field_char k) (Z.to_nat (default 64 w - 1)) [] (c :: rest)) as Hfl.
    pose proof (fun c1 ctx1 s1 items o => convert_field_run sup w k p args items c1 ctx1 s1 (c :: rest) o (proj2 Hd) (proj1 Hd) Hp Hwr) as Hcv.
    destruct (field (field_char k) (Z.to_nat (default 64 w - 1)) [] (c :: rest)) as [tx rest'] eqn:Efl. cbv zeta in Hcv. set (asg := if negb sup && bool_decide (tx <> []) then _ else _) in *.
    change (if negb sup && bool_decide (tx <> []) then [(id p, value_of k tx)] else []) with asg. cbn [directive_text] in Hnext, Hfmt.
    destruct (conversion_run n format (format + Z.of_nat (length (directive_text (Field sup w k)))) (style_of sup w k) c ctx (p :: args) args items asg s rest rest') as (c' & ctx' & s' & E & Hat & He); try done.
    + intros s1 He. apply (format_effect _ _ _ _ _ He) in Hfmt. cbn [app] in Hfmt. apply format_head in Hfmt as [_ [Hfmt _]]. rewrite <- !app_assoc in Hfmt. cbn [app] in Hfmt.
      rewrite (scan_format_style_run _ _ sup w k (scan_text ds ++ [0])); [|by eapply width_of|apply Hd|done]. cbn [directive_text length]. rewrite !length_app. cbn [length]. do 3 f_equal. lia.
    + intros ctx1 s1 Hs1 Hok1. by eapply Hcv.
    + rewrite E. specialize (Hgo ds _ c' ctx' args asg s' rest' Hat He Hds Hnext Htg). destruct (dx_scan ds args rest') as [a r]. apply Hgo. cbn [snd length] in Hfl. lia.
Qed.

Lemma vcscanf_run fuel ctx format ds args s input o : W < 2 ^ 31 -> sees o ctx s input -> state_ok s -> Forall (directive_ok W) ds ->
  format_at (memory s.2) format (scan_text ds ++ [0]) -> targets writable ds args -> (length (scan_text ds) + length input < fuel)%nat ->
  let '(asgs, rest) := dx_scan ds args input in exists ctx' s' o',
  vcscanf strtod at_field src fuel ctx format args s = Ret ((if bool_decide (asgs = []) then EOF else Z.of_nat (length asgs), ctx'), s') /\
  sees o' ctx' s' rest /\ effect s asgs s'.
Proof.
  intros HW Hs Hok Hds Hf Ht Hfuel. destruct (source_read_run _ _ _ _ Hs) as (c & ctx1 & s1 & E1 & Hat & K1). pose proof (same_effect _ _ K1 Hok) as F1.
  pose proof (loop_run fuel HW ds format c ctx1 args 0 s1 input Hat (proj1 F1) Hds (format_effect _ _ _ _ _ F1 Hf) Ht Hfuel) as Hl. destruct (dx_scan ds args input) as [asgs rest].
  destruct Hl as (c2 & ctx2 & s2 & E2 & Hat2 & F2). unfold vcscanf. erewrite lrun_bind by exact E1. cbn beta iota. erewrite lrun_bind by exact E2. cbn beta iota. rewrite Z.add_0_l.
  assert ((if 0 <? Z.of_nat (length asgs) then Z.of_nat (length asgs) else EOF) = (if bool_decide (asgs = []) then EOF else Z.of_nat (length asgs))) as -> by (by destruct asgs).
  destruct (Z.eqb_spec c2 EOF) as [->|Hc].
  - destruct Hat2 as [(_ & -> & Hs2)|(r & -> & Hs2)]; [|by pose proof (sees_char _ _ _ _ Hs2); unfold EOF in *; lia]. exists ctx2, s2, None. split; [done|]. split; [done|by eapply effect_nil_l].
  - destruct (back_run _ _ _ _ Hc Hat2) as (ctx3 & s3 & E3 & Hs3 & K3). exists ctx3, s3, None. erewrite lrun_bind; [|by erewrite lrun_bind by exact E3]. split; [done|]. split; [done|].
    eapply effect_nil_l; [exact F1|]. rewrite <- (app_nil_r asgs). eapply scan_effect_trans; [exact F2|]. apply same_effect; [done|apply F2].
Qed.
End Scanner.

(** ** Strings *)

Section Strings.
Context (str : Z) (txt : list Z) (Htxt : Forall (fun c => 0 < c < 128) txt).

Definition outside_string (x : Z) : Prop := ~ (str <= x <= str + Z.of_nat (length txt)).

Definition string_sees (o : option Z) (ctx : Z) (s : libc * machine) (rest : list Z) : Prop := exists pre,
  txt = pre ++ rest /\ ctx = str + Z.of_nat (length pre) /\ cstr (memory s.2) str txt /\ forall c, o = Some c -> last pre = Some c.

Lemma string_byte m pre c rest : txt = pre ++ c :: rest -> cstr m str txt -> m !! (str + Z.of_nat (length pre)) = Some c.
Proof. intros E Hs%cstr_bytes. rewrite E in Hs. apply bytes_at_app in Hs as [_ Hs]. by apply bytes_at_cons in Hs as [Hs _]. Qed.

#[export] Instance string_scan_source : ScanSource string_source outside_string.
Proof using Htxt.
  refine {| sees := string_sees |}.
  - intros o ctx s rest (pre & E & _ & _ & Ho). rewrite E in Htxt. apply Forall_app in Htxt as [H1 H2]. apply Forall_app. split; [|done]. destruct o as [c|]; [|constructor].
    specialize (Ho c eq_refl). apply last_Some in Ho as [l' ->]. apply Forall_app in H1 as [_ H1]. done.
  - intros o ctx [l [m h]] c rest (pre & E & -> & Hs & _). cbn [snd memory] in *. pose proof (cstr_range _ _ _ Hs). pose proof (string_byte _ _ _ _ E Hs) as Hb.
    assert (0 < c < 128) by (rewrite E in Htxt; by apply Forall_app in Htxt as [_ [Hc _]%Forall_cons]).
    exists (str + Z.of_nat (length pre) + 1), (l, Machine m h). split; [|split; [|done]].
    + cbn [src_read string_source]. unfold vsscanf_read. erewrite lrun_bind; [|apply lassert_run; apply negb_true_iff, Z.eqb_neq; unfold NULL; lia].
      erewrite lrun_bind by (apply lrun_mem, run_loadc; exact Hb). rewrite s8_small by lia. by rewrite (proj2 (Z.eqb_neq c 0)) by lia.
    + exists (pre ++ [c]). rewrite <- app_assoc. split; [done|]. split; [rewrite length_app; cbn; lia|]. split; [done|]. intros d [= <-]. apply last_snoc.
  - intros o ctx [l [m h]] (pre & E & -> & Hs & _). cbn [snd memory] in *. pose proof (cstr_range _ _ _ Hs). rewrite app_nil_r in E. subst pre. exists (str + Z.of_nat (length txt)), (l, Machine m h).
    split; [|split; [|done]].
    + cbn [src_read string_source]. unfold vsscanf_read. erewrite lrun_bind; [|apply lassert_run; apply negb_true_iff, Z.eqb_neq; unfold NULL; lia].
      by erewrite lrun_bind by (apply lrun_mem, run_loadc, cstr_end, Hs).
    + exists txt. by rewrite app_nil_r.
  - intros ctx [l [m h]] c rest (pre & E & -> & Hs & Hl). cbn [snd memory] in *. pose proof (cstr_range _ _ _ Hs). specialize (Hl c eq_refl). apply last_Some in Hl as [pre' ->]. rewrite <- app_assoc in E. cbn [app] in E.
    pose proof (string_byte _ _ _ _ E Hs) as Hb. assert (0 < c < 128) by (rewrite E in Htxt; by apply Forall_app in Htxt as [_ [Hc _]%Forall_cons]).
    exists (str + Z.of_nat (length pre')), (l, Machine m h). split; [|split; [by exists pre'|done]]. rewrite length_app. cbn [length src_pushback string_source]. unfold vsscanf_pushback.
    erewrite lrun_bind; [|apply lassert_run; apply negb_true_iff, Z.eqb_neq; unfold NULL; lia]. rewrite (proj2 (Z.eqb_neq c EOF)) by (unfold EOF; lia). cbn [negb].
    replace (str + Z.of_nat (length pre' + 1) - 1) with (str + Z.of_nat (length pre')) by lia. erewrite lrun_bind by (apply lrun_mem, run_loadc; exact Hb).
    by erewrite lrun_bind by (apply lassert_run, Z.eqb_refl).
  - intros o ctx l m m' h rest Hk _ (pre & E & -> & Hs & Ho). exists pre. split; [done|]. split; [done|]. split; [|done]. eapply cstr_frame; [|exact Hs]. cbn. intros x Hx. apply Hk. unfold outside_string. lia.
Defined.
End Strings.

(** ** Streams *)

Section StreamSource.
Context `{World} (fr : stream_frame) (own : Z -> Prop) (content : list Z) (thread cookie : Z) (patience : nat) (p : Z).
Context `{!FileDriver own content thread cookie} (Hpat : (0 < patience)%nat).

(** The memory of the program but for the locals of the stream routines. *)
Definition outside_locals (x : Z) : Prop := own x /\ ~ (at_payload fr <= x < at_payload fr + 8) /\ ~ (at_character fr <= x < at_character fr + 1).

Definition stream_sees (o : option Z) (ctx : Z) (s : libc * machine) (rest : list Z) : Prop :=
  ctx = p /\ holds own content thread cookie s p rest /\ locals_ok fr own (memory s.2) /\ Forall (fun c => 0 < c < 128) (option_list o ++ rest) /\
  (is_Some o -> exists f, files s.1 !! p = Some f /\ has (f_flags f) STREAM_PUSHBACK = false).

Lemma stream_read_run s rest : holds own content thread cookie s p rest -> locals_ok fr own (memory s.2) -> exists s',
  vfscanf_read fr patience p s = Ret ((default EOF (head rest), p), s') /\ holds own content thread cookie s' p (tail rest) /\ locals_ok fr own (memory s'.2) /\
  same outside_locals s s' /\ exists f, files s'.1 !! p = Some f /\ has (f_flags f) STREAM_PUSHBACK = false.
Proof using Hpat FileDriver0.
  intros Hh Hl. pose proof Hh as (f & b & mo & Hp & _). destruct (fgetc_run fr own content thread cookie patience Hpat s p rest Hh Hl) as (s' & E & R).
  exists s'. unfold vfscanf_read. erewrite lrun_bind; [|apply lassert_run; by apply negb_true_iff, Z.eqb_neq]. erewrite lrun_bind by exact E. split; [done|].
  pose proof (locals_next _ _ _ _ _ _ _ _ _ _ _ R Hl) as Hl'. destruct R as [R1 R2 _ (g & R4 & R4') _]. split; [done|]. split; [done|]. split.
  - intros x (Ho & H1 & H2). by apply R2.
  - exists g. rewrite R4. split; [apply lookup_insert_eq|done].
Qed.

#[export] Instance stream_scan_source : ScanSource (stream_source fr patience) outside_locals.
Proof using Hpat FileDriver0 p.
  refine {| sees := stream_sees |}.
  - by intros o ctx s rest (_ & _ & _ & Ht & _).
  - intros o ctx s c rest (-> & Hh & Hl & Ht & _). destruct (stream_read_run s (c :: rest) Hh Hl) as (s' & E & Hh' & Hl' & Hs & Hf). exists p, s'. split; [exact E|]. split; [|done].
    split; [done|]. split; [done|]. split; [done|]. split; [by apply Forall_app in Ht as [_ Ht]|done].
  - intros o ctx s (-> & Hh & Hl & Ht & _). destruct (stream_read_run s [] Hh Hl) as (s' & E & Hh' & Hl' & Hs & Hf). exists p, s'. split; [exact E|]. split; [|done].
    split; [done|]. split; [done|]. split; [done|]. split; [constructor|by intros [? ?]].
  - intros ctx s c rest (-> & Hh & Hl & Ht & Hf). destruct Hf as (f & Hf & Hfl); [done|]. pose proof Hh as (f' & b & mo & Hp & _). pose proof Ht as [Hc _]%Forall_cons.
    destruct (ungetc_run own content thread cookie patience Hpat s p rest f c Hh Hf Hfl) as (s' & E & Hh' & Hm); [unfold is_u8; lia|]. exists p, s'. split; [|split].
    + cbn [src_pushback stream_source]. unfold vfscanf_pushback. erewrite lrun_bind; [|apply lassert_run; by apply negb_true_iff, Z.eqb_neq]. by erewrite lrun_bind by exact E.
    + split; [done|]. split; [done|]. rewrite Hm. split; [done|]. split; [done|by intros [? ?]].
    + intros x _. by rewrite Hm.
  - intros o ctx l m m' h rest Hk Hmap (-> & Hh & [L1 L2] & Ht & Hf). cbn [snd memory] in *. split; [done|]. split; [|split; [|done]].
    + destruct Hh as (f & b & mo & H1 & H2 & H3 & H4 & H5 & H6 & (B1 & B2 & B3) & H7 & H8). exists f, b, mo. do 6 (split; [done|]). split; [|done]. split; [done|]. split; [|done].
      intros Hb. destruct (B2 Hb) as (C1 & C2 & C3 & C4). split; [done|]. split; [done|]. split; [|done]. eapply bytes_at_frame; [|exact C3]. intros x Hx. apply Hk. intros [Ho _]. by apply (C4 x Hx).
    + assert (forall a n, room own m a n -> room own m' a n) as Hr by (intros a n (R1 & R2 & R3 & R4); split; [done|]; split; [done|]; split; [|done]; intros x Hx; by apply Hmap, R3). split; by apply Hr.
Defined.
End StreamSource.

(** ** What [sscanf] and [fscanf] assign *)

(** The result of a call: the number of assignments, EOF when there is none. *)
Definition scan_result (asgs : list (Z * list Z)) : Z := if bool_decide (asgs = []) then EOF else Z.of_nat (length asgs).

(** What a call needs of its memory: room for a field, the format, objects for
    the values, all apart. *)
Record scan_call (free : Z -> Prop) (at_field W : Z) (writable : Z -> Prop) (s : libc * machine) (format : Z) (ds : list directive) (args : list Z) : Prop := {
  sc_frame : scan_frame (free := free) at_field W writable; sc_width : W < 2 ^ 31; sc_state : state_ok at_field W writable s;
  sc_ok : Forall (directive_ok W) ds; sc_format : format_at (free := free) at_field W writable (memory s.2) format (scan_text ds ++ [0]);
  sc_targets : targets writable ds args }.

Lemma sscanf_run strtod at_field W writable fuel str txt format ds args s : Forall (fun c => 0 < c < 128) txt -> cstr (memory s.2) str txt ->
  scan_call (outside_string str txt) at_field W writable s format ds args -> (length (scan_text ds) + length txt < fuel)%nat ->
  exists s', sscanf strtod at_field fuel str format args s = Ret (scan_result (dx_scan ds args txt).1, s') /\
  forall x, outside_string str txt x -> ~ in_field at_field W x -> memory s'.2 !! x = foldl assign (memory s.2) (dx_scan ds args txt).1 !! x.
Proof.
  intros Htxt Hs [HF HW Hok Hds Hf Ht] Hfuel. pose proof (cstr_range _ _ _ Hs).
  pose proof (vcscanf_run (ScanSource0 := string_scan_source str txt Htxt) strtod at_field W writable HF fuel str format ds args s txt None HW) as Hr.
  destruct (dx_scan ds args txt) as [asgs rest]. destruct Hr as (ctx' & s' & o' & E & _ & _ & _ & He); try done.
  { exists []. split; [done|]. split; [cbn; lia|]. done. }
  exists s'. split; [|done]. unfold sscanf, vsscanf. rewrite (proj2 (Z.eqb_neq str NULL)) by (unfold NULL; lia). cbn [negb]. by erewrite lrun_bind by exact E.
Qed.

Lemma fscanf_run `{World} (fr : stream_frame) own content thread cookie patience p `{!FileDriver own content thread cookie} strtod at_field W writable fuel format ds args s input :
  (0 < patience)%nat -> holds own content thread cookie s p input -> locals_ok fr own (memory s.2) -> Forall (fun c => 0 < c < 128) input ->
  scan_call (outside_locals fr own) at_field W writable s format ds args -> (length (scan_text ds) + length input < fuel)%nat ->
  exists s', fscanf fr patience strtod at_field fuel p format args s = Ret (scan_result (dx_scan ds args input).1, s') /\ holds own content thread cookie s' p (dx_scan ds args input).2 /\
  forall x, outside_locals fr own x -> ~ in_field at_field W x -> memory s'.2 !! x = foldl assign (memory s.2) (dx_scan ds args input).1 !! x.
Proof.
  intros Hpat Hh Hl Ht [HF HW Hok Hds Hf Htg] Hfuel. pose proof Hh as (f & b & mo & Hp & _).
  assert (stream_sees fr own content thread cookie p None p s input) as Hsee by (split; [done|]; split; [done|]; split; [done|]; split; [done|]; by intros [? ?]).
  pose proof (vcscanf_run (ScanSource0 := stream_scan_source fr own content thread cookie patience p Hpat) strtod at_field W writable HF fuel p format ds args s input None HW Hsee) as Hr.
  destruct (dx_scan ds args input) as [asgs rest]. destruct Hr as (ctx' & s' & o' & E & (_ & Hh' & _) & _ & _ & He); try done.
  exists s'. split; [|done]. unfold fscanf, vfscanf. rewrite (proj2 (Z.eqb_neq p NULL) Hp). cbn [negb]. by erewrite lrun_bind by exact E.
Qed.

(** ** What the C standard says *)

(** The longest prefix of at most [n] digits of base [b], and what follows. *)
Definition digit_of (b c : Z) : bool := ref_digit c && (c - 48 <? b).
Fixpoint digit_run (b : Z) (n : nat) (input : list Z) : list Z * list Z :=
  match n, input with
  | S n', c :: input' => if digit_of b c then let '(t, rest) := digit_run b n' input' in (c :: t, rest) else ([], input)
  | _, _ => ([], input)
  end.

(** A number in an input: an optional sign and digits, in at most [n] characters:
    the sign, the digits and what follows. *)
Definition sign_char (c : Z) : bool := (c =? 43) || (c =? 45).
Definition input_number (b : Z) (n : nat) (input : list Z) : Z * list Z * list Z :=
  match input with
  | c :: input' =>
      if sign_char c then let '(t, rest) := digit_run b (n - 1) input' in (if c =? 45 then -1 else 1, t, rest)
      else let '(t, rest) := digit_run b n input in (1, t, rest)
  | [] => (1, [], [])
  end.

Definition digits_value (b : Z) (t : list Z) : Z := horner b ((fun c => c - 48) <$> t) 0.

(** The standard's meaning of the formats with the conversions [d], [u] and [o]:
    a blank passes over the blanks of the input, a literal must be the next
    character, a field passes over blanks and reads a number of at most its
    width, an unlimited one without a width; a star drops the number and takes no
    argument. The first directive that does not match ends the scan. *)
Fixpoint scan (ds : list directive) (args input : list Z) : list (Z * list Z) * list Z :=
  match ds with
  | [] => ([], input)
  | Blank _ :: ds => scan ds args (skip input)
  | Literal f :: ds =>
      match input with
      | [] => ([], [])
      | c :: input' => if f =? c then scan ds args input' else ([], input)
      end
  | Percent :: ds =>
      match skip input with
      | [] => ([], [])
      | c :: input' => if c =? 37 then scan ds args input' else ([], c :: input')
      end
  | Field suppress w k :: ds =>
      let b := base_of k in
      let '(sign, t, rest) := input_number b (from_option Z.to_nat (length input) w) (skip input) in
      if bool_decide (t = []) then ([], rest)
      else if (suppress : bool) then scan ds args rest
      else let '(a, r) := scan ds (tail args) rest in ((default 0 (head args), word_bytes (u32 (sign * digits_value b t))) :: a, r)
  end.

Definition is_blank (d : directive) : bool := if d is Blank _ then true else false.

(** The formats and inputs on which [vcscanf] follows the standard. A literal
    does not meet a blank, since the code passes over it; a percent sign meets a
    percent sign, since the code goes on without one; a field has no star, since
    the code takes an argument for it; it meets the end of the input or digits
    without a sign, since the code does not read signs and goes on after a field
    without digits; they are fewer than the width less one, since the code reads
    the last character twice then, and the next character is no decimal digit,
    since the code reads decimal digits in every base; the value is an [int]; and
    blanks at the end of a format meet none in the input, since the code leaves
    them there. *)
Fixpoint conforming (ds : list directive) (input : list Z) : Prop :=
  match ds with
  | [] => True
  | Blank _ :: ds => conforming ds (skip input) /\ (forallb is_blank ds = true -> skip input = input)
  | Literal f :: ds =>
      match input with
      | [] => True
      | c :: input' => ref_space c = false /\ (f = c -> conforming ds input')
      end
  | Percent :: ds =>
      match skip input with
      | [] => True
      | c :: input' => c = 37 /\ conforming ds input'
      end
  | Field suppress w k :: ds =>
      skip input = [] \/ exists t rest, suppress = false /\ k ∈ [100; 117; 111] /\ skip input = t ++ rest /\ t <> [] /\
        Forall (fun c => digit_of (base_of k) c = true) t /\ Z.of_nat (length t) < default 64 w - 1 /\ (forall c l, rest = c :: l -> ref_digit c = false) /\
        digits_value (base_of k) t < 2 ^ 31 /\ conforming ds rest
  end.

Lemma field_all ok n : forall last t rest, Forall (fun c => ok c = true) t -> (length t < n)%nat -> (forall c l, rest = c :: l -> ok c = false) -> field ok n last (t ++ rest) = (t, rest).
Proof.
  induction n as [|n IH]; intros last t rest Ht Hl Hr; [lia|]. destruct t as [|c t]; cbn [app field].
  - destruct rest as [|c rest]; [done|]. by rewrite (Hr c rest eq_refl).
  - apply Forall_cons in Ht as [Hc Ht]. cbn in Hl. by rewrite Hc, IH by (done || lia).
Qed.

Lemma below_all b ds : Forall (fun d => 0 <= d < b) ds -> below b ds = ds.
Proof. induction 1 as [|d ds Hd _ IH]; cbn; [done|]. rewrite (proj2 (Z.ltb_lt d b)) by lia. by rewrite IH. Qed.

Lemma digit_run_all b n : forall t rest, Forall (fun c => digit_of b c = true) t -> (length t <= n)%nat -> (forall c l, rest = c :: l -> digit_of b c = false) -> digit_run b n (t ++ rest) = (t, rest).
Proof.
  induction n as [|n IH]; intros t rest Ht Hl Hr; destruct t as [|c t]; cbn [length] in Hl; try lia; cbn [app digit_run].
  - done.
  - destruct rest as [|c rest]; [done|]. by rewrite (Hr c rest eq_refl).
  - apply Forall_cons in Ht as [Hc Ht]. by rewrite Hc, IH by (done || lia).
Qed.

Lemma skip_idem input : skip (skip input) = skip input.
Proof. induction input as [|c input IH]; [done|]. cbn [skip]. destruct (ref_space c) eqn:E; [done|]. cbn [skip]. by rewrite E. Qed.

Lemma skip_shorter input : (length (skip input) <= length input)%nat.
Proof. induction input as [|c input IH]; [done|]. cbn [skip length]. destruct (ref_space c); cbn [length]; lia. Qed.

(** The scanner passes over blanks before any directive but a blank. *)
Lemma dx_scan_skip ds : forall args input, (forallb is_blank ds = true -> skip input = input) -> dx_scan ds args (skip input) = dx_scan ds args input.
Proof.
  induction ds as [|d ds IH]; intros args input H; [by rewrite H|]. destruct d; cbn [dx_scan]; rewrite ?skip_idem; try done. by apply IH.
Qed.

Lemma digit_of_digit b c : digit_of b c = true -> ref_digit c = true /\ 0 <= c - 48 < b.
Proof. unfold digit_of, ref_digit, between. intros H. zbool. split; [|lia]. by rewrite !(proj2 (Z.leb_le _ _)) by lia. Qed.

(** On digits that all belong to the base the scanner computes their value. *)
Lemma value_of_digits k t : k ∈ [100; 117; 111] -> Forall (fun c => digit_of (base_of k) c = true) t -> value_of k t = word_bytes (u32 (1 * digits_value (base_of k) t)).
Proof.
  intros Hk Ht. assert (is_string k = false /\ (base_of k =? 0) = false) as [Hs Hb] by (rewrite !elem_of_cons, elem_of_nil in Hk; by destruct Hk as [->|[->|[->|[]]]]).
  unfold value_of, number, digits_value. rewrite Hs, Hb, below_all, Z.mul_1_l.
  - f_equal. unfold u32, s32. zlia.
  - apply Forall_fmap. eapply Forall_impl; [exact Ht|]. cbn. intros c Hc. by apply digit_of_digit in Hc as [_ ?].
Qed.

(** One field that conforms, read by the code and by the standard. *)
Lemma scan_field_conforms k w n t rest : k ∈ [100; 117; 111] -> t <> [] -> Forall (fun c => digit_of (base_of k) c = true) t -> Z.of_nat (length t) < default 64 w - 1 ->
  (length t <= n)%nat -> (forall c l, rest = c :: l -> ref_digit c = false) ->
  field (field_char k) (Z.to_nat (default 64 w - 1)) [] (t ++ rest) = (t, rest) /\ input_number (base_of k) (from_option Z.to_nat n w) (t ++ rest) = (1, t, rest).
Proof.
  intros Hk Hne Ht Hlen Hn Hrest. assert (is_string k = false) as Hs by (rewrite !elem_of_cons, elem_of_nil in Hk; by destruct Hk as [->|[->|[->|[]]]]). split.
  - apply field_all; [|lia|].
    + eapply Forall_impl; [exact Ht|]. cbn. intros c Hc. unfold field_char. rewrite Hs. by apply digit_of_digit in Hc as [? _].
    + intros c l E. unfold field_char. rewrite Hs. by apply (Hrest c l).
  - assert (digit_run (base_of k) (from_option Z.to_nat n w) (t ++ rest) = (t, rest)) as E.
    { apply digit_run_all; [done|destruct w; cbn in *; lia|]. intros c l El. unfold digit_of. by rewrite (Hrest c l El). }
    destruct t as [|c t]; [done|]. cbn [app] in *. unfold input_number. pose proof Ht as [Hc _]%Forall_cons. apply digit_of_digit in Hc as [Hc _].
    assert (sign_char c = false) as -> by (unfold sign_char, ref_digit, between in *; zbool; lia). by rewrite E.
Qed.

(** On what conforms the scanner does what the standard says. *)
Lemma dx_scan_conforms ds : forall args input, conforming ds input -> dx_scan ds args input = scan ds args input.
Proof.
  induction ds as [|d ds IH]; intros args input Hc; [done|]. destruct d as [b|f| |suppress w k]; cbn [dx_scan scan conforming] in *.
  - destruct Hc as [Hc Hb]. rewrite <- IH by done. symmetry. by apply dx_scan_skip.
  - destruct input as [|c input]; [done|]. destruct Hc as [Hs Hc]. cbn [skip]. rewrite Hs. destruct (Z.eqb_spec f c) as [->|]; [|done]. by apply IH, Hc.
  - destruct (skip input) as [|c input']; [done|]. destruct Hc as [-> Hc]. change (37 =? 37) with true. by apply IH.
  - destruct Hc as [->|(t & rest & -> & Hk & Ei & Hne & Ht & Hlen & Hrest & _ & Hc)]; [done|].
    pose proof (skip_shorter input) as Hsh. rewrite Ei, length_app in Hsh. destruct (scan_field_conforms k w (length input) t rest Hk Hne Ht Hlen ltac:(lia) Hrest) as [E1 E2].
    rewrite Ei. destruct (t ++ rest) as [|c l] eqn:E; [by destruct t|].
    rewrite E1, E2. rewrite (bool_decide_eq_false_2 (t = [])), (bool_decide_eq_true_2 (t <> [])) by done. rewrite IH by done.
    destruct (scan ds (tail args) rest) as [a r]. cbn [negb andb app]. by rewrite value_of_digits.
Qed.

Lemma scan_result_some asgs : asgs <> [] -> scan_result asgs = Z.of_nat (length asgs).
Proof. intros H. unfold scan_result. by rewrite bool_decide_eq_false_2. Qed.

(** C29. [sscanf] does what the C standard says of formats with blanks, literals,
    percent signs and the conversions [d], [u] and [o] with their widths, on
    texts of characters 1 to 127 that [conforming] describes and from which at
    least one number is assigned: it returns the number of assignments, and
    outside its own array the memory has changed by exactly these assignments,
    in order. The call needs its format, an object for each field and its array
    in memory, all apart. Not covered, since the code departs from the standard
    there: [%s], which stores no terminator; [%x] and [%i] beyond decimal
    digits; signs; stars, which take an argument; fields as long as their
    width less one; literals that meet blanks; conversions that fail, after
    which the code goes on; and texts from which nothing is assigned, where it
    returns EOF although the input has not ended. *)
Theorem sscanf_implements_scan strtod at_field W writable fuel str txt format ds args s : Forall (fun c => 0 < c < 128) txt -> cstr (memory s.2) str txt ->
  scan_call (outside_string str txt) at_field W writable s format ds args -> conforming ds txt -> (scan ds args txt).1 <> [] -> (length (scan_text ds) + length txt < fuel)%nat ->
  exists s', sscanf strtod at_field fuel str format args s = Ret (Z.of_nat (length (scan ds args txt).1), s') /\
  forall x, outside_string str txt x -> ~ in_field at_field W x -> memory s'.2 !! x = foldl assign (memory s.2) (scan ds args txt).1 !! x.
Proof.
  intros Htxt Hs Hcall Hconf Hne Hfuel. rewrite <- scan_result_some, <- dx_scan_conforms by done. by eapply sscanf_run.
Qed.

(** C30. [fscanf] does the same on a stream whose characters are 1 to 127, with the
    same formats and the same departures left out ([conforming]), when at least
    one number is assigned: it returns the number of assignments, makes exactly
    these in memory outside its own array, and leaves in the stream what the
    standard leaves of the input, however the driver cuts the file into
    blocks. *)
Theorem fscanf_implements_scan `{World} (fr : stream_frame) own content thread cookie patience p `{!FileDriver own content thread cookie} strtod at_field W writable fuel format ds args s input :
  (0 < patience)%nat -> holds own content thread cookie s p input -> locals_ok fr own (memory s.2) -> Forall (fun c => 0 < c < 128) input ->
  scan_call (outside_locals fr own) at_field W writable s format ds args -> conforming ds input -> (scan ds args input).1 <> [] -> (length (scan_text ds) + length input < fuel)%nat ->
  exists s', fscanf fr patience strtod at_field fuel p format args s = Ret (Z.of_nat (length (scan ds args input).1), s') /\ holds own content thread cookie s' p (scan ds args input).2 /\
  forall x, outside_locals fr own x -> ~ in_field at_field W x -> memory s'.2 !! x = foldl assign (memory s.2) (scan ds args input).1 !! x.
Proof.
  intros Hpat Hh Hl Ht Hcall Hconf Hne Hfuel. rewrite <- scan_result_some, <- dx_scan_conforms by done. by apply (fscanf_run fr own content thread cookie patience p strtod at_field W writable).
Qed.

(** ** Numbers that were printed are read back *)

Lemma number_numeral v : 0 <= v < 2 ^ 31 -> number 10 (numeral 10 v) = v.
Proof.
  intros Hv. pose proof (rev_digits_ok 10 v ltac:(lia) ltac:(lia)) as [Hd _]. unfold number. cbn [Z.eqb]. rewrite numeral_digits, digit_chars_back by done. rewrite below_all by done.
  rewrite horner_digits by (pose proof (u32_pow 10 v); lia). unfold s32. zlia.
Qed.

(** The text: each number after a blank; the format: as many [%d] after blanks. *)
Definition numbers_text (vs : list Z) : list Z := concat ((fun v => 32 :: numeral 10 v) <$> vs).
Definition numbers_format (n : nat) : list directive := concat (replicate n [Blank 32; Field false None 100]).

Lemma numeral_digit v : 0 <= v -> Forall (fun c => field_char 100 c = true) (numeral 10 v).
Proof.
  intros Hv. rewrite numeral_digits. pose proof (rev_digits_ok 10 v ltac:(lia) Hv) as [Hd _]. unfold digit_chars. apply Forall_fmap. eapply Forall_impl; [exact Hd|].
  cbn. intros d Hr. unfold field_char, ref_digit, between, digit_char. cbn. rewrite (proj2 (Z.ltb_lt d 10)) by lia. by rewrite !(proj2 (Z.leb_le _ _)) by lia.
Qed.

Lemma scan_numbers vs : forall args, length args = length vs -> Forall (fun v => 0 <= v < 2 ^ 31) vs ->
  dx_scan (numbers_format (length vs)) args (numbers_text vs) = (zip args (word_bytes <$> vs), []).
Proof.
  induction vs as [|v vs IH]; intros [|p args] Hl Hv; try done. apply Forall_cons in Hv as [Hv Hvs]. injection Hl as Hl. unfold numbers_format, numbers_text in *. cbn [length replicate concat app fmap list_fmap dx_scan skip].
  change (ref_space 32) with true. cbn iota. pose proof (numeral_digit v ltac:(lia)) as Hd. pose proof (numeral_length_10 v ltac:(lia)) as Hn.
  assert (exists c l, numeral 10 v = c :: l /\ ref_space c = false) as (c & l & Ec & Hc).
  { destruct (numeral 10 v) as [|c l]; [cbn in Hn; lia|]. apply Forall_cons in Hd as [Hd _]. exists c, l. split; [done|]. by apply digit_no_space. }
  set (more := concat ((fun v => 32 :: numeral 10 v) <$> vs)) in *. assert (skip (numeral 10 v ++ more) = numeral 10 v ++ more) as Hsk by (rewrite Ec; cbn [app skip]; by rewrite Hc).
  rewrite Hsk, Ec. cbn [app]. change (c :: l ++ more) with ((c :: l) ++ more). rewrite Ec in Hd, Hn. rewrite (field_all (field_char 100)); [|done|change (Z.to_nat (default 64 None - 1)) with 63%nat; lia|]; cycle 1.
  { intros d l' E. destruct vs as [|v' vs]; [done|]. unfold more in E. cbn [fmap list_fmap concat app] in E. injection E as <- _. reflexivity. }
  cbn [tail head default]. rewrite IH by done. rewrite bool_decide_eq_true_2 by done. cbn [negb andb app zip fmap list_fmap].
  rewrite <- Ec. unfold value_of. cbn [is_string]. change (base_of 100) with 10. rewrite number_numeral by done. by rewrite u32_small by lia.
Qed.

(** The objects are the elements of an array. *)
Definition elements (a : Z) (n : nat) : list Z := (fun i => a + 4 * Z.of_nat i) <$> seq 0 n.

Lemma assign_elements vs : forall a m, foldl assign m (zip (elements a (length vs)) (word_bytes <$> vs)) = write_bytes m a (words_bytes vs).
Proof.
  unfold elements. induction vs as [|v vs IH]; intros a m; [done|]. cbn [length seq fmap list_fmap zip]. rewrite <- fmap_S_seq, <- list_fmap_compose.
  change (words_bytes (v :: vs)) with (word_bytes v ++ words_bytes vs). rewrite write_bytes_app. rewrite <- IH. cbn [foldl zip_with]. unfold assign at 1. cbn [fst snd]. rewrite Z.mul_0_r, Z.add_0_r.
  f_equal. f_equal. apply list_fmap_ext. intros i x _. cbn. lia.
Qed.

(** C31. Numbers that were printed are read back: on a text with the decimals of
    up to any number of non-negative ints after blanks, [sscanf] with as many
    [%d] assigns all of them to the elements of the array, and returns their
    number. *)
Theorem sscanf_reads_numbers strtod at_field W writable fuel str format vs a s : let txt := numbers_text vs in let ds := numbers_format (length vs) in
  Forall (fun v => 0 <= v < 2 ^ 31) vs -> vs <> [] -> Forall (fun c => 0 < c < 128) txt -> cstr (memory s.2) str txt ->
  scan_call (outside_string str txt) at_field W writable s format ds (elements a (length vs)) -> (length (scan_text ds) + length txt < fuel)%nat ->
  (forall x, a <= x < a + 4 * Z.of_nat (length vs) -> outside_string str txt x /\ ~ in_field at_field W x) ->
  exists s', sscanf strtod at_field fuel str format (elements a (length vs)) s = Ret (Z.of_nat (length vs), s') /\ bytes_at (memory s'.2) a (words_bytes vs).
Proof.
  intros txt ds Hv Hne Ht Hs Hcall Hfuel Hout. destruct (sscanf_run strtod at_field W writable fuel str txt format ds (elements a (length vs)) s Ht Hs Hcall Hfuel) as (s' & E & Hm).
  assert (length (elements a (length vs)) = length vs) as Hel by (unfold elements; by rewrite length_fmap, length_seq). unfold ds, txt in E, Hm. rewrite scan_numbers in E, Hm by done. cbn [fst] in *.
  exists s'. split.
  - rewrite E. unfold scan_result. destruct vs as [|v vs]; [done|]. rewrite bool_decide_eq_false_2 by (by cbn). by rewrite length_zip_with, length_fmap, Hel, Nat.min_id.
  - eapply bytes_at_frame; [|apply (bytes_at_write (memory s.2))]. intros x Hx. rewrite assign_elements in Hm. assert (length (words_bytes vs) = (4 * length vs)%nat) as Hw.
    { clear. unfold words_bytes. induction vs as [|v vs IH]; [done|]. cbn [fmap list_fmap concat]. rewrite length_app, IH. cbn. lia. }
    destruct (Hout x) as [H1 H2]; [lia|]. by apply Hm.
Qed.

(** ** Witnesses *)

(** A string at 100, a format at 200, objects from 300 to 400 and an array for
    the field at 500. *)
Definition demo_objects (x : Z) : Prop := 300 <= x < 400.
Definition demo_memory (string format : list Z) : mem :=
  write_bytes (write_bytes (write_bytes (write_bytes ∅ 100 (string ++ [0])) 200 (format ++ [0])) 300 (replicate 100 7)) 500 (replicate 64 7).

Lemma demo_call string ds args : (length string < 100)%nat -> (length (scan_text ds) < 100)%nat -> Forall (directive_ok 64) ds -> targets demo_objects ds args ->
  scan_call (outside_string 100 string) 500 64 demo_objects (mkLibc 0 1 ∅, Machine (demo_memory string (scan_text ds)) []) 200 ds args.
Proof.
  intros H1 H2 Hds Ht. split; [|lia| |done| |done].
  - split; [lia|lia| |].
    + intros x Hx. unfold outside_string, demo_objects, in_field in *. lia.
    + intros x Hx. unfold outside_string, demo_objects in *. lia.
  - split; cbn [snd memory]; unfold demo_memory.
    + intros x Hx. rewrite lookup_write_bytes, length_replicate, decide_True by lia. by rewrite lookup_replicate_2 by lia.
    + intros x Hx. unfold demo_objects in Hx. rewrite lookup_write_bytes, length_replicate, decide_False by lia. rewrite lookup_write_bytes, length_replicate, decide_True by lia. by rewrite lookup_replicate_2 by lia.
  - split; cbn [snd memory]; unfold demo_memory.
    + apply bytes_at_write_disjoint; [rewrite length_replicate, length_app; cbn; lia|]. apply bytes_at_write_disjoint; [rewrite length_replicate, length_app; cbn; lia|]. apply bytes_at_write.
    + intros x Hx. rewrite length_app in Hx. cbn in Hx. unfold outside_string, demo_objects, in_field. lia.
Qed.

Lemma demo_string string format : (length string < 100)%nat -> (length format < 100)%nat -> Forall (fun c => 0 < c < 128) string -> cstr (demo_memory string format) 100 string.
Proof.
  intros H1 H2 Ht. split; [lia|]. split; [|eapply Forall_impl; [exact Ht|cbn; lia]]. unfold demo_memory.
  do 3 (apply bytes_at_write_disjoint; [rewrite ?length_replicate, ?length_app; cbn; lia|]). apply bytes_at_write.
Qed.

(** [sscanf("x7 42", "x%d %5u", &i, &j)]. *)
Lemma sscanf_implements_scan_witness : let ds := [Literal 120; Field false None 100; Blank 32; Field false (Some 5) 117] in let string := [120; 55; 32; 52; 50] in
  exists s', sscanf (fun _ => fail BadArgument) 500 100 100 200 [300; 320] (mkLibc 0 1 ∅, Machine (demo_memory string (scan_text ds)) []) = Ret (2, s') /\
  forall x, outside_string 100 string x -> ~ in_field 500 64 x -> memory s'.2 !! x = foldl assign (demo_memory string (scan_text ds)) [(300, [7; 0; 0; 0]); (320, [42; 0; 0; 0])] !! x.
Proof.
  refine (sscanf_implements_scan (fun _ => fail BadArgument) 500 64 demo_objects 100 100 [120; 55; 32; 52; 50] 200 [Literal 120; Field false None 100; Blank 32; Field false (Some 5) 117] [300; 320] _ _ _ _ _ _ _).
  - repeat constructor; lia.
  - apply demo_string; [cbn; lia|by_eval|repeat constructor; lia].
  - apply demo_call; [cbn; lia|by_eval| |].
    + repeat constructor; cbn; try lia; by_eval.
    + cbn. unfold demo_objects. split; [lia|]. split; [lia|]. split; [lia|]. split; [lia|done].
  - split; [done|]. intros _. right. exists [55], [32; 52; 50]. repeat split; try by_eval; try (repeat constructor; done); [by intros c l [= <- <-]|].
    right. exists [52; 50], []. repeat split; try by_eval; try (repeat constructor; done); done.
  - by_eval.
  - by_eval.
Defined.

(** [sscanf(" 7 12", " %d %d", &a[0], &a[1])]. *)
Lemma sscanf_reads_numbers_witness : exists s',
  sscanf (fun _ => fail BadArgument) 500 100 100 200 [300; 304] (mkLibc 0 1 ∅, Machine (demo_memory (numbers_text [7; 12]) (scan_text (numbers_format 2))) []) = Ret (2, s') /\
  bytes_at (memory s'.2) 300 (words_bytes [7; 12]).
Proof.
  refine (sscanf_reads_numbers (fun _ => fail BadArgument) 500 64 demo_objects 100 100 200 [7; 12] 300 _ _ _ _ _ _ _ _).
  - repeat constructor; lia.
  - done.
  - change (numbers_text [7; 12]) with [32; 55; 32; 49; 50]. repeat constructor; lia.
  - apply demo_string; [by_eval|by_eval|]. change (numbers_text [7; 12]) with [32; 55; 32; 49; 50]. repeat constructor; lia.
  - apply demo_call; [by_eval|by_eval| |].
    + repeat constructor; cbn; try lia; by_eval.
    + cbn. unfold demo_objects. split; [lia|]. split; [lia|]. split; [lia|]. split; [lia|done].
  - by_eval.
  - intros x Hx. change (numbers_text [7; 12]) with [32; 55; 32; 49; 50]. unfold outside_string, in_field. cbn in *. lia.
Defined.

(** [fscanf(file, "h%d %d", &i, &j)] on the file of the example in [StreamsThms]. *)
Section StreamWitness.
Import Demo.

Definition stream_objects (x : Z) : Prop := 2000 <= x < 2200.
Definition stream_state : libc * machine := (mkLibc 0 1 {[ 5000 := opened ]}, Machine (write_bytes start 2800 [104; 37; 100; 32; 37; 100; 0]) []).

Lemma stream_room a n : 1000 <= a -> a + n <= 3000 -> room own (memory stream_state.2) a n.
Proof. intros H1 H2. apply room_write, room_in; done. Qed.

Lemma stream_demo_call : scan_call (outside_locals frame own) 1600 64 stream_objects stream_state 2800 [Literal 104; Field false None 100; Blank 32; Field false None 100] [2000; 2100].
Proof.
  split; [|lia| | | |].
  - split; [lia|lia| |]; intros x Hx; unfold outside_locals, own, stream_objects, in_field in *; cbn; lia.
  - split; [apply (stream_room 1600 64); lia|]. intros x Hx. apply (stream_room 2000 200); [lia|lia|]. exact Hx.
  - repeat constructor; cbn; try lia; by_eval.
  - split; [exact (bytes_at_write start 2800 [104; 37; 100; 32; 37; 100; 0])|]. intros x Hx. change (length _) with 7%nat in Hx. unfold outside_locals, own, stream_objects, in_field. cbn. lia.
  - cbn. unfold stream_objects. split; [lia|]. split; [lia|]. split; [lia|]. split; [lia|done].
Qed.

Lemma fscanf_implements_scan_witness : exists s', fscanf frame 1 (fun _ => fail BadArgument) 1600 100 5000 2800 [2000; 2100] stream_state = Ret (2, s') /\ holds own content 0 5 s' 5000 [] /\
  forall x, outside_locals frame own x -> ~ in_field 1600 64 x -> memory s'.2 !! x = foldl assign (memory stream_state.2) [(2000, [5; 0; 0; 0]); (2100, [3; 0; 0; 0])] !! x.
Proof.
  refine (fscanf_implements_scan frame own content 0 5 1 5000 (fun _ => fail BadArgument) 1600 64 stream_objects 100 2800 [Literal 104; Field false None 100; Blank 32; Field false None 100] [2000; 2100] stream_state content _ _ _ _ stream_demo_call _ _ _).
  - lia.
  - exists opened, [], Normal. do 8 (split; [done|]). done.
  - split; apply stream_room; cbn; lia.
  - repeat constructor; lia.
  - split; [done|]. intros _. right. exists [53], [10; 51]. repeat split; try by_eval; try (repeat constructor; done); [by intros c l [= <- <-]|].
    right. exists [51], []. repeat split; try by_eval; try (repeat constructor; done); done.
  - by_eval.
  - by_eval.
Defined.
End StreamWitness.
