(* ===== verification/KBase.v ===== *)
(** * Kernel basics: the error monad of the kernel and [inc/bits.hpp]

    The kernel is C++ ([src/src/kernel]). A method that changes an object is a
    function from the old object to a result that carries the new one; a failed
    [ASSERT] (the debug build stops there for ever) and [kernel_panic] are
    traps. A lock is not part of the state: each method runs as one step. *)

From S2P Require Import Prelude CMem CStringSearch World Libdx.

(** ** Results *)

#[export] Instance res_ret : MRet res := fun A a => Ret a.
#[export] Instance res_bind : MBind res := fun A B k c =>
  match c with
  | Ret a => k a
  | Trap t => Trap t
  end.

(** [ASSERT]. *)
Definition kassert (b : bool) : res unit := if b then mret tt else Trap AssertFailed.

Lemma kassert_true b : b = true -> kassert b = Ret tt.
Proof. by intros ->. Qed.

Lemma res_bind_ret {A B} (c : res A) (k : A -> res B) x : c = Ret x -> (c ≫= k) = k x.
Proof. by intros ->. Qed.

(** Runs the first command of a bind with the given equation. *)
Tactic Notation "krun" uconstr(E) := erewrite res_bind_ret; [|by eapply E]; cbn beta iota.

(** Runs an assertion that [lia] or [done] establishes. *)
Ltac kassert_tac :=
  erewrite res_bind_ret; [cbn beta|apply kassert_true;
    first [ done | apply Z.ltb_lt; lia | apply Z.leb_le; lia | apply Z.eqb_eq; lia ]].

(** An element of an array. *)
Definition array_get {A} (t : list A) (i : Z) : res A :=
  match t !! Z.to_nat i with Some x => mret x | None => Trap (BadIndex i) end.

Lemma array_get_run {A} (t : list A) i x : t !! Z.to_nat i = Some x -> array_get t i = Ret x.
Proof. unfold array_get. by intros ->. Qed.

(** ** bits.hpp and bits.asm *)

Definition is_2n (value : Z) : bool := Z.land value (u32 (value - 1)) =? 0.

Definition align_address (unaligned_address alignment : Z) : res Z :=
  kassert (is_2n alignment);;
  mret (Z.land (u32 (unaligned_address + alignment - 1)) (u32 (Z.lnot (u32 (alignment - 1))))).

Definition is_aligned (value alignment : Z) : res bool :=
  kassert (is_2n alignment);;
  mret (Z.land value (u32 (alignment - 1)) =? 0).

(** [bsf]: the lowest set bit, 0xFFFFFFFF when there is none. *)
Fixpoint lowest_bit (n : nat) (i value : Z) : Z :=
  match n with
  | O => 4294967295
  | S n' => if Z.testbit value i then i else lowest_bit n' (i + 1) value
  end.

Definition find_one_bit32 (value : Z) : Z := lowest_bit 32 0 value.
Definition find_zero_bit32 (value : Z) : Z := lowest_bit 32 0 (u32 (Z.lnot value)).

Definition make64 (high low : Z) : Z := u64 (Z.lor (Z.shiftl high 32) low).
Definition make16 (high low : Z) : Z := u16 (Z.lor (Z.shiftl high 8) low).

Definition make_mask32 (bit count : Z) : Z :=
  let shift := u32 (bit + count) in
  if shift <? 32 then
    Z.land (u32 (Z.shiftl 4294967295 bit)) (u32 (Z.lnot (u32 (Z.shiftl 4294967295 shift))))
  else if bit <? 32 then u32 (Z.shiftl 4294967295 bit)
  else 0.

Definition read_high32 (word : Z) : Z := u32 (Z.shiftr word 32).
Definition read_high8 (word : Z) : Z := u8 (Z.shiftr word 8).
Definition read_low32 (word : Z) : Z := u32 word.
Definition read_low8 (word : Z) : Z := u8 word.

Definition round_up_2n (value : Z) : Z :=
  let value := u32 (value - 1) in
  let value := Z.lor value (Z.shiftr value 1) in
  let value := Z.lor value (Z.shiftr value 2) in
  let value := Z.lor value (Z.shiftr value 4) in
  let value := Z.lor value (Z.shiftr value 8) in
  let value := Z.lor value (Z.shiftr value 16) in
  u32 (value + 1).

(** ** new.hpp: the allocation flags, memory.h: super pages *)

Definition SUPER_PAGE_SIZE : Z := 4 * 1024 * 1024.
Definition CACHE_LINE_SIZE : Z := 32.

Definition MEMORY_ALIGN4 : Z := 4.
Definition MEMORY_SHARED : Z := 0x00400000.
Definition MEMORY_COPY_ON_WRITE : Z := 0x00800000.
Definition MEMORY_DMA16 : Z := 0x01000000.
Definition MEMORY_DMA32 : Z := 0x02000000.
Definition MEMORY_DMA64 : Z := 0x04000000.
Definition MEMORY_ZERO : Z := 0x10000000.
Definition MEMORY_PAGED : Z := 0x20000000.
Definition MEMORY_WRITABLE : Z := 0x40000000.
Definition MEMORY_USER : Z := 0x80000000.

Definition read_alignment_flags (flags : Z) : Z := Z.land flags 0x00FFFFFF.

(** [flags & mask], as a condition. *)
Definition has_flag (flags mask : Z) : bool := negb (Z.land flags mask =? 0).

(** ** Shared by the managers *)

Definition CAPABILITY_EXPLICIT_TARGET_ADDRESS : Z := 0x1000.
Definition MEDIUM_MESSAGE_PAYLOAD_SIZE : Z := 256.
Definition PAYLOAD_AREA_BASE : Z := 0x20000000.

(** [is_user_address]. *)
Definition is_user_address (address : Z) : bool := PAYLOAD_AREA_BASE <=? address.

Definition with_status (d : syscall_data) (v : Z) : syscall_data :=
  mkSyscall (World.size d) (data0 d) (data1 d) (data2 d) (data3 d) (data4 d) (data5 d) v.

(** ** Lemmas *)

(** The search returns the first set bit of the range, or the error value. *)
Lemma lowest_bit_spec n : forall i value,
  (exists j, i <= j < i + Z.of_nat n /\ lowest_bit n i value = j /\ Z.testbit value j = true /\
     forall l, i <= l < j -> Z.testbit value l = false) \/
  (lowest_bit n i value = 4294967295 /\ forall l, i <= l < i + Z.of_nat n -> Z.testbit value l = false).
Proof.
  induction n as [|n IH]; intros i value; cbn [lowest_bit].
  - right. split; [done|]. lia.
  - destruct (Z.testbit value i) eqn:E.
    + left. exists i. split; [lia|]. split; [done|]. split; [done|]. lia.
    + destruct (IH (i + 1) value) as [(j & Hj & -> & Hb & Hl)|[-> Hl]]; [left|right].
      * exists j. split; [lia|]. split; [done|]. split; [done|]. intros l Hl'.
        destruct (decide (l = i)) as [->|]; [done|]. apply Hl. lia.
      * split; [done|]. intros l Hl'. destruct (decide (l = i)) as [->|]; [done|]. apply Hl. lia.
Qed.

Lemma u32_lnot_testbit x j : 0 <= j < 32 -> Z.testbit (u32 (Z.lnot x)) j = negb (Z.testbit x j).
Proof. intros Hj. rewrite u32_testbit, Z.lnot_spec by lia. by rewrite (proj2 (Z.ltb_lt _ _)) by lia. Qed.

Lemma find_zero_bit32_spec value :
  (exists j, 0 <= j < 32 /\ find_zero_bit32 value = j /\ Z.testbit value j = false /\
     forall l, 0 <= l < j -> Z.testbit value l = true) \/
  (find_zero_bit32 value = 4294967295 /\ forall l, 0 <= l < 32 -> Z.testbit value l = true).
Proof.
  unfold find_zero_bit32.
  destruct (lowest_bit_spec 32 0 (u32 (Z.lnot value))) as [(j & Hj & E & Hb & Hl)|[E Hl]]; [left|right].
  - exists j. split; [lia|]. split; [done|]. rewrite u32_lnot_testbit in Hb by lia. split; [by destruct (Z.testbit value j)|].
    intros l Hl'. specialize (Hl l Hl'). rewrite u32_lnot_testbit in Hl by lia. by destruct (Z.testbit value l).
  - split; [done|]. intros l Hl'. specialize (Hl l ltac:(lia)). rewrite u32_lnot_testbit in Hl by lia.
    by destruct (Z.testbit value l).
Qed.

(** [BIT(index)] of bitmap.hpp. *)
Definition BIT (index : Z) : Z := u32 (Z.shiftl 1 index).

Lemma BIT_testbit i j : 0 <= i < 32 -> 0 <= j -> Z.testbit (BIT i) j = (j =? i).
Proof.
  intros Hi Hj. unfold BIT. rewrite bit_word by done. rewrite Z.pow2_bits_eqb by lia. apply Z.eqb_sym.
Qed.

Lemma ones_shift_testbit b j : 0 <= b -> 0 <= j < 32 ->
  Z.testbit (u32 (Z.shiftl 4294967295 b)) j = (b <=? j).
Proof.
  intros Hb Hj. rewrite u32_testbit, Z.shiftl_spec by lia. rewrite (proj2 (Z.ltb_lt _ _)) by lia.
  change 4294967295 with (Z.ones 32). cbn [andb].
  destruct (Z.leb_spec b j); [apply Z.ones_spec_low; lia|apply Z.testbit_neg_r; lia].
Qed.

Lemma make_mask32_testbit b c j : 0 <= b -> 0 <= c -> b + c <= 32 -> 0 <= j < 32 ->
  Z.testbit (make_mask32 b c) j = (b <=? j) && (j <? b + c).
Proof.
  intros Hb Hc Hle Hj. unfold make_mask32. rewrite (u32_small (b + c)) by lia.
  destruct (Z.ltb_spec (b + c) 32).
  - rewrite Z.land_spec, u32_lnot_testbit, !ones_shift_testbit by lia.
    f_equal. by destruct (Z.leb_spec (b + c) j), (Z.ltb_spec j (b + c)); try lia.
  - rewrite (proj2 (Z.ltb_lt j (b + c))) by lia. rewrite andb_true_r.
    destruct (Z.ltb_spec b 32); [by apply ones_shift_testbit|].
    rewrite Z.bits_0. symmetry. apply Z.leb_gt. lia.
Qed.

Lemma land_u32 a b : is_u32 a -> is_u32 b -> is_u32 (Z.land a b).
Proof.
  intros Ha Hb. apply is_u32_bits; [apply Z.land_nonneg; left; apply Ha|].
  intros k Hk. by rewrite Z.land_spec, u32_bits.
Qed.

Lemma lor_u32 a b : is_u32 a -> is_u32 b -> is_u32 (Z.lor a b).
Proof.
  intros Ha Hb. apply is_u32_bits; [apply Z.lor_nonneg; split; [apply Ha|apply Hb]|].
  intros k Hk. by rewrite Z.lor_spec, !u32_bits.
Qed.

Lemma u32_is_u32' x : is_u32 (u32 x).
Proof. unfold is_u32. apply u32_range. Qed.

(** All 32 bits set. *)
Lemma full_word value : is_u32 value ->
  (value =? 4294967295) = true <-> forall j, 0 <= j < 32 -> Z.testbit value j = true.
Proof.
  intros Hv. rewrite Z.eqb_eq. split.
  - intros -> j Hj. change 4294967295 with (Z.ones 32). apply Z.ones_spec_low. lia.
  - intros H. apply Z.bits_inj'. intros j Hj. change 4294967295 with (Z.ones 32).
    destruct (Z.lt_ge_cases j 32); [rewrite H, Z.ones_spec_low by lia; done|].
    rewrite u32_bits, Z.ones_spec_high by (done || lia). done.
Qed.

#[export] Hint Resolve land_u32 lor_u32 u32_is_u32' : word.

(** ** Sums over maps *)

Definition total `{Countable K} {A} (f : A -> Z) (m : gmap K A) : Z := map_fold (fun _ a n => f a + n) 0 m.

Section Total.
Context `{Countable K} {A : Type} (f : A -> Z).
Implicit Types (m : gmap K A).

Lemma total_empty : total f (∅ : gmap K A) = 0.
Proof. done. Qed.

Lemma total_insert m k a : m !! k = None -> total f (<[k := a]> m) = f a + total f m.
Proof. intros E. unfold total. rewrite map_fold_insert_L; [done| |done]. intros. lia. Qed.

Lemma total_delete m k a : m !! k = Some a -> total f (delete k m) = total f m - f a.
Proof.
  intros E. rewrite <- (insert_delete_id m k a E) at 2. rewrite total_insert; [lia|]. apply lookup_delete_eq.
Qed.

Lemma total_update m k a b : m !! k = Some a -> total f (<[k := b]> m) = total f m - f a + f b.
Proof.
  intros E. rewrite <- insert_delete_eq. rewrite total_insert by apply lookup_delete_eq. rewrite (total_delete m k a E). lia.
Qed.

Lemma total_nonneg m : (forall a, 0 <= f a) -> 0 <= total f m.
Proof.
  intros Hf. induction m as [|k a m E IH] using map_ind; [done|]. rewrite total_insert by done. specialize (Hf a). lia.
Qed.

Lemma total_ge m k a : (forall a, 0 <= f a) -> m !! k = Some a -> f a <= total f m.
Proof.
  intros Hf E. pose proof (total_nonneg (delete k m) Hf) as Hn. rewrite (total_delete m k a E) in Hn. lia.
Qed.
End Total.

(** ** References *)

Definition is_ref (p q : Z) : Z := if bool_decide (p = q) then 1 else 0.
Fixpoint occurrences (p : Z) (xs : list Z) : Z :=
  match xs with [] => 0 | y :: r => is_ref p y + occurrences p r end.

Lemma is_ref_nonneg p q : 0 <= is_ref p q.
Proof. unfold is_ref. by case_bool_decide. Qed.
Lemma is_ref_refl p : is_ref p p = 1.
Proof. unfold is_ref. by rewrite bool_decide_true. Qed.
Lemma is_ref_ne p q : p <> q -> is_ref p q = 0.
Proof. intros. unfold is_ref. by rewrite bool_decide_false. Qed.
Lemma occurrences_nonneg p x : 0 <= occurrences p x.
Proof. induction x as [|y x IH]; cbn; [done|]. pose proof (is_ref_nonneg p y). lia. Qed.
Lemma occurrences_app p x y : occurrences p (x ++ y) = occurrences p x + occurrences p y.
Proof. induction x as [|z x IH]; cbn; lia. Qed.
#[export] Instance occurrences_proper p : Proper ((≡ₚ) ==> (=)) (occurrences p).
Proof. induction 1; cbn; lia. Qed.

#[export] Hint Resolve is_ref_nonneg occurrences_nonneg : core.
