(* ===== verification/KBitmap.v ===== *)
(** * Kernel bitmaps: [inc/bitmap.hpp], [libk/bitmap.cpp]

    [bitmap_c] is an abstract class; [bitmap32_c] implements it with one word and
    [multilevel_bitmap_m] with 32 child bitmaps and a word that tells which of
    them are full. The abstract class is the type class [Bitmap]; its contract
    is [BitmapLaws], a bitmap of [width] bits seen as a set of numbers. *)

From S2P Require Import Prelude CMem CStringSearch KBase.

(** ** The interface *)

Class Bitmap (B : Type) := {
  bm_default : res B;                      (* the constructor without arguments *)
  bm_size : B -> Z;
  bm_allocate : B -> res (Z * B);
  bm_clear_range : Z -> Z -> B -> res B;
  bm_free : Z -> B -> res B;
  bm_is_full : B -> bool;
  bm_is_set : Z -> B -> res bool;
  bm_set : Z -> B -> res B;
  bm_set_range : Z -> Z -> B -> res B }.

(** [bitmap_c::clear(index)]. *)
Definition bm_clear {B} `{Bitmap B} (index : Z) (b : B) : res B := bm_free index b.

(** ** One word *)

Record bitmap32_c := mkBitmap32 { b32_size : Z; b32_value : Z }.

Definition bitmap32_set_range (index count : Z) (b : bitmap32_c) : res bitmap32_c :=
  kassert (index <? 32);;
  kassert (u32 (index + count) <=? 32);;
  mret (mkBitmap32 (b32_size b) (Z.lor (b32_value b) (make_mask32 index count))).

Definition bitmap32_new (max_bits : Z) : res bitmap32_c :=
  kassert (0 <? max_bits);;
  kassert (max_bits <=? 32);;
  let b := mkBitmap32 max_bits 0 in
  if max_bits <? 32 then bitmap32_set_range max_bits (32 - max_bits) b else mret b.

Definition bitmap32_set (index : Z) (b : bitmap32_c) : res bitmap32_c :=
  kassert (index <? 32);;
  mret (if index <? 32 then mkBitmap32 (b32_size b) (Z.lor (b32_value b) (BIT index)) else b).

Definition bitmap32_allocate (b : bitmap32_c) : res (Z * bitmap32_c) :=
  let index := find_zero_bit32 (b32_value b) in
  if index <? b32_size b then b ← bitmap32_set index b; mret (index, b)
  else mret (index, b).

Definition bitmap32_clear_range (index count : Z) (b : bitmap32_c) : res bitmap32_c :=
  kassert (index <? 32);;
  kassert (u32 (index + count) <=? 32);;
  mret (mkBitmap32 (b32_size b) (Z.land (b32_value b) (u32 (Z.lnot (make_mask32 index count))))).

Definition bitmap32_free (index : Z) (b : bitmap32_c) : res bitmap32_c :=
  kassert (index <? 32);;
  mret (mkBitmap32 (b32_size b) (Z.land (b32_value b) (u32 (Z.lnot (BIT index))))).

Definition bitmap32_is_full (b : bitmap32_c) : bool := b32_value b =? 4294967295.

Definition bitmap32_is_set (index : Z) (b : bitmap32_c) : res bool :=
  mret ((index <? 32) && negb (Z.land (b32_value b) (BIT index) =? 0)).

#[export] Instance bitmap32 : Bitmap bitmap32_c := {|
  bm_default := bitmap32_new 32;
  bm_size := b32_size;
  bm_allocate := bitmap32_allocate;
  bm_clear_range := bitmap32_clear_range;
  bm_free := bitmap32_free;
  bm_is_full := bitmap32_is_full;
  bm_is_set := bitmap32_is_set;
  bm_set := bitmap32_set;
  bm_set_range := bitmap32_set_range |}.

(** ** Several levels *)

Record multilevel_bitmap (B : Type) := mkMultilevel {
  ml_size : Z; child_bitmap : list B; child_bitmap_size : Z; parent_bitmap : Z; true_size : Z }.
Arguments mkMultilevel {_} _ _ _ _ _.
Arguments ml_size {_} _.
Arguments child_bitmap {_} _.
Arguments child_bitmap_size {_} _.
Arguments parent_bitmap {_} _.
Arguments true_size {_} _.

Section Multilevel.
Context {B : Type} `{Bitmap B}.

(** The bitmap with a new child and a new parent word. *)
Definition with_child (b : multilevel_bitmap B) (parent_index : Z) (child : B) (parent : Z)
    : multilevel_bitmap B :=
  mkMultilevel (ml_size b) (<[Z.to_nat parent_index := child]> (child_bitmap b))
    (child_bitmap_size b) parent (true_size b).

(** The parent word with the bit of a child set, or clear. *)
Definition mark_full (parent parent_index : Z) : Z := Z.lor parent (BIT parent_index).
Definition mark_free (parent parent_index : Z) : Z := Z.land parent (u32 (Z.lnot (BIT parent_index))).

(** [if (child.is_full()) parent_bitmap |= BIT(parent_index);] *)
Definition mark_if_full (child : B) (parent parent_index : Z) : Z :=
  if bm_is_full child then mark_full parent parent_index else parent.

Definition multilevel_allocate (b : multilevel_bitmap B) : res (Z * multilevel_bitmap B) :=
  let parent_index := find_zero_bit32 (parent_bitmap b) in
  if parent_index <? 32 then
    child ← array_get (child_bitmap b) parent_index;
    kassert (negb (bm_is_full child));;
    '(child_index, child) ← bm_allocate child;
    mret (u32 (u32 (parent_index * 32) + child_index),
          with_child b parent_index child (mark_if_full child (parent_bitmap b) parent_index))
  else mret (4294967295, b).

(** The first stage of [clear] and [set] on a range, for a start inside a
    child; the result also carries the next child and the remaining count. *)
Definition clear_first (child_index parent_index count : Z) (b : multilevel_bitmap B)
    : res (Z * Z * multilevel_bitmap B) :=
  if negb (child_index =? 0) && (parent_index <? 32) then
    child ← array_get (child_bitmap b) parent_index;
    let partial_count := Z.min count (u32 (child_bitmap_size b - child_index)) in
    child ← bm_clear_range child_index partial_count child;
    kassert (negb (bm_is_full child));;
    mret (parent_index + 1, u32 (count - partial_count),
          with_child b parent_index child (mark_free (parent_bitmap b) parent_index))
  else mret (parent_index, count, b).

Fixpoint clear_middle (fuel : nat) (parent_index count : Z) (b : multilevel_bitmap B)
    : res (Z * Z * multilevel_bitmap B) :=
  if (child_bitmap_size b <=? count) && (parent_index <? 32) then
    match fuel with
    | O => Trap OutOfFuel
    | S f =>
        child ← array_get (child_bitmap b) parent_index;
        child ← bm_clear_range 0 (child_bitmap_size b) child;
        kassert (negb (bm_is_full child));;
        clear_middle f (parent_index + 1) (u32 (count - child_bitmap_size b))
          (with_child b parent_index child (mark_free (parent_bitmap b) parent_index))
    end
  else mret (parent_index, count, b).

Definition clear_last (parent_index count : Z) (b : multilevel_bitmap B) : res (multilevel_bitmap B) :=
  if negb (count =? 0) && (parent_index <? 32) then
    child ← array_get (child_bitmap b) parent_index;
    kassert (count <? child_bitmap_size b);;
    child ← bm_clear_range 0 count child;
    kassert (negb (bm_is_full child));;
    mret (with_child b parent_index child (mark_free (parent_bitmap b) parent_index))
  else mret b.

Definition multilevel_clear_range (index count : Z) (b : multilevel_bitmap B) : res (multilevel_bitmap B) :=
  kassert (index <? true_size b);;
  kassert (u32 (index + count) <=? true_size b);;
  let child_index := index mod 32 in
  let parent_index := index / 32 in
  '(parent_index, count, b) ← clear_first child_index parent_index count b;
  '(parent_index, count, b) ← clear_middle 32 parent_index count b;
  clear_last parent_index count b.

Definition multilevel_free (index : Z) (b : multilevel_bitmap B) : res (multilevel_bitmap B) :=
  kassert (index <? true_size b);;
  let parent_index := index / 32 in
  let child_index := index mod 32 in
  if parent_index <? 32 then
    child ← array_get (child_bitmap b) parent_index;
    child ← bm_free child_index child;
    kassert (negb (bm_is_full child));;
    mret (with_child b parent_index child (mark_free (parent_bitmap b) parent_index))
  else mret b.

Definition multilevel_is_full (b : multilevel_bitmap B) : bool := parent_bitmap b =? 4294967295.

Definition multilevel_is_set (index : Z) (b : multilevel_bitmap B) : res bool :=
  kassert (index <? true_size b);;
  let parent_index := index / 32 in
  let child_index := index mod 32 in
  if parent_index <? 32 then
    child ← array_get (child_bitmap b) parent_index;
    bm_is_set child_index child
  else mret false.

Definition multilevel_set (index : Z) (b : multilevel_bitmap B) : res (multilevel_bitmap B) :=
  kassert (index <? true_size b);;
  let child_index := index mod 32 in
  let parent_index := index / 32 in
  if parent_index <? 32 then
    child ← array_get (child_bitmap b) parent_index;
    child ← bm_set child_index child;
    mret (with_child b parent_index child (mark_if_full child (parent_bitmap b) parent_index))
  else mret b.

Definition set_first (child_index parent_index count : Z) (b : multilevel_bitmap B)
    : res (Z * Z * multilevel_bitmap B) :=
  if negb (child_index =? 0) && (parent_index <? 32) then
    child ← array_get (child_bitmap b) parent_index;
    let partial_count := Z.min count (u32 (child_bitmap_size b - child_index)) in
    child ← bm_set_range child_index partial_count child;
    mret (parent_index + 1, u32 (count - partial_count),
          with_child b parent_index child (mark_if_full child (parent_bitmap b) parent_index))
  else mret (parent_index, count, b).

Fixpoint set_middle (fuel : nat) (parent_index count : Z) (b : multilevel_bitmap B)
    : res (Z * Z * multilevel_bitmap B) :=
  if (child_bitmap_size b <=? count) && (parent_index <? 32) then
    match fuel with
    | O => Trap OutOfFuel
    | S f =>
        child ← array_get (child_bitmap b) parent_index;
        child ← bm_set_range 0 (child_bitmap_size b) child;
        set_middle f (parent_index + 1) (u32 (count - child_bitmap_size b))
          (with_child b parent_index child (mark_full (parent_bitmap b) parent_index))
    end
  else mret (parent_index, count, b).

Definition set_last (parent_index count : Z) (b : multilevel_bitmap B) : res (multilevel_bitmap B) :=
  if negb (count =? 0) && (parent_index <? 32) then
    child ← array_get (child_bitmap b) parent_index;
    kassert (count <? child_bitmap_size b);;
    child ← bm_set_range 0 count child;
    mret (with_child b parent_index child (mark_if_full child (parent_bitmap b) parent_index))
  else mret b.

Definition multilevel_set_range (index count : Z) (b : multilevel_bitmap B) : res (multilevel_bitmap B) :=
  kassert (index <? true_size b);;
  kassert (u32 (index + count) <=? true_size b);;
  let child_index := index mod 32 in
  let parent_index := index / 32 in
  '(parent_index, count, b) ← set_first child_index parent_index count b;
  '(parent_index, count, b) ← set_middle 32 parent_index count b;
  set_last parent_index count b.

Definition multilevel_new (max_bits : Z) : res (multilevel_bitmap B) :=
  kassert (0 <? max_bits);;
  child ← bm_default;
  let true_size := u32 (32 * bm_size child) in
  let b := mkMultilevel max_bits (replicate 32 child) (bm_size child) 0 true_size in
  kassert (max_bits <=? true_size);;
  if max_bits <? true_size then multilevel_set_range max_bits (true_size - max_bits) b else mret b.

End Multilevel.

#[export] Instance multilevel {B} `{Bitmap B} : Bitmap (multilevel_bitmap B) := {|
  bm_default := multilevel_new 1024;
  bm_size := ml_size;
  bm_allocate := multilevel_allocate;
  bm_clear_range := multilevel_clear_range;
  bm_free := multilevel_free;
  bm_is_full := multilevel_is_full;
  bm_is_set := multilevel_is_set;
  bm_set := multilevel_set;
  bm_set_range := multilevel_set_range |}.

Abbreviation bitmap1024_c := (multilevel_bitmap bitmap32_c).
Abbreviation bitmap32k_c := (multilevel_bitmap bitmap1024_c).

(** [allocate_bitmap]: the bitmap that fits, [None] for a size that none does. *)
Inductive any_bitmap :=
  | Any32 (b : bitmap32_c)
  | Any1024 (b : bitmap1024_c)
  | Any32k (b : bitmap32k_c).

Definition allocate_bitmap (max_bits : Z) : res (option any_bitmap) :=
  if max_bits <=? 32 then b ← bitmap32_new max_bits; mret (Some (Any32 b))
  else if max_bits <=? 1024 then b ← multilevel_new max_bits; mret (Some (Any1024 b))
  else if max_bits <=? 32 * 1024 then b ← multilevel_new max_bits; mret (Some (Any32k b))
  else mret None.
