(* ===== verification/KBitmapThms.v ===== *)
(** * Kernel bitmaps: the contract of [bitmap_c] and its implementations *)

From S2P Require Import Prelude CMem CStringSearch KBase KBitmap.

(** ** The contract *)

(** The bits [lo, hi). *)
Definition in_range (lo hi j : Z) : bool := (lo <=? j) && (j <? hi).

(** What every bitmap promises: [inv] is its invariant, [bits] the set of
    allocated numbers below [width]; the numbers from [bm_size] on are always
    allocated. *)
Class BitmapLaws (B : Type) `{Bitmap B} (width : Z) (inv : B -> Prop) (bits : B -> Z -> bool) : Prop := {
  law_size b : inv b -> 0 < bm_size b <= width;
  law_reserved b j : inv b -> bm_size b <= j < width -> bits b j = true;
  law_allocate b : inv b -> exists i b', bm_allocate b = Ret (i, b') /\ inv b' /\ bm_size b' = bm_size b /\
    ((0 <= i < bm_size b /\ bits b i = false /\ (forall l, 0 <= l < i -> bits b l = true) /\
      forall j, 0 <= j < width -> bits b' j = bits b j || (j =? i)) \/
     (i = 4294967295 /\ b' = b /\ forall l, 0 <= l < width -> bits b l = true));
  law_free b i : inv b -> 0 <= i < bm_size b -> exists b', bm_free i b = Ret b' /\ inv b' /\
    bm_size b' = bm_size b /\ forall j, 0 <= j < width -> bits b' j = bits b j && negb (j =? i);
  law_set b i : inv b -> 0 <= i < width -> exists b', bm_set i b = Ret b' /\ inv b' /\
    bm_size b' = bm_size b /\ forall j, 0 <= j < width -> bits b' j = bits b j || (j =? i);
  law_set_range b i n : inv b -> 0 <= i < width -> 0 <= n -> i + n <= width ->
    exists b', bm_set_range i n b = Ret b' /\ inv b' /\ bm_size b' = bm_size b /\
      forall j, 0 <= j < width -> bits b' j = bits b j || in_range i (i + n) j;
  law_clear_range b i n : inv b -> 0 <= i -> 0 < n -> i + n <= bm_size b ->
    exists b', bm_clear_range i n b = Ret b' /\ inv b' /\ bm_size b' = bm_size b /\
      forall j, 0 <= j < width -> bits b' j = bits b j && negb (in_range i (i + n) j);
  law_is_full b : inv b -> bm_is_full b = true <-> forall j, 0 <= j < width -> bits b j = true;
  law_is_set b i : inv b -> 0 <= i < width -> bm_is_set i b = Ret (bits b i) }.

(** ** One word *)

Definition bits32 (b : bitmap32_c) (j : Z) : bool := Z.testbit (b32_value b) j.

Record inv32 (b : bitmap32_c) : Prop := {
  inv32_word : is_u32 (b32_value b);
  inv32_size : 0 < b32_size b <= 32;
  inv32_reserved : forall j, b32_size b <= j < 32 -> bits32 b j = true }.

Lemma mask32_u32 i n : is_u32 (make_mask32 i n).
Proof. unfold make_mask32. repeat case_match; auto with word; unfold is_u32; lia. Qed.

Lemma BIT_u32 i : is_u32 (BIT i).
Proof. unfold BIT. auto with word. Qed.

#[export] Hint Resolve mask32_u32 BIT_u32 : word.

(** A change of the word that keeps the reserved bits. *)
Lemma inv32_update b v : inv32 b -> is_u32 v ->
  (forall j, b32_size b <= j < 32 -> bits32 b j = true -> Z.testbit v j = true) ->
  inv32 (mkBitmap32 (b32_size b) v).
Proof. intros [Hw Hs Hr] Hv Hk. split; cbn; try done. intros j Hj. apply Hk; [done|]. by apply Hr. Qed.

Lemma bitmap32_set_range_run b i n : inv32 b -> 0 <= i < 32 -> 0 <= n -> i + n <= 32 ->
  exists b', bitmap32_set_range i n b = Ret b' /\ inv32 b' /\ b32_size b' = b32_size b /\
    forall j, 0 <= j < 32 -> bits32 b' j = bits32 b j || in_range i (i + n) j.
Proof.
  intros Hi H1 H2 H3. unfold bitmap32_set_range. kassert_tac. rewrite u32_small by lia. kassert_tac.
  pose proof (inv32_size b Hi). pose proof (inv32_word b Hi) as Hw.
  eexists. split; [done|]. split; [|split; [done|]].
  - apply inv32_update; [done|auto with word|]. intros j Hj Hb. rewrite Z.lor_spec.
    unfold bits32 in Hb. by rewrite Hb.
  - intros j Hj. unfold bits32. cbn. by rewrite Z.lor_spec, make_mask32_testbit by lia.
Qed.

Lemma bitmap32_clear_range_run b i n : inv32 b -> 0 <= i -> 0 < n -> i + n <= b32_size b ->
  exists b', bitmap32_clear_range i n b = Ret b' /\ inv32 b' /\ b32_size b' = b32_size b /\
    forall j, 0 <= j < 32 -> bits32 b' j = bits32 b j && negb (in_range i (i + n) j).
Proof.
  intros Hi H1 H2 H3. pose proof (inv32_size b Hi). pose proof (inv32_word b Hi) as Hw.
  unfold bitmap32_clear_range. kassert_tac. rewrite (u32_small (i + n)) by lia. kassert_tac.
  assert (Hb : forall j, 0 <= j < 32 ->
    Z.testbit (Z.land (b32_value b) (u32 (Z.lnot (make_mask32 i n)))) j = bits32 b j && negb (in_range i (i + n) j)).
  { intros j Hj. by rewrite Z.land_spec, u32_lnot_testbit, make_mask32_testbit by lia. }
  eexists. split; [done|]. split; [|split; [done|exact Hb]].
  apply inv32_update; [done|auto with word|]. intros j Hj Hbj. rewrite Hb, Hbj by lia.
  unfold in_range. by rewrite (proj2 (Z.ltb_ge j (i + n))), andb_false_r by lia.
Qed.

Lemma bitmap32_set_run b i : inv32 b -> 0 <= i < 32 -> exists b', bitmap32_set i b = Ret b' /\ inv32 b' /\
  b32_size b' = b32_size b /\ forall j, 0 <= j < 32 -> bits32 b' j = bits32 b j || (j =? i).
Proof.
  intros Hi H1. unfold bitmap32_set. kassert_tac. rewrite (proj2 (Z.ltb_lt _ _)) by lia.
  pose proof (inv32_word b Hi) as Hw. pose proof (inv32_size b Hi).
  eexists. split; [done|]. split; [|split; [done|]].
  - apply inv32_update; [done|auto with word|]. intros j Hj Hb. rewrite Z.lor_spec. unfold bits32 in Hb. by rewrite Hb.
  - intros j Hj. unfold bits32. cbn. by rewrite Z.lor_spec, BIT_testbit by lia.
Qed.

Lemma bitmap32_free_run b i : inv32 b -> 0 <= i < b32_size b -> exists b', bitmap32_free i b = Ret b' /\ inv32 b' /\
  b32_size b' = b32_size b /\ forall j, 0 <= j < 32 -> bits32 b' j = bits32 b j && negb (j =? i).
Proof.
  intros Hi H1. pose proof (inv32_word b Hi) as Hw. pose proof (inv32_size b Hi).
  unfold bitmap32_free. kassert_tac.
  assert (Hb : forall j, 0 <= j < 32 ->
    Z.testbit (Z.land (b32_value b) (u32 (Z.lnot (BIT i)))) j = bits32 b j && negb (j =? i)).
  { intros j Hj. by rewrite Z.land_spec, u32_lnot_testbit, BIT_testbit by lia. }
  eexists. split; [done|]. split; [|split; [done|exact Hb]].
  apply inv32_update; [done|auto with word|]. intros j Hj Hbj. rewrite Hb, Hbj by lia.
  by rewrite (proj2 (Z.eqb_neq j i)) by lia.
Qed.

#[export] Instance bitmap32_laws : BitmapLaws bitmap32_c 32 inv32 bits32.
Proof.
  split; cbn [bm_size bm_allocate bm_free bm_set bm_set_range bm_clear_range bm_is_full bm_is_set bitmap32].
  - intros b Hi. apply Hi.
  - intros b j Hi. by apply inv32_reserved.
  - intros b Hi. unfold bitmap32_allocate. pose proof (inv32_size b Hi).
    destruct (find_zero_bit32_spec (b32_value b)) as [(j & Hj & -> & Hb & Hl)|[-> Hl]].
    + assert (Hlt : j < b32_size b).
      { destruct (Z.lt_ge_cases j (b32_size b)); [done|]. pose proof (inv32_reserved b Hi j ltac:(lia)) as Hr.
        unfold bits32 in Hr. congruence. }
      rewrite (proj2 (Z.ltb_lt _ _)) by lia. destruct (bitmap32_set_run b j Hi Hj) as (b' & E & Hi' & Hs & Hbits).
      exists j, b'. rewrite E. split; [done|]. split; [done|]. split; [done|]. left. split; [lia|]. done.
    + rewrite (proj2 (Z.ltb_ge _ _)) by lia. exists 4294967295, b. split; [done|]. split; [done|].
      split; [done|]. by right.
  - intros b i. apply bitmap32_free_run.
  - intros b i. apply bitmap32_set_run.
  - intros b i n. apply bitmap32_set_range_run.
  - intros b i n. apply bitmap32_clear_range_run.
  - intros b Hi. apply full_word, Hi.
  - intros b i Hi H1. unfold bitmap32_is_set. rewrite (proj2 (Z.ltb_lt _ _)) by lia. cbn. do 2 f_equal.
    destruct (Z.eqb_spec (Z.land (b32_value b) (BIT i)) 0) as [E|E]; cbn.
    + assert (Hz : Z.testbit (Z.land (b32_value b) (BIT i)) i = false) by (rewrite E; apply Z.bits_0).
      rewrite Z.land_spec, BIT_testbit, Z.eqb_refl, andb_true_r in Hz by lia. by rewrite <- Hz.
    + destruct (bits32 b i) eqn:Eb; [done|]. exfalso. apply E. apply Z.bits_inj'. intros j Hj.
      rewrite Z.land_spec, BIT_testbit, Z.bits_0 by lia. destruct (Z.eqb_spec j i) as [->|]; [|apply andb_false_r].
      unfold bits32 in Eb. by rewrite Eb.
Qed.

(** ** Several levels

    The code splits an index with the constant 32, so that the template is
    correct for children of exactly 32 bits. *)
Section Multilevel.
Context {B : Type} `{Bitmap B} {inv : B -> Prop} {bits : B -> Z -> bool} `{!BitmapLaws B 32 inv bits}.
Implicit Types (b : multilevel_bitmap B) (c : B).

Lemma child_full c : inv c -> bm_is_full c = true <-> forall j, 0 <= j < 32 -> bits c j = true.
Proof. apply law_is_full. Qed.

Definition ml_bits b (j : Z) : bool :=
  match child_bitmap b !! Z.to_nat (j / 32) with
  | Some c => bits c (j mod 32)
  | None => true
  end.

(** The structure: 32 usable children, and the parent word tells which of them
    are full. *)
Record ml_core b : Prop := {
  core_length : length (child_bitmap b) = 32%nat;
  core_children : forall c, c ∈ child_bitmap b -> inv c /\ bm_size c = 32;
  core_child_size : child_bitmap_size b = 32;
  core_true_size : true_size b = 1024;
  core_word : is_u32 (parent_bitmap b);
  core_parent : forall p c, 0 <= p < 32 -> child_bitmap b !! Z.to_nat p = Some c ->
    Z.testbit (parent_bitmap b) p = bm_is_full c }.

Record ml_inv b : Prop := {
  inv_core : ml_core b;
  inv_size : 0 < ml_size b <= 1024;
  inv_reserved : forall j, ml_size b <= j < 1024 -> ml_bits b j = true }.

Lemma child_lookup b p : ml_core b -> 0 <= p < 32 ->
  exists c, child_bitmap b !! Z.to_nat p = Some c /\ inv c /\ bm_size c = 32.
Proof.
  intros Hb Hp. destruct (lookup_lt_is_Some_2 (child_bitmap b) (Z.to_nat p)) as [c Hc].
  { rewrite (core_length b Hb). lia. }
  exists c. split; [done|]. apply (core_children b Hb). by eapply list_elem_of_lookup_2.
Qed.

(** Replacing a child together with its bit of the parent word. *)
Lemma with_child_core b p c parent : ml_core b -> 0 <= p < 32 -> inv c -> bm_size c = 32 -> is_u32 parent ->
  (forall q, 0 <= q < 32 -> Z.testbit parent q = if q =? p then bm_is_full c else Z.testbit (parent_bitmap b) q) ->
  ml_core (with_child b p c parent) /\
  forall j, 0 <= j < 1024 -> ml_bits (with_child b p c parent) j
                               = if j / 32 =? p then bits c (j mod 32) else ml_bits b j.
Proof.
  intros Hb Hp Hc Hs Hw Hbits. pose proof (core_length b Hb) as Hl. split.
  - split; cbn; try by apply Hb.
    + by rewrite length_insert.
    + intros c' Hc'. apply list_elem_of_lookup in Hc' as (i & Hi).
      apply list_lookup_insert_Some in Hi as [(<- & <- & _)|(_ & Hi)]; [done|].
      apply (core_children b Hb). by eapply list_elem_of_lookup_2.
    + done.
    + intros q c' Hq Hc'. rewrite Hbits by done.
      apply list_lookup_insert_Some in Hc' as [(Eq & <- & _)|(Hne & Hc')].
      * by rewrite (proj2 (Z.eqb_eq _ _)) by lia.
      * rewrite (proj2 (Z.eqb_neq q p)) by (intros ->; done). by apply (core_parent b Hb).
  - intros j Hj. unfold ml_bits, with_child. cbn. destruct (Z.eqb_spec (j / 32) p) as [<-|Hne].
    + rewrite list_lookup_insert_eq by lia. done.
    + rewrite list_lookup_insert_ne; [done|]. intros E. apply Hne. zlia.
Qed.

(** The two ways the code updates the parent word. *)
Lemma mark_full_bits parent p : is_u32 parent -> 0 <= p < 32 -> is_u32 (mark_full parent p) /\
  forall q, 0 <= q < 32 -> Z.testbit (mark_full parent p) q = if q =? p then true else Z.testbit parent q.
Proof.
  intros Hw Hp. unfold mark_full. split; [auto with word|]. intros q Hq. rewrite Z.lor_spec, BIT_testbit by lia.
  destruct (q =? p); [apply orb_true_r|apply orb_false_r].
Qed.

Lemma mark_free_bits parent p : is_u32 parent -> 0 <= p < 32 -> is_u32 (mark_free parent p) /\
  forall q, 0 <= q < 32 -> Z.testbit (mark_free parent p) q = if q =? p then false else Z.testbit parent q.
Proof.
  intros Hw Hp. unfold mark_free. split; [auto with word|]. intros q Hq.
  rewrite Z.land_spec, u32_lnot_testbit, BIT_testbit by lia.
  destruct (q =? p); [apply andb_false_r|apply andb_true_r].
Qed.

(** A child that only gains bits: its mark is set when it is full now. *)
Lemma grow_child b p c c' : ml_core b -> 0 <= p < 32 -> child_bitmap b !! Z.to_nat p = Some c -> inv c ->
  inv c' -> bm_size c' = 32 -> (forall j, 0 <= j < 32 -> bits c j = true -> bits c' j = true) ->
  let b' := with_child b p c' (mark_if_full c' (parent_bitmap b) p) in
  ml_core b' /\ forall j, 0 <= j < 1024 -> ml_bits b' j = if j / 32 =? p then bits c' (j mod 32) else ml_bits b j.
Proof.
  intros Hb Hp Hc Hic Hic' Hs Hgrow b'. pose proof (core_word b Hb) as Hw.
  destruct (mark_full_bits _ p Hw Hp) as [Hw' Hm]. unfold b', mark_if_full.
  destruct (bm_is_full c') eqn:Ef.
  - apply with_child_core; try done. intros q Hq. rewrite Hm by done. by destruct (q =? p); rewrite ?Ef.
  - apply with_child_core; try done. intros q Hq. destruct (Z.eqb_spec q p) as [->|]; [|done].
    rewrite (core_parent b Hb p c Hp Hc), Ef. destruct (bm_is_full c) eqn:E; [|done].
    exfalso. rewrite <- not_true_iff_false in Ef. apply Ef.
    apply (child_full c' Hic'). intros j Hj. apply Hgrow; [done|]. by apply (child_full c Hic).
Qed.

(** A child that is not full: its mark is cleared. *)
Lemma shrink_child b p c' : ml_core b -> 0 <= p < 32 -> inv c' -> bm_size c' = 32 -> bm_is_full c' = false ->
  let b' := with_child b p c' (mark_free (parent_bitmap b) p) in
  ml_core b' /\ forall j, 0 <= j < 1024 -> ml_bits b' j = if j / 32 =? p then bits c' (j mod 32) else ml_bits b j.
Proof.
  intros Hb Hp Hic' Hs Hf b'. pose proof (core_word b Hb) as Hw.
  destruct (mark_free_bits _ p Hw Hp) as [Hw' Hm]. apply with_child_core; try done.
  intros q Hq. rewrite Hm by done. by destruct (q =? p); rewrite ?Hf.
Qed.

Lemma not_full c i : inv c -> 0 <= i < 32 -> bits c i = false -> bm_is_full c = false.
Proof.
  intros Hc Hi Hb. apply not_true_iff_false. intros Hf. apply (child_full c Hc) with (j := i) in Hf; [congruence|done].
Qed.

(** *** Single bits *)

Lemma split_index j : 0 <= j < 1024 -> 0 <= j / 32 < 32 /\ 0 <= j mod 32 < 32 /\ j = 32 * (j / 32) + j mod 32.
Proof. intros. zlia. Qed.

Lemma multilevel_set_run b i : ml_core b -> 0 <= i < 1024 -> exists b', multilevel_set i b = Ret b' /\
  ml_core b' /\ ml_size b' = ml_size b /\ forall j, 0 <= j < 1024 -> ml_bits b' j = ml_bits b j || (j =? i).
Proof.
  intros Hb Hi. destruct (split_index i Hi) as (Hp & Hc & Ei). unfold multilevel_set.
  rewrite (core_true_size b Hb). kassert_tac. rewrite (proj2 (Z.ltb_lt _ _)) by lia.
  destruct (child_lookup b (i / 32) Hb Hp) as (c & El & Hic & Hs). krun array_get_run.
  destruct (law_set c (i mod 32) Hic Hc) as (c' & Ec & Hic' & Hs' & Hbits). krun Ec.
  rewrite Hs in Hs'. destruct (grow_child b (i / 32) c c' Hb Hp El Hic Hic' Hs') as [Hcore Hml].
  { intros j Hj E. by rewrite Hbits, E by done. }
  eexists. split; [done|]. split; [exact Hcore|]. split; [done|]. intros j Hj. rewrite Hml by done.
  destruct (split_index j Hj) as (Hpj & Hcj & Ej).
  destruct (Z.eqb_spec (j / 32) (i / 32)) as [E|E].
  - rewrite Hbits by done. unfold ml_bits. rewrite E, El. f_equal.
    destruct (Z.eqb_spec (j mod 32) (i mod 32)), (Z.eqb_spec j i); try done; congruence || lia.
  - rewrite (proj2 (Z.eqb_neq j i)) by congruence. by rewrite orb_false_r.
Qed.

Lemma multilevel_free_run b i : ml_core b -> 0 <= i < 1024 -> exists b', multilevel_free i b = Ret b' /\
  ml_core b' /\ ml_size b' = ml_size b /\ forall j, 0 <= j < 1024 -> ml_bits b' j = ml_bits b j && negb (j =? i).
Proof.
  intros Hb Hi. destruct (split_index i Hi) as (Hp & Hc & Ei). unfold multilevel_free.
  rewrite (core_true_size b Hb). kassert_tac. rewrite (proj2 (Z.ltb_lt _ _)) by lia.
  destruct (child_lookup b (i / 32) Hb Hp) as (c & El & Hic & Hs). krun array_get_run.
  assert (Hsz : 0 <= i mod 32 < bm_size c) by (by rewrite Hs).
  destruct (law_free c (i mod 32) Hic Hsz) as (c' & Ec & Hic' & Hs' & Hbits). krun Ec.
  rewrite Hs in Hs'. assert (Hnf : bm_is_full c' = false).
  { apply (not_full c' (i mod 32)); [done|done|]. rewrite Hbits, Z.eqb_refl by done. apply andb_false_r. }
  rewrite Hnf. kassert_tac. destruct (shrink_child b (i / 32) c' Hb Hp Hic' Hs' Hnf) as [Hcore Hml].
  eexists. split; [done|]. split; [exact Hcore|]. split; [done|]. intros j Hj. rewrite Hml by done.
  destruct (split_index j Hj) as (Hpj & Hcj & Ej).
  destruct (Z.eqb_spec (j / 32) (i / 32)) as [E|E].
  - rewrite Hbits by done. unfold ml_bits. rewrite E, El. f_equal. f_equal.
    destruct (Z.eqb_spec (j mod 32) (i mod 32)), (Z.eqb_spec j i); try done; congruence || lia.
  - rewrite (proj2 (Z.eqb_neq j i)) by congruence. by rewrite andb_true_r.
Qed.

Lemma multilevel_is_set_run b i : ml_core b -> 0 <= i < 1024 -> multilevel_is_set i b = Ret (ml_bits b i).
Proof.
  intros Hb Hi. destruct (split_index i Hi) as (Hp & Hc & Ei). unfold multilevel_is_set.
  rewrite (core_true_size b Hb). kassert_tac. rewrite (proj2 (Z.ltb_lt _ _)) by lia.
  destruct (child_lookup b (i / 32) Hb Hp) as (c & El & Hic & Hs). krun array_get_run.
  unfold ml_bits. rewrite El. by apply law_is_set.
Qed.

Lemma multilevel_is_full_run b : ml_core b ->
  multilevel_is_full b = true <-> forall j, 0 <= j < 1024 -> ml_bits b j = true.
Proof.
  intros Hb. unfold multilevel_is_full. rewrite (full_word _ (core_word b Hb)). split.
  - intros Hf j Hj. destruct (split_index j Hj) as (Hp & Hc & Ei).
    destruct (child_lookup b (j / 32) Hb Hp) as (c & El & Hic & Hs). unfold ml_bits. rewrite El.
    apply (child_full c Hic); [|done]. rewrite <- (core_parent b Hb _ c Hp El). by apply Hf.
  - intros Hf p Hp. destruct (child_lookup b p Hb Hp) as (c & El & Hic & Hs).
    rewrite (core_parent b Hb _ c Hp El). apply (child_full c Hic). intros j Hj.
    specialize (Hf (32 * p + j) ltac:(lia)). unfold ml_bits in Hf.
    replace ((32 * p + j) / 32) with p in Hf by zlia. replace ((32 * p + j) mod 32) with j in Hf by zlia.
    by rewrite El in Hf.
Qed.


Lemma multilevel_allocate_run b : ml_core b -> exists i b', multilevel_allocate b = Ret (i, b') /\ ml_core b' /\
  ml_size b' = ml_size b /\
  ((0 <= i < 1024 /\ ml_bits b i = false /\ (forall l, 0 <= l < i -> ml_bits b l = true) /\
    forall j, 0 <= j < 1024 -> ml_bits b' j = ml_bits b j || (j =? i)) \/
   (i = 4294967295 /\ b' = b /\ forall l, 0 <= l < 1024 -> ml_bits b l = true)).
Proof.
  intros Hb. unfold multilevel_allocate.
  destruct (find_zero_bit32_spec (parent_bitmap b)) as [(p & Hp & -> & Hfree & Hlow)|[-> Hall]].
  - rewrite (proj2 (Z.ltb_lt _ _)) by lia. destruct (child_lookup b p Hb Hp) as (c & El & Hic & Hs).
    krun array_get_run. rewrite (core_parent b Hb p c Hp El) in Hfree. rewrite Hfree. kassert_tac.
    destruct (law_allocate c Hic) as (i & c' & Ec & Hic' & Hs' & Hcase). krun Ec. rewrite Hs in *.
    destruct Hcase as [(Hi & Hbi & Hlowi & Hbits)|(_ & _ & Hfull)]; last first.
    { apply (child_full c Hic) in Hfull. congruence. }
    destruct (grow_child b p c c' Hb Hp El Hic Hic' Hs') as [Hcore Hml].
    { intros j Hj E. by rewrite Hbits, E by done. }
    rewrite !u32_small by (rewrite ?u32_small; lia).
    assert (Hdiv : (p * 32 + i) / 32 = p) by zlia. assert (Hmod : (p * 32 + i) mod 32 = i) by zlia.
    eexists _, _. split; [done|]. split; [exact Hcore|]. split; [done|]. left. split; [lia|].
    split; [unfold ml_bits; by rewrite Hdiv, Hmod, El|]. split.
    + intros l Hl. destruct (split_index l ltac:(lia)) as (Hpl & Hcl & Ell).
      destruct (child_lookup b (l / 32) Hb Hpl) as (cl & Ecl & Hicl & Hsl). unfold ml_bits. rewrite Ecl.
      destruct (decide (l / 32 = p)) as [E|E].
      * rewrite E, El in Ecl. simplify_eq. apply Hlowi. lia.
      * apply (child_full cl Hicl); [|done]. rewrite <- (core_parent b Hb _ cl Hpl Ecl). apply Hlow. lia.
    + intros j Hj. rewrite Hml by done. destruct (split_index j Hj) as (Hpj & Hcj & Ej).
      destruct (Z.eqb_spec (j / 32) p) as [E|E].
      * rewrite Hbits by done. unfold ml_bits. rewrite E, El. f_equal.
        destruct (Z.eqb_spec (j mod 32) i), (Z.eqb_spec j (p * 32 + i)); try done; lia.
      * rewrite (proj2 (Z.eqb_neq j _)) by (intros ->; congruence). by rewrite orb_false_r.
  - rewrite (proj2 (Z.ltb_ge _ _)) by lia. exists 4294967295, b. split; [done|]. split; [done|].
    split; [done|]. right. split; [done|]. split; [done|]. apply multilevel_is_full_run; [done|].
    unfold multilevel_is_full. apply full_word; [apply Hb|done].
Qed.

(** *** Ranges *)

(** The bits after a change of the bits [lo, hi) of one child. *)
Lemma child_range_bits b b' c c' p lo hi (g : bool -> bool -> bool) :
  (forall x, g x false = x) -> 0 <= p < 32 -> 0 <= lo -> hi <= 32 ->
  child_bitmap b !! Z.to_nat p = Some c ->
  (forall j, 0 <= j < 32 -> bits c' j = g (bits c j) (in_range lo hi j)) ->
  (forall j, 0 <= j < 1024 -> ml_bits b' j = if j / 32 =? p then bits c' (j mod 32) else ml_bits b j) ->
  forall j, 0 <= j < 1024 -> ml_bits b' j = g (ml_bits b j) (in_range (32 * p + lo) (32 * p + hi) j).
Proof.
  intros Hg Hp Hlo Hhi El Hbits Hml j Hj. rewrite Hml by done. destruct (split_index j Hj) as (Hpj & Hcj & Ej).
  destruct (Z.eqb_spec (j / 32) p) as [E|E].
  - rewrite Hbits by done. unfold ml_bits. rewrite E, El. f_equal. unfold in_range.
    destruct (Z.leb_spec lo (j mod 32)), (Z.leb_spec (32 * p + lo) j), (Z.ltb_spec (j mod 32) hi),
      (Z.ltb_spec j (32 * p + hi)); try done; lia.
  - replace (in_range (32 * p + lo) (32 * p + hi) j) with false; [by rewrite Hg|]. symmetry. unfold in_range.
    destruct (Z.leb_spec (32 * p + lo) j), (Z.ltb_spec j (32 * p + hi)); try done. exfalso. apply E. zlia.
Qed.

Lemma in_range_app lo mid hi j : lo <= mid -> mid <= hi -> in_range lo hi j = in_range lo mid j || in_range mid hi j.
Proof.
  intros H1 H2. unfold in_range.
  destruct (Z.leb_spec lo j), (Z.ltb_spec j hi), (Z.ltb_spec j mid), (Z.leb_spec mid j); try done; lia.
Qed.

Lemma in_range_empty lo hi j : hi <= lo -> in_range lo hi j = false.
Proof. intros Hle. unfold in_range. destruct (Z.leb_spec lo j), (Z.ltb_spec j hi); try done; lia. Qed.

(** One child in a range that is set. *)
Lemma set_child_run b p lo n : ml_core b -> 0 <= p < 32 -> 0 <= lo < 32 -> 0 <= n -> lo + n <= 32 ->
  exists c c', child_bitmap b !! Z.to_nat p = Some c /\ bm_set_range lo n c = Ret c' /\ inv c' /\
    let b' := with_child b p c' (mark_if_full c' (parent_bitmap b) p) in
    ml_core b' /\ ml_size b' = ml_size b /\
    forall j, 0 <= j < 1024 -> ml_bits b' j = ml_bits b j || in_range (32 * p + lo) (32 * p + (lo + n)) j.
Proof.
  intros Hb Hp Hlo Hn Hle. destruct (child_lookup b p Hb Hp) as (c & El & Hic & Hs).
  destruct (law_set_range c lo n Hic Hlo Hn Hle) as (c' & Ec & Hic' & Hs' & Hbits). rewrite Hs in Hs'.
  destruct (grow_child b p c c' Hb Hp El Hic Hic' Hs') as [Hcore Hml].
  { intros j Hj E. by rewrite Hbits, E by done. }
  exists c, c'. do 3 (split; [done|]). split; [exact Hcore|]. split; [done|].
  eapply (child_range_bits b _ c c' p lo (lo + n) orb); try done; [apply orb_false_r|lia].
Qed.

(** One child in a range that is cleared. *)
Lemma clear_child_run b p lo n : ml_core b -> 0 <= p < 32 -> 0 <= lo < 32 -> 0 < n -> lo + n <= 32 ->
  exists c c', child_bitmap b !! Z.to_nat p = Some c /\ bm_clear_range lo n c = Ret c' /\ bm_is_full c' = false /\
    let b' := with_child b p c' (mark_free (parent_bitmap b) p) in
    ml_core b' /\ ml_size b' = ml_size b /\
    forall j, 0 <= j < 1024 -> ml_bits b' j = ml_bits b j && negb (in_range (32 * p + lo) (32 * p + (lo + n)) j).
Proof.
  intros Hb Hp Hlo Hn Hle. destruct (child_lookup b p Hb Hp) as (c & El & Hic & Hs).
  assert (Hle' : lo + n <= bm_size c) by (by rewrite Hs).
  destruct (law_clear_range c lo n Hic (proj1 Hlo) Hn Hle') as (c' & Ec & Hic' & Hs' & Hbits). rewrite Hs in Hs'.
  assert (Hnf : bm_is_full c' = false).
  { apply (not_full c' lo); [done|done|]. rewrite Hbits by done. unfold in_range.
    rewrite (proj2 (Z.leb_le _ _)), (proj2 (Z.ltb_lt _ _)) by lia. apply andb_false_r. }
  destruct (shrink_child b p c' Hb Hp Hic' Hs' Hnf) as [Hcore Hml].
  exists c, c'. do 3 (split; [done|]). split; [exact Hcore|]. split; [done|].
  eapply (child_range_bits b _ c c' p lo (lo + n) (fun x r => x && negb r)); try done; [apply andb_true_r|lia].
Qed.

(** The three stages of a range operation: [g] is what happens to a bit. After a
    stage the bits from [index] on up to the next child are done. *)
Definition stage (g : bool -> bool -> bool) (index count : Z) b (r : res (Z * Z * multilevel_bitmap B)) : Prop :=
  exists p' n' b', r = Ret (p', n', b') /\ ml_core b' /\ ml_size b' = ml_size b /\
    0 <= n' <= count /\ 0 <= p' <= 32 /\ (n' <> 0 -> 32 * p' = index + (count - n')) /\
    forall j, 0 <= j < 1024 -> ml_bits b' j = g (ml_bits b j) (in_range index (index + (count - n')) j).

Definition clear_bit (x r : bool) : bool := x && negb r.

Lemma stage_refl g index count p b : (forall x, g x false = x) -> ml_core b -> 0 <= count -> 0 <= p <= 32 ->
  (count <> 0 -> 32 * p = index) -> stage g index count b (mret (p, count, b)).
Proof.
  intros Hg Hb Hc Hp Hpi. exists p, count, b. split; [done|]. split; [done|]. split; [done|]. split; [lia|].
  split; [done|]. split; [lia|]. intros j Hj. rewrite in_range_empty by lia. by rewrite Hg.
Qed.

(** The first stage, when it does something. *)
Lemma partial_bounds index count : 0 <= index < 1024 -> 0 <= count -> index + count <= 1024 -> index mod 32 <> 0 ->
  let n := Z.min count (u32 (32 - index mod 32)) in
  n = Z.min count (32 - index mod 32) /\ 0 <= n /\ index mod 32 + n <= 32 /\ u32 (count - n) = count - n /\
  (count - n <> 0 -> 32 * (index / 32 + 1) = index + n) /\ 32 * (index / 32) + index mod 32 = index.
Proof.
  intros Hi Hc Hle Hm. destruct (split_index index Hi) as (Hp & Hm' & Ei).
  rewrite (u32_small (32 - index mod 32)) by lia. cbv zeta. rewrite u32_small by lia.
  split; [done|]. lia.
Qed.

Lemma set_first_run b index count : ml_core b -> 0 <= index < 1024 -> 0 <= count -> index + count <= 1024 ->
  stage orb index count b (set_first (index mod 32) (index / 32) count b).
Proof.
  intros Hb Hi Hc Hle. destruct (split_index index Hi) as (Hp & Hm & Ei). unfold set_first.
  destruct (Z.eqb_spec (index mod 32) 0) as [E0|E0]; cbn [negb andb].
  { apply stage_refl; try done; [apply orb_false_r|lia|lia]. }
  rewrite (proj2 (Z.ltb_lt _ _)) by lia.
  rewrite (core_child_size b Hb). destruct (partial_bounds index count Hi Hc Hle E0) as (_ & Hn0 & Hn & -> & Hnext & Eidx).
  set (n := Z.min count _) in *.
  destruct (set_child_run b (index / 32) (index mod 32) n Hb Hp Hm Hn0 Hn) as (c & c' & El & Ec & _ & Hcore & Hs & Hbits).
  krun array_get_run. krun Ec. eexists _, _, _. split; [done|]. split; [exact Hcore|]. split; [done|].
  split; [unfold n; lia|]. split; [lia|]. split; [intros Hne; rewrite Hnext by done; lia|]. intros j Hj.
  rewrite Hbits by done. f_equal. f_equal; lia.
Qed.

Lemma clear_first_run b index count : ml_core b -> 0 <= index < 1024 -> 0 < count -> index + count <= 1024 ->
  stage clear_bit index count b (clear_first (index mod 32) (index / 32) count b).
Proof.
  intros Hb Hi Hc Hle. destruct (split_index index Hi) as (Hp & Hm & Ei). unfold clear_first.
  destruct (Z.eqb_spec (index mod 32) 0) as [E0|E0]; cbn [negb andb].
  { apply stage_refl; try done; [apply andb_true_r|lia..]. }
  rewrite (proj2 (Z.ltb_lt _ _)) by lia.
  rewrite (core_child_size b Hb). destruct (partial_bounds index count Hi ltac:(lia) Hle E0) as (En & Hn0 & Hn & -> & Hnext & Eidx).
  set (n := Z.min count _) in *. assert (Hnpos : 0 < n) by lia.
  destruct (clear_child_run b (index / 32) (index mod 32) n Hb Hp Hm Hnpos Hn) as (c & c' & El & Ec & Hnf & Hcore & Hs & Hbits).
  krun array_get_run. krun Ec. rewrite Hnf. kassert_tac. eexists _, _, _. split; [done|]. split; [exact Hcore|].
  split; [done|]. split; [lia|]. split; [lia|]. split; [intros Hne; rewrite Hnext by done; lia|]. intros j Hj.
  rewrite Hbits by done. unfold clear_bit. f_equal. f_equal. f_equal; lia.
Qed.

(** One more child, then the rest of a stage. *)
Lemma stage_cons (g : bool -> bool -> bool) index count b b1 r :
  (forall x y z, g (g x y) z = g x (y || z)) -> ml_size b1 = ml_size b -> 32 <= count ->
  (forall j, 0 <= j < 1024 -> ml_bits b1 j = g (ml_bits b j) (in_range index (index + 32) j)) ->
  stage g (index + 32) (count - 32) b1 r -> stage g index count b r.
Proof.
  intros Hg Hs Hc Hb1 (p' & n' & b' & -> & Hcore & Hs' & Hn & Hp & Hnext & Hbits).
  exists p', n', b'. split; [done|]. split; [done|]. split; [congruence|]. split; [lia|]. split; [done|].
  split; [lia|]. intros j Hj. rewrite Hbits, Hb1, Hg by done. f_equal.
  rewrite (in_range_app index (index + 32) (index + (count - n'))) by lia. f_equal. f_equal. lia.
Qed.

Lemma set_middle_run fuel : forall b p count, ml_core b -> 0 <= p <= 32 -> 0 <= count ->
  (count <> 0 -> 32 * p + count <= 1024) -> (Z.to_nat (32 - p) <= fuel)%nat ->
  stage orb (32 * p) count b (set_middle fuel p count b) /\
  forall p' n' b', set_middle fuel p count b = Ret (p', n', b') -> n' < 32.
Proof.
  induction fuel as [|fuel IH]; intros b p count Hb Hp Hc Hle Hf; cbn [set_middle];
    rewrite (core_child_size b Hb); destruct (Z.leb_spec 32 count) as [Hge|Hlt]; cbn [andb];
    try (split; [by apply stage_refl; [apply orb_false_r|..]|intros ? ? ? [= <- <- <-]; lia]).
  - lia.
  - rewrite (proj2 (Z.ltb_lt _ _)) by lia.
    destruct (set_child_run b p 0 32 Hb ltac:(lia) ltac:(lia) ltac:(lia) ltac:(lia)) as (c & c' & El & Ec & Hic' & Hcore & Hs & Hbits).
    erewrite res_bind_ret by (by apply array_get_run). erewrite res_bind_ret by exact Ec.
    assert (Hfull : mark_if_full c' (parent_bitmap b) p = mark_full (parent_bitmap b) p).
    { unfold mark_if_full. replace (bm_is_full c') with true; [done|]. symmetry. apply (child_full c' Hic').
      intros j Hj. specialize (Hbits (32 * p + j) ltac:(lia)). unfold ml_bits at 1 in Hbits. cbn in Hbits.
      replace ((32 * p + j) / 32) with p in Hbits by zlia. replace ((32 * p + j) mod 32) with j in Hbits by zlia.
      rewrite list_lookup_insert_eq in Hbits by (rewrite (core_length b Hb); lia). rewrite Hbits. unfold in_range.
      rewrite (proj2 (Z.leb_le _ _)), (proj2 (Z.ltb_lt _ _)) by lia. apply orb_true_r. }
    rewrite Hfull in *. rewrite u32_small by lia.
    destruct (IH _ (p + 1) (count - 32) Hcore ltac:(lia) ltac:(lia) ltac:(lia) ltac:(lia)) as [Hst Hlt].
    split; [|exact Hlt]. eapply stage_cons; [by intros [] [] []|exact Hs|lia| |].
    + intros j Hj. rewrite Hbits by done. f_equal. f_equal; lia.
    + by replace (32 * p + 32) with (32 * (p + 1)) by lia.
Qed.

Lemma clear_middle_run fuel : forall b p count, ml_core b -> 0 <= p <= 32 -> 0 <= count ->
  (count <> 0 -> 32 * p + count <= 1024) -> (Z.to_nat (32 - p) <= fuel)%nat ->
  stage clear_bit (32 * p) count b (clear_middle fuel p count b) /\
  forall p' n' b', clear_middle fuel p count b = Ret (p', n', b') -> n' < 32.
Proof.
  induction fuel as [|fuel IH]; intros b p count Hb Hp Hc Hle Hf; cbn [clear_middle];
    rewrite (core_child_size b Hb); destruct (Z.leb_spec 32 count) as [Hge|Hlt]; cbn [andb];
    try (split; [by apply stage_refl; [apply andb_true_r|..]|intros ? ? ? [= <- <- <-]; lia]).
  - lia.
  - rewrite (proj2 (Z.ltb_lt _ _)) by lia.
    destruct (clear_child_run b p 0 32 Hb ltac:(lia) ltac:(lia) ltac:(lia) ltac:(lia)) as (c & c' & El & Ec & Hnf & Hcore & Hs & Hbits).
    erewrite res_bind_ret by (by apply array_get_run). erewrite res_bind_ret by exact Ec. rewrite Hnf. kassert_tac.
    rewrite u32_small by lia.
    destruct (IH _ (p + 1) (count - 32) Hcore ltac:(lia) ltac:(lia) ltac:(lia) ltac:(lia)) as [Hst Hlt].
    split; [|exact Hlt]. eapply stage_cons; [by intros [] [] []|exact Hs|lia| |].
    + intros j Hj. rewrite Hbits by done. unfold clear_bit. f_equal. f_equal. f_equal; lia.
    + by replace (32 * p + 32) with (32 * (p + 1)) by lia.
Qed.

Lemma set_last_run b p n : ml_core b -> 0 <= p <= 32 -> 0 <= n < 32 -> (n <> 0 -> 32 * p + n <= 1024) ->
  exists b', set_last p n b = Ret b' /\ ml_core b' /\ ml_size b' = ml_size b /\
    forall j, 0 <= j < 1024 -> ml_bits b' j = ml_bits b j || in_range (32 * p) (32 * p + n) j.
Proof.
  intros Hb Hp Hn Hle. unfold set_last. destruct (Z.eqb_spec n 0) as [->|Hne]; cbn [negb andb].
  { exists b. split; [done|]. split; [done|]. split; [done|]. intros j _. rewrite in_range_empty by lia. by rewrite orb_false_r. }
  rewrite (proj2 (Z.ltb_lt _ _)) by lia.
  destruct (set_child_run b p 0 n Hb ltac:(lia) ltac:(lia) ltac:(lia) ltac:(lia)) as (c & c' & El & Ec & _ & Hcore & Hs & Hbits).
  krun array_get_run. rewrite (core_child_size b Hb). kassert_tac. krun Ec. eexists. split; [done|].
  split; [exact Hcore|]. split; [done|]. intros j Hj. rewrite Hbits by done. f_equal. f_equal; lia.
Qed.

Lemma clear_last_run b p n : ml_core b -> 0 <= p <= 32 -> 0 <= n < 32 -> (n <> 0 -> 32 * p + n <= 1024) ->
  exists b', clear_last p n b = Ret b' /\ ml_core b' /\ ml_size b' = ml_size b /\
    forall j, 0 <= j < 1024 -> ml_bits b' j = ml_bits b j && negb (in_range (32 * p) (32 * p + n) j).
Proof.
  intros Hb Hp Hn Hle. unfold clear_last. destruct (Z.eqb_spec n 0) as [->|Hne]; cbn [negb andb].
  { exists b. split; [done|]. split; [done|]. split; [done|]. intros j _. rewrite in_range_empty by lia. by rewrite andb_true_r. }
  rewrite (proj2 (Z.ltb_lt _ _)) by lia.
  destruct (clear_child_run b p 0 n Hb ltac:(lia) ltac:(lia) ltac:(lia) ltac:(lia)) as (c & c' & El & Ec & Hnf & Hcore & Hs & Hbits).
  krun array_get_run. rewrite (core_child_size b Hb). kassert_tac. krun Ec. rewrite Hnf. kassert_tac. eexists. split; [done|].
  split; [exact Hcore|]. split; [done|]. intros j Hj. rewrite Hbits by done. f_equal. f_equal. f_equal; lia.
Qed.

Lemma multilevel_set_range_run b index count : ml_core b -> 0 <= index < 1024 -> 0 <= count -> index + count <= 1024 ->
  exists b', multilevel_set_range index count b = Ret b' /\ ml_core b' /\ ml_size b' = ml_size b /\
    forall j, 0 <= j < 1024 -> ml_bits b' j = ml_bits b j || in_range index (index + count) j.
Proof.
  intros Hb Hi Hc Hle. unfold multilevel_set_range. rewrite (core_true_size b Hb). kassert_tac.
  rewrite (u32_small (index + count)) by lia. kassert_tac.
  destruct (set_first_run b index count Hb Hi Hc Hle) as (p1 & n1 & b1 & E1 & C1 & S1 & N1 & P1 & X1 & B1). krun E1.
  destruct (set_middle_run 32 b1 p1 n1 C1 P1) as [(p2 & n2 & b2 & E2 & C2 & S2 & N2 & P2 & X2 & B2) L2]; [lia|lia|lia|].
  specialize (L2 _ _ _ E2). krun E2.
  destruct (set_last_run b2 p2 n2 C2 P2) as (b3 & E3 & C3 & S3 & B3); [lia|lia|].
  exists b3. split; [exact E3|]. split; [done|]. split; [congruence|]. intros j Hj.
  rewrite B3, B2, B1 by done. rewrite <- !orb_assoc. f_equal.
  destruct (Z.eq_dec n1 0) as [->|Hn1].
  - rewrite (in_range_empty (32 * p1)), (in_range_empty (32 * p2)) by lia. rewrite !orb_false_r. f_equal. lia.
  - rewrite (in_range_app index (index + (count - n1)) (index + count)) by lia. f_equal. rewrite X1 by done.
    destruct (Z.eq_dec n2 0) as [->|Hn2].
    + rewrite (in_range_empty (32 * p2)) by lia. rewrite orb_false_r. f_equal. lia.
    + rewrite (in_range_app (index + (count - n1)) (32 * p2) (index + count)) by lia. rewrite X2, X1 by done.
      f_equal; f_equal; lia.
Qed.

Lemma multilevel_clear_range_run b index count : ml_core b -> 0 <= index < 1024 -> 0 < count -> index + count <= 1024 ->
  exists b', multilevel_clear_range index count b = Ret b' /\ ml_core b' /\ ml_size b' = ml_size b /\
    forall j, 0 <= j < 1024 -> ml_bits b' j = ml_bits b j && negb (in_range index (index + count) j).
Proof.
  intros Hb Hi Hc Hle. unfold multilevel_clear_range. rewrite (core_true_size b Hb). kassert_tac.
  rewrite (u32_small (index + count)) by lia. kassert_tac.
  destruct (clear_first_run b index count Hb Hi Hc Hle) as (p1 & n1 & b1 & E1 & C1 & S1 & N1 & P1 & X1 & B1). krun E1.
  destruct (clear_middle_run 32 b1 p1 n1 C1 P1) as [(p2 & n2 & b2 & E2 & C2 & S2 & N2 & P2 & X2 & B2) L2]; [lia|lia|lia|].
  specialize (L2 _ _ _ E2). krun E2.
  destruct (clear_last_run b2 p2 n2 C2 P2) as (b3 & E3 & C3 & S3 & B3); [lia|lia|].
  exists b3. split; [exact E3|]. split; [done|]. split; [congruence|]. intros j Hj.
  rewrite B3, B2, B1 by done. unfold clear_bit. rewrite <- !andb_assoc. f_equal. rewrite <- !negb_orb. f_equal.
  destruct (Z.eq_dec n1 0) as [->|Hn1].
  - rewrite (in_range_empty (32 * p1)), (in_range_empty (32 * p2)) by lia. rewrite !orb_false_r. f_equal. lia.
  - rewrite (in_range_app index (index + (count - n1)) (index + count)) by lia. f_equal. rewrite X1 by done.
    destruct (Z.eq_dec n2 0) as [->|Hn2].
    + rewrite (in_range_empty (32 * p2)) by lia. rewrite orb_false_r. f_equal. lia.
    + rewrite (in_range_app (index + (count - n1)) (32 * p2) (index + count)) by lia. rewrite X2, X1 by done.
      f_equal; f_equal; lia.
Qed.

(** *** The contract *)

Lemma inv_step b b' : ml_inv b -> ml_core b' -> ml_size b' = ml_size b ->
  (forall j, ml_size b <= j < 1024 -> ml_bits b j = true -> ml_bits b' j = true) -> ml_inv b'.
Proof.
  intros [Hc Hs Hr] Hc' Es Hk. split; [done|by rewrite Es|]. intros j Hj. rewrite Es in Hj.
  apply Hk; [done|]. by apply Hr.
Qed.

#[export] Instance multilevel_laws : BitmapLaws (multilevel_bitmap B) 1024 ml_inv ml_bits.
Proof.
  split; cbn [bm_size bm_allocate bm_free bm_set bm_set_range bm_clear_range bm_is_full bm_is_set multilevel].
  - intros b Hi. apply Hi.
  - intros b j Hi. by apply inv_reserved.
  - intros b Hi. destruct (multilevel_allocate_run b (inv_core b Hi)) as (i & b' & E & Hc & Hs & Hcase).
    exists i, b'. split; [done|]. pose proof (inv_size b Hi). destruct Hcase as [(Hb & Hbi & Hl & Hbits)|(-> & -> & Hf)].
    + split; [|split; [done|]].
      * apply (inv_step b b' Hi Hc Hs). intros j Hj Ej. by rewrite Hbits, Ej by lia.
      * left. split; [|done]. destruct (Z.lt_ge_cases i (ml_size b)); [lia|].
        rewrite (inv_reserved b Hi i) in Hbi; [done|lia].
    + split; [done|]. split; [done|]. by right.
  - intros b i Hi H1. pose proof (inv_size b Hi).
    destruct (multilevel_free_run b i (inv_core b Hi) ltac:(lia)) as (b' & E & Hc & Hs & Hbits).
    exists b'. split; [done|]. split; [|done]. apply (inv_step b b' Hi Hc Hs). intros j Hj Ej. rewrite Hbits, Ej by lia.
    by rewrite (proj2 (Z.eqb_neq j i)) by lia.
  - intros b i Hi H1. pose proof (inv_size b Hi).
    destruct (multilevel_set_run b i (inv_core b Hi) H1) as (b' & E & Hc & Hs & Hbits).
    exists b'. split; [done|]. split; [|done]. apply (inv_step b b' Hi Hc Hs). intros j Hj Ej. by rewrite Hbits, Ej by lia.
  - intros b i n Hi H1 H2 H3. pose proof (inv_size b Hi).
    destruct (multilevel_set_range_run b i n (inv_core b Hi) H1 H2 H3) as (b' & E & Hc & Hs & Hbits).
    exists b'. split; [done|]. split; [|done]. apply (inv_step b b' Hi Hc Hs). intros j Hj Ej. by rewrite Hbits, Ej by lia.
  - intros b i n Hi H1 H2 H3. pose proof (inv_size b Hi).
    destruct (multilevel_clear_range_run b i n (inv_core b Hi) ltac:(lia) H2 ltac:(lia)) as (b' & E & Hc & Hs & Hbits).
    exists b'. split; [done|]. split; [|done]. apply (inv_step b b' Hi Hc Hs). intros j Hj Ej. rewrite Hbits, Ej by lia.
    unfold in_range. by rewrite (proj2 (Z.ltb_ge j _)), andb_false_r by lia.
  - intros b Hi. apply multilevel_is_full_run, Hi.
  - intros b i Hi. apply multilevel_is_set_run, Hi.
Qed.

(** The constructor: the bits from [max_bits] on are taken. *)
Lemma multilevel_new_run child max_bits : bm_default = Ret child -> inv child -> bm_size child = 32 ->
  (forall j, 0 <= j < 32 -> bits child j = false) -> 0 < max_bits <= 1024 ->
  exists b, multilevel_new max_bits = Ret b /\ ml_inv b /\ ml_size b = max_bits /\
    forall j, 0 <= j < 1024 -> ml_bits b j = (max_bits <=? j).
Proof.
  intros Ed Hc Hs Hclear Hm. unfold multilevel_new. kassert_tac. krun Ed. rewrite Hs.
  change (u32 (32 * 32)) with 1024. set (b0 := mkMultilevel _ _ _ _ _).
  assert (Hlook : forall p c, 0 <= p < 32 -> replicate 32 child !! Z.to_nat p = Some c -> c = child).
  { intros p c _ E. by apply lookup_replicate in E as [-> _]. }
  assert (H0 : ml_core b0).
  { split; try done.
    - intros c [-> _]%elem_of_replicate. done.
    - intros p c Hp E. apply (Hlook p c Hp) in E as ->. rewrite (not_full child 0); [apply Z.bits_0|done|lia|].
      by apply Hclear. }
  assert (Hb0 : forall j, 0 <= j < 1024 -> ml_bits b0 j = false).
  { intros j Hj. unfold ml_bits. destruct (split_index j Hj) as (Hp & Hcj & _).
    destruct (child_lookup b0 (j / 32) H0 Hp) as (c & El & _ & _). rewrite El. rewrite (Hlook _ _ Hp El). by apply Hclear. }
  kassert_tac. destruct (Z.ltb_spec max_bits 1024) as [Hlt|Hge].
  - destruct (multilevel_set_range_run b0 max_bits (1024 - max_bits) H0 ltac:(lia) ltac:(lia) ltac:(lia)) as (b & E & Hcb & Hsb & Hbits).
    assert (Hres : forall j, 0 <= j < 1024 -> ml_bits b j = (max_bits <=? j)).
    { intros j Hj. rewrite Hbits, Hb0 by done. unfold in_range. rewrite (proj2 (Z.ltb_lt _ _)), andb_true_r by lia. done. }
    exists b. split; [exact E|]. split; [|done]. split; [done|rewrite Hsb; cbn; lia|]. intros j Hj. rewrite Hsb in Hj; cbn in Hj.
    rewrite Hres by lia. apply Z.leb_le. lia.
  - exists b0. split; [done|]. split; [split; [done|cbn; lia|cbn; lia]|]. split; [done|]. intros j Hj.
    rewrite Hb0 by done. symmetry. apply Z.leb_gt. lia.
Qed.
End Multilevel.

(** ** A bitmap as a set of numbers

    The abstract specification: the state is the set of allocated numbers, and
    an operation outside its contract is refused. *)

Inductive bitmap_op :=
  | OpAllocate
  | OpFree (i : Z)
  | OpSet (i : Z)
  | OpSetRange (i n : Z)
  | OpClearRange (i n : Z)
  | OpIsSet (i : Z)
  | OpIsFull.

Inductive bitmap_answer := Number (i : Z) | Truth (t : bool) | Nothing.

Definition free_numbers (size : Z) (s : gset Z) : list Z := filter (fun i => i ∉ s) (seqZ 0 size).

Definition set_step (size : Z) (op : bitmap_op) (s : gset Z) : option (bitmap_answer * gset Z) :=
  match op with
  | OpAllocate =>
      match free_numbers size s with
      | i :: _ => Some (Number i, {[i]} ∪ s)
      | [] => Some (Number 4294967295, s)
      end
  | OpFree i => if in_range 0 size i then Some (Nothing, s ∖ {[i]}) else None
  | OpSet i => if in_range 0 size i then Some (Nothing, {[i]} ∪ s) else None
  | OpSetRange i n =>
      if in_range 0 size i && (0 <=? n) && (i + n <=? size)
      then Some (Nothing, list_to_set (seqZ i n) ∪ s) else None
  | OpClearRange i n =>
      if in_range 0 size i && (0 <? n) && (i + n <=? size)
      then Some (Nothing, s ∖ list_to_set (seqZ i n)) else None
  | OpIsSet i => if in_range 0 size i then Some (Truth (bool_decide (i ∈ s)), s) else None
  | OpIsFull => Some (Truth (bool_decide (free_numbers size s = [])), s)
  end.

Fixpoint set_run (size : Z) (ops : list bitmap_op) (s : gset Z) : option (list bitmap_answer * gset Z) :=
  match ops with
  | [] => Some ([], s)
  | op :: ops =>
      '(a, s) ← set_step size op s;
      '(l, s) ← set_run size ops s;
      Some (a :: l, s)
  end.

(** The same calls on a bitmap object. *)
Definition bitmap_step {B} `{Bitmap B} (op : bitmap_op) (b : B) : res (bitmap_answer * B) :=
  match op with
  | OpAllocate => '(i, b) ← bm_allocate b; mret (Number i, b)
  | OpFree i => b ← bm_free i b; mret (Nothing, b)
  | OpSet i => b ← bm_set i b; mret (Nothing, b)
  | OpSetRange i n => b ← bm_set_range i n b; mret (Nothing, b)
  | OpClearRange i n => b ← bm_clear_range i n b; mret (Nothing, b)
  | OpIsSet i => t ← bm_is_set i b; mret (Truth t, b)
  | OpIsFull => mret (Truth (bm_is_full b), b)
  end.

Fixpoint bitmap_run {B} `{Bitmap B} (ops : list bitmap_op) (b : B) : res (list bitmap_answer * B) :=
  match ops with
  | [] => mret ([], b)
  | op :: ops =>
      '(a, b) ← bitmap_step op b;
      '(l, b) ← bitmap_run ops b;
      mret (a :: l, b)
  end.

Section Refinement.
Context {B : Type} `{Bitmap B} {width : Z} {inv : B -> Prop} {bits : B -> Z -> bool} `{!BitmapLaws B width inv bits}.
Implicit Types (b : B) (s : gset Z).

Record represents b s : Prop := {
  rep_inv : inv b;
  rep_bits : forall j, 0 <= j < bm_size b -> bits b j = bool_decide (j ∈ s) }.

Lemma in_range_true lo hi j : in_range lo hi j = true <-> lo <= j < hi.
Proof. unfold in_range. rewrite andb_true_iff, Z.leb_le, Z.ltb_lt. done. Qed.

(** A boolean combination of bits against membership in a set. *)
Ltac bits_sets :=
  apply eq_true_iff_eq;
  rewrite ?orb_true_iff, ?andb_true_iff, ?negb_true_iff, <- ?not_true_iff_false, ?in_range_true, ?Z.eqb_eq,
    ?bool_decide_eq_true, ?elem_of_union, ?elem_of_difference, ?elem_of_list_to_set, ?elem_of_seqZ, ?elem_of_singleton;
  tauto.

Lemma free_numbers_nil size s : free_numbers size s = [] <-> forall j, 0 <= j < size -> j ∈ s.
Proof.
  unfold free_numbers. split.
  - intros E j Hj. destruct (decide (j ∈ s)) as [|Hn]; [done|]. exfalso.
    apply (not_elem_of_nil (A := Z) j). rewrite <- E. apply list_elem_of_filter. split; [done|].
    apply elem_of_seqZ. lia.
  - intros Hall. destruct (filter _ _) as [|j l] eqn:E; [done|]. exfalso.
    assert (Hj : j ∈ filter (fun i => i ∉ s) (seqZ 0 size)) by (rewrite E; left).
    apply list_elem_of_filter in Hj as [Hj Hs]. apply elem_of_seqZ in Hs. apply Hj, Hall. lia.
Qed.

(** The head of the free numbers is the least one. *)
Lemma free_numbers_cons size s i l : free_numbers size s = i :: l ->
  0 <= i < size /\ (i ∉ s) /\ forall j, 0 <= j < i -> j ∈ s.
Proof.
  unfold free_numbers. intros E.
  assert (Hi : i ∈ filter (fun i => i ∉ s) (seqZ 0 size)) by (rewrite E; left).
  apply list_elem_of_filter in Hi as [Hi Hs]. apply elem_of_seqZ in Hs. split; [lia|]. split; [done|].
  intros j Hj. destruct (decide (j ∈ s)) as [|Hn]; [done|]. exfalso.
  replace size with (i + (size - i)) in E by lia. rewrite seqZ_app in E by lia. rewrite filter_app in E.
  destruct (filter (fun i => i ∉ s) (seqZ 0 i)) as [|x l'] eqn:E'.
  - apply (not_elem_of_nil (A := Z) j). rewrite <- E'. apply list_elem_of_filter. split; [done|].
    apply elem_of_seqZ. lia.
  - cbn in E. simplify_eq. assert (Hx : i ∈ filter (fun i => i ∉ s) (seqZ 0 i)) by (rewrite E'; left).
    apply list_elem_of_filter in Hx as [_ Hx]. apply elem_of_seqZ in Hx. lia.
Qed.

Lemma rep_full b s : represents b s ->
  (forall j, 0 <= j < width -> bits b j = true) <-> forall j, 0 <= j < bm_size b -> j ∈ s.
Proof.
  intros [Hi Hb]. pose proof (law_size b Hi). split.
  - intros Hall j Hj. specialize (Hall j ltac:(lia)). rewrite Hb in Hall by done. by apply bool_decide_eq_true in Hall.
  - intros Hall j Hj. destruct (Z.lt_ge_cases j (bm_size b)); [|apply (law_reserved b j Hi); lia].
    rewrite Hb by lia. apply bool_decide_eq_true. apply Hall. lia.
Qed.

(** A step that changes the bits as the set changes. *)
Lemma rep_step b b' s s' : represents b s -> inv b' -> bm_size b' = bm_size b ->
  (forall j, 0 <= j < bm_size b -> bits b' j = bool_decide (j ∈ s')) -> represents b' s' /\ bm_size b' = bm_size b.
Proof. intros Hr Hi Hs Hb. split; [|done]. split; [done|]. intros j Hj. apply Hb. lia. Qed.

Lemma bitmap_step_refines op b s a s' : represents b s -> set_step (bm_size b) op s = Some (a, s') ->
  exists b', bitmap_step op b = Ret (a, b') /\ represents b' s' /\ bm_size b' = bm_size b.
Proof.
  intros Hr Hstep. pose proof (rep_inv b s Hr) as Hi. pose proof (rep_bits b s Hr) as Hb.
  pose proof (law_size b Hi) as Hsz. destruct op as [|i|i|i n|i n|i|]; cbn [set_step bitmap_step] in *.
  - destruct (law_allocate b Hi) as (i & b' & E & Hi' & Hs' & Hcase). krun E.
    destruct (free_numbers (bm_size b) s) as [|i' l] eqn:Ef; simplify_eq/=.
    + assert (Hall := proj1 (free_numbers_nil _ _) Ef).
      destruct Hcase as [(Hri & Hbi & _)|(-> & -> & _)]; [|by eexists].
      rewrite Hb in Hbi by lia. apply bool_decide_eq_false in Hbi. exfalso. by apply Hbi, Hall.
    + apply free_numbers_cons in Ef as (Hri' & Hni' & Hlow').
      destruct Hcase as [(Hri & Hbi & Hlow & Hbits)|(_ & _ & Hall)]; last first.
      { exfalso. apply Hni'. by apply (proj1 (rep_full b s Hr) Hall). }
      rewrite Hb in Hbi by lia. apply bool_decide_eq_false in Hbi.
      assert (i' = i) as ->.
      { destruct (Z.lt_trichotomy i i') as [Hlt|[->|Hlt]]; [|done|].
        - exfalso. apply Hbi, Hlow'. lia.
        - specialize (Hlow i' ltac:(lia)). rewrite Hb in Hlow by lia. by apply bool_decide_eq_true in Hlow. }
      eexists. split; [done|]. apply (rep_step b b' s); try done. intros j Hj. rewrite Hbits, Hb by lia.
      bits_sets.
  - case_match eqn:Er; [|done]. simplify_eq. apply in_range_true in Er.
    destruct (law_free b i Hi Er) as (b' & E & Hi' & Hs' & Hbits). krun E. eexists. split; [done|].
    apply (rep_step b b' s); try done. intros j Hj. rewrite Hbits, Hb by lia.
    bits_sets.
  - case_match eqn:Er; [|done]. simplify_eq. apply in_range_true in Er.
    assert (Hiw : 0 <= i < width) by lia. destruct (law_set b i Hi Hiw) as (b' & E & Hi' & Hs' & Hbits). krun E. eexists. split; [done|].
    apply (rep_step b b' s); try done. intros j Hj. rewrite Hbits, Hb by lia.
    bits_sets.
  - case_match eqn:Er; [|done]. simplify_eq. rewrite !andb_true_iff, in_range_true, !Z.leb_le in Er.
    destruct Er as [[Hri Hn] Hle]. assert (Hiw : 0 <= i < width) by lia. assert (Hw : i + n <= width) by lia.
    destruct (law_set_range b i n Hi Hiw Hn Hw) as (b' & E & Hi' & Hs' & Hbits). krun E.
    eexists. split; [done|]. apply (rep_step b b' s); try done. intros j Hj. rewrite Hbits, Hb by lia.
    bits_sets.
  - case_match eqn:Er; [|done]. simplify_eq. rewrite !andb_true_iff, in_range_true, !Z.leb_le, Z.ltb_lt in Er.
    destruct Er as [[[Hri _] Hn] Hle]. destruct (law_clear_range b i n Hi Hri Hn Hle) as (b' & E & Hi' & Hs' & Hbits). krun E.
    eexists. split; [done|]. apply (rep_step b b' s); try done. intros j Hj. rewrite Hbits, Hb by lia.
    bits_sets.
  - case_match eqn:Er; [|done]. simplify_eq. apply in_range_true in Er.
    assert (Hiw : 0 <= i < width) by lia. krun (law_is_set b i Hi Hiw). rewrite Hb by lia. by eexists.
  - simplify_eq. eexists. split; [|done]. do 3 f_equal. apply eq_true_iff_eq.
    rewrite (law_is_full b Hi), (rep_full b _ Hr), bool_decide_eq_true. symmetry. apply free_numbers_nil.
Qed.

Lemma bitmap_run_refines ops : forall b s answers s', represents b s -> set_run (bm_size b) ops s = Some (answers, s') ->
  exists b', bitmap_run ops b = Ret (answers, b') /\ represents b' s' /\ bm_size b' = bm_size b.
Proof.
  induction ops as [|op ops IH]; intros b s answers s' Hr Hrun; cbn in Hrun |- *; [simplify_eq; by eexists|].
  destruct (set_step (bm_size b) op s) as [[a s1]|] eqn:E1; [|done]. cbn in Hrun.
  destruct (set_run (bm_size b) ops s1) as [[l s2]|] eqn:E2; [|done]. cbn in Hrun. simplify_eq.
  destruct (bitmap_step_refines op b s a s1 Hr E1) as (b1 & Eb & Hr1 & Hs1). krun Eb. rewrite <- Hs1 in E2.
  destruct (IH b1 s1 l s' Hr1 E2) as (b2 & Eb2 & Hr2 & Hs2). krun Eb2.
  eexists. split; [done|]. split; [done|congruence].
Qed.
End Refinement.

(** ** The bitmaps the kernel uses *)

Lemma bitmap32_new_run max_bits : 0 < max_bits <= 32 -> exists b, bitmap32_new max_bits = Ret b /\ inv32 b /\
  b32_size b = max_bits /\ forall j, 0 <= j < 32 -> bits32 b j = (max_bits <=? j).
Proof.
  intros Hm. unfold bitmap32_new. kassert_tac. kassert_tac.
  destruct (Z.ltb_spec max_bits 32) as [Hlt|Hge].
  - unfold bitmap32_set_range. kassert_tac. rewrite u32_small by lia. kassert_tac.
    assert (Hb : forall j, 0 <= j < 32 -> Z.testbit (Z.lor 0 (make_mask32 max_bits (32 - max_bits))) j = (max_bits <=? j)).
    { intros j Hj. rewrite Z.lor_spec, Z.bits_0, make_mask32_testbit by lia. cbn.
      rewrite (proj2 (Z.ltb_lt j _)) by lia. apply andb_true_r. }
    eexists. split; [done|]. split; [|split; [done|exact Hb]]. split; cbn; [rewrite Z.lor_0_l; apply mask32_u32|lia|].
    intros j Hj. unfold bits32. cbn [b32_value]. rewrite Hb by lia. apply Z.leb_le. lia.
  - assert (max_bits = 32) as -> by lia. eexists. split; [done|]. split; [|split; [done|]].
    + split; cbn; [unfold is_u32; lia|lia|lia].
    + intros j Hj. unfold bits32. cbn. rewrite Z.bits_0. symmetry. apply Z.leb_gt. lia.
Qed.

Lemma bitmap1024_new_run max_bits : 0 < max_bits <= 1024 -> exists b : bitmap1024_c, multilevel_new max_bits = Ret b /\
  ml_inv (inv := inv32) (bits := bits32) b /\ ml_size b = max_bits /\
  forall j, 0 <= j < 1024 -> ml_bits (bits := bits32) b j = (max_bits <=? j).
Proof.
  intros Hm. destruct (bitmap32_new_run 32 ltac:(lia)) as (c & Ec & Hic & Hsc & Hbc).
  apply (multilevel_new_run (H := bitmap32) c max_bits Ec Hic Hsc); [|done].
  intros j Hj. rewrite Hbc by done. apply Z.leb_gt. lia.
Qed.

(** A new bitmap is the empty set. *)
Lemma represents_new {B} `{Bitmap B} {width inv bits} `{!BitmapLaws B width inv bits} (b : B) max_bits :
  inv b -> bm_size b = max_bits -> (forall j, 0 <= j < width -> bits b j = (max_bits <=? j)) ->
  represents (inv := inv) (bits := bits) b ∅.
Proof.
  intros Hi Hs Hb. split; [done|]. intros j Hj. pose proof (law_size b Hi). rewrite Hb by lia.
  rewrite bool_decide_false by set_solver. apply Z.leb_gt. lia.
Qed.

(** C15. The one-word and the two-level bitmap of the kernel implement a set of
    numbers: created for [max_bits] numbers, any sequence of calls within the
    contract (indices below [max_bits], ranges inside it) runs without failing
    an assertion and gives the answers of the abstract set, [allocate] the
    least number that is free or 0xFFFFFFFF when none is; the bits of the
    object are the abstract set afterwards. *)
Theorem allocate_bitmap_refines_set max_bits ops answers s : 0 < max_bits <= 1024 ->
  set_run max_bits ops ∅ = Some (answers, s) ->
  match allocate_bitmap max_bits with
  | Ret (Some (Any32 b)) => max_bits <= 32 /\ exists b', bitmap_run ops b = Ret (answers, b') /\
      forall j, 0 <= j < max_bits -> bitmap32_is_set j b' = Ret (bool_decide (j ∈ s))
  | Ret (Some (Any1024 b)) => 32 < max_bits /\ exists b', bitmap_run ops b = Ret (answers, b') /\
      forall j, 0 <= j < max_bits -> multilevel_is_set j b' = Ret (bool_decide (j ∈ s))
  | _ => False
  end.
Proof.
  intros Hm Hrun. unfold allocate_bitmap. destruct (Z.leb_spec max_bits 32) as [Hle|Hgt].
  - destruct (bitmap32_new_run max_bits ltac:(lia)) as (b & E & Hi & Hs & Hb). rewrite E. cbn.
    split; [done|]. rewrite <- Hs in Hrun.
    pose proof (represents_new (inv := inv32) (bits := bits32) b max_bits Hi Hs Hb) as Hrep.
    destruct (bitmap_run_refines ops b ∅ answers s Hrep Hrun) as (b' & Er & [Hi' Hb'] & Hs').
    exists b'. split; [exact Er|]. intros j Hj. cbn in Hb', Hs'. rewrite <- Hb' by lia.
    change (bm_is_set j b' = Ret (bits32 b' j)). apply (law_is_set (width := 32) b' j Hi'). lia.
  - rewrite (proj2 (Z.leb_le max_bits 1024)) by lia.
    destruct (bitmap1024_new_run max_bits ltac:(lia)) as (b & E & Hi & Hs & Hb).
    rewrite E. cbn -[bitmap_run]. split; [done|]. rewrite <- Hs in Hrun.
    pose proof (represents_new (inv := ml_inv) (bits := ml_bits) b max_bits Hi Hs Hb) as Hrep.
    destruct (bitmap_run_refines ops b ∅ answers s Hrep Hrun) as (b' & Er & [Hi' Hb'] & Hs').
    exists b'. split; [exact Er|]. intros j Hj. cbn in Hb', Hs'. pose proof (inv_size b' Hi'). rewrite <- Hb' by lia.
    change (bm_is_set j b' = Ret (ml_bits (bits := bits32) b' j)). apply (law_is_set (width := 1024) b' j Hi'). lia.
Qed.

Lemma allocate_bitmap_refines_set_witness :
  set_run 40 [OpAllocate; OpSetRange 1 36; OpAllocate; OpFree 5; OpAllocate] ∅
    = Some ([Number 0; Nothing; Number 37; Nothing; Number 5], {[37; 5]} ∪ list_to_set (seqZ 0 37)) /\
  match allocate_bitmap 40 with
  | Ret (Some (Any1024 b)) => exists b',
      bitmap_run [OpAllocate; OpSetRange 1 36; OpAllocate; OpFree 5; OpAllocate] b
        = Ret ([Number 0; Nothing; Number 37; Nothing; Number 5], b')
  | _ => False
  end.
Proof.
  assert (E : set_run 40 [OpAllocate; OpSetRange 1 36; OpAllocate; OpFree 5; OpAllocate] ∅
    = Some ([Number 0; Nothing; Number 37; Nothing; Number 5], {[37; 5]} ∪ list_to_set (seqZ 0 37)))
    by (vm_compute; reflexivity).
  split; [exact E|]. pose proof (allocate_bitmap_refines_set 40 _ _ _ ltac:(lia) E) as Hw.
  destruct (allocate_bitmap 40) as [[[b|b|b]|]|t]; [destruct Hw as [Hw _]; lia| |destruct Hw..].
  destruct Hw as (_ & b' & Er & _). exists b'. exact Er.
Defined.

(** The three-level bitmap hands a number out twice: its outer level
    splits an index with 32 although a child has 1024 bits, so that after the
    1024 numbers of the first child the next [allocate] gives 32 again. *)
Theorem bitmap32k_allocates_twice :
  exists b answers b', allocate_bitmap 2048 = Ret (Some (Any32k b)) /\
    bitmap_run (replicate 1025 OpAllocate) b = Ret (answers, b') /\
    answers !! 32%nat = Some (Number 32) /\ answers !! 1024%nat = Some (Number 32).
Proof.
  destruct (allocate_bitmap 2048) as [[[b|b|b]|]|t] eqn:E; try (vm_compute in E; discriminate E).
  destruct (bitmap_run (replicate 1025 OpAllocate) b) as [[answers b']|t] eqn:Er.
  - exists b, answers, b'. split; [done|]. split; [done|].
    assert (Ha : (p ← (match allocate_bitmap 2048 with Ret (Some (Any32k b)) => bitmap_run (replicate 1025 OpAllocate) b | _ => Trap AssertFailed end);
                  mret (p.1 !! 32%nat, p.1 !! 1024%nat)) = Ret (Some (Number 32), Some (Number 32))) by (vm_compute; reflexivity).
    rewrite E, Er in Ha. by injection Ha as -> ->.
  - exfalso. vm_compute in E. injection E as <-. vm_compute in Er. discriminate Er.
Qed.
