(* ===== verification/KFrames.v ===== *)
(** * Page frames: [memory_manager/page_frame_region.cpp], [page_frame_manager.cpp]

    Physical memory is cut into regions of 1024 frames. Each region keeps seven
    bitmaps, [pool]; a clear bit [x] of pool [k] stands for a free block of 2^k
    frames. The manager owns the regions and a bitmap of the regions that may
    still have a free frame. A pointer to a region is an entry of a map, a null
    pointer no entry; [operator new] is taken to succeed. *)

From S2P Require Import Prelude CMem CStringSearch World Libdx KBase KBitmap.

(** ** One region *)

Definition FRAME_COUNT_PER_REGION : Z := 1024.
Definition REGION_SIZE : Z := PAGE_SIZE * FRAME_COUNT_PER_REGION.
Definition MAX_BLOCK_ORDER : Z := 7.
Definition MAX_BLOCK_SIZE : Z := Z.shiftl 1 (MAX_BLOCK_ORDER - 1).
Definition INVALID_FRAME : Z := 0.

Record page_frame_region_c := mkRegion { region_base : Z; pool : list bitmap1024_c }.

Definition calculate_buddy_index (frame_index order : Z) : Z := Z.lxor frame_index (Z.shiftl 1 order).

Definition calculate_order (frame_count : Z) : res Z :=
  kassert (0 <? frame_count);;
  kassert (frame_count <? MAX_BLOCK_ORDER);;
  mret (find_one_bit32 (round_up_2n frame_count)).

(** A method call on one of the bitmaps. *)
Definition on_pool (order : Z) (f : bitmap1024_c -> res bitmap1024_c) (r : page_frame_region_c)
    : res page_frame_region_c :=
  p ← array_get (pool r) order;
  p ← f p;
  mret (mkRegion (region_base r) (<[Z.to_nat order := p]> (pool r))).

Definition pool_is_set (order index : Z) (r : page_frame_region_c) : res bool :=
  p ← array_get (pool r) order;
  multilevel_is_set index p.

Fixpoint join (fuel : nat) (frame_index order : Z) (r : page_frame_region_c) : res page_frame_region_c :=
  if order <? MAX_BLOCK_ORDER - 1 then
    match fuel with
    | O => Trap OutOfFuel
    | S f =>
        used ← pool_is_set order frame_index r;
        kassert (negb used);;
        let buddy_index := calculate_buddy_index frame_index order in
        buddy_used ← pool_is_set order buddy_index r;
        if negb buddy_used then
          r ← on_pool order (multilevel_set frame_index) r;
          r ← on_pool order (multilevel_set buddy_index) r;
          r ← on_pool (order + 1) (multilevel_free frame_index) r;
          join f frame_index (order + 1) r
        else mret r
    end
  else mret r.

(** The loop of [split], from [order] down to the requested one. *)
Fixpoint split_loop (fuel : nat) (frame_index requested_order order : Z) (r : page_frame_region_c)
    : res page_frame_region_c :=
  if requested_order <=? order then
    match fuel with
    | O => Trap OutOfFuel
    | S f =>
        let buddy_index := calculate_buddy_index frame_index order in
        used ← pool_is_set order frame_index r;
        kassert used;;
        buddy_used ← pool_is_set order buddy_index r;
        kassert buddy_used;;
        r ← on_pool order (multilevel_free buddy_index) r;
        split_loop f frame_index requested_order (order - 1) r
    end
  else mret r.

Definition split (frame_index requested_order actual_order : Z) (r : page_frame_region_c)
    : res page_frame_region_c :=
  kassert (requested_order <? actual_order);;
  split_loop 7 frame_index requested_order (actual_order - 1) r.

(** The search through the pools, from pool [i] on. *)
Fixpoint scan_pools (fuel : nat) (order i : Z) (r : page_frame_region_c) : res (Z * page_frame_region_c) :=
  if i <? MAX_BLOCK_ORDER then
    match fuel with
    | O => Trap OutOfFuel
    | S f =>
        p ← array_get (pool r) i;
        '(frame_index, p) ← multilevel_allocate p;
        let r := mkRegion (region_base r) (<[Z.to_nat i := p]> (pool r)) in
        if frame_index <? FRAME_COUNT_PER_REGION then
          r ← (if order <? i then split frame_index order i r else mret r);
          mret (u32 (region_base r + u32 (frame_index * PAGE_SIZE)), r)
        else scan_pools f order (i + 1) r
    end
  else mret (INVALID_FRAME, r).

Definition region_allocate_block (frame_count : Z) (r : page_frame_region_c) : res (Z * page_frame_region_c) :=
  order ← calculate_order frame_count;
  scan_pools 7 order order r.

Definition region_free_block (frame frame_count : Z) (r : page_frame_region_c) : res page_frame_region_c :=
  kassert (negb (frame =? INVALID_FRAME));;
  kassert (region_base r <=? frame);;
  kassert (frame <? u32 (region_base r + REGION_SIZE));;
  aligned ← is_aligned frame PAGE_SIZE;
  kassert aligned;;
  let frame_index := u32 (frame - region_base r) / PAGE_SIZE in
  order ← calculate_order frame_count;
  kassert (frame_index <? FRAME_COUNT_PER_REGION);;
  r ← on_pool order (multilevel_free frame_index) r;
  join 7 frame_index order r.

(** [for (i = 0; i < FRAME_COUNT_PER_REGION; i += max_block_size) pool.free(i);] *)
Fixpoint free_blocks (fuel : nat) (i step : Z) (p : bitmap1024_c) : res bitmap1024_c :=
  if i <? FRAME_COUNT_PER_REGION then
    match fuel with
    | O => Trap OutOfFuel
    | S f =>
        p ← multilevel_free i p;
        free_blocks f (i + step) step p
    end
  else mret p.

Definition page_frame_region_new (base : Z) : res page_frame_region_c :=
  aligned ← is_aligned base REGION_SIZE;
  kassert aligned;;
  empty ← bm_default;
  empty ← multilevel_set_range 0 FRAME_COUNT_PER_REGION empty;
  let max_block_size := Z.shiftl 1 (MAX_BLOCK_ORDER - 1) in
  top ← free_blocks 16 0 max_block_size empty;
  mret (mkRegion base (replicate 6 empty ++ [top])).

(** ** The manager *)

Definition KERNEL_PAGED_BOUNDARY : Z := 0x00800000 + SUPER_PAGE_SIZE.
Definition REGION_COUNT_MAX : Z := 1024.

Record page_frame_manager_c := mkFrames {
  paged_memory_size : Z; paged_region_count : Z; region : gmap Z page_frame_region_c;
  region_map : bitmap1024_c; total_memory_size : Z }.

Definition with_regions (m : page_frame_manager_c) (g : gmap Z page_frame_region_c) (b : bitmap1024_c)
    : page_frame_manager_c :=
  mkFrames (paged_memory_size m) (paged_region_count m) g b (total_memory_size m).

(** The loop that creates the regions [i .. last). *)
Fixpoint create_regions (fuel : nat) (i last base : Z) (g : gmap Z page_frame_region_c)
    : res (gmap Z page_frame_region_c) :=
  if i <? last then
    match fuel with
    | O => Trap OutOfFuel
    | S f =>
        r ← page_frame_region_new base;
        create_regions f (i + 1) last (u32 (base + REGION_SIZE)) (<[i := r]> g)
    end
  else mret g.

(** [high_memory_size] is the multiboot field, in kilobytes. *)
Definition page_frame_manager_new (high_memory_size : Z) : res page_frame_manager_c :=
  let total := u32 (u32 (high_memory_size * 1024) + 1024 * 1024) in
  let paged := u32 (total - KERNEL_PAGED_BOUNDARY) in
  let count := paged / REGION_SIZE in
  let base := KERNEL_PAGED_BOUNDARY in
  let first_region := base / REGION_SIZE in
  let last_region := u32 (first_region + count) in
  map ← bm_default;
  kassert (last_region <=? REGION_COUNT_MAX);;
  kassert (last_region <=? ml_size map);;
  g ← create_regions 1024 first_region last_region base ∅;
  map ← multilevel_set_range 0 first_region map;
  map ← multilevel_set_range last_region (u32 (ml_size map - last_region)) map;
  mret (mkFrames paged count g map total).

(** The search loop: a region without a suitable block stays marked. *)
Fixpoint search_regions (fuel : nat) (frame_count : Z) (m : page_frame_manager_c) : res (Z * page_frame_manager_c) :=
  match fuel with
  | O => Trap OutOfFuel
  | S f =>
      '(region_index, map) ← multilevel_allocate (region_map m);
      if region_index <? ml_size map then
        match region m !! region_index with
        | None => Trap AssertFailed
        | Some r =>
            '(block, r) ← region_allocate_block frame_count r;
            let g := <[region_index := r]> (region m) in
            if negb (block =? INVALID_FRAME) then
              map ← multilevel_free region_index map;
              mret (block, with_regions m g map)
            else search_regions f frame_count (with_regions m g map)
        end
      else mret (INVALID_FRAME, with_regions m (region m) map)
  end.

Definition manager_allocate_block (frame_count : Z) (m : page_frame_manager_c) : res (Z * page_frame_manager_c) :=
  search_regions 1025 frame_count m.

(** The arrays of frames are lists; an operation returns the new contents. *)
Definition allocate_contiguous_frames (frame : list Z) (m : page_frame_manager_c)
    : res (Z * list Z * page_frame_manager_c) :=
  let frame_count := Z.of_nat (length frame) in
  '(block, m) ← (if frame_count <=? MAX_BLOCK_SIZE then manager_allocate_block frame_count m
                 else mret (INVALID_FRAME, m));
  if negb (block =? INVALID_FRAME) then
    mret (STATUS_SUCCESS, (fun i => u32 (block + i * PAGE_SIZE)) <$> seqZ 0 frame_count, m)
  else mret (STATUS_INSUFFICIENT_MEMORY, frame, m).

Fixpoint allocate_discontiguous_frames (frame : list Z) (m : page_frame_manager_c)
    : res (Z * list Z * page_frame_manager_c) :=
  match frame with
  | [] => mret (STATUS_SUCCESS, [], m)
  | _ :: rest =>
      '(block, m) ← manager_allocate_block 1 m;
      if block =? INVALID_FRAME then mret (STATUS_INSUFFICIENT_MEMORY, block :: rest, m)
      else
        '(status, rest, m) ← allocate_discontiguous_frames rest m;
        mret (status, block :: rest, m)
  end.

(** One round of [free_frames]. *)
Definition free_frame (frame : Z) (m : page_frame_manager_c) : res page_frame_manager_c :=
  if frame =? INVALID_FRAME then mret m
  else
    kassert (frame <? total_memory_size m);;
    kassert (u32 (frame + PAGE_SIZE) <=? total_memory_size m);;
    aligned ← is_aligned frame PAGE_SIZE;
    kassert aligned;;
    let region_index := frame / REGION_SIZE in
    match region m !! region_index with
    | None => Trap AssertFailed
    | Some target_region =>
        r ← region_free_block frame 1 target_region;
        map ← multilevel_free region_index (region_map m);
        mret (with_regions m (<[region_index := r]> (region m)) map)
    end.

Fixpoint free_frames (frame : list Z) (m : page_frame_manager_c) : res page_frame_manager_c :=
  match frame with
  | [] => mret m
  | x :: rest => m ← free_frame x m; free_frames rest m
  end.

Definition allocate_frames (frame_count flags : Z) (m : page_frame_manager_c)
    : res (Z * list Z * page_frame_manager_c) :=
  kassert (0 <? frame_count);;
  let frame := replicate (Z.to_nat frame_count) INVALID_FRAME in
  '(status, frame, m) ←
    (if has_flag flags (Z.lor MEMORY_DMA16 (Z.lor MEMORY_DMA32 MEMORY_DMA64))
     then allocate_contiguous_frames frame m
     else allocate_discontiguous_frames frame m);
  if negb (status =? STATUS_SUCCESS) then
    m ← free_frames frame m;
    mret (status, frame, m)
  else mret (status, frame, m).

(** [read_stats]: total, paged memory and the number of regions. *)
Definition frames_read_stats (m : page_frame_manager_c) : Z * Z * Z :=
  (total_memory_size m, paged_memory_size m, paged_region_count m).
