(* ===== verification/KRegionThms.v ===== *)
(** * The buddy allocator of a region

    A clear bit [x] of pool [k] stands for the block of 2^k frames that contains
    frame [x]. As long as single frames are requested, the blocks that are free
    and the frames that are in use partition the region. *)

From S2P Require Import Prelude CMem CStringSearch World Libdx KBase KBitmap KBitmapThms KFrames.

(** ** Blocks *)

(** Frame [f] is in the block of order [k] of frame [x]. *)
Definition blk (k x f : Z) : bool := f / 2 ^ k =? x / 2 ^ k.

Definition buddy_of (k x : Z) : Z := calculate_buddy_index x k.

Lemma pow2_pos k : 0 <= k -> 0 < 2 ^ k.
Proof. intros. apply Z.pow_pos_nonneg; lia. Qed.

Lemma blk_refl k x : blk k x x = true.
Proof. unfold blk. apply Z.eqb_refl. Qed.

Lemma blk_0 x f : blk 0 x f = (f =? x).
Proof. unfold blk. change (2 ^ 0) with 1. by rewrite !Z.div_1_r. Qed.

Lemma blk_trans k x y f : blk k x y = true -> blk k x f = blk k y f.
Proof. unfold blk. rewrite Z.eqb_eq. by intros ->. Qed.

Lemma buddy_div k x : 0 <= k -> buddy_of k x / 2 ^ k = Z.lxor (x / 2 ^ k) 1.
Proof.
  intros Hk. unfold buddy_of, calculate_buddy_index. rewrite <- !Z.shiftr_div_pow2 by done.
  rewrite Z.shiftr_lxor. f_equal. rewrite Z.shiftr_shiftl_l by lia. by rewrite Z.sub_diag.
Qed.

Lemma double_land_1 c : Z.land (2 * c) 1 = 0.
Proof.
  apply Z.bits_inj'. intros i Hi. rewrite Z.land_spec, Z.bits_0.
  destruct (Z.eq_dec i 0) as [->|]; [by rewrite Z.testbit_even_0|].
  change 1 with (2 ^ 0). rewrite Z.pow2_bits_false by lia. apply andb_false_r.
Qed.

Lemma lxor_1 b : Z.lxor b 1 = if Z.even b then b + 1 else b - 1.
Proof.
  destruct (Z.even b) eqn:E.
  - apply Z.even_spec in E as [c ->]. by rewrite Z.add_nocarry_lxor by apply double_land_1.
  - assert (Ho : Z.odd b = true) by (rewrite <- Z.negb_even, E; done). apply Z.odd_spec in Ho as [c ->].
    rewrite Z.add_nocarry_lxor by apply double_land_1. rewrite Z.lxor_assoc, Z.lxor_nilpotent, Z.lxor_0_r.
    rewrite <- Z.add_nocarry_lxor by apply double_land_1. lia.
Qed.

(** A block is its two halves, and they have nothing in common. *)
Lemma blk_halves k x f : 0 <= k ->
  blk (k + 1) x f = blk k x f || blk k (buddy_of k x) f /\ blk k x f && blk k (buddy_of k x) f = false.
Proof.
  intros Hk. unfold blk. rewrite buddy_div by done. pose proof (pow2_pos k Hk).
  replace (2 ^ (k + 1)) with (2 ^ k * 2) by (rewrite Z.pow_add_r by lia; done). rewrite <- !Z.div_div by lia.
  set (a := f / 2 ^ k). set (b := x / 2 ^ k). rewrite lxor_1.
  assert (Hb : Z.even b = (b mod 2 =? 0)) by (apply Zeven_mod).
  rewrite Hb. destruct (Z.eqb_spec (b mod 2) 0), (Z.eqb_spec (a / 2) (b / 2)), (Z.eqb_spec a b);
    match goal with |- context [a =? ?c] => destruct (Z.eqb_spec a c) end; split; try done; zlia.
Qed.

Lemma buddy_range k x : 0 <= k < 10 -> 0 <= x < 1024 -> 0 <= buddy_of k x < 1024.
Proof.
  intros Hk Hx. unfold buddy_of, calculate_buddy_index.
  assert (Hn : 0 <= Z.lxor x (Z.shiftl 1 k)) by (apply Z.lxor_nonneg; rewrite Z.shiftl_nonneg; lia).
  split; [done|]. assert (Z.lxor x (Z.shiftl 1 k) / 2 ^ 10 = 0); [|change (2 ^ 10) with 1024 in *; zlia].
  rewrite <- Z.shiftr_div_pow2, Z.shiftr_lxor, !Z.shiftr_div_pow2, Z.shiftl_mul_pow2 by lia.
  rewrite (Z.div_small x), Z.lxor_0_l by (change (2 ^ 10) with 1024; lia). apply Z.div_small.
  pose proof (pow2_pos k ltac:(lia)). split; [lia|]. rewrite Z.mul_1_l. apply Z.pow_lt_mono_r; lia.
Qed.

(** ** The bitmaps of a region *)

Definition pool_bit (r : page_frame_region_c) (k x : Z) : bool :=
  match pool r !! Z.to_nat k with Some p => ml_bits (bits := bits32) p x | None => true end.

Record region_ok (r : page_frame_region_c) : Prop := {
  region_pools : length (pool r) = 7%nat;
  region_pool : forall p, p ∈ pool r -> ml_inv (inv := inv32) (bits := bits32) p /\ ml_size p = 1024 }.

Definition is_block (k x k' x' : Z) : bool := (k' =? k) && (x' =? x).

Section Region.
Implicit Types (r : page_frame_region_c).

Lemma pool_lookup r k : region_ok r -> 0 <= k < 7 -> exists p, pool r !! Z.to_nat k = Some p /\
  ml_inv (inv := inv32) (bits := bits32) p /\ ml_size p = 1024.
Proof.
  intros [Hl Hp] Hk. destruct (lookup_lt_is_Some_2 (pool r) (Z.to_nat k)) as [p E]; [lia|].
  exists p. split; [done|]. apply Hp. by eapply list_elem_of_lookup_2.
Qed.

Lemma region_with_pool r k p : region_ok r -> 0 <= k < 7 -> ml_inv (inv := inv32) (bits := bits32) p -> ml_size p = 1024 ->
  let r' := mkRegion (region_base r) (<[Z.to_nat k := p]> (pool r)) in
  region_ok r' /\ forall k' x', 0 <= k' < 7 ->
    pool_bit r' k' x' = if k' =? k then ml_bits (bits := bits32) p x' else pool_bit r k' x'.
Proof.
  intros [Hl Hp] Hk Hi Hs r'. split.
  - split; cbn; [by rewrite length_insert|]. intros q Hq. apply list_elem_of_lookup in Hq as (i & E).
    apply list_lookup_insert_Some in E as [(_ & <- & _)|(_ & E)]; [done|]. apply Hp. by eapply list_elem_of_lookup_2.
  - intros k' x' Hk'. unfold pool_bit. cbn. destruct (Z.eqb_spec k' k) as [->|Hne].
    + by rewrite list_lookup_insert_eq by lia.
    + rewrite list_lookup_insert_ne; [done|]. intros E. apply Hne. lia.
Qed.

Lemma pool_is_set_run r k x : region_ok r -> 0 <= k < 7 -> 0 <= x < 1024 -> pool_is_set k x r = Ret (pool_bit r k x).
Proof.
  intros Hr Hk Hx. destruct (pool_lookup r k Hr Hk) as (p & E & Hi & _). unfold pool_is_set, pool_bit.
  krun array_get_run. rewrite E. apply multilevel_is_set_run; [apply Hi|done].
Qed.

(** A change of one bit of one pool. *)
Definition pool_changed (g : bool -> bool -> bool) (k x : Z) r r' : Prop :=
  region_ok r' /\ region_base r' = region_base r /\
  forall k' x', 0 <= k' < 7 -> 0 <= x' < 1024 -> pool_bit r' k' x' = g (pool_bit r k' x') (is_block k x k' x').

Lemma pool_change r k x p p' (g : bool -> bool -> bool) : region_ok r -> 0 <= k < 7 -> (forall b, g b false = b) ->
  pool r !! Z.to_nat k = Some p -> ml_inv (inv := inv32) (bits := bits32) p' -> ml_size p' = 1024 ->
  (forall j, 0 <= j < 1024 -> ml_bits (bits := bits32) p' j = g (ml_bits (bits := bits32) p j) (j =? x)) ->
  pool_changed g k x r (mkRegion (region_base r) (<[Z.to_nat k := p']> (pool r))).
Proof.
  intros Hr Hk Hg E Hi Hs Hb. destruct (region_with_pool r k p' Hr Hk Hi Hs) as [Hr' Hbits].
  split; [exact Hr'|]. split; [done|]. intros k' x' Hk' Hx'. rewrite Hbits by done. unfold is_block.
  destruct (Z.eqb_spec k' k) as [->|]; cbn [andb]; [|by rewrite Hg].
  rewrite Hb by done. unfold pool_bit. by rewrite E.
Qed.

Lemma pool_set_run r k x : region_ok r -> 0 <= k < 7 -> 0 <= x < 1024 ->
  exists r', on_pool k (multilevel_set x) r = Ret r' /\ pool_changed orb k x r r'.
Proof.
  intros Hr Hk Hx. destruct (pool_lookup r k Hr Hk) as (p & E & Hi & Hs). unfold on_pool. krun array_get_run.
  destruct (law_set (width := 1024) p x Hi Hx) as (p' & Ep & Hi' & Hs' & Hb). cbn in Ep, Hs'. krun Ep.
  eexists. split; [done|]. eapply pool_change; try done; [apply orb_false_r|congruence].
Qed.

Lemma pool_free_run r k x : region_ok r -> 0 <= k < 7 -> 0 <= x < 1024 ->
  exists r', on_pool k (multilevel_free x) r = Ret r' /\ pool_changed clear_bit k x r r'.
Proof.
  intros Hr Hk Hx. destruct (pool_lookup r k Hr Hk) as (p & E & Hi & Hs). unfold on_pool. krun array_get_run.
  assert (Hx' : 0 <= x < bm_size p) by (cbn; lia).
  destruct (law_free (width := 1024) p x Hi Hx') as (p' & Ep & Hi' & Hs' & Hb). cbn in Ep, Hs'. krun Ep.
  eexists. split; [done|]. eapply pool_change; try done; [apply andb_true_r|congruence].
Qed.

(** ** The partition *)

Record buddy r (used : Z -> bool) : Prop := {
  buddy_ok : region_ok r;
  buddy_free : forall k x f, 0 <= k < 7 -> 0 <= x < 1024 -> 0 <= f < 1024 ->
    pool_bit r k x = false -> blk k x f = true -> used f = false;
  buddy_disjoint : forall k x k' x' f, 0 <= k < 7 -> 0 <= x < 1024 -> 0 <= k' < 7 -> 0 <= x' < 1024 -> 0 <= f < 1024 ->
    pool_bit r k x = false -> pool_bit r k' x' = false -> blk k x f = true -> blk k' x' f = true -> k = k' /\ x = x';
  buddy_cover : forall f, 0 <= f < 1024 -> used f = false ->
    exists k x, 0 <= k < 7 /\ 0 <= x < 1024 /\ pool_bit r k x = false /\ blk k x f = true }.

Lemma buddy_ext r used used' : buddy r used -> (forall f, 0 <= f < 1024 -> used f = used' f) -> buddy r used'.
Proof.
  intros [Hr Hf Hd Hc] He. split; [done| |done|].
  - intros k x f Hk Hx Hf' Hp Hb. rewrite <- He by done. by eapply (Hf k x f).
  - intros f Hf' Hu. apply Hc; [done|]. by rewrite He.
Qed.

Lemma is_block_true k x k' x' : is_block k x k' x' = true <-> k' = k /\ x' = x.
Proof. unfold is_block. rewrite andb_true_iff, !Z.eqb_eq. done. Qed.

(** Taking a free block. *)
Lemma buddy_take r r' used k x : buddy r used -> 0 <= k < 7 -> 0 <= x < 1024 -> pool_bit r k x = false ->
  pool_changed orb k x r r' -> buddy r' (fun f => used f || blk k x f).
Proof.
  intros [Hr Hf Hd Hc] Hk Hx Hfree (Hr' & _ & Hbits).
  assert (Hfree' : forall k' x', 0 <= k' < 7 -> 0 <= x' < 1024 -> pool_bit r' k' x' = false ->
    pool_bit r k' x' = false /\ is_block k x k' x' = false).
  { intros k' x' Hk' Hx' E. rewrite Hbits in E by done. by apply orb_false_iff in E. }
  split; [done| | |].
  - intros k' x' f Hk' Hx' Hf' E Hb. destruct (Hfree' k' x' Hk' Hx' E) as [E' Hne].
    rewrite (Hf k' x' f) by done. destruct (blk k x f) eqn:Eb; [|done]. exfalso.
    destruct (Hd k' x' k x f) as [-> ->]; try done. unfold is_block in Hne. rewrite !Z.eqb_refl in Hne. done.
  - intros k1 x1 k2 x2 f H1 H2 H3 H4 H5 E1 E2 B1 B2. apply Hfree' in E1 as [E1 _]; [|done..].
    apply Hfree' in E2 as [E2 _]; [|done..]. by apply (Hd k1 x1 k2 x2 f).
  - intros f Hf' Hu. apply orb_false_iff in Hu as [Hu Hnb]. destruct (Hc f Hf' Hu) as (k' & x' & Hk' & Hx' & E & Hb).
    exists k', x'. split; [done|]. split; [done|]. split; [|done]. rewrite Hbits, E by done. cbn.
    destruct (is_block k x k' x') eqn:Ei; [|done]. apply is_block_true in Ei as [-> ->]. congruence.
Qed.

(** Releasing a block that is in use. *)
Lemma buddy_put r r' used k x : buddy r used -> 0 <= k < 7 -> 0 <= x < 1024 ->
  (forall f, 0 <= f < 1024 -> blk k x f = true -> used f = true) ->
  pool_changed clear_bit k x r r' -> buddy r' (fun f => used f && negb (blk k x f)).
Proof.
  intros [Hr Hf Hd Hc] Hk Hx Hused (Hr' & _ & Hbits).
  assert (Hfree' : forall k' x', 0 <= k' < 7 -> 0 <= x' < 1024 -> pool_bit r' k' x' = false ->
    (k' = k /\ x' = x) \/ (pool_bit r k' x' = false)).
  { intros k' x' Hk' Hx' E. rewrite Hbits in E by done. unfold clear_bit in E. apply andb_false_iff in E as [E|E]; [by right|].
    left. apply is_block_true. by destruct (is_block k x k' x'). }
  assert (Hno : forall k' x' f, 0 <= k' < 7 -> 0 <= x' < 1024 -> 0 <= f < 1024 -> pool_bit r k' x' = false ->
    blk k' x' f = true -> blk k x f = false).
  { intros k' x' f Hk' Hx' Hf' E Hb. destruct (blk k x f) eqn:Eb; [|done]. specialize (Hf k' x' f Hk' Hx' Hf' E Hb).
    rewrite Hused in Hf; done. }
  split; [done| | |].
  - intros k' x' f Hk' Hx' Hf' E Hb. destruct (Hfree' k' x' Hk' Hx' E) as [[-> ->]|E'].
    + rewrite Hb. apply andb_false_r.
    + by rewrite (Hf k' x' f).
  - intros k1 x1 k2 x2 f H1 H2 H3 H4 H5 E1 E2 B1 B2.
    destruct (Hfree' k1 x1 H1 H2 E1) as [[-> ->]|E1']; destruct (Hfree' k2 x2 H3 H4 E2) as [[-> ->]|E2']; [done|..].
    + rewrite (Hno k2 x2 f) in B1; done.
    + rewrite (Hno k1 x1 f) in B2; done.
    + by apply (Hd k1 x1 k2 x2 f).
  - intros f Hf' Hu. destruct (blk k x f) eqn:Eb.
    + exists k, x. split; [done|]. split; [done|]. split; [|done]. rewrite Hbits by done. unfold clear_bit.
      replace (is_block k x k x) with true; [apply andb_false_r|]. symmetry. by apply is_block_true.
    + rewrite andb_true_r in Hu. destruct (Hc f Hf' Hu) as (k' & x' & Hk' & Hx' & E & Hb).
      exists k', x'. split; [done|]. split; [done|]. split; [|done]. rewrite Hbits, E by done. done.
Qed.

(** ** The operations *)

Lemma used_not_free r used k x : buddy r used -> 0 <= k < 7 -> 0 <= x < 1024 -> used x = true -> pool_bit r k x = true.
Proof.
  intros Hb Hk Hx Hu. destruct (pool_bit r k x) eqn:E; [done|].
  rewrite (buddy_free r used Hb k x x) in Hu; try done. apply blk_refl.
Qed.

(** Splitting a block of order [k + 1] that is in use leaves only [x] in use. *)
Lemma split_loop_run fuel : forall r used k x, (Z.to_nat (k + 1) <= fuel)%nat -> buddy r used -> -1 <= k < 7 -> 0 <= x < 1024 ->
  (forall f, 0 <= f < 1024 -> blk (k + 1) x f = true -> used f = true) ->
  exists r', split_loop fuel x 0 k r = Ret r' /\ region_base r' = region_base r /\
    buddy r' (fun f => used f && (negb (blk (k + 1) x f) || (f =? x))).
Proof.
  induction fuel as [|fuel IH]; intros r used k x Hfuel Hb Hk Hx Hused; cbn [split_loop];
    destruct (Z.leb_spec 0 k) as [Hk0|Hk0]; try lia.
  1, 3: assert (k = -1) as -> by lia; exists r; split; [done|]; split; [done|];
    apply (buddy_ext r used); [done|]; intros f Hf; change (-1 + 1) with 0; rewrite blk_0;
    by destruct (f =? x), (used f).
  pose proof (buddy_range k x ltac:(lia) Hx) as Hy. fold (buddy_of k x). set (y := buddy_of k x) in *.
  pose proof (buddy_ok r used Hb) as Hr.
  assert (Hux : used x = true) by (apply Hused; [done|apply blk_refl]).
  assert (Huy : used y = true).
  { apply Hused; [done|]. destruct (blk_halves k x y Hk0) as [-> _]. fold y. rewrite blk_refl. apply orb_true_r. }
  assert (Hk7 : 0 <= k < 7) by lia. krun pool_is_set_run. rewrite (used_not_free r used k x) by done. kassert_tac.
  krun pool_is_set_run. rewrite (used_not_free r used k y) by done. kassert_tac.
  destruct (pool_free_run r k y Hr ltac:(lia) Hy) as (r1 & E1 & Hch). krun E1.
  assert (Hb1 : buddy r1 (fun f => used f && negb (blk k y f))).
  { apply (buddy_put r r1); try done. intros f Hf Hbl. apply Hused; [done|].
    destruct (blk_halves k x f Hk0) as [-> _]. fold y. rewrite Hbl. apply orb_true_r. }
  destruct (IH r1 _ (k - 1) x ltac:(lia) Hb1 ltac:(lia) Hx) as (r2 & E2 & Hbase & Hb2).
  { intros f Hf Hbl. rewrite Z.sub_add in Hbl. destruct (blk_halves k x f Hk0) as [Hh Hd]. fold y in Hh, Hd.
    rewrite Hbl in Hh, Hd. cbn in Hh, Hd. rewrite Hd. rewrite Hused by done. done. }
  exists r2. split; [exact E2|]. split; [destruct Hch as (_ & Hb' & _); congruence|].
  apply (buddy_ext r2 _ _ Hb2). intros f Hf. rewrite Z.sub_add. destruct (blk_halves k x f Hk0) as [-> Hd]. fold y in Hd |- *.
  destruct (Z.eqb_spec f x) as [->|]; [rewrite (blk_refl k x) in *; cbn in *; rewrite Hd; by destruct (used x)|].
  by destruct (used f), (blk k x f), (blk k y f).
Qed.

(** Merging free blocks does not change which frames are in use. *)
Lemma join_run fuel : forall r used k x, (Z.to_nat (6 - k) <= fuel)%nat -> buddy r used -> 0 <= k < 7 -> 0 <= x < 1024 ->
  pool_bit r k x = false -> exists r', join fuel x k r = Ret r' /\ region_base r' = region_base r /\ buddy r' used.
Proof.
  induction fuel as [|fuel IH]; intros r used k x Hfuel Hb Hk Hx Hfree; cbn [join]; unfold MAX_BLOCK_ORDER;
    destruct (Z.ltb_spec k (7 - 1)) as [Hlt|Hge]; try lia; try (by exists r).
  pose proof (buddy_range k x ltac:(lia) Hx) as Hy. fold (buddy_of k x). set (y := buddy_of k x) in *.
  pose proof (buddy_ok r used Hb) as Hr.
  krun pool_is_set_run. rewrite Hfree. kassert_tac. krun pool_is_set_run.
  destruct (pool_bit r k y) eqn:Ey; cbn [negb]; [by exists r|].
  destruct (pool_set_run r k x Hr Hk Hx) as (r1 & E1 & H1). krun E1.
  assert (Hb1 := buddy_take r r1 used k x Hb Hk Hx Hfree H1).
  assert (Hxy : x <> y).
  { intros E. destruct (blk_halves k x x ltac:(lia)) as [_ Hd]. fold y in Hd. rewrite <- E, blk_refl in Hd. done. }
  assert (Hfy : pool_bit r1 k y = false).
  { destruct H1 as (_ & _ & Hbits). rewrite Hbits, Ey by done. cbn. unfold is_block.
    rewrite (proj2 (Z.eqb_neq y x)) by done. apply andb_false_r. }
  destruct (pool_set_run r1 k y (buddy_ok _ _ Hb1) Hk Hy) as (r2 & E2 & H2). krun E2.
  assert (Hb2 := buddy_take r1 r2 _ k y Hb1 Hk Hy Hfy H2).
  destruct (pool_free_run r2 (k + 1) x (buddy_ok _ _ Hb2) ltac:(lia) Hx) as (r3 & E3 & H3). krun E3.
  assert (Hhold : forall f, 0 <= f < 1024 -> blk (k + 1) x f = true -> (used f || blk k x f) || blk k y f = true).
  { intros f Hf Hbl. destruct (blk_halves k x f ltac:(lia)) as [Hh _]. fold y in Hh. rewrite Hbl in Hh.
    rewrite <- orb_assoc, <- Hh. apply orb_true_r. }
  assert (Hb3 := buddy_put r2 r3 _ (k + 1) x Hb2 ltac:(lia) Hx Hhold H3).
  destruct (IH r3 used (k + 1) x ltac:(lia)) as (r' & E & Hbase & Hb'); [|lia|done| |].
  - apply (buddy_ext r3 _ _ Hb3). intros f Hf. destruct (blk_halves k x f ltac:(lia)) as [-> _]. fold y.
    pose proof (buddy_free r used Hb k x f Hk Hx Hf Hfree) as F1. pose proof (buddy_free r used Hb k y f Hk Hy Hf Ey) as F2.
    destruct (blk k x f), (blk k y f); rewrite ?F1, ?F2 by done; by destruct (used f).
  - destruct H3 as (_ & _ & Hbits). rewrite Hbits by lia. unfold clear_bit.
    replace (is_block (k + 1) x (k + 1) x) with true; [apply andb_false_r|]. symmetry. by apply is_block_true.
  - exists r'. split; [exact E|]. split; [|done]. destruct H1 as (_ & B1 & _), H2 as (_ & B2 & _), H3 as (_ & B3 & _). congruence.
Qed.

Definition base_ok (base : Z) : Prop := REGION_SIZE <= base /\ base + REGION_SIZE < 2 ^ 32 /\ base mod PAGE_SIZE = 0.

(** The address of frame [x]. *)
Definition frame_address (base x : Z) : Z := base + x * PAGE_SIZE.

Lemma is_aligned_run n value : 0 <= n < 32 -> is_aligned value (2 ^ n) = Ret (value mod 2 ^ n =? 0).
Proof.
  intros Hn. unfold is_aligned. pose proof (pow2_pos n ltac:(lia)).
  assert (2 ^ n < 2 ^ 32) by (apply Z.pow_lt_mono_r; lia).
  assert (E : u32 (2 ^ n - 1) = Z.ones n) by (rewrite u32_small, Z.ones_equiv; unfold Z.pred; lia).
  assert (H2 : is_2n (2 ^ n) = true).
  { unfold is_2n. rewrite E, Z.land_ones by lia. rewrite Z_mod_same_full. done. }
  rewrite H2. krun kassert_true. rewrite E, Z.land_ones by lia. done.
Qed.

(** The allocator takes the first free block of the first pool that has one. *)
Lemma scan_pools_run fuel : forall r used i, base_ok (region_base r) -> (Z.to_nat (7 - i) <= fuel)%nat -> buddy r used -> 0 <= i <= 7 ->
  (forall k x, 0 <= k < i -> 0 <= x < 1024 -> pool_bit r k x = true) ->
  (exists x r', scan_pools fuel 0 i r = Ret (frame_address (region_base r) x, r') /\ region_base r' = region_base r /\
     0 <= x < 1024 /\ used x = false /\ buddy r' (fun f => used f || (f =? x))) \/
  (scan_pools fuel 0 i r = Ret (INVALID_FRAME, r) /\ forall f, 0 <= f < 1024 -> used f = true).
Proof.
  induction fuel as [|fuel IH]; intros r used i Hbase Hfuel Hb Hi Hlow; cbn [scan_pools]; unfold MAX_BLOCK_ORDER;
    destruct (Z.ltb_spec i 7) as [Hlt|Hge]; try lia.
  1, 3: right; split; [done|]; intros f Hf; destruct (used f) eqn:Eu; [done|];
    destruct (buddy_cover r used Hb f Hf Eu) as (k & x & Hk & Hx & E & _); rewrite Hlow in E by lia; done.
  assert (Hi7 : 0 <= i < 7) by lia.
  destruct (pool_lookup r i (buddy_ok _ _ Hb) Hi7) as (p & E & Hip & Hs). krun array_get_run.
  destruct (law_allocate (width := 1024) p Hip) as (x & p' & Ea & Hip' & Hs' & Hcase). cbn in Ea, Hs', Hcase. krun Ea.
  destruct Hcase as [(Hx & Hbx & _ & Hbits)|(-> & -> & Hfull)].
  - rewrite Hs in Hx. rewrite Hs in Hs'. unfold FRAME_COUNT_PER_REGION. rewrite (proj2 (Z.ltb_lt x 1024)) by lia. left.
    assert (Hfree : pool_bit r i x = false) by (unfold pool_bit; by rewrite E).
    assert (Hux : used x = false) by (eapply (buddy_free r used Hb i x x); try done; apply blk_refl).
    set (r1 := mkRegion _ _).
    assert (Hch : pool_changed orb i x r r1) by (apply (pool_change r i x p p'); [apply Hb|done|apply orb_false_r|done..]).
    assert (Hb1 := buddy_take r r1 used i x Hb Hi7 Hx Hfree Hch).
    assert (Hsplit : exists r2, (if 0 <? i then split x 0 i r1 else mret r1) = Ret r2 /\ region_base r2 = region_base r1 /\
      buddy r2 (fun f => used f || (f =? x))).
    { destruct (Z.ltb_spec 0 i) as [Hpos|Hzero].
      - unfold split. kassert_tac.
        destruct (split_loop_run 7 r1 _ (i - 1) x ltac:(lia) Hb1 ltac:(lia) Hx) as (r2 & E2 & Hb2 & Hbud).
        { intros f _ Hbl. rewrite Z.sub_add in Hbl. rewrite Hbl. apply orb_true_r. }
        exists r2. split; [exact E2|]. split; [done|]. apply (buddy_ext r2 _ _ Hbud). intros f Hf. rewrite Z.sub_add.
        pose proof (buddy_free r used Hb i x f Hi7 Hx Hf Hfree) as F.
        destruct (Z.eqb_spec f x) as [->|]; [by rewrite blk_refl, orb_true_r|].
        destruct (blk i x f); [rewrite F by done|]; by destruct (used f).
      - assert (i = 0) as -> by lia. exists r1. split; [done|]. split; [done|]. apply (buddy_ext r1 _ _ Hb1).
        intros f Hf. by rewrite blk_0. }
    destruct Hsplit as (r2 & E2 & Hb2 & Hbud). krun E2. exists x, r2. split; [|done].
    destruct Hbase as (H1 & H2 & H3). unfold REGION_SIZE, FRAME_COUNT_PER_REGION, PAGE_SIZE in *.
    rewrite Hb2. cbn [region_base r1]. rewrite (u32_small (x * _)) by lia. rewrite u32_small by lia. done.
  - rewrite (proj2 (Z.ltb_ge _ _)) by (unfold FRAME_COUNT_PER_REGION; lia).
    rewrite list_insert_id by done. destruct r as [base pools]. cbn [region_base pool] in *.
    apply (IH (mkRegion base pools) used (i + 1) Hbase); [lia|done|lia|].
    intros k y Hk Hy. destruct (decide (k = i)) as [->|]; [|apply Hlow; lia].
    unfold pool_bit. cbn. rewrite E. by apply Hfull.
Qed.

Lemma region_allocate_run r used : base_ok (region_base r) -> buddy r used ->
  (exists x r', region_allocate_block 1 r = Ret (frame_address (region_base r) x, r') /\ region_base r' = region_base r /\
     0 <= x < 1024 /\ used x = false /\ buddy r' (fun f => used f || (f =? x))) \/
  (region_allocate_block 1 r = Ret (INVALID_FRAME, r) /\ forall f, 0 <= f < 1024 -> used f = true).
Proof.
  intros Hbase Hb. unfold region_allocate_block. change (calculate_order 1) with (Ret 0 : res Z).
  apply scan_pools_run; try done. lia.
Qed.

Lemma region_free_run r used x : base_ok (region_base r) -> buddy r used -> 0 <= x < 1024 -> used x = true ->
  exists r', region_free_block (frame_address (region_base r) x) 1 r = Ret r' /\ region_base r' = region_base r /\
    buddy r' (fun f => used f && negb (f =? x)).
Proof.
  intros (H1 & H2 & H3) Hb Hx Hu. unfold region_free_block, frame_address, INVALID_FRAME. unfold REGION_SIZE, FRAME_COUNT_PER_REGION in *.
  change PAGE_SIZE with 4096 in *.
  rewrite (proj2 (Z.eqb_neq _ 0)) by lia. kassert_tac. kassert_tac. rewrite (u32_small (region_base r + _)) by lia. kassert_tac.
  krun (is_aligned_run 12). change (2 ^ 12) with 4096. rewrite Z_mod_plus_full, H3. kassert_tac.
  replace (region_base r + x * 4096 - region_base r) with (x * 4096) by lia. rewrite u32_small, Z.div_mul by lia.
  change (calculate_order 1) with (Ret 0 : res Z). cbn beta iota. unfold FRAME_COUNT_PER_REGION. krun (eq_refl (Ret 0)). kassert_tac.
  destruct (pool_free_run r 0 x (buddy_ok _ _ Hb) ltac:(lia) Hx) as (r1 & E1 & Hch). krun E1.
  assert (Hb1 : buddy r1 (fun f => used f && negb (blk 0 x f))).
  { apply (buddy_put r r1); try done. intros f Hf Hbl. rewrite blk_0 in Hbl. apply Z.eqb_eq in Hbl as ->. done. }
  destruct (join_run 7 r1 _ 0 x ltac:(lia) Hb1 ltac:(lia) Hx) as (r2 & E2 & Hbase & Hb2).
  { destruct Hch as (_ & _ & Hbits). rewrite Hbits by lia. unfold clear_bit, is_block. rewrite !Z.eqb_refl. apply andb_false_r. }
  exists r2. split; [exact E2|]. split; [destruct Hch as (_ & Hc & _); congruence|].
  apply (buddy_ext r2 _ _ Hb2). intros f Hf. by rewrite blk_0.
Qed.

(** ** The constructor *)

Lemma free_blocks_run fuel : forall i p, ml_inv (inv := inv32) (bits := bits32) p -> ml_size p = 1024 -> 0 <= i -> i mod 64 = 0 ->
  (Z.to_nat (1024 - i) <= 64 * fuel)%nat ->
  exists p', free_blocks fuel i 64 p = Ret p' /\ ml_inv (inv := inv32) (bits := bits32) p' /\ ml_size p' = 1024 /\
    forall j, 0 <= j < 1024 ->
      ml_bits (bits := bits32) p' j = ml_bits (bits := bits32) p j && negb ((i <=? j) && (j mod 64 =? 0)).
Proof.
  induction fuel as [|fuel IH]; intros i p Hp Hs Hi Hm Hf; cbn [free_blocks]; unfold FRAME_COUNT_PER_REGION;
    destruct (Z.ltb_spec i 1024) as [Hlt|Hge]; try lia.
  1, 3: exists p; split; [done|]; split; [done|]; split; [done|]; intros j Hj;
    rewrite (proj2 (Z.leb_gt i j)) by lia; by rewrite andb_true_r.
  assert (Hi' : 0 <= i < bm_size p) by (cbn; lia).
  destruct (law_free (width := 1024) p i Hp Hi') as (p1 & E1 & Hp1 & Hs1 & Hb1). cbn in E1, Hs1. krun E1.
  destruct (IH (i + 64) p1 Hp1 ltac:(lia) ltac:(lia) ltac:(zlia) ltac:(lia)) as (p' & E' & Hp' & Hs' & Hb').
  exists p'. split; [exact E'|]. split; [done|]. split; [done|]. intros j Hj. rewrite Hb', Hb1 by done.
  destruct (Z.eqb_spec j i) as [->|Hne].
  - rewrite (proj2 (Z.leb_gt _ _)), Z.leb_refl, Hm by lia. cbn. by rewrite !andb_false_r.
  - rewrite andb_true_r. f_equal. f_equal.
    destruct (Z.eqb_spec (j mod 64) 0), (Z.leb_spec (i + 64) j), (Z.leb_spec i j); try done; zlia.
Qed.

Lemma region_new_run base : base mod REGION_SIZE = 0 ->
  exists r, page_frame_region_new base = Ret r /\ region_base r = base /\ buddy r (fun _ => false).
Proof.
  intros Hm. unfold page_frame_region_new. change REGION_SIZE with (2 ^ 22) in *. krun (is_aligned_run 22).
  rewrite Hm. kassert_tac. destruct (bitmap1024_new_run 1024 ltac:(lia)) as (b0 & E0 & H0 & S0 & B0).
  krun E0. assert (Hr0 : 0 <= 0 < 1024) by lia. assert (Hle : 0 + FRAME_COUNT_PER_REGION <= 1024) by done.
  destruct (law_set_range (width := 1024) b0 0 FRAME_COUNT_PER_REGION H0 Hr0 ltac:(done) Hle) as (e & Ee & He & Se & Be).
  cbn in Ee, Se. krun Ee. rewrite S0 in Se.
  assert (Be' : forall j, 0 <= j < 1024 -> ml_bits (bits := bits32) e j = true).
  { intros j Hj. rewrite Be by done. apply orb_true_iff. right. apply in_range_true. unfold FRAME_COUNT_PER_REGION. lia. }
  change (Z.shiftl 1 (MAX_BLOCK_ORDER - 1)) with 64.
  destruct (free_blocks_run 16 0 e He Se ltac:(lia) ltac:(done) ltac:(lia)) as (t & Et & Ht & St & Bt).
  cbv zeta. krun Et. eexists. split; [done|]. split; [done|].
  assert (Hbit : forall k x, 0 <= k < 7 -> 0 <= x < 1024 ->
    pool_bit (mkRegion base (replicate 6 e ++ [t])) k x = negb ((k =? 6) && (x mod 64 =? 0))).
  { intros k x Hk Hx. unfold pool_bit. cbn [pool]. destruct (Z.eqb_spec k 6) as [->|Hne].
    - change ((replicate 6 e ++ [t]) !! Z.to_nat 6) with (Some t). cbv iota. rewrite Bt, Be' by done. rewrite (proj2 (Z.leb_le 0 x)) by lia. done.
    - rewrite lookup_app_l by (rewrite length_replicate; lia). rewrite lookup_replicate_2 by lia. by rewrite Be'. }
  assert (Hfree : forall k x, 0 <= k < 7 -> 0 <= x < 1024 ->
    pool_bit (mkRegion base (replicate 6 e ++ [t])) k x = false -> k = 6 /\ x mod 64 = 0).
  { intros k x Hk Hx E. rewrite Hbit in E by done. apply negb_false_iff, andb_true_iff in E as [E1 E2].
    split; by apply Z.eqb_eq. }
  split.
  - split; [done|]. intros p [[-> _]%elem_of_replicate|E%list_elem_of_singleton]%elem_of_app; [done|by subst].
  - done.
  - intros k x k' x' f H1 H2 H3 H4 H5 E1 E2 B1 B2. apply Hfree in E1 as [-> M1]; [|done..]. apply Hfree in E2 as [-> M2]; [|done..].
    split; [done|]. unfold blk in B1, B2. apply Z.eqb_eq in B1, B2. change (2 ^ 6) with 64 in *. zlia.
  - intros f Hf _. exists 6, (64 * (f / 64)). split; [lia|]. split; [zlia|].
    rewrite Hbit by (lia || zlia). rewrite (Z.mul_comm 64), Z_mod_mult. split; [done|]. unfold blk. change (2 ^ 6) with 64.
    apply Z.eqb_eq. by rewrite Z_div_mult by lia.
Qed.
End Region.
