(* ===== verification/KFramesThms.v ===== *)
(** * The page frame manager hands out single frames correctly

    The state of the manager is abstracted to the set of the physical addresses
    of the frames in use. *)

From S2P Require Import Prelude CMem CStringSearch World Libdx KBase KBitmap KBitmapThms KFrames KRegionThms.

Definition region_frame (i x : Z) : Z := frame_address (i * REGION_SIZE) x.

Abbreviation map_bit m i := (ml_bits (bits := bits32) (region_map m) i).

(** The frames of the machine that the manager owns. *)
Definition valid_frames (m : page_frame_manager_c) : gset Z :=
  list_to_set ((fun n => n * PAGE_SIZE) <$> seqZ (3 * 1024) (paged_region_count m * 1024)).

Record frames_ok (m : page_frame_manager_c) (used : gset Z) : Prop := {
  fo_count : 0 <= paged_region_count m <= 1020;
  fo_total : (3 + paged_region_count m) * REGION_SIZE <= total_memory_size m < 2 ^ 32;
  fo_region : forall i, 3 <= i < 3 + paged_region_count m -> exists r, region m !! i = Some r /\
    region_base r = i * REGION_SIZE /\ buddy r (fun x => bool_decide (region_frame i x ∈ used));
  fo_map : ml_inv (inv := inv32) (bits := bits32) (region_map m) /\ ml_size (region_map m) = 1024;
  fo_clear : forall i, 0 <= i < 1024 -> map_bit m i = false -> 3 <= i < 3 + paged_region_count m;
  fo_marked : forall i x, 3 <= i < 3 + paged_region_count m -> map_bit m i = true -> 0 <= x < 1024 -> region_frame i x ∈ used;
  fo_used : used ⊆ valid_frames m }.

Lemma region_frame_inj i x j y : 0 <= x < 1024 -> 0 <= y < 1024 -> region_frame i x = region_frame j y -> i = j /\ x = y.
Proof. unfold region_frame, frame_address, REGION_SIZE, FRAME_COUNT_PER_REGION, PAGE_SIZE. lia. Qed.

Lemma elem_of_valid m a : a ∈ valid_frames m <->
  exists i x, 3 <= i < 3 + paged_region_count m /\ 0 <= x < 1024 /\ a = region_frame i x.
Proof.
  unfold valid_frames. rewrite elem_of_list_to_set, list_elem_of_fmap. split.
  - intros (n & -> & Hn). apply elem_of_seqZ in Hn. exists (n / 1024), (n mod 1024). split; [zlia|]. split; [zlia|].
    unfold region_frame, frame_address, REGION_SIZE, FRAME_COUNT_PER_REGION, PAGE_SIZE. zlia.
  - intros (i & x & Hi & Hx & ->). exists (i * 1024 + x). split; [|apply elem_of_seqZ; lia].
    unfold region_frame, frame_address, REGION_SIZE, FRAME_COUNT_PER_REGION, PAGE_SIZE. lia.
Qed.

Lemma region_base_ok i : 3 <= i < 1023 -> base_ok (i * REGION_SIZE).
Proof. intros Hi. unfold base_ok, REGION_SIZE, FRAME_COUNT_PER_REGION, PAGE_SIZE. split; [lia|]. split; [lia|zlia]. Qed.

(** The manager owns the same memory. *)
Definition same_memory (m m' : page_frame_manager_c) : Prop :=
  paged_region_count m' = paged_region_count m /\ total_memory_size m' = total_memory_size m.

Lemma valid_same m m' : same_memory m m' -> valid_frames m' = valid_frames m.
Proof. unfold valid_frames. by intros [-> _]. Qed.

(** A change of one region and of its mark. *)
Lemma frames_ok_update m used used' i r map : frames_ok m used -> 3 <= i < 3 + paged_region_count m ->
  region_base r = i * REGION_SIZE -> buddy r (fun x => bool_decide (region_frame i x ∈ used')) ->
  ml_inv (inv := inv32) (bits := bits32) map -> ml_size map = 1024 ->
  (forall j, 0 <= j < 1024 -> j <> i -> ml_bits (bits := bits32) map j = map_bit m j) ->
  (ml_bits (bits := bits32) map i = true -> forall x, 0 <= x < 1024 -> region_frame i x ∈ used') ->
  (forall j x, 3 <= j < 3 + paged_region_count m -> j <> i -> 0 <= x < 1024 -> region_frame j x ∈ used' <-> region_frame j x ∈ used) ->
  used' ⊆ valid_frames m ->
  frames_ok (with_regions m (<[i := r]> (region m)) map) used'.
Proof.
  intros Hm Hi Hbase Hb Hinv Hs Hbits Hmark Hother Hsub. pose proof (fo_count m used Hm).
  split; cbn; try by apply Hm; try done.
  - intros j Hj. destruct (decide (j = i)) as [->|Hne].
    + exists r. by rewrite lookup_insert_eq.
    + rewrite lookup_insert_ne by done. destruct (fo_region m used Hm j Hj) as (r' & E & Hb' & Hbud).
      exists r'. split; [done|]. split; [done|]. apply (buddy_ext r' _ _ Hbud). intros x Hx.
      apply bool_decide_ext. symmetry. by apply Hother.
  - done.
  - intros j Hj Hc. destruct (decide (j = i)) as [->|Hne]; [done|]. rewrite Hbits in Hc by done. by apply (fo_clear m used Hm).
  - intros j x Hj Hc Hx. destruct (decide (j = i)) as [->|Hne]; [by apply Hmark|]. rewrite Hbits in Hc by (done || lia).
    apply Hother; try done. by apply (fo_marked m used Hm).
  - done.
Qed.

(** One more frame, or one frame less, of region [i]. *)
Lemma used_insert i x f (used : gset Z) : 0 <= x < 1024 -> 0 <= f < 1024 ->
  bool_decide (region_frame i f ∈ ({[region_frame i x]} ∪ used)) = bool_decide (region_frame i f ∈ used) || (f =? x).
Proof.
  intros Hx Hf. apply eq_true_iff_eq. rewrite orb_true_iff, Z.eqb_eq, !bool_decide_eq_true, elem_of_union, elem_of_singleton.
  split; [|intros [?| ->]; auto]. intros [E|?]; [|by left]. right. by apply region_frame_inj in E as [_ E].
Qed.

Lemma used_delete i x f (used : gset Z) : 0 <= x < 1024 -> 0 <= f < 1024 ->
  bool_decide (region_frame i f ∈ (used ∖ {[region_frame i x]})) = bool_decide (region_frame i f ∈ used) && negb (f =? x).
Proof.
  intros Hx Hf. apply eq_true_iff_eq.
  rewrite andb_true_iff, negb_true_iff, Z.eqb_neq, !bool_decide_eq_true, elem_of_difference, elem_of_singleton.
  split; intros [H1 H2]; split; try done; [by intros ->|]. intros E. by apply region_frame_inj in E as [_ E].
Qed.

Lemma frame_nonzero i x : 3 <= i -> 0 <= x < 1024 -> (region_frame i x =? INVALID_FRAME) = false.
Proof.
  intros Hi Hx. apply Z.eqb_neq. unfold region_frame, frame_address, REGION_SIZE, FRAME_COUNT_PER_REGION, PAGE_SIZE, INVALID_FRAME. lia.
Qed.

(** The marks of the regions below [n] are set, so that the search moves up. *)
Lemma search_regions_run fuel : forall m used n, frames_ok m used -> 0 <= n <= 1024 ->
  (forall l, 0 <= l < n -> map_bit m l = true) -> (Z.to_nat (1024 - n) < fuel)%nat ->
  exists a m', search_regions fuel 1 m = Ret (a, m') /\ same_memory m m' /\
    ((a ∈ valid_frames m /\ (a ∉ used) /\ frames_ok m' ({[a]} ∪ used)) \/
     (a = INVALID_FRAME /\ frames_ok m' used /\ valid_frames m ⊆ used)).
Proof.
  induction fuel as [|fuel IH]; intros m used n Hm Hn Hlow Hf; [lia|]. cbn [search_regions].
  destruct (fo_map m used Hm) as [Hinv Hs]. pose proof (fo_count m used Hm) as Hcount.
  destruct (law_allocate (width := 1024) (region_map m) Hinv) as (i & map & Ea & Hinv' & Hs' & Hcase).
  cbn in Ea, Hs', Hcase. krun Ea. rewrite Hs', Hs. destruct Hcase as [(Hi & Hbi & Hleast & Hbits)|(-> & -> & Hfull)].
  - rewrite Hs in Hi. rewrite Hs in Hs'. rewrite (proj2 (Z.ltb_lt i 1024)) by lia.
    assert (Hni : n <= i).
    { destruct (Z.lt_ge_cases i n); [|done]. rewrite Hlow in Hbi; [done|lia]. }
    pose proof (fo_clear m used Hm i Hi Hbi) as Hreg.
    destruct (fo_region m used Hm i Hreg) as (r & Er & Hbase & Hbud). rewrite Er.
    assert (Hbo : base_ok (region_base r)) by (rewrite Hbase; apply region_base_ok; lia).
    assert (Hother : forall j, 0 <= j < 1024 -> j <> i -> ml_bits (bits := bits32) map j = map_bit m j).
    { intros j Hj Hne. rewrite Hbits by done. by rewrite (proj2 (Z.eqb_neq j i)), orb_false_r by done. }
    destruct (region_allocate_run r _ Hbo Hbud) as [(x & r' & E & Hbase' & Hx & Hux & Hbud')|[E Hall]]; krun E.
    + rewrite Hbase. fold (region_frame i x). rewrite frame_nonzero by lia. cbn [negb].
      assert (Hi' : 0 <= i < bm_size map) by (cbn; lia).
      destruct (law_free (width := 1024) map i Hinv' Hi') as (map2 & E2 & Hinv2 & Hs2 & Hbits2). cbn in E2, Hs2. krun E2.
      exists (region_frame i x). eexists. split; [done|]. split; [done|]. left.
      apply bool_decide_eq_false in Hux.
      assert (Hv : region_frame i x ∈ valid_frames m) by (apply elem_of_valid; by exists i, x).
      split; [done|]. split; [done|]. apply (frames_ok_update m used); try done.
      * congruence.
      * apply (buddy_ext r' _ _ Hbud'). intros f Hf'. by rewrite used_insert.
      * congruence.
      * intros j Hj Hne. rewrite Hbits2 by done. rewrite Hother by done. by rewrite (proj2 (Z.eqb_neq j i)), andb_true_r by done.
      * rewrite Hbits2 by done. rewrite Z.eqb_refl, andb_false_r. done.
      * intros j y Hj Hne Hy. rewrite elem_of_union, elem_of_singleton. split; [|by right].
        intros [Ej|?]; [|done]. by apply region_frame_inj in Ej as [Ej _].
      * apply union_subseteq. split; [by apply singleton_subseteq_l|apply Hm].
    + rewrite Z.eqb_refl. cbn [negb].
      destruct (IH (with_regions m (<[i := r]> (region m)) map) used (i + 1)) as (a & m' & Em & Hsame & Hres); [| | |lia|].
      * apply (frames_ok_update m used); try done.
        -- intros _ x Hx. specialize (Hall x Hx). by apply bool_decide_eq_true in Hall.
        -- apply Hm.
      * lia.
      * intros l Hl. cbn. rewrite Hbits by lia. destruct (Z.eqb_spec l i); [apply orb_true_r|].
        rewrite orb_false_r. apply Hleast. lia.
      * exists a, m'. split; [exact Em|]. done.
  - rewrite (proj2 (Z.ltb_ge _ 1024)) by lia. eexists _, _. split; [done|]. split; [done|]. right. split; [done|].
    split; [by destruct m|]. intros a (i & x & Hi & Hx & ->)%elem_of_valid. apply (fo_marked m used Hm); try done.
    apply Hfull. lia.
Qed.

(** Sets of listed frames. *)
Lemma listed_nil_union (s : gset Z) : list_to_set [] ∪ s = s.
Proof. set_solver. Qed.

Lemma listed_cons_union a l (s : gset Z) : list_to_set (a :: l) ∪ s = list_to_set l ∪ ({[a]} ∪ s).
Proof. set_solver. Qed.

Lemma listed_nil_minus (s : gset Z) : s ∖ list_to_set [] = s.
Proof. set_solver. Qed.

Lemma listed_cons_minus a l (s : gset Z) : s ∖ list_to_set (a :: l) = s ∖ {[a]} ∖ list_to_set l.
Proof. set_solver. Qed.

(** ** Releasing frames *)

Lemma free_frame_run m used a : frames_ok m used -> a ∈ used ->
  exists m', free_frame a m = Ret m' /\ same_memory m m' /\ frames_ok m' (used ∖ {[a]}).
Proof.
  intros Hm Ha. pose proof (fo_count m used Hm) as Hcount. pose proof (fo_total m used Hm) as Htotal.
  pose proof (fo_used m used Hm a Ha) as (i & x & Hi & Hx & ->)%elem_of_valid.
  destruct (fo_region m used Hm i Hi) as (r & Er & Hbase & Hbud). destruct (fo_map m used Hm) as [Hinv Hs].
  unfold free_frame. rewrite frame_nonzero by lia.
  assert (Hdiv : region_frame i x / REGION_SIZE = i).
  { unfold region_frame, frame_address, REGION_SIZE, FRAME_COUNT_PER_REGION, PAGE_SIZE. zlia. }
  assert (Hmod : region_frame i x mod 2 ^ 12 = 0).
  { unfold region_frame, frame_address, REGION_SIZE, FRAME_COUNT_PER_REGION, PAGE_SIZE. change (2 ^ 12) with 4096. zlia. }
  assert (Hlt : region_frame i x + PAGE_SIZE <= total_memory_size m).
  { unfold region_frame, frame_address, REGION_SIZE, FRAME_COUNT_PER_REGION, PAGE_SIZE in *. lia. }
  assert (H0 : 0 <= region_frame i x).
  { unfold region_frame, frame_address, REGION_SIZE, FRAME_COUNT_PER_REGION, PAGE_SIZE in *. lia. }
  assert (HP : 0 < PAGE_SIZE) by (unfold PAGE_SIZE; lia).
  kassert_tac. rewrite (u32_small (_ + PAGE_SIZE)) by lia. kassert_tac.
  krun (is_aligned_run 12). rewrite Hmod. kassert_tac. rewrite Hdiv, Er.
  assert (Hbo : base_ok (region_base r)) by (rewrite Hbase; apply region_base_ok; lia).
  destruct (region_free_run r _ x Hbo Hbud Hx) as (r' & E & Hbase' & Hbud').
  { by apply bool_decide_eq_true. }
  rewrite Hbase in E. krun E. assert (Hi' : 0 <= i < bm_size (region_map m)) by (cbn; lia).
  destruct (law_free (width := 1024) (region_map m) i Hinv Hi') as (map & E2 & Hinv2 & Hs2 & Hbits). cbn in E2, Hs2. krun E2.
  eexists. split; [done|]. split; [done|]. apply (frames_ok_update m used); try done.
  - congruence.
  - apply (buddy_ext r' _ _ Hbud'). intros f Hf. by rewrite used_delete.
  - congruence.
  - intros j Hj Hne. rewrite Hbits by done. by rewrite (proj2 (Z.eqb_neq j i)), andb_true_r by done.
  - rewrite Hbits by lia. rewrite Z.eqb_refl, andb_false_r. done.
  - intros j y Hj Hne Hy. rewrite elem_of_difference, elem_of_singleton. split; [by intros [? _]|].
    intros Hin. split; [done|]. intros Ej. by apply region_frame_inj in Ej as [Ej _].
  - transitivity used; [apply subseteq_difference_l; done|apply Hm].
Qed.

Lemma free_frames_run frame : forall m used, frames_ok m used -> NoDup frame -> (forall a, a ∈ frame -> a ∈ used) ->
  exists m', free_frames frame m = Ret m' /\ same_memory m m' /\ frames_ok m' (used ∖ list_to_set frame).
Proof.
  induction frame as [|a frame IH]; intros m used Hm Hnd Hin; cbn [free_frames].
  - exists m. split; [done|]. split; [done|]. by rewrite listed_nil_minus.
  - apply NoDup_cons in Hnd as [Hna Hnd].
    destruct (free_frame_run m used a Hm) as (m1 & E1 & [S1 T1] & Hm1); [apply Hin; left|]. krun E1.
    destruct (IH m1 (used ∖ {[a]}) Hm1 Hnd) as (m2 & E2 & [S2 T2] & Hm2).
    { intros b Hb. apply elem_of_difference. split; [apply Hin; by right|]. apply not_elem_of_singleton. by intros ->. }
    exists m2. split; [exact E2|]. split; [split; congruence|].
    by rewrite listed_cons_minus.
Qed.

Lemma free_invalid n : forall m, free_frames (replicate n INVALID_FRAME) m = Ret m.
Proof. induction n as [|n IH]; intros m; [done|]. exact (IH m). Qed.

Lemma free_frames_app l l' m m' : free_frames l m = Ret m' -> free_frames (l ++ l') m = free_frames l' m'.
Proof.
  revert m. induction l as [|a l IH]; intros m; cbn [free_frames app]; [by intros [= ->]|].
  destruct (free_frame a m) as [m1|t] eqn:E; cbn; [apply IH|done].
Qed.

(** ** Allocating single frames *)

(** What a list of new frames has to satisfy. *)
Definition fresh_frames (m : page_frame_manager_c) (used : gset Z) (l : list Z) : Prop :=
  NoDup l /\ list_to_set l ⊆ valid_frames m ∖ used.

Lemma fresh_cons m used a l : a ∈ valid_frames m -> (a ∉ used) -> fresh_frames m ({[a]} ∪ used) l ->
  fresh_frames m used (a :: l).
Proof.
  intros Hv Hn [Hnd Hs]. split; [|cbn; set_solver]. apply NoDup_cons. split; [|done]. intros Hin.
  assert (Ha : a ∈ (list_to_set l : gset Z)) by (by apply elem_of_list_to_set). set_solver.
Qed.

Lemma discontiguous_run n : forall m used, frames_ok m used ->
  exists status out m', allocate_discontiguous_frames (replicate n INVALID_FRAME) m = Ret (status, out, m') /\ same_memory m m' /\
    ((status = STATUS_SUCCESS /\ length out = n /\ fresh_frames m used out /\ frames_ok m' (list_to_set out ∪ used)) \/
     (status = STATUS_INSUFFICIENT_MEMORY /\ exists got k, out = got ++ replicate k INVALID_FRAME /\ (length got < n)%nat /\
        fresh_frames m used got /\ frames_ok m' (list_to_set got ∪ used) /\ valid_frames m ⊆ list_to_set got ∪ used)).
Proof.
  induction n as [|n IH]; intros m used Hm; cbn [replicate allocate_discontiguous_frames].
  - eexists _, _, _. split; [done|]. split; [done|]. left. split; [done|]. split; [done|].
    split; [split; [constructor|apply empty_subseteq]|]. by rewrite listed_nil_union.
  - assert (Hlow : forall l, 0 <= l < 0 -> map_bit m l = true) by lia.
    destruct (search_regions_run 1025 m used 0 Hm ltac:(lia) Hlow ltac:(lia)) as (a & m1 & E1 & [S1 T1] & Hcase).
    unfold manager_allocate_block at 1. krun E1. destruct Hcase as [(Hv & Hn & Hm1)|(-> & Hm1 & Hall)].
    + assert (Ha : (a =? INVALID_FRAME) = false).
      { pose proof Hv as (i & x & Hi & Hx & ->)%elem_of_valid. apply frame_nonzero; [lia|done]. }
      rewrite Ha. destruct (IH m1 _ Hm1) as (status & out & m2 & E2 & [S2 T2] & Hres). krun E2.
      assert (Hval : valid_frames m1 = valid_frames m) by (by apply valid_same).
      eexists _, _, _. split; [done|]. split; [split; congruence|]. unfold fresh_frames in Hres. rewrite Hval in Hres.
      destruct Hres as [(-> & Hl & Hfr & Hm2)|(-> & got & k & -> & Hl & Hfr & Hm2 & Hall)]; [left|right].
      * split; [done|]. split; [cbn; lia|]. split; [by apply fresh_cons|].
        by rewrite listed_cons_union.
      * split; [done|]. exists (a :: got), k. split; [done|]. split; [cbn; lia|]. split; [by apply fresh_cons|].
        by rewrite listed_cons_union.
    + rewrite Z.eqb_refl. eexists _, _, _. split; [done|]. split; [done|]. right. split; [done|].
      exists [], (S n). split; [done|]. split; [cbn; lia|]. split; [split; [constructor|apply empty_subseteq]|].
      by rewrite listed_nil_union.
Qed.

(** ** The constructor *)

Definition total_memory (high_memory_size : Z) : Z := u32 (u32 (high_memory_size * 1024) + 1024 * 1024).

Lemma create_regions_run fuel : forall i last g, 0 <= i -> last <= 1024 -> (Z.to_nat (last - i) <= fuel)%nat ->
  exists g', create_regions fuel i last (u32 (i * REGION_SIZE)) g = Ret g' /\
    forall j, i <= j < last -> exists r, g' !! j = Some r /\ region_base r = j * REGION_SIZE /\ buddy r (fun _ => false).
Proof.
  enough (H : forall i last g, 0 <= i -> last <= 1024 -> (Z.to_nat (last - i) <= fuel)%nat ->
    exists g', create_regions fuel i last (u32 (i * REGION_SIZE)) g = Ret g' /\ (forall j, j < i -> g' !! j = g !! j) /\
      forall j, i <= j < last -> exists r, g' !! j = Some r /\ region_base r = j * REGION_SIZE /\ buddy r (fun _ => false)).
  { intros i last g H1 H2 H3. destruct (H i last g H1 H2 H3) as (g' & E & _ & Hg). by exists g'. }
  induction fuel as [|fuel IH]; intros i last g H1 H2 H3; cbn [create_regions];
    destruct (Z.ltb_spec i last) as [Hlt|Hge]; try lia; try (exists g; split; [done|]; split; [done|]; lia).
  assert (Hmul : 0 <= i * REGION_SIZE < 2 ^ 32) by (unfold REGION_SIZE, FRAME_COUNT_PER_REGION, PAGE_SIZE; lia).
  rewrite (u32_small (i * REGION_SIZE)) by done.
  destruct (region_new_run (i * REGION_SIZE) (Z_mod_mult i REGION_SIZE)) as (r & E & Hbase & Hbud). krun E.
  replace (i * REGION_SIZE + REGION_SIZE) with ((i + 1) * REGION_SIZE) by lia.
  destruct (IH (i + 1) last (<[i := r]> g) ltac:(lia) H2 ltac:(lia)) as (g' & E' & Hlow & Hg).
  exists g'. split; [exact E'|]. split.
  - intros j Hj. rewrite Hlow by lia. by rewrite lookup_insert_ne by lia.
  - intros j Hj. destruct (decide (j = i)) as [->|]; [|apply Hg; lia].
    rewrite Hlow by lia. rewrite lookup_insert_eq. by exists r.
Qed.

Lemma paged_boundary : KERNEL_PAGED_BOUNDARY = 3 * REGION_SIZE.
Proof. reflexivity. Qed.

(** The start of the constructor, and the marks of the first three regions. *)
Lemma low_regions_run b0 : ml_inv (inv := inv32) (bits := bits32) b0 -> exists b1, multilevel_set_range 0 3 b0 = Ret b1 /\
  ml_inv (inv := inv32) (bits := bits32) b1 /\ ml_size b1 = ml_size b0 /\
  forall j, 0 <= j < 1024 -> ml_bits (bits := bits32) b1 j = ml_bits (bits := bits32) b0 j || in_range 0 3 j.
Proof.
  intros H0. assert (Hr1 : 0 <= 0 < 1024) by lia. assert (Hn1 : 0 <= 3) by lia. assert (Hle1 : 0 + 3 <= 1024) by lia.
  exact (law_set_range (width := 1024) b0 0 3 H0 Hr1 Hn1 Hle1).
Qed.

(** The region map after the constructor. *)
Lemma high_regions_run b1 count : ml_inv (inv := inv32) (bits := bits32) b1 -> 0 <= count <= 1020 ->
  exists b2, multilevel_set_range (3 + count) (1024 - (3 + count)) b1 = Ret b2 /\
    ml_inv (inv := inv32) (bits := bits32) b2 /\ ml_size b2 = ml_size b1 /\
    forall j, 0 <= j < 1024 -> ml_bits (bits := bits32) b2 j = ml_bits (bits := bits32) b1 j || in_range (3 + count) 1024 j.
Proof.
  intros H1 Hc. assert (Hr2 : 0 <= 3 + count < 1024) by lia. assert (Hn2 : 0 <= 1024 - (3 + count)) by lia.
  assert (Hle2 : 3 + count + (1024 - (3 + count)) <= 1024) by lia.
  destruct (law_set_range (width := 1024) b1 _ _ H1 Hr2 Hn2 Hle2) as (b2 & E2 & H2 & S2 & B2).
  exists b2. split; [exact E2|]. split; [done|]. split; [done|]. intros j Hj. rewrite B2 by done.
  f_equal. f_equal. lia.
Qed.

Lemma page_frame_manager_new_ok high_memory_size : KERNEL_PAGED_BOUNDARY <= total_memory high_memory_size ->
  exists m, page_frame_manager_new high_memory_size = Ret m /\ frames_ok m ∅ /\
    total_memory_size m = total_memory high_memory_size /\
    paged_region_count m = (total_memory high_memory_size - KERNEL_PAGED_BOUNDARY) / REGION_SIZE.
Proof.
  unfold page_frame_manager_new. fold (total_memory high_memory_size).
  pose proof (u32_range (u32 (high_memory_size * 1024) + 1024 * 1024)) as Ht.
  fold (total_memory high_memory_size) in Ht. set (total := total_memory high_memory_size) in *. rewrite paged_boundary.
  assert (HRS : REGION_SIZE = 4194304) by reflexivity. cbv zeta. rewrite (Z.div_mul 3) by lia. intros Hge.
  destruct (bitmap1024_new_run 1024 ltac:(lia)) as (b0 & E0 & H0 & S0 & B0). cbn [bm_default multilevel]. krun E0.
  rewrite S0. unfold REGION_COUNT_MAX. rewrite (u32_small (total - _)) by lia.
  set (count := (total - 3 * REGION_SIZE) / REGION_SIZE).
  assert (Hc : 0 <= count <= 1020) by (unfold count; zlia). rewrite (u32_small (3 + count)) by lia.
  kassert_tac. kassert_tac.
  destruct (create_regions_run 1024 3 (3 + count) ∅ ltac:(lia) ltac:(lia) ltac:(lia)) as (g & Eg & Hg).
  rewrite u32_small in Eg by lia. krun Eg.
  destruct (low_regions_run b0 H0) as (b1 & E1 & H1 & S1 & B1). krun E1.
  destruct (high_regions_run b1 count H1 Hc) as (b2 & E2 & H2 & S2 & B2). rewrite S1, S0, u32_small by lia. krun E2.
  assert (Hbits : forall j, 0 <= j < 1024 -> ml_bits (bits := bits32) b2 j = true <-> ~ 3 <= j < 3 + count).
  { intros j Hj. rewrite B2, B1, B0, !orb_true_iff, !in_range_true, Z.leb_le by done. lia. }
  eexists. split; [done|]. split; [|done]. split; cbn.
  - done.
  - unfold count. zlia.
  - intros i Hi. destruct (Hg i ltac:(lia)) as (r & Er & Hbase & Hbud). exists r. split; [done|]. split; [done|].
    apply (buddy_ext r _ _ Hbud). intros f _. symmetry. apply bool_decide_eq_false. apply not_elem_of_empty.
  - split; [done|congruence].
  - intros i Hi E. destruct (decide (3 <= i < 3 + count)) as [|Hn]; [done|]. apply Hbits in Hn; [congruence|done].
  - intros i x Hi E. apply Hbits in E; lia.
  - apply empty_subseteq.
Qed.

Lemma page_frame_manager_new_wraps high_memory_size : total_memory high_memory_size < KERNEL_PAGED_BOUNDARY ->
  page_frame_manager_new high_memory_size = Trap AssertFailed.
Proof.
  unfold page_frame_manager_new. fold (total_memory high_memory_size).
  pose proof (u32_range (u32 (high_memory_size * 1024) + 1024 * 1024)) as Ht.
  fold (total_memory high_memory_size) in Ht. set (total := total_memory high_memory_size) in *. rewrite paged_boundary.
  assert (HRS : REGION_SIZE = 4194304) by reflexivity. cbv zeta. rewrite (Z.div_mul 3) by lia. intros Hlt.
  destruct (bitmap1024_new_run 1024 ltac:(lia)) as (b0 & E0 & H0 & S0 & _). cbn [bm_default multilevel]. krun E0.
  rewrite S0. unfold REGION_COUNT_MAX.
  assert (Hw : u32 (total - 3 * REGION_SIZE) = total + 2 ^ 32 - 3 * REGION_SIZE).
  { rewrite <- (u32_small (total + 2 ^ 32 - 3 * REGION_SIZE)) by lia. unfold u32.
    replace (total + 2 ^ 32 - 3 * REGION_SIZE) with (total - 3 * REGION_SIZE + 1 * 2 ^ 32) by lia. by rewrite Z_mod_plus_full. }
  rewrite Hw. set (count := (total + 2 ^ 32 - 3 * REGION_SIZE) / REGION_SIZE).
  assert (Hc : 1021 <= count <= 1023) by (unfold count; zlia). rewrite (u32_small (3 + count)) by lia.
  destruct (Z.leb_spec (3 + count) 1024) as [Hle|Hgt]; [|done]. assert (count = 1021) as -> by lia.
  kassert_tac. kassert_tac. destruct (create_regions_run 1024 3 (3 + 1021) ∅ ltac:(lia) ltac:(lia) ltac:(lia)) as (g & Eg & _).
  rewrite u32_small in Eg by lia. krun Eg.
  destruct (low_regions_run b0 H0) as (b1 & E1 & H1 & S1 & _). krun E1.
  unfold multilevel_set_range. rewrite (core_true_size b1 (inv_core b1 H1)). done.
Qed.

(** The page frame manager can be constructed exactly when the machine has
    at least the 12 MB that the kernel reserves (memory counted modulo 4 GB):
    then it owns every complete 4 MB region above them and no frame is in use;
    with less memory the subtraction wraps and an assertion stops the boot. *)
Theorem page_frame_manager_bounds high_memory_size :
  if KERNEL_PAGED_BOUNDARY <=? total_memory high_memory_size
  then exists m, page_frame_manager_new high_memory_size = Ret m /\ frames_ok m ∅ /\
         total_memory_size m = total_memory high_memory_size /\
         paged_region_count m = (total_memory high_memory_size - KERNEL_PAGED_BOUNDARY) / REGION_SIZE
  else page_frame_manager_new high_memory_size = Trap AssertFailed.
Proof.
  destruct (Z.leb_spec KERNEL_PAGED_BOUNDARY (total_memory high_memory_size)) as [Hge|Hlt];
    [by apply page_frame_manager_new_ok|by apply page_frame_manager_new_wraps].
Qed.

(** The run of [allocate_frames] for frames that need not be contiguous. *)
Lemma allocate_frames_run m used n flags : frames_ok m used -> 0 < n ->
  has_flag flags (Z.lor MEMORY_DMA16 (Z.lor MEMORY_DMA32 MEMORY_DMA64)) = false ->
  exists status out m', allocate_frames n flags m = Ret (status, out, m') /\ same_memory m m' /\
    if decide (n <= Z.of_nat (base.size (valid_frames m ∖ used)))
    then status = STATUS_SUCCESS /\ Z.of_nat (length out) = n /\ NoDup out /\ list_to_set out ⊆ valid_frames m ∖ used /\
         frames_ok m' (list_to_set out ∪ used)
    else status = STATUS_INSUFFICIENT_MEMORY /\ frames_ok m' used.
Proof.
  intros Hm Hn Hflag. unfold allocate_frames. kassert_tac. rewrite Hflag.
  destruct (discontiguous_run (Z.to_nat n) m used Hm) as (status & out & m' & E & Hsame & Hcase). krun E.
  destruct Hcase as [(-> & Hl & [Hnd Hsub] & Hm')|(-> & got & k & -> & Hl & [Hnd Hsub] & Hm' & Hall)].
  - eexists _, _, _. split; [done|]. split; [done|]. rewrite decide_True; [split; [done|]; split; [lia|done]|].
    apply subseteq_size in Hsub. rewrite size_list_to_set in Hsub by done. lia.
  - cbn [negb Z.eqb STATUS_INSUFFICIENT_MEMORY STATUS_SUCCESS].
    destruct (free_frames_run got m' _ Hm' Hnd) as (m2 & E2 & [S2 T2] & Hm2).
    { intros a Ha. apply elem_of_union_l. by apply elem_of_list_to_set. }
    rewrite (free_frames_app got _ m' m2 E2), free_invalid. cbn. eexists _, _, _. split; [done|].
    split; [destruct Hsame; split; congruence|]. rewrite decide_False.
    + split; [done|]. replace used with ((list_to_set got ∪ used) ∖ list_to_set got); [done|]. set_solver.
    + assert (Hle : valid_frames m ∖ used ⊆ list_to_set got) by set_solver. apply subseteq_size in Hle.
      rewrite size_list_to_set in Hle by done. lia.
Qed.

(** C13. [allocate_frames] without a DMA flag is all or nothing: it succeeds
    exactly when the machine still has [n] unused frames; then it returns [n]
    different frames that were not in use and they are in use afterwards,
    otherwise no frame changes hands (a partial allocation is undone). *)
Theorem allocate_frames_all_or_nothing m used n flags : frames_ok m used -> 0 < n ->
  has_flag flags (Z.lor MEMORY_DMA16 (Z.lor MEMORY_DMA32 MEMORY_DMA64)) = false ->
  exists status out m', allocate_frames n flags m = Ret (status, out, m') /\ same_memory m m' /\
    if decide (n <= Z.of_nat (base.size (valid_frames m ∖ used)))
    then status = STATUS_SUCCESS /\ Z.of_nat (length out) = n /\ NoDup out /\ list_to_set out ⊆ valid_frames m ∖ used /\
         frames_ok m' (list_to_set out ∪ used)
    else status = STATUS_INSUFFICIENT_MEMORY /\ frames_ok m' used.
Proof. exact (allocate_frames_run m used n flags). Qed.

(** Releasing frames that are in use always succeeds, whatever the order,
    and exactly they become available again. *)
Theorem free_frames_releases m used frame : frames_ok m used -> NoDup frame -> list_to_set frame ⊆ used ->
  exists m', free_frames frame m = Ret m' /\ same_memory m m' /\ frames_ok m' (used ∖ list_to_set frame).
Proof.
  intros Hm Hnd Hsub. apply free_frames_run; try done. intros a Ha. apply Hsub. by apply elem_of_list_to_set.
Qed.

(** A machine with 16 MB: one region. *)
Lemma small_machine : KERNEL_PAGED_BOUNDARY <= total_memory 15360.
Proof. by vm_compute. Qed.

Lemma allocate_frames_all_or_nothing_witness : exists m, page_frame_manager_new 15360 = Ret m /\
  exists status out m', allocate_frames 2 MEMORY_WRITABLE m = Ret (status, out, m') /\ same_memory m m'.
Proof.
  destruct (page_frame_manager_new_ok 15360 small_machine) as (m & E & Hm & _). exists m. split; [exact E|].
  destruct (allocate_frames_all_or_nothing m ∅ 2 MEMORY_WRITABLE Hm ltac:(lia) ltac:(reflexivity))
    as (status & out & m' & Ea & Hs & _). exists status, out, m'. split; [exact Ea|exact Hs].
Defined.

Lemma free_frames_releases_witness : exists m out m1 m2, page_frame_manager_new 15360 = Ret m /\
  allocate_frames 3 0 m = Ret (STATUS_SUCCESS, out, m1) /\ free_frames (reverse out) m1 = Ret m2 /\ frames_ok m2 ∅.
Proof.
  destruct (page_frame_manager_new_ok 15360 small_machine) as (m & E & Hm & _).
  destruct (discontiguous_run 3 m ∅ Hm) as (status & out & m1 & Ed & Hsame & Hcase).
  assert (Hst : allocate_frames 3 0 m = Ret (STATUS_SUCCESS, out, m1) /\ status = STATUS_SUCCESS).
  { assert (Hs : (m ← page_frame_manager_new 15360; '(s, _, _) ← allocate_discontiguous_frames (replicate 3 INVALID_FRAME) m; mret s)
      = Ret STATUS_SUCCESS) by (vm_compute; reflexivity).
    rewrite (res_bind_ret _ _ m E) in Hs. cbn beta in Hs. rewrite (res_bind_ret _ _ _ Ed) in Hs. cbn beta iota in Hs.
    injection Hs as ->. split; [|reflexivity]. unfold allocate_frames. kassert_tac. cbn beta.
    change (Z.to_nat 3) with 3%nat. change (has_flag 0 _) with false. cbv iota. krun Ed. reflexivity. }
  destruct Hst as [Ea ->]. destruct Hcase as [(_ & Hl & [Hnd Hsub] & Hm1)|(Hc & _)]; [|discriminate Hc].
  rewrite union_empty_r_L in Hm1.
  destruct (free_frames_releases m1 (list_to_set out) (reverse out) Hm1) as (m2 & E2 & _ & Hm2).
  - rewrite reverse_Permutation. exact Hnd.
  - intros a Ha. apply elem_of_list_to_set in Ha. apply elem_of_list_to_set. by apply elem_of_reverse.
  - exists m, out, m1, m2. split; [exact E|]. split; [exact Ea|]. split; [exact E2|].
    replace ∅ with (list_to_set out ∖ list_to_set (reverse out) : gset Z); [exact Hm2|].
    apply set_eq. intros a. rewrite elem_of_difference, !elem_of_list_to_set, elem_of_reverse, elem_of_empty. tauto.
Defined.

(** A contiguous allocation can overlap frames in use: when two buddies
    are released in ascending order the joined block is recorded under the
    index of the second one, so that a later request for two frames for DMA
    gets the second buddy and the frame after it, which is still in use. *)
Theorem dma_frames_overlap :
  (m ← page_frame_manager_new 15360;
   '(status, frame, m) ← allocate_frames 3 0 m;
   m ← free_frames (take 2 frame) m;
   '(status', frame', m) ← allocate_frames 2 MEMORY_DMA32 m;
   mret (status, frame, status', frame'))
  = Ret (STATUS_SUCCESS, [0xC00000; 0xC01000; 0xC02000], STATUS_SUCCESS, [0xC01000; 0xC02000]).
Proof. vm_compute. reflexivity. Qed.

(** Contiguous requests for 7 up to 64 frames, which [MAX_BLOCK_SIZE]
    admits, stop at an assertion: [calculate_order] compares the number of
    frames with the number of orders. *)
Theorem dma_frames_large_trap m used n flags i : frames_ok m used -> 7 <= n <= 64 ->
  has_flag flags (Z.lor MEMORY_DMA16 (Z.lor MEMORY_DMA32 MEMORY_DMA64)) = true ->
  0 <= i < 1024 -> map_bit m i = false -> allocate_frames n flags m = Trap AssertFailed.
Proof.
  intros Hm Hn Hflag Hi Hclear. unfold allocate_frames. kassert_tac. rewrite Hflag.
  unfold allocate_contiguous_frames. rewrite length_replicate, Z2Nat.id by lia.
  rewrite (proj2 (Z.leb_le n MAX_BLOCK_SIZE)) by (change MAX_BLOCK_SIZE with 64; lia).
  unfold manager_allocate_block. assert (Hf : exists f, 1025%nat = S f) by (by eexists). destruct Hf as [fuel ->].
  cbn [search_regions]. destruct (fo_map m used Hm) as [Hinv Hs].
  destruct (law_allocate (width := 1024) (region_map m) Hinv) as (j & map & Ea & _ & Hs' & Hcase). cbn in Ea, Hs', Hcase.
  destruct Hcase as [(Hj & Hbj & _)|(_ & _ & Hfull)]; [|rewrite Hfull in Hclear; done].
  rewrite Hs in Hj. erewrite (res_bind_ret (multilevel_allocate _)) by exact Ea. cbn beta iota.
  rewrite Hs', Hs, (proj2 (Z.ltb_lt j 1024)) by lia.
  destruct (fo_region m used Hm j (fo_clear m used Hm j Hj Hbj)) as (r & -> & _).
  unfold region_allocate_block, calculate_order. rewrite (proj2 (Z.ltb_lt 0 n)) by lia.
  rewrite (proj2 (Z.ltb_ge n MAX_BLOCK_ORDER)) by (change MAX_BLOCK_ORDER with 7; lia). done.
Qed.

Lemma dma_frames_large_trap_witness : exists m, page_frame_manager_new 15360 = Ret m /\
  allocate_frames 8 MEMORY_DMA32 m = Trap AssertFailed.
Proof.
  destruct (page_frame_manager_new_ok 15360 small_machine) as (m & E & Hm & _). exists m. split; [exact E|].
  apply (dma_frames_large_trap m ∅ 8 MEMORY_DMA32 3 Hm); [lia|reflexivity|lia|].
  assert (Hb : (m ← page_frame_manager_new 15360; mret (map_bit m 3)) = Ret false) by (vm_compute; reflexivity).
  rewrite (res_bind_ret _ _ m E) in Hb. injection Hb as Hb. exact Hb.
Defined.
