(* ===== verification/KHeap.v ===== *)
(** * The kernel heap: [memory_manager/memory_pool.cpp], [kernel_heap.cpp], [new.cpp], [delete.cpp]

    A pool hands out blocks of one size with a bitmap; the heap is ten pools
    at fixed addresses. The C++ object has one field per pool; here the pools
    are a list in the order of the block sizes, so that the fall-through of
    the [switch] in [allocate_block] is a walk along the list. *)

From S2P Require Import Prelude CMem CString CStringSearch World Libdx KBase KBitmap KFrames.

(** ** A pool *)

Record memory_pool_c := mkPool { pool_base : Z; block_count : Z; block_size : Z; pool_bitmap : bitmap1024_c }.

Definition with_bitmap (p : memory_pool_c) (b : bitmap1024_c) : memory_pool_c :=
  mkPool (pool_base p) (block_count p) (block_size p) b.

Definition memory_pool_new (base pool_size pool_block_size : Z) : res memory_pool_c :=
  let count := pool_size / pool_block_size in
  b ← multilevel_new count;
  kassert (negb (base =? 0));;
  kassert (negb (pool_block_size =? 0));;
  aligned ← is_aligned base pool_block_size;
  kassert aligned;;
  kassert (is_2n pool_block_size);;
  mret (mkPool base count pool_block_size b).

Definition pool_allocate_block (p : memory_pool_c) : res (Z * memory_pool_c) :=
  '(index, b) ← multilevel_allocate (pool_bitmap p);
  mret (if index <? block_count p then u32 (pool_base p + u32 (index * block_size p)) else NULL, with_bitmap p b).

Definition pool_free_block (block : Z) (p : memory_pool_c) : res (Z * memory_pool_c) :=
  kassert (negb (block =? NULL));;
  kassert (pool_base p <=? block);;
  aligned ← is_aligned block (block_size p);
  kassert aligned;;
  let index := u32 (block - pool_base p) / block_size p in
  if index <? ml_size (pool_bitmap p) then
    b ← multilevel_free index (pool_bitmap p);
    mret (STATUS_SUCCESS, with_bitmap p b)
  else mret (STATUS_INVALID_DATA, p).

Definition pool_is_empty (p : memory_pool_c) : bool := multilevel_is_full (pool_bitmap p).

(** ** The layout of the heap: hal/address_space_layout.h *)

Definition KERNEL_DATA_PAGE0_BASE : Z := 0x00800000.
Definition KERNEL_DATA_PAGE0_END : Z := KERNEL_DATA_PAGE0_BASE + SUPER_PAGE_SIZE.
Definition KERNEL_BOOT_THREAD_BASE : Z := KERNEL_DATA_PAGE0_BASE.
Definition KERNEL_GDT_BASE : Z := KERNEL_BOOT_THREAD_BASE + PAGE_SIZE.
Definition KERNEL_IDT_BASE : Z := KERNEL_GDT_BASE + PAGE_SIZE.
Definition KERNEL_TSS_BASE : Z := KERNEL_IDT_BASE + PAGE_SIZE.
Definition KERNEL_HEAP_DESCRIPTOR_BASE : Z := KERNEL_TSS_BASE + (128 + 8192).
Definition KERNEL_POOL8192_SIZE : Z := 16 * 8192.
Definition KERNEL_POOL1024_SIZE : Z := 64 * 1024.
Definition KERNEL_POOL512_SIZE : Z := 64 * 512.
Definition KERNEL_POOL256_SIZE : Z := 128 * 256.
Definition KERNEL_POOL128_SIZE : Z := 256 * 128.
Definition KERNEL_POOL64_SIZE : Z := 512 * 64.
Definition KERNEL_POOL32_SIZE : Z := 1024 * 32.
Definition KERNEL_POOL16_SIZE : Z := 1024 * 16.
Definition KERNEL_POOL8_SIZE : Z := 1024 * 8.
Definition KERNEL_POOL8192_BASE : Z :=
  Z.land (KERNEL_HEAP_DESCRIPTOR_BASE + PAGE_SIZE + (8192 - 1)) (u32 (Z.lnot (8192 - 1))).
Definition KERNEL_POOL1024_BASE : Z := KERNEL_POOL8192_BASE + KERNEL_POOL8192_SIZE.
Definition KERNEL_POOL512_BASE : Z := KERNEL_POOL1024_BASE + KERNEL_POOL1024_SIZE.
Definition KERNEL_POOL256_BASE : Z := KERNEL_POOL512_BASE + KERNEL_POOL512_SIZE.
Definition KERNEL_POOL128_BASE : Z := KERNEL_POOL256_BASE + KERNEL_POOL256_SIZE.
Definition KERNEL_POOL64_BASE : Z := KERNEL_POOL128_BASE + KERNEL_POOL128_SIZE.
Definition KERNEL_POOL32_BASE : Z := KERNEL_POOL64_BASE + KERNEL_POOL64_SIZE.
Definition KERNEL_POOL16_BASE : Z := KERNEL_POOL32_BASE + KERNEL_POOL32_SIZE.
Definition KERNEL_POOL8_BASE : Z := KERNEL_POOL16_BASE + KERNEL_POOL16_SIZE.
Definition KERNEL_POOL4096_BASE : Z := KERNEL_POOL8_BASE + KERNEL_POOL8_SIZE.
Definition KERNEL_POOL4096_SIZE : Z := KERNEL_DATA_PAGE0_END - KERNEL_POOL4096_BASE.

(** ** The heap *)

Record kernel_heap_c := mkHeap { heap_pools : list memory_pool_c }.

(** The arguments of the pools in the constructor: base, size, block size. *)
Definition pool_arguments : list (Z * Z * Z) :=
  [(KERNEL_POOL8_BASE, KERNEL_POOL8_SIZE, 8);
   (KERNEL_POOL16_BASE, KERNEL_POOL16_SIZE, 16);
   (KERNEL_POOL32_BASE, KERNEL_POOL32_SIZE, 32);
   (KERNEL_POOL64_BASE, KERNEL_POOL64_SIZE, 64);
   (KERNEL_POOL128_BASE, KERNEL_POOL128_SIZE, 128);
   (KERNEL_POOL256_BASE, KERNEL_POOL256_SIZE, 256);
   (KERNEL_POOL512_BASE, KERNEL_POOL512_SIZE, 512);
   (KERNEL_POOL1024_BASE, KERNEL_POOL1024_SIZE, 1024);
   (KERNEL_POOL4096_BASE, KERNEL_POOL4096_SIZE, 4096);
   (KERNEL_POOL8192_BASE, KERNEL_POOL8192_SIZE, 8192)].

Fixpoint pools_new (l : list (Z * Z * Z)) : res (list memory_pool_c) :=
  match l with
  | [] => mret []
  | (base, pool_size, bsize) :: l =>
      p ← memory_pool_new base pool_size bsize;
      ps ← pools_new l;
      mret (p :: ps)
  end.

Definition kernel_heap_new : res kernel_heap_c := ps ← pools_new pool_arguments; mret (mkHeap ps).

(** The label of the [switch]: the first pool that is tried. *)
Definition first_pool (allocation_size : Z) : option nat :=
  if (allocation_size =? 0) || (allocation_size =? 1) || (allocation_size =? 2)
     || (allocation_size =? 4) || (allocation_size =? 8) then Some 0%nat
  else if allocation_size =? 16 then Some 1%nat
  else if allocation_size =? 32 then Some 2%nat
  else if allocation_size =? 64 then Some 3%nat
  else if allocation_size =? 128 then Some 4%nat
  else if allocation_size =? 256 then Some 5%nat
  else if allocation_size =? 512 then Some 6%nat
  else if allocation_size =? 1024 then Some 7%nat
  else if (allocation_size =? 2048) || (allocation_size =? 4096) then Some 8%nat
  else if allocation_size =? 8192 then Some 9%nat
  else None.

(** The cases from a label on: each tries one pool, and falls through when it
    is exhausted. *)
Fixpoint try_pools (l : list memory_pool_c) : res (Z * list memory_pool_c) :=
  match l with
  | [] => mret (NULL, [])
  | p :: l =>
      '(block, p) ← pool_allocate_block p;
      if negb (block =? NULL) then mret (block, p :: l)
      else '(block, l) ← try_pools l; mret (block, p :: l)
  end.

Definition heap_search (size flags : Z) (h : kernel_heap_c) : res (Z * kernel_heap_c) :=
  let alignment_flags := read_alignment_flags flags in
  let allocation_size := if 0 <? size then round_up_2n (Z.max size alignment_flags) else 0 in
  match first_pool allocation_size with
  | Some k =>
      '(block, l) ← try_pools (drop k (heap_pools h));
      mret (block, mkHeap (take k (heap_pools h) ++ l))
  | None => mret (NULL, h)
  end.

(** Runs kernel code that does not touch memory. *)
Definition lift_res {A} (c : res A) : C A := fun m =>
  match c with Ret a => Ret (a, m) | Trap t => Trap t end.

Definition kernel_heap_allocate_block (size flags : Z) (h : kernel_heap_c) : C (Z * kernel_heap_c) :=
  '(block, h) ← lift_res (heap_search size flags h);
  if has_flag flags MEMORY_ZERO && negb (block =? NULL) then memset block 0 size;; mret (block, h)
  else mret (block, h).

(** The cases of [find_pool], in order: the addresses of a pool. *)
Definition find_pool_cases : list (Z * Z * nat) :=
  [(KERNEL_POOL8192_BASE, KERNEL_POOL1024_BASE, 9%nat);
   (KERNEL_POOL4096_BASE, KERNEL_DATA_PAGE0_END, 8%nat);
   (KERNEL_POOL1024_BASE, KERNEL_POOL512_BASE, 7%nat);
   (KERNEL_POOL512_BASE, KERNEL_POOL256_BASE, 6%nat);
   (KERNEL_POOL256_BASE, KERNEL_POOL128_BASE, 5%nat);
   (KERNEL_POOL128_BASE, KERNEL_POOL64_BASE, 4%nat);
   (KERNEL_POOL64_BASE, KERNEL_POOL32_BASE, 3%nat);
   (KERNEL_POOL32_BASE, KERNEL_POOL16_BASE, 2%nat);
   (KERNEL_POOL16_BASE, KERNEL_POOL8_BASE, 1%nat);
   (KERNEL_POOL8_BASE, KERNEL_POOL4096_BASE, 0%nat)].

(** The case that the alignment of the block selects. *)
Definition find_pool_label (alignment : Z) : option nat :=
  if alignment =? 8192 then Some 0%nat
  else if alignment =? 4096 then Some 1%nat
  else if (alignment =? 2048) || (alignment =? 1024) then Some 2%nat
  else if alignment =? 512 then Some 3%nat
  else if alignment =? 256 then Some 4%nat
  else if alignment =? 128 then Some 5%nat
  else if alignment =? 64 then Some 6%nat
  else if alignment =? 32 then Some 7%nat
  else if alignment =? 16 then Some 8%nat
  else if alignment =? 8 then Some 9%nat
  else None.

Fixpoint match_case (b : Z) (l : list (Z * Z * nat)) : option nat :=
  match l with
  | [] => None
  | (lo, hi, k) :: l => if (lo <=? b) && (b <? hi) then Some k else match_case b l
  end.

(** The number of the pool that owns the block. *)
Definition find_pool (block : Z) : res (option nat) :=
  let b := s32 block in
  aligned ← is_aligned block 8;
  kassert aligned;;
  let alignment := Z.min (Z.land b (- b)) 8192 in
  kassert (is_2n (u32 alignment));;
  mret (match find_pool_label alignment with
        | Some i => match_case b (drop i find_pool_cases)
        | None => None
        end).

Definition kernel_heap_free_block (block : Z) (h : kernel_heap_c) : res kernel_heap_c :=
  kassert (negb (block =? NULL));;
  k ← find_pool block;
  match k with
  | Some k =>
      p ← array_get (heap_pools h) (Z.of_nat k);
      '(_, p) ← pool_free_block block p;
      mret (mkHeap (<[k := p]> (heap_pools h)))
  | None => mret h
  end.

(** [operator new] and [operator delete]; the global [__kernel_heap] is null
    before the heap is created. *)
Definition operator_new (size flags : Z) (heap : option kernel_heap_c) : C (Z * option kernel_heap_c) :=
  match heap with
  | Some h => '(memory, h) ← kernel_heap_allocate_block size flags h; mret (memory, Some h)
  | None => fail AssertFailed
  end.

Definition operator_delete (data : Z) (heap : option kernel_heap_c) : res (option kernel_heap_c) :=
  if negb (data =? NULL) then
    match heap with
    | Some h => h ← kernel_heap_free_block data h; mret (Some h)
    | None => Trap AssertFailed
    end
  else mret heap.
