(* ===== verification/KHeapThms.v ===== *)
(** * The kernel heap hands out disjoint, aligned blocks

    The state of the heap is abstracted to the map of the live blocks: from the
    address of a block to its size. *)

From S2P Require Import Prelude CMem CString CStringMem CStringSearch World Libdx KBase KBitmap KBitmapThms KFrames KRegionThms KHeap.

(** ** Rounding to a power of two *)

(** [y] has a bit wherever [x] has one among the next [k]. *)
Definition smeared (x y k : Z) : Prop :=
  forall j, 0 <= j -> Z.testbit y j = true <-> exists i, 0 <= i < k /\ Z.testbit x (j + i) = true.

Lemma smear_step x y k : 0 < k -> smeared x y k -> smeared x (Z.lor y (Z.shiftr y k)) (k + k).
Proof.
  intros Hk Hs j Hj. rewrite Z.lor_spec, Z.shiftr_spec, orb_true_iff, (Hs j Hj), (Hs (j + k)) by lia. split.
  - intros [(i & Hi & E)|(i & Hi & E)]; [exists i; split; [lia|done]|].
    exists (k + i). split; [lia|]. by rewrite Z.add_assoc.
  - intros (i & Hi & E). destruct (Z.lt_ge_cases i k); [left; exists i; split; [lia|done]|].
    right. exists (i - k). split; [lia|]. by replace (j + k + (i - k)) with (j + i) by lia.
Qed.

Lemma smeared_1 x : smeared x x 1.
Proof.
  intros j Hj. split.
  - intros E. exists 0. split; [lia|]. by rewrite Z.add_0_r.
  - intros (i & Hi & E). assert (i = 0) as -> by lia. by rewrite Z.add_0_r in E.
Qed.

Lemma smeared_ones x y : 0 < x < 2 ^ 32 -> 0 <= y -> smeared x y 32 -> y = Z.ones (Z.log2 x + 1).
Proof.
  intros Hx Hy Hs. pose proof (Z.log2_nonneg x). apply Z.bits_inj'. intros j Hj.
  assert (Hlog : Z.log2 x < 32) by (apply Z.log2_lt_pow2; lia).
  destruct (Z.lt_ge_cases j (Z.log2 x + 1)) as [Hlt|Hge].
  - rewrite Z.ones_spec_low by lia. apply Hs; [done|]. exists (Z.log2 x - j). split; [lia|].
    replace (j + (Z.log2 x - j)) with (Z.log2 x) by lia. apply Z.bit_log2. lia.
  - rewrite Z.ones_spec_high by lia. apply not_true_iff_false. intros E. apply Hs in E as (i & Hi & E); [|done].
    rewrite Z.bits_above_log2 in E; [done|lia|lia].
Qed.

(** The value before the final increment: all bits up to the highest one. *)
Lemma round_up_2n_ones v : 2 <= v < 2 ^ 32 -> round_up_2n v = u32 (Z.ones (Z.log2 (v - 1) + 1) + 1).
Proof.
  intros Hv. unfold round_up_2n. rewrite (u32_small (v - 1)) by lia. set (x := v - 1).
  pose proof (smear_step x x 1 ltac:(lia) (smeared_1 x)) as S1. set (y1 := Z.lor x (Z.shiftr x 1)) in *.
  pose proof (smear_step x y1 2 ltac:(lia) S1) as S2. set (y2 := Z.lor y1 (Z.shiftr y1 2)) in *.
  pose proof (smear_step x y2 4 ltac:(lia) S2) as S3. set (y3 := Z.lor y2 (Z.shiftr y2 4)) in *.
  pose proof (smear_step x y3 8 ltac:(lia) S3) as S4. set (y4 := Z.lor y3 (Z.shiftr y3 8)) in *.
  pose proof (smear_step x y4 16 ltac:(lia) S4) as S5. set (y5 := Z.lor y4 (Z.shiftr y4 16)) in *.
  assert (Hlor : forall z k, 0 <= z -> 0 <= Z.lor z (Z.shiftr z k)).
  { intros z k Hz. apply Z.lor_nonneg. split; [done|]. by apply Z.shiftr_nonneg. }
  assert (H5 : 0 <= y5) by (repeat apply Hlor; unfold x; lia).
  by rewrite (smeared_ones x y5) by (done || unfold x; lia).
Qed.

(** Up to 2^31 the bit trick gives the next power of two, beyond it 0. *)
Lemma round_up_2n_spec v : 1 <= v <= 2 ^ 31 -> round_up_2n v = 2 ^ Z.log2_up v.
Proof.
  intros Hv. destruct (Z.eq_dec v 1) as [->|Hne]; [reflexivity|]. rewrite round_up_2n_ones, Z.ones_equiv by lia.
  set (x := v - 1). replace (Z.pred (2 ^ (Z.log2 x + 1)) + 1) with (2 ^ (Z.log2 x + 1)) by lia.
  assert (Hl : Z.log2_up v = Z.log2 x + 1) by (rewrite Z.log2_up_eqn by lia; unfold x, Z.pred, Z.succ; done).
  rewrite Hl. apply u32_small. split; [apply Z.pow_nonneg; lia|].
  assert (Z.log2 x < 31) by (apply Z.log2_lt_pow2; unfold x; lia).
  pose proof (Z.log2_nonneg x). change 4294967296 with (2 ^ 32). apply Z.pow_lt_mono_r; lia.
Qed.

Lemma round_up_2n_wraps v : 2 ^ 31 < v < 2 ^ 32 -> round_up_2n v = 0.
Proof.
  intros Hv. rewrite round_up_2n_ones by lia.
  assert (Hl : Z.log2 (v - 1) = 31) by (apply Z.log2_unique; lia). by rewrite Hl.
Qed.

(** ** One pool *)

Definition block_address (p : memory_pool_c) (i : Z) : Z := pool_base p + i * block_size p.

Record pool_ok (p : memory_pool_c) : Prop := {
  po_count : 0 < block_count p <= 1024;
  po_bitmap : ml_inv (inv := inv32) (bits := bits32) (pool_bitmap p) /\ ml_size (pool_bitmap p) = block_count p;
  po_size : exists e, 3 <= e <= 20 /\ block_size p = 2 ^ e;
  po_base : 0 < pool_base p /\ pool_base p mod block_size p = 0 /\ pool_base p + block_count p * block_size p <= 2 ^ 31 }.

Definition live_in (p : memory_pool_c) (i : Z) : bool := ml_bits (bits := bits32) (pool_bitmap p) i.

Lemma block_size_pos p : pool_ok p -> 0 < block_size p.
Proof. intros Hp. destruct (po_size p Hp) as (e & He & ->). apply pow2_pos. lia. Qed.

Lemma pool_allocate_run p : pool_ok p ->
  (exists i p', pool_allocate_block p = Ret (block_address p i, p') /\ pool_ok p' /\ with_bitmap p (pool_bitmap p') = p' /\
     0 <= i < block_count p /\ live_in p i = false /\ block_address p i <> NULL /\
     forall j, 0 <= j < block_count p -> live_in p' j = live_in p j || (j =? i)) \/
  (pool_allocate_block p = Ret (NULL, p) /\ forall j, 0 <= j < block_count p -> live_in p j = true).
Proof.
  intros Hp. destruct (po_bitmap p Hp) as [Hinv Hs]. destruct (po_base p Hp) as (Hb0 & Hbm & Hb).
  pose proof (block_size_pos p Hp) as Hbs. pose proof (po_count p Hp) as Hc. unfold pool_allocate_block.
  destruct (law_allocate (width := 1024) (pool_bitmap p) Hinv) as (i & b & E & Hinv' & Hs' & Hcase). cbn in E, Hs', Hcase.
  krun E. destruct Hcase as [(Hi & Hbi & _ & Hbits)|(-> & -> & Hfull)].
  - left. rewrite Hs in Hi. rewrite (proj2 (Z.ltb_lt i _)) by lia.
    assert (i * block_size p < block_count p * block_size p) by (apply Z.mul_lt_mono_pos_r; lia).
    assert (0 <= i * block_size p) by (apply Z.mul_nonneg_nonneg; lia).
    rewrite (u32_small (i * _)), u32_small by lia. exists i. eexists. split; [done|]. split.
    + split; cbn; [done|split; [done|congruence]|apply Hp|done].
    + split; [done|]. split; [done|]. split; [done|]. unfold block_address, NULL. split; [lia|].
      intros j Hj. apply Hbits. lia.
  - right. rewrite (proj2 (Z.ltb_ge _ _)) by lia. split; [by destruct p|]. intros j Hj. apply Hfull. lia.
Qed.

Lemma heap_pool_free_run p i : pool_ok p -> 0 <= i < block_count p ->
  exists p', pool_free_block (block_address p i) p = Ret (STATUS_SUCCESS, p') /\ pool_ok p' /\
    with_bitmap p (pool_bitmap p') = p' /\
    forall j, 0 <= j < block_count p -> live_in p' j = live_in p j && negb (j =? i).
Proof.
  intros Hp Hi. destruct (po_bitmap p Hp) as [Hinv Hs]. destruct (po_base p Hp) as (Hb0 & Hbm & Hb).
  pose proof (block_size_pos p Hp) as Hbs. pose proof (po_count p Hp) as Hc. destruct (po_size p Hp) as (e & He & Ee).
  assert (i * block_size p < block_count p * block_size p) by (apply Z.mul_lt_mono_pos_r; lia).
  assert (0 <= i * block_size p) by (apply Z.mul_nonneg_nonneg; lia).
  assert (Hal : is_aligned (pool_base p + i * block_size p) (block_size p) = Ret true).
  { rewrite Ee in *. rewrite is_aligned_run by lia. by rewrite Z_mod_plus_full, Hbm. }
  unfold pool_free_block, block_address, NULL. rewrite (proj2 (Z.eqb_neq _ 0)) by lia. kassert_tac. kassert_tac.
  krun Hal. kassert_tac.
  replace (pool_base p + i * block_size p - pool_base p) with (i * block_size p) by lia. rewrite u32_small, Z.div_mul by lia.
  rewrite Hs, (proj2 (Z.ltb_lt i _)) by lia. assert (Hi' : 0 <= i < bm_size (pool_bitmap p)) by (cbn; lia).
  destruct (law_free (width := 1024) (pool_bitmap p) i Hinv Hi') as (b & E & Hinv' & Hs' & Hbits). cbn in E, Hs'. krun E.
  eexists. split; [done|]. split; [split; cbn; [done|split; [done|congruence]|apply Hp|done]|]. split; [done|].
  intros j Hj. apply Hbits. lia.
Qed.

Lemma pool_new_run base pool_size e : 3 <= e <= 20 -> 0 < pool_size / 2 ^ e <= 1024 -> 0 < base -> base mod 2 ^ e = 0 ->
  base + pool_size / 2 ^ e * 2 ^ e <= 2 ^ 31 ->
  exists p, memory_pool_new base pool_size (2 ^ e) = Ret p /\ pool_ok p /\ pool_base p = base /\
    block_count p = pool_size / 2 ^ e /\ block_size p = 2 ^ e /\ forall j, 0 <= j < block_count p -> live_in p j = false.
Proof.
  intros He Hc Hb Hm Hle. unfold memory_pool_new. pose proof (pow2_pos e ltac:(lia)).
  destruct (bitmap1024_new_run _ Hc) as (b & E & Hinv & Hs & Hbits). krun E.
  rewrite (proj2 (Z.eqb_neq base 0)) by lia. kassert_tac. rewrite (proj2 (Z.eqb_neq (2 ^ e) 0)) by lia. kassert_tac.
  assert (He' : 0 <= e < 32) by lia. krun (is_aligned_run e). rewrite Hm. kassert_tac.
  assert (H2 : is_2n (2 ^ e) = true).
  { unfold is_2n. assert (2 ^ e < 2 ^ 32) by (apply Z.pow_lt_mono_r; lia).
    rewrite u32_small by lia. replace (2 ^ e - 1) with (Z.ones e) by (rewrite Z.ones_equiv; lia).
    rewrite Z.land_ones, Z_mod_same_full by lia. done. }
  rewrite H2. kassert_tac. eexists. split; [done|]. split; [|split; [done|split; [done|split; [done|]]]].
  - split; cbn; [done|done|by exists e|done].
  - cbn. intros j Hj. unfold live_in. cbn. rewrite Hbits by lia. apply Z.leb_gt. lia.
Qed.

(** ** The layout *)

Definition arg_ok (arg : Z * Z * Z) : Prop :=
  let '(base, pool_size, bsize) := arg in
  exists e, 3 <= e <= 13 /\ bsize = 2 ^ e /\ 0 < pool_size / 2 ^ e <= 1024 /\ 0 < base /\ base mod 2 ^ e = 0 /\
    base + pool_size / 2 ^ e * 2 ^ e <= 2 ^ 31.

Lemma layout_ok : Forall arg_ok pool_arguments.
Proof.
  unfold pool_arguments. repeat constructor;
    [exists 3|exists 4|exists 5|exists 6|exists 7|exists 8|exists 9|exists 10|exists 12|exists 13];
    vm_compute; repeat split; discriminate.
Qed.

(** The pools do not overlap. *)
Definition pools_apart (arg arg' : Z * Z * Z) : bool :=
  let '(b, s, n) := arg in let '(b', s', n') := arg' in
  (b + s / n * n <=? b') || (b' + s' / n' * n' <=? b).

Lemma layout_apart k k' arg arg' : pool_arguments !! k = Some arg -> pool_arguments !! k' = Some arg' -> k <> k' ->
  pools_apart arg arg' = true.
Proof.
  intros E E' Hne.
  assert (Hall : forallb (fun k => forallb (fun k' => bool_decide (k = k') ||
     match pool_arguments !! k, pool_arguments !! k' with Some a, Some a' => pools_apart a a' | _, _ => true end)
     (seq 0 10)) (seq 0 10) = true) by (vm_compute; reflexivity).
  rewrite forallb_forall in Hall. specialize (Hall k). rewrite forallb_forall in Hall.
  assert (Hk : (k < 10)%nat) by (by apply lookup_lt_Some in E).
  assert (Hk' : (k' < 10)%nat) by (by apply lookup_lt_Some in E').
  specialize (Hall ltac:(apply in_seq; lia) k' ltac:(apply in_seq; lia)). rewrite E, E', bool_decide_false in Hall by done.
  exact Hall.
Qed.

(** Every block is found in its own pool. *)
Definition finds (k : nat) (a : Z) : bool :=
  match find_pool a with Ret (Some k') => Nat.eqb k k' | _ => false end.

Lemma find_pool_run k base pool_size bsize i : pool_arguments !! k = Some (base, pool_size, bsize) ->
  0 <= i < pool_size / bsize -> find_pool (base + i * bsize) = Ret (Some k).
Proof.
  intros E Hi.
  assert (Hall : forallb (fun k => match pool_arguments !! k with
     | Some (b, s, n) => forallb (fun i => finds k (b + i * n)) (seqZ 0 (s / n)) | None => true end) (seq 0 10) = true)
    by (vm_compute; reflexivity).
  rewrite forallb_forall in Hall. assert (Hk : (k < 10)%nat) by (by apply lookup_lt_Some in E).
  specialize (Hall k ltac:(apply in_seq; lia)). rewrite E in Hall. rewrite forallb_forall in Hall.
  specialize (Hall i). unfold finds in Hall. destruct (find_pool (base + i * bsize)) as [[k'|]|t].
  - f_equal. f_equal. symmetry. apply Nat.eqb_eq, Hall. apply list_elem_of_In, elem_of_seqZ. lia.
  - discriminate Hall. apply list_elem_of_In, elem_of_seqZ. lia.
  - discriminate Hall. apply list_elem_of_In, elem_of_seqZ. lia.
Qed.

(** The first pool for a size of 2^e: its blocks and those of the later pools
    are multiples of 2^e, those of the earlier ones are smaller. *)
Definition first_pool_ok (e : Z) : bool :=
  match first_pool (2 ^ e) with
  | Some k => forallb (fun '(_, _, n) => n mod 2 ^ e =? 0) (drop k pool_arguments) &&
              forallb (fun '(_, _, n) => 2 * n <=? 2 ^ e) (take k pool_arguments)
  | None => 13 <? e
  end.

Lemma first_pool_table e : 0 <= e <= 31 -> first_pool_ok e = true.
Proof.
  intros He. assert (Hall : forallb first_pool_ok (seqZ 0 32) = true) by (vm_compute; reflexivity).
  rewrite forallb_forall in Hall. apply Hall, list_elem_of_In, elem_of_seqZ. lia.
Qed.

(** ** The heap *)

Definition pool_matches (arg : Z * Z * Z) (p : memory_pool_c) : Prop :=
  pool_ok p /\ arg.1.1 = pool_base p /\ arg.1.2 / arg.2 = block_count p /\ arg.2 = block_size p.

Record heap_ok (h : kernel_heap_c) (live : gmap Z Z) : Prop := {
  ho_pools : Forall2 pool_matches pool_arguments (heap_pools h);
  ho_live : forall a n, live !! a = Some n <->
    exists k p i, heap_pools h !! k = Some p /\ 0 <= i < block_count p /\ live_in p i = true /\
      a = block_address p i /\ n = block_size p }.

Section Heap.
Context (h : kernel_heap_c) (live : gmap Z Z) (Hh : heap_ok h live).

Lemma heap_pool k p : heap_pools h !! k = Some p -> exists arg, pool_arguments !! k = Some arg /\ pool_matches arg p.
Proof.
  intros E. destruct (Forall2_lookup_r _ _ _ _ _ (ho_pools h live Hh) E) as (arg & Ea & Hm). by exists arg.
Qed.

(** A block lies inside its pool, and blocks of different numbers are apart. *)
Lemma block_bounds p i : pool_ok p -> 0 <= i < block_count p ->
  pool_base p <= block_address p i /\ block_address p i + block_size p <= pool_base p + block_count p * block_size p.
Proof.
  intros Hp Hi. pose proof (block_size_pos p Hp). unfold block_address.
  assert (0 <= i * block_size p) by (apply Z.mul_nonneg_nonneg; lia).
  assert ((i + 1) * block_size p <= block_count p * block_size p) by (apply Z.mul_le_mono_nonneg_r; lia). lia.
Qed.

Lemma same_pool_apart p i j : pool_ok p -> i <> j ->
  block_address p i + block_size p <= block_address p j \/ block_address p j + block_size p <= block_address p i.
Proof.
  intros Hp Hne. pose proof (block_size_pos p Hp). unfold block_address.
  destruct (Z.lt_ge_cases i j); [left|right].
  - assert ((i + 1) * block_size p <= j * block_size p) by (apply Z.mul_le_mono_nonneg_r; lia). lia.
  - assert ((j + 1) * block_size p <= i * block_size p) by (apply Z.mul_le_mono_nonneg_r; lia). lia.
Qed.

(** Two blocks of the heap are the same or apart. *)
Lemma blocks_apart k p i k' p' j : heap_pools h !! k = Some p -> heap_pools h !! k' = Some p' ->
  0 <= i < block_count p -> 0 <= j < block_count p' ->
  (k = k' /\ i = j) \/
  block_address p i + block_size p <= block_address p' j \/ block_address p' j + block_size p' <= block_address p i.
Proof.
  intros E E' Hi Hj. destruct (heap_pool k p E) as (arg & Ea & Hp & A1 & A2 & A3).
  destruct (heap_pool k' p' E') as (arg' & Ea' & Hp' & B1 & B2 & B3).
  destruct (decide (k = k')) as [<-|Hne].
  - rewrite E in E'. injection E' as <-. destruct (Z.eq_dec i j) as [->|Hij]; [by left|]. right. by apply same_pool_apart.
  - right. pose proof (layout_apart k k' arg arg' Ea Ea' Hne) as Hap. destruct arg as [[b s] n], arg' as [[b' s'] n'].
    cbn in *. subst b b' n n'. rewrite A2, B2 in Hap. apply orb_true_iff in Hap as [Hap|Hap]; apply Z.leb_le in Hap;
      destruct (block_bounds p i Hp Hi), (block_bounds p' j Hp' Hj); lia.
Qed.

Lemma block_inj k p i k' p' j : heap_pools h !! k = Some p -> heap_pools h !! k' = Some p' ->
  0 <= i < block_count p -> 0 <= j < block_count p' -> block_address p i = block_address p' j -> k = k' /\ i = j.
Proof.
  intros E E' Hi Hj Ea. destruct (blocks_apart k p i k' p' j E E' Hi Hj) as [?|Hap]; [done|].
  destruct (heap_pool k p E) as (? & _ & Hp & _). destruct (heap_pool k' p' E') as (? & _ & Hp' & _).
  pose proof (block_size_pos p Hp). pose proof (block_size_pos p' Hp'). lia.
Qed.

(** Replacing a pool whose bit [i] changed. *)
Lemma heap_update k p p' i (live' : gmap Z Z) : heap_pools h !! k = Some p -> 0 <= i < block_count p ->
  pool_ok p' -> with_bitmap p (pool_bitmap p') = p' ->
  (forall j, 0 <= j < block_count p -> j <> i -> live_in p' j = live_in p j) ->
  (forall a, a <> block_address p i -> live' !! a = live !! a) ->
  live' !! block_address p i = (if live_in p' i then Some (block_size p) else None) ->
  heap_ok (mkHeap (<[k := p']> (heap_pools h))) live'.
Proof.
  intros E Hi Hp' Hw Hbits Hout Hin.
  assert (Hcount : block_count p' = block_count p) by (by rewrite <- Hw).
  assert (Hsize : block_size p' = block_size p) by (by rewrite <- Hw).
  assert (Hbase : pool_base p' = pool_base p) by (by rewrite <- Hw).
  assert (Haddr : forall j, block_address p' j = block_address p j) by (intros j; unfold block_address; by rewrite Hsize, Hbase).
  assert (Hlook : forall k' q, <[k := p']> (heap_pools h) !! k' = Some q <-> (k' = k /\ q = p') \/ (k' <> k /\ heap_pools h !! k' = Some q)).
  { intros k' q. rewrite list_lookup_insert_Some. apply lookup_lt_Some in E. split.
    - intros [(-> & -> & _)|(? & ?)]; [by left|by right].
    - intros [(-> & ->)|(? & ?)]; [by left|by right]. }
  split; cbn.
  - destruct (heap_pool k p E) as (arg & Ea & Hp & A1 & A2 & A3). rewrite <- (list_insert_id pool_arguments k arg Ea).
    apply Forall2_insert; [apply Hh|]. split; [done|]. by rewrite Hbase, Hcount, Hsize.
  - intros a n. destruct (Z.eq_dec a (block_address p i)) as [->|Hne].
    + rewrite Hin. split.
      * destruct (live_in p' i) eqn:El; [|done]. intros [= <-]. exists k, p', i. rewrite Hlook, Hcount, Haddr. auto.
      * intros (k' & q & j & Eq & Hj & Hl & Ea & ->). apply Hlook in Eq as [[-> ->]|[Hk Eq]].
        -- rewrite Haddr in Ea. rewrite Hcount in Hj. destruct (block_inj k p i k p j E E Hi Hj Ea) as [_ <-].
           by rewrite Hl, Hsize.
        -- destruct (block_inj k p i k' q j E Eq Hi Hj Ea) as [<- _]. done.
    + rewrite Hout by done. rewrite (ho_live h live Hh). split.
      * intros (k' & q & j & Eq & Hj & Hl & -> & ->). destruct (decide (k' = k)) as [->|Hk].
        -- rewrite E in Eq. injection Eq as <-. exists k, p', j. rewrite Hlook, Hcount, Haddr, Hsize.
           rewrite Hbits by (done || by intros ->). auto.
        -- exists k', q, j. rewrite Hlook. auto.
      * intros (k' & q & j & Eq & Hj & Hl & -> & ->). apply Hlook in Eq as [[-> ->]|[Hk Eq]]; [|by exists k', q, j].
        rewrite Haddr in *. rewrite Hcount in Hj. rewrite Hbits in Hl by (done || by intros ->).
        exists k, p, j. by rewrite Hsize.
Qed.
End Heap.

(** ** Allocation *)

(** A block of pool [p] was handed out. *)
Definition allocated (p p' : memory_pool_c) (i : Z) : Prop :=
  pool_ok p' /\ with_bitmap p (pool_bitmap p') = p' /\ 0 <= i < block_count p /\ live_in p i = false /\
  block_address p i <> NULL /\ forall j, 0 <= j < block_count p -> live_in p' j = live_in p j || (j =? i).

Definition exhausted (p : memory_pool_c) : Prop := forall j, 0 <= j < block_count p -> live_in p j = true.

Lemma try_pools_run l : Forall pool_ok l ->
  (exists k p p' i, l !! k = Some p /\ try_pools l = Ret (block_address p i, <[k := p']> l) /\ allocated p p' i) \/
  (try_pools l = Ret (NULL, l) /\ Forall exhausted l).
Proof.
  induction 1 as [|p l Hp Hl IH]; cbn [try_pools]; [right; by split|].
  destruct (pool_allocate_run p Hp) as [(i & p' & E & Hp' & Hw & Hi & Hf & Hn & Hb)|[E Hfull]]; krun E.
  - left. rewrite (proj2 (Z.eqb_neq _ NULL)) by done. exists 0%nat, p, p', i. split; [done|]. split; [done|].
    exact (conj Hp' (conj Hw (conj Hi (conj Hf (conj Hn Hb))))).
  - rewrite Z.eqb_refl. cbn [negb]. destruct IH as [(k & q & q' & i & Eq & Et & Ha)|[Et Hex]]; krun Et.
    + left. exists (S k), q, q', i. by split.
    + right. split; [done|]. by constructor.
Qed.

Lemma take_insert_drop {A} k i (l : list A) x : (k <= length l)%nat -> take k l ++ <[i := x]> (drop k l) = <[(k + i)%nat := x]> l.
Proof.
  intros Hk. rewrite <- (take_drop k l) at 3. rewrite insert_app_r_alt by (rewrite length_take; lia).
  rewrite length_take_le by done. by replace (k + i - k)%nat with i by lia.
Qed.

(** The smallest block size that a request needs. *)
Definition needed (size flags : Z) : Z := Z.max size (read_alignment_flags flags).

Definition pool_suits (size flags n : Z) : Prop :=
  0 < size -> n mod 2 ^ Z.log2_up (needed size flags) = 0 /\ needed size flags <= n.

Lemma alignment_flags_bound flags : 0 <= flags -> 0 <= read_alignment_flags flags < 2 ^ 24.
Proof.
  intros Hf. unfold read_alignment_flags. change 0x00FFFFFF with (Z.ones 24). rewrite Z.land_ones by lia.
  apply Z.mod_pos_bound. lia.
Qed.

(** The pools that the label selects are the ones that suit. *)
Lemma label_suits size flags : 0 <= size <= 2 ^ 31 -> 0 <= flags ->
  match first_pool (if 0 <? size then round_up_2n (needed size flags) else 0) with
  | Some k => (k <= 10)%nat /\ forall k' b s n, pool_arguments !! k' = Some (b, s, n) ->
      if (k <=? k')%nat then pool_suits size flags n else 0 < size /\ n < needed size flags
  | None => 8192 < needed size flags
  end.
Proof.
  intros Hs Hf. pose proof (alignment_flags_bound flags Hf) as Ha. destruct (Z.ltb_spec 0 size) as [Hpos|Hz]; last first.
  { cbn. split; [lia|]. intros k' b s n _ Hpos. lia. }
  set (v := needed size flags) in *. assert (Hv : 1 <= v <= 2 ^ 31) by (unfold v, needed; lia). rewrite round_up_2n_spec by done.
  set (e := Z.log2_up v). assert (He : 0 <= e <= 31).
  { split; [apply Z.log2_up_nonneg|]. apply Z.log2_up_le_pow2; lia. }
  assert (Hve : v <= 2 ^ e) by (apply Z.log2_up_le_pow2; lia). pose proof (pow2_pos e ltac:(lia)).
  assert (Hlow : 2 ^ e < 2 * v).
  { destruct (Z.eq_dec v 1) as [Ev|Hne]; [unfold e; rewrite Ev; cbn; lia|].
    pose proof (Z.log2_up_spec v ltac:(lia)) as [Hl _]. fold e in Hl.
    assert (2 ^ e = 2 * 2 ^ Z.pred e); [|lia]. rewrite <- Z.pow_succ_r; [f_equal; lia|].
    assert (0 < e); [|lia]. apply Z.log2_up_pos. lia. }
  pose proof (first_pool_table e He) as Ht. unfold first_pool_ok in Ht. destruct (first_pool (2 ^ e)) as [k|] eqn:Ek.
  - apply andb_true_iff in Ht as [Hd Ht]. rewrite !forallb_forall in *. split.
    { unfold first_pool in Ek. clear -Ek. repeat case_match; try discriminate Ek; injection Ek as <-; lia. }
    intros k' b s n E. destruct (Nat.leb_spec k k') as [Hle|Hlt].
    + intros _. assert (Hmod : n mod 2 ^ e = 0).
      { apply Z.eqb_eq. apply (Hd (b, s, n)). apply list_elem_of_In. apply list_elem_of_lookup. exists (k' - k)%nat.
        rewrite lookup_drop. by replace (k + (k' - k))%nat with k' by lia. }
      split; [done|]. assert (Hn : 0 < n).
      { pose proof layout_ok as Hok. rewrite Forall_lookup in Hok. destruct (Hok k' _ E) as (e' & He' & -> & _). apply pow2_pos. lia. }
      apply Z.mod_divide in Hmod as [c ->]; [|lia]. assert (1 <= c) by nia. nia.
    + split; [done|]. assert (Hsm : 2 * n <= 2 ^ e); [|lia]. apply Z.leb_le. apply (Ht (b, s, n)). apply list_elem_of_In.
      apply list_elem_of_lookup. exists k'. by rewrite lookup_take_lt.
  - apply Z.ltb_lt in Ht. assert (2 ^ 13 < 2 ^ e) by (apply Z.pow_lt_mono_r; lia). change 8192 with (2 ^ 13).
    destruct (Z.le_gt_cases v (2 ^ 13)) as [Hle|]; [|done]. exfalso.
    assert (e <= 13); [|lia]. apply Z.log2_up_le_pow2; lia.
Qed.

Lemma heap_pools_ok h live : heap_ok h live -> Forall pool_ok (heap_pools h).
Proof.
  intros Hh. apply Forall_lookup. intros k p E. by destruct (heap_pool h live Hh k p E) as (arg & _ & Hp & _).
Qed.

Lemma heap_search_run h live size flags : heap_ok h live -> 0 <= size <= 2 ^ 31 -> 0 <= flags ->
  (exists k p p' i, heap_pools h !! k = Some p /\
     heap_search size flags h = Ret (block_address p i, mkHeap (<[k := p']> (heap_pools h))) /\
     allocated p p' i /\ pool_suits size flags (block_size p)) \/
  (heap_search size flags h = Ret (NULL, h) /\
     forall k p, heap_pools h !! k = Some p -> needed size flags <= block_size p -> exhausted p).
Proof.
  intros Hh Hs Hf. pose proof (label_suits size flags Hs Hf) as Hl. unfold heap_search. fold (needed size flags).
  pose proof (Forall2_length _ _ _ (ho_pools h live Hh)) as Hlen. cbn in Hlen.
  assert (Harg : forall k p, heap_pools h !! k = Some p -> exists b s, pool_arguments !! k = Some (b, s, block_size p)).
  { intros k p E. destruct (heap_pool h live Hh k p E) as ([[b s] n] & Ea & _ & _ & _ & En). cbn in En. subst n. by exists b, s. }
  destruct (first_pool _) as [k0|].
  - destruct Hl as [Hk0 Hl].
    destruct (try_pools_run (drop k0 (heap_pools h))) as [(k & p & p' & i & E & Et & Ha)|[Et Hex]];
      [by apply Forall_drop, (heap_pools_ok h live)|..]; krun Et.
    + left. rewrite lookup_drop in E. exists (k0 + k)%nat, p, p', i. split; [done|].
      rewrite take_insert_drop by lia. split; [done|]. split; [done|]. destruct (Harg _ _ E) as (b & s & Ea).
      specialize (Hl _ _ _ _ Ea). by rewrite (proj2 (Nat.leb_le _ _)) in Hl by lia.
    + right. rewrite take_drop. split; [by destruct h|]. intros k p E Hn. destruct (Harg _ _ E) as (b & s & Ea).
      specialize (Hl _ _ _ _ Ea). destruct (Nat.leb_spec k0 k) as [Hle|Hlt]; [|lia].
      rewrite Forall_lookup in Hex. apply (Hex (k - k0)%nat). rewrite lookup_drop. by replace (k0 + (k - k0))%nat with k by lia.
  - right. split; [done|]. intros k p E Hn. exfalso.
    assert (Forall (fun x => x.2 <= 8192) pool_arguments) as Hmax by (repeat constructor; done). destruct (Harg k p E) as (b & s & Ea).
    rewrite Forall_lookup in Hmax. specialize (Hmax k _ Ea). cbn in Hmax. lia.
Qed.

(** The memory that the pools occupy. *)
Definition heap_mapped (m : mem) : Prop :=
  mapped m KERNEL_POOL8192_BASE (KERNEL_DATA_PAGE0_END - KERNEL_POOL8192_BASE).

Lemma block_in_heap h live k p i : heap_ok h live -> heap_pools h !! k = Some p -> 0 <= i < block_count p ->
  KERNEL_POOL8192_BASE <= block_address p i /\ block_address p i + block_size p <= KERNEL_DATA_PAGE0_END.
Proof.
  intros Hh E Hi. destruct (heap_pool h live Hh k p E) as (arg & Ea & Hp & A1 & A2 & A3).
  assert (Hall : forallb (fun '(b, s, n) => (KERNEL_POOL8192_BASE <=? b) && (b + s / n * n <=? KERNEL_DATA_PAGE0_END)) pool_arguments = true)
    by (vm_compute; reflexivity).
  rewrite forallb_forall in Hall. specialize (Hall arg). destruct arg as [[b s] n]. cbn [fst snd] in *. subst b n.
  rewrite A2 in Hall. destruct (block_bounds p i Hp Hi).
  assert (Hin : In (pool_base p, s, block_size p) pool_arguments) by (apply list_elem_of_In; by eapply list_elem_of_lookup_2).
  apply Hall, andb_true_iff in Hin as [H1 H2]. apply Z.leb_le in H1, H2. lia.
Qed.

(** C14. [kernel_heap_c::allocate_block], behind [operator new], for requests up
    to 2 GB: either it returns a block that is not live, apart from every live
    block, at least as large as the request, aligned to the power of two
    that the size and the alignment flags ask for, and cleared when
    [MEMORY_ZERO] is given; or it returns null, changes nothing, and every
    block of a suitable size is live. *)
Theorem heap_allocates_fresh_block h live size flags m : heap_ok h live -> 0 <= size <= 2 ^ 31 -> 0 <= flags ->
  heap_mapped m ->
  (exists block n h', kernel_heap_allocate_block size flags h m
     = Ret ((block, h'), if has_flag flags MEMORY_ZERO then write_bytes m block (replicate (Z.to_nat size) 0) else m) /\
     block <> NULL /\ live !! block = None /\ heap_ok h' (<[block := n]> live) /\
     size <= n /\ (0 < size -> block mod 2 ^ Z.log2_up (needed size flags) = 0) /\
     forall a k, live !! a = Some k -> block + n <= a \/ a + k <= block) \/
  (kernel_heap_allocate_block size flags h m = Ret ((NULL, h), m) /\
     forall b s n i, (b, s, n) ∈ pool_arguments -> needed size flags <= n -> 0 <= i < s / n -> live !! (b + i * n) = Some n).
Proof.
  intros Hh Hs Hf Hm. unfold kernel_heap_allocate_block.
  destruct (heap_search_run h live size flags Hh Hs Hf) as [(k & p & p' & i & E & Es & Ha & Hsuit)|[Es Hex]];
    erewrite run_bind by (unfold lift_res; rewrite Es; reflexivity); cbn beta iota.
  - left. destruct Ha as (Hp' & Hw & Hi & Hfree & Hnn & Hbits). destruct (heap_pool h live Hh k p E) as (arg & _ & Hp & _).
    pose proof (block_size_pos p Hp) as Hpos. assert (Hsz : size <= block_size p).
    { destruct (Z.eq_dec size 0); [lia|]. destruct (Hsuit ltac:(lia)) as [_ Hn]. unfold needed in Hn. lia. }
    exists (block_address p i), (block_size p), (mkHeap (<[k := p']> (heap_pools h))). split.
    + rewrite (proj2 (Z.eqb_neq _ NULL)) by done. destruct (has_flag flags MEMORY_ZERO); cbn [negb andb]; [|done].
      destruct (block_in_heap h live k p i Hh E Hi). erewrite run_bind; [reflexivity|].
      apply (memset_run m (block_address p i) 0 size); [lia|]. eapply mapped_sub; [exact Hm|lia|lia].
    + split; [done|]. assert (Hnone : live !! block_address p i = None).
      { destruct (live !! block_address p i) as [n|] eqn:El; [|done]. exfalso.
        apply (ho_live h live Hh) in El as (k' & q & j & Eq & Hj & Hl & Ea & _).
        destruct (block_inj h live Hh k p i k' q j E Eq Hi Hj Ea) as [<- <-]. congruence. }
      split; [done|]. split; [|split; [done|split]].
      * apply (heap_update h live Hh k p p' i); try done.
        -- intros j Hj Hne. rewrite Hbits by done. by rewrite (proj2 (Z.eqb_neq j i)), orb_false_r by done.
        -- intros a Hne. by rewrite lookup_insert_ne.
        -- rewrite lookup_insert_eq, Hbits, Z.eqb_refl, orb_true_r by done. done.
      * intros Hs0. destruct (Hsuit Hs0) as [Hdiv _]. destruct (po_base p Hp) as (_ & Hb & _). unfold block_address.
        pose proof (pow2_pos (Z.log2_up (needed size flags)) (Z.log2_up_nonneg _)).
        apply Z.mod_divide in Hdiv, Hb; try lia. apply Z.mod_divide; [lia|]. apply Z.divide_add_r.
        -- by transitivity (block_size p).
        -- by apply Z.divide_mul_r.
      * intros a n El. apply (ho_live h live Hh) in El as (k' & q & j & Eq & Hj & Hl & -> & ->).
        destruct (blocks_apart h live Hh k p i k' q j E Eq Hi Hj) as [[<- <-]|Hap]; [congruence|done].
  - right. cbn [negb NULL Z.eqb]. rewrite andb_false_r. split; [done|]. intros b s n i Hin Hn Hi.
    apply list_elem_of_lookup in Hin as (k & Ea).
    destruct (Forall2_lookup_l _ _ _ _ _ (ho_pools h live Hh) Ea) as (p & E & Hp & A1 & A2 & A3). cbn in A1, A2, A3. subst b n.
    apply (ho_live h live Hh). exists k, p, i. rewrite A2 in Hi. split; [done|]. split; [done|]. split; [|done].
    by apply (Hex k p E Hn).
Qed.

(** [kernel_heap_c::free_block], behind [operator delete]: a live block is
    found in the pool it came from, whatever its alignment, and exactly this
    block stops being live. *)
Theorem heap_frees_live_block h live block n : heap_ok h live -> live !! block = Some n ->
  exists h', kernel_heap_free_block block h = Ret h' /\ heap_ok h' (delete block live).
Proof.
  intros Hh El. pose proof El as El'. apply (ho_live h live Hh) in El as (k & p & i & E & Hi & Hl & -> & ->).
  destruct (heap_pool h live Hh k p E) as ([[b s] n] & Ea & Hp & A1 & A2 & A3). cbn in A1, A2, A3. subst b n.
  pose proof (block_size_pos p Hp). destruct (po_base p Hp) as (Hb & _). destruct (block_bounds p i Hp Hi).
  unfold kernel_heap_free_block. rewrite (proj2 (Z.eqb_neq _ NULL)) by (unfold NULL; lia). kassert_tac.
  rewrite <- A2 in Hi. assert (Hfind : find_pool (block_address p i) = Ret (Some k)) by (by eapply find_pool_run).
  krun Hfind. rewrite <- (Nat2Z.id k) in E. krun array_get_run. rewrite Nat2Z.id in E. rewrite A2 in Hi.
  destruct (heap_pool_free_run p i Hp Hi) as (p' & Ef & Hp' & Hw & Hbits). krun Ef. eexists. split; [done|].
  apply (heap_update h live Hh k p p' i); try done.
  - intros j Hj Hne. rewrite Hbits by done. by rewrite (proj2 (Z.eqb_neq j i)), andb_true_r by done.
  - intros a Hne. by rewrite lookup_delete_ne.
  - rewrite lookup_delete_eq, Hbits, Z.eqb_refl, andb_false_r by done. done.
Qed.

(** ** The constructor *)

Lemma pools_new_run l : Forall arg_ok l -> exists ps, pools_new l = Ret ps /\
  Forall2 (fun arg p => pool_matches arg p /\ forall j, 0 <= j < block_count p -> live_in p j = false) l ps.
Proof.
  induction 1 as [|[[b s] n] l (e & He & -> & Hc & Hb & Hm & Hle) _ IH]; cbn [pools_new]; [by exists []|].
  destruct (pool_new_run b s e ltac:(lia) Hc Hb Hm Hle) as (p & E & Hp & E1 & E2 & E3 & Hl). krun E.
  destruct IH as (ps & Eps & Hps). krun Eps. exists (p :: ps). split; [done|]. constructor; [|done]. split; [|done].
  split; [done|]. by cbn.
Qed.

Lemma kernel_heap_new_ok : exists h, kernel_heap_new = Ret h /\ heap_ok h ∅.
Proof.
  unfold kernel_heap_new. destruct (pools_new_run pool_arguments layout_ok) as (ps & E & Hps). krun E.
  eexists. split; [done|]. split; cbn.
  - eapply Forall2_impl; [exact Hps|]. by intros arg p [? _].
  - intros a n. rewrite lookup_empty. split; [done|]. intros (k & p & i & Ek & Hi & Hl & _).
    destruct (Forall2_lookup_r _ _ _ _ _ Hps Ek) as (arg & _ & _ & Hf). rewrite Hf in Hl; done.
Qed.

(** Memory for the whole heap. *)
Definition heap_memory : mem :=
  write_bytes ∅ KERNEL_POOL8192_BASE (replicate (Z.to_nat (KERNEL_DATA_PAGE0_END - KERNEL_POOL8192_BASE)) 255).

Lemma heap_memory_mapped : heap_mapped heap_memory.
Proof.
  unfold heap_mapped, heap_memory. set (n := KERNEL_DATA_PAGE0_END - KERNEL_POOL8192_BASE).
  assert (Hn : 0 <= n) by (by vm_compute).
  pose proof (bytes_at_mapped _ _ _ (bytes_at_write ∅ KERNEL_POOL8192_BASE (replicate (Z.to_nat n) 255))) as H.
  rewrite length_replicate, Z2Nat.id in H by done. exact H.
Qed.

Lemma heap_allocates_fresh_block_witness : exists h m, kernel_heap_new = Ret h /\ heap_mapped m /\
  ((exists block n h', kernel_heap_allocate_block 100 MEMORY_ZERO h m
      = Ret ((block, h'), write_bytes m block (replicate 100 0)) /\ heap_ok h' (<[block := n]> ∅) /\ 100 <= n) \/
   (kernel_heap_allocate_block 100 MEMORY_ZERO h m = Ret ((NULL, h), m))).
Proof.
  destruct kernel_heap_new_ok as (h & E & Hh).
  assert (Hex : exists m, heap_mapped m) by (exists heap_memory; exact heap_memory_mapped). destruct Hex as [m Hm].
  exists h, m. split; [exact E|]. split; [exact Hm|].
  assert (Hs : 0 <= 100 <= 2 ^ 31) by lia. assert (Hf : 0 <= MEMORY_ZERO) by (unfold MEMORY_ZERO; lia).
  destruct (heap_allocates_fresh_block h ∅ 100 MEMORY_ZERO m Hh Hs Hf Hm)
    as [(block & n & h' & Ea & _ & _ & Hok & Hn & _)|[Ea _]]; [left|right; exact Ea].
  exists block, n, h'. split; [exact Ea|]. split; [exact Hok|exact Hn].
Defined.

Lemma heap_frees_live_block_witness : exists h block h1 h2, kernel_heap_new = Ret h /\
  heap_search 24 MEMORY_ALIGN4 h = Ret (block, h1) /\ block <> NULL /\ kernel_heap_free_block block h1 = Ret h2 /\ heap_ok h2 ∅.
Proof.
  destruct kernel_heap_new_ok as (h & E & Hh).
  assert (Hs : 0 <= 24 <= 2 ^ 31) by lia. assert (Hf : 0 <= MEMORY_ALIGN4) by (unfold MEMORY_ALIGN4; lia).
  destruct (heap_search_run h ∅ 24 MEMORY_ALIGN4 Hh Hs Hf) as [(k & p & p' & i & Ek & Es & Ha & _)|[Es _]].
  - destruct Ha as (Hp' & Hw & Hi & Hfree & Hnn & Hbits). set (block := block_address p i) in *.
    assert (Hok : heap_ok (mkHeap (<[k := p']> (heap_pools h))) {[block := block_size p]}).
    { apply (heap_update h ∅ Hh k p p' i _ Ek Hi Hp' Hw).
      - intros j Hj Hne. rewrite Hbits by done. by rewrite (proj2 (Z.eqb_neq j i)), orb_false_r by done.
      - intros a Hne. rewrite lookup_singleton_ne by exact (not_eq_sym Hne). symmetry. apply lookup_empty.
      - fold block. rewrite lookup_singleton_eq, Hbits, Z.eqb_refl, orb_true_r by exact Hi. reflexivity. }
    destruct (heap_frees_live_block _ _ block (block_size p) Hok) as (h2 & E2 & Hh2).
    { apply lookup_singleton_eq. }
    exists h, block, (mkHeap (<[k := p']> (heap_pools h))), h2. rewrite delete_singleton_eq in Hh2.
    split; [exact E|]. split; [exact Es|]. split; [exact Hnn|]. split; [exact E2|exact Hh2].
  - exfalso. assert (Hc : (h ← kernel_heap_new; '(b, _) ← heap_search 24 MEMORY_ALIGN4 h; mret (b =? NULL)) = Ret false)
      by (vm_compute; reflexivity).
    rewrite (res_bind_ret _ _ h E) in Hc. rewrite (res_bind_ret _ _ _ Es) in Hc. discriminate Hc.
Defined.

(** A request for more than 2 GB is not refused: rounding its size up to
    a power of two wraps to 0, and the caller gets a block of 8 bytes. *)
Theorem heap_huge_request_succeeds size flags : 2 ^ 31 < size < 2 ^ 32 -> 0 <= flags < 2 ^ 32 ->
  (h ← kernel_heap_new; '(block, _) ← heap_search size flags h; mret block) = Ret KERNEL_POOL8_BASE.
Proof.
  intros Hs Hf. pose proof (alignment_flags_bound flags ltac:(lia)) as Ha.
  assert (E : (h ← kernel_heap_new; '(block, _) ← heap_search 0 0 h; mret block) = Ret KERNEL_POOL8_BASE)
    by (vm_compute; reflexivity).
  rewrite <- E. unfold heap_search. rewrite Z.max_l, round_up_2n_wraps, (proj2 (Z.ltb_lt 0 size)) by lia. done.
Qed.

Lemma heap_huge_request_succeeds_witness : 2 ^ 31 < 0xFFFFFFF0 < 2 ^ 32 /\
  (h ← kernel_heap_new; '(block, _) ← heap_search 0xFFFFFFF0 MEMORY_ALIGN4 h; mret block) = Ret KERNEL_POOL8_BASE.
Proof. split; [lia|]. apply (heap_huge_request_succeeds 0xFFFFFFF0 MEMORY_ALIGN4); unfold MEMORY_ALIGN4; lia. Defined.
