(* ===== verification/KContainers.v ===== *)
(** * Kernel containers: [dynamic_array.hpp], [list.hpp], [queue.hpp], [hash_table.hpp], [message_pool.hpp]

    The containers keep pointers to objects they do not own: an object is a
    value of a type [A], its address. Where the code allocates memory, the
    answer of the allocator is an argument: a flag that says whether it
    succeeds, or the address it returns. [kernel_panic] is a trap. *)

From S2P Require Import Prelude CMem CStringSearch World Libdx KBase.

(** ** dynamic_array.hpp *)

(** A slot: never written, null, or a pointer. *)
Inductive cell (A : Type) := Uninit | Null | Ptr (a : A).
Arguments Uninit {_}.
Arguments Null {_}.
Arguments Ptr {_} _.

Record dynamic_array_m (A : Type) := mkArray { object : list (cell A); slot_count : Z }.
Arguments mkArray {_} _ _.
Arguments object {_} _.
Arguments slot_count {_} _.

Section DynamicArray.
Context {A : Type}.
Implicit Types (t : dynamic_array_m A).

Definition array_new : dynamic_array_m A := mkArray [] 0.

(** [expand]: the sizes are in bytes, so that they wrap; [ok] tells whether the
    allocation succeeds. *)
Definition array_expand (ok : bool) t : res (dynamic_array_m A) :=
  let size := u32 (slot_count t * 4) / 4 in
  let new_slot_count := if negb (slot_count t =? 0) then u32 (slot_count t * 2) else 8 in
  if negb ok then Trap KernelPanic
  else
    let fresh := replicate (Z.to_nat new_slot_count) Uninit in
    let wiped := take (Z.to_nat size) fresh ++ replicate (Z.to_nat size) Null ++ drop (Z.to_nat (2 * size)) fresh in
    let copied := take (Z.to_nat size) (object t) ++ drop (Z.to_nat size) wiped in
    mret (mkArray copied new_slot_count).

(** The pointer in a slot; reading one that was never written is a trap. *)
Definition array_read t (index : Z) : res (option A) :=
  kassert (index <? slot_count t);;
  match object t !! Z.to_nat index with
  | Some (Ptr a) => mret (Some a)
  | Some Null => mret None
  | Some Uninit => Trap (BadLoad index)
  | None => Trap (BadIndex index)
  end.

Definition array_swap t (index0 index1 : Z) : res (dynamic_array_m A) :=
  kassert (index0 <? slot_count t);;
  kassert (index1 <? slot_count t);;
  x ← array_get (object t) index0;
  y ← array_get (object t) index1;
  mret (mkArray (<[Z.to_nat index1 := x]> (<[Z.to_nat index0 := y]> (object t))) (slot_count t)).

Definition array_write (ok : bool) t (index : Z) (new_object : A) : res (dynamic_array_m A) :=
  t ← (if slot_count t <=? index then
         t ← array_expand ok t;
         kassert (index <? slot_count t);;
         mret t
       else mret t);
  mret (mkArray (<[Z.to_nat index := Ptr new_object]> (object t)) (slot_count t)).
End DynamicArray.

(** ** list.hpp *)

Record list_m (A : Type) := mkList { list_array : dynamic_array_m A; list_count : Z }.
Arguments mkList {_} _ _.
Arguments list_array {_} _.
Arguments list_count {_} _.

(** [*p] for a pointer that may be null. *)
Definition deref {A} (p : option A) : res A :=
  match p with Some a => mret a | None => Trap (BadLoad 0) end.

Section List.
Context {A : Type} (eqb : A -> A -> bool).   (* DATATYPE::operator== *)
Implicit Types (l : list_m A).

Definition list_new : list_m A := mkList array_new 0.
Definition list_is_empty l : bool := list_count l =? 0.

(** The search loop: the index of an element that equals [x]. *)
Fixpoint list_find (n : nat) (i : Z) (x : A) l : res (option Z) :=
  match n with
  | O => mret None
  | S n' =>
      p ← array_read (list_array l) i;
      a ← deref p;
      if eqb a x then mret (Some i) else list_find n' (i + 1) x l
  end.

Definition list_contains (x : A) l : res bool :=
  r ← list_find (Z.to_nat (list_count l)) 0 x l;
  mret (if r is Some _ then true else false).

Definition list_reset l : list_m A := mkList (list_array l) 0.

(** [operator+=]. *)
Definition list_add (ok : bool) (x : A) l : res (list_m A) :=
  t ← array_write ok (list_array l) (list_count l) x;
  mret (mkList t (u32 (list_count l + 1))).

(** [operator-=]. *)
Definition list_remove (victim : A) l : res (list_m A) :=
  r ← list_find (Z.to_nat (list_count l)) 0 victim l;
  match r with
  | Some i =>
      t ← array_swap (list_array l) i (list_count l - 1);
      mret (mkList t (list_count l - 1))
  | None => mret l
  end.

(** [operator[]]. *)
Definition list_index l (index : Z) : res A :=
  if list_count l <=? index then Trap KernelPanic
  else p ← array_read (list_array l) index; deref p.
End List.

(** ** message_pool.hpp *)

(** A message is a number; [pool_index] is the field of the message objects. *)
Record message_pool_c := mkMessages {
  pool_count : Z; messages : dynamic_array_m Z; pool_index : gmap Z Z }.

Definition message_pool_new (indices : gmap Z Z) : message_pool_c := mkMessages 0 array_new indices.
Definition message_pool_is_empty (p : message_pool_c) : bool := pool_count p =? 0.

Definition read_pool_index (p : message_pool_c) (message : Z) : res Z :=
  match pool_index p !! message with Some i => mret i | None => Trap (BadLoad message) end.

Definition message_pool_add (ok : bool) (message : Z) (p : message_pool_c) : res message_pool_c :=
  t ← array_write ok (messages p) (pool_count p) message;
  mret (mkMessages (u32 (pool_count p + 1)) t (<[message := pool_count p]> (pool_index p))).

Definition message_pool_remove (victim : Z) (p : message_pool_c) : res message_pool_c :=
  victim_index ← read_pool_index p victim;
  kassert (victim_index <? pool_count p);;
  t ← array_swap (messages p) victim_index (pool_count p - 1);
  let p := mkMessages (pool_count p - 1) t (pool_index p) in
  if 0 <? pool_count p then
    q ← array_read (messages p) victim_index;
    message ← deref q;
    index ← read_pool_index p message;
    kassert (index =? pool_count p);;
    mret (mkMessages (pool_count p) (messages p) (<[message := victim_index]> (pool_index p)))
  else mret p.

(** [select_random]: [random] is the answer of [rand(count)]. *)
Definition message_pool_select (random : Z) (p : message_pool_c) : res Z :=
  kassert (negb (message_pool_is_empty p));;
  q ← array_read (messages p) random;
  match q with Some message => mret message | None => Trap AssertFailed end.

(** ** queue.hpp *)

Record queue_node (A : Type) := mkNode { next : Z; node_object : A }.
Arguments mkNode {_} _ _.
Arguments next {_} _.
Arguments node_object {_} _.

(** The nodes that are allocated are a map from their addresses. *)
Record queue_m (A : Type) := mkQueue { queue_nodes : gmap Z (queue_node A); queue_count : Z; head : Z; tail : Z }.
Arguments mkQueue {_} _ _ _ _.
Arguments queue_nodes {_} _.
Arguments queue_count {_} _.
Arguments head {_} _.
Arguments tail {_} _.

Section Queue.
Context {A : Type}.
Implicit Types (q : queue_m A).

Definition queue_new : queue_m A := mkQueue ∅ 0 NULL NULL.
Definition queue_is_empty q : bool := queue_count q =? 0.

Definition queue_node_at q (a : Z) : res (queue_node A) :=
  match queue_nodes q !! a with Some n => mret n | None => Trap (BadLoad a) end.

(** [push]: [node] is the address that [operator new] returns. *)
Definition queue_push (node : Z) (x : A) q : res (queue_m A) :=
  if negb (node =? NULL) then
    let nodes := <[node := mkNode NULL x]> (queue_nodes q) in
    if negb (tail q =? NULL) then
      last ← queue_node_at (mkQueue nodes (queue_count q) (head q) (tail q)) (tail q);
      mret (mkQueue (<[tail q := mkNode node (node_object last)]> nodes) (u32 (queue_count q + 1)) (head q) node)
    else mret (mkQueue nodes (u32 (queue_count q + 1)) node node)
  else mret q.

Definition queue_push_head (node : Z) (x : A) q : res (queue_m A) :=
  if negb (node =? NULL) then
    mret (mkQueue (<[node := mkNode (head q) x]> (queue_nodes q)) (u32 (queue_count q + 1)) node
      (if tail q =? NULL then node else tail q))
  else mret q.

Definition queue_pop q : res (A * queue_m A) :=
  if 0 <? queue_count q then
    first ← queue_node_at q (head q);
    let h := next first in
    mret (node_object first,
          mkQueue (delete (head q) (queue_nodes q)) (queue_count q - 1) h (if h =? NULL then NULL else tail q))
  else Trap KernelPanic.

Fixpoint queue_reset (fuel : nat) q : res (queue_m A) :=
  if negb (queue_count q =? 0) then
    match fuel with
    | O => Trap OutOfFuel
    | S f => '(_, q) ← queue_pop q; queue_reset f q
    end
  else mret q.
End Queue.

(** ** hash_table.hpp *)

(** A node with its copy of the key; [key_at] is the address of the copy. *)
Record hash_node (K A : Type) := mkHashNode { key_at : Z; node_key : K; node_data : A }.
Arguments mkHashNode {_ _} _ _ _.
Arguments key_at {_ _} _.
Arguments node_key {_ _} _.
Arguments node_data {_ _} _.

Record hash_table_m (K A : Type) := mkHash {
  element_count : Z; slot : list (list_m (hash_node K A)); hash_slot_count : Z; slot_count_shift : Z }.
Arguments mkHash {_ _} _ _ _ _.
Arguments element_count {_ _} _.
Arguments slot {_ _} _.
Arguments hash_slot_count {_ _} _.
Arguments slot_count_shift {_ _} _.

Section HashTable.
Context {K A : Type} `{EqDecision K} (hash_code : K -> Z).   (* the coercion to uint32_t *)
Implicit Types (t : hash_table_m K A).

(** [hash_node_s::operator==] compares the addresses of the keys. *)
Definition node_eqb (n n' : hash_node K A) : bool := key_at n =? key_at n'.

Definition hash_new (ok : bool) (initial_slot_count : Z) : res (hash_table_m K A) :=
  let n := round_up_2n initial_slot_count in
  if ok then mret (mkHash 0 (replicate (Z.to_nat n) list_new) n (u32 (32 - find_one_bit32 n)))
  else Trap KernelPanic.

(** [hash_find_slot]: the index of the bucket. A shift by 32 or more is undefined;
    the processor shifts by the low five bits of the count. *)
Definition hash_find_slot t (key : K) : res Z :=
  let index := Z.shiftr (u32 (2654435769 * hash_code key)) (slot_count_shift t mod 32) in
  kassert (index <? hash_slot_count t);;
  mret index.

Fixpoint find_node_from (n : nat) (i : Z) (key : K) (l : list_m (hash_node K A)) : res (option (hash_node K A)) :=
  match n with
  | O => mret None
  | S n' =>
      node ← list_index l i;
      if bool_decide (node_key node = key) then mret (Some node) else find_node_from n' (i + 1) key l
  end.

Definition find_node t (key : K) : res (option (hash_node K A)) :=
  index ← hash_find_slot t key;
  hash_slot ← array_get (slot t) index;
  find_node_from (Z.to_nat (list_count hash_slot)) 0 key hash_slot.

(** [add]: [new_key] is the address of the copied key, [node_ok] tells whether
    the node could be allocated, [ok] whether the bucket could grow. *)
Definition hash_add (new_key : Z) (node_ok ok : bool) (key : K) (data : A) t : res (hash_table_m K A) :=
  if negb (new_key =? NULL) && node_ok then
    index ← hash_find_slot t key;
    hash_slot ← array_get (slot t) index;
    hash_slot ← list_add ok (mkHashNode new_key key data) hash_slot;
    mret (mkHash (u32 (element_count t + 1)) (<[Z.to_nat index := hash_slot]> (slot t)) (hash_slot_count t) (slot_count_shift t))
  else mret t.

Definition hash_find t (key : K) : res (option A) :=
  node ← find_node t key;
  mret (match node with Some n => Some (node_data n) | None => None end).

Definition hash_is_valid t (key : K) : res bool :=
  node ← find_node t key;
  mret (if node is Some _ then true else false).

(** The loop of [pop] over the buckets from [i] on. *)
Fixpoint hash_pop_from (n : nat) (i : Z) t : res (option A * hash_table_m K A) :=
  match n with
  | O => mret (None, t)
  | S n' =>
      hash_slot ← array_get (slot t) i;
      if 0 <? list_count hash_slot then
        node ← list_index hash_slot 0;
        hash_slot ← list_remove node_eqb node hash_slot;
        mret (Some (node_data node),
              mkHash (u32 (element_count t - 1)) (<[Z.to_nat i := hash_slot]> (slot t)) (hash_slot_count t) (slot_count_shift t))
      else hash_pop_from n' (i + 1) t
  end.

Definition hash_pop t : res (option A * hash_table_m K A) := hash_pop_from (Z.to_nat (hash_slot_count t)) 0 t.

Definition hash_remove (key : K) t : res (A * hash_table_m K A) :=
  node ← find_node t key;
  match node with
  | None => Trap KernelPanic
  | Some node =>
      index ← hash_find_slot t key;
      hash_slot ← array_get (slot t) index;
      hash_slot ← list_remove node_eqb node hash_slot;
      mret (node_data node,
            mkHash (u32 (element_count t - 1)) (<[Z.to_nat index := hash_slot]> (slot t)) (hash_slot_count t) (slot_count_shift t))
  end.

Definition hash_reset t : hash_table_m K A :=
  mkHash 0 (list_reset <$> slot t) (hash_slot_count t) (slot_count_shift t).

(** [operator[]]. *)
Definition hash_index t (key : K) : res A :=
  data ← hash_find t key;
  match data with Some a => mret a | None => Trap KernelPanic end.
End HashTable.
