(* ===== verification/KContainersThms.v ===== *)
(** * Kernel containers: lists, queues, pools and tables as mathematical objects *)

From S2P Require Import Prelude CMem CStringSearch World Libdx KBase KBitmap KBitmapThms KFrames KRegionThms KHeap KHeapThms KContainers.

(** ** Arrays *)

(** The array starts with the elements [xs]. *)
Definition array_holds {A} (t : dynamic_array_m A) (xs : list A) : Prop :=
  Z.of_nat (length (object t)) = slot_count t /\ slot_count t <= 2 ^ 29 /\
  exists rest, object t = (Ptr <$> xs) ++ rest.

Section Arrays.
Context {A : Type}.
Implicit Types (t : dynamic_array_m A) (xs : list A).

Lemma array_new_holds : array_holds (A := A) array_new [].
Proof. split; [done|]. split; [done|]. by exists []. Qed.

Lemma array_holds_length t xs : array_holds t xs -> Z.of_nat (length xs) <= slot_count t.
Proof. intros (Hl & _ & rest & E). rewrite E, length_app, length_fmap in Hl. lia. Qed.

Lemma array_holds_lookup t xs i x : array_holds t xs -> xs !! i = Some x -> object t !! i = Some (Ptr x).
Proof.
  intros (_ & _ & rest & ->) E. rewrite lookup_app_l by (rewrite length_fmap; by eapply lookup_lt_Some).
  by rewrite list_lookup_fmap, E.
Qed.

Lemma array_holds_take t xs n : array_holds t xs -> array_holds t (take n xs).
Proof.
  intros (Hl & Hs & rest & E). split; [done|]. split; [done|]. exists ((Ptr <$> drop n xs) ++ rest).
  rewrite E, app_assoc, <- fmap_app, take_drop. done.
Qed.

Lemma array_read_run t xs i x : array_holds t xs -> xs !! i = Some x -> array_read t (Z.of_nat i) = Ret (Some x).
Proof.
  intros Hh E. pose proof (array_holds_length t xs Hh). pose proof (lookup_lt_Some _ _ _ E).
  unfold array_read. kassert_tac. by rewrite Nat2Z.id, (array_holds_lookup t xs i x Hh E).
Qed.

Lemma array_expand_run t xs : array_holds t xs -> slot_count t <= 2 ^ 28 -> Z.of_nat (length xs) = slot_count t ->
  exists t', array_expand true t = Ret t' /\ array_holds t' xs /\ slot_count t < slot_count t'.
Proof.
  intros (Hl & Hs & rest & E) Hle Hfull. assert (rest = []) as ->.
  { destruct rest; [done|]. rewrite E, length_app, length_fmap in Hl. cbn in Hl. lia. }
  rewrite app_nil_r in E. unfold array_expand. cbn [negb]. rewrite (u32_small (slot_count t * 4)) by lia.
  rewrite Z.div_mul by lia. set (n := if negb _ then _ else _).
  assert (Hn : n = if decide (slot_count t = 0) then 8 else 2 * slot_count t).
  { unfold n. destruct (Z.eqb_spec (slot_count t) 0); cbn [negb]; [by rewrite decide_True|].
    rewrite decide_False by done. rewrite u32_small by lia. lia. }
  assert (Hn2 : 2 * slot_count t <= n <= 2 ^ 29 /\ slot_count t < n).
  { rewrite Hn. destruct (decide (slot_count t = 0)); lia. }
  eexists. split; [done|]. split; [|cbn; lia]. split; [|split; [cbn; lia|]]; cbn [object slot_count].
  - rewrite !length_app, length_drop, !length_app, length_drop, !length_take, !length_replicate, E, length_fmap. lia.
  - exists (replicate (Z.to_nat (slot_count t)) Null ++ drop (Z.to_nat (2 * slot_count t)) (replicate (Z.to_nat n) Uninit)).
    rewrite E, take_ge by (rewrite length_fmap; lia). f_equal.
    rewrite drop_app_ge by (rewrite length_take; lia). rewrite length_take, length_replicate.
    replace (Z.to_nat (slot_count t) - _)%nat with 0%nat by lia. done.
Qed.

Lemma array_write_run t xs x : array_holds t xs -> Z.of_nat (length xs) < 2 ^ 28 ->
  exists t', array_write true t (Z.of_nat (length xs)) x = Ret t' /\ array_holds t' (xs ++ [x]).
Proof.
  intros Hh Hlen. unfold array_write.
  assert (Hgrow : exists t1, (if slot_count t <=? Z.of_nat (length xs) then
         t ← array_expand true t; kassert (Z.of_nat (length xs) <? slot_count t);; mret t else mret t) = Ret t1 /\
         array_holds t1 xs /\ Z.of_nat (length xs) < slot_count t1).
  { pose proof (array_holds_length t xs Hh). destruct (Z.leb_spec (slot_count t) (Z.of_nat (length xs))) as [Hle|Hgt].
    - destruct (array_expand_run t xs Hh ltac:(lia) ltac:(lia)) as (t1 & E1 & Hh1 & Hgt). krun E1. kassert_tac.
      exists t1. split; [done|]. split; [done|lia].
    - by exists t. }
  destruct Hgrow as (t1 & E1 & (Hl & Hs & rest & E) & Hlt). krun E1. eexists. split; [done|].
  destruct rest as [|c rest]; [rewrite E, app_nil_r, length_fmap in Hl; lia|].
  split; [cbn; by rewrite length_insert|]. split; [done|]. exists rest. cbn.
  rewrite E, Nat2Z.id, insert_app_r_alt by (by rewrite length_fmap). rewrite length_fmap, Nat.sub_diag. cbn.
  by rewrite fmap_app, <- app_assoc.
Qed.

(** Removing by exchange with the last element. *)
Definition swap_remove (i : nat) xs : list A :=
  match last xs with Some z => take (length xs - 1) (<[i := z]> xs) | None => [] end.

Lemma swap_remove_snoc i xs z : swap_remove i (xs ++ [z]) = <[i := z]> xs.
Proof.
  unfold swap_remove. rewrite last_snoc, length_app. cbn. replace (length xs + 1 - 1)%nat with (length xs) by lia.
  destruct (decide (i < length xs)%nat) as [Hlt|Hge].
  - rewrite insert_app_l by done. rewrite take_app_le by (by rewrite length_insert). apply take_ge. by rewrite length_insert.
  - rewrite (list_insert_ge xs) by lia. rewrite insert_app_r_alt by lia.
    by rewrite take_app_length.
Qed.

Lemma swap_remove_Permutation i xs x : xs !! i = Some x -> x :: swap_remove i xs ≡ₚ xs.
Proof.
  intros E. destruct xs as [|z ys _] using rev_ind; [done|]. rewrite swap_remove_snoc.
  apply lookup_app_Some in E as [E|[Hge E]].
  - rewrite <- Permutation_cons_append, insert_take_drop by (by eapply lookup_lt_Some).
    rewrite <- (take_drop_middle ys i x E) at 3. rewrite <- !Permutation_middle. apply perm_swap.
  - apply list_lookup_singleton_Some in E as [E <-]. assert (i = length ys) as -> by lia.
    rewrite list_insert_ge by lia. apply Permutation_cons_append.
Qed.

Lemma array_swap_run t xs i x : array_holds t xs -> xs !! i = Some x ->
  exists t', array_swap t (Z.of_nat i) (Z.of_nat (length xs) - 1) = Ret t' /\ array_holds t' (swap_remove i xs) /\
    slot_count t' = slot_count t /\
    object t' !! i = match last xs with Some z => Some (Ptr z) | None => None end.
Proof.
  intros Hh E. pose proof (array_holds_length t xs Hh) as Hle. pose proof (lookup_lt_Some _ _ _ E) as Hi.
  destruct xs as [|z ys _] using rev_ind; [done|]. rewrite swap_remove_snoc, last_snoc.
  rewrite length_app in *. cbn in *. unfold array_swap. kassert_tac. kassert_tac.
  replace (Z.of_nat (length ys + 1) - 1) with (Z.of_nat (length ys)) by lia.
  pose proof (array_holds_lookup t _ _ _ Hh E) as Ex.
  assert (Ez : object t !! length ys = Some (Ptr z)).
  { apply (array_holds_lookup t _ _ _ Hh). rewrite lookup_app_r by lia. by rewrite Nat.sub_diag. }
  erewrite res_bind_ret by (apply array_get_run; rewrite Nat2Z.id; exact Ex).
  erewrite res_bind_ret by (apply array_get_run; rewrite Nat2Z.id; exact Ez). rewrite !Nat2Z.id.
  eexists. split; [done|]. destruct Hh as (Hl & Hs & rest & Eo). split; [|split; [done|]].
  - split; [cbn; by rewrite !length_insert|]. split; [done|]. exists (Ptr x :: rest). cbn.
    rewrite Eo, fmap_app, <- app_assoc. cbn. apply lookup_app_Some in E as [E|[Hge E]].
    + assert (i < length ys)%nat by (by eapply lookup_lt_Some).
      rewrite (insert_app_l (Ptr <$> ys)) by (by rewrite length_fmap).
      rewrite insert_app_r_alt by (rewrite length_insert, length_fmap; lia).
      rewrite length_insert, length_fmap, Nat.sub_diag. cbn. by rewrite list_fmap_insert.
    + apply list_lookup_singleton_Some in E as [E <-]. assert (i = length ys) as -> by lia.
      rewrite (list_insert_ge ys) by lia. rewrite list_insert_insert_eq.
      rewrite insert_app_r_alt by (rewrite length_fmap; lia). rewrite length_fmap, Nat.sub_diag. done.
  - cbn. apply lookup_app_Some in E as [E|[Hge E]].
    + assert (i < length ys)%nat by (by eapply lookup_lt_Some). rewrite list_lookup_insert_ne by lia.
      apply list_lookup_insert_eq. lia.
    + apply list_lookup_singleton_Some in E as [E <-]. assert (i = length ys) as -> by lia.
      apply list_lookup_insert_eq. rewrite length_insert. lia.
Qed.
End Arrays.

(** ** Lists *)

Definition list_holds {A} (l : list_m A) (xs : list A) : Prop :=
  list_count l = Z.of_nat (length xs) /\ array_holds (list_array l) xs.

Section Lists.
Context {A : Type} (eqb : A -> A -> bool).
Implicit Types (l : list_m A) (xs : list A).

Lemma list_new_holds : list_holds (A := A) list_new [].
Proof. split; [done|]. apply array_new_holds. Qed.

Lemma list_find_run l xs x : list_holds l xs -> exists r, list_find eqb (Z.to_nat (list_count l)) 0 x l = Ret r /\
  match r with
  | Some i => exists k a, i = Z.of_nat k /\ xs !! k = Some a /\ eqb a x = true
  | None => Forall (fun a => eqb a x = false) xs
  end.
Proof.
  intros [Hc Ha]. rewrite Hc, Nat2Z.id.
  enough (H : forall ys k, drop k xs = ys -> exists r, list_find eqb (length ys) (Z.of_nat k) x l = Ret r /\
    match r with
    | Some i => exists k a, i = Z.of_nat k /\ xs !! k = Some a /\ eqb a x = true
    | None => Forall (fun a => eqb a x = false) ys
    end) by (exact (H xs 0%nat eq_refl)).
  induction ys as [|a ys IH]; intros k E; cbn [list_find length]; [by exists None|].
  assert (Ek : xs !! k = Some a).
  { pose proof (lookup_drop xs k 0) as H. rewrite E, Nat.add_0_r in H. by rewrite <- H. }
  rewrite (res_bind_ret _ _ _ (array_read_run (list_array l) xs k a Ha Ek)). cbn [deref]. cbn.
  destruct (eqb a x) eqn:Ee.
  - eexists. split; [done|]. by exists k, a.
  - destruct (IH (S k)) as (r & Er & Hr).
    { rewrite <- Nat.add_1_r, <- drop_drop, E. done. }
    replace (Z.of_nat k + 1) with (Z.of_nat (S k)) by lia. exists r. split; [exact Er|].
    destruct r; [done|]. by constructor.
Qed.

Lemma list_add_run l xs x : list_holds l xs -> Z.of_nat (length xs) < 2 ^ 28 ->
  exists l', list_add true x l = Ret l' /\ list_holds l' (xs ++ [x]).
Proof.
  intros [Hc Ha] Hlen. unfold list_add. rewrite Hc. destruct (array_write_run _ _ x Ha Hlen) as (t & E & Ht). krun E.
  eexists. split; [done|]. split; [|done]. cbn. rewrite u32_small, length_app by lia. cbn. lia.
Qed.

Lemma list_remove_run l xs x : list_holds l xs -> exists l', list_remove eqb x l = Ret l' /\
  ((exists a ys, eqb a x = true /\ a :: ys ≡ₚ xs /\ list_holds l' ys) \/
   (Forall (fun a => eqb a x = false) xs /\ l' = l)).
Proof.
  intros Hl. unfold list_remove. destruct (list_find_run l xs x Hl) as (r & E & Hr). krun E.
  destruct r as [i|]; [|by exists l; split; [|right]].
  destruct Hr as (k & a & -> & Ek & Ee). destruct Hl as [Hc Ha]. rewrite Hc.
  destruct (array_swap_run _ _ _ _ Ha Ek) as (t & Et & Ht & _). krun Et. eexists. split; [done|]. left.
  exists a, (swap_remove k xs). split; [done|]. split; [by apply swap_remove_Permutation|]. split; [|done]. cbn.
  pose proof (Permutation_length (swap_remove_Permutation k xs a Ek)) as Hp. cbn in Hp. lia.
Qed.

Lemma list_index_run l xs i x : list_holds l xs -> xs !! i = Some x -> list_index l (Z.of_nat i) = Ret x.
Proof.
  intros [Hc Ha] E. pose proof (lookup_lt_Some _ _ _ E). unfold list_index. rewrite Hc, (proj2 (Z.leb_gt _ _)) by lia.
  by rewrite (res_bind_ret _ _ _ (array_read_run _ xs i x Ha E)).
Qed.

Lemma list_reset_holds l xs : list_holds l xs -> list_holds (list_reset l) [].
Proof. intros [Hc Ha]. split; [done|]. exact (array_holds_take _ xs 0 Ha). Qed.
End Lists.

(** ** The message pool *)

(** The messages [xs] are pending, and each knows its index. *)
Record pool_holds (p : message_pool_c) (xs : list Z) : Prop := {
  ph_count : pool_count p = Z.of_nat (length xs);
  ph_array : array_holds (messages p) xs;
  ph_nodup : NoDup xs;
  ph_index : forall i m, xs !! i = Some m -> pool_index p !! m = Some (Z.of_nat i) }.

Lemma message_pool_new_holds indices : pool_holds (message_pool_new indices) [].
Proof. split; [done|apply array_new_holds|constructor|done]. Qed.

Lemma message_pool_add_run p xs m : pool_holds p xs -> Z.of_nat (length xs) < 2 ^ 28 -> (m ∉ xs) ->
  exists p', message_pool_add true m p = Ret p' /\ pool_holds p' (xs ++ [m]).
Proof.
  intros [Hc Ha Hn Hx] Hlen Hm. unfold message_pool_add. rewrite Hc.
  destruct (array_write_run _ _ m Ha Hlen) as (t & E & Ht). krun E. eexists. split; [done|]. split; cbn.
  - rewrite u32_small, length_app by lia. cbn. lia.
  - done.
  - apply NoDup_app. split; [done|]. split; [|apply NoDup_singleton]. intros y Hy ->%list_elem_of_singleton. done.
  - intros i y [E'|[Hge E']]%lookup_app_Some.
    + rewrite lookup_insert_ne; [by apply Hx|]. intros ->. apply Hm. by eapply list_elem_of_lookup_2.
    + apply list_lookup_singleton_Some in E' as [E' ->]. rewrite lookup_insert_eq. f_equal. lia.
Qed.

Lemma message_pool_remove_run p xs m : pool_holds p xs -> m ∈ xs ->
  exists p' ys, message_pool_remove m p = Ret p' /\ pool_holds p' ys /\ m :: ys ≡ₚ xs.
Proof.
  intros [Hc Ha Hn Hx] Hm. apply list_elem_of_lookup in Hm as (i & Ei). pose proof (lookup_lt_Some _ _ _ Ei) as Hi.
  unfold message_pool_remove, read_pool_index. rewrite (Hx i m Ei). krun (eq_refl (Ret (Z.of_nat i))). rewrite Hc. kassert_tac.
  destruct (array_swap_run _ _ _ _ Ha Ei) as (t & Et & Ht & Hs & Hlook). krun Et. cbn [pool_count messages pool_index].
  pose proof (swap_remove_Permutation i xs m Ei) as Hperm. pose proof (Permutation_length Hperm) as Hlen. cbn in Hlen.
  assert (Hnd : NoDup (m :: swap_remove i xs)) by (by rewrite Hperm).
  apply NoDup_cons in Hnd as [Hnm Hnd].
  destruct xs as [|z ys _] using rev_ind; [done|]. rewrite swap_remove_snoc, last_snoc in *. rewrite length_app in *. cbn in *.
  assert (Hz : pool_index p !! z = Some (Z.of_nat (length ys))).
  { apply (Hx (length ys)). rewrite lookup_app_r by lia. by rewrite Nat.sub_diag. }
  destruct (Z.ltb_spec 0 (Z.of_nat (length ys + 1) - 1)) as [Hpos|Hzero].
  - assert (Hread : array_read t (Z.of_nat i) = Ret (Some z)).
    { pose proof (array_holds_length _ _ Ha) as Hal. rewrite length_app in Hal. cbn in Hal.
      unfold array_read. rewrite Hs. kassert_tac. by rewrite Nat2Z.id, Hlook. }
    krun Hread. cbn [deref]. krun (eq_refl (Ret z)). rewrite Hz. krun (eq_refl (Ret (Z.of_nat (length ys)))). kassert_tac.
    eexists _, _. split; [done|]. split; [|exact Hperm]. split; cbn; [rewrite length_insert; lia|done|done|].
    intros j y Ej. destruct (decide (y = z)) as [->|Hne].
    + rewrite lookup_insert_eq. f_equal. f_equal.
      destruct (decide (i < length ys)%nat) as [Hlt|Hge]; last first.
      { rewrite list_insert_ge in Ej, Hnm by lia. exfalso. apply Hnm.
        assert (i = length ys) as -> by lia. rewrite lookup_app_r, Nat.sub_diag in Ei by lia. cbn in Ei. simplify_eq.
        by eapply list_elem_of_lookup_2. }
      assert (Eii : <[i := z]> ys !! i = Some z) by (by apply list_lookup_insert_eq).
      by eapply (NoDup_lookup _ _ _ _ Hnd Eii Ej).
    + rewrite lookup_insert_ne by done. apply Hx. apply list_lookup_insert_Some in Ej as [(_ & <- & _)|(_ & Ej)]; [done|].
      by apply lookup_app_l_Some.
  - assert (ys = []) as -> by (destruct ys; [done|cbn in *; lia]). eexists _, _. split; [done|].
    split; [|exact Hperm]. split; cbn; try done.
Qed.

Lemma message_pool_select_run p xs random : pool_holds p xs -> 0 <= random < pool_count p ->
  exists m, message_pool_select random p = Ret m /\ m ∈ xs.
Proof.
  intros [Hc Ha Hn Hx] Hr. unfold message_pool_select, message_pool_is_empty.
  rewrite (proj2 (Z.eqb_neq _ 0)) by lia. kassert_tac.
  destruct (lookup_lt_is_Some_2 xs (Z.to_nat random)) as [m Em]; [lia|].
  pose proof (array_read_run _ xs _ m Ha Em) as Er. rewrite Z2Nat.id in Er by lia. krun Er.
  exists m. split; [done|]. by eapply list_elem_of_lookup_2.
Qed.

(** ** Queues *)

Section Queues.
Context {A : Type}.
Implicit Types (q : queue_m A) (ps : list (Z * A)) (xs : list A) (nodes : gmap Z (queue_node A)).

Definition start ps : Z := match ps with (p, _) :: _ => p | [] => NULL end.
Definition finish ps : Z := match last ps with Some (p, _) => p | None => NULL end.

(** The nodes form a list: addresses and objects. *)
Fixpoint chain nodes ps : Prop :=
  match ps with
  | [] => True
  | (p, x) :: ps' => p <> NULL /\ nodes !! p = Some (mkNode (start ps') x) /\ chain nodes ps'
  end.

Record queue_chain q ps : Prop := {
  qc_chain : chain (queue_nodes q) ps;
  qc_nodup : NoDup ps.*1;
  qc_dom : dom (queue_nodes q) = list_to_set ps.*1;
  qc_head : head q = start ps;
  qc_tail : tail q = finish ps;
  qc_count : queue_count q = Z.of_nat (length ps) }.

(** The queue contains [xs], first element first, and no other node is allocated. *)
Definition queue_holds q xs : Prop := exists ps, queue_chain q ps /\ ps.*2 = xs.

Lemma queue_new_holds : queue_holds queue_new [].
Proof. exists []. split; [|done]. split; try done. constructor. Qed.

Lemma chain_frame nodes nodes' ps : (forall p, p ∈ ps.*1 -> nodes' !! p = nodes !! p) -> chain nodes ps -> chain nodes' ps.
Proof.
  induction ps as [|[p x] ps IH]; cbn; [done|]. intros Hf (Hp & E & Hc). split; [done|]. rewrite Hf by left. split; [done|].
  apply IH; [|done]. intros p' Hp'. apply Hf. by right.
Qed.

Lemma start_app ps ps' : ps <> [] -> start (ps ++ ps') = start ps.
Proof. by destruct ps as [|[? ?] ?]. Qed.

Lemma chain_last nodes ps t z : chain nodes (ps ++ [(t, z)]) -> t <> NULL /\ nodes !! t = Some (mkNode NULL z).
Proof.
  induction ps as [|[p y] ps IH]; cbn; [by intros (? & ? & _)|]. intros (_ & _ & Hc). by apply IH.
Qed.

(** Linking a new last node. *)
Lemma chain_snoc nodes ps t z n x : chain nodes (ps ++ [(t, z)]) -> NoDup (ps ++ [(t, z)]).*1 -> n <> NULL ->
  (n ∉ (ps ++ [(t, z)]).*1) ->
  chain (<[t := mkNode n z]> (<[n := mkNode NULL x]> nodes)) ((ps ++ [(t, z)]) ++ [(n, x)]).
Proof.
  intros Hc Hnd Hn Hf. set (nodes' := <[t := _]> _).
  assert (Hnt : n <> t) by (intros ->; apply Hf; rewrite fmap_app; cbn; set_solver).
  assert (Hsame : forall p, p ∈ ps.*1 -> nodes' !! p = nodes !! p).
  { intros p Hp. rewrite fmap_app in Hnd, Hf. apply NoDup_app in Hnd as (_ & Hd & _). unfold nodes'.
    rewrite !lookup_insert_ne; [done|set_solver|set_solver]. }
  clear Hf Hnd. rewrite <- app_assoc. cbn. induction ps as [|[p y] ps IH]; cbn [app chain] in *.
  - destruct Hc as (Ht & _ & _). split; [done|]. unfold nodes'. rewrite lookup_insert_eq. split; [done|]. split; [done|].
    rewrite lookup_insert_ne by done. by rewrite lookup_insert_eq.
  - destruct Hc as (Hp & E & Hc). split; [done|]. rewrite Hsame by left. split.
    + rewrite E. do 2 f_equal. by destruct ps as [|[? ?] ?].
    + apply IH; [done|]. intros p' Hp'. apply Hsame. by right.
Qed.

Lemma queue_push_run q xs node x : queue_holds q xs -> node <> NULL -> queue_nodes q !! node = None ->
  Z.of_nat (length xs) < 2 ^ 31 -> exists q', queue_push node x q = Ret q' /\ queue_holds q' (xs ++ [x]).
Proof.
  intros (ps & [Hc Hnd Hd Hh Ht Hn] & <-) Hne Hfresh Hlen. rewrite length_fmap in Hlen.
  assert (Hnode : node ∉ ps.*1).
  { intros Hin. apply (elem_of_list_to_set (C := gset Z)) in Hin. rewrite <- Hd in Hin. apply elem_of_dom in Hin as [? ?]. congruence. }
  unfold queue_push. rewrite (proj2 (Z.eqb_neq node _)), Ht by done. cbn [negb].
  destruct ps as [|[t z] ps _] using rev_ind.
  - cbn. eexists. split; [done|]. exists [(node, x)]. split; [|done]. split; cbn; try done.
    + by rewrite lookup_insert_eq.
    + apply NoDup_singleton.
    + rewrite dom_insert_L, Hd. set_solver.
    + rewrite Hn. done.
  - unfold finish. rewrite last_snoc.
    destruct (chain_last _ _ _ _ Hc) as [Htn Et]. rewrite (proj2 (Z.eqb_neq t _)) by done. cbn [negb].
    assert (Hnt : node <> t) by (intros ->; congruence).
    unfold queue_node_at. cbn [queue_nodes]. rewrite lookup_insert_ne, Et by done. cbn.
    eexists. split; [done|]. exists ((ps ++ [(t, z)]) ++ [(node, x)]). split; [|by rewrite fmap_app].
    split; cbn [queue_nodes head tail queue_count].
    + by apply chain_snoc.
    + rewrite fmap_app. apply NoDup_app. split; [done|]. split; [|apply NoDup_singleton].
      intros p Hp ->%list_elem_of_singleton. done.
    + rewrite !dom_insert_L, Hd, (fmap_app fst (ps ++ _) [(node, x)]), !list_to_set_app_L, fmap_app, list_to_set_app_L. cbn. set_solver.
    + rewrite start_app by (by destruct ps). done.
    + unfold finish. by rewrite last_snoc.
    + rewrite Hn, u32_small, !length_app by lia. cbn. lia.
Qed.

Lemma queue_push_head_run q xs node x : queue_holds q xs -> node <> NULL -> queue_nodes q !! node = None ->
  Z.of_nat (length xs) < 2 ^ 31 -> exists q', queue_push_head node x q = Ret q' /\ queue_holds q' (x :: xs).
Proof.
  intros (ps & [Hc Hnd Hd Hh Ht Hn] & <-) Hne Hfresh Hlen. rewrite length_fmap in Hlen.
  assert (Hnode : node ∉ ps.*1).
  { intros Hin. apply (elem_of_list_to_set (C := gset Z)) in Hin. rewrite <- Hd in Hin. apply elem_of_dom in Hin as [? ?]. congruence. }
  unfold queue_push_head. rewrite (proj2 (Z.eqb_neq node _)) by done. cbn [negb]. eexists. split; [done|].
  exists ((node, x) :: ps). split; [|done]. split; cbn [queue_nodes head tail queue_count].
  - cbn. split; [done|]. rewrite lookup_insert_eq, Hh. split; [done|]. apply (chain_frame (queue_nodes q)); [|done].
    intros p Hp. rewrite lookup_insert_ne; [done|]. by intros ->.
  - cbn. by apply NoDup_cons.
  - rewrite dom_insert_L, Hd. done.
  - done.
  - rewrite Ht. unfold finish. destruct ps as [|[t z] ps _] using rev_ind; [done|].
    rewrite app_comm_cons, !last_snoc.
    destruct (chain_last _ _ _ _ Hc) as [Htn _].
    by rewrite (proj2 (Z.eqb_neq t _)).
  - rewrite Hn, u32_small by lia. cbn. lia.
Qed.

Lemma queue_pop_run q x xs : queue_holds q (x :: xs) -> exists q', queue_pop q = Ret (x, q') /\ queue_holds q' xs /\
  (forall a, queue_nodes q !! a = None -> queue_nodes q' !! a = None).
Proof.
  intros ([|[p y] ps] & [Hc Hnd Hd Hh Ht Hn] & E); [done|]. cbn in E. injection E as -> <-. cbn in Hc, Hh, Hn, Hnd.
  destruct Hc as (Hp & E & Hc). apply NoDup_cons in Hnd as [Hpn Hnd].
  unfold queue_pop. rewrite Hn, (proj2 (Z.ltb_lt 0 _)) by lia. unfold queue_node_at. rewrite Hh, E. cbn.
  eexists. split; [done|]. split.
  - exists ps. split; [|done]. split; cbn.
    + apply (chain_frame (queue_nodes q)); [|done]. intros p' Hp'. rewrite lookup_delete_ne; [done|]. by intros ->.
    + done.
    + rewrite dom_delete_L, Hd. cbn. apply set_eq. intros a. rewrite elem_of_difference, elem_of_union, elem_of_singleton, elem_of_list_to_set.
      split; [intros [[?|?] ?]; done|]. intros Ha. split; [by right|]. by intros ->.
    + done.
    + rewrite Ht. destruct ps as [|[p2 y2] ps]; [done|]. cbn in Hc |- *. rewrite (proj2 (Z.eqb_neq p2 _)) by apply Hc. done.
    + lia.
  - cbn. intros a Ha. by apply lookup_delete_None; right.
Qed.

Lemma queue_pop_empty q : queue_holds q [] -> queue_pop q = Trap KernelPanic.
Proof.
  intros (ps & [_ _ _ _ _ Hn] & E). apply fmap_nil_inv in E as ->. unfold queue_pop. by rewrite Hn.
Qed.

Lemma queue_is_empty_run q xs : queue_holds q xs -> queue_is_empty q = bool_decide (xs = []).
Proof.
  intros (ps & [_ _ _ _ _ Hn] & <-). unfold queue_is_empty. rewrite Hn. destruct ps; [done|].
  rewrite bool_decide_false by done. apply Z.eqb_neq. cbn. lia.
Qed.

Lemma queue_reset_run fuel : forall q xs, queue_holds q xs -> (length xs <= fuel)%nat ->
  exists q', queue_reset fuel q = Ret q' /\ queue_holds q' [].
Proof.
  induction fuel as [|fuel IH]; intros q xs Hq Hf; cbn [queue_reset]; fold (queue_is_empty q); rewrite (queue_is_empty_run q xs Hq).
  - destruct xs; [|cbn in Hf; lia]. rewrite bool_decide_true by done. by exists q.
  - destruct xs as [|x xs]; [rewrite bool_decide_true by done; by exists q|]. rewrite bool_decide_false by done. cbn [negb].
    destruct (queue_pop_run q x xs Hq) as (q1 & E & Hq1 & _). krun E. apply (IH q1 xs Hq1). cbn in Hf. lia.
Qed.
End Queues.

(** ** Hash tables *)

Lemma elem_of_concat {A} (x : A) ls : x ∈ concat ls <-> exists l, x ∈ l /\ l ∈ ls.
Proof.
  rewrite list_elem_of_In, in_concat. split; intros (l & H1 & H2); exists l; rewrite !list_elem_of_In in *; done.
Qed.


Section HashTables.
Context {K A : Type} `{Countable K} (hash_code : K -> Z).
Implicit Types (t : hash_table_m K A) (l : list_m (hash_node K A)) (b : list (hash_node K A)) (key : K) (bs : list (list (hash_node K A))) (m : gmap K A) (used : gset Z).

(** The bucket of a key in a table of 2^p buckets. *)
Definition bucket (p : Z) (key : K) : Z := Z.shiftr (u32 (2654435769 * hash_code key)) (32 - p).

(** The buckets of [t] contain the nodes [bs]. *)
Record table_buckets t bs : Prop := {
  tb_slots : Forall2 list_holds (slot t) bs;
  tb_shape : exists p, 1 <= p <= 31 /\ hash_slot_count t = 2 ^ p /\ slot_count_shift t = 32 - p /\
    Z.of_nat (length (slot t)) = 2 ^ p /\
    forall i b n, bs !! i = Some b -> n ∈ b -> bucket p (node_key n) = Z.of_nat i;
  tb_keys : NoDup (node_key <$> concat bs);
  tb_addresses : NoDup (key_at <$> concat bs);
  tb_count : element_count t = Z.of_nat (length (concat bs)) }.

(** The table is the map [m]; [used] are the addresses of its keys. *)
Definition table_holds t m used : Prop := exists bs, table_buckets t bs /\
  used = list_to_set (key_at <$> concat bs) /\
  forall k v, m !! k = Some v <-> exists n, n ∈ concat bs /\ node_key n = k /\ node_data n = v.

Lemma bucket_range p key : 1 <= p <= 31 -> 0 <= bucket p key < 2 ^ p.
Proof.
  intros Hp. unfold bucket. rewrite Z.shiftr_div_pow2 by lia. pose proof (u32_range (2654435769 * hash_code key)) as Hu.
  pose proof (pow2_pos (32 - p) ltac:(lia)). split; [apply Z.div_pos; lia|]. apply Z.div_lt_upper_bound; [done|].
  rewrite <- Z.pow_add_r by lia. replace (32 - p + p) with 32 by lia. lia.
Qed.

Lemma hash_find_slot_run t bs key : table_buckets t bs -> exists i l b, hash_find_slot hash_code t key = Ret (Z.of_nat i) /\
  slot t !! i = Some l /\ bs !! i = Some b /\ list_holds l b /\
  (forall n, n ∈ concat bs -> node_key n = key -> n ∈ b) /\
  (forall p, hash_slot_count t = 2 ^ p -> 1 <= p <= 31 -> bucket p key = Z.of_nat i).
Proof.
  intros Ht. destruct (tb_shape t bs Ht) as (p & Hp & Hc & Hs & Hl & Hhome). pose proof (bucket_range p key Hp) as Hb.
  unfold hash_find_slot. rewrite Hs, Hc, Z.mod_small by lia. fold (bucket p key). kassert_tac.
  destruct (lookup_lt_is_Some_2 (slot t) (Z.to_nat (bucket p key))) as [l El]; [lia|].
  destruct (Forall2_lookup_l _ _ _ _ _ (tb_slots t bs Ht) El) as (b & Eb & Hlb).
  exists (Z.to_nat (bucket p key)), l, b. rewrite Z2Nat.id by lia. do 4 (split; [done|]). split.
  - intros n (b' & Hn & Hb')%elem_of_concat Ek. apply list_elem_of_lookup in Hb' as (j & Ej).
    pose proof (Hhome j b' n Ej Hn) as Hj. rewrite Ek in Hj. assert (j = Z.to_nat (bucket p key)) as -> by lia. congruence.
  - intros p' Hp' Hr'. apply Z.pow_inj_r in Hp'; try lia. by subst p'.
Qed.

Lemma find_node_from_run l b key : list_holds l b -> exists r,
  find_node_from (Z.to_nat (list_count l)) 0 key l = Ret r /\
  match r with Some n => n ∈ b /\ node_key n = key | None => forall n, n ∈ b -> node_key n <> key end.
Proof.
  intros Hl. pose proof Hl as [Hc _]. rewrite Hc, Nat2Z.id.
  enough (H' : forall ys k, drop k b = ys -> exists r, find_node_from (length ys) (Z.of_nat k) key l = Ret r /\
    match r with Some n => n ∈ b /\ node_key n = key | None => forall n, n ∈ ys -> node_key n <> key end)
    by (exact (H' b 0%nat eq_refl)).
  induction ys as [|a ys IH]; intros k E; cbn [find_node_from length]; [exists None; split; [done|]; intros n Hn; inversion Hn|].
  assert (Ek : b !! k = Some a).
  { pose proof (lookup_drop b k 0) as H'. rewrite E, Nat.add_0_r in H'. by rewrite <- H'. }
  rewrite (res_bind_ret _ _ _ (list_index_run l b k a Hl Ek)). cbn beta. case_bool_decide as Ee.
  - exists (Some a). split; [done|]. split; [by eapply list_elem_of_lookup_2|done].
  - destruct (IH (S k)) as (r & Er & Hr); [rewrite <- Nat.add_1_r, <- drop_drop, E; done|].
    replace (Z.of_nat k + 1) with (Z.of_nat (S k)) by lia. exists r. split; [exact Er|].
    destruct r; [done|]. intros n [->|Hn]%elem_of_cons; [done|by apply Hr].
Qed.

Lemma find_node_run t bs key : table_buckets t bs -> exists r, find_node hash_code t key = Ret r /\
  match r with Some n => n ∈ concat bs /\ node_key n = key | None => forall n, n ∈ concat bs -> node_key n <> key end.
Proof.
  intros Ht. destruct (hash_find_slot_run t bs key Ht) as (i & l & b & E & El & Eb & Hlb & Hin & _). unfold find_node. krun E.
  rewrite <- (Nat2Z.id i) in El. krun array_get_run.
  destruct (find_node_from_run l b key Hlb) as (r & Er & Hr). exists r. split; [exact Er|]. destruct r as [n|].
  - destruct Hr as [Hn Hk]. split; [|done]. apply elem_of_concat. exists b. split; [done|]. by eapply list_elem_of_lookup_2.
  - intros n Hn Hk. by apply (Hr n (Hin n Hn Hk)).
Qed.

(** Replacing one bucket. *)
Definition others bs i : list (hash_node K A) := concat (take i bs) ++ concat (drop (S i) bs).

Lemma concat_bucket bs i b : bs !! i = Some b -> concat bs ≡ₚ b ++ others bs i.
Proof.
  intros E. rewrite <- (take_drop_middle bs i b E) at 1. rewrite concat_app. cbn. unfold others.
  rewrite !app_assoc. apply Permutation_app_tail, Permutation_app_comm.
Qed.

Lemma concat_insert bs i b b' : bs !! i = Some b -> concat (<[i := b']> bs) ≡ₚ b' ++ others bs i.
Proof.
  intros E. rewrite insert_take_drop by (by eapply lookup_lt_Some). rewrite concat_app. cbn. unfold others.
  rewrite !app_assoc. apply Permutation_app_tail, Permutation_app_comm.
Qed.

(** Exchanging a bucket keeps the shape when its nodes belong there. *)
Lemma buckets_update t bs i l l' b b' key c : table_buckets t bs -> slot t !! i = Some l -> bs !! i = Some b ->
  (forall p, hash_slot_count t = 2 ^ p -> 1 <= p <= 31 -> bucket p key = Z.of_nat i) ->
  list_holds l' b' -> (forall n, n ∈ b' -> n ∈ b \/ node_key n = key) ->
  NoDup (node_key <$> (b' ++ others bs i)) -> NoDup (key_at <$> (b' ++ others bs i)) -> c = Z.of_nat (length (b' ++ others bs i)) ->
  table_buckets (mkHash c (<[i := l']> (slot t)) (hash_slot_count t) (slot_count_shift t)) (<[i := b']> bs).
Proof.
  intros [Hs (p & Hp & Hc & Hsh & Hl & Hhome) _ _ _] El Eb Hbk Hlb Hsub Hk Ha Hcount.
  pose proof (concat_insert bs i b b' Eb) as Hperm. split; cbn.
  - by apply Forall2_insert.
  - exists p. rewrite length_insert. do 4 (split; [done|]). intros j b'' n Ej Hn.
    apply list_lookup_insert_Some in Ej as [(<- & <- & _)|(_ & Ej)]; [|by eapply Hhome].
    destruct (Hsub n Hn) as [Hn'| ->]; [by eapply Hhome|by apply Hbk].
  - by rewrite Hperm.
  - by rewrite Hperm.
  - by rewrite Hperm.
Qed.

Lemma hash_new_holds n : 2 <= n <= 2 ^ 31 -> exists t, hash_new true n = Ret t /\ table_holds t ∅ ∅.
Proof.
  intros Hn. unfold hash_new. rewrite round_up_2n_spec by lia. set (p := Z.log2_up n).
  assert (Hp : 1 <= p <= 31).
  { split; [assert (0 < p) by (apply Z.log2_up_pos; lia); lia|]. apply Z.log2_up_le_pow2; lia. }
  assert (Hbit : find_one_bit32 (2 ^ p) = p).
  { unfold find_one_bit32. destruct (lowest_bit_spec 32 0 (2 ^ p)) as [(j & Hj & -> & Eb & _)|[_ Hno]].
    - rewrite Z.pow2_bits_eqb in Eb by lia. by apply Z.eqb_eq in Eb.
    - specialize (Hno p ltac:(lia)). rewrite Z.pow2_bits_true in Hno by lia. done. }
  pose proof (pow2_pos p ltac:(lia)). rewrite Hbit, u32_small by lia. eexists. split; [done|].
  set (k := Z.to_nat (2 ^ p)). exists (replicate k []).
  assert (Hnil : concat (replicate k ([] : list (hash_node K A))) = []) by (induction k; done).
  split; [|split; [by rewrite Hnil|]].
  - split; cbn; rewrite ?Hnil; try done; try constructor.
    + apply Forall2_replicate. apply list_new_holds.
    + exists p. split; [done|]. split; [done|]. split; [done|]. split; [rewrite length_replicate; lia|].
      intros i b x Eb Hx. apply lookup_replicate in Eb as [-> _]. inversion Hx.
  - rewrite Hnil. intros k' v. rewrite lookup_empty. split; [done|]. intros (x & Hx & _). inversion Hx.
Qed.

Lemma hash_find_run t m used key : table_holds t m used ->
  hash_find hash_code t key = Ret (m !! key) /\ hash_is_valid hash_code t key = Ret (bool_decide (is_Some (m !! key))).
Proof.
  intros (bs & Ht & _ & Hm). unfold hash_find, hash_is_valid. destruct (find_node_run t bs key Ht) as (r & E & Hr).
  rewrite E. cbn. destruct r as [n|].
  - assert (Em : m !! key = Some (node_data n)) by (apply Hm; exists n; tauto). by rewrite Em.
  - destruct (m !! key) as [v|] eqn:Em; [|done]. apply Hm in Em as (n & Hn & Hk & _). by apply Hr in Hk.
Qed.

Lemma hash_add_run t m used new_key key data : table_holds t m used -> m !! key = None -> new_key <> NULL -> (new_key ∉ used) ->
  element_count t < 2 ^ 28 ->
  exists t', hash_add hash_code new_key true true key data t = Ret t' /\ table_holds t' (<[key := data]> m) ({[new_key]} ∪ used).
Proof.
  intros (bs & Ht & -> & Hm) Hnone Hnk Hfresh Hcount. unfold hash_add. rewrite (proj2 (Z.eqb_neq new_key _)) by done. cbn [negb andb].
  destruct (hash_find_slot_run t bs key Ht) as (i & l & b & E & El & Eb & Hlb & Hin & Hbk). krun E.
  pose proof El as El'. rewrite <- (Nat2Z.id i) in El'. krun array_get_run. set (n := mkHashNode new_key key data).
  pose proof (concat_bucket bs i b Eb) as Hperm. pose proof (tb_count t bs Ht) as Hc.
  assert (Hlen : Z.of_nat (length b) < 2 ^ 28).
  { apply Permutation_length in Hperm. rewrite length_app in Hperm. lia. }
  destruct (list_add_run l b n Hlb Hlen) as (l' & Ea & Hl'). krun Ea. eexists. split; [done|].
  assert (Hperm' : (b ++ [n]) ++ others bs i ≡ₚ n :: concat bs).
  { rewrite <- app_assoc. cbn. rewrite <- Permutation_middle. by rewrite Hperm. }
  assert (Hk : key ∉ (node_key <$> concat bs)).
  { intros (x & Ex & Hx)%list_elem_of_fmap. assert (Es : m !! key = Some (node_data x)) by (apply Hm; exists x; done). congruence. }
  rewrite Nat2Z.id. exists (<[i := b ++ [n]]> bs). pose proof (concat_insert bs i b (b ++ [n]) Eb) as Hc'.
  split; [|split].
  - apply (buckets_update t bs i l l' b (b ++ [n]) key); try done.
    + intros x [Hx|Hx%list_elem_of_singleton]%elem_of_app; [by left|right; by subst x].
    + rewrite Hperm'. cbn. apply NoDup_cons. split; [done|]. apply Ht.
    + rewrite Hperm'. cbn. apply NoDup_cons. split; [|apply Ht]. intros Hx. apply Hfresh. by apply elem_of_list_to_set.
    + rewrite Hperm'. cbn [length]. rewrite u32_small by lia. lia.
  - apply set_eq. intros a. rewrite elem_of_list_to_set, Hc', Hperm'. cbn. rewrite elem_of_cons, elem_of_union, elem_of_singleton, elem_of_list_to_set.
    done.
  - intros k v. assert (Hin' : forall x, x ∈ concat (<[i := b ++ [n]]> bs) <-> x = n \/ x ∈ concat bs).
    { intros x. rewrite Hc', Hperm'. apply elem_of_cons. }
    destruct (decide (k = key)) as [->|Hne].
    + rewrite lookup_insert_eq. split.
      * intros [= <-]. exists n. split; [apply Hin'; by left|done].
      * intros (x & Hx & Ek & Ev). apply Hin' in Hx as [->|Hx]; [by rewrite <- Ev|]. exfalso. apply Hk.
        apply list_elem_of_fmap. by exists x.
    + rewrite lookup_insert_ne by done. rewrite Hm. split.
      * intros (x & Hx & Ek & Ev). exists x. split; [apply Hin'; by right|done].
      * intros (x & Hx & Ek & Ev). apply Hin' in Hx as [->|Hx]; [cbn in Ek; congruence|]. by exists x.
Qed.

(** Removing the node [n] of bucket [i]. *)
Lemma remove_node_run t bs i l b n : table_buckets t bs -> slot t !! i = Some l -> bs !! i = Some b -> list_holds l b -> n ∈ b ->
  element_count t < 2 ^ 32 -> exists l' b', list_remove node_eqb n l = Ret l' /\ n :: concat (<[i := b']> bs) ≡ₚ concat bs /\
    table_buckets (mkHash (u32 (element_count t - 1)) (<[i := l']> (slot t)) (hash_slot_count t) (slot_count_shift t)) (<[i := b']> bs).
Proof.
  intros Ht El Eb Hlb Hn Hmax. destruct (list_remove_run node_eqb l b n Hlb) as (l' & E & Hcase).
  pose proof (concat_bucket bs i b Eb) as Hperm.
  destruct Hcase as [(a & b' & Ea & Hb' & Hl')|[Hno _]]; last first.
  { rewrite Forall_forall in Hno. specialize (Hno n Hn). unfold node_eqb in Hno. by rewrite Z.eqb_refl in Hno. }
  assert (Han : a = n).
  { assert (Ha : a ∈ b) by (rewrite <- Hb'; left). apply Z.eqb_eq in Ea. pose proof (tb_addresses t bs Ht) as Hnd.
    rewrite Hperm, fmap_app in Hnd. apply NoDup_app in Hnd as (Hnd & _). rewrite <- Hb' in Hnd. cbn in Hnd.
    apply NoDup_cons in Hnd as [Hna _]. rewrite <- Hb' in Hn. apply elem_of_cons in Hn as [->|Hn]; [done|].
    exfalso. apply Hna. apply list_elem_of_fmap. by exists n. }
  subst a. exists l', b'. split; [done|]. pose proof (concat_insert bs i b b' Eb) as Hc'.
  assert (Hall : n :: (b' ++ others bs i) ≡ₚ concat bs).
  { rewrite Hperm, app_comm_cons. by apply Permutation_app_tail. }
  split; [by rewrite Hc'|]. destruct (tb_shape t bs Ht) as (p & Hp & Hsc & _ & _ & Hhome).
  apply (buckets_update t bs i l l' b b' (node_key n)); try done.
  - intros p' Hp' Hr'. rewrite Hsc in Hp'. apply Z.pow_inj_r in Hp'; try lia. subst p'. by eapply Hhome.
  - intros x Hx. left. rewrite <- Hb'. by right.
  - pose proof (tb_keys t bs Ht) as Hk. rewrite <- Hall in Hk. cbn in Hk. by apply NoDup_cons in Hk as [_ Hk].
  - pose proof (tb_addresses t bs Ht) as Hk. rewrite <- Hall in Hk. cbn in Hk. by apply NoDup_cons in Hk as [_ Hk].
  - rewrite (tb_count t bs Ht) in *. apply Permutation_length in Hall. rewrite <- Hall in Hmax. cbn [length] in Hmax. rewrite <- Hall. cbn [length].
    rewrite u32_small by lia. lia.
Qed.

(** The table after the removal is the map without the key. *)
Lemma removed_holds t' bs bs' m n : n :: concat bs' ≡ₚ concat bs -> table_buckets t' bs' -> NoDup (node_key <$> concat bs) ->
  (forall k v, m !! k = Some v <-> exists x, x ∈ concat bs /\ node_key x = k /\ node_data x = v) ->
  table_holds t' (delete (node_key n) m) (list_to_set (key_at <$> concat bs')).
Proof.
  intros Hp Ht' Hnd Hm. exists bs'. split; [done|]. split; [done|]. intros k v.
  assert (Hin : forall x, x ∈ concat bs <-> x = n \/ x ∈ concat bs') by (intros x; rewrite <- Hp; apply elem_of_cons).
  rewrite <- Hp in Hnd. cbn in Hnd. apply NoDup_cons in Hnd as [Hn _].
  rewrite lookup_delete_Some, Hm. split.
  - intros [Hne (x & Hx & Ek & Ev)]. apply Hin in Hx as [->|Hx]; [done|]. by exists x.
  - intros (x & Hx & Ek & Ev). split.
    + intros E. apply Hn. apply list_elem_of_fmap. exists x. by rewrite E.
    + exists x. split; [apply Hin; by right|done].
Qed.

Lemma removed_used bs bs' n : n :: concat bs' ≡ₚ concat bs ->
  (list_to_set (key_at <$> concat bs') : gset Z) ⊆ list_to_set (key_at <$> concat bs).
Proof.
  intros Hp a. rewrite !elem_of_list_to_set, <- Hp. cbn. intros Ha. by right.
Qed.

Lemma hash_remove_run t m used key data : table_holds t m used -> m !! key = Some data -> element_count t < 2 ^ 32 ->
  exists t' used', hash_remove hash_code key t = Ret (data, t') /\ table_holds t' (delete key m) used' /\ used' ⊆ used.
Proof.
  intros (bs & Ht & -> & Hm) Hk Hmax. unfold hash_remove. destruct (find_node_run t bs key Ht) as (r & E & Hr). krun E.
  pose proof Hk as (x & Hx & Ex & Ev)%Hm. destruct r as [n|]; [|by apply Hr in Ex]. destruct Hr as [Hn Hkn].
  destruct (hash_find_slot_run t bs key Ht) as (i & l & b & Es & El & Eb & Hlb & Hin & _). krun Es.
  pose proof El as El'. rewrite <- (Nat2Z.id i) in El'. krun array_get_run. rewrite Nat2Z.id.
  destruct (remove_node_run t bs i l b n Ht El Eb Hlb (Hin n Hn Hkn) Hmax) as (l' & b' & Er & Hp & Ht'). krun Er.
  assert (Ed : node_data n = data).
  { assert (En : m !! key = Some (node_data n)) by (apply Hm; by exists n). congruence. }
  rewrite Ed. eexists _, _. split; [done|]. rewrite <- Hkn.
  split; [by eapply removed_holds; [exact Hp|exact Ht'|apply Ht|]|]. by eapply removed_used.
Qed.

Lemma hash_remove_missing t m used key : table_holds t m used -> m !! key = None -> hash_remove hash_code key t = Trap KernelPanic.
Proof.
  intros (bs & Ht & -> & Hm) Hk. unfold hash_remove. destruct (find_node_run t bs key Ht) as (r & E & Hr). rewrite E. cbn.
  destruct r as [n|]; [|done]. destruct Hr as [Hn Hkn].
  assert (En : m !! key = Some (node_data n)) by (apply Hm; by exists n). congruence.
Qed.

Lemma hash_pop_run t m used : table_holds t m used -> element_count t < 2 ^ 32 ->
  (m = ∅ /\ hash_pop t = Ret (None, t)) \/
  (exists key data t' used', m !! key = Some data /\ hash_pop t = Ret (Some data, t') /\ table_holds t' (delete key m) used' /\ used' ⊆ used).
Proof.
  intros (bs & Ht & -> & Hm) Hmax. pose proof (tb_slots t bs Ht) as Hs. destruct (tb_shape t bs Ht) as (p & Hp & Hc & _ & Hl & _).
  pose proof (Forall2_length _ _ _ Hs) as Hlen. unfold hash_pop. rewrite Hc, <- Hl, Nat2Z.id, Hlen.
  enough (H' : forall k, (k <= length bs)%nat -> (forall i b, bs !! i = Some b -> (i < length bs - k)%nat -> b = []) ->
    (concat bs = [] /\ hash_pop_from k (Z.of_nat (length bs - k)) t = Ret (None, t)) \/
    (exists n t' bs', hash_pop_from k (Z.of_nat (length bs - k)) t = Ret (Some (node_data n), t') /\
       n :: concat bs' ≡ₚ concat bs /\ table_buckets t' bs')).
  { destruct (H' (length bs) ltac:(lia)) as [[Hnil E]|(n & t' & bs' & E & Hperm & Ht')]; [intros; lia|left|right].
    - rewrite Nat.sub_diag in E. split; [|exact E]. apply map_eq. intros k. rewrite lookup_empty.
      destruct (m !! k) eqn:Ek; [|done]. apply Hm in Ek as (x & Hx & _). rewrite Hnil in Hx. inversion Hx.
    - rewrite Nat.sub_diag in E. exists (node_key n), (node_data n), t', (list_to_set (key_at <$> concat bs')).
      assert (Hn : n ∈ concat bs) by (rewrite <- Hperm; left).
      split; [apply Hm; by exists n|]. split; [exact E|]. split; [by eapply removed_holds; [exact Hperm|exact Ht'|apply Ht|]|].
      by eapply removed_used. }
  induction k as [|k IH]; intros Hk Hempty; cbn [hash_pop_from].
  - left. split; [|done]. destruct (concat bs) as [|n l] eqn:E; [done|]. exfalso.
    assert (Hn : n ∈ concat bs) by (rewrite E; left). apply elem_of_concat in Hn as (b & Hb & Hin).
    apply list_elem_of_lookup in Hin as (i & Ei). pose proof (lookup_lt_Some _ _ _ Ei).
    rewrite (Hempty i b Ei) in Hb by lia. inversion Hb.
  - set (i := (length bs - S k)%nat). destruct (lookup_lt_is_Some_2 bs i) as [b Eb]; [lia|].
    destruct (Forall2_lookup_r _ _ _ _ _ Hs Eb) as (l & El & Hlb). pose proof El as El'.
    rewrite <- (Nat2Z.id i) in El'. krun array_get_run. pose proof Hlb as [Hcount _]. rewrite Hcount. destruct b as [|n b].
    + cbn. replace (Z.of_nat i + 1) with (Z.of_nat (length bs - k)) by lia. apply IH; [lia|].
      intros j b' Ej Hj. destruct (decide (j = i)) as [->|]; [congruence|]. apply (Hempty j b' Ej). lia.
    + right. rewrite (proj2 (Z.ltb_lt 0 _)) by (cbn; lia).
      assert (E0 : list_index l 0 = Ret n) by (apply (list_index_run l (n :: b) 0 n Hlb); done). krun E0.
      destruct (remove_node_run t bs i l (n :: b) n Ht El Eb Hlb ltac:(left) Hmax) as (l' & b' & Er & Hperm & Ht'). krun Er.
      rewrite Nat2Z.id. eexists n, _, _. split; [done|]. split; [exact Hperm|exact Ht'].
Qed.

Lemma hash_reset_holds t m used : table_holds t m used -> table_holds (hash_reset t) ∅ ∅.
Proof.
  intros (bs & [Hs (p & Hp & Hc & Hsh & Hl & _) _ _ _] & _ & _). exists ((fun _ => []) <$> bs).
  assert (Hnil : concat ((fun _ => [] : list (hash_node K A)) <$> bs) = []) by (clear; induction bs; done).
  split; [|split; [by rewrite Hnil|]].
  - split; cbn; rewrite ?Hnil; try done; try constructor.
    + clear -Hs. induction Hs; constructor; [by eapply list_reset_holds|done].
    + exists p. rewrite length_fmap. do 4 (split; [done|]). intros i b n Eb Hn. rewrite list_lookup_fmap in Eb.
      destruct (bs !! i); [|done]. cbn in Eb. simplify_eq. inversion Hn.
  - rewrite Hnil. intros k v. rewrite lookup_empty. split; [done|]. intros (x & Hx & _). inversion Hx.
Qed.

Lemma table_count t m used : table_holds t m used -> element_count t = Z.of_nat (base.size m).
Proof.
  intros (bs & Ht & _ & Hm). rewrite (tb_count t bs Ht). f_equal. rewrite <- (length_fmap node_key).
  rewrite <- (size_list_to_set (C := gset K)) by apply Ht. rewrite <- size_dom. f_equal. apply set_eq. intros k.
  rewrite elem_of_list_to_set, list_elem_of_fmap, elem_of_dom. split.
  - intros (n & -> & Hn). exists (node_data n). apply Hm. by exists n.
  - intros [v Hv]. apply Hm in Hv as (n & Hn & <- & _). by exists n.
Qed.
End HashTables.

(** ** The contracts *)

(** A map: what the callers of [hash_table_m] rely on. *)
Inductive table_op (K A : Type) :=
  | TAdd (new_key : Z) (key : K) (data : A)
  | TFind (key : K)
  | TIsValid (key : K)
  | TRemove (key : K)
  | TPop
  | TReset
  | TCount.
Arguments TAdd {_ _} _ _ _.
Arguments TFind {_ _} _.
Arguments TIsValid {_ _} _.
Arguments TRemove {_ _} _.
Arguments TPop {_ _}.
Arguments TReset {_ _}.
Arguments TCount {_ _}.

Inductive table_answer (A : Type) := ADone | AData (d : option A) | ATruth (b : bool) | ANumber (n : Z).
Arguments ADone {_}.
Arguments AData {_} _.
Arguments ATruth {_} _.
Arguments ANumber {_} _.

Definition table_step {K A} `{EqDecision K} (hash_code : K -> Z) (op : table_op K A) (t : hash_table_m K A)
    : res (table_answer A * hash_table_m K A) :=
  match op with
  | TAdd new_key key data => t ← hash_add hash_code new_key true true key data t; mret (ADone, t)
  | TFind key => d ← hash_find hash_code t key; mret (AData d, t)
  | TIsValid key => b ← hash_is_valid hash_code t key; mret (ATruth b, t)
  | TRemove key => '(d, t) ← hash_remove hash_code key t; mret (AData (Some d), t)
  | TPop => '(d, t) ← hash_pop t; mret (AData d, t)
  | TReset => mret (ADone, hash_reset t)
  | TCount => mret (ANumber (element_count t), t)
  end.

Inductive map_step {K A} `{Countable K} (m : gmap K A) : table_op K A -> table_answer A -> gmap K A -> Prop :=
  | MAdd a key data : m !! key = None -> map_step m (TAdd a key data) ADone (<[key := data]> m)
  | MFind key : map_step m (TFind key) (AData (m !! key)) m
  | MIsValid key : map_step m (TIsValid key) (ATruth (bool_decide (is_Some (m !! key)))) m
  | MRemove key data : m !! key = Some data -> map_step m (TRemove key) (AData (Some data)) (delete key m)
  | MPop key data : m !! key = Some data -> map_step m TPop (AData (Some data)) (delete key m)
  | MPopEmpty : m = ∅ -> map_step m TPop (AData None) m
  | MReset : map_step m TReset ADone ∅
  | MCount : map_step m TCount (ANumber (Z.of_nat (base.size m))) m.

(** The contract of a call: a new key is not in the table and its copy is at an
    unused address; a removed key is in the table. *)
Definition table_pre {K A} `{Countable K} (m : gmap K A) (used : gset Z) (op : table_op K A) : Prop :=
  match op with
  | TAdd new_key key _ => m !! key = None /\ new_key <> NULL /\ (new_key ∉ used) /\ Z.of_nat (base.size m) < 2 ^ 28
  | TRemove key => is_Some (m !! key)
  | _ => True
  end.

(** C16. The Fibonacci hash table implements a finite map: every call within
    the contract succeeds, keeps the invariant of the buckets, and gives an
    answer that the map allows ([pop] may take any entry). *)
Theorem hash_table_refines_map {K A} `{Countable K} (hash_code : K -> Z) (t : hash_table_m K A) m used op :
  table_holds hash_code t m used -> Z.of_nat (base.size m) < 2 ^ 32 -> table_pre m used op ->
  exists answer t' m' used', table_step hash_code op t = Ret (answer, t') /\ map_step m op answer m' /\
    table_holds hash_code t' m' used' /\ (forall a, a ∈ used' -> a ∈ used \/ exists k d, op = TAdd a k d).
Proof.
  intros Ht Hmax Hpre. rewrite <- (table_count _ _ _ _ Ht) in Hmax. destruct op as [a k d|k|k|k| | |]; cbn [table_step].
  - destruct Hpre as (Hk & Ha & Hf & Hs). rewrite <- (table_count _ _ _ _ Ht) in Hs.
    destruct (hash_add_run hash_code t m used a k d Ht Hk Ha Hf Hs) as (t' & E & Ht'). krun E. eexists _, _, _, _.
    split; [done|]. split; [by constructor|]. split; [exact Ht'|]. intros x [->%elem_of_singleton|?]%elem_of_union; eauto.
  - destruct (hash_find_run hash_code t m used k Ht) as [E _]. krun E. eexists _, _, _, _. split; [done|]. split; [constructor|]. eauto.
  - destruct (hash_find_run hash_code t m used k Ht) as [_ E]. krun E. eexists _, _, _, _. split; [done|]. split; [constructor|]. eauto.
  - destruct Hpre as [d Hd]. destruct (hash_remove_run hash_code t m used k d Ht Hd Hmax) as (t' & used' & E & Ht' & Hu). krun E.
    eexists _, _, _, _. split; [done|]. split; [by constructor|]. split; [exact Ht'|]. eauto.
  - destruct (hash_pop_run hash_code t m used Ht Hmax) as [[Hm E]|(k & d & t' & used' & Hk & E & Ht' & Hu)]; krun E.
    + eexists _, _, _, _. split; [done|]. split; [by constructor|]. eauto.
    + eexists _, _, _, _. split; [done|]. split; [by econstructor|]. split; [exact Ht'|]. eauto.
  - eexists _, _, _, _. split; [done|]. split; [constructor|]. split; [by eapply hash_reset_holds|]. intros x Hx. set_solver.
  - eexists _, _, _, _. split; [done|]. rewrite (table_count _ _ _ _ Ht). split; [constructor|]. eauto.
Qed.

(** A table of 16 buckets with thread numbers as keys. *)
Lemma hash_table_refines_map_witness : exists (t : hash_table_m Z Z) answer t' m' used', hash_new true 16 = Ret t /\
  table_step (fun k => k) (TAdd 0x900000 7 42) t = Ret (answer, t') /\ map_step ∅ (TAdd 0x900000 7 42) answer m' /\
  table_holds (fun k => k) t' m' used'.
Proof.
  destruct (hash_new_holds (A := Z) (fun k : Z => k) 16 ltac:(lia)) as (t & E & Ht).
  destruct (hash_table_refines_map (fun k => k) t ∅ ∅ (TAdd 0x900000 7 42) Ht ltac:(by vm_compute))
    as (answer & t' & m' & used' & Es & Hm & Ht' & _).
  { split; [reflexivity|]. split; [by vm_compute|]. split; [apply not_elem_of_empty|by vm_compute]. }
  exists t, answer, t', m', used'. split; [exact E|]. split; [exact Es|]. split; [exact Hm|exact Ht'].
Defined.

(** A first-in first-out list with a second entrance at the front. A node that
    cannot be allocated (a null address) leaves the queue as it is. *)
Inductive queue_op (A : Type) := QPush (node : Z) (x : A) | QPushHead (node : Z) (x : A) | QPop | QReset.
Arguments QPush {_} _ _.
Arguments QPushHead {_} _ _.
Arguments QPop {_}.
Arguments QReset {_}.

Definition queue_step {A} (op : queue_op A) (q : queue_m A) : res (option A * queue_m A) :=
  match op with
  | QPush node x => q ← queue_push node x q; mret (None, q)
  | QPushHead node x => q ← queue_push_head node x q; mret (None, q)
  | QPop => '(x, q) ← queue_pop q; mret (Some x, q)
  | QReset => q ← queue_reset (Z.to_nat (queue_count q)) q; mret (None, q)
  end.

Definition fifo_step {A} (op : queue_op A) (xs : list A) : res (option A * list A) :=
  match op with
  | QPush node x => mret (None, if node =? NULL then xs else xs ++ [x])
  | QPushHead node x => mret (None, if node =? NULL then xs else x :: xs)
  | QPop => match xs with x :: xs => mret (Some x, xs) | [] => Trap KernelPanic end
  | QReset => mret (None, [])
  end.

(** A new node is at an address that no node of the queue has. *)
Definition queue_pre {A} (q : queue_m A) (op : queue_op A) : Prop :=
  match op with
  | QPush node _ | QPushHead node _ => queue_nodes q !! node = None
  | _ => True
  end.

(** The linked list behind [queue_m] is a first-in first-out queue: each
    operation answers as the abstract list does (an empty queue panics), no
    link dangles and no node is lost; when no node can be allocated the object
    is dropped without notice. *)
Theorem queue_is_fifo {A} (q : queue_m A) xs op : queue_holds q xs -> Z.of_nat (length xs) < 2 ^ 31 -> queue_pre q op ->
  match fifo_step op xs with
  | Ret (answer, xs') => exists q', queue_step op q = Ret (answer, q') /\ queue_holds q' xs' /\
      queue_is_empty q' = bool_decide (xs' = [])
  | Trap t => queue_step op q = Trap t
  end.
Proof.
  intros Hq Hlen Hpre. destruct op as [node x|node x| |]; cbn [fifo_step queue_step].
  - cbn. destruct (Z.eqb_spec node NULL) as [->|Hn].
    + eexists. split; [done|]. split; [done|]. by apply queue_is_empty_run.
    + destruct (queue_push_run q xs node x Hq Hn Hpre Hlen) as (q' & E & Hq'). krun E. exists q'. split; [done|].
      split; [done|]. by apply queue_is_empty_run.
  - cbn. destruct (Z.eqb_spec node NULL) as [->|Hn].
    + eexists. split; [done|]. split; [done|]. by apply queue_is_empty_run.
    + destruct (queue_push_head_run q xs node x Hq Hn Hpre Hlen) as (q' & E & Hq'). krun E. exists q'. split; [done|].
      split; [done|]. by apply queue_is_empty_run.
  - destruct xs as [|x xs]; [by rewrite (queue_pop_empty q Hq)|].
    destruct (queue_pop_run q x xs Hq) as (q' & E & Hq' & _). cbn. krun E. exists q'. split; [done|].
    split; [done|]. by apply queue_is_empty_run.
  - pose proof Hq as (ps & [_ _ _ _ _ Hn] & Ex). cbn.
    destruct (queue_reset_run (Z.to_nat (queue_count q)) q xs Hq) as (q' & E & Hq').
    { rewrite Hn, Nat2Z.id, <- Ex, length_fmap. done. }
    krun E. exists q'. split; [done|]. split; [done|]. exact (queue_is_empty_run q' [] Hq').
Qed.

Lemma queue_is_fifo_witness : exists q : queue_m Z, queue_push 0x900000 5 queue_new = Ret q /\
  exists q', queue_step (QPushHead 0x900008 7) q = Ret (None, q') /\ queue_holds q' [7; 5].
Proof.
  destruct (queue_push_run queue_new [] 0x900000 5 queue_new_holds ltac:(by vm_compute) ltac:(reflexivity) ltac:(by vm_compute))
    as (q & E & Hq). exists q. split; [exact E|].
  assert (Hpre : queue_pre q (QPushHead 0x900008 7)) by (cbn in E; injection E as <-; reflexivity).
  destruct (queue_is_fifo q [5] (QPushHead 0x900008 7) Hq ltac:(by vm_compute) Hpre) as (q' & E' & Hq' & _).
  exists q'. split; [exact E'|exact Hq'].
Defined.

(** The pool of pending messages: adding a message, removing any message
    it contains and choosing one with a number below its count never fail,
    every pending message knows its index, and the pool contains each pending
    message once. *)
Theorem message_pool_is_a_set p xs m random : pool_holds p xs -> Z.of_nat (length xs) < 2 ^ 28 ->
  ((m ∉ xs) -> exists p' ys, message_pool_add true m p = Ret p' /\ pool_holds p' ys /\ ys ≡ₚ m :: xs) /\
  (m ∈ xs -> exists p' ys, message_pool_remove m p = Ret p' /\ pool_holds p' ys /\ m :: ys ≡ₚ xs) /\
  (0 <= random < pool_count p -> exists m', message_pool_select random p = Ret m' /\ m' ∈ xs) /\
  pool_count p = Z.of_nat (length xs).
Proof.
  intros Hp Hlen. split; [|split; [|split]].
  - intros Hm. destruct (message_pool_add_run p xs m Hp Hlen Hm) as (p' & E & Hp'). exists p', (xs ++ [m]).
    split; [done|]. split; [done|]. symmetry. apply Permutation_cons_append.
  - by apply message_pool_remove_run.
  - by apply message_pool_select_run.
  - apply Hp.
Qed.

Lemma message_pool_is_a_set_witness : exists p p' ys, message_pool_add true 11 (message_pool_new ∅) = Ret p /\
  message_pool_remove 11 p = Ret p' /\ pool_holds p' ys.
Proof.
  destruct (message_pool_add_run (message_pool_new ∅) [] 11 (message_pool_new_holds ∅) ltac:(by vm_compute)) as (p & E & Hp).
  { apply not_elem_of_nil. }
  destruct (message_pool_is_a_set p [11] 11 0 Hp ltac:(by vm_compute)) as (_ & Hrem & _).
  destruct Hrem as (p' & ys & Er & Hp' & _); [left|]. exists p, p', ys. split; [exact E|]. split; [exact Er|exact Hp'].
Defined.
