(* ===== verification/KThreads.v ===== *)
(** * Kernel threads and messages: [thread.cpp], [io_manager.cpp], [message.cpp], [thread_manager.cpp], [cleanup_thread.cpp]

    The state holds the thread and message objects by address; an object that
    was deleted is gone, and using its address is a trap. Objects are numbered
    in the order of their allocation. Where the code uses a container, the
    state has what the container holds: a mailbox is the list of its messages,
    the pool the list in its array, the thread table a finite map.

    [remove_reference] deletes an object with its last reference, and the
    destructor of a thread can send a message, which can fail and delete
    another object: the methods that call each other in this circle take the
    record [reentry] of the two entry points of the circle, and [entries] ties
    the knot with fuel.

    A call that suspends its thread ([thread_yield]) is two functions: the part
    before and the part after; what the suspended stack needs later is the
    [suspended] field of the thread. Locks and interrupts are not part of the
    state: each function runs as one step. *)

From S2P Require Import Prelude CMem CStringSearch World Libdx Process Loader KBase.

(** ** Constants *)

Definition STATUS_MAILBOX_DISABLED : Z := -1000.
Definition STATUS_THREAD_EXITED : Z := -1001.
Definition STATUS_MAILBOX_EMPTY : Z := -43.
Definition STATUS_MAILBOX_OVERFLOW : Z := -64.
Definition STATUS_MESSAGE_DEADLOCK : Z := -16.

Definition MESSAGE_TYPE_DELETE_THREAD : Z := SYSTEM_MESSAGE 2.
Definition MESSAGE_TYPE_DELETE_THREAD_COMPLETE : Z := SYSTEM_MESSAGE 3.

Definition THREAD_ID_BOOT : Z := u32 (-16).
Definition THREAD_ID_CLEANUP : Z := u32 (-15).
Definition THREAD_ID_AUTO_ALLOCATE : Z := THREAD_ID_INVALID.

Definition CAPABILITY_CREATE_THREAD : Z := 0x10.
Definition CAPABILITY_DELETE_THREAD : Z := 0x20.

Definition MESSAGE_CONTROL_NONE : Z := 0.
Definition MESSAGE_CONTROL_BLOCKING : Z := 1.
Definition MAILBOX_DEFAULT_LIMIT : Z := 64.
Definition SCHEDULING_QUANTUM_DEFAULT : Z := 12.

(** ** Objects *)

Inductive thread_state_e := THREAD_STATE_READY | THREAD_STATE_BLOCKED.
#[export] Instance thread_state_eq_dec : EqDecision thread_state_e.
Proof. solve_decision. Defined.

(** The three classes of messages. *)
Inductive message_class := SmallMessage | MediumMessage | LargeMessage.

(** [sender_payload] is the payload word of a small message. *)
Record message_c := mkMsg {
  m_class : message_class; control : Z; destination : Z; m_id : Z; source : Z; m_type : Z;
  payload_size : Z; receiver_payload : Z; sender_payload : Z }.

(** What a thread suspended in [send_message] has on its stack: the recipient,
    the id of the request, and its caller. *)
Inductive send_caller := FromSyscall (destination : Z) | FromDeletion.
Record send_frame := mkFrame { recipient : Z; request_id : Z; caller : send_caller }.

(** [blocking_message_id] is not initialised by the constructor; it is read only
    in a blocked thread. Pointers are addresses, 0 is NULL. *)
Record thread_c := mkThread {
  t_id : Z; state : thread_state_e; blocking_message_id : Z; blocking_thread : Z;
  bonus_message : Z; capability_mask : Z; deletion_acknowledgement : Z;
  mailbox_enabled : bool; message_queue : list Z; tick_count : Z; reference_count : Z;
  suspended : option send_frame }.

(** The counters of the I/O manager. *)
Record io_counters := mkCounters {
  direct_handoff_count : Z; idle_count : Z; incomplete_count : Z; lottery_count : Z;
  message_count : Z; receive_error_count : Z; send_error_count : Z }.

Record kernel := mkKernel {
  threads : gmap Z thread_c; msgs : gmap Z message_c; pending_messages : list Z;
  thread_table : gmap Z Z; next_thread_id : Z; next_object : Z;
  current_thread : Z; null_thread : Z; cleanup_thread : Z; counters : io_counters }.

(** Updates of single fields. *)
Definition with_threads s v := mkKernel v (msgs s) (pending_messages s) (thread_table s) (next_thread_id s) (next_object s) (current_thread s) (null_thread s) (cleanup_thread s) (counters s).
Definition with_msgs s v := mkKernel (threads s) v (pending_messages s) (thread_table s) (next_thread_id s) (next_object s) (current_thread s) (null_thread s) (cleanup_thread s) (counters s).
Definition with_pending s v := mkKernel (threads s) (msgs s) v (thread_table s) (next_thread_id s) (next_object s) (current_thread s) (null_thread s) (cleanup_thread s) (counters s).
Definition with_table s v := mkKernel (threads s) (msgs s) (pending_messages s) v (next_thread_id s) (next_object s) (current_thread s) (null_thread s) (cleanup_thread s) (counters s).
Definition with_next_thread_id s v := mkKernel (threads s) (msgs s) (pending_messages s) (thread_table s) v (next_object s) (current_thread s) (null_thread s) (cleanup_thread s) (counters s).
Definition with_next_object s v := mkKernel (threads s) (msgs s) (pending_messages s) (thread_table s) (next_thread_id s) v (current_thread s) (null_thread s) (cleanup_thread s) (counters s).
Definition with_current s v := mkKernel (threads s) (msgs s) (pending_messages s) (thread_table s) (next_thread_id s) (next_object s) v (null_thread s) (cleanup_thread s) (counters s).
Definition with_counters s v := mkKernel (threads s) (msgs s) (pending_messages s) (thread_table s) (next_thread_id s) (next_object s) (current_thread s) (null_thread s) (cleanup_thread s) v.

Definition with_references t n := mkThread (t_id t) (state t) (blocking_message_id t) (blocking_thread t) (bonus_message t) (capability_mask t) (deletion_acknowledgement t) (mailbox_enabled t) (message_queue t) (tick_count t) n (suspended t).
Definition with_queue t q := mkThread (t_id t) (state t) (blocking_message_id t) (blocking_thread t) (bonus_message t) (capability_mask t) (deletion_acknowledgement t) (mailbox_enabled t) q (tick_count t) (reference_count t) (suspended t).
Definition with_blocking t st id b := mkThread (t_id t) st id b (bonus_message t) (capability_mask t) (deletion_acknowledgement t) (mailbox_enabled t) (message_queue t) (tick_count t) (reference_count t) (suspended t).
Definition with_bonus t m := mkThread (t_id t) (state t) (blocking_message_id t) (blocking_thread t) m (capability_mask t) (deletion_acknowledgement t) (mailbox_enabled t) (message_queue t) (tick_count t) (reference_count t) (suspended t).
Definition with_ticks t n := mkThread (t_id t) (state t) (blocking_message_id t) (blocking_thread t) (bonus_message t) (capability_mask t) (deletion_acknowledgement t) (mailbox_enabled t) (message_queue t) n (reference_count t) (suspended t).
Definition with_suspended t f := mkThread (t_id t) (state t) (blocking_message_id t) (blocking_thread t) (bonus_message t) (capability_mask t) (deletion_acknowledgement t) (mailbox_enabled t) (message_queue t) (tick_count t) (reference_count t) f.
Definition with_acknowledgement t m := mkThread (t_id t) (state t) (blocking_message_id t) (blocking_thread t) (bonus_message t) (capability_mask t) m (mailbox_enabled t) (message_queue t) (tick_count t) (reference_count t) (suspended t).

(** [disable_mailbox]. *)
Definition disable_mailbox t := mkThread (t_id t) (state t) (blocking_message_id t) (blocking_thread t) (bonus_message t) (capability_mask t) (deletion_acknowledgement t) false (message_queue t) (tick_count t) (reference_count t) (suspended t).

(** ** Commands *)

Definition K (A : Type) : Type := kernel -> res (A * kernel).

#[export] Instance K_ret : MRet K := fun A a s => Ret (a, s).
#[export] Instance K_bind : MBind K := fun A B k c s =>
  match c s with
  | Ret (a, s') => k a s'
  | Trap t => Trap t
  end.

Definition ktrap {A} (t : trap) : K A := fun _ => Trap t.
Definition ASSERT (b : bool) : K unit := if b then mret tt else ktrap AssertFailed.
Definition gets {A} (f : kernel -> A) : K A := fun s => Ret (f s, s).
Definition modify (f : kernel -> kernel) : K unit := fun s => Ret (tt, f s).

(** Access through a pointer. *)
Definition thread_at (p : Z) : K thread_c := fun s =>
  match threads s !! p with Some t => Ret (t, s) | None => Trap (BadLoad p) end.
Definition message_at (m : Z) : K message_c := fun s =>
  match msgs s !! m with Some c => Ret (c, s) | None => Trap (BadLoad m) end.
Definition set_thread (p : Z) (t : thread_c) : K unit := modify (fun s => with_threads s (<[p := t]> (threads s))).
Definition set_message (m : Z) (c : message_c) : K unit := modify (fun s => with_msgs s (<[m := c]> (msgs s))).
Definition count (f : io_counters -> io_counters) : K unit := modify (fun s => with_counters s (f (counters s))).

(** [thread_c::operator==] compares the ids. *)
Definition same_thread (p q : Z) : K bool :=
  t ← thread_at p; u ← thread_at q; mret (t_id t =? t_id u).

Definition has_capability (mask : Z) (t : thread_c) : bool := Z.land (capability_mask t) mask =? mask.
Definition overflow (t : thread_c) : bool := MAILBOX_DEFAULT_LIMIT <=? Z.of_nat (length (message_queue t)).
Definition is_blocking (c : message_c) : bool := negb (Z.land (control c) MESSAGE_CONTROL_BLOCKING =? 0).

Definition count_direct_handoff c := mkCounters (s32 (direct_handoff_count c + 1)) (idle_count c) (incomplete_count c) (lottery_count c) (message_count c) (receive_error_count c) (send_error_count c).
Definition count_idle c := mkCounters (direct_handoff_count c) (s32 (idle_count c + 1)) (incomplete_count c) (lottery_count c) (message_count c) (receive_error_count c) (send_error_count c).
Definition count_incomplete c := mkCounters (direct_handoff_count c) (idle_count c) (s32 (incomplete_count c + 1)) (lottery_count c) (message_count c) (receive_error_count c) (send_error_count c).
Definition count_lottery c := mkCounters (direct_handoff_count c) (idle_count c) (incomplete_count c) (s32 (lottery_count c + 1)) (message_count c) (receive_error_count c) (send_error_count c).
Definition count_message c := mkCounters (direct_handoff_count c) (idle_count c) (incomplete_count c) (lottery_count c) (s32 (message_count c + 1)) (receive_error_count c) (send_error_count c).
Definition count_receive_error c := mkCounters (direct_handoff_count c) (idle_count c) (incomplete_count c) (lottery_count c) (message_count c) (s32 (receive_error_count c + 1)) (send_error_count c).
Definition count_send_error c := mkCounters (direct_handoff_count c) (idle_count c) (incomplete_count c) (lottery_count c) (message_count c) (receive_error_count c) (s32 (send_error_count c + 1)).

(** The pool of pending messages, as its array: removal moves the last message
    into the gap. Removing a message that is not in the pool is an error. *)
Definition pool_remove (m : Z) (xs : list Z) : option (list Z) :=
  match list_find (fun y => y = m) xs with
  | Some (i, _) => Some (take (length xs - 1) (<[i := default m (last xs)]> xs))
  | None => None
  end.

Definition pending_add (m : Z) : K unit := modify (fun s => with_pending s (pending_messages s ++ [m])).
Definition pending_remove (m : Z) : K unit := fun s =>
  match pool_remove m (pending_messages s) with
  | Some xs => Ret (tt, with_pending s xs)
  | None => Trap AssertFailed
  end.

(** What the rest of the kernel answers: the allocator, the address space of the
    current thread (the status of [share_frame] and [commit_frame] for the
    payload of a message, the address of a payload block or NULL) and the
    memory manager. *)
Class environment := {
  memory_available : kernel -> bool;
  share_frame : kernel -> message_c -> Z;
  commit_frame : kernel -> message_c -> Z;
  allocate_medium_payload_block : kernel -> Z;
  allocate_large_payload_block : kernel -> Z;
  find_address_space : kernel -> Z -> Z }.

(** The allocator never fails. *)
Class ample_memory `{environment} : Prop := memory_never_fails : forall s, memory_available s = true.

Section Kernel.
Context `{environment}.

(** [operator new]: the address of a new object, or NULL. *)
Definition new_object : K Z := fun s =>
  if memory_available s then Ret (next_object s, with_next_object s (next_object s + 1)) else Ret (NULL, s).

(** ** counted_object.hpp *)

(** The entry points of the circle of calls: the destructor of a thread and
    [io_manager_c::put_message]. *)
Record reentry := mkReentry { delete_object : Z -> K unit; put : Z -> K Z }.

Definition add_reference (p : Z) : K unit :=
  t ← thread_at p;
  ASSERT (0 <? reference_count t);;
  set_thread p (with_references t (reference_count t + 1)).

Definition remove_reference (e : reentry) (p : Z) : K unit :=
  t ← thread_at p;
  set_thread p (with_references t (reference_count t - 1));;
  ASSERT (0 <=? reference_count t - 1);;
  if reference_count t - 1 =? 0 then delete_object e p else mret tt.

(** ** message.hpp and message.cpp *)

(** The constructor of [message_c] and the fields of the derived class. *)
Definition construct_message (m : Z) (c : message_c) : K unit :=
  set_message m c;;
  add_reference (source c);;
  add_reference (destination c).

(** [new small_message_c]; NULL when there is no memory. *)
Definition new_small_message (source destination type id payload : Z) : K Z :=
  m ← new_object;
  if m =? NULL then mret NULL
  else
    construct_message m (mkMsg SmallMessage MESSAGE_CONTROL_NONE destination id source type 0 NULL payload);;
    mret m.

(** The constructor for a reply. *)
Definition new_reply (request : message_c) (type payload : Z) : K Z :=
  new_small_message (destination request) (source request) type (m_id request) payload.

Definition new_medium_message (source destination type id payload size : Z) : K Z :=
  m ← new_object;
  if m =? NULL then mret NULL
  else
    let size := Z.min size MEDIUM_MESSAGE_PAYLOAD_SIZE in
    construct_message m (mkMsg MediumMessage MESSAGE_CONTROL_NONE destination id source type size NULL payload);;
    ASSERT (size <=? MEDIUM_MESSAGE_PAYLOAD_SIZE);;
    ASSERT (0 <? size);;
    mret m.

Definition new_large_message (source destination type id payload size receiver : Z) : K Z :=
  m ← new_object;
  if m =? NULL then mret NULL
  else
    construct_message m (mkMsg LargeMessage MESSAGE_CONTROL_NONE destination id source type size receiver payload);;
    ASSERT (0 <? size);;
    ASSERT (negb (payload =? NULL));;
    mret m.

(** [delete(message)]: the object is taken out of the state first, then its
    destructor releases the threads. *)
Definition destroy_message (e : reentry) (m : Z) : K unit :=
  c ← message_at m;
  modify (fun s => with_msgs s (delete m (msgs s)));;
  remove_reference e (source c);;
  remove_reference e (destination c).

Definition allocate_message (source destination type id payload size receiver : Z) : K Z :=
  if (MEDIUM_MESSAGE_PAYLOAD_SIZE <? size) || negb (receiver =? NULL) then
    new_large_message source destination type id payload size receiver
  else if 0 <? size then new_medium_message source destination type id payload size
  else new_small_message source destination type id payload.

(** [collect_payload] of the three classes. *)
Definition collect_payload (c : message_c) : K Z :=
  match m_class c with
  | SmallMessage => mret STATUS_SUCCESS
  | MediumMessage => mret STATUS_SUCCESS
  | LargeMessage =>
      p ← gets current_thread;
      thread ← thread_at p;
      if sender_payload c =? NULL then mret STATUS_INVALID_DATA
      else if negb (receiver_payload c =? NULL) && negb (has_capability CAPABILITY_EXPLICIT_TARGET_ADDRESS thread) then
        mret STATUS_ACCESS_DENIED
      else if negb (receiver_payload c =? NULL) && negb (PAGE_OFFSET (sender_payload c) =? PAGE_OFFSET (receiver_payload c)) then
        mret STATUS_IO_ERROR
      else if negb (receiver_payload c =? NULL) && negb (is_user_address (receiver_payload c)) then
        mret STATUS_ACCESS_DENIED
      else gets (fun s => share_frame s c)
  end.

(** [deliver_payload] of the three classes; it stores the address where the
    receiver finds the payload. *)
Definition with_receiver (c : message_c) (a : Z) : message_c :=
  mkMsg (m_class c) (control c) (destination c) (m_id c) (source c) (m_type c) (payload_size c) a (sender_payload c).

Definition deliver_payload (m : Z) : K Z :=
  c ← message_at m;
  match m_class c with
  | SmallMessage => mret STATUS_SUCCESS
  | MediumMessage =>
      a ← gets allocate_medium_payload_block;
      set_message m (with_receiver c a);;
      mret (if negb (a =? NULL) then STATUS_SUCCESS else STATUS_INSUFFICIENT_MEMORY)
  | LargeMessage =>
      page ← (if receiver_payload c =? NULL then
                page ← gets allocate_large_payload_block;
                set_message m (with_receiver c (u32 (page + PAGE_OFFSET (sender_payload c))));;
                mret page
              else
                ASSERT (PAGE_OFFSET (sender_payload c) =? PAGE_OFFSET (receiver_payload c));;
                mret (PAGE_BASE (receiver_payload c)));
      if negb (page =? NULL) then c ← message_at m; gets (fun s => commit_frame s c)
      else mret STATUS_INSUFFICIENT_MEMORY
  end.

Definition read_payload (c : message_c) : Z :=
  match m_class c with SmallMessage => sender_payload c | _ => receiver_payload c end.
Definition read_payload_size (c : message_c) : Z :=
  match m_class c with SmallMessage => 0 | _ => payload_size c end.

(** ** thread.cpp *)

(** The walk along the chain of blocked threads, one thread per unit of fuel. *)
Fixpoint follow_chain (fuel : nat) (p : Z) : K Z :=
  t ← thread_at p;
  if blocking_thread t =? NULL then mret p
  else
    ASSERT (bool_decide (state t = THREAD_STATE_BLOCKED));;
    match fuel with
    | O => ktrap OutOfFuel
    | S f => follow_chain f (blocking_thread t)
    end.

(** The thread that prevents [p] from executing, NULL when [p] is not blocked.
    A chain without a cycle has at most as many links as there are threads. *)
Definition find_blocking_thread (p : Z) : K Z :=
  t ← thread_at p;
  if blocking_thread t =? NULL then mret NULL
  else
    ASSERT (bool_decide (state t = THREAD_STATE_BLOCKED));;
    fuel ← gets (fun s => base.size (threads s));
    follow_chain fuel (blocking_thread t).

Definition causes_scheduling_loop (p current : Z) (c : message_c) : K bool :=
  if is_blocking c then
    itself ← same_thread current p;
    if (itself : bool) then mret true
    else
      b ← find_blocking_thread p;
      if negb (b =? NULL) then same_thread current b else mret false
  else mret false.

Definition block_on (p recipient : Z) (c : message_c) : K bool :=
  current ← gets current_thread;
  itself ← same_thread p current;
  ASSERT itself;;
  if is_blocking c then
    t ← thread_at p;
    ASSERT (blocking_thread t =? NULL);;
    set_thread p (with_blocking t THREAD_STATE_BLOCKED (m_id c) recipient);;
    add_reference recipient;;
    mret true
  else mret false.

Definition unblock_on (e : reentry) (p : Z) (c : message_c) : K bool :=
  t ← thread_at p;
  if bool_decide (state t = THREAD_STATE_BLOCKED) then
    b ← thread_at (blocking_thread t);
    from ← thread_at (source c);
    if (t_id b =? t_id from) && (blocking_message_id t =? m_id c) then
      current ← gets current_thread;
      itself ← same_thread p current;
      ASSERT (negb itself);;
      set_thread p (with_blocking t THREAD_STATE_READY (blocking_message_id t) (blocking_thread t));;
      remove_reference e (blocking_thread t);;
      t ← thread_at p;
      set_thread p (with_blocking t (state t) (blocking_message_id t) NULL);;
      mret true
    else mret false
  else mret false.

(** [push] and [push_head] of the queue of the mailbox: when no node can be
    allocated the message is dropped without notice. *)
Definition mailbox_push (p m : Z) : K unit :=
  t ← thread_at p;
  node ← gets memory_available;
  if (node : bool) then set_thread p (with_queue t (message_queue t ++ [m])) else mret tt.

Definition mailbox_push_head (p m : Z) : K unit :=
  t ← thread_at p;
  node ← gets memory_available;
  if (node : bool) then set_thread p (with_queue t (m :: message_queue t)) else mret tt.

(** [thread_c::put_message]. *)
Definition thread_put_message (e : reentry) (p m : Z) : K Z :=
  current ← gets current_thread;
  c ← message_at m;
  t ← thread_at p;
  if negb (mailbox_enabled t) then mret STATUS_MAILBOX_DISABLED
  else
    loop ← causes_scheduling_loop p current c;
    if (loop : bool) then mret STATUS_MESSAGE_DEADLOCK
    else
      unblocked ← unblock_on e p c;
      t ← thread_at p;
      if (unblocked : bool) then
        ASSERT (bool_decide (state t = THREAD_STATE_READY));;
        mailbox_push_head p m;;
        block_on current p c;;
        mret STATUS_SUCCESS
      else if negb (overflow t) then
        mailbox_push p m;;
        block_on current p c;;
        mret STATUS_SUCCESS
      else mret STATUS_MAILBOX_OVERFLOW.

(** [thread_c::get_message]: the status and the message. *)
Definition thread_get_message (p : Z) : K (Z * Z) :=
  t ← thread_at p;
  match message_queue t with
  | m :: q => set_thread p (with_queue t q);; mret (STATUS_SUCCESS, m)
  | [] => mret (STATUS_MAILBOX_EMPTY, NULL)
  end.

Definition get_bonus_message (p : Z) : K Z :=
  t ← thread_at p;
  if negb (bonus_message t =? NULL) then
    set_thread p (with_bonus t NULL);; mret (bonus_message t)
  else mret NULL.

Definition maybe_put_bonus_message (p : Z) : K Z :=
  current ← gets current_thread;
  itself ← same_thread p current;
  ASSERT itself;;
  t ← thread_at p;
  if negb (mailbox_enabled t) then mret NULL
  else if negb (bool_decide (message_queue t = [])) then mret NULL
  else if negb (bonus_message t =? NULL) then mret NULL
  else
    null ← gets null_thread;
    ASSERT (negb (null =? NULL));;
    m ← new_small_message null p MESSAGE_TYPE_NULL MESSAGE_ID_ATOMIC 4294967295;
    t ← thread_at p;
    set_thread p (with_bonus t m);;
    mret m.

(** The messages that wait for a thread. *)
Definition held (t : thread_c) : list Z :=
  message_queue t ++ (if bonus_message t =? NULL then [] else [bonus_message t]).

(** [mark_for_deletion]: returns the left-over messages. *)
Definition mark_for_deletion (p acknowledgement : Z) : K (list Z) :=
  current ← gets current_thread;
  itself ← same_thread p current;
  ASSERT (negb itself);;
  t ← thread_at p;
  let leftover_messages := held t in
  let t := with_bonus (with_queue (disable_mailbox t) []) NULL in
  set_thread p t;;
  if negb (acknowledgement =? NULL) then
    ASSERT (deletion_acknowledgement t =? NULL);;
    set_thread p (with_acknowledgement t acknowledgement);;
    mret leftover_messages
  else mret leftover_messages.

(** The destructor. The object is taken out of the state first: it runs when no
    reference to the thread is left. The copy-on-write page and the reference
    to the address space belong to the memory manager. *)
Definition destroy_thread (e : reentry) (p : Z) : K unit :=
  current ← gets current_thread;
  itself ← same_thread p current;
  ASSERT (negb itself);;
  t ← thread_at p;
  ASSERT (bool_decide (message_queue t = []));;
  ASSERT (bonus_message t =? NULL);;
  modify (fun s => with_threads s (delete p (threads s)));;
  (if negb (blocking_thread t =? NULL) then remove_reference e (blocking_thread t) else mret tt);;
  if negb (deletion_acknowledgement t =? NULL) then
    status ← put e (deletion_acknowledgement t);
    if negb (status =? STATUS_SUCCESS) then destroy_message e (deletion_acknowledgement t) else mret tt
  else mret tt.

(** ** put_message and its circle *)

(** [::put_message]. *)
Definition put_message (e : reentry) (source destination type id payload size receiver : Z) : K Z :=
  m ← allocate_message source destination type id payload size receiver;
  if negb (m =? NULL) then
    status ← put e m;
    (if negb (status =? STATUS_SUCCESS) then destroy_message e m else mret tt);;
    mret status
  else mret STATUS_INSUFFICIENT_MEMORY.

(** [io_manager_c::put_message]. *)
Definition io_put_message (e : reentry) (m : Z) : K Z :=
  c ← message_at m;
  let thread := destination c in
  status ← collect_payload c;
  status ← (if negb (status =? STATUS_SUCCESS) then count count_send_error;; mret status
            else
              status ← thread_put_message e thread m;
              if status =? STATUS_SUCCESS then pending_add m;; count count_message;; mret status
              else count count_send_error;; mret status);
  if status =? STATUS_MAILBOX_OVERFLOW then
    cleanup ← gets cleanup_thread;
    null ← gets null_thread;
    ASSERT (negb (cleanup =? NULL));;
    ASSERT (negb (null =? NULL));;
    t ← thread_at thread;
    put_message e null cleanup MESSAGE_TYPE_DELETE_THREAD MESSAGE_ID_ATOMIC (t_id t) 0 NULL;;
    mret status
  else mret status.

(** The circle, with fuel for the depth of the recursion. *)
Fixpoint entries (fuel : nat) : reentry :=
  match fuel with
  | O => mkReentry (fun _ => ktrap OutOfFuel) (fun _ => ktrap OutOfFuel)
  | S f => mkReentry (destroy_thread (entries f)) (io_put_message (entries f))
  end.

(** [put_response]. *)
Definition put_response (e : reentry) (request : message_c) (type response_status : Z) : K Z :=
  m ← new_reply request type (u32 response_status);
  if negb (m =? NULL) then
    status ← put e m;
    (if negb (status =? STATUS_SUCCESS) then destroy_message e m else mret tt);;
    mret status
  else mret STATUS_INSUFFICIENT_MEMORY.

(** ** io_manager.cpp *)

Definition abort_send_message (current recipient request_id status : Z) : K Z :=
  count count_incomplete;;
  m ← new_small_message recipient current MESSAGE_TYPE_ABORT request_id (u32 status);
  if m =? NULL then ktrap KernelPanic else mret m.

(** The two loops of [delete_messages]. *)
Fixpoint remove_leftovers (leftover_message : list Z) : K unit :=
  match leftover_message with
  | [] => mret tt
  | m :: rest =>
      xs ← gets pending_messages;
      ASSERT (negb (bool_decide (xs = [])));;
      pending_remove m;;
      remove_leftovers rest
  end.

Fixpoint abort_leftovers (e : reentry) (leftover_message : list Z) : K unit :=
  match leftover_message with
  | [] => mret tt
  | m :: rest =>
      c ← message_at m;
      (if is_blocking c then put_response e c MESSAGE_TYPE_ABORT STATUS_THREAD_EXITED;; mret tt else mret tt);;
      destroy_message e m;;
      abort_leftovers e rest
  end.

Definition delete_messages (e : reentry) (victim acknowledgement : Z) : K unit :=
  leftover_message ← mark_for_deletion victim acknowledgement;
  remove_leftovers leftover_message;;
  abort_leftovers e leftover_message.

(** [io_manager_c::get_message]: the status and the message. *)
Definition io_get_message (e : reentry) : K (Z * Z) :=
  current ← gets current_thread;
  '(status, m) ← thread_get_message current;
  if negb (status =? STATUS_SUCCESS) then mret (status, m)
  else
    ASSERT (negb (m =? NULL));;
    xs ← gets pending_messages;
    ASSERT (negb (bool_decide (xs = [])));;
    pending_remove m;;
    status ← deliver_payload m;
    if negb (status =? STATUS_SUCCESS) then
      count count_receive_error;;
      c ← message_at m;
      (if is_blocking c then put_response e c MESSAGE_TYPE_ABORT STATUS_IO_ERROR;; mret tt else mret tt);;
      destroy_message e m;;
      mret (status, NULL)
    else mret (status, m).

(** The draw of the lottery; [rand] below the count. *)
Definition select_random (random : Z) : K Z := fun s =>
  match pending_messages s !! Z.to_nat (random mod Z.of_nat (length (pending_messages s))) with
  | Some m => Ret (m, s)
  | None => Trap AssertFailed
  end.

Definition select_next_thread (random current : Z) : K Z :=
  b ← find_blocking_thread current;
  next ← (if negb (b =? NULL) then count count_direct_handoff;; mret b
          else
            xs ← gets pending_messages;
            next ← (if negb (bool_decide (xs = [])) then
                      count count_lottery;;
                      m ← select_random random;
                      c ← message_at m;
                      bonus ← get_bonus_message (destination c);
                      (if negb (bonus =? NULL) then pending_remove bonus else mret tt);;
                      mret (destination c)
                    else
                      count count_idle;;
                      null ← gets null_thread;
                      ASSERT (negb (null =? NULL));;
                      mret null);
            b ← find_blocking_thread next;
            mret (if negb (b =? NULL) then b else next));
  ASSERT (negb (next =? NULL));;
  t ← thread_at next;
  ASSERT (bool_decide (state t = THREAD_STATE_READY));;
  set_thread next (with_ticks t SCHEDULING_QUANTUM_DEFAULT);;
  mret next.

(** The part of [handle_interrupt] for the yield vector; the switch itself takes
    place when the handler returns. *)
Definition handle_yield (random : Z) : K unit :=
  current ← gets current_thread;
  next ← select_next_thread random current;
  same ← same_thread next current;
  if negb same then modify (fun s => with_current s next) else mret tt.

(** The clock interrupt. *)
Definition handle_clock (random : Z) : K unit :=
  current ← gets current_thread;
  t ← thread_at current;
  set_thread current (with_ticks t (s32 (tick_count t - 1)));;
  if 0 <? s32 (tick_count t - 1) then mret tt
  else
    null ← gets null_thread;
    idle ← same_thread current null;
    (if negb idle then
       m ← maybe_put_bonus_message current;
       if negb (m =? NULL) then pending_add m;; count count_message else mret tt
     else mret tt);;
    handle_yield random.

(** [send_message] up to [thread_yield], and from there on. *)
Definition with_control (c : message_c) (v : Z) : message_c :=
  mkMsg (m_class c) v (destination c) (m_id c) (source c) (m_type c) (payload_size c) (receiver_payload c) (sender_payload c).

Definition io_send_message (e : reentry) (random request : Z) (from : send_caller) : K Z :=
  current ← gets current_thread;
  c ← message_at request;
  let to := destination c in
  let id := m_id c in
  add_reference to;;
  set_message request (with_control c (Z.lor (control c) MESSAGE_CONTROL_BLOCKING));;
  status ← put e request;
  if status =? STATUS_SUCCESS then
    t ← thread_at current;
    set_thread current (with_suspended t (Some (mkFrame to id from)));;
    handle_yield random;;
    mret status
  else
    remove_reference e to;;
    mret status.

Definition send_message_resumed (e : reentry) : K (Z * Z * send_caller) :=
  current ← gets current_thread;
  t ← thread_at current;
  match suspended t with
  | None => ktrap BadArgument
  | Some f =>
      set_thread current (with_suspended t None);;
      '(status, response) ← io_get_message e;
      response ← (if negb (status =? STATUS_SUCCESS) then
                    response ← abort_send_message current (recipient f) (request_id f) status;
                    ASSERT (negb (response =? NULL));;
                    mret response
                  else mret response);
      remove_reference e (recipient f);;
      mret (STATUS_SUCCESS, response, caller f)
  end.

(** [receive_message]: one pass of its loop. [None] means that the thread has
    yielded and goes on with the next pass when it runs again. *)
Definition io_receive_message (e : reentry) (random : Z) (wait_for_message : bool) : K (option (Z * Z)) :=
  '(status, m) ← io_get_message e;
  if negb (status =? STATUS_MAILBOX_EMPTY) then
    ASSERT (negb (m =? NULL) || negb (status =? STATUS_SUCCESS));;
    mret (Some (status, m))
  else if negb wait_for_message then mret (Some (status, m))
  else handle_yield random;; mret None.

Record kernel_stats := mkStats {
  stat_message : Z; stat_pending : Z; stat_incomplete : Z; stat_receive_error : Z; stat_send_error : Z;
  stat_lottery : Z; stat_idle : Z; stat_direct_handoff : Z; stat_thread : Z }.

(** [read_stats] of the I/O manager and of the thread manager: 32-bit counters,
    three of them sign extended to 64 bits. *)
Definition read_stats (s : kernel) : kernel_stats :=
  let c := counters s in
  mkStats (u64 (message_count c)) (u32 (Z.of_nat (length (pending_messages s)))) (u32 (incomplete_count c))
    (u32 (receive_error_count c)) (u32 (send_error_count c)) (u64 (lottery_count c)) (u64 (idle_count c))
    (u64 (direct_handoff_count c)) (u32 (Z.of_nat (base.size (thread_table s)))).

(** ** thread_manager.cpp *)

Definition find_thread (id : Z) : K Z :=
  current ← gets current_thread;
  t ← thread_at current;
  p ← (if (id =? t_id t) || (id =? THREAD_ID_LOOPBACK) then mret current
       else gets (fun s => default NULL (thread_table s !! id)));
  if negb (p =? NULL) then add_reference p;; mret p else mret NULL.

(** The search for a free id. *)
Fixpoint free_thread_id (fuel : nat) (table : gmap Z Z) (id : Z) : res Z :=
  if bool_decide (is_Some (table !! id)) then
    match fuel with
    | O => Trap OutOfFuel
    | S f => free_thread_id f table (u32 (id + 1))
    end
  else Ret id.

(** The id for a new thread; [None] when the requested id is in use. *)
Definition allocate_thread_id (id : Z) : K (option Z) := fun s =>
  if id =? THREAD_ID_AUTO_ALLOCATE then
    match free_thread_id (base.size (thread_table s)) (thread_table s) (next_thread_id s) with
    | Ret id => Ret (Some id, with_next_thread_id s (u32 (id + 1)))
    | Trap t => Trap t
    end
  else if bool_decide (is_Some (thread_table s !! id)) then Ret (None, s)
  else Ret (Some id, s).

(** [thread_table.add]: the table has room for the entry. *)
Definition table_add (id p : Z) : K unit := modify (fun s => with_table s (<[id := p]> (thread_table s))).

(** [create_thread] in an address space that exists; returns the thread or NULL. *)
Definition manager_create_thread (id mask : Z) : K Z :=
  current ← gets current_thread;
  creator ← thread_at current;
  if negb (has_capability CAPABILITY_CREATE_THREAD creator) then mret NULL
  else
    id ← allocate_thread_id id;
    match id with
    | None => mret NULL
    | Some id =>
        table ← gets thread_table;
        ASSERT (negb (bool_decide (is_Some (table !! id))));;
        copy_page ← gets allocate_large_payload_block;
        if copy_page =? NULL then mret NULL
        else
          let effective_mask := Z.land mask (capability_mask creator) in
          p ← new_object;
          if p =? NULL then mret NULL
          else
            set_thread p (mkThread id THREAD_STATE_READY 0 NULL NULL effective_mask NULL true [] 0 1 None);;
            add_reference p;;
            table_add id p;;
            mret p
    end.

(** The processor when the thread manager is constructed: the boot thread runs
    in the storage that is object 1, and no other object exists. *)
Definition power_on : kernel :=
  mkKernel ∅ ∅ [] ∅ 0 2 1 NULL NULL (mkCounters 0 0 0 0 0 0 0).

Definition with_cleanup s v := mkKernel (threads s) (msgs s) (pending_messages s) (thread_table s) (next_thread_id s) (next_object s) (current_thread s) (null_thread s) v (counters s).
Definition with_null s v := mkKernel (threads s) (msgs s) (pending_messages s) (thread_table s) (next_thread_id s) (next_object s) (current_thread s) v (cleanup_thread s) (counters s).

Definition initialize_system_threads : K unit :=
  boot_thread ← gets current_thread;
  set_thread boot_thread (mkThread THREAD_ID_BOOT THREAD_STATE_READY 0 NULL NULL CAPABILITY_ALL NULL true [] 0x7FFFFFFF 1 None);;
  table ← gets thread_table;
  ASSERT (negb (bool_decide (is_Some (table !! THREAD_ID_BOOT))));;
  table_add THREAD_ID_BOOT boot_thread;;
  p ← gets cleanup_thread;
  ASSERT (p =? NULL);;
  cleanup ← manager_create_thread THREAD_ID_CLEANUP CAPABILITY_INHERIT_PARENT;
  modify (fun s => with_cleanup s cleanup);;
  p ← gets null_thread;
  ASSERT (p =? NULL);;
  null ← manager_create_thread THREAD_ID_NULL CAPABILITY_INHERIT_PARENT;
  modify (fun s => with_null s null);;
  if (cleanup =? NULL) || (null =? NULL) then ktrap KernelPanic else mret tt.

(** [thread_manager_c::delete_thread]. *)
Definition manager_delete_thread (e : reentry) (victim acknowledgement : Z) : K unit :=
  current ← gets current_thread;
  itself ← same_thread victim current;
  ASSERT (negb itself);;
  delete_messages e victim acknowledgement;;
  t ← thread_at victim;
  table ← gets thread_table;
  ASSERT (bool_decide (is_Some (table !! t_id t)));;
  modify (fun s => with_table s (delete (t_id t) (thread_table s)));;
  remove_reference e victim.

(** ** cleanup_thread.cpp *)

(** [delete_thread] of the cleanup thread: the handler of DELETE_THREAD. *)
Definition handle_delete_thread (e : reentry) (m : Z) : K unit :=
  c ← message_at m;
  let victim_id := u32 (read_payload c) in
  ASSERT (m_type c =? MESSAGE_TYPE_DELETE_THREAD);;
  from ← thread_at (source c);
  if negb (has_capability CAPABILITY_DELETE_THREAD from) && negb (t_id from =? victim_id)
     && negb (t_id from =? THREAD_ID_LOOPBACK) then
    put_response e c MESSAGE_TYPE_ABORT STATUS_ACCESS_DENIED;; mret tt
  else
    let victim_id := if victim_id =? THREAD_ID_LOOPBACK then t_id from else victim_id in
    victim ← find_thread victim_id;
    if victim =? NULL then put_response e c MESSAGE_TYPE_ABORT STATUS_INVALID_DATA;; mret tt
    else
      itself ← same_thread (source c) victim;
      acknowledgement ← (if negb itself && is_blocking c then
                           new_reply c MESSAGE_TYPE_DELETE_THREAD_COMPLETE (u32 STATUS_SUCCESS)
                         else mret NULL);
      manager_delete_thread e victim acknowledgement;;
      remove_reference e victim.

(** One pass of the loop of [cleanup_thread_entry], after a message arrived. *)
Definition cleanup_thread_pass (e : reentry) (random : Z) : K unit :=
  r ← io_receive_message e random true;
  match r with
  | None => mret tt
  | Some (status, m) =>
      if negb (status =? STATUS_SUCCESS) then mret tt
      else
        ASSERT (negb (m =? NULL));;
        c ← message_at m;
        cleanup ← gets cleanup_thread;
        right_thread ← same_thread (destination c) cleanup;
        ASSERT right_thread;;
        (if m_type c =? MESSAGE_TYPE_DELETE_THREAD then handle_delete_thread e m
         else if m_type c =? MESSAGE_TYPE_NULL then mret tt
         else ASSERT false);;
        destroy_message e m
  end.

(** ** System calls *)

(** The fields of a message in the system call block. *)
Definition return_message (d : syscall_data) (m : Z) (status : Z) : K syscall_data :=
  c ← message_at m;
  from ← thread_at (source c);
  mret (mkSyscall (World.size d) (t_id from) (m_type c) (m_id c) (read_payload c) (read_payload_size c) (data5 d) status).

Definition syscall_send_message (e : reentry) (d : syscall_data) : K syscall_data :=
  destination ← find_thread (data0 d);
  if negb (destination =? NULL) then
    current ← gets current_thread;
    status ← put_message e current destination (data1 d) (data2 d) (data3 d) (data4 d) (data5 d);
    remove_reference e destination;;
    mret (with_status d status)
  else mret (with_status d STATUS_INVALID_DATA).

(** One pass of the loop inside; [None] when the thread has yielded. *)
Definition syscall_receive_message (e : reentry) (random : Z) (d : syscall_data) : K (option syscall_data) :=
  r ← io_receive_message e random (negb (data0 d =? 0));
  match r with
  | None => mret None
  | Some (status, m) =>
      if status =? STATUS_SUCCESS then
        ASSERT (negb (m =? NULL));;
        d ← return_message d m status;
        destroy_message e m;;
        mret (Some d)
      else mret (Some (with_status d status))
  end.

(** [syscall_send_and_receive_message] until it yields ([None]) or fails. *)
Definition syscall_send_and_receive_message (e : reentry) (random : Z) (d : syscall_data) : K (option syscall_data) :=
  destination ← find_thread (data0 d);
  if destination =? NULL then mret (Some (with_status d STATUS_INVALID_DATA))
  else
    current ← gets current_thread;
    request ← allocate_message current destination (data1 d) (data2 d) (data3 d) (data4 d) (data5 d);
    if request =? NULL then
      remove_reference e destination;;
      mret (Some (with_status d STATUS_INSUFFICIENT_MEMORY))
    else
      status ← io_send_message e random request (FromSyscall destination);
      if negb (status =? STATUS_SUCCESS) then
        destroy_message e request;;
        remove_reference e destination;;
        mret (Some (with_status d status))
      else mret None.

(** [send_deletion_message] until it yields ([None]) or fails; [random_id] is
    the message id that [rand] gives. When the request cannot be sent the code
    does not delete it. *)
Definition send_deletion_message (e : reentry) (random random_id victim_id : Z) : K (option Z) :=
  current ← gets current_thread;
  cleanup ← gets cleanup_thread;
  request ← new_small_message current cleanup MESSAGE_TYPE_DELETE_THREAD random_id victim_id;
  if request =? NULL then mret (Some STATUS_INSUFFICIENT_MEMORY)
  else
    status ← io_send_message e random request FromDeletion;
    if negb (status =? STATUS_SUCCESS) then mret (Some status) else mret None.

(** What a thread suspended in [send_message] does when it runs again: the rest
    of [send_message] and of the call that contains it. The result is the reply
    for the system call block, or the status of the deletion. *)
Definition resume_send (e : reentry) (d : syscall_data) : K syscall_data :=
  '(status, response, from) ← send_message_resumed e;
  match from with
  | FromSyscall destination =>
      ASSERT (negb (response =? NULL));;
      d ← return_message d response status;
      destroy_message e response;;
      remove_reference e destination;;
      mret d
  | FromDeletion =>
      c ← message_at response;
      ASSERT (read_payload_size c =? 0);;
      destroy_message e response;;
      mret (with_status d (s32 (read_payload c)))
  end.

(** [syscall_create_thread]. *)
Definition syscall_create_thread (e : reentry) (d : syscall_data) : K syscall_data :=
  address_space ← gets (fun s => find_address_space s (data0 d));
  if negb (address_space =? NULL) then
    p ← manager_create_thread THREAD_ID_AUTO_ALLOCATE (data3 d);
    if negb (p =? NULL) then
      t ← thread_at p;
      remove_reference e p;;
      mret (mkSyscall (World.size d) (t_id t) (data1 d) (data2 d) (data3 d) (data4 d) (data5 d) STATUS_SUCCESS)
    else mret (with_status d STATUS_INSUFFICIENT_MEMORY)
  else mret (with_status d STATUS_INVALID_DATA).

End Kernel.
