(* ===== verification/KThreadInv.v ===== *)
(** * The invariant of the threads and messages of the kernel

    [inv x o s]: the state [s] is consistent while the running function holds
    the references [x] and owns the messages [o]. References are counted, the
    chains of blocked threads end, the pool of pending messages and the
    mailboxes agree, and a thread that was woken by a reply finds it first. *)

From S2P Require Import Prelude CMem CStringSearch World Libdx Process Loader KBase KThreads.

(** ** References *)

Definition msg_refs (p : Z) (c : message_c) : Z := is_ref p (source c) + is_ref p (destination c).
Definition frame_refs (p : Z) (f : option send_frame) : Z :=
  match f with
  | None => 0
  | Some f => is_ref p (recipient f) + match caller f with FromSyscall d => is_ref p d | FromDeletion => 0 end
  end.
Definition thread_refs (p : Z) (t : thread_c) : Z := is_ref p (blocking_thread t) + frame_refs p (suspended t).

(** The references to thread [p]: from messages, from threads and their stacks,
    from the thread table, from the two global pointers, from [x]. *)
Definition counted (x : list Z) (s : kernel) (p : Z) : Z :=
  total (msg_refs p) (msgs s) + total (thread_refs p) (threads s) + total (is_ref p) (thread_table s)
  + is_ref p (null_thread s) + is_ref p (cleanup_thread s) + occurrences p x.

Lemma msg_refs_nonneg p c : 0 <= msg_refs p c.
Proof. unfold msg_refs. pose proof (is_ref_nonneg p (source c)). pose proof (is_ref_nonneg p (destination c)). lia. Qed.
Lemma frame_refs_nonneg p f : 0 <= frame_refs p f.
Proof.
  destruct f as [[r i [d|]]|]; cbn; [pose proof (is_ref_nonneg p d)| |done]; pose proof (is_ref_nonneg p r); lia.
Qed.
Lemma thread_refs_nonneg p t : 0 <= thread_refs p t.
Proof. unfold thread_refs. pose proof (is_ref_nonneg p (blocking_thread t)). pose proof (frame_refs_nonneg p (suspended t)). lia. Qed.

#[export] Hint Resolve msg_refs_nonneg frame_refs_nonneg thread_refs_nonneg : core.

(** All parts of the count are nonnegative. *)
Lemma counted_parts x s p :
  0 <= total (msg_refs p) (msgs s) /\ 0 <= total (thread_refs p) (threads s) /\ 0 <= total (is_ref p) (thread_table s) /\
  0 <= is_ref p (null_thread s) /\ 0 <= is_ref p (cleanup_thread s) /\ 0 <= occurrences p x.
Proof. repeat split; auto using total_nonneg. Qed.

(** ** Chains of blocked threads *)

(** [chain m n p q]: from [p], [n] links lead to [q], which is not blocked. *)
Inductive chain (m : gmap Z thread_c) : nat -> Z -> Z -> Prop :=
  | chain_end p t : m !! p = Some t -> blocking_thread t = NULL -> chain m 0 p p
  | chain_link n p t q : m !! p = Some t -> blocking_thread t <> NULL -> chain m n (blocking_thread t) q -> chain m (S n) p q.

Lemma chain_functional m n p q n' q' : chain m n p q -> chain m n' p q' -> n = n' /\ q = q'.
Proof.
  intros H. revert n' q'. induction H as [p t E B|n p t q E B _ IH]; intros n' q' H'; inversion H'; simplify_eq; try done.
  by match goal with Hc : chain _ _ (blocking_thread _) _ |- _ => destruct (IH _ _ Hc); subst end.
Qed.

(** Threads may change in other respects. *)
Lemma chain_ext m m' n p q : chain m n p q ->
  (forall k t, m !! k = Some t -> exists t', m' !! k = Some t' /\ blocking_thread t' = blocking_thread t) -> chain m' n p q.
Proof.
  intros H Hm. induction H as [p t E B|n p t q E B _ IH]; destruct (Hm _ _ E) as (t' & E' & B').
  - eapply chain_end; [done|]. congruence.
  - eapply chain_link; [done|congruence|]. by rewrite B'.
Qed.

(** The threads on a chain are different. *)
Lemma chain_nodup m n p q : chain m n p q ->
  exists l, length l = S n /\ NoDup l /\ forall k, k ∈ l -> is_Some (m !! k) /\ exists n', (n' <= n)%nat /\ chain m n' k q.
Proof.
  induction 1 as [p t E B|n p t q E B H (l & Hl & Hnd & Hin)].
  - exists [p]. split; [done|]. split; [apply NoDup_singleton|]. intros k ->%list_elem_of_singleton. split; [by eexists|].
    exists 0%nat. split; [lia|]. by eapply chain_end.
  - exists (p :: l). split; [cbn; lia|]. split.
    + constructor; [|done]. intros Hp. destruct (Hin p Hp) as (_ & n' & Hn' & H').
      destruct (chain_functional _ _ _ _ _ _ H' (chain_link m n p t q E B H)). lia.
    + intros k [->|Hk]%elem_of_cons.
      * split; [by eexists|]. exists (S n). split; [done|]. by eapply chain_link.
      * destruct (Hin k Hk) as (Hs & n' & Hn' & H'). split; [done|]. exists n'. split; [lia|done].
Qed.

Lemma chain_short m n p q : chain m n p q -> (n < base.size m)%nat.
Proof.
  intros (l & Hl & Hnd & Hin)%chain_nodup. enough (length l <= base.size m)%nat by lia.
  rewrite <- size_dom. rewrite <- (size_list_to_set (C := gset Z) l Hnd). apply subseteq_size.
  intros k. rewrite elem_of_list_to_set. intros Hk. apply elem_of_dom. by apply Hin.
Qed.

Lemma chain_end_ready m n p q : chain m n p q -> exists t, m !! q = Some t /\ blocking_thread t = NULL.
Proof. induction 1; eauto. Qed.

(** A thread that nobody waits for can be removed. *)
Lemma chain_delete m n p q v : chain m n p q -> p <> v ->
  (forall k t, m !! k = Some t -> blocking_thread t <> v) -> chain (delete v m) n p q.
Proof.
  intros H Hp Hv. induction H as [p t E B|n p t q E B _ IH].
  - eapply chain_end; [|done]. by rewrite lookup_delete_ne.
  - eapply chain_link; [by rewrite lookup_delete_ne|done|]. apply IH. by apply (Hv p).
Qed.

(** Waking a thread ends the chains through it there. *)
Lemma chain_wake m n p q v u : chain m n p q -> is_Some (m !! v) -> blocking_thread u = NULL ->
  exists n' q', chain (<[v := u]> m) n' p q'.
Proof.
  intros H Hv Hu. induction H as [p t E B|n p t q E B _ (n' & q' & IH)]; destruct (decide (p = v)) as [->|Hp].
  1, 3: exists 0%nat, v; eapply chain_end; [apply lookup_insert_eq|done].
  - exists 0%nat, p. eapply chain_end; [by rewrite lookup_insert_ne|done].
  - exists (S n'), q'. eapply chain_link; [by rewrite lookup_insert_ne|done|done].
Qed.

(** Blocking a thread on one whose chain ends elsewhere creates no cycle. *)
Lemma chain_block m n p q v t u n' q' : chain m n p q -> m !! v = Some t -> blocking_thread t = NULL ->
  blocking_thread u <> NULL -> chain m n' (blocking_thread u) q' -> q' <> v ->
  exists n2 q2, chain (<[v := u]> m) n2 p q2.
Proof.
  intros H Ev Bv Bu H' Hq'.
  assert (forall k a b, chain m a k b -> b <> v -> chain (<[v := u]> m) a k b) as Hother.
  { intros k a b Hc Hb. induction Hc as [k w E B|a k w b E B Hc IH].
    - eapply chain_end; [by rewrite lookup_insert_ne|done].
    - eapply chain_link; [|done|by apply IH]. rewrite lookup_insert_ne; [done|]. intros ->. congruence. }
  assert (exists n2, chain (<[v := u]> m) n2 v q') as [nv Hvq].
  { exists (S n'). eapply chain_link; [apply lookup_insert_eq|done|by apply Hother]. }
  induction H as [p w E B|n p w q E B Hc (n2 & q2 & IH)]; destruct (decide (p = v)) as [->|Hp]; eauto.
  - exists 0%nat, p. eapply chain_end; [by rewrite lookup_insert_ne|done].
  - exists (S n2), q2. eapply chain_link; [by rewrite lookup_insert_ne|done|done].
Qed.

(** ** The invariant *)

(** A large message with an explicit address was checked by [collect_payload]. *)
Definition deliverable (c : message_c) : Prop :=
  m_class c = LargeMessage -> receiver_payload c <> NULL ->
  PAGE_OFFSET (sender_payload c) = PAGE_OFFSET (receiver_payload c).

(** A suspended thread waits for its recipient, or has been woken and finds the
    reply at the head of its mailbox. *)
Record frame_ok (messages : gmap Z message_c) (cleanup : Z) (t : thread_c) (f : send_frame) : Prop := {
  frame_blocked : state t = THREAD_STATE_BLOCKED -> blocking_thread t = recipient f /\ blocking_message_id t = request_id f;
  frame_reply : state t = THREAD_STATE_READY -> mailbox_enabled t = true ->
    exists m q c, message_queue t = m :: q /\ messages !! m = Some c /\ source c = recipient f /\ m_id c = request_id f;
  frame_deletion : caller f = FromDeletion -> recipient f = cleanup;
  frame_recipient : recipient f <> NULL;
  frame_caller : forall p, caller f = FromSyscall p -> p <> NULL }.

Record thread_ok (table : gmap Z Z) (pending : list Z) (messages : gmap Z message_c) (cleanup : Z) (p : Z) (t : thread_c) : Prop := {
  tok_enabled : mailbox_enabled t = true -> table !! t_id t = Some p;
  tok_disabled : mailbox_enabled t = false -> held t = [];
  tok_block : state t = THREAD_STATE_BLOCKED <-> blocking_thread t <> NULL;
  tok_refs : 0 < reference_count t;
  tok_nodup : NoDup (held t);
  tok_held : forall m, m ∈ held t -> m ∈ pending /\ exists c, messages !! m = Some c /\ destination c = p /\ deliverable c;
  tok_ack : deletion_acknowledgement t <> NULL -> (deletion_acknowledgement t ∉ pending) /\
    exists c, messages !! deletion_acknowledgement t = Some c /\ is_blocking c = false /\ m_class c = SmallMessage;
  tok_frame : forall f, suspended t = Some f -> frame_ok messages cleanup t f;
  tok_deleted : deletion_acknowledgement t <> NULL -> mailbox_enabled t = false }.

(** The messages [o] that the running function owns are in no mailbox. *)
Definition owned (o : gmap Z message_c) (s : kernel) : Prop :=
  forall m c, o !! m = Some c -> msgs s !! m = Some c /\ (m ∉ pending_messages s) /\
    forall p t, threads s !! p = Some t -> deletion_acknowledgement t <> m.

Record inv (x : list Z) (o : gmap Z message_c) (s : kernel) : Prop := {
  inv_current : is_Some (threads s !! current_thread s);
  inv_roots : null_thread s <> NULL /\ cleanup_thread s <> NULL;
  inv_ids : forall p q t u, threads s !! p = Some t -> threads s !! q = Some u -> t_id t = t_id u -> p = q;
  inv_next_id : forall p t, threads s !! p = Some t -> t_id t < next_thread_id s \/ THREAD_ID_NULL <= t_id t;
  inv_table : forall i p, thread_table s !! i = Some p -> p <> NULL /\ exists t, threads s !! p = Some t /\ t_id t = i;
  inv_threads : forall p t, threads s !! p = Some t -> thread_ok (thread_table s) (pending_messages s) (msgs s) (cleanup_thread s) p t;
  inv_chain : forall p t, threads s !! p = Some t -> exists n q, chain (threads s) n p q;
  inv_refs : forall p, p <> NULL -> 0 < counted x s p -> exists t, threads s !! p = Some t /\ counted x s p <= reference_count t;
  inv_pending : NoDup (pending_messages s) /\
    forall m, m ∈ pending_messages s -> exists p t, threads s !! p = Some t /\ m ∈ held t;
  inv_acks : forall p q t u, threads s !! p = Some t -> threads s !! q = Some u -> deletion_acknowledgement t <> NULL ->
    deletion_acknowledgement t = deletion_acknowledgement u -> p = q;
  inv_owned : owned o s;
  inv_fresh : 0 < next_object s /\ (forall k t, threads s !! k = Some t -> 0 < k < next_object s) /\
    (forall k c, msgs s !! k = Some c -> 0 < k < next_object s);
  inv_small : forall m c, msgs s !! m = Some c -> source c = cleanup_thread s -> m_class c = SmallMessage;
  inv_ends : forall m c, msgs s !! m = Some c -> source c <> NULL /\ destination c <> NULL }.

(** The running thread has not been deleted and is not blocked. *)
Definition running (s : kernel) : Prop :=
  exists t, threads s !! current_thread s = Some t /\ mailbox_enabled t = true /\ state t = THREAD_STATE_READY.

(** Room in the mailbox of the cleanup thread, less the acknowledgements that
    destructors will send. *)
Definition cleanup_backlog (s : kernel) : Z :=
  match threads s !! cleanup_thread s with Some t => Z.of_nat (length (message_queue t)) | None => 0 end.
Definition has_ack (t : thread_c) : Z := if deletion_acknowledgement t =? NULL then 0 else 1.
Definition slack (s : kernel) : Z := MAILBOX_DEFAULT_LIMIT - cleanup_backlog s - total has_ack (threads s).

(** What a function leaves as it was; only the thread [exc] may become blocked. *)
Record stable (exc : option Z) (s s' : kernel) : Prop := {
  stable_current : current_thread s' = current_thread s;
  stable_null : null_thread s' = null_thread s;
  stable_cleanup : cleanup_thread s' = cleanup_thread s;
  stable_table : thread_table s' = thread_table s;
  stable_next_id : next_thread_id s' = next_thread_id s;
  stable_size : (base.size (threads s') <= base.size (threads s))%nat;
  stable_threads : forall p t', threads s' !! p = Some t' -> exists t, threads s !! p = Some t /\ t_id t' = t_id t /\
    mailbox_enabled t' = mailbox_enabled t /\ capability_mask t' = capability_mask t /\ suspended t' = suspended t /\
    (exc <> Some p -> state t = THREAD_STATE_READY -> state t' = THREAD_STATE_READY) }.

Lemma stable_refl exc s : stable exc s s.
Proof. split; try done. intros p t' E. exists t'. done. Qed.

Lemma stable_trans exc s1 s2 s3 : stable exc s1 s2 -> stable exc s2 s3 -> stable exc s1 s3.
Proof.
  intros [] []. split; try congruence; [lia|]. intros p t3 E3.
  destruct (stable_threads1 p t3 E3) as (t2 & E2 & ? & ? & ? & ? & Hr').
  destruct (stable_threads0 p t2 E2) as (t1 & E1 & ? & ? & ? & ? & Hr).
  exists t1. split; [done|]. repeat split; try congruence. auto.
Qed.

Lemma stable_weaken exc s s' : stable None s s' -> stable exc s s'.
Proof.
  intros []. split; try done. intros p t' E. destruct (stable_threads0 p t' E) as (t & E1 & ? & ? & ? & ? & Hr).
  exists t. repeat split; auto.
Qed.

(** ** Simple consequences *)

Section Facts.
Implicit Types (x : list Z) (o : gmap Z message_c) (s : kernel).

Lemma inv_live x o s p : inv x o s -> p <> NULL -> 0 < counted x s p -> exists t, threads s !! p = Some t.
Proof. intros Hi Hp Hc. destruct (inv_refs _ _ _ Hi p Hp Hc) as (t & E & _). eauto. Qed.

Lemma inv_cleanup x o s : inv x o s -> exists t, threads s !! cleanup_thread s = Some t.
Proof.
  intros Hi. apply (inv_live x o s _ Hi); [apply Hi|]. pose proof (counted_parts x s (cleanup_thread s)).
  unfold counted. rewrite is_ref_refl in *. lia.
Qed.

Lemma inv_null x o s : inv x o s -> exists t, threads s !! null_thread s = Some t.
Proof.
  intros Hi. apply (inv_live x o s _ Hi); [apply Hi|]. pose proof (counted_parts x s (null_thread s)).
  unfold counted. rewrite is_ref_refl in *. lia.
Qed.

Lemma inv_perm x x' o s : x ≡ₚ x' -> inv x o s -> inv x' o s.
Proof. intros Hx []. split; try done. unfold counted. setoid_rewrite <- Hx. done. Qed.

(** References and messages may be forgotten: the objects then live for ever. *)
Lemma inv_forget x y o s : inv (y ++ x) o s -> inv x o s.
Proof.
  intros []. split; try done. intros p Hp Hc. pose proof (occurrences_nonneg p y).
  destruct (inv_refs0 p Hp) as (t & E & Hr).
  - unfold counted in *. rewrite occurrences_app. lia.
  - exists t. split; [done|]. unfold counted in *. rewrite occurrences_app in Hr. lia.
Qed.

Lemma inv_disown x o o' s : o' ⊆ o -> inv x o s -> inv x o' s.
Proof.
  intros Ho []. split; try done. intros m c E. apply inv_owned0. by eapply lookup_weaken.
Qed.

Lemma inv_with_counters x o s v : inv x o s -> inv x o (with_counters s v).
Proof. intros []. by split. Qed.

Lemma inv_message_threads x o s m c : inv x o s -> msgs s !! m = Some c ->
  (exists t, threads s !! source c = Some t) /\ (exists t, threads s !! destination c = Some t).
Proof.
  intros Hi E. destruct (inv_ends _ _ _ Hi m c E).
  split; apply (inv_live x o s _ Hi); try done; match goal with |- 0 < counted _ _ ?p =>
    pose proof (counted_parts x s p); pose proof (total_ge (msg_refs p) (msgs s) m c (msg_refs_nonneg p) E) end;
    unfold counted, msg_refs in *; rewrite is_ref_refl in *.
  - pose proof (is_ref_nonneg (source c) (destination c)). lia.
  - pose proof (is_ref_nonneg (destination c) (source c)). lia.
Qed.

Lemma inv_blocking_live x o s p t : inv x o s -> threads s !! p = Some t -> blocking_thread t <> NULL ->
  exists u, threads s !! blocking_thread t = Some u.
Proof.
  intros Hi E B. apply (inv_live x o s _ Hi); [done|]. pose proof (counted_parts x s (blocking_thread t)).
  pose proof (total_ge (thread_refs (blocking_thread t)) (threads s) p t (thread_refs_nonneg _) E).
  pose proof (frame_refs_nonneg (blocking_thread t) (suspended t)).
  unfold counted, thread_refs in *. rewrite is_ref_refl in *. lia.
Qed.

Lemma inv_in_table x o s i p : inv x o s -> thread_table s !! i = Some p -> 1 <= total (is_ref p) (thread_table s).
Proof. intros _ E. pose proof (total_ge (is_ref p) _ _ _ (is_ref_nonneg p) E). rewrite is_ref_refl in *. lia. Qed.

Lemma inv_thread_ne x o s p t : inv x o s -> threads s !! p = Some t -> p <> NULL.
Proof. intros Hi E ->. destruct (inv_fresh _ _ _ Hi) as (_ & H & _). specialize (H _ _ E). unfold NULL in H. lia. Qed.

Lemma inv_msg_ne x o s m c : inv x o s -> msgs s !! m = Some c -> m <> NULL.
Proof. intros Hi E ->. destruct (inv_fresh _ _ _ Hi) as (_ & _ & H). specialize (H _ _ E). unfold NULL in H. lia. Qed.

(** ** Changing the count, the quantum or the capabilities of a thread *)

Definition same_core (t t' : thread_c) : Prop :=
  t_id t' = t_id t /\ state t' = state t /\ blocking_message_id t' = blocking_message_id t /\
  blocking_thread t' = blocking_thread t /\ bonus_message t' = bonus_message t /\
  deletion_acknowledgement t' = deletion_acknowledgement t /\ mailbox_enabled t' = mailbox_enabled t /\
  message_queue t' = message_queue t /\ suspended t' = suspended t.

Lemma inv_light x x' o s p t t' : inv x o s -> threads s !! p = Some t -> same_core t t' ->
  0 < reference_count t' -> (forall q, q <> p -> occurrences q x' <= occurrences q x) ->
  counted x' s p <= reference_count t' -> inv x' o (with_threads s (<[p := t']> (threads s))).
Proof.
  intros Hi Ep (C1 & C2 & C3 & C4 & C5 & C6 & C7 & C8 & C9) Hpos Hx Hc.
  assert (forall q u', <[p := t']> (threads s) !! q = Some u' -> exists u, threads s !! q = Some u /\ same_core u u') as Hold.
  { intros q u' Hq. destruct (decide (q = p)) as [->|Hne].
    - rewrite lookup_insert_eq in Hq. simplify_eq. exists t. split; [done|]. by repeat split.
    - rewrite lookup_insert_ne in Hq by done. exists u'. split; [done|]. by repeat split. }
  assert (forall u u', same_core u u' -> held u' = held u) as Hheld.
  { intros u u' (H1 & H2 & H3 & H4 & H5 & H6 & H7 & H8 & H9). unfold held. by rewrite H5, H8. }
  assert (forall q, total (thread_refs q) (<[p := t']> (threads s)) = total (thread_refs q) (threads s)) as Htot.
  { intros q. rewrite (total_update _ _ _ t) by done. unfold thread_refs. rewrite C4, C9. lia. }
  destruct Hi. split; cbn; try done.
  - destruct (decide (current_thread s = p)) as [->|Hne]; [rewrite lookup_insert_eq|rewrite lookup_insert_ne]; eauto.
  - intros p1 p2 u1 u2 (v1 & E1 & D1)%Hold (v2 & E2 & D2)%Hold Hid. apply (inv_ids0 p1 p2 v1 v2 E1 E2).
    destruct D1 as [<- _], D2 as [<- _]. done.
  - intros q u' (u & E & D)%Hold. destruct D as [-> _]. eauto.
  - intros i q E. destruct (inv_table0 i q E) as (Hq & u & Eu & Hid). split; [done|].
    destruct (decide (q = p)) as [->|Hne]; [rewrite lookup_insert_eq|rewrite lookup_insert_ne by done]; eauto.
    exists t'. simplify_eq. done.
  - intros q u' Eu'. destruct (Hold q u' Eu') as (u & Eu & D). pose proof (Hheld _ _ D) as Hh.
    destruct (inv_threads0 q u Eu) as [A1 A2 A3 A4 A5 A6 A7 A8 A9]. destruct D as (D1 & D2 & D3 & D4 & D5 & D6 & D7 & D8 & D9).
    split; rewrite ?D1, ?D2, ?D4, ?D6, ?D7, ?Hh; try done.
    + destruct (decide (q = p)) as [->|Hne]; [rewrite lookup_insert_eq in Eu'; by simplify_eq|].
      rewrite lookup_insert_ne in Eu' by done. by simplify_eq.
    + intros f Hf. rewrite D9 in Hf. destruct (A8 f Hf). split; rewrite ?D2, ?D3, ?D4, ?D7, ?D8; done.
  - intros q u' (u & Eu & _)%Hold. destruct (inv_chain0 q u Eu) as (n & r & Hch). exists n, r.
    eapply chain_ext; [done|]. intros k v Ev. destruct (decide (k = p)) as [->|Hne].
    + rewrite lookup_insert_eq. simplify_eq. eauto.
    + rewrite lookup_insert_ne by done. eauto.
  - intros q Hq Hcq. unfold counted in *. cbn in *. rewrite Htot in *. destruct (decide (q = p)) as [->|Hne].
    + rewrite lookup_insert_eq. eauto.
    + rewrite lookup_insert_ne by done. specialize (Hx q Hne).
      destruct (inv_refs0 q Hq) as (u & Eu & Hu); [lia|]. exists u. split; [done|]. lia.
  - destruct inv_pending0 as [Hnd Hin]. split; [done|]. intros m Hm. destruct (Hin m Hm) as (q & u & Eu & Hmu).
    exists q. destruct (decide (q = p)) as [->|Hne].
    + exists t'. rewrite lookup_insert_eq. simplify_eq. split; [done|]. rewrite (Hheld t t'); [done|by repeat split].
    + exists u. by rewrite lookup_insert_ne.
  - intros p1 p2 u1 u2 (v1 & E1 & D1)%Hold (v2 & E2 & D2)%Hold. destruct D1 as (_ & _ & _ & _ & _ & -> & _).
    destruct D2 as (_ & _ & _ & _ & _ & -> & _). eauto.
  - intros m c Em. destruct (inv_owned0 m c Em) as (? & ? & Ha). split; [done|]. split; [done|].
    intros q u' (u & Eu & D)%Hold. destruct D as (_ & _ & _ & _ & _ & -> & _). eauto.
  - destruct inv_fresh0 as (F1 & F2 & F3). split; [done|]. split; [|done]. intros k u' (u & Eu & _)%Hold. eauto.
Qed.

(** ** Changing one thread and the pool *)

Definition same_base (s s' : kernel) : Prop :=
  msgs s' = msgs s /\ thread_table s' = thread_table s /\ next_thread_id s' = next_thread_id s /\
  next_object s' = next_object s /\ current_thread s' = current_thread s /\ null_thread s' = null_thread s /\
  cleanup_thread s' = cleanup_thread s.

Lemma inv_change x x' o o' s s' p t t' : inv x o s -> threads s !! p = Some t -> same_base s s' ->
  threads s' = <[p := t']> (threads s) -> t_id t' = t_id t ->
  thread_ok (thread_table s) (pending_messages s') (msgs s) (cleanup_thread s) p t' ->
  (forall q u m, q <> p -> threads s !! q = Some u -> m ∈ held u -> m ∈ pending_messages s') ->
  (forall q u, q <> p -> threads s !! q = Some u -> deletion_acknowledgement u <> NULL -> deletion_acknowledgement u ∉ pending_messages s') ->
  (forall q u, threads s !! q = Some u -> exists n r, chain (<[p := t']> (threads s)) n q r) ->
  (forall q, q <> NULL -> q <> p -> counted x' s' q <= counted x s q) -> counted x' s' p <= reference_count t' ->
  NoDup (pending_messages s') ->
  (forall m, m ∈ pending_messages s' -> m ∈ held t' \/ (m ∈ pending_messages s /\ (m ∉ held t))) ->
  (deletion_acknowledgement t' <> NULL -> deletion_acknowledgement t' = deletion_acknowledgement t \/
     forall q u, threads s !! q = Some u -> deletion_acknowledgement u <> deletion_acknowledgement t') ->
  owned o' s' -> inv x' o' s'.
Proof.
  intros Hi Ep (B1 & B2 & B3 & B4 & B5 & B6 & B7) Ht' Hid Hok Hheld Hacks Hch Href Hrefp Hnd Hpend Hack Hown.
  assert (forall q u', <[p := t']> (threads s) !! q = Some u' -> (q = p /\ u' = t') \/ (q <> p /\ threads s !! q = Some u')) as Hold.
  { intros q u' Hq. destruct (decide (q = p)) as [->|Hne].
    - rewrite lookup_insert_eq in Hq. simplify_eq. by left.
    - rewrite lookup_insert_ne in Hq by done. by right. }
  assert (forall q u, threads s !! q = Some u -> exists u', <[p := t']> (threads s) !! q = Some u' /\ t_id u' = t_id u) as Hnew.
  { intros q u Hq. destruct (decide (q = p)) as [->|Hne].
    - rewrite lookup_insert_eq. simplify_eq. eauto.
    - rewrite lookup_insert_ne by done. eauto. }
  destruct Hi. split; rewrite ?Ht', ?B1, ?B2, ?B3, ?B4, ?B5, ?B6, ?B7; try done.
  - destruct inv_current0 as [u Eu]. destruct (Hnew _ _ Eu) as (u' & -> & _). eauto.
  - intros p1 p2 u1 u2 [[-> ->]|[H1 E1]]%Hold [[-> ->]|[H2 E2]]%Hold Heq; [done|..]; rewrite ?Hid in Heq; eauto.
  - intros q u' [[-> ->]|[H1 E1]]%Hold; rewrite ?Hid; eauto.
  - intros i q E. destruct (inv_table0 i q E) as (Hq & u & Eu & Hiu). split; [done|].
    destruct (Hnew _ _ Eu) as (u' & E' & ?). exists u'. split; [done|]. congruence.
  - intros q u' [[-> ->]|[H1 E1]]%Hold; [done|]. destruct (inv_threads0 q u' E1) as [A1 A2 A3 A4 A5 A6 A7 A8 A9].
    split; try done.
    + intros m Hm. split; [by eapply Hheld|]. by apply A6.
    + intros Ha. split; [by eapply Hacks|]. by apply A7.
  - intros q u' [[-> ->]|[H1 E1]]%Hold; eauto.
  - intros q Hq Hc. destruct (decide (q = p)) as [->|Hne]; [rewrite lookup_insert_eq; eauto|].
    rewrite lookup_insert_ne by done. specialize (Href q Hq Hne). destruct (inv_refs0 q Hq) as (u & Eu & Hu); [lia|].
    exists u. split; [done|]. lia.
  - split; [done|]. intros m [Hm|[Hm Hn]]%Hpend.
    + exists p, t'. by rewrite lookup_insert_eq.
    + destruct inv_pending0 as [_ Hin]. destruct (Hin m Hm) as (q & u & Eu & Hmu). exists q, u.
      rewrite lookup_insert_ne; [done|]. intros ->. simplify_eq. done.
  - intros p1 p2 u1 u2 [[-> ->]|[H1 E1]]%Hold [[-> ->]|[H2 E2]]%Hold Hne Heq; [done|..].
    + destruct (Hack Hne) as [Hs|Hs].
      * apply (inv_acks0 p p2 t u2); congruence.
      * exfalso. by apply (Hs p2 u2 E2).
    + destruct (Hack ltac:(congruence)) as [Hs|Hs].
      * apply (inv_acks0 p1 p u1 t); congruence.
      * exfalso. by apply (Hs p1 u1 E1).
    + eauto.
  - destruct inv_fresh0 as (F1 & F2 & F3). split; [done|]. split; [|done]. intros k u' [[-> ->]|[H1 E1]]%Hold; eauto.
Qed.

(** ** Changing the messages *)

Lemma inv_change_msgs x x' o o' s s' : inv x o s ->
  threads s' = threads s -> thread_table s' = thread_table s -> next_thread_id s' = next_thread_id s ->
  current_thread s' = current_thread s -> null_thread s' = null_thread s -> cleanup_thread s' = cleanup_thread s ->
  pending_messages s' = pending_messages s -> next_object s <= next_object s' ->
  (forall m, m ∈ pending_messages s -> msgs s' !! m = msgs s !! m) ->
  (forall p t, threads s !! p = Some t -> deletion_acknowledgement t <> NULL ->
     msgs s' !! deletion_acknowledgement t = msgs s !! deletion_acknowledgement t) ->
  (forall q, q <> NULL -> counted x' s' q <= counted x s q) ->
  (forall m c, msgs s' !! m = Some c -> 0 < m < next_object s' /\ source c <> NULL /\ destination c <> NULL /\
     (source c = cleanup_thread s -> m_class c = SmallMessage)) ->
  owned o' s' -> inv x' o' s'.
Proof.
  intros Hi B1 B2 B3 B4 B5 B6 B7 Hnext Hmsg Hack Href Hnew Hown.
  destruct Hi. split; rewrite ?B1, ?B2, ?B3, ?B4, ?B5, ?B6, ?B7; try done.
  - intros p t Ep. destruct (inv_threads0 p t Ep) as [A1 A2 A3 A4 A5 A6 A7 A8 A9]. split; try done.
    + intros m Hm. destruct (A6 m Hm) as [Hp Hc]. split; [done|]. by rewrite Hmsg.
    + intros Ha. destruct (A7 Ha) as [Hp Hc]. split; [done|]. by rewrite (Hack p t Ep Ha).
    + intros f Hf. destruct (A8 f Hf) as [G1 G2 G3 G4 G5]. split; try done. intros Hs He. destruct (G2 Hs He) as (m & q & c & Hq & Hm & Hr).
      exists m, q, c. split; [done|]. split; [|done]. rewrite Hmsg; [done|]. apply (A6 m). unfold held. rewrite Hq.
      apply elem_of_app. left. left.
  - intros p Hp Hc. specialize (Href p Hp). destruct (inv_refs0 p Hp) as (t & E & Hr); [lia|]. exists t. split; [done|]. lia.
  - destruct inv_fresh0 as (F1 & F2 & F3). split; [lia|]. split; [|intros k c Ek; by destruct (Hnew k c Ek)].
    intros k t Ek. specialize (F2 k t Ek). lia.
  - intros m c Em. destruct (Hnew m c Em) as (_ & _ & _ & Hs). done.
  - intros m c Em. destruct (Hnew m c Em) as (_ & H1 & H2 & _). done.
Qed.

(** ** References *)

Lemma counted_le x o s p t : inv x o s -> threads s !! p = Some t -> counted x s p <= reference_count t.
Proof.
  intros Hi E. pose proof (tok_refs _ _ _ _ _ _ (inv_threads _ _ _ Hi p t E)).
  destruct (Z.le_gt_cases (counted x s p) 0) as [|Hc]; [lia|].
  destruct (inv_refs _ _ _ Hi p (inv_thread_ne _ _ _ _ _ Hi E) Hc) as (u & Eu & Hu). by simplify_eq.
Qed.

Lemma same_core_references t n : same_core t (with_references t n).
Proof. by repeat split. Qed.

Definition add_ref s p t : kernel := with_threads s (<[p := with_references t (reference_count t + 1)]> (threads s)).
Definition drop_ref s p t : kernel := with_threads s (<[p := with_references t (reference_count t - 1)]> (threads s)).

Lemma inv_add_ref x o s p t : inv x o s -> threads s !! p = Some t -> inv (p :: x) o (add_ref s p t).
Proof.
  intros Hi E. pose proof (counted_le _ _ _ _ _ Hi E) as Hc. pose proof (tok_refs _ _ _ _ _ _ (inv_threads _ _ _ Hi p t E)).
  eapply inv_light; [done|done|apply same_core_references|cbn; lia| |].
  - intros q Hq. cbn. rewrite is_ref_ne by done. lia.
  - unfold counted in *. cbn. rewrite is_ref_refl. lia.
Qed.

Lemma inv_drop_ref x o s p t : inv (p :: x) o s -> threads s !! p = Some t -> 1 < reference_count t -> inv x o (drop_ref s p t).
Proof.
  intros Hi E H1. pose proof (counted_le _ _ _ _ _ Hi E) as Hc.
  eapply inv_light; [done|done|apply same_core_references|cbn; lia| |].
  - intros q Hq. cbn. rewrite is_ref_ne by done. lia.
  - unfold counted in *. cbn in Hc |- *. rewrite is_ref_refl in Hc. lia.
Qed.

Lemma inv_with_ticks x o s p t n : inv x o s -> threads s !! p = Some t ->
  inv x o (with_threads s (<[p := with_ticks t n]> (threads s))).
Proof.
  intros Hi E. pose proof (tok_refs _ _ _ _ _ _ (inv_threads _ _ _ Hi p t E)).
  eapply inv_light; [done|done|by repeat split|done|lia|]. exact (counted_le x o s p t Hi E).
Qed.

(** ** Messages *)

Lemma inv_new_message x o s c : inv (source c :: destination c :: x) o s ->
  source c <> NULL -> destination c <> NULL -> (source c = cleanup_thread s -> m_class c = SmallMessage) ->
  inv x (<[next_object s := c]> o) (with_msgs (with_next_object s (next_object s + 1)) (<[next_object s := c]> (msgs s))).
Proof.
  intros Hi Hs Hd Hsmall. destruct (inv_fresh _ _ _ Hi) as (F1 & _ & F3).
  assert (msgs s !! next_object s = None) as Hfresh.
  { destruct (msgs s !! next_object s) as [c'|] eqn:E; [|done]. specialize (F3 _ _ E). lia. }
  assert (forall m c', msgs s !! m = Some c' -> m <> next_object s) as Hne by congruence.
  eapply inv_change_msgs; [exact Hi|done..| | | | | |].
  - cbn. lia.
  - intros m Hm. cbn. apply lookup_insert_ne. destruct (inv_pending _ _ _ Hi) as [_ Hin].
    destruct (Hin m Hm) as (p & t & Ep & Hmt). destruct (tok_held _ _ _ _ _ _ (inv_threads _ _ _ Hi p t Ep) m Hmt) as (_ & c' & E & _).
    symmetry. eauto.
  - intros p t Ep Ha. cbn. apply lookup_insert_ne.
    destruct (tok_ack _ _ _ _ _ _ (inv_threads _ _ _ Hi p t Ep) Ha) as (_ & c' & E & _). symmetry. eauto.
  - intros q Hq. unfold counted. cbn. rewrite total_insert by done. unfold msg_refs. lia.
  - intros m c' Hm. cbn in Hm. destruct (decide (m = next_object s)) as [->|Hn].
    + rewrite lookup_insert_eq in Hm. simplify_eq. cbn. split; [lia|done].
    + rewrite lookup_insert_ne in Hm by done. specialize (F3 _ _ Hm). cbn. split; [lia|].
      destruct (inv_ends _ _ _ Hi m c' Hm). split; [done|]. split; [done|]. by apply (inv_small _ _ _ Hi m).
  - intros m c' Hm. cbn. destruct (decide (m = next_object s)) as [->|Hn].
    + rewrite lookup_insert_eq in *. simplify_eq. split; [done|]. split.
      * intros Hp. destruct (inv_pending _ _ _ Hi) as [_ Hin].
        destruct (Hin _ Hp) as (p & t & Ep & Hmt). destruct (tok_held _ _ _ _ _ _ (inv_threads _ _ _ Hi p t Ep) _ Hmt) as (_ & c2 & E & _).
        by apply (Hne _ _ E).
      * intros p t Ep Ha. destruct (tok_ack _ _ _ _ _ _ (inv_threads _ _ _ Hi p t Ep)) as (_ & c2 & E & _).
        -- rewrite Ha. unfold NULL. lia.
        -- by apply (Hne _ _ E).
    + rewrite lookup_insert_ne in * by done. by apply (inv_owned _ _ _ Hi).
Qed.

Lemma inv_delete_message x o s m c : inv x o s -> o !! m = Some c ->
  inv (source c :: destination c :: x) (delete m o) (with_msgs s (delete m (msgs s))).
Proof.
  intros Hi Eo. destruct (inv_owned _ _ _ Hi m c Eo) as (Em & Hp & Ha). destruct (inv_fresh _ _ _ Hi) as (F1 & _ & F3).
  eapply inv_change_msgs; [exact Hi|done..| | | | |].
  - intros k Hk. cbn. apply lookup_delete_ne. by intros ->.
  - intros p t Ep Hack. cbn. apply lookup_delete_ne. intros Heq. by apply (Ha p t Ep).
  - intros q Hq. unfold counted. cbn. rewrite (total_delete _ _ _ c) by done. unfold msg_refs. lia.
  - intros k c' Hk. cbn in Hk. apply lookup_delete_Some in Hk as [_ Hk]. split; [eauto|].
    destruct (inv_ends _ _ _ Hi k c' Hk). split; [done|]. split; [done|]. by apply (inv_small _ _ _ Hi k).
  - intros k c' Hk. cbn. apply lookup_delete_Some in Hk as [Hne Hk]. rewrite lookup_delete_ne by done. by apply (inv_owned _ _ _ Hi).
Qed.

Lemma inv_update_message x o s m c c' : inv x o s -> o !! m = Some c ->
  source c' = source c -> destination c' = destination c -> m_class c' = m_class c ->
  inv x (<[m := c']> o) (with_msgs s (<[m := c']> (msgs s))).
Proof.
  intros Hi Eo Hs Hd Hc. destruct (inv_owned _ _ _ Hi m c Eo) as (Em & Hp & Ha). destruct (inv_fresh _ _ _ Hi) as (F1 & _ & F3).
  eapply inv_change_msgs; [exact Hi|done..| | | | |].
  - intros k Hk. cbn. apply lookup_insert_ne. by intros ->.
  - intros p t Ep Hack. cbn. apply lookup_insert_ne. intros Heq. by apply (Ha p t Ep).
  - intros q Hq. unfold counted. cbn. rewrite (total_update _ _ _ c) by done. unfold msg_refs. rewrite Hs, Hd. lia.
  - intros k c2 Hk. cbn in Hk. destruct (decide (k = m)) as [->|Hn].
    + rewrite lookup_insert_eq in Hk. simplify_eq. split; [eauto|]. rewrite Hs, Hd, Hc.
      destruct (inv_ends _ _ _ Hi m c Em). split; [done|]. split; [done|]. by apply (inv_small _ _ _ Hi m).
    + rewrite lookup_insert_ne in Hk by done. split; [eauto|].
      destruct (inv_ends _ _ _ Hi k c2 Hk). split; [done|]. split; [done|]. by apply (inv_small _ _ _ Hi k).
  - intros k c2 Hk. cbn. destruct (decide (k = m)) as [->|Hn].
    + rewrite lookup_insert_eq in *. by simplify_eq.
    + rewrite lookup_insert_ne in * by done. by apply (inv_owned _ _ _ Hi).
Qed.

(** ** Mailboxes *)

Lemma chain_same x o s p t t' : inv x o s -> threads s !! p = Some t -> blocking_thread t' = blocking_thread t ->
  forall q u, threads s !! q = Some u -> exists n r, chain (<[p := t']> (threads s)) n q r.
Proof.
  intros Hi Ep Hb q u Eq. destruct (inv_chain _ _ _ Hi q u Eq) as (n & r & Hc). exists n, r. eapply chain_ext; [done|].
  intros k v Ev. destruct (decide (k = p)) as [->|Hne].
  - rewrite lookup_insert_eq. simplify_eq. eauto.
  - rewrite lookup_insert_ne by done. eauto.
Qed.

Lemma held_in x o s p t m : inv x o s -> threads s !! p = Some t -> m ∈ held t ->
  m ∈ pending_messages s /\ exists c, msgs s !! m = Some c /\ destination c = p /\ deliverable c.
Proof. intros Hi Ep Hm. by apply (inv_threads _ _ _ Hi p t Ep). Qed.

Lemma held_unique x o s p q t u m : inv x o s -> threads s !! p = Some t -> threads s !! q = Some u ->
  m ∈ held t -> m ∈ held u -> p = q.
Proof.
  intros Hi Ep Eq Hp Hq. destruct (held_in _ _ _ _ _ _ Hi Ep Hp) as (_ & c & E & <- & _).
  destruct (held_in _ _ _ _ _ _ Hi Eq Hq) as (_ & c' & E' & <- & _). by simplify_eq.
Qed.

Lemma counted_thread x x' s p t t' pending q : threads s !! p = Some t ->
  occurrences q x' + thread_refs q t' <= occurrences q x + thread_refs q t ->
  counted x' (with_pending (with_threads s (<[p := t']> (threads s))) pending) q <= counted x s q.
Proof. intros Ep H. unfold counted. cbn. rewrite (total_update _ _ _ t) by done. lia. Qed.

(** A message that the running function owns enters a mailbox. *)
Lemma inv_enqueue_gen x x' o s p t t' m c : inv x o s -> threads s !! p = Some t -> o !! m = Some c ->
  destination c = p -> deliverable c -> mailbox_enabled t = true ->
  t_id t' = t_id t -> deletion_acknowledgement t' = deletion_acknowledgement t -> mailbox_enabled t' = true ->
  reference_count t' = reference_count t -> held t' ≡ₚ m :: held t ->
  (state t' = THREAD_STATE_BLOCKED <-> blocking_thread t' <> NULL) ->
  (forall f, suspended t' = Some f -> frame_ok (msgs s) (cleanup_thread s) t' f) ->
  (forall q u, threads s !! q = Some u -> exists n r, chain (<[p := t']> (threads s)) n q r) ->
  (forall q, q <> NULL -> occurrences q x' + thread_refs q t' <= occurrences q x + thread_refs q t) ->
  inv x' (delete m o) (with_pending (with_threads s (<[p := t']> (threads s))) (pending_messages s ++ [m])).
Proof.
  intros Hi Ep Eo Hd Hdel Hen C1 C2 C3 C4 Hheld Hblock Hframe Hch Href.
  destruct (inv_owned _ _ _ Hi m c Eo) as (Em & Hp & Ha). pose proof (inv_threads _ _ _ Hi p t Ep) as [A1 A2 A3 A4 A5 A6 A7 A8 A9].
  eapply inv_change; [exact Hi|exact Ep|by repeat split|done|done| | | |done| | | | | |].
  - split; cbn; rewrite ?C1, ?C2, ?C3, ?C4; try done.
    + by intros; apply A1.
    + rewrite Hheld. constructor; [|done]. intros Hm. by apply Hp, A6.
    + intros k Hk. rewrite Hheld in Hk. apply elem_of_cons in Hk as [->|Hk].
      * split; [apply elem_of_app; right; by apply list_elem_of_singleton|]. eauto.
      * destruct (A6 k Hk). split; [apply elem_of_app; by left|done].
    + intros Hne. destruct (A7 Hne) as [Hq Hc]. split; [|done]. intros [Hk|Hk%list_elem_of_singleton]%elem_of_app; [done|].
      by apply (Ha p t Ep).
    + intros Hne. specialize (A9 Hne). congruence.
  - intros q u k Hq Eq Hk. cbn. apply elem_of_app. left. by apply (held_in _ _ _ _ _ _ Hi Eq Hk).
  - intros q u Hq Eq Hne. cbn. intros [Hk|Hk%list_elem_of_singleton]%elem_of_app; [|by apply (Ha q u Eq)].
    by apply (tok_ack _ _ _ _ _ _ (inv_threads _ _ _ Hi q u Eq)) in Hk.
  - intros q Hq Hqp. apply (counted_thread _ _ _ _ t); auto.
  - rewrite C4. etransitivity; [apply (counted_thread x _ _ _ t); [done|]|by apply (counted_le x o)].
    apply Href. by eapply inv_thread_ne.
  - cbn. apply NoDup_app. destruct (inv_pending _ _ _ Hi) as [Hnd _]. split; [done|].
    split; [|apply NoDup_singleton]. intros k Hk ->%list_elem_of_singleton. done.
  - intros k. cbn. rewrite Hheld. intros [Hk| ->%list_elem_of_singleton]%elem_of_app; [|left; left].
    destruct (decide (k ∈ held t)); [left; by right|by right].
  - intros _. left. done.
  - intros k c' Hk. apply lookup_delete_Some in Hk as [Hne Hk]. destruct (inv_owned _ _ _ Hi k c' Hk) as (E & Hkp & Hka).
    split; [done|]. split.
    + cbn. intros [Hq|Hq%list_elem_of_singleton]%elem_of_app; congruence.
    + cbn. intros q u Eu. destruct (decide (q = p)) as [->|Hqp].
      * rewrite lookup_insert_eq in Eu. simplify_eq. rewrite C2. eauto.
      * rewrite lookup_insert_ne in Eu by done. eauto.
Qed.

(** Messages leave a mailbox for the running function. *)
Lemma inv_dequeue_gen x x' o o' s p t t' ms pending : inv x o s -> threads s !! p = Some t ->
  t_id t' = t_id t -> deletion_acknowledgement t' = deletion_acknowledgement t ->
  (mailbox_enabled t' = true -> mailbox_enabled t = true) -> (mailbox_enabled t' = false -> held t' = []) ->
  reference_count t' = reference_count t -> held t ≡ₚ ms ++ held t' -> pending_messages s ≡ₚ ms ++ pending ->
  (state t' = THREAD_STATE_BLOCKED <-> blocking_thread t' <> NULL) -> blocking_thread t' = blocking_thread t ->
  (forall f, suspended t' = Some f -> frame_ok (msgs s) (cleanup_thread s) t' f) ->
  (forall q, q <> NULL -> occurrences q x' + thread_refs q t' <= occurrences q x + thread_refs q t) ->
  (forall m c, o' !! m = Some c -> o !! m = Some c \/ (m ∈ ms /\ msgs s !! m = Some c)) ->
  inv x' o' (with_pending (with_threads s (<[p := t']> (threads s))) pending).
Proof.
  intros Hi Ep C1 C2 C3 C4 C5 Hheld Hpend Hblock Hbl Hframe Href Ho.
  pose proof (inv_threads _ _ _ Hi p t Ep) as [A1 A2 A3 A4 A5 A6 A7 A8 A9]. destruct (inv_pending _ _ _ Hi) as [Hnd Hin].
  pose proof Hnd as Hnd'. rewrite Hpend in Hnd'. apply NoDup_app in Hnd' as (_ & Hdisj & Hnd').
  pose proof A5 as A5'. rewrite Hheld in A5'. apply NoDup_app in A5' as (_ & Hdisj' & A5').
  assert (forall k, k ∈ pending -> k ∈ pending_messages s) as Hsub by (intros k Hk; rewrite Hpend; apply elem_of_app; by right).
  assert (forall k, k ∈ pending_messages s -> (k ∉ ms) -> k ∈ pending) as Hkeep.
  { intros k Hk Hn. rewrite Hpend in Hk. by apply elem_of_app in Hk as [|]. }
  assert (forall k, k ∈ ms -> k ∈ held t) as Hms by (intros k Hk; rewrite Hheld; apply elem_of_app; by left).
  eapply inv_change; [exact Hi|exact Ep|by repeat split|done|done| | | | | | | | | |].
  - split; cbn; rewrite ?C1, ?C2, ?C5; try done.
    + auto.
    + intros k Hk. assert (k ∈ held t) as Hk' by (rewrite Hheld; apply elem_of_app; by right).
      destruct (A6 k Hk') as [Hq Hc]. split; [|done]. apply Hkeep; [done|]. intros Hkm. by apply (Hdisj' k Hkm).
    + intros Hne. destruct (A7 Hne) as [Hq Hc]. split; [|done]. auto.
    + intros Hne. specialize (A9 Hne). destruct (mailbox_enabled t'); [|done]. by rewrite C3 in A9.
  - intros q u k Hq Eq Hk. cbn. destruct (held_in _ _ _ _ _ _ Hi Eq Hk) as [Hkp _]. apply Hkeep; [done|]. intros Hkm.
    apply Hq. exact (held_unique _ _ _ _ _ _ _ _ Hi Eq Ep Hk (Hms k Hkm)).
  - intros q u Hq Eq Hne Hk. cbn in Hk. destruct (tok_ack _ _ _ _ _ _ (inv_threads _ _ _ Hi q u Eq) Hne) as [Hn _]. auto.
  - by apply (chain_same x o s p t).
  - intros q Hq Hqp. apply (counted_thread _ _ _ _ t); auto.
  - rewrite C5. etransitivity; [apply (counted_thread x _ _ _ t); [done|]|by apply (counted_le x o)].
    apply Href. by eapply inv_thread_ne.
  - done.
  - intros k. cbn. intros Hk. destruct (decide (k ∈ held t)) as [Hh|Hh]; [|auto]. left. rewrite Hheld in Hh.
    apply elem_of_app in Hh as [Hkm|]; [|done]. by destruct (Hdisj k Hkm).
  - intros _. left. done.
  - intros k c' Hk. cbn. assert (forall q u, <[p := t']> (threads s) !! q = Some u -> exists v, threads s !! q = Some v /\
      deletion_acknowledgement u = deletion_acknowledgement v) as Hold.
    { intros q u Eu. destruct (decide (q = p)) as [->|Hqp].
      - rewrite lookup_insert_eq in Eu. simplify_eq. eauto.
      - rewrite lookup_insert_ne in Eu by done. eauto. }
    destruct (Ho k c' Hk) as [Hko|[Hkm Em]].
    + destruct (inv_owned _ _ _ Hi k c' Hko) as (E & Hkp & Hka). split; [done|]. split; [auto|].
      intros q u (v & Ev & ->)%Hold. eauto.
    + split; [done|]. split; [auto|]. intros q u (v & Ev & ->)%Hold Hak.
      destruct (tok_ack _ _ _ _ _ _ (inv_threads _ _ _ Hi q v Ev)) as [Hn _].
      * rewrite Hak. by eapply inv_msg_ne.
      * apply Hn. rewrite Hak. by apply (held_in _ _ _ p t k Hi Ep), Hms.
Qed.

Lemma not_held x o s p t m c : inv x o s -> threads s !! p = Some t -> o !! m = Some c -> m ∉ held t.
Proof. intros Hi Ep Eo Hm. destruct (inv_owned _ _ _ Hi m c Eo) as (_ & Hp & _). by apply Hp, (held_in _ _ _ _ _ _ Hi Ep). Qed.

(** The reply that a thread waits for wakes it and goes to the head. *)
Definition woken (t : thread_c) (m : Z) : thread_c :=
  with_queue (with_blocking t THREAD_STATE_READY (blocking_message_id t) NULL) (m :: message_queue t).

Lemma inv_wake x o s p t m c : inv x o s -> threads s !! p = Some t -> o !! m = Some c -> destination c = p ->
  deliverable c -> mailbox_enabled t = true -> blocking_thread t <> NULL ->
  source c = blocking_thread t -> m_id c = blocking_message_id t ->
  inv (blocking_thread t :: x) (delete m o)
    (with_pending (with_threads s (<[p := woken t m]> (threads s))) (pending_messages s ++ [m])).
Proof.
  intros Hi Ep Eo Hd Hdel Hen Hb Hs Hm. pose proof (inv_threads _ _ _ Hi p t Ep) as [A1 A2 A3 A4 A5 A6 A7 A8 A9].
  destruct (inv_owned _ _ _ Hi m c Eo) as (Em & _).
  eapply inv_enqueue_gen; [exact Hi|exact Ep|exact Eo|done|done|done|done|done|done|done|done| | | |].
  - cbn. split; [done|]. by intros [].
  - intros f Hf. cbn in Hf. destruct (A8 f Hf) as [G1 G2 G3 G4 G5]. destruct (G1 (proj2 A3 Hb)) as [Hr1 Hr2].
    split; cbn; try done. intros _ _. exists m, (message_queue t), c. split; [done|]. split; [done|]. split; congruence.
  - intros q u Eq. destruct (inv_chain _ _ _ Hi q u Eq) as (n & r & Hc). by eapply chain_wake.
  - intros q Hq. unfold thread_refs. cbn. rewrite (is_ref_ne q NULL) by done. lia.
Qed.

(** Any other message goes to the tail. *)
Definition queued (t : thread_c) (m : Z) : thread_c := with_queue t (message_queue t ++ [m]).

Lemma held_queued t m : held (queued t m) ≡ₚ m :: held t.
Proof. unfold held, queued. cbn. rewrite <- app_assoc. cbn. by rewrite <- Permutation_middle. Qed.

Lemma inv_push x o s p t m c : inv x o s -> threads s !! p = Some t -> o !! m = Some c -> destination c = p ->
  deliverable c -> mailbox_enabled t = true ->
  inv x (delete m o) (with_pending (with_threads s (<[p := queued t m]> (threads s))) (pending_messages s ++ [m])).
Proof.
  intros Hi Ep Eo Hd Hdel Hen. pose proof (inv_threads _ _ _ Hi p t Ep) as [A1 A2 A3 A4 A5 A6 A7 A8 A9].
  eapply inv_enqueue_gen; [exact Hi|exact Ep|exact Eo|done|done|done|done|done|done|done|apply held_queued|done| | |].
  - intros f Hf. cbn in Hf. destruct (A8 f Hf) as [G1 G2 G3 G4 G5]. split; cbn; try done. intros Hs He.
    destruct (G2 Hs He) as (k & q & c' & Hq & Hr). exists k, (q ++ [m]), c'. by rewrite Hq.
  - by apply (chain_same x o s p t).
  - done.
Qed.

(** The bonus message of a preempted thread. *)
Lemma inv_bonus x o s p t m c : inv x o s -> threads s !! p = Some t -> o !! m = Some c -> destination c = p ->
  deliverable c -> mailbox_enabled t = true -> bonus_message t = NULL ->
  inv x (delete m o) (with_pending (with_threads s (<[p := with_bonus t m]> (threads s))) (pending_messages s ++ [m])).
Proof.
  intros Hi Ep Eo Hd Hdel Hen Hnull. pose proof (inv_threads _ _ _ Hi p t Ep) as [A1 A2 A3 A4 A5 A6 A7 A8 A9].
  destruct (inv_owned _ _ _ Hi m c Eo) as (Em & _). pose proof (inv_msg_ne _ _ _ _ _ Hi Em) as Hne.
  eapply inv_enqueue_gen; [exact Hi|exact Ep|exact Eo|done|done|done|done|done|done|done| |done| | |].
  - unfold held. cbn. rewrite Hnull. cbn. destruct (Z.eqb_spec m NULL); [done|]. by rewrite <- Permutation_cons_append, app_nil_r.
  - intros f Hf. cbn in Hf. destruct (A8 f Hf) as [G1 G2 G3 G4 G5]. by split.
  - by apply (chain_same x o s p t).
  - done.
Qed.

(** A thread takes the first message of its mailbox. *)
Lemma inv_pop x o s p t m q c pending : inv x o s -> threads s !! p = Some t -> message_queue t = m :: q ->
  suspended t = None -> pending_messages s ≡ₚ m :: pending -> msgs s !! m = Some c ->
  inv x (<[m := c]> o) (with_pending (with_threads s (<[p := with_queue t q]> (threads s))) pending).
Proof.
  intros Hi Ep Hq Hf Hp Em. pose proof (inv_threads _ _ _ Hi p t Ep) as [A1 A2 A3 A4 A5 A6 A7 A8 A9].
  assert (held t = m :: held (with_queue t q)) as Hheld by (unfold held; cbn; by rewrite Hq).
  eapply (inv_dequeue_gen x x o _ s p t (with_queue t q) [m]); try done.
  - cbn. intros He. rewrite (A2 He) in Hheld. done.
  - by rewrite Hheld.
  - cbn. rewrite Hf. done.
  - intros k c' Hk. destruct (decide (k = m)) as [->|Hne].
    + rewrite lookup_insert_eq in Hk. simplify_eq. right. split; [left|done].
    + rewrite lookup_insert_ne in Hk by done. by left.
Qed.

(** The bonus message is taken back. *)
Lemma inv_take_bonus x o s p t pending : inv x o s -> threads s !! p = Some t -> bonus_message t <> NULL ->
  pending_messages s ≡ₚ bonus_message t :: pending ->
  inv x o (with_pending (with_threads s (<[p := with_bonus t NULL]> (threads s))) pending).
Proof.
  intros Hi Ep Hb Hp. pose proof (inv_threads _ _ _ Hi p t Ep) as [A1 A2 A3 A4 A5 A6 A7 A8 A9].
  assert (held t = message_queue t ++ [bonus_message t]) as Hheld.
  { unfold held. by destruct (Z.eqb_spec (bonus_message t) NULL). }
  eapply (inv_dequeue_gen x x o _ s p t (with_bonus t NULL) [bonus_message t]); try done.
  - cbn. intros He. rewrite (A2 He) in Hheld. by destruct (message_queue t).
  - rewrite Hheld. unfold held. cbn. by rewrite app_nil_r, <- Permutation_cons_append.
  - intros f Hf. cbn in Hf. destruct (A8 f Hf) as [G1 G2 G3 G4 G5]. by split.
  - auto.
Qed.

(** The mailbox is disabled and emptied. *)
Definition flushed (t : thread_c) : thread_c := with_bonus (with_queue (disable_mailbox t) []) NULL.

Lemma inv_flush x o o' s p t pending : inv x o s -> threads s !! p = Some t -> pending_messages s ≡ₚ held t ++ pending ->
  (forall m c, o' !! m = Some c -> o !! m = Some c \/ (m ∈ held t /\ msgs s !! m = Some c)) ->
  inv x o' (with_pending (with_threads s (<[p := flushed t]> (threads s))) pending).
Proof.
  intros Hi Ep Hp Ho. pose proof (inv_threads _ _ _ Hi p t Ep) as [A1 A2 A3 A4 A5 A6 A7 A8 A9].
  eapply (inv_dequeue_gen x x o o' s p t (flushed t) (held t)); try done.
  - by rewrite app_nil_r.
  - intros f Hf. cbn in Hf. destruct (A8 f Hf) as [G1 G2 G3 G4 G5]. by split.
Qed.

(** The stack of a thread that waits for a reply. *)
Lemma inv_suspend x o s p t f : inv x o s -> threads s !! p = Some t -> suspended t = None ->
  state t = THREAD_STATE_BLOCKED -> blocking_thread t = recipient f -> blocking_message_id t = request_id f ->
  (caller f = FromDeletion -> recipient f = cleanup_thread s) -> (forall r, caller f = FromSyscall r -> r <> NULL) -> forall x',
  (forall q, q <> NULL -> occurrences q x' + frame_refs q (Some f) <= occurrences q x) ->
  inv x' o (with_threads s (<[p := with_suspended t (Some f)]> (threads s))).
Proof.
  intros Hi Ep Hf Hs Hb Hr Hc Hcall x' Hx. pose proof (inv_threads _ _ _ Hi p t Ep) as [A1 A2 A3 A4 A5 A6 A7 A8 A9].
  apply (inv_dequeue_gen x x' o o s p t (with_suspended t (Some f)) [] (pending_messages s)); try done.
  - intros f' Hf'. cbn in Hf'. simplify_eq. split; cbn; try done; [by rewrite Hs|]. rewrite <- Hb. by apply A3.
  - intros q Hq. specialize (Hx q Hq). unfold thread_refs. cbn [suspended with_suspended blocking_thread]. rewrite Hf. cbn [frame_refs] in *. lia.
  - auto.
Qed.

Definition frame_list (f : send_frame) : list Z :=
  recipient f :: match caller f with FromSyscall d => [d] | FromDeletion => [] end.

Lemma occurrences_frame q f : occurrences q (frame_list f) = frame_refs q (Some f).
Proof. unfold frame_list. cbn. destruct (caller f); cbn; lia. Qed.

Lemma inv_resume x o s p t f : inv x o s -> threads s !! p = Some t -> suspended t = Some f ->
  inv (frame_list f ++ x) o (with_threads s (<[p := with_suspended t None]> (threads s))).
Proof.
  intros Hi Ep Hf. pose proof (inv_threads _ _ _ Hi p t Ep) as [A1 A2 A3 A4 A5 A6 A7 A8 A9].
  apply (inv_dequeue_gen x _ o o s p t (with_suspended t None) [] (pending_messages s)); try done.
  - intros q Hq. rewrite occurrences_app, occurrences_frame. unfold thread_refs. cbn [suspended with_suspended blocking_thread].
    rewrite Hf. cbn [frame_refs]. lia.
  - auto.
Qed.

(** A thread waits for [r], whose chain ends elsewhere. *)
Lemma inv_block_on x o s p t r id n q : inv (r :: x) o s -> threads s !! p = Some t -> blocking_thread t = NULL ->
  suspended t = None -> r <> NULL -> chain (threads s) n r q -> q <> p ->
  inv x o (with_threads s (<[p := with_blocking t THREAD_STATE_BLOCKED id r]> (threads s))).
Proof.
  intros Hi Ep Hb Hf Hr Hc Hq. pose proof (inv_threads _ _ _ Hi p t Ep) as [A1 A2 A3 A4 A5 A6 A7 A8 A9].
  assert (forall k, k <> NULL -> occurrences k x + thread_refs k (with_blocking t THREAD_STATE_BLOCKED id r) <=
    occurrences k (r :: x) + thread_refs k t) as Href.
  { intros k Hk. unfold thread_refs. cbn. rewrite Hb, (is_ref_ne k NULL) by done. lia. }
  eapply (inv_change (r :: x) x o o s _ p t); try done.
  - split; cbn; try done. rewrite Hf. done.
  - intros k u m Hk Ek Hm. by apply (held_in _ _ _ _ _ _ Hi Ek).
  - intros k u Hk Ek Ha. by apply (inv_threads _ _ _ Hi k u Ek).
  - intros k u Ek. destruct (inv_chain _ _ _ Hi k u Ek) as (n' & q' & Hc'). by eapply chain_block.
  - intros k Hk Hkp. apply (counted_thread (r :: x) x s p t _ (pending_messages s)); auto.
  - etransitivity; [apply (counted_thread (r :: x) x s p t _ (pending_messages s)); [done|]|by apply (counted_le (r :: x) o s p t)].
    apply Href. by eapply inv_thread_ne.
  - by apply (inv_pending _ _ _ Hi).
  - intros m Hm. cbn in Hm. destruct (decide (m ∈ held t)); [by left|by right].
  - by left.
  - intros m c Hm. destruct (inv_owned _ _ _ Hi m c Hm) as (? & ? & Ha). split; [done|]. split; [done|]. cbn. intros k u Ek.
    destruct (decide (k = p)) as [->|Hne].
    + rewrite lookup_insert_eq in Ek. simplify_eq. exact (Ha p t Ep).
    + rewrite lookup_insert_ne in Ek by done. by apply (Ha k).
Qed.

(** The acknowledgement that the destructor will send. *)
Lemma inv_set_ack x o s p t m c : inv x o s -> threads s !! p = Some t -> deletion_acknowledgement t = NULL ->
  mailbox_enabled t = false ->
  o !! m = Some c -> is_blocking c = false -> m_class c = SmallMessage ->
  inv x (delete m o) (with_threads s (<[p := with_acknowledgement t m]> (threads s))).
Proof.
  intros Hi Ep Ha Hdis Eo Hb Hc. pose proof (inv_threads _ _ _ Hi p t Ep) as [A1 A2 A3 A4 A5 A6 A7 A8 A9].
  destruct (inv_owned _ _ _ Hi m c Eo) as (Em & Hp & Hack).
  eapply (inv_change x x o _ s _ p t); try done.
  - split; cbn; try done; [eauto|]. intros f Hf. destruct (A8 f Hf) as [G1 G2 G3 G4 G5]. by split.
  - intros k u k' Hk Ek Hm. by apply (held_in _ _ _ _ _ _ Hi Ek).
  - intros k u Hk Ek Hka. by apply (inv_threads _ _ _ Hi k u Ek).
  - by apply (chain_same x o s p t).
  - intros k Hk Hkp. apply (counted_thread x x s p t _ (pending_messages s)); done.
  - etransitivity; [apply (counted_thread x x s p t _ (pending_messages s)); done|]. by apply (counted_le x o s p t).
  - by apply (inv_pending _ _ _ Hi).
  - intros k Hk. cbn in Hk. destruct (decide (k ∈ held t)); [by left|by right].
  - intros _. right. cbn. intros q u Eq. by apply (Hack q u Eq).
  - intros k c' Hk. apply lookup_delete_Some in Hk as [Hne Hk]. destruct (inv_owned _ _ _ Hi k c' Hk) as (? & ? & Hka).
    split; [done|]. split; [done|]. cbn. intros q u Eq. destruct (decide (q = p)) as [->|Hqp].
    + rewrite lookup_insert_eq in Eq. by simplify_eq.
    + rewrite lookup_insert_ne in Eq by done. by apply (Hka q).
Qed.

(** ** Deleting a thread *)

(** The last reference is the one in hand: nothing else refers to the thread. *)
Lemma unreferenced x o s p t : inv (p :: x) o s -> threads s !! p = Some t -> reference_count t = 1 ->
  (forall m c, msgs s !! m = Some c -> source c <> p /\ destination c <> p) /\
  (forall q u, threads s !! q = Some u -> blocking_thread u <> p) /\ (forall i, thread_table s !! i <> Some p) /\
  null_thread s <> p /\ cleanup_thread s <> p /\ message_queue t = [] /\ bonus_message t = NULL.
Proof.
  intros Hi Ep Hr. pose proof (counted_le _ _ _ _ _ Hi Ep) as Hc. pose proof (counted_parts x s p) as (P1 & P2 & P3 & P4 & P5 & P6).
  unfold counted in Hc. cbn in Hc. rewrite is_ref_refl, Hr in Hc.
  assert (forall m c, msgs s !! m = Some c -> source c <> p /\ destination c <> p) as Hm.
  { intros m c Em. pose proof (total_ge (msg_refs p) _ _ _ (msg_refs_nonneg p) Em) as Hge. unfold msg_refs at 1 in Hge.
    pose proof (is_ref_nonneg p (source c)). pose proof (is_ref_nonneg p (destination c)).
    split; intros Heq; rewrite Heq, is_ref_refl in Hge; lia. }
  assert (held t = []) as Hheld.
  { destruct (held t) as [|m q] eqn:Hh; [done|]. destruct (held_in _ _ _ p t m Hi Ep) as (_ & c & Em & Hd & _).
    - rewrite Hh. left.
    - by destruct (Hm m c Em). }
  split; [done|]. split; [|split; [|split; [|split]]].
  - intros q u Eq Heq. pose proof (total_ge (thread_refs p) _ _ _ (thread_refs_nonneg p) Eq) as Hge.
    unfold thread_refs at 1 in Hge. rewrite Heq, is_ref_refl in Hge. pose proof (frame_refs_nonneg p (suspended u)). lia.
  - intros i Ei. pose proof (total_ge (is_ref p) _ _ _ (is_ref_nonneg p) Ei). rewrite is_ref_refl in *. lia.
  - intros Heq. rewrite Heq, is_ref_refl in Hc. lia.
  - intros Heq. rewrite Heq, is_ref_refl in Hc. lia.
  - unfold held in Hheld. apply app_nil in Hheld as [Hq Hb]. split; [done|]. by destruct (Z.eqb_spec (bonus_message t) NULL).
Qed.

Definition blocking_list (t : thread_c) : list Z := if blocking_thread t =? NULL then [] else [blocking_thread t].

Lemma inv_destroy x o o' s p t : inv (p :: x) o s -> threads s !! p = Some t -> reference_count t = 1 ->
  p <> current_thread s ->
  (forall m c, o' !! m = Some c -> o !! m = Some c \/ (m = deletion_acknowledgement t /\ m <> NULL /\ msgs s !! m = Some c)) ->
  inv (blocking_list t ++ x) o' (with_threads s (delete p (threads s))).
Proof.
  intros Hi Ep Hr Hcur Ho. destruct (unreferenced _ _ _ _ _ Hi Ep Hr) as (Hm & Hb & Htab & Hnull & Hclean & _).
  assert (forall q u, delete p (threads s) !! q = Some u -> q <> p /\ threads s !! q = Some u) as Hold.
  { intros q u [? ?]%lookup_delete_Some. done. }
  destruct Hi. split; cbn; try done.
  - by rewrite lookup_delete_ne.
  - intros p1 p2 u1 u2 [_ E1]%Hold [_ E2]%Hold. eauto.
  - intros q u [_ E]%Hold. eauto.
  - intros i q E. destruct (inv_table0 i q E) as (Hq & u & Eu & Hiu). split; [done|]. exists u.
    rewrite lookup_delete_ne; [done|]. intros ->. by apply (Htab i).
  - intros q u [_ E]%Hold. eauto.
  - intros q u [Hqp E]%Hold. destruct (inv_chain0 q u E) as (n & r & Hch). exists n, r. by apply chain_delete.
  - intros q Hq Hc. assert (counted (blocking_list t ++ x) (with_threads s (delete p (threads s))) q <= counted (p :: x) s q) as Hle.
    { unfold counted. cbn. rewrite (total_delete _ _ _ t) by done. rewrite occurrences_app.
      assert (occurrences q (blocking_list t) <= thread_refs q t).
      { unfold blocking_list, thread_refs. pose proof (frame_refs_nonneg q (suspended t)).
        pose proof (is_ref_nonneg q (blocking_thread t)). destruct (Z.eqb_spec (blocking_thread t) NULL); cbn; lia. }
      pose proof (is_ref_nonneg q p). lia. }
    destruct (inv_refs0 q Hq) as (u & Eu & Hu); [lia|].
    destruct (decide (q = p)) as [->|Hqp]; [|exists u; rewrite lookup_delete_ne by done; split; [done|lia]].
    exfalso. simplify_eq. revert Hc. unfold counted in Hu |- *. cbn in Hu |- *. rewrite (total_delete _ _ _ t) by done.
    rewrite occurrences_app, is_ref_refl in *. rewrite Hr in Hu.
    assert (occurrences p (blocking_list t) <= thread_refs p t).
    { unfold blocking_list, thread_refs. pose proof (frame_refs_nonneg p (suspended t)).
      pose proof (is_ref_nonneg p (blocking_thread t)). destruct (Z.eqb_spec (blocking_thread t) NULL); cbn; lia. }
    pose proof (counted_parts x s p). lia.
  - destruct inv_pending0 as [Hnd Hin]. split; [done|]. intros m Hmp. destruct (Hin m Hmp) as (q & u & Eu & Hmu).
    exists q, u. split; [|done]. rewrite lookup_delete_ne; [done|]. intros ->.
    destruct (tok_held _ _ _ _ _ _ (inv_threads0 q u Eu) m Hmu) as (_ & c & Ec & Hd & _). by destruct (Hm m c Ec).
  - intros p1 p2 u1 u2 [_ E1]%Hold [_ E2]%Hold. eauto.
  - intros m c Hmc. cbn. destruct (Ho m c Hmc) as [Hmo|(-> & Hne & Em)].
    + destruct (inv_owned0 m c Hmo) as (? & ? & Ha). split; [done|]. split; [done|]. intros q u [_ E]%Hold. eauto.
    + split; [done|]. split; [by apply (tok_ack _ _ _ _ _ _ (inv_threads0 p t Ep))|]. intros q u [Hqp E]%Hold Heq.
      apply Hqp. symmetry. by eapply (inv_acks0 p q t u).
  - destruct inv_fresh0 as (F1 & F2 & F3). split; [done|]. split; [|done]. intros k u [_ E]%Hold. eauto.
Qed.

(** A thread leaves the table; the reference of the table is in hand. *)
Lemma inv_unlist x o s p t : inv x o s -> threads s !! p = Some t -> mailbox_enabled t = false ->
  thread_table s !! t_id t = Some p -> inv (p :: x) o (with_table s (delete (t_id t) (thread_table s))).
Proof.
  intros Hi Ep He Et. destruct Hi. split; cbn; try done.
  - intros i q [_ E]%lookup_delete_Some. eauto.
  - intros q u Eu. destruct (inv_threads0 q u Eu) as [A1 A2 A3 A4 A5 A6 A7 A8 A9]. split; try done.
    intros Hu. rewrite lookup_delete_ne; [by apply A1|]. intros Heq. assert (p = q) as -> by eauto. simplify_eq. congruence.
  - intros q Hq Hc. assert (counted (p :: x) (with_table s (delete (t_id t) (thread_table s))) q = counted x s q) as Heq.
    { unfold counted. cbn. rewrite (total_delete _ _ _ p) by done. lia. }
    rewrite Heq in *. by apply inv_refs0.
Qed.

(** A new thread: one reference for the creator, one for the table. *)
Lemma inv_create x o s id mask : inv x o s -> thread_table s !! id = None -> id = next_thread_id s -> id < THREAD_ID_NULL ->
  inv (next_object s :: x) o
    (with_table (with_threads (with_next_object (with_next_thread_id s (id + 1)) (next_object s + 1))
      (<[next_object s := mkThread id THREAD_STATE_READY 0 NULL NULL mask NULL true [] 0 2 None]> (threads s)))
      (<[id := next_object s]> (thread_table s))).
Proof.
  intros Hi Etab Hid Hlt. set (p := next_object s). set (t := mkThread _ _ _ _ _ _ _ _ _ _ _ _).
  destruct (inv_fresh _ _ _ Hi) as (F1 & F2 & F3). pose proof (inv_refs _ _ _ Hi) as Hrefs.
  assert (p <> NULL) as Hp by (unfold p, NULL; lia).
  assert (threads s !! p = None) as Hnone by (destruct (threads s !! p) as [u|] eqn:E; [specialize (F2 _ _ E); unfold p in *; lia|done]).
  assert (counted x s p <= 0) as Hzero.
  { destruct (Z.le_gt_cases (counted x s p) 0) as [|Hc]; [done|]. destruct (Hrefs p Hp Hc) as (u & Eu & _). congruence. }
  assert (forall q u, <[p := t]> (threads s) !! q = Some u -> (q = p /\ u = t) \/ (q <> p /\ threads s !! q = Some u)) as Hold.
  { intros q u Hq. destruct (decide (q = p)) as [->|Hne].
    - rewrite lookup_insert_eq in Hq. simplify_eq. by left.
    - rewrite lookup_insert_ne in Hq by done. by right. }
  assert (forall q u, threads s !! q = Some u -> <[p := t]> (threads s) !! q = Some u) as Hnew.
  { intros q u Hq. rewrite lookup_insert_ne; [done|]. congruence. }
  assert (forall q u, threads s !! q = Some u -> t_id u <> id) as Hids.
  { intros q u Eu. destruct (inv_next_id _ _ _ Hi q u Eu); lia. }
  destruct Hi. split; cbn; try done.
  - destruct inv_current0 as [u Eu]. rewrite (Hnew _ _ Eu). eauto.
  - intros p1 p2 u1 u2 [[-> ->]|[H1 E1]]%Hold [[-> ->]|[H2 E2]]%Hold Heq; [done|..].
    + exfalso. by apply (Hids p2 u2).
    + exfalso. by apply (Hids p1 u1).
    + eauto.
  - intros q u [[-> ->]|[H1 E1]]%Hold; [cbn; left; lia|]. destruct (inv_next_id0 q u E1); [left; lia|by right].
  - intros i q Ei. destruct (decide (i = id)) as [->|Hne].
    + rewrite lookup_insert_eq in Ei. simplify_eq. split; [done|]. exists t. by rewrite lookup_insert_eq.
    + rewrite lookup_insert_ne in Ei by done. destruct (inv_table0 i q Ei) as (Hq & u & Eu & Hu). split; [done|]. exists u. split; [by apply Hnew|done].
  - intros q u [[-> ->]|[H1 E1]]%Hold.
    + split; cbn; try done; [by rewrite lookup_insert_eq|constructor|by intros m Hm%elem_of_nil].
    + destruct (inv_threads0 q u E1) as [A1 A2 A3 A4 A5 A6 A7 A8 A9]. split; try done. intros He.
      rewrite lookup_insert_ne; [by apply A1|]. intros Heq. by apply (Hids q u).
  - intros q u [[-> ->]|[H1 E1]]%Hold.
    + exists 0%nat, p. eapply chain_end; [apply lookup_insert_eq|done].
    + destruct (inv_chain0 q u E1) as (n & r & Hch). exists n, r. eapply chain_ext; [done|]. intros k v Ev. exists v. split; [by apply Hnew|done].
  - intros q Hq Hc. assert (counted (p :: x) (with_table (with_threads (with_next_object (with_next_thread_id s (id + 1)) (p + 1))
      (<[p := t]> (threads s))) (<[id := p]> (thread_table s))) q = counted x s q + 2 * is_ref q p) as Heq.
    { unfold counted. cbn. rewrite !total_insert by done. unfold thread_refs. cbn. rewrite (is_ref_ne q NULL) by done. lia. }
    rewrite Heq in Hc |- *. destruct (decide (q = p)) as [->|Hqp].
    + exists t. rewrite lookup_insert_eq, is_ref_refl. split; [done|]. cbn. lia.
    + rewrite is_ref_ne in * by done. destruct (inv_refs0 q Hq) as (u & Eu & Hu); [lia|]. exists u. split; [by apply Hnew|]. lia.
  - destruct inv_pending0 as [Hnd Hin]. split; [done|]. intros m Hm. destruct (Hin m Hm) as (q & u & Eu & Hmu). exists q, u. split; [by apply Hnew|done].
  - intros p1 p2 u1 u2 [[-> ->]|[H1 E1]]%Hold [[-> ->]|[H2 E2]]%Hold Hne Heq; cbn in *; by eauto.
  - intros m c Hm. destruct (inv_owned0 m c Hm) as (? & ? & Ha). split; [done|]. split; [done|]. cbn. intros q u [[-> ->]|[H1 E1]]%Hold; [|eauto].
    cbn. intros <-. destruct (F3 NULL c); [done|]. unfold NULL in *. lia.
  - split; [lia|]. split.
    + intros k u [[-> ->]|[H1 E1]]%Hold; [unfold p; lia|]. specialize (F2 k u E1). lia.
    + intros k c Ek. specialize (F3 k c Ek). lia.
Qed.

Lemma inv_switch x o s p t : inv x o s -> threads s !! p = Some t -> inv x o (with_current s p).
Proof. intros [] E. by split. Qed.
End Facts.
