(* ===== verification/KThreadRuns.v ===== *)
(** * Running the message functions of the kernel

    [wp ok c s Q]: the command [c] returns from the state [s] with [Q], or runs
    out of fuel and [ok] holds; it fails no assertion and uses no address of a
    deleted object. [reentry_ok] is what a function of the circle may assume of
    the calls back into it; [entries_ok] proves it for every amount of fuel. *)

From S2P Require Import Prelude CMem CStringSearch World Libdx Process Loader KBase KThreads KThreadInv.

Definition wp (ok : Prop) {A} (c : K A) (s : kernel) (Q : A -> kernel -> Prop) : Prop :=
  match c s with
  | Ret (a, s') => Q a s'
  | Trap OutOfFuel => ok
  | Trap _ => False
  end.

Section Wp.
Implicit Types (s : kernel).

Lemma wp_mono ok ok' {A} (c : K A) s (Q Q' : A -> kernel -> Prop) : wp ok c s Q -> (ok -> ok') ->
  (forall a s', Q a s' -> Q' a s') -> wp ok' c s Q'.
Proof. unfold wp. destruct (c s) as [[a s']|[]]; auto. Qed.

Lemma wp_ret ok {A} (a : A) s Q : Q a s -> wp ok (mret a) s Q.
Proof. done. Qed.

Lemma wp_bind ok {A B} (c : K A) (k : A -> K B) s Q : wp ok c s (fun a s' => wp ok (k a) s' Q) -> wp ok (c ≫= k) s Q.
Proof. unfold wp, mbind, K_bind. destruct (c s) as [[a s']|[]]; auto. Qed.

Lemma wp_gets ok {A} (f : kernel -> A) s Q : Q (f s) s -> wp ok (gets f) s Q.
Proof. done. Qed.

Lemma wp_modify ok f s (Q : unit -> kernel -> Prop) : Q tt (f s) -> wp ok (modify f) s Q.
Proof. done. Qed.

Lemma wp_assert ok b s (Q : unit -> kernel -> Prop) : b = true -> Q tt s -> wp ok (ASSERT b) s Q.
Proof. by intros ->. Qed.

Lemma wp_thread_at ok p t s Q : threads s !! p = Some t -> Q t s -> wp ok (thread_at p) s Q.
Proof. unfold wp, thread_at. by intros ->. Qed.

Lemma wp_message_at ok m c s Q : msgs s !! m = Some c -> Q c s -> wp ok (message_at m) s Q.
Proof. unfold wp, message_at. by intros ->. Qed.

Lemma wp_set_thread ok p t s (Q : unit -> kernel -> Prop) :
  Q tt (with_threads s (<[p := t]> (threads s))) -> wp ok (set_thread p t) s Q.
Proof. done. Qed.

Lemma wp_same_thread ok p q t u s Q : threads s !! p = Some t -> threads s !! q = Some u ->
  Q (t_id t =? t_id u) s -> wp ok (same_thread p q) s Q.
Proof. intros Ep Eq HQ. unfold same_thread. apply wp_bind, (wp_thread_at _ _ t); [done|]. by apply wp_bind, (wp_thread_at _ _ u). Qed.

(** Ids identify the live threads. *)
Lemma wp_same_thread_inv ok x o p q s Q : inv x o s -> is_Some (threads s !! p) -> is_Some (threads s !! q) ->
  Q (bool_decide (p = q)) s -> wp ok (same_thread p q) s Q.
Proof.
  intros Hi [t Ep] [u Eq] HQ. apply (wp_same_thread _ _ _ t u); [done|done|].
  replace (t_id t =? t_id u) with (bool_decide (p = q)); [done|]. case_bool_decide as Hpq.
  - subst. simplify_eq. by rewrite Z.eqb_refl.
  - symmetry. apply Z.eqb_neq. intros Hid. apply Hpq. by apply (inv_ids _ _ _ Hi p q t u).
Qed.
End Wp.

(** Simple steps. *)
Ltac kstep :=
  cbn beta iota;
  match goal with
  | |- wp _ (_ ≫= _) _ _ => apply wp_bind
  | |- wp _ (mret _) _ _ => apply wp_ret
  | |- wp _ (gets _) _ _ => apply wp_gets
  | |- wp _ (modify _) _ _ => apply wp_modify
  | |- wp _ (count _) _ _ => apply wp_modify
  | |- wp _ (set_thread _ _) _ _ => apply wp_set_thread
  | |- wp _ (set_message _ _) _ _ => apply wp_modify
  | |- wp _ (pending_add _) _ _ => apply wp_modify
  | |- wp _ (thread_at _) _ _ => eapply wp_thread_at; [by eauto|]
  | |- wp _ (message_at _) _ _ => eapply wp_message_at; [by eauto|]
  end.
Ltac ksteps := repeat kstep.

(** ** What stays, with the room in the mailbox of the cleanup thread *)

Definition after (exc : option Z) (d : Z) (s s' : kernel) : Prop := stable exc s s' /\ slack s - d <= slack s'.

Section After.
Implicit Types (s : kernel).

Lemma after_trans exc d d' s1 s2 s3 : after exc d s1 s2 -> after exc d' s2 s3 -> after exc (d + d') s1 s3.
Proof. intros [S1 L1] [S2 L2]. split; [by eapply stable_trans|lia]. Qed.

Lemma after_weaken exc d d' s s' : after None d s s' -> d <= d' -> after exc d' s s'.
Proof. intros [S1 L1] Hd. split; [by apply stable_weaken|lia]. Qed.

Lemma after_le exc d d' s s' : after exc d s s' -> d <= d' -> after exc d' s s'.
Proof. intros [S1 L1] Hd. split; [done|lia]. Qed.

Lemma after_same exc s s' : threads s' = threads s -> thread_table s' = thread_table s ->
  next_thread_id s' = next_thread_id s -> current_thread s' = current_thread s -> null_thread s' = null_thread s ->
  cleanup_thread s' = cleanup_thread s -> after exc 0 s s'.
Proof.
  intros H1 H2 H3 H4 H5 H6. split; [|unfold slack, cleanup_backlog; rewrite H1, H6; lia].
  split; rewrite ?H1; try done. intros p t' E. exists t'. done.
Qed.

Lemma after_refl exc s : after exc 0 s s.
Proof. by apply after_same. Qed.

Lemma after_thread exc d s p t t' : threads s !! p = Some t -> t_id t' = t_id t -> mailbox_enabled t' = mailbox_enabled t ->
  capability_mask t' = capability_mask t -> suspended t' = suspended t -> deletion_acknowledgement t' = deletion_acknowledgement t ->
  (exc <> Some p -> state t = THREAD_STATE_READY -> state t' = THREAD_STATE_READY) ->
  Z.of_nat (length (message_queue t')) <= Z.of_nat (length (message_queue t)) + d -> 0 <= d ->
  after exc d s (with_threads s (<[p := t']> (threads s))).
Proof.
  intros Ep H1 H2 H3 H4 H5 H6 H7 Hd. split.
  - split; cbn; try done.
    + rewrite map_size_insert_Some by eauto. done.
    + intros q u' Eq. destruct (decide (q = p)) as [->|Hne].
      * rewrite lookup_insert_eq in Eq. simplify_eq. exists t. done.
      * rewrite lookup_insert_ne in Eq by done. exists u'. done.
  - unfold slack, cleanup_backlog. cbn. rewrite (total_update _ _ _ t) by done.
    assert (has_ack t' = has_ack t) as -> by (unfold has_ack; by rewrite H5).
    destruct (decide (cleanup_thread s = p)) as [->|Hne].
    + rewrite lookup_insert_eq, Ep. lia.
    + rewrite lookup_insert_ne by done. lia.
Qed.

Lemma after_drop_ref exc s p t : threads s !! p = Some t -> after exc 0 s (drop_ref s p t).
Proof. intros E. apply (after_thread _ _ _ _ t); cbn; try done; lia. Qed.
Lemma after_add_ref exc s p t : threads s !! p = Some t -> after exc 0 s (add_ref s p t).
Proof. intros E. apply (after_thread _ _ _ _ t); cbn; try done; lia. Qed.

Lemma after_destroy s p t : threads s !! p = Some t -> cleanup_thread s <> p ->
  after None (- has_ack t) s (with_threads s (delete p (threads s))) /\
  S (base.size (delete p (threads s))) = base.size (threads s).
Proof.
  intros E Hc. assert (S (base.size (delete p (threads s))) = base.size (threads s)) as Hsize.
  { rewrite map_size_delete_Some by eauto. assert (base.size (threads s) <> 0%nat) by (apply map_size_ne_0_lookup; eauto). lia. }
  split; [|done]. split.
  - split; cbn; try done; [lia|]. intros q u Eq. apply lookup_delete_Some in Eq as [? Eq]. exists u. done.
  - unfold slack, cleanup_backlog. cbn. rewrite (total_delete _ _ _ t) by done. rewrite lookup_delete_ne by done. lia.
Qed.

(** The running thread keeps running. *)
Lemma after_running_pending x o d s s' P : running s -> after None d s s' -> inv x o (with_pending s' P) -> running s'.
Proof.
  intros (t & E & He & Hs) [[] _] Hi. destruct (inv_current _ _ _ Hi) as [t' E']. cbn in E'.
  destruct (stable_threads _ _ E') as (u & Eu & H1 & H2 & H3 & H4 & H5). rewrite stable_current in Eu. simplify_eq.
  exists t'. split; [done|]. split; [congruence|]. by apply H5.
Qed.

Lemma after_running x o d s s' : running s -> after None d s s' -> inv x o s' -> running s'.
Proof. intros Hr Ha Hi. apply (after_running_pending x o d s s' (pending_messages s') Hr Ha). by destruct s'. Qed.
End After.

Section Runs.
Context `{environment} {memory : ample_memory}.
Implicit Types (x : list Z) (o : gmap Z message_c) (s : kernel) (e : reentry).

(** ** References *)

Lemma wp_add_reference ok x o s p t Q : inv x o s -> threads s !! p = Some t -> Q tt (add_ref s p t) -> wp ok (add_reference p) s Q.
Proof.
  intros Hi E HQ. unfold add_reference. ksteps. apply wp_assert; [|done].
  apply Z.ltb_lt. apply (tok_refs _ _ _ _ _ _ (inv_threads _ _ _ Hi p t E)).
Qed.

(** Not the last reference. *)
Lemma wp_remove_reference_keep ok e s p t Q : threads s !! p = Some t -> 1 < reference_count t -> Q tt (drop_ref s p t) ->
  wp ok (remove_reference e p) s Q.
Proof.
  intros E Hr HQ. unfold remove_reference. ksteps. apply wp_assert; [apply Z.leb_le; lia|].
  cbn beta. destruct (Z.eqb_spec (reference_count t - 1) 0); [lia|]. done.
Qed.

(** Threads that something else refers to. *)
Definition pinned x s (p : Z) : Prop :=
  null_thread s = p \/ cleanup_thread s = p \/ p ∈ x \/ exists i, thread_table s !! i = Some p.

Lemma pinned_counted x s p : pinned x s p -> 1 <= counted x s p.
Proof.
  pose proof (counted_parts x s p) as (P1 & P2 & P3 & P4 & P5 & P6). unfold counted.
  intros [E|[E|[E|[i E]]]].
  - rewrite E, is_ref_refl. lia.
  - rewrite E, is_ref_refl. lia.
  - apply list_elem_of_split in E as (l1 & l2 & ->). rewrite occurrences_app in *. cbn in *. rewrite is_ref_refl in *.
    pose proof (occurrences_nonneg p l1). pose proof (occurrences_nonneg p l2). lia.
  - pose proof (total_ge (is_ref p) _ _ _ (is_ref_nonneg p) E). rewrite is_ref_refl in *. lia.
Qed.

Lemma counted_cons x s p : counted (p :: x) s p = counted x s p + 1.
Proof. unfold counted. cbn. rewrite is_ref_refl. lia. Qed.

Lemma pinned_references x o s p : inv (p :: x) o s -> p <> NULL -> pinned x s p ->
  exists t, threads s !! p = Some t /\ 1 < reference_count t.
Proof.
  intros Hi Hp Hpin%pinned_counted. destruct (inv_refs _ _ _ Hi p Hp) as (t & E & Hr); rewrite counted_cons in *; [lia|].
  exists t. split; [done|lia].
Qed.

Lemma running_pinned x o s : inv x o s -> running s -> pinned x s (current_thread s).
Proof. intros Hi (t & E & He & _). right. right. right. exists (t_id t). by apply (tok_enabled _ _ _ _ _ _ (inv_threads _ _ _ Hi _ t E)). Qed.

Lemma after_pinned exc d x s s' p : after exc d s s' -> pinned x s p -> pinned x s' p.
Proof. intros [[] _]. unfold pinned. by rewrite stable_null, stable_cleanup, stable_table. Qed.

Lemma wp_remove_pinned ok e x o s p : inv (p :: x) o s -> p <> NULL -> pinned x s p ->
  wp ok (remove_reference e p) s (fun _ s' => inv x o s' /\ after None 0 s s').
Proof.
  intros Hi Hp Hpin. destruct (pinned_references _ _ _ _ Hi Hp Hpin) as (t & E & Hr).
  apply (wp_remove_reference_keep _ _ _ _ t); [done|done|]. split; [by apply inv_drop_ref|by apply after_drop_ref].
Qed.

(** ** Chains *)

Lemma follow_chain_run x o s n p q fuel : inv x o s -> chain (threads s) n p q -> (n <= fuel)%nat ->
  follow_chain fuel p s = Ret (q, s).
Proof.
  intros Hi Hc. revert fuel. induction Hc as [p t E B|n p t q E B Hc IH]; intros fuel Hf.
  - destruct fuel; cbn [follow_chain]; unfold mbind, K_bind, thread_at; rewrite E, B; done.
  - destruct fuel as [|fuel]; [lia|]. cbn [follow_chain]. unfold mbind, K_bind, thread_at. rewrite E.
    destruct (Z.eqb_spec (blocking_thread t) NULL); [done|].
    rewrite bool_decide_true by (by apply (tok_block _ _ _ _ _ _ (inv_threads _ _ _ Hi p t E))). cbn.
    apply IH. lia.
Qed.

Lemma find_blocking_thread_run x o s p t : inv x o s -> threads s !! p = Some t ->
  (blocking_thread t = NULL /\ find_blocking_thread p s = Ret (NULL, s)) \/
  (exists n q, blocking_thread t <> NULL /\ chain (threads s) n p q /\ find_blocking_thread p s = Ret (q, s)).
Proof.
  intros Hi E. unfold find_blocking_thread, mbind, K_bind, thread_at, gets. rewrite E.
  destruct (Z.eqb_spec (blocking_thread t) NULL) as [B|B]; [by left|]. right.
  destruct (inv_chain _ _ _ Hi p t E) as (n & q & Hc). exists n, q. split; [done|]. split; [done|].
  rewrite bool_decide_true by (by apply (tok_block _ _ _ _ _ _ (inv_threads _ _ _ Hi p t E))). cbn.
  inversion Hc as [|n' p' t' q' E' B' Hc']; simplify_eq. apply (follow_chain_run x o _ n'); [done|done|].
  pose proof (chain_short _ _ _ _ Hc). lia.
Qed.

(** The deadlock test: a blocking message is refused exactly when the chain of
    its destination ends at the sender. *)
Lemma causes_scheduling_loop_run x o s p t c n q : inv x o s -> threads s !! p = Some t ->
  chain (threads s) n p q ->
  causes_scheduling_loop p (current_thread s) c s =
    Ret (is_blocking c && (bool_decide (current_thread s = p) || (negb (blocking_thread t =? NULL) && bool_decide (current_thread s = q))), s).
Proof.
  intros Hi E Hc. unfold causes_scheduling_loop. destruct (is_blocking c); [|done]. cbn [andb].
  destruct (inv_current _ _ _ Hi) as [tc Ec].
  assert (forall r u, threads s !! r = Some u -> same_thread (current_thread s) r s = Ret (bool_decide (current_thread s = r), s)) as Hsame.
  { intros r u Er. pose proof (wp_same_thread_inv False x o (current_thread s) r s (fun b s' => b = bool_decide (current_thread s = r) /\ s' = s) Hi) as Hw.
    unfold wp in Hw. destruct (same_thread (current_thread s) r s) as [[b s']|[]]; try by destruct Hw; eauto.
    destruct Hw as [-> ->]; eauto. }
  unfold mbind, K_bind. rewrite (Hsame p t E). case_bool_decide as Hp; [done|]. cbn [orb].
  destruct (find_blocking_thread_run _ _ _ _ _ Hi E) as [[B ->]|(n' & q' & B & Hc' & ->)].
  - rewrite B. done.
  - destruct (chain_functional _ _ _ _ _ _ Hc Hc') as [_ <-]. destruct (chain_end_ready _ _ _ _ Hc) as (u & Eu & Bu).
    pose proof (inv_thread_ne _ _ _ _ _ Hi Eu). destruct (Z.eqb_spec q NULL); [done|].
    destruct (Z.eqb_spec (blocking_thread t) NULL); [done|]. cbn. by apply (Hsame q u).
Qed.

(** ** Blocking and waking *)

Lemma wp_block_on_none ok s r c tc Q : threads s !! current_thread s = Some tc -> is_blocking c = false ->
  Q false s -> wp ok (block_on (current_thread s) r c) s Q.
Proof.
  intros E Hb HQ. unfold block_on. ksteps. apply (wp_same_thread _ _ _ tc tc); [done|done|]. apply wp_bind, wp_assert; [apply Z.eqb_refl|].
  rewrite Hb. done.
Qed.

Lemma wp_block_on_blocks ok s r c tc tr Q : threads s !! current_thread s = Some tc -> is_blocking c = true ->
  blocking_thread tc = NULL -> threads s !! r = Some tr -> r <> current_thread s -> 0 < reference_count tr ->
  Q true (with_threads s (<[r := with_references tr (reference_count tr + 1)]>
    (<[current_thread s := with_blocking tc THREAD_STATE_BLOCKED (m_id c) r]> (threads s)))) ->
  wp ok (block_on (current_thread s) r c) s Q.
Proof.
  intros E Hb Hn Er Hne Hr HQ. unfold block_on. ksteps. apply (wp_same_thread _ _ _ tc tc); [done|done|].
  apply wp_bind, wp_assert; [apply Z.eqb_refl|]. rewrite Hb. ksteps. apply wp_assert; [by rewrite Hn|]. ksteps.
  unfold add_reference. apply wp_bind, (wp_thread_at _ _ tr).
  { cbn. by rewrite lookup_insert_ne. }
  apply wp_bind, wp_assert; [by apply Z.ltb_lt|]. ksteps. exact HQ.
Qed.

(** The message [c] is what the thread [t] waits for. *)
Definition wakes (t : thread_c) (c : message_c) : Prop :=
  blocking_thread t <> NULL /\ source c = blocking_thread t /\ m_id c = blocking_message_id t.

#[local] Instance wakes_dec t c : Decision (wakes t c).
Proof. unfold wakes. apply _. Defined.

Lemma inv_not_self x o s p t : inv x o s -> threads s !! p = Some t -> blocking_thread t <> NULL -> blocking_thread t <> p.
Proof.
  intros Hi E B Heq. destruct (inv_chain _ _ _ Hi p t E) as (n & q & Hc). pose proof Hc as Hc'.
  inversion Hc' as [p' t' E' B'|n' p' t' q' E' B' Hn]; [congruence|].
  assert (t' = t) as -> by congruence. rewrite Heq in Hn. destruct (chain_functional _ _ _ _ _ _ Hc Hn). lia.
Qed.

Lemma unblock_on_run e x o s p t m c : inv x o s -> running s -> threads s !! p = Some t -> o !! m = Some c ->
  (wakes t c -> exists tb, threads s !! blocking_thread t = Some tb /\ 1 < reference_count tb /\ blocking_thread t <> p /\
     unblock_on e p c s = Ret (true, with_threads s
       (<[p := with_blocking t THREAD_STATE_READY (blocking_message_id t) NULL]>
         (<[blocking_thread t := with_references tb (reference_count tb - 1)]> (threads s))))) /\
  (~ wakes t c -> unblock_on e p c s = Ret (false, s)).
Proof.
  intros Hi Hrun E Eo. destruct (inv_owned _ _ _ Hi m c Eo) as (Em & _). pose proof (inv_threads _ _ _ Hi p t E) as Hok.
  destruct (inv_message_threads _ _ _ _ _ Hi Em) as [[ts Es] _].
  destruct (decide (blocking_thread t = NULL)) as [B|B].
  { split; [by intros [? _]|]. intros _. unfold unblock_on, mbind, K_bind, thread_at. rewrite E.
    rewrite bool_decide_false; [done|]. intros Hs. by apply (tok_block _ _ _ _ _ _ Hok) in Hs. }
  pose proof (proj2 (tok_block _ _ _ _ _ _ Hok) B) as Hs. destruct (inv_blocking_live _ _ _ _ _ Hi E B) as [tb Eb].
  pose proof (inv_not_self _ _ _ _ _ Hi E B) as Hself.
  assert ((t_id tb =? t_id ts) = bool_decide (source c = blocking_thread t)) as Hid.
  { case_bool_decide as Heq.
    - rewrite Heq in Es. simplify_eq. apply Z.eqb_refl.
    - apply Z.eqb_neq. intros Hids. apply Heq. symmetry. by eapply (inv_ids _ _ _ Hi _ _ tb ts). }
  assert ((blocking_message_id t =? m_id c) = bool_decide (m_id c = blocking_message_id t)) as Hmid.
  { destruct (decide (m_id c = blocking_message_id t)) as [Hm|Hm].
    - rewrite Hm, Z.eqb_refl. by rewrite bool_decide_true.
    - rewrite bool_decide_false by done. apply Z.eqb_neq. congruence. }
  assert (forall b, b = bool_decide (source c = blocking_thread t) && bool_decide (m_id c = blocking_message_id t) ->
    b = false -> unblock_on e p c s = Ret (false, s)) as Hfalse.
  { intros b Hb ->. unfold unblock_on, mbind, K_bind, thread_at. rewrite E, (bool_decide_true (state t = _)) by done.
    rewrite Eb, Es, Hid, Hmid, <- Hb. done. }
  split.
  - intros (_ & Hsrc & Hmi).
    assert (1 < reference_count tb) as Hr.
    { pose proof (counted_le _ _ _ _ _ Hi Eb) as Hc. pose proof (counted_parts x s (blocking_thread t)).
      pose proof (total_ge (msg_refs (blocking_thread t)) _ _ _ (msg_refs_nonneg _) Em) as H1.
      pose proof (total_ge (thread_refs (blocking_thread t)) _ _ _ (thread_refs_nonneg _) E) as H2.
      unfold msg_refs at 1 in H1. unfold thread_refs at 1 in H2. rewrite Hsrc, is_ref_refl in H1. rewrite is_ref_refl in H2.
      pose proof (is_ref_nonneg (blocking_thread t) (destination c)). pose proof (frame_refs_nonneg (blocking_thread t) (suspended t)).
      unfold counted in Hc. lia. }
    exists tb. split; [done|]. split; [done|]. split; [done|].
    unfold unblock_on, mbind, K_bind at 1, thread_at at 1. rewrite E, bool_decide_true by done.
    unfold K_bind at 1, thread_at at 1. rewrite Eb. unfold K_bind at 1, thread_at at 1. rewrite Es, Hid, Hmid.
    rewrite !bool_decide_true by done. cbn [andb].
    destruct Hrun as (tc & Ec & Hce & Hcs). assert (p <> current_thread s) as Hpc by congruence.
    unfold gets, K_bind at 1. unfold same_thread, mbind, K_bind, thread_at. rewrite E, Ec.
    destruct (Z.eqb_spec (t_id t) (t_id tc)) as [Hids|_]; [destruct (Hpc (inv_ids _ _ _ Hi _ _ _ _ E Ec Hids))|]. cbn.
    unfold remove_reference, mbind, K_bind, thread_at, set_thread, modify. cbn. rewrite lookup_insert_ne by done. rewrite Eb.
    unfold ASSERT. destruct (Z.leb_spec 0 (reference_count tb - 1)); [|lia]. cbn.
    destruct (Z.eqb_spec (reference_count tb - 1) 0); [lia|]. cbn. rewrite lookup_insert_ne by done. rewrite lookup_insert_eq. cbn.
    unfold with_threads. cbn. rewrite (insert_insert_ne _ (blocking_thread t) p), insert_insert_eq by done. done.
  - intros Hw. eapply Hfalse; [done|]. destruct (decide (source c = blocking_thread t)) as [H1|H1].
    + destruct (decide (m_id c = blocking_message_id t)) as [H2|H2]; [by destruct Hw|].
      by rewrite (bool_decide_false _ H2), andb_false_r.
    + by rewrite (bool_decide_false _ H1).
Qed.

(** ** thread_c::put_message *)

Definition blocks_on s (r id : Z) : Prop :=
  exists t, threads s !! current_thread s = Some t /\ state t = THREAD_STATE_BLOCKED /\ blocking_thread t = r /\ blocking_message_id t = id.

(** The sender of a blocking message is the thread that may become blocked. *)
Definition sender s (c : message_c) : option Z := if is_blocking c then Some (current_thread s) else None.

(** The sender of a blocking message is not suspended already. *)
Definition can_block s (c : message_c) : Prop :=
  is_blocking c = true -> forall t, threads s !! current_thread s = Some t -> suspended t = None.

Lemma finish_put x o s P c t2 : inv x o (with_pending s P) -> running s -> threads s !! destination c = Some t2 -> can_block s c ->
  (is_blocking c = true -> destination c <> current_thread s /\ exists n q, chain (threads s) n (destination c) q /\ q <> current_thread s) ->
  wp False (block_on (current_thread s) (destination c) c;; mret STATUS_SUCCESS) s (fun st s' =>
    st = STATUS_SUCCESS /\ (exists T, s' = with_threads s T) /\ inv x o (with_pending s' P) /\ after (sender s c) 0 s s' /\
    (is_blocking c = true -> blocks_on s' (destination c) (m_id c)) /\
    exists t', threads s' !! destination c = Some t' /\ message_queue t' = message_queue t2 /\ state t' = state t2).
Proof.
  intros Hi (tc & Ec & Hce & Hcs) Ed Hcan Hb. apply wp_bind. unfold sender. destruct (is_blocking c) eqn:Hblk; cycle 1.
  - apply (wp_block_on_none _ _ _ _ tc); [done|done|]. apply wp_ret. split; [done|]. split; [by exists (threads s); destruct s|].
    split; [done|]. split; [apply after_refl|]. split; [done|]. eauto.
  - destruct (Hb eq_refl) as (Hne & n & q & Hch & Hq). pose proof (inv_threads _ _ _ Hi _ tc Ec) as Hokc.
    assert (blocking_thread tc = NULL) as Hnull.
    { destruct (decide (blocking_thread tc = NULL)) as [|Hn]; [done|]. apply (tok_block _ _ _ _ _ _ Hokc) in Hn. congruence. }
    apply (wp_block_on_blocks _ _ _ _ tc t2); try done; [apply (tok_refs _ _ _ _ _ _ (inv_threads _ _ _ Hi _ t2 Ed))|].
    set (t2' := with_references t2 _). set (tc' := with_blocking tc _ _ _). apply wp_ret. cbn.
    assert (<[destination c := t2']> (<[current_thread s := tc']> (threads s)) = <[current_thread s := tc']> (<[destination c := t2']> (threads s))) as Hcomm
      by (by rewrite insert_insert_ne).
    split; [done|]. split; [eauto|]. split; [|split; [|split]].
    + unfold with_threads, with_pending. cbn. rewrite Hcomm. pose proof (inv_add_ref _ _ _ _ _ Hi Ed) as Hi1.
      refine (inv_block_on _ _ _ (current_thread s) tc (destination c) (m_id c) n q Hi1 _ Hnull _ _ _ Hq).
      * cbn. by rewrite lookup_insert_ne.
      * by apply Hcan.
      * by eapply (inv_thread_ne _ _ _ _ _ Hi).
      * eapply chain_ext; [exact Hch|]. intros k v Ev. cbn. destruct (decide (k = destination c)) as [->|Hk].
        -- rewrite lookup_insert_eq. simplify_eq. eauto.
        -- rewrite lookup_insert_ne by done. eauto.
    + rewrite Hcomm. change 0 with (0 + 0). eapply after_trans; [by apply after_add_ref|].
      eapply (after_thread _ _ (add_ref s (destination c) t2) _ tc); cbn; try done; try lia.
      by rewrite lookup_insert_ne.
    + intros _. exists tc'. cbn. split; [by rewrite lookup_insert_ne, lookup_insert_eq|done].
    + exists t2'. cbn. by rewrite lookup_insert_eq.
Qed.

Lemma wp_run ok {A} (c : K A) s a s' (Q : A -> kernel -> Prop) : c s = Ret (a, s') -> Q a s' -> wp ok c s Q.
Proof. unfold wp. by intros ->. Qed.

(** What [thread_c::put_message] does with a message that it accepts. *)
Definition accepted x o s (m : Z) (c : message_c) (t : thread_c) (s' : kernel) : Prop :=
  (exists T, s' = with_threads s T) /\ inv x (delete m o) (with_pending s' (pending_messages s ++ [m])) /\
  after (sender s c) 1 s s' /\ (is_blocking c = true -> blocks_on s' (destination c) (m_id c)) /\
  exists t', threads s' !! destination c = Some t' /\
    (if decide (wakes t c) then state t' = THREAD_STATE_READY /\ message_queue t' = m :: message_queue t
     else state t' = state t /\ message_queue t' = message_queue t ++ [m] /\ Z.of_nat (length (message_queue t)) < MAILBOX_DEFAULT_LIMIT).

Lemma wp_push ok p t m s Q : threads s !! p = Some t -> Q tt (with_threads s (<[p := with_queue t (message_queue t ++ [m])]> (threads s))) ->
  wp ok (mailbox_push p m) s Q.
Proof. intros E HQ. unfold mailbox_push. apply wp_bind, (wp_thread_at _ _ t); [done|]. apply wp_bind, wp_gets. by rewrite memory_never_fails. Qed.

Lemma wp_push_head ok p t m s Q : threads s !! p = Some t -> Q tt (with_threads s (<[p := with_queue t (m :: message_queue t)]> (threads s))) ->
  wp ok (mailbox_push_head p m) s Q.
Proof. intros E HQ. unfold mailbox_push_head. apply wp_bind, (wp_thread_at _ _ t); [done|]. apply wp_bind, wp_gets. by rewrite memory_never_fails. Qed.

Lemma accept_wake e x o s m c t tb : inv x o s -> running s -> o !! m = Some c -> deliverable c ->
  threads s !! destination c = Some t -> can_block s c -> mailbox_enabled t = true -> wakes t c ->
  threads s !! blocking_thread t = Some tb -> 1 < reference_count tb -> blocking_thread t <> destination c ->
  let s1 := with_threads s (<[destination c := with_blocking t THREAD_STATE_READY (blocking_message_id t) NULL]>
       (<[blocking_thread t := with_references tb (reference_count tb - 1)]> (threads s))) in
  wp False (t ← thread_at (destination c);
            ASSERT (bool_decide (state t = THREAD_STATE_READY));;
            mailbox_push_head (destination c) m;;
            block_on (current_thread s) (destination c) c;;
            mret STATUS_SUCCESS) s1 (fun st s' => st = STATUS_SUCCESS /\ accepted x o s m c t s').
Proof.
  intros Hi Hrun Eo Hdel Ed Hcan Hen Hw Eb Hr Hne s1. pose proof Hw as (B & Hsrc & Hid).
  apply wp_bind, (wp_thread_at _ _ (with_blocking t THREAD_STATE_READY (blocking_message_id t) NULL)); [cbn; by rewrite lookup_insert_eq|].
  apply wp_bind, wp_assert; [done|].
  apply wp_bind, (wp_push_head _ _ (with_blocking t THREAD_STATE_READY (blocking_message_id t) NULL)); [cbn; by rewrite lookup_insert_eq|].
  set (s2 := with_threads s (<[destination c := woken t m]> (<[blocking_thread t := with_references tb (reference_count tb - 1)]> (threads s)))).
  assert (with_threads s1 (<[destination c := with_queue (with_blocking t THREAD_STATE_READY (blocking_message_id t) NULL)
    (m :: message_queue t)]> (threads s1)) = s2) as E2 by (unfold s1, s2, with_threads; cbn; by rewrite insert_insert_eq).
  cbn [message_queue with_blocking]. rewrite E2.
  set (s0 := with_threads s (<[destination c := woken t m]> (threads s))).
  assert (s2 = drop_ref s0 (blocking_thread t) tb) as E0.
  { unfold s0, s2, drop_ref, with_threads. cbn. by rewrite insert_insert_ne. }
  assert (threads s0 !! blocking_thread t = Some tb) as Eb0 by (cbn; by rewrite lookup_insert_ne).
  pose proof (inv_wake _ _ _ _ _ _ _ Hi Ed Eo eq_refl Hdel Hen B Hsrc Hid) as Hi0.
  pose proof (inv_drop_ref _ _ _ _ _ Hi0 Eb0 Hr) as Hi2.
  assert (after None 1 s s2) as Haft.
  { rewrite E0. change 1 with (1 + 0). eapply after_trans; [|by apply after_drop_ref].
    apply (after_thread _ _ _ _ t); cbn; try done; lia. }
  assert (inv x (delete m o) (with_pending s2 (pending_messages s ++ [m]))) as Hi2' by (rewrite E0; exact Hi2).
  assert (running s2) as Hrun2 by exact (after_running_pending _ _ _ _ _ _ Hrun Haft Hi2').
  assert (threads s2 !! destination c = Some (woken t m)) as Ed2 by (cbn; by rewrite lookup_insert_eq).
  assert (destination c <> current_thread s) as Hdc.
  { intros Heq. destruct Hrun as (tc & Ec & _ & Hcs). rewrite <- Heq in Ec.
    pose proof (proj2 (tok_block _ _ _ _ _ _ (inv_threads _ _ _ Hi _ t Ed)) B). congruence. }
  eapply wp_mono; [apply (finish_put x (delete m o) s2 (pending_messages s ++ [m]) c (woken t m)); try done|done|].
  - intros Hblk tc Ec. destruct Haft as [[] _]. destruct (stable_threads _ _ Ec) as (u & Eu & ? & ? & ? & -> & _). by apply Hcan.
  - intros _. split; [done|]. exists 0%nat, (destination c). split; [|done]. by eapply chain_end.
  - intros st s' (-> & [T ->] & Hi' & Haft' & Hblk & t' & Et' & Hq & Hst). split; [done|].
    split; [by exists T|]. split; [exact Hi'|]. split; [|split; [done|]].
    + change 1 with (1 + 0). eapply after_trans; [by eapply after_weaken|exact Haft'].
    + exists t'. rewrite decide_True by done. done.
Qed.

Lemma accept_queue x o s m c t n q : inv x o s -> running s -> o !! m = Some c -> deliverable c ->
  threads s !! destination c = Some t -> can_block s c -> mailbox_enabled t = true -> ~ wakes t c ->
  chain (threads s) n (destination c) q ->
  (is_blocking c = true -> destination c <> current_thread s /\ q <> current_thread s) ->
  Z.of_nat (length (message_queue t)) < MAILBOX_DEFAULT_LIMIT ->
  wp False (mailbox_push (destination c) m;;
            block_on (current_thread s) (destination c) c;;
            mret STATUS_SUCCESS) s (fun st s' => st = STATUS_SUCCESS /\ accepted x o s m c t s').
Proof.
  intros Hi Hrun Eo Hdel Ed Hcan Hen Hw Hch Hloop Hroom. apply wp_bind, (wp_push _ _ t); [done|].
  set (s2 := with_threads s (<[destination c := queued t m]> (threads s))).
  pose proof (inv_push _ _ _ _ _ _ _ Hi Ed Eo eq_refl Hdel Hen) as Hi2.
  assert (after None 1 s s2) as Haft.
  { apply (after_thread _ _ _ _ t); cbn; try done; rewrite ?length_app; cbn; lia. }
  assert (running s2) as Hrun2 by exact (after_running_pending _ _ _ _ _ _ Hrun Haft Hi2).
  assert (threads s2 !! destination c = Some (queued t m)) as Ed2 by (cbn; by rewrite lookup_insert_eq).
  eapply wp_mono; [apply (finish_put x (delete m o) s2 (pending_messages s ++ [m]) c (queued t m)); try done|done|].
  - intros Hblk tc Ec. destruct Haft as [[] _]. destruct (stable_threads _ _ Ec) as (u & Eu & ? & ? & ? & -> & _). by apply Hcan.
  - intros Hb. destruct (Hloop Hb). split; [done|]. exists n, q. split; [|done]. eapply chain_ext; [exact Hch|].
    intros k v Ev. cbn. destruct (decide (k = destination c)) as [->|Hk].
    + rewrite lookup_insert_eq. simplify_eq. eauto.
    + rewrite lookup_insert_ne by done. eauto.
  - intros st s' (-> & [T ->] & Hi' & Haft' & Hblk & t' & Et' & Hq & Hst). split; [done|].
    split; [by exists T|]. split; [exact Hi'|]. split; [|split; [done|]].
    + change 1 with (1 + 0). eapply after_trans; [by eapply after_weaken|exact Haft'].
    + exists t'. rewrite decide_False by done. done.
Qed.

Lemma thread_put_run e x o s m c t : inv x o s -> running s -> o !! m = Some c -> deliverable c ->
  threads s !! destination c = Some t -> can_block s c ->
  wp False (thread_put_message e (destination c) m) s (fun st s' =>
    (st = STATUS_SUCCESS /\ accepted x o s m c t s') \/
    (st <> STATUS_SUCCESS /\ s' = s /\ (st = STATUS_MAILBOX_OVERFLOW -> MAILBOX_DEFAULT_LIMIT <= Z.of_nat (length (message_queue t))))).
Proof.
  intros Hi Hrun Eo Hdel Ed Hcan. destruct (inv_owned _ _ _ Hi m c Eo) as (Em & _).
  unfold thread_put_message. ksteps. destruct (mailbox_enabled t) eqn:Hen; cbn [negb]; cycle 1.
  { apply wp_ret. right. split; [done|]. split; [done|]. done. }
  destruct (inv_chain _ _ _ Hi _ _ Ed) as (n & q & Hch).
  apply wp_bind. eapply wp_run; [by apply (causes_scheduling_loop_run x o s _ t c n q)|]. cbn beta.
  destruct (is_blocking c && _) eqn:Hloop.
  { apply wp_ret. right. split; [done|]. split; [done|]. done. }
  assert (is_blocking c = true -> destination c <> current_thread s /\ q <> current_thread s) as Hfree.
  { intros Hb. rewrite Hb in Hloop. cbn [andb] in Hloop. apply orb_false_iff in Hloop as [H1 H2].
    apply bool_decide_eq_false in H1. split; [congruence|]. intros ->.
    destruct (Z.eqb_spec (blocking_thread t) NULL) as [B|B].
    - inversion Hch; simplify_eq.
    - by rewrite bool_decide_true in H2. }
  destruct (unblock_on_run e x o s (destination c) t m c Hi Hrun Ed Eo) as [Hyes Hno].
  apply wp_bind. destruct (decide (wakes t c)) as [Hw|Hw].
  - destruct (Hyes Hw) as (tb & Eb & Hr & Hne & Erun). eapply wp_run; [exact Erun|]. cbn beta iota.
    eapply wp_mono; [by apply (accept_wake e x o s m c t tb)|done|]. by left.
  - eapply wp_run; [by apply Hno|]. ksteps. unfold overflow.
    destruct (Z.leb_spec MAILBOX_DEFAULT_LIMIT (Z.of_nat (length (message_queue t)))) as [Hfull|Hroom]; cbn [negb].
    + apply wp_ret. right. done.
    + eapply wp_mono; [by apply (accept_queue x o s m c t n q)|done|]. by left.
Qed.

(** ** Allocating and deleting messages *)

Lemma wp_add_reference_raw ok s p t Q : threads s !! p = Some t -> 0 < reference_count t -> Q tt (add_ref s p t) -> wp ok (add_reference p) s Q.
Proof. intros E Hr HQ. unfold add_reference. ksteps. apply wp_assert; [by apply Z.ltb_lt|done]. Qed.

(** The running function owns the new message [c] at [m]. *)
Definition created x o s (c : message_c) (m : Z) s' : Prop :=
  m <> NULL /\ o !! m = None /\ inv x (<[m := c]> o) s' /\ after None 0 s s'.

Lemma wp_construct x o s c ts td : inv x o s -> threads s !! source c = Some ts -> threads s !! destination c = Some td ->
  (source c = cleanup_thread s -> m_class c = SmallMessage) ->
  wp False (construct_message (next_object s) c) (with_next_object s (next_object s + 1)) (fun _ s' => created x o s c (next_object s) s').
Proof.
  intros Hi Es Ed Hsmall. pose proof (tok_refs _ _ _ _ _ _ (inv_threads _ _ _ Hi _ _ Es)) as Hrs.
  pose proof (tok_refs _ _ _ _ _ _ (inv_threads _ _ _ Hi _ _ Ed)) as Hrd.
  unfold construct_message. ksteps. apply (wp_add_reference_raw _ _ _ ts); [done|done|].
  assert (exists td', threads (add_ref s (source c) ts) !! destination c = Some td' /\ 0 < reference_count td') as (td' & Ed' & Hrd').
  { cbn. destruct (decide (destination c = source c)) as [->|Hne].
    - rewrite lookup_insert_eq. eexists. split; [done|]. cbn. lia.
    - rewrite lookup_insert_ne by done. eauto. }
  apply (wp_add_reference_raw _ _ _ td'); [exact Ed'|done|].
  set (s1 := add_ref s (source c) ts). set (s2 := add_ref s1 (destination c) td').
  pose proof (inv_add_ref _ _ _ _ _ Hi Es) as Hi1. pose proof (inv_add_ref _ _ _ _ _ Hi1 Ed') as Hi2.
  assert (inv (source c :: destination c :: x) o s2) as Hi2' by (eapply inv_perm; [|exact Hi2]; apply Permutation_swap).
  pose proof (inv_new_message x o s2 c Hi2' (inv_thread_ne _ _ _ _ _ Hi Es) (inv_thread_ne _ _ _ _ _ Hi Ed) Hsmall) as Hi3.
  destruct (inv_fresh _ _ _ Hi) as (F1 & _ & F3). split; [unfold NULL; lia|]. split; [|split].
  - destruct (o !! next_object s) as [c'|] eqn:E; [|done]. destruct (inv_owned _ _ _ Hi _ _ E) as [E' _].
    specialize (F3 _ _ E'). lia.
  - exact Hi3.
  - change 0 with (0 + (0 + 0)). eapply after_trans; [exact (after_add_ref None s _ _ Es)|].
    eapply after_trans; [exact (after_add_ref None s1 _ _ Ed')|]. by apply after_same.
Qed.

Definition maybe_created x o s (P : message_c -> Prop) (m : Z) s' : Prop :=
  (m = NULL /\ s' = s) \/ (exists c, created x o s c m s' /\ P c).

Lemma wp_new_message ok x o s (k : Z -> K Z) (c : message_c) (P : message_c -> Prop) : inv x o s ->
  (exists t, threads s !! source c = Some t) -> (exists t, threads s !! destination c = Some t) ->
  (source c = cleanup_thread s -> m_class c = SmallMessage) -> P c ->
  (forall s', wp ok (k (next_object s)) s' (fun m s'' => m = next_object s /\ s'' = s')) ->
  wp ok (m ← new_object; if m =? NULL then mret NULL else construct_message m c;; k m) s (maybe_created x o s P).
Proof.
  intros Hi [ts Es] [td Ed] Hsmall HP Hk. apply wp_bind. unfold wp at 1, new_object. destruct (memory_available s); [|by left].
  destruct (inv_fresh _ _ _ Hi) as (F1 & _). destruct (Z.eqb_spec (next_object s) NULL) as [Heq|_]; [unfold NULL in *; lia|].
  apply wp_bind. eapply wp_mono; [by apply (wp_construct x o s c ts td)|done|]. intros ? s' Hc.
  eapply wp_mono; [apply Hk|done|]. intros m s'' [-> ->]. right. exists c. split; [exact Hc|done].
Qed.

Lemma wp_new_small ok x o s src dst type id payload : inv x o s ->
  (exists t, threads s !! src = Some t) -> (exists t, threads s !! dst = Some t) ->
  wp ok (new_small_message src dst type id payload) s
    (maybe_created x o s (fun c => c = mkMsg SmallMessage MESSAGE_CONTROL_NONE dst id src type 0 NULL payload)).
Proof.
  intros Hi Hs Hd. apply (wp_new_message ok x o s (fun m => mret m)); done.
Qed.

(** The arguments for which the constructors of the derived classes do not fail. *)
Definition valid_payload (payload size receiver : Z) : Prop :=
  MEDIUM_MESSAGE_PAYLOAD_SIZE < size \/ receiver <> NULL -> 0 < size /\ payload <> NULL.

Lemma wp_allocate ok x o s src dst type id payload size receiver : inv x o s ->
  (exists t, threads s !! src = Some t) -> (exists t, threads s !! dst = Some t) -> valid_payload payload size receiver ->
  (src = cleanup_thread s -> size <= 0 /\ receiver = NULL) ->
  wp ok (allocate_message src dst type id payload size receiver) s
    (maybe_created x o s (fun c => source c = src /\ destination c = dst /\ m_id c = id /\ m_type c = type /\ is_blocking c = false /\
      (size <= 0 -> receiver = NULL -> m_class c = SmallMessage))).
Proof.
  intros Hi Hs Hd Hv Hcl. unfold allocate_message.
  destruct (Z.ltb_spec MEDIUM_MESSAGE_PAYLOAD_SIZE size) as [Hbig|Hbig]; cbn [orb].
  { destruct Hv as [Hv1 Hv2]; [auto|]. eapply wp_new_message; try done.
    - cbn. intros Heq. destruct (Hcl Heq). lia.
    - cbn. split_and!; try done. lia.
    - intros s'. apply wp_bind, wp_assert; [by apply Z.ltb_lt|]. apply wp_bind, wp_assert; [by destruct (Z.eqb_spec payload NULL)|]. by apply wp_ret. }
  destruct (Z.eqb_spec receiver NULL) as [Hr|Hr]; cbn [negb].
  - destruct (Z.ltb_spec 0 size) as [Hpos|Hpos].
    + eapply wp_new_message; try done.
      * cbn. intros Heq. destruct (Hcl Heq). lia.
      * cbn. split_and!; try done. lia.
      * intros s'. apply wp_bind, wp_assert; [apply Z.leb_le; lia|]. apply wp_bind, wp_assert; [apply Z.ltb_lt; unfold MEDIUM_MESSAGE_PAYLOAD_SIZE in *; lia|]. by apply wp_ret.
    + eapply (wp_new_message ok x o s (fun m => mret m)); done.
  - destruct Hv as [Hv1 Hv2]; [auto|]. eapply wp_new_message; try done.
    + cbn. intros Heq. destruct (Hcl Heq). done.
    + intros s'. apply wp_bind, wp_assert; [by apply Z.ltb_lt|]. apply wp_bind, wp_assert; [by destruct (Z.eqb_spec payload NULL)|]. by apply wp_ret.
Qed.

(** Deleting a message whose threads are referenced elsewhere. *)
Lemma wp_destroy_pinned ok e x o s m c : inv x o s -> o !! m = Some c -> pinned x s (source c) -> pinned x s (destination c) ->
  wp ok (destroy_message e m) s (fun _ s' => inv x (delete m o) s' /\ after None 0 s s').
Proof.
  intros Hi Eo Hps Hpd. destruct (inv_owned _ _ _ Hi m c Eo) as (Em & _). destruct (inv_ends _ _ _ Hi m c Em) as [Hs Hd].
  unfold destroy_message. ksteps. pose proof (inv_delete_message _ _ _ _ _ Hi Eo) as Hi1.
  set (s1 := with_msgs s (delete m (msgs s))) in *. assert (after None 0 s s1) as Ha1 by by apply after_same.
  eapply wp_mono; [apply (wp_remove_pinned False e (destination c :: x) (delete m o) s1 (source c)); [done|done|]|done|].
  { destruct Hps as [?|[?|[?|?]]]; [by left|by right; left|right; right; left; by right|by right; right; right]. }
  intros _ s2 [Hi2 Ha2].
  eapply wp_mono; [apply (wp_remove_pinned False e x (delete m o) s2 (destination c)); [done|done|]|done|].
  { eapply after_pinned; [exact Ha2|]. by eapply after_pinned. }
  intros _ s3 [Hi3 Ha3]. split; [done|]. change 0 with (0 + (0 + 0)). eapply after_trans; [exact Ha1|]. by eapply after_trans.
Qed.

(** ** The circle *)

(** Where a message is after it was accepted. *)
Definition in_mailbox s s' (m : Z) (c : message_c) : Prop :=
  exists t t', threads s !! destination c = Some t /\ threads s' !! destination c = Some t' /\
    (if decide (wakes t c) then state t' = THREAD_STATE_READY /\ message_queue t' = m :: message_queue t
     else state t' = state t /\ message_queue t' = message_queue t ++ [m] /\ Z.of_nat (length (message_queue t)) < MAILBOX_DEFAULT_LIMIT).

Definition put_post x o s (m : Z) (c : message_c) (st : Z) s' : Prop :=
  (st = STATUS_SUCCESS /\ inv x (delete m o) s' /\ after (sender s c) 1 s s' /\
     (is_blocking c = true -> blocks_on s' (destination c) (m_id c)) /\ in_mailbox s s' m c) \/
  (st <> STATUS_SUCCESS /\ inv x o s' /\ after None 1 s s').

(** Enough fuel [n] and enough room: to delete threads, and to put a message. *)
Definition can_delete (n : nat) s : Prop := (base.size (threads s) + 2 <= n)%nat /\ 0 <= slack s.
Definition can_put (n : nat) s (c : message_c) : Prop :=
  1 <= slack s /\ ((2 <= n)%nat \/ ((1 <= n)%nat /\ destination c = cleanup_thread s /\ m_class c = SmallMessage)).

Record reentry_ok (n : nat) (e : reentry) : Prop := {
  delete_ok : forall x o s p t, inv (p :: x) o s -> running s -> threads s !! p = Some t -> reference_count t = 1 ->
    p <> current_thread s ->
    wp (~ can_delete n s) (delete_object e p) (drop_ref s p t) (fun _ s' => inv x o s' /\ after None 0 s s');
  put_ok : forall x o s m c, inv x o s -> running s -> o !! m = Some c -> can_block s c ->
    wp (~ can_put n s c) (put e m) s (put_post x o s m c) }.

Lemma collect_payload_run ok x o s c : inv x o s ->
  wp ok (collect_payload c) s (fun st s' => s' = s /\ (st = STATUS_SUCCESS -> deliverable c) /\ (m_class c = SmallMessage -> st = STATUS_SUCCESS)).
Proof.
  intros Hi. destruct (inv_current _ _ _ Hi) as [tc Ec]. unfold collect_payload, deliverable.
  destruct (m_class c); [by apply wp_ret|by apply wp_ret|]. ksteps.
  destruct (Z.eqb_spec (sender_payload c) NULL); [by apply wp_ret|].
  destruct (Z.eqb_spec (receiver_payload c) NULL); cbn [negb andb]; [by apply wp_gets|].
  destruct (has_capability _ tc); cbn [negb]; [|by apply wp_ret].
  destruct (Z.eqb_spec (PAGE_OFFSET (sender_payload c)) (PAGE_OFFSET (receiver_payload c))); cbn [negb]; [|by apply wp_ret].
  destruct (is_user_address _); cbn [negb]; [by apply wp_gets|by apply wp_ret].
Qed.

Lemma after_can_block exc d s s' c : after exc d s s' -> can_block s c -> can_block s' c.
Proof.
  intros [[] _] Hc Hb t' E'. rewrite stable_current in E'. destruct (stable_threads _ _ E') as (t & E & _ & _ & _ & -> & _). by apply Hc.
Qed.

(** [::put_message] for a message whose threads are referenced elsewhere. *)
Lemma put_message_ok n e x o s src dst type id payload size receiver : reentry_ok n e -> inv x o s -> running s ->
  src <> NULL -> dst <> NULL -> pinned x s src -> pinned x s dst -> valid_payload payload size receiver ->
  (src = cleanup_thread s -> size <= 0 /\ receiver = NULL) ->
  wp (~ (1 <= slack s /\ ((2 <= n)%nat \/ ((1 <= n)%nat /\ dst = cleanup_thread s /\ size <= 0 /\ receiver = NULL))))
    (put_message e src dst type id payload size receiver) s (fun _ s' => inv x o s' /\ after None 1 s s').
Proof.
  intros He Hi Hrun Hsn Hdn Hps Hpd Hv Hcl. unfold put_message. apply wp_bind.
  assert (forall p, p <> NULL -> pinned x s p -> exists t, threads s !! p = Some t) as Hlive.
  { intros p Hp Hpin%pinned_counted. apply (inv_live x o s p Hi Hp). lia. }
  eapply wp_mono; [apply (wp_allocate False x o s); auto|done|]. intros m s1 [[-> ->]|(c & (Hm & Hfree & Hi1 & Ha1) & Hsrc & Hdst & Hid & Hty & Hblk & Hsmall)].
  - apply wp_ret. split; [done|]. eapply after_weaken; [apply after_refl|lia].
  - destruct (Z.eqb_spec m NULL); [done|]. cbn [negb]. apply wp_bind.
    assert (running s1) as Hrun1 by by eapply after_running.
    eapply wp_mono; [apply (put_ok n e He x (<[m := c]> o) s1 m c Hi1 Hrun1); [by rewrite lookup_insert_eq|by intros Hb; rewrite Hblk in Hb]| |].
    + intros Hno [Hs Hd]. apply Hno. destruct Ha1 as [[] Hsl]. split; [lia|]. destruct Hd as [Hd|(Hd1 & Hd2 & Hd3 & Hd4)]; [by left|right].
      split; [done|]. split; [congruence|]. by apply Hsmall.
    + intros st s2 [(-> & Hi2 & Ha2 & _)|(Hst & Hi2 & Ha2)].
      * apply wp_bind, wp_ret, wp_ret. rewrite delete_insert_id in Hi2 by done. unfold sender in Ha2. rewrite Hblk in Ha2.
        split; [done|]. change 1 with (0 + 1). by eapply after_trans.
      * destruct (Z.eqb_spec st STATUS_SUCCESS); [done|]. cbn [negb]. apply wp_bind.
        eapply wp_mono; [apply (wp_destroy_pinned False e x _ s2 m c Hi2); [by rewrite lookup_insert_eq|..]|done|].
        -- rewrite Hsrc. eapply after_pinned; [exact Ha2|]. by eapply after_pinned.
        -- rewrite Hdst. eapply after_pinned; [exact Ha2|]. by eapply after_pinned.
        -- intros _ s3 [Hi3 Ha3]. rewrite delete_insert_id in Hi3 by done. apply wp_ret. split; [done|].
           change 1 with (0 + (1 + 0)). eapply after_trans; [exact Ha1|]. by eapply after_trans.
Qed.

Lemma io_put_message_ok n e x o s m c : reentry_ok n e -> inv x o s -> running s -> o !! m = Some c -> can_block s c ->
  wp (~ can_put (S n) s c) (io_put_message e m) s (put_post x o s m c).
Proof.
  intros He Hi Hrun Eo Hcan. destruct (inv_owned _ _ _ Hi m c Eo) as (Em & _).
  destruct (inv_message_threads _ _ _ _ _ Hi Em) as [_ [t Ed]].
  unfold io_put_message. ksteps. eapply wp_mono; [apply (collect_payload_run False x o s c Hi)|done|]. intros st s' (-> & Hdel & Hcol).
  apply wp_bind. cbn beta.
  (* the status and the state before the overflow is handled *)
  apply (wp_mono False _ _ _ (fun st s' => (st = STATUS_SUCCESS /\ put_post x o s m c st s') \/
    (st <> STATUS_SUCCESS /\ s' = with_counters s (count_send_error (counters s)) /\
      (st = STATUS_MAILBOX_OVERFLOW -> m_class c = SmallMessage -> MAILBOX_DEFAULT_LIMIT <= Z.of_nat (length (message_queue t)))))); [|done|].
  { destruct (Z.eqb_spec st STATUS_SUCCESS) as [->|Hst]; cbn [negb].
    - apply wp_bind. eapply wp_mono; [apply (thread_put_run e x o s m c t); auto|done|].
      intros st' s' [(-> & [T ->] & Hi' & Ha' & Hb' & t' & Et' & Hq)|(Hst & -> & Hov)].
      + apply wp_bind, wp_modify, wp_bind, wp_modify, wp_ret. left. split; [done|]. left. split; [done|]. split; [apply inv_with_counters; exact Hi'|]. split; [|split].
        * change 1 with (1 + 0). eapply after_trans; [exact Ha'|]. by apply after_same.
        * exact Hb'.
        * exists t, t'. done.
      + destruct (Z.eqb_spec st' STATUS_SUCCESS); [done|]. ksteps. right. split; [done|]. split; [done|]. auto.
    - ksteps. right. split; [done|]. split; [done|]. intros -> Hs. by destruct Hst; auto. }
  intros st' s' [[-> Hp]|(Hst' & -> & Hov)]; [by apply wp_ret|].
  destruct (Z.eqb_spec st' STATUS_MAILBOX_OVERFLOW) as [->|Hno]; cycle 1.
  { apply wp_ret. right. split; [done|]. split; [by apply inv_with_counters|]. eapply after_weaken; [by apply after_same|lia]. }
  set (s1 := with_counters s (count_send_error (counters s))). assert (inv x o s1) as Hi1 by by apply inv_with_counters.
  assert (after None 0 s s1) as Ha1 by by apply after_same. destruct (inv_roots _ _ _ Hi1) as [Hn Hc].
  ksteps. apply wp_assert; [cbn; by destruct (Z.eqb_spec (cleanup_thread s) NULL)|]. cbn beta.
  apply wp_bind, wp_assert; [cbn; by destruct (Z.eqb_spec (null_thread s) NULL)|]. cbn beta.
  apply wp_bind, (wp_thread_at _ _ t); [done|]. apply wp_bind.
  eapply wp_mono; [apply (put_message_ok n e x o s1 (null_thread s) (cleanup_thread s)); try done| |].
  - by left.
  - by right; left.
  - intros [Hbad|Hbad]; [unfold MEDIUM_MESSAGE_PAYLOAD_SIZE in Hbad; lia|done].
  - intros Hno [Hs Hd]. apply Hno. split; [exact Hs|]. destruct Hd as [Hd|(Hd1 & Hd2 & Hd3)].
    + right. split; [lia|]. done.
    + exfalso. specialize (Hov eq_refl Hd3). unfold slack, cleanup_backlog in Hs. rewrite <- Hd2, Ed in Hs.
      assert (0 <= total has_ack (threads s)) by (apply total_nonneg; intros u; unfold has_ack; by destruct (_ =? _)). lia.
  - intros _ s2 [Hi2 Ha2]. apply wp_ret. right. split; [done|]. split; [done|]. change 1 with (0 + 1). by eapply after_trans.
Qed.

(** Any reference that is in hand can be given back. *)
Lemma remove_reference_ok n e x o s p : reentry_ok n e -> inv (p :: x) o s -> running s -> p <> NULL ->
  wp (~ can_delete n s) (remove_reference e p) s (fun _ s' => inv x o s' /\ after None 0 s s').
Proof.
  intros He Hi Hrun Hp. destruct (inv_live _ _ _ p Hi Hp) as [t E].
  { rewrite counted_cons. pose proof (counted_parts x s p). unfold counted. lia. }
  pose proof (tok_refs _ _ _ _ _ _ (inv_threads _ _ _ Hi p t E)) as Hr.
  destruct (decide (reference_count t = 1)) as [H1|H1].
  - unfold remove_reference. ksteps. apply wp_assert; [apply Z.leb_le; lia|]. cbn beta.
    destruct (Z.eqb_spec (reference_count t - 1) 0); [|lia]. apply (delete_ok n e He x o s p t); try done.
    intros ->. destruct Hrun as (tc & Ec & Hen & _). destruct (unreferenced _ _ _ _ _ Hi E H1) as (_ & _ & Htab & _).
    exact (Htab _ (tok_enabled _ _ _ _ _ _ (inv_threads _ _ _ Hi _ tc Ec) Hen)).
  - apply (wp_remove_reference_keep _ _ _ _ t); [done|lia|]. split; [apply inv_drop_ref; [done|done|lia]|by apply after_drop_ref].
Qed.

Lemma can_delete_after n d s s' : after None d s s' -> d <= 0 -> can_delete n s -> can_delete n s'.
Proof. intros [[] Hs] Hd [H1 H2]. split; lia. Qed.

Lemma destroy_message_ok n e x o s m c : reentry_ok n e -> inv x o s -> running s -> o !! m = Some c ->
  wp (~ can_delete n s) (destroy_message e m) s (fun _ s' => inv x (delete m o) s' /\ after None 0 s s').
Proof.
  intros He Hi Hrun Eo. destruct (inv_owned _ _ _ Hi m c Eo) as (Em & _). destruct (inv_ends _ _ _ Hi m c Em) as [Hs Hd].
  unfold destroy_message. ksteps. pose proof (inv_delete_message _ _ _ _ _ Hi Eo) as Hi1.
  set (s1 := with_msgs s (delete m (msgs s))) in *. assert (after None 0 s s1) as Ha1 by by apply after_same.
  assert (running s1) as Hrun1 by by eapply after_running.
  eapply wp_mono; [by apply (remove_reference_ok n e (destination c :: x) (delete m o) s1 (source c))| |].
  { intros Hno Hyes. apply Hno. by eapply can_delete_after. }
  intros _ s2 [Hi2 Ha2]. assert (running s2) as Hrun2 by by eapply after_running.
  eapply wp_mono; [by apply (remove_reference_ok n e x (delete m o) s2 (destination c))| |].
  { intros Hno Hyes. apply Hno. eapply can_delete_after; [exact Ha2|done|]. by eapply can_delete_after. }
  intros _ s3 [Hi3 Ha3]. split; [done|]. change 0 with (0 + (0 + 0)). eapply after_trans; [exact Ha1|]. by eapply after_trans.
Qed.

(** The destructor of a thread without references. *)
Lemma destroy_thread_ok n e x o s p t : reentry_ok n e -> inv (p :: x) o s -> running s -> threads s !! p = Some t ->
  reference_count t = 1 -> p <> current_thread s ->
  wp (~ can_delete (S n) s) (destroy_thread e p) (drop_ref s p t) (fun _ s' => inv x o s' /\ after None 0 s s').
Proof.
  intros He Hi Hrun E H1 Hcur. destruct (unreferenced _ _ _ _ _ Hi E H1) as (_ & _ & _ & _ & Hclean & Hq & Hb).
  pose proof Hrun as (tc & Ec & _). set (t0 := with_references t (reference_count t - 1)).
  assert (threads (drop_ref s p t) !! p = Some t0) as E0 by (cbn; by rewrite lookup_insert_eq).
  unfold destroy_thread. ksteps. apply (wp_same_thread _ _ _ t0 tc); [done|cbn; by rewrite lookup_insert_ne|].
  apply wp_bind, wp_assert.
  { destruct (Z.eqb_spec (t_id t0) (t_id tc)) as [Hid|]; [|done]. destruct (Hcur (inv_ids _ _ _ Hi _ _ _ _ E Ec Hid)). }
  apply wp_bind, (wp_thread_at _ _ t0); [done|]. apply wp_bind, wp_assert; [cbn; by rewrite Hq|]. apply wp_bind, wp_assert; [cbn; by rewrite Hb|].
  ksteps. cbn [blocking_thread deletion_acknowledgement t0 with_references].
  assert (with_threads (drop_ref s p t) (delete p (threads (drop_ref s p t))) = with_threads s (delete p (threads s))) as ->.
  { unfold drop_ref, with_threads. cbn. by rewrite delete_insert_eq. }
  set (s1 := with_threads s (delete p (threads s))). destruct (after_destroy s p t E Hclean) as [Ha1 Hsize].
  assert (exists c, deletion_acknowledgement t <> NULL -> msgs s !! deletion_acknowledgement t = Some c /\ is_blocking c = false) as [c Hc].
  { destruct (decide (deletion_acknowledgement t = NULL)) as [|Hn]; [by exists (mkMsg SmallMessage 0 0 0 0 0 0 0 0)|].
    destruct (tok_ack _ _ _ _ _ _ (inv_threads _ _ _ Hi p t E) Hn) as (_ & c & Em & Hblk & _). eauto. }
  set (o1 := if decide (deletion_acknowledgement t = NULL) then o else <[deletion_acknowledgement t := c]> o).
  assert (o !! deletion_acknowledgement t = None) as Hfree.
  { destruct (o !! deletion_acknowledgement t) as [c'|] eqn:Eo; [|done]. destruct (inv_owned _ _ _ Hi _ _ Eo) as (_ & _ & Hno).
    by destruct (Hno p t E). }
  assert (inv (blocking_list t ++ x) o1 s1) as Hi1.
  { apply (inv_destroy x o o1 s p t); try done. intros m c' Hm. unfold o1 in Hm. case_decide as Hn; [by left|].
    destruct (decide (m = deletion_acknowledgement t)) as [->|Hne].
    - rewrite lookup_insert_eq in Hm. simplify_eq. right. split; [done|]. split; [done|]. by apply Hc.
    - rewrite lookup_insert_ne in Hm by done. by left. }
  assert (running s1) as Hrun1 by by eapply after_running.
  (* the thread it waited for *)
  apply (wp_mono (~ can_delete n s1) _ _ _ (fun _ s' => inv x o1 s' /\ after None 0 s1 s')).
  { unfold blocking_list in Hi1. destruct (Z.eqb_spec (blocking_thread t) NULL) as [Hn|Hn]; cbn [negb].
    - apply wp_ret. split; [done|apply after_refl].
    - by apply remove_reference_ok. }
  { intros Hno [Hd1 Hd2]. apply Hno. destruct Ha1 as [_ Hsl]. assert (0 <= has_ack t) by (unfold has_ack; by destruct (_ =? _)).
    split; [cbn; lia|]. unfold s1. lia. }
  intros _ s2 [Hi2 Ha2]. assert (running s2) as Hrun2 by by eapply after_running.
  unfold o1, has_ack in *. destruct (Z.eqb_spec (deletion_acknowledgement t) NULL) as [Hn|Hn]; cbn [negb].
  { rewrite decide_True in Hi2 by done. apply wp_ret. split; [done|]. change 0 with (- 0 + 0). by eapply after_trans. }
  rewrite decide_False in Hi2 by done. destruct (Hc Hn) as [Em Hblk]. apply wp_bind.
  eapply wp_mono; [apply (put_ok n e He x _ s2 _ c Hi2 Hrun2); [by rewrite lookup_insert_eq|by intros Hb'; rewrite Hblk in Hb']| |].
  { intros Hno [Hd1 Hd2]. apply Hno. destruct Ha1 as [_ Hs1], Ha2 as [_ Hs2]. split; [unfold s1 in *; lia|]. left. lia. }
  intros st s3 [(-> & Hi3 & Ha3 & _)|(Hst & Hi3 & Ha3)].
  - rewrite delete_insert_id in Hi3 by done. unfold sender in Ha3. rewrite Hblk in Ha3. apply wp_ret. split; [done|].
    change 0 with (- (1) + (0 + 1)). eapply after_trans; [exact Ha1|]. by eapply after_trans.
  - destruct (Z.eqb_spec st STATUS_SUCCESS); [done|]. cbn [negb]. assert (running s3) as Hrun3 by by eapply after_running.
    eapply wp_mono; [apply (destroy_message_ok n e x _ s3 _ c He Hi3 Hrun3); by rewrite lookup_insert_eq| |].
    + intros Hno [Hd1 Hd2]. apply Hno. destruct Ha1 as [_ Hs1], Ha2 as [[] Hs2], Ha3 as [[] Hs3]. unfold s1 in *. cbn in stable_size. split; lia.
    + intros _ s4 [Hi4 Ha4]. rewrite delete_insert_id in Hi4 by done. split; [done|].
      change 0 with (- (1) + (0 + (1 + 0))). eapply after_trans; [exact Ha1|]. eapply after_trans; [exact Ha2|]. by eapply after_trans.
Qed.

Lemma entries_ok n : reentry_ok n (entries n).
Proof.
  induction n as [|n IH]; split; cbn [entries delete_object put].
  - intros x o s p t _ _ _ _ _ [H1 _]. lia.
  - intros x o s m c _ _ _ _ [_ [H1|[H1 _]]]; lia.
  - intros. by apply destroy_thread_ok.
  - intros. by apply io_put_message_ok.
Qed.
End Runs.
