(* ===== verification/KThreadOps.v ===== *)
(** * The operations of the kernel on threads and messages keep the invariant *)

From S2P Require Import Prelude CMem CStringSearch World Libdx Process Loader KBase KThreads KThreadInv KThreadRuns.

(** ** The pool *)

Lemma pool_remove_run m xs : m ∈ xs -> exists ys, pool_remove m xs = Some ys /\ xs ≡ₚ m :: ys.
Proof.
  intros Hm. unfold pool_remove. destruct (list_find (fun y => y = m) xs) as [[i y]|] eqn:E.
  - apply list_find_Some in E as (Ei & <- & _). eexists. split; [done|].
    destruct xs as [|z ys _] using rev_ind; [done|]. rewrite last_snoc. cbn [default]. rewrite length_app. cbn.
    replace (length ys + 1 - 1)%nat with (length ys) by lia.
    destruct (decide (i < length ys)%nat) as [Hi|Hi].
    + rewrite lookup_app_l in Ei by done. rewrite insert_app_l by done. rewrite take_app_le by (rewrite length_insert; lia).
      rewrite take_ge by (rewrite length_insert; lia). rewrite <- (take_drop_middle ys i y Ei) at 1.
      rewrite insert_take_drop by done. rewrite (Permutation_app_comm _ [z]). cbn. rewrite <- !Permutation_middle. apply Permutation_swap.
    + assert (i = length ys) as ->. { apply lookup_lt_Some in Ei. rewrite length_app in Ei. cbn in Ei. lia. }
      rewrite list_lookup_middle in Ei by done. simplify_eq. rewrite insert_app_r_alt by lia. rewrite Nat.sub_diag. cbn.
      rewrite take_app_le, take_ge by lia. by rewrite <- Permutation_cons_append.
  - exfalso. apply list_find_None in E. rewrite Forall_forall in E. by apply (E m).
Qed.

Section Ops.
Context `{environment} {memory : ample_memory}.
Implicit Types (x : list Z) (o : gmap Z message_c) (s : kernel) (e : reentry).

Lemma pending_remove_run m s : m ∈ pending_messages s ->
  exists P, pending_remove m s = Ret (tt, with_pending s P) /\ pending_messages s ≡ₚ m :: P.
Proof. intros (P & E & HP)%pool_remove_run. exists P. unfold pending_remove. by rewrite E. Qed.

(** Fuel and room for [d] more messages to the cleanup thread. *)
Definition can_run (n : nat) (d : Z) s : Prop := (base.size (threads s) + 2 <= n)%nat /\ d <= slack s.

Lemma can_run_after n d d' s s' : after None d' s s' -> can_run n (d + d') s -> can_run n d s'.
Proof. intros [[] Hs] [H1 H2]. split; lia. Qed.

Lemma can_run_put n s c : can_run n 1 s -> can_put n s c.
Proof. intros [H1 H2]. split; [done|]. left. lia. Qed.

(** ** put_response *)

Lemma put_response_ok n e x o s k request type status : reentry_ok n e -> inv x o s -> running s -> msgs s !! k = Some request ->
  wp (~ can_run n 1 s) (put_response e request type status) s (fun _ s' => inv x o s' /\ after None 1 s s').
Proof.
  intros He Hi Hrun Em. destruct (inv_message_threads _ _ _ _ _ Hi Em) as [Hs Hd]. unfold put_response, new_reply. apply wp_bind.
  eapply wp_mono; [by apply (wp_new_small False x o s)|done|]. intros m s1 [[-> ->]|(c & (Hm & Hfree & Hi1 & Ha1) & ->)].
  { apply wp_ret. split; [done|]. eapply after_weaken; [apply after_refl|lia]. }
  destruct (Z.eqb_spec m NULL); [done|]. cbn [negb]. apply wp_bind. set (c := mkMsg _ _ _ _ _ _ _ _ _) in *.
  assert (running s1) as Hrun1 by by eapply after_running.
  eapply wp_mono; [apply (put_ok n e He x (<[m := c]> o) s1 m c Hi1 Hrun1); [by rewrite lookup_insert_eq|done]| |].
  { intros Hno Hyes. apply Hno, can_run_put. by eapply can_run_after. }
  intros st s2 [(-> & Hi2 & Ha2 & _)|(Hst & Hi2 & Ha2)].
  - apply wp_bind, wp_ret, wp_ret. rewrite delete_insert_id in Hi2 by done. split; [done|]. change 1 with (0 + 1). by eapply after_trans.
  - destruct (Z.eqb_spec st STATUS_SUCCESS); [done|]. cbn [negb]. apply wp_bind. assert (running s2) as Hrun2 by by eapply after_running.
    eapply wp_mono; [apply (destroy_message_ok n e x _ s2 m c He Hi2 Hrun2); by rewrite lookup_insert_eq| |].
    + intros Hno Hyes. apply Hno. destruct Ha1 as [[] Hs1], Ha2 as [[] Hs2], Hyes as [H1 H2]. split; lia.
    + intros _ s3 [Hi3 Ha3]. rewrite delete_insert_id in Hi3 by done. apply wp_ret. split; [done|].
      change 1 with (0 + (1 + 0)). eapply after_trans; [exact Ha1|]. by eapply after_trans.
Qed.

(** ** get_message *)

Lemma deliver_payload_ok ok x o s m c : inv x o s -> o !! m = Some c -> deliverable c ->
  wp ok (deliver_payload m) s (fun st s' => exists c', inv x (<[m := c']> o) s' /\ after None 0 s s' /\
    source c' = source c /\ destination c' = destination c /\ m_id c' = m_id c /\ m_type c' = m_type c /\ m_class c' = m_class c /\ control c' = control c /\
    threads s' = threads s /\ (m_class c = SmallMessage -> c' = c /\ st = STATUS_SUCCESS)).
Proof.
  intros Hi Eo Hdel. destruct (inv_owned _ _ _ Hi m c Eo) as (Em & _).
  assert (inv x (<[m := c]> o) s) as Hi' by (by rewrite insert_id).
  unfold deliver_payload. apply wp_bind, (wp_message_at _ _ c); [done|]. unfold deliverable in Hdel.
  destruct (m_class c) eqn:Hcl.
  - apply wp_ret. exists c. split; [done|]. split; [apply after_refl|done].
  - ksteps. exists (with_receiver c (allocate_medium_payload_block s)). split; [by eapply inv_update_message|].
    split; [by apply after_same|done].
  - destruct (Z.eqb_spec (receiver_payload c) NULL) as [Hr|Hr].
    + ksteps. set (c' := with_receiver c _). set (s1 := with_msgs s _).
      assert (inv x (<[m := c']> o) s1) as Hi1 by by eapply inv_update_message.
      assert (after None 0 s s1) as Ha1 by by apply after_same.
      destruct (negb _); ksteps.
      * eapply wp_message_at; [cbn; by rewrite lookup_insert_eq|]. apply wp_gets. exists c'. done.
      * exists c'. done.
    + apply wp_bind, wp_bind, wp_assert; [apply Z.eqb_eq; auto|]. apply wp_ret.
      destruct (negb _); ksteps; exists c; (split; [done|]; split; [apply after_refl|done]).
Qed.

(** A message that was taken from the head of the mailbox, as the receiver gets it. *)
Definition delivered s (t : thread_c) (q : list Z) (c0 c : message_c) s' : Prop :=
  destination c = destination c0 /\ control c = control c0 /\ (m_class c0 = SmallMessage -> c = c0) /\
  threads s' = <[current_thread s := with_queue t q]> (threads s).

(** The answer of [get_message]: empty, a message that the caller owns, or a
    message whose payload could not be delivered and that was deleted. *)
Definition got_message x o s (r : Z * Z) s' : Prop :=
  after None 1 s s' /\
  ((r = (STATUS_MAILBOX_EMPTY, NULL) /\ s' = s /\ exists t, threads s !! current_thread s = Some t /\ message_queue t = []) \/
   (exists m c0 c t q, r = (STATUS_SUCCESS, m) /\ threads s !! current_thread s = Some t /\ message_queue t = m :: q /\
      msgs s !! m = Some c0 /\ source c = source c0 /\ m_id c = m_id c0 /\ m_type c = m_type c0 /\ m_class c = m_class c0 /\
      m <> NULL /\ o !! m = None /\ inv x (<[m := c]> o) s' /\ delivered s t q c0 c s') \/
   (r.1 <> STATUS_SUCCESS /\ r.2 = NULL /\ inv x o s' /\ exists t m q c, threads s !! current_thread s = Some t /\ message_queue t = m :: q /\
      msgs s !! m = Some c /\ m_class c <> SmallMessage)).

Lemma io_get_message_ok n e x o s : reentry_ok n e -> inv x o s -> running s ->
  (forall t, threads s !! current_thread s = Some t -> suspended t = None) ->
  wp (~ can_run n 1 s) (io_get_message e) s (got_message x o s).
Proof.
  intros He Hi Hrun Hsusp. pose proof Hrun as (t & Et & Hen & Hst). unfold io_get_message, thread_get_message. ksteps.
  destruct (message_queue t) as [|m q] eqn:Hq.
  { apply wp_ret. cbn beta iota. apply wp_ret. split; [eapply after_weaken; [apply after_refl|lia]|]. left. split; [done|]. split; [done|]. eauto. }
  assert (m ∈ held t) as Hmh by (unfold held; rewrite Hq; left).
  destruct (held_in _ _ _ _ _ _ Hi Et Hmh) as (Hmp & c & Em & Hd & Hdel). pose proof (inv_msg_ne _ _ _ _ _ Hi Em) as Hm0.
  ksteps. cbn beta iota. cbn [negb STATUS_SUCCESS Z.eqb].
  apply wp_bind, wp_assert; [by destruct (Z.eqb_spec m NULL)|]. ksteps.
  apply wp_assert; [rewrite bool_decide_false; [done|]; cbn; intros Hnil; rewrite Hnil in Hmp; by apply elem_of_nil in Hmp|].
  set (s0 := with_threads s _). destruct (pending_remove_run m s0 Hmp) as (P & Erun & HP).
  apply wp_bind. eapply wp_run; [exact Erun|]. set (s1 := with_pending s0 P).
  pose proof (inv_pop x o s _ t m q c P Hi Et Hq (Hsusp t Et) HP Em) as Hi1.
  assert (o !! m = None) as Hfree.
  { destruct (o !! m) as [c'|] eqn:Eo; [|done]. destruct (inv_owned _ _ _ Hi _ _ Eo) as (_ & Hn & _). done. }
  assert (after None 0 s s1) as Ha1.
  { change 0 with (0 + 0). eapply after_trans; [apply (after_thread None 0 s (current_thread s) t (with_queue t q)); cbn; try done; rewrite ?Hq; cbn; lia|]. by apply after_same. }
  assert (running s1) as Hrun1 by by eapply after_running.
  apply wp_bind. eapply wp_mono; [apply (deliver_payload_ok False x (<[m := c]> o) s1 m c Hi1); [by rewrite lookup_insert_eq|done]|done|].
  intros st s2 (c' & Hi2 & Ha2 & C1 & C2 & C3 & C4 & C5 & C6 & C7 & C8). rewrite insert_insert_eq in Hi2. cbn beta iota.
  assert (running s2) as Hrun2 by by eapply after_running.
  destruct (Z.eqb_spec st STATUS_SUCCESS) as [->|Hne]; cbn [negb].
  { apply wp_ret. split; [eapply after_weaken; [by eapply after_trans|lia]|]. right. left. exists m, c, c', t, q. unfold delivered. naive_solver. }
  apply wp_bind, wp_modify. set (s3 := with_counters s2 _). assert (inv x (<[m := c']> o) s3) as Hi3 by by apply inv_with_counters.
  assert (after None 0 s2 s3) as Ha3 by by apply after_same. assert (running s3) as Hrun3 by by eapply after_running.
  assert (msgs s3 !! m = Some c') as Em3 by (apply (inv_owned _ _ _ Hi3 m); by rewrite lookup_insert_eq).
  apply wp_bind, (wp_message_at _ _ c'); [done|]. apply wp_bind.
  assert (after None 0 s s3) as Ha03 by (eapply (after_trans _ 0 0); [exact Ha1|]; by eapply (after_trans _ 0 0)).
  apply (wp_mono (~ can_run n 1 s3) _ _ _ (fun _ s' => inv x (<[m := c']> o) s' /\ after None 1 s3 s')).
  { destruct (is_blocking c').
    - apply wp_bind. eapply wp_mono; [by eapply (put_response_ok n e x _ s3 m)|done|]. intros r s4 Hr. by apply wp_ret.
    - apply wp_ret. split; [done|]. eapply after_weaken; [apply after_refl|lia]. }
  { intros Hno Hyes. apply Hno. by eapply can_run_after. }
  intros _ s4 [Hi4 Ha4]. assert (running s4) as Hrun4 by by eapply after_running. apply wp_bind.
  eapply wp_mono; [apply (destroy_message_ok n e x _ s4 m c' He Hi4 Hrun4); by rewrite lookup_insert_eq| |].
  { intros Hno Hyes. apply Hno. destruct Ha03 as [[] Hs1], Ha4 as [[] Hs2], Hyes as [H1 H2]. split; lia. }
  intros _ s5 [Hi5 Ha5]. rewrite delete_insert_id in Hi5 by done. apply wp_ret. split.
  - change 1 with (0 + (1 + 0)). eapply after_trans; [exact Ha03|]. by eapply after_trans.
  - right. right. split; [done|]. split; [done|]. split; [done|].
    exists t, m, q, c. split; [done|]. split; [done|]. split; [done|]. intros Hsm. by destruct (C8 Hsm).
Qed.

(** ** Deleting the messages of a thread *)

Lemma remove_leftovers_run ms : forall s, NoDup ms -> NoDup (pending_messages s) -> (forall m, m ∈ ms -> m ∈ pending_messages s) ->
  exists P, remove_leftovers ms s = Ret (tt, with_pending s P) /\ pending_messages s ≡ₚ ms ++ P.
Proof.
  induction ms as [|m ms IH]; intros s Hnd Hp Hin.
  - exists (pending_messages s). split; [by destruct s|done].
  - apply NoDup_cons in Hnd as [Hm Hnd]. assert (m ∈ pending_messages s) as Hmp by (apply Hin; left).
    destruct (pending_remove_run m s Hmp) as (P & E & HP).
    destruct (IH (with_pending s P)) as (P' & E' & HP').
    + done.
    + cbn. rewrite HP in Hp. by apply NoDup_cons in Hp as [_ Hp].
    + cbn. intros k Hk. assert (k ∈ m :: P) as Hk' by (rewrite <- HP; apply Hin; by right).
      apply elem_of_cons in Hk' as [->|]; done.
    + exists P'. split.
      * cbn [remove_leftovers]. unfold mbind, K_bind, gets, ASSERT. rewrite bool_decide_false by (intros Hnil; rewrite Hnil in Hmp; by apply elem_of_nil in Hmp).
        cbn. by rewrite E, E'.
      * rewrite HP. cbn in HP' |- *. by rewrite HP'.
Qed.

Lemma foldr_delete_first (m : Z) o ms : foldr delete (delete m o) ms = delete m (foldr delete o ms).
Proof. induction ms as [|k ms IH]; [done|]. cbn. by rewrite IH, delete_delete. Qed.

Lemma abort_leftovers_ok n e x ms : reentry_ok n e -> forall o s, inv x o s -> running s -> NoDup ms ->
  (forall m, m ∈ ms -> exists c, o !! m = Some c) ->
  wp (~ can_run n (Z.of_nat (length ms)) s) (abort_leftovers e ms) s (fun _ s' => inv x (foldr delete o ms) s' /\ after None (Z.of_nat (length ms)) s s').
Proof.
  intros He. induction ms as [|m ms IH]; intros o s Hi Hrun Hnd Hown.
  { apply wp_ret. split; [done|apply after_refl]. }
  apply NoDup_cons in Hnd as [Hm Hnd]. destruct (Hown m) as [c Eo]; [left|]. destruct (inv_owned _ _ _ Hi m c Eo) as (Em & _).
  cbn [abort_leftovers length foldr]. apply wp_bind, (wp_message_at _ _ c); [done|]. apply wp_bind.
  apply (wp_mono (~ can_run n 1 s) _ _ _ (fun _ s' => inv x o s' /\ after None 1 s s')).
  { destruct (is_blocking c).
    - apply wp_bind. eapply wp_mono; [by apply (put_response_ok n e x o s m c)|done|]. intros r s1 H1. by apply wp_ret.
    - apply wp_ret. split; [done|]. eapply after_weaken; [apply after_refl|lia]. }
  { intros Hno [H1 H2]. apply Hno. split; [done|lia]. }
  intros _ s1 [Hi1 Ha1]. assert (running s1) as Hrun1 by by eapply after_running. apply wp_bind.
  eapply wp_mono; [by apply (destroy_message_ok n e x o s1 m c He Hi1 Hrun1)| |].
  { intros Hno [H1 H2]. apply Hno. destruct Ha1 as [[] Hs]. split; lia. }
  intros _ s2 [Hi2 Ha2]. assert (running s2) as Hrun2 by by eapply after_running.
  eapply wp_mono; [apply (IH (delete m o) s2 Hi2 Hrun2 Hnd)| |].
  - intros k Hk. destruct (Hown k) as [c' Ec']; [by right|]. exists c'. rewrite lookup_delete_ne; [done|]. by intros ->.
  - intros Hno [H1 H2]. apply Hno. destruct Ha1 as [[] Hs1], Ha2 as [[] Hs2]. split; lia.
  - intros _ s3 [Hi3 Ha3]. rewrite foldr_delete_first in Hi3. split; [done|]. replace (Z.of_nat (S (length ms))) with (1 + (0 + Z.of_nat (length ms))) by lia.
    eapply after_trans; [exact Ha1|]. by eapply after_trans.
Qed.

(** The messages [ms] of [M] join the owned ones. *)
Definition own_all (M : gmap Z message_c) (ms : list Z) (o : gmap Z message_c) : gmap Z message_c :=
  foldr (fun m o => match M !! m with Some c => <[m := c]> o | None => o end) o ms.

Lemma own_all_lookup M ms o m c : own_all M ms o !! m = Some c -> o !! m = Some c \/ (m ∈ ms /\ M !! m = Some c).
Proof.
  induction ms as [|k ms IH]; cbn; [by left|]. destruct (M !! k) as [c'|] eqn:E.
  - destruct (decide (m = k)) as [->|Hne].
    + rewrite lookup_insert_eq. intros ?. simplify_eq. right. split; [left|done].
    + rewrite lookup_insert_ne by done. intros [?|[? ?]]%IH; [by left|]. right. split; [by right|done].
  - intros [?|[? ?]]%IH; [by left|]. right. split; [by right|done].
Qed.

Lemma own_all_in M ms o m c : m ∈ ms -> M !! m = Some c -> own_all M ms o !! m = Some c.
Proof.
  induction ms as [|k ms IH]; cbn; [by intros ?%elem_of_nil|]. intros Hm E. destruct (decide (m = k)) as [->|Hne].
  - rewrite E. by rewrite lookup_insert_eq.
  - apply elem_of_cons in Hm as [|Hm]; [done|]. destruct (M !! k); [rewrite lookup_insert_ne by done|]; auto.
Qed.

Lemma own_all_frame M ms o m c : (m ∉ ms) -> o !! m = Some c -> foldr delete (own_all M ms o) ms !! m = Some c.
Proof.
  intros Hm E. assert (own_all M ms o !! m = Some c) as E1.
  { induction ms as [|k ms IH]; cbn; [done|]. apply not_elem_of_cons in Hm as [Hne Hm].
    destruct (M !! k); [rewrite lookup_insert_ne by done|]; auto. }
  revert E1. generalize (own_all M ms o). intros o1 E1. induction ms as [|k ms IH]; cbn; [done|].
  apply not_elem_of_cons in Hm as [Hne Hm]. rewrite lookup_delete_ne by done. auto.
Qed.

(** The victim after [mark_for_deletion]. *)
Definition marked (t : thread_c) (acknowledgement : Z) : thread_c :=
  if decide (acknowledgement = NULL) then flushed t else with_acknowledgement (flushed t) acknowledgement.

Definition ack_ok o (t : thread_c) (acknowledgement : Z) : Prop :=
  acknowledgement = NULL \/ (deletion_acknowledgement t = NULL /\
    exists c, o !! acknowledgement = Some c /\ is_blocking c = false /\ m_class c = SmallMessage).

Lemma mark_for_deletion_run x o s p t acknowledgement : inv x o s -> running s -> threads s !! p = Some t -> p <> current_thread s ->
  ack_ok o t acknowledgement ->
  mark_for_deletion p acknowledgement s = Ret (held t, with_threads s (<[p := marked t acknowledgement]> (threads s))).
Proof.
  intros Hi (tc & Ec & _) E Hne Hack. unfold mark_for_deletion, same_thread, mbind, K_bind, gets, thread_at. rewrite E, Ec.
  destruct (Z.eqb_spec (t_id t) (t_id tc)) as [Hid|_]; [destruct (Hne (inv_ids _ _ _ Hi _ _ _ _ E Ec Hid))|]. cbn. rewrite E.
  unfold marked. destruct Hack as [->|(Hnull & c & Eo & _)].
  - rewrite decide_True by done. done.
  - destruct (inv_owned _ _ _ Hi _ c Eo) as (Em & _). pose proof (inv_msg_ne _ _ _ _ _ Hi Em) as Hn.
    rewrite decide_False by done. destruct (Z.eqb_spec acknowledgement NULL); [done|]. cbn. rewrite Hnull. cbn.
    unfold set_thread, modify, with_threads, mret, K_ret. cbn. by rewrite insert_insert_eq.
Qed.

Definition without o (m : Z) : gmap Z message_c := if decide (m = NULL) then o else delete m o.

Lemma delete_messages_ok n e x o s p t acknowledgement : reentry_ok n e -> inv x o s -> running s -> threads s !! p = Some t ->
  p <> current_thread s -> p <> cleanup_thread s -> ack_ok o t acknowledgement ->
  wp (~ can_run n (Z.of_nat (length (held t)) + 1) s) (delete_messages e p acknowledgement) s (fun _ s' =>
    inv x (without o acknowledgement) s' /\ exists P, after None (Z.of_nat (length (held t)))
      (with_pending (with_threads s (<[p := marked t acknowledgement]> (threads s))) P) s').
Proof.
  intros He Hi Hrun E Hcur Hclean Hack. unfold delete_messages. apply wp_bind.
  eapply wp_run; [by eapply mark_for_deletion_run|]. cbn beta.
  set (s1 := with_threads s _). pose proof (inv_threads _ _ _ Hi p t E) as [A1 A2 A3 A4 A5 A6 A7 A8 A9].
  destruct (inv_pending _ _ _ Hi) as [Hnd _].
  destruct (remove_leftovers_run (held t) s1) as (P & Erun & HP); [done|done|intros m Hm; by apply A6|].
  apply wp_bind. eapply wp_run; [exact Erun|]. cbn beta. set (s2 := with_pending s1 P).
  set (o1 := own_all (msgs s) (held t) o).
  assert (inv x o1 (with_pending (with_threads s (<[p := flushed t]> (threads s))) P)) as Hi1.
  { apply (inv_flush x o o1 s p t P); [done|done|exact HP|]. intros m c Hm. by apply own_all_lookup. }
  assert (forall m, m ∈ held t -> o !! m = None) as Hdisj.
  { intros m Hm. destruct (o !! m) as [c|] eqn:Eo; [|done]. destruct (inv_owned _ _ _ Hi m c Eo) as (_ & Hn & _). by destruct Hn; apply A6. }
  assert (inv x (without o1 acknowledgement) s2) as Hi2.
  { unfold s2, s1, marked, without. case_decide as Hn; [done|]. destruct Hack as [|(Hnull & c & Eo & Hb & Hc)]; [done|].
    assert (o1 !! acknowledgement = Some c) as Eo1.
    { apply (own_all_frame (msgs s) [] o1); [by apply not_elem_of_nil|]. unfold o1.
      assert (acknowledgement ∉ held t) as Hnh by (intros Hin; by rewrite (Hdisj _ Hin) in Eo).
      clear -Eo Hnh. induction (held t) as [|k ms IH]; cbn; [done|]. apply not_elem_of_cons in Hnh as [Hne Hnh].
      destruct (msgs s !! k); [rewrite lookup_insert_ne by done|]; auto. }
    refine (_ (inv_set_ack _ _ _ p (flushed t) acknowledgement c Hi1 _ Hnull _ Eo1 Hb Hc)).
    - cbn. unfold with_threads, with_pending. cbn. by rewrite insert_insert_eq.
    - cbn. by rewrite lookup_insert_eq.
    - done. }
  assert (running s2) as Hrun2.
  { destruct Hrun as (tc & Ec & He1 & Hs1). exists tc. cbn. by rewrite lookup_insert_ne. }
  eapply wp_mono; [apply (abort_leftovers_ok n e x (held t) He _ s2 Hi2 Hrun2 A5)| |].
  - intros m Hm. destruct (A6 m Hm) as (_ & c & Em & _). exists c. unfold without. case_decide as Hn; [by apply own_all_in|].
    rewrite lookup_delete_ne; [by apply own_all_in|]. intros <-. destruct Hack as [|(_ & c' & Eo & _)]; [done|]. by rewrite (Hdisj _ Hm) in Eo.
  - intros Hno [H1 H2]. apply Hno. split.
    + cbn. rewrite map_size_insert_Some by eauto. done.
    + unfold slack, cleanup_backlog in *. cbn. rewrite (total_update _ _ _ t) by done. rewrite lookup_insert_ne by done.
      assert (has_ack (marked t acknowledgement) <= 1) by (unfold has_ack; by destruct (_ =? _)).
      assert (0 <= has_ack t) by (unfold has_ack; by destruct (_ =? _)). lia.
  - intros _ s3 [Hi3 Ha3]. split; [|by exists P]. eapply inv_disown; [|exact Hi3]. apply map_subseteq_spec.
    intros m c Hm. unfold without in *. case_decide as Hn.
    + apply own_all_frame; [|done]. intros Hin. by rewrite (Hdisj _ Hin) in Hm.
    + apply lookup_delete_Some in Hm as [Hne Hm].
      rewrite foldr_delete_first. rewrite lookup_delete_ne by done. apply own_all_frame; [|done]. intros Hin. by rewrite (Hdisj _ Hin) in Hm.
Qed.
End Ops.
