(* ===== verification/KThreadSched.v ===== *)
(** * Scheduling and thread deletion keep the invariant *)

From S2P Require Import Prelude CMem CStringSearch World Libdx Process Loader KBase KThreads KThreadInv KThreadRuns KThreadOps.

Section Sched.
Context `{environment} {memory : ample_memory}.
Implicit Types (x : list Z) (o : gmap Z message_c) (s : kernel) (e : reentry).

(** The threads in the table accept messages. *)
Definition listed s : Prop := forall i p t, thread_table s !! i = Some p -> threads s !! p = Some t -> mailbox_enabled t = true.

(** The current thread is not blocked. *)
Definition ready s : Prop := exists t, threads s !! current_thread s = Some t /\ state t = THREAD_STATE_READY.

Lemma after_listed exc d s s' : after exc d s s' -> listed s -> listed s'.
Proof.
  intros [[] _] Hl i p t' Ei E'. rewrite stable_table in Ei. destruct (stable_threads p t' E') as (t & E & _ & -> & _). eauto.
Qed.

Lemma running_ready s : running s -> ready s.
Proof. intros (t & E & _ & Hs). by exists t. Qed.

(** ** select_next_thread *)

(** Where the search for the next thread starts: at the current thread when it
    is blocked, else at the owner of the drawn ticket, else at the null thread. *)
Definition search_start s (random : Z) (p : Z) : Prop :=
  exists t, threads s !! current_thread s = Some t /\
  if decide (blocking_thread t <> NULL) then p = current_thread s
  else match pending_messages s with
  | [] => p = null_thread s
  | _ => exists m c, pending_messages s !! Z.to_nat (random mod Z.of_nat (length (pending_messages s))) = Some m /\
           msgs s !! m = Some c /\ p = destination c
  end.

Lemma state_ready x o s p t : inv x o s -> threads s !! p = Some t -> blocking_thread t = NULL -> state t = THREAD_STATE_READY.
Proof.
  intros Hi E B. destruct (state t) eqn:Hs; [done|]. by apply (tok_block _ _ _ _ _ _ (inv_threads _ _ _ Hi p t E)) in Hs.
Qed.

(** The end of the chain from [p]. *)
Lemma end_of_chain x o s p : inv x o s -> is_Some (threads s !! p) ->
  exists n q t, chain (threads s) n p q /\ threads s !! q = Some t /\ state t = THREAD_STATE_READY /\ q <> NULL /\
    exists b, find_blocking_thread p s = Ret (b, s) /\ (if negb (b =? NULL) then b else p) = q.
Proof.
  intros Hi [t E]. destruct (find_blocking_thread_run _ _ _ _ _ Hi E) as [[B Er]|(n & q & B & Hc & Er)].
  - exists 0%nat, p, t. split; [by eapply chain_end|]. split; [done|]. split; [by eapply state_ready|]. split; [by eapply inv_thread_ne|].
    exists NULL. done.
  - destruct (chain_end_ready _ _ _ _ Hc) as (u & Eu & Bu). exists n, q, u. split; [done|]. split; [done|]. split; [by eapply state_ready|].
    pose proof (inv_thread_ne _ _ _ _ _ Hi Eu) as Hq. split; [done|]. exists q. split; [done|]. by destruct (Z.eqb_spec q NULL).
Qed.

(** The last steps: the quantum of the chosen thread. *)
Lemma grant_quantum x o s p t : inv x o s -> threads s !! p = Some t -> state t = THREAD_STATE_READY ->
  wp False (ASSERT (negb (p =? NULL));;
            t ← thread_at p;
            ASSERT (bool_decide (state t = THREAD_STATE_READY));;
            set_thread p (with_ticks t SCHEDULING_QUANTUM_DEFAULT);;
            mret p) s (fun r s' => r = p /\ inv x o s' /\ after None 0 s s' /\
              exists t', threads s' !! p = Some t' /\ state t' = THREAD_STATE_READY /\ tick_count t' = SCHEDULING_QUANTUM_DEFAULT).
Proof.
  intros Hi E Hs. pose proof (inv_thread_ne _ _ _ _ _ Hi E) as Hn. apply wp_bind, wp_assert; [by destruct (Z.eqb_spec p NULL)|].
  apply wp_bind, (wp_thread_at _ _ t); [done|]. apply wp_bind, wp_assert; [by rewrite bool_decide_true|]. ksteps.
  split; [done|]. split; [by apply inv_with_ticks|]. split; [apply (after_thread _ _ _ _ t); cbn; try done; lia|].
  exists (with_ticks t SCHEDULING_QUANTUM_DEFAULT). cbn. by rewrite lookup_insert_eq.
Qed.

(** Taking back the bonus message of the winner. *)
Lemma take_bonus x o s p : inv x o s -> is_Some (threads s !! p) ->
  wp False (bonus ← get_bonus_message p;
            (if negb (bonus =? NULL) then pending_remove bonus else mret tt);;
            mret p) s (fun r s' => r = p /\ inv x o s' /\ after None 0 s s' /\ is_Some (threads s' !! p) /\
              (forall n a b, chain (threads s) n a b <-> chain (threads s') n a b)).
Proof.
  intros Hi [t E]. unfold get_bonus_message. ksteps. destruct (Z.eqb_spec (bonus_message t) NULL) as [Hb|Hb]; cbn [negb].
  { ksteps. cbn. split; [done|]. split; [done|]. split; [apply after_refl|]. by rewrite E. }
  ksteps. destruct (Z.eqb_spec (bonus_message t) NULL); [done|]. cbn [negb]. set (s1 := with_threads s _).
  assert (bonus_message t ∈ held t) as Hh.
  { unfold held. destruct (Z.eqb_spec (bonus_message t) NULL); [done|]. apply elem_of_app. right. by apply list_elem_of_singleton. }
  destruct (held_in _ _ _ _ _ _ Hi E Hh) as [Hp _]. destruct (pending_remove_run (bonus_message t) s1 Hp) as (P & Er & HP).
  eapply wp_run; [exact Er|]. ksteps. split; [done|].
  split; [by apply (inv_take_bonus x o s p t P Hi E Hb)|]. split.
  - change 0 with (0 + 0). eapply after_trans; [apply (after_thread None 0 s p t (with_bonus t NULL)); cbn; try done; lia|]. by apply after_same.
  - cbn. rewrite lookup_insert_eq. split; [by eexists|]. intros j a b. split; intros Hc; (eapply chain_ext; [exact Hc|]); intros k u Eu.
    + destruct (decide (k = p)) as [->|Hne]; [rewrite lookup_insert_eq; simplify_eq; eauto|rewrite lookup_insert_ne by done; eauto].
    + destruct (decide (k = p)) as [->|Hne].
      * rewrite lookup_insert_eq in Eu. simplify_eq. eauto.
      * rewrite lookup_insert_ne in Eu by done. eauto.
Qed.

Lemma select_next_thread_ok x o s random : inv x o s ->
  wp False (select_next_thread random (current_thread s)) s (fun p s' => inv x o s' /\ after None 0 s s' /\
    (exists t, threads s' !! p = Some t /\ state t = THREAD_STATE_READY /\ tick_count t = SCHEDULING_QUANTUM_DEFAULT) /\
    exists start n, search_start s random start /\ chain (threads s) n start p).
Proof.
  intros Hi. destruct (inv_current _ _ _ Hi) as [tc Ec]. unfold select_next_thread, search_start. apply wp_bind.
  destruct (find_blocking_thread_run _ _ _ _ _ Hi Ec) as [[B Er]|(n & q & B & Hc & Er)]; (eapply wp_run; [exact Er|]); cbn beta; cycle 1.
  { destruct (chain_end_ready _ _ _ _ Hc) as (u & Eu & Bu). pose proof (inv_thread_ne _ _ _ _ _ Hi Eu) as Hq.
    destruct (Z.eqb_spec q NULL); [done|]. cbn [negb]. apply wp_bind, wp_bind, wp_modify, wp_ret. cbn beta.
    set (s1 := with_counters s _). assert (inv x o s1) as Hi1 by by apply inv_with_counters.
    eapply wp_mono; [apply (grant_quantum x o s1 q u Hi1 Eu); by eapply state_ready|done|].
    intros r s2 (-> & Hi2 & Ha2 & Ht). split; [done|]. split; [change 0 with (0 + 0); eapply after_trans; [|exact Ha2]; by apply after_same|].
    split; [done|]. exists (current_thread s), n. split; [|done]. exists tc. split; [done|]. by rewrite decide_True. }
  cbn [negb]. apply wp_bind, wp_bind, wp_gets. cbn beta.
  apply (wp_bind False (if negb (bool_decide (pending_messages s = [])) then _ else _)).
  apply (wp_mono False _ _ _ (fun p s' => inv x o s' /\ after None 0 s s' /\ is_Some (threads s' !! p) /\
    (forall n a b, chain (threads s) n a b <-> chain (threads s') n a b) /\ search_start s random p)); [|done|].
  { destruct (bool_decide (pending_messages s = [])) eqn:Hpe; cbn [negb].
    - apply bool_decide_eq_true in Hpe. apply wp_bind, wp_modify, wp_bind, wp_gets. cbn beta. destruct (inv_roots _ _ _ Hi) as [Hn _].
      apply wp_bind, wp_assert; [cbn; by destruct (Z.eqb_spec (null_thread s) NULL)|]. apply wp_ret.
      split; [by apply inv_with_counters|]. split; [by apply after_same|]. cbn. destruct (inv_null _ _ _ Hi) as [tn En]. split; [by rewrite En|].
      split; [done|]. exists tc. split; [done|]. rewrite decide_False by (by intros []). by rewrite Hpe.
    - apply bool_decide_eq_false in Hpe. apply wp_bind, wp_modify. set (s1 := with_counters s _).
      assert (inv x o s1) as Hi1 by by apply inv_with_counters. apply wp_bind.
      destruct (pending_messages s) as [|y ys] eqn:Hp; [done|].
      assert (is_Some (pending_messages s !! Z.to_nat (random mod Z.of_nat (length (pending_messages s))))) as [m Em].
      { apply lookup_lt_is_Some. assert (0 < Z.of_nat (length (pending_messages s))) by (rewrite Hp; cbn; lia).
        pose proof (Z.mod_pos_bound random (Z.of_nat (length (pending_messages s))) ltac:(done)). lia. }
      eapply (wp_run _ _ _ m s1); [unfold select_random; cbn; by rewrite Em|]. cbn beta.
      destruct (inv_pending _ _ _ Hi) as [_ Hin]. destruct (Hin m) as (p & t & Et & Hmt); [by eapply list_elem_of_lookup_2|].
      destruct (held_in _ _ _ _ _ _ Hi Et Hmt) as (_ & c & Ecm & Hd & _).
      apply wp_bind, (wp_message_at _ _ c); [done|].
      eapply wp_mono; [apply (take_bonus x o s1 (destination c) Hi1); cbn; rewrite Hd, Et; by eexists|done|].
      intros r s2 (-> & Hi2 & Ha2 & Hl2 & Hc2). split; [done|].
      split; [change 0 with (0 + 0); eapply after_trans; [|exact Ha2]; by apply after_same|]. split; [done|]. split; [done|].
      exists tc. split; [done|]. rewrite decide_False by (by intros []). rewrite Hp in Em |- *. eauto. }
  intros start s2 (Hi2 & Ha2 & Hl2 & Hc2 & Hst). apply wp_bind.
  destruct (end_of_chain x o s2 start Hi2 Hl2) as (n & q & t & Hc & Et & Hs & Hq & b & Er2 & Hb).
  eapply wp_run; [exact Er2|]. apply wp_ret. cbn beta. rewrite Hb.
  eapply wp_mono; [by apply (grant_quantum x o s2 q t)|done|].
  intros r s3 (-> & Hi3 & Ha3 & Ht). split; [done|]. split; [change 0 with (0 + 0); by eapply after_trans|]. split; [done|].
  exists start, n. split; [exact Hst|]. by apply Hc2.
Qed.

(** ** Yielding *)

Definition yielded x o s s' : Prop := inv x o s' /\ ready s' /\ (listed s -> listed s') /\
  null_thread s' = null_thread s /\ cleanup_thread s' = cleanup_thread s /\ thread_table s' = thread_table s /\ next_thread_id s' = next_thread_id s.

Lemma handle_yield_ok x o s random : inv x o s -> wp False (handle_yield random) s (fun _ s' => yielded x o s s').
Proof.
  intros Hi. unfold handle_yield. ksteps. eapply wp_mono; [by apply select_next_thread_ok|done|].
  intros p s1 (Hi1 & Ha1 & (t & Et & Hs & _) & _). pose proof Ha1 as [St _]. destruct St. apply wp_bind.
  destruct (inv_current _ _ _ Hi1) as [tc Ec]. rewrite stable_current in Ec.
  eapply (wp_same_thread_inv _ x o p (current_thread s) s1 _ Hi1); [by eexists|by eexists|].
  case_bool_decide as Hp; cbn [negb]; ksteps.
  - split; [done|]. split; [exists t; rewrite stable_current, <- Hp; done|]. split; [by eapply after_listed|]. done.
  - split; [by eapply inv_switch|]. split; [exists t; done|]. split; [|done].
    intros Hl. pose proof (after_listed _ _ _ _ Ha1 Hl) as Hl1. exact Hl1.
Qed.
End Sched.
