(* ===== verification/KThreadSys.v ===== *)
(** * The system calls and the clock keep the invariant *)

From S2P Require Import Prelude CMem CStringSearch World Libdx Process Loader KBase KThreads KThreadInv KThreadRuns KThreadOps KThreadSched.

Section Sys.
Context `{environment} {memory : ample_memory}.
Implicit Types (x : list Z) (o : gmap Z message_c) (s : kernel) (e : reentry) (d : syscall_data).

Lemma yielded_after x o k s s1 s' exc : after exc k s s1 -> yielded x o s1 s' -> yielded x o s s'.
Proof.
  intros Ha (Hi & Hr & Hl & H1 & H2 & H3 & H4). pose proof (after_listed _ _ _ _ Ha) as Hl'. destruct Ha as [[] _].
  split; [done|]. split; [done|]. split; [auto|]. by rewrite H1, H2, H3, H4.
Qed.

(** The running thread is not in the middle of a call. *)
Definition idle s : Prop := forall t, threads s !! current_thread s = Some t -> suspended t = None.

Lemma after_idle k s s' exc : after exc k s s' -> idle s -> idle s'.
Proof.
  intros [[] _] Hidle t' E'. rewrite stable_current in E'. destruct (stable_threads _ _ E') as (t & E & _ & _ & _ & -> & _). by apply Hidle.
Qed.

(** ** Functions that only count references *)

Definition kept s s' : Prop := forall p t', threads s' !! p = Some t' -> exists t, threads s !! p = Some t /\ same_core t t'.

Lemma kept_trans s1 s2 s3 : kept s1 s2 -> kept s2 s3 -> kept s1 s3.
Proof.
  intros H1 H2 p t3 E3. destruct (H2 p t3 E3) as (t2 & E2 & C2). destruct (H1 p t2 E2) as (t1 & E1 & C1).
  exists t1. split; [done|]. unfold same_core in *. naive_solver congruence.
Qed.

Lemma kept_add_ref s p t : threads s !! p = Some t -> kept s (add_ref s p t).
Proof.
  intros E q u Eq. cbn in Eq. destruct (decide (q = p)) as [->|Hne].
  - rewrite lookup_insert_eq in Eq. simplify_eq. exists t. split; [done|]. apply same_core_references.
  - rewrite lookup_insert_ne in Eq by done. exists u. split; [done|]. by repeat split.
Qed.

Lemma add_reference_kept p s s' : add_reference p s = Ret (tt, s') -> kept s s'.
Proof.
  unfold add_reference, mbind, K_bind, thread_at. destruct (threads s !! p) as [t|] eqn:E; [|done].
  unfold ASSERT. destruct (0 <? reference_count t); [|done]. intros Hr. cbn in Hr. injection Hr as <-. by apply kept_add_ref.
Qed.

Lemma new_small_kept src dst type id payload s m s' : new_small_message src dst type id payload s = Ret (m, s') -> kept s s'.
Proof.
  unfold new_small_message, construct_message, new_object, mbind, K_bind. destruct (memory_available s).
  - destruct (_ =? NULL). { intros [= _ <-]. intros p t E. exists t. by repeat split. }
    cbn. destruct (add_reference src _) as [[[] s1]|] eqn:E1; [|done]. destruct (add_reference dst s1) as [[[] s2]|] eqn:E2; [|done].
    intros [= _ <-]. apply add_reference_kept in E1, E2. by eapply kept_trans.
  - intros [= _ <-]. intros p t E. exists t. by repeat split.
Qed.

Lemma wp_and ok {A} (c : K A) s (Q R : A -> kernel -> Prop) : wp ok c s Q -> (forall a s', c s = Ret (a, s') -> R a s') ->
  wp ok c s (fun a s' => Q a s' /\ R a s').
Proof. unfold wp. destruct (c s) as [[a s']|[]]; auto. Qed.

(** ** The clock *)

Lemma maybe_put_bonus_ok x o s : inv x o s ->
  wp False (m ← maybe_put_bonus_message (current_thread s);
            if negb (m =? NULL) then pending_add m;; count count_message else mret tt) s
    (fun _ s' => inv x o s' /\ after None 0 s s').
Proof.
  intros Hi. destruct (inv_current _ _ _ Hi) as [t Et]. unfold maybe_put_bonus_message. ksteps.
  apply (wp_same_thread _ _ _ t t); [done|done|]. apply wp_bind, wp_assert; [apply Z.eqb_refl|].
  apply wp_bind, (wp_thread_at _ _ t); [done|]. assert (inv x o s /\ after None 0 s s) as Hsame by (split; [done|apply after_refl]).
  destruct (mailbox_enabled t) eqn:Hen; cbn [negb]; [|by ksteps]. case_bool_decide as Hq; cbn [negb]; [|by ksteps].
  destruct (Z.eqb_spec (bonus_message t) NULL) as [Hb|Hb]; cbn [negb]; [|by ksteps]. ksteps.
  destruct (inv_roots _ _ _ Hi) as [Hn _]. apply wp_assert; [by destruct (Z.eqb_spec (null_thread s) NULL)|]. apply wp_bind.
  eapply wp_mono; [apply (wp_and False); [apply (wp_new_small False x o s); [done|by eapply inv_null|by eexists]|apply new_small_kept]|done|].
  intros m s1 [[[-> ->]|(c & (Hm & Hfree & Hi1 & Ha1) & ->)] Hk].
  - apply wp_bind, (wp_thread_at _ _ t); [done|]. ksteps.
    assert (with_bonus t NULL = t) as ->. { destruct t; cbn in *. by subst. } rewrite insert_id by done. by destruct s.
  - pose proof Ha1 as [St _]. destruct St. destruct (inv_current _ _ _ Hi1) as [t1 Et1]. rewrite stable_current in Et1.
    destruct (Hk _ _ Et1) as (t' & Et' & _ & _ & _ & _ & Hbo & _ & He & _). assert (t' = t) as -> by congruence.
    apply wp_bind, (wp_thread_at _ _ t1); [done|]. ksteps. destruct (Z.eqb_spec m NULL); [done|]. cbn [negb]. ksteps.
    set (c := mkMsg _ _ _ _ _ _ _ _ _) in *.
    pose proof (inv_bonus x _ s1 (current_thread s) t1 m c Hi1 Et1 ltac:(by rewrite lookup_insert_eq) eq_refl ltac:(done) ltac:(congruence) ltac:(congruence)) as Hi2.
    rewrite delete_insert_id in Hi2 by done. split; [by apply inv_with_counters|].
    change 0 with (0 + (0 + 0)). eapply after_trans; [exact Ha1|].
    eapply after_trans; [apply (after_thread None 0 s1 (current_thread s) t1 (with_bonus t1 m)); cbn; try done; lia|]. by apply after_same.
Qed.

Lemma handle_clock_ok x o s random : inv x o s -> ready s -> wp False (handle_clock random) s (fun _ s' => yielded x o s s').
Proof.
  intros Hi Hr. pose proof Hr as (t & Et & Hs). unfold handle_clock. ksteps. set (s1 := with_threads s _).
  assert (inv x o s1) as Hi1 by by apply inv_with_ticks.
  assert (after None 0 s s1) as Ha1 by (apply (after_thread _ _ _ _ t); cbn; try done; lia).
  destruct (0 <? s32 (tick_count t - 1)).
  { ksteps. split; [done|]. split; [eexists; cbn; rewrite lookup_insert_eq; done|]. split; [by eapply after_listed|]. done. }
  apply wp_bind, wp_gets, wp_bind. destruct (inv_null _ _ _ Hi1) as [tn En].
  eapply (wp_same_thread_inv _ x o (current_thread s) (null_thread s) s1 _ Hi1); [exact (inv_current _ _ _ Hi1)|by eexists|]. apply wp_bind.
  apply (wp_mono False _ _ _ (fun _ s' => inv x o s' /\ after None 0 s1 s')); [|done|].
  { case_bool_decide; cbn [negb]; [apply wp_ret; split; [done|apply after_refl]|]. exact (maybe_put_bonus_ok x o s1 Hi1). }
  intros _ s2 [Hi2 Ha2]. eapply wp_mono; [by apply (handle_yield_ok x o)|done|]. intros r s3 H3.
  eapply yielded_after; [exact Ha1|]. by eapply yielded_after.
Qed.

(** ** Looking up a thread *)

Lemma find_thread_ok ok x o s id : inv x o s -> running s ->
  wp ok (find_thread id) s (fun p s' => (p = NULL /\ s' = s /\ thread_table s !! id = None) \/
    (exists t, p <> NULL /\ threads s !! p = Some t /\ s' = add_ref s p t /\ inv (p :: x) o s' /\ after None 0 s s' /\ pinned x s p /\
       ((p = current_thread s /\ (id = t_id t \/ id = THREAD_ID_LOOPBACK)) \/ thread_table s !! id = Some p))).
Proof.
  intros Hi Hrun. pose proof Hrun as (tc & Ec & _). unfold find_thread. ksteps.
  apply (wp_mono False _ _ _ (fun p s' => s' = s /\ ((p = NULL /\ thread_table s !! id = None) \/
    (pinned x s p /\ exists t, threads s !! p = Some t /\
      ((p = current_thread s /\ (id = t_id t \/ id = THREAD_ID_LOOPBACK)) \/ thread_table s !! id = Some p))))); [|done|].
  { destruct (Z.eqb_spec id (t_id tc)) as [Hid|_]; [|destruct (Z.eqb_spec id THREAD_ID_LOOPBACK) as [Hid|_]]; cbn [orb].
    - ksteps. split; [done|]. right. split; [by eapply running_pinned|]. eauto 10.
    - ksteps. split; [done|]. right. split; [by eapply running_pinned|]. eauto 10.
    - ksteps. split; [done|]. destruct (thread_table s !! id) as [p|] eqn:E; cbn; [|by left]. right.
      destruct (inv_table _ _ _ Hi id p E) as (_ & t & Et & _). split; [by right; right; right; eexists|]. eauto. }
  intros p s' (-> & [[-> Hno]|(Hpin & t & Et & Hwhich)]); [by ksteps; left|].
  pose proof (inv_thread_ne _ _ _ _ _ Hi Et) as Hn. destruct (Z.eqb_spec p NULL); [done|]. cbn [negb]. apply wp_bind.
  eapply (wp_add_reference _ x o s p t); [done|done|]. ksteps. right. exists t. split; [done|]. split; [done|]. split; [done|].
  split; [by apply inv_add_ref|]. split; [by apply after_add_ref|]. done.
Qed.

(** ** Sending *)

(** The arguments of a send request that the constructors accept. *)
Definition valid_request d : Prop := valid_payload (data3 d) (data4 d) (data5 d).

Lemma syscall_send_ok n e x o s d : reentry_ok n e -> inv x o s -> running s -> current_thread s <> cleanup_thread s -> valid_request d ->
  wp (~ can_run n 1 s) (syscall_send_message e d) s (fun _ s' => inv x o s' /\ after None 1 s s').
Proof.
  intros He Hi Hrun Hcl Hv. unfold syscall_send_message. apply wp_bind.
  eapply wp_mono; [by apply (find_thread_ok False x o s)|done|]. intros p s1 [(-> & -> & _)|(t & Hp & Et & -> & Hi1 & Ha1 & Hpin & _)].
  { cbn. split; [done|]. eapply after_weaken; [apply after_refl|lia]. }
  destruct (Z.eqb_spec p NULL); [done|]. cbn [negb]. set (s1 := add_ref s p t) in *. assert (running s1) as Hrun1 by by eapply after_running.
  ksteps. destruct (inv_current _ _ _ Hi) as [tc Ec].
  eapply wp_mono; [apply (put_message_ok n e (p :: x) o s1 (current_thread s1) p (data1 d) (data2 d) (data3 d) (data4 d) (data5 d) He Hi1 Hrun1)| |].
  - exact (inv_thread_ne _ _ _ _ _ Hi Ec).
  - done.
  - by apply (running_pinned _ o).
  - right. right. left. left.
  - done.
  - cbn. intros Heq. congruence.
  - intros Hno Hyes. apply Hno. destruct Hyes as [H1 H2]. destruct Ha1 as [[] Hs]. split; [lia|]. left. lia.
  - intros st s2 [Hi2 Ha2]. apply wp_bind. assert (running s2) as Hrun2 by by eapply after_running.
    eapply wp_mono; [apply (wp_remove_pinned False e x o s2 p Hi2 Hp)|done|].
    + eapply after_pinned; [exact Ha2|]. by eapply after_pinned.
    + intros _ s3 [Hi3 Ha3]. apply wp_ret. split; [done|]. change 1 with (0 + (1 + 0)). eapply after_trans; [exact Ha1|]. by eapply after_trans.
Qed.

Definition caller_refs (from : send_caller) : list Z := match from with FromSyscall p => [p] | FromDeletion => [] end.

(** A request is put and its sender suspended, or the call fails. *)
Lemma io_send_ok n e x o s random m c from : reentry_ok n e -> inv (caller_refs from ++ x) o s -> running s -> idle s -> o !! m = Some c ->
  (from = FromDeletion -> destination c = cleanup_thread s) -> (forall r, from = FromSyscall r -> r <> NULL) ->
  wp (~ can_run n 1 s) (io_send_message e random m from) s (fun st s' =>
    (st = STATUS_SUCCESS /\ yielded x (delete m o) s s') \/
    (st <> STATUS_SUCCESS /\ after None 1 s s' /\ exists c', source c' = source c /\ destination c' = destination c /\ inv (caller_refs from ++ x) (<[m := c']> o) s')).
Proof.
  intros He Hi Hrun Hidle Eo Hdel Hcaller. destruct (inv_owned _ _ _ Hi m c Eo) as (Em & _).
  destruct (inv_message_threads _ _ _ _ _ Hi Em) as [_ [td Ed]]. unfold io_send_message. ksteps.
  eapply (wp_add_reference _ _ o s _ td); [done|done|]. set (s1 := add_ref s (destination c) td).
  pose proof (inv_add_ref _ _ _ _ _ Hi Ed) as Hi1. assert (after None 0 s s1) as Ha1 by by apply after_add_ref.
  ksteps. set (c' := with_control c _). set (s2 := with_msgs s1 _).
  assert (inv (destination c :: caller_refs from ++ x) (<[m := c']> o) s2) as Hi2 by by apply (inv_update_message _ _ _ _ c).
  assert (after None 0 s s2) as Ha2 by (change 0 with (0 + 0); eapply after_trans; [exact Ha1|]; by apply after_same).
  assert (running s2) as Hrun2 by by eapply after_running. assert (idle s2) as Hidle2 by by eapply after_idle.
  assert (is_blocking c' = true) as Hblk.
  { unfold is_blocking, c'. cbn. rewrite Z.land_lor_distr_l. change (Z.land MESSAGE_CONTROL_BLOCKING MESSAGE_CONTROL_BLOCKING) with 1.
    destruct (Z.eqb_spec (Z.lor (Z.land (control c) MESSAGE_CONTROL_BLOCKING) 1) 0) as [Hz|]; [|done].
    apply Z.lor_eq_0_iff in Hz as [_ Hz]. done. }
  eapply wp_mono; [apply (put_ok n e He _ _ s2 m c' Hi2 Hrun2); [by rewrite lookup_insert_eq|by intros _]| |].
  { intros Hno Hyes. apply Hno, can_run_put. by eapply can_run_after. }
  intros st s3 [(-> & Hi3 & Ha3 & Hb3 & _)|(Hst & Hi3 & Ha3)].
  - rewrite delete_insert_eq in Hi3. cbn. destruct (Hb3 Hblk) as (t3 & Et3 & Hs3 & Hbt & Hbm). unfold sender in Ha3. rewrite Hblk in Ha3.
    pose proof Ha3 as [St _]. destruct St. rewrite stable_current in Et3. destruct (stable_threads _ _ Et3) as (t2 & Et2 & _ & _ & _ & Hsu & _).
    apply wp_bind, (wp_thread_at _ _ t3); [done|]. apply wp_bind, wp_set_thread. apply wp_bind.
    set (f := mkFrame (destination c) (m_id c) from). set (s4 := with_threads s3 _).
    assert (inv x (delete m o) s4) as Hi4.
    { apply (inv_suspend _ _ s3 (current_thread s) t3 f Hi3 Et3); try done.
      - by rewrite Hsu, (Hidle2 t2).
      - intros Hf. rewrite stable_cleanup. by apply Hdel.
      - intros q Hq. cbn [occurrences]. rewrite occurrences_app. unfold f. cbn. destruct from; cbn; lia. }
    eapply wp_mono; [by apply (handle_yield_ok x (delete m o))|done|]. intros r s5 H5. apply wp_ret. left. split; [done|].
    apply (yielded_after _ _ 1 s s3 s5 (Some (current_thread s))).
    + change 1 with (0 + 1). eapply after_trans; [by eapply after_weaken|exact Ha3].
    + destruct H5 as (G1 & G2 & G3 & G4 & G5 & G6 & G7). split; [done|]. split; [done|]. split; [|done]. intros Hl. apply G3.
      intros i p t Ei Ep. cbn in Ei, Ep. destruct (decide (p = current_thread s)) as [->|Hne].
      * rewrite lookup_insert_eq in Ep. simplify_eq. cbn. eapply Hl; eauto.
      * rewrite lookup_insert_ne in Ep by done. eapply Hl; eauto.
  - destruct (Z.eqb_spec st STATUS_SUCCESS); [done|]. apply wp_bind. assert (running s3) as Hrun3 by by eapply after_running.
    destruct (inv_ends _ _ _ Hi m c Em) as [_ Hdn].
    eapply wp_mono; [apply (remove_reference_ok n e _ _ s3 (destination c) He Hi3 Hrun3 Hdn)| |].
    + intros Hno [H1 H2]. apply Hno. destruct Ha2 as [[] Hs2], Ha3 as [[] Hs3]. split; lia.
    + intros _ s4 [Hi4 Ha4]. apply wp_ret. right. split; [done|].
      split; [|exists c'; done]. change 1 with (0 + (1 + 0)). eapply after_trans; [exact Ha2|]. by eapply after_trans.
Qed.

(** What a call leaves behind: it has returned, or its thread is suspended. *)
Definition settled {A} x o s (r : option A) s' : Prop :=
  match r with Some _ => inv x o s' /\ after None 2 s s' | None => yielded x o s s' end.

Lemma syscall_send_and_receive_ok n e x o s random d : reentry_ok n e -> inv x o s -> running s -> idle s ->
  current_thread s <> cleanup_thread s -> valid_request d ->
  wp (~ can_run n 1 s) (syscall_send_and_receive_message e random d) s (settled x o s).
Proof.
  intros He Hi Hrun Hidle Hcl Hv. unfold syscall_send_and_receive_message. apply wp_bind.
  eapply wp_mono; [by apply (find_thread_ok False x o s)|done|]. intros p s1 [(-> & -> & _)|(t & Hp & Et & -> & Hi1 & Ha1 & Hpin & _)].
  { apply wp_ret. split; [done|]. eapply after_weaken; [apply after_refl|lia]. }
  destruct (Z.eqb_spec p NULL); [done|]. set (s1 := add_ref s p t) in *. assert (running s1) as Hrun1 by by eapply after_running.
  destruct (inv_current _ _ _ Hi1) as [tc Ec]. apply wp_bind, wp_gets, wp_bind.
  assert (exists u, threads s1 !! p = Some u) as [u Eu] by (apply (inv_live _ _ _ p Hi1 Hp); pose proof (pinned_counted x s1 p); rewrite counted_cons; pose proof (counted_parts x s1 p); unfold counted; lia).
  eapply wp_mono; [apply (wp_allocate False (p :: x) o s1 (current_thread s1) p _ _ _ _ _ Hi1); eauto|done|].
  { cbn. intros Heq. congruence. }
  intros m s2 [[-> ->]|(c & (Hm & Hfree & Hi2 & Ha2) & Hsrc & Hdst & _)].
  - cbn. apply wp_bind. eapply wp_mono; [apply (wp_remove_pinned False e x o s1 p Hi1 Hp); by eapply after_pinned|done|].
    intros _ s2 [Hi2 Ha2]. apply wp_ret. split; [done|]. eapply (after_le _ (0 + 0)); [|lia]. by eapply after_trans.
  - destruct (Z.eqb_spec m NULL); [done|]. apply wp_bind. assert (running s2) as Hrun2 by by eapply after_running.
    assert (after None 0 s s2) as Ha02 by (change 0 with (0 + 0); by eapply after_trans). assert (idle s2) as Hidle2 by by eapply after_idle.
    eapply wp_mono; [apply (io_send_ok n e x (<[m := c]> o) s2 random m c (FromSyscall p) He Hi2 Hrun2 Hidle2); [by rewrite lookup_insert_eq|done|congruence]| |].
    { intros Hno Hyes. apply Hno. by eapply can_run_after. }
    intros st s3 [(-> & H3)|(Hst & Ha3 & c' & C1 & C2 & Hi3)].
    + cbn. rewrite delete_insert_id in H3 by done. by eapply yielded_after.
    + destruct (Z.eqb_spec st STATUS_SUCCESS); [done|]. cbn [negb]. rewrite insert_insert_eq in Hi3. apply wp_bind.
      assert (running s3) as Hrun3 by by eapply after_running.
      assert (after None 1 s s3) as Ha03 by (change 1 with (0 + 1); by eapply after_trans).
      assert (current_thread s3 = current_thread s1) as Hcur by (destruct Ha2 as [[] _], Ha3 as [[] _]; congruence).
      eapply wp_mono; [apply (wp_destroy_pinned False e (p :: x) _ s3 m c' Hi3); [by rewrite lookup_insert_eq|..]|done|].
      * rewrite C1, Hsrc, <- Hcur. by apply (running_pinned _ _ _ Hi3).
      * rewrite C2, Hdst. right. right. left. left.
      * intros _ s4 [Hi4 Ha4]. rewrite delete_insert_id in Hi4 by done. apply wp_bind.
        eapply wp_mono; [apply (wp_remove_pinned False e x o s4 p Hi4 Hp)|done|].
        -- eapply after_pinned; [exact Ha4|]. by eapply after_pinned.
        -- intros _ s5 [Hi5 Ha5]. apply wp_ret. split; [done|]. eapply (after_le _ (1 + (0 + 0))); [|lia].
           eapply after_trans; [exact Ha03|]. by eapply after_trans.
Qed.

Lemma send_deletion_ok n e x o s random random_id victim : reentry_ok n e -> inv x o s -> running s -> idle s ->
  wp (~ can_run n 1 s) (send_deletion_message e random random_id victim) s (settled x o s).
Proof.
  intros He Hi Hrun Hidle. unfold send_deletion_message. ksteps. destruct (inv_current _ _ _ Hi) as [tc Ec].
  eapply wp_mono; [apply (wp_new_small False x o s); [done|by eexists|by eapply inv_cleanup]|done|].
  intros m s1 [[-> ->]|(c & (Hm & Hfree & Hi1 & Ha1) & ->)].
  { apply wp_ret. split; [done|]. eapply after_weaken; [apply after_refl|lia]. }
  set (c := mkMsg _ _ _ _ _ _ _ _ _) in *. destruct (Z.eqb_spec m NULL); [done|]. apply wp_bind.
  assert (running s1) as Hrun1 by by eapply after_running. assert (idle s1) as Hidle1 by by eapply after_idle.
  eapply wp_mono; [apply (io_send_ok n e x (<[m := c]> o) s1 random m c FromDeletion He Hi1 Hrun1 Hidle1); [by rewrite lookup_insert_eq| |done]| |].
  { intros _. destruct Ha1 as [[] _]. by rewrite stable_cleanup. }
  { intros Hno Hyes. apply Hno. by eapply can_run_after. }
  intros st s2 [(-> & H2)|(Hst & Ha2 & c' & _ & _ & Hi2)].
  - cbn. rewrite delete_insert_id in H2 by done. by eapply yielded_after.
  - destruct (Z.eqb_spec st STATUS_SUCCESS); [done|]. cbn [negb]. rewrite insert_insert_eq in Hi2. apply wp_ret. split.
    + eapply inv_disown; [|exact Hi2]. by apply insert_subseteq.
    + eapply (after_le _ (0 + 1)); [|lia]. by eapply after_trans.
Qed.

(** ** Receiving *)

(** The mailbox of the current thread does not start with a small message. *)
Definition no_small s : Prop := forall t m q c, threads s !! current_thread s = Some t -> message_queue t = m :: q ->
  msgs s !! m = Some c -> m_class c <> SmallMessage.

Definition received x o s (r : option (Z * Z)) s' : Prop :=
  match r with
  | None => yielded x o s s' /\ no_small s
  | Some (st, m) => after None 1 s s' /\
      ((st = STATUS_SUCCESS /\ exists c t q c0, m <> NULL /\ o !! m = None /\ inv x (<[m := c]> o) s' /\
          threads s !! current_thread s = Some t /\ message_queue t = m :: q /\ msgs s !! m = Some c0 /\
          source c = source c0 /\ m_type c = m_type c0 /\ m_class c = m_class c0 /\ delivered s t q c0 c s') \/
       (st <> STATUS_SUCCESS /\ inv x o s' /\ no_small s))
  end.

Lemma io_receive_ok n e x o s random wait : reentry_ok n e -> inv x o s -> running s -> idle s ->
  wp (~ can_run n 1 s) (io_receive_message e random wait) s (received x o s).
Proof.
  intros He Hi Hrun Hidle. unfold io_receive_message. apply wp_bind.
  eapply wp_mono; [by apply (io_get_message_ok n e x o s)|done|].
  intros [st m] s1 (Ha & [(Hr & -> & t & Et & Hq)|[(k & c0 & c & t & q & Hr & Et & Hq & Em & C1 & C2 & C3 & C4 & Hk & Hfree & Hi1 & Hdel)|(Hst & Hm & Hi1 & t & k & q & c & Et & Hq & Em & Hcl)]]).
  - assert (no_small s) as Hno by (intros t' m' q' c' Et' Hq'; congruence).
    injection Hr as -> ->. cbn. destruct wait; cbn [negb].
    + apply wp_bind. eapply wp_mono; [by apply (handle_yield_ok x o)|done|]. intros r s2 H2. by apply wp_ret.
    + apply wp_ret. split; [done|]. by right.
  - injection Hr as -> ->. cbn [negb STATUS_SUCCESS STATUS_MAILBOX_EMPTY Z.eqb]. apply wp_bind, wp_assert; [by destruct (Z.eqb_spec k NULL)|].
    apply wp_ret. split; [done|]. left. split; [done|]. exists c, t, q, c0. done.
  - assert (no_small s) as Hno by (intros t' m' q' c' Et' Hq' Ec'; congruence).
    cbn in Hst, Hm. subst m. destruct (Z.eqb_spec st STATUS_MAILBOX_EMPTY); cbn [negb].
    + destruct wait; cbn [negb].
      * apply wp_bind. eapply wp_mono; [by apply (handle_yield_ok x o)|done|]. intros r s2 H2. apply wp_ret. split; [by eapply yielded_after|done].
      * apply wp_ret. split; [done|]. by right.
    + apply wp_bind, wp_assert; [by destruct (Z.eqb_spec st STATUS_SUCCESS)|]. apply wp_ret. split; [done|]. by right.
Qed.

(** The fields of a message that the caller owns. *)
Lemma return_message_ok ok x o s d m c st Q : inv x o s -> o !! m = Some c -> (forall r, Q r s) -> wp ok (return_message d m st) s Q.
Proof.
  intros Hi Eo HQ. destruct (inv_owned _ _ _ Hi m c Eo) as (Em & _). destruct (inv_message_threads _ _ _ _ _ Hi Em) as [[ts Es] _].
  unfold return_message. ksteps. apply HQ.
Qed.

Lemma syscall_receive_ok n e x o s random d : reentry_ok n e -> inv x o s -> running s -> idle s ->
  wp (~ can_run n 1 s) (syscall_receive_message e random d) s (settled x o s).
Proof.
  intros He Hi Hrun Hidle. unfold syscall_receive_message. apply wp_bind.
  eapply wp_mono; [by apply (io_receive_ok n e x o s)|done|]. intros [[st m]|] s1 H1; [|by apply wp_ret; destruct H1].
  destruct H1 as (Ha1 & [(-> & c & t & q & c0 & Hm & Hfree & Hi1 & _)|(Hst & Hi1 & _)]).
  - cbn [STATUS_SUCCESS Z.eqb]. apply wp_bind, wp_assert; [by destruct (Z.eqb_spec m NULL)|]. apply wp_bind.
    eapply (return_message_ok _ x _ s1 d m c); [exact Hi1|by rewrite lookup_insert_eq|]. intros d'. apply wp_bind.
    assert (running s1) as Hrun1 by by eapply after_running.
    eapply wp_mono; [apply (destroy_message_ok n e x _ s1 m c He Hi1 Hrun1); by rewrite lookup_insert_eq| |].
    + intros Hno [H1 H2]. apply Hno. destruct Ha1 as [[] Hs1]. split; lia.
    + intros _ s2 [Hi2 Ha2]. rewrite delete_insert_id in Hi2 by done. apply wp_ret. split; [done|].
      eapply (after_le _ (1 + 0)); [|lia]. by eapply after_trans.
  - destruct (Z.eqb_spec st STATUS_SUCCESS); [done|]. apply wp_ret. split; [done|]. by eapply after_le; [exact Ha1|lia].
Qed.
End Sys.
