(* ===== verification/KThreadLife.v ===== *)
(** * Replies, new threads and deleted threads keep the invariant *)

From S2P Require Import Prelude CMem CStringSearch World Libdx Process Loader KBase KThreads KThreadInv KThreadRuns KThreadOps KThreadSched KThreadSys.

Section Life.
Context `{environment} {memory : ample_memory}.
Implicit Types (x : list Z) (o : gmap Z message_c) (s : kernel) (e : reentry) (d : syscall_data).

(** The result of a call that returned in its own thread. *)
Definition returned x o s s' : Prop := inv x o s' /\ running s' /\ (listed s -> listed s').

Lemma after_returned x o k s s' : running s -> after None k s s' -> inv x o s' -> returned x o s s'.
Proof. intros Hr Ha Hi. split; [done|]. split; [by eapply after_running|]. intros. by eapply after_listed. Qed.

(** ** The rest of a blocking send *)

Lemma new_small_address src dst type id payload s m s' : memory_available s = true ->
  new_small_message src dst type id payload s = Ret (m, s') -> next_object s <> NULL -> m = next_object s.
Proof.
  intros Hmem. unfold new_small_message, construct_message, new_object, mbind, K_bind. rewrite Hmem. intros Hr Hn.
  destruct (Z.eqb_spec (next_object s) NULL); [done|]. cbn in Hr. destruct (add_reference src _) as [[[] s1]|]; [|done].
  destruct (add_reference dst s1) as [[[] s2]|]; [|done]. by injection Hr.
Qed.

Definition unsuspended s (t : thread_c) : kernel := with_threads s (<[current_thread s := with_suspended t None]> (threads s)).

Lemma unsuspended_facts s t : threads s !! current_thread s = Some t -> running s ->
  running (unsuspended s t) /\ idle (unsuspended s t) /\ (listed s -> listed (unsuspended s t)) /\
  slack (unsuspended s t) = slack s /\ base.size (threads (unsuspended s t)) = base.size (threads s).
Proof.
  intros E (t' & E' & He & Hs). rewrite E in E'. injection E' as <-. split; [|split; [|split; [|split]]].
  - exists (with_suspended t None). cbn. by rewrite lookup_insert_eq.
  - intros u Eu. cbn in Eu. rewrite lookup_insert_eq in Eu. by simplify_eq.
  - intros Hl i p u Ei Eu. cbn in Ei, Eu. destruct (decide (p = current_thread s)) as [->|Hne].
    + rewrite lookup_insert_eq in Eu. by simplify_eq.
    + rewrite lookup_insert_ne in Eu by done. by eapply Hl.
  - unfold slack, cleanup_backlog. cbn. rewrite (total_update _ _ _ t) by done. unfold has_ack at 2 3. cbn.
    destruct (decide (cleanup_thread s = current_thread s)) as [->|Hne].
    + rewrite lookup_insert_eq, E. cbn. lia.
    + rewrite lookup_insert_ne by done. lia.
  - cbn. by rewrite map_size_insert_Some by eauto.
Qed.

Lemma occurrences_live x y o s p : inv (x ++ p :: y) o s -> p <> NULL -> exists t, threads s !! p = Some t.
Proof.
  intros Hi Hp. apply (inv_live _ _ _ p Hi Hp). assert (pinned (x ++ p :: y) s p) as Hpin%pinned_counted; [|lia].
  right. right. left. apply elem_of_app. right. left.
Qed.

Lemma resumed_ok n e x o s t f : reentry_ok n e -> inv x o s -> running s ->
  threads s !! current_thread s = Some t -> suspended t = Some f ->
  wp (~ can_run n 1 s) (send_message_resumed e) s (fun '(st, m, from) s' => st = STATUS_SUCCESS /\ from = caller f /\ m <> NULL /\ o !! m = None /\
    after None 1 (unsuspended s t) s' /\
    exists c, inv (caller_refs from ++ x) (<[m := c]> o) s' /\ source c = recipient f /\ m_id c = request_id f).
Proof.
  intros He Hi Hrun Et Hf. destruct (unsuspended_facts s t Et Hrun) as (Hrun1 & Hidle1 & _ & Hsl & Hsz).
  unfold send_message_resumed. apply wp_bind, wp_gets, wp_bind, (wp_thread_at _ _ t); [done|]. rewrite Hf.
  apply wp_bind, wp_set_thread. fold (unsuspended s t). set (s1 := unsuspended s t) in *. apply wp_bind.
  pose proof (inv_resume _ _ _ _ _ _ Hi Et Hf) as Hi1. fold (unsuspended s t) in Hi1. fold s1 in Hi1.
  destruct (tok_frame _ _ _ _ _ _ (inv_threads _ _ _ Hi _ t Et) f Hf) as [_ G2 _ G4 _].
  pose proof Hrun as (t' & Et' & Hen & Hs). assert (t' = t) as -> by congruence.
  destruct (G2 Hs Hen) as (m0 & q0 & c0 & Hq0 & Em0 & Hsrc & Hmid).
  assert (forall u, threads s1 !! current_thread s1 = Some u -> message_queue u = m0 :: q0) as Hq1.
  { intros u Eu. cbn in Eu. rewrite lookup_insert_eq in Eu. by simplify_eq. }
  eapply wp_mono; [by apply (io_get_message_ok n e (frame_list f ++ x) o s1)| |].
  { intros Hno [H1 H2]. apply Hno. split; lia. }
  intros [st m] s2 (Ha2 & [(_ & _ & u & Eu & Hq)|[(k & c1 & c & u & q & Hr & Eu & Hq & Em & C1 & C2 & _ & _ & Hk & Hfree & Hi2 & _)|(Hst & Hm & Hi2 & _)]]).
  - specialize (Hq1 u Eu). congruence.
  - injection Hr as -> ->. specialize (Hq1 u Eu). assert (k = m0) as -> by congruence. change (msgs s1) with (msgs s) in Em.
    assert (c1 = c0) as -> by congruence. cbn [negb STATUS_SUCCESS Z.eqb]. apply wp_bind, wp_ret, wp_bind.
    assert (running s2) as Hrun2 by by eapply after_running.
    eapply wp_mono; [apply (remove_reference_ok n e (caller_refs (caller f) ++ x) _ s2 (recipient f) He Hi2 Hrun2 G4)| |].
    { intros Hno [H1 H2]. apply Hno. destruct Ha2 as [[] Hs2]. split; lia. }
    intros _ s3 [Hi3 Ha3]. apply wp_ret. split; [done|]. split; [done|]. split; [done|]. split; [done|].
    split; [change 1 with (1 + 0); by eapply after_trans|]. exists c. split; [done|]. split; congruence.
  - cbn in Hst. destruct (Z.eqb_spec st STATUS_SUCCESS); [done|]. cbn [negb]. apply wp_bind, wp_bind. unfold abort_send_message.
    apply wp_bind, wp_modify. set (s3 := with_counters s2 _). assert (inv (frame_list f ++ x) o s3) as Hi3 by by apply inv_with_counters.
    assert (after None 1 s1 s3) as Ha3 by (change 1 with (1 + 0); eapply after_trans; [exact Ha2|]; by apply after_same).
    assert (current_thread s3 = current_thread s) as Hcur by (destruct Ha3 as [[] _]; done). apply wp_bind.
    assert (exists u, threads s3 !! recipient f = Some u) as Hrec by (by apply (occurrences_live [] (caller_refs (caller f) ++ x) o s3)).
    destruct (inv_current _ _ _ Hi3) as [tc Ec]. rewrite Hcur in Ec. destruct (inv_fresh _ _ _ Hi3) as (F1 & _).
    eapply wp_mono; [apply (wp_and False); [apply (wp_new_small False (frame_list f ++ x) o s3 (recipient f) (current_thread s)); [done|done|by eexists]|]|done|].
    { intros a sa Hrun'. exact (new_small_address _ _ _ _ _ _ _ _ (memory_never_fails _) Hrun' ltac:(unfold NULL; lia)). }
    intros k s4 [[[-> ->]|(c & (Hk & Hfree & Hi4 & Ha4) & ->)] Haddr]; [unfold NULL in Haddr; lia|].
    set (c := mkMsg _ _ _ _ _ _ _ _ _) in *. destruct (Z.eqb_spec k NULL) as [|_]; [done|]. apply wp_ret. cbn beta.
    apply wp_bind, wp_assert; [by destruct (Z.eqb_spec k NULL)|]. apply wp_ret, wp_bind.
    assert (after None 1 s1 s4) as Ha04 by (change 1 with (1 + 0); by eapply after_trans). assert (running s4) as Hrun4 by by eapply after_running.
    eapply wp_mono; [apply (remove_reference_ok n e (caller_refs (caller f) ++ x) _ s4 (recipient f) He Hi4 Hrun4 G4)| |].
    { intros Hno [H1 H2]. apply Hno. destruct Ha04 as [[] Hs4]. split; lia. }
    intros _ s5 [Hi5 Ha5]. apply wp_ret. split; [done|]. split; [done|]. split; [done|]. split; [done|].
    split; [change 1 with (1 + 0); by eapply after_trans|]. exists c. done.
Qed.

Lemma resume_send_ok n e x o s t f d : reentry_ok n e -> inv x o s -> running s ->
  threads s !! current_thread s = Some t -> suspended t = Some f ->
  wp (~ can_run n 1 s) (resume_send e d) s (fun _ s' => returned x o s s').
Proof.
  intros He Hi Hrun Et Hf. destruct (unsuspended_facts s t Et Hrun) as (Hrun1 & Hidle1 & Hl1 & Hsl & Hsz).
  unfold resume_send. apply wp_bind. eapply wp_mono; [by apply (resumed_ok n e x o s t f)|done|].
  intros [[st m] from] s1 (-> & -> & Hm & Hfree & Ha1 & c & Hi1 & Hsrc & Hid). cbn beta iota.
  assert (running s1) as Hrun2 by by eapply after_running.
  assert (forall k s', after None k s1 s' -> inv x o s' -> returned x o s s') as Hdone.
  { intros k s' Ha' Hi'. destruct (after_returned x o (1 + k) (unsuspended s t) s' Hrun1) as (R1 & R2 & R3); [by eapply after_trans|done|].
    split; [done|]. split; [done|]. auto. }
  assert (forall y, inv y (<[m := c]> o) s1 -> wp (~ can_run n 1 s) (destroy_message e m) s1 (fun _ s' => inv y o s' /\ after None 0 s1 s')) as Hdel.
  { intros y Hy. eapply wp_mono; [apply (destroy_message_ok n e y _ s1 m c He Hy Hrun2); by rewrite lookup_insert_eq| |].
    - intros Hno [H1 H2]. apply Hno. destruct Ha1 as [[] Hs1]. split; lia.
    - intros _ s2 [Hi2 Ha2]. by rewrite delete_insert_id in Hi2. }
  destruct (caller f) as [p|] eqn:Hc; cbn [caller_refs app] in *.
  - apply wp_bind, wp_assert; [by destruct (Z.eqb_spec m NULL)|]. apply wp_bind.
    eapply (return_message_ok _ (p :: x) _ s1 d m c); [exact Hi1|by rewrite lookup_insert_eq|]. intros d'. apply wp_bind.
    eapply wp_mono; [by apply Hdel|done|]. intros _ s2 [Hi2 Ha2]. apply wp_bind. assert (running s2) as Hrun3 by by eapply after_running.
    pose proof (frame_caller _ _ _ _ (tok_frame _ _ _ _ _ _ (inv_threads _ _ _ Hi _ t Et) f Hf) p Hc) as Hp.
    eapply wp_mono; [by apply (remove_reference_ok n e x o s2 p)| |].
    { intros Hno [H1 H2]. apply Hno. destruct Ha1 as [[] Hs1], Ha2 as [[] Hs2]. split; lia. }
    intros _ s3 [Hi3 Ha3]. apply wp_ret. eapply (Hdone (0 + 0)); [by eapply after_trans|done].
  - destruct (inv_owned _ _ _ Hi1 m c) as (Em & _); [by rewrite lookup_insert_eq|].
    apply wp_bind, (wp_message_at _ _ c); [done|]. apply wp_bind, wp_assert.
    { apply Z.eqb_eq. unfold read_payload_size. rewrite (inv_small _ _ _ Hi1 m c Em); [done|].
      destruct (tok_frame _ _ _ _ _ _ (inv_threads _ _ _ Hi _ t Et) f Hf) as [_ _ G3 _ _]. rewrite Hsrc, (G3 Hc). by destruct Ha1 as [[] _]. }
    apply wp_bind. eapply wp_mono; [by apply Hdel|done|]. intros _ s2 [Hi2 Ha2]. apply wp_ret. by eapply Hdone.
Qed.

(** ** New threads *)

Lemma inv_with_next_thread_id x o s v : inv x o s -> next_thread_id s <= v -> inv x o (with_next_thread_id s v).
Proof. intros [] Hv. split; cbn; try done. intros p t E. destruct (inv_next_id p t E); [left; lia|by right]. Qed.

Lemma free_id x o s : inv x o s -> next_thread_id s < THREAD_ID_NULL -> thread_table s !! next_thread_id s = None.
Proof.
  intros Hi Hlt. destruct (thread_table s !! next_thread_id s) as [p|] eqn:E; [|done].
  destruct (inv_table _ _ _ Hi _ _ E) as (_ & t & Et & Hid). destruct (inv_next_id _ _ _ Hi p t Et); lia.
Qed.

Lemma create_thread_ok ok x o s mask : inv x o s -> running s -> 0 <= next_thread_id s < THREAD_ID_NULL ->
  wp ok (manager_create_thread THREAD_ID_AUTO_ALLOCATE mask) s (fun p s' =>
    (p = NULL /\ returned x o s s') \/
    (p <> NULL /\ returned (p :: x) o s s' /\ exists creator t, threads s !! current_thread s = Some creator /\
      threads s' !! p = Some t /\ threads s !! p = None /\ t_id t = next_thread_id s /\ thread_table s' = <[t_id t := p]> (thread_table s) /\
      has_capability CAPABILITY_CREATE_THREAD creator = true /\ capability_mask t = Z.land mask (capability_mask creator))).
Proof.
  intros Hi Hrun Hid. pose proof Hrun as (tc & Ec & Hce & Hcs). unfold manager_create_thread. ksteps.
  assert (returned x o s s) as Hsame by (split; [done|]; split; [done|auto]).
  destruct (has_capability CAPABILITY_CREATE_THREAD tc) eqn:Hcap; cbn [negb]; [|apply wp_ret; by left].
  pose proof (free_id x o s Hi ltac:(lia)) as Hfree. set (id := next_thread_id s) in *.
  assert (u32 (id + 1) = id + 1) as Hu. { unfold u32. apply Z.mod_small. change THREAD_ID_NULL with 4294967040 in Hid. lia. }
  assert (allocate_thread_id THREAD_ID_AUTO_ALLOCATE s = Ret (Some id, with_next_thread_id s (id + 1))) as Ealloc.
  { unfold allocate_thread_id. cbn [THREAD_ID_AUTO_ALLOCATE THREAD_ID_INVALID]. rewrite Z.eqb_refl.
    assert (free_thread_id (base.size (thread_table s)) (thread_table s) (next_thread_id s) = Ret id) as ->.
    { destruct (base.size (thread_table s)); cbn [free_thread_id]; rewrite bool_decide_false; try done; rewrite (Hfree : thread_table s !! next_thread_id s = None); by intros []. }
    by rewrite Hu. }
  apply wp_bind. eapply wp_run; [exact Ealloc|]. set (s1 := with_next_thread_id s (id + 1)). cbn beta iota.
  assert (inv x o s1) as Hi1 by (apply inv_with_next_thread_id; [done|]; unfold id; lia).
  assert (returned x o s s1) as Hs1 by (split; [done|]; split; [exact Hrun|done]).
  ksteps. apply wp_assert; [rewrite bool_decide_false; [done|]; cbn; rewrite Hfree; by intros []|]. ksteps.
  destruct (allocate_large_payload_block s1 =? NULL); [apply wp_ret; by left|]. apply wp_bind. unfold wp at 1, new_object.
  destruct (memory_available s1); [|apply wp_ret; by left]. destruct (inv_fresh _ _ _ Hi) as (F1 & F2 & _).
  destruct (Z.eqb_spec (next_object s1) NULL) as [Hn|Hn]; [cbn in Hn; unfold NULL in Hn; lia|].
  assert (threads s !! next_object s = None) as Hnone.
  { destruct (threads s !! next_object s) as [u|] eqn:E; [|done]. specialize (F2 _ _ E). lia. }
  ksteps. eapply wp_add_reference_raw; [cbn; by rewrite lookup_insert_eq|cbn; lia|]. ksteps. right. split; [done|]. cbn.
  set (m' := Z.land mask (capability_mask tc)).
  pose proof (inv_create x o s id m' Hi Hfree eq_refl ltac:(lia)) as Hi2. unfold with_table, with_threads in *. cbn in *.
  rewrite !insert_insert_eq. split.
  - split; [exact Hi2|]. split.
    + exists tc. cbn. rewrite lookup_insert_ne by congruence. done.
    + intros Hl i p u Ei Eu. cbn in Ei, Eu. destruct (decide (p = next_object s)) as [->|Hne].
      * rewrite lookup_insert_eq in Eu. by simplify_eq.
      * rewrite lookup_insert_ne in Eu by done. destruct (decide (i = id)) as [->|Hi']; [rewrite lookup_insert_eq in Ei; congruence|].
        rewrite lookup_insert_ne in Ei by done. by eapply Hl.
  - eexists tc, _. split; [done|]. cbn. rewrite lookup_insert_eq. split; [done|]. done.
Qed.

Lemma syscall_create_ok ok e x o s d : inv x o s -> running s -> 0 <= next_thread_id s < THREAD_ID_NULL ->
  wp ok (syscall_create_thread e d) s (fun _ s' => returned x o s s').
Proof.
  intros Hi Hrun Hid. unfold syscall_create_thread. ksteps. assert (returned x o s s) as Hsame by (split; [done|]; split; [done|auto]).
  destruct (find_address_space s (data0 d) =? NULL); cbn [negb]; [by apply wp_ret|]. apply wp_bind.
  eapply wp_mono; [by apply (create_thread_ok False x o s)|done|].
  intros p s1 [[-> Hr]|(Hp & (Hi1 & Hrun1 & Hl1) & c & t & _ & Et & _ & _ & Htab & _)]; [by apply wp_ret|].
  destruct (Z.eqb_spec p NULL); [done|]. cbn [negb]. apply wp_bind, (wp_thread_at _ _ t); [done|]. apply wp_bind.
  eapply wp_mono; [apply (wp_remove_pinned False e x o s1 p Hi1 Hp)|done|].
  - right. right. right. exists (t_id t). rewrite Htab. apply lookup_insert_eq.
  - intros _ s2 [Hi2 Ha2]. apply wp_ret. destruct (after_returned x o 0 s1 s2 Hrun1 Ha2 Hi2) as (R1 & R2 & R3). split; [done|]. split; [done|]. auto.
Qed.

(** ** Deleted threads *)

Lemma manager_delete_ok n e x o s p t acknowledgement : reentry_ok n e -> inv x o s -> running s -> threads s !! p = Some t ->
  p ∈ x -> p <> current_thread s -> p <> cleanup_thread s -> thread_table s !! t_id t = Some p -> ack_ok o t acknowledgement ->
  wp (~ can_run n (Z.of_nat (length (held t)) + 1) s) (manager_delete_thread e p acknowledgement) s (fun _ s' =>
    returned x (without o acknowledgement) s s' /\ thread_table s' = delete (t_id t) (thread_table s) /\
    (base.size (threads s') <= base.size (threads s))%nat /\ slack s - (Z.of_nat (length (held t)) + 1) <= slack s').
Proof.
  intros He Hi Hrun Et Hpx Hcur Hclean Htab Hack. pose proof Hrun as (tc & Ec & Hce & Hcs).
  unfold manager_delete_thread. ksteps. eapply (wp_same_thread_inv _ x o p (current_thread s) s _ Hi); [by eexists|by eexists|].
  rewrite bool_decide_false by done. apply wp_bind, wp_assert; [done|]. apply wp_bind.
  eapply wp_mono; [by apply (delete_messages_ok n e x o s p t acknowledgement)|done|]. intros _ s1 (Hi1 & P & Ha1).
  set (s0 := with_pending _ P) in Ha1.
  assert (slack s - 1 <= slack s0) as Hsl0.
  { unfold slack, cleanup_backlog, s0. cbn. rewrite (total_update _ _ _ t) by done. rewrite lookup_insert_ne by done.
    assert (has_ack (marked t acknowledgement) <= 1) by (unfold has_ack; by destruct (_ =? _)).
    assert (0 <= has_ack t) by (unfold has_ack; by destruct (_ =? _)). lia. }
  assert (base.size (threads s0) = base.size (threads s)) as Hsz0 by (cbn; by rewrite map_size_insert_Some by eauto).
  assert (running s0) as Hrun0 by (exists tc; cbn; by rewrite lookup_insert_ne).
  assert (running s1) as Hrun1 by by eapply after_running.
  assert (pinned x s1 p) as Hpin by (right; right; by left). assert (p <> NULL) as Hp by exact (inv_thread_ne _ _ _ _ _ Hi Et).
  destruct (inv_live x _ s1 p Hi1 Hp) as [t1 Et1]; [pose proof (pinned_counted _ _ _ Hpin); lia|].
  pose proof Ha1 as [St Hsl1]. destruct St. destruct (stable_threads _ _ Et1) as (t0 & Et0 & Hid & Hen & _).
  cbn in Et0. rewrite lookup_insert_eq in Et0. injection Et0 as <-.
  assert (t_id t1 = t_id t) as Hid1 by (rewrite Hid; unfold marked; by case_decide).
  assert (mailbox_enabled t1 = false) as Hen1 by (rewrite Hen; unfold marked; by case_decide).
  assert (thread_table s1 !! t_id t1 = Some p) as Htab1 by (by rewrite stable_table, Hid1).
  apply wp_bind, (wp_thread_at _ _ t1); [done|]. ksteps. apply wp_assert; [rewrite bool_decide_true; [done|by rewrite Htab1]|]. ksteps.
  pose proof (inv_unlist _ _ _ _ _ Hi1 Et1 Hen1 Htab1) as Hi2. set (s2 := with_table s1 _) in *.
  assert (running s2) as Hrun2 by exact Hrun1.
  eapply wp_mono; [apply (remove_reference_ok n e x _ s2 p He Hi2 Hrun2 Hp)| |].
  { intros Hno [H1 H2]. apply Hno. split; [|change (slack s2) with (slack s1)]; cbn in *; lia. }
  intros _ s3 [Hi3 Ha3]. split; [|split; [|split]].
  - split; [done|]. split; [by eapply after_running|]. intros Hl. eapply after_listed; [exact Ha3|].
    intros i q u Ei Eu. cbn in Ei, Eu. apply lookup_delete_Some in Ei as [Hne Ei]. rewrite stable_table in Ei.
    destruct (stable_threads _ _ Eu) as (u0 & Eu0 & _ & -> & _). cbn in Eu0, Ei.
    destruct (decide (q = p)) as [->|Hqp].
    + destruct (inv_table _ _ _ Hi i p Ei) as (_ & t' & Et' & Hti). rewrite Et in Et'. simplify_eq.
    + rewrite lookup_insert_ne in Eu0 by done. by eapply Hl.
  - destruct Ha3 as [[St1 St2 St3 St4 _ _ _] _]. rewrite St4. cbn. by rewrite stable_table, Hid1.
  - destruct Ha3 as [[_ _ _ _ _ St6 _] _]. cbn in St6. lia.
  - destruct Ha3 as [_ Hs3]. change (slack s2) with (slack s1) in Hs3. lia.
Qed.

(** The thread that a deletion request names, and whether its sender may ask for it. *)
Definition victim (from : thread_c) (c : message_c) : Z :=
  if u32 (read_payload c) =? THREAD_ID_LOOPBACK then t_id from else u32 (read_payload c).
Definition permitted (from : thread_c) (c : message_c) : bool :=
  has_capability CAPABILITY_DELETE_THREAD from || (t_id from =? u32 (read_payload c)) || (t_id from =? THREAD_ID_LOOPBACK).

(** A request that does not name the cleanup thread itself. *)
Definition deletable s (c : message_c) : Prop :=
  forall from t, threads s !! source c = Some from -> threads s !! cleanup_thread s = Some t ->
    victim from c <> t_id t /\ victim from c <> THREAD_ID_LOOPBACK.

(** Fuel, and room for the replies to every message that a deletion can abort. *)
Definition can_clean (n : nat) s : Prop := (base.size (threads s) + 2 <= n)%nat /\
  1 <= slack s /\ forall p t, threads s !! p = Some t -> Z.of_nat (length (held t)) + 1 <= slack s.

Definition cleaned n x o s s' : Prop := returned x o s s' /\ (can_clean n s -> can_delete n s').

Lemma same_core_held t t' : same_core t t' -> held t' = held t.
Proof. intros (_ & _ & _ & _ & Hb & _ & _ & Hq & _). unfold held. by rewrite Hb, Hq. Qed.

(** From the acknowledgement on. *)
Lemma finish_delete n e x o s1 p t a : reentry_ok n e -> inv (p :: x) o s1 -> running s1 -> listed s1 -> current_thread s1 = cleanup_thread s1 ->
  threads s1 !! p = Some t -> p <> cleanup_thread s1 -> thread_table s1 !! t_id t = Some p ->
  (a = NULL \/ exists c, o !! a = Some c /\ is_blocking c = false /\ m_class c = SmallMessage) ->
  wp (~ can_run n (Z.of_nat (length (held t)) + 1) s1) (manager_delete_thread e p a;; remove_reference e p) s1 (fun _ s' =>
    returned x (without o a) s1 s' /\ thread_table s' = delete (t_id t) (thread_table s1) /\
    (can_run n (Z.of_nat (length (held t)) + 1) s1 -> can_delete n s')).
Proof.
  intros He Hi Hrun Hl Hcur Et Hne Htab Ha. pose proof (Hl _ _ _ Htab Et) as Hen. apply wp_bind.
  eapply wp_mono; [apply (manager_delete_ok n e (p :: x) o s1 p t a He Hi Hrun Et)|done|].
  - by left.
  - congruence.
  - done.
  - done.
  - destruct Ha as [->|Hc]; [by left|]. right. split; [|done]. destruct (decide (deletion_acknowledgement t = NULL)) as [|Hd]; [done|].
    pose proof (tok_deleted _ _ _ _ _ _ (inv_threads _ _ _ Hi p t Et) Hd). congruence.
  - intros _ s2 ((Hi2 & Hrun2 & Hl2) & Htab2 & Hsz & Hsl).
    eapply wp_mono; [apply (remove_reference_ok n e x _ s2 p He Hi2 Hrun2); exact (inv_thread_ne _ _ _ _ _ Hi Et)| |].
    + intros Hno [H1 H2]. apply Hno. split; lia.
    + intros _ s3 [Hi3 Ha3]. destruct (after_returned x _ 0 s2 s3 Hrun2 Ha3 Hi3) as (R1 & R2 & R3).
      split; [split; [done|]; split; [done|]; auto|]. destruct Ha3 as [[] Hs3]. split; [congruence|]. intros [H1 H2]. split; lia.
Qed.

Lemma handle_delete_ok n e x o s m c from : reentry_ok n e -> inv x o s -> running s -> listed s -> current_thread s = cleanup_thread s ->
  o !! m = Some c -> m_type c = MESSAGE_TYPE_DELETE_THREAD -> deletable s c -> threads s !! source c = Some from ->
  wp (~ can_clean n s) (handle_delete_thread e m) s (fun _ s' => cleaned n x o s s' /\
    thread_table s' = if permitted from c then delete (victim from c) (thread_table s) else thread_table s).
Proof.
  intros He Hi Hrun Hl Hcur Eo Htype Hdel Ef. destruct (inv_owned _ _ _ Hi m c Eo) as (Em & _).
  destruct (inv_message_threads _ _ _ _ _ Hi Em) as [_ Hd]. unfold handle_delete_thread. apply wp_bind, (wp_message_at _ _ c); [done|].
  apply wp_bind, wp_assert; [by apply Z.eqb_eq|]. apply wp_bind, (wp_thread_at _ _ from); [done|].
  assert (forall status, wp (~ can_clean n s) (put_response e c MESSAGE_TYPE_ABORT status;; mret tt) s
    (fun _ s' => cleaned n x o s s' /\ thread_table s' = thread_table s)) as Hrefuse.
  { intros status. apply wp_bind. eapply wp_mono; [by apply (put_response_ok n e x o s m c)| |].
    - intros Hno (H1 & H2 & _). by apply Hno.
    - intros _ s1 [Hi1 Ha1]. apply wp_ret. split; [split; [by eapply after_returned|]|by destruct Ha1 as [[] _]].
      intros (H1 & H2 & _). destruct Ha1 as [[] Hs1]. split; lia. }
  assert (permitted from c = negb (negb (has_capability CAPABILITY_DELETE_THREAD from) && negb (t_id from =? u32 (read_payload c)) &&
    negb (t_id from =? THREAD_ID_LOOPBACK))) as ->.
  { unfold permitted. by rewrite !negb_andb, !negb_involutive. }
  destruct (_ && _); cbn [negb]; [apply Hrefuse|].
  change (if u32 (read_payload c) =? THREAD_ID_LOOPBACK then t_id from else u32 (read_payload c)) with (victim from c).
  apply wp_bind. eapply wp_mono; [by apply (find_thread_ok False x o s (victim from c))|done|].
  intros p s1 [(-> & -> & Hno)|(t & Hp & Et & -> & Hi1 & Ha1 & _ & Hwhich)].
  { rewrite delete_id by done. apply Hrefuse. }
  destruct (inv_cleanup _ _ _ Hi) as [tc Ec]. destruct (Hdel from tc Ef Ec) as [Hv1 Hv2].
  assert (p <> cleanup_thread s) as Hpc. { intros ->. assert (t = tc) as -> by congruence.
    destruct Hwhich as [[_ [?|?]]|Hw]; [done|done|]. destruct (inv_table _ _ _ Hi _ _ Hw) as (_ & t' & Et' & Hid). congruence. }
  assert (thread_table s !! victim from c = Some p) as Htab by (destruct Hwhich as [[-> _]|?]; [by rewrite Hcur in Hpc|done]).
  assert (t_id t = victim from c) as Hid by (destruct (inv_table _ _ _ Hi _ _ Htab) as (_ & t' & Et' & <-); congruence).
  destruct (Z.eqb_spec p NULL); [done|]. set (s1 := add_ref s p t) in *.
  assert (running s1) as Hrun1 by by eapply after_running. pose proof (after_listed _ _ _ _ Ha1 Hl) as Hl1. apply wp_bind.
  assert (is_Some (threads s1 !! source c)) as Hsrc.
  { destruct (inv_owned _ _ _ Hi1 m c Eo) as (Em1 & _). by destruct (inv_message_threads _ _ _ _ _ Hi1 Em1) as [[ts Es] _]; exists ts. }
  assert (threads s1 !! p = Some (with_references t (reference_count t + 1))) as Et1 by (cbn; by rewrite lookup_insert_eq).
  eapply (wp_same_thread_inv _ (p :: x) o (source c) p s1 _ Hi1); [done|by eexists|]. apply wp_bind.
  apply (wp_mono False _ _ _ (fun a s2 => kept s1 s2 /\ after None 0 s1 s2 /\ ((a = NULL /\ inv (p :: x) o s2) \/
    exists k, a <> NULL /\ o !! a = None /\ is_blocking k = false /\ m_class k = SmallMessage /\ inv (p :: x) (<[a := k]> o) s2))); [|done|].
  { destruct (_ && _).
    - eapply wp_mono; [apply (wp_and False); [apply (wp_new_small False (p :: x) o s1); [done| |by destruct Hsrc; eexists]|apply new_small_kept]|done|].
      + destruct Hd as [td Ed]. destruct (decide (destination c = p)) as [->|Hdp]; [by eexists|]. exists td. cbn. by rewrite lookup_insert_ne.
      + intros a s2 [[[-> ->]|(k & (Ha & Hfree & Hi2 & Ha2) & ->)] Hk]; (split; [done|]).
        * split; [apply after_refl|]. by left.
        * split; [done|]. right. eexists. split; [done|]. split; [done|]. split; [|split; [|exact Hi2]]; done.
    - apply wp_ret. split; [intros q u Eu; exists u; by repeat split|]. split; [apply after_refl|]. by left. }
  intros a s2 (Hk & Ha2 & Hack). pose proof (after_trans _ _ _ _ _ _ Ha1 Ha2) as Ha12.
  assert (exists o', inv (p :: x) o' s2 /\ without o' a = o /\ (a = NULL \/ exists k, o' !! a = Some k /\ is_blocking k = false /\ m_class k = SmallMessage))
    as (o' & Hi2 & Ho' & Hack').
  { destruct Hack as [[-> Hi2]|(k & Ha & Hfree & Hk1 & Hk2 & Hi2)].
    - exists o. unfold without. rewrite decide_True by done. split; [done|]. split; [done|]. by left.
    - eexists. split; [exact Hi2|]. unfold without. rewrite decide_False by done. split; [by apply delete_insert_id|]. right.
      exists k. by rewrite lookup_insert_eq. }
  destruct (inv_live (p :: x) o' s2 p Hi2 Hp) as [t2 Et2]; [rewrite counted_cons; pose proof (counted_parts x s2 p); unfold counted; lia|].
  destruct (Hk p t2 Et2) as (t1 & Et1' & Hcore). assert (t1 = with_references t (reference_count t + 1)) as -> by congruence.
  pose proof (same_core_held _ _ Hcore) as Hheld. destruct Hcore as (Hid2 & _). cbn in Hid2.
  assert (running s2) as Hrun2 by by eapply after_running. pose proof (after_listed _ _ _ _ Ha2 Hl1) as Hl2.
  pose proof Ha12 as [St Hsl]. destruct St.
  change (held (with_references t (reference_count t + 1))) with (held t) in Hheld.
  eapply wp_mono; [apply (finish_delete n e x o' s2 p t2 a He Hi2 Hrun2 Hl2); try congruence| |].
  - intros Hno (H1 & H2 & H3). apply Hno. specialize (H3 p t Et). split; rewrite ?Hheld; lia.
  - intros r s3 ((R1 & R2 & R3) & Ht3 & Hcan). rewrite Ho' in R1. split; [split|].
    + split; [done|]. split; [done|]. intros _. by apply R3.
    + intros (H1 & H2 & H3). specialize (H3 p t Et). apply Hcan. split; rewrite ?Hheld; lia.
    + by rewrite Ht3, stable_table, Hid2, Hid.
Qed.

(** ** The loop of the cleanup thread *)

(** The next message for the cleanup thread is one that its loop knows: it
    stops the kernel on any other type. *)
Definition proper_request s : Prop :=
  forall t m q c, threads s !! cleanup_thread s = Some t -> message_queue t = m :: q -> msgs s !! m = Some c ->
    m_type c = MESSAGE_TYPE_NULL \/ (m_type c = MESSAGE_TYPE_DELETE_THREAD /\ m_class c = SmallMessage /\ deletable s c).

Lemma can_clean_pop n s s1 t m q : threads s !! current_thread s = Some t -> message_queue t = m :: q -> current_thread s = cleanup_thread s ->
  cleanup_thread s1 = cleanup_thread s -> threads s1 = <[current_thread s := with_queue t q]> (threads s) -> can_clean n s -> can_clean n s1.
Proof.
  intros Et Hq Hcur Hcl Hth (H1 & H2 & H3).
  assert (slack s <= slack s1) as Hsl.
  { unfold slack, cleanup_backlog. rewrite Hcl, Hth, <- Hcur, Et, lookup_insert_eq, (total_update _ _ _ t) by done. cbn. rewrite Hq. cbn.
    change (has_ack (with_queue t q)) with (has_ack t). lia. }
  split; [rewrite Hth, map_size_insert_Some by eauto; done|]. split; [lia|]. intros p u Eu. rewrite Hth in Eu.
  destruct (decide (p = current_thread s)) as [->|Hne].
  - rewrite lookup_insert_eq in Eu. injection Eu as <-. specialize (H3 _ t Et). unfold held in *. rewrite Hq in H3. cbn in *. lia.
  - rewrite lookup_insert_ne in Eu by done. specialize (H3 _ u Eu). lia.
Qed.

Lemma deletable_pop s s1 t q c : threads s !! current_thread s = Some t -> current_thread s = cleanup_thread s ->
  cleanup_thread s1 = cleanup_thread s -> threads s1 = <[current_thread s := with_queue t q]> (threads s) -> deletable s c -> deletable s1 c.
Proof.
  intros Et Hcur Hcl Hth Hd from u Ef Eu. rewrite Hth in Ef, Eu. rewrite Hcl, <- Hcur, lookup_insert_eq in Eu. injection Eu as <-.
  rewrite Hcur in Et. destruct (decide (source c = current_thread s)) as [Hs|Hs].
  - rewrite Hs, lookup_insert_eq in Ef. injection Ef as <-. rewrite Hcur in Hs. rewrite <- Hs in Et. rewrite Hs in *. exact (Hd t t ltac:(congruence) Et).
  - rewrite lookup_insert_ne in Ef by done. exact (Hd from t Ef Et).
Qed.

Lemma cleanup_pass_ok n e x s random : reentry_ok n e -> inv x ∅ s -> running s -> idle s -> listed s -> current_thread s = cleanup_thread s ->
  proper_request s ->
  wp (~ can_clean n s) (cleanup_thread_pass e random) s (fun _ s' => inv x ∅ s' /\ ready s' /\ listed s' /\
    forall t m q c from, threads s !! current_thread s = Some t -> message_queue t = m :: q -> msgs s !! m = Some c -> m_class c = SmallMessage ->
      m_type c = MESSAGE_TYPE_DELETE_THREAD -> threads s !! source c = Some from ->
      thread_table s' = if permitted from c then delete (victim from c) (thread_table s) else thread_table s).
Proof.
  intros He Hi Hrun Hidle Hl Hcur Hreq. unfold cleanup_thread_pass. apply wp_bind.
  eapply wp_mono; [by apply (io_receive_ok n e x ∅ s random)| |].
  { intros Hno (H1 & H2 & _). by apply Hno. }
  intros [[st m]|] s1 H1.
  2: { apply wp_ret. destruct H1 as [(R1 & R2 & R3 & _) Hno]. split; [done|]. split; [done|]. split; [auto|].
       intros t m q c from Et Hq Em Hsm. by destruct (Hno t m q c Et Hq Em). }
  destruct H1 as (Ha1 & [(-> & c & t & q & c0 & Hm & Hfree & Hi1 & Et & Hq & Em & Hsrc & Hty & Hcl & Hdest & _ & Hsmall & Hth)|(Hst & Hi1 & Hno)]).
  2: { destruct (Z.eqb_spec st STATUS_SUCCESS); [done|]. cbn [negb]. apply wp_ret. destruct (after_returned _ _ _ _ _ Hrun Ha1 Hi1) as (R1 & R2 & R3).
       split; [done|]. split; [by apply running_ready|]. split; [auto|].
       intros t m' q c from Et Hq Em Hsm. by destruct (Hno t m' q c Et Hq Em). }
  cbn [negb STATUS_SUCCESS Z.eqb]. apply wp_bind, wp_assert; [by destruct (Z.eqb_spec m NULL)|].
  destruct (inv_owned _ _ _ Hi1 m c) as (Em1 & _); [by rewrite lookup_insert_eq|]. apply wp_bind, (wp_message_at _ _ c); [done|].
  apply wp_bind, wp_gets, wp_bind. pose proof Ha1 as [St Hsl1]. destruct St.
  destruct (held_in _ _ _ _ _ m Hi Et) as (_ & c0' & Em' & Hd & _); [unfold held; rewrite Hq; left|].
  assert (c0' = c0) as -> by congruence. destruct (inv_cleanup _ _ _ Hi1) as [tc Ec].
  eapply (wp_same_thread_inv _ x _ (destination c) (cleanup_thread s1) s1 _ Hi1); [exists tc; by rewrite Hdest, Hd, Hcur, <- stable_cleanup|by eexists|].
  apply wp_bind, wp_assert; [rewrite bool_decide_true; [done|]; congruence|].
  assert (running s1) as Hrun1 by by eapply after_running. pose proof (after_listed _ _ _ _ Ha1 Hl) as Hl1.
  destruct (inv_message_threads _ _ _ _ _ Hi1 Em1) as [[from Ef] _].
  assert (can_clean n s -> can_clean n s1) as Hcan by (intros; by eapply can_clean_pop).
  assert (forall from0, threads s !! source c0 = Some from0 -> t_id from = t_id from0 /\ capability_mask from = capability_mask from0) as Hfrom.
  { intros from0 Ef0. rewrite <- Hsrc in Ef0. destruct (stable_threads _ _ Ef) as (f' & Ef' & Hid & _ & Hcap & _). assert (f' = from0) as -> by congruence. done. }
  apply wp_bind. apply (wp_mono (~ can_clean n s) _ _ _ (fun _ s' => cleaned n x (<[m := c]> ∅) s1 s' /\
    (m_type c = MESSAGE_TYPE_DELETE_THREAD -> thread_table s' = if permitted from c then delete (victim from c) (thread_table s) else thread_table s))); [|done|].
  - pose proof Et as Et0. rewrite Hcur in Et. destruct (Hreq t m q c0 Et Hq Em) as [Hnull|(Hdel & Hsm & Hdt)].
    + rewrite Hty, Hnull. apply wp_ret. split; [|done]. split; [split; [done|auto]|]. intros (C1 & C2 & _). split; [done|lia].
    + rewrite Hty, Hdel. cbn [Z.eqb]. rewrite Z.eqb_refl. specialize (Hsmall Hsm) as ->.
      eapply wp_mono; [apply (handle_delete_ok n e x _ s1 m c0 from He Hi1 Hrun1 Hl1)| |]; [congruence|by rewrite lookup_insert_eq|done| |done| |].
      * by eapply deletable_pop.
      * auto.
      * intros ? s2 [H2 H3]. rewrite stable_table in H3. split; [done|auto].
  - intros _ s2 [[(Hi2 & Hrun2 & Hl2) Hcan2] Htab].
    eapply wp_mono; [apply (destroy_message_ok n e x _ s2 m c He Hi2 Hrun2); by rewrite lookup_insert_eq| |].
    + intros Hno Hyes. apply Hno. auto.
    + intros _ s3 [Hi3 Ha3]. rewrite delete_insert_id in Hi3 by done. destruct (after_returned _ _ _ _ _ Hrun2 Ha3 Hi3) as (R1 & R2 & R3).
      split; [done|]. split; [by apply running_ready|]. split; [auto|].
      intros t' m' q' c' from' Et' Hq' Ec' Hsm' Ht' Ef'. assert (t' = t) as -> by congruence.
      rewrite Hq in Hq'. injection Hq' as <- <-. assert (c' = c0) as -> by congruence. specialize (Hsmall Hsm') as ->.
      destruct Ha3 as [[_ _ _ St4 _ _ _] _]. rewrite St4, (Htab Ht'). destruct (Hfrom _ Ef') as [F1 F2].
      unfold permitted, victim, has_capability. by rewrite F1, F2.
Qed.
End Life.
