(* ===== verification/KThreadThms.v ===== *)
(** * Kernel threads and messages: the machine and its theorems

    The operations that a thread, the clock or the cleanup thread can perform,
    the states that are reachable from the boot of the thread manager, and what
    holds in all of them. *)

From S2P Require Import Prelude CMem CStringSearch World Libdx Process Loader KBase KThreads KThreadInv KThreadRuns KThreadOps KThreadSched KThreadSys KThreadLife.

(** ** The machine *)

(** The system calls of the thread and I/O managers (with the numbers that the
    random generator gives), the yield and clock interrupts, the continuation of
    a thread suspended in a blocking send, a pass of the cleanup thread, and what
    the device proxy does to the references of a thread that registers or
    removes itself as the handler of an interrupt. The messages that the device
    proxy sends on an interrupt are not among the operations. *)
Inductive operation :=
  | OpSend (d : syscall_data)
  | OpSendReceive (random : Z) (d : syscall_data)
  | OpReceive (random : Z) (d : syscall_data)
  | OpCreate (d : syscall_data)
  | OpDelete (random random_id victim : Z)
  | OpResume (d : syscall_data)
  | OpYield (random : Z)
  | OpClock (random : Z)
  | OpCleanup (random : Z)
  | OpRegister (irq : Z)
  | OpUnregister (irq : Z).

(** The handlers that are registered with the device proxy: the line and the
    thread, to which the proxy holds a pointer. *)
Definition handlers : Type := list (Z * Z).

Fixpoint remove_one (h : Z * Z) (hs : handlers) : handlers :=
  match hs with
  | [] => []
  | k :: rest => if decide (k = h) then rest else k :: remove_one h rest
  end.

Lemma remove_one_perm h hs : h ∈ hs -> hs ≡ₚ h :: remove_one h hs.
Proof.
  induction 1 as [hs|h k hs _ IH]; cbn; [by rewrite decide_True|]. case_decide as E; [by subst|].
  rewrite IH at 1. apply Permutation_swap.
Qed.

(** Every object is well formed, a thread that can be found has not been
    deleted, and the current thread can execute. *)
Definition kernel_ok (hs : handlers) (s : kernel) : Prop := inv hs.*2 ∅ s /\ listed s /\ ready s.

Section Machine.
Context `{environment}.
Implicit Types (s : kernel) (n : nat) (hs : handlers).

Definition perform n (op : operation) : K unit :=
  let e := entries n in
  match op with
  | OpSend d => syscall_send_message e d;; mret tt
  | OpSendReceive random d => syscall_send_and_receive_message e random d;; mret tt
  | OpReceive random d => syscall_receive_message e random d;; mret tt
  | OpCreate d => syscall_create_thread e d;; mret tt
  | OpDelete random random_id victim => send_deletion_message e random random_id victim;; mret tt
  | OpResume d => resume_send e d;; mret tt
  | OpYield random => handle_yield random
  | OpClock random => handle_clock random
  | OpCleanup random => cleanup_thread_pass e random
  | OpRegister _ => p ← gets current_thread; add_reference p
  | OpUnregister _ => p ← gets current_thread; remove_reference e p
  end.

(** The handlers after the operation. *)
Definition registered (op : operation) s hs : handlers :=
  match op with
  | OpRegister irq => (irq, current_thread s) :: hs
  | OpUnregister irq => remove_one (irq, current_thread s) hs
  | _ => hs
  end.

(** When an operation can take place: the interrupts always; the system calls
    in a thread that has not been deleted and is not in the middle of a call,
    with arguments that the constructors of the messages accept. A thread
    removes itself as a handler only where it is registered: the proxy does not
    check it, and takes a reference away that nobody gave. *)
Definition allowed (op : operation) hs s : Prop :=
  match op with
  | OpSend d | OpSendReceive _ d => running s /\ idle s /\ current_thread s <> cleanup_thread s /\ valid_request d
  | OpReceive _ _ | OpDelete _ _ _ => running s /\ idle s
  | OpCreate d => running s /\ 0 <= next_thread_id s < THREAD_ID_NULL
  | OpResume _ => running s /\ ~ idle s
  | OpYield _ | OpClock _ => True
  | OpCleanup _ => running s /\ idle s /\ current_thread s = cleanup_thread s /\ proper_request s
  | OpRegister _ => running s
  | OpUnregister irq => running s /\ (irq, current_thread s) ∈ hs
  end.

(** Enough stack for the recursion (two levels more than there are threads) and
    room in the mailbox of the cleanup thread. *)
Definition enough n (op : operation) s : Prop :=
  match op with
  | OpCleanup _ => can_clean n s
  | _ => can_run n 1 s
  end.

Inductive reachable : handlers -> kernel -> Prop :=
  | reach_boot s : initialize_system_threads power_on = Ret (tt, s) -> reachable [] s
  | reach_step n op hs s s' : reachable hs s -> allowed op hs s -> perform n op s = Ret (tt, s') -> reachable (registered op s hs) s'.

(** ** The boot *)

(** The state after the boot, with the system threads as objects 1 to 3. *)
Definition system_thread (id ticks references : Z) : thread_c :=
  mkThread id THREAD_STATE_READY 0 NULL NULL CAPABILITY_ALL NULL true [] ticks references None.
Definition booted : kernel :=
  mkKernel (<[3 := system_thread THREAD_ID_NULL 0 2]> (<[2 := system_thread THREAD_ID_CLEANUP 0 2]> (<[1 := system_thread THREAD_ID_BOOT 0x7FFFFFFF 1]> ∅)))
    ∅ [] (<[THREAD_ID_NULL := 3]> (<[THREAD_ID_CLEANUP := 2]> (<[THREAD_ID_BOOT := 1]> ∅))) 0 4 1 3 2 (mkCounters 0 0 0 0 0 0 0).

Lemma create_system_thread_run id s creator : threads s !! current_thread s = Some creator -> capability_mask creator = CAPABILITY_ALL ->
  (id =? THREAD_ID_AUTO_ALLOCATE) = false -> thread_table s !! id = None -> 0 < next_object s -> threads s !! next_object s = None ->
  manager_create_thread id CAPABILITY_INHERIT_PARENT s = Ret (NULL, s) \/
  manager_create_thread id CAPABILITY_INHERIT_PARENT s = Ret (next_object s,
    mkKernel (<[next_object s := system_thread id 0 2]> (threads s)) (msgs s) (pending_messages s) (<[id := next_object s]> (thread_table s))
      (next_thread_id s) (next_object s + 1) (current_thread s) (null_thread s) (cleanup_thread s) (counters s)).
Proof.
  intros Ec Hcap Hid Htab Hpos Hfree. unfold manager_create_thread, mbind, K_bind, gets, thread_at, allocate_thread_id. rewrite Ec.
  unfold has_capability. rewrite Hcap, Hid. cbn [negb Z.eqb]. change (Z.land CAPABILITY_ALL CAPABILITY_CREATE_THREAD =? CAPABILITY_CREATE_THREAD) with true.
  cbn [negb]. rewrite bool_decide_false by (rewrite Htab; by intros []). cbn [negb]. unfold ASSERT at 1.
  rewrite bool_decide_false by (rewrite Htab; by intros []). cbn.
  destruct (allocate_large_payload_block s =? NULL); [by left|]. unfold new_object. destruct (memory_available s); [|by left].
  destruct (Z.eqb_spec (next_object s) NULL) as [Hn|_]; [unfold NULL in Hn; lia|]. right. unfold add_reference, mbind, K_bind, thread_at. cbn.
  rewrite lookup_insert_eq. cbn. by rewrite insert_insert_eq.
Qed.

Lemma booted_run : initialize_system_threads power_on = Trap KernelPanic \/ initialize_system_threads power_on = Ret (tt, booted).
Proof.
  unfold initialize_system_threads, mbind, K_bind. cbn [gets set_thread modify power_on current_thread thread_table with_threads].
  rewrite bool_decide_false by (rewrite lookup_empty; by intros []). cbn [negb ASSERT mret K_ret gets table_add modify]. cbn [with_table cleanup_thread Z.eqb NULL].
  fold (system_thread THREAD_ID_BOOT 0x7FFFFFFF 1).
  set (s1 := with_table _ _). cbn.
  set (boot := system_thread _ _ _) in s1.
  destruct (create_system_thread_run THREAD_ID_CLEANUP s1 boot eq_refl eq_refl eq_refl eq_refl eq_refl eq_refl) as [E1|E1]; rewrite E1; cbn.
  all: match goal with |- context [manager_create_thread THREAD_ID_NULL _ ?s2] =>
    destruct (create_system_thread_run THREAD_ID_NULL s2 boot eq_refl eq_refl eq_refl eq_refl eq_refl eq_refl) as [E2|E2]; rewrite E2 end; auto.
Qed.

Lemma booted_threads p t : threads booted !! p = Some t ->
  exists id ticks references, t = system_thread id ticks references /\ thread_table booted !! id = Some p /\ 0 < p < 4 /\ 0 < references /\ THREAD_ID_NULL <= id.
Proof.
  intros E. cbn in E. apply lookup_insert_Some in E as [[<- <-]|[_ E]]; [by do 3 eexists|].
  apply lookup_insert_Some in E as [[<- <-]|[_ E]]; [by do 3 eexists|]. apply lookup_insert_Some in E as [[<- <-]|[_ E]]; [by do 3 eexists|].
  by rewrite lookup_empty in E.
Qed.

Lemma booted_table i p : thread_table booted !! i = Some p -> exists t, threads booted !! p = Some t /\ t_id t = i /\ p <> NULL.
Proof.
  intros E. cbn in E. apply lookup_insert_Some in E as [[<- <-]|[_ E]]; [by eexists|].
  apply lookup_insert_Some in E as [[<- <-]|[_ E]]; [by eexists|]. apply lookup_insert_Some in E as [[<- <-]|[_ E]]; [by eexists|].
  by rewrite lookup_empty in E.
Qed.

Lemma booted_counted p : p <> NULL -> counted [] booted p = is_ref p 3 + is_ref p 2 + is_ref p 1 + is_ref p 3 + is_ref p 2.
Proof.
  intros Hp. unfold counted. cbn [booted threads msgs thread_table null_thread cleanup_thread].
  rewrite !total_insert, !total_empty by done. unfold thread_refs. cbn [blocking_thread suspended system_thread frame_refs].
  rewrite (is_ref_ne p NULL) by done. cbn. lia.
Qed.

Lemma booted_ok : kernel_ok [] booted.
Proof.
  split; [|split; [|by eexists]].
  2: { intros i p t Ei Et. destruct (booted_threads p t Et) as (id & tk & r & -> & _). done. }
  split.
  - by eexists.
  - done.
  - intros p q t u Ep Eq Hid. destruct (booted_threads p t Ep) as (id & tk & r & -> & Htp & _).
    destruct (booted_threads q u Eq) as (id' & tk' & r' & -> & Htq & _). cbn in Hid. congruence.
  - intros p t Et. destruct (booted_threads p t Et) as (id & tk & r & -> & _ & _ & _ & Hid). by right.
  - intros i p E. destruct (booted_table i p E) as (t & Et & Hid & Hp). eauto.
  - intros p t Et. destruct (booted_threads p t Et) as (id & tk & r & -> & Htab & _ & Hr & _).
    split; try done; [constructor|]. intros m Hm. by apply elem_of_nil in Hm.
  - intros p t Et. destruct (booted_threads p t Et) as (id & tk & r & -> & _). exists O, p. by econstructor.
  - intros p Hp Hc. rewrite booted_counted in * by done. unfold is_ref in *.
    destruct (decide (p = 1)) as [->|H1]; [eexists; split; [done|vm_compute; done]|].
    destruct (decide (p = 2)) as [->|H2]; [eexists; split; [done|vm_compute; done]|].
    destruct (decide (p = 3)) as [->|H3]; [eexists; split; [done|vm_compute; done]|].
    rewrite !bool_decide_false in Hc by done. lia.
  - split; [constructor|]. intros m Hm. by apply elem_of_nil in Hm.
  - intros p q t u Ep _ Hd. destruct (booted_threads p t Ep) as (id & tk & r & -> & _). done.
  - intros m c Em. by rewrite lookup_empty in Em.
  - split; [done|]. split.
    + intros k t Et. destruct (booted_threads k t Et) as (id & tk & r & -> & _ & Hk & _). done.
    + intros k c Ek. change (msgs booted) with (∅ : gmap Z message_c) in Ek. by rewrite lookup_empty in Ek.
  - intros m c Em. change (msgs booted) with (∅ : gmap Z message_c) in Em. by rewrite lookup_empty in Em.
  - intros m c Em. change (msgs booted) with (∅ : gmap Z message_c) in Em. by rewrite lookup_empty in Em.
Qed.

(** ** One operation *)

Lemma kernel_ok_returned hs hs' s s' : kernel_ok hs s -> returned hs'.*2 ∅ s s' -> kernel_ok hs' s'.
Proof. intros (_ & Hl & _) (H1 & H2 & H3). split; [done|]. split; [auto|by apply running_ready]. Qed.

Lemma kernel_ok_yielded hs s s' : kernel_ok hs s -> yielded hs.*2 ∅ s s' -> kernel_ok hs s'.
Proof. intros (_ & Hl & _) (H1 & H2 & H3 & _). split; [done|]. split; [auto|done]. Qed.

Lemma kernel_ok_settled {A} hs s (r : option A) s' : kernel_ok hs s -> running s -> settled hs.*2 ∅ s r s' -> kernel_ok hs s'.
Proof.
  intros Hk Hrun. destruct r as [a|]; intros Hs; [|by eapply kernel_ok_yielded].
  destruct Hs as [H1 H2]. eapply kernel_ok_returned; [done|]. by eapply after_returned.
Qed.

Lemma wp_done ok {A} (c : K A) s (Q : kernel -> Prop) : wp ok c s (fun _ s' => Q s') -> wp ok (c;; mret tt) s (fun _ s' => Q s').
Proof. intros Hc. apply wp_bind. eapply wp_mono; [exact Hc|done|]. intros a s' Ha. by apply wp_ret. Qed.

(** The references of the device proxy. *)
Lemma register_ok ok hs s irq : kernel_ok hs s -> running s ->
  wp ok (p ← gets current_thread; add_reference p) s (fun _ s' => kernel_ok ((irq, current_thread s) :: hs) s').
Proof.
  intros Hk Hrun. pose proof Hk as (Hi & _). pose proof Hrun as (t & Et & _). apply wp_bind, wp_gets.
  apply (wp_add_reference_raw _ _ _ t); [done|exact (tok_refs _ _ _ _ _ _ (inv_threads _ _ _ Hi _ t Et))|].
  eapply kernel_ok_returned; [done|]. eapply after_returned; [done|by apply after_add_ref|by apply inv_add_ref].
Qed.

Lemma unregister_ok ok e hs s irq : kernel_ok hs s -> running s -> (irq, current_thread s) ∈ hs ->
  wp ok (p ← gets current_thread; remove_reference e p) s (fun _ s' => kernel_ok (remove_one (irq, current_thread s) hs) s').
Proof.
  intros Hk Hrun Hin. pose proof Hk as (Hi & _). pose proof Hrun as (t & Et & Hen & _). apply wp_bind, wp_gets.
  assert (inv (current_thread s :: (remove_one (irq, current_thread s) hs).*2) ∅ s) as Hi'.
  { eapply inv_perm; [|exact Hi]. by rewrite (remove_one_perm _ _ Hin) at 1. }
  eapply wp_mono; [apply (wp_remove_pinned ok e _ _ _ _ Hi')|done|].
  - exact (inv_thread_ne _ _ _ _ _ Hi Et).
  - right. right. right. exists (t_id t). exact (tok_enabled _ _ _ _ _ _ (inv_threads _ _ _ Hi _ t Et) Hen).
  - intros _ s' [Hi2 Ha2]. eapply kernel_ok_returned; [done|]. by eapply after_returned.
Qed.

Lemma perform_ok n op hs s : ample_memory -> kernel_ok hs s -> allowed op hs s ->
  wp (~ enough n op s) (perform n op) s (fun _ s' => kernel_ok (registered op s hs) s').
Proof.
  intros Hmem Hk Ha. pose proof Hk as (Hi & Hl & Hr). pose proof (entries_ok n) as He.
  destruct op; cbn [perform enough allowed registered] in *.
  - destruct Ha as (Hrun & _ & Hc & Hv). apply (wp_done _ _ _ (kernel_ok hs)). eapply wp_mono; [by apply (syscall_send_ok n _ hs.*2 ∅)|done|].
    intros _ s' [Hi' Ha']. eapply kernel_ok_returned; [done|]. by eapply after_returned.
  - destruct Ha as (Hrun & Hidle & Hc & Hv). apply (wp_done _ _ _ (kernel_ok hs)).
    eapply wp_mono; [by apply (syscall_send_and_receive_ok n _ hs.*2 ∅)|done|]. intros r s' Hs. by eapply kernel_ok_settled.
  - destruct Ha as (Hrun & Hidle). apply (wp_done _ _ _ (kernel_ok hs)).
    eapply wp_mono; [by apply (syscall_receive_ok n _ hs.*2 ∅)|done|]. intros r s' Hs. by eapply kernel_ok_settled.
  - destruct Ha as (Hrun & Hid). apply (wp_done _ _ _ (kernel_ok hs)).
    eapply wp_mono; [by apply (syscall_create_ok False _ hs.*2 ∅)|done|]. intros ? s' Hs. by eapply kernel_ok_returned.
  - destruct Ha as (Hrun & Hidle). apply (wp_done _ _ _ (kernel_ok hs)).
    eapply wp_mono; [by apply (send_deletion_ok n _ hs.*2 ∅)|done|]. intros r s' Hs. by eapply kernel_ok_settled.
  - destruct Ha as (Hrun & Hidle). pose proof Hrun as (t & Et & _). destruct (suspended t) as [f|] eqn:Hf.
    + apply (wp_done _ _ _ (kernel_ok hs)). eapply wp_mono; [by apply (resume_send_ok n _ hs.*2 ∅ s t f)|done|]. intros ? s' Hs. by eapply kernel_ok_returned.
    + destruct Hidle. intros u Eu. congruence.
  - eapply wp_mono; [by apply (handle_yield_ok hs.*2 ∅)|done|]. intros ? s' Hs. by eapply kernel_ok_yielded.
  - eapply wp_mono; [by apply (handle_clock_ok hs.*2 ∅)|done|]. intros ? s' Hs. by eapply kernel_ok_yielded.
  - destruct Ha as (Hrun & Hidle & Hc & Hp). eapply wp_mono; [by apply (cleanup_pass_ok n _ hs.*2)|done|]. intros _ s' (H1 & H2 & H3 & _). by split.
  - by apply register_ok.
  - destruct Ha as (Hrun & Hin). by apply unregister_ok.
Qed.

Lemma reachable_ok hs s : ample_memory -> reachable hs s -> kernel_ok hs s.
Proof.
  intros Hmem. induction 1 as [s Hb|n op hs s s' _ Hk Ha Hrun].
  - destruct booted_run as [E|E]; rewrite E in Hb; simplify_eq. exact booted_ok.
  - pose proof (perform_ok n op hs s Hmem Hk Ha) as Hw. unfold wp in Hw. by rewrite Hrun in Hw.
Qed.

(** ** Executing a list of operations *)

Definition current s : option thread_c := threads s !! current_thread s.
Definition runningb s : bool :=
  match current s with Some t => mailbox_enabled t && bool_decide (state t = THREAD_STATE_READY) | None => false end.
Definition idleb s : bool := match current s with Some t => match suspended t with None => true | _ => false end | None => false end.
Definition valid_requestb (d : syscall_data) : bool :=
  negb ((MEDIUM_MESSAGE_PAYLOAD_SIZE <? data4 d) || negb (data5 d =? NULL)) || ((0 <? data4 d) && negb (data3 d =? NULL)).
Definition small_message (c : message_c) : bool := match m_class c with SmallMessage => true | _ => false end.
Definition proper_requestb s : bool :=
  match threads s !! cleanup_thread s with
  | Some t =>
      match message_queue t with
      | [] => true
      | m :: _ =>
          match msgs s !! m with
          | None => true
          | Some c => (m_type c =? MESSAGE_TYPE_NULL) || ((m_type c =? MESSAGE_TYPE_DELETE_THREAD) && small_message c &&
              match threads s !! source c with
              | None => true
              | Some from => negb (victim from c =? t_id t) && negb (victim from c =? THREAD_ID_LOOPBACK)
              end)
          end
      end
  | None => false
  end.
Definition allowedb (op : operation) hs s : bool :=
  match op with
  | OpSend d | OpSendReceive _ d => runningb s && idleb s && negb (current_thread s =? cleanup_thread s) && valid_requestb d
  | OpReceive _ _ | OpDelete _ _ _ => runningb s && idleb s
  | OpCreate d => runningb s && (0 <=? next_thread_id s) && (next_thread_id s <? THREAD_ID_NULL)
  | OpResume _ => runningb s && negb (idleb s)
  | OpYield _ | OpClock _ => true
  | OpCleanup _ => runningb s && idleb s && (current_thread s =? cleanup_thread s) && proper_requestb s
  | OpRegister _ => runningb s
  | OpUnregister irq => runningb s && bool_decide ((irq, current_thread s) ∈ hs)
  end.

Lemma runningb_sound s : runningb s = true -> running s.
Proof.
  unfold runningb, current, running. destruct (threads s !! current_thread s) as [t|]; [|done].
  intros [Ht Hs]%andb_true_iff. apply bool_decide_eq_true in Hs. eauto.
Qed.

Lemma idleb_sound s : idleb s = true -> idle s.
Proof. unfold idleb, current, idle. intros Hb t Et. rewrite Et in Hb. by destruct (suspended t). Qed.

Lemma idleb_complete s : runningb s = true -> idleb s = false -> ~ idle s.
Proof.
  unfold idleb, runningb, current, idle. destruct (threads s !! current_thread s) as [t|]; [|done]. intros _ Hb Hid.
  by rewrite (Hid t eq_refl) in Hb.
Qed.

Lemma valid_requestb_sound d : valid_requestb d = true -> valid_request d.
Proof.
  unfold valid_requestb, valid_request, valid_payload. destruct (Z.ltb_spec MEDIUM_MESSAGE_PAYLOAD_SIZE (data4 d)), (Z.eqb_spec (data5 d) NULL); cbn [negb orb].
  1,2,4: intros [Hs Hp]%andb_true_iff _; apply Z.ltb_lt in Hs; by destruct (Z.eqb_spec (data3 d) NULL).
  intros _ [?|?]; [lia|done].
Qed.

Lemma proper_requestb_sound s : proper_requestb s = true -> proper_request s.
Proof.
  unfold proper_requestb, proper_request. intros Hb t m q c Et Hq Em. rewrite Et, Hq, Em in Hb.
  apply orb_true_iff in Hb as [Hb|Hb]; [left; by apply Z.eqb_eq|]. right. apply andb_true_iff in Hb as [[Ht Hc]%andb_true_iff Hd].
  split; [by apply Z.eqb_eq|]. split; [unfold small_message in Hc; by destruct (m_class c)|]. intros from t' Ef Et'. rewrite Ef in Hd.
  assert (t' = t) as -> by congruence. by destruct (Z.eqb_spec (victim from c) (t_id t)), (Z.eqb_spec (victim from c) THREAD_ID_LOOPBACK).
Qed.

Lemma allowedb_sound op hs s : allowedb op hs s = true -> allowed op hs s.
Proof.
  destruct op; cbn [allowedb allowed]; rewrite ?andb_true_iff, ?negb_true_iff, ?bool_decide_eq_true, ?Z.eqb_eq, ?Z.eqb_neq, ?Z.leb_le, ?Z.ltb_lt;
    intuition auto using runningb_sound, idleb_sound, valid_requestb_sound, proper_requestb_sound.
  by eapply idleb_complete.
Qed.

(** The state after the operations, when each of them is allowed and returns. *)
Fixpoint execute n (ops : list operation) hs s : option (handlers * kernel) :=
  match ops with
  | [] => Some (hs, s)
  | op :: rest =>
      if allowedb op hs s then match perform n op s with Ret (_, s') => execute n rest (registered op s hs) s' | Trap _ => None end else None
  end.

Lemma execute_reachable n ops : forall hs s hs' s', reachable hs s -> execute n ops hs s = Some (hs', s') -> reachable hs' s'.
Proof.
  induction ops as [|op ops IH]; intros hs s hs' s' Hr; cbn [execute]; [by intros [= <- <-]|].
  destruct (allowedb op hs s) eqn:Ha; [|done]. destruct (perform n op s) as [[[] s1]|] eqn:Hp; [|done].
  apply IH. eapply reach_step; [done|by apply allowedb_sound|done].
Qed.
End Machine.

(** An environment in which nothing fails. *)
Definition ample : environment := {|
  memory_available := fun _ => true; share_frame := fun _ _ => STATUS_SUCCESS; commit_frame := fun _ _ => STATUS_SUCCESS;
  allocate_medium_payload_block := fun _ => 0x50000000; allocate_large_payload_block := fun _ => 0x60000000;
  find_address_space := fun _ _ => 1 |}.

Lemma booted_reachable : reachable (H := ample) [] booted.
Proof. apply reach_boot. vm_compute. reflexivity. Qed.

(** ** A full mailbox of the cleanup thread *)

Section Overflow.
Context `{environment}.
Implicit Types (s : kernel) (n : nat).

(** The cleanup thread waits with a full mailbox. *)
Record swamped s : Prop := {
  swamped_current : is_Some (threads s !! current_thread s);
  swamped_roots : null_thread s <> NULL /\ cleanup_thread s <> NULL;
  swamped_null : exists t, threads s !! null_thread s = Some t /\ 0 < reference_count t;
  swamped_cleanup : exists t, threads s !! cleanup_thread s = Some t /\ 0 < reference_count t /\ mailbox_enabled t = true /\
    state t = THREAD_STATE_READY /\ overflow t = true;
  swamped_next : 0 < next_object s }.

(** A small message to it that is not blocking. *)
Definition one_more s (m : Z) : Prop :=
  exists c, msgs s !! m = Some c /\ destination c = cleanup_thread s /\ m_class c = SmallMessage /\ is_blocking c = false.

Lemma swamped_add_ref s p t : swamped s -> threads s !! p = Some t -> 0 < reference_count t -> swamped (add_ref s p t).
Proof.
  intros [W1 W2 (tn & En & Rn) (tc & Ec & Rc & Hc) W5] E Hr.
  assert (forall q u, threads s !! q = Some u -> 0 < reference_count u ->
    exists u', threads (add_ref s p t) !! q = Some u' /\ 0 < reference_count u' /\ same_core u u') as Hlook.
  { intros q u Eq Hu. cbn. destruct (decide (q = p)) as [->|Hne].
    - rewrite lookup_insert_eq. eexists. split; [done|]. cbn. split; [lia|]. assert (u = t) as -> by congruence. apply same_core_references.
    - rewrite lookup_insert_ne by done. exists u. by repeat split. }
  split; cbn [add_ref with_threads current_thread null_thread cleanup_thread next_object]; try done.
  - cbn. destruct (decide (current_thread s = p)) as [->|Hne]; [rewrite lookup_insert_eq; by eexists|by rewrite lookup_insert_ne].
  - destruct (Hlook _ _ En Rn) as (u & Eu & Hu & _). eauto.
  - destruct (Hlook _ _ Ec Rc) as (u & Eu & Hu & _ & S1 & _ & _ & _ & _ & S2 & S3 & _). exists u. split; [done|]. split; [done|].
    unfold overflow. rewrite S1, S2, S3. exact Hc.
Qed.

Lemma new_small_swamped s src type id payload ts : (forall s', memory_available s' = true) -> swamped s ->
  threads s !! src = Some ts -> 0 < reference_count ts ->
  exists m s', new_small_message src (cleanup_thread s) type id payload s = Ret (m, s') /\ m <> NULL /\ swamped s' /\ one_more s' m.
Proof.
  intros Hmem Hw Es Hs. pose proof Hw as [W1 W2 _ (tc & Ec & Rc & Hc) W5].
  set (k := next_object s). set (c := mkMsg SmallMessage MESSAGE_CONTROL_NONE (cleanup_thread s) id src type 0 NULL payload).
  set (s0 := with_msgs (with_next_object s (k + 1)) (<[k := c]> (msgs s))).
  assert (swamped s0) as Hw0 by (destruct Hw; split; cbn; try done; lia).
  pose proof (swamped_add_ref s0 src ts Hw0 Es Hs) as Hw1. set (s1 := add_ref s0 src ts) in *.
  destruct (swamped_cleanup _ Hw1) as (t1 & E1 & R1 & _). pose proof (swamped_add_ref s1 _ t1 Hw1 E1 R1) as Hw2.
  exists k, (add_ref s1 (cleanup_thread s) t1). split; [|split; [unfold NULL, k; lia|split; [exact Hw2|]]].
  - unfold new_small_message, mbind, K_bind, new_object. rewrite Hmem. fold k. destruct (Z.eqb_spec k NULL) as [Hk|_]; [unfold NULL, k in *; lia|].
    unfold construct_message, mbind, K_bind, set_message, modify. cbn [msgs with_next_object]. fold c. fold s0. cbn [source destination c].
    unfold add_reference at 1, mbind, K_bind, thread_at. change (threads s0 !! src) with (threads s !! src). rewrite Es.
    unfold ASSERT at 1. destruct (Z.ltb_spec 0 (reference_count ts)); [|lia]. cbn [mret K_ret].
    change (set_thread src (with_references ts (reference_count ts + 1)) s0) with (Ret (tt, s1)). cbn beta iota.
    unfold add_reference, mbind, K_bind, thread_at. change (cleanup_thread s) with (cleanup_thread s1). rewrite E1.
    unfold ASSERT. destruct (Z.ltb_spec 0 (reference_count t1)); [|lia]. done.
  - exists c. cbn. by rewrite lookup_insert_eq.
Qed.

Lemma put_swamped n : (forall s', memory_available s' = true) -> forall s m, swamped s -> one_more s m -> put (entries n) m s = Trap OutOfFuel.
Proof.
  intros Hmem. induction n as [|n IH]; intros s m Hw (c & Em & Hd & Hcl & Hb); [done|].
  pose proof Hw as [[tcur Ecur] [Wn Wc] (tn & En & Rn) (tc & Ec & Rc & Hen & Hst & Hov) W5].
  cbn [entries put]. unfold io_put_message, mbind, K_bind, message_at. rewrite Em, Hd. unfold collect_payload. rewrite Hcl.
  change (mret (M := K) STATUS_SUCCESS s) with (Ret (STATUS_SUCCESS, s)). cbn beta iota. change (negb (STATUS_SUCCESS =? STATUS_SUCCESS)) with false. cbn beta iota.
  assert (thread_put_message (entries n) (cleanup_thread s) m s = Ret (STATUS_MAILBOX_OVERFLOW, s)) as ->.
  { unfold thread_put_message, mbind, K_bind, gets, message_at, thread_at. rewrite Em, Ec, Hen. cbn [negb]. unfold causes_scheduling_loop. rewrite Hb.
    change (mret (M := K) false s) with (Ret (false, s)). cbn beta iota. unfold unblock_on, mbind, K_bind, thread_at. rewrite Ec, bool_decide_false by by rewrite Hst.
    change (mret (M := K) false s) with (Ret (false, s)). cbn beta iota. rewrite Ec, Hov. done. }
  change (STATUS_MAILBOX_OVERFLOW =? STATUS_SUCCESS) with false. cbn beta iota. unfold count, modify. set (s1 := with_counters s _).
  change (mret (M := K) STATUS_MAILBOX_OVERFLOW s1) with (Ret (STATUS_MAILBOX_OVERFLOW, s1)). cbn beta iota.
  change (STATUS_MAILBOX_OVERFLOW =? STATUS_MAILBOX_OVERFLOW) with true. cbn beta iota. unfold gets. cbn beta iota.
  unfold ASSERT. change (cleanup_thread s1) with (cleanup_thread s). change (null_thread s1) with (null_thread s).
  destruct (Z.eqb_spec (cleanup_thread s) NULL); [done|]. destruct (Z.eqb_spec (null_thread s) NULL); [done|]. cbn [negb].
  do 2 (change (mret (M := K) tt s1) with (Ret (tt, s1)); cbn beta iota). unfold thread_at. change (threads s1) with (threads s). rewrite Ec.
  assert (swamped s1) as Hw1 by (by destruct Hw; split).
  destruct (new_small_swamped s1 (null_thread s) MESSAGE_TYPE_DELETE_THREAD MESSAGE_ID_ATOMIC (t_id tc) tn Hmem Hw1 En Rn) as (m' & s2 & Er & Hm & Hw2 & Ho).
  unfold put_message, mbind, K_bind. change (allocate_message (null_thread s) (cleanup_thread s) MESSAGE_TYPE_DELETE_THREAD MESSAGE_ID_ATOMIC (t_id tc) 0 NULL)
    with (new_small_message (null_thread s) (cleanup_thread s1) MESSAGE_TYPE_DELETE_THREAD MESSAGE_ID_ATOMIC (t_id tc)).
  rewrite Er. destruct (Z.eqb_spec m' NULL); [done|]. cbn [negb]. by rewrite (IH s2 m' Hw2 Ho).
Qed.
End Overflow.

(** ** Theorems *)

(** Calls without a payload, and some runs of the machine after the boot. *)
Definition call (target type id payload : Z) : syscall_data := mkSyscall 32 target type id payload 0 0 0.

(** Two user threads, the second without any capability. *)
Definition two_threads : list operation := [OpCreate (call 0 0 0 CAPABILITY_ALL); OpCreate (call 0 0 0 0)].
(** The first one runs. *)
Definition first_runs : list operation := two_threads ++ [OpSend (call 0 MESSAGE_TYPE_NULL 7 0); OpYield 0].
(** It asks the second one, which takes the request. *)
Definition asked : list operation :=
  first_runs ++ [OpSend (call THREAD_ID_BOOT MESSAGE_TYPE_NULL 7 0); OpReceive 0 (call 1 0 0 0); OpSendReceive 0 (call 1 4000 9 5); OpReceive 0 (call 1 0 0 0)].
(** The reply, after which the first thread runs again. *)
Definition answered : list operation := asked ++ [OpSend (call 0 4001 9 6); OpYield 1].
(** The boot thread has the second thread deleted before it replies, and sends
    another message to the first. *)
Definition server_deleted : list operation :=
  asked ++ [OpYield 0; OpSend (call THREAD_ID_CLEANUP MESSAGE_TYPE_DELETE_THREAD 7 1); OpYield 1; OpCleanup 0; OpYield 0;
            OpSend (call 0 MESSAGE_TYPE_NULL 8 0); OpYield 1].

Definition after_ops (ops : list operation) : kernel := default power_on (snd <$> execute (H := ample) 10 ops [] booted).

Lemma after_ops_reachable hs ops : fst <$> execute (H := ample) 10 ops [] booted = Some hs -> reachable (H := ample) hs (after_ops ops).
Proof.
  unfold after_ops. destruct (execute 10 ops [] booted) as [[hs' s]|] eqn:E; [|done]. intros [= <-]. eapply execute_reachable; [exact booted_reachable|exact E].
Qed.

Ltac by_running := apply after_ops_reachable; vm_compute; reflexivity.

Section Theorems.
Context `{environment}.
Implicit Types (s : kernel) (n : nat) (hs : handlers).

(** C1. Type soundness of the kernel, as long as no allocation fails: in every state
    that the boot and the allowed operations can lead to, all objects are well
    formed, the references to a thread are covered by its count and the current
    thread can execute; and from every such state every allowed operation, with
    stack for two levels more than there are threads and room in the mailbox of
    the cleanup thread, returns: no assertion fails and no deleted object is
    used. The operations are the system calls of the I/O and thread managers,
    the rest of a blocking send, the yield and clock interrupts, the pass of the
    cleanup thread and the registration and removal of interrupt handlers. They
    are allowed ([allowed]) in a thread that is ready and not deleted, with these
    restrictions, outside of which the code has assertions that can fail: a large
    payload or one with a delivery address is not empty and not null, the cleanup
    thread sends nothing by itself and receives only null messages and small
    requests to delete another thread than itself, the thread ids are not used
    up, and a thread removes itself as a handler only where it is registered. *)
Theorem reachable_kernels_are_safe hs s (Hmem : forall s', memory_available s' = true) (Hreach : reachable hs s) :
  kernel_ok hs s /\
  forall n op, allowed op hs s -> enough n op s -> exists s', perform n op s = Ret (tt, s') /\ reachable (registered op s hs) s'.
Proof.
  pose proof (reachable_ok hs s Hmem Hreach) as Hk. split; [done|]. intros n op Ha He.
  pose proof (perform_ok n op hs s Hmem Hk Ha) as Hw. unfold wp in Hw. destruct (perform n op s) as [[[] s']|[]] eqn:Hp; try done.
  exists s'. split; [done|]. by eapply reach_step.
Qed.

(** C9. What the mailboxes and the pool hold in every reachable state, as
    long as no allocation fails (a mailbox that cannot allocate a node drops the
    message, which stays in the pool): a message that waits for a thread exists,
    is addressed to it, comes from a thread that exists and is in the pool;
    every message of the pool waits for exactly one thread; and a deleted thread
    has none. *)
Theorem mailboxes_and_pool_agree hs s p t m (Hmem : forall s', memory_available s' = true) (Hreach : reachable hs s)
  (Ht : threads s !! p = Some t) :
  NoDup (held t) /\ NoDup (pending_messages s) /\
  (m ∈ held t -> m ∈ pending_messages s /\ exists c from, msgs s !! m = Some c /\ destination c = p /\ threads s !! source c = Some from) /\
  (m ∈ pending_messages s -> exists q u, threads s !! q = Some u /\ m ∈ held u /\
     forall q' u', threads s !! q' = Some u' -> m ∈ held u' -> q' = q) /\
  (mailbox_enabled t = false -> held t = []).
Proof.
  destruct (reachable_ok hs s Hmem Hreach) as (Hi & _). destruct (inv_threads _ _ _ Hi p t Ht) as [_ A2 _ _ A5 A6 _ _ _].
  destruct (inv_pending _ _ _ Hi) as [Hnd Hin]. split; [done|]. split; [done|]. split; [|split; [|done]].
  - intros Hm. destruct (A6 m Hm) as (Hp & c & Ec & Hd & _). split; [done|].
    destruct (inv_message_threads _ _ _ _ _ Hi Ec) as [[from Ef] _]. eauto.
  - intros Hm. destruct (Hin m Hm) as (q & u & Eu & Hmu). exists q, u. split; [done|]. split; [done|].
    intros q' u' Eu' Hmu'. by eapply held_unique.
Qed.

(** C8. No deadlock and no premature deletion, in every reachable state, as
    long as no allocation fails: from any thread, the chain of the threads that
    block each other ends, after fewer links than there are threads, at one that
    is ready; and the reference count of a thread covers every pointer to it: in
    messages, blocked threads, suspended calls, the thread table, the two
    globals and the interrupt handlers [hs] of the device proxy. The machine has
    the registration of a handler and its removal where it is registered; the
    removal of a thread that is not registered breaks the count (see
    [stray_unregister_drops_a_reference]). *)
Theorem chains_end_and_references_are_counted hs s p t (Hmem : forall s', memory_available s' = true) (Hreach : reachable hs s)
  (Ht : threads s !! p = Some t) :
  (exists n q u, chain (threads s) n p q /\ (n < base.size (threads s))%nat /\ threads s !! q = Some u /\ state u = THREAD_STATE_READY) /\
  counted hs.*2 s p <= reference_count t /\ 0 < reference_count t.
Proof.
  destruct (reachable_ok hs s Hmem Hreach) as (Hi & _). split.
  - destruct (inv_chain _ _ _ Hi p t Ht) as (n & q & Hc). destruct (chain_end_ready _ _ _ _ Hc) as (u & Eu & Bu).
    exists n, q, u. split; [done|]. split; [by eapply chain_short|]. split; [done|]. by eapply state_ready.
  - split; [by eapply counted_le|]. exact (tok_refs _ _ _ _ _ _ (inv_threads _ _ _ Hi p t Ht)).
Qed.

(** C32. The scheduler always finds a thread: from every state that is reachable
    without a failing allocation, for any random number, [select_next_thread]
    returns a thread that is ready, with a fresh quantum, at the end of the chain
    that starts at the current thread when that is blocked, else at the recipient
    of the message that wins the lottery, else at the null thread. *)
Theorem scheduler_selects_ready hs s random (Hmem : forall s', memory_available s' = true) (Hreach : reachable hs s) :
  exists p s' t start n, select_next_thread random (current_thread s) s = Ret (p, s') /\
    threads s' !! p = Some t /\ state t = THREAD_STATE_READY /\ tick_count t = SCHEDULING_QUANTUM_DEFAULT /\
    search_start s random start /\ chain (threads s) n start p.
Proof.
  destruct (reachable_ok hs s Hmem Hreach) as (Hi & _). pose proof (select_next_thread_ok hs.*2 ∅ s random Hi) as Hw. unfold wp in Hw.
  destruct (select_next_thread random (current_thread s) s) as [[p s']|[]]; try done.
  destruct Hw as (_ & _ & (t & Et & Hs & Hq) & start & n & Hst & Hc). exists p, s', t, start, n. done.
Qed.

(** C4. A blocking send is answered by its recipient, as long as no
    allocation of the kernel fails (a mailbox that cannot allocate a node drops
    the reply and wakes the thread all the same): when a thread that is
    suspended in [send_message] and has not been deleted runs again, the call
    returns a message of the recipient that carries the id of its request (the
    reply, or an ABORT in its name when the payload of the reply cannot be
    delivered), never one of the other messages in its mailbox. *)
Theorem blocking_send_returns_the_reply n hs s t f (Hmem : forall s', memory_available s' = true) (Hreach : reachable hs s)
  (Hrun : running s) (Ht : threads s !! current_thread s = Some t) (Hf : suspended t = Some f) (Hroom : can_run n 1 s) :
  exists m s' c, send_message_resumed (entries n) s = Ret (STATUS_SUCCESS, m, caller f, s') /\
    msgs s' !! m = Some c /\ source c = recipient f /\ m_id c = request_id f.
Proof.
  destruct (reachable_ok hs s Hmem Hreach) as (Hi & _). pose proof (resumed_ok (memory := Hmem) n _ hs.*2 ∅ s t f (entries_ok (memory := Hmem) n) Hi Hrun Ht Hf) as Hw. unfold wp in Hw.
  destruct (send_message_resumed (entries n) s) as [[[[st m] from] s']|[]]; try done.
  destruct Hw as (-> & -> & Hm & _ & _ & c & Hi' & Hs & Hid). exists m, s', c. split; [done|].
  destruct (inv_owned _ _ _ Hi' m c) as (Em & _); [by rewrite lookup_insert_eq|]. done.
Qed.

(** C33. A blocking message is refused as a deadlock exactly when it would close
    a cycle: in every state that is reachable without a failing allocation,
    [causes_scheduling_loop] answers yes if and only if the message is blocking
    and the chain of blocked threads that starts at its recipient ends at the
    sender; it needs no more steps than there are threads. *)
Theorem deadlock_refused_exactly hs s p t c n q (Hmem : forall s', memory_available s' = true) (Hreach : reachable hs s)
  (Ht : threads s !! p = Some t) (Hc : chain (threads s) n p q) :
  causes_scheduling_loop p (current_thread s) c s = Ret (is_blocking c && bool_decide (q = current_thread s), s).
Proof.
  destruct (reachable_ok hs s Hmem Hreach) as (Hi & _ & tc & Ec & Hst). rewrite (causes_scheduling_loop_run hs.*2 ∅ s p t c n q Hi Ht Hc).
  f_equal. f_equal. f_equal. rewrite (bool_decide_ext (q = current_thread s) (current_thread s = q)) by (by split).
  pose proof (inv_threads _ _ _ Hi p t Ht) as Hok. inversion Hc as [p' t' Et' B|n' p' t' q' Et' B Hc']; subst; assert (t' = t) as -> by congruence.
  - rewrite B. change (negb (NULL =? NULL)) with false. cbn [andb]. by rewrite orb_false_r.
  - destruct (Z.eqb_spec (blocking_thread t) NULL); [done|]. cbn [negb andb]. rewrite bool_decide_false; [done|].
    intros <-. assert (t = tc) as -> by congruence. apply (proj2 (tok_block _ _ _ _ _ _ Hok)) in B. congruence.
Qed.

(** C34. As long as no allocation fails and with stack and room for the
    replies, a pass of the cleanup thread over a small deletion request that does
    not name the cleanup thread removes the victim from the thread table and
    nothing else, when the sender has the capability or names its own id; else
    the table is unchanged. A sender without the capability that names itself by
    the loopback id, as [_Exit] does, is among the refused, against the comment
    of the function: the test compares the id of the sender with the loopback
    id. *)
Theorem deletion_removes_the_victim n random hs s t m q c from (Hmem : forall s', memory_available s' = true) (Hreach : reachable hs s)
  (Hallowed : allowed (OpCleanup random) hs s) (Hroom : can_clean n s) (Ht : threads s !! cleanup_thread s = Some t)
  (Hq : message_queue t = m :: q) (Hm : msgs s !! m = Some c) (Htype : m_type c = MESSAGE_TYPE_DELETE_THREAD) (Hfrom : threads s !! source c = Some from) :
  exists s', cleanup_thread_pass (entries n) random s = Ret (tt, s') /\
    thread_table s' = (if has_capability CAPABILITY_DELETE_THREAD from || (t_id from =? u32 (read_payload c)) || (t_id from =? THREAD_ID_LOOPBACK)
                       then delete (victim from c) (thread_table s) else thread_table s).
Proof.
  destruct (reachable_ok hs s Hmem Hreach) as (Hi & Hl & _). destruct Hallowed as (Hrun & Hidle & Hcur & Hp).
  assert (m_class c = SmallMessage) as Hsm. { destruct (Hp t m q c Ht Hq Hm) as [Hn|(_ & Hs & _)]; [by rewrite Hn in Htype|done]. }
  pose proof (cleanup_pass_ok n _ hs.*2 s random (entries_ok (memory := Hmem) n) Hi Hrun Hidle Hl Hcur Hp) as Hw. unfold wp in Hw.
  destruct (cleanup_thread_pass (entries n) random s) as [[[] s']|[]]; try done. exists s'. split; [done|].
  destruct Hw as (_ & _ & _ & Htab). apply (Htab t m q c from); [by rewrite Hcur|done..].
Qed.

(** A thread cannot give away more than it has: without the capability
    [create_thread] creates nothing, and with it the new thread, which gets an
    id that no other thread has, holds only capabilities of its creator. *)
Theorem created_thread_is_confined hs s mask creator (Hmem : forall s', memory_available s' = true) (Hreach : reachable hs s) (Hrun : running s)
  (Hid : 0 <= next_thread_id s < THREAD_ID_NULL) (Hc : threads s !! current_thread s = Some creator) :
  exists p s', manager_create_thread THREAD_ID_AUTO_ALLOCATE mask s = Ret (p, s') /\
    (p <> NULL -> has_capability CAPABILITY_CREATE_THREAD creator = true /\
      exists t, threads s' !! p = Some t /\ thread_table s' = <[t_id t := p]> (thread_table s) /\
        (forall q u, threads s !! q = Some u -> t_id u <> t_id t) /\
        forall bit, Z.testbit (capability_mask t) bit = true -> Z.testbit (capability_mask creator) bit = true /\ Z.testbit mask bit = true).
Proof.
  destruct (reachable_ok hs s Hmem Hreach) as (Hi & _). pose proof (create_thread_ok False hs.*2 ∅ s mask Hi Hrun Hid) as Hw. unfold wp in Hw.
  destruct (manager_create_thread THREAD_ID_AUTO_ALLOCATE mask s) as [[p s']|[]]; try done. exists p, s'. split; [done|]. intros Hp.
  destruct Hw as [[? _]|(_ & _ & cr & t & Ecr & Et & _ & Htid & Htab & Hcap & Hmask)]; [done|]. assert (cr = creator) as -> by congruence.
  split; [done|]. exists t. split; [done|]. split; [done|]. split.
  - intros q u Eu Heq. destruct (inv_next_id _ _ _ Hi q u Eu); lia.
  - intros bit Hb. rewrite Hmask, Z.land_spec in Hb. apply andb_true_iff in Hb as [H1 H2]. done.
Qed.

(** Once the mailbox of the cleanup thread is full the kernel cannot
    recover: a message to it makes [put_message] send a request to delete the
    cleanup thread to the cleanup thread, and so on; however deep the stack,
    the call does not return. *)
Theorem full_cleanup_mailbox_never_returns n hs s d t (Hmem : forall s', memory_available s' = true) (Hreach : reachable hs s)
  (Hrun : running s) (Hcur : current_thread s <> cleanup_thread s) (Ht : threads s !! cleanup_thread s = Some t)
  (Hready : state t = THREAD_STATE_READY) (Hfull : overflow t = true) (Htarget : thread_table s !! data0 d = Some (cleanup_thread s))
  (Hloop : data0 d <> THREAD_ID_LOOPBACK) (Hsize : data4 d = 0) (Haddress : data5 d = NULL) :
  syscall_send_message (entries n) d s = Trap OutOfFuel.
Proof.
  destruct (reachable_ok hs s Hmem Hreach) as (Hi & Hl & _). pose proof (Hl _ _ _ Htarget Ht) as Hen.
  pose proof (tok_refs _ _ _ _ _ _ (inv_threads _ _ _ Hi _ t Ht)) as Hr. pose proof Hrun as (tc & Ec & _).
  pose proof (tok_refs _ _ _ _ _ _ (inv_threads _ _ _ Hi _ tc Ec)) as Hrc.
  destruct (inv_null _ _ _ Hi) as [tn En]. pose proof (tok_refs _ _ _ _ _ _ (inv_threads _ _ _ Hi _ tn En)) as Hrn.
  destruct (inv_fresh _ _ _ Hi) as (F1 & _).
  assert (swamped s) as Hw by (split; [by eexists|exact (inv_roots _ _ _ Hi)|eauto|eauto 10|done]).
  destruct (inv_table _ _ _ Hi _ _ Htarget) as (Hn & t' & Et' & Hid). assert (t' = t) as -> by congruence.
  unfold syscall_send_message, find_thread, mbind, K_bind, gets, thread_at. rewrite Ec.
  destruct (Z.eqb_spec (data0 d) (t_id tc)) as [Heq|_]; [destruct Hcur; by apply (inv_ids _ _ _ Hi _ _ tc t); [..|congruence]|].
  destruct (Z.eqb_spec (data0 d) THREAD_ID_LOOPBACK); [done|]. cbn [orb]. rewrite Htarget. cbn [from_option]. change (id (cleanup_thread s)) with (cleanup_thread s).
  destruct (Z.eqb_spec (cleanup_thread s) NULL); [done|]. cbn [negb]. unfold add_reference, mbind, K_bind, thread_at. rewrite Ht.
  unfold ASSERT. destruct (Z.ltb_spec 0 (reference_count t)); [|lia]. change (mret (M := K) tt s) with (Ret (tt, s)). cbn beta iota.
  change (set_thread (cleanup_thread s) (with_references t (reference_count t + 1)) s) with (Ret (tt, add_ref s (cleanup_thread s) t)). cbn beta iota.
  pose proof (swamped_add_ref s _ t Hw Ht Hr) as Hw1. set (s1 := add_ref s (cleanup_thread s) t) in *.
  change (mret (M := K) (cleanup_thread s) s1) with (Ret (cleanup_thread s, s1)). cbn beta iota. destruct (Z.eqb_spec (cleanup_thread s) NULL); [done|]. cbn [negb].
  destruct (new_small_swamped s1 (current_thread s) (data1 d) (data2 d) (data3 d) tc Hmem Hw1) as (m & s2 & Er & Hm & Hw2 & Ho); [cbn; by rewrite lookup_insert_ne|done|].
  unfold put_message, mbind, K_bind. rewrite Hsize, Haddress.
  change (allocate_message (current_thread s1) (cleanup_thread s) (data1 d) (data2 d) (data3 d) 0 NULL)
    with (new_small_message (current_thread s) (cleanup_thread s1) (data1 d) (data2 d) (data3 d)).
  rewrite Er. destruct (Z.eqb_spec m NULL); [done|]. cbn [negb]. by rewrite (put_swamped n Hmem s2 m Hw2 Ho).
Qed.
End Theorems.

(** A deleted thread can run again: when a server is deleted after it took
    the request of a client, the client stays blocked on it, and the next
    message for the client dispatches the deleted thread, which no lookup finds
    any more and whose mailbox is disabled, in its place. *)
Theorem deleted_thread_is_dispatched :
  exists s t, reachable (H := ample) [] s /\ threads s !! current_thread s = Some t /\ state t = THREAD_STATE_READY /\
    mailbox_enabled t = false /\ thread_table s !! t_id t = None /\ t_id t = 1 /\
    exists client, threads s !! 4 = Some client /\ blocking_thread client = current_thread s /\ state client = THREAD_STATE_BLOCKED.
Proof.
  exists (after_ops server_deleted). eexists. split; [by_running|]. split; [vm_compute; reflexivity|].
  do 4 (split; [vm_compute; reflexivity|]). eexists. split; [vm_compute; reflexivity|]. split; vm_compute; reflexivity.
Qed.

(** ** The theorems at concrete states *)

Lemma reachable_kernels_are_safe_witness :
  kernel_ok [] (after_ops first_runs) /\
  exists s', perform (H := ample) 10 (OpSendReceive 0 (call 1 4000 9 5)) (after_ops first_runs) = Ret (tt, s') /\ reachable (H := ample) [] s'.
Proof.
  assert (reachable (H := ample) [] (after_ops first_runs)) as Hr by by_running.
  destruct (reachable_kernels_are_safe (H := ample) [] (after_ops first_runs) (fun _ => eq_refl) Hr) as [Hk Hsafe].
  split; [exact Hk|]. apply Hsafe; [apply allowedb_sound; vm_compute; reflexivity|]. vm_compute. split; [repeat constructor|discriminate].
Defined.

Lemma mailboxes_and_pool_agree_witness :
  exists t m, threads (after_ops answered) !! 4 = Some t /\ held t = [m] /\ m ∈ pending_messages (after_ops answered).
Proof.
  assert (reachable (H := ample) [] (after_ops answered)) as Hr by by_running.
  eexists _, _. split; [vm_compute; reflexivity|]. split; [vm_compute; reflexivity|].
  eapply (mailboxes_and_pool_agree (H := ample) [] (after_ops answered) 4 _ _ (fun _ => eq_refl) Hr); [vm_compute; reflexivity|]. left.
Defined.

(** The server registers itself as the handler of line 5. *)
Definition handling : list operation := asked ++ [OpRegister 5].

Lemma chains_end_and_references_are_counted_witness :
  (exists t n q u, threads (after_ops handling) !! 4 = Some t /\ blocking_thread t = 5 /\
    chain (threads (after_ops handling)) n 4 q /\ threads (after_ops handling) !! q = Some u /\ state u = THREAD_STATE_READY) /\
  exists t, threads (after_ops handling) !! 5 = Some t /\ counted [5] (after_ops handling) 5 <= reference_count t.
Proof.
  assert (reachable (H := ample) [(5, 5)] (after_ops handling)) as Hr by by_running. split.
  - destruct (threads (after_ops handling) !! 4) as [t|] eqn:Et; [|vm_compute in Et; discriminate].
    destruct (chains_end_and_references_are_counted (H := ample) _ (after_ops handling) 4 t (fun _ => eq_refl) Hr Et) as [(n & q & u & Hc & _ & Eu & Hu) _].
    exists t, n, q, u. split; [reflexivity|]. split; [vm_compute in Et; injection Et as <-; reflexivity|]. auto.
  - destruct (threads (after_ops handling) !! 5) as [t|] eqn:Et; [|vm_compute in Et; discriminate]. exists t. split; [reflexivity|].
    exact (proj1 (proj2 (chains_end_and_references_are_counted (H := ample) _ (after_ops handling) 5 t (fun _ => eq_refl) Hr Et))).
Defined.

Lemma scheduler_selects_ready_witness :
  exists p s' t, select_next_thread 3 1 booted = Ret (p, s') /\ threads s' !! p = Some t /\ state t = THREAD_STATE_READY.
Proof.
  destruct (scheduler_selects_ready (H := ample) [] booted 3 (fun _ => eq_refl) booted_reachable) as (p & s' & t & start & n & Hr & Et & Hs & _).
  exists p, s', t. auto.
Defined.

Lemma blocking_send_returns_the_reply_witness :
  exists m s' c, send_message_resumed (H := ample) (entries (H := ample) 10) (after_ops answered) = Ret (STATUS_SUCCESS, m, FromSyscall 5, s') /\
    msgs s' !! m = Some c /\ source c = 5 /\ m_id c = 9.
Proof.
  assert (reachable (H := ample) [] (after_ops answered)) as Hr by by_running.
  destruct (threads (after_ops answered) !! current_thread (after_ops answered)) as [t|] eqn:Et; [|vm_compute in Et; discriminate].
  apply (blocking_send_returns_the_reply (H := ample) 10 [] (after_ops answered) t (mkFrame 5 9 (FromSyscall 5)) (fun _ => eq_refl) Hr).
  - apply runningb_sound. vm_compute. reflexivity.
  - exact Et.
  - vm_compute in Et. injection Et as <-. reflexivity.
  - vm_compute. split; [repeat constructor|discriminate].
Defined.

(** The server, asked by thread 4, may not ask it in turn. *)
Lemma deadlock_refused_exactly_witness :
  causes_scheduling_loop 4 5 (mkMsg SmallMessage MESSAGE_CONTROL_BLOCKING 4 3 5 4000 0 NULL 0) (after_ops asked) = Ret (true, after_ops asked).
Proof.
  assert (reachable (H := ample) [] (after_ops asked)) as Hr by by_running.
  destruct (threads (after_ops asked) !! 4) as [t|] eqn:Et; [|vm_compute in Et; discriminate].
  destruct (threads (after_ops asked) !! 5) as [u|] eqn:Eu; [|vm_compute in Eu; discriminate].
  assert (blocking_thread t = 5) as Hb by (vm_compute in Et; injection Et as <-; reflexivity).
  assert (blocking_thread u = NULL) as Hu by (vm_compute in Eu; injection Eu as <-; reflexivity).
  exact (deadlock_refused_exactly (H := ample) [] (after_ops asked) 4 t (mkMsg SmallMessage MESSAGE_CONTROL_BLOCKING 4 3 5 4000 0 NULL 0) 1 5
    (fun _ => eq_refl) Hr Et (chain_link _ 0 4 t 5 Et ltac:(rewrite Hb; discriminate) ltac:(rewrite Hb; exact (chain_end _ 5 u Eu Hu)))).
Defined.

(** The cleanup thread is about to handle a request of the boot thread. *)
Definition deletion_requested : list operation :=
  two_threads ++ [OpSend (call THREAD_ID_CLEANUP MESSAGE_TYPE_DELETE_THREAD 7 1); OpYield 0].

Lemma deletion_removes_the_victim_witness :
  exists s', cleanup_thread_pass (H := ample) (entries (H := ample) 10) 0 (after_ops deletion_requested) = Ret (tt, s') /\
    thread_table s' = delete 1 (thread_table (after_ops deletion_requested)).
Proof.
  assert (reachable (H := ample) [] (after_ops deletion_requested)) as Hr by by_running.
  destruct (threads (after_ops deletion_requested) !! 2) as [t|] eqn:Et; [|vm_compute in Et; discriminate].
  destruct (threads (after_ops deletion_requested) !! 1) as [from|] eqn:Ef; [|vm_compute in Ef; discriminate].
  destruct (msgs (after_ops deletion_requested) !! 6) as [c|] eqn:Em; [|vm_compute in Em; discriminate].
  destruct (deletion_removes_the_victim (H := ample) 10 0 [] (after_ops deletion_requested) t 6 [] c from (fun _ => eq_refl) Hr) as (s' & Hrun & Htab).
  - apply allowedb_sound. vm_compute. reflexivity.
  - vm_compute. split; [repeat constructor|]. split; [discriminate|]. intros p u Eu.
    assert (p = 1 \/ p = 2 \/ p = 3 \/ p = 4 \/ p = 5) as Hp. { revert Eu. clear. intros Eu. destruct p as [|[[[]|[]|]|[[]|[]|]|]|]; vm_compute in Eu; try discriminate; auto 10. }
    destruct Hp as [->|[->|[->|[->| ->]]]]; vm_compute in Eu; injection Eu as <-; vm_compute; discriminate.
  - exact Et.
  - vm_compute in Et. injection Et as <-. reflexivity.
  - exact Em.
  - vm_compute in Em. injection Em as <-. reflexivity.
  - vm_compute in Em. injection Em as <-. exact Ef.
  - exists s'. split; [exact Hrun|]. rewrite Htab. vm_compute in Em, Ef. injection Em as <-. injection Ef as <-. reflexivity.
Defined.

Lemma created_thread_is_confined_witness :
  exists p s', manager_create_thread (H := ample) THREAD_ID_AUTO_ALLOCATE 0x30 booted = Ret (p, s').
Proof.
  destruct (created_thread_is_confined (H := ample) [] booted 0x30 (system_thread THREAD_ID_BOOT 0x7FFFFFFF 1) (fun _ => eq_refl) booted_reachable)
    as (p & s' & Hr & _).
  - apply runningb_sound. vm_compute. reflexivity.
  - vm_compute. split; [discriminate|reflexivity].
  - reflexivity.
  - exists p, s'. exact Hr.
Defined.

(** The boot thread fills the mailbox. *)
Definition flood : list operation := repeat (OpSend (call THREAD_ID_CLEANUP MESSAGE_TYPE_NULL 7 0)) 64.

Lemma full_cleanup_mailbox_never_returns_witness :
  syscall_send_message (H := ample) (entries (H := ample) 100) (call THREAD_ID_CLEANUP MESSAGE_TYPE_NULL 7 0) (after_ops flood) = Trap OutOfFuel.
Proof.
  assert (reachable (H := ample) [] (after_ops flood)) as Hr by by_running.
  destruct (threads (after_ops flood) !! cleanup_thread (after_ops flood)) as [t|] eqn:Et; [|vm_compute in Et; discriminate].
  apply (full_cleanup_mailbox_never_returns (H := ample) 100 [] (after_ops flood) (call THREAD_ID_CLEANUP MESSAGE_TYPE_NULL 7 0) t (fun _ => eq_refl) Hr).
  - apply runningb_sound. vm_compute. reflexivity.
  - vm_compute. discriminate.
  - exact Et.
  - vm_compute in Et. injection Et as <-. reflexivity.
  - vm_compute in Et. injection Et as <-. reflexivity.
  - vm_compute. reflexivity.
  - vm_compute. discriminate.
  - reflexivity.
  - reflexivity.
Defined.

(** ** Two more runs *)

(** The thread without capabilities runs and has taken its message. *)
Definition second_runs : list operation := two_threads ++ [OpSend (call 1 MESSAGE_TYPE_NULL 7 0); OpYield 0; OpReceive 0 (call 1 0 0 0)].

(** It asks for its own deletion by the loopback id, as [_Exit] does, and is
    refused: the test compares the id of the sender with the loopback id. *)
Example exit_by_loopback_is_refused :
  thread_table (after_ops (second_runs ++ [OpDelete 0 77 THREAD_ID_LOOPBACK; OpCleanup 0])) !! 1 = Some 5 /\
  exists t m c, threads (after_ops (second_runs ++ [OpDelete 0 77 THREAD_ID_LOOPBACK; OpCleanup 0])) !! 5 = Some t /\
    message_queue t = [m] /\ msgs (after_ops (second_runs ++ [OpDelete 0 77 THREAD_ID_LOOPBACK; OpCleanup 0])) !! m = Some c /\
    m_type c = MESSAGE_TYPE_ABORT /\ s32 (read_payload c) = STATUS_ACCESS_DENIED.
Proof. split; [vm_compute; reflexivity|]. do 3 eexists. do 4 (split; [vm_compute; reflexivity|]). vm_compute. reflexivity. Qed.

(** A message of an unknown type from it stops the kernel in the loop of the
    cleanup thread. *)
Example unknown_request_stops_the_kernel :
  let s := after_ops (second_runs ++ [OpSend (call THREAD_ID_CLEANUP 4000 7 0); OpYield 0]) in
  current_thread s = cleanup_thread s /\ cleanup_thread_pass (H := ample) (entries (H := ample) 10) 0 s = Trap AssertFailed.
Proof. split; vm_compute; reflexivity. Qed.
