(* ===== verification/KPorts.v ===== *)
(** * The I/O port map of an address space: [hal/io_port_map.cpp]

    A bit per port, set when the port is forbidden, in 2048 words. *)

From S2P Require Import Prelude CMem CStringSearch World Libdx KBase.

Definition PORT_WORD_COUNT : Z := 2048.
Definition PORT_WORD_SIZE : Z := 32.

Definition read_bit_index (index : Z) : Z := index mod PORT_WORD_SIZE.
Definition read_word_index (index : Z) : Z := index / PORT_WORD_SIZE.

(** All ports are forbidden at first. *)
Definition io_port_map_new : list Z := replicate (Z.to_nat PORT_WORD_COUNT) 4294967295.

(** An assignment to an element of the array. *)
Definition set_word (i : Z) (f : Z -> Z) (word : list Z) : res (list Z) :=
  w ← array_get word i;
  mret (<[Z.to_nat i := f w]> word).

(** The loop over the middle words, which get [value]. *)
Fixpoint fill_words (fuel : nat) (value word_index count : Z) (word : list Z) : res (Z * Z * list Z) :=
  if (PORT_WORD_SIZE <? count) && (word_index <? PORT_WORD_COUNT) then
    match fuel with
    | O => Trap OutOfFuel
    | S f =>
        word ← set_word word_index (fun _ => value) word;
        fill_words f value (word_index + 1) (u16 (count - PORT_WORD_SIZE)) word
    end
  else mret (word_index, count, word).

Definition disable (index count : Z) (word : list Z) : res (list Z) :=
  kassert (index <=? index + count);;
  kassert (count <=? index + count);;
  let bit_index := read_bit_index index in
  let word_index := read_word_index index in
  '(word_index, count, word) ←
    (if 0 <? bit_index then
       let partial_count := Z.min count (PORT_WORD_SIZE - bit_index) in
       word ← set_word word_index (fun w => Z.lor w (make_mask32 bit_index partial_count)) word;
       mret (word_index + 1, u16 (count - partial_count), word)
     else mret (word_index, count, word));
  '(word_index, count, word) ← fill_words 2048 0xFF word_index count word;
  if negb (count =? 0) && (word_index <? PORT_WORD_COUNT) then
    set_word word_index (fun w => Z.lor w (make_mask32 0 count)) word
  else mret word.

Definition enable (index count : Z) (word : list Z) : res (list Z) :=
  kassert (index <=? index + count);;
  kassert (count <=? index + count);;
  let bit_index := read_bit_index index in
  let word_index := read_word_index index in
  '(word_index, count, word) ←
    (if 0 <? bit_index then
       let partial_count := Z.min count (PORT_WORD_SIZE - bit_index) in
       word ← set_word word_index (fun w => Z.land w (u32 (Z.lnot (make_mask32 bit_index partial_count)))) word;
       mret (word_index + 1, u16 (count - partial_count), word)
     else mret (word_index, count, word));
  '(word_index, count, word) ← fill_words 2048 0 word_index count word;
  if negb (count =? 0) && (word_index <? PORT_WORD_COUNT) then
    set_word word_index (fun w => Z.land w (u32 (Z.lnot (make_mask32 0 count)))) word
  else mret word.

Definition is_enabled (index : Z) (word : list Z) : res bool :=
  w ← array_get word (read_word_index index);
  mret (Z.land w (BIT (read_bit_index index)) =? 0).

(** ** What the words say *)

Definition forbidden (word : list Z) (port : Z) : bool := Z.testbit (word !!! Z.to_nat (port / 32)) (port mod 32).

Definition map_ok (word : list Z) : Prop := length word = 2048%nat.

Lemma set_word_run i f word : map_ok word -> 0 <= i < 2048 ->
  set_word i f word = Ret (<[Z.to_nat i := f (word !!! Z.to_nat i)]> word).
Proof.
  intros Hl Hi. unfold set_word. destruct (lookup_lt_is_Some_2 word (Z.to_nat i)) as [w Ew]; [rewrite Hl; lia|].
  krun (array_get_run word i w Ew). by rewrite (list_lookup_total_correct _ _ _ Ew).
Qed.

Lemma forbidden_set i v word port : map_ok word -> 0 <= i < 2048 -> 0 <= port ->
  forbidden (<[Z.to_nat i := v]> word) port = if port / 32 =? i then Z.testbit v (port mod 32) else forbidden word port.
Proof.
  intros Hl Hi Hp. unfold forbidden. destruct (Z.eqb_spec (port / 32) i) as [->|Hne].
  - rewrite list_lookup_total_insert_eq; [done|]. rewrite Hl. lia.
  - rewrite list_lookup_total_insert_ne; [done|]. assert (0 <= port / 32) by (apply Z.div_pos; lia). lia.
Qed.

Lemma map_ok_set i v word : map_ok word -> map_ok (<[i := v]> word).
Proof. unfold map_ok. by rewrite length_insert. Qed.

Lemma fill_words_run value fuel : forall wi count word, map_ok word -> 0 <= wi <= 2048 -> 0 <= count < 65536 -> (Z.to_nat (2048 - wi) <= fuel)%nat ->
  exists k word', fill_words fuel value wi count word = Ret (wi + k, count - 32 * k, word') /\ map_ok word' /\ 0 <= k /\ wi + k <= 2048 /\
    0 <= count - 32 * k /\ (forall j, 0 <= j -> wi + j < 2048 -> (j <? k) = (32 * (j + 1) <? count)) /\ (count - 32 * k <= 32 \/ wi + k = 2048) /\
    forall port, 0 <= port -> forbidden word' port = if (wi <=? port / 32) && (port / 32 <? wi + k) then Z.testbit value (port mod 32) else forbidden word port.
Proof.
  induction fuel as [|fuel IH]; intros wi count word Hl Hwi Hc Hf; cbn [fill_words]; unfold PORT_WORD_SIZE, PORT_WORD_COUNT;
    destruct (Z.ltb_spec 32 count), (Z.ltb_spec wi 2048); cbn [andb]; try lia.
  3: { rewrite (set_word_run wi) by (done || lia). cbn [mbind res_bind].
    assert (u16 (count - 32) = count - 32) as -> by (unfold u16; apply Z.mod_small; lia).
    destruct (IH (wi + 1) (count - 32) (<[Z.to_nat wi := value]> word)) as (k & word' & E & H1 & H2 & H3 & H4 & H5 & H6 & H7);
      [by apply map_ok_set|lia|lia|lia|].
    exists (k + 1), word'. rewrite E. replace (wi + 1 + k) with (wi + (k + 1)) in * by lia. replace (count - 32 - 32 * k) with (count - 32 * (k + 1)) in * by lia.
    split; [done|]. split; [done|]. split; [lia|]. split; [done|]. split; [done|]. split; [|split; [done|]].
    - intros j Hj Hw. destruct (decide (j = 0)) as [->|Hn].
      + rewrite (proj2 (Z.ltb_lt 0 (k + 1))) by lia. symmetry. apply Z.ltb_lt. lia.
      + specialize (H5 (j - 1) ltac:(lia) ltac:(lia)). destruct (Z.ltb_spec (j - 1) k), (Z.ltb_spec j (k + 1)), (Z.ltb_spec (32 * (j - 1 + 1)) (count - 32)),
          (Z.ltb_spec (32 * (j + 1)) count); try done; lia.
    - intros port Hp. rewrite H7 by done. rewrite forbidden_set by (done || lia).
      destruct (Z.leb_spec (wi + 1) (port / 32)), (Z.leb_spec wi (port / 32)), (Z.ltb_spec (port / 32) (wi + (k + 1))), (Z.eqb_spec (port / 32) wi); cbn; try done; lia. }
  all: exists 0, word; replace (wi + 0) with wi by lia; replace (count - 32 * 0) with count by lia;
    split; [done|]; split; [done|]; split; [lia|]; split; [lia|]; split; [lia|]; split; [|split; [lia|]].
  all: try (intros port Hp; destruct (Z.leb_spec wi (port / 32)), (Z.ltb_spec (port / 32) wi); cbn; try done; lia).
  all: intros j Hj Hw; rewrite (proj2 (Z.ltb_ge j 0)) by lia; symmetry; apply Z.ltb_ge; lia.
Qed.

(** Case analysis on the comparisons of the goal, pruned by [lia]. *)
Ltac zcases := repeat (cbn [andb]; match goal with
  | |- context [?a <=? ?b] => destruct (Z.leb_spec a b)
  | |- context [?a <? ?b] => destruct (Z.ltb_spec a b)
  end; try (exfalso; lia)); cbn [andb]; try done.

(** An update of the lowest bits of a word to [b]. *)
Definition sets_low (last : Z -> Z -> Z) (b : bool) : Prop :=
  forall c w j, 0 <= c <= 32 -> 0 <= j < 32 -> Z.testbit (last c w) j = if j <? c then b else Z.testbit w j.

(** From the middle words on. *)
Lemma tail_run value last b wi count word : sets_low last b -> map_ok word -> 0 <= wi <= 2048 -> 0 <= count < 65536 ->
  exists word', ('(word_index, count, word) ← fill_words 2048 value wi count word;
     if negb (count =? 0) && (word_index <? PORT_WORD_COUNT) then set_word word_index (last count) word else mret word) = Ret word' /\ map_ok word' /\
    forall port, 0 <= port < 65536 -> forbidden word' port =
      if (32 * wi <=? port) && (port <? 32 * wi + count)
      then if 32 * (port / 32 + 1) <? 32 * wi + count then Z.testbit value (port mod 32) else b
      else forbidden word port.
Proof.
  intros Hlast Hl Hwi Hc. destruct (fill_words_run value 2048 wi count word Hl Hwi Hc) as (k & w1 & E & H1 & H2 & H3 & H4 & H5 & H6 & H7); [lia|].
  rewrite E. cbn [mbind res_bind]. unfold PORT_WORD_COUNT.
  assert (forall port, 0 <= port < 65536 -> 0 <= port / 32 < 2048 /\ 32 * (port / 32) <= port < 32 * (port / 32) + 32) as Hdiv.
  { intros port Hp. pose proof (Z.div_mod port 32 ltac:(lia)). pose proof (Z.mod_pos_bound port 32 ltac:(lia)). lia. }
  destruct (Z.eqb_spec (count - 32 * k) 0) as [H0|H0]; cbn [negb andb]; [|destruct (Z.ltb_spec (wi + k) 2048) as [Hw|Hw]].
  2: { rewrite set_word_run by (done || lia). eexists. split; [done|]. split; [by apply map_ok_set|]. intros port Hp.
    destruct (Hdiv port Hp) as [D1 D2]. rewrite forbidden_set by (done || lia). specialize (H7 port ltac:(lia)).
    assert (0 <= port mod 32 < 32) as Hm by (apply Z.mod_pos_bound; lia). pose proof (Z.div_mod port 32 ltac:(lia)) as Hpm.
    destruct (Z.eqb_spec (port / 32) (wi + k)) as [Heq|Hne].
    - rewrite Hlast by lia. change (Z.testbit (w1 !!! Z.to_nat (wi + k)) (port mod 32)) with (Z.testbit (w1 !!! Z.to_nat (wi + k)) (port mod 32)).
      rewrite <- Heq. change (Z.testbit (w1 !!! Z.to_nat (port / 32)) (port mod 32)) with (forbidden w1 port). rewrite H7.
      destruct (Z.ltb_spec (port mod 32) (count - 32 * k)), (Z.leb_spec (32 * wi) port), (Z.ltb_spec port (32 * wi + count)),
        (Z.ltb_spec (32 * (port / 32 + 1)) (32 * wi + count)), (Z.leb_spec wi (port / 32)), (Z.ltb_spec (port / 32) (wi + k)); cbn; try done; lia.
    - rewrite H7. destruct (Z.leb_spec wi (port / 32)); cbn [andb].
      + pose proof (H5 (port / 32 - wi) ltac:(lia) ltac:(lia)) as Hk.
        destruct (Z.leb_spec (32 * wi) port), (Z.ltb_spec port (32 * wi + count)),
        (Z.ltb_spec (32 * (port / 32 + 1)) (32 * wi + count)), (Z.ltb_spec (port / 32) (wi + k)), (Z.ltb_spec (port / 32 - wi) k),
        (Z.ltb_spec (32 * (port / 32 - wi + 1)) count); cbn; try done; lia.
      + destruct (Z.leb_spec (32 * wi) port); cbn; [lia|done]. }
  all: eexists; (split; [done|]); (split; [done|]); intros port Hp; destruct (Hdiv port Hp) as [D1 D2]; rewrite (H7 port) by lia;
    pose proof (Z.div_mod port 32 ltac:(lia)) as Hpm; assert (0 <= port mod 32 < 32) as Hm by (apply Z.mod_pos_bound; lia);
    destruct (Z.leb_spec wi (port / 32)); cbn [andb]; [|destruct (Z.leb_spec (32 * wi) port); cbn; [lia|done]];
    pose proof (H5 (port / 32 - wi) ltac:(lia) ltac:(lia)) as Hk;
    destruct (Z.leb_spec (32 * wi) port), (Z.ltb_spec port (32 * wi + count)),
      (Z.ltb_spec (32 * (port / 32 + 1)) (32 * wi + count)), (Z.ltb_spec (port / 32) (wi + k)), (Z.ltb_spec (port / 32 - wi) k),
      (Z.ltb_spec (32 * (port / 32 - wi + 1)) count); cbn; try done; lia.
Qed.

Lemma sets_low_lor : sets_low (fun c w => Z.lor w (make_mask32 0 c)) true.
Proof.
  intros c w j Hc Hj. rewrite Z.lor_spec, make_mask32_testbit by lia. rewrite (proj2 (Z.leb_le 0 j)), Z.add_0_l by lia. cbn [andb negb].
  destruct (j <? c); [apply orb_true_r|apply orb_false_r].
Qed.

Lemma sets_low_land : sets_low (fun c w => Z.land w (u32 (Z.lnot (make_mask32 0 c)))) false.
Proof.
  intros c w j Hc Hj. rewrite Z.land_spec, u32_lnot_testbit, make_mask32_testbit by lia. rewrite (proj2 (Z.leb_le 0 j)), Z.add_0_l by lia. cbn [andb negb].
  destruct (j <? c); [apply andb_false_r|apply andb_true_r].
Qed.

(** The ports of the range that lie in a word which the loop overwrites. *)
Definition middle (index count port : Z) : bool := (index <=? 32 * (port / 32)) && (32 * (port / 32 + 1) <? index + count).
Definition in_ports (index count port : Z) : bool := (index <=? port) && (port <? index + count).

(** The whole update, for the three ways to change a word. *)
Lemma update_run value first last b index count word :
  (forall bit c w j, 0 <= bit -> 0 <= c -> bit + c <= 32 -> 0 <= j < 32 ->
     Z.testbit (first bit c w) j = if (bit <=? j) && (j <? bit + c) then b else Z.testbit w j) ->
  sets_low last b -> map_ok word -> 0 <= index < 65536 -> 0 <= count < 65536 ->
  exists word', (
    '(word_index, count, word) ←
      (if 0 <? read_bit_index index then
         let partial_count := Z.min count (PORT_WORD_SIZE - read_bit_index index) in
         word ← set_word (read_word_index index) (first (read_bit_index index) partial_count) word;
         mret (read_word_index index + 1, u16 (count - partial_count), word)
       else mret (read_word_index index, count, word));
    '(word_index, count, word) ← fill_words 2048 value word_index count word;
    if negb (count =? 0) && (word_index <? PORT_WORD_COUNT) then set_word word_index (last count) word else mret word) = Ret word' /\ map_ok word' /\
    forall port, 0 <= port < 65536 -> forbidden word' port =
      if in_ports index count port then if middle index count port then Z.testbit value (port mod 32) else b else forbidden word port.
Proof.
  intros Hfirst Hlast Hl Hi Hc. unfold read_bit_index, read_word_index, PORT_WORD_SIZE.
  assert (0 <= index mod 32 < 32) as Hb by (apply Z.mod_pos_bound; lia). pose proof (Z.div_mod index 32 ltac:(lia)) as Hid.
  destruct (Z.ltb_spec 0 (index mod 32)) as [Hpos|Hzero].
  - set (partial := Z.min count (32 - index mod 32)).
    set (w1 := <[Z.to_nat (index / 32) := first (index mod 32) partial (word !!! Z.to_nat (index / 32))]> word).
    erewrite res_bind_ret; [|rewrite set_word_run by (done || lia); fold w1; reflexivity]. cbn beta iota.
    assert (u16 (count - partial) = count - partial) as -> by (unfold u16, partial; apply Z.mod_small; lia). destruct (tail_run value last b (index / 32 + 1) (count - partial) w1) as (w2 & E & H2 & Hf);
      [done|by apply map_ok_set|lia|unfold partial; lia|]. exists w2. split; [exact E|]. split; [done|]. intros port Hp. rewrite Hf by done.
    unfold w1. rewrite forbidden_set by (done || lia). assert (0 <= port mod 32 < 32) as Hm by (apply Z.mod_pos_bound; lia).
    pose proof (Z.div_mod port 32 ltac:(lia)) as Hpd. rewrite Hfirst by (unfold partial; lia). fold (forbidden word port).
    change (Z.testbit (word !!! Z.to_nat (index / 32)) (port mod 32)) with (Z.testbit (word !!! Z.to_nat (index / 32)) (port mod 32)).
    assert (port / 32 = index / 32 -> Z.testbit (word !!! Z.to_nat (index / 32)) (port mod 32) = forbidden word port) as Hsame by (intros Heq; unfold forbidden; by rewrite Heq).
    unfold in_ports, middle, partial in *.
    destruct (Z.eqb_spec (port / 32) (index / 32)) as [Heq|Hne]; [rewrite (Hsame Heq)|];
      set (q := port / 32) in *; set (r := port mod 32) in *; set (a := index / 32) in *; set (i := index mod 32) in *; clearbody q r a i; zcases.
  - erewrite res_bind_ret; [|reflexivity]. cbn beta iota. destruct (tail_run value last b (index / 32) count word) as (w2 & E & H2 & Hf); [done|done|lia|lia|].
    exists w2. split; [exact E|]. split; [done|]. intros port Hp. rewrite Hf by done. pose proof (Z.div_mod port 32 ltac:(lia)) as Hpd.
    assert (0 <= port mod 32 < 32) as Hm by (apply Z.mod_pos_bound; lia). unfold in_ports, middle.
    set (q := port / 32) in *; set (r := port mod 32) in *; set (a := index / 32) in *; set (i := index mod 32) in *; clearbody q r a i. zcases.
Qed.

Lemma is_enabled_run port word : map_ok word -> 0 <= port < 65536 -> is_enabled port word = Ret (negb (forbidden word port)).
Proof.
  intros Hl Hp. unfold is_enabled, read_word_index, read_bit_index, PORT_WORD_SIZE. pose proof (Z.div_mod port 32 ltac:(lia)).
  assert (0 <= port mod 32 < 32) as Hm by (apply Z.mod_pos_bound; lia).
  destruct (lookup_lt_is_Some_2 word (Z.to_nat (port / 32))) as [w Ew]; [rewrite Hl; lia|].
  krun (array_get_run word _ w Ew). unfold forbidden. rewrite (list_lookup_total_correct _ _ _ Ew). cbn. f_equal.
  destruct (Z.testbit w (port mod 32)) eqn:Ht; cbn.
  - apply Z.eqb_neq. intros H0. assert (Z.testbit (Z.land w (BIT (port mod 32))) (port mod 32) = false) as Hf by (rewrite H0; apply Z.bits_0).
    rewrite Z.land_spec, Ht, BIT_testbit, Z.eqb_refl in Hf by lia. done.
  - apply Z.eqb_eq. apply Z.bits_inj'. intros i Hi. rewrite Z.bits_0, Z.land_spec, BIT_testbit by lia.
    destruct (Z.eqb_spec i (port mod 32)) as [->|]; [by rewrite Ht|apply andb_false_r].
Qed.

(** ** Theorems *)

(** [enable] opens exactly the ports of the range, at most up to port
    65535, and leaves every other port as it was; the loop over the middle
    words ends and no word outside the map is touched. *)
Theorem enable_opens_the_range index count word (Hmap : map_ok word) (Hindex : 0 <= index < 65536) (Hcount : 0 <= count < 65536) :
  exists word', enable index count word = Ret word' /\ map_ok word' /\
    forall port, 0 <= port < 65536 ->
      is_enabled port word' = Ret (in_ports index count port || negb (forbidden word port)).
Proof.
  unfold enable. kassert_tac. kassert_tac.
  destruct (update_run 0 (fun bit c w => Z.land w (u32 (Z.lnot (make_mask32 bit c)))) (fun c w => Z.land w (u32 (Z.lnot (make_mask32 0 c)))) false
    index count word) as (word' & E & H' & Hf); [|exact sets_low_land|done|done|done|].
  { intros bit c w j Hb Hc Hs Hj. rewrite Z.land_spec, u32_lnot_testbit, make_mask32_testbit by lia.
    destruct ((bit <=? j) && (j <? bit + c)); [apply andb_false_r|apply andb_true_r]. }
  exists word'. split; [exact E|]. split; [done|]. intros port Hp. rewrite is_enabled_run, Hf by done.
  destruct (in_ports index count port), (middle index count port); cbn; rewrite ?Z.bits_0; done.
Qed.

(** [disable] closes the ports of the range except those in the upper
    three bytes of a word that the loop over the middle words writes: such a
    word becomes 0x000000FF, so 24 of its 32 ports are open afterwards, even
    if they were closed before. *)
Theorem disable_opens_middle_words index count word (Hmap : map_ok word) (Hindex : 0 <= index < 65536) (Hcount : 0 <= count < 65536) :
  exists word', disable index count word = Ret word' /\ map_ok word' /\
    forall port, 0 <= port < 65536 ->
      is_enabled port word' = Ret (if in_ports index count port then middle index count port && (8 <=? port mod 32) else negb (forbidden word port)).
Proof.
  unfold disable. kassert_tac. kassert_tac.
  destruct (update_run 0xFF (fun bit c w => Z.lor w (make_mask32 bit c)) (fun c w => Z.lor w (make_mask32 0 c)) true
    index count word) as (word' & E & H' & Hf); [|exact sets_low_lor|done|done|done|].
  { intros bit c w j Hb Hc Hs Hj. rewrite Z.lor_spec, make_mask32_testbit by lia. destruct ((bit <=? j) && (j <? bit + c)); [apply orb_true_r|apply orb_false_r]. }
  exists word'. split; [exact E|]. split; [done|]. intros port Hp. rewrite is_enabled_run, Hf by done.
  destruct (in_ports index count port); [|done]. destruct (middle index count port); cbn [andb negb]; [|done].
  change 255 with (Z.ones 8). rewrite Z.testbit_ones_nonneg by (try lia; apply Z.mod_pos_bound; lia). rewrite Z.ltb_antisym. by rewrite negb_involutive.
Qed.

Lemma enable_opens_the_range_witness : exists word', enable 0x60 5 io_port_map_new = Ret word' /\ is_enabled 0x64 word' = Ret true.
Proof.
  destruct (enable_opens_the_range 0x60 5 io_port_map_new ltac:(reflexivity) ltac:(lia) ltac:(lia)) as (word' & E & _ & Hp).
  exists word'. split; [exact E|]. rewrite (Hp 0x64) by lia. reflexivity.
Defined.

Lemma disable_opens_middle_words_witness : exists word', disable 0 65 io_port_map_new = Ret word' /\ is_enabled 8 word' = Ret true.
Proof.
  destruct (disable_opens_middle_words 0 65 io_port_map_new ltac:(reflexivity) ltac:(lia) ltac:(lia)) as (word' & E & _ & Hp).
  exists word'. split; [exact E|]. rewrite (Hp 8) by lia. reflexivity.
Defined.
