(* ===== verification/KPaging.v ===== *)
(** * Page tables: [hal/page_table_entry.hpp], [page_table.hpp], [page_directory.cpp]

    The state holds the paging structures, directories and tables alike, by
    address: each is an array of 1024 words, kept as a finite map in which a
    missing index stands for a zero word. A pointer to an entry is the address
    of its structure with an index. [heap_pages] are the page-aligned blocks
    that [operator new] can still give, first one first; when there is none it
    gives NULL. Kernel memory is identity mapped, so a structure is found at the
    physical address that an entry holds. The TLB is not part of the state. *)

From S2P Require Import Prelude CMem CStringSearch World Libdx KBase KBitmap KFrames.

(** ** Constants *)

Definition PAGE_PRESENT : Z := 0x0001.
Definition PAGE_WRITABLE : Z := 0x0002.
Definition PAGE_USER : Z := 0x0004.
Definition PAGE_ACCESSED : Z := 0x0020.
Definition PAGE_DIRTY : Z := 0x0040.
Definition PAGE_4M_SIZE : Z := 0x0080.
Definition PAGE_SHARED : Z := 0x0200.
Definition PAGE_COPY_ON_WRITE : Z := 0x0400.

Definition PAGE_BASE_ADDRESS_MASK : Z := 0xFFFFF000.
Definition PAGE_DIRECTORY_INDEX_MASK : Z := 0xFFC00000.
Definition PAGE_DIRECTORY_INDEX_SHIFT : Z := 22.
Definition PAGE_TABLE_INDEX_MASK : Z := 0x003FF000.
Definition PAGE_TABLE_INDEX_SHIFT : Z := 12.

Definition KERNEL_CODE_PAGE : Z := 0x00000183.
Definition KERNEL_RAMDISK_PAGE : Z := 0x00400181.
Definition KERNEL_DATA_PAGE : Z := 0x00800183.

Definition ENTRIES_PER_PAGE_TABLE : Z := 1024.
Definition ENTRIES_PER_PAGE_DIRECTORY : Z := 1024.
Definition EXPAND_TREE : bool := true.
Definition ONLY_SEARCH : bool := false.

(** ** State *)

Record paging := mkPaging { structures : gmap Z (gmap Z Z); heap_pages : list Z }.

Definition with_structures (m : paging) (s : gmap Z (gmap Z Z)) : paging := mkPaging s (heap_pages m).

Definition G (A : Type) : Type := paging -> res (A * paging).

#[export] Instance G_ret : MRet G := fun A a m => Ret (a, m).
#[export] Instance G_bind : MBind G := fun A B k c m =>
  match c m with
  | Ret (a, m') => k a m'
  | Trap t => Trap t
  end.

Definition glift {A} (c : res A) : G A := fun m => match c with Ret a => Ret (a, m) | Trap t => Trap t end.
Definition gassert (b : bool) : G unit := glift (kassert b).

(** A pointer to an entry. *)
Definition entry_cp : Type := Z * Z.

Definition read_entry (e : entry_cp) : G Z := fun m =>
  match structures m !! e.1 with
  | Some t => Ret (default 0 (t !! e.2), m)
  | None => Trap (BadLoad e.1)
  end.

Definition write_entry (e : entry_cp) (bits : Z) : G unit := fun m =>
  match structures m !! e.1 with
  | Some t => Ret (tt, with_structures m (<[e.1 := <[e.2 := bits]> t]> (structures m)))
  | None => Trap (BadStore e.1)
  end.

(** ** page_table_entry_c *)

Definition has_bits (bits mask : Z) : bool := negb (Z.land bits mask =? 0).
Definition is_present (bits : Z) : bool := has_bits bits PAGE_PRESENT.
Definition is_writable (bits : Z) : bool := has_bits bits PAGE_WRITABLE.
Definition is_shared (bits : Z) : bool := has_bits bits PAGE_SHARED.
Definition is_copy_on_write (bits : Z) : bool := has_bits bits PAGE_COPY_ON_WRITE.
Definition is_super_page (bits : Z) : bool := has_bits bits PAGE_4M_SIZE.
Definition is_accessed (bits : Z) : bool := has_bits bits PAGE_ACCESSED.
Definition is_dirty (bits : Z) : bool := has_bits bits PAGE_DIRTY.
Definition is_swapped (bits : Z) : bool := false.

(** The address that an entry holds. *)
Definition entry_address (bits : Z) : Z := Z.land bits PAGE_BASE_ADDRESS_MASK.

(** The word that [commit_frame] stores. *)
Definition commit_bits (frame flags : Z) : Z :=
  let bits := Z.lor (Z.land frame PAGE_BASE_ADDRESS_MASK) PAGE_PRESENT in
  let bits := Z.lor bits (if has_flag flags MEMORY_WRITABLE then PAGE_WRITABLE else 0) in
  let bits := Z.lor bits (if has_flag flags MEMORY_USER then PAGE_USER else 0) in
  let bits := Z.lor bits (if has_flag flags MEMORY_SHARED then PAGE_SHARED else 0) in
  Z.lor bits (if has_flag flags MEMORY_COPY_ON_WRITE then PAGE_COPY_ON_WRITE else 0).

(** Committing to a page that is present fails an assertion before the status
    is returned. *)
Definition entry_commit_frame (e : entry_cp) (frame flags : Z) : G Z :=
  gassert (negb (frame =? INVALID_FRAME));;
  bits ← read_entry e;
  if negb (is_present bits) then
    write_entry e (commit_bits frame flags);;
    mret STATUS_SUCCESS
  else
    gassert false;;
    mret STATUS_RESOURCE_CONFLICT.

Definition entry_decommit_frame (e : entry_cp) : G Z :=
  bits ← read_entry e;
  let old_frame := entry_address bits in
  gassert (is_present bits);;
  write_entry e 0;;
  mret old_frame.

Definition share_bits (bits : Z) : Z :=
  let bits := Z.lor bits (Z.lor PAGE_SHARED PAGE_COPY_ON_WRITE) in
  if has_bits bits PAGE_WRITABLE then Z.land bits (u32 (Z.lnot PAGE_WRITABLE)) else bits.

Definition entry_share_frame (e : entry_cp) : G Z :=
  bits ← read_entry e;
  if is_present bits then
    write_entry e (share_bits bits);;
    mret (entry_address bits)
  else mret INVALID_FRAME.

Definition entry_swap_frame (e : entry_cp) : G unit :=
  bits ← read_entry e;
  gassert (is_present bits);;
  write_entry e 0.

Definition entry_unshare_frame (e : entry_cp) : G unit :=
  bits ← read_entry e;
  gassert (is_present bits);;
  gassert (is_shared bits);;
  entry_decommit_frame e;;
  mret tt.

(** ** page_table_c *)

Definition table_calculate_index (address : Z) : Z := Z.shiftr (Z.land address PAGE_TABLE_INDEX_MASK) PAGE_TABLE_INDEX_SHIFT.

Definition table_find_entry (t address : Z) : G entry_cp :=
  let index := table_calculate_index address in
  gassert (index <? ENTRIES_PER_PAGE_TABLE);;
  mret (t, index).

(** The scan of the rest of a table: the entry and its page, or nothing. *)
Fixpoint scan_table (fuel : nat) (t index page : Z) : G (option (entry_cp * Z)) :=
  if index <? ENTRIES_PER_PAGE_TABLE then
    match fuel with
    | O => glift (Trap OutOfFuel)
    | S f =>
        bits ← read_entry (t, index);
        if is_present bits then mret (Some ((t, index), page))
        else scan_table f t (index + 1) (u32 (page + PAGE_SIZE))
    end
  else mret None.

Definition table_find_present_entry (t address : Z) : G (option (entry_cp * Z)) :=
  let index := table_calculate_index address in
  gassert (index <? ENTRIES_PER_PAGE_TABLE);;
  scan_table 1024 t index address.

(** [new page_table_c]: a zeroed block, or NULL. *)
Definition new_structure : G Z := fun m =>
  match heap_pages m with
  | [] => Ret (NULL, m)
  | t :: rest => Ret (t, mkPaging (<[t := ∅]> (structures m)) rest)
  end.

(** [delete] of a structure: the block goes back to the heap. *)
Definition delete_structure (t : Z) : G unit := fun m =>
  if t =? NULL then Ret (tt, m)
  else
    match structures m !! t with
    | Some _ => Ret (tt, mkPaging (delete t (structures m)) (t :: heap_pages m))
    | None => Trap (BadStore t)
    end.

(** ** page_directory_c *)

Definition directory_calculate_index (address : Z) : Z := Z.shiftr (Z.land address PAGE_DIRECTORY_INDEX_MASK) PAGE_DIRECTORY_INDEX_SHIFT.

(** [new page_directory_c] with its constructor. *)
Definition page_directory_new : G Z :=
  d ← new_structure;
  if d =? NULL then mret NULL
  else
    aligned ← glift (is_aligned d PAGE_SIZE);
    gassert aligned;;
    write_entry (d, 0) KERNEL_CODE_PAGE;;
    write_entry (d, 1) KERNEL_RAMDISK_PAGE;;
    write_entry (d, 2) KERNEL_DATA_PAGE;;
    mret d.

(** The destructor: the tables from the payload area on. *)
Fixpoint delete_tables (fuel : nat) (d i : Z) : G unit :=
  match fuel with
  | O => mret tt
  | S f =>
      bits ← read_entry (d, i);
      delete_structure (entry_address bits);;
      delete_tables f d (i + 1)
  end.

Definition PAYLOAD_AREA_INDEX : Z := directory_calculate_index 0x20000000.

Definition page_directory_delete (d : Z) : G unit :=
  delete_tables (Z.to_nat (ENTRIES_PER_PAGE_DIRECTORY - PAYLOAD_AREA_INDEX)) d PAYLOAD_AREA_INDEX;;
  delete_structure d.

Definition directory_expand (directory_entry : entry_cp) : G Z :=
  bits ← read_entry directory_entry;
  gassert (negb (is_present bits));;
  page_table ← new_structure;
  if negb (page_table =? NULL) then
    entry_commit_frame directory_entry page_table (Z.lor MEMORY_WRITABLE MEMORY_USER);;
    mret page_table
  else mret page_table.

Definition find_entry (d address : Z) (auto_expand : bool) : G (option entry_cp) :=
  let index := directory_calculate_index address in
  gassert (index <? ENTRIES_PER_PAGE_DIRECTORY);;
  directory_entry ← read_entry (d, index);
  if is_present directory_entry then
    if negb (is_super_page directory_entry) then
      e ← table_find_entry (entry_address directory_entry) address;
      mret (Some e)
    else mret (Some (d, index))
  else if auto_expand then
    page_table ← directory_expand (d, index);
    if negb (page_table =? NULL) then
      e ← table_find_entry page_table address;
      mret (Some e)
    else mret None
  else mret (Some (d, index)).

(** The private [find_present_entry]: one child. *)
Definition find_present_in (d index address : Z) : G (option (entry_cp * Z)) :=
  bits ← read_entry (d, index);
  gassert (is_present bits);;
  if negb (is_super_page bits) then
    gassert (negb (entry_address bits =? NULL));;
    table_find_present_entry (entry_address bits) address
  else mret None.

(** The endless loop over the directory. *)
Fixpoint search_directory (fuel : nat) (d index page : Z) : G (entry_cp * Z) :=
  match fuel with
  | O => glift (Trap OutOfFuel)
  | S f =>
      bits ← read_entry (d, index);
      if negb (is_present bits) then
        search_directory f d ((index + 1) mod ENTRIES_PER_PAGE_DIRECTORY) (u32 (page + SUPER_PAGE_SIZE))
      else
        present_entry ← find_present_in d index page;
        match present_entry with
        | Some r => mret r
        | None =>
            gassert (is_super_page bits);;
            mret ((d, index), page)
        end
  end.

(** The entry, and the page where the search succeeded. *)
Definition find_present_entry (d address : Z) : G (entry_cp * Z) :=
  let index := directory_calculate_index address in
  gassert (index <? ENTRIES_PER_PAGE_DIRECTORY);;
  aligned ← glift (is_aligned address SUPER_PAGE_SIZE);
  bits ← read_entry (d, index);
  if negb aligned && is_present bits then
    present_entry ← find_present_in d index address;
    let index := (index + 1) mod ENTRIES_PER_PAGE_DIRECTORY in
    page ← glift (align_address address SUPER_PAGE_SIZE);
    gassert (directory_calculate_index page =? index);;
    match present_entry with
    | Some r => mret r
    | None => search_directory 1025 d index page
    end
  else search_directory 1025 d index address.
