(* ===== verification/KPagingThms.v ===== *)
(** * Page tables: what the directories translate

    [translation] is the word that the processor finds for a page; every
    operation on an entry is described by its effect on the translations of all
    directories. *)

From S2P Require Import Prelude CMem CStringSearch World Libdx KBase KBitmap KFrames KPaging.

(** ** Bits of an entry *)

Lemma has_bits_testbit b k : 0 <= k -> has_bits b (2 ^ k) = Z.testbit b k.
Proof.
  intros Hk. unfold has_bits. destruct (Z.testbit b k) eqn:Ht.
  - apply negb_true_iff, Z.eqb_neq. intros H0. assert (Z.testbit (Z.land b (2 ^ k)) k = false) as Hf by (rewrite H0; apply Z.bits_0).
    rewrite Z.land_spec, Ht, Z.pow2_bits_true in Hf by done. done.
  - apply negb_false_iff, Z.eqb_eq, Z.bits_inj'. intros i Hi. rewrite Z.bits_0, Z.land_spec, Z.pow2_bits_eqb by done.
    destruct (Z.eqb_spec k i) as [<-|]; [by rewrite Ht|apply andb_false_r].
Qed.

Lemma present_bit b : is_present b = Z.testbit b 0.
Proof. exact (has_bits_testbit b 0 ltac:(lia)). Qed.
Lemma writable_bit b : is_writable b = Z.testbit b 1.
Proof. exact (has_bits_testbit b 1 ltac:(lia)). Qed.
Lemma super_bit b : is_super_page b = Z.testbit b 7.
Proof. exact (has_bits_testbit b 7 ltac:(lia)). Qed.
Lemma shared_bit b : is_shared b = Z.testbit b 9.
Proof. exact (has_bits_testbit b 9 ltac:(lia)). Qed.
Lemma cow_bit b : is_copy_on_write b = Z.testbit b 10.
Proof. exact (has_bits_testbit b 10 ltac:(lia)). Qed.

Lemma if_testbit (b : bool) x k : Z.testbit (if b then x else 0) k = b && Z.testbit x k.
Proof. destruct b; [done|apply Z.bits_0]. Qed.

Ltac entry_bits := rewrite ?present_bit, ?writable_bit, ?super_bit, ?shared_bit, ?cow_bit; unfold commit_bits;
  repeat first [rewrite Z.lor_spec | rewrite Z.land_spec | rewrite if_testbit]; cbn; rewrite ?andb_false_r, ?andb_true_r, ?orb_false_r, ?orb_true_r.

Lemma commit_bits_facts frame flags :
  is_present (commit_bits frame flags) = true /\ is_super_page (commit_bits frame flags) = false /\
  is_writable (commit_bits frame flags) = has_flag flags MEMORY_WRITABLE /\ is_shared (commit_bits frame flags) = has_flag flags MEMORY_SHARED /\
  is_copy_on_write (commit_bits frame flags) = has_flag flags MEMORY_COPY_ON_WRITE.
Proof. split_and!; entry_bits; done. Qed.

Lemma low_bits c i : 0 <= c < 4096 -> 12 <= i -> Z.testbit c i = false.
Proof.
  intros Hc Hi. destruct (decide (c = 0)) as [->|Hn]; [apply Z.bits_0|]. apply Z.bits_above_log2; [lia|].
  assert (Z.log2 c < 12); [|lia]. apply Z.log2_lt_pow2; [lia|]. change (2 ^ 12) with 4096. lia.
Qed.

Lemma mask_low i : 0 <= i < 12 -> Z.testbit PAGE_BASE_ADDRESS_MASK i = false.
Proof. intros Hi. change PAGE_BASE_ADDRESS_MASK with (Z.shiftl 1048575 12). apply Z.shiftl_spec_low. lia. Qed.

(** Low bits do not change the address of an entry. *)
Lemma entry_address_lor b c : 0 <= c < 4096 -> entry_address (Z.lor b c) = entry_address b.
Proof.
  intros Hc. apply Z.bits_inj'. intros i Hi. unfold entry_address. rewrite !Z.land_spec, Z.lor_spec.
  destruct (decide (i < 12)) as [Hl|Hl]; [by rewrite mask_low, !andb_false_r by lia|]. by rewrite (low_bits c), orb_false_r by lia.
Qed.

Lemma entry_address_idem b : entry_address (entry_address b) = entry_address b.
Proof. unfold entry_address. by rewrite <- Z.land_assoc. Qed.

Lemma commit_bits_address frame flags : entry_address (commit_bits frame flags) = entry_address frame.
Proof.
  unfold commit_bits. rewrite !entry_address_lor by (try case_match; done). apply entry_address_idem.
Qed.

Lemma share_bits_facts b : is_present (share_bits b) = is_present b /\ is_super_page (share_bits b) = is_super_page b /\
  is_writable (share_bits b) = false /\ is_shared (share_bits b) = true /\ is_copy_on_write (share_bits b) = true /\
  entry_address (share_bits b) = entry_address b.
Proof.
  assert (entry_address (share_bits b) = entry_address b) as Ha.
  { unfold share_bits. case_match; [|by rewrite entry_address_lor]. rewrite <- (entry_address_lor b (Z.lor PAGE_SHARED PAGE_COPY_ON_WRITE)) by done.
    unfold entry_address. rewrite <- Z.land_assoc. f_equal. }
  split_and!; try done; unfold share_bits; change (has_bits ?x PAGE_WRITABLE) with (is_writable x);
    destruct (is_writable (Z.lor b _)) eqn:Hw; first [exact Hw | change (u32 (Z.lnot PAGE_WRITABLE)) with 4294967293; entry_bits; done].
Qed.

(** ** Indices *)

Definition slot (page : Z) : Z := directory_calculate_index page.

Lemma slot_div page : 0 <= page < 2 ^ 32 -> slot page = page / 2 ^ 22 /\ 0 <= slot page < 1024.
Proof.
  intros Hp. assert (slot page = page / 2 ^ 22) as E.
  { unfold slot, directory_calculate_index, PAGE_DIRECTORY_INDEX_SHIFT. rewrite Z.shiftr_land. change (Z.shiftr PAGE_DIRECTORY_INDEX_MASK 22) with (Z.ones 10).
    rewrite Z.land_ones, Z.shiftr_div_pow2 by lia. apply Z.mod_small. split; [apply Z.div_pos; lia|apply Z.div_lt_upper_bound; lia]. }
  split; [done|]. rewrite E. split; [apply Z.div_pos; lia|apply Z.div_lt_upper_bound; lia].
Qed.

Lemma table_index_div page : 0 <= page < 2 ^ 32 -> table_calculate_index page = (page / 4096) mod 1024 /\ 0 <= table_calculate_index page < 1024.
Proof.
  intros Hp. assert (table_calculate_index page = (page / 4096) mod 1024) as E.
  { unfold table_calculate_index, PAGE_TABLE_INDEX_SHIFT. rewrite Z.shiftr_land. change (Z.shiftr PAGE_TABLE_INDEX_MASK 12) with (Z.ones 10).
    rewrite Z.land_ones, Z.shiftr_div_pow2 by lia. done. }
  split; [done|]. rewrite E. apply Z.mod_pos_bound. lia.
Qed.

(** The two indices determine the page. *)
Lemma same_indices p q : 0 <= p < 2 ^ 32 -> 0 <= q < 2 ^ 32 ->
  slot p = slot q /\ table_calculate_index p = table_calculate_index q <-> p / 4096 = q / 4096.
Proof.
  intros Hp Hq. destruct (slot_div p Hp) as [-> _], (slot_div q Hq) as [-> _], (table_index_div p Hp) as [-> _], (table_index_div q Hq) as [-> _].
  change (2 ^ 22) with (4096 * 1024). rewrite <- !Z.div_div by lia.
  pose proof (Z.div_mod (p / 4096) 1024 ltac:(lia)). pose proof (Z.div_mod (q / 4096) 1024 ltac:(lia)). split; [lia|]. intros ->. done.
Qed.

(** ** Translations *)

Definition word (m : paging) (e : entry_cp) : Z := match structures m !! e.1 with Some t => default 0 (t !! e.2) | None => 0 end.

Definition is_table (bits : Z) : bool := is_present bits && negb (is_super_page bits).

(** Where a search ends, and the word that it finds. *)
Definition located (m : paging) (d page : Z) : entry_cp :=
  let bits := word m (d, slot page) in
  if is_table bits then (entry_address bits, table_calculate_index page) else (d, slot page).
Definition translation (m : paging) (d page : Z) : Z := word m (located m d page).

(** [t] is the table of slot [i] of directory [d]. *)
Definition table_of (m : paging) (d i t : Z) : Prop := is_table (word m (d, i)) = true /\ entry_address (word m (d, i)) = t.

Record paging_ok (m : paging) (dirs : gset Z) : Prop := {
  dirs_exist : forall d, d ∈ dirs -> is_Some (structures m !! d);
  tables_exist : forall d i t, d ∈ dirs -> table_of m d i t -> is_Some (structures m !! t) /\ (t ∉ dirs) /\ t <> NULL;
  tables_private : forall d i d' i' t, d ∈ dirs -> d' ∈ dirs -> table_of m d i t -> table_of m d' i' t -> d = d' /\ i = i';
  absent_zero : forall d i, d ∈ dirs -> is_present (word m (d, i)) = false -> word m (d, i) = 0;
  kernel_mapped : forall d, d ∈ dirs -> word m (d, 0) = KERNEL_CODE_PAGE;
  heap_distinct : NoDup (heap_pages m);
  heap_free : forall t, t ∈ heap_pages m -> structures m !! t = None /\ t <> NULL /\ entry_address t = t }.

Lemma read_entry_run m e : is_Some (structures m !! e.1) -> read_entry e m = Ret (word m e, m).
Proof. intros [t Et]. unfold read_entry, word. by rewrite Et. Qed.

Definition stored (m : paging) (e : entry_cp) (bits : Z) : paging :=
  with_structures m (<[e.1 := <[e.2 := bits]> (default ∅ (structures m !! e.1))]> (structures m)).

Lemma write_entry_run m e bits : is_Some (structures m !! e.1) -> write_entry e bits m = Ret (tt, stored m e bits).
Proof. intros [t Et]. unfold write_entry, stored. by rewrite Et. Qed.

Lemma word_stored m e bits e' : word (stored m e bits) e' = if decide (e' = e) then bits else word m e'.
Proof.
  unfold word, stored. destruct e as [t i], e' as [t' i']. cbn. destruct (decide (t' = t)) as [->|Hne].
  - rewrite lookup_insert_eq. destruct (decide (i' = i)) as [->|Hi].
    + rewrite lookup_insert_eq. by rewrite decide_True.
    + rewrite lookup_insert_ne by done. rewrite decide_False by congruence. destruct (structures m !! t) as [T|]; cbn; [done|by rewrite lookup_empty].
  - rewrite lookup_insert_ne by done. by rewrite decide_False by congruence.
Qed.

Lemma stored_exists m e bits t : is_Some (structures m !! t) -> is_Some (structures (stored m e bits) !! t).
Proof. intros Ht. unfold stored. cbn. destruct (decide (t = e.1)) as [->|]; [rewrite lookup_insert_eq; by eexists|by rewrite lookup_insert_ne]. Qed.

Lemma located_exists m dirs d page : paging_ok m dirs -> d ∈ dirs -> is_Some (structures m !! (located m d page).1).
Proof.
  intros Hok Hd. unfold located. destruct (is_table (word m (d, slot page))) eqn:Ht; cbn; [|by apply (dirs_exist m dirs)].
  by destruct (tables_exist m dirs Hok d (slot page) (entry_address (word m (d, slot page))) Hd) as [? _].
Qed.

Lemma gassert_run b m : b = true -> gassert b m = Ret (tt, m).
Proof. by intros ->. Qed.

(** [find_entry] without expansion. *)
Lemma find_entry_search m dirs d page : paging_ok m dirs -> d ∈ dirs -> 0 <= page < 2 ^ 32 ->
  find_entry d page ONLY_SEARCH m = Ret (Some (located m d page), m).
Proof.
  intros Hok Hd Hp. destruct (slot_div page Hp) as [_ Hs]. destruct (table_index_div page Hp) as [_ Ht].
  unfold find_entry, mbind, G_bind. fold (slot page). rewrite gassert_run by (apply Z.ltb_lt, (proj2 Hs)).
  rewrite (read_entry_run m (d, slot page)) by (by apply (dirs_exist m dirs)). unfold located, is_table.
  destruct (is_present (word m (d, slot page))); [|done]. destruct (is_super_page (word m (d, slot page))); [done|]. cbn [negb andb].
  unfold table_find_entry, mbind, G_bind. rewrite gassert_run by (apply Z.ltb_lt, (proj2 Ht)). done.
Qed.

(** ** Storing a word in a table *)

(** The effect of a store at the entry of a page that a table maps. *)
Lemma stored_translation m dirs d page bits : paging_ok m dirs -> d ∈ dirs -> 0 <= page < 2 ^ 32 -> is_table (word m (d, slot page)) = true ->
  let m' := stored m (located m d page) bits in
  paging_ok m' dirs /\ heap_pages m' = heap_pages m /\
  (forall d' i, d' ∈ dirs -> word m' (d', i) = word m (d', i)) /\
  forall d' page', d' ∈ dirs -> 0 <= page' < 2 ^ 32 ->
    translation m' d' page' = if decide (d' = d /\ page' / 4096 = page / 4096) then bits else translation m d' page'.
Proof.
  intros Hok Hd Hp Ht m'. set (t := entry_address (word m (d, slot page))). assert (table_of m d (slot page) t) as Htab by done.
  destruct (tables_exist m dirs Hok d _ t Hd Htab) as (Hex & Hnd & Hn).
  assert (located m d page = (t, table_calculate_index page)) as Hloc by (unfold located; by rewrite Ht).
  assert (forall d' i, d' ∈ dirs -> word m' (d', i) = word m (d', i)) as Hdir.
  { intros d' i Hd'. unfold m'. rewrite word_stored, Hloc, decide_False; [done|]. intros [= -> _]. done. }
  assert (forall d' i t', d' ∈ dirs -> table_of m' d' i t' <-> table_of m d' i t') as Htabs by (intros d' i t' Hd'; unfold table_of; by rewrite Hdir).
  split; [|split; [done|split; [done|]]].
  - destruct Hok. split; try done.
    + intros d' Hd'. apply stored_exists. auto.
    + intros d' i t' Hd' H'%Htabs; [|done]. destruct (tables_exist0 d' i t' Hd' H') as (? & ? & ?). split; [by apply stored_exists|done].
    + intros d1 i1 d2 i2 t' H1 H2 T1%Htabs T2%Htabs; eauto.
    + intros d' i Hd'. rewrite Hdir by done. auto.
    + intros d' Hd'. rewrite Hdir by done. auto.
    + intros t' Ht'. destruct (heap_free0 t' Ht') as (F1 & F2 & F3). split; [|done]. unfold m', stored. cbn. rewrite lookup_insert_ne; [done|].
      rewrite Hloc. cbn. intros Heq. rewrite Heq, F1 in Hex. by destruct Hex.
  - intros d' page' Hd' Hp'. unfold translation. assert (located m' d' page' = located m d' page') as -> by (unfold located; by rewrite Hdir).
    unfold m'. rewrite word_stored. destruct (decide (d' = d /\ page' / 4096 = page / 4096)) as [[-> Hpp]|Hdiff].
    + apply same_indices in Hpp as [Hs Hi]; [|done|done]. rewrite decide_True; [done|]. unfold located. by rewrite Hs, Hi.
    + rewrite decide_False; [done|]. rewrite Hloc. unfold located at 1. destruct (is_table (word m (d', slot page'))) eqn:Ht'.
      * intros [= Ha Hi]. destruct (tables_private m dirs Hok d' (slot page') d (slot page) t Hd' Hd) as [-> Hs]; [done|done|].
        apply Hdiff. split; [done|]. by apply same_indices.
      * intros [= -> _]. done.
Qed.

(** A new table for the slot of a page: no translation changes. *)
Definition expanded (m : paging) (d page t : Z) (rest : list Z) : paging :=
  stored (mkPaging (<[t := ∅]> (structures m)) rest) (d, slot page) (commit_bits t (Z.lor MEMORY_WRITABLE MEMORY_USER)).

Lemma expanded_ok m dirs d page t rest : paging_ok m dirs -> d ∈ dirs -> 0 <= page < 2 ^ 32 -> is_present (word m (d, slot page)) = false ->
  heap_pages m = t :: rest ->
  let m' := expanded m d page t rest in
  paging_ok m' dirs /\ located m' d page = (t, table_calculate_index page) /\ is_table (word m' (d, slot page)) = true /\
  (forall d' i, d' ∈ dirs -> (d', i) <> (d, slot page) -> word m' (d', i) = word m (d', i)) /\
  forall d' page', d' ∈ dirs -> 0 <= page' < 2 ^ 32 -> translation m' d' page' = translation m d' page'.
Proof.
  intros Hok Hd Hp Hns Hheap m'. pose proof (heap_free m dirs Hok t ltac:(rewrite Hheap; left)) as (F1 & F2 & F3).
  set (b := commit_bits t (Z.lor MEMORY_WRITABLE MEMORY_USER)).
  destruct (commit_bits_facts t (Z.lor MEMORY_WRITABLE MEMORY_USER)) as (B1 & B2 & _). fold b in B1, B2.
  assert (entry_address b = t) as Bt by (unfold b; by rewrite commit_bits_address).
  assert (forall e, e.1 <> t -> word m' e = if decide (e = (d, slot page)) then b else word m e) as Hword.
  { intros [t' i'] Hne. cbn in Hne. unfold m', expanded. rewrite word_stored. destruct (decide _); [done|]. unfold word. cbn. by rewrite lookup_insert_ne. }
  assert (forall e, e.1 = t -> word m' e = 0) as Hnew.
  { intros [t' i'] Heq. cbn in Heq. subst t'. unfold m', expanded. rewrite word_stored, decide_False.
    - unfold word. cbn. rewrite lookup_insert_eq. by rewrite lookup_empty.
    - intros [= -> _]. apply (dirs_exist m dirs Hok) in Hd. rewrite F1 in Hd. by destruct Hd. }
  assert (forall d', d' ∈ dirs -> d' <> t) as Hdt by (intros d' Hd' ->; apply (dirs_exist m dirs Hok) in Hd'; rewrite F1 in Hd'; by destruct Hd').
  assert (forall t', is_Some (structures m !! t') -> is_Some (structures m' !! t')) as Hex.
  { intros t' He. unfold m', expanded. apply stored_exists. cbn. destruct (decide (t' = t)) as [->|]; [rewrite lookup_insert_eq; by eexists|by rewrite lookup_insert_ne]. }
  assert (word m' (d, slot page) = b) as Hslot by (rewrite Hword by (by apply Hdt); by rewrite decide_True).
  assert (is_table b = true) as Hbt by (unfold is_table; by rewrite B1, B2).
  assert (forall d' i t', d' ∈ dirs -> table_of m' d' i t' -> ((d', i) = (d, slot page) /\ t' = t) \/ ((d', i) <> (d, slot page) /\ table_of m d' i t')) as Htabs.
  { intros d' i t' Hd' [T1 T2]. rewrite Hword in T1, T2 by (by apply Hdt). destruct (decide ((d', i) = (d, slot page))); [left; split; congruence|by right]. }
  assert (forall d' i t', d' ∈ dirs -> table_of m d' i t' -> t' <> t) as Hold.
  { intros d' i t' Hd' HT ->. destruct (tables_exist m dirs Hok d' i t Hd' HT) as ([? E] & _). congruence. }
  split; [|split; [unfold located; rewrite Hslot, Hbt, Bt; done|split; [by rewrite Hslot|split]]].
  - split.
    + intros d' Hd'. by apply Hex, (dirs_exist m dirs).
    + intros d' i t' Hd' [[_ ->]|[_ HT]]%Htabs; [|by destruct (tables_exist m dirs Hok d' i t' Hd' HT) as (? & ? & ?); auto|done].
      split; [|split; [intros Ht%Hdt; done|done]]. unfold m', expanded. apply stored_exists. cbn. rewrite lookup_insert_eq. by eexists.
    + intros d1 i1 d2 i2 t' H1 H2 T1 T2. apply Htabs in T1, T2; try done.
      destruct T1 as [[E1 ->]|[N1 T1]], T2 as [[E2 E2']|[N2 T2]].
      * split; congruence.
      * by destruct (Hold _ _ _ H2 T2).
      * subst t'. by destruct (Hold _ _ _ H1 T1).
      * by apply (tables_private m dirs Hok d1 i1 d2 i2 t').
    + intros d' i Hd'. rewrite Hword by (by apply Hdt). destruct (decide _); [congruence|]. by apply (absent_zero m dirs).
    + intros d' Hd'. rewrite Hword by (by apply Hdt). destruct (decide ((d', 0) = (d, slot page))) as [[= -> H0]|]; [|by apply (kernel_mapped m dirs)].
      rewrite <- H0, (kernel_mapped m dirs Hok) in Hns by done. done.
    + unfold m', expanded. cbn. pose proof (heap_distinct m dirs Hok) as Hnd. rewrite Hheap in Hnd. by apply NoDup_cons in Hnd as [_ Hnd].
    + intros t' Ht'. unfold m', expanded in *. cbn in *. pose proof (heap_distinct m dirs Hok) as Hnd. rewrite Hheap in Hnd. apply NoDup_cons in Hnd as [Hni Hnd].
      destruct (heap_free m dirs Hok t') as (G1 & G2 & G3); [rewrite Hheap; by right|]. split; [|done].
      rewrite lookup_insert_ne by (intros ->; apply (dirs_exist m dirs Hok) in Hd; rewrite G1 in Hd; by destruct Hd). rewrite lookup_insert_ne by (by intros ->). done.
  - intros d' i Hd' Hne. rewrite Hword by (by apply Hdt). by rewrite decide_False.
  - intros d' page' Hd' Hp'. unfold translation. destruct (decide ((d', slot page') = (d, slot page))) as [[= -> Hs]|Hne].
    + unfold located. rewrite Hs, Hslot, Hbt, Bt. rewrite Hnew by done. unfold is_table. rewrite Hns. cbn [andb]. symmetry. by apply (absent_zero m dirs).
    + unfold located. rewrite !(Hword (d', slot page')) by (by apply Hdt). rewrite decide_False by done. destruct (is_table (word m (d', slot page'))) eqn:Ht'.
      * rewrite Hword; [|cbn; exact (Hold d' (slot page') _ Hd' (conj Ht' eq_refl))]. rewrite decide_False; [done|]. intros [= Ha _].
        destruct (tables_exist m dirs Hok d' (slot page') (entry_address (word m (d', slot page'))) Hd') as (_ & Hnd & _); [done|]. congruence.
      * rewrite (Hword (d', slot page')) by (by apply Hdt). by rewrite decide_False.
Qed.

(** ** The operations on a page *)

(** Everything but the translation of [page] in [d] is as before; [Some bits]
    is its new translation. *)
Definition remapped (dirs : gset Z) (m : paging) (d page : Z) (new : option Z) (m' : paging) : Prop :=
  paging_ok m' dirs /\
  (forall d' i, d' ∈ dirs -> is_super_page (word m' (d', i)) = is_super_page (word m (d', i))) /\
  forall d' page', d' ∈ dirs -> 0 <= page' < 2 ^ 32 ->
    translation m' d' page' = match new with
      | Some bits => if decide (d' = d /\ page' / 4096 = page / 4096) then bits else translation m d' page'
      | None => translation m d' page'
      end.

(** The slot of the page is not a superpage. *)
Definition mappable (m : paging) (d page : Z) : Prop := is_super_page (word m (d, slot page)) = false.

Lemma remapped_refl dirs m d page : paging_ok m dirs -> remapped dirs m d page None m.
Proof. intros. split; [done|]. by split. Qed.

Lemma zero_not_super : is_super_page 0 = false.
Proof. done. Qed.

Lemma find_entry_expand m dirs d page : paging_ok m dirs -> d ∈ dirs -> 0 <= page < 2 ^ 32 ->
  (find_entry d page EXPAND_TREE m = Ret (None, m) /\ heap_pages m = [] /\ is_present (word m (d, slot page)) = false) \/
  exists m', find_entry d page EXPAND_TREE m = Ret (Some (located m' d page), m') /\ remapped dirs m d page None m' /\
    (mappable m d page -> is_table (word m' (d, slot page)) = true) /\
    (forall d' i, d' ∈ dirs -> (d', i) <> (d, slot page) \/ is_present (word m (d', i)) = true -> word m' (d', i) = word m (d', i)) /\
    (length (heap_pages m) <= S (length (heap_pages m')))%nat.
Proof.
  intros Hok Hd Hp. destruct (slot_div page Hp) as [_ Hs]. destruct (table_index_div page Hp) as [_ Ht].
  destruct (is_present (word m (d, slot page))) eqn:Hpres.
  - right. exists m. pose proof (find_entry_search m dirs d page Hok Hd Hp) as E. split; [|split; [by apply remapped_refl|]].
    + unfold find_entry, mbind, G_bind in *. fold (slot page) in *. rewrite gassert_run in * by (apply Z.ltb_lt, (proj2 Hs)).
      rewrite (read_entry_run m (d, slot page)) in * by (by apply (dirs_exist m dirs)). by rewrite Hpres in *.
    + split; [|split; [done|lia]]. intros Hm. unfold is_table. by rewrite Hpres, Hm.
  - unfold find_entry, mbind, G_bind. fold (slot page). rewrite gassert_run by (apply Z.ltb_lt, (proj2 Hs)).
    rewrite (read_entry_run m (d, slot page)) by (by apply (dirs_exist m dirs)). rewrite Hpres. cbn [EXPAND_TREE].
    unfold directory_expand, mbind, G_bind. rewrite (read_entry_run m (d, slot page)) by (by apply (dirs_exist m dirs)). rewrite gassert_run by (by rewrite Hpres).
    unfold new_structure. destruct (heap_pages m) as [|t rest] eqn:Hheap; [by left|]. right. exists (expanded m d page t rest).
    pose proof (heap_free m dirs Hok t ltac:(rewrite Hheap; left)) as (F1 & F2 & F3).
    destruct (expanded_ok m dirs d page t rest Hok Hd Hp Hpres Hheap) as (H1 & H2 & H3 & H4 & H5).
    destruct (Z.eqb_spec t NULL); [done|]. cbn [negb]. split; [|split; [split; [done|split; [|done]]|split; [done|split; [|done]]]].
    + unfold entry_commit_frame, mbind, G_bind. rewrite gassert_run by (by destruct (Z.eqb_spec t INVALID_FRAME)).
      assert (d <> t) as Hdt by (intros ->; apply (dirs_exist m dirs Hok) in Hd; rewrite F1 in Hd; by destruct Hd).
      set (m1 := mkPaging _ rest). assert (is_Some (structures m1 !! d)) as Hd1 by (cbn; rewrite lookup_insert_ne by done; by apply (dirs_exist m dirs)).
      rewrite (read_entry_run m1 (d, slot page)) by done.
      assert (word m1 (d, slot page) = word m (d, slot page)) as -> by (unfold word; cbn; by rewrite lookup_insert_ne). rewrite Hpres. cbn [negb].
      rewrite (write_entry_run m1 (d, slot page)) by done. cbn. unfold table_find_entry, mbind, G_bind. destruct (Z.eqb_spec t NULL); [done|]. cbn [negb].
      rewrite gassert_run by (apply Z.ltb_lt, (proj2 Ht)). rewrite H2. done.
    + intros d' i Hd'. destruct (decide ((d', i) = (d, slot page))) as [[= -> ->]|Hne]; [|by rewrite H4].
      rewrite (absent_zero m dirs Hok d _ Hd Hpres), zero_not_super. apply andb_true_iff in H3 as [_ H3]. by apply negb_true_iff in H3.
    + intros d' i Hd' Hor. apply H4; [done|]. destruct Hor as [Hne|Hpr]; [done|]. intros [= -> ->]. congruence.
Qed.

(** Committing a frame to a page that is not present. *)
Definition commit_page (d page frame flags : Z) : G Z :=
  e ← find_entry d page EXPAND_TREE;
  match e with
  | None => mret STATUS_INSUFFICIENT_MEMORY
  | Some e => entry_commit_frame e frame flags
  end.

Lemma commit_page_ok m dirs d page frame flags : paging_ok m dirs -> d ∈ dirs -> 0 <= page < 2 ^ 32 -> mappable m d page ->
  is_present (translation m d page) = false -> frame <> INVALID_FRAME ->
  (commit_page d page frame flags m = Ret (STATUS_INSUFFICIENT_MEMORY, m) /\ heap_pages m = []) \/
  exists m', commit_page d page frame flags m = Ret (STATUS_SUCCESS, m') /\ remapped dirs m d page (Some (commit_bits frame flags)) m'.
Proof.
  intros Hok Hd Hp Hm Hpres Hf. unfold commit_page, mbind, G_bind.
  destruct (find_entry_expand m dirs d page Hok Hd Hp) as [(E & Hh & _)|(m1 & E & (Hok1 & Hsup & Htr) & Htab & _)]; rewrite E; [by left|]. right.
  specialize (Htab Hm). destruct (stored_translation m1 dirs d page (commit_bits frame flags) Hok1 Hd Hp Htab) as (Hok2 & _ & Hdir & Htr2).
  eexists. split.
  - unfold entry_commit_frame, mbind, G_bind. rewrite gassert_run by (by destruct (Z.eqb_spec frame INVALID_FRAME)).
    pose proof (located_exists m1 dirs d page Hok1 Hd) as Hex. rewrite read_entry_run by done. fold (translation m1 d page). rewrite Htr by done. rewrite Hpres. cbn [negb].
    rewrite write_entry_run by done. reflexivity.
  - split; [done|]. split; [intros d' i Hd'; rewrite Hdir by done; auto|]. intros d' page' Hd' Hp'. rewrite Htr2 by done. case_decide; [done|]. by rewrite Htr.
Qed.

(** Operations on a page that is present in a table. *)
Lemma present_table m dirs d page : paging_ok m dirs -> d ∈ dirs -> mappable m d page -> is_present (translation m d page) = true ->
  is_table (word m (d, slot page)) = true.
Proof.
  intros Hok Hd Hm Hpres. unfold is_table, mappable in *. rewrite Hm. cbn. rewrite andb_true_r.
  unfold translation, located, is_table in Hpres. rewrite Hm in Hpres. cbn in Hpres. rewrite andb_true_r in Hpres.
  destruct (is_present (word m (d, slot page))) eqn:E; [done|]. congruence.
Qed.

Lemma store_page_ok m dirs d page bits : paging_ok m dirs -> d ∈ dirs -> 0 <= page < 2 ^ 32 -> mappable m d page -> is_present (translation m d page) = true ->
  remapped dirs m d page (Some bits) (stored m (located m d page) bits).
Proof.
  intros Hok Hd Hp Hm Hpres. pose proof (present_table m dirs d page Hok Hd Hm Hpres) as Ht.
  destruct (stored_translation m dirs d page bits Hok Hd Hp Ht) as (H1 & _ & H2 & H3). split; [done|]. split; [|done].
  intros d' i Hd'. by rewrite H2.
Qed.

Lemma decommit_run m dirs d page : paging_ok m dirs -> d ∈ dirs -> 0 <= page < 2 ^ 32 -> is_present (translation m d page) = true ->
  entry_decommit_frame (located m d page) m = Ret (entry_address (translation m d page), stored m (located m d page) 0).
Proof.
  intros Hok Hd Hp Hpres. pose proof (located_exists m dirs d page Hok Hd) as Hex. unfold entry_decommit_frame, mbind, G_bind.
  rewrite read_entry_run by done. fold (translation m d page). rewrite gassert_run by done. by rewrite write_entry_run.
Qed.

Lemma unshare_run m dirs d page : paging_ok m dirs -> d ∈ dirs -> 0 <= page < 2 ^ 32 -> is_present (translation m d page) = true ->
  is_shared (translation m d page) = true -> entry_unshare_frame (located m d page) m = Ret (tt, stored m (located m d page) 0).
Proof.
  intros Hok Hd Hp Hpres Hsh. pose proof (located_exists m dirs d page Hok Hd) as Hex. unfold entry_unshare_frame, mbind, G_bind.
  rewrite read_entry_run by done. fold (translation m d page). rewrite !gassert_run by done. by rewrite (decommit_run m dirs).
Qed.

Lemma share_run m dirs d page : paging_ok m dirs -> d ∈ dirs -> 0 <= page < 2 ^ 32 -> is_present (translation m d page) = true ->
  entry_share_frame (located m d page) m = Ret (entry_address (translation m d page), stored m (located m d page) (share_bits (translation m d page))).
Proof.
  intros Hok Hd Hp Hpres. pose proof (located_exists m dirs d page Hok Hd) as Hex. unfold entry_share_frame, mbind, G_bind.
  rewrite read_entry_run by done. fold (translation m d page). rewrite Hpres. by rewrite write_entry_run.
Qed.

(** ** The search for the first page that is present *)

Lemma u32_add_l a b : u32 (u32 a + b) = u32 (a + b).
Proof. unfold u32. apply Zplus_mod_idemp_l. Qed.

Lemma scan_table_run m t fuel : is_Some (structures m !! t) -> forall index page, 0 <= index <= 1024 -> 0 <= page < 2 ^ 32 -> (Z.to_nat (1024 - index) <= fuel)%nat ->
  (exists j, index <= j < 1024 /\ scan_table fuel t index page m = Ret (Some ((t, j), u32 (page + (j - index) * 4096)), m) /\
     is_present (word m (t, j)) = true /\ forall k, index <= k < j -> is_present (word m (t, k)) = false) \/
  (scan_table fuel t index page m = Ret (None, m) /\ forall k, index <= k < 1024 -> is_present (word m (t, k)) = false).
Proof.
  intros Ht. induction fuel as [|fuel IH]; intros index page Hi Hp Hf; cbn [scan_table]; unfold ENTRIES_PER_PAGE_TABLE; destruct (Z.ltb_spec index 1024) as [Hlt|Hge]; [lia| | |].
  1,3: right; split; [done|]; intros k Hk; lia.
  unfold mbind, G_bind. rewrite read_entry_run by done. destruct (is_present (word m (t, index))) eqn:Hpres.
  - left. exists index. split; [lia|]. split; [|split; [done|intros k Hk; lia]]. rewrite Z.sub_diag, Z.add_0_r, u32_small by lia. done.
  - destruct (IH (index + 1) (u32 (page + PAGE_SIZE))) as [(j & Hj & E & Hp' & Hb)|[E Hb]]; [lia|apply u32_range|lia| |].
    + left. exists j. split; [lia|]. rewrite E. split; [|split; [done|]].
      * rewrite u32_add_l. unfold PAGE_SIZE. replace (page + 4096 + (j - (index + 1)) * 4096) with (page + (j - index) * 4096) by lia. done.
      * intros k Hk. destruct (decide (k = index)) as [->|]; [done|]. apply Hb. lia.
    + right. split; [done|]. intros k Hk. destruct (decide (k = index)) as [->|]; [done|]. apply Hb. lia.
Qed.

(** A page of a slot, as the table sees it. *)
Lemma slot_page i j : 0 <= i < 1024 -> 0 <= j < 1024 ->
  slot (i * 2 ^ 22 + j * 4096) = i /\ table_calculate_index (i * 2 ^ 22 + j * 4096) = j /\ 0 <= i * 2 ^ 22 + j * 4096 < 2 ^ 32.
Proof.
  intros Hi Hj. assert (0 <= i * 2 ^ 22 + j * 4096 < 2 ^ 32) as Hr by lia.
  destruct (slot_div _ Hr) as [-> _], (table_index_div _ Hr) as [-> _]. split; [|split; [|done]].
  - rewrite Z.div_add_l by lia. rewrite Z.div_small by lia. lia.
  - change (2 ^ 22) with (1024 * 4096). replace (i * (1024 * 4096) + j * 4096) with ((i * 1024 + j) * 4096) by lia. rewrite Z.div_mul by lia.
    rewrite Z.add_comm, Z.mod_add by lia. by apply Z.mod_small.
Qed.

(** No page from [lo] up to [hi] is present. *)
Definition absent (m : paging) (d lo hi : Z) : Prop := forall q, lo <= q < hi -> is_present (translation m d q) = false.

(** The answer of a search that starts at [a]. *)
Definition first_present (m : paging) (d a : Z) (r : entry_cp * Z) : Prop :=
  (exists page, r = (located m d page, page) /\ a <= page < 2 ^ 32 /\ page mod 4096 = 0 /\ is_present (translation m d page) = true /\ absent m d a page) \/
  (r = ((d, 0), 0) /\ absent m d a (2 ^ 32)).

(** From slot [lo] on there are no superpages and no empty tables. *)
Definition populated (m : paging) (d lo : Z) : Prop := forall i, lo <= i < 1024 ->
  is_super_page (word m (d, i)) = false /\
  (is_present (word m (d, i)) = true -> exists j, 0 <= j < 1024 /\ is_present (word m (entry_address (word m (d, i)), j)) = true).

Lemma page_in_slot q : 0 <= q < 2 ^ 32 -> slot q * 2 ^ 22 + table_calculate_index q * 4096 = q / 4096 * 4096.
Proof.
  intros Hq. destruct (slot_div q Hq) as [-> _], (table_index_div q Hq) as [-> _]. change (2 ^ 22) with (4096 * 1024). rewrite <- Z.div_div by lia.
  pose proof (Z.div_mod (q / 4096) 1024 ltac:(lia)). lia.
Qed.

Lemma translation_table m d q i : slot q = i -> is_table (word m (d, i)) = true -> translation m d q = word m (entry_address (word m (d, i)), table_calculate_index q).
Proof. intros <- Ht. unfold translation, located. by rewrite Ht. Qed.

Lemma translation_absent m d q i : slot q = i -> is_present (word m (d, i)) = false -> is_present (translation m d q) = false.
Proof. intros <- Ht. unfold translation, located, is_table. by rewrite Ht. Qed.

(** One table of the directory, from index [j0]. *)
Lemma find_present_in_table m dirs d i j0 : paging_ok m dirs -> d ∈ dirs -> 0 <= i < 1024 -> 0 <= j0 < 1024 -> is_table (word m (d, i)) = true ->
  (exists page, find_present_in d i (i * 2 ^ 22 + j0 * 4096) m = Ret (Some (located m d page, page), m) /\ slot page = i /\ i * 2 ^ 22 + j0 * 4096 <= page < (i + 1) * 2 ^ 22 /\
     page mod 4096 = 0 /\ is_present (translation m d page) = true /\ absent m d (i * 2 ^ 22 + j0 * 4096) page) \/
  (find_present_in d i (i * 2 ^ 22 + j0 * 4096) m = Ret (None, m) /\ absent m d (i * 2 ^ 22 + j0 * 4096) ((i + 1) * 2 ^ 22) /\
     forall k, j0 <= k < 1024 -> is_present (word m (entry_address (word m (d, i)), k)) = false).
Proof.
  intros Hok Hd Hi Hj Ht. destruct (slot_page i j0 Hi Hj) as (S1 & S2 & S3). pose proof Ht as Ht'. apply andb_true_iff in Ht' as [Hpres Hsup]. apply negb_true_iff in Hsup.
  set (t := entry_address (word m (d, i))) in *. destruct (tables_exist m dirs Hok d i t Hd) as (Hex & _ & Hn); [done|].
  assert (forall q, i * 2 ^ 22 + j0 * 4096 <= q < (i + 1) * 2 ^ 22 -> slot q = i /\ j0 <= table_calculate_index q < 1024 /\
    translation m d q = word m (t, table_calculate_index q) /\ i * 2 ^ 22 + table_calculate_index q * 4096 <= q) as Hq.
  { intros q Hq. assert (0 <= q < 2 ^ 32) as Hq' by lia. destruct (slot_div q Hq') as [Sq _], (table_index_div q Hq') as [_ Tq]. pose proof (page_in_slot q Hq') as Hpq.
    assert (slot q = i) as Hs. { rewrite Sq. symmetry. apply (Z.div_unique _ _ _ (q - i * 2 ^ 22)); lia. }
    rewrite Hs in Hpq. pose proof (Z.div_mod q 4096 ltac:(lia)). pose proof (Z.mod_pos_bound q 4096 ltac:(lia)). split; [done|]. split; [lia|].
    split; [by apply translation_table|]. lia. }
  unfold find_present_in, mbind, G_bind. rewrite read_entry_run by (by apply (dirs_exist m dirs)). rewrite gassert_run by done. rewrite Hsup. cbn [negb]. fold t.
  rewrite gassert_run by (by destruct (Z.eqb_spec t NULL)). unfold table_find_present_entry, mbind, G_bind. rewrite S2. rewrite gassert_run by (apply Z.ltb_lt; unfold ENTRIES_PER_PAGE_TABLE; lia).
  destruct (scan_table_run m t 1024 Hex j0 (i * 2 ^ 22 + j0 * 4096)) as [(j & Hjj & E & Hp & Hb)|[E Hb]]; [lia|done|lia| |]; rewrite E.
  - left. destruct (slot_page i j Hi ltac:(lia)) as (T1 & T2 & T3). exists (i * 2 ^ 22 + j * 4096).
    assert (located m d (i * 2 ^ 22 + j * 4096) = (t, j)) as Hloc by (unfold located; by rewrite T1, T2, Ht).
    rewrite Hloc. split; [replace (i * 2 ^ 22 + j0 * 4096 + (j - j0) * 4096) with (i * 2 ^ 22 + j * 4096) by lia; by rewrite u32_small by lia|].
    split; [done|]. split; [lia|]. split; [replace (i * 2 ^ 22 + j * 4096) with ((i * 1024 + j) * 4096) by lia; apply Z.mod_mul; lia|]. split; [unfold translation; by rewrite Hloc|].
    intros q Hqq. destruct (Hq q ltac:(lia)) as (_ & Q2 & -> & Q4). apply Hb. lia.
  - right. split; [done|]. split; [|done]. intros q Hqq. destruct (Hq q Hqq) as (_ & Q2 & -> & _). by apply Hb.
Qed.

Lemma first_present_from m d a b r : a <= b -> absent m d a b -> first_present m d b r -> first_present m d a r.
Proof.
  intros Hab Habs [(page & -> & Hp & Hal & Hpres & Hb)|[-> Hb]]; [left; exists page; split; [done|]; split; [lia|]; split; [done|]; split; [done|]|right; split; [done|]];
    intros q Hq; destruct (decide (q < b)); [apply Habs; lia|apply Hb; lia|apply Habs; lia|apply Hb; lia].
Qed.

(** The loop over the directory, from the start of slot [i]; slot 1024 is slot
    0 again, where the kernel is. *)
Lemma search_directory_run m dirs d fuel : paging_ok m dirs -> d ∈ dirs -> forall i, 0 <= i <= 1024 -> populated m d i -> (Z.to_nat (1024 - i) < fuel)%nat ->
  exists r, search_directory fuel d (i mod 1024) (u32 (i * 2 ^ 22)) m = Ret (r, m) /\ first_present m d (i * 2 ^ 22) r.
Proof.
  intros Hok Hd. induction fuel as [|fuel IH]; intros i Hi Hpop Hf; [lia|]. cbn [search_directory]. unfold mbind, G_bind.
  rewrite read_entry_run by (by apply (dirs_exist m dirs)). destruct (decide (i = 1024)) as [->|Hne].
  { change (1024 mod 1024) with 0. rewrite (kernel_mapped m dirs Hok d Hd). cbn [negb]. change (negb (is_present KERNEL_CODE_PAGE)) with false. cbn iota.
    unfold find_present_in, mbind, G_bind. rewrite read_entry_run by (by apply (dirs_exist m dirs)). rewrite (kernel_mapped m dirs Hok d Hd).
    eexists. split; [reflexivity|]. right. split; [done|]. intros q Hq. lia. }
  rewrite (Z.mod_small i) by lia. rewrite (u32_small (i * 2 ^ 22)) by lia. destruct (Hpop i ltac:(lia)) as [Hsup Hne'].
  destruct (is_present (word m (d, i))) eqn:Hpres; cbn [negb].
  - assert (is_table (word m (d, i)) = true) as Ht by (unfold is_table; by rewrite Hpres, Hsup). replace (i * 2 ^ 22) with (i * 2 ^ 22 + 0 * 4096) by lia.
    destruct (find_present_in_table m dirs d i 0 Hok Hd ltac:(lia) ltac:(lia) Ht) as [(page & E & Hs & Hp & Hal & Hpp & Hb)|(E & _ & Hb)]; rewrite E.
    + eexists. split; [reflexivity|]. left. exists page. split; [done|]. split; [lia|]. done.
    + destruct (Hne' eq_refl) as (j & Hj & Hjp). rewrite Hb in Hjp by lia. done.
  - destruct (IH (i + 1)) as (r & E & Hr); [lia|intros k Hk; apply Hpop; lia|lia|]. exists r. unfold ENTRIES_PER_PAGE_DIRECTORY, SUPER_PAGE_SIZE.
    replace (i * 2 ^ 22 + 4 * 1024 * 1024) with ((i + 1) * 2 ^ 22) by lia. split; [exact E|]. eapply first_present_from; [|  |exact Hr]; [lia|].
    intros q Hq. apply (translation_absent m d q i); [|done]. assert (0 <= q < 2 ^ 32) as Hq' by lia. destruct (slot_div q Hq') as [-> _].
    symmetry. apply (Z.div_unique _ _ _ (q - i * 2 ^ 22)); lia.
Qed.

Lemma aligned_run a n : 0 <= n <= 31 -> is_aligned a (2 ^ n) = Ret (a mod 2 ^ n =? 0).
Proof.
  intros Hn. unfold is_aligned. assert (0 < 2 ^ n <= 2147483648) as Hpow by (split; [lia|change 2147483648 with (2 ^ 31); apply Z.pow_le_mono_r; lia]).
  assert (is_2n (2 ^ n) = true) as ->.
  { unfold is_2n. rewrite u32_small by lia. rewrite Z.sub_1_r, <- Z.ones_equiv, Z.land_ones, Z.mod_same by lia. done. }
  cbn. f_equal. f_equal. rewrite u32_small by lia. rewrite Z.sub_1_r, <- Z.ones_equiv, Z.land_ones by lia. done.
Qed.

Lemma super_aligned_run a : is_aligned a SUPER_PAGE_SIZE = Ret (a mod 2 ^ 22 =? 0).
Proof. exact (aligned_run a 22 ltac:(lia)). Qed.

Lemma align_super_run a : 0 <= a < 2 ^ 32 -> (a mod 2 ^ 22 =? 0) = false -> align_address a SUPER_PAGE_SIZE = Ret (u32 ((slot a + 1) * 2 ^ 22)).
Proof.
  intros Ha Hal. apply Z.eqb_neq in Hal. destruct (slot_div a Ha) as [-> _]. unfold align_address. change (is_2n SUPER_PAGE_SIZE) with true.
  cbn [kassert mbind res_bind mret res_ret]. f_equal. change (u32 (Z.lnot (u32 (SUPER_PAGE_SIZE - 1)))) with (Z.shiftl (Z.ones 10) 22).
  set (x := a / 2 ^ 22). pose proof (Z.div_mod a (2 ^ 22) ltac:(lia)) as Hdm. pose proof (Z.mod_pos_bound a (2 ^ 22) ltac:(lia)) as Hmb. fold x in Hdm.
  assert (0 <= x < 1024) as Hx by (unfold x; split; [apply Z.div_pos; lia|apply Z.div_lt_upper_bound; lia]).
  apply Z.bits_inj'. intros k Hk. rewrite Z.land_spec. destruct (decide (k < 22)) as [Hl|Hl].
  - rewrite Z.shiftl_spec_low, andb_false_r by lia. symmetry. rewrite u32_testbit by lia. rewrite <- Z.shiftl_mul_pow2, Z.shiftl_spec_low by lia. apply andb_false_r.
  - rewrite Z.shiftl_spec by lia. rewrite !u32_testbit by lia.
    assert (forall y, Z.testbit y k = Z.testbit (y / 2 ^ 22) (k - 22)) as Hdiv.
    { intros y. rewrite <- Z.shiftr_div_pow2, Z.shiftr_spec by lia. f_equal. lia. }
    rewrite (Hdiv (a + SUPER_PAGE_SIZE - 1)), (Hdiv ((x + 1) * 2 ^ 22)), Z.div_mul by lia.
    assert ((a + SUPER_PAGE_SIZE - 1) / 2 ^ 22 = x + 1) as -> by (symmetry; apply (Z.div_unique _ _ _ (a mod 2 ^ 22 - 1)); unfold SUPER_PAGE_SIZE; lia).
    rewrite Z.testbit_ones_nonneg by lia. destruct (Z.ltb_spec k 32), (Z.ltb_spec (k - 22) 10); cbn; rewrite ?andb_true_r, ?andb_false_r; try done; lia.
Qed.

Lemma next_slot i : 0 <= i < 1024 -> directory_calculate_index (u32 ((i + 1) * 2 ^ 22)) = (i + 1) mod ENTRIES_PER_PAGE_DIRECTORY.
Proof.
  intros Hi. destruct (Z.eq_dec i 1023) as [E|E]; [subst i; reflexivity|].
  rewrite u32_small by lia. unfold ENTRIES_PER_PAGE_DIRECTORY. rewrite Z.mod_small by lia.
  pose proof (slot_page (i + 1) 0 ltac:(lia) ltac:(lia)) as (S1 & _). rewrite Z.add_0_r in S1. exact S1.
Qed.

Lemma find_present_entry_ok m dirs d a : paging_ok m dirs -> d ∈ dirs -> 0 <= a < 2 ^ 32 -> a mod 4096 = 0 ->
  a mod 2 ^ 22 = 0 \/ is_present (word m (d, slot a)) = true ->
  populated m d (if decide (a mod 2 ^ 22 = 0) then slot a else slot a + 1) -> is_super_page (word m (d, slot a)) = false ->
  exists r, find_present_entry d a m = Ret (r, m) /\ first_present m d a r.
Proof.
  intros Hok Hd Ha Hal Hstart Hpop Hsup. destruct (slot_div a Ha) as [Hsd Hs]. unfold find_present_entry, mbind, G_bind. fold (slot a).
  rewrite gassert_run by (apply Z.ltb_lt; exact (proj2 Hs)). rewrite super_aligned_run. cbn [glift]. rewrite read_entry_run by (by apply (dirs_exist m dirs)).
  pose proof (page_in_slot a Ha) as Hpage. assert (a / 4096 * 4096 = a) as Ha4 by (pose proof (Z.div_mod a 4096 ltac:(lia)); lia). rewrite Ha4 in Hpage.
  destruct (table_index_div a Ha) as [_ Hti]. destruct (Z.eqb_spec (a mod 2 ^ 22) 0) as [Hz|Hnz].
  - rewrite decide_True in Hpop by done. cbn [negb andb]. assert (a = slot a * 2 ^ 22) as Has by (rewrite Hsd; pose proof (Z.div_mod a (2 ^ 22) ltac:(lia)); lia).
    destruct (search_directory_run m dirs d 1025 Hok Hd (slot a)) as (r & E & Hr); [lia|done|lia|].
    rewrite (Z.mod_small (slot a)), <- Has, u32_small in E by lia. rewrite <- Has in Hr. exists r. done.
  - rewrite decide_False in Hpop by done. destruct Hstart as [|Hpres]; [done|]. rewrite Hpres. cbn [negb andb].
    assert (is_table (word m (d, slot a)) = true) as Ht by (unfold is_table; by rewrite Hpres, Hsup).
    pose proof (find_present_in_table m dirs d (slot a) (table_calculate_index a) Hok Hd ltac:(lia) Hti Ht) as Hin. rewrite Hpage in Hin.
    destruct Hin as [(page & E & Hsp & Hp & Hpa & Hpp & Hb)|(E & Hb & _)]; rewrite E.
    all: rewrite align_super_run by (done || by apply Z.eqb_neq); cbn [glift].
    all: rewrite gassert_run by (apply Z.eqb_eq, next_slot; lia).
    + exists (located m d page, page). split; [done|]. left. exists page. split; [done|]. split; [lia|]. done.
    + destruct (search_directory_run m dirs d 1025 Hok Hd (slot a + 1)) as (r & Er & Hr); [lia|done|lia|]. exists r. split; [exact Er|].
      eapply first_present_from; [|exact Hb|exact Hr]. pose proof (Z.div_mod a (2 ^ 22) ltac:(lia)). pose proof (Z.mod_pos_bound a (2 ^ 22) ltac:(lia)). lia.
Qed.

(** An unaligned search over slots without a table keeps its offset: it enters
    the first table in the middle. *)
Lemma search_directory_skips m dirs d k : paging_ok m dirs -> d ∈ dirs -> forall fuel i page, 0 <= i -> i + Z.of_nat k < 1024 ->
  0 <= page -> page + Z.of_nat k * 2 ^ 22 < 2 ^ 32 -> (k < fuel)%nat ->
  (forall j, i <= j < i + Z.of_nat k -> is_present (word m (d, j)) = false) -> is_present (word m (d, i + Z.of_nat k)) = true ->
  is_super_page (word m (d, i + Z.of_nat k)) = false ->
  search_directory fuel d i page m = match find_present_in d (i + Z.of_nat k) (page + Z.of_nat k * 2 ^ 22) m with
    | Ret (Some r, m') => Ret (r, m') | Ret (None, _) => Trap AssertFailed | Trap t => Trap t end.
Proof.
  intros Hok Hd. induction k as [|k IH]; intros fuel i page Hi Hik Hp Hpk Hf Habs Hpres Hsup; (destruct fuel as [|fuel]; [lia|]); cbn [search_directory]; unfold mbind, G_bind.
  - rewrite Z.add_0_r in *. rewrite read_entry_run, Hpres by (by apply (dirs_exist m dirs)). cbn [negb]. replace (page + Z.of_nat 0 * 2 ^ 22) with page by lia.
    destruct (find_present_in d i page m) as [[[r|] m']|]; [done| |done]. rewrite Hsup. done.
  - rewrite read_entry_run by (by apply (dirs_exist m dirs)). rewrite (Habs i) by lia. cbn [negb]. unfold ENTRIES_PER_PAGE_DIRECTORY, SUPER_PAGE_SIZE.
    rewrite Z.mod_small, u32_small by lia. change (4 * 1024 * 1024) with (2 ^ 22).
    replace (i + Z.of_nat (S k)) with (i + 1 + Z.of_nat k) in * by lia. replace (page + Z.of_nat (S k) * 2 ^ 22) with (page + 2 ^ 22 + Z.of_nat k * 2 ^ 22) in * by lia.
    apply IH; try done; try lia. intros j Hj. apply Habs. lia.
Qed.

Lemma find_present_entry_unaligned m dirs d a k : paging_ok m dirs -> d ∈ dirs -> 0 <= a < 2 ^ 32 -> a mod 4096 = 0 -> a mod 2 ^ 22 <> 0 ->
  0 < k -> slot a + k < 1024 -> (forall i, slot a <= i < slot a + k -> is_present (word m (d, i)) = false) -> is_table (word m (d, slot a + k)) = true ->
  (exists page, find_present_entry d a m = Ret ((located m d page, page), m) /\ a + k * 2 ^ 22 <= page < (slot a + k + 1) * 2 ^ 22 /\ is_present (translation m d page) = true) \/
  (find_present_entry d a m = Trap AssertFailed /\ absent m d (a + k * 2 ^ 22) ((slot a + k + 1) * 2 ^ 22)).
Proof.
  intros Hok Hd Ha Hal Hun Hk Hlt Habs Ht. destruct (slot_div a Ha) as [Hsd Hs]. pose proof Ht as [Hpres Hsup]%andb_true_iff. apply negb_true_iff in Hsup.
  unfold find_present_entry, mbind, G_bind. fold (slot a). rewrite gassert_run by (apply Z.ltb_lt; exact (proj2 Hs)). rewrite super_aligned_run. cbn [glift].
  rewrite read_entry_run by (by apply (dirs_exist m dirs)). rewrite (Habs (slot a)) by lia. rewrite andb_false_r. pose proof (Z.div_mod a (2 ^ 22) ltac:(lia)) as Hdm.
  pose proof (Z.mod_pos_bound a (2 ^ 22) ltac:(lia)) as Hmb. pose proof (search_directory_skips m dirs d (Z.to_nat k) Hok Hd 1025 (slot a) a) as Hrun. rewrite !Z2Nat.id in Hrun by lia.
  rewrite Hrun by (done || lia). clear Hrun. pose proof (page_in_slot a Ha) as Hpage. assert (a / 4096 * 4096 = a) as Ha4 by (pose proof (Z.div_mod a 4096 ltac:(lia)); lia).
  rewrite Ha4 in Hpage. destruct (table_index_div a Ha) as [_ Hti]. replace (a + k * 2 ^ 22) with ((slot a + k) * 2 ^ 22 + table_calculate_index a * 4096) by lia.
  destruct (find_present_in_table m dirs d (slot a + k) (table_calculate_index a) Hok Hd ltac:(lia) Hti Ht) as [(page & E & _ & Hp & _ & Hpp & _)|(E & Hb & _)]; rewrite E; [left|right]; [|done].
  exists page. split; [done|]. split; [lia|done].
Qed.

(** ** Searches leave the structures alone *)

Definition reads {A} (c : G A) : Prop := forall m, match c m with Ret (_, m') => m' = m | Trap _ => True end.

Lemma reads_bind {A B} (c : G A) (k : A -> G B) : reads c -> (forall a, reads (k a)) -> reads (c ≫= k).
Proof.
  intros Hc Hk m. specialize (Hc m). unfold mbind, G_bind. destruct (c m) as [[a m']|]; [|done]. subst m'. apply Hk.
Qed.

Lemma reads_ret {A} (a : A) : reads (mret a).
Proof. done. Qed.
Lemma reads_lift {A} (c : res A) : reads (glift c).
Proof. intros m. unfold glift. by destruct c. Qed.
Lemma reads_entry e : reads (read_entry e).
Proof. intros m. unfold read_entry. by destruct (structures m !! e.1). Qed.

Lemma scan_table_reads fuel t : forall index page, reads (scan_table fuel t index page).
Proof.
  induction fuel as [|fuel IH]; intros index page; cbn [scan_table]; case_match; try done. apply reads_bind; [apply reads_entry|]. intros bits. case_match; [done|apply IH].
Qed.

Lemma find_present_in_reads d index page : reads (find_present_in d index page).
Proof.
  apply reads_bind; [apply reads_entry|]. intros bits. apply reads_bind; [apply reads_lift|]. intros []. case_match; [|done].
  apply reads_bind; [apply reads_lift|]. intros []. apply reads_bind; [apply reads_lift|]. intros []. apply scan_table_reads.
Qed.

Lemma search_directory_reads fuel d : forall index page, reads (search_directory fuel d index page).
Proof.
  induction fuel as [|fuel IH]; intros index page; cbn [search_directory]; [done|]. apply reads_bind; [apply reads_entry|]. intros bits. case_match; [apply IH|].
  apply reads_bind; [apply find_present_in_reads|]. intros [r|]; [done|]. apply reads_bind; [apply reads_lift|]. done.
Qed.

Lemma find_present_entry_reads d address : reads (find_present_entry d address).
Proof.
  apply reads_bind; [apply reads_lift|]. intros []. apply reads_bind; [apply reads_lift|]. intros aligned. apply reads_bind; [apply reads_entry|]. intros bits.
  case_match; [|apply search_directory_reads]. apply reads_bind; [apply find_present_in_reads|]. intros r. apply reads_bind; [apply reads_lift|]. intros page.
  apply reads_bind; [apply reads_lift|]. intros []. case_match; [done|apply search_directory_reads].
Qed.

(** ** A new directory *)

Lemma page_aligned_mod t : entry_address t = t -> t mod 2 ^ 12 = 0.
Proof.
  intros Ht. rewrite <- Z.land_ones by lia. apply Z.bits_inj'. intros i Hi. rewrite Z.bits_0, Z.land_spec. destruct (decide (i < 12)) as [Hl|Hl].
  - rewrite <- Ht. unfold entry_address. by rewrite Z.land_spec, mask_low, andb_false_r by lia.
  - rewrite Z.ones_spec_high by lia. apply andb_false_r.
Qed.

Lemma decide_second (d i j x y : Z) : (if decide ((d, i) = (d, j)) then x else y) = if decide (i = j) then x else y.
Proof. destruct (decide (i = j)) as [->|]; [by rewrite decide_True|]. rewrite decide_False; [done|]. congruence. Qed.

Lemma page_directory_new_ok m dirs d rest : paging_ok m dirs -> heap_pages m = d :: rest -> exists m', page_directory_new m = Ret (d, m') /\ heap_pages m' = rest /\
  paging_ok m' ({[d]} ∪ dirs) /\ (d ∉ dirs) /\
  (forall i, word m' (d, i) = if decide (i = 2) then KERNEL_DATA_PAGE else if decide (i = 1) then KERNEL_RAMDISK_PAGE else if decide (i = 0) then KERNEL_CODE_PAGE else 0) /\
  forall d' page, d' ∈ dirs -> translation m' d' page = translation m d' page /\ forall i, word m' (d', i) = word m (d', i).
Proof.
  intros Hok Hheap. destruct (heap_free m dirs Hok d) as (F1 & F2 & F3); [rewrite Hheap; left|].
  set (m0 := mkPaging (<[d := ∅]> (structures m)) rest). set (m1 := stored m0 (d, 0) KERNEL_CODE_PAGE). set (m2 := stored m1 (d, 1) KERNEL_RAMDISK_PAGE). set (m3 := stored m2 (d, 2) KERNEL_DATA_PAGE).
  assert (is_Some (structures m0 !! d)) as X0 by (cbn; rewrite lookup_insert_eq; by eexists). assert (is_Some (structures m1 !! d)) as X1 by (by apply stored_exists).
  assert (is_Some (structures m2 !! d)) as X2 by (by apply stored_exists). assert (is_Some (structures m3 !! d)) as X3 by (by apply stored_exists).
  assert (d ∉ dirs) as Hnd. { intros Hd%(dirs_exist m dirs Hok). rewrite F1 in Hd. by destruct Hd. }
  assert (forall i, word m3 (d, i) = if decide (i = 2) then KERNEL_DATA_PAGE else if decide (i = 1) then KERNEL_RAMDISK_PAGE else if decide (i = 0) then KERNEL_CODE_PAGE else 0) as Hnew.
  { intros i. unfold m3, m2, m1. rewrite !word_stored. assert (word m0 (d, i) = 0) as -> by (unfold word; cbn; rewrite lookup_insert_eq; by rewrite lookup_empty).
    by rewrite !decide_second. }
  assert (forall t i, t <> d -> word m3 (t, i) = word m (t, i)) as Hold.
  { intros t i Hne. unfold m3, m2, m1. rewrite !word_stored, !decide_False by congruence. unfold word. cbn. by rewrite lookup_insert_ne. }
  assert (forall t, t <> d -> structures m3 !! t = structures m !! t) as Hst by (intros t Hne; cbn; by rewrite !lookup_insert_ne).
  assert (forall d' i t, d' ∈ ({[d]} ∪ dirs : gset Z) -> table_of m3 d' i t -> d' ∈ dirs /\ table_of m d' i t) as Htabs.
  { intros d' i t [->%elem_of_singleton|Hd']%elem_of_union [T1 T2].
    - rewrite Hnew in T1. repeat case_decide; discriminate T1.
    - assert (d' <> d) as Hne by (by intros ->). rewrite Hold in T1, T2 by done. done. }
  assert (forall d' i t, d' ∈ dirs -> table_of m d' i t -> t <> d) as Htd. { intros d' i t Hd' HT ->. destruct (tables_exist m dirs Hok d' i d Hd' HT) as ([? Ex] & _). congruence. }
  exists m3. split; [|split; [done|split; [|split; [done|split; [done|]]]]].
  - unfold page_directory_new, mbind, G_bind, new_structure. rewrite Hheap. fold m0. rewrite (proj2 (Z.eqb_neq d NULL) F2).
    unfold glift. rewrite (aligned_run d 12 ltac:(lia) : is_aligned d PAGE_SIZE = _), (page_aligned_mod d F3). cbn. rewrite !write_entry_run by done. done.
  - split.
    + intros d' [->%elem_of_singleton|Hd']%elem_of_union; [done|]. rewrite Hst by (by intros ->). by apply (dirs_exist m dirs).
    + intros d' i t Hd' HT. destruct (Htabs d' i t Hd' HT) as [Hd2 HT2]. destruct (tables_exist m dirs Hok d' i t Hd2 HT2) as (E1 & E2 & E3). pose proof (Htd d' i t Hd2 HT2) as Hne.
      split; [by rewrite Hst|]. split; [|done]. intros [->%elem_of_singleton|?]%elem_of_union; done.
    + intros d1 i1 d2 i2 t H1 H2 [G1 T1]%Htabs [G2 T2]%Htabs; [|done|done]. by apply (tables_private m dirs Hok d1 i1 d2 i2 t).
    + intros d' i [->%elem_of_singleton|Hd']%elem_of_union; [rewrite Hnew; repeat case_decide; done|]. rewrite Hold by (by intros ->). by apply (absent_zero m dirs).
    + intros d' [->%elem_of_singleton|Hd']%elem_of_union; [by rewrite Hnew|]. rewrite Hold by (by intros ->). by apply (kernel_mapped m dirs).
    + pose proof (heap_distinct m dirs Hok) as Hn. rewrite Hheap in Hn. by apply NoDup_cons in Hn as [_ Hn].
    + intros t Ht. pose proof (heap_distinct m dirs Hok) as Hn. rewrite Hheap in Hn. apply NoDup_cons in Hn as [Hni _]. assert (t <> d) as Hne by (by intros ->).
      rewrite Hst by done. apply (heap_free m dirs Hok). rewrite Hheap. by right.
  - intros d' page Hd'. assert (d' <> d) as Hne by (by intros ->). split; [|intros i; by apply Hold]. unfold translation, located. rewrite !Hold by done.
    destruct (is_table (word m (d', slot page))) eqn:Ht; [|by rewrite Hold]. apply Hold. by apply (Htd d' (slot page)).
Qed.
