(* ===== verification/KSpace.v ===== *)
(** * Address spaces: [address_space.cpp], [shared_frame.cpp], [address_space_manager.cpp], [memory_manager.cpp]

    The state holds the paging structures of [KPaging], the page frame manager
    of [KFrames], the address spaces and the descriptors of shared frames by
    address, and the contents of the physical frames. [objects] are the blocks
    that [operator new] can still give for these objects, first one first; when
    there is none it gives NULL. The nodes of hash tables and the arrays of
    lists are taken to be allocated. A hash table is the finite map that it
    implements (see [KContainersThms]); [pop] takes its first binding.

    The thread that runs is given by its address space, its capabilities and
    its copy page. A lock is not part of the state: each method runs as one
    step. *)

From S2P Require Import Prelude CMem CStringSearch World Libdx Loader KBase KBitmap KFrames KHeap KPorts KPaging.

(** ** Constants *)

Definition USER_BASE : Z := USER_KERNEL_BOUNDARY.
Definition PAYLOAD_POOL_SIZE : Z := 0x00400000.
Definition MEDIUM_PAYLOAD_POOL_BASE : Z := PAYLOAD_AREA_BASE.
Definition LARGE_PAYLOAD_POOL_BASE : Z := MEDIUM_PAYLOAD_POOL_BASE + PAYLOAD_POOL_SIZE.
Definition LARGE_PAYLOAD_POOL_COUNT : Z := 8.
Definition EXPAND_ADDRESS_SPACE_PAGE_COUNT : Z := 96.
Definition MEMORY_USER_DEFAULT : Z := Z.lor MEMORY_PAGED (Z.lor MEMORY_WRITABLE MEMORY_USER).
Definition ADDRESS_SPACE_ID_KERNEL : Z := u32 (-2).
Definition ADDRESS_SPACE_ID_AUTO_ALLOCATE : Z := 0xFFFFFFFF.
Definition CAPABILITY_CREATE_ADDRESS_SPACE : Z := 0x0002.
Definition CAPABILITY_EXPAND_ADDRESS_SPACE : Z := 0x0008.
Definition INTERRUPT_VECTOR_PAGE_FAULT : Z := 14.

Definition PAGE_COUNT (b s : Z) : Z := u32 (PAGE_ALIGN (u32 (b + s)) - PAGE_BASE b) / PAGE_SIZE.

(** ** State *)

Record shared_frame_c := mkShared { sf_address : Z; sf_references : Z }.

(** The pools and the port map come with the addresses of their blocks. *)
Record address_space_c := mkSpace {
  io_port_map : option (Z * list Z); large_payload_pool : list (Z * memory_pool_c); medium_payload_pool : memory_pool_c;
  page_directory : Z; shared_frame_table : gmap Z Z; space_id : Z; space_references : Z }.

Definition with_io_port_map sp v := mkSpace v (large_payload_pool sp) (medium_payload_pool sp) (page_directory sp) (shared_frame_table sp) (space_id sp) (space_references sp).
Definition with_large_pools sp v := mkSpace (io_port_map sp) v (medium_payload_pool sp) (page_directory sp) (shared_frame_table sp) (space_id sp) (space_references sp).
Definition with_medium_pool sp v := mkSpace (io_port_map sp) (large_payload_pool sp) v (page_directory sp) (shared_frame_table sp) (space_id sp) (space_references sp).
Definition with_shared_table sp v := mkSpace (io_port_map sp) (large_payload_pool sp) (medium_payload_pool sp) (page_directory sp) v (space_id sp) (space_references sp).
Definition with_space_references sp v := mkSpace (io_port_map sp) (large_payload_pool sp) (medium_payload_pool sp) (page_directory sp) (shared_frame_table sp) (space_id sp) v.

Record memory := mkMemory {
  tables : paging; frames : page_frame_manager_c; spaces : gmap Z address_space_c; shared_frames : gmap Z shared_frame_c;
  ram : gmap Z (list Z); objects : list Z; address_space_table : gmap Z Z; next_space_id : Z;
  cow_fault_count : Z; page_fault_count : Z }.

Definition with_tables s v := mkMemory v (frames s) (spaces s) (shared_frames s) (ram s) (objects s) (address_space_table s) (next_space_id s) (cow_fault_count s) (page_fault_count s).
Definition with_frames s v := mkMemory (tables s) v (spaces s) (shared_frames s) (ram s) (objects s) (address_space_table s) (next_space_id s) (cow_fault_count s) (page_fault_count s).
Definition with_spaces s v := mkMemory (tables s) (frames s) v (shared_frames s) (ram s) (objects s) (address_space_table s) (next_space_id s) (cow_fault_count s) (page_fault_count s).
Definition with_shared s v := mkMemory (tables s) (frames s) (spaces s) v (ram s) (objects s) (address_space_table s) (next_space_id s) (cow_fault_count s) (page_fault_count s).
Definition with_ram s v := mkMemory (tables s) (frames s) (spaces s) (shared_frames s) v (objects s) (address_space_table s) (next_space_id s) (cow_fault_count s) (page_fault_count s).
Definition with_objects s v := mkMemory (tables s) (frames s) (spaces s) (shared_frames s) (ram s) v (address_space_table s) (next_space_id s) (cow_fault_count s) (page_fault_count s).
Definition with_space_table s v := mkMemory (tables s) (frames s) (spaces s) (shared_frames s) (ram s) (objects s) v (next_space_id s) (cow_fault_count s) (page_fault_count s).
Definition with_next_space_id s v := mkMemory (tables s) (frames s) (spaces s) (shared_frames s) (ram s) (objects s) (address_space_table s) v (cow_fault_count s) (page_fault_count s).
Definition with_fault_counts s c p := mkMemory (tables s) (frames s) (spaces s) (shared_frames s) (ram s) (objects s) (address_space_table s) (next_space_id s) c p.

Definition M (A : Type) : Type := memory -> res (A * memory).

#[export] Instance M_ret : MRet M := fun A a s => Ret (a, s).
#[export] Instance M_bind : MBind M := fun A B k c s =>
  match c s with
  | Ret (a, s') => k a s'
  | Trap t => Trap t
  end.

Definition mlift {A} (c : res A) : M A := fun s => match c with Ret a => Ret (a, s) | Trap t => Trap t end.
Definition massert (b : bool) : M unit := mlift (kassert b).
Definition mgets {A} (f : memory -> A) : M A := fun s => Ret (f s, s).
Definition mmodify (f : memory -> memory) : M unit := fun s => Ret (tt, f s).

(** A call of the page directory, of the page frame manager. *)
Definition on_paging {A} (c : G A) : M A := fun s =>
  match c (tables s) with Ret (a, m) => Ret (a, with_tables s m) | Trap t => Trap t end.

Definition allocate_page_frames (frame_count flags : Z) : M (Z * list Z) := fun s =>
  match allocate_frames frame_count flags (frames s) with
  | Ret (status, frame, m) => Ret ((status, frame), with_frames s m)
  | Trap t => Trap t
  end.

Definition free_page_frames (frame : list Z) : M unit := fun s =>
  match free_frames frame (frames s) with Ret m => Ret (tt, with_frames s m) | Trap t => Trap t end.

(** [operator new] and [delete]. *)
Definition new_block : M Z := fun s =>
  match objects s with [] => Ret (NULL, s) | a :: rest => Ret (a, with_objects s rest) end.
Definition delete_block (a : Z) : M unit := mmodify (fun s => with_objects s (a :: objects s)).

Definition space_at (p : Z) : M address_space_c := fun s =>
  match spaces s !! p with Some sp => Ret (sp, s) | None => Trap (BadLoad p) end.
Definition set_space (p : Z) (sp : address_space_c) : M unit := mmodify (fun s => with_spaces s (<[p := sp]> (spaces s))).

Definition shared_at (f : Z) : M shared_frame_c := fun s =>
  match shared_frames s !! f with Some c => Ret (c, s) | None => Trap (BadLoad f) end.
Definition set_shared (f : Z) (c : shared_frame_c) : M unit := mmodify (fun s => with_shared s (<[f := c]> (shared_frames s))).

(** ** Shared frames *)

Definition new_shared_frame (frame : Z) : M Z :=
  f ← new_block;
  if f =? NULL then mret NULL
  else set_shared f (mkShared frame 1);; mret f.

(** [add_reference]. *)
Definition frame_add_reference (f : Z) : M unit :=
  c ← shared_at f;
  massert (0 <? sf_references c);;
  set_shared f (mkShared (sf_address c) (sf_references c + 1)).

(** [~shared_frame_c], and its block goes back to the heap. *)
Definition shared_frame_delete (f : Z) : M unit :=
  c ← shared_at f;
  free_page_frames [sf_address c];;
  massert (sf_references c =? 0);;
  mmodify (fun s => with_shared s (delete f (shared_frames s)));;
  delete_block f.

(** [remove_reference]. *)
Definition frame_remove_reference (f : Z) : M unit :=
  c ← shared_at f;
  set_shared f (mkShared (sf_address c) (sf_references c - 1));;
  massert (0 <=? sf_references c - 1);;
  if sf_references c - 1 =? 0 then shared_frame_delete f else mret tt.

(** The entry for a page, which the code takes to exist. *)
Definition entry_of (d page : Z) : M entry_cp :=
  e ← on_paging (find_entry d page ONLY_SEARCH);
  match e with Some e => mret e | None => mlift (Trap AssertFailed) end.

(** ** Payload blocks *)

(** The pools of the constructor, from pool [i] on. *)
Fixpoint payload_pools_new (fuel : nat) (i base : Z) : M (list (Z * memory_pool_c)) :=
  match fuel with
  | O => mret []
  | S f =>
      a ← new_block;
      if a =? NULL then mlift (Trap KernelPanic)
      else
        pool ← mlift (memory_pool_new base PAYLOAD_POOL_SIZE (u32 (Z.shiftl 1 i * PAGE_SIZE)));
        rest ← payload_pools_new f (i + 1) (u32 (base + PAYLOAD_POOL_SIZE));
        mret ((a, pool) :: rest)
  end.

(** The pools from the right order on. *)
Fixpoint allocate_from_pools (l : list (Z * memory_pool_c)) : res (Z * list (Z * memory_pool_c)) :=
  match l with
  | [] => mret (NULL, [])
  | (a, pool) :: rest =>
      '(block, pool) ← pool_allocate_block pool;
      if negb (block =? NULL) then mret (block, (a, pool) :: rest)
      else '(block, rest) ← allocate_from_pools rest; mret (block, (a, pool) :: rest)
  end.

Definition space_allocate_large_payload_block (p page_count : Z) : M Z :=
  massert (0 <? page_count);;
  sp ← space_at p;
  let order := find_one_bit32 (round_up_2n page_count) in
  let pools := large_payload_pool sp in
  if order <? LARGE_PAYLOAD_POOL_COUNT then
    '(block, rest) ← mlift (allocate_from_pools (drop (Z.to_nat order) pools));
    set_space p (with_large_pools sp (take (Z.to_nat order) pools ++ rest));;
    mret block
  else mret NULL.

Definition space_free_large_payload_block (p block : Z) : M Z :=
  let page := PAGE_BASE block in
  massert (LARGE_PAYLOAD_POOL_BASE <=? page);;
  massert (page <? USER_BASE);;
  sp ← space_at p;
  let index := (page - LARGE_PAYLOAD_POOL_BASE) / PAYLOAD_POOL_SIZE in
  if index <? LARGE_PAYLOAD_POOL_COUNT then
    '(a, pool) ← mlift (array_get (large_payload_pool sp) index);
    '(status, pool) ← mlift (pool_free_block page pool);
    set_space p (with_large_pools sp (<[Z.to_nat index := (a, pool)]> (large_payload_pool sp)));;
    mret status
  else mret STATUS_INVALID_DATA.

Definition space_free_medium_payload_block (p block : Z) : M Z :=
  sp ← space_at p;
  '(status, pool) ← mlift (pool_free_block block (medium_payload_pool sp));
  set_space p (with_medium_pool sp pool);;
  mret status.

(** The part between the locks: the block and the status. *)
Definition back_medium_block (d block : Z) : M Z :=
  entry ← on_paging (find_entry d block EXPAND_TREE);
  match entry with
  | None => mret STATUS_INSUFFICIENT_MEMORY
  | Some entry =>
      bits ← on_paging (read_entry entry);
      if is_present bits || is_swapped bits then mret STATUS_SUCCESS
      else
        '(status, frame) ← allocate_page_frames 1 0;
        if negb (status =? STATUS_SUCCESS) then mret status
        else
          frame ← mlift (array_get frame 0);
          on_paging (entry_commit_frame entry frame MEMORY_USER_DEFAULT)
  end.

Definition space_allocate_medium_payload_block (p : Z) : M Z :=
  sp ← space_at p;
  '(block, pool) ← mlift (pool_allocate_block (medium_payload_pool sp));
  set_space p (with_medium_pool sp pool);;
  if block =? NULL then mret NULL
  else
    status ← back_medium_block (page_directory sp) block;
    if negb (status =? STATUS_SUCCESS) then
      space_free_medium_payload_block p block;;
      mret NULL
    else mret block.

(** ** Frames of an address space *)

(** The loop of the first [commit_frame]; the array is a list. *)
Fixpoint commit_pages (d page : Z) (frame : list Z) (flags : Z) : M Z :=
  match frame with
  | [] => mret STATUS_SUCCESS
  | frame :: rest =>
      entry ← on_paging (find_entry d page EXPAND_TREE);
      match entry with
      | None => mret STATUS_INSUFFICIENT_MEMORY
      | Some entry =>
          status ← on_paging (entry_commit_frame entry frame flags);
          if negb (status =? STATUS_SUCCESS) then mret status
          else commit_pages d (u32 (page + PAGE_SIZE)) rest flags
      end
  end.

Definition space_commit_frame (p page : Z) (frame : list Z) (flags : Z) : M Z :=
  massert (negb (page =? NULL));;
  sp ← space_at p;
  commit_pages (page_directory sp) page frame flags.

(** The loop of the second one, over descriptors. *)
Fixpoint commit_shared_pages (p page : Z) (frame : list Z) (flags : Z) : M Z :=
  match frame with
  | [] => mret STATUS_SUCCESS
  | f :: rest =>
      sp ← space_at p;
      entry ← on_paging (find_entry (page_directory sp) page EXPAND_TREE);
      match entry with
      | None => mret STATUS_INSUFFICIENT_MEMORY
      | Some entry =>
          current_frame ← shared_at f;
          status ← on_paging (entry_commit_frame entry (sf_address current_frame) flags);
          if negb (status =? STATUS_SUCCESS) then mret status
          else
            frame_add_reference f;;
            set_space p (with_shared_table sp (<[page := f]> (shared_frame_table sp)));;
            commit_shared_pages p (u32 (page + PAGE_SIZE)) rest flags
      end
  end.

Definition space_commit_shared (p page : Z) (frame : list Z) (flags : Z) : M Z :=
  aligned ← mlift (is_aligned page PAGE_SIZE);
  massert aligned;;
  massert (negb (page =? NULL));;
  massert (0 <? Z.of_nat (length frame));;
  commit_shared_pages p page frame flags.

Fixpoint decommit_pages (n : nat) (d page : Z) : M (list Z) :=
  match n with
  | O => mret []
  | S n' =>
      entry ← entry_of d page;
      frame ← on_paging (entry_decommit_frame entry);
      rest ← decommit_pages n' d (u32 (page + PAGE_SIZE));
      mret (frame :: rest)
  end.

Definition space_decommit_frame (p page page_count : Z) : M (list Z) :=
  massert (negb (page =? NULL));;
  sp ← space_at p;
  decommit_pages (Z.to_nat page_count) (page_directory sp) page.

Definition space_disable_io_port (p port count : Z) : M Z :=
  sp ← space_at p;
  match io_port_map sp with
  | Some (a, word) =>
      massert (0 <? count);;
      word ← mlift (disable port count word);
      set_space p (with_io_port_map sp (Some (a, word)));;
      mret STATUS_SUCCESS
  | None => mret STATUS_INVALID_DATA
  end.

Definition space_enable_io_port (p port count : Z) : M Z :=
  sp ← space_at p;
  port_map ← (match io_port_map sp with
         | Some x => mret (Some x)
         | None => a ← new_block; mret (if a =? NULL then None else Some (a, io_port_map_new))
         end);
  match port_map with
  | None => mret STATUS_INSUFFICIENT_MEMORY
  | Some (a, word) =>
      massert (0 <? count);;
      word ← mlift (enable port count word);
      set_space p (with_io_port_map sp (Some (a, word)));;
      mret STATUS_SUCCESS
  end.

Definition capable (capabilities mask : Z) : bool := Z.land capabilities mask =? mask.

(** The frames are allocated and committed; [page_count] of them. *)
Definition expand_by (p first_new_page frame_count : Z) : M Z :=
  '(status, frame) ← allocate_page_frames frame_count 0;
  if negb (status =? STATUS_SUCCESS) then mret status
  else
    let flags := Z.lor MEMORY_PAGED (Z.lor MEMORY_USER MEMORY_WRITABLE) in
    status ← space_commit_frame p first_new_page frame flags;
    if negb (status =? STATUS_SUCCESS) then
      frame ← space_decommit_frame p first_new_page frame_count;
      free_page_frames frame;;
      mret status
    else mret STATUS_SUCCESS.

Definition space_expand (capabilities p first_new_page size : Z) : M Z :=
  if negb (capable capabilities CAPABILITY_EXPAND_ADDRESS_SPACE) then mret STATUS_ACCESS_DENIED
  else
    let frame_count := PAGE_COUNT 0 size in
    if (frame_count =? 0) || (EXPAND_ADDRESS_SPACE_PAGE_COUNT <? frame_count) then mret STATUS_INSUFFICIENT_MEMORY
    else
      let last_new_page := u32 (first_new_page + (frame_count - 1) * PAGE_SIZE) in
      aligned ← mlift (is_aligned first_new_page PAGE_SIZE);
      if negb aligned || negb (is_user_address first_new_page) || (last_new_page <? first_new_page) then mret STATUS_INVALID_DATA
      else
        sp ← space_at p;
        '(_, next_present_page) ← on_paging (find_present_entry (page_directory sp) first_new_page);
        if (first_new_page <=? next_present_page) && (next_present_page <=? last_new_page) then mret STATUS_RESOURCE_CONFLICT
        else expand_by p first_new_page frame_count.

(** ** Sharing *)

(** The private [share_frame]: the descriptor of one page, or NULL. *)
Definition share_one (p address : Z) : M Z :=
  massert (negb (address =? NULL));;
  let page := PAGE_BASE address in
  sp ← space_at p;
  match shared_frame_table sp !! page with
  | Some f => frame_add_reference f;; mret f
  | None =>
      entry ← entry_of (page_directory sp) page;
      bits ← on_paging (read_entry entry);
      if is_super_page bits then mret NULL
      else
        frame ← on_paging (entry_share_frame entry);
        if frame =? INVALID_FRAME then mret NULL
        else
          f ← new_shared_frame frame;
          if f =? NULL then on_paging (entry_unshare_frame entry);; mret NULL
          else
            set_space p (with_shared_table sp (<[page := f]> (shared_frame_table sp)));;
            frame_add_reference f;;
            mret f
  end.

(** The loop; the list of the caller grows by the descriptors. *)
Fixpoint share_pages (n : nat) (p page : Z) (frame_list : list Z) : M (Z * list Z) :=
  match n with
  | O => mret (STATUS_SUCCESS, frame_list)
  | S n' =>
      f ← share_one p page;
      if f =? NULL then mret (STATUS_INSUFFICIENT_MEMORY, frame_list)
      else
        c ← shared_at f;
        massert (2 <=? sf_references c);;
        share_pages n' p (u32 (page + PAGE_SIZE)) (frame_list ++ [f])
  end.

Definition space_share_frame (p address size : Z) (frame_list : list Z) : M (Z * list Z) :=
  share_pages (Z.to_nat (PAGE_COUNT address size)) p address frame_list.

Fixpoint share_kernel_blocks (fuel : nat) (p block last : Z) : M Z :=
  if block <? last then
    match fuel with
    | O => mlift (Trap OutOfFuel)
    | S fuel' =>
        sp ← space_at p;
        if bool_decide (is_Some (shared_frame_table sp !! block)) then share_kernel_blocks fuel' p (block + PAGE_SIZE) last
        else
          f ← new_shared_frame block;
          if f =? NULL then mret STATUS_INSUFFICIENT_MEMORY
          else
            set_space p (with_shared_table sp (<[block := f]> (shared_frame_table sp)));;
            share_kernel_blocks fuel' p (block + PAGE_SIZE) last
    end
  else mret STATUS_SUCCESS.

Definition space_share_kernel_frames (p address size : Z) : M Z :=
  let block := PAGE_BASE address in
  let last := u32 (block + size) in
  massert (block <? PAYLOAD_AREA_BASE);;
  massert (last <? PAYLOAD_AREA_BASE);;
  aligned ← mlift (is_aligned block PAGE_SIZE);
  massert aligned;;
  share_kernel_blocks (Z.to_nat (PAYLOAD_AREA_BASE / PAGE_SIZE)) p block last.

(** The private [unshare_frame]. *)
Definition unshare_one (p address : Z) : M unit :=
  let page := PAGE_BASE address in
  sp ← space_at p;
  entry ← entry_of (page_directory sp) page;
  match shared_frame_table sp !! page with
  | Some f =>
      set_space p (with_shared_table sp (delete page (shared_frame_table sp)));;
      bits ← on_paging (read_entry entry);
      massert (is_present bits);;
      (if negb (is_super_page bits) then on_paging (entry_unshare_frame entry) else mret tt);;
      frame_remove_reference f
  | None =>
      bits ← on_paging (read_entry entry);
      if is_present bits then
        massert (negb (is_copy_on_write bits));;
        massert (negb (is_shared bits));;
        massert (negb (is_super_page bits));;
        frame ← on_paging (entry_decommit_frame entry);
        massert (negb (frame =? INVALID_FRAME));;
        free_page_frames [frame]
      else mret tt
  end.

Fixpoint unshare_pages (n : nat) (p page : Z) : M unit :=
  match n with
  | O => mret tt
  | S n' => unshare_one p page;; unshare_pages n' p (u32 (page + PAGE_SIZE))
  end.

Definition space_unshare_frame (p address size : Z) : M unit :=
  unshare_pages (Z.to_nat (PAGE_COUNT address size)) p address.

(** ** Copy on write *)

(** [memcpy] of one page to another within the directory [d]. *)
Definition copy_page_data (d target source : Z) : M unit :=
  from ← entry_of d source;
  bits ← on_paging (read_entry from);
  to ← entry_of d target;
  bits' ← on_paging (read_entry to);
  if negb (is_present bits) then mlift (Trap (BadLoad source))
  else if negb (is_present bits') then mlift (Trap (BadStore target))
  else mmodify (fun s => with_ram s (<[entry_address bits' := default [] (ram s !! entry_address bits)]> (ram s))).

Definition copy_on_write (p copy_page address : Z) : M bool :=
  sp ← space_at p;
  let d := page_directory sp in
  entry ← entry_of d address;
  bits ← on_paging (read_entry entry);
  if negb (is_copy_on_write bits) then mret false
  else
    massert (is_present bits);;
    massert (negb (is_super_page bits));;
    massert (negb (is_writable bits));;
    massert (negb (copy_page =? NULL));;
    copy_entry ← on_paging (find_entry d copy_page EXPAND_TREE);
    match copy_entry with
    | None => mret false
    | Some copy_entry =>
        '(status, frame) ← allocate_page_frames 1 0;
        if negb (status =? STATUS_SUCCESS) then mret false
        else
          frame ← mlift (array_get frame 0);
          status ← on_paging (entry_commit_frame copy_entry frame MEMORY_WRITABLE);
          massert (status =? STATUS_SUCCESS);;
          copy_page_data d copy_page (PAGE_BASE address);;
          on_paging (entry_decommit_frame copy_entry);;
          unshare_one p address;;
          status ← on_paging (entry_commit_frame entry frame MEMORY_USER_DEFAULT);
          massert (status =? STATUS_SUCCESS);;
          bits ← on_paging (read_entry entry);
          massert (is_present bits);;
          massert (is_writable bits);;
          massert (negb (is_copy_on_write bits));;
          mret true
    end.

(** ** Construction and destruction *)

(** [new address_space_c]; [NULL] when there is no block for the object. *)
Definition address_space_new (id : Z) : M Z :=
  p ← new_block;
  if p =? NULL then mret NULL
  else
    medium ← mlift (memory_pool_new MEDIUM_PAYLOAD_POOL_BASE (MEDIUM_MESSAGE_PAYLOAD_SIZE * 1024) MEDIUM_MESSAGE_PAYLOAD_SIZE);
    d ← on_paging page_directory_new;
    if d =? NULL then mlift (Trap KernelPanic)
    else
      pools ← payload_pools_new (Z.to_nat LARGE_PAYLOAD_POOL_COUNT) 0 LARGE_PAYLOAD_POOL_BASE;
      set_space p (mkSpace None pools medium d ∅ id 1);;
      mret p.

Fixpoint delete_blocks (l : list Z) : M unit :=
  match l with
  | [] => mret tt
  | a :: rest => delete_block a;; delete_blocks rest
  end.

(** The loop that pops the shared frames. *)
Fixpoint release_shared_frames (fuel : nat) (p : Z) : M unit :=
  sp ← space_at p;
  match map_to_list (shared_frame_table sp) with
  | [] => mret tt
  | (page, f) :: _ =>
      match fuel with
      | O => mlift (Trap OutOfFuel)
      | S fuel' =>
          set_space p (with_shared_table sp (delete page (shared_frame_table sp)));;
          frame_remove_reference f;;
          release_shared_frames fuel' p
      end
  end.

(** The loop over the remaining pages. *)
Fixpoint release_pages (fuel : nat) (d : Z) (entry : entry_cp) (page : Z) : M unit :=
  if USER_BASE <=? page then
    match fuel with
    | O => mlift (Trap OutOfFuel)
    | S fuel' =>
        bits ← on_paging (read_entry entry);
        massert (is_present bits);;
        frame ← on_paging (entry_decommit_frame entry);
        free_page_frames [frame];;
        '(entry, page) ← on_paging (find_present_entry d page);
        release_pages fuel' d entry page
    end
  else mret tt.

Definition address_space_delete (p : Z) : M unit :=
  sp ← space_at p;
  (match io_port_map sp with Some (a, _) => delete_block a | None => mret tt end);;
  delete_blocks (fst <$> large_payload_pool sp);;
  release_shared_frames (base.size (shared_frame_table sp)) p;;
  '(entry, page) ← on_paging (find_present_entry (page_directory sp) USER_BASE);
  release_pages (Z.to_nat ((2 ^ 32 - USER_BASE) / PAGE_SIZE)) (page_directory sp) entry page;;
  on_paging (page_directory_delete (page_directory sp));;
  sp ← space_at p;
  massert (space_references sp =? 0);;
  mmodify (fun s => with_spaces s (delete p (spaces s)));;
  delete_block p.

Definition space_add_reference (p : Z) : M unit :=
  sp ← space_at p;
  massert (0 <? space_references sp);;
  set_space p (with_space_references sp (space_references sp + 1)).

Definition space_remove_reference (p : Z) : M unit :=
  sp ← space_at p;
  set_space p (with_space_references sp (space_references sp - 1));;
  massert (0 <=? space_references sp - 1);;
  if space_references sp - 1 =? 0 then address_space_delete p else mret tt.

(** ** address_space_manager.cpp *)

(** The search for a free id. *)
Fixpoint free_space_id (fuel : nat) (table : gmap Z Z) (id : Z) : res Z :=
  if bool_decide (is_Some (table !! id)) then
    match fuel with
    | O => Trap OutOfFuel
    | S f => free_space_id f table (u32 (id + 1))
    end
  else Ret id.

(** [None] when the requested id is in use. *)
Definition allocate_space_id (id : Z) : M (option Z) := fun s =>
  if id =? ADDRESS_SPACE_ID_AUTO_ALLOCATE then
    match free_space_id (base.size (address_space_table s)) (address_space_table s) (next_space_id s) with
    | Ret id => Ret (Some id, with_next_space_id s (u32 (id + 1)))
    | Trap t => Trap t
    end
  else if bool_decide (is_Some (address_space_table s !! id)) then Ret (None, s)
  else Ret (Some id, s).

(** [booted] tells whether the memory manager exists yet. *)
Definition manager_create_address_space (capabilities : Z) (booted : bool) (id : Z) : M Z :=
  if negb (capable capabilities CAPABILITY_CREATE_ADDRESS_SPACE) && booted then mret NULL
  else
    new_id ← allocate_space_id id;
    match new_id with
    | None => mret NULL
    | Some id =>
        table ← mgets address_space_table;
        massert (negb (bool_decide (is_Some (table !! id))));;
        p ← address_space_new id;
        if negb (p =? NULL) then
          space_add_reference p;;
          mmodify (fun s => with_space_table s (<[id := p]> (address_space_table s)));;
          mret p
        else mret NULL
    end.

Definition delete_address_space (victim : Z) : M unit :=
  sp ← space_at victim;
  table ← mgets address_space_table;
  massert (bool_decide (is_Some (table !! space_id sp)));;
  mmodify (fun s => with_space_table s (delete (space_id sp) (address_space_table s)));;
  space_remove_reference victim.

Definition find_address_space (id : Z) : M Z :=
  table ← mgets address_space_table;
  match table !! id with
  | Some p => space_add_reference p;; mret p
  | None => mret NULL
  end.

(** ** memory_manager.cpp *)

(** The constructor: [high_memory_size] is what the boot loader reports, the
    lists are the heap. *)
Definition memory_manager_new (high_memory_size : Z) (blocks pages : list Z) : res (Z * memory) :=
  frames ← page_frame_manager_new high_memory_size;
  match manager_create_address_space 0 false ADDRESS_SPACE_ID_KERNEL (mkMemory (mkPaging ∅ pages) frames ∅ ∅ ∅ blocks ∅ 0 0 0) with
  | Ret (p, s) => if p =? NULL then Trap KernelPanic else Ret (p, s)
  | Trap t => Trap t
  end.

Definition handle_page_fault (p copy_page faulting_address : Z) : M unit :=
  mmodify (fun s => with_fault_counts s (cow_fault_count s) (s32 (page_fault_count s + 1)));;
  success ← copy_on_write p copy_page faulting_address;
  if success : bool then mmodify (fun s => with_fault_counts s (s32 (cow_fault_count s + 1)) (page_fault_count s))
  else massert false.

Definition syscall_create_address_space (capabilities : Z) (d : syscall_data) : M syscall_data :=
  p ← manager_create_address_space capabilities true ADDRESS_SPACE_ID_AUTO_ALLOCATE;
  if negb (p =? NULL) then
    sp ← space_at p;
    space_remove_reference p;;
    mret (mkSyscall (World.size d) (space_id sp) (data1 d) (data2 d) (data3 d) (data4 d) (data5 d) STATUS_SUCCESS)
  else mret d.

Definition syscall_expand_address_space (capabilities : Z) (d : syscall_data) : M syscall_data :=
  p ← find_address_space (data0 d);
  if negb (p =? NULL) then
    status ← space_expand capabilities p (data1 d) (data2 d);
    space_remove_reference p;;
    mret (with_status d status)
  else mret (with_status d STATUS_INVALID_DATA).

(** The vectors of [memory_handle_interrupt]; a system call is handled when its block
    is valid. *)
Definition memory_handle_interrupt (p copy_page capabilities vector faulting_address : Z) (syscall : option syscall_data)
    : M (option syscall_data) :=
  if vector =? INTERRUPT_VECTOR_PAGE_FAULT then handle_page_fault p copy_page faulting_address;; mret syscall
  else if vector =? SYSTEM_CALL_VECTOR_CREATE_ADDRESS_SPACE then
    match syscall with
    | Some d => d ← syscall_create_address_space capabilities d; mret (Some d)
    | None => mret None
    end
  else if vector =? SYSTEM_CALL_VECTOR_EXPAND_ADDRESS_SPACE then
    match syscall with
    | Some d => d ← syscall_expand_address_space capabilities d; mret (Some d)
    | None => mret None
    end
  else massert false;; mret syscall.

(** [read_stats]: the number of address spaces, the physical memory, the faults. *)
Definition memory_read_stats (s : memory) : Z * (Z * Z * Z) * Z * Z :=
  (Z.of_nat (base.size (address_space_table s)), frames_read_stats (frames s), cow_fault_count s, page_fault_count s).

(** ** The payload of a large message: [large_message.cpp], [io_manager.cpp] *)

(** The payload of a message on its way: where it is in the sender, where it
    shall be in the receiver, and the frames. *)
Record large_payload := mkLarge { lp_sender : Z; lp_size : Z; lp_receiver : Z; lp_frame : list Z }.

(** [collect_payload] in the space of the sender. *)
Definition large_collect_payload (capabilities p : Z) (m : large_payload) : M (Z * large_payload) :=
  if lp_sender m =? NULL then mret (STATUS_INVALID_DATA, m)
  else if negb (lp_receiver m =? NULL) && negb (capable capabilities CAPABILITY_EXPLICIT_TARGET_ADDRESS) then mret (STATUS_ACCESS_DENIED, m)
  else if negb (lp_receiver m =? NULL) && negb (PAGE_OFFSET (lp_sender m) =? PAGE_OFFSET (lp_receiver m)) then mret (STATUS_IO_ERROR, m)
  else if negb (lp_receiver m =? NULL) && negb (is_user_address (lp_receiver m)) then mret (STATUS_ACCESS_DENIED, m)
  else
    '(status, frame) ← space_share_frame p (lp_sender m) (lp_size m) (lp_frame m);
    mret (status, mkLarge (lp_sender m) (lp_size m) (lp_receiver m) frame).

(** [deliver_payload] in the space of the receiver. *)
Definition large_deliver_payload (p : Z) (m : large_payload) : M (Z * large_payload) :=
  '(page, m) ← (if lp_receiver m =? NULL then
                  page ← space_allocate_large_payload_block p (Z.of_nat (length (lp_frame m)));
                  mret (page, mkLarge (lp_sender m) (lp_size m) (u32 (page + PAGE_OFFSET (lp_sender m))) (lp_frame m))
                else
                  massert (PAGE_OFFSET (lp_sender m) =? PAGE_OFFSET (lp_receiver m));;
                  mret (PAGE_BASE (lp_receiver m), m));
  if negb (page =? NULL) then
    status ← space_commit_shared p page (lp_frame m) (Z.lor MEMORY_SHARED (Z.lor MEMORY_USER MEMORY_COPY_ON_WRITE));
    mret (status, m)
  else mret (STATUS_INSUFFICIENT_MEMORY, m).

(** [~large_message_c]. *)
Fixpoint large_message_delete (frame : list Z) : M unit :=
  match frame with
  | [] => mret tt
  | f :: rest => frame_remove_reference f;; large_message_delete rest
  end.

Definition syscall_delete_message (p : Z) (d : syscall_data) : M syscall_data :=
  let data := data0 d in
  let data_size := data1 d in
  status ← (if 0 <? data_size then
              massert (negb (data =? NULL));;
              if LARGE_PAYLOAD_POOL_BASE <=? data then
                space_unshare_frame p data data_size;;
                space_free_large_payload_block p data
              else
                massert (MEDIUM_PAYLOAD_POOL_BASE <=? data);;
                massert (data_size <=? MEDIUM_MESSAGE_PAYLOAD_SIZE);;
                space_free_medium_payload_block p data
            else mret STATUS_SUCCESS);
  mret (with_status d status).
