(* ===== verification/KSharing.v ===== *)
(** * Ownership of page frames

    Who owns the frames of the machine, apart from the representation: [E p
    page] is the page table entry of a page of address space [p], [T] the
    pages that are bound to descriptors of shared frames, [D] the descriptors,
    [held] the references that messages on their way hold, and [used] the
    frames that the page frame manager has handed out. A page that is present
    is either private, and then no other page and no descriptor has its frame,
    or it is bound to the descriptor of its frame, and then it is read-only and
    copied on write. The reference counts are exact. *)

From S2P Require Import Prelude CMem CStringSearch World Libdx Loader KBase KBitmap KFrames KHeap KPorts KPaging KPagingThms KSpace.

Definition user_page (page : Z) : Prop := PAYLOAD_AREA_BASE <= page < 2 ^ 32 /\ page mod 4096 = 0.

(** A page-sized block of the kernel, which its address space can share. *)
Definition kernel_block (page : Z) : Prop := 0 < page < KERNEL_PAGED_BOUNDARY /\ page mod 4096 = 0.

Definition shared_entry (bits a : Z) : Prop :=
  is_present bits = true /\ is_shared bits = true /\ is_copy_on_write bits = true /\ is_writable bits = false /\
  is_super_page bits = false /\ entry_address bits = a.
Definition private_entry (bits a : Z) : Prop :=
  is_present bits = true /\ is_shared bits = false /\ is_copy_on_write bits = false /\ is_super_page bits = false /\ entry_address bits = a.

Section Sharing.
Implicit Types (E : Z -> Z -> Z) (T : gmap (Z * Z) Z) (D : gmap Z shared_frame_c) (held : list Z) (used : gset Z).

Record sharing E T D held used : Prop := {
  sh_bound : forall p page f, T !! (p, page) = Some f -> exists c, D !! f = Some c /\
    ((kernel_block page /\ sf_address c = page) \/ (user_page page /\ shared_entry (E p page) (sf_address c)));
  sh_private : forall p page, user_page page -> T !! (p, page) = None -> is_present (E p page) = true ->
    private_entry (E p page) (entry_address (E p page)) /\ entry_address (E p page) ∈ used /\
    forall f c, D !! f = Some c -> sf_address c <> entry_address (E p page);
  sh_unique : forall p page p' page', user_page page -> user_page page' -> T !! (p, page) = None -> T !! (p', page') = None ->
    is_present (E p page) = true -> is_present (E p' page') = true -> entry_address (E p page) = entry_address (E p' page') ->
    p = p' /\ page = page';
  sh_counts : forall f c, D !! f = Some c -> f <> NULL /\ 0 < sf_references c /\
    sf_references c = total (is_ref f) T + occurrences f held /\
    (sf_address c ∈ used \/ (kernel_block (sf_address c) /\ exists p, T !! (p, sf_address c) = Some f));
  sh_addresses : forall f f' c c', D !! f = Some c -> D !! f' = Some c' -> sf_address c = sf_address c' -> sf_address c ∈ used -> f = f';
  sh_held : forall f, f ∈ held -> is_Some (D !! f);
  sh_used : forall a, a ∈ used -> KERNEL_PAGED_BOUNDARY <= a;
  sh_absent : forall p page, user_page page -> is_present (E p page) = false -> E p page = 0 }.

(** A frame that is in use but not by a page or a descriptor. *)
Definition loose E D used (a : Z) : Prop :=
  a ∈ used /\ (forall p page, user_page page -> is_present (E p page) = true -> entry_address (E p page) <> a) /\
  forall f c, D !! f = Some c -> sf_address c <> a.

Lemma kernel_not_user page : kernel_block page -> user_page page -> False.
Proof. unfold kernel_block, KERNEL_PAGED_BOUNDARY, SUPER_PAGE_SIZE, user_page, PAYLOAD_AREA_BASE. lia. Qed.

(** [E'] is [E] but for one page. *)
Definition updated E (p page bits : Z) E' : Prop := forall p' page', user_page page' ->
  E' p' page' = if decide (p' = p /\ page' = page) then bits else E p' page'.

Lemma updated_same E p page bits E' : updated E p page bits E' -> user_page page -> E' p page = bits.
Proof. intros H Hp. rewrite H by done. by rewrite decide_True. Qed.

Lemma updated_other E p page bits E' p' page' : updated E p page bits E' -> user_page page' -> (p', page') <> (p, page) -> E' p' page' = E p' page'.
Proof. intros H Hp Hne. rewrite H by done. rewrite decide_False; [done|]. intros [-> ->]. done. Qed.

Lemma updated_absent E p page bits E' : (forall p page, user_page page -> is_present (E p page) = false -> E p page = 0) -> updated E p page bits E' ->
  (is_present bits = false -> bits = 0) -> forall p' page', user_page page' -> is_present (E' p' page') = false -> E' p' page' = 0.
Proof. intros HE Hup Hb p' page' Hp'. rewrite Hup by done. destruct (decide _); auto. Qed.

(** The frame of a page is in use, or a block of the kernel. *)
Lemma mapped_frame E T D held used p page : sharing E T D held used -> user_page page -> is_present (E p page) = true ->
  entry_address (E p page) ∈ used \/ entry_address (E p page) < KERNEL_PAGED_BOUNDARY.
Proof.
  intros Hs Hp Hpres. destruct (T !! (p, page)) as [f|] eqn:Ef.
  - destruct (sh_bound _ _ _ _ _ Hs p page f Ef) as (c & Ec & [[Hk _]|[_ He]]).
    + by destruct (kernel_not_user _ ltac:(eassumption) ltac:(eassumption)).
    + destruct He as (_ & _ & _ & _ & _ & ->). destruct (sh_counts _ _ _ _ _ Hs f c Ec) as (_ & _ & _ & [?|[[[_ ?] _] _]]); auto.
  - left. by destruct (sh_private _ _ _ _ _ Hs p page Hp Ef Hpres) as (_ & ? & _).
Qed.

Lemma absent_unbound E T D held used p page : sharing E T D held used -> user_page page -> is_present (E p page) = false -> T !! (p, page) = None.
Proof.
  intros Hs Hp Hpres. destruct (T !! (p, page)) as [f|] eqn:Ef; [|done]. destruct (sh_bound _ _ _ _ _ Hs p page f Ef) as (c & Ec & [[Hk _]|[_ He]]).
  - by destruct (kernel_not_user _ ltac:(eassumption) ltac:(eassumption)).
  - destruct He as [He _]. congruence.
Qed.

Lemma sharing_ext E E' T D held used : sharing E T D held used -> (forall p page, user_page page -> E' p page = E p page) -> sharing E' T D held used.
Proof.
  intros [] HE. split; try done.
  - intros p page f Ef. destruct (sh_bound0 p page f Ef) as (c & Ec & [?|[? ?]]); exists c; split; auto. right. split; [done|]. by rewrite HE.
  - intros p page Hp. rewrite HE by done. auto.
  - intros p1 q1 p2 q2 H1 H2. rewrite !HE by done. auto.
  - intros p page Hp. rewrite HE by done. auto.
Qed.

Lemma loose_ext E E' D used a : loose E D used a -> (forall p page, user_page page -> E' p page = E p page) -> loose E' D used a.
Proof. intros (H1 & H2 & H3) HE. split; [done|]. split; [|done]. intros p page Hp. rewrite HE by done. auto. Qed.

Lemma sharing_perm E T D held held' used : sharing E T D held used -> held ≡ₚ held' -> sharing E T D held' used.
Proof. intros [] Hp. split; try done; [intros f c; rewrite <- Hp; auto|intros f; rewrite <- Hp; auto]. Qed.

(** Two pages bound to one descriptor are two references. *)
Lemma bound_once T f k : T !! k = Some f -> 1 <= total (is_ref f) T.
Proof. intros Hk. pose proof (total_ge (is_ref f) T k f (is_ref_nonneg f) Hk). rewrite is_ref_refl in H. done. Qed.

Lemma bound_twice T f k k' : T !! k = Some f -> T !! k' = Some f -> k <> k' -> 2 <= total (is_ref f) T.
Proof.
  intros Hk Hk' Hne. assert (1 <= total (is_ref f) (delete k T)) as H1 by (apply (bound_once _ f k'); by rewrite lookup_delete_ne).
  rewrite (total_delete _ T k f Hk), is_ref_refl in H1. lia.
Qed.

(** ** The page frame manager *)

Lemma sharing_allocate E T D held used used' : sharing E T D held used -> used ⊆ used' -> (forall a, a ∈ used' -> KERNEL_PAGED_BOUNDARY <= a) ->
  sharing E T D held used' /\ forall a, a ∈ used' -> a ∉ used -> loose E D used' a.
Proof.
  intros Hs Hsub Hlow. split.
  - destruct Hs. split; try done.
    + intros p page Hp Ht Hpres. destruct (sh_private0 p page Hp Ht Hpres) as (? & ? & ?). auto.
    + intros f c Ec. destruct (sh_counts0 f c Ec) as (? & ? & ? & [?|?]); auto 10.
    + intros f f' c c' Ec Ec' Ha Hu. apply (sh_addresses0 f f' c c' Ec Ec' Ha). destruct (sh_counts0 f c Ec) as (_ & _ & _ & [?|[[[_ Hk] _] _]]); [done|].
      apply Hlow in Hu. lia.
  - intros a Ha Hna. split; [done|]. split.
    + intros p page Hp Hpres <-. destruct (mapped_frame E T D held used p page Hs Hp Hpres) as [?|Hk]; [done|]. apply Hlow in Ha. lia.
    + intros f c Ec <-. destruct (sh_counts _ _ _ _ _ Hs f c Ec) as (_ & _ & _ & [?|[[[_ Hk] _] _]]); [done|]. apply Hlow in Ha. lia.
Qed.

Lemma sharing_free E T D held used a : sharing E T D held used -> loose E D used a -> sharing E T D held (used ∖ {[a]}).
Proof.
  intros Hs (Ha & Hl1 & Hl2). destruct Hs. split; try done.
  - intros p page Hp Ht Hpres. destruct (sh_private0 p page Hp Ht Hpres) as (? & ? & ?). split; [done|]. split; [|done].
    apply elem_of_difference. split; [done|]. apply not_elem_of_singleton. by apply Hl1.
  - intros f c Ec. destruct (sh_counts0 f c Ec) as (? & ? & ? & [?|?]); [|by auto 10]. split; [done|]. split; [done|]. split; [done|]. left.
    apply elem_of_difference. split; [done|]. apply not_elem_of_singleton. by eapply Hl2.
  - intros f f' c c' Ec Ec' Hcc [? _]%elem_of_difference. eauto.
  - intros b [? _]%elem_of_difference. eauto.
Qed.

Lemma loose_free E D used a b : loose E D used a -> a <> b -> loose E D (used ∖ {[b]}) a.
Proof. intros (Ha & ?) Hne. split; [|done]. apply elem_of_difference. split; [done|]. by apply not_elem_of_singleton. Qed.

(** ** Private pages *)

Lemma sharing_commit E T D held used p page a bits E' : sharing E T D held used -> user_page page -> is_present (E p page) = false ->
  loose E D used a -> private_entry bits a -> updated E p page bits E' -> sharing E' T D held used.
Proof.
  intros Hs Hp Habs (Ha & Hl1 & Hl2) Hbits Hup. pose proof (absent_unbound _ _ _ _ _ p page Hs Hp Habs) as Hnone.
  pose proof (updated_same _ _ _ _ _ Hup Hp) as Hsame. destruct Hbits as (B1 & B2 & B3 & B4 & B5). destruct Hs. split; try done.
  - intros p' page' f Ef. destruct (sh_bound0 p' page' f Ef) as (c & Ec & [?|[? ?]]); exists c; split; auto. right. split; [done|].
    rewrite (updated_other _ _ _ _ _ _ _ Hup); [done|done|]. congruence.
  - intros p' page' Hp' Ht Hpres. destruct (decide ((p', page') = (p, page))) as [[= -> ->]|Hne].
    + rewrite Hsame. split; [|split; rewrite B5; eauto]. unfold private_entry. done.
    + rewrite (updated_other _ _ _ _ _ _ _ Hup) in * by done. by apply sh_private0.
  - intros p1 q1 p2 q2 H1 H2 T1 T2 P1 P2 Hx. destruct (decide ((p1, q1) = (p, page))) as [[= -> ->]|N1], (decide ((p2, q2) = (p, page))) as [[= -> ->]|N2]; try done.
    + rewrite Hsame, (updated_other _ _ _ _ _ _ _ Hup H2 N2), B5 in *. symmetry in Hx. by apply Hl1 in Hx.
    + rewrite Hsame, (updated_other _ _ _ _ _ _ _ Hup H1 N1), B5 in *. by apply Hl1 in Hx.
    + rewrite (updated_other _ _ _ _ _ _ _ Hup H1 N1), (updated_other _ _ _ _ _ _ _ Hup H2 N2) in *. by apply sh_unique0.
  - eapply updated_absent; [exact sh_absent0|exact Hup|congruence].
Qed.

Lemma loose_commit E D used p page a b bits E' : loose E D used b -> a <> b -> entry_address bits = a -> updated E p page bits E' -> loose E' D used b.
Proof.
  intros (H1 & H2 & H3) Hne Hb Hup. split; [done|]. split; [|done]. intros p' page' Hp' Hpres. rewrite Hup in * by done.
  destruct (decide _); [congruence|]. auto.
Qed.

Lemma sharing_drop E T D held used p page bits E' : sharing E T D held used -> user_page page -> is_present (E p page) = true -> T !! (p, page) = None ->
  bits = 0 -> updated E p page bits E' -> sharing E' T D held used /\ loose E' D used (entry_address (E p page)).
Proof.
  intros Hs Hp Hpres Hnone Hbits Hup. pose proof (updated_same _ _ _ _ _ Hup Hp) as Hsame.
  assert (forall p' page', user_page page' -> is_present (E' p' page') = true -> (p', page') <> (p, page) /\ E' p' page' = E p' page') as Hoth.
  { intros p' page' Hp' Hpres'. assert ((p', page') <> (p, page)) as Hne by (intros [= -> ->]; rewrite Hsame, Hbits in Hpres'; done).
    split; [done|]. by apply (updated_other _ _ _ _ _ _ _ Hup). }
  split.
  - destruct Hs. split; try done.
    + intros p' page' f Ef. destruct (sh_bound0 p' page' f Ef) as (c & Ec & [?|[? ?]]); exists c; split; auto. right. split; [done|].
      rewrite (updated_other _ _ _ _ _ _ _ Hup); [done|done|]. congruence.
    + intros p' page' Hp' Ht Hpres'. destruct (Hoth p' page' Hp' Hpres') as [_ Heq]. rewrite Heq in *. by apply sh_private0.
    + intros p1 q1 p2 q2 H1 H2 T1 T2 P1 P2. destruct (Hoth p1 q1 H1 P1) as [_ ->]. destruct (Hoth p2 q2 H2 P2) as [_ ->].
      destruct (Hoth p1 q1 H1 P1) as [_ Q1], (Hoth p2 q2 H2 P2) as [_ Q2]. rewrite Q1 in P1. rewrite Q2 in P2. by apply sh_unique0.
    + by eapply updated_absent.
  - destruct (sh_private _ _ _ _ _ Hs p page Hp Hnone Hpres) as (_ & Hu & Hd). split; [done|]. split; [|done].
    intros p' page' Hp' Hpres' Heq. destruct (Hoth p' page' Hp' Hpres') as [Hne Hx]. rewrite Hx in *. destruct (T !! (p', page')) as [f|] eqn:Ef.
    + destruct (sh_bound _ _ _ _ _ Hs p' page' f Ef) as (c & Ec & [[Hk _]|[_ He]]).
      * by destruct (kernel_not_user _ ltac:(eassumption) ltac:(eassumption)).
      * destruct He as (_ & _ & _ & _ & _ & He). apply (Hd f c Ec). congruence.
    + destruct (sh_unique _ _ _ _ _ Hs p' page' p page Hp' Hp Ef Hnone Hpres' Hpres Heq) as [-> ->]. done.
Qed.

(** ** Descriptors *)

(** One more reference to a descriptor. *)
Definition more (c : shared_frame_c) : shared_frame_c := mkShared (sf_address c) (sf_references c + 1).

Lemma lookup_more D f c g d : D !! f = Some c -> <[f := more c]> D !! g = Some d -> exists d', D !! g = Some d' /\ sf_address d = sf_address d' /\
  sf_references d = sf_references d' + is_ref g f.
Proof.
  intros Ec. destruct (decide (g = f)) as [->|Hne].
  - rewrite lookup_insert_eq. intros [= <-]. exists c. rewrite is_ref_refl. done.
  - rewrite lookup_insert_ne by done. intros Ed. exists d. rewrite is_ref_ne by done. split; [done|]. split; [done|]. lia.
Qed.

Lemma insert_more D f c g d : D !! f = Some c -> D !! g = Some d -> exists d', <[f := more c]> D !! g = Some d' /\ sf_address d' = sf_address d.
Proof.
  intros Ec Ed. destruct (decide (g = f)) as [->|Hne].
  - rewrite lookup_insert_eq. exists (more c). split; [done|]. cbn. congruence.
  - rewrite lookup_insert_ne by done. by exists d.
Qed.

(** [add_reference] for a message. *)
Lemma sharing_take E T D held used f c : sharing E T D held used -> D !! f = Some c -> sharing E T (<[f := more c]> D) (f :: held) used.
Proof.
  intros Hs Ec. destruct Hs. split; try done.
  - intros p page g Eg. destruct (sh_bound0 p page g Eg) as (d & Ed & Hcase). destruct (insert_more D f c g d Ec Ed) as (d' & Ed' & Ha).
    exists d'. rewrite Ha. done.
  - intros p page Hp Ht Hpres. destruct (sh_private0 p page Hp Ht Hpres) as (? & ? & Hd). split; [done|]. split; [done|].
    intros g d (d' & Ed' & -> & _)%(lookup_more D f c _ _ Ec). by eapply Hd.
  - intros g d (d' & Ed' & Ha & Hr)%(lookup_more D f c _ _ Ec). destruct (sh_counts0 g d' Ed') as (? & ? & ? & ?). rewrite Ha, Hr. cbn [occurrences].
    pose proof (is_ref_nonneg g f). split; [done|]. split; [lia|]. split; [lia|]. done.
  - intros g g' d d' (e & Ee & Ha & _)%(lookup_more D f c _ _ Ec) (e' & Ee' & Ha' & _)%(lookup_more D f c _ _ Ec). rewrite Ha, Ha'. by apply sh_addresses0.
  - intros g [->|Hg]%elem_of_cons; [rewrite lookup_insert_eq; by eexists|]. destruct (sh_held0 g Hg) as [d Ed].
    destruct (insert_more D f c g d Ec Ed) as (d' & Ed' & _). by exists d'.
Qed.

Lemma loose_take E D used f c a : loose E D used a -> D !! f = Some c -> loose E (<[f := more c]> D) used a.
Proof.
  intros (H1 & H2 & H3) Ec. split; [done|]. split; [done|]. intros g d (d' & Ed' & -> & _)%(lookup_more D f c _ _ Ec). by eapply H3.
Qed.

(** What is not a descriptor is not referred to. *)
Lemma occurrences_pos f held : f ∈ held -> 1 <= occurrences f held.
Proof.
  induction held as [|y held IH]; [by intros ?%not_elem_of_nil|]. cbn. pose proof (is_ref_nonneg f y). pose proof (occurrences_nonneg f held).
  intros [<-|Hin]%elem_of_cons; [rewrite is_ref_refl; lia|]. specialize (IH Hin). lia.
Qed.

Lemma occurrences_zero f held : (f ∉ held) -> occurrences f held = 0.
Proof.
  induction held as [|y held IH]; [done|]. intros [Hne Hn]%not_elem_of_cons. cbn. rewrite is_ref_ne by done. by apply IH.
Qed.

Lemma total_zero T f : (forall k, T !! k <> Some f) -> total (is_ref f) T = 0.
Proof.
  induction T as [|k g T Ek IH] using map_ind; intros Hne; [done|]. rewrite total_insert by done. rewrite IH.
  - rewrite is_ref_ne; [done|]. intros <-. apply (Hne k), lookup_insert_eq.
  - intros k' Ek'. apply (Hne k'). rewrite lookup_insert_ne; [done|]. congruence.
Qed.

Lemma frame_unreferenced E T D held used f : sharing E T D held used -> D !! f = None -> total (is_ref f) T = 0 /\ occurrences f held = 0.
Proof.
  intros Hs Hf. split.
  - apply total_zero. intros [p page] Ek. destruct (sh_bound _ _ _ _ _ Hs p page f Ek) as (c & Ec & _). congruence.
  - apply occurrences_zero. intros Hin. destruct (sh_held _ _ _ _ _ Hs f Hin). congruence.
Qed.

(** A new descriptor for the frame of a private page. *)
Lemma sharing_share E T D held used p page bits f E' : sharing E T D held used -> user_page page -> T !! (p, page) = None -> is_present (E p page) = true ->
  D !! f = None -> f <> NULL -> shared_entry bits (entry_address (E p page)) -> updated E p page bits E' ->
  sharing E' (<[(p, page) := f]> T) (<[f := mkShared (entry_address (E p page)) 1]> D) held used.
Proof.
  intros Hs Hp Hnone Hpres Hf Hn Hbits Hup. set (a := entry_address (E p page)) in *. pose proof (updated_same _ _ _ _ _ Hup Hp) as Hsame.
  destruct (sh_private _ _ _ _ _ Hs p page Hp Hnone Hpres) as (_ & Hu & Hd). fold a in Hu, Hd.
  assert (forall g d, <[f := mkShared a 1]> D !! g = Some d -> (g = f /\ d = mkShared a 1) \/ (g <> f /\ D !! g = Some d)) as HD.
  { intros g d. destruct (decide (g = f)) as [->|Hne]; [rewrite lookup_insert_eq; intros [= <-]; by left|rewrite lookup_insert_ne by done; by right]. }
  destruct (frame_unreferenced _ _ _ _ _ f Hs Hf) as [H0 H1].
  destruct Hs. split; try done.
  - intros p' page' g. destruct (decide ((p', page') = (p, page))) as [[= -> ->]|Hne].
    + rewrite lookup_insert_eq. intros [= <-]. exists (mkShared a 1). rewrite lookup_insert_eq. split; [done|]. right. rewrite Hsame. done.
    + rewrite lookup_insert_ne by done. intros Eg. destruct (sh_bound0 p' page' g Eg) as (c & Ec & Hcase). exists c.
      rewrite lookup_insert_ne by congruence. split; [done|]. destruct Hcase as [?|[? ?]]; [by left|right]. split; [done|].
      by rewrite (updated_other _ _ _ _ _ _ _ Hup).
  - intros p' page' Hp' Ht Hpres'. assert ((p', page') <> (p, page)) as Hne by (intros [= -> ->]; by rewrite lookup_insert_eq in Ht).
    rewrite lookup_insert_ne in Ht by done. rewrite (updated_other _ _ _ _ _ _ _ Hup) in * by done. destruct (sh_private0 p' page' Hp' Ht Hpres') as (? & ? & Hd').
    split; [done|]. split; [done|]. intros g d [[-> ->]|[_ Eg]]%HD; [|by eapply Hd']. cbn. intros Heq.
    destruct (sh_unique0 p page p' page' Hp Hp' Hnone Ht Hpres Hpres' Heq) as [-> ->]. done.
  - intros p1 q1 p2 q2 Q1 Q2 T1 T2. assert ((p1, q1) <> (p, page)) as N1 by (intros [= -> ->]; by rewrite lookup_insert_eq in T1).
    assert ((p2, q2) <> (p, page)) as N2 by (intros [= -> ->]; by rewrite lookup_insert_eq in T2). rewrite lookup_insert_ne in T1, T2 by done.
    rewrite !(updated_other _ _ _ _ _ _ _ Hup) by done. by apply sh_unique0.
  - intros g d [[-> ->]|[Hgf Eg]]%HD; rewrite total_insert by done.
    + cbn. rewrite is_ref_refl, H0, H1. split; [done|]. split; [lia|]. split; [lia|]. by left.
    + destruct (sh_counts0 g d Eg) as (? & ? & ? & Hcase). rewrite is_ref_ne by done. split; [done|]. split; [done|]. split; [lia|].
      destruct Hcase as [?|(Hk & q & Eq)]; [by left|right]. split; [done|]. exists q. rewrite lookup_insert_ne; [done|]. intros [= -> ->].
      by destruct (kernel_not_user _ ltac:(eassumption) ltac:(eassumption)).
  - intros g g' d d' [[-> ->]|[Hg Eg]]%HD [[-> ->]|[Hg' Eg']]%HD; cbn; [done| | |by apply sh_addresses0].
    + intros Heq. by destruct (Hd _ _ Eg').
    + intros Heq. by destruct (Hd _ _ Eg).
  - intros g Hg. destruct (sh_held0 g Hg) as [d Ed]. rewrite lookup_insert_ne by congruence. by exists d.
  - eapply updated_absent; [exact sh_absent0|exact Hup|]. destruct Hbits. congruence.
Qed.

(** A held reference becomes the one of a page, and the other way round. *)
Lemma sharing_bind E T D held used p page bits f c E' : sharing E T D (f :: held) used -> user_page page -> is_present (E p page) = false ->
  D !! f = Some c -> shared_entry bits (sf_address c) -> updated E p page bits E' -> sharing E' (<[(p, page) := f]> T) D held used.
Proof.
  intros Hs Hp Habs Ec Hbits Hup. pose proof (absent_unbound _ _ _ _ _ p page Hs Hp Habs) as Hnone. pose proof (updated_same _ _ _ _ _ Hup Hp) as Hsame.
  destruct Hs. split; try done.
  - intros p' page' g. destruct (decide ((p', page') = (p, page))) as [[= -> ->]|Hne].
    + rewrite lookup_insert_eq. intros [= <-]. exists c. split; [done|]. right. by rewrite Hsame.
    + rewrite lookup_insert_ne by done. intros Eg. destruct (sh_bound0 p' page' g Eg) as (d & Ed & Hcase). exists d. split; [done|].
      destruct Hcase as [?|[? ?]]; [by left|right]. split; [done|]. by rewrite (updated_other _ _ _ _ _ _ _ Hup).
  - intros p' page' Hp' Ht Hpres. assert ((p', page') <> (p, page)) as Hne by (intros [= -> ->]; by rewrite lookup_insert_eq in Ht).
    rewrite lookup_insert_ne in Ht by done. rewrite (updated_other _ _ _ _ _ _ _ Hup) in * by done. by apply sh_private0.
  - intros p1 q1 p2 q2 Q1 Q2 T1 T2. assert ((p1, q1) <> (p, page)) as N1 by (intros [= -> ->]; by rewrite lookup_insert_eq in T1).
    assert ((p2, q2) <> (p, page)) as N2 by (intros [= -> ->]; by rewrite lookup_insert_eq in T2). rewrite lookup_insert_ne in T1, T2 by done.
    rewrite !(updated_other _ _ _ _ _ _ _ Hup) by done. by apply sh_unique0.
  - intros g d Eg. destruct (sh_counts0 g d Eg) as (? & ? & Hr & Hcase). rewrite total_insert by done. cbn [occurrences] in Hr. split; [done|]. split; [done|].
    split; [lia|]. destruct Hcase as [?|(Hk & q & Eq)]; [by left|right]. split; [done|]. exists q. rewrite lookup_insert_ne; [done|]. intros [= -> ->].
    by destruct (kernel_not_user _ ltac:(eassumption) ltac:(eassumption)).
  - intros g Hg. apply sh_held0. by right.
  - eapply updated_absent; [exact sh_absent0|exact Hup|]. destruct Hbits. congruence.
Qed.

Lemma sharing_unbind E T D held used p page bits f E' : sharing E T D held used -> user_page page -> T !! (p, page) = Some f ->
  bits = 0 -> updated E p page bits E' -> sharing E' (delete (p, page) T) D (f :: held) used.
Proof.
  intros Hs Hp Hb Hbits Hup. pose proof (updated_same _ _ _ _ _ Hup Hp) as Hsame. destruct (sh_bound _ _ _ _ _ Hs p page f Hb) as (c & Ec & Hc).
  assert (forall p' page', user_page page' -> is_present (E' p' page') = true -> (p', page') <> (p, page) /\ E' p' page' = E p' page') as Hoth.
  { intros p' page' Hp' Hpres'. assert ((p', page') <> (p, page)) as Hne by (intros [= -> ->]; rewrite Hsame, Hbits in Hpres'; done).
    split; [done|]. by apply (updated_other _ _ _ _ _ _ _ Hup). }
  destruct Hs. split; try done.
  - intros p' page' g. destruct (decide ((p', page') = (p, page))) as [[= -> ->]|Hne]; [by rewrite lookup_delete_eq|].
    rewrite lookup_delete_ne by done. intros Eg. destruct (sh_bound0 p' page' g Eg) as (d & Ed & Hcase). exists d. split; [done|].
    destruct Hcase as [?|[? ?]]; [by left|right]. split; [done|]. by rewrite (updated_other _ _ _ _ _ _ _ Hup).
  - intros p' page' Hp' Ht Hpres'. destruct (Hoth p' page' Hp' Hpres') as [Hne Heq]. rewrite lookup_delete_ne in Ht by done. rewrite Heq in *. by apply sh_private0.
  - intros p1 q1 p2 q2 Q1 Q2 T1 T2 P1 P2. destruct (Hoth p1 q1 Q1 P1) as [N1 E1]. destruct (Hoth p2 q2 Q2 P2) as [N2 E2].
    rewrite lookup_delete_ne in T1, T2 by done. rewrite E1 in *. rewrite E2 in *. by apply sh_unique0.
  - intros g d Eg. destruct (sh_counts0 g d Eg) as (? & ? & Hr & Hcase). rewrite (total_delete _ T _ f Hb). cbn [occurrences]. split; [done|]. split; [done|].
    split; [lia|]. destruct Hcase as [?|(Hk & q & Eq)]; [by left|right]. split; [done|]. exists q. rewrite lookup_delete_ne; [done|]. intros [= -> ->].
    by destruct (kernel_not_user _ ltac:(eassumption) ltac:(eassumption)).
  - intros g [->|Hg]%elem_of_cons; [by exists c|by apply sh_held0].
  - by eapply updated_absent.
Qed.

Lemma loose_unbind E D used p page bits E' a : loose E D used a -> is_present bits = false -> updated E p page bits E' -> loose E' D used a.
Proof.
  intros (H1 & H2 & H3) Hb Hup. split; [done|]. split; [|done]. intros p' page' Hp' Hpres. rewrite Hup in * by done. destruct (decide _); [congruence|]. auto.
Qed.

Definition less (c : shared_frame_c) : shared_frame_c := mkShared (sf_address c) (sf_references c - 1).

(** [remove_reference] that is not the last. *)
Lemma sharing_drop_held E T D held used f c : sharing E T D (f :: held) used -> D !! f = Some c -> sf_references c - 1 <> 0 ->
  sharing E T (<[f := less c]> D) held used.
Proof.
  intros Hs Ec Hr. destruct (sh_counts _ _ _ _ _ Hs f c Ec) as (_ & Hpos & _ & _).
  assert (forall g d, <[f := less c]> D !! g = Some d -> exists d', D !! g = Some d' /\ sf_address d = sf_address d' /\ sf_references d = sf_references d' - is_ref g f) as HD.
  { intros g d. destruct (decide (g = f)) as [->|Hne].
    - rewrite lookup_insert_eq. intros [= <-]. exists c. rewrite is_ref_refl. done.
    - rewrite lookup_insert_ne by done. intros Ed. exists d. rewrite is_ref_ne by done. split; [done|]. split; [done|]. lia. }
  assert (forall g d, D !! g = Some d -> exists d', <[f := less c]> D !! g = Some d' /\ sf_address d' = sf_address d) as HD'.
  { intros g d Ed. destruct (decide (g = f)) as [->|Hne].
    - rewrite lookup_insert_eq. exists (less c). split; [done|]. cbn. congruence.
    - rewrite lookup_insert_ne by done. by exists d. }
  destruct Hs. split; try done.
  - intros p page g Eg. destruct (sh_bound0 p page g Eg) as (d & Ed & Hcase). destruct (HD' g d Ed) as (d' & Ed' & Ha). exists d'. by rewrite Ha.
  - intros p page Hp Ht Hpres. destruct (sh_private0 p page Hp Ht Hpres) as (? & ? & Hd). split; [done|]. split; [done|].
    intros g d (d' & Ed' & -> & _)%HD. by eapply Hd.
  - intros g d (d' & Ed' & Ha & Hr')%HD. destruct (sh_counts0 g d' Ed') as (? & ? & Hc & ?). rewrite Ha, Hr'. cbn [occurrences] in Hc.
    split; [done|]. split; [|split; [lia|done]]. destruct (decide (g = f)) as [->|Hne]; [|rewrite is_ref_ne by done; lia]. rewrite is_ref_refl.
    assert (d' = c) as -> by congruence. lia.
  - intros g g' d d' (e & Ee & Ha & _)%HD (e' & Ee' & Ha' & _)%HD. rewrite Ha, Ha'. by apply sh_addresses0.
  - intros g Hg. destruct (sh_held0 g) as [d Ed]; [by right|]. destruct (HD' g d Ed) as (d' & Ed' & _). by exists d'.
Qed.

Lemma loose_less E D used f c a : loose E D used a -> D !! f = Some c -> loose E (<[f := less c]> D) used a.
Proof.
  intros (H1 & H2 & H3) Ec. split; [done|]. split; [done|]. intros g d. destruct (decide (g = f)) as [->|Hne].
  - rewrite lookup_insert_eq. intros [= <-]. cbn. by eapply H3.
  - rewrite lookup_insert_ne by done. by apply H3.
Qed.

(** The last reference: the frame is free. *)
Lemma sharing_drop_last E T D held used f c : sharing E T D (f :: held) used -> D !! f = Some c -> sf_references c - 1 = 0 ->
  sharing E T (delete f D) held used /\ loose E (delete f D) used (sf_address c).
Proof.
  intros Hs Ec Hr. destruct (sh_counts _ _ _ _ _ Hs f c Ec) as (_ & _ & Hcount & Hcase). cbn [occurrences] in Hcount. rewrite is_ref_refl in Hcount.
  pose proof (occurrences_nonneg f held) as Ho. pose proof (total_nonneg (is_ref f) T (is_ref_nonneg f)) as Ht.
  assert (forall k, T !! k <> Some f) as Hnb by (intros k Hk%bound_once; lia).
  assert (sf_address c ∈ used) as Hu by (destruct Hcase as [?|(_ & p & Hb)]; [done|by apply Hnb in Hb]).
  assert (f ∉ held) as Hnh by (intros Hin%occurrences_pos; lia).
  split.
  - destruct Hs. split; try done.
    + intros p page g Eg. destruct (sh_bound0 p page g Eg) as (d & Ed & ?). exists d. split; [|done]. rewrite lookup_delete_ne; [done|]. intros ->. by apply Hnb in Eg.
    + intros p page Hp Hn Hpres. destruct (sh_private0 p page Hp Hn Hpres) as (? & ? & Hd). split; [done|]. split; [done|].
      intros g d [_ Eg]%lookup_delete_Some. by eapply Hd.
    + intros g d [Hne Eg]%lookup_delete_Some. destruct (sh_counts0 g d Eg) as (? & ? & Hg & ?). cbn [occurrences] in Hg. rewrite is_ref_ne in Hg by done. done.
    + intros g g' d d' [_ Eg]%lookup_delete_Some [_ Eg']%lookup_delete_Some. by apply sh_addresses0.
    + intros g Hg. destruct (sh_held0 g) as [d Ed]; [by right|]. exists d. rewrite lookup_delete_ne; [done|]. by intros ->.
  - split; [done|]. split.
    + intros p page Hp Hpres Heq. destruct (T !! (p, page)) as [g|] eqn:Eg.
      * destruct (sh_bound _ _ _ _ _ Hs p page g Eg) as (d & Ed & [[Hk _]|[_ He]]).
        -- by destruct (kernel_not_user _ ltac:(eassumption) ltac:(eassumption)).
        -- destruct He as (_ & _ & _ & _ & _ & He). assert (f = g) as ->; [|by apply Hnb in Eg]. apply (sh_addresses _ _ _ _ _ Hs f g c d); try done. congruence.
      * destruct (sh_private _ _ _ _ _ Hs p page Hp Eg Hpres) as (_ & _ & Hd). by apply (Hd f c Ec).
    + intros g d [Hne Eg]%lookup_delete_Some Heq. apply Hne. symmetry. symmetry in Heq. by apply (sh_addresses _ _ _ _ _ Hs f g c d) in Heq.
Qed.

Lemma loose_delete E D used f a : loose E D used a -> loose E (delete f D) used a.
Proof. intros (H1 & H2 & H3). split; [done|]. split; [done|]. intros g d [_ Eg]%lookup_delete_Some. by eapply H3. Qed.

(** A descriptor for a block of the kernel. *)
Lemma sharing_alias E T D held used p page f : sharing E T D held used -> kernel_block page -> T !! (p, page) = None -> D !! f = None -> f <> NULL ->
  sharing E (<[(p, page) := f]> T) (<[f := mkShared page 1]> D) held used.
Proof.
  intros Hs Hk Hnone Hf Hn. destruct (frame_unreferenced _ _ _ _ _ f Hs Hf) as [H0 H1].
  assert (forall g d, <[f := mkShared page 1]> D !! g = Some d -> (g = f /\ d = mkShared page 1) \/ (g <> f /\ D !! g = Some d)) as HD.
  { intros g d. destruct (decide (g = f)) as [->|Hne]; [rewrite lookup_insert_eq; intros [= <-]; by left|rewrite lookup_insert_ne by done; by right]. }
  assert (page ∉ used) as Hpu by (intros Hu%(sh_used _ _ _ _ _ Hs); destruct Hk; lia).
  assert (forall q r, user_page r -> (p, page) <> (q, r)) as Hup by (intros q r Hr [= _ <-]; by apply (kernel_not_user page)).
  destruct Hs. split; try done.
  - intros p' page' g. destruct (decide ((p', page') = (p, page))) as [[= -> ->]|Hne].
    + rewrite lookup_insert_eq. intros [= <-]. exists (mkShared page 1). rewrite lookup_insert_eq. split; [done|]. by left.
    + rewrite lookup_insert_ne by done. intros Eg. destruct (sh_bound0 p' page' g Eg) as (c & Ec & Hcase). exists c. by rewrite lookup_insert_ne by congruence.
  - intros p' page' Hp' Ht Hpres'. rewrite lookup_insert_ne in Ht by (by apply Hup). destruct (sh_private0 p' page' Hp' Ht Hpres') as (? & Hu' & Hd').
    split; [done|]. split; [done|]. intros g d [[-> ->]|[_ Eg]]%HD; [|by eapply Hd']. cbn. intros Heq. by rewrite <- Heq in Hu'.
  - intros p1 q1 p2 q2 Q1 Q2 T1 T2. rewrite lookup_insert_ne in T1, T2 by (by apply Hup). by apply sh_unique0.
  - intros g d [[-> ->]|[Hgf Eg]]%HD; rewrite total_insert by done.
    + cbn. rewrite is_ref_refl. split; [done|]. split; [lia|]. split; [lia|]. right. split; [done|]. exists p. by rewrite lookup_insert_eq.
    + destruct (sh_counts0 g d Eg) as (? & ? & ? & Hcase). rewrite is_ref_ne by done. split; [done|]. split; [done|]. split; [lia|].
      destruct Hcase as [?|(Hk' & q & Eq)]; [by left|right]. split; [done|]. exists q. rewrite lookup_insert_ne; [done|]. congruence.
  - intros g g' d d' [[-> ->]|[Hg Eg]]%HD [[-> ->]|[Hg' Eg']]%HD; cbn; [done| | |by apply sh_addresses0].
    + done.
    + intros Heq Hu. by rewrite Heq in Hu.
  - intros g Hg. destruct (sh_held0 g Hg) as [d Ed]. rewrite lookup_insert_ne by congruence. by exists d.
Qed.
End Sharing.
