(* ===== verification/KSpaceInv.v ===== *)
(** * The invariant of the address spaces

    [mem_ok held used s]: the paging structures are consistent, the frames of
    [used] are those that the page frame manager has handed out, and the pages
    of all address spaces own them as [sharing] demands, while messages on
    their way hold the references [held]. *)

From S2P Require Import Prelude CMem CStringSearch World Libdx Loader KBase KBitmap KFrames KRegionThms KFramesThms KHeap KHeapThms KPorts KPaging KPagingThms KSpace KSharing.

(** ** The view of a state *)

Definition dirs (s : memory) : gset Z := map_img (page_directory <$> spaces s).

Definition entry_at (s : memory) (p page : Z) : Z :=
  match spaces s !! p with Some sp => translation (tables s) (page_directory sp) page | None => 0 end.

Definition bindings (s : memory) : gmap (Z * Z) Z := map_uncurry (M1 := gmap Z) (M2 := gmap Z) (M12 := gmap (Z * Z)) (shared_frame_table <$> spaces s).

Lemma elem_of_dirs s d : d ∈ dirs s <-> exists p sp, spaces s !! p = Some sp /\ page_directory sp = d.
Proof.
  unfold dirs. rewrite elem_of_map_img. split.
  - intros (p & Hp). rewrite lookup_fmap in Hp. destruct (spaces s !! p) as [sp|] eqn:E; cbn in Hp; [|done]. injection Hp as <-. by exists p, sp.
  - intros (p & sp & E & <-). exists p. by rewrite lookup_fmap, E.
Qed.

Lemma lookup_bindings s p page : bindings s !! (p, page) = spaces s !! p ≫= fun sp => shared_frame_table sp !! page.
Proof.
  unfold bindings. rewrite lookup_map_uncurry. cbn. rewrite lookup_fmap. by destruct (spaces s !! p).
Qed.

Lemma bindings_at s p sp page : spaces s !! p = Some sp -> bindings s !! (p, page) = shared_frame_table sp !! page.
Proof. intros E. by rewrite lookup_bindings, E. Qed.

(** ** The invariant *)

(** The pools of payload blocks: pool [i] has blocks of 2^i pages. *)
Definition large_pool_ok (i : nat) (pool : memory_pool_c) : Prop :=
  pool_ok pool /\ pool_base pool = LARGE_PAYLOAD_POOL_BASE + Z.of_nat i * PAYLOAD_POOL_SIZE /\ block_size pool = 2 ^ (12 + Z.of_nat i) /\
  block_count pool = 2 ^ (10 - Z.of_nat i).

Definition pools_ok (sp : address_space_c) : Prop :=
  pool_ok (medium_payload_pool sp) /\ pool_base (medium_payload_pool sp) = MEDIUM_PAYLOAD_POOL_BASE /\ block_size (medium_payload_pool sp) = 256 /\
  block_count (medium_payload_pool sp) = 1024 /\ length (large_payload_pool sp) = 8%nat /\
  forall i a pool, large_payload_pool sp !! i = Some (a, pool) -> large_pool_ok i pool.

Record base_ok (s : memory) : Prop := {
  mo_paging : paging_ok (tables s) (dirs s);
  mo_dirs : forall p q sp sq, spaces s !! p = Some sp -> spaces s !! q = Some sq -> page_directory sp = page_directory sq -> p = q;
  mo_super : forall d i, d ∈ dirs s -> 3 <= i < 1024 -> is_super_page (word (tables s) (d, i)) = false;
  mo_low : forall d i, d ∈ dirs s -> 0 <= i < 128 -> is_present (word (tables s) (d, i)) = true -> is_super_page (word (tables s) (d, i)) = true;
  mo_objects : NoDup (objects s) /\ forall a, a ∈ objects s -> a <> NULL /\ spaces s !! a = None /\ shared_frames s !! a = None;
  mo_apart : forall f c, shared_frames s !! f = Some c -> spaces s !! f = None;
  mo_null : spaces s !! NULL = None;
  mo_pools : forall p sp, spaces s !! p = Some sp -> pools_ok sp }.

Record mem_ok (held : list Z) (used : gset Z) (s : memory) : Prop := {
  mo_base : base_ok s;
  mo_frames : frames_ok (frames s) used;
  mo_sharing : sharing (entry_at s) (bindings s) (shared_frames s) held used }.

Definition owns (s : memory) (used : gset Z) (a : Z) : Prop := loose (entry_at s) (shared_frames s) used a.

(** What every operation leaves: the directories, and the frames of the
    descriptors in [keep] with their contents. *)
Record effect (keep : list Z) (s s' : memory) : Prop := {
  ef_spaces : forall p, page_directory <$> (spaces s' !! p) = page_directory <$> (spaces s !! p);
  ef_frames : forall f c, f ∈ keep -> shared_frames s !! f = Some c -> exists c', shared_frames s' !! f = Some c' /\
    sf_address c' = sf_address c /\ ram s' !! sf_address c = ram s !! sf_address c }.

Lemma effect_refl keep s : effect keep s s.
Proof. split; [done|]. intros f c _ E. by exists c. Qed.

Lemma effect_trans keep s s' s'' : effect keep s s' -> effect keep s' s'' -> effect keep s s''.
Proof.
  intros [H1 H2] [H3 H4]. split; [intros p; by rewrite H3|]. intros f c Hf E. destruct (H2 f c Hf E) as (c' & E' & Ha & Hr).
  destruct (H4 f c' Hf E') as (c'' & E'' & Ha' & Hr'). exists c''. rewrite Ha', Ha in *. split; [done|]. split; [done|]. by rewrite Hr'.
Qed.

Lemma effect_weaken keep keep' s s' : (forall f, f ∈ keep -> f ∈ keep') -> effect keep' s s' -> effect keep s s'.
Proof. intros Hk [H1 H2]. split; [done|]. intros f c Hf. apply H2. auto. Qed.

Lemma effect_space keep s s' p sp : effect keep s s' -> spaces s !! p = Some sp -> exists sp', spaces s' !! p = Some sp' /\ page_directory sp' = page_directory sp.
Proof.
  intros [H _] E. specialize (H p). rewrite E in H. cbn in H. destruct (spaces s' !! p) as [sp'|]; cbn in H; [|done]. exists sp'. split; [done|]. by injection H.
Qed.

(** Only the translations, the bindings and the descriptors matter. *)
Lemma mem_ok_change held used s s' : mem_ok held used s -> base_ok s' -> frames s' = frames s ->
  sharing (entry_at s') (bindings s') (shared_frames s') held used -> mem_ok held used s'.
Proof. intros [] Hb Hf Hs. split; [done|by rewrite Hf|done]. Qed.

(** ** Programs *)

(** [t] tells whether the program also has to return. *)
Definition mwp {A} (t : bool) (c : M A) (Q : A -> memory -> Prop) (s : memory) : Prop :=
  match c s with Ret (a, s') => Q a s' | Trap _ => t = false end.

Lemma mwp_run {A} t (c : M A) Q s a s' : c s = Ret (a, s') -> Q a s' -> mwp t c Q s.
Proof. unfold mwp. by intros ->. Qed.

Lemma mwp_bind {A B} t (c : M A) (k : A -> M B) Q s : mwp t c (fun a s' => mwp t (k a) Q s') s -> mwp t (c ≫= k) Q s.
Proof. unfold mwp, mbind, M_bind. by destruct (c s) as [[a s']|]. Qed.

Lemma mwp_ret {A} t (a : A) (Q : A -> memory -> Prop) s : Q a s -> mwp t (mret a) Q s.
Proof. done. Qed.

Lemma mwp_mono {A} t (c : M A) (Q Q' : A -> memory -> Prop) s : mwp t c Q s -> (forall a s', Q a s' -> Q' a s') -> mwp t c Q' s.
Proof. unfold mwp. destruct (c s) as [[a s']|]; auto. Qed.

Lemma mwp_assert t b (Q : unit -> memory -> Prop) s : (t = true -> b = true) -> (b = true -> Q tt s) -> mwp t (massert b) Q s.
Proof. unfold mwp, massert, mlift, kassert. destruct b; cbn; [auto|]. destruct t; [|done]. intros H. discriminate (H eq_refl). Qed.

Lemma mwp_trap {A} t e (Q : A -> memory -> Prop) s : t = false -> mwp t (mlift (Trap e)) Q s.
Proof. done. Qed.

Lemma mwp_modify t f (Q : unit -> memory -> Prop) s : Q tt (f s) -> mwp t (mmodify f) Q s.
Proof. done. Qed.

Lemma mwp_gets {A} t (f : memory -> A) (Q : A -> memory -> Prop) s : Q (f s) s -> mwp t (mgets f) Q s.
Proof. done. Qed.

Lemma mwp_space t p sp Q s : spaces s !! p = Some sp -> Q sp s -> mwp t (space_at p) Q s.
Proof. unfold mwp, space_at. by intros ->. Qed.

Lemma mwp_space_any (t : bool) p Q s : (t = true -> is_Some (spaces s !! p)) -> (forall sp, spaces s !! p = Some sp -> Q sp s) -> mwp t (space_at p) Q s.
Proof. unfold mwp, space_at. intros Ht HQ. destruct (spaces s !! p) as [sp|]; [auto|]. destruct t; [|done]. by destruct (Ht eq_refl). Qed.

Lemma mwp_shared t f c Q s : shared_frames s !! f = Some c -> Q c s -> mwp t (shared_at f) Q s.
Proof. unfold mwp, shared_at. by intros ->. Qed.

Ltac mbind := apply mwp_bind.

(** ** Pages of the user *)

Lemma user_page_word page : user_page page -> 0 <= page < 2 ^ 32.
Proof. unfold user_page, PAYLOAD_AREA_BASE. lia. Qed.

Lemma user_slot page : user_page page -> 128 <= slot page < 1024.
Proof.
  intros [Hp _]. destruct (slot_div page) as [-> [_ Hb]]; [unfold PAYLOAD_AREA_BASE in Hp; lia|]. split; [|apply Z.div_lt_upper_bound; lia].
  apply Z.div_le_lower_bound; unfold PAYLOAD_AREA_BASE in Hp; lia.
Qed.

Lemma user_page_eq p q : user_page p -> user_page q -> p / 4096 = q / 4096 -> p = q.
Proof. intros [_ Hp] [_ Hq] E. pose proof (Z.div_mod p 4096 ltac:(lia)). pose proof (Z.div_mod q 4096 ltac:(lia)). lia. Qed.

Lemma dir_of s p sp : spaces s !! p = Some sp -> page_directory sp ∈ dirs s.
Proof. intros E. apply elem_of_dirs. eauto. Qed.

Lemma entry_at_space s p sp page : spaces s !! p = Some sp -> entry_at s p page = translation (tables s) (page_directory sp) page.
Proof. unfold entry_at. by intros ->. Qed.

Lemma present_is_table s p sp page : base_ok s -> spaces s !! p = Some sp -> user_page page -> is_present (entry_at s p page) = true ->
  is_table (word (tables s) (page_directory sp, slot page)) = true.
Proof.
  intros Hb E Hp Hpres. rewrite (entry_at_space _ _ _ _ E) in Hpres. pose proof (user_slot page Hp).
  pose proof (mo_super s Hb _ (slot page) (dir_of _ _ _ E) ltac:(lia)) as Hsup.
  destruct (is_table _) eqn:Ht; [done|]. unfold translation, located in Hpres. rewrite Ht in Hpres. unfold is_table in Ht. by rewrite Hpres, Hsup in Ht.
Qed.

(** A store to the entry of a page. *)
Definition put_entry (s : memory) (d page bits : Z) : memory := with_tables s (stored (tables s) (located (tables s) d page) bits).

Lemma put_entry_ok s p sp page bits : base_ok s -> spaces s !! p = Some sp -> user_page page ->
  is_table (word (tables s) (page_directory sp, slot page)) = true ->
  base_ok (put_entry s (page_directory sp) page bits) /\ updated (entry_at s) p page bits (entry_at (put_entry s (page_directory sp) page bits)).
Proof.
  intros Hb E Hp Ht. set (d := page_directory sp). pose proof (dir_of _ _ _ E) as Hd. fold d in Hd.
  destruct (stored_translation (tables s) (dirs s) d page bits (mo_paging s Hb) Hd (user_page_word _ Hp) Ht) as (H1 & H2 & H3 & H4). split.
  - destruct Hb. split; try done.
    + intros d' i Hd' Hi. change (dirs _) with (dirs s) in Hd'. cbn. rewrite H3 by done. auto.
    + intros d' i Hd' Hi. change (dirs _) with (dirs s) in Hd'. cbn. rewrite H3 by done. auto.
  - intros q page' Hp'. unfold entry_at at 1. cbn. destruct (spaces s !! q) as [sq|] eqn:Eq.
    + rewrite H4; [|by eapply dir_of|by apply user_page_word]. rewrite (entry_at_space _ _ _ _ Eq).
      destruct (decide (page_directory sq = d /\ _)) as [[Hdd Hpp]|Hno].
      * rewrite decide_True; [done|]. split; [by apply (mo_dirs s Hb q p sq sp)|by apply user_page_eq].
      * rewrite decide_False; [done|]. intros [-> ->]. apply Hno. split; [|done]. unfold d. congruence.
    + rewrite decide_False by (intros [-> _]; congruence). unfold entry_at. by rewrite Eq.
Qed.

(** The directories are as before. *)
Definition same_tree (s s' : memory) : Prop := forall d i, d ∈ dirs s -> word (tables s') (d, i) = word (tables s) (d, i).

Lemma same_tree_refl s : same_tree s s.
Proof. done. Qed.

Lemma located_tree s s' p sp page : same_tree s s' -> spaces s !! p = Some sp -> located (tables s') (page_directory sp) page = located (tables s) (page_directory sp) page.
Proof. intros H E. unfold located. by rewrite H by (by eapply dir_of). Qed.

Lemma put_entry_tree s p sp page bits : base_ok s -> spaces s !! p = Some sp -> user_page page ->
  is_table (word (tables s) (page_directory sp, slot page)) = true -> same_tree s (put_entry s (page_directory sp) page bits).
Proof.
  intros Hb E Hp Ht d i Hd.
  by destruct (stored_translation (tables s) (dirs s) (page_directory sp) page bits (mo_paging s Hb) (dir_of _ _ _ E) (user_page_word _ Hp) Ht) as (_ & _ & -> & _).
Qed.

(** ** The primitive calls *)

Lemma entry_of_run s p sp page : base_ok s -> spaces s !! p = Some sp -> 0 <= page < 2 ^ 32 ->
  entry_of (page_directory sp) page s = Ret (located (tables s) (page_directory sp) page, s).
Proof.
  intros Hb E Hp. unfold entry_of, mbind, M_bind, on_paging.
  rewrite (find_entry_search (tables s) (dirs s)); [|apply Hb|by eapply dir_of|done]. destruct s; done.
Qed.

Lemma read_run s p sp page : base_ok s -> spaces s !! p = Some sp -> 
  on_paging (read_entry (located (tables s) (page_directory sp) page)) s = Ret (entry_at s p page, s).
Proof.
  intros Hb E. unfold on_paging. rewrite read_entry_run by (eapply located_exists; [apply Hb|by eapply dir_of]).
  rewrite (entry_at_space _ _ _ _ E). destruct s; done.
Qed.

Lemma decommit_at s p sp page : base_ok s -> spaces s !! p = Some sp -> user_page page -> is_present (entry_at s p page) = true ->
  on_paging (entry_decommit_frame (located (tables s) (page_directory sp) page)) s
  = Ret (entry_address (entry_at s p page), put_entry s (page_directory sp) page 0).
Proof.
  intros Hb E Hp Hpres. unfold on_paging, put_entry. rewrite (entry_at_space _ _ _ _ E) in *.
  by rewrite (decommit_run (tables s) (dirs s)) by (done || apply Hb || by eapply dir_of || by apply user_page_word).
Qed.

(** ** Changes of an address space object *)

Definition put_space (s : memory) (p : Z) (sp : address_space_c) : memory := with_spaces s (<[p := sp]> (spaces s)).

Lemma put_space_ok s p sp sp' : base_ok s -> spaces s !! p = Some sp -> page_directory sp' = page_directory sp -> (pools_ok sp -> pools_ok sp') ->
  base_ok (put_space s p sp') /\ (forall q page, entry_at (put_space s p sp') q page = entry_at s q page) /\
  forall q, page_directory <$> (spaces (put_space s p sp') !! q) = page_directory <$> (spaces s !! q).
Proof.
  intros Hb E Hd Hpo. assert (forall q, page_directory <$> (spaces (put_space s p sp') !! q) = page_directory <$> (spaces s !! q)) as Hq.
  { intros q. cbn. destruct (decide (q = p)) as [->|Hne]; [by rewrite lookup_insert_eq, E; cbn; f_equal|by rewrite lookup_insert_ne]. }
  assert (page_directory <$> spaces (put_space s p sp') = page_directory <$> spaces s) as Hm by (apply map_eq; intros q; rewrite !lookup_fmap; apply Hq).
  assert (dirs (put_space s p sp') = dirs s) as Hds by (unfold dirs; by rewrite Hm).
  split; [|split; [|done]].
  - destruct Hb. split; try (rewrite Hds); try done.
    + intros q1 q2 s1 s2 E1 E2 Hdd. pose proof (Hq q1) as H1. pose proof (Hq q2) as H2. rewrite E1 in H1. rewrite E2 in H2. cbn in H1, H2.
      destruct (spaces s !! q1) as [r1|] eqn:R1; [|done]. destruct (spaces s !! q2) as [r2|] eqn:R2; [|done]. cbn in H1, H2.
      apply (mo_dirs0 q1 q2 r1 r2 R1 R2). congruence.
    + destruct mo_objects0 as [Hnd Hob]. split; [done|]. intros a Ha. destruct (Hob a Ha) as (? & ? & ?). split; [done|]. split; [|done].
      cbn. rewrite lookup_insert_ne; [done|]. congruence.
    + intros f c Ec. cbn in *. rewrite lookup_insert_ne; [by apply (mo_apart0 f c)|]. intros <-. apply mo_apart0 in Ec. congruence.
    + cbn. rewrite lookup_insert_ne; [done|]. congruence.
    + intros q sq. cbn. destruct (decide (q = p)) as [->|Hne]; [rewrite lookup_insert_eq; intros [= <-]; eauto|rewrite lookup_insert_ne by done; eauto].
  - intros q page. unfold entry_at. specialize (Hq q). cbn [tables put_space with_spaces]. 
    destruct (spaces (put_space s p sp') !! q) as [r1|] eqn:R1, (spaces s !! q) as [r2|] eqn:R2; cbn in Hq; try done. injection Hq as Hq. by rewrite Hq.
Qed.

Lemma bindings_put s p sp sp' : spaces s !! p = Some sp -> shared_frame_table sp' = shared_frame_table sp -> bindings (put_space s p sp') = bindings s.
Proof.
  intros E Ht. apply map_eq. intros [q page]. rewrite !lookup_bindings. cbn. destruct (decide (q = p)) as [->|Hne].
  - rewrite lookup_insert_eq, E. cbn. by rewrite Ht.
  - by rewrite lookup_insert_ne.
Qed.

Lemma bindings_insert s p sp page f : spaces s !! p = Some sp ->
  bindings (put_space s p (with_shared_table sp (<[page := f]> (shared_frame_table sp)))) = <[(p, page) := f]> (bindings s).
Proof.
  intros E. apply map_eq. intros [q page']. rewrite lookup_bindings. cbn. destruct (decide (q = p)) as [->|Hne].
  - rewrite lookup_insert_eq. cbn. destruct (decide (page' = page)) as [->|Hne]; [by rewrite !lookup_insert_eq|].
    rewrite !lookup_insert_ne by congruence. by rewrite (bindings_at _ _ _ _ E).
  - rewrite !lookup_insert_ne by congruence. by rewrite lookup_bindings.
Qed.

Lemma bindings_delete s p sp page : spaces s !! p = Some sp ->
  bindings (put_space s p (with_shared_table sp (delete page (shared_frame_table sp)))) = delete (p, page) (bindings s).
Proof.
  intros E. apply map_eq. intros [q page']. rewrite lookup_bindings. cbn. destruct (decide (q = p)) as [->|Hne].
  - rewrite lookup_insert_eq. cbn. destruct (decide (page' = page)) as [->|Hne]; [by rewrite !lookup_delete_eq|].
    rewrite !lookup_delete_ne by congruence. by rewrite (bindings_at _ _ _ _ E).
  - rewrite lookup_insert_ne, lookup_delete_ne by congruence. by rewrite lookup_bindings.
Qed.

(** The fields that nobody else looks at. *)
Lemma put_space_same held used s p sp sp' : mem_ok held used s -> spaces s !! p = Some sp -> page_directory sp' = page_directory sp ->
  shared_frame_table sp' = shared_frame_table sp -> (pools_ok sp -> pools_ok sp') -> mem_ok held used (put_space s p sp') /\ effect held s (put_space s p sp').
Proof.
  intros Hm E Hd Ht Hpo. destruct (put_space_ok s p sp sp' (mo_base _ _ _ Hm) E Hd Hpo) as (Hb & HE & Hq). split.
  - apply (mem_ok_change held used s); try done. rewrite (bindings_put s p sp sp' E Ht). apply (sharing_ext (entry_at s)); [apply Hm|]. intros; apply HE.
  - split; [done|]. intros f c _ Ec. exists c. done.
Qed.

(** ** The page frame manager *)

Lemma valid_paged m a : a ∈ valid_frames m -> KERNEL_PAGED_BOUNDARY <= a.
Proof.
  intros (i & x & Hi & Hx & ->)%elem_of_valid. unfold region_frame, frame_address, REGION_SIZE, FRAME_COUNT_PER_REGION, PAGE_SIZE, KERNEL_PAGED_BOUNDARY, SUPER_PAGE_SIZE. lia.
Qed.

Lemma base_with_frames s m : base_ok s -> base_ok (with_frames s m).
Proof. by intros []. Qed.

(** Frames are handed out: they are owned by nobody yet. *)
Definition allocated (held : list Z) (used : gset Z) (s : memory) (n : Z) (r : Z * list Z) (s' : memory) : Prop :=
  exists m', s' = with_frames s m' /\
  ((r.1 = STATUS_SUCCESS /\ Z.of_nat (length r.2) = n /\ NoDup r.2 /\ mem_ok held (list_to_set r.2 ∪ used) s' /\
      (forall a, a ∈ r.2 -> owns s' (list_to_set r.2 ∪ used) a /\ a ∉ used)) \/
   (r.1 = STATUS_INSUFFICIENT_MEMORY /\ mem_ok held used s' /\ Z.of_nat (base.size (valid_frames (frames s) ∖ used)) < n)).

Lemma allocate_run held used s n : mem_ok held used s -> 0 < n -> exists r s', allocate_page_frames n 0 s = Ret (r, s') /\ allocated held used s n r s'.
Proof.
  intros Hm Hn. destruct (allocate_frames_run (frames s) used n 0 (mo_frames _ _ _ Hm) Hn ltac:(done)) as (status & out & m' & E & Hsame & Hcase).
  exists (status, out), (with_frames s m'). unfold allocate_page_frames. rewrite E. split; [done|]. exists m'. split; [done|]. cbn. case_decide as Hd.
  - left. destruct Hcase as (-> & Hl & Hnd & Hsub & Hok). destruct (sharing_allocate (entry_at s) (bindings s) (shared_frames s) held used (list_to_set out ∪ used)) as [Hs Hl'].
    + apply Hm.
    + set_solver.
    + intros a [Ha|Ha]%elem_of_union; [|by apply (sh_used _ _ _ _ _ (mo_sharing _ _ _ Hm))]. apply (valid_paged (frames s)). set_solver.
    + split; [done|]. split; [done|]. split; [done|]. split; [split; [by apply base_with_frames, Hm|done|done]|].
      intros a Ha. assert (a ∉ used) as Hna by (assert (a ∈ (list_to_set out : gset Z)) by (by apply elem_of_list_to_set); set_solver).
      split; [|done]. apply Hl'; [|done]. apply elem_of_union_l. by apply elem_of_list_to_set.
  - right. destruct Hcase as [-> Hok]. split; [done|]. split; [split; [by apply base_with_frames, Hm|done|apply Hm]|lia].
Qed.

Lemma free_run held used s a : mem_ok held used s -> owns s used a ->
  exists m', free_page_frames [a] s = Ret (tt, with_frames s m') /\ mem_ok held (used ∖ {[a]}) (with_frames s m').
Proof.
  intros Hm Ha. destruct (free_frame_run (frames s) used a (mo_frames _ _ _ Hm)) as (m' & E & _ & Hok); [apply Ha|].
  exists m'. unfold free_page_frames. cbn [free_frames]. rewrite E. split; [done|]. split; [by apply base_with_frames, Hm|done|].
  by apply sharing_free; [apply Hm|].
Qed.

Lemma effect_frames keep s m : effect keep s (with_frames s m).
Proof. split; [done|]. intros f c _ E. by exists c. Qed.

(** ** Page tables *)

(** [find_entry] with expansion: no entry of a page changes. *)
Lemma tree_expand_run s p sp page : base_ok s -> spaces s !! p = Some sp -> user_page page ->
  (on_paging (find_entry (page_directory sp) page EXPAND_TREE) s = Ret (None, s) /\ heap_pages (tables s) = [] /\ is_present (entry_at s p page) = false) \/
  exists m', let s' := with_tables s m' in
    on_paging (find_entry (page_directory sp) page EXPAND_TREE) s = Ret (Some (located (tables s') (page_directory sp) page), s') /\
    base_ok s' /\ (forall q page', user_page page' -> entry_at s' q page' = entry_at s q page') /\
    is_table (word (tables s') (page_directory sp, slot page)) = true /\ (length (heap_pages (tables s)) <= S (length (heap_pages m')))%nat /\
    (forall pg, is_table (word (tables s) (page_directory sp, slot pg)) = true -> located m' (page_directory sp) pg = located (tables s) (page_directory sp) pg).
Proof.
  intros Hb E Hp. pose proof (user_slot page Hp) as Hslot. pose proof (dir_of _ _ _ E) as Hd. unfold on_paging.
  destruct (find_entry_expand (tables s) (dirs s) (page_directory sp) page (mo_paging s Hb) Hd (user_page_word _ Hp))
    as [(Ef & Hh & Habs)|(m' & Ef & (H1 & H2 & H3) & Ht & Hw & Hlen)]; rewrite Ef.
  - left. split; [by destruct s|]. split; [done|]. rewrite (entry_at_space _ _ _ _ E). by apply (translation_absent _ _ _ (slot page)).
  - right. exists m'. split; [done|]. split; [|split].
    + destruct Hb. split; try done.
      * intros d i Hd' Hi. change (dirs (with_tables s m')) with (dirs s) in Hd'. cbn. rewrite H2 by done. auto.
      * intros d i Hd' Hi. change (dirs (with_tables s m')) with (dirs s) in Hd'. cbn. rewrite Hw; [auto|done|]. left. intros [= -> ->]. lia.
    + intros q page' Hp'. unfold entry_at. cbn. destruct (spaces s !! q) as [sq|] eqn:Eq; [|done]. apply H3; [by eapply dir_of|by apply user_page_word].
    + split; [|split; [done|]].
      * cbn. apply Ht. unfold mappable. apply (mo_super s Hb); [done|lia].
      * intros pg Htab. unfold located. rewrite Hw; [done|done|]. right. by apply andb_true_iff in Htab as [? _].
Qed.

Lemma commit_at s p sp page frame flags : base_ok s -> spaces s !! p = Some sp -> user_page page -> is_present (entry_at s p page) = false ->
  frame <> INVALID_FRAME -> on_paging (entry_commit_frame (located (tables s) (page_directory sp) page) frame flags) s
  = Ret (STATUS_SUCCESS, put_entry s (page_directory sp) page (commit_bits frame flags)).
Proof.
  intros Hb E Hp Habs Hf. unfold on_paging, put_entry, entry_commit_frame, mbind, G_bind. rewrite gassert_run by (by apply negb_true_iff, Z.eqb_neq).
  assert (is_Some (structures (tables s) !! (located (tables s) (page_directory sp) page).1)) as Hex by (eapply located_exists; [apply Hb|by eapply dir_of]).
  rewrite read_entry_run by done. fold (translation (tables s) (page_directory sp) page). rewrite <- (entry_at_space _ _ _ _ E), Habs. cbn [negb].
  by rewrite write_entry_run.
Qed.

(** Committing to a page that is present stops the kernel. *)
Lemma commit_present s p sp page frame flags : base_ok s -> spaces s !! p = Some sp -> is_present (entry_at s p page) = true ->
  on_paging (entry_commit_frame (located (tables s) (page_directory sp) page) frame flags) s = Trap AssertFailed.
Proof.
  intros Hb E Hpres. unfold on_paging, entry_commit_frame, mbind, G_bind. unfold gassert at 1. destruct (negb (frame =? INVALID_FRAME)); [|done]. cbn.
  rewrite read_entry_run by (eapply located_exists; [apply Hb|by eapply dir_of]). fold (translation (tables s) (page_directory sp) page).
  by rewrite <- (entry_at_space _ _ _ _ E), Hpres.
Qed.

Lemma share_at s p sp page : base_ok s -> spaces s !! p = Some sp -> user_page page -> is_present (entry_at s p page) = true ->
  on_paging (entry_share_frame (located (tables s) (page_directory sp) page)) s
  = Ret (entry_address (entry_at s p page), put_entry s (page_directory sp) page (share_bits (entry_at s p page))).
Proof.
  intros Hb E Hp Hpres. unfold on_paging, put_entry. rewrite (entry_at_space _ _ _ _ E) in *.
  by rewrite (share_run (tables s) (dirs s)) by (done || apply Hb || by eapply dir_of || by apply user_page_word).
Qed.

Lemma unshare_at s p sp page : base_ok s -> spaces s !! p = Some sp -> user_page page -> is_present (entry_at s p page) = true -> is_shared (entry_at s p page) = true ->
  on_paging (entry_unshare_frame (located (tables s) (page_directory sp) page)) s = Ret (tt, put_entry s (page_directory sp) page 0).
Proof.
  intros Hb E Hp Hpres Hsh. unfold on_paging, put_entry. rewrite (entry_at_space _ _ _ _ E) in *.
  by rewrite (unshare_run (tables s) (dirs s)) by (done || apply Hb || by eapply dir_of || by apply user_page_word).
Qed.

Lemma effect_tables keep s m : effect keep s (with_tables s m).
Proof. split; [done|]. intros f c _ E. by exists c. Qed.
