(* ===== verification/KSpaceRuns.v ===== *)
(** * Runs of the operations on shared frames

    Each operation of [KSpace] that changes the ownership of frames, with what
    it returns and the invariant afterwards. *)

From S2P Require Import Prelude CMem CStringSearch World Libdx Process ProcessThms Loader KBase KBitmap KFrames KRegionThms KFramesThms KHeap KHeapThms KPorts KPaging KPagingThms KSpace KSharing KSpaceInv.

(** ** Page arithmetic *)

Lemma page_base_div a : 0 <= a < 2 ^ 32 -> PAGE_BASE a = a / 4096 * 4096.
Proof. intros Ha. rewrite page_base_mod by done. pose proof (Z.div_mod a 4096 ltac:(lia)). lia. Qed.

Lemma page_base_bounds a : 0 <= a < 2 ^ 32 -> 0 <= PAGE_BASE a <= a /\ a < PAGE_BASE a + 4096 /\ PAGE_BASE a mod 4096 = 0 /\ PAGE_BASE a / 4096 = a / 4096.
Proof.
  intros Ha. rewrite page_base_div by done. pose proof (Z.div_mod a 4096 ltac:(lia)). pose proof (Z.mod_pos_bound a 4096 ltac:(lia)).
  pose proof (Z.div_pos a 4096 ltac:(lia) ltac:(lia)). rewrite Z.mod_mul, Z.div_mul by lia. lia.
Qed.

Lemma page_base_user a : PAYLOAD_AREA_BASE <= a < 2 ^ 32 -> user_page (PAGE_BASE a).
Proof.
  intros Ha. assert (0 <= a < 2 ^ 32) as Ha' by (unfold PAYLOAD_AREA_BASE in Ha; lia). destruct (page_base_bounds a Ha') as (H1 & H2 & H3 & _).
  split; [|done]. pose proof (Z.div_mod (PAGE_BASE a) 4096 ltac:(lia)). unfold PAYLOAD_AREA_BASE in *. lia.
Qed.

Lemma page_base_id page : user_page page -> PAGE_BASE page = page.
Proof.
  intros Hp. rewrite page_base_div by (by apply user_page_word). destruct Hp as [_ Hm]. pose proof (Z.div_mod page 4096 ltac:(lia)). lia.
Qed.

Lemma located_base m d a : 0 <= a < 2 ^ 32 -> located m d a = located m d (PAGE_BASE a).
Proof.
  intros Ha. destruct (page_base_bounds a Ha) as (H1 & _ & _ & H4). destruct (same_indices (PAGE_BASE a) a ltac:(lia) Ha) as [_ H]. destruct (H H4) as [Hs Ht].
  unfold located. by rewrite Hs, Ht.
Qed.

(** ** References *)

Lemma base_with_shared s D : base_ok s -> (forall f, f ∈ objects s -> D !! f = None) -> (forall f c, D !! f = Some c -> spaces s !! f = None) -> base_ok (with_shared s D).
Proof.
  intros [] Ho Ha. split; try done. destruct mo_objects as [Hnd Hob]. split; [done|]. intros a Hin. destruct (Hob a Hin) as (? & ? & ?). split; [done|]. split; [done|]. by apply Ho.
Qed.

Lemma base_replace s f c c' : base_ok s -> shared_frames s !! f = Some c -> base_ok (with_shared s (<[f := c']> (shared_frames s))).
Proof.
  intros Hb Ec. apply base_with_shared; [done| |].
  - intros g Hg. destruct (mo_objects s Hb) as [_ Hob]. destruct (Hob g Hg) as (_ & _ & Hn). rewrite lookup_insert_ne; [done|]. congruence.
  - intros g d. destruct (decide (g = f)) as [->|Hne]; [intros _; by eapply (mo_apart s Hb)|rewrite lookup_insert_ne by done; by apply (mo_apart s Hb)].
Qed.

Lemma add_reference_run held used s f c : mem_ok held used s -> shared_frames s !! f = Some c ->
  let s' := with_shared s (<[f := more c]> (shared_frames s)) in
  frame_add_reference f s = Ret (tt, s') /\ mem_ok (f :: held) used s' /\ effect (f :: held) s s'.
Proof.
  intros Hm Ec s'. destruct (sh_counts _ _ _ _ _ (mo_sharing _ _ _ Hm) f c Ec) as (_ & Hpos & _). split; [|split; [split|]].
  - unfold frame_add_reference, mbind, M_bind, shared_at. rewrite Ec. unfold massert, mlift. rewrite kassert_true by (apply Z.ltb_lt; lia). done.
  - apply (base_replace s f c); [apply Hm|done].
  - apply Hm.
  - apply sharing_take; [apply Hm|done].
  - split; [done|]. intros g d _ Eg. destruct (insert_more (shared_frames s) f c g d Ec Eg) as (d' & Ed' & Ha). exists d'. done.
Qed.

(** [remove_reference]: the frame is released with the last reference. *)
Definition released (f : Z) (c : shared_frame_c) (used : gset Z) (s s' : memory) (used' : gset Z) : Prop :=
  tables s' = tables s /\ spaces s' = spaces s /\ ram s' = ram s /\
  ((sf_references c <> 1 /\ shared_frames s' = <[f := less c]> (shared_frames s) /\ used' = used /\ frames s' = frames s) \/
   (sf_references c = 1 /\ shared_frames s' = delete f (shared_frames s) /\ used' = used ∖ {[sf_address c]})).

Lemma remove_reference_run held used s f c : mem_ok (f :: held) used s -> shared_frames s !! f = Some c ->
  exists s' used', frame_remove_reference f s = Ret (tt, s') /\ mem_ok held used' s' /\ effect held s s' /\ released f c used s s' used'.
Proof.
  intros Hm Ec. destruct (sh_counts _ _ _ _ _ (mo_sharing _ _ _ Hm) f c Ec) as (Hn & Hpos & Hcount & _). pose proof (mo_base _ _ _ Hm) as Hb.
  unfold frame_remove_reference, mbind, M_bind, shared_at. rewrite Ec. cbn. unfold massert, mlift. rewrite kassert_true by (apply Z.leb_le; lia).
  destruct (Z.eqb_spec (sf_references c - 1) 0) as [H1|H1].
  - destruct (sharing_drop_last _ _ _ _ _ f c (mo_sharing _ _ _ Hm) Ec H1) as [Hs Hl].
    destruct (free_frame_run (frames s) used (sf_address c) (mo_frames _ _ _ Hm)) as (m' & Ef & _ & Hok); [apply Hl|].
    unfold shared_frame_delete, mbind, M_bind, shared_at. cbn. rewrite lookup_insert_eq. unfold free_page_frames. cbn [free_frames sf_address]. cbn. rewrite Ef. cbn.
    unfold massert, mlift. rewrite kassert_true by (by apply Z.eqb_eq). eexists _, (used ∖ {[sf_address c]}). split; [reflexivity|]. cbn. rewrite delete_insert_eq.
    split; [split|split].
    + destruct Hb. split; try done.
      * destruct mo_objects as [Hnd Hob]. split.
        -- cbn. apply NoDup_cons. split; [|done]. intros Hin. destruct (Hob f Hin) as (_ & _ & ?). congruence.
        -- cbn. intros a [->|Hin]%elem_of_cons.
           ++ split; [done|]. split; [by eapply mo_apart|apply lookup_delete_eq].
           ++ destruct (Hob a Hin) as (? & ? & ?). split; [done|]. split; [done|]. rewrite lookup_delete_ne; [done|]. congruence.
      * cbn. intros g d [_ Eg]%lookup_delete_Some. by eapply mo_apart.
    + done.
    + by apply sharing_free.
    + split; [done|]. cbn. intros g d Hg Eg. exists d. split; [|done]. rewrite lookup_delete_ne; [done|]. intros <-.
      apply occurrences_pos in Hg. pose proof (total_nonneg (is_ref f) (bindings s) (is_ref_nonneg f)). cbn [occurrences] in Hcount. rewrite is_ref_refl in Hcount. lia.
    + split; [done|]. split; [done|]. split; [done|]. right. split; [lia|]. done.
  - eexists _, used. split; [reflexivity|]. split; [split|split].
    + by apply (base_replace s f c).
    + apply Hm.
    + apply sharing_drop_held; [apply Hm|done|done].
    + split; [done|]. cbn. intros g d _ Eg. destruct (decide (g = f)) as [->|Hne]; [rewrite lookup_insert_eq; exists (less c)|rewrite lookup_insert_ne by done; by exists d].
      split; [done|]. cbn. split; [congruence|done].
    + split; [done|]. split; [done|]. split; [done|]. left. split; [lia|]. done.
Qed.

(** A frame that the caller owns is not touched. *)
Lemma released_owns f c used s s' used' a : released f c used s s' used' -> shared_frames s !! f = Some c -> owns s used a -> owns s' used' a.
Proof.
  intros (Ht & Hsp & _ & Hcase) Ec Ha. assert (forall q page, user_page page -> entry_at s' q page = entry_at s q page) as HE by (intros q page _; unfold entry_at; by rewrite Ht, Hsp).
  unfold owns. apply (loose_ext (entry_at s)); [|done]. destruct Hcase as [(_ & -> & -> & _)|(_ & -> & ->)].
  - by apply loose_less.
  - apply loose_free; [by apply loose_delete|]. intros ->. destruct Ha as (_ & _ & Ha). by apply (Ha f c Ec).
Qed.

(** ** Storing an entry *)

(** The step of an operation that ends in [put_entry]. *)
Lemma put_entry_mem held used s p sp page bits T D held' : mem_ok held used s -> spaces s !! p = Some sp -> user_page page ->
  is_table (word (tables s) (page_directory sp, slot page)) = true ->
  (forall E', updated (entry_at s) p page bits E' -> sharing E' T D held' used) ->
  base_ok (put_entry s (page_directory sp) page bits) /\ updated (entry_at s) p page bits (entry_at (put_entry s (page_directory sp) page bits)) /\
  frames_ok (frames (put_entry s (page_directory sp) page bits)) used /\
  sharing (entry_at (put_entry s (page_directory sp) page bits)) T D held' used.
Proof.
  intros Hm E Hp Ht Hs. destruct (put_entry_ok s p sp page bits (mo_base _ _ _ Hm) E Hp Ht) as [H1 H2]. split; [done|]. split; [done|]. split; [apply Hm|auto].
Qed.

Lemma bindings_tables s m : bindings (with_tables s m) = bindings s.
Proof. done. Qed.

(** The frames under the pages stay where they are. *)
Definition same_frames (s s' : memory) : Prop := forall q page, user_page page ->
  is_present (entry_at s' q page) = is_present (entry_at s q page) /\ entry_address (entry_at s' q page) = entry_address (entry_at s q page).

Lemma same_frames_refl s : same_frames s s.
Proof. done. Qed.
Lemma same_frames_trans s s' s'' : same_frames s s' -> same_frames s' s'' -> same_frames s s''.
Proof. intros H1 H2 q page Hp. destruct (H1 q page Hp), (H2 q page Hp). split; congruence. Qed.

(** ** [share_frame] *)

(** The descriptor, with a reference for the caller. *)
Definition shared_now (held : list Z) (used : gset Z) (p page f : Z) (s s' : memory) : Prop :=
  f <> NULL /\ mem_ok (f :: held) used s' /\ bindings s' !! (p, page) = Some f /\ same_frames s s' /\ effect held s s' /\ ram s' = ram s /\
  (user_page page -> is_present (entry_at s p page) = true /\ exists c, shared_frames s' !! f = Some c /\ sf_address c = entry_address (entry_at s p page)).

(** Refused: nothing happens; or there is no memory for the descriptor, and the
    page is gone. *)
Definition share_refused (held : list Z) (used : gset Z) (p page : Z) (s s' : memory) : Prop :=
  s' = s \/ (objects s = [] /\ mem_ok held used s' /\ effect held s s' /\ ram s' = ram s /\ updated (entry_at s) p page 0 (entry_at s') /\ user_page page /\
             bindings s' = bindings s).

Lemma share_hit held used s p sp page f : mem_ok held used s -> spaces s !! p = Some sp -> shared_frame_table sp !! page = Some f ->
  exists s', frame_add_reference f s = Ret (tt, s') /\ shared_now held used p page f s s'.
Proof.
  intros Hm E Ht. assert (bindings s !! (p, page) = Some f) as Hb by (by rewrite (bindings_at _ _ _ _ E)).
  destruct (sh_bound _ _ _ _ _ (mo_sharing _ _ _ Hm) p page f Hb) as (c & Ec & Hcase).
  destruct (add_reference_run held used s f c Hm Ec) as (Er & Hm' & Hef). eexists. split; [exact Er|].
  split; [by destruct (sh_counts _ _ _ _ _ (mo_sharing _ _ _ Hm) f c Ec)|]. split; [done|]. split; [done|]. split; [done|].
  split; [eapply effect_weaken; [|exact Hef]; by right|]. split; [done|]. intros Hp.
  destruct Hcase as [[Hk _]|[_ He]]; [by destruct (kernel_not_user page)|]. destruct He as (H1 & _ & _ & _ & _ & H6). split; [done|].
  exists (more c). split; [apply lookup_insert_eq|]. by rewrite H6.
Qed.

(** An address that no page of the user maps. *)
Lemma low_entry s p sp page : base_ok s -> spaces s !! p = Some sp -> 0 <= page < PAYLOAD_AREA_BASE ->
  let bits := translation (tables s) (page_directory sp) page in is_super_page bits = true \/ bits = 0.
Proof.
  intros Hb E Hp bits. assert (0 <= page < 2 ^ 32) as Hp' by (unfold PAYLOAD_AREA_BASE in Hp; lia). destruct (slot_div page Hp') as [Hs Hr].
  assert (slot page < 128) as Hlow by (rewrite Hs; apply Z.div_lt_upper_bound; unfold PAYLOAD_AREA_BASE in Hp; lia).
  pose proof (dir_of _ _ _ E) as Hd. unfold bits, translation, located. destruct (is_present (word (tables s) (page_directory sp, slot page))) eqn:Hpres.
  - left. pose proof (mo_low s Hb _ (slot page) Hd ltac:(lia) Hpres) as Hsup. unfold is_table. by rewrite Hpres, Hsup.
  - right. unfold is_table. rewrite Hpres. cbn [andb]. by apply (absent_zero _ _ (mo_paging s Hb)).
Qed.

Lemma effect_put_entry keep s d page bits : effect keep s (put_entry s d page bits).
Proof. apply effect_tables. Qed.

(** A private page becomes shared. *)
Lemma share_fresh held used s p sp page f rest : mem_ok held used s -> spaces s !! p = Some sp -> user_page page -> shared_frame_table sp !! page = None ->
  is_present (entry_at s p page) = true -> objects s = f :: rest ->
  let a := entry_address (entry_at s p page) in
  let s1 := put_entry (with_objects s rest) (page_directory sp) page (share_bits (entry_at s p page)) in
  let s2 := put_space (with_shared s1 (<[f := mkShared a 1]> (shared_frames s))) p (with_shared_table sp (<[page := f]> (shared_frame_table sp))) in
  exists s', frame_add_reference f s2 = Ret (tt, s') /\ shared_now held used p page f s s'.
Proof.
  intros Hm E Hp Ht Hpres Ho a s1 s2. pose proof (mo_base _ _ _ Hm) as Hb. destruct (mo_objects s Hb) as [Hnd Hob].
  destruct (Hob f) as (Hn & Hfs & Hff); [rewrite Ho; left|]. rewrite Ho in Hnd. apply NoDup_cons in Hnd as [Hfr Hnd].
  set (s0 := with_objects s rest). assert (base_ok s0) as Hb0.
  { destruct Hb. split; try done. split; [done|]. intros b Hin. apply Hob. rewrite Ho. by right. }
  assert (mem_ok held used s0) as Hm0 by (split; [done|apply Hm|apply Hm]).
  assert (bindings s !! (p, page) = None) as Hbn by (by rewrite (bindings_at _ _ _ _ E)).
  destruct (share_bits_facts (entry_at s p page)) as (F1 & F2 & F3 & F4 & F5 & F6).
  destruct (sh_private _ _ _ _ _ (mo_sharing _ _ _ Hm) p page Hp Hbn Hpres) as ((_ & _ & _ & Psup & _) & _ & _).
  pose proof (present_is_table s p sp page Hb E Hp Hpres) as Htab.
  destruct (put_entry_mem held used s0 p sp page (share_bits (entry_at s p page)) (<[(p, page) := f]> (bindings s)) (<[f := mkShared a 1]> (shared_frames s)) held Hm0 E Hp Htab)
    as (B1 & U1 & Fr1 & S1).
  { intros E' Hup. apply (sharing_share (entry_at s)) with (bits := share_bits (entry_at s p page)); try done; [apply Hm|]. repeat split; congruence. }
  assert (base_ok (with_shared s1 (<[f := mkShared a 1]> (shared_frames s)))) as B2.
  { apply base_with_shared; [exact B1| |].
    - intros g Hg. change (objects s1) with rest in Hg. rewrite lookup_insert_ne by (by intros <-). apply Hob. rewrite Ho. by right.
    - intros g d. destruct (decide (g = f)) as [->|Hne]; [done|]. rewrite lookup_insert_ne by done. apply (mo_apart s Hb). }
  destruct (put_space_ok (with_shared s1 (<[f := mkShared a 1]> (shared_frames s))) p sp (with_shared_table sp (<[page := f]> (shared_frame_table sp))) B2 E eq_refl (fun H => H)) as (B3 & E3 & Q3).
  assert (mem_ok held used s2) as Hm2.
  { split; [exact B3|exact Fr1|]. unfold s2. rewrite (bindings_insert _ p sp page f) by exact E. apply (sharing_ext (entry_at s1)); [exact S1|]. intros q pg _. rewrite E3. done. }
  assert (shared_frames s2 !! f = Some (mkShared a 1)) as Ef by apply lookup_insert_eq.
  destruct (add_reference_run held used s2 f (mkShared a 1) Hm2 Ef) as (Er & Hm3 & Hef3). eexists. split; [exact Er|].
  assert (forall q pg, user_page pg -> entry_at s2 q pg = entry_at s1 q pg) as HE2 by (intros q pg _; unfold s2; rewrite E3; done).
  split; [done|]. split; [exact Hm3|]. split; [|split; [|split; [|split; [done|]]]].
  - change (bindings (with_shared s2 _)) with (bindings s2). unfold s2. rewrite (bindings_insert _ p sp page f) by exact E. apply lookup_insert_eq.
  - intros q pg Hpg. change (entry_at (with_shared s2 _)) with (entry_at s2). rewrite HE2 by done. rewrite (U1 q pg Hpg : entry_at s1 q pg = _). destruct (decide _) as [[-> ->]|_]; [by rewrite F1, F6|done].
  - apply (effect_trans _ s s2); [|eapply effect_weaken; [|exact Hef3]; by right]. split; [exact Q3|]. intros g d _ Eg. exists d. split; [|done].
    change (shared_frames s2) with (<[f := mkShared a 1]> (shared_frames s)). rewrite lookup_insert_ne; [done|]. congruence.
  - intros _. split; [done|]. exists (more (mkShared a 1)). split; [apply lookup_insert_eq|done].
Qed.

(** There is no memory for the descriptor. *)
Lemma share_no_memory held used s p sp page : mem_ok held used s -> spaces s !! p = Some sp -> user_page page -> shared_frame_table sp !! page = None ->
  is_present (entry_at s p page) = true -> objects s = [] ->
  exists s', on_paging (entry_unshare_frame (located (tables s) (page_directory sp) page)) (put_entry s (page_directory sp) page (share_bits (entry_at s p page))) = Ret (tt, s') /\
    share_refused held used p page s s'.
Proof.
  intros Hm E Hp Ht Hpres Ho. pose proof (mo_base _ _ _ Hm) as Hb. assert (bindings s !! (p, page) = None) as Hbn by (by rewrite (bindings_at _ _ _ _ E)).
  destruct (share_bits_facts (entry_at s p page)) as (F1 & F2 & F3 & F4 & F5 & F6). pose proof (present_is_table s p sp page Hb E Hp Hpres) as Htab.
  destruct (put_entry_ok s p sp page (share_bits (entry_at s p page)) Hb E Hp Htab) as [B1 U1]. set (s1 := put_entry s _ page (share_bits (entry_at s p page))) in *.
  pose proof (updated_same _ _ _ _ _ U1 Hp) as Es1.
  assert (located (tables s) (page_directory sp) page = located (tables s1) (page_directory sp) page) as Hloc by (symmetry; apply (located_tree s s1 p sp); [by apply (put_entry_tree s p)|done]).
  rewrite Hloc, (unshare_at s1 p sp page B1 E Hp) by congruence. eexists. split; [reflexivity|]. right. split; [done|].
  assert (is_table (word (tables s1) (page_directory sp, slot page)) = true) as Htab1 by (apply (present_is_table s1 p sp page B1 E Hp); congruence).
  destruct (put_entry_ok s1 p sp page 0 B1 E Hp Htab1) as [B2 U2].
  assert (updated (entry_at s) p page 0 (entry_at (put_entry s1 (page_directory sp) page 0))) as U3.
  { intros q pg Hpg. rewrite (U2 q pg Hpg). destruct (decide _) as [|Hno]; [done|]. rewrite (U1 q pg Hpg). by rewrite decide_False. }
  destruct (sharing_drop _ _ _ _ _ p page 0 _ (mo_sharing _ _ _ Hm) Hp Hpres Hbn eq_refl U3) as [S3 _].
  split; [split; [done|apply Hm|exact S3]|]. split; [|split; [done|split; [exact U3|by split]]]. apply (effect_trans _ s s1); apply effect_put_entry.
Qed.

Lemma share_one_run held used s p sp address : mem_ok held used s -> spaces s !! p = Some sp -> 0 < address < 2 ^ 32 ->
  exists f s', share_one p address s = Ret (f, s') /\
    (shared_now held used p (PAGE_BASE address) f s s' \/ (f = NULL /\ share_refused held used p (PAGE_BASE address) s s')).
Proof.
  intros Hm E Ha. destruct (page_base_bounds address ltac:(lia)) as (Hpb & _ & Hpm & _). set (page := PAGE_BASE address) in *. pose proof (mo_base _ _ _ Hm) as Hb.
  unfold share_one, mbind, M_bind. fold page. unfold massert at 1, mlift at 1. rewrite kassert_true by (by apply negb_true_iff, Z.eqb_neq; unfold NULL; lia).
  unfold space_at at 1. rewrite E. destruct (shared_frame_table sp !! page) as [f|] eqn:Ht.
  { destruct (share_hit held used s p sp page f Hm E Ht) as (s' & Er & Hs). rewrite Er. exists f, s'. split; [done|]. by left. }
  rewrite (entry_of_run s p sp page Hb E) by lia. rewrite (read_run s p sp page Hb E). destruct (is_super_page (entry_at s p page)) eqn:Hsup.
  { exists NULL, s. split; [done|]. right. split; [done|]. by left. }
  destruct (is_present (entry_at s p page)) eqn:Hpres.
  - destruct (decide (user_page page)) as [Hp|Hp].
    + rewrite (share_at s p sp page Hb E Hp Hpres).
      assert (bindings s !! (p, page) = None) as Hbn by (by rewrite (bindings_at _ _ _ _ E)).
      destruct (sh_private _ _ _ _ _ (mo_sharing _ _ _ Hm) p page Hp Hbn Hpres) as (_ & Hu & _). pose proof (sh_used _ _ _ _ _ (mo_sharing _ _ _ Hm) _ Hu) as Hlow.
      rewrite (proj2 (Z.eqb_neq _ INVALID_FRAME)) by (unfold KERNEL_PAGED_BOUNDARY, SUPER_PAGE_SIZE, INVALID_FRAME in *; lia).
      unfold new_shared_frame, mbind, M_bind, new_block. cbn [objects put_entry with_tables]. destruct (objects s) as [|f rest] eqn:Ho.
      * destruct (share_no_memory held used s p sp page Hm E Hp Ht Hpres Ho) as (s' & Er & Hs). cbn. rewrite Er. eexists _, _. split; [reflexivity|]. by right.
      * destruct (mo_objects s Hb) as [_ Hob]. destruct (Hob f) as (Hn & _); [rewrite Ho; left|].
        rewrite (proj2 (Z.eqb_neq f NULL)) by done. cbn -[put_entry share_bits frame_add_reference]. rewrite (proj2 (Z.eqb_neq f NULL)) by done.
        destruct (share_fresh held used s p sp page f rest Hm E Hp Ht Hpres Ho) as (s' & Er & Hs).
        exists f, s'. split; [|by left]. unfold set_space, mmodify.
        match goal with |- context [frame_add_reference f ?x] => replace (frame_add_reference f x) with (Ret (tt, s') : res (unit * memory)) by (symmetry; exact Er) end. done.
    + exfalso. assert (0 <= page < PAYLOAD_AREA_BASE) as Hlow by (unfold user_page in Hp; lia).
      rewrite (entry_at_space _ _ _ _ E) in Hsup, Hpres. destruct (low_entry s p sp page Hb E Hlow) as [Hx|Hx]; [congruence|]. by rewrite Hx in Hpres.
  - unfold on_paging at 1, entry_share_frame, mbind, G_bind. rewrite read_entry_run by (eapply located_exists; [apply Hb|by eapply dir_of]).
    fold (translation (tables s) (page_directory sp) page). rewrite <- (entry_at_space _ _ _ _ E), Hpres. cbn. exists NULL, s. split; [by destruct s|].
    right. split; [done|]. by left.
Qed.

Lemma mem_ok_perm held held' used s : mem_ok held used s -> held ≡ₚ held' -> mem_ok held' used s.
Proof. intros [] Hp. split; [done|done|by eapply sharing_perm]. Qed.

Lemma refused_mem held used p page s s' : mem_ok held used s -> share_refused held used p page s s' -> mem_ok held used s' /\ effect held s s' /\ ram s' = ram s.
Proof. intros Hm [->|(_ & Hm' & He & Hr & _)]; [split; [done|]; split; [apply effect_refl|done]|done]. Qed.

(** The loop: [fs] are the descriptors, one per page. *)
Definition shared_all (held : list Z) (used : gset Z) (p page : Z) (n : nat) (l : list Z) (s : memory) (r : Z * list Z) (s' : memory) : Prop :=
  exists fs, r.2 = l ++ fs /\ mem_ok (fs ++ held) used s' /\ effect held s s' /\ ram s' = ram s /\
  (r.1 = STATUS_SUCCESS -> length fs = n /\ same_frames s s' /\
     forall i f, fs !! i = Some f -> let page' := PAGE_BASE (u32 (page + Z.of_nat i * 4096)) in user_page page' ->
       is_present (entry_at s p page') = true /\ exists c, shared_frames s' !! f = Some c /\ sf_address c = entry_address (entry_at s p page')).

Lemma next_page page i : u32 (u32 (page + PAGE_SIZE) + Z.of_nat i * 4096) = u32 (page + Z.of_nat (S i) * 4096).
Proof. rewrite u32_add_l. f_equal. unfold PAGE_SIZE. lia. Qed.

(** No page of the range is page 0. *)
Definition no_null (page : Z) (n : nat) : Prop := forall i, (i < n)%nat -> u32 (page + Z.of_nat i * 4096) <> 0.

Lemma no_null_next page n : no_null page (S n) -> no_null (u32 (page + PAGE_SIZE)) n.
Proof. intros H i Hi. rewrite next_page. apply H. lia. Qed.

(** One page shared, then the others. *)
Lemma shared_all_cons held used p page n l f s s1 r s' : shared_now held used p (PAGE_BASE page) f s s1 -> 0 <= page < 2 ^ 32 ->
  shared_all (f :: held) used p (u32 (page + PAGE_SIZE)) n (l ++ [f]) s1 r s' -> shared_all held used p page (S n) l s r s'.
Proof.
  intros (Hn & Hm1 & Hb1 & Hsame & Hef & Hram & Huser) Hp (fs & Hr & Hm' & Hef' & Hram' & Hsucc). exists (f :: fs).
  split; [by rewrite Hr, <- app_assoc|]. split; [eapply mem_ok_perm; [exact Hm'|]; cbn; by rewrite Permutation_middle|].
  split; [eapply effect_trans; [exact Hef|eapply effect_weaken; [|exact Hef']; by right]|]. split; [by rewrite Hram', Hram|].
  intros Hst. destruct (Hsucc Hst) as (Hl & Hsame' & Hfs). split; [cbn; lia|]. split; [by eapply same_frames_trans|].
  intros [|i] g Hg; cbn in Hg.
  - injection Hg as <-. rewrite Z.add_0_r, u32_small by lia. cbn. intros Hup. destruct (Huser Hup) as [Hpres (c & Ec & Hc)]. split; [done|].
    destruct (ef_frames _ _ _ Hef' f c) as (c' & Ec' & Hc' & _); [left|done|]. exists c'. split; [done|]. congruence.
  - cbn zeta. rewrite <- next_page. intros Hup. destruct (Hfs i g Hg Hup) as [Hpres (c & Ec & Hc)]. destruct (Hsame p _ Hup) as [S1 S2].
    split; [congruence|]. exists c. split; [done|]. congruence.
Qed.

Lemma share_pages_wp t p n : forall page held used s l, mem_ok held used s -> is_Some (spaces s !! p) -> 0 <= page < 2 ^ 32 ->
  (t = true -> no_null page n) -> mwp t (share_pages n p page l) (shared_all held used p page n l s) s.
Proof.
  induction n as [|n IH]; intros page held used s l Hm [sp E] Hp Ht; cbn [share_pages].
  { apply mwp_ret. exists []. rewrite app_nil_r. split; [done|]. split; [done|]. split; [apply effect_refl|]. done. }
  destruct (decide (page = 0)) as [->|Hnz].
  { destruct t; [|done]. by destruct (Ht eq_refl 0%nat ltac:(lia)). }
  mbind. destruct (share_one_run held used s p sp page Hm E ltac:(lia)) as (f & s1 & Er & [Hs|[-> Href]]); (eapply mwp_run; [exact Er|]).
  - pose proof Hs as (Hn & Hm1 & Hb1 & _ & Hef & _). rewrite (proj2 (Z.eqb_neq f NULL)) by done.
    destruct (sh_bound _ _ _ _ _ (mo_sharing _ _ _ Hm1) p _ f Hb1) as (c & Ec & _). mbind. eapply mwp_shared; [exact Ec|].
    destruct (sh_counts _ _ _ _ _ (mo_sharing _ _ _ Hm1) f c Ec) as (_ & _ & Hcount & _). pose proof (bound_once _ _ _ Hb1) as H1. cbn [occurrences] in Hcount.
    rewrite is_ref_refl in Hcount. pose proof (occurrences_nonneg f held). mbind. apply mwp_assert; [intros _; apply Z.leb_le; lia|intros _].
    destruct (effect_space _ _ _ _ _ Hef E) as (sp1 & E1 & _). eapply mwp_mono; [apply (IH _ (f :: held) used); [exact Hm1|by eexists|apply u32_range|]|].
    + intros Htt. by apply no_null_next, Ht.
    + intros r s' Hall. by eapply shared_all_cons.
  - rewrite Z.eqb_refl. apply mwp_ret. destruct (refused_mem _ _ _ _ _ _ Hm Href) as (? & ? & ?). exists []. rewrite app_nil_r. split; [done|]. split; [done|]. split; [done|]. split; [done|]. intros [=].
Qed.

(** ** [unshare_frame] *)

(** The page is gone, and nothing else. *)
Definition unmapped (held : list Z) (used : gset Z) (p page : Z) (s s' : memory) (used' : gset Z) : Prop :=
  mem_ok held used' s' /\ effect held s s' /\ ram s' = ram s /\ updated (entry_at s) p page 0 (entry_at s') /\
  (forall a, owns s used a -> owns s' used' a) /\ same_tree s s'.

Lemma unbind_run held used s p sp page f : mem_ok held used s -> spaces s !! p = Some sp -> user_page page -> shared_frame_table sp !! page = Some f ->
  let s1 := put_space s p (with_shared_table sp (delete page (shared_frame_table sp))) in
  let s2 := put_entry s1 (page_directory sp) page 0 in
  entry_at s1 p page = entry_at s p page /\ shared_entry (entry_at s p page) (entry_address (entry_at s p page)) /\ base_ok s1 /\
  mem_ok (f :: held) used s2 /\ updated (entry_at s) p page 0 (entry_at s2) /\ effect (f :: held) s s2 /\ same_tree s s2 /\
  exists c, shared_frames s !! f = Some c /\ sf_address c = entry_address (entry_at s p page).
Proof.
  intros Hm E Hp Ht s1 s2. pose proof (mo_base _ _ _ Hm) as Hb. assert (bindings s !! (p, page) = Some f) as Hbd by (by rewrite (bindings_at _ _ _ _ E)).
  destruct (sh_bound _ _ _ _ _ (mo_sharing _ _ _ Hm) p page f Hbd) as (c & Ec & [[Hk _]|[_ He]]); [by destruct (kernel_not_user page)|].
  destruct (put_space_ok s p sp (with_shared_table sp (delete page (shared_frame_table sp))) Hb E eq_refl (fun H => H)) as (B1 & E1 & Q1).
  destruct He as (H1 & H2 & H3 & H4 & H5 & H6). assert (spaces s1 !! p = Some (with_shared_table sp (delete page (shared_frame_table sp)))) as Es1 by apply lookup_insert_eq.
  pose proof (present_is_table s p sp page Hb E Hp H1) as Htab. destruct (put_entry_ok s1 p _ page 0 B1 Es1 Hp Htab) as [B2 U2].
  assert (updated (entry_at s) p page 0 (entry_at s2)) as U.
  { intros q pg Hpg. rewrite (U2 q pg Hpg : entry_at s2 q pg = _). destruct (decide _); [done|apply E1]. }
  split; [apply E1|]. split; [by repeat split|]. split; [done|]. split; [split; [exact B2|apply Hm|]|].
  - change (bindings s2) with (bindings s1). unfold s1. rewrite (bindings_delete s p sp page E). by apply (sharing_unbind (entry_at s) _ _ _ _ _ _ 0); [apply Hm|..].
  - split; [done|]. split; [split; [exact Q1|]; intros g d _ Eg; by exists d|]. split; [|by exists c]. by apply (put_entry_tree s p).
Qed.

Lemma unshare_bound held used s p sp page f : mem_ok held used s -> spaces s !! p = Some sp -> user_page page -> shared_frame_table sp !! page = Some f ->
  exists s' used', frame_remove_reference f (put_entry (put_space s p (with_shared_table sp (delete page (shared_frame_table sp)))) (page_directory sp) page 0) = Ret (tt, s') /\
    unmapped held used p page s s' used'.
Proof.
  intros Hm E Hp Ht. destruct (unbind_run held used s p sp page f Hm E Hp Ht) as (_ & _ & _ & Hm2 & U2 & Hef & Htree & c & Ec & Hc). set (s2 := put_entry _ _ page 0) in *.
  destruct (remove_reference_run held used s2 f c Hm2 Ec) as (s' & used' & Er & Hm' & Hef' & Hrel). exists s', used'. split; [exact Er|]. split; [done|].
  split; [eapply effect_trans; [eapply effect_weaken; [|exact Hef]; by right|done]|]. destruct Hrel as (Htab & Hsp & Hram & Hcase). split; [by rewrite Hram|]. split.
  - intros q pg Hpg. unfold entry_at at 1. rewrite Htab, Hsp. apply U2. done.
  - split; [|intros d i Hd; rewrite Htab; by apply Htree]. intros a Ha. apply (released_owns f c used s2 s' used' a); [done|exact Ec|]. by apply (loose_unbind (entry_at s) _ _ p page 0).
Qed.

Lemma unshare_private held used s p sp page : mem_ok held used s -> spaces s !! p = Some sp -> user_page page -> shared_frame_table sp !! page = None ->
  is_present (entry_at s p page) = true ->
  let a := entry_address (entry_at s p page) in
  is_copy_on_write (entry_at s p page) = false /\ is_shared (entry_at s p page) = false /\ is_super_page (entry_at s p page) = false /\ a <> INVALID_FRAME /\
  exists s' used', free_page_frames [a] (put_entry s (page_directory sp) page 0) = Ret (tt, s') /\ unmapped held used p page s s' used'.
Proof.
  intros Hm E Hp Ht Hpres a. pose proof (mo_base _ _ _ Hm) as Hb. assert (bindings s !! (p, page) = None) as Hbn by (by rewrite (bindings_at _ _ _ _ E)).
  destruct (sh_private _ _ _ _ _ (mo_sharing _ _ _ Hm) p page Hp Hbn Hpres) as ((_ & P2 & P3 & P4 & _) & Hu & _). pose proof (sh_used _ _ _ _ _ (mo_sharing _ _ _ Hm) _ Hu) as Hlow.
  split; [done|]. split; [done|]. split; [done|]. split; [unfold a, KERNEL_PAGED_BOUNDARY, SUPER_PAGE_SIZE, INVALID_FRAME in *; lia|].
  destruct (put_entry_ok s p sp page 0 Hb E Hp (present_is_table s p sp page Hb E Hp Hpres)) as [B1 U1]. set (s1 := put_entry s _ page 0) in *.
  destruct (sharing_drop _ _ _ _ _ p page 0 _ (mo_sharing _ _ _ Hm) Hp Hpres Hbn eq_refl U1) as [S1 L1]. fold a in L1.
  assert (mem_ok held used s1) as Hm1 by (split; [exact B1|apply Hm|exact S1]).
  destruct (free_run held used s1 a Hm1 L1) as (m' & Ef & Hm2). eexists _, _. split; [exact Ef|]. split; [done|].
  split; [eapply effect_trans; [apply effect_put_entry|apply effect_frames]|]. split; [done|]. split; [exact U1|].
  split; [|by apply (put_entry_tree s p), (present_is_table s p)]. intros b Hbo. assert (a <> b) as Hab. { intros <-. destruct Hbo as (_ & Hbo & _). by apply (Hbo p page Hp Hpres). }
  apply loose_free; [|done]. by apply (loose_unbind (entry_at s) _ _ p page 0).
Qed.

Lemma unshare_one_run held used s p address : mem_ok held used s -> is_Some (spaces s !! p) -> PAYLOAD_AREA_BASE <= address < 2 ^ 32 ->
  exists s' used', unshare_one p address s = Ret (tt, s') /\ unmapped held used p (PAGE_BASE address) s s' used'.
Proof.
  intros Hm [sp E] Ha. pose proof (page_base_user address Ha) as Hp. set (page := PAGE_BASE address) in *. pose proof (mo_base _ _ _ Hm) as Hb.
  unfold unshare_one, mbind, M_bind. fold page. unfold space_at at 1. rewrite E. rewrite (entry_of_run s p sp page Hb E (user_page_word _ Hp)).
  destruct (shared_frame_table sp !! page) as [f|] eqn:Ht.
  - destruct (unbind_run held used s p sp page f Hm E Hp Ht) as (E1 & (B1 & B2 & _ & _ & B5 & _) & Hb1 & _). set (sp1 := with_shared_table sp (delete page (shared_frame_table sp))) in *.
    unfold set_space at 1, mmodify at 1. fold (put_space s p sp1). set (s1 := put_space s p sp1) in *.
    assert (spaces s1 !! p = Some sp1) as Es1 by apply lookup_insert_eq. change (located (tables s) (page_directory sp) page) with (located (tables s1) (page_directory sp1) page).
    rewrite (read_run s1 p sp1 page Hb1 Es1), E1. unfold massert, mlift. rewrite kassert_true by done. rewrite B5. cbn [negb].
    rewrite (unshare_at s1 p sp1 page Hb1 Es1 Hp) by congruence. destruct (unshare_bound held used s p sp page f Hm E Hp Ht) as (s' & used' & Er & Hun).
    exists s', used'. split; [exact Er|done].
  - rewrite (read_run s p sp page Hb E). destruct (is_present (entry_at s p page)) eqn:Hpres.
    + destruct (unshare_private held used s p sp page Hm E Hp Ht Hpres) as (P1 & P2 & P3 & P4 & s' & used' & Ef & Hun). exists s', used'. split; [|done].
      unfold massert, mlift. rewrite P1, P2, P3. cbn [negb]. rewrite kassert_true by done. cbn. rewrite (decommit_at s p sp page Hb E Hp Hpres).
      rewrite kassert_true by (by apply negb_true_iff, Z.eqb_neq). exact Ef.
    + exists s, used. split; [done|]. split; [done|]. split; [apply effect_refl|]. split; [done|]. split; [|by split].
      intros q pg Hpg. destruct (decide _) as [[-> ->]|]; [|done]. by apply (sh_absent _ _ _ _ _ (mo_sharing _ _ _ Hm)).
Qed.

(** Page 0 is the kernel's. *)
Lemma unshare_zero held used s p address : mem_ok held used s -> is_Some (spaces s !! p) -> 0 <= address < 4096 -> unshare_one p address s = Trap AssertFailed.
Proof.
  intros Hm [sp E] Ha. pose proof (mo_base _ _ _ Hm) as Hb. assert (PAGE_BASE address = 0) as Hp0.
  { rewrite page_base_div by lia. by rewrite Z.div_small by lia. }
  unfold unshare_one, mbind, M_bind. rewrite Hp0. unfold space_at. rewrite E. rewrite (entry_of_run s p sp 0 Hb E) by lia.
  destruct (shared_frame_table sp !! 0) as [f|] eqn:Ht.
  { exfalso. assert (bindings s !! (p, 0) = Some f) as Hbd by (by rewrite (bindings_at _ _ _ _ E)).
    destruct (sh_bound _ _ _ _ _ (mo_sharing _ _ _ Hm) p 0 f Hbd) as (c & _ & [[[Hk _] _]|[[Hk _] _]]); unfold PAYLOAD_AREA_BASE in *; lia. }
  rewrite (read_run s p sp 0 Hb E), (entry_at_space _ _ _ _ E). assert (translation (tables s) (page_directory sp) 0 = KERNEL_CODE_PAGE) as ->; [|done].
  pose proof (kernel_mapped _ _ (mo_paging s Hb) _ (dir_of _ _ _ E)) as Hw. unfold translation, located. change (slot 0) with 0. rewrite Hw. change (is_table KERNEL_CODE_PAGE) with false.
  exact Hw.
Qed.
