(* ===== verification/KSpaceOps.v ===== *)
(** * Runs of the operations on address spaces

    The loops over ranges of pages, copy on write, the expansion of an address
    space, the payload blocks, and the payloads of large messages. *)

From S2P Require Import Prelude CMem CStringSearch World Libdx Process ProcessThms Loader KBase KBitmap KFrames KRegionThms KFramesThms KHeap KHeapThms KPorts KPaging KPagingThms KSpace KSharing KSpaceInv KSpaceRuns.

(** ** Ranges of pages *)

Definition in_range (page : Z) (n : nat) (pg : Z) : Prop := exists i, (i < n)%nat /\ pg = PAGE_BASE (u32 (page + Z.of_nat i * 4096)).

Lemma in_range_cons page n pg : 0 <= page < 2 ^ 32 -> in_range page (S n) pg <-> pg = PAGE_BASE page \/ in_range (u32 (page + PAGE_SIZE)) n pg.
Proof.
  intros Hp. split.
  - intros ([|i] & Hi & ->); [left; by rewrite Z.add_0_r, u32_small by lia|right]. exists i. split; [lia|]. by rewrite next_page.
  - intros [->|(i & Hi & ->)]; [exists 0%nat; split; [lia|]; by rewrite Z.add_0_r, u32_small by lia|]. exists (S i). split; [lia|]. by rewrite next_page.
Qed.

(** The pages of the range are gone; the others are as before. *)
Definition cleared (s s' : memory) (p page : Z) (n : nat) : Prop := forall q pg, user_page pg ->
  (q = p -> in_range page n pg -> is_present (entry_at s' q pg) = false) /\ (q <> p \/ ~ in_range page n pg -> entry_at s' q pg = entry_at s q pg).

Definition unmapped_all (held : list Z) (used : gset Z) (p page : Z) (n : nat) (s s' : memory) : Prop :=
  exists used', mem_ok held used' s' /\ effect held s s' /\ ram s' = ram s /\ cleared s s' p page n.

Lemma unmapped_all_cons held used used1 p page n s s1 s' : 0 <= page < 2 ^ 32 -> unmapped held used p (PAGE_BASE page) s s1 used1 ->
  unmapped_all held used1 p (u32 (page + PAGE_SIZE)) n s1 s' -> unmapped_all held used p page (S n) s s'.
Proof.
  intros Hp (Hm1 & He1 & Hr1 & U1 & _) (used' & Hm' & He' & Hr' & Hc). exists used'. split; [done|].
  split; [by eapply effect_trans|]. split; [congruence|]. intros q pg Hpg. destruct (Hc q pg Hpg) as [C1 C2]. rewrite (in_range_cons _ _ _ Hp). split.
  - intros -> [Heq|Hin]; [|by apply C1]. destruct (decide (is_present (entry_at s' p pg) = false)) as [|Hno]; [done|].
    rewrite C2, (U1 p pg Hpg), decide_True; [done|done|]. right. intros Hin. by apply Hno, C1.
  - intros Hno. rewrite C2 by tauto. rewrite (U1 q pg Hpg), decide_False; [done|]. intros [-> ->]. tauto.
Qed.

Lemma unshare_pages_wp t p n : forall page held used s, mem_ok held used s -> is_Some (spaces s !! p) -> 0 <= page < 2 ^ 32 ->
  PAYLOAD_AREA_BASE <= page \/ page < 4096 -> (t = true -> page + Z.of_nat n * 4096 <= 2 ^ 32 + 4095 /\ PAYLOAD_AREA_BASE <= page) ->
  mwp t (unshare_pages n p page) (fun _ s' => unmapped_all held used p page n s s') s.
Proof.
  induction n as [|n IH]; intros page held used s Hm [sp E] Hp Hcase Ht; cbn [unshare_pages].
  { apply mwp_ret. exists used. split; [done|]. split; [apply effect_refl|]. split; [done|]. intros q pg Hpg. split; [intros _ (i & Hi & _); lia|done]. }
  mbind. destruct (decide (PAYLOAD_AREA_BASE <= page)) as [Hu|Hu].
  - destruct (unshare_one_run held used s p page Hm) as (s1 & used1 & Er & Hun); [by eexists|lia|]. eapply mwp_run; [exact Er|].
    pose proof Hun as (Hm1 & He1 & _). destruct (effect_space _ _ _ _ _ He1 E) as (sp1 & E1 & _).
    assert (u32 (page + PAGE_SIZE) = page + 4096 \/ u32 (page + PAGE_SIZE) < 4096 /\ 2 ^ 32 <= page + 4096) as Hnext.
    { unfold PAGE_SIZE. destruct (decide (page + 4096 < 2 ^ 32)); [left; by rewrite u32_small by lia|right]. unfold u32. change (2 ^ 32) with 4294967296 in *.
      pose proof (Z.mod_unique (page + 4096) 4294967296 1 (page + 4096 - 4294967296)). lia. }
    destruct (decide (n = 0)%nat) as [->|Hn0].
    { apply mwp_ret. eapply unmapped_all_cons; [done|exact Hun|]. exists used1. split; [done|]. split; [apply effect_refl|]. split; [done|].
      intros q pg Hpg. split; [intros _ (i & Hi & _); lia|done]. }
    eapply mwp_mono; [apply (IH _ held used1); [exact Hm1|by eexists|apply u32_range|destruct Hnext as [->|[? _]]; unfold PAYLOAD_AREA_BASE in *; lia|]|].
    + intros Htt. destruct (Ht Htt). destruct Hnext as [->|[_ ?]]; unfold PAYLOAD_AREA_BASE in *; lia.
    + intros [] s' Hs'. by eapply unmapped_all_cons.
  - destruct t; [destruct (Ht eq_refl); lia|]. unfold mwp. rewrite (unshare_zero held used s p page Hm); [done|by eexists|lia].
Qed.

(** ** Committing frames *)

(** One more page, private, for a frame that the caller owns. *)
Lemma commit_private held used s p sp page a flags : mem_ok held used s -> spaces s !! p = Some sp -> user_page page -> is_present (entry_at s p page) = false ->
  owns s used a -> entry_address a = a -> has_flag flags MEMORY_SHARED = false -> has_flag flags MEMORY_COPY_ON_WRITE = false ->
  is_table (word (tables s) (page_directory sp, slot page)) = true ->
  let s' := put_entry s (page_directory sp) page (commit_bits a flags) in
  mem_ok held used s' /\ updated (entry_at s) p page (commit_bits a flags) (entry_at s') /\ forall b, owns s used b -> b <> a -> owns s' used b.
Proof.
  intros Hm E Hp Habs Ha Haa F1 F2 Ht s'. destruct (commit_bits_facts a flags) as (C1 & C2 & C3 & C4 & C5).
  destruct (put_entry_mem held used s p sp page (commit_bits a flags) (bindings s) (shared_frames s) held Hm E Hp Ht) as (B1 & U1 & Fr1 & S1).
  { intros E' Hup. apply (sharing_commit (entry_at s) _ _ _ _ p page a (commit_bits a flags)); try done; [apply Hm|].
    rewrite F1 in C4. rewrite F2 in C5. split; [done|]. split; [done|]. split; [done|]. split; [done|]. by rewrite commit_bits_address. }
  split; [split; [exact B1|exact Fr1|exact S1]|]. split; [exact U1|]. intros b Hb Hne.
  apply (loose_commit (entry_at s) _ _ p page a b (commit_bits a flags)); try done. by rewrite commit_bits_address.
Qed.

(** Frames are page aligned. *)
Lemma frame_aligned held used s a : mem_ok held used s -> a ∈ used -> entry_address a = a /\ a <> INVALID_FRAME.
Proof.
  intros Hm Ha. pose proof (fo_used _ _ (mo_frames _ _ _ Hm) a Ha) as Hv. pose proof (valid_paged _ _ Hv) as Hlow. split; [|unfold KERNEL_PAGED_BOUNDARY, SUPER_PAGE_SIZE, INVALID_FRAME in *; lia].
  pose proof (fo_count _ _ (mo_frames _ _ _ Hm)) as Hc. apply elem_of_valid in Hv as (i & x & Hi & Hx & ->).
  set (n := i * 1024 + x). assert (region_frame i x = Z.shiftl n 12) as ->.
  { unfold region_frame, frame_address, REGION_SIZE, FRAME_COUNT_PER_REGION, PAGE_SIZE, n. rewrite Z.shiftl_mul_pow2 by lia. lia. }
  unfold entry_address. change PAGE_BASE_ADDRESS_MASK with (Z.shiftl (Z.ones 20) 12). rewrite <- Z.shiftl_land, Z.land_ones by lia. f_equal. apply Z.mod_small. unfold n. lia.
Qed.

(** Private pages for the frames of a list, from [page] on. *)
Definition committed (p page flags : Z) (l : list Z) (s s' : memory) : Prop :=
  (forall i a, l !! i = Some a -> entry_at s' p (page + Z.of_nat i * 4096) = commit_bits a flags) /\
  (forall q pg, user_page pg -> q <> p \/ pg < page \/ page + Z.of_nat (length l) * 4096 <= pg -> entry_at s' q pg = entry_at s q pg) /\
  spaces s' = spaces s /\ shared_frames s' = shared_frames s /\ ram s' = ram s /\ objects s' = objects s.

Lemma committed_effect p page flags l s s' keep : committed p page flags l s s' -> effect keep s s'.
Proof. intros (_ & _ & H1 & H2 & H3 & _). split; [by rewrite H1|]. intros f c _ Ec. exists c. by rewrite H2, H3. Qed.

Lemma committed_cons p page flags a l s s1 s' : committed p page flags [a] s s1 -> committed p (page + 4096) flags l s1 s' -> user_page page -> committed p page flags (a :: l) s s'.
Proof.
  intros (C1 & C2 & C3) (D1 & D2 & D3) Hp. split; [|split; [|destruct C3 as (? & ? & ? & ?), D3 as (? & ? & ? & ?); repeat split; congruence]].
  - intros [|i] b Hb; cbn in Hb; [injection Hb as <-|].
    + rewrite Z.add_0_r, D2 by (done || lia). specialize (C1 0%nat a eq_refl). by rewrite Z.add_0_r in C1.
    + rewrite <- (D1 i b Hb). f_equal. lia.
  - cbn [length]. intros q pg Hpg Hno. rewrite D2 by (done || lia). apply C2; [done|]. cbn. lia.
Qed.

Lemma user_page_add page k : user_page page -> 0 <= k -> page + k * 4096 < 2 ^ 32 -> user_page (page + k * 4096).
Proof. intros [Hp Hm] Hk Hlt. split; [lia|]. by rewrite Z.mod_add. Qed.

(** The page was not there and the table is. *)
Lemma expand_absent held used s p sp page : mem_ok held used s -> spaces s !! p = Some sp -> user_page page ->
  (on_paging (find_entry (page_directory sp) page EXPAND_TREE) s = Ret (None, s) /\ heap_pages (tables s) = [] /\ is_present (entry_at s p page) = false) \/
  exists s1, on_paging (find_entry (page_directory sp) page EXPAND_TREE) s = Ret (Some (located (tables s1) (page_directory sp) page), s1) /\
    mem_ok held used s1 /\ (forall q pg, user_page pg -> entry_at s1 q pg = entry_at s q pg) /\ (forall a, owns s used a -> owns s1 used a) /\
    is_table (word (tables s1) (page_directory sp, slot page)) = true /\ (length (heap_pages (tables s)) <= S (length (heap_pages (tables s1))))%nat /\
    (forall pg, is_table (word (tables s) (page_directory sp, slot pg)) = true -> located (tables s1) (page_directory sp) pg = located (tables s) (page_directory sp) pg) /\
    exists m, s1 = with_tables s m.
Proof.
  intros Hm E Hp. destruct (tree_expand_run s p sp page (mo_base _ _ _ Hm) E Hp) as [H|(m' & Ef & Hb & HE & Ht & Hl & Hloc)]; [by left|right].
  exists (with_tables s m'). split; [exact Ef|]. split; [|split; [done|split; [|split; [done|split; [done|split; [done|by eexists]]]]]].
  - split; [done|apply Hm|]. apply (sharing_ext (entry_at s)); [apply Hm|done].
  - intros a Ha. by apply (loose_ext (entry_at s)).
Qed.

Lemma heap_put_entry s d page bits : heap_pages (tables (put_entry s d page bits)) = heap_pages (tables s).
Proof. done. Qed.

(** The loop stops at a page that has no table, and there is no memory for one. *)
Definition stopped (p page : Z) (n : nat) (s' : memory) : Prop :=
  base_ok s' /\ exists k, (k < n)%nat /\ is_present (entry_at s' p (page + Z.of_nat k * 4096)) = false.

Lemma commit_pages_wp t p sp flags : has_flag flags MEMORY_SHARED = false -> has_flag flags MEMORY_COPY_ON_WRITE = false ->
  forall l page held used s, mem_ok held used s -> spaces s !! p = Some sp -> user_page page -> page + Z.of_nat (length l) * 4096 <= 2 ^ 32 ->
  NoDup l -> (forall a, a ∈ l -> owns s used a) ->
  (t = true -> (forall k, (k < length l)%nat -> is_present (entry_at s p (page + Z.of_nat k * 4096)) = false)) ->
  mwp t (commit_pages (page_directory sp) page l flags) (fun st s' =>
    (st = STATUS_SUCCESS /\ mem_ok held used s' /\ committed p page flags l s s') \/
    (st = STATUS_INSUFFICIENT_MEMORY /\ stopped p page (length l) s' /\ spaces s' = spaces s /\ (length (heap_pages (tables s)) < length l)%nat)) s.
Proof.
  intros F1 F2. induction l as [|a l IH]; intros page held used s Hm E Hp Hr Hnd Hown Ht; cbn [commit_pages].
  { apply mwp_ret. left. split; [done|]. split; [done|]. split; [done|]. split; [done|]. done. }
  apply NoDup_cons in Hnd as [Hna Hnd]. cbn [length] in *. mbind.
  destruct (expand_absent held used s p sp page Hm E Hp) as [(Ef & Hh & Habs)|(s1 & Ef & Hm1 & HE1 & Ho1 & Htab & Hl1 & _ & m & ->)]; (eapply mwp_run; [exact Ef|]).
  { apply mwp_ret. right. split; [done|]. split; [split; [apply Hm|]; exists 0%nat; split; [lia|]; by rewrite Z.add_0_r|]. split; [done|]. rewrite Hh. cbn. lia. }
  destruct (Hown a ltac:(left)) as (Ha & _). destruct (frame_aligned held used s a Hm Ha) as [Haa Hai]. mbind. set (s1 := with_tables s m) in *.
  destruct (is_present (entry_at s1 p page)) eqn:Hpres.
  { destruct t; [specialize (Ht eq_refl 0%nat ltac:(lia)); rewrite Z.add_0_r in Ht; rewrite HE1 in Hpres by done; congruence|].
    unfold mwp. by rewrite (commit_present s1 p sp page a flags (mo_base _ _ _ Hm1) E Hpres). }
  eapply mwp_run; [exact (commit_at s1 p sp page a flags (mo_base _ _ _ Hm1) E Hp Hpres Hai)|]. change (negb (STATUS_SUCCESS =? STATUS_SUCCESS)) with false. cbn iota.
  destruct (commit_private held used s1 p sp page a flags Hm1 E Hp Hpres (Ho1 a (Hown a ltac:(left))) Haa F1 F2 Htab) as (Hm2 & U2 & Ho2). set (s2 := put_entry s1 _ page _) in *.
  assert (committed p page flags [a] s s2) as Hc1.
  { split; [|split; [|done]].
    - intros [|i] b Hb; [injection Hb as <-|done]. rewrite Z.add_0_r. by apply (updated_same _ _ _ _ _ U2).
    - intros q pg Hpg Hno. rewrite <- HE1 by done. apply (updated_other _ _ _ _ _ _ _ U2 Hpg). intros [= -> ->]. cbn in Hno. lia. }
  destruct (decide (length l = 0)%nat) as [Hl0|Hln]; [apply nil_length_inv in Hl0; subst l; apply mwp_ret; by left|].
  assert (u32 (page + PAGE_SIZE) = page + 4096) as -> by (unfold PAGE_SIZE; rewrite u32_small; [done|]; destruct Hp; unfold PAYLOAD_AREA_BASE in *; lia).
  assert (user_page (page + 4096)) as Hp1 by (apply (user_page_add page 1); [done|lia|lia]).
  eapply mwp_mono; [apply (IH (page + 4096) held used s2 Hm2 E Hp1); [lia|done| |]|].
  - intros b Hb. apply Ho2; [apply Ho1, Hown; by right|]. by intros ->.
  - intros Htt k Hk. assert (user_page (page + 4096 + Z.of_nat k * 4096)) as Hpk by (apply (user_page_add (page + 4096)); [done|lia|lia]).
    rewrite (updated_other _ _ _ _ _ _ _ U2 Hpk) by (intros [= Hx]; lia). rewrite HE1 by done. specialize (Ht Htt (S k) ltac:(lia)). rewrite <- Ht. f_equal. f_equal. lia.
  - intros st s' [(-> & Hm' & Hc)|(-> & [Hb' (k & Hk & Habs)] & Hsp & Hh)].
    + left. split; [done|]. split; [done|]. by apply (committed_cons p page flags a l s s2).
    + right. split; [done|]. split; [split; [done|]; exists (S k); split; [lia|]; rewrite <- Habs; f_equal; f_equal; lia|]. split; [done|].
      change (heap_pages (tables s2)) with (heap_pages (tables s1)) in Hh. lia.
Qed.

(** ** [expand] *)

(** [decommit_frame] stops the kernel at a page that is not present. *)
Lemma decommit_traps p sp n : forall page s, base_ok s -> spaces s !! p = Some sp -> user_page page -> page + Z.of_nat n * 4096 <= 2 ^ 32 ->
  (exists k, (k < n)%nat /\ is_present (entry_at s p (page + Z.of_nat k * 4096)) = false) -> decommit_pages n (page_directory sp) page s = Trap AssertFailed.
Proof.
  induction n as [|n IH]; intros page s Hb E Hp Hr (k & Hk & Habs); [lia|]. cbn [decommit_pages]. unfold mbind, M_bind.
  rewrite (entry_of_run s p sp page Hb E (user_page_word _ Hp)). destruct (is_present (entry_at s p page)) eqn:Hpres.
  - rewrite (decommit_at s p sp page Hb E Hp Hpres). destruct (put_entry_ok s p sp page 0 Hb E Hp (present_is_table s p sp page Hb E Hp Hpres)) as [B1 U1].
    destruct k as [|k]; [rewrite Z.add_0_r in Habs; congruence|].
    assert (u32 (page + PAGE_SIZE) = page + 4096) as -> by (unfold PAGE_SIZE; rewrite u32_small; [done|]; destruct Hp; unfold PAYLOAD_AREA_BASE in *; lia).
    assert (user_page (page + 4096)) as Hp1 by (apply (user_page_add page 1); [done|lia|lia]).
    rewrite (IH (page + 4096) _ B1 E Hp1); [done|lia|]. exists k. split; [lia|]. replace (page + 4096 + Z.of_nat k * 4096) with (page + Z.of_nat (S k) * 4096) by lia.
    rewrite (updated_other _ _ _ _ _ _ _ U1); [done|apply user_page_add; [done|lia|lia]|intros [= Hx]; lia].
  - unfold on_paging, entry_decommit_frame, mbind, G_bind. rewrite read_entry_run by (eapply located_exists; [apply Hb|by eapply dir_of]).
    fold (translation (tables s) (page_directory sp) page). by rewrite <- (entry_at_space _ _ _ _ E), Hpres.
Qed.

Definition expand_flags : Z := Z.lor MEMORY_PAGED (Z.lor MEMORY_USER MEMORY_WRITABLE).

(** New private pages, on frames that were not in use; or none. *)
Definition expanded_by (held : list Z) (used : gset Z) (p page n : Z) (s : memory) (st : Z) (s' : memory) : Prop :=
  (st = STATUS_SUCCESS /\ exists l, Z.of_nat (length l) = n /\ NoDup l /\ (forall a, a ∈ l -> a ∉ used) /\
     mem_ok held (list_to_set l ∪ used) s' /\ committed p page expand_flags l s s') \/
  (st <> STATUS_SUCCESS /\ mem_ok held used s' /\ exists m, s' = with_frames s m).

Lemma expand_by_wp t held used s p sp page n : mem_ok held used s -> spaces s !! p = Some sp -> user_page page -> 0 < n -> page + n * 4096 <= 2 ^ 32 ->
  (t = true -> n <= Z.of_nat (length (heap_pages (tables s))) /\ forall k, 0 <= k < n -> is_present (entry_at s p (page + k * 4096)) = false) ->
  mwp t (expand_by p page n) (fun st s' => expanded_by held used p page n s st s' /\ (st = STATUS_SUCCESS <-> n <= Z.of_nat (base.size (valid_frames (frames s) ∖ used)))) s.
Proof.
  intros Hm E Hp Hn Hr Ht. destruct (allocate_run held used s n Hm Hn) as ([st l] & s1 & Ea & (m' & -> & Hcase)). unfold expand_by. mbind. eapply mwp_run; [exact Ea|].
  pose proof (allocate_frames_run (frames s) used n 0 (mo_frames _ _ _ Hm) Hn ltac:(done)) as (st' & l' & m2 & Ea' & _ & Hdec).
  unfold allocate_page_frames in Ea. rewrite Ea' in Ea. injection Ea as <- <- <-. cbn [fst snd] in *.
  destruct Hcase as [(-> & Hl & Hnd & Hm1 & Hown)|(-> & Hm1 & Hlt)].
  - assert (n <= Z.of_nat (base.size (valid_frames (frames s) ∖ used))) as Hfree by (case_decide; [done|by destruct Hdec]).
    change (negb (STATUS_SUCCESS =? STATUS_SUCCESS)) with false. cbn iota. mbind. unfold space_commit_frame. mbind.
    apply mwp_assert; [intros _; apply negb_true_iff, Z.eqb_neq; destruct Hp; unfold PAYLOAD_AREA_BASE, NULL in *; lia|intros _].
    mbind. eapply mwp_space; [exact E|]. eapply mwp_mono; [apply (commit_pages_wp t p sp expand_flags eq_refl eq_refl l' page held _ (with_frames s m2) Hm1 E Hp); [lia|done| |]|].
    + intros a Ha. by apply Hown.
    + intros Htt k Hk. apply (Ht Htt). lia.
    + intros st s' [(-> & Hm' & Hc)|(-> & Hstop & Hsp & Hh)].
      * apply mwp_ret. split; [|done]. left. split; [done|]. exists l'. split; [done|]. split; [done|]. split; [intros a Ha; by apply Hown|]. split; [done|].
        destruct Hc as (C1 & C2 & C3). done.
      * cbn iota. destruct t; [destruct (Ht eq_refl) as [Hheap _]; cbn in Hh; lia|]. destruct Hstop as [Hb' Habs]. change (spaces (with_frames s m2)) with (spaces s) in Hsp.
        unfold mwp, mbind, M_bind, space_decommit_frame, mbind, M_bind.  unfold massert, mlift.
        rewrite kassert_true by (apply negb_true_iff, Z.eqb_neq; destruct Hp; unfold PAYLOAD_AREA_BASE, NULL in *; lia). cbn. unfold space_at. rewrite Hsp, E.
        rewrite (decommit_traps p sp (Z.to_nat n) page s' Hb'); [done|by rewrite Hsp|done|lia|]. rewrite <- Hl, Nat2Z.id. done.
  - change (negb (STATUS_INSUFFICIENT_MEMORY =? STATUS_SUCCESS)) with true. cbn iota. apply mwp_ret. split; [right; split; [done|]; split; [done|by eexists]|]. split; [done|]. lia.
Qed.

Lemma expanded_effect held used p page n s st s' : expanded_by held used p page n s st s' -> effect held s s' /\ exists used', mem_ok held used' s'.
Proof.
  intros [(_ & l & _ & _ & _ & Hm & Hc)|(_ & Hm & m & ->)]; [split; [by eapply committed_effect|by eexists]|split; [apply effect_frames|by eexists]].
Qed.

(** What the search for a present page returns does not matter to the invariant. *)
Lemma space_expand_wp held used s capabilities p first size : mem_ok held used s -> 0 <= first < 2 ^ 32 ->
  mwp false (space_expand capabilities p first size) (fun _ s' => effect held s s' /\ exists used', mem_ok held used' s') s.
Proof.
  intros Hm Hf. assert (effect held s s /\ exists used', mem_ok held used' s) as Hsame by (split; [apply effect_refl|by exists used]).
  unfold space_expand. destruct (negb (capable _ _)); [by apply mwp_ret|]. destruct ((PAGE_COUNT 0 size =? 0) || _) eqn:Hn; [by apply mwp_ret|].
  apply orb_false_iff in Hn as [Hn0 Hn1]. apply Z.eqb_neq in Hn0. apply Z.ltb_ge in Hn1. unfold EXPAND_ADDRESS_SPACE_PAGE_COUNT in Hn1. set (n := PAGE_COUNT 0 size) in *.
  assert (0 <= n) as Hnn by (unfold n, PAGE_COUNT, PAGE_SIZE; apply Z.div_pos; [apply u32_range|lia]).
  mbind. eapply mwp_run; [unfold mlift; rewrite (aligned_run first 12 ltac:(lia) : is_aligned first PAGE_SIZE = _); reflexivity|].
  destruct (_ || _) eqn:Hbad; [by apply mwp_ret|]. apply orb_false_iff in Hbad as [Hbad Hwrap]. apply orb_false_iff in Hbad as [Hal Husr].
  apply negb_false_iff, Z.eqb_eq in Hal. apply negb_false_iff, Z.leb_le in Husr. apply Z.ltb_ge in Hwrap.
  assert (user_page first) as Hp by (split; [lia|exact Hal]).
  assert (first + n * 4096 <= 2 ^ 32) as Hr.
  { destruct Hp as [_ Hp]. destruct (decide (first + (n - 1) * PAGE_SIZE < 2 ^ 32)) as [Hlt|Hge].
    - unfold PAGE_SIZE in *. pose proof (Z.div_mod first 4096 ltac:(lia)). change (2 ^ 32) with (1048576 * 4096) in *. nia.
    - exfalso. unfold PAGE_SIZE, u32 in *. pose proof (Z.mod_unique (first + (n - 1) * 4096) 4294967296 1 (first + (n - 1) * 4096 - 4294967296)). lia. }
  mbind. apply mwp_space_any; [done|]. intros sp E. mbind. unfold mwp at 1, on_paging.
  pose proof (find_present_entry_reads (page_directory sp) first (tables s)) as Hrd. destruct (find_present_entry _ first (tables s)) as [[[e next] m']|]; [|done]. subst m'.
  replace (with_tables s (tables s)) with s by (by destruct s). destruct (_ && _); [by apply mwp_ret|].
  eapply mwp_mono; [apply (expand_by_wp false held used s p sp first n Hm E Hp); [lia|done|done]|]. intros st s' [He _]. by eapply expanded_effect.
Qed.

(** ** Delivery of shared frames *)

Definition deliver_flags : Z := Z.lor MEMORY_SHARED (Z.lor MEMORY_USER MEMORY_COPY_ON_WRITE).

(** A page for a descriptor. *)
Lemma bind_run held used s p sp page f c : mem_ok held used s -> spaces s !! p = Some sp -> user_page page -> is_present (entry_at s p page) = false ->
  shared_frames s !! f = Some c -> entry_address (sf_address c) = sf_address c -> is_table (word (tables s) (page_directory sp, slot page)) = true ->
  let s1 := put_entry s (page_directory sp) page (commit_bits (sf_address c) deliver_flags) in
  let s2 := with_shared s1 (<[f := more c]> (shared_frames s)) in
  let s3 := put_space s2 p (with_shared_table sp (<[page := f]> (shared_frame_table sp))) in
  frame_add_reference f s1 = Ret (tt, s2) /\ mem_ok held used s3 /\ updated (entry_at s) p page (commit_bits (sf_address c) deliver_flags) (entry_at s3) /\
  bindings s3 = <[(p, page) := f]> (bindings s) /\ effect held s s3.
Proof.
  intros Hm E Hp Habs Ec Haa Ht s1 s2 s3. pose proof (mo_base _ _ _ Hm) as Hb. set (bits := commit_bits (sf_address c) deliver_flags) in *.
  destruct (commit_bits_facts (sf_address c) deliver_flags) as (C1 & C2 & C3 & C4 & C5). fold bits in C1, C2, C3, C4, C5.
  destruct (put_entry_ok s p sp page bits Hb E Hp Ht) as [B1 U1]. fold s1 in B1, U1.
  pose proof (sharing_take _ _ _ _ _ f c (mo_sharing _ _ _ Hm) Ec) as S1.
  assert (sharing (entry_at s1) (<[(p, page) := f]> (bindings s)) (<[f := more c]> (shared_frames s)) held used) as S2.
  { apply (sharing_bind (entry_at s) _ _ _ _ p page bits f (more c)); try done; [apply lookup_insert_eq|]. repeat split; try done. unfold bits. by rewrite commit_bits_address. }
  destruct (sh_counts _ _ _ _ _ (mo_sharing _ _ _ Hm) f c Ec) as (_ & Hpos & _).
  assert (frame_add_reference f s1 = Ret (tt, s2)) as Er.
  { unfold frame_add_reference, mbind, M_bind, shared_at. cbn [shared_frames s1 put_entry with_tables]. rewrite Ec. unfold massert, mlift. by rewrite kassert_true by (apply Z.ltb_lt; lia). }
  assert (base_ok s2) as B2 by (by apply (base_replace s1 f c)).
  destruct (put_space_ok s2 p sp (with_shared_table sp (<[page := f]> (shared_frame_table sp))) B2 E eq_refl (fun H => H)) as (B3 & E3 & Q3).
  assert (bindings s3 = <[(p, page) := f]> (bindings s)) as Hbd by exact (bindings_insert s2 p sp page f E).
  split; [exact Er|]. split; [split; [exact B3|apply Hm|]|split; [|split; [exact Hbd|]]].
  - rewrite Hbd. apply (sharing_ext (entry_at s1)); [exact S2|]. intros q pg _. apply E3.
  - intros q pg Hpg. rewrite (E3 q pg : entry_at s3 q pg = _). by apply U1.
  - split; [exact Q3|]. intros g d _ Eg. destruct (insert_more (shared_frames s) f c g d Ec Eg) as (d' & Ed' & Ha). by exists d'.
Qed.

(** The frames of descriptors are page aligned. *)
Lemma descriptor_aligned held used s f c : mem_ok held used s -> shared_frames s !! f = Some c -> entry_address (sf_address c) = sf_address c /\ sf_address c <> INVALID_FRAME.
Proof.
  intros Hm Ec. destruct (sh_counts _ _ _ _ _ (mo_sharing _ _ _ Hm) f c Ec) as (_ & _ & _ & [Hu|[[Hk Hmod] _]]); [by eapply frame_aligned|].
  split; [|unfold INVALID_FRAME; lia]. change (entry_address (sf_address c)) with (PAGE_BASE (sf_address c)).
  rewrite page_base_div by (unfold KERNEL_PAGED_BOUNDARY, SUPER_PAGE_SIZE in Hk; lia). pose proof (Z.div_mod (sf_address c) 4096 ltac:(lia)). lia.
Qed.

(** The pages of the range are bound to the descriptors, in order. *)
Definition delivered (p page : Z) (fs : list Z) (s s' : memory) : Prop :=
  (forall i f, fs !! i = Some f -> bindings s' !! (p, page + Z.of_nat i * 4096) = Some f) /\
  (forall q pg, user_page pg -> q <> p \/ pg < page \/ page + Z.of_nat (length fs) * 4096 <= pg ->
     entry_at s' q pg = entry_at s q pg /\ bindings s' !! (q, pg) = bindings s !! (q, pg)).

Definition delivery (held : list Z) (used : gset Z) (p page : Z) (fs : list Z) (s : memory) (st : Z) (s' : memory) : Prop :=
  mem_ok held used s' /\ effect held s s' /\ ram s' = ram s /\ (st = STATUS_SUCCESS -> delivered p page fs s s') /\
  (st <> STATUS_SUCCESS -> (length (heap_pages (tables s)) < length fs)%nat).

Lemma commit_zero s p sp frame flags : base_ok s -> spaces s !! p = Some sp -> exists m',
  on_paging (find_entry (page_directory sp) 0 EXPAND_TREE) s = Ret (Some (located (tables (with_tables s m')) (page_directory sp) 0), with_tables s m') /\
  on_paging (entry_commit_frame (located (tables (with_tables s m')) (page_directory sp) 0) frame flags) (with_tables s m') = Trap AssertFailed.
Proof.
  intros Hb E. exists (tables s). replace (with_tables s (tables s)) with s by (by destruct s).
  pose proof (kernel_mapped _ _ (mo_paging s Hb) _ (dir_of _ _ _ E)) as Hw.
  assert (located (tables s) (page_directory sp) 0 = (page_directory sp, 0)) as Hl by (unfold located; change (slot 0) with 0; by rewrite Hw).
  assert (entry_at s p 0 = KERNEL_CODE_PAGE) as He by (rewrite (entry_at_space _ _ _ _ E); unfold translation; by rewrite Hl).
  split; [|apply (commit_present s p sp 0 frame flags Hb E); by rewrite He]. rewrite Hl. unfold on_paging, find_entry, mbind, G_bind. cbn [directory_calculate_index]. change (directory_calculate_index 0) with 0.
  rewrite gassert_run by done. rewrite read_entry_run by (apply (dirs_exist _ _ (mo_paging s Hb)), (dir_of _ _ _ E)). rewrite Hw. destruct s; done.
Qed.

Lemma delivered_cons p page f fs bits s s1 s' : updated (entry_at s) p page bits (entry_at s1) -> bindings s1 = <[(p, page) := f]> (bindings s) -> user_page page ->
  delivered p (page + 4096) fs s1 s' -> delivered p page (f :: fs) s s'.
Proof.
  intros U1 Hbd Hp (D1 & D2). split.
  - intros [|i] g Hg; cbn in Hg.
    + injection Hg as <-. rewrite Z.add_0_r. destruct (D2 p page Hp ltac:(lia)) as [_ ->]. rewrite Hbd. apply lookup_insert_eq.
    + rewrite <- (D1 i g Hg). do 2 f_equal. lia.
  - cbn [length]. intros q pg Hpg Hno. destruct (D2 q pg Hpg ltac:(lia)) as [-> ->]. assert ((q, pg) <> (p, page)) as Hne by (intros [= -> ->]; lia).
    rewrite (updated_other _ _ _ _ _ _ _ U1 Hpg Hne), Hbd. by rewrite lookup_insert_ne.
Qed.

Lemma delivered_nil p page s : delivered p page [] s s.
Proof. by split. Qed.

(** The page after the last one is page 0, which is the kernel's. *)
Lemma commit_shared_zero p g fs held used s Q : mem_ok held used s -> is_Some (spaces s !! p) -> g ∈ held -> mwp false (commit_shared_pages p 0 (g :: fs) deliver_flags) Q s.
Proof.
  intros Hm [sp E] Hg. destruct (sh_held _ _ _ _ _ (mo_sharing _ _ _ Hm) g Hg) as [c Ec]. destruct (commit_zero s p sp (sf_address c) deliver_flags (mo_base _ _ _ Hm) E) as (m' & Ef & Etr).
  cbn [commit_shared_pages]. mbind. eapply mwp_space; [exact E|]. mbind. eapply mwp_run; [exact Ef|]. mbind. eapply mwp_shared; [exact Ec|]. mbind. unfold mwp. by rewrite Etr.
Qed.

Lemma commit_shared_wp t p fs : forall page held used s, mem_ok held used s -> is_Some (spaces s !! p) -> user_page page ->
  (forall f, f ∈ fs -> f ∈ held) ->
  (t = true -> page + Z.of_nat (length fs) * 4096 <= 2 ^ 32 /\
     forall k, (k < length fs)%nat -> is_present (entry_at s p (page + Z.of_nat k * 4096)) = false) ->
  mwp t (commit_shared_pages p page fs deliver_flags) (delivery held used p page fs s) s.
Proof.
  induction fs as [|f fs IH]; intros page held used s Hm [sp E] Hp Hin Ht; cbn [commit_shared_pages].
  { apply mwp_ret. split; [done|]. split; [apply effect_refl|]. split; [done|]. split; [intros _; apply delivered_nil|done]. }
  cbn [length] in *. mbind. eapply mwp_space; [exact E|]. pose proof (mo_base _ _ _ Hm) as Hb.
  destruct (sh_held _ _ _ _ _ (mo_sharing _ _ _ Hm) f (Hin f ltac:(left))) as [c Ec]. mbind.
  destruct (expand_absent held used s p sp page Hm E Hp) as [(Ef & Hh & Habs)|(s1 & Ef & Hm1 & HE1 & _ & Htab & Hl1 & _ & m & ->)]; (eapply mwp_run; [exact Ef|]).
  { apply mwp_ret. split; [done|]. split; [apply effect_refl|]. split; [done|]. split; [done|]. intros _. rewrite Hh. cbn. lia. }
  set (s1 := with_tables s m) in *. mbind. eapply mwp_shared; [exact Ec|]. mbind. destruct (is_present (entry_at s1 p page)) eqn:Hpres.
  { destruct t; [destruct (Ht eq_refl) as (_ & Hx); specialize (Hx 0%nat ltac:(lia)); rewrite Z.add_0_r in Hx; rewrite HE1 in Hpres by done; congruence|].
    unfold mwp. by rewrite (commit_present s1 p sp page (sf_address c) deliver_flags (mo_base _ _ _ Hm1) E Hpres). }
  destruct (descriptor_aligned held used s f c Hm Ec) as [Haa Hai].
  eapply mwp_run; [exact (commit_at s1 p sp page (sf_address c) deliver_flags (mo_base _ _ _ Hm1) E Hp Hpres Hai)|]. change (negb (STATUS_SUCCESS =? STATUS_SUCCESS)) with false. cbn iota.
  destruct (bind_run held used s1 p sp page f c Hm1 E Hp Hpres Ec Haa Htab) as (Er & Hm3 & U3 & Hbd & Hef). set (s3 := put_space _ p _) in *.
  mbind. eapply mwp_run; [exact Er|]. mbind. apply mwp_modify. fold (put_space (with_shared (put_entry s1 (page_directory sp) page (commit_bits (sf_address c) deliver_flags)) (<[f := more c]> (shared_frames s1))) p
    (with_shared_table sp (<[page := f]> (shared_frame_table sp)))). fold s3.
  assert (updated (entry_at s) p page (commit_bits (sf_address c) deliver_flags) (entry_at s3)) as U.
  { intros q pg Hpg. rewrite (U3 q pg Hpg). destruct (decide _); [done|by apply HE1]. }
  assert (effect held s s3) as Hefs by (eapply effect_trans; [apply effect_tables|exact Hef]).
  destruct (effect_space _ _ _ _ _ Hefs E) as (sp3 & E3 & _).
  destruct (decide (page + 4096 < 2 ^ 32)) as [Hlt|Hge].
  - assert (u32 (page + PAGE_SIZE) = page + 4096) as -> by (unfold PAGE_SIZE; rewrite u32_small; [done|]; destruct Hp; unfold PAYLOAD_AREA_BASE in *; lia).
    assert (user_page (page + 4096)) as Hp1 by (apply (user_page_add page 1); [done|lia|lia]).
    eapply mwp_mono; [apply (IH (page + 4096) held used s3 Hm3); [by eexists|done|intros g Hg; apply Hin; by right|]|].
    + intros Htt. destruct (Ht Htt) as (Hr & Habs). split; [lia|]. intros k Hk.
      assert (user_page (page + 4096 + Z.of_nat k * 4096)) as Hpk by (apply (user_page_add (page + 4096)); [done|lia|lia]).
      rewrite (updated_other _ _ _ _ _ _ _ U Hpk) by (intros [= Hx]; lia). specialize (Habs (S k) ltac:(lia)). rewrite <- Habs. do 2 f_equal. lia.
    + intros st s' (Hm' & Hef' & Hram & Hs & Hf). split; [done|]. split; [by eapply effect_trans|]. split; [done|]. split.
      * intros Hst. by eapply delivered_cons; [exact U|exact Hbd|done|apply Hs].
      * intros Hst. specialize (Hf Hst). assert (heap_pages (tables s3) = heap_pages (tables s1)) as Hh3 by done. rewrite Hh3 in Hf. cbn [length]. lia.
  - assert (page + 4096 = 2 ^ 32) as Hend. { destruct Hp as [Hp Hmod]. pose proof (Z.div_mod page 4096 ltac:(lia)). change (2 ^ 32) with (1048576 * 4096) in *. nia. }
    assert (u32 (page + PAGE_SIZE) = 0) as -> by (unfold PAGE_SIZE; by rewrite Hend). destruct fs as [|g fs].
    + apply mwp_ret. split; [done|]. split; [done|]. split; [done|]. split; [|done]. intros _. eapply delivered_cons; [exact U|exact Hbd|done|]. apply delivered_nil.
    + destruct t; [destruct (Ht eq_refl) as [Hr _]; cbn in Hr; lia|]. apply (commit_shared_zero p g fs held used); [done|by eexists|apply Hin; right; left].
Qed.

(** ** [copy_on_write] *)

(** The new frame is mapped at the copy page for a moment, and filled. *)
Lemma fill_frame_wp {B} t held used s p sp copy page a (k : M B) Q : mem_ok held used s -> spaces s !! p = Some sp -> user_page copy -> user_page page -> owns s used a ->
  is_table (word (tables s) (page_directory sp, slot copy)) = true -> is_present (entry_at s p page) = true ->
  (t = true -> is_present (entry_at s p copy) = false) ->
  (forall s', mem_ok held used s' -> (forall q pg, user_page pg -> entry_at s' q pg = entry_at s q pg) ->
     owns s' used a -> same_tree s s' -> spaces s' = spaces s -> shared_frames s' = shared_frames s -> heap_pages (tables s') = heap_pages (tables s) ->
     ram s' = <[a := default [] (ram s !! entry_address (entry_at s p page))]> (ram s) -> mwp t k Q s') ->
  mwp t (status ← on_paging (entry_commit_frame (located (tables s) (page_directory sp) copy) a MEMORY_WRITABLE);
         massert (status =? STATUS_SUCCESS);;
         copy_page_data (page_directory sp) copy page;;
         on_paging (entry_decommit_frame (located (tables s) (page_directory sp) copy));;
         k) Q s.
Proof.
  intros Hm E Hc Hp Hown Htab Hpres Ht HQ. pose proof (mo_base _ _ _ Hm) as Hb. destruct (frame_aligned held used s a Hm (proj1 Hown)) as [Haa Hai].
  destruct (is_present (entry_at s p copy)) eqn:Hcp.
  { destruct t; [by specialize (Ht eq_refl)|]. unfold mwp, mbind, M_bind. by rewrite (commit_present s p sp copy a MEMORY_WRITABLE Hb E Hcp). }
  mbind. eapply mwp_run; [exact (commit_at s p sp copy a MEMORY_WRITABLE Hb E Hc Hcp Hai)|]. mbind. apply mwp_assert; [done|intros _].
  destruct (commit_private held used s p sp copy a MEMORY_WRITABLE Hm E Hc Hcp Hown Haa eq_refl eq_refl Htab) as (Hm1 & U1 & _).
  pose proof (put_entry_tree s p sp copy (commit_bits a MEMORY_WRITABLE) Hb E Hc Htab) as Tr1. set (s1 := put_entry s _ copy _) in *. pose proof (mo_base _ _ _ Hm1) as Hb1.
  destruct (commit_bits_facts a MEMORY_WRITABLE) as (C1 & _). pose proof (updated_same _ _ _ _ _ U1 Hc) as Ec1.
  assert ((p, page) <> (p, copy)) as Hne by (intros [= ->]; congruence). pose proof (updated_other _ _ _ _ _ _ _ U1 Hp Hne) as Ep1.
  mbind. unfold copy_page_data. mbind. eapply mwp_run; [exact (entry_of_run s1 p sp page Hb1 E (user_page_word _ Hp))|]. mbind. eapply mwp_run; [exact (read_run s1 p sp page Hb1 E)|].
  mbind. eapply mwp_run; [exact (entry_of_run s1 p sp copy Hb1 E (user_page_word _ Hc))|]. mbind. eapply mwp_run; [exact (read_run s1 p sp copy Hb1 E)|].
  rewrite Ec1, Ep1, C1, Hpres. cbn [negb]. apply mwp_modify. rewrite commit_bits_address, Haa.
  set (s2 := with_ram s1 _). assert (mem_ok held used s2) as Hm2 by (destruct Hm1 as [[] ? ?]; split; [split; done|done|done]).
  mbind. rewrite <- (located_tree s s1 p sp copy Tr1 E : located (tables s2) _ _ = _).
  assert (is_present (entry_at s2 p copy) = true) as Hc2 by (change (entry_at s2) with (entry_at s1); by rewrite Ec1).
  eapply mwp_run; [exact (decommit_at s2 p sp copy (mo_base _ _ _ Hm2) E Hc Hc2)|]. change (entry_at s2 p copy) with (entry_at s1 p copy) in *.
  assert (bindings s2 !! (p, copy) = None) as Hbn by exact (absent_unbound _ _ _ _ _ p copy (mo_sharing _ _ _ Hm) Hc Hcp).
  pose proof (present_is_table s2 p sp copy (mo_base _ _ _ Hm2) E Hc Hc2) as Htab2.
  destruct (put_entry_ok s2 p sp copy 0 (mo_base _ _ _ Hm2) E Hc Htab2) as [B3 U3]. pose proof (put_entry_tree s2 p sp copy 0 (mo_base _ _ _ Hm2) E Hc Htab2) as Tr3.
  destruct (sharing_drop _ _ _ _ _ p copy 0 _ (mo_sharing _ _ _ Hm2) Hc Hc2 Hbn eq_refl U3) as [S3 L3].
  rewrite (Ec1 : entry_at s2 p copy = _), commit_bits_address, Haa in L3. apply HQ.
  - split; [exact B3|apply Hm|exact S3].
  - intros q pg Hpg. rewrite (U3 q pg Hpg). destruct (decide (q = p /\ pg = copy)) as [[-> ->]|Hno]; [symmetry; by apply (sh_absent _ _ _ _ _ (mo_sharing _ _ _ Hm))|].
    change (entry_at s2) with (entry_at s1). rewrite (U1 q pg Hpg), decide_False by done. done.
  - exact L3.
  - intros d i Hd. rewrite (Tr3 d i Hd). exact (Tr1 d i Hd).
  - done.
  - done.
  - done.
  - done.
Qed.

Definition cow_done (held : list Z) (used : gset Z) (p page : Z) (s s' : memory) : Prop := exists a used',
  (a ∉ used) /\ (entry_address a = a /\ KERNEL_PAGED_BOUNDARY <= a) /\ mem_ok held used' s' /\ effect held s s' /\ updated (entry_at s) p page (commit_bits a MEMORY_USER_DEFAULT) (entry_at s') /\
  ram s' = <[a := default [] (ram s !! entry_address (entry_at s p page))]> (ram s).

(** [false]: the page is not copied on write, or there is no memory. *)
Definition cow_failed (held : list Z) (used : gset Z) (p page : Z) (s s' : memory) : Prop :=
  mem_ok held used s' /\ effect held s s' /\ (forall q pg, user_page pg -> entry_at s' q pg = entry_at s q pg) /\ ram s' = ram s /\
  (is_copy_on_write (entry_at s p page) = false \/ heap_pages (tables s) = [] \/ valid_frames (frames s) ⊆ used).

(** Writing to a frame that was not in use leaves the shared ones alone. *)
Lemma effect_fresh held used s s' a v : mem_ok held used s -> a ∉ used -> KERNEL_PAGED_BOUNDARY <= a -> spaces s' = spaces s -> shared_frames s' = shared_frames s ->
  ram s' = <[a := v]> (ram s) -> effect held s s'.
Proof.
  intros Hm Ha Hlow Hsp Hsh Hram. split; [by rewrite Hsp|]. intros f c _ Ec. exists c. rewrite Hsh, Hram. split; [done|]. split; [done|]. apply lookup_insert_ne.
  destruct (sh_counts _ _ _ _ _ (mo_sharing _ _ _ Hm) f c Ec) as (_ & _ & _ & [Hu|[[[_ Hk] _] _]]); [by intros ->|lia].
Qed.

(** The page gets the new frame. *)
Lemma rebind_wp t held used s s0 used0 p sp page a : mem_ok held used s -> spaces s !! p = Some sp -> user_page page -> owns s used a ->
  is_present (entry_at s p page) = true ->
  forall address, PAYLOAD_AREA_BASE <= address < 2 ^ 32 -> PAGE_BASE address = page ->
  (a ∉ used0) -> effect held s0 s -> (forall q pg, user_page pg -> entry_at s q pg = entry_at s0 q pg) -> ram s = <[a := default [] (ram s0 !! entry_address (entry_at s0 p page))]> (ram s0) ->
  mwp t (unshare_one p address;;
         status ← on_paging (entry_commit_frame (located (tables s) (page_directory sp) page) a MEMORY_USER_DEFAULT);
         massert (status =? STATUS_SUCCESS);;
         bits ← on_paging (read_entry (located (tables s) (page_directory sp) page));
         massert (is_present bits);; massert (is_writable bits);; massert (negb (is_copy_on_write bits));; mret true)
    (fun b s' => b = true /\ cow_done held used0 p page s0 s') s.
Proof.
  intros Hm E Hp Hown Hpres address Ha Hbase Ha0 Hef0 HE0 Hram0. pose proof (present_is_table s p sp page (mo_base _ _ _ Hm) E Hp Hpres) as Htab.
  destruct (unshare_one_run held used s p address Hm) as (s1 & used1 & Er & Hm1 & Hef1 & Hram1 & U1 & Ho1 & Tr1); [by eexists|done|]. rewrite Hbase in U1.
  mbind. eapply mwp_run; [exact Er|]. destruct (effect_space _ _ _ _ _ Hef1 E) as (sp1 & E1 & Hd1). rewrite <- (located_tree s s1 p sp page Tr1 E).
  pose proof (Tr1 _ (slot page) (dir_of _ _ _ E)) as Hw. rewrite <- Hw in Htab. rewrite <- Hd1 in *. pose proof (updated_same _ _ _ _ _ U1 Hp) as Ep1.
  destruct (frame_aligned held used s a Hm (proj1 Hown)) as [Haa Hai]. specialize (Ho1 a Hown). pose proof (mo_base _ _ _ Hm1) as Hb1.
  assert (is_present (entry_at s1 p page) = false) as Habs by (by rewrite Ep1).
  mbind. eapply mwp_run; [exact (commit_at s1 p sp1 page a MEMORY_USER_DEFAULT Hb1 E1 Hp Habs Hai)|]. mbind. apply mwp_assert; [done|intros _].
  destruct (commit_private held used1 s1 p sp1 page a MEMORY_USER_DEFAULT Hm1 E1 Hp Habs Ho1 Haa eq_refl eq_refl Htab) as (Hm2 & U2 & _).
  pose proof (put_entry_tree s1 p sp1 page (commit_bits a MEMORY_USER_DEFAULT) Hb1 E1 Hp Htab) as Tr2. set (s2 := put_entry s1 _ page _) in *.
  mbind. rewrite <- (located_tree s1 s2 p sp1 page Tr2 E1). eapply mwp_run; [exact (read_run s2 p sp1 page (mo_base _ _ _ Hm2) E1)|]. rewrite (updated_same _ _ _ _ _ U2 Hp).
  destruct (commit_bits_facts a MEMORY_USER_DEFAULT) as (C1 & _ & C3 & _ & C5). mbind. apply mwp_assert; [by rewrite C1|intros _]. mbind. apply mwp_assert; [by rewrite C3|intros _].
  mbind. apply mwp_assert; [by rewrite C5|intros _]. apply mwp_ret. split; [done|]. exists a, used1. split; [done|]. split; [split; [exact Haa|exact (sh_used _ _ _ _ _ (mo_sharing _ _ _ Hm) a (proj1 Hown))]|]. split; [done|].
  split; [eapply effect_trans; [exact Hef0|eapply effect_trans; [exact Hef1|apply effect_put_entry]]|]. split.
  - intros q pg Hpg. rewrite (U2 q pg Hpg). destruct (decide _) as [|Hno]; [done|]. rewrite (U1 q pg Hpg), decide_False by done. by apply HE0.
  - change (ram s2) with (ram s1). by rewrite Hram1.
Qed.

(** The page is bound to a descriptor. *)
Lemma cow_bound held used s p page : mem_ok held used s -> user_page page -> is_present (entry_at s p page) = true -> is_copy_on_write (entry_at s p page) = true ->
  is_Some (bindings s !! (p, page)) /\ is_super_page (entry_at s p page) = false /\ is_writable (entry_at s p page) = false.
Proof.
  intros Hm Hp Hpres Hcow. destruct (bindings s !! (p, page)) as [f|] eqn:Ef.
  - destruct (sh_bound _ _ _ _ _ (mo_sharing _ _ _ Hm) p page f Ef) as (c & _ & [[Hk _]|[_ He]]); [by destruct (kernel_not_user page)|].
    destruct He as (_ & _ & _ & H4 & H5 & _). by split.
  - destruct (sh_private _ _ _ _ _ (mo_sharing _ _ _ Hm) p page Hp Ef Hpres) as ((_ & _ & Hc & _) & _). congruence.
Qed.

Lemma copy_on_write_wp t held used s p sp copy address : mem_ok held used s -> spaces s !! p = Some sp -> user_page copy -> PAYLOAD_AREA_BASE <= address < 2 ^ 32 ->
  (t = true -> is_present (entry_at s p copy) = false) ->
  mwp t (copy_on_write p copy address) (fun b s' =>
    (b = true /\ cow_done held used p (PAGE_BASE address) s s') \/ (b = false /\ cow_failed held used p (PAGE_BASE address) s s')) s.
Proof.
  intros Hm E Hc Ha Ht. pose proof (page_base_user address Ha) as Hp. set (page := PAGE_BASE address) in *. pose proof (mo_base _ _ _ Hm) as Hb.
  assert (0 <= address < 2 ^ 32) as Ha' by (unfold PAYLOAD_AREA_BASE in Ha; lia). unfold copy_on_write. mbind. eapply mwp_space; [exact E|].
  mbind. eapply mwp_run; [exact (entry_of_run s p sp address Hb E Ha')|]. rewrite (located_base _ _ address Ha'). fold page. mbind. eapply mwp_run; [exact (read_run s p sp page Hb E)|].
  destruct (is_copy_on_write (entry_at s p page)) eqn:Hcow; cbn [negb].
  2: { apply mwp_ret. right. split; [done|]. split; [done|]. split; [apply effect_refl|]. split; [done|]. split; [done|]. by left. }
  assert (is_present (entry_at s p page) = true) as Hpres.
  { destruct (is_present (entry_at s p page)) eqn:Hx; [done|]. rewrite (sh_absent _ _ _ _ _ (mo_sharing _ _ _ Hm) p page Hp Hx) in Hcow. done. }
  destruct (cow_bound held used s p page Hm Hp Hpres Hcow) as (Hbd & Hsup & Hwr).
  do 3 (mbind; apply mwp_assert; [intros _; by rewrite ?Hpres, ?Hsup, ?Hwr|intros _]).
  mbind. apply mwp_assert; [intros _; apply negb_true_iff, Z.eqb_neq; destruct Hc; unfold PAYLOAD_AREA_BASE, NULL in *; lia|intros _].
  mbind. destruct (expand_absent held used s p sp copy Hm E Hc) as [(Ef & Hh & _)|(s1 & Ef & Hm1 & HE1 & Ho1 & Htab & Hl1 & Hloc & m & ->)]; (eapply mwp_run; [exact Ef|]).
  { apply mwp_ret. right. split; [done|]. split; [done|]. split; [apply effect_refl|]. split; [done|]. split; [done|]. right. by left. }
  set (s1 := with_tables s m) in *. destruct (allocate_run held used s1 1 Hm1 ltac:(lia)) as ([st l] & s2 & Eal & (m2 & -> & Hcase)). set (s2 := with_frames s1 m2) in *.
  mbind. eapply mwp_run; [exact Eal|]. destruct Hcase as [(Hst & Hl & Hnd & Hm2 & Hown)|(Hst & Hm2 & Hlt)]; cbn [fst snd] in *; subst st.
  2: { apply mwp_ret. right. split; [done|]. split; [done|]. split; [eapply effect_trans; [apply effect_tables|apply effect_frames]|]. split; [done|]. split; [done|]. right. right.
    change (frames s1) with (frames s) in Hlt. intros a Hva. destruct (decide (a ∈ used)) as [|Hna]; [done|]. exfalso.
    assert (valid_frames (frames s) ∖ used ≢ ∅) as Hne by set_solver. apply size_non_empty_iff in Hne. lia. }
  destruct l as [|a [|b l]]; cbn in Hl; try lia. change (negb (STATUS_SUCCESS =? STATUS_SUCCESS)) with false. cbn iota. mbind. eapply mwp_run; [reflexivity|].
  destruct (Hown a ltac:(left)) as [Hoa Hna]. assert (forall q pg, user_page pg -> entry_at s2 q pg = entry_at s q pg) as HE2 by exact HE1.
  assert (KERNEL_PAGED_BOUNDARY <= a) as Hlow by (apply (sh_used _ _ _ _ _ (mo_sharing _ _ _ Hm2)), Hoa).
  apply (fill_frame_wp t held (list_to_set [a] ∪ used) s2 p sp copy page a); try done.
  - by rewrite HE2.
  - intros Htt. rewrite HE2 by done. by apply Ht.
  - intros s3 Hm3 HE3 Ho3 Tr3 Hsp3 Hsh3 _ Hram3. rewrite <- (Hloc page (present_is_table s p sp page Hb E Hp Hpres)).
    rewrite <- (located_tree s2 s3 p sp page Tr3 E : _ = located (tables s1) _ _). eapply mwp_mono; [apply (rebind_wp t held (list_to_set [a] ∪ used) s3 s used p sp page a); try done|].
    + by rewrite Hsp3.
    + rewrite HE3, HE2 by done. done.
    + by apply (effect_fresh held used s s3 a (default [] (ram s !! entry_address (entry_at s p page)))); try done; rewrite Hram3, HE2.
    + intros q pg Hpg. by rewrite HE3, HE2.
    + by rewrite Hram3, HE2.
    + intros b s' [-> Hdone]. by left.
Qed.
