(* ===== verification/KSpaceMsg.v ===== *)
(** * Payload blocks, messages and the creation of address spaces *)

From S2P Require Import Prelude CMem CStringSearch World Libdx LibdxThms Process ProcessThms Loader KBase KBitmap KBitmapThms KFrames KRegionThms KFramesThms KHeap KHeapThms KPorts KPaging KPagingThms KSpace KSharing KSpaceInv KSpaceRuns KSpaceOps.

(** Nothing but the pools changes. *)
Definition pools_changed (held : list Z) (used : gset Z) (s s' : memory) : Prop :=
  mem_ok held used s' /\ effect held s s' /\ (forall q pg, entry_at s' q pg = entry_at s q pg) /\ bindings s' = bindings s /\
  tables s' = tables s /\ frames s' = frames s /\ shared_frames s' = shared_frames s /\ ram s' = ram s /\ objects s' = objects s.

Lemma pools_changed_put held used s p sp sp' : mem_ok held used s -> spaces s !! p = Some sp -> page_directory sp' = page_directory sp ->
  shared_frame_table sp' = shared_frame_table sp -> pools_ok sp' -> pools_changed held used s (put_space s p sp').
Proof.
  intros Hm E Hd Ht Hpo. destruct (put_space_same held used s p sp sp' Hm E Hd Ht (fun _ => Hpo)) as [Hm' He].
  destruct (put_space_ok s p sp sp' (mo_base _ _ _ Hm) E Hd (fun _ => Hpo)) as (_ & HE & _). split; [done|]. split; [done|]. split; [done|]. split; [by apply (bindings_put s p sp)|]. done.
Qed.

(** ** Large payload blocks *)

Lemma large_block_user i j : (i < 8)%nat -> 0 <= j < 2 ^ (10 - Z.of_nat i) ->
  let block := LARGE_PAYLOAD_POOL_BASE + Z.of_nat i * PAYLOAD_POOL_SIZE + j * 2 ^ (12 + Z.of_nat i) in
  user_page block /\ LARGE_PAYLOAD_POOL_BASE <= block /\ block + 2 ^ (12 + Z.of_nat i) <= LARGE_PAYLOAD_POOL_BASE + Z.of_nat (S i) * PAYLOAD_POOL_SIZE.
Proof.
  intros Hi Hj block. assert (2 ^ (10 - Z.of_nat i) * 2 ^ (12 + Z.of_nat i) = PAYLOAD_POOL_SIZE) as Hmul.
  { rewrite <- Z.pow_add_r by lia. unfold PAYLOAD_POOL_SIZE. by replace (10 - Z.of_nat i + (12 + Z.of_nat i)) with 22 by lia. }
  assert (2 ^ (12 + Z.of_nat i) = 4096 * 2 ^ Z.of_nat i) as Hp by (by rewrite Z.pow_add_r by lia).
  pose proof (Z.pow_pos_nonneg 2 (Z.of_nat i) ltac:(lia) ltac:(lia)). unfold block. rewrite Hp in *. clear block.
  assert (0 <= j * (4096 * 2 ^ Z.of_nat i) /\ j * (4096 * 2 ^ Z.of_nat i) + 4096 * 2 ^ Z.of_nat i <= PAYLOAD_POOL_SIZE) as Hb by nia.
  unfold user_page, LARGE_PAYLOAD_POOL_BASE, MEDIUM_PAYLOAD_POOL_BASE, PAYLOAD_AREA_BASE, PAYLOAD_POOL_SIZE in *. split; [split; [lia|]|lia].
  replace (0x20000000 + 0x00400000 + Z.of_nat i * 0x00400000 + j * (4096 * 2 ^ Z.of_nat i)) with ((131072 + 1024 + Z.of_nat i * 1024 + j * 2 ^ Z.of_nat i) * 4096) by lia.
  apply Z.mod_mul. lia.
Qed.

(** A block of the pool of the right order, or of a larger one. *)
Lemma allocate_from_pools_run l : forall i0 : nat, (i0 + length l = 8)%nat -> (forall i a pool, l !! i = Some (a, pool) -> large_pool_ok (i0 + i) pool) ->
  exists block l', allocate_from_pools l = Ret (block, l') /\ length l' = length l /\ (forall i a pool, l' !! i = Some (a, pool) -> large_pool_ok (i0 + i) pool) /\
    (block = NULL \/ (user_page block /\ LARGE_PAYLOAD_POOL_BASE <= block /\ block + 2 ^ (12 + Z.of_nat i0) <= LARGE_PAYLOAD_POOL_BASE + 8 * PAYLOAD_POOL_SIZE)).
Proof.
  induction l as [|[a pool] l IH]; intros i0 Hlen Hl; cbn [allocate_from_pools].
  { exists NULL, []. split; [done|]. split; [done|]. split; [done|]. by left. }
  cbn [length] in Hlen. destruct (Hl 0%nat a pool eq_refl) as (Hp & Hbase & Hsize & Hcount). rewrite Nat.add_0_r in *.
  assert (forall i b q, l !! i = Some (b, q) -> large_pool_ok (S i0 + i) q) as Hl'.
  { intros i b q E. replace (S i0 + i)%nat with (i0 + S i)%nat by lia. by apply (Hl (S i) b q). }
  destruct (pool_allocate_run pool Hp) as [(j & pool' & E & Hp' & Hw & Hj & _ & Hnn & _)|[E _]]; krun E.
  - rewrite (proj2 (Z.eqb_neq _ _) Hnn). cbn [negb]. exists (block_address pool j), ((a, pool') :: l). split; [done|]. split; [done|]. split.
    + intros [|i] b q Hq; cbn in Hq; [injection Hq as <- <-|by apply (Hl (S i) b q)]. rewrite Nat.add_0_r. rewrite <- Hw. rewrite <- Hw in Hp'. by repeat split; try apply Hp'.
    + right. rewrite Hcount in Hj. destruct (large_block_user i0 j ltac:(lia) Hj) as (H1 & H2 & H3). unfold block_address. rewrite Hbase, Hsize. split; [done|]. split; [done|].
      etransitivity; [exact H3|]. unfold PAYLOAD_POOL_SIZE. lia.
  - cbn [Z.eqb NULL negb]. destruct (IH (S i0) ltac:(lia) Hl') as (block & l' & E' & Hlen' & Hq & Hcase). krun E'. exists block, ((a, pool) :: l').
    split; [done|]. split; [cbn; lia|]. split.
    + intros [|i] b q Eq; cbn in Eq; [injection Eq as <- <-; by apply (Hl 0%nat a pool)|]. replace (i0 + S i)%nat with (S i0 + i)%nat by lia. by apply (Hq i b q).
    + destruct Hcase as [?|(H1 & H2 & H3)]; [by left|right]. split; [done|]. split; [done|]. etransitivity; [|exact H3]. apply Z.add_le_mono_l, Z.pow_le_mono_r; lia.
Qed.

Lemma order_bounds n : 1 <= n < 2 ^ 31 -> find_one_bit32 (round_up_2n n) = Z.log2_up n.
Proof.
  intros Hn. rewrite round_up_2n_spec by lia. assert (0 <= Z.log2_up n < 32) as Hl.
  { split; [apply Z.log2_up_nonneg|]. apply Z.le_lt_trans with 31; [|lia]. change 31 with (Z.log2_up (2 ^ 31)). apply Z.log2_up_le_mono. lia. }
  unfold find_one_bit32. destruct (lowest_bit_spec 32 0 (2 ^ Z.log2_up n)) as [(j & Hj & E & Hb & _)|[_ Hb]].
  - rewrite E. rewrite Z.pow2_bits_eqb in Hb by lia. apply Z.eqb_eq in Hb. done.
  - specialize (Hb (Z.log2_up n) ltac:(lia)). by rewrite Z.pow2_bits_true in Hb by lia.
Qed.

(** A block for [n] pages lies in the payload area. *)
Definition large_block (n block : Z) : Prop := block = NULL \/
  (user_page block /\ LARGE_PAYLOAD_POOL_BASE <= block /\ block + n * 4096 <= LARGE_PAYLOAD_POOL_BASE + 8 * PAYLOAD_POOL_SIZE).

Lemma allocate_large_run held used s p sp n : mem_ok held used s -> spaces s !! p = Some sp -> 1 <= n < 2 ^ 31 ->
  exists block s', space_allocate_large_payload_block p n s = Ret (block, s') /\ pools_changed held used s s' /\ large_block n block.
Proof.
  intros Hm E Hn. unfold space_allocate_large_payload_block, mbind, M_bind. unfold massert, mlift at 1. rewrite kassert_true by (apply Z.ltb_lt; lia).
  unfold space_at. rewrite E, (order_bounds n Hn). pose proof (Z.log2_up_nonneg n) as Hlog.
  destruct (mo_pools s (mo_base _ _ _ Hm) p sp E) as (P1 & P2 & P3 & P4 & P5 & P6). unfold LARGE_PAYLOAD_POOL_COUNT. destruct (Z.ltb_spec (Z.log2_up n) 8) as [Hlt|Hge].
  - set (k := Z.to_nat (Z.log2_up n)). assert (k + length (drop k (large_payload_pool sp)) = 8)%nat as Hlen by (rewrite length_drop, P5; unfold k; lia).
    destruct (allocate_from_pools_run (drop k (large_payload_pool sp)) k Hlen) as (block & l' & Ea & Hl' & Hq & Hcase).
    { intros i a pool Eq. rewrite lookup_drop in Eq. by apply (P6 _ a). }
    unfold mlift. rewrite Ea. eexists _, _. split; [reflexivity|]. split.
    + apply (pools_changed_put held used s p sp); try done. split; [done|]. split; [done|]. split; [done|]. split; [done|]. cbn.
      assert (length (take k (large_payload_pool sp)) = k) as Hk by (rewrite length_take, P5; unfold k; lia).
      split; [rewrite length_app, Hk, Hl'; exact Hlen|]. intros i a pool [Et|[Hge Et]]%lookup_app_Some; [apply lookup_take_Some in Et as [Et _]; by apply (P6 i a)|].
      rewrite Hk in *. specialize (Hq _ a pool Et). by replace (k + (i - k))%nat with i in Hq by lia.
    + destruct Hcase as [?|(H1 & H2 & H3)]; [by left|right]. split; [done|]. split; [done|]. etransitivity; [|exact H3]. apply Z.add_le_mono_l.
      rewrite Z.pow_add_r by lia. change (2 ^ 12) with 4096. unfold k. rewrite Z2Nat.id by lia. pose proof (Z.log2_up_spec n). destruct (decide (n = 1)) as [->|]; [cbn; lia|]. nia.
  - eexists _, _. split; [reflexivity|]. split; [|by left]. split; [done|]. split; [apply effect_refl|]. done.
Qed.

Lemma pool_free_any pool block st pool' : pool_ok pool -> pool_free_block block pool = Ret (st, pool') ->
  pool_ok pool' /\ pool_base pool' = pool_base pool /\ block_size pool' = block_size pool /\ block_count pool' = block_count pool.
Proof.
  intros Hp. destruct (po_bitmap pool Hp) as [Hinv Hs]. pose proof (block_size_pos pool Hp) as Hbs. unfold pool_free_block, mbind, res_bind, kassert.
  destruct (negb (block =? NULL)); [|done]. destruct (pool_base pool <=? block); [|done]. destruct (is_aligned block (block_size pool)) as [al|]; [|done]. destruct al; [|done]. cbn [mret res_ret].
  set (index := u32 (block - pool_base pool) / block_size pool). assert (0 <= index) as Hi by (apply Z.div_pos; [apply u32_range|done]).
  destruct (Z.ltb_spec index (ml_size (pool_bitmap pool))) as [Hlt|_]; [|intros [= <- <-]; done].
  assert (0 <= index < bm_size (pool_bitmap pool)) as Hi2 by (cbn; lia). destruct (law_free (width := 1024) (pool_bitmap pool) index Hinv Hi2) as (b & E & Hinv' & Hs' & _). cbn in E, Hs'. rewrite E. intros [= <- <-].
  split; [|done]. split; cbn; [apply Hp|split; [done|congruence]|apply Hp|apply Hp].
Qed.

Lemma free_large_wp held used s p block : mem_ok held used s -> mwp false (space_free_large_payload_block p block) (fun _ s' => pools_changed held used s s') s.
Proof.
  intros Hm. unfold space_free_large_payload_block. mbind. apply mwp_assert; [done|intros H1]. mbind. apply mwp_assert; [done|intros H2].
  mbind. apply mwp_space_any; [done|]. intros sp E. set (index := (PAGE_BASE block - LARGE_PAYLOAD_POOL_BASE) / PAYLOAD_POOL_SIZE).
  destruct (mo_pools s (mo_base _ _ _ Hm) p sp E) as (P1 & P2 & P3 & P4 & P5 & P6). destruct (index <? LARGE_PAYLOAD_POOL_COUNT).
  - mbind. unfold mwp at 1, mlift, array_get. destruct (large_payload_pool sp !! Z.to_nat index) as [[a pool]|] eqn:Ea; [|done]. cbn. mbind. unfold mwp at 1, mlift.
    destruct (P6 _ a pool Ea) as (Q1 & Q2 & Q3 & Q4). destruct (pool_free_block (PAGE_BASE block) pool) as [[st pool']|] eqn:Ef; [|done].
    destruct (pool_free_any pool _ st pool' Q1 Ef) as (R1 & R2 & R3 & R4). mbind. apply mwp_modify, mwp_ret. apply (pools_changed_put held used s p sp); try done.
    split; [done|]. split; [done|]. split; [done|]. split; [done|]. cbn. split; [by rewrite length_insert|]. intros i b q Eq. destruct (decide (i = Z.to_nat index)) as [->|Hne].
    + rewrite list_lookup_insert_eq in Eq by (apply lookup_lt_Some in Ea; done). injection Eq as <- <-. split; [done|]. split; [congruence|]. split; congruence.
    + rewrite list_lookup_insert_ne in Eq by done. by apply (P6 i b).
  - apply mwp_ret. split; [done|]. split; [apply effect_refl|]. done.
Qed.

(** ** Medium payload blocks *)

Lemma free_medium_wp held used s p block : mem_ok held used s -> mwp false (space_free_medium_payload_block p block) (fun _ s' => pools_changed held used s s') s.
Proof.
  intros Hm. unfold space_free_medium_payload_block. mbind. apply mwp_space_any; [done|]. intros sp E.
  destruct (mo_pools s (mo_base _ _ _ Hm) p sp E) as (P1 & P2 & P3 & P4 & P5). mbind. unfold mwp at 1, mlift.
  destruct (pool_free_block block (medium_payload_pool sp)) as [[st pool']|] eqn:Ef; [|done]. destruct (pool_free_any _ _ st pool' P1 Ef) as (R1 & R2 & R3 & R4).
  mbind. apply mwp_modify, mwp_ret. apply (pools_changed_put held used s p sp); try done. unfold pools_ok. cbn. rewrite R2, R3, R4. done.
Qed.

Lemma find_entry_base d a b m : 0 <= a < 2 ^ 32 -> find_entry d a b m = find_entry d (PAGE_BASE a) b m.
Proof.
  intros Ha. destruct (page_base_bounds a Ha) as (H1 & _ & _ & H4). destruct (same_indices (PAGE_BASE a) a ltac:(lia) Ha) as [_ H]. destruct (H H4) as [Hs Ht].
  unfold find_entry, table_find_entry. fold (slot a) (slot (PAGE_BASE a)). by rewrite Hs, Ht.
Qed.

Lemma back_medium_wp held used s p sp block : mem_ok held used s -> spaces s !! p = Some sp -> PAYLOAD_AREA_BASE <= block < 2 ^ 32 ->
  mwp false (back_medium_block (page_directory sp) block) (fun _ s' => effect held s s' /\ exists used', mem_ok held used' s') s.
Proof.
  intros Hm E Hbl. pose proof (page_base_user block Hbl) as Hp. set (page := PAGE_BASE block) in *. assert (0 <= block < 2 ^ 32) as Hbw by (unfold PAYLOAD_AREA_BASE in Hbl; lia).
  unfold back_medium_block. mbind. unfold mwp at 1, on_paging. rewrite (find_entry_base _ block _ _ Hbw). fold page.
  pose proof (expand_absent held used s p sp page Hm E Hp) as Hex. unfold on_paging in Hex.
  destruct Hex as [(Ef & _)|(s1 & Ef & Hm1 & HE1 & Ho1 & Htab & _ & _ & m & ->)]; destruct (find_entry _ page EXPAND_TREE (tables s)) as [[r m']|]; try done.
  { injection Ef as -> Hs. rewrite Hs. apply mwp_ret. split; [apply effect_refl|by exists used]. }
  injection Ef as -> Hs. rewrite Hs. set (s1 := with_tables s m) in *. pose proof (mo_base _ _ _ Hm1) as Hb1. mbind. eapply mwp_run; [exact (read_run s1 p sp page Hb1 E)|].
  assert (effect held s s1) as Hef by apply effect_tables. destruct (is_present (entry_at s1 p page)) eqn:Hpres; cbn [orb]; [apply mwp_ret; split; [done|by exists used]|].
  change (is_swapped (entry_at s1 p page)) with false. cbn iota. destruct (allocate_run held used s1 1 Hm1 ltac:(lia)) as ([st l] & s2 & Eal & (m2 & -> & Hcase)).
  mbind. eapply mwp_run; [exact Eal|]. destruct Hcase as [(Hst & Hl & Hnd & Hm2 & Hown)|(Hst & Hm2 & _)]; cbn [fst snd] in *; subst st.
  2: { apply mwp_ret. split; [eapply effect_trans; [exact Hef|apply effect_frames]|by exists used]. }
  destruct l as [|a [|b l]]; cbn in Hl; try lia. change (negb (STATUS_SUCCESS =? STATUS_SUCCESS)) with false. cbn iota. mbind. eapply mwp_run; [reflexivity|].
  destruct (Hown a ltac:(left)) as [Hoa _]. set (s2 := with_frames s1 m2) in *. destruct (frame_aligned held _ s2 a Hm2 (proj1 Hoa)) as [Haa Hai].
  eapply mwp_run; [exact (commit_at s2 p sp page a MEMORY_USER_DEFAULT (mo_base _ _ _ Hm2) E Hp Hpres Hai)|].
  destruct (commit_private held _ s2 p sp page a MEMORY_USER_DEFAULT Hm2 E Hp Hpres Hoa Haa eq_refl eq_refl Htab) as (Hm3 & _).
  split; [|by eexists]. eapply effect_trans; [exact Hef|]. eapply effect_trans; [apply effect_frames|apply effect_put_entry].
Qed.

Lemma allocate_medium_wp held used s p : mem_ok held used s -> mwp false (space_allocate_medium_payload_block p) (fun _ s' => effect held s s' /\ exists used', mem_ok held used' s') s.
Proof.
  intros Hm. unfold space_allocate_medium_payload_block. mbind. apply mwp_space_any; [done|]. intros sp E. destruct (mo_pools s (mo_base _ _ _ Hm) p sp E) as (P1 & P2 & P3 & P4 & P5).
  mbind. destruct (pool_allocate_run _ P1) as [(j & pool' & Ea & Hp' & Hw & Hj & _ & Hnn & _)|[Ea _]].
  - eapply mwp_run; [unfold mlift; by rewrite Ea|]. mbind. apply mwp_modify.
    assert (pools_ok (with_medium_pool sp pool')) as Hpo by (unfold pools_ok; cbn; rewrite <- Hw; rewrite <- Hw in Hp'; done).
    destruct (pools_changed_put held used s p sp (with_medium_pool sp pool') Hm E eq_refl eq_refl Hpo) as (Hm1 & He1 & _). fold (put_space s p (with_medium_pool sp pool')).
    set (s1 := put_space s p _) in *. set (block := block_address _ j) in *. rewrite (proj2 (Z.eqb_neq _ _) Hnn). assert (spaces s1 !! p = Some (with_medium_pool sp pool')) as E1 by apply lookup_insert_eq.
    mbind. eapply mwp_mono; [apply (back_medium_wp held used s1 p (with_medium_pool sp pool') block Hm1 E1)|].
    { unfold block, block_address. rewrite P2, P3. unfold MEDIUM_PAYLOAD_POOL_BASE, PAYLOAD_AREA_BASE. lia. }
    intros st s2 [He2 [used2 Hm2]]. destruct (negb _).
    + mbind. eapply mwp_mono; [apply (free_medium_wp held used2 s2 p block Hm2)|]. intros st' s3 (Hm3 & He3 & _). apply mwp_ret. split; [|by exists used2].
      eapply effect_trans; [exact He1|]. by eapply effect_trans.
    + apply mwp_ret. split; [by eapply effect_trans|by exists used2].
  - eapply mwp_run; [unfold mlift; by rewrite Ea|]. mbind. apply mwp_modify. rewrite Z.eqb_refl. apply mwp_ret.
    assert (pools_ok (with_medium_pool sp (medium_payload_pool sp))) as Hpo by done.
    destruct (pools_changed_put held used s p sp (with_medium_pool sp (medium_payload_pool sp)) Hm E eq_refl eq_refl Hpo) as (Hm1 & He1 & _). split; [exact He1|]. by exists used.
Qed.

(** ** A new address space *)

Lemma large_pool_new (i : nat) : (i < 8)%nat ->
  exists pool, memory_pool_new (LARGE_PAYLOAD_POOL_BASE + Z.of_nat i * PAYLOAD_POOL_SIZE) PAYLOAD_POOL_SIZE (u32 (Z.shiftl 1 (Z.of_nat i) * PAGE_SIZE)) = Ret pool /\ large_pool_ok i pool.
Proof.
  intros Hi. assert (u32 (Z.shiftl 1 (Z.of_nat i) * PAGE_SIZE) = 2 ^ (12 + Z.of_nat i)) as ->.
  { rewrite Z.shiftl_mul_pow2, Z.mul_1_l by lia. rewrite Z.pow_add_r by lia. unfold PAGE_SIZE. rewrite u32_small; [lia|].
    assert (2 ^ Z.of_nat i < 2 ^ 8) by (apply Z.pow_lt_mono_r; lia). pose proof (Z.pow_pos_nonneg 2 (Z.of_nat i) ltac:(lia) ltac:(lia)). lia. }
  assert (PAYLOAD_POOL_SIZE / 2 ^ (12 + Z.of_nat i) = 2 ^ (10 - Z.of_nat i)) as Hc.
  { unfold PAYLOAD_POOL_SIZE. change 0x00400000 with (2 ^ 22). replace 22 with ((10 - Z.of_nat i) + (12 + Z.of_nat i)) by lia. rewrite Z.pow_add_r by lia. apply Z.div_mul. lia. }
  assert (2 ^ (10 - Z.of_nat i) <= 2 ^ 10) as Hle by (apply Z.pow_le_mono_r; lia). pose proof (Z.pow_pos_nonneg 2 (10 - Z.of_nat i) ltac:(lia) ltac:(lia)).
  pose proof (large_block_user i 0 Hi ltac:(lia)) as (_ & H1 & _).
  destruct (pool_new_run (LARGE_PAYLOAD_POOL_BASE + Z.of_nat i * PAYLOAD_POOL_SIZE) PAYLOAD_POOL_SIZE (12 + Z.of_nat i)) as (pool & E & Hp & B1 & B2 & B3 & _).
  - lia.
  - rewrite Hc. lia.
  - unfold LARGE_PAYLOAD_POOL_BASE, MEDIUM_PAYLOAD_POOL_BASE, PAYLOAD_AREA_BASE, PAYLOAD_POOL_SIZE. lia.
  - unfold LARGE_PAYLOAD_POOL_BASE, MEDIUM_PAYLOAD_POOL_BASE, PAYLOAD_AREA_BASE, PAYLOAD_POOL_SIZE. replace (12 + Z.of_nat i) with (22 - (10 - Z.of_nat i)) by lia.
    replace (0x20000000 + 0x00400000 + Z.of_nat i * 0x00400000) with ((129 + Z.of_nat i) * 2 ^ (10 - Z.of_nat i) * 2 ^ (12 + Z.of_nat i)).
    + replace (22 - (10 - Z.of_nat i)) with (12 + Z.of_nat i) by lia. apply Z.mod_mul. lia.
    + rewrite <- Z.mul_assoc, <- Z.pow_add_r by lia. replace (10 - Z.of_nat i + (12 + Z.of_nat i)) with 22 by lia. lia.
  - rewrite Hc, <- Z.pow_add_r by lia. replace (10 - Z.of_nat i + (12 + Z.of_nat i)) with 22 by lia.
    unfold LARGE_PAYLOAD_POOL_BASE, MEDIUM_PAYLOAD_POOL_BASE, PAYLOAD_AREA_BASE, PAYLOAD_POOL_SIZE. lia.
  - exists pool. split; [exact E|]. split; [done|]. split; [done|]. split; [done|]. by rewrite B2.
Qed.

Lemma payload_pools_wp t n : forall (i : nat) s, (i + n = 8)%nat -> NULL ∉ objects s -> (t = true -> (n <= length (objects s))%nat) ->
  mwp t (payload_pools_new n (Z.of_nat i) (LARGE_PAYLOAD_POOL_BASE + Z.of_nat i * PAYLOAD_POOL_SIZE)) (fun l s' =>
    length l = n /\ (forall k a pool, l !! k = Some (a, pool) -> large_pool_ok (i + k) pool) /\
    exists taken rest, objects s = taken ++ rest /\ s' = with_objects s rest /\ length taken = n) s.
Proof.
  induction n as [|n IH]; intros i s Hi Hnull Ht; cbn [payload_pools_new].
  { apply mwp_ret. split; [done|]. split; [done|]. exists [], (objects s). split; [done|]. split; [by destruct s|done]. }
  mbind. destruct (objects s) as [|a rest] eqn:Ho.
  { unfold mwp, new_block. rewrite Ho. rewrite Z.eqb_refl. destruct t; [specialize (Ht eq_refl); cbn in Ht; lia|done]. }
  eapply mwp_run; [unfold new_block; by rewrite Ho|]. apply not_elem_of_cons in Hnull as [Hn1 Hn2]. rewrite (proj2 (Z.eqb_neq a NULL)) by done.
  destruct (large_pool_new i ltac:(lia)) as (pool & E & Hp). mbind. eapply mwp_run; [unfold mlift; by rewrite E|]. mbind.
  assert (u32 (LARGE_PAYLOAD_POOL_BASE + Z.of_nat i * PAYLOAD_POOL_SIZE + PAYLOAD_POOL_SIZE) = LARGE_PAYLOAD_POOL_BASE + Z.of_nat (S i) * PAYLOAD_POOL_SIZE) as ->.
  { rewrite u32_small; unfold LARGE_PAYLOAD_POOL_BASE, MEDIUM_PAYLOAD_POOL_BASE, PAYLOAD_AREA_BASE, PAYLOAD_POOL_SIZE; lia. }
  replace (Z.of_nat i + 1) with (Z.of_nat (S i)) by lia. eapply mwp_mono; [apply (IH (S i) (with_objects s rest)); [lia|done|]|].
  - intros Htt. specialize (Ht Htt). cbn in Ht. cbn. lia.
  - intros l s' (Hl & Hpools & taken & rest' & Hr & -> & Hlt). apply mwp_ret. split; [cbn; lia|]. split.
    + intros [|k] b q Eq; cbn in Eq; [injection Eq as <- <-; by rewrite Nat.add_0_r|]. replace (i + S k)%nat with (S i + k)%nat by lia. by apply (Hpools k b).
    + exists (a :: taken), rest'. cbn in *. split; [by rewrite Hr|]. split; [done|]. lia.
Qed.

(** The state after the constructor. *)
Lemma new_space_ok held used s p d m' rest sp : mem_ok held used s -> p ∈ objects s -> (p ∉ rest) -> NoDup rest -> (forall a, a ∈ rest -> a ∈ objects s) ->
  paging_ok m' ({[d]} ∪ dirs s) -> (d ∉ dirs s) -> (forall i, word m' (d, i) = if decide (i = 2) then KERNEL_DATA_PAGE else if decide (i = 1) then KERNEL_RAMDISK_PAGE else if decide (i = 0) then KERNEL_CODE_PAGE else 0) ->
  (forall d' page, d' ∈ dirs s -> translation m' d' page = translation (tables s) d' page /\ forall i, word m' (d', i) = word (tables s) (d', i)) ->
  page_directory sp = d -> shared_frame_table sp = ∅ -> pools_ok sp -> mem_ok held used (put_space (with_objects (with_tables s m') rest) p sp).
Proof.
  intros Hm Hp Hpr Hnd Hsub Hpag Hd Hnew Hold Hspd Hspt Hpools. pose proof (mo_base _ _ _ Hm) as Hb. destruct (mo_objects s Hb) as [_ Hob]. destruct (Hob p Hp) as (Hpn & Hps & Hpf).
  set (s' := put_space _ p sp). assert (dirs s' = {[d]} ∪ dirs s) as Hdirs.
  { apply set_eq. intros x. rewrite elem_of_union, elem_of_singleton, !elem_of_dirs. cbn. split.
    - intros (q & sq & Eq & <-). destruct (decide (q = p)) as [->|Hne]; [rewrite lookup_insert_eq in Eq; injection Eq as <-; by left|]. rewrite lookup_insert_ne in Eq by done. right. eauto.
    - intros [->|(q & sq & Eq & <-)]; [exists p, sp; by rewrite lookup_insert_eq|]. exists q, sq. split; [|done]. rewrite lookup_insert_ne; [done|]. intros <-. congruence. }
  assert (forall q sq, spaces s' !! q = Some sq -> (q = p /\ sq = sp) \/ spaces s !! q = Some sq) as Hsp.
  { intros q sq. cbn. destruct (decide (q = p)) as [->|Hne]; [rewrite lookup_insert_eq; intros [= <-]; by left|rewrite lookup_insert_ne by done; by right]. }
  split; [split|apply Hm|].
  - rewrite Hdirs. exact Hpag.
  - intros q1 q2 s1 s2 [[-> ->]|E1]%Hsp [[-> ->]|E2]%Hsp Heq; [done| | |by apply (mo_dirs s Hb q1 q2 s1 s2)]; exfalso; apply Hd; apply elem_of_dirs; [exists q2, s2|exists q1, s1]; split; congruence.
  - intros d' i. rewrite Hdirs. intros [->%elem_of_singleton|Hd']%elem_of_union Hi; cbn; [rewrite Hnew, !decide_False by lia; done|]. destruct (Hold d' 0 Hd') as [_ ->]. by apply (mo_super s Hb).
  - intros d' i. rewrite Hdirs. intros [->%elem_of_singleton|Hd']%elem_of_union Hi; cbn; [rewrite Hnew; repeat case_decide; done|]. destruct (Hold d' 0 Hd') as [_ ->]. by apply (mo_low s Hb).
  - split; [done|]. intros a Ha. destruct (Hob a (Hsub a Ha)) as (? & ? & ?). split; [done|]. split; [|done]. cbn. rewrite lookup_insert_ne; [done|]. by intros ->.
  - intros f c Ec. cbn in Ec |- *. rewrite lookup_insert_ne; [by eapply (mo_apart s Hb)|]. intros ->. congruence.
  - cbn. rewrite lookup_insert_ne; [apply (mo_null s Hb)|done].
  - intros q sq [[-> ->]|Eq]%Hsp; [done|by apply (mo_pools s Hb q)].
  - assert (bindings s' = bindings s) as ->.
    { apply map_eq. intros [q pg]. rewrite !lookup_bindings. cbn. destruct (decide (q = p)) as [->|Hne]; [rewrite lookup_insert_eq, Hps; cbn; by rewrite Hspt|by rewrite lookup_insert_ne]. }
    apply (sharing_ext (entry_at s)); [apply Hm|]. intros q pg Hpg. unfold entry_at. cbn. destruct (decide (q = p)) as [->|Hne].
    + rewrite lookup_insert_eq, Hps, Hspd. unfold translation, located. pose proof (user_slot pg Hpg). rewrite Hnew, !decide_False by lia. change (is_table 0) with false. cbn iota.
      by rewrite Hnew, !decide_False by lia.
    + rewrite lookup_insert_ne by done. destruct (spaces s !! q) as [sq|] eqn:Eq; [|done]. by apply Hold, (dir_of _ _ _ Eq).
Qed.

(** What is kept when address spaces come and go. *)
Definition keeps (keep : list Z) (s s' : memory) : Prop := forall f c, f ∈ keep -> shared_frames s !! f = Some c -> exists c', shared_frames s' !! f = Some c' /\
  sf_address c' = sf_address c /\ ram s' !! sf_address c = ram s !! sf_address c.

Lemma effect_keeps keep s s' : effect keep s s' -> keeps keep s s'.
Proof. by intros []. Qed.

Lemma keeps_same keep s s' : shared_frames s' = shared_frames s -> ram s' = ram s -> keeps keep s s'.
Proof. intros H1 H2 f c _ Ec. exists c. by rewrite H1, H2. Qed.

Lemma medium_pool_new : exists pool, memory_pool_new MEDIUM_PAYLOAD_POOL_BASE (MEDIUM_MESSAGE_PAYLOAD_SIZE * 1024) MEDIUM_MESSAGE_PAYLOAD_SIZE = Ret pool /\
  pool_ok pool /\ pool_base pool = MEDIUM_PAYLOAD_POOL_BASE /\ block_size pool = 256 /\ block_count pool = 1024.
Proof.
  destruct (pool_new_run MEDIUM_PAYLOAD_POOL_BASE (MEDIUM_MESSAGE_PAYLOAD_SIZE * 1024) 8) as (pool & E & Hp & B1 & B2 & B3 & _); try done.
  exists pool. split; [exact E|]. split; [done|]. split; [done|]. split; [by rewrite B3|by rewrite B2].
Qed.

(** The pages of a new address space are all absent; nothing else changes. *)
Definition created (held : list Z) (used : gset Z) (id p : Z) (s s' : memory) : Prop :=
  p <> NULL /\ mem_ok held used s' /\ shared_frames s' = shared_frames s /\ ram s' = ram s /\ frames s' = frames s /\ bindings s' = bindings s /\
  spaces s !! p = None /\ (exists sp, spaces s' !! p = Some sp /\ space_id sp = id) /\
  (forall q, q <> p -> spaces s' !! q = spaces s !! q) /\ (forall q pg, user_page pg -> entry_at s' q pg = entry_at s q pg) /\
  address_space_table s' = address_space_table s.

Lemma address_space_new_wp t held used s id : mem_ok held used s -> (t = true -> (9 <= length (objects s))%nat /\ heap_pages (tables s) <> []) ->
  mwp t (address_space_new id) (fun p s' => (p = NULL /\ s' = s /\ objects s = []) \/
    (created held used id p s s' /\ exists sp, spaces s' !! p = Some sp /\ space_references sp = 1)) s.
Proof.
  intros Hm Ht. pose proof (mo_base _ _ _ Hm) as Hb. destruct (mo_objects s Hb) as [Hnd Hob]. unfold address_space_new. mbind. destruct (objects s) as [|p rest] eqn:Ho.
  { eapply mwp_run; [unfold new_block; by rewrite Ho|]. rewrite Z.eqb_refl. apply mwp_ret. by left. }
  eapply mwp_run; [unfold new_block; by rewrite Ho|]. destruct (Hob p ltac:(left)) as (Hpn & Hps & Hpf). rewrite (proj2 (Z.eqb_neq p NULL) Hpn). apply NoDup_cons in Hnd as [Hpr Hnd].
  destruct medium_pool_new as (medium & Em & Hmed). mbind. eapply mwp_run; [unfold mlift; by rewrite Em|]. mbind. destruct (heap_pages (tables s)) as [|d dr] eqn:Hh.
  { unfold mwp, on_paging, page_directory_new, new_structure, mbind, G_bind. cbn. rewrite Hh. cbn. destruct t; [by destruct (Ht eq_refl)|done]. }
  destruct (page_directory_new_ok (tables s) (dirs s) d dr (mo_paging s Hb) Hh) as (m' & Ed & Hh' & Hpag & Hd & Hnew & Hold).
  eapply mwp_run; [unfold on_paging; change (tables (with_objects s rest)) with (tables s); by rewrite Ed|].
  assert (d <> NULL) as Hdn by (apply (heap_free _ _ (mo_paging s Hb) d); rewrite Hh; left). rewrite (proj2 (Z.eqb_neq d NULL) Hdn).
  mbind. eapply mwp_mono; [apply (payload_pools_wp t 8 0 (with_tables (with_objects s rest) m')); [done| |]|].
  - cbn. intros Hin. destruct (Hob NULL) as [? _]; [by right|done].
  - intros Htt. destruct (Ht Htt) as [Hl _]. cbn in Hl |- *. lia.
  - cbn. intros pools s2 (Hl & Hpools & taken & rest' & Hr & -> & _). mbind. apply mwp_modify, mwp_ret. right.
    set (sp := mkSpace None pools medium d ∅ id 1). fold (put_space (with_objects (with_tables (with_objects s rest) m') rest') p sp).
    assert (forall a, a ∈ rest' -> a ∈ rest) as Hin by (intros a Ha; rewrite Hr; by apply elem_of_app; right).
    assert (mem_ok held used (put_space (with_objects (with_tables s m') rest') p sp)) as Hm'.
    { apply (new_space_ok held used s p d m' rest' sp); try done; [rewrite Ho; left|by intros ?%Hin|rewrite Hr in Hnd; by apply NoDup_app in Hnd as (_ & _ & ?)|intros a Ha; rewrite Ho; right; by apply Hin|].
      destruct Hmed as (? & ? & ? & ?). do 4 (split; [done|]). split; [done|]. exact Hpools. }
    split; [|exists sp; split; [apply lookup_insert_eq|done]]. split; [done|]. split; [exact Hm'|]. do 3 (split; [done|]). split; [|split; [done|split; [exists sp; split; [apply lookup_insert_eq|done]|]]].
    + apply map_eq. intros [q pg]. rewrite !lookup_bindings. cbn. destruct (decide (q = p)) as [->|Hne]; [by rewrite lookup_insert_eq, Hps|by rewrite lookup_insert_ne].
    + split; [intros q Hq; cbn; by rewrite lookup_insert_ne|]. split; [|done]. intros q pg Hpg. unfold entry_at. cbn. destruct (decide (q = p)) as [->|Hne].
      * rewrite lookup_insert_eq, Hps. cbn. unfold translation, located. pose proof (user_slot pg Hpg). rewrite Hnew, !decide_False by lia. change (is_table 0) with false. cbn iota.
        by rewrite Hnew, !decide_False by lia.
      * rewrite lookup_insert_ne by done. destruct (spaces s !! q) as [sq|] eqn:Eq; [|done]. by apply Hold, (dir_of _ _ _ Eq).
Qed.

(** ** The calls of the memory manager *)

(** The table of address spaces and the counters are not part of the invariant. *)
Lemma mem_ok_table held used s t : mem_ok held used s -> mem_ok held used (with_space_table s t).
Proof. intros [[] ? ?]. split; [split; done|done|done]. Qed.

Lemma mem_ok_next held used s n : mem_ok held used s -> mem_ok held used (with_next_space_id s n).
Proof. intros [[] ? ?]. split; [split; done|done|done]. Qed.

Lemma mem_ok_faults held used s c f : mem_ok held used s -> mem_ok held used (with_fault_counts s c f).
Proof. intros [[] ? ?]. split; [split; done|done|done]. Qed.

Lemma create_wp held used s capabilities booted id : mem_ok held used s ->
  mwp false (manager_create_address_space capabilities booted id) (fun _ s' => mem_ok held used s' /\ keeps held s s') s.
Proof.
  intros Hm. assert (mem_ok held used s /\ keeps held s s) as Hsame by (split; [done|by apply keeps_same]). unfold manager_create_address_space. destruct (_ && _); [by apply mwp_ret|].
  mbind. unfold mwp at 1, allocate_space_id. assert (forall s1 new_id, mem_ok held used s1 -> shared_frames s1 = shared_frames s -> ram s1 = ram s ->
    mwp false (match new_id with
      | None => mret NULL
      | Some id => table ← mgets address_space_table; massert (negb (bool_decide (is_Some (table !! id))));; p ← address_space_new id;
          if negb (p =? NULL) then space_add_reference p;; mmodify (fun s => with_space_table s (<[id := p]> (address_space_table s)));; mret p else mret NULL
      end) (fun _ s' => mem_ok held used s' /\ keeps held s s') s1) as Hrest.
  { intros s1 [id'|] Hm1 Hsh Hram; [|apply mwp_ret; split; [done|by apply keeps_same]]. mbind. apply mwp_gets. mbind. apply mwp_assert; [done|intros _]. mbind.
    eapply mwp_mono; [apply (address_space_new_wp false held used s1 id' Hm1); done|]. intros p s2 [(-> & -> & _)|[(Hp & Hm2 & Hsh2 & Hram2 & _) (sp & Esp & Hrf)]].
    - rewrite Z.eqb_refl. apply mwp_ret. split; [done|by apply keeps_same].
    - rewrite (proj2 (Z.eqb_neq _ _) Hp). cbn [negb]. mbind. unfold space_add_reference. mbind. eapply mwp_space; [exact Esp|]. mbind. apply mwp_assert; [done|intros _]. apply mwp_modify.
      mbind. apply mwp_modify, mwp_ret. fold (put_space s2 p (with_space_references sp (space_references sp + 1))).
      destruct (put_space_same held used s2 p sp (with_space_references sp (space_references sp + 1)) Hm2 Esp eq_refl eq_refl (fun H => H)) as [Hm3 _].
      split; [by apply mem_ok_table|]. apply keeps_same; cbn; congruence. }
  destruct (id =? ADDRESS_SPACE_ID_AUTO_ALLOCATE).
  - destruct (free_space_id _ _ _) as [id'|]; [|done]. by apply (Hrest _ (Some id')); [apply mem_ok_next|..].
  - case_bool_decide; [by apply (Hrest s None)|by apply (Hrest s (Some id))].
Qed.

(** Blocks of the kernel, up to the end of the kernel. *)
Lemma share_kernel_wp held used p last : last <= KERNEL_PAGED_BOUNDARY -> forall fuel block s, mem_ok held used s -> 0 < block -> block mod 4096 = 0 ->
  mwp false (share_kernel_blocks fuel p block last) (fun _ s' => mem_ok held used s' /\ effect held s s') s.
Proof.
  intros Hlast. induction fuel as [|fuel IH]; intros block s Hm Hb Hmod; cbn [share_kernel_blocks]; destruct (Z.ltb_spec block last) as [Hlt|Hge]; try done.
  1,3: apply mwp_ret; split; [done|apply effect_refl].
  assert ((block + PAGE_SIZE) mod 4096 = 0) as Hnext by (unfold PAGE_SIZE; replace (block + 4096) with (block + 1 * 4096) by lia; by rewrite Z.mod_add).
  assert (0 < block + PAGE_SIZE) as Hpos by (unfold PAGE_SIZE; lia).
  mbind. apply mwp_space_any; [done|]. intros sp E. case_bool_decide as Hval; [by apply IH|]. mbind. unfold new_shared_frame. mbind. pose proof (mo_base _ _ _ Hm) as Hbase.
  destruct (mo_objects s Hbase) as [Hnd Hob]. destruct (objects s) as [|f rest] eqn:Ho; (eapply mwp_run; [unfold new_block; by rewrite Ho|]).
  { rewrite Z.eqb_refl. apply mwp_ret. rewrite Z.eqb_refl. apply mwp_ret. split; [done|apply effect_refl]. }
  destruct (Hob f ltac:(left)) as (Hfn & Hfs & Hff). rewrite (proj2 (Z.eqb_neq f NULL) Hfn). mbind. apply mwp_modify, mwp_ret. rewrite (proj2 (Z.eqb_neq f NULL) Hfn). mbind. apply mwp_modify.
  apply NoDup_cons in Hnd as [Hfr Hnd]. set (s1 := with_shared (with_objects s rest) (<[f := mkShared block 1]> (shared_frames s))).
  assert (base_ok s1) as B1.
  { apply base_with_shared.
    - destruct Hbase. split; try done. split; [done|]. intros a Ha. apply Hob. by right.
    - intros g Hg. cbn in Hg. rewrite lookup_insert_ne by (by intros <-). apply Hob. by right.
    - intros g d. cbn. destruct (decide (g = f)) as [->|Hne]; [done|]. rewrite lookup_insert_ne by done. apply (mo_apart s Hbase). }
  destruct (put_space_ok s1 p sp (with_shared_table sp (<[block := f]> (shared_frame_table sp))) B1 E eq_refl (fun H => H)) as (B2 & E2 & Q2).
  assert (bindings s !! (p, block) = None) as Hbn.
  { rewrite (bindings_at _ _ _ _ E). destruct (shared_frame_table sp !! block) eqn:Ex; [|done]. by destruct Hval. }
  assert (mem_ok held used (put_space s1 p (with_shared_table sp (<[block := f]> (shared_frame_table sp))))) as Hm2.
  { split; [exact B2|apply Hm|]. rewrite (bindings_insert s1 p sp block f E). apply (sharing_ext (entry_at s)); [|intros q pg _; apply E2].
    apply (sharing_alias (entry_at s)); [apply Hm| |exact Hbn|done|done]. split; [lia|done]. }
  eapply mwp_mono; [apply (IH (block + PAGE_SIZE) _ Hm2); done|]. intros st s' [Hm' He']. split; [done|]. eapply effect_trans; [|exact He']. split; [exact Q2|].
  intros g d _ Eg. exists d. split; [|done]. cbn. rewrite lookup_insert_ne; [done|]. intros <-. congruence.
Qed.

(** ** Messages *)

(** Dropping the references of a message. *)
Lemma large_delete_run fs : forall held used s, mem_ok (fs ++ held) used s ->
  exists s' used', large_message_delete fs s = Ret (tt, s') /\ mem_ok held used' s' /\ effect held s s' /\ ram s' = ram s /\ (forall q pg, entry_at s' q pg = entry_at s q pg).
Proof.
  induction fs as [|f fs IH]; intros held used s Hm; cbn [large_message_delete].
  { exists s, used. split; [done|]. split; [done|]. split; [apply effect_refl|]. done. }
  destruct (sh_held _ _ _ _ _ (mo_sharing _ _ _ Hm) f ltac:(left)) as [c Ec].
  destruct (remove_reference_run (fs ++ held) used s f c Hm Ec) as (s1 & used1 & Er & Hm1 & He1 & (Ht1 & Hs1 & Hr1 & _)).
  destruct (IH held used1 s1 Hm1) as (s' & used' & E' & Hm' & He' & Hr' & HE'). exists s', used'. split; [unfold mbind, M_bind; by rewrite Er|]. split; [done|].
  split; [eapply effect_trans; [eapply effect_weaken; [|exact He1]; intros g Hg; apply elem_of_app; by right|done]|]. split; [congruence|].
  intros q pg. rewrite HE'. unfold entry_at. by rewrite Ht1, Hs1.
Qed.

Lemma page_count_small a n : PAGE_COUNT a n < 2 ^ 20.
Proof. unfold PAGE_COUNT, PAGE_SIZE. apply Z.div_lt_upper_bound; [lia|]. pose proof (u32_range (PAGE_ALIGN (u32 (a + n)) - PAGE_BASE a)). lia. Qed.

(** What the checks of [collect_payload] establish. *)
Definition sendable (m : large_payload) : Prop := Z.of_nat (length (lp_frame m)) < 2 ^ 20 /\
  (lp_receiver m = NULL \/ (PAYLOAD_AREA_BASE <= lp_receiver m < 2 ^ 32 /\ PAGE_OFFSET (lp_sender m) = PAGE_OFFSET (lp_receiver m))).

Lemma collect_wp t held used s capabilities p m : mem_ok held used s -> is_Some (spaces s !! p) -> 0 <= lp_sender m < 2 ^ 32 -> 0 <= lp_receiver m < 2 ^ 32 -> lp_frame m = [] ->
  (t = true -> no_null (lp_sender m) (Z.to_nat (PAGE_COUNT (lp_sender m) (lp_size m)))) ->
  mwp t (large_collect_payload capabilities p m) (fun r s' =>
    exists fs, r.2 = mkLarge (lp_sender m) (lp_size m) (lp_receiver m) fs /\ mem_ok (fs ++ held) used s' /\ effect held s s' /\ ram s' = ram s /\
    (r.1 = STATUS_SUCCESS -> sendable r.2 /\ shared_all held used p (lp_sender m) (Z.to_nat (PAGE_COUNT (lp_sender m) (lp_size m))) [] s (r.1, fs) s')) s.
Proof.
  intros Hm Hsp Hs Hr Hf Hnn. unfold large_collect_payload.
  assert (forall st, st <> STATUS_SUCCESS -> mwp t (mret (st, m)) (fun r s' =>
    exists fs, r.2 = mkLarge (lp_sender m) (lp_size m) (lp_receiver m) fs /\ mem_ok (fs ++ held) used s' /\ effect held s s' /\ ram s' = ram s /\
    (r.1 = STATUS_SUCCESS -> sendable r.2 /\ shared_all held used p (lp_sender m) (Z.to_nat (PAGE_COUNT (lp_sender m) (lp_size m))) [] s (r.1, fs) s')) s) as Hno.
  { intros st Hst. apply mwp_ret. exists []. destruct m as [ms mz mr mf]. cbn in Hf. subst mf. split; [done|]. split; [done|]. split; [apply effect_refl|]. split; [done|]. done. }
  destruct (lp_sender m =? NULL); [by apply Hno|]. destruct (negb (lp_receiver m =? NULL)) eqn:Hrn; cbn [andb].
  - destruct (negb (capable _ _)); [apply Hno; discriminate|]. destruct (negb (PAGE_OFFSET _ =? _)) eqn:Hoff; [apply Hno; discriminate|]. destruct (negb (is_user_address _)) eqn:Hua; [apply Hno; discriminate|].
    apply negb_false_iff, Z.eqb_eq in Hoff. apply negb_false_iff, Z.leb_le in Hua. mbind. eapply mwp_mono; [apply (share_pages_wp t p _ (lp_sender m) held used s (lp_frame m) Hm Hsp Hs Hnn)|].
    intros [st fr] s' Hall. apply mwp_ret. pose proof Hall as (fs & Hfs & Hm' & He' & Hram & Hsucc). rewrite Hf in *. cbn in Hfs. subst fr. exists fs. split; [done|]. do 3 (split; [done|]).
    intros Hst. cbn in Hst. split; [|exact Hall]. destruct (Hsucc Hst) as (Hl & _). pose proof (page_count_small (lp_sender m) (lp_size m)). split; cbn; [lia|]. right. split; [lia|done].
  - apply negb_false_iff, Z.eqb_eq in Hrn. mbind. eapply mwp_mono; [apply (share_pages_wp t p _ (lp_sender m) held used s (lp_frame m) Hm Hsp Hs Hnn)|].
    intros [st fr] s' Hall. apply mwp_ret. pose proof Hall as (fs & Hfs & Hm' & He' & Hram & Hsucc). rewrite Hf in *. cbn in Hfs. subst fr. exists fs. split; [done|]. do 3 (split; [done|]).
    intros Hst. cbn in Hst. split; [|exact Hall]. destruct (Hsucc Hst) as (Hl & _). pose proof (page_count_small (lp_sender m) (lp_size m)). split; cbn; [lia|]. by left.
Qed.

Lemma page_aligned_run page : 0 <= page -> page mod 4096 = 0 -> is_aligned page PAGE_SIZE = Ret true.
Proof. intros Hp Hm. rewrite (aligned_run page 12 ltac:(lia) : is_aligned page PAGE_SIZE = _). change (2 ^ 12) with 4096. by rewrite Hm. Qed.

Lemma commit_shared_space_wp t held used s p page fs : mem_ok held used s -> is_Some (spaces s !! p) -> user_page page -> (forall f, f ∈ fs -> f ∈ held) ->
  (t = true -> fs <> [] /\ page + Z.of_nat (length fs) * 4096 <= 2 ^ 32 /\ forall k, (k < length fs)%nat -> is_present (entry_at s p (page + Z.of_nat k * 4096)) = false) ->
  mwp t (space_commit_shared p page fs deliver_flags) (delivery held used p page fs s) s.
Proof.
  intros Hm Hsp Hp Hin Ht. unfold space_commit_shared. mbind. eapply mwp_run; [unfold mlift; rewrite page_aligned_run; [done|destruct Hp; unfold PAYLOAD_AREA_BASE in *; lia|apply Hp]|].
  mbind. apply mwp_assert; [done|intros _]. mbind. apply mwp_assert; [intros _; apply negb_true_iff, Z.eqb_neq; destruct Hp; unfold PAYLOAD_AREA_BASE, NULL in *; lia|intros _].
  mbind. apply mwp_assert; [intros Htt; destruct (Ht Htt) as [Hne _]; destruct fs; [done|apply Z.ltb_lt; cbn; lia]|intros _].
  apply commit_shared_wp; try done. intros Htt. by destruct (Ht Htt) as [_ ?].
Qed.

(** The page where the payload will be. *)
Lemma deliver_wp held used s p m : mem_ok held used s -> is_Some (spaces s !! p) -> sendable m -> (forall f, f ∈ lp_frame m -> f ∈ held) ->
  mwp false (large_deliver_payload p m) (fun r s' => mem_ok held used s' /\ effect held s s' /\ ram s' = ram s /\
    (r.1 = STATUS_SUCCESS -> exists s1 page, user_page page /\ page = PAGE_BASE (lp_receiver r.2) /\ pools_changed held used s s1 /\ delivered p page (lp_frame m) s1 s')) s.
Proof.
  intros Hm [sp E] [Hlen Hrec] Hin. unfold large_deliver_payload. mbind. destruct (Z.eqb_spec (lp_receiver m) NULL) as [Hn|Hn].
  - mbind. destruct (decide (lp_frame m = [])) as [->|Hne]; [done|].
    assert (1 <= Z.of_nat (length (lp_frame m)) < 2 ^ 31) as Hb by (destruct (lp_frame m); [done|]; cbn [length] in *; lia).
    destruct (allocate_large_run held used s p sp _ Hm E Hb) as (block & s1 & Ea & Hpc & Hblock). eapply mwp_run; [exact Ea|]. apply mwp_ret. pose proof Hpc as (Hm1 & He1 & _ & _ & _ & _ & _ & Hr1 & _).
    destruct (effect_space _ _ _ _ _ He1 E) as (sp1 & E1 & _). destruct (Z.eqb_spec block NULL) as [->|Hbn]; cbn [negb]; [apply mwp_ret; by do 3 (split; [done|])|].
    destruct Hblock as [|(Hu & Hlo & Hhi)]; [done|]. mbind. eapply mwp_mono; [apply (commit_shared_space_wp false held used s1 p block (lp_frame m) Hm1); [by eexists|done|done|done]|].
    intros st s' (Hm' & He' & Hr' & Hsucc & _). apply mwp_ret. split; [done|]. split; [by eapply effect_trans|]. split; [congruence|]. cbn. intros Hst. exists s1, block. split; [done|].
    split; [|split; [done|by apply Hsucc]]. rewrite page_offset_mod. pose proof (Z.mod_pos_bound (lp_sender m) 4096 ltac:(lia)) as Hmb. destruct Hu as [Hu Hum].
    unfold LARGE_PAYLOAD_POOL_BASE, MEDIUM_PAYLOAD_POOL_BASE, PAYLOAD_AREA_BASE, PAYLOAD_POOL_SIZE in *. rewrite u32_small by lia. rewrite page_base_div by lia.
    pose proof (Z.div_mod block 4096 ltac:(lia)). rewrite <- (Z.div_unique (block + lp_sender m mod 4096) 4096 (block / 4096) (lp_sender m mod 4096)); lia.
  - destruct Hrec as [|[Hrec Hoff]]; [done|]. mbind. apply mwp_assert; [done|intros _]. apply mwp_ret. pose proof (page_base_user _ Hrec) as Hu.
    rewrite (proj2 (Z.eqb_neq (PAGE_BASE (lp_receiver m)) NULL)) by (destruct Hu; unfold PAYLOAD_AREA_BASE, NULL in *; lia). cbn [negb]. mbind.
    eapply mwp_mono; [apply (commit_shared_space_wp false held used s p (PAGE_BASE (lp_receiver m)) (lp_frame m) Hm); [by eexists|done|done|done]|].
    intros st s' (Hm' & He' & Hr' & Hsucc & _). apply mwp_ret. split; [done|]. split; [done|]. split; [done|]. cbn. intros Hst. exists s, (PAGE_BASE (lp_receiver m)). split; [done|].
    split; [done|]. split; [|by apply Hsucc]. split; [done|]. split; [apply effect_refl|]. done.
Qed.
