(* ===== verification/KSpaceSteps.v ===== *)
(** * The memory manager at work

    A world is the memory with the large messages on their way. [mstep] are the
    calls that change it: expansion, sending and receiving of payloads, their
    deletion, page faults, stores of user threads, payload blocks, ports, and
    new address spaces. Two kinds of calls are not among them, because they do
    not keep the invariant: the destruction of an address space
    ([delete_address_space]), which frees frames that are shared (see
    [destruction_frees_shared_frame]), and the mapping of device memory
    ([map_memory] and [unmap_memory] of the device proxy), which maps any memory
    outside the kernel, writable, without a record of it. *)

From S2P Require Import Prelude CMem CStringSearch World Libdx LibdxThms Process ProcessThms Loader KBase KBitmap KBitmapThms KFrames KRegionThms KFramesThms KHeap KHeapThms KPorts KPaging KPagingThms KSpace KSharing KSpaceInv KSpaceRuns KSpaceOps KSpaceMsg.

Definition world : Type := memory * list large_payload.

Definition flights (msgs : list large_payload) : list Z := concat (lp_frame <$> msgs).

(** A store of a user thread: the processor checks the entry. *)
Definition user_store (s : memory) (p page : Z) (data : list Z) : option memory :=
  if is_present (entry_at s p page) && is_writable (entry_at s p page) then Some (with_ram s (<[entry_address (entry_at s p page) := data]> (ram s))) else None.

Inductive mstep : world -> world -> Prop :=
  | step_expand capabilities p first size st s s' msgs : 0 <= first < 2 ^ 32 ->
      space_expand capabilities p first size s = Ret (st, s') -> mstep (s, msgs) (s', msgs)
  | step_send capabilities p m m' s s' msgs : is_Some (spaces s !! p) -> 0 <= lp_sender m < 2 ^ 32 -> 0 <= lp_receiver m < 2 ^ 32 -> lp_frame m = [] ->
      large_collect_payload capabilities p m s = Ret ((STATUS_SUCCESS, m'), s') -> mstep (s, msgs) (s', m' :: msgs)
  | step_send_fails capabilities p m m' st s s1 s' msgs : is_Some (spaces s !! p) -> 0 <= lp_sender m < 2 ^ 32 -> 0 <= lp_receiver m < 2 ^ 32 -> lp_frame m = [] ->
      large_collect_payload capabilities p m s = Ret ((st, m'), s1) -> st <> STATUS_SUCCESS ->
      large_message_delete (lp_frame m') s1 = Ret (tt, s') -> mstep (s, msgs) (s', msgs)
  | step_receive p m m' st s s1 s' msgs1 msgs2 : is_Some (spaces s !! p) ->
      large_deliver_payload p m s = Ret ((st, m'), s1) -> large_message_delete (lp_frame m') s1 = Ret (tt, s') -> mstep (s, msgs1 ++ m :: msgs2) (s', msgs1 ++ msgs2)
  | step_discard m s s' msgs1 msgs2 : large_message_delete (lp_frame m) s = Ret (tt, s') -> mstep (s, msgs1 ++ m :: msgs2) (s', msgs1 ++ msgs2)
  | step_delete_message p d d' s s' msgs : is_Some (spaces s !! p) -> 0 <= data0 d < 2 ^ 32 -> syscall_delete_message p d s = Ret (d', s') -> mstep (s, msgs) (s', msgs)
  | step_fault p copy address s s' msgs : is_Some (spaces s !! p) -> user_page copy -> PAYLOAD_AREA_BASE <= address < 2 ^ 32 ->
      handle_page_fault p copy address s = Ret (tt, s') -> mstep (s, msgs) (s', msgs)
  | step_store p page data s s' msgs : user_page page -> user_store s p page data = Some s' -> mstep (s, msgs) (s', msgs)
  | step_large p n block s s' msgs : is_Some (spaces s !! p) -> 1 <= n < 2 ^ 31 -> space_allocate_large_payload_block p n s = Ret (block, s') -> mstep (s, msgs) (s', msgs)
  | step_free_large p block st s s' msgs : space_free_large_payload_block p block s = Ret (st, s') -> mstep (s, msgs) (s', msgs)
  | step_medium p block s s' msgs : space_allocate_medium_payload_block p s = Ret (block, s') -> mstep (s, msgs) (s', msgs)
  | step_enable_port p port count st s s' msgs : space_enable_io_port p port count s = Ret (st, s') -> mstep (s, msgs) (s', msgs)
  | step_disable_port p port count st s s' msgs : space_disable_io_port p port count s = Ret (st, s') -> mstep (s, msgs) (s', msgs)
  | step_create capabilities id p s s' msgs : manager_create_address_space capabilities true id s = Ret (p, s') -> mstep (s, msgs) (s', msgs)
  | step_share_kernel p address size st s s' msgs : 4096 <= address < 2 ^ 32 -> u32 (PAGE_BASE address + size) <= KERNEL_PAGED_BOUNDARY ->
      space_share_kernel_frames p address size s = Ret (st, s') -> mstep (s, msgs) (s', msgs).

(** The memory after the boot. *)
Definition heap_ok (blocks pages : list Z) : Prop :=
  NoDup blocks /\ (forall a, a ∈ blocks -> a <> NULL) /\ NoDup pages /\ forall t, t ∈ pages -> t <> NULL /\ entry_address t = t.

Definition reachable (high : Z) (blocks pages : list Z) (w : world) : Prop :=
  exists p s, memory_manager_new high blocks pages = Ret (p, s) /\ rtc mstep (s, []) w.

(** ** The invariant of the world *)

Definition world_ok (w : world) : Prop := exists used, mem_ok (flights w.2) used w.1 /\ Forall sendable w.2.

(** The frames of the messages that stay on their way keep their contents. *)
Definition world_keeps (w w' : world) : Prop := forall f c, f ∈ flights w.2 -> f ∈ flights w'.2 -> shared_frames w.1 !! f = Some c ->
  exists c', shared_frames w'.1 !! f = Some c' /\ sf_address c' = sf_address c /\ ram w'.1 !! sf_address c = ram w.1 !! sf_address c.

Lemma flights_cons m msgs : flights (m :: msgs) = lp_frame m ++ flights msgs.
Proof. done. Qed.

Lemma flights_middle m msgs1 msgs2 : flights (msgs1 ++ m :: msgs2) ≡ₚ lp_frame m ++ flights (msgs1 ++ msgs2).
Proof.
  unfold flights. rewrite !fmap_app, !concat_app. cbn. rewrite !app_assoc. apply Permutation_app_tail. apply Permutation_app_comm.
Qed.

Lemma flights_in f m msgs : m ∈ msgs -> f ∈ lp_frame m -> f ∈ flights msgs.
Proof. intros Hm Hf. unfold flights. apply list_elem_of_In, in_concat. exists (lp_frame m). split; [|by apply list_elem_of_In]. apply list_elem_of_In, list_elem_of_fmap. eauto. Qed.

(** A step that keeps the messages. *)
Lemma same_messages s s' msgs used' : Forall sendable msgs -> mem_ok (flights msgs) used' s' -> keeps (flights msgs) s s' -> world_ok (s', msgs) /\ world_keeps (s, msgs) (s', msgs).
Proof. intros Hs Hm Hk. split; [by exists used'|]. intros f c Hf _. by apply Hk. Qed.

Lemma mwp_result {A} (c : M A) Q s a s' : mwp false c Q s -> c s = Ret (a, s') -> Q a s'.
Proof. unfold mwp. intros H E. by rewrite E in H. Qed.

(** The payload of a message is deleted. *)
Lemma delete_message_wp held used s p d : mem_ok held used s -> is_Some (spaces s !! p) -> 0 <= data0 d < 2 ^ 32 ->
  mwp false (syscall_delete_message p d) (fun _ s' => effect held s s' /\ exists used', mem_ok held used' s') s.
Proof.
  intros Hm Hsp Hd. unfold syscall_delete_message. mbind. destruct (0 <? data1 d); [|do 2 apply mwp_ret; split; [apply effect_refl|by exists used]].
  mbind. apply mwp_assert; [done|intros _]. destruct (Z.leb_spec LARGE_PAYLOAD_POOL_BASE (data0 d)) as [Hge|Hlt].
  - mbind. unfold space_unshare_frame. eapply mwp_mono; [apply (unshare_pages_wp false p _ (data0 d) held used s Hm Hsp Hd); [|done]|].
    + left. unfold LARGE_PAYLOAD_POOL_BASE, MEDIUM_PAYLOAD_POOL_BASE, PAYLOAD_POOL_SIZE in Hge. lia.
    + intros [] s1 (used1 & Hm1 & He1 & _). eapply mwp_mono; [apply (free_large_wp held used1 s1 p (data0 d) Hm1)|]. intros st s2 (Hm2 & He2 & _). apply mwp_ret.
      split; [by eapply effect_trans|by exists used1].
  - mbind. apply mwp_assert; [done|intros _]. mbind. apply mwp_assert; [done|intros _]. eapply mwp_mono; [apply (free_medium_wp held used s p (data0 d) Hm)|].
    intros st s2 (Hm2 & He2 & _). apply mwp_ret. split; [done|by exists used].
Qed.

Lemma page_fault_wp held used s p copy address : mem_ok held used s -> is_Some (spaces s !! p) -> user_page copy -> PAYLOAD_AREA_BASE <= address < 2 ^ 32 ->
  mwp false (handle_page_fault p copy address) (fun _ s' => effect held s s' /\ exists used', mem_ok held used' s') s.
Proof.
  intros Hm [sp E] Hc Ha. unfold handle_page_fault. mbind. apply mwp_modify. set (s1 := with_fault_counts s _ _). mbind.
  eapply mwp_mono; [apply (copy_on_write_wp false held used s1 p sp copy address); [by apply mem_ok_faults|exact E|done|done|done]|].
  intros b s2 [(-> & a & used2 & _ & _ & Hm2 & He2 & _)|(-> & Hm2 & He2 & _)]; [|done]. apply mwp_modify. split; [by destruct He2|]. exists used2. by apply mem_ok_faults.
Qed.

(** A store goes to a private page. *)
Lemma writable_private held used s p page : mem_ok held used s -> user_page page -> is_present (entry_at s p page) = true -> is_writable (entry_at s p page) = true ->
  bindings s !! (p, page) = None.
Proof.
  intros Hm Hp Hpres Hw. destruct (bindings s !! (p, page)) as [f|] eqn:Ef; [|done]. destruct (sh_bound _ _ _ _ _ (mo_sharing _ _ _ Hm) p page f Ef) as (c & _ & [[Hk _]|[_ He]]).
  - by destruct (kernel_not_user page).
  - destruct He as (_ & _ & _ & He & _). congruence.
Qed.

Lemma store_ok held used s p page data s' : mem_ok held used s -> user_page page -> user_store s p page data = Some s' -> mem_ok held used s' /\ effect held s s'.
Proof.
  intros Hm Hp. unfold user_store. destruct (is_present _) eqn:Hpres; [|done]. destruct (is_writable _) eqn:Hw; [|done]. intros [= <-].
  pose proof (writable_private held used s p page Hm Hp Hpres Hw) as Hn. destruct (sh_private _ _ _ _ _ (mo_sharing _ _ _ Hm) p page Hp Hn Hpres) as (_ & _ & Hd). split.
  - destruct Hm as [[] ? ?]. split; [split; done|done|done].
  - split; [done|]. intros f c _ Ec. exists c. split; [done|]. split; [done|]. cbn. apply lookup_insert_ne. intros Heq. by apply (Hd f c Ec).
Qed.

Lemma enable_port_wp held used s p port count : mem_ok held used s -> mwp false (space_enable_io_port p port count) (fun _ s' => mem_ok held used s' /\ effect held s s') s.
Proof.
  intros Hm. unfold space_enable_io_port. mbind. apply mwp_space_any; [done|]. intros sp E.
  assert (forall s1 a word, mem_ok held used s1 -> effect held s s1 -> spaces s1 !! p = Some sp ->
    mwp false (massert (0 <? count);; word ← mlift (enable port count word); set_space p (with_io_port_map sp (Some (a, word)));; mret STATUS_SUCCESS)
      (fun _ s' => mem_ok held used s' /\ effect held s s') s1) as Hrest.
  { intros s1 a word Hm1 He1 E1. mbind. apply mwp_assert; [done|intros _]. mbind. unfold mwp at 1, mlift. destruct (enable port count word) as [w|]; [|done].
    mbind. apply mwp_modify, mwp_ret. destruct (put_space_same held used s1 p sp (with_io_port_map sp (Some (a, w))) Hm1 E1 eq_refl eq_refl (fun H => H)) as [Hm2 He2].
    split; [exact Hm2|by eapply effect_trans]. }
  mbind. destruct (io_port_map sp) as [[a word]|]; [by apply mwp_ret, Hrest; [|apply effect_refl|]|]. mbind. destruct (objects s) as [|a rest] eqn:Ho; (eapply mwp_run; [unfold new_block; by rewrite Ho|]).
  - apply mwp_ret. rewrite Z.eqb_refl. apply mwp_ret. split; [done|apply effect_refl].
  - apply mwp_ret. destruct (mo_objects s (mo_base _ _ _ Hm)) as [Hnd Hob]. destruct (Hob a) as (Ha & _); [rewrite Ho; left|]. rewrite (proj2 (Z.eqb_neq a NULL) Ha). apply Hrest; [|split; [done|intros f c _ Ec; by exists c]|done].
    rewrite Ho in *. apply NoDup_cons in Hnd as [_ Hnd]. destruct Hm as [[] ? ?]. split; [split; try done|done|done]. split; [done|]. intros b Hb. apply Hob. by right.
Qed.

Lemma disable_port_wp held used s p port count : mem_ok held used s -> mwp false (space_disable_io_port p port count) (fun _ s' => mem_ok held used s' /\ effect held s s') s.
Proof.
  intros Hm. unfold space_disable_io_port. mbind. apply mwp_space_any; [done|]. intros sp E. destruct (io_port_map sp) as [[a word]|]; [|apply mwp_ret; split; [done|apply effect_refl]].
  mbind. apply mwp_assert; [done|intros _]. mbind. unfold mwp at 1, mlift. destruct (disable port count word) as [w|]; [|done]. mbind. apply mwp_modify, mwp_ret.
  exact (put_space_same held used s p sp (with_io_port_map sp (Some (a, w))) Hm E eq_refl eq_refl (fun H => H)).
Qed.

Lemma kept_messages held s s' msgs : held = flights msgs -> effect held s s' /\ (exists used', mem_ok held used' s') -> Forall sendable msgs -> world_ok (s', msgs) /\ world_keeps (s, msgs) (s', msgs).
Proof. intros -> [He [used' Hm]] Hs. eapply same_messages; [done|done|by apply effect_keeps]. Qed.

(** A message leaves: what stays is kept. *)
Lemma leave_message s s1 s' m msgs1 msgs2 fs used : Forall sendable (msgs1 ++ m :: msgs2) -> fs = lp_frame m -> mem_ok (flights (msgs1 ++ m :: msgs2)) used s1 ->
  keeps (flights (msgs1 ++ m :: msgs2)) s s1 -> large_message_delete fs s1 = Ret (tt, s') ->
  world_ok (s', msgs1 ++ msgs2) /\ world_keeps (s, msgs1 ++ m :: msgs2) (s', msgs1 ++ msgs2).
Proof.
  intros Hs -> Hm Hk Hdel. pose proof (mem_ok_perm _ _ _ _ Hm (flights_middle m msgs1 msgs2)) as Hm1.
  destruct (large_delete_run (lp_frame m) (flights (msgs1 ++ msgs2)) used s1 Hm1) as (s2 & used2 & E2 & Hm2 & He2 & _). rewrite Hdel in E2. injection E2 as <-. split.
  - exists used2. split; [done|]. cbn. apply Forall_app in Hs as [Hs1 [_ Hs2]%Forall_cons]. by apply Forall_app.
  - intros f c Hf Hf' Ec. destruct (Hk f c Hf Ec) as (c1 & Ec1 & Ha1 & Hr1). destruct (ef_frames _ _ _ He2 f c1 Hf' Ec1) as (c2 & Ec2 & Ha2 & Hr2). exists c2. split; [done|].
    rewrite Ha1 in *. split; [congruence|]. cbn. by rewrite Hr2.
Qed.

Lemma deliver_frames p m s st m' s' : large_deliver_payload p m s = Ret ((st, m'), s') -> lp_frame m' = lp_frame m.
Proof.
  unfold large_deliver_payload, mbind, M_bind. destruct (lp_receiver m =? NULL).
  - destruct (space_allocate_large_payload_block _ _ s) as [[page s1]|]; [|done]. cbn. destruct (negb _); [|by intros [= <- <- <-]].
    destruct (space_commit_shared _ _ _ _ s1) as [[st1 s2]|]; [|done]. by intros [= <- <- <-].
  - unfold massert, mlift, kassert. destruct (_ =? _); [|done]. cbn. destruct (negb _); [|by intros [= <- <- <-]]. destruct (space_commit_shared _ _ _ _ s) as [[st1 s2]|]; [|done]. by intros [= <- <- <-].
Qed.

Lemma mstep_ok w w' : mstep w w' -> world_ok w -> world_ok w' /\ world_keeps w w'.
Proof.
  intros Hstep [used [Hm Hs]]. destruct Hstep; cbn [fst snd] in *.
  - eapply kept_messages; [done|exact (mwp_result _ _ _ _ _ (space_expand_wp _ _ _ _ _ _ _ Hm H) H0)|done].
  - pose proof (mwp_result _ _ _ _ _ (collect_wp false _ used _ capabilities p m Hm H H0 H1 H2 ltac:(done)) H3) as (fs & Hr & Hm' & He & _ & Hsucc). cbn in Hr, Hsucc. destruct (Hsucc eq_refl) as [Hsend _].
    split; [exists used; split; [by rewrite Hr|by constructor]|]. intros f c Hf _. by apply (ef_frames _ _ _ He).
  - pose proof (mwp_result _ _ _ _ _ (collect_wp false _ used _ capabilities p m Hm H H0 H1 H2 ltac:(done)) H3) as (fs & Hr & Hm' & He & _). cbn in Hr. subst m'. cbn in H5.
    destruct (large_delete_run fs _ used s1 Hm') as (s2 & used2 & E2 & Hm2 & He2 & _). rewrite H5 in E2. injection E2 as <-. eapply kept_messages; [done| |done]. split; [by eapply effect_trans|by eexists].
  - apply Forall_app in Hs as Hs'. destruct Hs' as [Hs1 [Hsm Hs2]%Forall_cons]. pose proof (deliver_frames _ _ _ _ _ _ H0) as Hfr.
    destruct (mwp_result _ _ _ _ _ (deliver_wp (flights (msgs1 ++ m :: msgs2)) used s p m Hm H Hsm ltac:(intros f Hf; apply (flights_in f m); [apply elem_of_app; right; left|done])) H0) as (Hm1 & He1 & _).
    eapply leave_message; [exact Hs|exact Hfr|exact Hm1|by apply effect_keeps|done].
  - eapply leave_message; [exact Hs|reflexivity|exact Hm|by apply keeps_same|done].
  - eapply kept_messages; [done|exact (mwp_result _ _ _ _ _ (delete_message_wp _ _ _ _ _ Hm H H0) H1)|done].
  - eapply kept_messages; [done|exact (mwp_result _ _ _ _ _ (page_fault_wp _ _ _ _ _ _ Hm H H0 H1) H2)|done].
  - destruct (store_ok _ _ _ _ _ _ _ Hm H H0). eapply kept_messages; [done| |done]. split; [done|by exists used].
  - destruct H as [sp E]. destruct (allocate_large_run _ _ _ _ _ _ Hm E H0) as (b & s2 & E2 & (Hm2 & He2 & _) & _). rewrite H1 in E2. injection E2 as <- <-. eapply kept_messages; [done| |done]. split; [done|by exists used].
  - destruct (mwp_result _ _ _ _ _ (free_large_wp _ _ _ _ _ Hm) H) as (Hm2 & He2 & _). eapply kept_messages; [done| |done]. split; [done|by exists used].
  - eapply kept_messages; [done|exact (mwp_result _ _ _ _ _ (allocate_medium_wp _ _ _ _ Hm) H)|done].
  - destruct (mwp_result _ _ _ _ _ (enable_port_wp _ _ _ _ _ _ Hm) H). eapply kept_messages; [done| |done]. split; [done|by exists used].
  - destruct (mwp_result _ _ _ _ _ (disable_port_wp _ _ _ _ _ _ Hm) H). eapply kept_messages; [done| |done]. split; [done|by exists used].
  - destruct (mwp_result _ _ _ _ _ (create_wp _ _ _ capabilities true id Hm) H) as [Hm2 Hk]. by eapply same_messages.
  - assert (mwp false (space_share_kernel_frames p address size) (fun _ s' => mem_ok (flights msgs) used s' /\ effect (flights msgs) s s') s) as Hw.
    { unfold space_share_kernel_frames. mbind. apply mwp_assert; [done|intros _]. mbind. apply mwp_assert; [done|intros _]. destruct (page_base_bounds address ltac:(lia)) as (B1 & B2 & B3 & B4).
      mbind. eapply mwp_run; [unfold mlift; rewrite page_aligned_run; [done|lia|done]|]. mbind. apply mwp_assert; [done|intros _]. apply share_kernel_wp; try done.
      pose proof (Z.div_mod (PAGE_BASE address) 4096 ltac:(lia)). assert (1 <= address / 4096) by (apply Z.div_le_lower_bound; lia). lia. }
    destruct (mwp_result _ _ _ _ _ Hw H1). eapply kept_messages; [done| |done]. split; [done|by exists used].
Qed.

Lemma steps_ok w w' : rtc mstep w w' -> world_ok w -> world_ok w'.
Proof. induction 1 as [|w1 w2 w3 H1 _ IH]; [done|]. intros Hw. apply IH. by destruct (mstep_ok w1 w2 H1 Hw). Qed.

(** The memory after the boot is in order. *)
Lemma boot_ok high blocks pages p s : KERNEL_PAGED_BOUNDARY <= total_memory high -> heap_ok blocks pages -> memory_manager_new high blocks pages = Ret (p, s) -> world_ok (s, []).
Proof.
  intros Hh (Hb1 & Hb2 & Hp1 & Hp2) E. unfold memory_manager_new in E. destruct (page_frame_manager_new_ok high Hh) as (m & Em & Hm & _). rewrite Em in E. cbn in E.
  set (s0 := mkMemory _ m _ _ _ _ _ _ _ _) in E. assert (mem_ok [] ∅ s0) as Hm0.
  { assert (dirs s0 = ∅) as Hd by done. split; [split|exact Hm|split].
    - rewrite Hd. split; cbn; try done. intros t Ht. destruct (Hp2 t Ht). rewrite lookup_empty. done.
    - intros q1 q2 s1 s2 E1. cbn in E1. by rewrite lookup_empty in E1.
    - intros d i Hx. by rewrite Hd in Hx.
    - intros d i Hx. by rewrite Hd in Hx.
    - split; [done|]. intros a Ha. cbn. rewrite !lookup_empty. split; [by apply Hb2|done].
    - intros f c Ec. cbn in Ec. by rewrite lookup_empty in Ec.
    - done.
    - intros q sq Eq. cbn in Eq. by rewrite lookup_empty in Eq.
    - intros q pg f. rewrite lookup_bindings. cbn. by rewrite lookup_empty.
    - intros q pg _ _. unfold entry_at. cbn. by rewrite lookup_empty.
    - intros q pg q' pg' _ _ _ _. unfold entry_at. cbn. by rewrite lookup_empty.
    - intros f c Ec. cbn in Ec. by rewrite lookup_empty in Ec.
    - intros f f' c c' Ec. cbn in Ec. by rewrite lookup_empty in Ec.
    - intros f Hf. by apply not_elem_of_nil in Hf.
    - intros a Ha. by apply not_elem_of_empty in Ha.
    - intros q pg _ _. unfold entry_at. cbn. by rewrite lookup_empty. }
  destruct (manager_create_address_space 0 false ADDRESS_SPACE_ID_KERNEL s0) as [[q s']|] eqn:Ec; [|done]. destruct (q =? NULL); [done|]. injection E as -> ->.
  destruct (mwp_result _ _ _ _ _ (create_wp [] ∅ s0 0 false ADDRESS_SPACE_ID_KERNEL Hm0) Ec) as [Hms _]. exists ∅. split; [exact Hms|done].
Qed.

Lemma memory_reachable_ok high blocks pages w : KERNEL_PAGED_BOUNDARY <= total_memory high -> heap_ok blocks pages -> reachable high blocks pages w -> world_ok w.
Proof. intros Hh Hb (p & s & E & Hr). eapply steps_ok; [exact Hr|]. by eapply boot_ok. Qed.
