(* ===== verification/KSpaceThms.v ===== *)
(** * What the memory manager guarantees

    The theorems about the address spaces: pages that can be written are
    private, shared frames are counted, the payload of a large message is a
    snapshot of the pages of the sender, copies on write, the expansion of an
    address space, where the search for free pages stops the kernel, and what
    goes wrong when an address space is destroyed. *)

From S2P Require Import Prelude CMem CStringSearch World Libdx LibdxThms Process ProcessThms Loader KBase KBitmap KBitmapThms KFrames KRegionThms KFramesThms KHeap KHeapThms KPorts KPaging KPagingThms KSpace KSharing KSpaceInv KSpaceRuns KSpaceOps KSpaceMsg KSpaceSteps.

(** What a page of an address space contains. *)
Definition contents (s : memory) (p page : Z) : list Z := default [] (ram s !! entry_address (entry_at s p page)).

(** ** A machine of 32 MB *)

Definition demo_blocks : list Z := seqZ 1000 60.
Definition demo_pages : list Z := (fun i => i * 4096) <$> seqZ 2100 40.

Lemma demo_heap_ok : heap_ok demo_blocks demo_pages.
Proof.
  split; [apply NoDup_seqZ|]. split; [intros a [? ?]%elem_of_seqZ; unfold NULL; lia|]. split.
  - apply NoDup_fmap; [intros x y; lia|apply NoDup_seqZ].
  - assert (Forall (fun t => t <> NULL /\ entry_address t = t) demo_pages) as H by (apply (bool_decide_unpack _); vm_compute; exact I).
    by rewrite Forall_forall in H.
Qed.

(** [a] and [b] are new address spaces; [a] gets a page, and sends it to [b]. *)
Definition demo_page : Z := 0x40001000.
Definition demo_copy : Z := 0x50000000.
Definition demo_message : large_payload := mkLarge demo_page 4096 NULL [].
Definition all_capabilities : Z := 0xFFFF.

Definition demo_prepare : M (Z * Z) :=
  a ← manager_create_address_space all_capabilities true 5;
  b ← manager_create_address_space all_capabilities true 6;
  space_expand all_capabilities a demo_page 4096;;
  mret (a, b).

(** ** Sharing *)

(** C2. Isolation: in every state that the steps of [mstep] lead to, a page
    of an address space that can be written has its frame for itself: no other
    page of this or of another address space has it, no message on its way
    holds it, and it is not a frame of the kernel. Two calls are not among the
    steps and break it: the destruction of an address space, which frees shared
    frames, and [map_memory] of the device proxy, which maps the memory of a
    device, or any other memory outside the kernel, where a driver asks for it. *)
Theorem writable_pages_are_private high blocks pages s msgs p page :
  KERNEL_PAGED_BOUNDARY <= total_memory high -> heap_ok blocks pages -> reachable high blocks pages (s, msgs) ->
  user_page page -> is_present (entry_at s p page) = true -> is_writable (entry_at s p page) = true ->
  (forall q page', user_page page' -> is_present (entry_at s q page') = true ->
     entry_address (entry_at s q page') = entry_address (entry_at s p page) -> q = p /\ page' = page) /\
  (forall f c, shared_frames s !! f = Some c -> sf_address c <> entry_address (entry_at s p page)) /\
  KERNEL_PAGED_BOUNDARY <= entry_address (entry_at s p page).
Proof.
  intros Hh Hb Hr Hp Hpres Hw. destruct (memory_reachable_ok _ _ _ _ Hh Hb Hr) as (used & Hm & _). cbn in Hm.
  pose proof (writable_private _ _ _ _ _ Hm Hp Hpres Hw) as Hn. pose proof (mo_sharing _ _ _ Hm) as Hs.
  destruct (sh_private _ _ _ _ _ Hs p page Hp Hn Hpres) as (_ & Hused & Hd). split; [|split; [done|by apply (sh_used _ _ _ _ _ Hs)]].
  intros q page' Hp' Hpres' Heq. destruct (bindings s !! (q, page')) as [f|] eqn:Ef.
  - destruct (sh_bound _ _ _ _ _ Hs q page' f Ef) as (c & Ec & [[Hk _]|[_ He]]); [by destruct (kernel_not_user page')|].
    destruct (Hd f c Ec). destruct He as (_ & _ & _ & _ & _ & He). congruence.
  - by apply (sh_unique _ _ _ _ _ Hs).
Qed.

(** C5. The reference count of a shared frame is exact, and positive, in
    every state that the steps of [mstep] lead to (no address space is
    destroyed and no device memory is mapped): it is the number of pages that
    are bound to it and of messages on their way that carry it; and each user
    page that is bound to it maps the frame read-only, to be copied on write. *)
Theorem shared_frames_are_counted high blocks pages s msgs f c :
  KERNEL_PAGED_BOUNDARY <= total_memory high -> heap_ok blocks pages -> reachable high blocks pages (s, msgs) -> shared_frames s !! f = Some c ->
  sf_references c = total (is_ref f) (bindings s) + occurrences f (flights msgs) /\ 0 < sf_references c /\
  forall p page, user_page page -> bindings s !! (p, page) = Some f -> shared_entry (entry_at s p page) (sf_address c).
Proof.
  intros Hh Hb Hr Ec. destruct (memory_reachable_ok _ _ _ _ Hh Hb Hr) as (used & Hm & _). cbn in Hm. pose proof (mo_sharing _ _ _ Hm) as Hs.
  destruct (sh_counts _ _ _ _ _ Hs f c Ec) as (_ & Hpos & Hcount & _). split; [done|]. split; [done|]. intros p page Hp Hf.
  destruct (sh_bound _ _ _ _ _ Hs p page f Hf) as (c' & Ec' & [[Hk _]|[_ He]]); [by destruct (kernel_not_user page)|]. by simplify_eq.
Qed.

(** Steps while the message [m] is on its way. *)
Definition step_with (m : large_payload) (w w' : world) : Prop := mstep w w' /\ m ∈ w'.2.

Lemma frames_last m w w' f c : rtc (step_with m) w w' -> world_ok w -> m ∈ w.2 -> f ∈ lp_frame m -> shared_frames w.1 !! f = Some c ->
  world_ok w' /\ m ∈ w'.2 /\ exists c', shared_frames w'.1 !! f = Some c' /\ sf_address c' = sf_address c /\ ram w'.1 !! sf_address c = ram w.1 !! sf_address c.
Proof.
  intros Hr. revert c. induction Hr as [w|w1 w2 w3 [Hstep Hin] _ IH]; intros c Hok Hm Hf Ec; [split; [done|]; split; [done|]; by exists c|].
  destruct (mstep_ok _ _ Hstep Hok) as [Hok2 Hk]. destruct (Hk f c) as (c2 & Ec2 & Ha & Hram); [by eapply flights_in|by eapply flights_in|done|].
  destruct (IH c2 Hok2 Hin Hf Ec2) as (Hok3 & Hin3 & c3 & Ec3 & Ha3 & Hram3). split; [done|]. split; [done|]. exists c3. rewrite Ha in *. split; [done|]. split; [done|]. by rewrite Hram3.
Qed.

(** C3. The payload of a large message from the user range is a snapshot:
    whatever steps of [mstep] come between sending and receiving, stores of the
    sender and of others included, each page that the receiver gets has the
    contents that the page of the sender had when the message was sent. The
    receiver cannot write to it. The steps do not include the destruction of an
    address space, which frees the frames of the payload when it is the
    sender's, and mappings of device memory. *)
Theorem payload_is_a_snapshot high blocks pages capabilities p q m m' m'' s s1 s2 s3 msgs msgs2 i :
  KERNEL_PAGED_BOUNDARY <= total_memory high -> heap_ok blocks pages -> reachable high blocks pages (s, msgs) ->
  is_Some (spaces s !! p) -> 0 <= lp_receiver m < 2 ^ 32 -> lp_frame m = [] ->
  PAYLOAD_AREA_BASE <= lp_sender m -> 0 <= i < PAGE_COUNT (lp_sender m) (lp_size m) -> lp_sender m + i * 4096 < 2 ^ 32 ->
  large_collect_payload capabilities p m s = Ret ((STATUS_SUCCESS, m'), s1) ->
  rtc (step_with m') (s1, m' :: msgs) (s2, msgs2) -> is_Some (spaces s2 !! q) ->
  large_deliver_payload q m' s2 = Ret ((STATUS_SUCCESS, m''), s3) ->
  let target := PAGE_BASE (lp_receiver m'') + i * 4096 in
  contents s3 q target = contents s p (PAGE_BASE (lp_sender m + i * 4096)) /\
  is_present (entry_at s3 q target) = true /\ is_writable (entry_at s3 q target) = false.
Proof.
  intros Hh Hb Hr Hsp Hrec Hfr Hlo Hi Hhi Hcol Hrtc Hsq Hdel target. pose proof (memory_reachable_ok _ _ _ _ Hh Hb Hr) as Hok. destruct Hok as (used & Hm & Hsend). cbn in Hm, Hsend.
  assert (0 <= lp_sender m < 2 ^ 32) as Hs32 by (unfold PAYLOAD_AREA_BASE in Hlo; lia).
  destruct (mwp_result _ _ _ _ _ (collect_wp false _ used _ capabilities p m Hm Hsp Hs32 Hrec Hfr ltac:(done)) Hcol) as (fs & Hm' & Hm1 & _ & Hram & Hsucc). cbn in Hm', Hsucc.
  destruct (Hsucc eq_refl) as (Hsm & fs' & Heq & _ & _ & _ & Hsh). cbn in Heq, Hsh. subst fs'. destruct (Hsh eq_refl) as (Hlen & _ & Hall).
  destruct (lookup_lt_is_Some_2 fs (Z.to_nat i)) as [f Ef]; [lia|]. destruct (Hall _ _ Ef) as (_ & c & Ec & Ha).
  { rewrite Z2Nat.id, u32_small by lia. apply page_base_user. lia. }
  rewrite Z2Nat.id, u32_small in Ha by lia. assert (lp_frame m' = fs) as Hfm by by rewrite Hm'.
  assert (world_ok (s1, m' :: msgs)) as Hok1 by (exists used; split; [cbn [fst snd]; by rewrite flights_cons, Hfm|by constructor]).
  assert (f ∈ lp_frame m') as Hin by (rewrite Hfm; by eapply list_elem_of_lookup_2).
  destruct (frames_last m' _ _ f c Hrtc Hok1 ltac:(left) Hin Ec) as ((used2 & Hm2 & Hsend2) & Hin2 & c2 & Ec2 & Ha2 & Hram2). cbn [fst snd] in *.
  destruct (mwp_result _ _ _ _ _ (deliver_wp _ used2 s2 q m' Hm2 Hsq (proj1 (Forall_forall _ _) Hsend2 _ Hin2) ltac:(intros g Hg; by eapply flights_in)) Hdel)
    as (Hm3 & He3 & Hram3 & Hdone). destruct (Hdone eq_refl) as (s2' & page & Hpage & Hpeq & _ & Hbound & _). cbn in Hpeq.
  rewrite <- Hfm in Ef. specialize (Hbound _ _ Ef). rewrite Z2Nat.id, Hpeq in Hbound by lia. fold target in Hbound.
  destruct (ef_frames _ _ _ He3 f c2 ltac:(by eapply flights_in) Ec2) as (c3 & Ec3 & Ha3 & _).
  destruct (sh_bound _ _ _ _ _ (mo_sharing _ _ _ Hm3) q target f Hbound) as (c' & Ec' & [[[Hk _] _]|[_ (E1 & _ & _ & E4 & _ & E6)]]).
  { unfold target in Hk. rewrite <- Hpeq in Hk. destruct Hpage as [Hpage _]. unfold PAYLOAD_AREA_BASE, KERNEL_PAGED_BOUNDARY, SUPER_PAGE_SIZE in *. lia. }
  simplify_eq. split; [|done]. unfold contents. rewrite E6, Ha3, Ha2, Hram3, Hram2, Hram, Ha. done.
Qed.

(** ** An example run *)

(** [a] writes to its page, sends it, and writes to it again, which copies it;
    then [b] receives the message. *)
Record demo_run (a b : Z) (s s1 s2 s3 s4 s5 : memory) (m' m'' : large_payload) : Prop := {
  dr_reach : reachable 31744 demo_blocks demo_pages (s, []);
  dr_store : user_store s a demo_page [1; 2; 3] = Some s1;
  dr_send : large_collect_payload all_capabilities a demo_message s1 = Ret ((STATUS_SUCCESS, m'), s2);
  dr_fault : handle_page_fault a demo_copy demo_page s2 = Ret (tt, s3);
  dr_again : user_store s3 a demo_page [9] = Some s4;
  dr_receive : large_deliver_payload b m' s4 = Ret ((STATUS_SUCCESS, m''), s5);
  dr_spaces : is_Some (spaces s1 !! a) /\ is_Some (spaces s2 !! a) /\ is_Some (spaces s4 !! b) }.

Lemma demo_user : user_page demo_page /\ user_page demo_copy.
Proof. unfold user_page, PAYLOAD_AREA_BASE, demo_page, demo_copy. split; split; (lia || reflexivity). Qed.

Lemma demo_prepare_reach p0 s0 a b s : memory_manager_new 31744 demo_blocks demo_pages = Ret (p0, s0) -> demo_prepare s0 = Ret ((a, b), s) ->
  reachable 31744 demo_blocks demo_pages (s, []).
Proof.
  intros E0 E. exists p0, s0. split; [exact E0|]. unfold demo_prepare, mbind, M_bind in E.
  destruct (manager_create_address_space _ true 5 s0) as [[a' s1]|] eqn:E1; [|done]. destruct (manager_create_address_space _ true 6 s1) as [[b' s2]|] eqn:E2; [|done].
  destruct (space_expand _ a' demo_page 4096 s2) as [[st s3]|] eqn:E3; [|done]. injection E as -> -> ->.
  eapply rtc_l; [by eapply step_create|]. eapply rtc_l; [by eapply step_create|]. apply rtc_once. eapply step_expand; [|done]. unfold demo_page. lia.
Qed.

Definition is_some {A} (o : option A) : bool := match o with Some _ => true | None => false end.

Lemma is_some_true {A} (o : option A) : is_some o = true -> is_Some o.
Proof. destruct o; [by eexists|done]. Qed.

Lemma demo_runs : exists a b s s1 s2 s3 s4 s5 m' m'', demo_run a b s s1 s2 s3 s4 s5 m' m'' /\
  (is_present (entry_at s a demo_page) && is_writable (entry_at s a demo_page) = true) /\ base.size (shared_frames s2) = 1%nat /\
  (exists sp, spaces s2 !! a = Some sp) /\ is_present (entry_at s2 a demo_copy) = false /\
  (exists s', copy_on_write a demo_copy demo_page s2 = Ret (true, s')).
Proof.
  assert (match memory_manager_new 31744 demo_blocks demo_pages with Trap _ => false | Ret (_, s0) =>
    match demo_prepare s0 with Trap _ => false | Ret ((a, b), s) =>
    match user_store s a demo_page [1; 2; 3] with None => false | Some s1 =>
    match large_collect_payload all_capabilities a demo_message s1 with Trap _ => false | Ret ((st, m'), s2) =>
    match handle_page_fault a demo_copy demo_page s2 with Trap _ => false | Ret (_, s3) =>
    match user_store s3 a demo_page [9] with None => false | Some s4 =>
    match large_deliver_payload b m' s4 with Trap _ => false | Ret ((st', m''), s5) =>
      (st =? STATUS_SUCCESS) && (st' =? STATUS_SUCCESS) && (is_some (spaces s1 !! a) && is_some (spaces s2 !! a) && is_some (spaces s4 !! b)) &&
      (is_present (entry_at s a demo_page) && is_writable (entry_at s a demo_page)) && (base.size (shared_frames s2) =? 1)%nat &&
      negb (is_present (entry_at s2 a demo_copy)) && match copy_on_write a demo_copy demo_page s2 with Ret (true, _) => true | _ => false end
    end end end end end end end = true) as H by (vm_compute; reflexivity).
  destruct (memory_manager_new 31744 demo_blocks demo_pages) as [[p0 s0]|] eqn:E0; [|done]. destruct (demo_prepare s0) as [[[a b] s]|] eqn:E1; [|done].
  destruct (user_store s _ _ _) as [s1|] eqn:E2; [|done]. destruct (large_collect_payload _ _ _ s1) as [[[st m'] s2]|] eqn:E3; [|done].
  destruct (handle_page_fault _ _ _ s2) as [[[] s3]|] eqn:E4; [|done]. destruct (user_store s3 _ _ _) as [s4|] eqn:E5; [|done].
  destruct (large_deliver_payload _ _ s4) as [[[st' m''] s5]|] eqn:E6; [|done].
  apply andb_true_iff in H as [H Hcow]. apply andb_true_iff in H as [H Hc]. apply andb_true_iff in H as [H Hn]. apply andb_true_iff in H as [H Hw]. apply andb_true_iff in H as [H Hs].
  apply andb_true_iff in H as [H1 H2]. apply Z.eqb_eq in H1 as ->. apply Z.eqb_eq in H2 as ->. apply andb_true_iff in Hs as [[Hs1 Hs2]%andb_true_iff Hs3].
  exists a, b, s, s1, s2, s3, s4, s5, m', m''. split; [|split; [exact Hw|]; split; [by apply Nat.eqb_eq|]; split; [exact (is_some_true _ Hs2)|]; split; [by apply negb_true_iff|]].
  - apply (Build_demo_run a b s s1 s2 s3 s4 s5 m' m'' (demo_prepare_reach p0 s0 a b s E0 E1) E2 E3 E4 E5 E6). split; [|split]; by apply is_some_true.
  - clear - Hcow. destruct (copy_on_write a demo_copy demo_page s2) as [[[] s']|]; [by exists s'|done|done].
Qed.

Lemma demo_high : KERNEL_PAGED_BOUNDARY <= total_memory 31744.
Proof. vm_compute. discriminate. Qed.

Lemma demo_low : 0 <= demo_page.
Proof. vm_compute. discriminate. Qed.

Lemma demo_top : demo_page < 2 ^ 32.
Proof. reflexivity. Qed.

Lemma demo_payload : PAYLOAD_AREA_BASE <= demo_page.
Proof. vm_compute. discriminate. Qed.

Lemma demo_null : 0 <= NULL < 2 ^ 32.
Proof. unfold NULL. lia. Qed.

(** Where the run is after the message is sent. *)
Lemma demo_sent_reach a b s s1 s2 s3 s4 s5 m' m'' : demo_run a b s s1 s2 s3 s4 s5 m' m'' ->
  reachable 31744 demo_blocks demo_pages (s1, []) /\ reachable 31744 demo_blocks demo_pages (s2, [m']) /\ rtc (step_with m') (s2, [m']) (s4, [m']).
Proof.
  intros [(p0 & s0 & E0 & Hr) H1 H2 H3 H4 H5 (Hs1 & Hs2 & Hs3)]. pose proof (step_store a demo_page [1; 2; 3] s s1 [] (proj1 demo_user) H1) as Hst1.
  assert (mstep (s1, []) (s2, [m'])) as Hst2.
  { refine (step_send all_capabilities a demo_message m' s1 s2 [] Hs1 _ _ eq_refl H2); [exact (conj demo_low demo_top)|exact demo_null]. }
  pose proof (rtc_r _ _ _ Hr Hst1) as Hr1. split; [exact (ex_intro _ p0 (ex_intro _ s0 (conj E0 Hr1)))|].
  split; [exact (ex_intro _ p0 (ex_intro _ s0 (conj E0 (rtc_r _ _ _ Hr1 Hst2))))|]. clear E0 Hr Hr1. eapply rtc_l.
  - split; [exact (step_fault a demo_copy demo_page s2 s3 [m'] Hs2 (proj2 demo_user) (conj demo_payload demo_top) H3)|left].
  - apply rtc_once. split; [exact (step_store a demo_page [9] s3 s4 [m'] (proj1 demo_user) H4)|left].
Qed.

Lemma writable_pages_are_private_witness : exists a s, is_writable (entry_at s a demo_page) = true /\
  forall q page', user_page page' -> is_present (entry_at s q page') = true -> entry_address (entry_at s q page') = entry_address (entry_at s a demo_page) -> q = a /\ page' = demo_page.
Proof.
  destruct demo_runs as (a & b & s & s1 & s2 & s3 & s4 & s5 & m' & m'' & Hrun & Hw & _). apply andb_true_iff in Hw as [Hpres Hw]. exists a, s. split; [exact Hw|].
  exact (proj1 (writable_pages_are_private 31744 demo_blocks demo_pages s [] a demo_page demo_high demo_heap_ok (dr_reach _ _ _ _ _ _ _ _ _ _ Hrun) (proj1 demo_user) Hpres Hw)).
Defined.

Lemma shared_frames_are_counted_witness : exists s m' f c, shared_frames s !! f = Some c /\ sf_references c = total (is_ref f) (bindings s) + occurrences f (flights [m']).
Proof.
  destruct demo_runs as (a & b & s & s1 & s2 & s3 & s4 & s5 & m' & m'' & Hrun & _ & Hsize & _).
  destruct (map_to_list (shared_frames s2)) as [|[f c] l] eqn:El; [rewrite <- length_map_to_list, El in Hsize; discriminate Hsize|].
  assert (shared_frames s2 !! f = Some c) as Ec by (apply elem_of_map_to_list; rewrite El; left).
  exists s2, m', f, c. split; [exact Ec|].
  exact (proj1 (shared_frames_are_counted 31744 demo_blocks demo_pages s2 [m'] f c demo_high demo_heap_ok (proj1 (proj2 (demo_sent_reach _ _ _ _ _ _ _ _ _ _ Hrun))) Ec)).
Defined.

Lemma payload_is_a_snapshot_witness : exists a b s1 s5 target, contents s5 b target = contents s1 a (PAGE_BASE (demo_page + 0 * 4096)).
Proof.
  destruct demo_runs as (a & b & s & s1 & s2 & s3 & s4 & s5 & m' & m'' & Hrun & _). destruct (demo_sent_reach _ _ _ _ _ _ _ _ _ _ Hrun) as (Hr1 & _ & Hsteps).
  destruct Hrun as [_ _ Hsend _ _ Hrec (Hs1 & _ & Hs3)]. exists a, b, s1, s5, (PAGE_BASE (lp_receiver m'') + 0 * 4096).
  refine (proj1 (payload_is_a_snapshot 31744 demo_blocks demo_pages all_capabilities a b demo_message m' m'' s1 s2 s4 s5 [] [m'] 0 demo_high demo_heap_ok Hr1 Hs1 _ eq_refl _ _ _ Hsend Hsteps Hs3 Hrec)).
  - cbn. unfold NULL. lia.
  - vm_compute. discriminate.
  - vm_compute. split; [discriminate|reflexivity].
  - vm_compute. reflexivity.
Defined.

(** ** Copies on write *)

(** C6. In every state that the steps of [mstep] lead to (no address space
    is destroyed and no device memory is mapped), a fault on a page that is
    copied on write returns, as long as the copy page of the thread is free. It
    gives the page a frame of its own, which can be written and has the contents
    that the page had, and no other page of any address space changes; or it
    changes no page and no contents, which happens only for a page that is not
    copied on write, or without memory. *)
Theorem copy_on_write_copies high blocks pages s msgs p sp copy address :
  KERNEL_PAGED_BOUNDARY <= total_memory high -> heap_ok blocks pages -> reachable high blocks pages (s, msgs) ->
  spaces s !! p = Some sp -> user_page copy -> PAYLOAD_AREA_BASE <= address < 2 ^ 32 -> is_present (entry_at s p copy) = false ->
  let page := PAGE_BASE address in
  exists b s', copy_on_write p copy address s = Ret (b, s') /\
  (forall q pg, user_page pg -> (q, pg) <> (p, page) -> entry_at s' q pg = entry_at s q pg) /\
  if b : bool then
    is_present (entry_at s' p page) = true /\ is_writable (entry_at s' p page) = true /\ is_copy_on_write (entry_at s' p page) = false /\
    contents s' p page = contents s p page /\
    forall q pg, user_page pg -> is_present (entry_at s q pg) = true ->
      entry_address (entry_at s q pg) <> entry_address (entry_at s' p page) /\ contents s' q pg = contents s q pg
  else entry_at s' p page = entry_at s p page /\ ram s' = ram s /\
    (is_copy_on_write (entry_at s p page) = false \/ heap_pages (tables s) = [] \/ exists used, frames_ok (frames s) used /\ valid_frames (frames s) ⊆ used).
Proof.
  intros Hh Hb Hr E Hc Ha Habs page. destruct (memory_reachable_ok _ _ _ _ Hh Hb Hr) as (used & Hm & _). cbn in Hm.
  pose proof (copy_on_write_wp true _ used s p sp copy address Hm E Hc Ha (fun _ => Habs)) as Hw. unfold mwp in Hw. destruct (copy_on_write p copy address s) as [[b s']|]; [|done].
  assert (user_page page) as Hp by (by apply page_base_user). exists b, s'. split; [done|]. fold page in Hw.
  destruct Hw as [(-> & a & used' & Hna & (Haa & Hlow) & Hm' & _ & Hup & Hram)|(-> & Hm' & _ & Hent & Hram & Hwhy)].
  - split; [intros q pg Hpg Hne; by apply (updated_other _ _ _ _ _ _ _ Hup)|].
    assert (entry_address (entry_at s' p page) = a) as Haddr by (by rewrite (updated_same _ _ _ _ _ Hup Hp), commit_bits_address).
    destruct (commit_bits_facts a MEMORY_USER_DEFAULT) as (F1 & _ & F3 & _ & F5). rewrite <- (updated_same _ _ _ _ _ Hup Hp) in F1, F3, F5.
    split; [done|]. split; [done|]. split; [done|]. split; [unfold contents; by rewrite Haddr, Hram, lookup_insert_eq|].
    intros q pg Hpg Hpres. rewrite Haddr. assert (entry_address (entry_at s q pg) <> a) as Hother.
    { destruct (mapped_frame _ _ _ _ _ q pg (mo_sharing _ _ _ Hm) Hpg Hpres); [congruence|lia]. }
    split; [done|]. destruct (decide ((q, pg) = (p, page))) as [[= -> ->]|Hne]; unfold contents; [by rewrite Haddr, Hram, lookup_insert_eq|].
    rewrite (updated_other _ _ _ _ _ _ _ Hup Hpg Hne), Hram. by rewrite lookup_insert_ne by congruence.
  - split; [intros; by apply Hent|]. split; [by apply Hent|]. split; [done|]. destruct Hwhy as [?|[?|?]]; [by left|by right; left|right; right].
    exists used. split; [apply Hm|done].
Qed.

Lemma copy_on_write_copies_witness : exists a s s', copy_on_write a demo_copy demo_page s = Ret (true, s') /\ contents s' a (PAGE_BASE demo_page) = contents s a (PAGE_BASE demo_page).
Proof.
  destruct demo_runs as (a & b & s & s1 & s2 & s3 & s4 & s5 & m' & m'' & Hrun & _ & _ & (sp & Esp) & Habs & s' & Ecow).
  destruct (copy_on_write_copies 31744 demo_blocks demo_pages s2 [m'] a sp demo_copy demo_page demo_high demo_heap_ok
    (proj1 (proj2 (demo_sent_reach _ _ _ _ _ _ _ _ _ _ Hrun))) Esp (proj2 demo_user) (conj demo_payload demo_top) Habs) as (r & s'' & E & _ & H).
  rewrite Ecow in E. injection E as <- <-. exists a, s2, s'. split; [exact Ecow|]. exact (proj1 (proj2 (proj2 (proj2 H)))).
Defined.

(** ** Expansion *)

(** The search that [expand] starts at a page ends with an answer: no table
    from there on is empty, and the page has a table or starts one. Otherwise
    the search keeps the unaligned offset of the page (see
    [find_present_entry_unaligned]). *)
Definition searchable (m : paging) (d page : Z) : Prop :=
  (page mod 2 ^ 22 = 0 \/ is_present (word m (d, slot page)) = true) /\
  populated m d (if decide (page mod 2 ^ 22 = 0) then slot page else slot page + 1).

(** The checks of [expand] pass, and the search begins. *)
Lemma space_expand_search capabilities s p sp first n size : spaces s !! p = Some sp -> capable capabilities CAPABILITY_EXPAND_ADDRESS_SPACE = true ->
  n = PAGE_COUNT 0 size -> 0 < n <= 96 -> user_page first -> first + n * 4096 <= 2 ^ 32 ->
  space_expand capabilities p first size s = match find_present_entry (page_directory sp) first (tables s) with
    | Ret ((_, next), m) => if (first <=? next) && (next <=? first + (n - 1) * 4096) then Ret (STATUS_RESOURCE_CONFLICT, with_tables s m) else expand_by p first n (with_tables s m)
    | Trap t => Trap t
    end.
Proof.
  intros E Hcap -> Hn Hp Hr. set (n := PAGE_COUNT 0 size) in *.
  unfold space_expand. rewrite Hcap. cbn [negb]. fold n. destruct (Z.eqb_spec n 0); [lia|]. unfold EXPAND_ADDRESS_SPACE_PAGE_COUNT. destruct (Z.ltb_spec 96 n); [lia|].
  cbn [orb]. unfold mbind at 1, M_bind at 1, mlift at 1. rewrite (aligned_run first 12 ltac:(lia) : is_aligned first PAGE_SIZE = _).
  destruct Hp as [Hp Hal]. change (2 ^ 12) with 4096. rewrite Hal, Z.eqb_refl. cbn [negb orb]. unfold is_user_address. rewrite (proj2 (Z.leb_le _ _) (proj1 Hp)). cbn [negb orb].
  unfold PAGE_SIZE. assert (0 <= first) by (unfold PAYLOAD_AREA_BASE in Hp; lia). rewrite u32_small by lia. rewrite (proj2 (Z.ltb_ge _ _)) by lia. unfold mbind at 1, M_bind at 1, space_at. rewrite E.
  unfold mbind at 1, M_bind at 1, on_paging. destruct (find_present_entry (page_directory sp) first (tables s)) as [[[e next] m]|]; [|done]. by destruct (_ && _).
Qed.

Lemma space_expand_run capabilities s used held p sp first n size : mem_ok held used s -> spaces s !! p = Some sp ->
  capable capabilities CAPABILITY_EXPAND_ADDRESS_SPACE = true -> n = PAGE_COUNT 0 size -> 0 < n <= 96 -> user_page first -> first + n * 4096 <= 2 ^ 32 ->
  searchable (tables s) (page_directory sp) first ->
  exists r, first_present (tables s) (page_directory sp) first r /\
    space_expand capabilities p first size s = if (first <=? r.2) && (r.2 <=? first + (n - 1) * 4096) then Ret (STATUS_RESOURCE_CONFLICT, s) else expand_by p first n s.
Proof.
  intros Hm E Hcap Hsize Hn Hp Hr [Hs1 Hs2]. pose proof (mo_base _ _ _ Hm) as Hb. pose proof (user_slot first Hp) as Hslot.
  destruct (find_present_entry_ok (tables s) (dirs s) (page_directory sp) first) as (r & Er & Hfirst); [apply Hb|by eapply dir_of|by apply user_page_word|apply Hp|done|done| |].
  { apply (mo_super s Hb); [by eapply dir_of|lia]. }
  exists r. split; [done|]. rewrite (space_expand_search _ _ _ sp _ n) by done. rewrite Er. destruct r as [e next]. cbn [snd]. by replace (with_tables s (tables s)) with s by (by destruct s).
Qed.

(** The pages of the range, and what the search says about them. *)
Definition free_range (s : memory) (p first n : Z) : Prop := forall k, 0 <= k < n -> is_present (entry_at s p (first + k * 4096)) = false.

Lemma search_conflict s p sp first n r : spaces s !! p = Some sp -> user_page first -> first_present (tables s) (page_directory sp) first r ->
  (first <=? r.2) && (r.2 <=? first + (n - 1) * 4096) = true -> ~ free_range s p first n.
Proof.
  intros E [Hlo Hal] Hfirst [H1 H2]%andb_true_iff Hfree. apply Z.leb_le in H1, H2. destruct Hfirst as [(page & -> & Hpg & Hmod & Hpres & _)|[-> _]]; cbn [snd] in *; [|unfold PAYLOAD_AREA_BASE in Hlo; lia].
  specialize (Hfree ((page - first) / 4096)). pose proof (Z.div_mod page 4096 ltac:(lia)). pose proof (Z.div_mod first 4096 ltac:(lia)).
  assert (page - first = (page / 4096 - first / 4096) * 4096) as Hk by lia. rewrite Hk, Z.div_mul in Hfree by lia.
  rewrite (entry_at_space _ _ _ _ E) in Hfree. replace (first + (page / 4096 - first / 4096) * 4096) with page in Hfree by lia. rewrite Hpres in Hfree. discriminate Hfree. lia.
Qed.

Lemma search_free s p sp first n r : spaces s !! p = Some sp -> user_page first -> first + n * 4096 <= 2 ^ 32 -> first_present (tables s) (page_directory sp) first r ->
  (first <=? r.2) && (r.2 <=? first + (n - 1) * 4096) = false -> free_range s p first n.
Proof.
  intros E [Hlo Hal] Hend Hfirst Hno k Hk. rewrite (entry_at_space _ _ _ _ E). apply andb_false_iff in Hno.
  destruct Hfirst as [(page & -> & Hpg & _ & _ & Habs)|[-> Habs]]; cbn [snd] in *; apply Habs; [|lia]. destruct Hno as [Hno|Hno]; apply Z.leb_gt in Hno; lia.
Qed.

(** The new pages after a successful expansion. *)
Lemma expanded_page held used p page n s s' l k : mem_ok held used s -> mem_ok held (list_to_set l ∪ used) s' -> (forall a, a ∈ l -> a ∉ used) -> committed p page expand_flags l s s' ->
  Z.of_nat (length l) = n -> user_page page -> page + n * 4096 <= 2 ^ 32 -> 0 <= k < n -> let new := entry_at s' p (page + k * 4096) in
  is_present new = true /\ is_writable new = true /\ bindings s' !! (p, page + k * 4096) = None /\
  forall q pg, user_page pg -> is_present (entry_at s q pg) = true -> entry_address (entry_at s q pg) <> entry_address new.
Proof.
  intros Hm Hm' Hfresh (Hnew & _) Hl Hp Hend Hk new. destruct (lookup_lt_is_Some_2 l (Z.to_nat k)) as [a Ha]; [lia|]. pose proof (Hnew _ _ Ha) as Hbits. rewrite Z2Nat.id in Hbits by lia.
  fold new in Hbits. destruct (commit_bits_facts a expand_flags) as (F1 & _ & F3 & _). rewrite <- Hbits in F1, F3. apply list_elem_of_lookup_2 in Ha as Hin.
  destruct (frame_aligned held (list_to_set l ∪ used) s' a Hm') as [Haa _]; [apply elem_of_union_l; by apply elem_of_list_to_set|].
  split; [done|]. split; [done|]. split; [apply (writable_private _ _ _ _ _ Hm'); [apply user_page_add; [done|lia|lia]|done|done]|].
  intros q pg Hpg Hpres Heq. rewrite Hbits, commit_bits_address, Haa in Heq. destruct (mapped_frame _ _ _ _ _ q pg (mo_sharing _ _ _ Hm) Hpg Hpres) as [Hu|Hu]; rewrite Heq in Hu; [by apply (Hfresh a)|].
  assert (KERNEL_PAGED_BOUNDARY <= a); [|lia]. apply (sh_used _ _ _ _ _ (mo_sharing _ _ _ Hm')). apply elem_of_union_l. by apply elem_of_list_to_set.
Qed.

(** C7. The expansion of an address space by 1 to 96 pages returns, given
    three things: the thread has the capability; the search for the next page
    that is present ends with an answer ([searchable]: the range starts at a
    boundary of 4 MB or in a slot of the directory that has a table, and no
    table from there on is empty); and the heap has a page for each new table
    (the code asserts it). Where a page of the range is mapped already it
    answers STATUS_RESOURCE_CONFLICT and changes nothing. Otherwise, when enough
    frames are free, every page of the range becomes present, writable and
    private, on a frame that no page had before; when they are not it reports an
    error. No other page changes in either case. The states are those that the
    steps of [mstep] lead to. *)
Theorem expand_adds_pages high blocks pages s msgs capabilities p sp first size :
  KERNEL_PAGED_BOUNDARY <= total_memory high -> heap_ok blocks pages -> reachable high blocks pages (s, msgs) -> spaces s !! p = Some sp ->
  capable capabilities CAPABILITY_EXPAND_ADDRESS_SPACE = true -> user_page first ->
  let n := PAGE_COUNT 0 size in 0 < n <= 96 -> first + n * 4096 <= 2 ^ 32 ->
  searchable (tables s) (page_directory sp) first -> n <= Z.of_nat (length (heap_pages (tables s))) ->
  exists st s', space_expand capabilities p first size s = Ret (st, s') /\
  (forall q pg, user_page pg -> q <> p \/ pg < first \/ first + n * 4096 <= pg -> entry_at s' q pg = entry_at s q pg) /\
  (~ free_range s p first n -> st = STATUS_RESOURCE_CONFLICT /\ s' = s) /\
  (free_range s p first n ->
    if decide (st = STATUS_SUCCESS) then forall k, 0 <= k < n -> let new := entry_at s' p (first + k * 4096) in
      is_present new = true /\ is_writable new = true /\ bindings s' !! (p, first + k * 4096) = None /\
      forall q pg, user_page pg -> is_present (entry_at s q pg) = true -> entry_address (entry_at s q pg) <> entry_address new
    else (forall q pg, entry_at s' q pg = entry_at s q pg) /\ exists used, frames_ok (frames s) used /\ Z.of_nat (base.size (valid_frames (frames s) ∖ used)) < n).
Proof.
  intros Hh Hb Hr E Hcap Hp n Hn Hend Hsearch Hheap. destruct (memory_reachable_ok _ _ _ _ Hh Hb Hr) as (used & Hm & _). cbn in Hm.
  destruct (space_expand_run capabilities s used _ p sp first n size Hm E Hcap eq_refl Hn Hp Hend Hsearch) as (r & Hfirst & ->). destruct (_ && _) eqn:Hc.
  - pose proof (search_conflict s p sp first n r E Hp Hfirst Hc). exists STATUS_RESOURCE_CONFLICT, s. done.
  - pose proof (search_free s p sp first n r E Hp Hend Hfirst Hc) as Hfree.
    pose proof (expand_by_wp true _ used s p sp first n Hm E Hp ltac:(lia) Hend (fun _ => conj Hheap Hfree)) as Hw. unfold mwp in Hw. destruct (expand_by p first n s) as [[st s']|]; [|done].
    exists st, s'. split; [done|]. destruct Hw as [[(-> & l & Hl & _ & Hfresh & Hm' & Hcom)|(Hst & _ & m & ->)] Hiff].
    + split; [intros q pg Hpg Hout; destruct Hcom as (_ & Hother & _); apply Hother; [done|by rewrite Hl]|]. split; [done|]. intros _. rewrite decide_True by done.
      intros k Hk. eapply expanded_page; done.
    + split; [done|]. split; [done|]. intros _. rewrite decide_False by done. split; [done|]. exists used. split; [apply Hm|]. destruct (Z.lt_ge_cases (Z.of_nat (base.size (valid_frames (frames s) ∖ used))) n); [done|].
      by destruct Hst; apply Hiff.
Qed.

(** A slot with neither a table nor a superpage. *)
Definition empty_slot (m : paging) (d i : Z) : bool := negb (is_present (word m (d, i))) && negb (is_super_page (word m (d, i))).

Lemma searchable_last m d page : is_present (word m (d, slot page)) = true -> page mod 2 ^ 22 <> 0 ->
  forallb (empty_slot m d) (seqZ (slot page + 1) (1023 - slot page)) = true -> searchable m d page.
Proof.
  intros Hpres Hne Hall. split; [by right|]. rewrite decide_False by done. intros i Hi. rewrite forallb_forall in Hall. specialize (Hall i).
  rewrite <- list_elem_of_In, elem_of_seqZ in Hall. apply andb_true_iff in Hall as [H1 H2]; [|lia]. apply negb_true_iff in H1, H2. split; [done|]. congruence.
Qed.

Definition demo_more : Z := 0x40002000.

Lemma demo_expands : exists s a sp, reachable 31744 demo_blocks demo_pages (s, []) /\ spaces s !! a = Some sp /\ searchable (tables s) (page_directory sp) demo_more /\
  PAGE_COUNT 0 8192 <= Z.of_nat (length (heap_pages (tables s))).
Proof.
  assert (match memory_manager_new 31744 demo_blocks demo_pages with Trap _ => false | Ret (_, s0) =>
    match demo_prepare s0 with Trap _ => false | Ret ((a, b), s) =>
    match spaces s !! a with None => false | Some sp => is_present (word (tables s) (page_directory sp, slot demo_more)) &&
      forallb (empty_slot (tables s) (page_directory sp)) (seqZ (slot demo_more + 1) (1023 - slot demo_more)) && (PAGE_COUNT 0 8192 <=? Z.of_nat (length (heap_pages (tables s))))
    end end end = true) as H by (vm_compute; reflexivity).
  destruct (memory_manager_new 31744 demo_blocks demo_pages) as [[p0 s0]|] eqn:E0; [|discriminate H]. destruct (demo_prepare s0) as [[[a b] s]|] eqn:E1; [|discriminate H].
  destruct (spaces s !! a) as [sp|] eqn:E2; [|discriminate H]. apply andb_true_iff in H as [[H1 H2]%andb_true_iff H3].
  exists s, a, sp. split; [exact (demo_prepare_reach p0 s0 a b s E0 E1)|]. split; [exact E2|]. split; [|exact (proj1 (Z.leb_le _ _) H3)].
  refine (searchable_last _ _ _ H1 _ H2). vm_compute. discriminate.
Qed.

Lemma expand_adds_pages_witness : exists s a st s', space_expand all_capabilities a demo_more 8192 s = Ret (st, s').
Proof.
  destruct demo_expands as (s & a & sp & Hr & E & Hs & Hh). assert (user_page demo_more) as Hp by (split; [vm_compute; split; [discriminate|reflexivity]|reflexivity]).
  destruct (expand_adds_pages 31744 demo_blocks demo_pages s [] all_capabilities a sp demo_more 8192 demo_high demo_heap_ok Hr E eq_refl Hp) as (st & s' & Er & _).
  - vm_compute. split; [reflexivity|discriminate].
  - vm_compute. discriminate.
  - exact Hs.
  - exact Hh.
  - exists s, a, st, s'. exact Er.
Defined.

(** C35. The walk through the page directory and its tables is a search in
    the order of the addresses, where [searchable] holds: the start is at a
    boundary of 4 MB or its slot of the directory has a table, and no table from
    there on is empty. It ends with the first page that is present, at its
    entry, or with entry 0 of the directory when there is none; it changes
    nothing. For any other start the comment of the function, which promises the
    first present entry at or beyond the address, does not hold: see
    [expand_stops_over_a_gap]. *)
Theorem find_present_entry_finds_first m dirs d page : paging_ok m dirs -> d ∈ dirs -> 0 <= page < 2 ^ 32 -> page mod 4096 = 0 ->
  searchable m d page -> is_super_page (word m (d, slot page)) = false ->
  exists e next, find_present_entry d page m = Ret ((e, next), m) /\
  ((page <= next < 2 ^ 32 /\ next mod 4096 = 0 /\ word m e = translation m d next /\ is_present (word m e) = true /\
      forall a, page <= a < next -> is_present (translation m d a) = false) \/
   (e = (d, 0) /\ next = 0 /\ forall a, page <= a < 2 ^ 32 -> is_present (translation m d a) = false)).
Proof.
  intros Hok Hd Hp Hal [Hs1 Hs2] Hsup. destruct (find_present_entry_ok m dirs d page Hok Hd Hp Hal Hs1 Hs2 Hsup) as ([e next] & E & Hfirst). exists e, next. split; [done|].
  destruct Hfirst as [(pg & Heq & Hpg & Hmod & Hpres & Habs)|[Heq Habs]]; injection Heq as -> ->; [left|by right]. done.
Qed.

Lemma find_present_entry_finds_first_witness : exists m d e next, find_present_entry d demo_more m = Ret ((e, next), m).
Proof.
  destruct demo_expands as (s & a & sp & Hr & E & Hs & _). destruct (memory_reachable_ok _ _ _ _ demo_high demo_heap_ok Hr) as (used & Hm & _). pose proof (mo_base _ _ _ Hm) as Hb. cbn in Hb.
  destruct (find_present_entry_finds_first (tables s) (dirs s) (page_directory sp) demo_more (mo_paging s Hb) (dir_of _ _ _ E)) as (e & next & Er & _).
  - vm_compute. split; [discriminate|reflexivity].
  - reflexivity.
  - exact Hs.
  - apply (mo_super s Hb); [exact (dir_of _ _ _ E)|]. vm_compute. split; [discriminate|reflexivity].
  - exists (tables s), (page_directory sp), e, next. exact Er.
Defined.

(** ** What goes wrong *)

(** C36. Expanding an address space at a free range can stop the kernel: when
    the range does not start at a boundary of 4 MB and its slot of the page
    directory has no table, the search for the next page that is present
    keeps the offset of the start from slot to slot, enters the next table in
    the middle, and fails an assertion when the rest of that table is empty;
    the pages in the first part of the table, which make the table exist,
    are not seen. *)
Theorem expand_stops_over_a_gap high blocks pages s msgs capabilities p sp first size k :
  KERNEL_PAGED_BOUNDARY <= total_memory high -> heap_ok blocks pages -> reachable high blocks pages (s, msgs) -> spaces s !! p = Some sp ->
  capable capabilities CAPABILITY_EXPAND_ADDRESS_SPACE = true -> user_page first ->
  let n := PAGE_COUNT 0 size in 0 < n <= 96 -> first mod 2 ^ 22 <> 0 -> 0 < k -> slot first + k < 1024 -> first + n * 4096 <= (slot first + k) * 2 ^ 22 ->
  (forall i, slot first <= i < slot first + k -> is_present (word (tables s) (page_directory sp, i)) = false) ->
  is_table (word (tables s) (page_directory sp, slot first + k)) = true ->
  (forall page, first + k * 2 ^ 22 <= page < (slot first + k + 1) * 2 ^ 22 -> is_present (entry_at s p page) = false) ->
  free_range s p first n /\ space_expand capabilities p first size s = Trap AssertFailed.
Proof.
  intros Hh Hb Hr E Hcap Hp n Hn Hun Hk Hlt Hend Habs Ht Hrest. destruct (memory_reachable_ok _ _ _ _ Hh Hb Hr) as (used & Hm & _). cbn in Hm. pose proof (mo_base _ _ _ Hm) as Hbase.
  pose proof (user_slot first Hp) as Hslot. pose proof (user_page_word first Hp) as Hw. destruct (slot_div first Hw) as [Hsd _]. split.
  - intros j Hj. rewrite (entry_at_space _ _ _ _ E). assert (0 <= first + j * 4096 < 2 ^ 32) as Hw' by (unfold PAYLOAD_AREA_BASE in *; lia).
    destruct (slot_div _ Hw') as [Hsj _]. apply (translation_absent _ _ _ (slot (first + j * 4096)) eq_refl), Habs.
    rewrite Hsd, Hsj. split; [apply Z.div_le_mono; lia|]. rewrite <- Hsd. apply Z.div_lt_upper_bound; lia.
  - rewrite (space_expand_search _ _ _ sp _ n) by (done || lia).
    destruct (find_present_entry_unaligned (tables s) (dirs s) (page_directory sp) first k (mo_paging s Hbase) (dir_of _ _ _ E) Hw (proj2 Hp) Hun Hk Hlt Habs Ht) as [(page & _ & Hpg & Hpres)|[-> _]]; [|done].
    specialize (Hrest page Hpg). rewrite (entry_at_space _ _ _ _ E) in Hrest. congruence.
Qed.

(** A new address space with one page, a little above the boundary at 0x40400000. *)
Definition demo_gap : M Z :=
  a ← manager_create_address_space all_capabilities true 5;
  space_expand all_capabilities a 0x40401000 4096;;
  mret a.

Lemma expand_stops_over_a_gap_witness : exists s a, reachable 31744 demo_blocks demo_pages (s, []) /\ is_present (entry_at s a 0x40401000) = true /\
  free_range s a 0x40003000 1 /\ space_expand all_capabilities a 0x40003000 4096 s = Trap AssertFailed.
Proof.
  assert (match memory_manager_new 31744 demo_blocks demo_pages with Trap _ => false | Ret (_, s0) =>
    match demo_gap s0 with Trap _ => false | Ret (a, s) =>
    match spaces s !! a with None => false | Some sp => is_present (entry_at s a 0x40401000) && negb (is_present (word (tables s) (page_directory sp, 256))) &&
      is_table (word (tables s) (page_directory sp, 257)) && forallb (fun j => negb (is_present (word (tables s) (entry_address (word (tables s) (page_directory sp, 257)), j)))) (seqZ 3 1021)
    end end end = true) as H by (vm_compute; reflexivity).
  destruct (memory_manager_new 31744 demo_blocks demo_pages) as [[p0 s0]|] eqn:E0; [|discriminate H]. destruct (demo_gap s0) as [[a s]|] eqn:E1; [|discriminate H].
  destruct (spaces s !! a) as [sp|] eqn:E2; [|discriminate H]. apply andb_true_iff in H as [[[H1 H2]%andb_true_iff H3]%andb_true_iff H4].
  assert (reachable 31744 demo_blocks demo_pages (s, [])) as Hr.
  { exists p0, s0. split; [exact E0|]. unfold demo_gap, mbind, M_bind in E1. destruct (manager_create_address_space _ true 5 s0) as [[a' s1]|] eqn:C1; [|discriminate E1].
    destruct (space_expand _ a' _ _ s1) as [[st s2]|] eqn:C2; [|discriminate E1]. injection E1 as -> ->.
    eapply rtc_l; [exact (step_create _ _ _ _ _ _ C1)|]. apply rtc_once. refine (step_expand _ _ _ _ _ _ _ _ _ C2). lia. }
  exists s, a. split; [exact Hr|]. split; [exact H1|].
  refine (expand_stops_over_a_gap 31744 demo_blocks demo_pages s [] all_capabilities a sp 0x40003000 4096 1 demo_high demo_heap_ok Hr E2 eq_refl _ _ _ _ _ _ _ H3 _).
  - split; [vm_compute; split; [discriminate|reflexivity]|reflexivity].
  - vm_compute. split; [reflexivity|discriminate].
  - vm_compute. discriminate.
  - reflexivity.
  - reflexivity.
  - vm_compute. discriminate.
  - intros i Hi. change (slot 0x40003000) with 256 in Hi. assert (i = 256) as -> by lia. exact (proj1 (negb_true_iff _) H2).
  - intros page Hpage. change (slot 0x40003000) with 256 in Hpage. rewrite (entry_at_space _ _ _ _ E2). assert (0 <= page < 2 ^ 32) as Hw by lia.
    destruct (slot_div page Hw) as [Hs _], (table_index_div page Hw) as [_ Hti]. pose proof (page_in_slot page Hw) as Hp.
    assert (slot page = 257) as Hsl by (rewrite Hs; symmetry; apply (Z.div_unique _ _ _ (page - 257 * 2 ^ 22)); lia).
    rewrite (translation_table _ _ page 257 Hsl H3). rewrite forallb_forall in H4. apply negb_true_iff, H4, list_elem_of_In, elem_of_seqZ. rewrite Hsl in Hp.
    pose proof (Z.div_mod page 4096 ltac:(lia)). pose proof (Z.mod_pos_bound page 4096 ltac:(lia)). lia.
Defined.

(** A process that deletes a message stops the kernel when the message is
    not in the payload area: the pages at the address are freed first, and
    then the block is looked for in the pools, which asserts that it is there. *)
Theorem delete_message_of_user_page_stops p d s : USER_BASE <= PAGE_BASE (data0 d) -> 0 <= data0 d < 2 ^ 32 -> 0 < data1 d ->
  exists e, syscall_delete_message p d s = Trap e.
Proof.
  intros Hlow Hd Hsize. unfold syscall_delete_message, mbind, M_bind. rewrite (proj2 (Z.ltb_lt _ _) Hsize).
  assert (LARGE_PAYLOAD_POOL_BASE <= PAGE_BASE (data0 d) <= data0 d) as [Hl1 Hl2].
  { destruct (page_base_bounds (data0 d) Hd) as ([_ ?] & _). split; [|done]. assert (LARGE_PAYLOAD_POOL_BASE <= USER_BASE) by (vm_compute; discriminate). lia. }
  unfold massert at 1, mlift at 1, kassert. destruct (negb (data0 d =? NULL)); [|by eexists]. rewrite (proj2 (Z.leb_le _ _)) by lia.
  change (mret tt : res unit) with (Ret tt). cbn iota beta.
  destruct (space_unshare_frame p (data0 d) (data1 d) s) as [[[] s1]|e]; [|exists e; reflexivity]. unfold space_free_large_payload_block, mbind, M_bind, massert, mlift, kassert.
  rewrite (proj2 (Z.leb_le _ _) Hl1), (proj2 (Z.ltb_ge _ _) Hlow). by eexists.
Qed.

Lemma delete_message_of_user_page_stops_witness : exists s a e, reachable 31744 demo_blocks demo_pages (s, []) /\ is_Some (spaces s !! a) /\
  syscall_delete_message a (mkSyscall 32 demo_page 4096 0 0 0 0 0) s = Trap e.
Proof.
  destruct demo_expands as (s & a & sp & Hr & E & _). exists s, a. destruct (delete_message_of_user_page_stops a (mkSyscall 32 demo_page 4096 0 0 0 0 0) s) as [e He].
  - vm_compute. discriminate.
  - vm_compute. split; [discriminate|reflexivity].
  - reflexivity.
  - exists e. split; [exact Hr|]. split; [exact (mk_is_Some _ _ E)|exact He].
Defined.

(** The sender of a message is destroyed after the receiver has got it; then the
    receiver gets a page. *)
Definition destroy_sender : M (Z * Z) :=
  '(a, b) ← demo_prepare;
  '(_, m) ← large_collect_payload all_capabilities a demo_message;
  '(_, m) ← large_deliver_payload b m;
  large_message_delete (lp_frame m);;
  space_remove_reference a;;
  delete_address_space a;;
  space_expand all_capabilities b demo_page 4096;;
  mret (b, PAGE_BASE (lp_receiver m)).

(** The destruction of an address space frees the frames of all its pages,
    also of those that it shares with others: after the sender of a message is
    gone, the payload of the receiver is on a frame that is free, and the next
    page that the receiver gets, which it can write, is the same memory. *)
Example destruction_frees_shared_frame : exists p0 s0 b page s,
  memory_manager_new 31744 demo_blocks demo_pages = Ret (p0, s0) /\ destroy_sender s0 = Ret ((b, page), s) /\ page <> demo_page /\
  is_present (entry_at s b page) = true /\ is_present (entry_at s b demo_page) = true /\ is_writable (entry_at s b demo_page) = true /\
  entry_address (entry_at s b page) = entry_address (entry_at s b demo_page).
Proof.
  assert (match memory_manager_new 31744 demo_blocks demo_pages with Trap _ => false | Ret (_, s0) =>
    match destroy_sender s0 with Trap _ => false | Ret ((b, page), s) => negb (page =? demo_page) && is_present (entry_at s b page) && is_present (entry_at s b demo_page) &&
      is_writable (entry_at s b demo_page) && (entry_address (entry_at s b page) =? entry_address (entry_at s b demo_page))
    end end = true) as H by (vm_compute; reflexivity).
  destruct (memory_manager_new 31744 demo_blocks demo_pages) as [[p0 s0]|] eqn:E0; [|discriminate H]. destruct (destroy_sender s0) as [[[b page] s]|] eqn:E1; [|discriminate H].
  apply andb_true_iff in H as [H H5]. apply andb_true_iff in H as [H H4]. apply andb_true_iff in H as [H H3]. apply andb_true_iff in H as [H1 H2].
  exists p0, s0, b, page, s. split; [reflexivity|]. split; [exact E1|]. split; [exact (proj1 (Z.eqb_neq _ _) (proj1 (negb_true_iff _) H1))|].
  split; [exact H2|]. split; [exact H3|]. split; [exact H4|exact (proj1 (Z.eqb_eq _ _) H5)].
Qed.
