(* ===== verification/KDevices.v ===== *)
(** * Interrupts and devices: [interrupt.hpp], [i8259pic.cpp], [device_proxy.cpp] and [monitor.cpp]

    The interrupt controller is its two mask registers and the writes to its
    ports. The device proxy keeps the list of handlers of each interrupt line;
    its requests act on the threads ([KThreads]), on the address space of the
    current thread ([KSpace]) and on the interrupt controller, the parts of the
    record [devices]. The address space of the current thread is the argument
    [p]. The blocking send of the I/O manager, during which other threads run,
    is the argument [send_message]. *)

From S2P Require Import Prelude CMem World Libdx Loader KBase KFrames KContainers KPorts KPaging KThreads KSpace.

(** ** interrupt_vectors.h, interrupt.hpp *)

Definition INTERRUPT_VECTOR_FIRST_PIC_IRQ : Z := 32.
Definition INTERRUPT_VECTOR_FIRST_MASTER_PIC_IRQ : Z := 32.
Definition INTERRUPT_VECTOR_LAST_MASTER_PIC_IRQ : Z := 39.
Definition INTERRUPT_VECTOR_FIRST_SLAVE_PIC_IRQ : Z := 40.
Definition INTERRUPT_VECTOR_LAST_PIC_IRQ : Z := 47.
Definition INTERRUPT_VECTOR_PIC_COUNT : Z := INTERRUPT_VECTOR_LAST_PIC_IRQ - INTERRUPT_VECTOR_FIRST_PIC_IRQ + 1.

Definition is_master_pic_interrupt (vector : Z) : bool :=
  (INTERRUPT_VECTOR_FIRST_MASTER_PIC_IRQ <=? vector) && (vector <=? INTERRUPT_VECTOR_LAST_MASTER_PIC_IRQ).
Definition is_pic_interrupt (vector : Z) : bool :=
  (INTERRUPT_VECTOR_FIRST_PIC_IRQ <=? vector) && (vector <=? INTERRUPT_VECTOR_LAST_PIC_IRQ).
Definition is_slave_pic_interrupt (vector : Z) : bool :=
  (INTERRUPT_VECTOR_FIRST_SLAVE_PIC_IRQ <=? vector) && (vector <=? INTERRUPT_VECTOR_FIRST_SLAVE_PIC_IRQ).

(** ** i8259pic.cpp *)

Definition i8259_OCW1_MASK_ALL_MASTER_IRQS : Z := 0xFB.
Definition i8259_OCW1_MASK_ALL_SLAVE_IRQS : Z := 0xFF.
Definition i8259_OCW2_NONSPECIFIC_END_OF_INTERRUPT : Z := 0x20.

(** [port_writes]: ports and values, in order. *)
Record pic_c := mkPic { master_mask : Z; slave_mask : Z; port_writes : list (Z * Z) }.

Definition write8 (port value : Z) (c : pic_c) : pic_c := mkPic (master_mask c) (slave_mask c) (port_writes c ++ [(port, u8 value)]).
Definition with_master (c : pic_c) (v : Z) : pic_c := mkPic v (slave_mask c) (port_writes c).
Definition with_slave (c : pic_c) (v : Z) : pic_c := mkPic (master_mask c) v (port_writes c).

(** The constructor: ICW1 to ICW4 of both controllers, then the masks. *)
Definition pic_new : pic_c :=
  let c := mkPic i8259_OCW1_MASK_ALL_MASTER_IRQS i8259_OCW1_MASK_ALL_SLAVE_IRQS [] in
  let icw1 := Z.lor 0x1 (Z.lor 0x0 (Z.lor 0x0 0x10)) in
  let icw4 := Z.lor 0x1 0x0 in
  let c := write8 0x20 icw1 c in
  let c := write8 0x21 INTERRUPT_VECTOR_FIRST_MASTER_PIC_IRQ c in
  let c := write8 0x21 0x4 c in
  let c := write8 0x21 icw4 c in
  let c := write8 0xA0 icw1 c in
  let c := write8 0xA1 INTERRUPT_VECTOR_FIRST_SLAVE_PIC_IRQ c in
  let c := write8 0xA1 0x2 c in
  let c := write8 0xA1 icw4 c in
  let c := write8 0x21 (master_mask c) c in
  write8 0xA1 (slave_mask c) c.

Definition acknowledge_interrupt (vector : Z) (c : pic_c) : res pic_c :=
  let ocw2 := i8259_OCW2_NONSPECIFIC_END_OF_INTERRUPT in
  kassert (is_pic_interrupt vector);;
  let c := if is_slave_pic_interrupt vector then write8 0xA0 ocw2 c else c in
  mret (write8 0x20 ocw2 c).

Definition mask_interrupt (irq : Z) (c : pic_c) : res pic_c :=
  let irq := u8 irq in
  let vector := irq + INTERRUPT_VECTOR_FIRST_PIC_IRQ in
  kassert (is_pic_interrupt vector);;
  mret (if is_master_pic_interrupt vector then
          let c := with_master c (u8 (Z.lor (master_mask c) (Z.shiftl 1 irq))) in write8 0x21 (master_mask c) c
        else if is_slave_pic_interrupt vector then
          let c := with_slave c (u8 (Z.lor (slave_mask c) (Z.shiftl 1 (irq - 8)))) in write8 0xA1 (slave_mask c) c
        else c).

Definition unmask_interrupt (irq : Z) (c : pic_c) : res pic_c :=
  let irq := u8 irq in
  let vector := irq + INTERRUPT_VECTOR_FIRST_PIC_IRQ in
  kassert (is_pic_interrupt vector);;
  mret (if is_master_pic_interrupt vector then
          let c := with_master c (u8 (Z.land (master_mask c) (Z.lnot (Z.shiftl 1 irq)))) in write8 0x21 (master_mask c) c
        else if is_slave_pic_interrupt vector then
          let c := with_slave c (u8 (Z.land (slave_mask c) (Z.lnot (Z.shiftl 1 (irq - 8))))) in write8 0xA1 (slave_mask c) c
        else c).

(** ** device_proxy.cpp *)

Definition CAPABILITY_MAP_DEVICE : Z := 0x0040.
Definition CAPABILITY_UNMAP_DEVICE : Z := 0x0080.

(** A handler is a thread: its address and its id, which is constant. *)
Record devices := mkDevices {
  dv_kernel : kernel; dv_memory : KSpace.memory; interrupt_handler : list (list_m (Z * Z)); dv_pic : pic_c }.

Definition with_handlers s v := mkDevices (dv_kernel s) (dv_memory s) v (dv_pic s).

Definition X (A : Type) : Type := devices -> res (A * devices).

#[export] Instance X_ret : MRet X := fun A a s => Ret (a, s).
#[export] Instance X_bind : MBind X := fun A B k c s =>
  match c s with
  | Ret (a, s') => k a s'
  | Trap t => Trap t
  end.

Definition xlift {A} (c : res A) : X A := fun s => match c with Ret a => Ret (a, s) | Trap t => Trap t end.
Definition xassert (b : bool) : X unit := xlift (kassert b).
Definition on_kernel {A} (c : K A) : X A := fun s =>
  match c (dv_kernel s) with
  | Ret (a, k) => Ret (a, mkDevices k (dv_memory s) (interrupt_handler s) (dv_pic s))
  | Trap t => Trap t
  end.
Definition on_memory {A} (c : M A) : X A := fun s =>
  match c (dv_memory s) with
  | Ret (a, m) => Ret (a, mkDevices (dv_kernel s) m (interrupt_handler s) (dv_pic s))
  | Trap t => Trap t
  end.
Definition on_pic (f : pic_c -> res pic_c) : X unit := fun s =>
  match f (dv_pic s) with
  | Ret c => Ret (tt, mkDevices (dv_kernel s) (dv_memory s) (interrupt_handler s) c)
  | Trap t => Trap t
  end.
Definition handlers_of (irq : Z) : X (list_m (Z * Z)) := fun s =>
  match interrupt_handler s !! Z.to_nat irq with Some l => Ret (l, s) | None => Trap (BadIndex irq) end.
Definition set_handlers (irq : Z) (l : list_m (Z * Z)) : X unit := fun s =>
  Ret (tt, with_handlers s (<[Z.to_nat irq := l]> (interrupt_handler s))).

Definition same_handler (a b : Z * Z) : bool := a.2 =? b.2.

Section Proxy.
Context `{environment} (e : reentry).

(** The current thread, as a handler. *)
Definition current_handler : X (Z * Z) :=
  current ← on_kernel (gets current_thread);
  t ← on_kernel (thread_at current);
  mret (current, t_id t).

Definition proxy_register_interrupt_handler (d : syscall_data) : X Z :=
  let irq := data0 d in
  xassert (data1 d =? DEVICE_TYPE_INTERRUPT);;
  if INTERRUPT_VECTOR_PIC_COUNT <=? irq then mret STATUS_INVALID_DATA
  else
    h ← current_handler;
    on_kernel (add_reference h.1);;
    l ← handlers_of irq;
    ok ← on_kernel (gets memory_available);
    l ← xlift (list_add ok h l);
    set_handlers irq l;;
    on_pic (unmask_interrupt irq);;
    mret STATUS_SUCCESS.

Definition proxy_unregister_interrupt_handler (d : syscall_data) : X Z :=
  let irq := data0 d in
  xassert (data1 d =? DEVICE_TYPE_INTERRUPT);;
  if irq <? INTERRUPT_VECTOR_PIC_COUNT then
    h ← current_handler;
    l ← handlers_of irq;
    l ← xlift (list_remove same_handler h l);
    set_handlers irq l;;
    (if list_count l =? 0 then on_pic (mask_interrupt irq) else mret tt);;
    on_kernel (remove_reference e h.1);;
    mret STATUS_SUCCESS
  else mret STATUS_INVALID_DATA.

Definition proxy_enable_io_port (p : Z) (d : syscall_data) : X Z :=
  xassert (data1 d =? DEVICE_TYPE_IO_PORT);;
  on_memory (space_enable_io_port p (u16 (data0 d)) (u16 (data2 d))).

Definition proxy_disable_io_port (p : Z) (d : syscall_data) : X Z :=
  xassert (data1 d =? DEVICE_TYPE_IO_PORT);;
  on_memory (space_disable_io_port p (u16 (data0 d)) (u16 (data2 d))).

(** The start of the kernel, from the linker script. *)
Definition KERNEL_IMAGE_START : Z := 0x200000.

Definition in_kernel_image (a : Z) : bool := (KERNEL_IMAGE_START <=? a) && (a <? USER_KERNEL_BOUNDARY).

(** The physical addresses that span the device memory. *)
Fixpoint device_frames (n : nat) (a : Z) : list Z :=
  match n with
  | O => []
  | S n' => a :: device_frames n' (u32 (a + PAGE_SIZE))
  end.

(** The status and [syscall->data0]. *)
Definition map_memory (p : Z) (d : syscall_data) : X (Z * Z) :=
  let page_count := PAGE_COUNT 0 (data2 d) in
  xassert (data1 d =? DEVICE_TYPE_MEMORY);;
  let device_memory := data0 d in
  let failed status := mret (status, data0 d) in
  aligned ← xlift (is_aligned device_memory PAGE_SIZE);
  if (device_memory =? INVALID_FRAME) || negb aligned || (page_count =? 0) then failed STATUS_INVALID_DATA
  else if in_kernel_image device_memory then failed STATUS_ACCESS_DENIED
  else if in_kernel_image (u32 (device_memory + page_count * PAGE_SIZE)) then failed STATUS_ACCESS_DENIED
  else
    mapped_address ← on_memory (space_allocate_large_payload_block p page_count);
    if mapped_address =? NULL then failed STATUS_INSUFFICIENT_MEMORY
    else
      status ← on_memory (space_commit_frame p mapped_address (device_frames (Z.to_nat page_count) device_memory) (Z.lor MEMORY_WRITABLE MEMORY_USER));
      if status =? STATUS_SUCCESS then mret (status, mapped_address)
      else
        on_memory (space_decommit_frame p mapped_address page_count);;
        on_memory (space_free_large_payload_block p mapped_address);;
        failed status.

Definition unmap_memory (p : Z) (d : syscall_data) : X Z :=
  let mapped_address := data0 d in
  let page_count := PAGE_COUNT mapped_address (data2 d) in
  xassert (data1 d =? DEVICE_TYPE_MEMORY);;
  aligned ← xlift (is_aligned mapped_address PAGE_SIZE);
  if (mapped_address =? NULL) || negb aligned || negb (is_user_address mapped_address) || (page_count =? 0) then mret STATUS_INVALID_DATA
  else
    on_memory (space_decommit_frame p mapped_address page_count);;
    on_memory (space_free_large_payload_block p mapped_address);;
    mret STATUS_SUCCESS.

(** The status and [syscall->data0]. *)
Definition proxy_map_device (p : Z) (d : syscall_data) : X (Z * Z) :=
  current ← on_kernel (gets current_thread);
  t ← on_kernel (thread_at current);
  if has_capability CAPABILITY_MAP_DEVICE t then
    if data1 d =? DEVICE_TYPE_INTERRUPT then status ← proxy_register_interrupt_handler d; mret (status, data0 d)
    else if data1 d =? DEVICE_TYPE_MEMORY then map_memory p d
    else if data1 d =? DEVICE_TYPE_IO_PORT then status ← proxy_enable_io_port p d; mret (status, data0 d)
    else mret (STATUS_INVALID_DATA, data0 d)
  else mret (STATUS_ACCESS_DENIED, data0 d).

Definition proxy_unmap_device (p : Z) (d : syscall_data) : X Z :=
  current ← on_kernel (gets current_thread);
  t ← on_kernel (thread_at current);
  if has_capability CAPABILITY_UNMAP_DEVICE t then
    if data1 d =? DEVICE_TYPE_INTERRUPT then proxy_unregister_interrupt_handler d
    else if data1 d =? DEVICE_TYPE_MEMORY then unmap_memory p d
    else if data1 d =? DEVICE_TYPE_IO_PORT then proxy_disable_io_port p d
    else mret STATUS_INVALID_DATA
  else mret STATUS_ACCESS_DENIED.

(** [io_manager_c::send_message]: the status and the reply. *)
Context (send_message : Z -> X (Z * Z)) (rand : devices -> Z).

(** The loop of [wake_interrupt_handlers] from handler [i] on. *)
Fixpoint wake_from (n : nat) (i irq current : Z) : X unit :=
  match n with
  | O => mret tt
  | S n' =>
      l ← handlers_of irq;
      h ← xlift (list_index l i);
      id ← (fun s => Ret (rand s, s));
      message ← on_kernel (new_small_message current h.1 MESSAGE_TYPE_HANDLE_INTERRUPT id irq);
      (if message =? NULL then mret tt
       else
         '(status, acknowledgement) ← send_message message;
         if negb (status =? STATUS_SUCCESS) then on_kernel (destroy_message e message)
         else
           xassert (negb (acknowledgement =? NULL));;
           on_kernel (destroy_message e acknowledgement));;
      wake_from n' (i + 1) irq current
  end.

Definition wake_interrupt_handlers (vector : Z) : X unit :=
  let irq := vector - INTERRUPT_VECTOR_FIRST_PIC_IRQ in
  xassert (irq <? INTERRUPT_VECTOR_PIC_COUNT);;
  l ← handlers_of irq;
  current ← on_kernel (gets current_thread);
  let thread_count := list_count l in
  xassert (0 <? thread_count);;
  wake_from (Z.to_nat thread_count) 0 irq current.

(** [syscall] is the descriptor that [validate_syscall] accepted. *)
Definition proxy_handle_interrupt (p vector : Z) (syscall : option syscall_data) : X (option syscall_data) :=
  if (INTERRUPT_VECTOR_FIRST_PIC_IRQ + 1 <=? vector) && (vector <=? INTERRUPT_VECTOR_LAST_PIC_IRQ) then
    wake_interrupt_handlers vector;; mret syscall
  else if vector =? SYSTEM_CALL_VECTOR_MAP_DEVICE then
    match syscall with
    | Some d => '(status, address) ← proxy_map_device p d; mret (Some (mkSyscall (size d) address (data1 d) (data2 d) (data3 d) (data4 d) (data5 d) status))
    | None => mret None
    end
  else if vector =? SYSTEM_CALL_VECTOR_UNMAP_DEVICE then
    match syscall with
    | Some d => status ← proxy_unmap_device p d; mret (Some (mkSyscall (size d) (data0 d) (data1 d) (data2 d) (data3 d) (data4 d) (data5 d) status))
    | None => mret None
    end
  else xassert false;; mret syscall.

(** [device_proxy_c]. *)
Definition proxy_new : list (list_m (Z * Z)) := replicate (Z.to_nat INTERRUPT_VECTOR_PIC_COUNT) list_new.

End Proxy.

(** ** The constructor of [io_manager_c]: it starts the clock *)

Definition io_manager_new : X unit :=
  on_kernel (modify (fun k => with_counters k (mkCounters 0 0 0 0 0 0 0)));;
  null ← on_kernel (gets null_thread);
  xassert (negb (null =? NULL));;
  on_pic (unmask_interrupt 0).

(** ** monitor.cpp *)

(** What the three subsystems report. *)
Definition all_stats : X (kernel_stats * (Z * (Z * Z * Z) * Z * Z)) := fun s =>
  Ret ((read_stats (dv_kernel s), memory_read_stats (dv_memory s)), s).

(** The descriptor with its status, and what is stored at [syscall->data0]. *)
Definition monitor_handle_interrupt (vector : Z) (syscall : option syscall_data) :
  X (option syscall_data * option (kernel_stats * (Z * (Z * Z * Z) * Z * Z))) :=
  xassert (vector =? SYSTEM_CALL_VECTOR_READ_KERNEL_STATS);;
  match syscall with
  | None => mret (None, None)
  | Some d =>
      let answer status := Some (mkSyscall (size d) (data0 d) (data1 d) (data2 d) (data3 d) (data4 d) (data5 d) status) in
      if data0 d =? NULL then mret (answer STATUS_INVALID_DATA, None)
      else if negb (is_user_address (data0 d)) then mret (answer STATUS_ACCESS_DENIED, None)
      else stats ← all_stats; mret (answer STATUS_SUCCESS, Some stats)
  end.
