(* ===== verification/KDevicesThms.v ===== *)
(** * What the device proxy and the interrupt controller promise

    The lines of the two controllers as one register; that the lines of
    registered handlers are open, as far as the controller can open them; that
    device memory is never the memory of the kernel; and what a stray request
    does to the count of references. *)

From S2P Require Import Prelude CMem World Libdx Loader KBase KFrames KBitmapThms KHeap KHeapThms KContainers KContainersThms KPorts KPaging KThreads KThreadThms KSpace KSpaceMsg KSpaceThms KDevices.

(** ** The interrupt controller *)

(** The masks as one register of sixteen lines; a set bit is a closed line. *)
Definition line_masked (c : pic_c) (irq : Z) : bool := if irq <? 8 then Z.testbit (master_mask c) irq else Z.testbit (slave_mask c) (irq - 8).

(** The lines that the driver can open and close. *)
Definition reachable_line (irq : Z) : Prop := 0 <= irq <= 8.

Lemma u8_bit v i : 0 <= i < 8 -> Z.testbit (u8 v) i = Z.testbit v i.
Proof. intros Hi. unfold u8. change 256 with (2 ^ 8). apply Z.mod_pow2_bits_low; lia. Qed.

Lemma set_bit v k i : 0 <= k < 8 -> 0 <= i < 8 -> Z.testbit (u8 (Z.lor v (Z.shiftl 1 k))) i = (if decide (i = k) then true else Z.testbit v i).
Proof.
  intros Hk Hi. rewrite u8_bit, Z.lor_spec, Z.shiftl_spec by lia. case_decide as E.
  - subst. rewrite Z.sub_diag. apply orb_true_r.
  - replace (Z.testbit 1 (i - k)) with false; [apply orb_false_r|]. symmetry. destruct (Z.lt_ge_cases i k); [by rewrite Z.testbit_neg_r by lia|]. apply Z.bits_above_log2; [lia|cbn; lia].
Qed.

Lemma clear_bit v k i : 0 <= k < 8 -> 0 <= i < 8 -> Z.testbit (u8 (Z.land v (Z.lnot (Z.shiftl 1 k)))) i = (if decide (i = k) then false else Z.testbit v i).
Proof.
  intros Hk Hi. rewrite u8_bit, Z.land_spec, Z.lnot_spec, Z.shiftl_spec by lia. case_decide as E.
  - subst. rewrite Z.sub_diag. apply andb_false_r.
  - replace (Z.testbit 1 (i - k)) with false; [apply andb_true_r|]. symmetry. destruct (Z.lt_ge_cases i k); [by rewrite Z.testbit_neg_r by lia|]. apply Z.bits_above_log2; [lia|cbn; lia].
Qed.

(** What a change of a line does to all lines. *)
Definition changes_line (irq : Z) (v : bool) (c c' : pic_c) : Prop :=
  forall i, 0 <= i < 16 -> line_masked c' i = (if decide (i = irq /\ reachable_line irq) then v else line_masked c i).

Lemma line_case irq : 0 <= irq < 16 -> let vector := u8 irq + INTERRUPT_VECTOR_FIRST_PIC_IRQ in is_pic_interrupt vector = true /\ is_master_pic_interrupt vector = (irq <? 8) /\ is_slave_pic_interrupt vector = (irq =? 8) /\ u8 irq = irq.
Proof.
  intros Hi. rewrite u8_small by lia. unfold is_pic_interrupt, is_master_pic_interrupt, is_slave_pic_interrupt, INTERRUPT_VECTOR_FIRST_PIC_IRQ, INTERRUPT_VECTOR_LAST_PIC_IRQ, INTERRUPT_VECTOR_FIRST_MASTER_PIC_IRQ, INTERRUPT_VECTOR_LAST_MASTER_PIC_IRQ, INTERRUPT_VECTOR_FIRST_SLAVE_PIC_IRQ.
  split; [apply andb_true_iff; split; apply Z.leb_le; lia|]. split; [|split; [|done]].
  - destruct (Z.ltb_spec irq 8); [apply andb_true_iff; split; apply Z.leb_le; lia|apply andb_false_iff; right; apply Z.leb_gt; lia].
  - destruct (Z.eqb_spec irq 8) as [->|]; [done|]. apply andb_false_iff. destruct (Z.lt_ge_cases irq 8); [left|right]; apply Z.leb_gt; lia.
Qed.

Lemma mask_interrupt_run irq c : 0 <= irq < 16 -> exists c', mask_interrupt irq c = Ret c' /\ changes_line irq true c c'.
Proof.
  intros Hi. unfold mask_interrupt. destruct (line_case irq Hi) as (H1 & H2 & H3 & H4). cbv zeta in *. rewrite H1, H2, H3, H4. cbn. eexists. split; [reflexivity|]. intros i Hr. unfold line_masked, reachable_line.
  destruct (Z.ltb_spec irq 8) as [Hlt|Hge]; [|destruct (Z.eqb_spec irq 8) as [->|Hne]]; cbn [master_mask slave_mask with_master with_slave write8].
  - destruct (Z.ltb_spec i 8); [rewrite set_bit by lia; repeat case_decide; lia || done|]. rewrite decide_False by lia. done.
  - destruct (Z.ltb_spec i 8); [by rewrite decide_False by lia|]. change (8 - 8) with 0. rewrite set_bit by lia. repeat case_decide; lia || done.
  - by rewrite decide_False by lia.
Qed.

Lemma unmask_interrupt_run irq c : 0 <= irq < 16 -> exists c', unmask_interrupt irq c = Ret c' /\ changes_line irq false c c'.
Proof.
  intros Hi. unfold unmask_interrupt. destruct (line_case irq Hi) as (H1 & H2 & H3 & H4). cbv zeta in *. rewrite H1, H2, H3, H4. cbn. eexists. split; [reflexivity|]. intros i Hr. unfold line_masked, reachable_line.
  destruct (Z.ltb_spec irq 8) as [Hlt|Hge]; [|destruct (Z.eqb_spec irq 8) as [->|Hne]]; cbn [master_mask slave_mask with_master with_slave write8].
  - destruct (Z.ltb_spec i 8); [rewrite clear_bit by lia; repeat case_decide; lia || done|]. rewrite decide_False by lia. done.
  - destruct (Z.ltb_spec i 8); [by rewrite decide_False by lia|]. change (8 - 8) with 0. rewrite clear_bit by lia. repeat case_decide; lia || done.
  - by rewrite decide_False by lia.
Qed.

Lemma acknowledge_run vector c c' : acknowledge_interrupt vector c = Ret c' -> forall i, line_masked c' i = line_masked c i.
Proof.
  unfold acknowledge_interrupt, kassert. destruct (is_pic_interrupt vector); [|done]. cbn. intros [= <-] i. by destruct (is_slave_pic_interrupt vector).
Qed.

(** ** Registration *)

Lemma xrun_inv {A B} (c : X A) (k : A -> X B) s y s2 : (c ≫= k) s = Ret (y, s2) -> exists x s1, c s = Ret (x, s1) /\ k x s1 = Ret (y, s2).
Proof. unfold mbind, X_bind. destruct (c s) as [[x s1]|t] eqn:E; [|done]. eauto. Qed.

(** Takes the first command of a run apart. *)
Ltac xinv H := let x := fresh "x" in let s1 := fresh "s" in let E := fresh "E" in apply xrun_inv in H as (x & s1 & E & H).

Lemma list_add_any {A} ok (x : A) l l' : list_add ok x l = Ret l' -> list_add true x l = Ret l'.
Proof.
  destruct ok; [done|]. unfold list_add, array_write. destruct (slot_count (list_array l) <=? list_count l); [done|]. done.
Qed.

Lemma on_kernel_keeps {A} (c : K A) s x s1 : on_kernel c s = Ret (x, s1) -> interrupt_handler s1 = interrupt_handler s /\ dv_pic s1 = dv_pic s /\ dv_memory s1 = dv_memory s.
Proof. unfold on_kernel. destruct (c (dv_kernel s)) as [[a k]|]; [|done]. by intros [= _ <-]. Qed.

Lemma current_handler_keeps s x s1 : current_handler s = Ret (x, s1) -> interrupt_handler s1 = interrupt_handler s /\ dv_pic s1 = dv_pic s.
Proof.
  unfold current_handler. intros H. xinv H. xinv H. destruct (on_kernel_keeps _ _ _ _ E) as (H1 & H2 & _). destruct (on_kernel_keeps _ _ _ _ E0) as (H3 & H4 & _). injection H as <- <-. by rewrite H3, H4.
Qed.

Lemma handlers_of_inv irq s l s1 : handlers_of irq s = Ret (l, s1) -> interrupt_handler s !! Z.to_nat irq = Some l /\ s1 = s.
Proof. unfold handlers_of. destruct (_ !! _) as [l'|]; [|done]. by intros [= -> ->]. Qed.

Lemma xlift_inv {A} (c : res A) s x s1 : xlift c s = Ret (x, s1) -> c = Ret x /\ s1 = s.
Proof. unfold xlift. destruct c; [|done]. by intros [= -> ->]. Qed.

Lemma line_decide irq (v b : bool) old : (old = if decide (reachable_line irq) then b else true) -> (if decide (irq = irq /\ reachable_line irq) then v else old) = (if decide (reachable_line irq) then v else true).
Proof. intros ->. destruct (decide (reachable_line irq)) as [Hr|Hr]; [by rewrite decide_True by done|]. by rewrite decide_False by (by intros [_ ?]). Qed.

Section Registration.
Context `{environment} (e : reentry).

(** What a registration does, when it returns. *)
Lemma register_inv d s st s' : proxy_register_interrupt_handler d s = Ret (st, s') ->
  st = STATUS_INVALID_DATA /\ INTERRUPT_VECTOR_PIC_COUNT <= data0 d /\ s' = s \/
  st = STATUS_SUCCESS /\ data0 d < INTERRUPT_VECTOR_PIC_COUNT /\ exists h l l' c, interrupt_handler s !! Z.to_nat (data0 d) = Some l /\ list_add true h l = Ret l' /\
    unmask_interrupt (data0 d) (dv_pic s) = Ret c /\ interrupt_handler s' = <[Z.to_nat (data0 d) := l']> (interrupt_handler s) /\ dv_pic s' = c.
Proof.
  unfold proxy_register_interrupt_handler. intros H0. xinv H0. apply xlift_inv in E as [_ ->]. destruct (Z.leb_spec INTERRUPT_VECTOR_PIC_COUNT (data0 d)) as [Hge|Hlt].
  { injection H0 as <- <-. by left. }
  right. xinv H0. xinv H0. xinv H0. xinv H0. xinv H0. xinv H0. xinv H0.
  destruct (current_handler_keeps _ _ _ E) as [K1 K2]. destruct (on_kernel_keeps _ _ _ _ E0) as (K3 & K4 & _). apply handlers_of_inv in E1 as [El ->].
  destruct (on_kernel_keeps _ _ _ _ E2) as (K5 & K6 & _). apply xlift_inv in E3 as [Ea ->]. injection E4 as _ <-. unfold on_pic in E5. cbn in E5.
  destruct (unmask_interrupt (data0 d) (dv_pic s3)) as [c|] eqn:Ep; [|done]. injection E5 as _ <-. injection H0 as <- <-. split; [done|]. split; [done|].
  exists x0, x2, x4, c. rewrite K6, K4, K2 in Ep. cbn. rewrite K5, K3, K1. rewrite K3, K1 in El. split; [done|]. split; [by eapply list_add_any|done].
Qed.

Lemma unregister_inv d s st s' : proxy_unregister_interrupt_handler e d s = Ret (st, s') ->
  st = STATUS_INVALID_DATA /\ INTERRUPT_VECTOR_PIC_COUNT <= data0 d /\ s' = s \/
  st = STATUS_SUCCESS /\ data0 d < INTERRUPT_VECTOR_PIC_COUNT /\ exists h l l', interrupt_handler s !! Z.to_nat (data0 d) = Some l /\ list_remove same_handler h l = Ret l' /\
    interrupt_handler s' = <[Z.to_nat (data0 d) := l']> (interrupt_handler s) /\
    (if list_count l' =? 0 then mask_interrupt (data0 d) (dv_pic s) = Ret (dv_pic s') else dv_pic s' = dv_pic s).
Proof.
  unfold proxy_unregister_interrupt_handler. intros H0. xinv H0. apply xlift_inv in E as [_ ->]. destruct (Z.ltb_spec (data0 d) INTERRUPT_VECTOR_PIC_COUNT) as [Hlt|Hge]; cycle 1.
  { injection H0 as <- <-. by left. }
  right. xinv H0. xinv H0. xinv H0. xinv H0. xinv H0. xinv H0. destruct (current_handler_keeps _ _ _ E) as [K1 K2]. apply handlers_of_inv in E0 as [El ->]. apply xlift_inv in E1 as [Er ->].
  injection E2 as _ <-. destruct (on_kernel_keeps _ _ _ _ E4) as (K3 & K4 & _). injection H0 as <- <-. split; [done|]. split; [done|]. exists x0, x1, x2. rewrite K1 in El. split; [done|]. split; [done|].
  destruct (list_count x2 =? 0).
  - unfold on_pic in E3. cbn in E3. destruct (mask_interrupt (data0 d) (dv_pic s0)) as [c|] eqn:Em; [|done]. injection E3 as _ <-. cbn in K3, K4. rewrite K2 in Em. by rewrite K3, K4, K1, Em.
  - injection E3 as _ <-. cbn in K3, K4. by rewrite K3, K4, K1, K2.
Qed.

(** What they do to the threads is an operation of the machine of [KThreadThms]. *)
Lemma current_handler_kernel s h s1 : current_handler s = Ret (h, s1) -> h.1 = current_thread (dv_kernel s) /\ dv_kernel s1 = dv_kernel s.
Proof.
  unfold current_handler, mbind, X_bind, on_kernel, gets, thread_at. cbn. destruct (_ !! _); [|done]. by intros [= <- <-].
Qed.

Lemma on_kernel_inv {A} (c : K A) s x s1 : on_kernel c s = Ret (x, s1) -> c (dv_kernel s) = Ret (x, dv_kernel s1).
Proof. unfold on_kernel. destruct (c (dv_kernel s)) as [[a k]|]; [|done]. by intros [= <- <-]. Qed.

Lemma on_pic_kernel f s x s1 : on_pic f s = Ret (x, s1) -> dv_kernel s1 = dv_kernel s.
Proof. unfold on_pic. destruct (f (dv_pic s)); [|done]. by intros [= _ <-]. Qed.

Lemma register_is_operation n d s s' : proxy_register_interrupt_handler d s = Ret (STATUS_SUCCESS, s') ->
  perform n (OpRegister (data0 d)) (dv_kernel s) = Ret (tt, dv_kernel s').
Proof.
  unfold proxy_register_interrupt_handler. intros H0. xinv H0. apply xlift_inv in E as [_ ->]. destruct (INTERRUPT_VECTOR_PIC_COUNT <=? data0 d); [done|].
  xinv H0. xinv H0. xinv H0. xinv H0. xinv H0. xinv H0. xinv H0. destruct (current_handler_kernel _ _ _ E) as [H1 H2]. apply on_kernel_inv in E0, E2.
  apply handlers_of_inv in E1 as [_ ->]. apply xlift_inv in E3 as [_ ->]. injection E4 as _ <-. apply on_pic_kernel in E5. injection H0 as <-.
  cbn in E5. rewrite E5. injection E2 as _ <-. destruct x1. rewrite H1, H2 in E0. exact E0.
Qed.

Lemma unregister_is_operation n d s s' : proxy_unregister_interrupt_handler (entries n) d s = Ret (STATUS_SUCCESS, s') ->
  perform n (OpUnregister (data0 d)) (dv_kernel s) = Ret (tt, dv_kernel s').
Proof.
  unfold proxy_unregister_interrupt_handler. intros H0. xinv H0. apply xlift_inv in E as [_ ->]. destruct (data0 d <? INTERRUPT_VECTOR_PIC_COUNT); [|done].
  xinv H0. xinv H0. xinv H0. xinv H0. xinv H0. xinv H0. destruct (current_handler_kernel _ _ _ E) as [H1 H2]. apply on_kernel_inv in E4.
  apply handlers_of_inv in E0 as [_ ->]. apply xlift_inv in E1 as [_ ->]. injection E2 as _ <-. injection H0 as <-.
  assert (dv_kernel s4 = dv_kernel s0) as H3. { destruct (list_count _ =? 0); [by apply on_pic_kernel in E3|by injection E3 as _ <-]. }
  rewrite H3, H2, H1 in E4. destruct x5. exact E4.
Qed.

(** The traffic: requests, acknowledgements, and whatever happens elsewhere. *)
Inductive device_step : devices -> devices -> Prop :=
  | device_other s k m : device_step s (mkDevices k m (interrupt_handler s) (dv_pic s))
  | device_register d s st s' : 0 <= data0 d -> (forall l, interrupt_handler s !! Z.to_nat (data0 d) = Some l -> list_count l < 2 ^ 28) ->
      proxy_register_interrupt_handler d s = Ret (st, s') -> device_step s s'
  | device_unregister d s st s' : 0 <= data0 d -> proxy_unregister_interrupt_handler e d s = Ret (st, s') -> device_step s s'
  | device_acknowledge vector s c : acknowledge_interrupt vector (dv_pic s) = Ret c -> device_step s (mkDevices (dv_kernel s) (dv_memory s) (interrupt_handler s) c).

Definition devices_boot (k : kernel) (m : KSpace.memory) : devices := mkDevices k m proxy_new pic_new.

(** The handlers of each line, and the state of the lines. *)
Definition devices_hold (s : devices) (hs : list (list (Z * Z))) : Prop :=
  length hs = 16%nat /\ Forall2 list_holds (interrupt_handler s) hs /\
  forall irq, 0 < irq < 16 -> irq <> 2 -> line_masked (dv_pic s) irq = (if decide (reachable_line irq) then bool_decide (hs !! Z.to_nat irq = Some []) else true).

Lemma boot_holds k m s : io_manager_new (devices_boot k m) = Ret (tt, s) -> devices_hold s (replicate 16 []).
Proof.
  intros E. unfold io_manager_new in E. xinv E. apply on_kernel_keeps in E0 as (Hh & Hp & _). xinv E. apply on_kernel_keeps in E0 as (Hh1 & Hp1 & _).
  xinv E. apply xlift_inv in E0 as [_ ->]. unfold on_pic in E. rewrite Hp1, Hp in E. cbn [dv_pic devices_boot] in E.
  destruct (unmask_interrupt 0 pic_new) as [c|] eqn:Ec; [|done]. injection E as <-. split; [done|]. split.
  - cbn [interrupt_handler]. rewrite Hh1, Hh. apply Forall2_replicate, list_new_holds.
  - intros irq Hi Hne. assert (replicate 16 [] !! Z.to_nat irq = Some (@nil (Z * Z))) as -> by (apply lookup_replicate_2; lia). rewrite bool_decide_eq_true_2 by done.
    assert (forallb (fun i => (i =? 2) || line_masked c i) (seqZ 1 15) = true) as Hall by (injection Ec as <-; vm_compute; done). rewrite forallb_forall in Hall.
    specialize (Hall irq). rewrite (proj2 (Z.eqb_neq irq 2) Hne) in Hall. cbn [orb] in Hall. cbn [dv_pic]. rewrite Hall; [by case_decide|]. apply list_elem_of_In, elem_of_seqZ. lia.
Qed.

Lemma hold_line s hs irq xs l : devices_hold s hs -> interrupt_handler s !! irq = Some l -> hs !! irq = Some xs -> list_holds l xs.
Proof. intros (_ & H2 & _) E1 E2. exact (Forall2_lookup_lr _ _ _ _ _ _ H2 E1 E2). Qed.

(** The invariant is kept when one line changes with its list. *)
Lemma hold_change s hs irq l l' xs ys c s' : devices_hold s hs -> 0 <= irq < 16 -> interrupt_handler s !! Z.to_nat irq = Some l -> hs !! Z.to_nat irq = Some xs ->
  list_holds l' ys -> interrupt_handler s' = <[Z.to_nat irq := l']> (interrupt_handler s) -> dv_pic s' = c ->
  (forall i, 0 <= i < 16 -> i <> irq -> line_masked c i = line_masked (dv_pic s) i) ->
  (irq <> 0 -> irq <> 2 -> line_masked c irq = (if decide (reachable_line irq) then bool_decide (ys = []) else true)) -> devices_hold s' (<[Z.to_nat irq := ys]> hs).
Proof.
  intros (H1 & H2 & H3) Hi El Ex Hl Hh Hp Hother Hline. split; [by rewrite length_insert|]. split.
  - rewrite Hh. by apply Forall2_insert.
  - intros i Hr Hne. rewrite Hp. destruct (decide (i = irq)) as [->|Hd].
    + rewrite list_lookup_insert_eq by (by apply lookup_lt_Some in Ex). rewrite Hline by lia. case_decide; [|done]. apply bool_decide_ext. split; [by intros ->|by intros [= ->]].
    + rewrite list_lookup_insert_ne by lia. rewrite Hother by lia. by apply H3.
Qed.

Lemma step_holds s s' hs : device_step s s' -> devices_hold s hs -> exists hs', devices_hold s' hs'.
Proof.
  intros Hst Hh. pose proof Hh as (H1 & H2 & H3). destruct Hst as [s k m|d s st s' Hpos Hsmall E|d s st s' Hpos E|vector s c E].
  - exists hs. done.
  - apply register_inv in E as [(_ & _ & ->)|(_ & Hlt & h & l & l' & c & El & Ea & Eu & Eh & Ep)]; [by exists hs|]. change INTERRUPT_VECTOR_PIC_COUNT with 16 in Hlt.
    destruct (lookup_lt_is_Some_2 hs (Z.to_nat (data0 d))) as [xs Ex]; [lia|]. pose proof (hold_line s hs _ xs l Hh El Ex) as Hl.
    destruct (list_add_run l xs h Hl) as (l2 & E2 & Hl2); [rewrite <- (proj1 Hl); by apply Hsmall|]. rewrite Ea in E2. injection E2 as <-.
    destruct (unmask_interrupt_run (data0 d) (dv_pic s) ltac:(lia)) as (c' & Eu' & Hc). rewrite Eu in Eu'. injection Eu' as <-. exists (<[Z.to_nat (data0 d) := xs ++ [h]]> hs).
    apply (hold_change s hs (data0 d) l l' xs (xs ++ [h]) c s' Hh (conj Hpos Hlt) El Ex Hl2 Eh Ep).
    + intros i Hi Hne. rewrite Hc by lia. by rewrite decide_False by (by intros [? _]).
    + intros H00 Hne. rewrite Hc by lia. rewrite bool_decide_eq_false_2 by (by destruct xs). eapply line_decide, H3; [lia|done].
  - apply unregister_inv in E as [(_ & _ & ->)|(_ & Hlt & h & l & l' & El & Er & Eh & Ep)]; [by exists hs|]. change INTERRUPT_VECTOR_PIC_COUNT with 16 in Hlt.
    destruct (lookup_lt_is_Some_2 hs (Z.to_nat (data0 d))) as [xs Ex]; [lia|]. pose proof (hold_line s hs _ xs l Hh El Ex) as Hl.
    assert (exists ys, list_holds l' ys /\ (ys = [] -> list_count l' = 0) /\ (ys <> [] -> xs <> [])) as (ys & Hl' & Hys & Hxs).
    { destruct (list_remove_run same_handler l xs h Hl) as (l2 & E2 & Hcase). rewrite Er in E2. injection E2 as <-. destruct Hcase as [(a & ys & _ & Hperm & Hy)|[_ ->]].
      - exists ys. split; [done|]. split; [intros ->; apply Hy|]. intros _ ->. by apply Permutation_nil_r in Hperm.
      - exists xs. split; [done|]. split; [intros ->; apply Hl|done]. }
    exists (<[Z.to_nat (data0 d) := ys]> hs). destruct (Z.eqb_spec (list_count l') 0) as [Hz|Hnz].
    + assert (ys = []) as -> by (destruct Hl' as [Hl' _]; rewrite Hz in Hl'; by destruct ys). destruct (mask_interrupt_run (data0 d) (dv_pic s) ltac:(lia)) as (c' & Em & Hc). rewrite Ep in Em. injection Em as Em.
      apply (hold_change s hs (data0 d) l l' xs [] (dv_pic s') s' Hh (conj Hpos Hlt) El Ex Hl' Eh eq_refl).
      * intros i Hi Hne. rewrite Em, Hc by lia. by rewrite decide_False by (by intros [? _]).
      * intros H00 Hne. rewrite Em, Hc by lia. eapply line_decide, H3; [lia|done].
    + assert (ys <> []) as Hne by (intros Hy; by apply Hnz, Hys). apply (hold_change s hs (data0 d) l l' xs ys (dv_pic s) s' Hh (conj Hpos Hlt) El Ex Hl' Eh Ep).
      * done.
      * intros H00 H20. rewrite H3 by lia. rewrite Ex. case_decide; [|done]. rewrite !bool_decide_eq_false_2; [done|done|]. intros [= ->]. by apply Hxs in Hne.
  - exists hs. split; [done|]. split; [done|]. intros irq Hi Hne. cbn. rewrite (acknowledge_run _ _ _ E). by apply H3.
Qed.

(** C37. The lines of registered handlers are open: whatever sequence of
    registrations, removals and acknowledgements follows the start of the I/O
    manager, each of the lines 1 to 8 but the cascade (2) is open exactly when
    it has a handler. (Line 0 is the clock, which the I/O manager opens.) The
    lines 9 to 15 of the second controller stay closed for ever, because the
    test for them accepts line 8 only: their handlers never run. *)
Theorem registered_lines_are_open k m s0 s : io_manager_new (devices_boot k m) = Ret (tt, s0) -> rtc device_step s0 s ->
  exists hs, length hs = 16%nat /\ Forall2 list_holds (interrupt_handler s) hs /\
  (forall irq, 0 < irq <= 8 -> irq <> 2 -> line_masked (dv_pic s) irq = false <-> exists h xs, hs !! Z.to_nat irq = Some (h :: xs)) /\
  (forall irq, 9 <= irq < 16 -> line_masked (dv_pic s) irq = true).
Proof.
  intros E Hr. apply boot_holds in E. assert (exists hs, devices_hold s hs) as (hs & H1 & H2 & H3).
  { assert (exists hs, devices_hold s0 hs) as Hb by eauto. clear E. induction Hr as [|s0 s1 s2 Hst _ IH]; [done|]. apply IH. destruct Hb as [hs Hh]. by eapply step_holds. }
  exists hs. split; [done|]. split; [done|]. split.
  - intros irq Hi Hne. rewrite H3 by lia. rewrite decide_True by (unfold reachable_line; lia). rewrite bool_decide_eq_false. destruct (lookup_lt_is_Some_2 hs (Z.to_nat irq)) as [xs ->]; [lia|]. destruct xs as [|h xs]; split; [by intros []|by intros (? & ? & ?)|by exists h, xs|done].
  - intros irq Hi. rewrite H3 by lia. by rewrite decide_False by (unfold reachable_line; lia).
Qed.

End Registration.

(** ** Device memory *)

Lemma device_frames_lookup n : forall a i f, is_u32 a -> device_frames n a !! i = Some f -> f = u32 (a + 4096 * Z.of_nat i) /\ (i < n)%nat.
Proof.
  induction n as [|n IH]; intros a i f Ha E; [done|]. destruct i as [|i]; cbn in E.
  - injection E as <-. rewrite Z.mul_0_r, Z.add_0_r, u32_small by done. split; [done|lia].
  - apply IH in E as [-> Hi]; [|apply u32_range]. split; [|lia]. unfold u32, PAGE_SIZE. rewrite Zplus_mod_idemp_l. f_equal. lia.
Qed.

(** A large payload block has at most 128 pages. *)
Lemma large_block_pages p n s a s' : 0 < n < 2 ^ 31 -> space_allocate_large_payload_block p n s = Ret (a, s') -> a <> NULL -> 1 <= n <= 128.
Proof.
  intros Hpos E Ha. assert (Z.log2_up n < 8) as Hlt.
  { apply Z.nle_gt. intros Hge. apply Ha. unfold space_allocate_large_payload_block in E. rewrite order_bounds in E by lia. unfold mbind, M_bind, massert in E. rewrite kassert_true in E by (apply Z.ltb_lt; lia).
    unfold mlift at 1 in E. cbv beta iota in E. destruct (space_at p s) as [[sp s1]|]; [|discriminate E]. rewrite (proj2 (Z.ltb_ge (Z.log2_up n) LARGE_PAYLOAD_POOL_COUNT) Hge) in E. by injection E. }
  destruct (decide (n = 1)) as [->|]; [lia|]. pose proof (Z.log2_up_spec n ltac:(lia)) as [_ Hu]. split; [lia|]. apply (Z.le_trans _ _ _ Hu). apply (Z.pow_le_mono_r 2 _ 7); lia.
Qed.

Definition spares_kernel (f : Z) : Prop := f + PAGE_SIZE <= KERNEL_IMAGE_START \/ USER_KERNEL_BOUNDARY <= f.

Lemma frames_spare_kernel n a : is_u32 a -> 1 <= n <= 128 -> in_kernel_image a = false -> in_kernel_image (u32 (a + n * PAGE_SIZE)) = false -> Forall spares_kernel (device_frames (Z.to_nat n) a).
Proof.
  unfold in_kernel_image, KERNEL_IMAGE_START, USER_KERNEL_BOUNDARY, spares_kernel, is_u32. intros Ha Hn H1 H2. apply Forall_lookup. intros i f E. apply device_frames_lookup in E as [-> Hi]; [|done].
  apply andb_false_iff in H1, H2. rewrite Z.leb_gt, Z.ltb_ge in H1, H2. unfold KERNEL_IMAGE_START, USER_KERNEL_BOUNDARY, PAGE_SIZE, u32 in *. destruct H1 as [H1|H1].
  - rewrite (Z.mod_small (a + n * 4096)) in H2 by lia. rewrite Z.mod_small by lia. lia.
  - clear H2. destruct (Z.lt_ge_cases (a + 4096 * Z.of_nat i) 4294967296); [rewrite Z.mod_small by lia; lia|]. left.
    replace ((a + 4096 * Z.of_nat i) mod 4294967296) with (a + 4096 * Z.of_nat i - 4294967296); [lia|]. apply Z.mod_unique with 1; lia.
Qed.

Lemma page_count_range v : is_u32 v -> 0 <= PAGE_COUNT 0 v < 2 ^ 31.
Proof. intros _. unfold PAGE_COUNT, PAGE_SIZE. pose proof (u32_range (PAGE_ALIGN (u32 (0 + v)) - PAGE_BASE 0)). unfold is_u32 in *. split; [apply Z.div_pos; lia|]. apply Z.div_lt_upper_bound; lia. Qed.

(** C38. Device memory is never the memory of the kernel: when [map_memory]
    succeeds, it has allocated a block of at most 128 pages in the address space
    of the caller and committed to it, readable and writable for user mode, the
    contiguous frames from the device address on; none of these frames overlaps
    the image or the data of the kernel, whatever the request, wrap-around of
    the physical addresses included. *)
Theorem map_memory_spares_the_kernel p d s a s' : is_u32 (data0 d) -> is_u32 (data2 d) -> map_memory p d s = Ret ((STATUS_SUCCESS, a), s') ->
  exists s1, let n := PAGE_COUNT 0 (data2 d) in let frames := device_frames (Z.to_nat n) (data0 d) in
  1 <= n <= 128 /\ on_memory (space_allocate_large_payload_block p n) s = Ret (a, s1) /\
  on_memory (space_commit_frame p a frames (Z.lor MEMORY_WRITABLE MEMORY_USER)) s1 = Ret (STATUS_SUCCESS, s') /\ Forall spares_kernel frames.
Proof.
  intros H0 H2 E. pose proof (page_count_range _ H2) as Hn. unfold map_memory in E. xinv E. apply xlift_inv in E0 as [_ ->]. xinv E. apply xlift_inv in E0 as [_ ->].
  destruct ((data0 d =? INVALID_FRAME) || negb x0 || (PAGE_COUNT 0 (data2 d) =? 0)) eqn:Ez; [done|]. apply orb_false_iff in Ez as [_ Ez%Z.eqb_neq]. destruct (in_kernel_image (data0 d)) eqn:K1; [done|].
  destruct (in_kernel_image (u32 (data0 d + PAGE_COUNT 0 (data2 d) * PAGE_SIZE))) eqn:K2; [done|]. xinv E. destruct (Z.eqb_spec x1 NULL) as [->|Hnn]; [done|]. xinv E.
  destruct (Z.eqb_spec x2 STATUS_SUCCESS) as [->|Hst]; cycle 1.
  { xinv E. xinv E. injection E as Hx _ _. by destruct Hst. }
  injection E as <- <-. exists s0. cbv zeta. assert (1 <= PAGE_COUNT 0 (data2 d) <= 128) as Hp.
  { unfold on_memory in E0. destruct (space_allocate_large_payload_block p (PAGE_COUNT 0 (data2 d)) (dv_memory s)) as [[b m]|] eqn:Ea; [|done]. injection E0 as <- _. eapply large_block_pages; [|exact Ea|done]. lia. }
  split; [done|]. split; [done|]. split; [done|]. by apply frames_spare_kernel.
Qed.

(** ** Witnesses *)

Definition demo_thread (n : Z) : thread_c := mkThread 5 THREAD_STATE_READY 0 NULL NULL 0xFFFF NULL true [] 10 n None.
Definition demo_kernel (n : Z) : kernel := mkKernel {[ 1 := demo_thread n ]} ∅ [] ∅ 0 2 1 1 NULL (mkCounters 0 0 0 0 0 0 0).
Definition demo_request (irq : Z) : syscall_data := mkSyscall 32 irq DEVICE_TYPE_INTERRUPT 0 0 0 0 0.
Definition demo_device : syscall_data := mkSyscall 32 0xB8000 DEVICE_TYPE_MEMORY 4096 0 0 0 0.

Lemma demo_registers m : exists s0 s', @io_manager_new (devices_boot (demo_kernel 1) m) = Ret (tt, s0) /\
  @proxy_register_interrupt_handler ample (demo_request 1) s0 = Ret (STATUS_SUCCESS, s') /\ interrupt_handler s0 = proxy_new /\ line_masked (dv_pic s') 1 = false.
Proof. eexists _, _. split; [vm_compute; reflexivity|]. split; [vm_compute; reflexivity|]. split; reflexivity. Qed.

Lemma demo_memory_exists : exists p m a b s1 dev address s', memory_manager_new 31744 demo_blocks demo_pages = Ret (p, m) /\ demo_prepare m = Ret ((a, b), s1) /\
  dev = mkDevices (demo_kernel 1) s1 proxy_new pic_new /\ map_memory a demo_device dev = Ret ((STATUS_SUCCESS, address), s').
Proof.
  assert (match memory_manager_new 31744 demo_blocks demo_pages with Trap _ => false | Ret (_, m) =>
    match demo_prepare m with Trap _ => false | Ret ((a, _), s1) =>
    match map_memory a demo_device (mkDevices (demo_kernel 1) s1 proxy_new pic_new) with Ret ((st, _), _) => st =? STATUS_SUCCESS | Trap _ => false end end end = true) as Hc by (vm_compute; reflexivity).
  destruct (memory_manager_new 31744 demo_blocks demo_pages) as [[p m]|]; [|discriminate Hc]. destruct (demo_prepare m) as [[[a b] s1]|] eqn:E1; [|discriminate Hc].
  destruct (map_memory a demo_device _) as [[[st address] s']|] eqn:E2; [|discriminate Hc]. apply Z.eqb_eq in Hc. subst st. eexists p, m, a, b, s1, _, address, s'. split; [reflexivity|]. split; [exact E1|]. split; [reflexivity|exact E2].
Qed.

Lemma map_memory_spares_the_kernel_witness : exists p s a s', map_memory p demo_device s = Ret ((STATUS_SUCCESS, a), s') /\ Forall spares_kernel (device_frames (Z.to_nat (PAGE_COUNT 0 4096)) 0xB8000).
Proof.
  destruct demo_memory_exists as (_ & _ & a & _ & _ & dev & address & s' & _ & _ & _ & E). exists a, dev, address, s'. split; [exact E|].
  destruct (map_memory_spares_the_kernel a demo_device dev address s') as (s1 & _ & _ & _ & Hf); [unfold is_u32; cbn; lia|unfold is_u32; cbn; lia|exact E|]. exact Hf.
Defined.

Lemma registered_lines_are_open_witness : exists m s0 s, io_manager_new (devices_boot (demo_kernel 1) m) = Ret (tt, s0) /\
  rtc (@device_step ample (@entries ample 3)) s0 s /\ line_masked (dv_pic s) 1 = false /\ line_masked (dv_pic s) 12 = true.
Proof.
  destruct demo_memory_exists as (_ & m & _). destruct (demo_registers m) as (s0 & s' & E0 & E & Hh & H1). exists m, s0, s'.
  assert (rtc (@device_step ample (@entries ample 3)) s0 s') as Hr.
  { apply rtc_once. eapply (@device_register ample _ (demo_request 1)); [done| |exact E]. rewrite Hh. intros l [= <-]. done. }
  split; [exact E0|]. split; [exact Hr|]. split; [exact H1|].
  destruct (@registered_lines_are_open ample (@entries ample 3) (demo_kernel 1) m s0 s' E0 Hr) as (_ & _ & _ & _ & H2). apply H2. lia.
Defined.

Definition other_handler : list_m (Z * Z) := match list_add true (7, 9) list_new with Ret l => l | Trap _ => list_new end.

