(* ===== verification/KHal.v ===== *)
(** * The dispatch of interrupts: [x86_hal.cpp], [idt.asm] and [interrupt.cpp]

    An interrupt enters through a gate of the descriptor table; the dispatcher
    looks its handler up, runs it, and acknowledges a hardware interrupt at the
    controller. The handlers of the subsystems act on the parts of [devices].
    A system call passes the address [data] of a block in the memory of the
    thread; [block] is what the block holds, and a run returns what it holds
    afterwards. The address space and the copy page of the current thread are
    [p] and [copy_page]. The switch of the processor to another thread is part
    of the handlers of the yield and of the clock ([KThreads]). A thread that
    blocks in a system call has the block filled in later, by [resume_send] or
    the next pass of the receive loop. *)

From S2P Require Import Prelude CMem World Libdx Loader KBase KFrames KContainers KPorts KPaging KThreads KSpace KDevices.

Definition INTERRUPT_VECTOR_LAST : Z := 256.
Definition INTERRUPT_VECTOR_PIC_IRQ0 : Z := 32.
Definition INTERRUPT_VECTOR_YIELD : Z := 64.
Definition INTERRUPT_VECTOR_DOUBLE_FAULT : Z := 8.

(** ** interrupt.cpp *)

Definition SYSCALL_DATA_SIZE : Z := 32.

Definition reset_block (d : syscall_data) : syscall_data :=
  mkSyscall SYSCALL_DATA_SIZE (data0 d) (data1 d) (data2 d) (data3 d) (data4 d) (data5 d) STATUS_INVALID_DATA.

(** The block when it is valid, and what the memory at its address holds. *)
Definition validate_syscall (data : Z) (block : syscall_data) : res (option syscall_data * syscall_data) :=
  kassert (is_user_address data);;
  let d := reset_block block in
  if size block <? SYSCALL_DATA_SIZE then Ret (None, d) else Ret (Some d, d).

(** ** x86_hal.cpp *)

Inductive subsystem := Hal | MemoryManager | IoManager | DeviceProxy | ThreadManager | KernelMonitor.

(** The table [interrupt_handler]. *)
Definition interrupt_handler_table : list (option subsystem) :=
  let hal := Some Hal in let mm := Some MemoryManager in let io := Some IoManager in
  let proxy := Some DeviceProxy in let tm := Some ThreadManager in
  [None; None; hal; None; None; mm; hal; hal; hal; hal; hal; mm; mm; mm; mm; None; hal; None; hal] ++
  replicate 13 None ++                      (* 19 to 31 *)
  [io] ++ replicate 15 proxy ++             (* PIC_IRQ0 to PIC_IRQ15 *)
  replicate 16 None ++ [io] ++              (* 48 to 63, SOFT_YIELD *)
  replicate 15 None ++ replicate 4 io ++    (* 65 to 79, messages *)
  replicate 6 None ++ replicate 4 mm ++     (* 84 to 89, address spaces *)
  replicate 6 None ++ [tm; tm] ++           (* 94 to 99, threads *)
  replicate 8 None ++ [proxy; proxy] ++     (* 102 to 109, devices *)
  replicate 8 None ++ [Some KernelMonitor]. (* 112 to 119, READ_KERNEL_STATS *)

(** [handle_interrupt] of the hardware layer: it halts the system or panics. *)
Definition hal_handle_interrupt {A} (vector : Z) : X A :=
  if vector =? INTERRUPT_VECTOR_DOUBLE_FAULT then xlift (Trap KernelPanic)
  else if bool_decide (vector ∈ [2; 6; 7; 9; 10; 16; 18]) then xlift (Trap KernelPanic)
  else xlift (Trap AssertFailed).

(** What the monitor stores for the thread. *)
Abbreviation stats := (kernel_stats * (Z * (Z * Z * Z) * Z * Z))%type.

Section Dispatch.
Context `{environment} (e : reentry) (send_message : Z -> X (Z * Z)) (rand : devices -> Z).
Context (p copy_page random random_id : Z).

(** A system call: the block is validated, then handled. *)
Definition with_syscall {A} (data : Z) (block : syscall_data) (invalid : syscall_data -> A) (call : syscall_data -> X A) : X A :=
  '(syscall, block) ← xlift (validate_syscall data block);
  match syscall with
  | Some d => call d
  | None => mret (invalid block)
  end.

(** [io_manager_c::handle_interrupt]. *)
Definition io_handle_interrupt (vector data : Z) (block : syscall_data) : X syscall_data :=
  if vector =? INTERRUPT_VECTOR_PIC_IRQ0 then on_kernel (handle_clock random);; mret block
  else if vector =? INTERRUPT_VECTOR_YIELD then on_kernel (handle_yield random);; mret block
  else if vector =? SYSTEM_CALL_VECTOR_SEND_MESSAGE then
    with_syscall data block id (fun d => on_kernel (syscall_send_message e d))
  else if vector =? SYSTEM_CALL_VECTOR_SEND_AND_RECEIVE_MESSAGE then
    with_syscall data block id (fun d => r ← on_kernel (syscall_send_and_receive_message e random d); mret (default d r))
  else if vector =? SYSTEM_CALL_VECTOR_RECEIVE_MESSAGE then
    with_syscall data block id (fun d => r ← on_kernel (syscall_receive_message e random d); mret (default d r))
  else if vector =? SYSTEM_CALL_VECTOR_DELETE_MESSAGE then
    with_syscall data block id (fun d => on_memory (syscall_delete_message p d))
  else xassert false;; mret block.

(** [thread_manager_c::handle_interrupt]. *)
Definition thread_handle_interrupt (vector data : Z) (block : syscall_data) : X syscall_data :=
  '(syscall, block) ← xlift (validate_syscall data block);
  if vector =? SYSTEM_CALL_VECTOR_CREATE_THREAD then
    match syscall with
    | Some d => on_kernel (syscall_create_thread e d)
    | None => mret block
    end
  else if vector =? SYSTEM_CALL_VECTOR_DELETE_THREAD then
    match syscall with
    | Some d =>
        r ← on_kernel (send_deletion_message e random random_id (data0 d));
        mret (match r with Some status => with_status d status | None => d end)
    | None => mret block
    end
  else xassert false;; mret block.

(** The capabilities of the current thread. *)
Definition current_capabilities : X Z :=
  current ← on_kernel (gets current_thread);
  t ← on_kernel (thread_at current);
  mret (capability_mask t).

(** The call of a handler; the vectors of the memory manager and of the proxy
    that are system calls have their block validated. *)
Definition handle (s : subsystem) (vector data faulting_address : Z) (block : syscall_data) : X (syscall_data * option stats) :=
  match s with
  | Hal => hal_handle_interrupt vector
  | IoManager => d ← io_handle_interrupt vector data block; mret (d, None)
  | ThreadManager => d ← thread_handle_interrupt vector data block; mret (d, None)
  | MemoryManager =>
      let run syscall := capabilities ← current_capabilities;
        on_memory (memory_handle_interrupt p copy_page capabilities vector faulting_address syscall) in
      if (vector =? SYSTEM_CALL_VECTOR_CREATE_ADDRESS_SPACE) || (vector =? SYSTEM_CALL_VECTOR_EXPAND_ADDRESS_SPACE) then
        with_syscall data block (fun d => (d, None)) (fun d => r ← run (Some d); mret (default d r, None))
      else run None;; mret (block, None)
  | DeviceProxy =>
      let run := proxy_handle_interrupt e send_message rand p vector in
      if (vector =? SYSTEM_CALL_VECTOR_MAP_DEVICE) || (vector =? SYSTEM_CALL_VECTOR_UNMAP_DEVICE) then
        with_syscall data block (fun d => (d, None)) (fun d => r ← run (Some d); mret (default d r, None))
      else run None;; mret (block, None)
  | KernelMonitor =>
      with_syscall data block (fun d => (d, None))
        (fun d => '(r, st) ← monitor_handle_interrupt vector (Some d); mret (default d r, st))
  end.

Definition dispatch_interrupt (vector data faulting_address : Z) (block : syscall_data) : X (syscall_data * option stats) :=
  xassert (vector <? INTERRUPT_VECTOR_LAST);;
  xassert (vector <? 4 * Z.of_nat (length interrupt_handler_table));;
  handler ← xlift (match interrupt_handler_table !! Z.to_nat vector with Some h => Ret h | None => Trap (BadIndex vector) end);
  match handler with
  | None => xlift (Trap AssertFailed)
  | Some s =>
      r ← handle s vector data faulting_address block;
      (if is_pic_interrupt vector then on_pic (acknowledge_interrupt vector) else mret tt);;
      mret r
  end.

End Dispatch.

(** ** idt.asm *)

(** The gates that [load_idt] installs, in order: the vector, and whether user
    mode may raise it with the instruction [int]. *)
Definition gates : list (Z * bool) :=
  ((fun v => (v, v =? 3)) <$> [0; 1; 2; 3; 4; 5; 6; 7; 8; 9; 10; 11; 12; 13; 14; 16; 17; 18]) ++
  ((fun v => (v, false)) <$> seqZ INTERRUPT_VECTOR_PIC_IRQ0 16) ++ [(INTERRUPT_VECTOR_YIELD, false)] ++
  ((fun v => (v, true)) <$> [80; 81; 82; 83; 90; 91; 92; 93; 100; 101; 110; 111; 120]).
