(* ===== verification/KHalThms.v ===== *)
(** * What the dispatch of interrupts guarantees *)

From S2P Require Import Prelude CMem World Libdx Loader KBase KFrames KContainers KPorts KPaging KThreads KThreadThms KSpace KDevices KDevicesThms KHal.

Section Gates.
Context `{environment} (e : reentry) (send_message : Z -> X (Z * Z)) (rand : devices -> Z).
Context (p copy_page random random_id : Z).
Abbreviation dispatch := (dispatch_interrupt e send_message rand p copy_page random random_id).

(** The vectors whose interrupt always stops the kernel. *)
Definition fatal_vectors : list Z := [0; 1; 2; 3; 4; 5; 6; 7; 8; 9; 10; 11; 12; 13; 16; 17; 18; 90; 92].

Definition stops (v : Z) : Prop := forall data fault block s, exists t, dispatch v data fault block s = Trap t.

Lemma xrun_bind {A B} (c : X A) (k : A -> X B) s a s' : c s = Ret (a, s') -> (c ≫= k) s = k a s'.
Proof. intros E. unfold mbind, X_bind. by rewrite E. Qed.

Lemma xtrap_bind {A B} (c : X A) (k : A -> X B) s : (exists t, c s = Trap t) -> exists t, (c ≫= k) s = Trap t.
Proof. intros [t E]. exists t. unfold mbind, X_bind. by rewrite E. Qed.

(** The dispatcher on a vector with a handler. *)
Lemma dispatch_handler v data fault block s h : interrupt_handler_table !! Z.to_nat v = Some (Some h) -> 0 <= v ->
  dispatch v data fault block s
    = (r ← handle e send_message rand p copy_page random random_id h v data fault block;
       (if is_pic_interrupt v then on_pic (acknowledge_interrupt v) else mret tt);; mret r) s.
Proof.
  intros Hh Hv. assert (Hlt : v < 121) by (apply lookup_lt_Some in Hh; change (length interrupt_handler_table) with 121%nat in Hh; lia).
  unfold dispatch_interrupt. change (length interrupt_handler_table) with 121%nat.
  erewrite xrun_bind by (unfold xassert, kassert, INTERRUPT_VECTOR_LAST; rewrite (proj2 (Z.ltb_lt v 256)) by lia; reflexivity).
  erewrite xrun_bind by (unfold xassert, kassert; rewrite (proj2 (Z.ltb_lt v _)) by lia; reflexivity).
  rewrite Hh. by erewrite xrun_bind by reflexivity.
Qed.

Lemma dispatch_no_handler v data fault block s : interrupt_handler_table !! Z.to_nat v = Some None -> 0 <= v ->
  dispatch v data fault block s = Trap AssertFailed.
Proof.
  intros Hh Hv. assert (Hlt : v < 121) by (apply lookup_lt_Some in Hh; change (length interrupt_handler_table) with 121%nat in Hh; lia).
  unfold dispatch_interrupt. change (length interrupt_handler_table) with 121%nat.
  erewrite xrun_bind by (unfold xassert, kassert, INTERRUPT_VECTOR_LAST; rewrite (proj2 (Z.ltb_lt v 256)) by lia; reflexivity).
  erewrite xrun_bind by (unfold xassert, kassert; rewrite (proj2 (Z.ltb_lt v _)) by lia; reflexivity).
  rewrite Hh. by erewrite xrun_bind by reflexivity.
Qed.

(** The handler of the memory manager has no case for other vectors. *)
Lemma memory_handler_refuses v capabilities fault syscall m : v <> 14 -> v <> 91 -> v <> 93 ->
  memory_handle_interrupt p copy_page capabilities v fault syscall m = Trap AssertFailed.
Proof.
  intros H1 H2 H3. unfold memory_handle_interrupt.
  by rewrite (proj2 (Z.eqb_neq v INTERRUPT_VECTOR_PAGE_FAULT) H1), (proj2 (Z.eqb_neq v SYSTEM_CALL_VECTOR_CREATE_ADDRESS_SPACE) H2),
    (proj2 (Z.eqb_neq v SYSTEM_CALL_VECTOR_EXPAND_ADDRESS_SPACE) H3).
Qed.

Lemma memory_vector_stops v : interrupt_handler_table !! Z.to_nat v = Some (Some MemoryManager) -> 0 <= v ->
  v <> 14 -> v <> 91 -> v <> 93 -> stops v.
Proof.
  intros Hh Hv H1 H2 H3 data fault block s. rewrite (dispatch_handler _ _ _ _ _ _ Hh Hv). apply xtrap_bind.
  cbn [handle]. rewrite (proj2 (Z.eqb_neq v SYSTEM_CALL_VECTOR_CREATE_ADDRESS_SPACE) H2),
    (proj2 (Z.eqb_neq v SYSTEM_CALL_VECTOR_EXPAND_ADDRESS_SPACE) H3). cbn [orb]. apply xtrap_bind.
  unfold mbind at 1, X_bind. destruct (current_capabilities s) as [[c s']|t]; [|by exists t]. exists AssertFailed.
  unfold on_memory. by rewrite memory_handler_refuses.
Qed.

Lemma hal_vector_stops v : interrupt_handler_table !! Z.to_nat v = Some (Some Hal) -> 0 <= v -> stops v.
Proof.
  intros Hh Hv data fault block s. rewrite (dispatch_handler _ _ _ _ _ _ Hh Hv). apply xtrap_bind. cbn [handle].
  unfold hal_handle_interrupt. destruct (v =? _); [|case_bool_decide]; unfold xlift; eauto.
Qed.

Lemma fatal_vectors_stop v : v ∈ fatal_vectors -> stops v.
Proof.
  unfold fatal_vectors. intros Hv. repeat (apply elem_of_cons in Hv as [->|Hv]); [..|by apply elem_of_nil in Hv];
    first [apply hal_vector_stops; [reflexivity|lia] | apply memory_vector_stops; [reflexivity|lia..]
          | intros data fault block s; exists AssertFailed; apply dispatch_no_handler; [reflexivity|lia]].
Qed.

(** The vectors of the system calls that are handled. *)
Definition call_vectors : list Z := [80; 81; 82; 83; 91; 93; 100; 101; 110; 111; 120].

Lemma short_block_refused v data fault block s : v ∈ call_vectors -> is_user_address data = true -> World.size block < 32 ->
  dispatch v data fault block s = Ret ((reset_block block, None), s).
Proof.
  intros Hv Hd Hb.
  assert (Hval : validate_syscall data block = Ret (None, reset_block block)).
  { unfold validate_syscall, SYSCALL_DATA_SIZE. rewrite Hd. by rewrite (proj2 (Z.ltb_lt _ 32)) by lia. }
  unfold call_vectors in Hv. repeat (apply elem_of_cons in Hv as [->|Hv]); [..|by apply elem_of_nil in Hv];
    (erewrite dispatch_handler; [|reflexivity|lia]);
    cbn [handle]; unfold io_handle_interrupt, thread_handle_interrupt, with_syscall; rewrite Hval; reflexivity.
Qed.

Lemma kernel_block_stops v data fault block s : v ∈ call_vectors -> is_user_address data = false ->
  dispatch v data fault block s = Trap AssertFailed.
Proof.
  intros Hv Hd.
  assert (Hval : validate_syscall data block = Trap AssertFailed) by (unfold validate_syscall; by rewrite Hd).
  unfold call_vectors in Hv. repeat (apply elem_of_cons in Hv as [->|Hv]); [..|by apply elem_of_nil in Hv];
    (erewrite dispatch_handler; [|reflexivity|lia]);
    cbn [handle]; unfold io_handle_interrupt, thread_handle_interrupt, with_syscall; rewrite Hval; reflexivity.
Qed.

(** C40. The gates of the descriptor table and the dispatcher together. An
    exception of the processor other than a page fault stops the kernel in
    every state, also when a user thread causes it; so do the calls to contract
    and to delete an address space, for which no handler has a case. The gates
    that user mode can raise and that always stop the kernel are 3, 90 and 92.
    Every other system call refuses a block that is too short: it writes the
    size and the status into the block and leaves the kernel as it was; a block
    at a kernel address stops the kernel. *)
Theorem bad_system_calls v user : (v, user) ∈ gates ->
  (v ∈ fatal_vectors -> stops v) /\
  (user = true -> v ∈ fatal_vectors <-> v ∈ [3; 90; 92]) /\
  (user = true -> v ∉ fatal_vectors -> forall data fault block s,
     (is_user_address data = true -> World.size block < 32 ->
      dispatch v data fault block s = Ret ((reset_block block, None), s)) /\
     (is_user_address data = false -> dispatch v data fault block s = Trap AssertFailed)).
Proof.
  intros Hg. split; [apply fatal_vectors_stop|].
  assert (Hu : user = true -> v ∈ 3 :: 90 :: 92 :: call_vectors).
  { intros ->.
    assert (H0 : Forall (fun g : Z * bool => g.2 = true -> g.1 ∈ 3 :: 90 :: 92 :: call_vectors) gates) by by_eval.
    rewrite Forall_forall in H0. by apply (H0 _ Hg). }
  split.
  - intros Ht. specialize (Hu Ht). split; [|by intros Hv; repeat (apply elem_of_cons in Hv as [->|Hv]); [by_eval..|by apply elem_of_nil in Hv]].
    unfold call_vectors in Hu. intros Hf. repeat (apply elem_of_cons in Hu as [->|Hu]); try by_eval; try by apply elem_of_nil in Hu.
    all: exfalso; revert Hf; by_eval.
  - intros Ht Hn data fault block s. specialize (Hu Ht).
    assert (v ∈ call_vectors) by (repeat (apply elem_of_cons in Hu as [->|Hu]; [exfalso; apply Hn; by_eval|]); done).
    split; [by apply short_block_refused|by apply kernel_block_stops].
Qed.

End Gates.

(** A send with a short block, and the breakpoint, in the booted kernel. *)
Lemma bad_system_calls_witness : exists m,
  let s := devices_boot (demo_kernel 1) m in
  let dispatch := @dispatch_interrupt ample (@entries ample 3) (fun _ => xlift (Trap BadArgument)) (fun _ => 0) 0 0 0 0 in
  dispatch 82 0x40000000 0 (mkSyscall 8 7 0 0 0 0 0 0) s
    = Ret ((mkSyscall 32 7 0 0 0 0 0 STATUS_INVALID_DATA, None), s) /\
  exists t, dispatch 3 0 0 (mkSyscall 32 0 0 0 0 0 0 0) s = Trap t.
Proof.
  destruct demo_memory_exists as (_ & m & _). exists m. cbv zeta. split.
  - refine (proj1 (proj2 (proj2 (@bad_system_calls ample _ _ _ 0 0 0 0 82 true _)) eq_refl _ _ _ _ _) _ _);
      [by_eval|by_eval|reflexivity|reflexivity].
  - exact (proj1 (@bad_system_calls ample _ _ _ 0 0 0 0 3 true ltac:(by_eval)) ltac:(by_eval) _ _ _ _).
Defined.
